(* ===== verification/_CoqProject ===== *)
-Q . S2P
Prelude.v
PyText.v
PyValue.v
Txn.v
PyFloat.v
Json.v
JsonLaws.v
Uuid.v
PublicData.v
LayeredContent.v
Cuts.v
CompilerIR.v
CompilerValidate.v
CompilerAdopt.v
CompilerConstruct.v
WorkflowContracts.v
Dispatch.v
Strategies.v
Routing.v
LsragDefinition.v
KindWorkflows.v
Shipped.v
Outbox.v
ProcessRows.v
ExecutionRows.v
Engine.v
Materialize.v
Outcome.v
Scheduler.v
EngineLaws.v
EngineSamples.v
EngineRuns.v
Claims.v
Termination.v
Capacity.v
Intake.v
RouteContext.v
FanIn.v
Gates.v
GateDecisions.v
IntakeServices.v
IntakeSamples.v
Repair.v
Tower.v
FanInLaws.v
GateLaws.v
RepairLaws.v
ObjectStore.v
Objects.v
ObjectGc.v
ObjectRuns.v
ObjectLaws.v
UploadLaws.v
Staging.v
RetrievalTables.v
RetrievalAccess.v
Retrieval.v
RetrievalPack.v
RetrievalLaws.v
HydrationLaws.v
Index.v
VectorContracts.v
Lifecycle.v
Retirement.v
Publication.v
IndexLaws.v
PublicationLaws.v
Targets.v
IndexRuns.v
IndexSamples.v
Observations.v
ObservationLaws.v
ObservationSamples.v
Semantics.v
SemanticsLaws.v
Acceptance.v
AcceptanceLaws.v
AcceptanceSamples.v
