(* ===== verification/Prelude.v ===== *)
(** * MKB verification library

    MKB is a knowledge base.  Source material is acquired, decoded and cleaned, a model
    proposes a layered structure of it, and the _LS-RAG compiler_ turns the proposal into
    stored artifacts that are embedded and published for retrieval.  The work is carried out
    by a _workflow engine_ over SQL tables: an execution follows the steps of an accepted
    workflow definition, each step is a process that workers claim under a lease, and every
    outcome decides the next routes in one transaction.  Bytes live in a content-addressed
    store behind a catalogue of holds.  Published vectors are what _retrieval_ searches, fences,
    hydrates and packs.  Between acquisition and the index stands the _intake_: requests reserve
    observations, and accepted sources become revisions of items.  This library models these
    parts and where they meet.

    ** How the files correspond to the code (paths are under [src/])

    Foundations.
    - [Prelude.v]: exceptions and the error monad, lemmas shared by all components;
    - [PyText.v], [PyValue.v]: what the sources use of Python's [str], [bytes], [dict] and
      JSON, and [contracts/common/ids.py].  The class [Host] names the primitives that come
      with the Python installation (SHA-256, NFC, Unicode decimals, [repr] of floats);
      [HostLaws] states the documented facts about them that some theorems use;
    - [Txn.v]: the state and error monad of all transactions, its loops and row selections;
    - [PyFloat.v], [Json.v], [JsonLaws.v], [Uuid.v]: binary64 arithmetic, [json.loads] with the
      proof that it reads back canonical JSON, and the UUIDs of the boundary.  Decimal fractions
      are read by the class [FloatText], a parameter.

    The LS-RAG compiler, pure functions from text and model output to artifacts.
    - [LayeredContent.v], [Cuts.v]: the two contracts of model output
      ([contracts/lsrag/]) and the assembly of quoted cuts ([runtime/intake/generation_assemble.py]);
    - [CompilerIR.v], [CompilerValidate.v], [CompilerAdopt.v], [CompilerConstruct.v]: the kernel
      [services/lsrag_compiler/] with its leaf services.

    The workflow contracts, pure functions over declarations.
    - [WorkflowContracts.v]: [contracts/workflow/models.py], the graph and its validators;
    - [Dispatch.v], [Strategies.v], [Routing.v]: the pool policy, the registries of clean
      strategies and the actual binding, the route decision and the selected outputs;
    - [LsragDefinition.v], [KindWorkflows.v]: the shipped graphs of [workflows/] with the
      revisions that the code derives from them; [Shipped.v]: theorems about them.

    The workflow engine, transactions over tables.
    - [Outbox.v]: the transactional outbox;
    - [ProcessRows.v], [ExecutionRows.v]: every SQL statement that writes a row of
      [mkb_processes], [mkb_executions] or [mkb_tasks], as a guarded function of the row
      ([None] where the statement's [WHERE] clause fails), the relation of runs of
      statements, and the laws of rows that every run obeys;
    - [Engine.v], [Materialize.v], [Outcome.v], [Scheduler.v]: the transactions of
      [runtime/workflow/runtime_core.py], [runtime_materialize.py], [runtime_outcome.py] and
      [services/operator_control.py] over the record [db] of the three tables, the outbox and
      the tables of other owners;
    - [EngineLaws.v]: the specification [legal] (tables evolve by guarded statements alone)
      and the proof that every transaction meets it;
    - [EngineSamples.v], [EngineRuns.v], [Claims.v], [Termination.v], [Capacity.v]: a concrete
      engine for the witnesses, runs of transactions, and the theorems about them.

    The owners of the other tables, which discharge the engine's class [Services].
    - [Intake.v]: the columns of the intake, gate and registry tables that decisions read, as
      the record [world], with the shared queries;
    - [RouteContext.v]: the typed facts behind route guards ([_typed_route_context_tx],
      [runtime/intake/representation_history.py], [services/prompt_profiles.py]);
    - [FanIn.v]: scatter collections ([runtime/workflow/runtime_scatter.py]): the required
      set, the release of children, the collect-all convergence; [FanInLaws.v]: its laws and
      the specification [fan_in] that it refines;
    - [Gates.v], [GateDecisions.v]: human-review gates, from evidence over the public command
      ([runtime/task/task_projections.py]) to the consumer of the decision
      ([runtime/workflow/runtime_gates.py]); [GateLaws.v]: their laws;
      [PublicData.v]: the safety check of public payloads ([contracts/common/models.py]);
    - [IntakeServices.v]: the instance [tower n] of [Services]; [IntakeSamples.v]: a concrete
      database; [Tower.v]: enough levels of the tower suffice;
    - [Repair.v], [RepairLaws.v]: the repair sweep ([runtime/workflow/runtime_repair.py]).

    The object store ([storage/], [services/object_upload.py], [object_gc.py], [artifacts.py]).
    - [ObjectStore.v]: the live objects and the quarantine; [Objects.v]: catalogue, upload
      sessions and holds; [ObjectGc.v]: the collector; [Staging.v]: the staged outcomes;
    - [ObjectRuns.v]: all actors interleaved; [ObjectLaws.v], [UploadLaws.v]: their theorems.

    The index and retrieval, transactions over one set of tables.
    - [RetrievalTables.v]: the rows that retrieval reads and the two publication fences of
      [services/retrieval/retrieval_rank.py]; [Retrieval.v], [RetrievalPack.v]: requests,
      ranking, results and packs; [RetrievalAccess.v]: eligibility and hydration
      ([persistence/retrieval_access.py]); [RetrievalLaws.v], [HydrationLaws.v]: their theorems;
    - [Index.v]: the writers' view of the same rows, and what vectorization commits
      ([runtime/intake/vectorize.py], [vector_publish_commit.py], [generation_artifacts.py]);
      [VectorContracts.v]: the contracts that it hands over; [Publication.v]: the checks and
      the transaction of [_publish]; [Lifecycle.v]: [services/intake_lifecycle/];
      [Retirement.v], [Targets.v]: [services/index_retirement.py] and [vector_purge.py];
    - [IndexLaws.v], [PublicationLaws.v], [IndexRuns.v], [IndexSamples.v]: what each writer does
      to the hits of a search, the invariant of all runs, and one concrete run.
      [index_view] is the bridge: it forgets of the writers' tables what retrieval does not read.

    The intake, from a request to a revision.
    - [Observations.v]: the admission of a request to ingest a source, the attempts of an
      observation and their marks ([services/observation_reservations.py] with its part of
      [runtime/task/task_create.py]); [ObservationLaws.v]: their laws;
    - [Semantics.v]: filter and context metadata, the six tuples and the ten semantic values of
      a revision ([contracts/intake/semantics.py]), their fingerprint, and the merge of a
      metadata update; [SemanticsLaws.v]: what acquisition derives, acceptance accepts;
    - [Acceptance.v]: the transactions of [runtime/intake/acceptance_snapshot.py] and
      [acceptance_lifecycle.py] over the observations, the object catalogue and the tables of
      revisions: snapshots, full retries, rebuilds and metadata updates; [AcceptanceLaws.v]:
      the history of an item and the epochs that fence it;
    - [ObservationSamples.v], [AcceptanceSamples.v]: one run from a failed request to a refused
      metadata update.

    ** How state and operations are modelled

    A row is a record, a table a finite map from its identifier.  A transaction is a function
    [db -> result (A * db)]: an exception leaves the old database, which is what the ports of
    [persistence/] promise of a transaction.  Transactions are serial, so an interleaving of
    workers is a sequence of transactions ([EngineRuns.v], [ObjectRuns.v], [IndexRuns.v],
    [ObservationLaws.v], [AcceptanceLaws.v]); where the code spans several transactions, as
    a search or a collection does, the steps are apart and others may come between.  The instants that one transaction
    reads from the clock are one [now], in microseconds, and the random delay of a retry is an
    argument.  [engine_config] holds the settings that decisions read.  The class [Services]
    lists what the engine asks of the owners of other tables; [ServicesLaws] states that they
    write execution and process rows only by the same statements.

    ** What the theorems show

    - Refinement and safety of the engine: every reachable database is the result of legal row
      statements; a worker that lost its lease can write nothing; two claims never hand out the
      same fencing generation of a process; accepted outcomes are replayed without effect;
      pool caps hold in every run without an operator restart (and a restart can break them).
    - Row laws: the work still allowed of a process decreases with every statement, final rows
      are final, executions and tasks follow their life cycles.
    - The contracts: the graph validator accepts exactly the acyclic graphs whose steps are
      reachable and can finish, and refuses every other with its own error; the route decision
      takes the routes it should, whatever the order of declaration; in the shipped graphs the
      routes to success lead by way of a succeeded publication check or join.
    - The outbox: each intent is delivered under one lease at a time, settles within its
      budget, and is requeued at most once.
    - Collections and reviews: a scatter root succeeds only when every accepted member has one
      published child; a gate freezes the revision at which its execution waits, takes one
      decision on the target that was reviewed, and moves no other execution; an accepted
      public payload is safe at every depth.
    - The repair sweep issues only legal statements and a pass that commits has rebuilt the
      missing wake-ups, but a
      root that succeeded without a proof makes every pass abort.
    - The object store: bytes under a hold that was taken while they were in place survive every
      interleaving with the collector; whenever the collector deletes an object between the
      promotion of its bytes and the hold, the hold is accepted and the bytes are gone (a finding).
      A repeated upload key is answered from the session that it made and without a write,
      whatever happened to the store and to the team since; sessions follow their life cycle;
      staged outcomes commit their bytes.
    - Retrieval: every result was publishable when it was scanned and again when it left, results
      are ranked and unique, packs keep to their budgets; what construct writes within the
      limits of hydration, hydration reads, and what it returns is proved by its digests.
    - The index: vectorization leaves exactly its records, as planned and not published, at a
      generation of their own; a
      publication of it is served whole and moves no hit of another item; retirement is
      invisible to every search; purges take what their receipts say; lifecycle commands take
      an item out of retrieval, once; generations and row revisions never go back.
    - The intake: one attempt of an observation at a time, and a repeated request is answered
      with the task that owns it; an accepted observation is final, a failed one waits for the
      retry of exactly its generation.  Revisions are numbered without a gap, never change and
      have pairwise different fingerprints; one epoch of an item admits one change, whoever
      asks for it; what an acceptance records agrees with the revision that it makes.  A merge
      that changes nothing is recognised; one that restores the semantics of an earlier
      revision is refused for ever (a finding).
    - The compiler: adopted anchors quote the clean text in order and do not overlap, validated
      structures partition the bytes of the text, payloads parse back, stored bytes re-prove.

    ** Fuel

    [visit], [cover] and [can_reach_loop] take one step per node or edge and run out never (the
    equivalence theorems cover them).  [PARENT_CHAIN] bounds the climb of a cancellation and
    [route_fuel] the recursion of routes; [Termination.v] proves that more fuel changes neither.
    The 64 rounds of [claim_next] are the code's own bound.  Fan-in, termination and
    cancellation call each other; [tower n] unfolds that recursion [n] times, and [Tower.v]
    proves that any [n] above the number of open executions gives the same results.  [depth]
    is the nesting that the interpreter allows [json.loads]; the round trip holds for every
    document within it.

    ** Not modelled

    Error messages and details, log and audit events, metrics and the log of model calls (no
    decision reads them back); the HTTP API, settings and DDL; drivers and subprocess clients of
    models, OCR and browsers; the intake handlers that acquire, clean and construct, which move
    bytes between storage, model services and tables (their pure kernels, the acceptance of
    revisions and the writes to the index are modelled); the acceptance of collections; the
    JSON serializers of workflow definitions; promotion journals and staging files of the
    object store, file modes and [fsync].  There is one collector of objects at a time.
    Parameters of the services are [uuid7], the text form of an instant, [json_extract] of the
    database, the committer of outcomes and the pending evidence that it leaves (class
    [Externals]); retrieval has its ports (class [Ports]). *)

From stdpp Require Export base tactics list strings gmap sorting.
From Stdlib Require Export ZArith Lia.

(** ** Errors and the error monad

    Python exceptions that the modelled code raises or catches.  A domain error
    [MkbError(code, message, status)] keeps its stable code and its HTTP status;
    the human readable message and the optional details are dropped. *)

Inductive exn :=
| MkbError (code : string) (status : Z)
| ValueError
| TypeError
| KeyError
| IndexError
| AttributeError
| OverflowError
| AssertionError
| UnicodeEncodeError
| UnicodeDecodeError
| IntegrityError
| RecursionError
| RuntimeError
| ZeroDivisionError.

#[export] Instance exn_eq_dec : EqDecision exn.
Proof. solve_decision. Defined.

Inductive result (A : Type) :=
| Ok (a : A)
| Err (e : exn).
Arguments Ok {A} a.
Arguments Err {A} e.

#[export] Instance result_eq_dec {A} `{EqDecision A} : EqDecision (result A).
Proof. solve_decision. Defined.

Definition rbind {A B} (m : result A) (f : A -> result B) : result B :=
  match m with
  | Ok a => f a
  | Err e => Err e
  end.

Declare Scope mkb_scope.
Delimit Scope mkb_scope with mkb.
Open Scope mkb_scope.

Notation "'let*' x := m 'in' k" := (rbind m (fun x => k))
  (at level 10, x name, m at level 100, k at level 200) : mkb_scope.
Notation "'let*' ' p := m 'in' k" := (rbind m (fun x => match x with p => k end))
  (at level 10, p strict pattern, m at level 100, k at level 200) : mkb_scope.

(** [ensure b e] is the guard [if not b: raise e]. *)
Definition ensure (b : bool) (e : exn) : result unit :=
  if b then Ok tt else Err e.

Notation "'check' b 'else' e ;; k" := (rbind (ensure b e) (fun _ => k))
  (at level 10, b at level 99, e at level 99, k at level 200) : mkb_scope.

Definition is_ok {A} (m : result A) : bool :=
  match m with Ok _ => true | Err _ => false end.

(** Loops [for x in xs: ...] that may raise. *)
Section loops.
Context {A B S : Type}.

Section over.
Variable f : A -> result B.
Fixpoint mapM (xs : list A) : result (list B) :=
  match xs with
  | [] => Ok []
  | x :: xs' =>
      let* y := f x in
      let* ys := mapM xs' in
      Ok (y :: ys)
  end.
End over.

Section fold.
Variable f : S -> A -> result S.
Fixpoint foldM (s : S) (xs : list A) : result S :=
  match xs with
  | [] => Ok s
  | x :: xs' => let* s' := f s x in foldM s' xs'
  end.
End fold.

Section each.
Variable f : A -> result unit.
Fixpoint forM (xs : list A) : result unit :=
  match xs with
  | [] => Ok tt
  | x :: xs' => let* _ := f x in forM xs'
  end.
End each.
End loops.

(** Python's stable [sorted] for a boolean order. *)
Section sort.
Context {A : Type}.
Variable le : A -> A -> bool.

Fixpoint sort_insert (x : A) (l : list A) : list A :=
  match l with
  | [] => [x]
  | y :: l' => if le x y then x :: l else y :: sort_insert x l'
  end.
Definition py_sorted (l : list A) : list A := foldr sort_insert [] l.

Lemma sort_insert_perm x l : sort_insert x l ≡ₚ x :: l.
Proof.
  induction l as [|y l IH]; simpl; [done|]. destruct (le x y); [done|].
  rewrite IH. by constructor.
Qed.

Lemma py_sorted_perm l : py_sorted l ≡ₚ l.
Proof. induction l as [|x l IH]; simpl; [done|]. by rewrite sort_insert_perm, IH. Qed.

Context (le_total : forall x y, le x y = true \/ le y x = true)
        (le_trans : forall x y z, le x y = true -> le y z = true -> le x z = true).

Lemma sort_insert_sorted x l :
  StronglySorted (fun a b => le a b = true) l ->
  StronglySorted (fun a b => le a b = true) (sort_insert x l).
Proof.
  induction 1 as [|y l Hs IH Hy]; simpl; [repeat constructor|].
  destruct (le x y) eqn:E.
  - constructor; [by constructor|]. constructor; [done|].
    eapply Forall_impl; [exact Hy|]. simpl. eauto.
  - constructor; [done|]. rewrite sort_insert_perm. constructor; [|done].
    destruct (le_total x y); congruence.
Qed.

Lemma py_sorted_sorted l : StronglySorted (fun a b => le a b = true) (py_sorted l).
Proof. induction l; simpl; [constructor|]. by apply sort_insert_sorted. Qed.

(** Already sorted input is returned as it is. *)
Lemma py_sorted_id l : StronglySorted (fun a b => le a b = true) l -> py_sorted l = l.
Proof.
  induction 1 as [|x l Hs IH Hx]; simpl; [done|]. rewrite IH.
  destruct l as [|y l]; simpl; [done|]. inversion Hx; subst. by case_match.
Qed.
End sort.

Create HintDb mkb.
Create Rewrite HintDb mkb.

Section bind_lemmas.
Context {A B : Type}.

Lemma rbind_Ok (m : result A) (f : A -> result B) b :
  rbind m f = Ok b <-> exists a, m = Ok a /\ f a = Ok b.
Proof.
  destruct m as [a|e]; simpl; split.
  - intros H; by exists a.
  - intros (a' & [= ->] & H); exact H.
  - done.
  - by intros (? & ? & ?).
Qed.

Lemma rbind_Err (m : result A) (f : A -> result B) e :
  rbind m f = Err e <-> m = Err e \/ exists a, m = Ok a /\ f a = Err e.
Proof.
  destruct m as [a|e']; simpl; split.
  - intros H; right; by exists a.
  - intros [?|(a' & [= ->] & H)]; done.
  - intros [= ->]; by left.
  - intros [[= ->]|(? & [=] & ?)]; done.
Qed.

Lemma ensure_Ok b e u : ensure b e = Ok u <-> b = true.
Proof. destruct b, u; simpl; split; done. Qed.

Lemma ensure_Err b e e' : ensure b e = Err e' <-> b = false /\ e' = e.
Proof. destruct b; simpl; split; [done | by intros [] | by intros [= ->] | by intros [_ ->]]. Qed.

End bind_lemmas.

Section loop_lemmas.
Context {A B S : Type}.

Lemma mapM_Ok (f : A -> result B) xs ys :
  mapM f xs = Ok ys <-> Forall2 (fun x y => f x = Ok y) xs ys.
Proof.
  revert ys; induction xs as [|x xs IH]; intros ys; simpl.
  - split; [by intros [= <-]; constructor | by inversion 1].
  - split.
    + intros (y & Hy & (ys' & Hys & [= <-])%rbind_Ok)%rbind_Ok.
      constructor; [done | by apply IH].
    + inversion 1 as [|?? y' ys' Hy Hys]; subst. rewrite Hy; simpl.
      apply IH in Hys. by rewrite Hys.
Qed.

Lemma mapM_length (f : A -> result B) xs ys : mapM f xs = Ok ys -> length ys = length xs.
Proof. intros H%mapM_Ok. symmetry. by eapply Forall2_length. Qed.

Lemma mapM_ext (f g : A -> result B) xs :
  (forall x, x ∈ xs -> f x = g x) -> mapM f xs = mapM g xs.
Proof.
  induction xs as [|x xs IH]; intros H; simpl; [done|].
  rewrite H by left. destruct (g x); simpl; [|done].
  rewrite IH; [done|]. intros y Hy. apply H. by right.
Qed.

Lemma forM_Ok (f : A -> result unit) xs u :
  forM f xs = Ok u <-> Forall (fun x => f x = Ok tt) xs.
Proof.
  destruct u. induction xs as [|x xs IH]; simpl.
  - split; [constructor | done].
  - rewrite rbind_Ok, Forall_cons, <-IH. split.
    + intros ([] & ? & ?); done.
    + intros [? ?]; exists tt; done.
Qed.

(** Invariant rule of a raising [for] loop. *)
Lemma foldM_inv (P : list A -> S -> Prop) (f : S -> A -> result S) xs s s' :
  P [] s ->
  (forall pre x post t t', xs = pre ++ x :: post -> P pre t -> f t x = Ok t' -> P (pre ++ [x]) t') ->
  foldM f s xs = Ok s' -> P xs s'.
Proof.
  intros H0 Hstep.
  enough (forall pre post t, xs = pre ++ post -> P pre t -> foldM f t post = Ok s' -> P xs s') as Hgen
    by (apply (Hgen [] xs s eq_refl H0)).
  intros pre post; revert pre; induction post as [|x post IH]; intros pre t Hxs HP Hf; simpl in Hf.
  - injection Hf as <-. by rewrite Hxs, app_nil_r.
  - apply rbind_Ok in Hf as (t' & Hx & Hf).
    apply (IH (pre ++ [x]) t'); [by rewrite <-app_assoc | by eapply Hstep | done].
Qed.

Lemma foldM_app (f : S -> A -> result S) s xs ys :
  foldM f s (xs ++ ys) = let* s' := foldM f s xs in foldM f s' ys.
Proof.
  revert s; induction xs as [|x xs IH]; intros s; simpl; [done|].
  destruct (f s x); simpl; auto.
Qed.

(** A loop whose body returns on every element returns. *)
Lemma mapM_total (P : A -> B -> Prop) (f : A -> result B) xs :
  (forall x, x ∈ xs -> exists y, f x = Ok y /\ P x y) -> exists ys, mapM f xs = Ok ys /\ Forall2 P xs ys.
Proof.
  induction xs as [|x xs IH]; intros Hf; simpl; [by exists []|].
  destruct (Hf x) as (y & Hy & HP); [by left|]. destruct IH as (ys & Hys & HF); [intros z Hz; apply Hf; by right|].
  exists (y :: ys). rewrite Hy. simpl. rewrite Hys. split; [done|by constructor].
Qed.

(** Every error of a composite comes from one of its parts. *)
Lemma mapM_Err (f : A -> result B) xs e :
  mapM f xs = Err e -> exists x, x ∈ xs /\ f x = Err e.
Proof.
  induction xs as [|x xs IH]; simpl; [done|].
  intros [H|(y & ? & [H|(ys & ? & ?)]%rbind_Err)]%rbind_Err; [exists x; split; [left|done] | | done].
  destruct (IH H) as (z & ? & ?). exists z; split; [by right | done].
Qed.
End loop_lemmas.

(** ** Tactics

    [inv_res] turns a hypothesis [e = Ok v] about a monadic body into the list of the
    checks that passed; [case_res] walks a goal about such a body. *)
Ltac inv_res_step :=
  match goal with
  | H : rbind _ _ = Ok _ |- _ =>
      apply rbind_Ok in H; let x := fresh "x" in let H1 := fresh "H" in
      destruct H as (x & H1 & H)
  | H : ensure _ _ = Ok _ |- _ => apply ensure_Ok in H
  | H : Ok _ = Ok _ |- _ => injection H as H; try subst
  | H : Err _ = Ok _ |- _ => discriminate H
  | H : Ok _ = Err _ |- _ => discriminate H
  end.
Ltac inv_res := repeat inv_res_step.

(** Split a boolean conjunction hypothesis and reflect the tests in it. *)
Ltac breflect :=
  repeat match goal with
  | H : _ && _ = true |- _ => apply andb_true_iff in H; destruct H
  | H : _ || _ = false |- _ => apply orb_false_iff in H; destruct H
  | H : negb _ = true |- _ => apply negb_true_iff in H
  | H : negb _ = false |- _ => apply negb_false_iff in H
  | H : bool_decide _ = true |- _ => apply bool_decide_eq_true in H
  | H : bool_decide _ = false |- _ => apply bool_decide_eq_false in H
  | H : Is_true _ |- _ => apply Is_true_true in H
  end.

(** ** Generic lists *)

Section list_lemmas.
Context {A B : Type}.

(** [enumerate(xs, start)] *)
Fixpoint enumerate_from (i : nat) (xs : list A) : list (nat * A) :=
  match xs with
  | [] => []
  | x :: xs' => (i, x) :: enumerate_from (S i) xs'
  end.

Lemma enumerate_from_length i xs : length (enumerate_from i xs) = length xs.
Proof. revert i; induction xs; intros; simpl; auto. Qed.

Lemma enumerate_from_snd i xs : (enumerate_from i xs).*2 = xs.
Proof. revert i; induction xs; intros; simpl; f_equal; auto. Qed.

Lemma enumerate_from_fst i xs : (enumerate_from i xs).*1 = seq i (length xs).
Proof. revert i; induction xs; intros; simpl; f_equal; auto. Qed.

Lemma enumerate_from_lookup i xs j :
  enumerate_from i xs !! j = (fun x => (i + j, x)) <$> xs !! j.
Proof.
  revert i j; induction xs as [|x xs IH]; intros i [|j]; simpl; try done.
  - by rewrite Nat.add_0_r.
  - rewrite IH. destruct (xs !! j); simpl; [|done]. by rewrite Nat.add_succ_r.
Qed.

Definition slice (i j : nat) (l : list A) : list A := take (j - i) (drop i l).

Lemma slice_length i j l : i <= j -> j <= length l -> length (slice i j l) = j - i.
Proof. intros. unfold slice. rewrite length_take, length_drop. lia. Qed.

Lemma slice_split i j l : i <= j -> j <= length l -> l = take i l ++ slice i j l ++ drop j l.
Proof.
  intros. unfold slice. rewrite <-(take_drop i l) at 1. f_equal.
  rewrite <-(take_drop (j - i) (drop i l)) at 1. f_equal.
  rewrite drop_drop. f_equal. lia.
Qed.

Lemma slice_full l : slice 0 (length l) l = l.
Proof. unfold slice. rewrite drop_0, Nat.sub_0_r. apply take_ge. lia. Qed.

Lemma drop_lookup_cons (l : list A) i x : l !! i = Some x -> drop i l = x :: drop (S i) l.
Proof. revert i; induction l as [|y l IH]; intros [|i] H; simplify_eq/=; auto. Qed.
End list_lemmas.

(** [COALESCE(a, b)] of SQL. *)
Definition coalesce {A} (a b : option A) : option A := match a with Some _ => a | None => b end.

(** ** Integers *)

Lemma leb_0_nat n : (0 <=? Z.of_nat n)%Z = true.
Proof. apply Z.leb_le. lia. Qed.

Lemma leb_intro (a b : Z) : (a <= b)%Z -> (a <=? b)%Z = true.
Proof. by intros ?%Z.leb_le. Qed.

Lemma ltb_intro (a b : Z) : (a < b)%Z -> (a <? b)%Z = true.
Proof. by intros ?%Z.ltb_lt. Qed.

Lemma eqb_intro (a b : Z) : a = b -> (a =? b)%Z = true.
Proof. by intros ?%Z.eqb_eq. Qed.
