(* ===== verification/PyText.v ===== *)
(** * Python text

    [str] is the list of its code points and [bytes] the list of its octets.  The file
    models the methods of [str] the sources call ([find], [rfind], [count], [replace],
    [strip], [join], slices), the strict UTF-8 codec and decimal formatting, with the
    lemmas that the text kernels share: a found occurrence is an occurrence, decoding
    inverts encoding, and byte offsets cut an encoding where the text is cut. *)

From S2P Require Import Prelude.
From stdpp Require Import pretty.

Abbreviation ustr := (list Z).
Abbreviation bytes := (list Z).

Open Scope Z_scope.
Open Scope mkb_scope.

(** ** UTF-8 *)

Definition is_surrogate (c : Z) : bool := (55296 <=? c) && (c <=? 57343).

Definition utf8_char (c : Z) : result bytes :=
  if c <? 0 then Err UnicodeEncodeError
  else if c <? 128 then Ok [c]
  else if c <? 2048 then Ok [192 + c / 64; 128 + c mod 64]
  else if c <? 65536 then
    if is_surrogate c then Err UnicodeEncodeError
    else Ok [224 + c / 4096; 128 + (c / 64) mod 64; 128 + c mod 64]
  else if c <? 1114112 then
    Ok [240 + c / 262144; 128 + (c / 4096) mod 64; 128 + (c / 64) mod 64; 128 + c mod 64]
  else Err UnicodeEncodeError.

(** [s.encode("utf-8")] *)
Fixpoint utf8_encode (s : ustr) : result bytes :=
  match s with
  | [] => Ok []
  | c :: s' =>
      let* b := utf8_char c in
      let* bs := utf8_encode s' in
      Ok (b ++ bs)
  end.

Definition is_cont (b : Z) : bool := (128 <=? b) && (b <? 192).

(** [b.decode("utf-8")], strict: overlong forms, surrogates and values above U+10FFFF
    are refused. *)
Fixpoint utf8_decode (b : bytes) : result ustr :=
  match b with
  | [] => Ok []
  | b0 :: r0 =>
      if (0 <=? b0) && (b0 <? 128) then
        let* s := utf8_decode r0 in Ok (b0 :: s)
      else if (192 <=? b0) && (b0 <? 224) then
        match r0 with
        | b1 :: r1 =>
            let c := (b0 - 192) * 64 + (b1 - 128) in
            if is_cont b1 && (128 <=? c) then
              let* s := utf8_decode r1 in Ok (c :: s)
            else Err UnicodeDecodeError
        | _ => Err UnicodeDecodeError
        end
      else if (224 <=? b0) && (b0 <? 240) then
        match r0 with
        | b1 :: b2 :: r2 =>
            let c := (b0 - 224) * 4096 + (b1 - 128) * 64 + (b2 - 128) in
            if is_cont b1 && is_cont b2 && (2048 <=? c) && negb (is_surrogate c) then
              let* s := utf8_decode r2 in Ok (c :: s)
            else Err UnicodeDecodeError
        | _ => Err UnicodeDecodeError
        end
      else if (240 <=? b0) && (b0 <? 248) then
        match r0 with
        | b1 :: b2 :: b3 :: r3 =>
            let c := (b0 - 240) * 262144 + (b1 - 128) * 4096 + (b2 - 128) * 64 + (b3 - 128) in
            if is_cont b1 && is_cont b2 && is_cont b3 && (65536 <=? c) && (c <? 1114112) then
              let* s := utf8_decode r3 in Ok (c :: s)
            else Err UnicodeDecodeError
        | _ => Err UnicodeDecodeError
        end
      else Err UnicodeDecodeError
  end.

(** Source literals: the UTF-8 bytes Rocq reads from the file, decoded. *)
Definition u (s : string) : ustr :=
  match utf8_decode (map (fun a => Z.of_nat (Ascii.nat_of_ascii a)) (String.list_ascii_of_string s)) with
  | Ok t => t
  | Err _ => []
  end.
Arguments u : simpl never.

(** ** Character classes and trimming *)

(** [str.isspace] of one character; also the class [\s] of [re]. *)
Definition isspace (c : Z) : bool :=
  ((9 <=? c) && (c <=? 13)) || ((28 <=? c) && (c <=? 32)) || (c =? 133) || (c =? 160) || (c =? 5760)
  || ((8192 <=? c) && (c <=? 8202)) || (c =? 8232) || (c =? 8233) || (c =? 8239) || (c =? 8287)
  || (c =? 12288).

Fixpoint drop_while (p : Z -> bool) (s : ustr) : ustr :=
  match s with
  | c :: s' => if p c then drop_while p s' else s
  | [] => []
  end.

Definition lstrip (s : ustr) : ustr := drop_while isspace s.
Definition rstrip (s : ustr) : ustr := reverse (drop_while isspace (reverse s)).
Definition strip (s : ustr) : ustr := rstrip (lstrip s).

(** [not s.strip()] *)
Definition blank (s : ustr) : bool := bool_decide (strip s = []).

(** ** Searching *)

Fixpoint starts_with (p s : ustr) : bool :=
  match p, s with
  | [], _ => true
  | x :: p', y :: s' => (x =? y) && starts_with p' s'
  | _ :: _, [] => false
  end.

Fixpoint find_go (sub s : ustr) (i : nat) : option nat :=
  if starts_with sub s then Some i
  else match s with
       | [] => None
       | _ :: s' => find_go sub s' (S i)
       end.

(** [s.find(sub, start)]; [None] is Python's -1. *)
Definition str_find (s sub : ustr) (start : nat) : option nat :=
  if (start <=? length s)%nat then find_go sub (drop start s) start else None.

(** [sub in s] *)
Definition str_in (sub s : ustr) : bool :=
  match str_find s sub 0 with Some _ => true | None => false end.

(** [s.rfind(c, 0, hi)] for a one character needle. *)
Fixpoint rfind_char (c : Z) (s : ustr) (hi : nat) : option nat :=
  match hi with
  | O => None
  | S k => if bool_decide (s !! k = Some c) then Some k else rfind_char c s k
  end.

(** [s.replace(old, new)] for a non-empty [old]; [skip] counts the characters of the
    current occurrence still to be dropped. *)
Fixpoint replace_go (old new s : ustr) (skip : nat) : ustr :=
  match s with
  | [] => []
  | c :: s' =>
      match skip with
      | S k => replace_go old new s' k
      | O => if starts_with old s then new ++ replace_go old new s' (length old - 1)
             else c :: replace_go old new s' 0
      end
  end.
Definition str_replace (s old new : ustr) : ustr := replace_go old new s 0.

(** [s.count(sub)]: non-overlapping occurrences. *)
Fixpoint count_go (sub s : ustr) (skip : nat) : nat :=
  match s with
  | [] => 0
  | c :: s' =>
      match skip with
      | S k => count_go sub s' k
      | O => if starts_with sub s then S (count_go sub s' (length sub - 1)) else count_go sub s' 0
      end
  end.
Definition str_count (s sub : ustr) : nat :=
  if bool_decide (sub = []) then S (length s) else count_go sub s 0.

(** [sep.join(parts)] *)
Fixpoint str_join (sep : ustr) (parts : list ustr) : ustr :=
  match parts with
  | [] => []
  | [p] => p
  | p :: ps => p ++ sep ++ str_join sep ps
  end.

(** ** Decimal formatting *)

Definition dec_N (n : N) : ustr := u (pretty n).
Definition dec (z : Z) : ustr := if z <? 0 then 45 :: dec_N (Z.to_N (- z)) else dec_N (Z.to_N z).
(** [f"{z:04d}"]: the sign counts in the width. *)
Definition dec04 (z : Z) : ustr :=
  if z <? 0 then 45 :: (replicate (3 - length (dec_N (Z.to_N (- z)))) 48 ++ dec_N (Z.to_N (- z)))
  else replicate (4 - length (dec z)) 48 ++ dec z.

(** Python's [<] on [str]: lexicographic on code points. *)
Fixpoint str_le (s t : ustr) : bool :=
  match s, t with
  | [], _ => true
  | _ :: _, [] => false
  | x :: s', y :: t' => (x <? y) || ((x =? y) && str_le s' t')
  end.

(** ** Lemmas *)

Local Ltac Zify.zify_post_hook ::= Z.div_mod_to_equations.

Lemma utf8_char_decode c cb rest :
  utf8_char c = Ok cb -> utf8_decode (cb ++ rest) = let* s := utf8_decode rest in Ok (c :: s).
Proof.
  unfold utf8_char. intros H.

  repeat case_match; simplify_eq/=; try lia.
  - destruct ((0 <=? c) && (c <? 128)) eqn:E; [done | lia].
  - destruct ((0 <=? 192 + c / 64) && (192 + c / 64 <? 128)) eqn:E1; [lia|].
    destruct ((192 <=? 192 + c / 64) && (192 + c / 64 <? 224)) eqn:E2; [|lia].
    unfold is_cont.
    destruct ((128 <=? 128 + c mod 64) && (128 + c mod 64 <? 192) && _) eqn:E3; [|lia].
    destruct (utf8_decode rest); simpl; [|done]. do 2 f_equal. lia.
  - destruct ((0 <=? 224 + c / 4096) && (224 + c / 4096 <? 128)) eqn:E1; [lia|].
    destruct ((192 <=? 224 + c / 4096) && (224 + c / 4096 <? 224)) eqn:E2; [lia|].
    destruct ((224 <=? 224 + c / 4096) && (224 + c / 4096 <? 240)) eqn:E3; [|lia].
    replace ((224 + c / 4096 - 224) * 4096 + (128 + (c / 64) mod 64 - 128) * 64 + (128 + c mod 64 - 128))
      with c by lia.
    unfold is_cont. destruct (_ && negb (is_surrogate c)) eqn:E4; [done|].
    destruct (is_surrogate c); [done|]. simpl in E4. lia.
  - destruct ((0 <=? 240 + c / 262144) && (240 + c / 262144 <? 128)) eqn:E1; [lia|].
    destruct ((192 <=? 240 + c / 262144) && (240 + c / 262144 <? 224)) eqn:E2; [lia|].
    destruct ((224 <=? 240 + c / 262144) && (240 + c / 262144 <? 240)) eqn:E3; [lia|].
    destruct ((240 <=? 240 + c / 262144) && (240 + c / 262144 <? 248)) eqn:E4; [|lia].
    replace ((240 + c / 262144 - 240) * 262144 + (128 + (c / 4096) mod 64 - 128) * 4096
             + (128 + (c / 64) mod 64 - 128) * 64 + (128 + c mod 64 - 128)) with c by lia.
    unfold is_cont. destruct (_ && (c <? 1114112)) eqn:E5; [done|]. lia.
Qed.

Lemma utf8_char_nonempty c cb : utf8_char c = Ok cb -> (1 <= length cb)%nat.
Proof. unfold utf8_char. intros H. repeat case_match; simplify_eq/=; lia. Qed.

(** Decoding inverts encoding. *)
Lemma utf8_decode_encode s b : utf8_encode s = Ok b -> utf8_decode b = Ok s.
Proof.
  revert b; induction s as [|c s IH]; intros b H; simpl in H; [by simplify_eq|].
  inv_res. rewrite (utf8_char_decode _ _ _ H0). by rewrite (IH _ H1).
Qed.

Lemma utf8_encode_inj s t b : utf8_encode s = Ok b -> utf8_encode t = Ok b -> s = t.
Proof. intros Hs%utf8_decode_encode Ht%utf8_decode_encode. congruence. Qed.

Lemma utf8_encode_app s t bs bt :
  utf8_encode s = Ok bs -> utf8_encode t = Ok bt -> utf8_encode (s ++ t) = Ok (bs ++ bt).
Proof.
  revert bs; induction s as [|c s IH]; intros bs Hs Ht; simpl in *; [by simplify_eq|].
  inv_res. rewrite H; simpl. rewrite (IH _ H0 Ht); simpl. by rewrite app_assoc.
Qed.

Lemma utf8_encode_app_inv s t b :
  utf8_encode (s ++ t) = Ok b ->
  exists bs bt, utf8_encode s = Ok bs /\ utf8_encode t = Ok bt /\ b = bs ++ bt.
Proof.
  revert b; induction s as [|c s IH]; intros b H; simpl in *; [by exists [], b|].
  inv_res. destruct (IH _ H1) as (bs & bt & Hs & Ht & ->).
  exists (x ++ bs), bt. rewrite H0, Hs; simpl. by rewrite app_assoc.
Qed.

Lemma utf8_encode_length s b : utf8_encode s = Ok b -> (length s <= length b)%nat.
Proof.
  revert b; induction s as [|c s IH]; intros b H; simpl in *; [lia|].
  inv_res. apply utf8_char_nonempty in H0. apply IH in H1. rewrite length_app. lia.
Qed.

(** An encoding cut at the byte offsets of two text positions is the encoding of the cut. *)
Lemma utf8_encode_slice s b i j bi bj :
  (i <= j)%nat -> (j <= length s)%nat -> utf8_encode s = Ok b ->
  utf8_encode (take i s) = Ok bi -> utf8_encode (take j s) = Ok bj ->
  utf8_encode (slice i j s) = Ok (slice (length bi) (length bj) b)
  /\ (length bi <= length bj <= length b)%nat.
Proof.
  intros Hij Hj Hb Hi Hjj.
  assert (take j s = take i s ++ slice i j s) as Hsplit.
  { unfold slice. rewrite <-(take_drop i (take j s)) at 1.
    rewrite take_take, Nat.min_l by lia. f_equal. by rewrite skipn_firstn_comm. }
  rewrite Hsplit in Hjj. apply utf8_encode_app_inv in Hjj as (b1 & b2 & H1 & H2 & ->).
  assert (b1 = bi) as -> by congruence.
  rewrite <-(take_drop j s), Hsplit in Hb.
  apply utf8_encode_app_inv in Hb as (b3 & b4 & H3 & H4 & ->).
  pose proof (utf8_encode_app _ _ _ _ H1 H2) as H5. assert (b3 = bi ++ b2) as -> by congruence.
  split.
  - rewrite H2. f_equal. unfold slice. rewrite <-app_assoc, drop_app_length.
    rewrite length_app. replace (length bi + length b2 - length bi)%nat with (length b2) by lia.
    by rewrite take_app_length.
  - rewrite !length_app. lia.
Qed.

Lemma starts_with_spec p s : starts_with p s = true <-> exists t, s = p ++ t.
Proof.
  revert s; induction p as [|x p IH]; intros s; simpl; [split; [by exists s|done]|].
  destruct s as [|y s]; [split; [done|by intros (t & ?)]|].
  rewrite andb_true_iff, IH, Z.eqb_eq. split.
  - intros (-> & t & ->). by exists t.
  - intros (t & [= -> ->]). eauto.
Qed.

(** [occurs_at s sub i]: [sub] stands in [s] at position [i]. *)
Definition occurs_at (s sub : ustr) (i : nat) : Prop :=
  (i <= length s)%nat /\ starts_with sub (drop i s) = true.

Lemma find_go_spec sub s i j :
  find_go sub s i = Some j <->
  exists k, j = (i + k)%nat /\ occurs_at s sub k /\ forall k', (k' < k)%nat -> ~ occurs_at s sub k'.
Proof.
  revert i; induction s as [|c s IH]; intros i.
  - cbn [find_go]. destruct (starts_with sub []) eqn:E; split.
    + intros [= <-]. exists 0%nat. split; [lia|]. split; [split; [simpl; lia|done]|intros; lia].
    + intros (k & -> & [Hk _] & _). f_equal. simpl in Hk. lia.
    + done.
    + intros (k & -> & [Hk Hs] & _). simpl in Hk. assert (k = 0%nat) as -> by lia.
      simpl in Hs. congruence.
  - cbn [find_go]. destruct (starts_with sub (c :: s)) eqn:E.
    + split.
      * intros [= <-]. exists 0%nat. split; [lia|]. split; [split; [simpl; lia|done]|intros; lia].
      * intros (k & -> & _ & Hmin). f_equal. destruct k as [|k]; [lia|]. exfalso.
        apply (Hmin 0%nat); [lia|]. split; [simpl; lia|done].
    + rewrite IH. split.
      * intros (k & -> & [Hk Hs] & Hmin). exists (S k). split; [lia|]. split.
        { split; [simpl; lia|done]. }
        intros [|k'] Hlt [? Hs']; [simpl in Hs'; congruence|].
        apply (Hmin k'); [lia|]. split; [simpl in *; lia|done].
      * intros (k & -> & [Hk Hs] & Hmin). destruct k as [|k]; [simpl in Hs; congruence|].
        exists k. split; [lia|]. split; [split; [simpl in Hk; lia|done]|].
        intros k' Hlt [? ?]. apply (Hmin (S k')); [lia|]. split; [simpl; lia|done].
Qed.

(** [str.find] returns the least occurrence from [start] on. *)
Lemma str_find_Some s sub start j :
  str_find s sub start = Some j <->
  (start <= j)%nat /\ occurs_at s sub j /\ forall k, (start <= k < j)%nat -> ~ occurs_at s sub k.
Proof.
  unfold str_find. destruct (Nat.leb_spec start (length s)) as [Hle|Hgt].
  - rewrite find_go_spec. unfold occurs_at. split.
    + intros (k & -> & [Hk Hs] & Hmin). rewrite length_drop in Hk.
      rewrite drop_drop in Hs. split; [lia|]. split; [split; [lia|done]|].
      intros k' Hk' [? Hs']. apply (Hmin (k' - start)%nat); [lia|].
      rewrite length_drop, drop_drop. split; [lia|].
      by replace (start + (k' - start))%nat with k' by lia.
    + intros (Hj & [Hjl Hs] & Hmin). exists (j - start)%nat.
      rewrite length_drop, drop_drop. replace (start + (j - start))%nat with j by lia.
      split; [lia|]. split; [split; [lia|done]|].
      intros k Hk [Hkl Hs']. rewrite drop_drop in Hs'.
      rewrite ?length_drop in Hkl.
      apply (Hmin (start + k)%nat); [lia|]. split; [lia|done].
  - split; [done|]. intros (? & [? _] & _). lia.
Qed.

Lemma str_find_None s sub start :
  (start <= length s)%nat -> str_find s sub start = None -> forall k, (start <= k)%nat -> ~ occurs_at s sub k.
Proof.
  unfold str_find. rewrite <-Nat.leb_le. intros -> H k Hk [Hkl Hs].
  revert H. rewrite <-(take_drop start s) in Hs.
  assert (forall t i n, (n <= length t)%nat -> starts_with sub (drop n t) = true -> find_go sub t i <> None) as Haux.
  { clear. induction t as [|c t IH]; intros i n Hn Hs; cbn [find_go].
    - rewrite drop_nil in Hs. by rewrite Hs.
    - case_match; [done|]. destruct n as [|n]; [simpl in Hs; congruence|].
      apply (IH (S i) n); [simpl in Hn; lia|done]. }
  apply (Haux _ _ (k - start)%nat).
  - rewrite length_drop. lia.
  - rewrite take_drop in Hs. rewrite drop_drop. by replace (start + (k - start))%nat with k by lia.
Qed.

Lemma occurs_at_slice s sub i : occurs_at s sub i -> slice i (i + length sub) s = sub /\ (i + length sub <= length s)%nat.
Proof.
  intros [Hi (t & Ht)%starts_with_spec]. unfold slice. split.
  - rewrite Ht. replace (i + length sub - i)%nat with (length sub) by lia. by rewrite take_app_length.
  - assert (length (drop i s) = length (sub ++ t)) as Hl by (by rewrite Ht).
    rewrite length_drop, length_app in Hl. lia.
Qed.

Lemma slice_occurs_at s i j : (i <= j)%nat -> (j <= length s)%nat -> occurs_at s (slice i j s) i.
Proof.
  intros. split; [lia|]. apply starts_with_spec. exists (drop (j - i) (drop i s)).
  unfold slice. by rewrite take_drop.
Qed.

Lemma str_in_spec sub s : str_in sub s = true <-> exists i, occurs_at s sub i.
Proof.
  unfold str_in. destruct (str_find s sub 0) as [i|] eqn:E.
  - apply str_find_Some in E as (_ & ? & _). split; eauto.
  - split; [done|]. intros (i & Hi). exfalso. by apply (str_find_None s sub 0 ltac:(lia) E i ltac:(lia)).
Qed.

Lemma drop_while_nil p s : drop_while p s = [] <-> Forall (fun c => p c = true) s.
Proof.
  induction s as [|c s IH]; simpl; [done|]. rewrite Forall_cons. destruct (p c).
  - rewrite IH. intuition.
  - split; [done|]. by intros [? _].
Qed.

Lemma drop_while_suffix p s : exists t, s = t ++ drop_while p s /\ Forall (fun c => p c = true) t.
Proof.
  induction s as [|c s IH]; simpl; [by exists []|]. destruct (p c) eqn:E; [|by exists []].
  destruct IH as (t & Ht & Hp). exists (c :: t). split; [simpl; by f_equal|by constructor].
Qed.

Lemma blank_spec s : blank s = true <-> Forall (fun c => isspace c = true) s.
Proof.
  unfold blank, strip, rstrip, lstrip. rewrite bool_decide_eq_true.
  destruct (drop_while_suffix isspace s) as (t & Ht & Hp). split.
  - intros H%(f_equal reverse). rewrite reverse_involutive in H.
    apply drop_while_nil in H. rewrite Ht. apply Forall_app. split; [done|].
    rewrite <-(reverse_involutive (drop_while isspace s)). by apply Forall_reverse.
  - intros H. assert (drop_while isspace s = []) as -> by by apply drop_while_nil. done.
Qed.

Lemma blank_nil : blank [] = true.
Proof. done. Qed.

Lemma blank_length s : blank s = false -> (1 <= length s)%nat.
Proof. destruct s; [done|]. simpl. lia. Qed.

Lemma str_le_total s t : str_le s t = true \/ str_le t s = true.
Proof.
  revert t; induction s as [|x s IH]; intros [|y t]; simpl; auto.
  destruct (Z.lt_trichotomy x y) as [?|[->|?]].
  - left. destruct (x <? y) eqn:E; [done|lia].
  - rewrite Z.ltb_irrefl, Z.eqb_refl. simpl. apply IH.
  - right. destruct (y <? x) eqn:E; [done|lia].
Qed.

Lemma str_le_trans s t v : str_le s t = true -> str_le t v = true -> str_le s v = true.
Proof.
  revert t v; induction s as [|x s IH]; intros [|y t] [|z v]; simpl; try done.
  rewrite !orb_true_iff, !andb_true_iff, !Z.ltb_lt, !Z.eqb_eq. intros [?|[-> ?]] [?|[-> ?]]; eauto with lia.
Qed.

Lemma str_le_antisym s t : str_le s t = true -> str_le t s = true -> s = t.
Proof.
  revert t; induction s as [|x s IH]; intros [|y t]; simpl; try done.
  rewrite !orb_true_iff, !andb_true_iff, !Z.ltb_lt, !Z.eqb_eq. intros [?|[-> ?]] [?|[? ?]]; try lia.
  f_equal; auto.
Qed.

(** Text cut at two positions: its byte length is the difference of the offsets. *)
Lemma utf8_encode_take s b i : utf8_encode s = Ok b -> exists bi, utf8_encode (take i s) = Ok bi.
Proof.
  intros H. rewrite <-(take_drop i s) in H. apply utf8_encode_app_inv in H as (bs & ? & ? & _). eauto.
Qed.

(** The decoder is strict: what it accepts is the encoding of what it returns. *)
Lemma utf8_encode_decode b s : utf8_decode b = Ok s -> utf8_encode s = Ok b.
Proof.
  revert s. induction b as [b IH] using (induction_ltof1 _ (@length Z)). unfold ltof in IH. intros s Hd.
  destruct b as [|b0 r0]; [by injection Hd as <-|].
  cbn [utf8_decode] in Hd.
  destruct ((0 <=? b0) && (b0 <? 128)) eqn:E1.
  { inv_res. cbn [utf8_encode]. unfold utf8_char.
    destruct (b0 <? 0) eqn:?; [lia|]. destruct (b0 <? 128) eqn:?; [|lia].
    cbn [rbind]. by rewrite (IH r0 ltac:(simpl; lia) _ H). }
  destruct ((192 <=? b0) && (b0 <? 224)) eqn:E2.
  { destruct r0 as [|b1 r1]; [done|]. unfold is_cont in Hd.
    destruct (_ && (128 <=? _)) eqn:E3; [|done]. inv_res. cbn [utf8_encode].
    set (c := (b0 - 192) * 64 + (b1 - 128)) in *. unfold utf8_char.
    destruct (c <? 0) eqn:?; [lia|]. destruct (c <? 128) eqn:?; [lia|]. destruct (c <? 2048) eqn:?; [|lia].
    cbn [rbind]. rewrite (IH r1 ltac:(simpl; lia) _ H). simpl.
    replace (192 + c / 64) with b0 by lia. by replace (128 + c mod 64) with b1 by lia. }
  destruct ((224 <=? b0) && (b0 <? 240)) eqn:E3.
  { destruct r0 as [|b1 [|b2 r2]]; [done..|]. unfold is_cont in Hd.
    destruct (_ && negb (is_surrogate _)) eqn:E4; [|done]. inv_res. cbn [utf8_encode].
    set (c := (b0 - 224) * 4096 + (b1 - 128) * 64 + (b2 - 128)) in *. unfold utf8_char.
    destruct (is_surrogate c) eqn:Es; [rewrite andb_false_r in E4; done|].
    destruct (c <? 0) eqn:?; [lia|]. destruct (c <? 128) eqn:?; [lia|]. destruct (c <? 2048) eqn:?; [lia|].
    destruct (c <? 65536) eqn:?; [|lia].
    cbn [rbind]. rewrite (IH r2 ltac:(simpl; lia) _ H). simpl.
    replace (224 + c / 4096) with b0 by lia. replace (128 + (c / 64) mod 64) with b1 by lia.
    by replace (128 + c mod 64) with b2 by lia. }
  destruct ((240 <=? b0) && (b0 <? 248)) eqn:E4; [|done].
  destruct r0 as [|b1 [|b2 [|b3 r3]]]; [done..|]. unfold is_cont in Hd.
  destruct (_ && (_ <? 1114112)) eqn:E5; [|done]. inv_res. cbn [utf8_encode].
  set (c := (b0 - 240) * 262144 + (b1 - 128) * 4096 + (b2 - 128) * 64 + (b3 - 128)) in *. unfold utf8_char.
  destruct (c <? 0) eqn:?; [lia|]. destruct (c <? 128) eqn:?; [lia|]. destruct (c <? 2048) eqn:?; [lia|].
  destruct (c <? 65536) eqn:?; [lia|]. destruct (c <? 1114112) eqn:?; [|lia].
  cbn [rbind]. rewrite (IH r3 ltac:(simpl; lia) _ H). simpl.
  replace (240 + c / 262144) with b0 by lia. replace (128 + (c / 4096) mod 64) with b1 by lia.
  replace (128 + (c / 64) mod 64) with b2 by lia. by replace (128 + c mod 64) with b3 by lia.
Qed.

(** ** Encodable text

    A text without lone surrogates: [encode("utf-8")] cannot raise on it. *)
Definition encodable (s : ustr) : Prop := exists b, utf8_encode s = Ok b.

Lemma encodable_nil : encodable [].
Proof. by exists []. Qed.

Lemma encodable_app s t : encodable s -> encodable t -> encodable (s ++ t).
Proof. intros [b Hb] [c Hc]. exists (b ++ c). by apply utf8_encode_app. Qed.

Lemma encodable_app_inv s t : encodable (s ++ t) -> encodable s /\ encodable t.
Proof. intros [b Hb]. apply utf8_encode_app_inv in Hb as (b1 & b2 & H1 & H2 & _). split; eexists; eauto. Qed.

Lemma encodable_cons c s : encodable (c :: s) <-> encodable [c] /\ encodable s.
Proof.
  split; [apply (encodable_app_inv [c])|]. intros [? ?]. by apply (encodable_app [c]).
Qed.

Lemma encodable_slice s i j : encodable s -> encodable (slice i j s).
Proof.
  intros Hs. unfold slice. rewrite <-(take_drop i s) in Hs. apply encodable_app_inv in Hs as [_ Hs].
  rewrite <-(take_drop (j - i) (drop i s)) in Hs. by apply encodable_app_inv in Hs as [? _].
Qed.

Lemma encodable_concat l : Forall encodable l -> encodable (concat l).
Proof. induction 1; simpl; [apply encodable_nil|by apply encodable_app]. Qed.

Lemma encodable_join sep l : encodable sep -> Forall encodable l -> encodable (str_join sep l).
Proof.
  intros Hsep. induction 1 as [|s [|t l] Hs Hl IH]; [apply encodable_nil|done|].
  cbn [str_join]. apply encodable_app; [done|]. by apply encodable_app.
Qed.

Lemma encodable_ascii s : Forall (fun c => 0 <= c < 128) s -> encodable s.
Proof.
  induction 1 as [|c s Hc Hs IH]; [apply encodable_nil|]. apply encodable_cons. split; [|done].
  exists [c]. cbn [utf8_encode]. unfold utf8_char. destruct (c <? 0) eqn:?; [lia|]. destruct (c <? 128) eqn:?; [done|lia].
Qed.

Lemma encodable_u x : encodable (u x).
Proof.
  unfold u. destruct (utf8_decode _) eqn:E; [|apply encodable_nil]. eexists. by eapply utf8_encode_decode.
Qed.

(** ** Decimal numerals *)

Definition digit_value (acc : Z) (c : Z) : Z := acc * 10 + (c - 48).
Definition numeral (s : ustr) : Z := foldl digit_value 0 s.

Definition codes (s : string) : ustr := map (fun a => Z.of_nat (Ascii.nat_of_ascii a)) (String.list_ascii_of_string s).

Lemma u_ascii s : Forall (fun c => 0 <= c < 128) (codes s) -> u s = codes s.
Proof.
  intros Hs. unfold u. fold (codes s). destruct (encodable_ascii _ Hs) as [b Hb].
  assert (b = codes s) as ->.
  { clear -Hs Hb. revert b Hb. induction Hs as [|c l Hc Hl IH]; intros b Hb; [by injection Hb as <-|].
    cbn [utf8_encode] in Hb. unfold utf8_char in Hb. destruct (c <? 0) eqn:?; [lia|]. destruct (c <? 128) eqn:?; [|lia].
    cbn [rbind] in Hb. apply rbind_Ok in Hb as (b2 & Hb2 & [= <-]). by rewrite (IH _ Hb2). }
  by rewrite (utf8_decode_encode _ _ Hb).
Qed.

Definition is_digit (c : Z) : Prop := 48 <= c <= 57.

Lemma pretty_N_char_code x :
  (x < 10)%N -> Z.of_nat (Ascii.nat_of_ascii (pretty_N_char x)) = 48 + Z.of_N x.
Proof.
  intros Hx. destruct x as [|p]; [done|].
  do 4 (destruct p as [p|p|]; try (exfalso; lia); try done).
Qed.


Lemma pretty_N_go_numeral x : forall s,
  numeral (codes (pretty_N_go x s)) = foldl digit_value (Z.of_N x) (codes s) /\
  (Forall is_digit (codes s) -> Forall is_digit (codes (pretty_N_go x s))).
Proof.
  induction x as [x IH] using (well_founded_induction N.lt_wf_0). intros s.
  destruct (decide (0 < x)%N) as [Hx|Hx]; [|assert (x = 0%N) as -> by lia; done].
  rewrite pretty_N_go_step by done. destruct (IH (x / 10)%N ltac:(apply N.div_lt; lia) (String (pretty_N_char (x mod 10)) s)) as [H1 H2].
  assert (Z.of_nat (Ascii.nat_of_ascii (pretty_N_char (x mod 10))) = 48 + Z.of_N (x mod 10)) as Hc
    by (apply pretty_N_char_code, N.mod_lt; lia).
  split.
  - rewrite H1. unfold codes. cbn [String.list_ascii_of_string map foldl]. f_equal. unfold digit_value. rewrite Hc. pose proof (N.div_mod x 10 ltac:(lia)) as Hdm. revert Hdm. generalize (x / 10)%N (x mod 10)%N. intros q r Hq. clear -Hq. lia.
  - intros Hs. apply H2. unfold codes. cbn [String.list_ascii_of_string map]. constructor; [|done].
    rewrite Hc. unfold is_digit. pose proof (N.mod_lt x 10 ltac:(lia)) as Hm. revert Hm. generalize (x mod 10)%N. clear. lia.
Qed.

Lemma dec_N_spec n : numeral (dec_N n) = Z.of_N n /\ Forall is_digit (dec_N n).
Proof.
  assert (Forall is_digit (codes (pretty n)) /\ numeral (codes (pretty n)) = Z.of_N n) as [Hd Hn].
  { unfold pretty, pretty_N. destruct (decide (n = 0%N)) as [->|Hne].
    - split; [|done]. constructor; [vm_compute; split; discriminate|constructor].
    - destruct (pretty_N_go_numeral n "") as [H1 H2]. split; [apply H2; constructor|]. by rewrite H1. }
  unfold dec_N. rewrite u_ascii; [done|]. eapply Forall_impl; [exact Hd|]. unfold is_digit. simpl. lia.
Qed.

Lemma numeral_zeros k s : numeral (replicate k 48 ++ s) = numeral s.
Proof. unfold numeral. induction k; simpl; auto. Qed.

Lemma dec04_spec z : 0 <= z -> numeral (dec04 z) = z /\ Forall is_digit (dec04 z) /\ (4 <= length (dec04 z))%nat.
Proof.
  intros Hz. unfold dec04, dec. replace (z <? 0) with false by lia.
  destruct (dec_N_spec (Z.to_N z)) as [Hn Hd]. rewrite numeral_zeros, Hn. split; [lia|]. split.
  - apply Forall_app. split; [|done]. apply Forall_replicate. unfold is_digit. lia.
  - rewrite length_app, length_replicate. lia.
Qed.

Lemma dec04_inj a b : 0 <= a -> 0 <= b -> dec04 a = dec04 b -> a = b.
Proof. intros Ha Hb Heq. rewrite <-(proj1 (dec04_spec a Ha)), <-(proj1 (dec04_spec b Hb)). by rewrite Heq. Qed.

Lemma encodable_digits s : Forall is_digit s -> encodable s.
Proof. intros Hs. apply encodable_ascii. eapply Forall_impl; [exact Hs|]. unfold is_digit; simpl; lia. Qed.

Lemma encodable_dec z : encodable (dec z).
Proof.
  unfold dec. destruct (z <? 0).
  - apply (encodable_app [45]); [by eexists|]. apply encodable_digits, dec_N_spec.
  - apply encodable_digits, dec_N_spec.
Qed.
