(* ===== verification/PyValue.v ===== *)
(** * Python values, JSON and digests

    The dynamic values that cross the program's boundaries (model output, stored
    payloads, catalog rows) as an inductive type, [dict] as an insertion ordered
    association list, the built-ins the sources apply to them ([isinstance], [==],
    [int], [str], truth value), and the canonical JSON text behind every digest of the
    program ([src/contracts/common/ids.py]).

    What is Unicode data, float formatting or cryptography is not defined here: the
    class [Host] names it, and [HostLaws] states the documented behaviour that some
    theorems use. *)

From S2P Require Import Prelude PyText.
From Stdlib Require Import SpecFloat.

Open Scope Z_scope.
Open Scope mkb_scope.

#[warnings="-register-all"]
Inductive pyval :=
| PNone
| PBool (b : bool)
| PInt (z : Z)
| PFloat (f : spec_float)
| PStr (s : ustr)
| PList (l : list pyval)
| PTuple (l : list pyval)
| PDict (d : list (ustr * pyval)).

Abbreviation pydict := (list (ustr * pyval)).

(** Primitives of the Python installation that the sources call and whose tables are
    outside the repository. *)
Class Host := {
  sha256_hex : bytes -> ustr;          (** [hashlib.sha256(b).hexdigest()] *)
  nfc : ustr -> ustr;                  (** [unicodedata.normalize("NFC", s)] *)
  decimal_digit : Z -> option Z;       (** [unicodedata.decimal], the class [\d] *)
  float_repr : spec_float -> ustr;     (** [float.__repr__] of a finite float *)
  casefold : ustr -> ustr;             (** [str.casefold] *)
  lower : ustr -> ustr;                (** [str.lower] *)
  isalnum : Z -> bool;                 (** [str.isalnum] of one character *)
  container_str : pyval -> ustr        (** [str] of a list, tuple or dict *)
}.

(** [[0-9a-f]] and the text of a SHA-256 digest: 64 such characters. *)
Definition is_lower_hex (c : Z) : bool := ((48 <=? c) && (c <=? 57)) || ((97 <=? c) && (c <=? 102)).
Definition is_digest (s : ustr) : bool := (length s =? 64)%nat && forallb is_lower_hex s.

(** Documented facts: NFC is idempotent and creates no carriage return; the decimal
    value of an ASCII digit; [hexdigest] of SHA-256 is 64 lower case hexadecimal digits. *)
Class HostLaws (H : Host) : Prop := {
  nfc_idem : forall s, nfc (nfc s) = nfc s;
  nfc_no_cr : forall s, 13 ∉ s -> 13 ∉ nfc s;
  decimal_ascii : forall c, 48 <= c <= 57 -> decimal_digit c = Some (c - 48);
  sha256_digest : forall b, is_digest (sha256_hex b) = true
}.

Lemma is_lower_hex_ascii c : is_lower_hex c = true -> 0 <= c < 128.
Proof. unfold is_lower_hex. lia. Qed.

Lemma is_digest_ascii s : is_digest s = true -> Forall (fun c => 0 <= c < 128) s.
Proof.
  unfold is_digest. intros [_ Hf]%andb_true_iff. apply Forall_forall. intros c Hc%list_elem_of_In.
  rewrite forallb_forall in Hf. by apply is_lower_hex_ascii, Hf.
Qed.

Lemma sha256_ascii {H : Host} {HL : HostLaws H} b : Forall (fun c => 0 <= c < 128) (sha256_hex b).
Proof. apply is_digest_ascii, sha256_digest. Qed.

(** ** Dictionaries *)

Definition ueqb (s t : ustr) : bool := bool_decide (s = t).

Section dict.
Context {V : Type}.
Implicit Types d : list (ustr * V).

(** [d.get(k)] *)
Fixpoint dget (d : list (ustr * V)) (k : ustr) : option V :=
  match d with
  | [] => None
  | (k', v) :: d' => if ueqb k' k then Some v else dget d' k
  end.

(** [d[k] = v]: in place when the key is there, appended otherwise. *)
Fixpoint dset (d : list (ustr * V)) (k : ustr) (v : V) : list (ustr * V) :=
  match d with
  | [] => [(k, v)]
  | (k', v') :: d' => if ueqb k' k then (k', v) :: d' else (k', v') :: dset d' k v
  end.

(** [d.pop(k, None)] *)
Definition dpop d (k : ustr) : list (ustr * V) := filter (fun kv => kv.1 <> k) d.

Definition dmem d (k : ustr) : bool := match dget d k with Some _ => true | None => false end.

(** [d.update(e)] *)
Definition dupdate d e : list (ustr * V) := foldl (fun acc kv => dset acc kv.1 kv.2) d e.

(** A Python dict has no key twice. *)
Definition dict_wf d : Prop := NoDup d.*1.

Lemma ueqb_eq s t : ueqb s t = true <-> s = t.
Proof. apply bool_decide_eq_true. Qed.

Lemma ueqb_refl s : ueqb s s = true.
Proof. by apply ueqb_eq. Qed.

Lemma ueqb_ne s t : s <> t -> ueqb s t = false.
Proof. intros. by apply bool_decide_eq_false. Qed.

Lemma dget_dset_eq d k v : dget (dset d k v) k = Some v.
Proof.
  induction d as [|[k' v'] d IH]; simpl; [by rewrite ueqb_refl|].
  destruct (ueqb k' k) eqn:E; simpl; by rewrite E.
Qed.

Lemma dget_dset_ne d k k2 v : k <> k2 -> dget (dset d k v) k2 = dget d k2.
Proof.
  intros Hne. induction d as [|[k' v'] d IH]; simpl; [by rewrite ueqb_ne|].
  destruct (ueqb k' k) eqn:E; simpl.
  - apply ueqb_eq in E as ->. by rewrite ueqb_ne.
  - by rewrite IH.
Qed.

Lemma dget_dpop_eq d k : dget (dpop d k) k = None.
Proof.
  unfold dpop. induction d as [|[k' v'] d IH]; [done|].
  rewrite filter_cons. simpl. case_decide; simpl; [by rewrite ueqb_ne|done].
Qed.

Lemma dget_dpop_ne d k k2 : k <> k2 -> dget (dpop d k) k2 = dget d k2.
Proof.
  unfold dpop. intros. induction d as [|[k' v'] d IH]; [done|].
  rewrite filter_cons. simpl. case_decide; simpl; [by rewrite IH|].
  destruct (ueqb k' k2) eqn:E; [|done]. apply ueqb_eq in E. congruence.
Qed.

Lemma dget_Some_elem d k v : dget d k = Some v -> (k, v) ∈ d.
Proof.
  induction d as [|[k' v'] d IH]; simpl; [done|].
  destruct (ueqb k' k) eqn:E; [|intros; right; auto].
  intros [= ->]. apply ueqb_eq in E as ->. left.
Qed.

Lemma dget_elem d k v : dict_wf d -> (k, v) ∈ d -> dget d k = Some v.
Proof.
  unfold dict_wf. induction d as [|[k' v'] d IH]; simpl; [by intros ? ?%not_elem_of_nil|].
  intros [Hk Hd]%NoDup_cons [[= -> ->]|Hin]%elem_of_cons; [by rewrite ueqb_refl|].
  rewrite ueqb_ne; [auto|]. intros ->. apply Hk. apply list_elem_of_fmap. by exists (k, v).
Qed.

Lemma dget_None d k : dget d k = None <-> k ∉ d.*1.
Proof.
  induction d as [|[k' v'] d IH]; simpl; [split; [intros _; apply not_elem_of_nil|done]|].
  rewrite not_elem_of_cons. destruct (ueqb k' k) eqn:E.
  - apply ueqb_eq in E. split; [done|]. by intros [? _].
  - rewrite IH. apply bool_decide_eq_false in E.
    split; [by intros ?; split; [congruence|]|by intros [_ ?]].
Qed.

Lemma dmem_spec d k : dmem d k = true <-> k ∈ d.*1.
Proof.
  unfold dmem. destruct (dget d k) eqn:E.
  - split; [intros _|done]. apply dget_Some_elem in E. apply list_elem_of_fmap. by exists (k, v).
  - apply dget_None in E. split; done.
Qed.

Lemma dset_keys d k v : dmem d k = true -> (dset d k v).*1 = d.*1.
Proof.
  unfold dmem. induction d as [|[k' v'] d IH]; simpl; [done|].
  destruct (ueqb k' k); simpl; [done|]. intros. f_equal. auto.
Qed.
End dict.

(** Keys of the sources are closed literals: [ukey] decides their equality. *)
Ltac ukey :=
  repeat match goal with
  | |- context [ueqb (u ?a) (u ?b)] =>
      let r := eval vm_compute in (ueqb (u a) (u b)) in
      change (ueqb (u a) (u b)) with r
  | H : context [ueqb (u ?a) (u ?b)] |- _ =>
      let r := eval vm_compute in (ueqb (u a) (u b)) in
      change (ueqb (u a) (u b)) with r in H
  end; cbn [dget dset] in *.
Ltac ukey_ne := let H := fresh in intros H; vm_compute in H; discriminate H.

(** ** Numbers and equality *)

(** The value of a finite number as [m * 2 ^ e]. *)
Definition float_parts (f : spec_float) : option (Z * Z) :=
  match f with
  | S754_zero _ => Some (0, 0)
  | S754_finite s m e => Some ((if s then Z.neg m else Z.pos m), e)
  | _ => None
  end.

Definition parts_eqb (p q : Z * Z) : bool :=
  let e := Z.min p.2 q.2 in (p.1 * 2 ^ (p.2 - e) =? q.1 * 2 ^ (q.2 - e)).

Definition num_parts (v : pyval) : option (Z * Z) :=
  match v with
  | PBool b => Some ((if b then 1 else 0), 0)
  | PInt z => Some (z, 0)
  | PFloat f => float_parts f
  | _ => None
  end.

Definition num_eqb (a b : pyval) : bool :=
  match num_parts a, num_parts b with
  | Some p, Some q => parts_eqb p q
  | _, _ =>
      match a, b with
      | PFloat (S754_infinity s), PFloat (S754_infinity t) => Bool.eqb s t
      | _, _ => false
      end
  end.

(** [a == b] *)
Fixpoint py_eqb (a b : pyval) {struct a} : bool :=
  match a, b with
  | PNone, PNone => true
  | PStr s, PStr t => ueqb s t
  | PList l, PList m | PTuple l, PTuple m =>
      (fix go (l m : list pyval) : bool :=
         match l, m with
         | [], [] => true
         | x :: l', y :: m' => py_eqb x y && go l' m'
         | _, _ => false
         end) l m
  | PDict d, PDict e =>
      (length d =? length e)%nat
      && forallb (fun kv => match dget e kv.1 with Some y => py_eqb kv.2 y | None => false end) d
  | PBool _, _ | PInt _, _ | PFloat _, _ => num_eqb a b
  | _, _ => false
  end.

(** The values Python can build: no dictionary holds a key twice. *)
Fixpoint py_wf (v : pyval) : bool :=
  match v with
  | PList l | PTuple l => forallb py_wf l
  | PDict d => bool_decide (NoDup d.*1) && forallb (fun kv => py_wf kv.2) d
  | _ => true
  end.

(** [bool(v)] *)
Definition truthy (v : pyval) : bool :=
  match v with
  | PNone => false
  | PBool b => b
  | PInt z => negb (z =? 0)
  | PFloat f => match f with S754_zero _ => false | _ => true end
  | PStr s => negb (ueqb s [])
  | PList l | PTuple l => negb (length l =? 0)%nat
  | PDict d => negb (length d =? 0)%nat
  end.

(** [isinstance] tests. [bool] is a subclass of [int]. *)
Definition as_str (v : pyval) : option ustr := match v with PStr s => Some s | _ => None end.
Definition as_dict (v : pyval) : option pydict := match v with PDict d => Some d | _ => None end.
Definition as_list (v : pyval) : option (list pyval) := match v with PList l => Some l | _ => None end.
Definition is_str (v : pyval) : bool := match v with PStr _ => true | _ => false end.
Definition is_bool (v : pyval) : bool := match v with PBool _ => true | _ => false end.
Definition is_none (v : pyval) : bool := match v with PNone => true | _ => false end.
Definition is_mapping (v : pyval) : bool := match v with PDict _ => true | _ => false end.
Definition as_int (v : pyval) : option Z :=
  match v with PInt z => Some z | PBool b => Some (if b then 1 else 0) | _ => None end.

(** ** [int] and [str] *)

Section conversions.
Context `{Host}.

Fixpoint int_digits (s : ustr) (acc : Z) (prev_digit : bool) : option Z :=
  match s with
  | [] => if prev_digit then Some acc else None
  | c :: s' =>
      match decimal_digit c with
      | Some d => int_digits s' (acc * 10 + d) true
      | None => if (c =? 95) && prev_digit then int_digits s' acc false else None
      end
  end.

(** [int(s)]: surrounding white space, a sign, decimal digits with single underscores
    between them, and CPython's limit of 4300 digits. *)
Definition int_of_str (s : ustr) : result Z :=
  let body := strip s in
  let '(neg, digits) :=
    match body with
    | 43 :: r => (false, r)
    | 45 :: r => (true, r)
    | r => (false, r)
    end in
  match int_digits digits 0 false with
  | Some z =>
      check (Z.of_nat (length (filter (fun c => c <> 95) digits)) <=? 4300) else ValueError ;;
      Ok (if neg : bool then - z else z)
  | None => Err ValueError
  end.

(** [int(v)] *)
Definition py_int (v : pyval) : result Z :=
  match v with
  | PInt z => Ok z
  | PBool b => Ok (if b then 1 else 0)
  | PFloat f =>
      match f with
      | S754_zero _ => Ok 0
      | S754_finite s m e =>
          let a := if 0 <=? e then Z.pos m * 2 ^ e else Z.pos m / 2 ^ (- e) in
          Ok (if s then - a else a)
      | S754_infinity _ => Err OverflowError
      | S754_nan => Err ValueError
      end
  | PStr s => int_of_str s
  | _ => Err TypeError
  end.

(** [str(v)] *)
Definition py_str (v : pyval) : ustr :=
  match v with
  | PNone => u "None"
  | PBool true => u "True"
  | PBool false => u "False"
  | PInt z => dec z
  | PFloat f =>
      match f with
      | S754_nan => u "nan"
      | S754_infinity false => u "inf"
      | S754_infinity true => u "-inf"
      | _ => float_repr f
      end
  | PStr s => s
  | v => container_str v
  end.
End conversions.

(** ** Canonical JSON and digests *)

Definition hex_digit (z : Z) : Z := if z <? 10 then 48 + z else 87 + z.

Lemma hex_digit_ascii z : 0 <= z < 16 -> 0 <= hex_digit z < 128.
Proof. unfold hex_digit. case_match; lia. Qed.

Lemma hex_digit_lower z : 0 <= z < 16 -> is_lower_hex (hex_digit z) = true.
Proof. unfold hex_digit, is_lower_hex. case_match; lia. Qed.

(** The escape of one character with [ensure_ascii=False]. *)
Definition json_escape (c : Z) : ustr :=
  if c =? 34 then [92; 34]
  else if c =? 92 then [92; 92]
  else if c =? 10 then [92; 110]
  else if c =? 13 then [92; 114]
  else if c =? 9 then [92; 116]
  else if c =? 12 then [92; 102]
  else if c =? 8 then [92; 98]
  else if c <? 32 then [92; 117; 48; 48; hex_digit (c / 16); hex_digit (c mod 16)]
  else [c].

Definition json_string (s : ustr) : ustr := 34 :: concat (map json_escape s) ++ [34].

(** Literals: a dict display with constant keys, an optional text, a list of texts. *)
Definition py_opt (o : option ustr) : pyval := match o with Some s => PStr s | None => PNone end.
Definition obj (fields : list (string * pyval)) : pyval := PDict (map (fun p => (u p.1, p.2)) fields).
Definition fields (l : list (string * pyval)) : pydict := map (fun p => (u p.1, p.2)) l.
Definition texts (l : list ustr) : pyval := PList (map PStr l).

Section canonical.
Context `{Host}.

(** [json.dumps(v, sort_keys=True, ensure_ascii=False, separators=(",", ":"),
    allow_nan=False)].  CPython refuses to write integers of more than 4300 digits (unless the
    limit is configured); here they have their text, as below the limit. *)
Fixpoint json_text (v : pyval) : result ustr :=
  match v with
  | PNone => Ok (u "null")
  | PBool true => Ok (u "true")
  | PBool false => Ok (u "false")
  | PInt z => Ok (dec z)
  | PFloat f =>
      match f with
      | S754_nan | S754_infinity _ => Err ValueError
      | _ => Ok (float_repr f)
      end
  | PStr s => Ok (json_string s)
  | PList l | PTuple l =>
      let* ts := mapM json_text l in
      Ok (91 :: str_join [44] ts ++ [93])
  | PDict d =>
      let* ts := mapM (fun kv => let* t := json_text kv.2 in Ok (kv.1, json_string kv.1 ++ 58 :: t)) d in
      Ok (123 :: str_join [44] (py_sorted (fun p q => str_le p.1 q.1) ts).*2 ++ [125])
  end.

Definition canonical_json (v : pyval) : result bytes :=
  let* t := json_text v in utf8_encode t.

Definition sha256_bytes (value : bytes) : ustr := sha256_hex value.

Definition stable_digest (v : pyval) : result ustr :=
  let* b := canonical_json v in Ok (sha256_bytes b).
End canonical.

(** A concrete host for the evaluated examples: a readable stand-in for the digest, ASCII
    text (which is in NFC), ASCII digits. *)
Definition ascii_digit (c : Z) : option Z := if (48 <=? c) && (c <=? 57) then Some (c - 48) else None.
Definition test_digest (b : bytes) : ustr :=
  let z := foldl (fun acc c => Z.land (acc * 257 + c) (Z.ones 48)) 1 b in
  map (fun i => hex_digit (Z.shiftr z (4 * Z.of_nat (i mod 12)) mod 16)) (seq 0 64).
Definition test_host : Host := {|
  sha256_hex := test_digest;
  nfc := fun s => s;
  decimal_digit := ascii_digit;
  float_repr := fun _ => [];
  casefold := map (fun c => if (65 <=? c) && (c <=? 90) then c + 32 else c);
  lower := map (fun c => if (65 <=? c) && (c <=? 90) then c + 32 else c);
  isalnum := fun c => ((48 <=? c) && (c <=? 57)) || ((65 <=? c) && (c <=? 90)) || ((97 <=? c) && (c <=? 122));
  container_str := fun _ => []
|}.

Lemma test_digest_is_digest b : is_digest (test_digest b) = true.
Proof.
  unfold is_digest, test_digest. rewrite length_map, length_seq. change (64 =? 64)%nat with true.
  rewrite andb_true_l. apply forallb_forall. intros x (i & <- & _)%in_map_iff.
  apply hex_digit_lower. apply Z.mod_pos_bound. lia.
Qed.

#[export] Instance test_host_laws : HostLaws test_host.
Proof.
  split; [done|done| |exact test_digest_is_digest].
  intros c Hc. unfold decimal_digit, test_host, ascii_digit. destruct ((48 <=? c) && (c <=? 57)) eqn:E; [done|lia].
Qed.

Lemma dset_same {V} (d : list (ustr * V)) k v : dget d k = Some v -> dset d k v = d.
Proof.
  induction d as [|[k' v'] d IH]; simpl; [done|]. destruct (ueqb k' k).
  - by intros [= ->].
  - intros. f_equal. auto.
Qed.

Lemma py_eqb_int (x y : Z) : py_eqb (PInt x) (PInt y) = (x =? y).
Proof.
  simpl. unfold num_eqb, parts_eqb. simpl. by rewrite !Z.mul_1_r.
Qed.

Lemma py_wf_dget (d : pydict) k v : py_wf (PDict d) = true -> dget d k = Some v -> py_wf v = true.
Proof.
  simpl. intros [_ Hf]%andb_true_iff Hg%dget_Some_elem. rewrite forallb_forall in Hf.
  apply list_elem_of_In in Hg. exact (Hf _ Hg).
Qed.

Lemma py_wf_dict (d : pydict) : py_wf (PDict d) = true -> dict_wf d.
Proof. simpl. intros [Hd _]%andb_true_iff. by apply bool_decide_eq_true in Hd. Qed.

Lemma py_wf_elem (l : list pyval) v : py_wf (PList l) = true -> v ∈ l -> py_wf v = true.
Proof. simpl. rewrite forallb_forall. intros Hf Hv. apply Hf. by apply list_elem_of_In. Qed.

(** ** When digests are defined

    [digestible v] says that [canonical_json] returns: every text in [v] is encodable and
    every number finite. *)
Section digestible.
Context `{Host}.

Definition digestible (v : pyval) : Prop := exists t, json_text v = Ok t /\ encodable t.

Lemma digestible_digest v : digestible v -> exists b, canonical_json v = Ok b /\ stable_digest v = Ok (sha256_hex b).
Proof.
  intros (t & Ht & b & Hb). exists b. unfold stable_digest, canonical_json. rewrite Ht. simpl. by rewrite Hb.
Qed.

Lemma json_escape_encodable c : encodable [c] -> encodable (json_escape c).
Proof.
  intros Hc. unfold json_escape.
  destruct (c =? 34), (c =? 92), (c =? 10), (c =? 13), (c =? 9), (c =? 12), (c =? 8); try (by eexists).
  destruct (c <? 32) eqn:E; [|done]. apply encodable_ascii. destruct Hc as [b Hb]. cbn [utf8_encode] in Hb.
  apply rbind_Ok in Hb as (cb & Hcb & _). unfold utf8_char in Hcb. destruct (c <? 0) eqn:?; [done|].
  assert (0 <= c / 16 < 16) by (split; [apply Z.div_pos; lia|apply Z.div_lt_upper_bound; lia]).
  assert (0 <= c mod 16 < 16) by (apply Z.mod_pos_bound; lia).
  repeat apply Forall_cons_2; [lia..|by apply hex_digit_ascii|by apply hex_digit_ascii|constructor].
Qed.

Lemma json_string_encodable s : encodable s -> encodable (json_string s).
Proof.
  intros Hs. unfold json_string. apply (encodable_app [34]); [by eexists|]. apply encodable_app; [|by eexists].
  apply encodable_concat. induction s as [|c s IH]; simpl; [constructor|].
  apply encodable_cons in Hs as [Hc Hs]. constructor; [by apply json_escape_encodable|by apply IH].
Qed.

Lemma digestible_none : digestible PNone.
Proof. exists (u "null"). split; [done|apply encodable_u]. Qed.

Lemma digestible_int z : digestible (PInt z).
Proof. exists (dec z). split; [done|apply encodable_dec]. Qed.

Lemma digestible_str s : encodable s -> digestible (PStr s).
Proof. intros Hs. eexists. split; [done|]. by apply json_string_encodable. Qed.

Lemma digestible_digest_str `{HL : !HostLaws _} v d : stable_digest v = Ok d -> digestible (PStr d).
Proof.
  intros (b & _ & [= <-])%rbind_Ok. apply digestible_str, encodable_ascii, sha256_ascii.
Qed.

Lemma mapM_json l : Forall digestible l -> exists ts, mapM json_text l = Ok ts /\ Forall encodable ts.
Proof.
  induction 1 as [|v l (t & Ht & Htt) _ (ts & Hts & Hf)]; [by exists []|].
  exists (t :: ts). simpl. rewrite Ht. simpl. rewrite Hts. split; [done|by constructor].
Qed.

Lemma brackets_encodable a l b : encodable [a] -> encodable [b] -> encodable l -> encodable (a :: l ++ [b]).
Proof. intros. apply (encodable_app [a]); [done|]. by apply encodable_app. Qed.

Lemma digestible_list l : Forall digestible l -> digestible (PList l).
Proof.
  intros (ts & Hts & Hf)%mapM_json. exists (91 :: str_join [44] ts ++ [93]). split; [simpl; by rewrite Hts|].
  apply brackets_encodable; [by eexists..|]. apply encodable_join; [by eexists|done].
Qed.

Lemma digestible_tuple l : Forall digestible l -> digestible (PTuple l).
Proof. exact (digestible_list l). Qed.

Lemma digestible_dict (d : pydict) : Forall (fun kv => encodable kv.1 /\ digestible kv.2) d -> digestible (PDict d).
Proof.
  intros Hd.
  assert (exists ts, mapM (fun kv => let* t := json_text kv.2 in Ok (kv.1, json_string kv.1 ++ 58 :: t)) d = Ok ts
          /\ Forall (fun p => encodable p.2) ts) as (ts & Hts & Hf).
  { induction Hd as [|[k v] d [Hk (t & Ht & Htt)] _ (ts & Hts & Hf)]; [by exists []|]. cbn [fst snd mapM] in *.
    rewrite Ht. cbn [rbind]. rewrite Hts. eexists. split; [done|]. constructor; [|done]. cbn [snd].
    apply encodable_app; [by apply json_string_encodable|]. by apply (encodable_app [58]); [eexists|]. }
  exists (123 :: str_join [44] (py_sorted (fun p q => str_le p.1 q.1) ts).*2 ++ [125]).
  split; [cbn [json_text]; by rewrite Hts|]. apply brackets_encodable; [by eexists..|].
  apply encodable_join; [by eexists|]. apply Forall_fmap. by rewrite py_sorted_perm.
Qed.
End digestible.

#[export] Hint Resolve digestible_none digestible_int digestible_str encodable_u encodable_nil : mkb.
