(* ===== verification/Txn.v ===== *)
(** * Transactions over a database

    The state and error monad of all transactions: a function of the database that returns a
    value and the new database, or raises and leaves the old one.  [S] is the type of the
    database.  The file also has the loops and row selections that transactions share, the
    rules for what a transaction keeps, and tables whose rows only evolve. *)

From S2P Require Import Prelude PyText PyValue.

Open Scope Z_scope.
Open Scope mkb_scope.

Definition txn (S A : Type) : Type := S -> result (A * S).

Section transactions.
Context {S : Type}.

Definition ret {A} (a : A) : txn S A := fun d => Ok (a, d).
Definition raise {A} (e : exn) : txn S A := fun _ => Err e.
Definition bind {A B} (m : txn S A) (k : A -> txn S B) : txn S B :=
  fun d => let* r := m d in k r.1 r.2.
Definition gets {A} (f : S -> A) : txn S A := fun d => Ok (f d, d).
Definition modify (f : S -> S) : txn S unit := fun d => Ok (tt, f d).
Definition lift {A} (r : result A) : txn S A := fun d => let* a := r in Ok (a, d).
Definition require (b : bool) (e : exn) : txn S unit := lift (ensure b e).
End transactions.

Notation "'let!' x := m 'in' k" := (bind m (fun x => k)) (at level 10, x name, m at level 100, k at level 200) : mkb_scope.
Notation "m ;! k" := (bind m (fun _ => k)) (at level 60, right associativity) : mkb_scope.

Section loops.
Context {S A : Type}.

Section count.
Variable f : A -> txn S bool.
(** A loop that counts the calls that returned [True]. *)
Fixpoint count_loop (xs : list A) : txn S Z :=
  match xs with
  | [] => ret 0
  | x :: xs =>
      let! b := f x in
      let! n := count_loop xs in
      ret ((if b : bool then 1 else 0) + n)
  end.
(** [for x in xs: changed = f(x) or changed] *)
Fixpoint any_loop (xs : list A) : txn S bool :=
  match xs with
  | [] => ret false
  | x :: xs =>
      let! b := f x in
      let! changed := any_loop xs in
      ret (b || changed)
  end.
End count.

Section sum.
Variable f : A -> txn S Z.
(** [for x in xs: total += f(x)] *)
Fixpoint sum_loop (xs : list A) : txn S Z :=
  match xs with
  | [] => ret 0
  | x :: xs => let! n := f x in let! m := sum_loop xs in ret (n + m)
  end.
End sum.
End loops.

(** Rows in the order of their primary key. *)
Definition key_le {A} (a b : ustr * A) : bool := str_le a.1 b.1.
Definition rows_where {A} (f : ustr -> A -> bool) (m : gmap ustr A) : list (ustr * A) :=
  py_sorted key_le (List.filter (fun kv => f kv.1 kv.2) (map_to_list m)).
Definition count_rows {A} (f : ustr -> A -> bool) (m : gmap ustr A) : Z := Z.of_nat (length (rows_where f m)).

(** ** Properties of transactions *)

Section hoare.
Context {S : Type}.
Implicit Types (R : S -> S -> Prop).

(** Every successful run of [m] relates the databases before and after. *)
Definition keeps {A} R (m : txn S A) : Prop := forall d a d', m d = Ok (a, d') -> R d d'.
(** [m] does not write. *)
Definition reads {A} (m : txn S A) : Prop := forall d a d', m d = Ok (a, d') -> d' = d.

Lemma bind_Ok {A B} (m : txn S A) (k : A -> txn S B) d b d' :
  bind m k d = Ok (b, d') <-> exists a d1, m d = Ok (a, d1) /\ k a d1 = Ok (b, d').
Proof.
  unfold bind. rewrite rbind_Ok. split.
  - intros ([a d1] & ? & ?). by exists a, d1.
  - intros (a & d1 & ? & ?). by exists (a, d1).
Qed.

Lemma lift_Ok {A} (r : result A) (d : S) a d' : lift r d = Ok (a, d') <-> r = Ok a /\ d' = d.
Proof. unfold lift. destruct r; simpl; split; [intros [= -> ->]; done|intros [[= ->] ->]; done|done|by intros [? _]]. Qed.

Lemma require_Ok b e (d : S) x d' : require b e d = Ok (x, d') <-> b = true /\ d' = d.
Proof. unfold require. rewrite lift_Ok, ensure_Ok. done. Qed.

Lemma reads_ret {A} (a : A) : reads (ret a).
Proof. by intros d ? ? [= _ ->]. Qed.
Lemma reads_raise {A} e : reads (raise (A := A) e).
Proof. by intros d ? ?. Qed.
Lemma reads_gets {A} (f : S -> A) : reads (gets f).
Proof. by intros d ? ? [= _ ->]. Qed.
Lemma reads_lift {A} (r : result A) : reads (lift r).
Proof. intros d ? ? [_ ->]%lift_Ok. done. Qed.
Lemma reads_require b e : reads (require b e).
Proof. apply reads_lift. Qed.
Lemma reads_bind {A B} (m : txn S A) (k : A -> txn S B) : reads m -> (forall a, reads (k a)) -> reads (bind m k).
Proof. intros Hm Hk d b d' (a & d1 & Ha%Hm & Hb%Hk)%bind_Ok. congruence. Qed.

Section preorder.
Context R `{!PreOrder R}.

Lemma keeps_reads {A} (m : txn S A) : reads m -> keeps R m.
Proof. intros Hm d a d' ->%Hm. reflexivity. Qed.
Lemma keeps_bind {A B} (m : txn S A) (k : A -> txn S B) : keeps R m -> (forall a, keeps R (k a)) -> keeps R (bind m k).
Proof. intros Hm Hk d b d' (a & d1 & Ha & Hb)%bind_Ok. etrans; [by eapply Hm|by eapply Hk]. Qed.
Lemma keeps_modify (f : S -> S) : (forall d, R d (f d)) -> keeps R (modify f).
Proof. intros Hf d a d' [= _ <-]. apply Hf. Qed.

(** The loops of the engine, with what the rows that were read know of the current state. *)
Lemma count_loop_keeps {A} (f : A -> txn S bool) xs d n d' :
  (forall x d1 b d2, x ∈ xs -> R d d1 -> f x d1 = Ok (b, d2) -> R d1 d2) ->
  count_loop f xs d = Ok (n, d') -> R d d'.
Proof.
  enough (forall d1, (forall x d1 b d2, x ∈ xs -> R d d1 -> f x d1 = Ok (b, d2) -> R d1 d2) -> R d d1 ->
                     count_loop f xs d1 = Ok (n, d') -> R d d') as Hgen.
  { intros Hf Hc. apply (Hgen d); [done|reflexivity|done]. }
  revert n. induction xs as [|x xs IH]; intros n d1 Hf H1 Hc; simpl in Hc.
  - injection Hc as _ <-. done.
  - apply bind_Ok in Hc as (b & d2 & Hx & Hc). apply bind_Ok in Hc as (n' & d3 & Hl & Hc). injection Hc as _ <-.
    eapply IH; [|by etrans; [exact H1|eapply Hf; [left|done|done]]|exact Hl].
    intros y d4 b' d5 Hy. apply Hf. by right.
Qed.

Lemma keeps_count_loop {A} (f : A -> txn S bool) xs : (forall x, keeps R (f x)) -> keeps R (count_loop f xs).
Proof. intros Hf d n d'. apply count_loop_keeps. intros x d1 b d2 _ _. apply Hf. Qed.

Lemma keeps_any_loop {A} (f : A -> txn S bool) xs : (forall x, keeps R (f x)) -> keeps R (any_loop f xs).
Proof.
  intros Hf. induction xs as [|x xs IH]; simpl; [apply keeps_reads, reads_ret|].
  apply keeps_bind; [apply Hf|]. intros b. apply keeps_bind; [exact IH|]. intros c. apply keeps_reads, reads_ret.
Qed.

Lemma keeps_sum_loop {A} (f : A -> txn S Z) xs : (forall x, keeps R (f x)) -> keeps R (sum_loop f xs).
Proof.
  intros Hf. induction xs as [|x xs IH]; simpl; [apply keeps_reads, reads_ret|].
  apply keeps_bind; [apply Hf|]. intros b. apply keeps_bind; [exact IH|]. intros c. apply keeps_reads, reads_ret.
Qed.
End preorder.

Lemma bind_run {A B} (m : txn S A) (k : A -> txn S B) d a d1 : m d = Ok (a, d1) -> bind m k d = k a d1.
Proof. intros Hm. unfold bind. by rewrite Hm. Qed.
Lemma lift_run {A} (r : result A) a (d : S) : r = Ok a -> lift r d = Ok (a, d).
Proof. by intros ->. Qed.
End hoare.

#[export] Hint Resolve reads_ret reads_raise reads_gets reads_lift reads_require reads_bind : mkb.


Lemma rows_where_elem {A} (f : ustr -> A -> bool) (m : gmap ustr A) k a :
  (k, a) ∈ rows_where f m <-> m !! k = Some a /\ f k a = true.
Proof.
  unfold rows_where. rewrite py_sorted_perm, <-elem_of_map_to_list. rewrite !list_elem_of_In, filter_In. done.
Qed.

(** ** Tables that evolve *)

Section evolves.
Context {K A : Type} `{Countable K} (R : A -> A -> Prop) (B : A -> Prop).

(** Rows move by [R], are never deleted, and new rows satisfy [B]. *)
Definition evolves (m m' : gmap K A) : Prop := forall k,
  match m !! k, m' !! k with
  | Some a, Some a' => R a a'
  | Some _, None => False
  | None, Some a' => B a'
  | None, None => True
  end.

Lemma evolves_insert m k a a' : m !! k = Some a -> (forall a, R a a) -> R a a' -> evolves m (<[k := a']> m).
Proof.
  intros Hk Hr Ha j. destruct (decide (j = k)) as [->|Hj].
  - by rewrite Hk, lookup_insert_eq.
  - rewrite lookup_insert_ne by done. destruct (m !! j); auto.
Qed.

Lemma evolves_fresh m k a : m !! k = None -> (forall a, R a a) -> B a -> evolves m (<[k := a]> m).
Proof.
  intros Hk Hr Ha j. destruct (decide (j = k)) as [->|Hj].
  - by rewrite Hk, lookup_insert_eq.
  - rewrite lookup_insert_ne by done. destruct (m !! j); auto.
Qed.

Lemma evolves_fmap (f : A -> A) m : (forall k a, m !! k = Some a -> R a (f a)) -> evolves m (f <$> m).
Proof. intros Hf k. rewrite lookup_fmap. destruct (m !! k) eqn:E; simpl; eauto. Qed.

Lemma evolves_lookup m m' k a : evolves m m' -> m !! k = Some a -> exists a', m' !! k = Some a' /\ R a a'.
Proof. intros Hm Hk. specialize (Hm k). rewrite Hk in Hm. destruct (m' !! k); [eauto|done]. Qed.

Context `{!PreOrder R} (B_closed : forall a a', B a -> R a a' -> B a').

Lemma evolves_refl m : evolves m m.
Proof. intros k. destruct (m !! k); done. Qed.
Lemma evolves_trans m1 m2 m3 : evolves m1 m2 -> evolves m2 m3 -> evolves m1 m3.
Proof.
  intros H1 H2 k. specialize (H1 k). specialize (H2 k).
  destruct (m1 !! k), (m2 !! k), (m3 !! k); try done; [by etrans|by eapply B_closed].
Qed.
End evolves.
