(* ===== verification/PyFloat.v ===== *)
(** * Floating point numbers of Python

    Binary64 arithmetic over [spec_float], the executable definition of IEEE 754 of the
    Standard Library: the operations that the sources apply to scores and vectors, [math.fsum]
    as CPython computes it, conversions, and the order of sort keys. *)

From S2P Require Import Prelude PyText PyValue.
From Stdlib Require Import SpecFloat.

Open Scope Z_scope.
Open Scope mkb_scope.

Abbreviation float := spec_float.

Definition fadd : float -> float -> float := SFadd 53 1024.
Definition fsub : float -> float -> float := SFsub 53 1024.
Definition fmul : float -> float -> float := SFmul 53 1024.
Definition fsqrt : float -> float := SFsqrt 53 1024.
Definition fneg : float -> float := SFopp.
Definition fabs : float -> float := SFabs.
Definition flt (a b : float) : bool := SFltb a b.
Definition fle (a b : float) : bool := SFleb a b.
Definition feq (a b : float) : bool := SFeqb a b.
Definition fzero : float := S754_zero false.
Definition is_finite (f : float) : bool := match f with S754_zero _ | S754_finite _ _ _ => true | _ => false end.
Definition is_infinite (f : float) : bool := match f with S754_infinity _ => true | _ => false end.
Definition is_nan (f : float) : bool := match f with S754_nan => true | _ => false end.
Definition nonzero (f : float) : bool := negb (feq f fzero).

(** [m * 2 ^ e], rounded to nearest even. *)
Definition of_dyadic (m e : Z) : float := binary_normalize 53 1024 m e false.
Definition fone : float := of_dyadic 1 0.

(** [a / b] *)
Definition fdiv (a b : float) : result float :=
  if nonzero b then Ok (SFdiv 53 1024 a b) else Err ZeroDivisionError.
(** [math.sqrt] *)
Definition math_sqrt (a : float) : result float :=
  if flt a fzero then Err ValueError else Ok (fsqrt a).
(** [float(z)] of an [int]. *)
Definition float_of_int (z : Z) : result float :=
  let f := of_dyadic z 0 in if is_finite f then Ok f else Err OverflowError.

(** [float()] of a text, a primitive of the installation. *)
Class FloatText := { float_of_text : ustr -> option float }.
(** [float(v)] *)
Definition py_float `{FloatText} (v : pyval) : result float :=
  match v with
  | PFloat f => Ok f
  | PInt z => float_of_int z
  | PBool b => Ok (if b then fone else fzero)
  | PStr s => match float_of_text s with Some f => Ok f | None => Err ValueError end
  | _ => Err TypeError
  end.

(** ** [math.fsum] *)

(** One summand against the partial sums: the non-zero errors and the last rounded sum. *)
Fixpoint partials (x : float) (ps : list float) : list float * float :=
  match ps with
  | [] => ([], x)
  | y :: ps =>
      let '(x, y) := if flt (fabs x) (fabs y) then (y, x) else (x, y) in
      let hi := fadd x y in
      let lo := fsub y (fsub hi x) in
      let r := partials hi ps in
      (if nonzero lo then lo :: r.1 else r.1, r.2)
  end.

Record fsum_state := { fs_partials : list float; fs_special : float; fs_inf : float }.

Definition fsum_step (s : fsum_state) (x : float) : result fsum_state :=
  let '(ps, sum) := partials x (fs_partials s) in
  if nonzero sum then
    if is_finite sum then Ok (Build_fsum_state (ps ++ [sum]) (fs_special s) (fs_inf s))
    else if is_finite x then Err OverflowError
    else Ok (Build_fsum_state [] (fadd (fs_special s) x) (if is_infinite x then fadd (fs_inf s) x else fs_inf s))
  else Ok (Build_fsum_state ps (fs_special s) (fs_inf s)).

(** The partials from the largest down, until a sum is inexact; then the correction towards
    even. *)
Fixpoint fsum_round (hi : float) (ps : list float) : float :=
  match ps with
  | [] => hi
  | y :: ps =>
      let sum := fadd hi y in
      let lo := fsub y (fsub sum hi) in
      if nonzero lo then
        match ps with
        | p :: _ =>
            if flt lo fzero && flt p fzero || flt fzero lo && flt fzero p then
              let y := fadd lo lo in
              let x := fadd sum y in
              if feq y (fsub x sum) then x else sum
            else sum
        | [] => sum
        end
      else fsum_round sum ps
  end.

Definition fsum (xs : list float) : result float :=
  let* s := foldM fsum_step (Build_fsum_state [] fzero fzero) xs in
  if nonzero (fs_special s) then
    if is_nan (fs_inf s) then Err ValueError else Ok (fs_special s)
  else Ok (match reverse (fs_partials s) with [] => fzero | hi :: ps => fsum_round hi ps end).

(** ** Binary32 *)

(** The value of 32 bits ([struct.unpack("<f")]). *)
Definition float_of_bits32 (b : Z) : float :=
  let s := Z.testbit b 31 in
  let e := Z.land (Z.shiftr b 23) 255 in
  let m := Z.land b 8388607 in
  let sign z := if s then - z else z in
  if e =? 255 then (if m =? 0 then S754_infinity s else S754_nan)
  else if e =? 0 then binary_normalize 53 1024 (sign m) (-149) s
  else of_dyadic (sign (m + 8388608)) (e - 150).
Fixpoint unpack_f32 (b : bytes) : option (list float) :=
  match b with
  | [] => Some []
  | b0 :: b1 :: b2 :: b3 :: b =>
      fs ← unpack_f32 b; Some (float_of_bits32 (b0 + 256 * b1 + 65536 * b2 + 16777216 * b3) :: fs)
  | _ => None
  end.

(** ** The order of finite numbers *)

(** Sign, exponent and mantissa, ordered lexicographically. *)
Definition fkey (f : float) : Z * Z * Z :=
  match f with
  | S754_finite true m e => (-1, - e, - Z.pos m)
  | S754_finite false m e => (1, e, Z.pos m)
  | _ => (0, 0, 0)
  end.
Definition klt (a b : Z * Z * Z) : bool :=
  (a.1.1 <? b.1.1) || (a.1.1 =? b.1.1) && ((a.1.2 <? b.1.2) || (a.1.2 =? b.1.2) && (a.2 <? b.2)).

Lemma pos_compare m n : Pos.compare_cont Eq m n = (m ?= n)%positive.
Proof. done. Qed.

Lemma SFcompare_key a b : is_finite a = true -> is_finite b = true ->
  SFcompare a b = Some (if klt (fkey a) (fkey b) then Lt else if klt (fkey b) (fkey a) then Gt else Eq).
Proof.
  destruct a as [sa|sa| |[] ma ea], b as [sb|sb| |[] mb eb]; try done; intros _ _; unfold klt; cbn; rewrite ?pos_compare;
    destruct (Z.compare_spec ea eb), (Pos.compare_spec ma mb); subst; repeat case_bool_decide; cbn;
    rewrite ?Z.eqb_refl, ?Z.ltb_irrefl; cbn;
    repeat match goal with |- context [?x <? ?y] => destruct (Z.ltb_spec x y); try lia; cbn | |- context [?x =? ?y] => destruct (Z.eqb_spec x y); try lia; cbn end;
    done.
Qed.

Lemma klt_trans a b c : klt a b = true -> klt b c = true -> klt a c = true.
Proof. destruct a as [[a1 a2] a3], b as [[b1 b2] b3], c as [[c1 c2] c3]. unfold klt. cbn. lia. Qed.
Lemma klt_total a b : klt a b = true \/ klt b a = true \/ a = b.
Proof.
  destruct a as [[a1 a2] a3], b as [[b1 b2] b3]. unfold klt. cbn.
  destruct (decide (a1 = b1)) as [->|]; [|lia]. destruct (decide (a2 = b2)) as [->|]; [|lia]. destruct (decide (a3 = b3)) as [->|]; [auto|lia].
Qed.
Lemma klt_irrefl a : klt a a = false.
Proof. destruct a as [[a1 a2] a3]. unfold klt. cbn. lia. Qed.
Lemma klt_asym a b : klt a b = true -> klt b a = false.
Proof. destruct a as [[a1 a2] a3], b as [[b1 b2] b3]. unfold klt. cbn. lia. Qed.

Lemma flt_key a b : is_finite a = true -> is_finite b = true -> flt a b = klt (fkey a) (fkey b).
Proof. intros Ha Hb. unfold flt, SFltb. rewrite SFcompare_key by done. destruct (klt _ _); [done|]. by destruct (klt _ _). Qed.
Lemma feq_key a b : is_finite a = true -> is_finite b = true -> feq a b = bool_decide (fkey a = fkey b).
Proof.
  intros Ha Hb. unfold feq, SFeqb. rewrite SFcompare_key by done. destruct (klt_total (fkey a) (fkey b)) as [H|[H|H]].
  - rewrite H, bool_decide_eq_false_2; [done|]. intros E. by rewrite E, klt_irrefl in H.
  - rewrite (klt_asym _ _ H), H, bool_decide_eq_false_2; [done|]. intros E. by rewrite E, klt_irrefl in H.
  - by rewrite H, klt_irrefl, bool_decide_eq_true_2.
Qed.

(** ** Sort keys [(-score, text)] *)

Definition str_lt (a b : ustr) : bool := negb (str_le b a).
(** [(-a.score, a.text) < (-b.score, b.text)] for finite scores. *)
Definition rank_lt (a b : float * ustr) : bool := if feq a.1 b.1 then str_lt a.2 b.2 else flt b.1 a.1.
(** The order of a stable sort. *)
Definition rank_le (a b : float * ustr) : bool := negb (rank_lt b a).

Lemma rank_le_key a b : is_finite a.1 = true -> is_finite b.1 = true ->
  rank_le a b = klt (fkey b.1) (fkey a.1) || bool_decide (fkey a.1 = fkey b.1) && str_le a.2 b.2.
Proof.
  intros Ha Hb. unfold rank_le, rank_lt, str_lt. rewrite feq_key, flt_key by done.
  destruct (klt_total (fkey a.1) (fkey b.1)) as [H|[H|H]].
  - assert (fkey a.1 <> fkey b.1) as Hne by (intros E; by rewrite E, klt_irrefl in H).
    rewrite H, (klt_asym _ _ H), !bool_decide_eq_false_2 by done. done.
  - assert (fkey a.1 <> fkey b.1) as Hne by (intros E; by rewrite E, klt_irrefl in H).
    rewrite H, (klt_asym _ _ H), !bool_decide_eq_false_2 by done. done.
  - rewrite H, klt_irrefl, !bool_decide_eq_true_2 by done. cbn. by rewrite negb_involutive.
Qed.

Lemma rank_le_total a b : is_finite a.1 = true -> is_finite b.1 = true -> rank_le a b = true \/ rank_le b a = true.
Proof.
  intros Ha Hb. rewrite !rank_le_key by done. destruct (klt_total (fkey a.1) (fkey b.1)) as [-> |[-> | ->]]; [by right|by left|].
  rewrite klt_irrefl, bool_decide_eq_true_2 by done. cbn. destruct (str_le_total a.2 b.2) as [-> | ->]; [by left|by right].
Qed.
Lemma rank_le_trans a b c : is_finite a.1 = true -> is_finite b.1 = true -> is_finite c.1 = true ->
  rank_le a b = true -> rank_le b c = true -> rank_le a c = true.
Proof.
  intros Ha Hb Hc. rewrite !rank_le_key by done. rewrite !orb_true_iff, !andb_true_iff, !bool_decide_eq_true.
  intros [H1|[E1 H1]] [H2|[E2 H2]].
  - left. by eapply klt_trans.
  - left. by rewrite <-E2.
  - left. by rewrite E1.
  - right. split; [congruence|]. by eapply str_le_trans.
Qed.
Lemma rank_le_antisym a b : is_finite a.1 = true -> is_finite b.1 = true ->
  rank_le a b = true -> rank_le b a = true -> fkey a.1 = fkey b.1 /\ a.2 = b.2.
Proof.
  intros Ha Hb. rewrite !rank_le_key by done. rewrite !orb_true_iff, !andb_true_iff, !bool_decide_eq_true.
  intros [H1|[E1 H1]] [H2|[E2 H2]].
  - by rewrite (klt_asym _ _ H1) in H2.
  - by rewrite E2, klt_irrefl in H1.
  - by rewrite E1, klt_irrefl in H2.
  - split; [done|]. by apply str_le_antisym.
Qed.

(** ** Sorting where the order is total *)

Section sorted_on.
Context {A : Type} (le : A -> A -> bool) (P : A -> Prop).
Context (le_total : forall x y, P x -> P y -> le x y = true \/ le y x = true)
        (le_trans : forall x y z, P x -> P y -> P z -> le x y = true -> le y z = true -> le x z = true).

Lemma sort_insert_sorted_on x l : P x -> Forall P l ->
  StronglySorted (fun a b => le a b = true) l -> StronglySorted (fun a b => le a b = true) (sort_insert le x l).
Proof.
  intros Hx Hl Hs. induction Hs as [|y l Hs IH Hy]; simpl; [repeat constructor|]. apply Forall_cons in Hl as [Hpy Hl].
  destruct (le x y) eqn:E.
  - constructor; [by constructor|]. constructor; [done|]. rewrite Forall_forall in *. intros z Hz. eapply le_trans; [done|exact Hpy|by apply Hl|done|by apply Hy].
  - constructor; [by apply IH|]. rewrite sort_insert_perm. constructor; [|done]. destruct (le_total x y); [done..|congruence|done].
Qed.
Lemma py_sorted_on l : Forall P l -> StronglySorted (fun a b => le a b = true) (py_sorted le l).
Proof.
  induction 1 as [|x l Hx Hl IH]; simpl; [constructor|]. apply sort_insert_sorted_on; [done| |done]. by rewrite py_sorted_perm.
Qed.
End sorted_on.

Lemma rank_sorted {A} (f : A -> float * ustr) l : Forall (fun a => is_finite (f a).1 = true) l ->
  StronglySorted (fun a b => rank_le (f a) (f b) = true) (py_sorted (fun a b => rank_le (f a) (f b)) l).
Proof.
  apply py_sorted_on; intros; [by apply rank_le_total|by eapply (rank_le_trans (f x) (f y))].
Qed.

(** Earlier in a ranking means no smaller a score. *)
Lemma rank_le_fle a b : is_finite a.1 = true -> is_finite b.1 = true -> rank_le a b = true -> fle b.1 a.1 = true.
Proof.
  intros Ha Hb. rewrite rank_le_key by done. unfold fle, SFleb. rewrite SFcompare_key by done.
  rewrite orb_true_iff, andb_true_iff, bool_decide_eq_true. intros [-> |[-> _]]; [done|]. by rewrite klt_irrefl.
Qed.
