(* ===== verification/Json.v ===== *)
(** * Reading JSON

    [json.loads] of the Python standard library on a text, with the hooks that the sources pass
    to it: what reads back the documents that [canonical_json] of [contracts/common/ids.py]
    writes.  The theorem is the round trip of the two. *)

From Stdlib Require Import SpecFloat.
From S2P Require Import Prelude PyText PyValue PyFloat.

Open Scope Z_scope.
Open Scope mkb_scope.

(** ** Tokens *)

Definition is_ws (c : Z) : bool := (c =? 32) || (c =? 9) || (c =? 10) || (c =? 13).
Fixpoint skip_ws (s : ustr) : ustr :=
  match s with c :: s' => if is_ws c then skip_ws s' else s | [] => [] end.

Definition json_hex (c : Z) : option Z :=
  if (48 <=? c) && (c <=? 57) then Some (c - 48)
  else if (97 <=? c) && (c <=? 102) then Some (c - 87)
  else if (65 <=? c) && (c <=? 70) then Some (c - 55)
  else None.
Definition hex4 (a b c d : Z) : option Z :=
  a ← json_hex a; b ← json_hex b; c ← json_hex c; d ← json_hex d; Some (((a * 16 + b) * 16 + c) * 16 + d).
Definition is_high (z : Z) : bool := (55296 <=? z) && (z <=? 56319).
Definition is_low (z : Z) : bool := (56320 <=? z) && (z <=? 57343).
Definition join_surrogates (h l : Z) : Z := 65536 + (h - 55296) * 1024 + (l - 56320).

(** The character behind a backslash, [u] aside. *)
Definition unescape (c : Z) : option Z :=
  if (c =? 34) || (c =? 92) || (c =? 47) then Some c
  else if c =? 98 then Some 8
  else if c =? 102 then Some 12
  else if c =? 110 then Some 10
  else if c =? 114 then Some 13
  else if c =? 116 then Some 9
  else None.

Definition push (c : Z) (r : result (ustr * ustr)) : result (ustr * ustr) := let* x := r in Ok (c :: x.1, x.2).

(** A text behind its opening quote, and what follows its closing quote. *)
Fixpoint scan_string (s : ustr) : result (ustr * ustr) :=
  match s with
  | [] => Err ValueError
  | c :: r =>
      if c =? 34 then Ok ([], r)
      else if c =? 92 then
        match r with
        | [] => Err ValueError
        | e :: r =>
            if e =? 117 then
              match r with
              | h1 :: h2 :: h3 :: h4 :: r1 =>
                  match hex4 h1 h2 h3 h4 with
                  | None => Err ValueError
                  | Some z =>
                      match r1 with
                      | x :: y :: l1 :: l2 :: l3 :: l4 :: r2 =>
                          if is_high z && (x =? 92) && (y =? 117) then
                            match hex4 l1 l2 l3 l4 with
                            | None => Err ValueError
                            | Some w => if is_low w then push (join_surrogates z w) (scan_string r2) else push z (scan_string r1)
                            end
                          else push z (scan_string r1)
                      | _ => push z (scan_string r1)
                      end
                  end
              | _ => Err ValueError
              end
            else match unescape e with Some x => push x (scan_string r) | None => Err ValueError end
        end
      else if c <? 32 then Err ValueError
      else push c (scan_string r)
  end.

Definition digit (c : Z) : bool := (48 <=? c) && (c <=? 57).
Fixpoint scan_digits (s : ustr) : ustr * ustr :=
  match s with
  | c :: r => if digit c then let x := scan_digits r in (c :: x.1, x.2) else ([], s)
  | [] => ([], [])
  end.
(** A fraction and an exponent, empty where the text has none. *)
Definition scan_fraction (s : ustr) : ustr * ustr :=
  match s with
  | c :: r => if c =? 46 then match scan_digits r with ([], _) => ([], s) | (ds, r) => (c :: ds, r) end else ([], s)
  | [] => ([], [])
  end.
Definition scan_exponent (s : ustr) : ustr * ustr :=
  match s with
  | e :: r =>
      if (e =? 101) || (e =? 69) then
        let '(sign, r) := match r with c :: r' => if (c =? 43) || (c =? 45) then ([c], r') else ([], r) | [] => ([], []) end in
        match scan_digits r with ([], _) => ([], s) | (ds, r) => (e :: sign ++ ds, r) end
      else ([], s)
  | [] => ([], [])
  end.
(** The digits before the fraction: no leading zero. *)
Definition scan_whole (s : ustr) : option (ustr * ustr) :=
  match s with
  | c :: r => if c =? 48 then Some ([c], r) else if digit c then Some (scan_digits s) else None
  | [] => None
  end.

(** CPython's limit on the digits of an integer text. *)
Definition MAX_INT_DIGITS : Z := 4300.

Section json.
Context {F : FloatText}.

Definition scan_number (s : ustr) : result (pyval * ustr) :=
  let '(sign, body) := match s with c :: r => if c =? 45 then ([c], r) else ([], s) | [] => ([], []) end in
  match scan_whole body with
  | None => Err ValueError
  | Some (ds, r) =>
      let '(fraction, r) := scan_fraction r in
      let '(exponent, r) := scan_exponent r in
      match fraction ++ exponent with
      | [] =>
          check Z.of_nat (length ds) <=? MAX_INT_DIGITS else ValueError ;;
          Ok (PInt (match sign with [] => numeral ds | _ => - numeral ds end), r)
      | tail =>
          match float_of_text (sign ++ ds ++ tail) with
          | Some f => Ok (PFloat f, r)
          | None => Err ValueError
          end
      end
  end.

(** ** Documents *)

(** The arguments [object_pairs_hook] and [parse_constant]. *)
Record hooks := { on_pairs : list (ustr * pyval) -> result pydict; on_constant : ustr -> result pyval }.

Definition expect (c : Z) (s : ustr) : result ustr :=
  match s with x :: r => if x =? c then Ok r else Err ValueError | [] => Err ValueError end.

(** The members of an object, at a key, and the items of a list, at a value; [n] bounds their
    number by the length of the text. *)
Section containers.
Variable value : ustr -> result (pyval * ustr).
Fixpoint members (n : nat) (s : ustr) : result (list (ustr * pyval) * ustr) :=
  match n with
  | O => Err ValueError
  | S n =>
      let* s := expect 34 s in
      let* k := scan_string s in
      let* s := expect 58 (skip_ws k.2) in
      let* v := value (skip_ws s) in
      match skip_ws v.2 with
      | c :: r =>
          if c =? 125 then Ok ([(k.1, v.1)], r)
          else if c =? 44 then let* rest := members n (skip_ws r) in Ok ((k.1, v.1) :: rest.1, rest.2)
          else Err ValueError
      | [] => Err ValueError
      end
  end.
Fixpoint items (n : nat) (s : ustr) : result (list pyval * ustr) :=
  match n with
  | O => Err ValueError
  | S n =>
      let* v := value s in
      match skip_ws v.2 with
      | c :: r =>
          if c =? 93 then Ok ([v.1], r)
          else if c =? 44 then let* rest := items n (skip_ws r) in Ok (v.1 :: rest.1, rest.2)
          else Err ValueError
      | [] => Err ValueError
      end
  end.
Definition object_body (s : ustr) : result (list (ustr * pyval) * ustr) :=
  match skip_ws s with
  | c :: r => if c =? 125 then Ok ([], r) else members (length s) (c :: r)
  | [] => Err ValueError
  end.
Definition list_body (s : ustr) : result (list pyval * ustr) :=
  match skip_ws s with
  | c :: r => if c =? 93 then Ok ([], r) else items (length s) (c :: r)
  | [] => Err ValueError
  end.
End containers.

Definition after (word : string) (s : ustr) : option ustr :=
  if starts_with (u word) s then Some (drop (length (u word)) s) else None.

(** One value; [depth] is how many containers the interpreter still lets it open. *)
Fixpoint scan (h : hooks) (depth : nat) (s : ustr) : result (pyval * ustr) :=
  match s with
  | [] => Err ValueError
  | c :: r =>
      if c =? 34 then let* x := scan_string r in Ok (PStr x.1, x.2)
      else if c =? 123 then
        match depth with
        | O => Err RecursionError
        | S depth => let* ps := object_body (scan h depth) r in let* d := on_pairs h ps.1 in Ok (PDict d, ps.2)
        end
      else if c =? 91 then
        match depth with
        | O => Err RecursionError
        | S depth => let* l := list_body (scan h depth) r in Ok (PList l.1, l.2)
        end
      else match after "null" s, after "true" s, after "false" s, after "NaN" s, after "Infinity" s, after "-Infinity" s with
           | Some r, _, _, _, _, _ => Ok (PNone, r)
           | _, Some r, _, _, _, _ => Ok (PBool true, r)
           | _, _, Some r, _, _, _ => Ok (PBool false, r)
           | _, _, _, Some r, _, _ => let* v := on_constant h (u "NaN") in Ok (v, r)
           | _, _, _, _, Some r, _ => let* v := on_constant h (u "Infinity") in Ok (v, r)
           | _, _, _, _, _, Some r => let* v := on_constant h (u "-Infinity") in Ok (v, r)
           | _, _, _, _, _, _ => scan_number s
           end
  end.

(** [json.loads] of a text. *)
Definition json_loads (h : hooks) (depth : nat) (s : ustr) : result pyval :=
  check match s with c :: _ => negb (c =? 65279) | [] => true end else ValueError ;;
  let* x := scan h depth (skip_ws s) in
  check match skip_ws x.2 with [] => true | _ => false end else ValueError ;;
  Ok x.1.

(** Without hooks a later key overrides an earlier one. *)
Definition plain_hooks : hooks := {|
  on_pairs ps := Ok (foldl (fun d kv => dset d kv.1 kv.2) [] ps);
  on_constant c := Ok (PFloat (if ueqb c (u "NaN") then S754_nan else S754_infinity (ueqb c (u "-Infinity"))))
|}.
(** The hooks that reject a repeated key and a constant that is not a number. *)
Definition strict_hooks : hooks := {|
  on_pairs ps := foldM (fun d kv => check negb (dmem d kv.1) else ValueError ;; Ok (dset d kv.1 kv.2)) [] ps;
  on_constant _ := Err ValueError
|}.
End json.
