(* ===== verification/JsonLaws.v ===== *)
(** * Documents read back

    Theorems about [Json.v]: what [canonical_json] writes, [json.loads] reads back, up to the
    order of the keys and the difference between a tuple and a list. *)

From stdpp Require Import pretty.
From S2P Require Import Prelude PyText PyValue PyFloat Json.

Open Scope Z_scope.
Open Scope mkb_scope.

(** ** Values without floats *)

(** The values whose canonical text is read back: no float, no integer beyond the digits that
    the interpreter converts, no key twice. *)
Fixpoint readable (v : pyval) : bool :=
  match v with
  | PNone | PBool _ => true
  | PInt z => Z.of_nat (length (dec_N (Z.to_N (Z.abs z)))) <=? MAX_INT_DIGITS
  | PFloat _ => false
  | PStr s => forallb (fun c => 0 <=? c) s
  | PList l | PTuple l => forallb readable l
  | PDict d => bool_decide (NoDup d.*1) && forallb (fun kv => forallb (fun c => 0 <=? c) kv.1 && readable kv.2) d
  end.

Definition key_le {A B} (p : ustr * A) (q : ustr * B) : bool := str_le p.1 q.1.

(** What reading the canonical text returns: keys in order, lists for tuples. *)
Fixpoint reread (v : pyval) : pyval :=
  match v with
  | PList l | PTuple l => PList (map reread l)
  | PDict d => PDict (py_sorted key_le (map (fun kv => (kv.1, reread kv.2)) d))
  | v => v
  end.

(** How deep containers are nested. *)
Fixpoint height (v : pyval) : nat :=
  match v with
  | PList l | PTuple l => S (foldr max O (map height l))
  | PDict d => S (foldr max O (map (fun kv => height kv.2) d))
  | _ => O
  end.

(** ** Sorting related lists *)

Lemma sort_insert_related {A B} (R : A -> B -> Prop) (le : A -> A -> bool) (le' : B -> B -> bool) x x' l l' :
  (forall a a' b b', R a a' -> R b b' -> le a b = le' a' b') -> R x x' -> Forall2 R l l' ->
  Forall2 R (sort_insert le x l) (sort_insert le' x' l').
Proof.
  intros Hle Hx. induction 1 as [|y y' l l' Hy Hl IH]; cbn; [by repeat constructor|].
  rewrite (Hle x x' y y') by done. by destruct (le' x' y'); repeat constructor.
Qed.
Lemma py_sorted_related {A B} (R : A -> B -> Prop) (le : A -> A -> bool) (le' : B -> B -> bool) l l' :
  (forall a a' b b', R a a' -> R b b' -> le a b = le' a' b') -> Forall2 R l l' -> Forall2 R (py_sorted le l) (py_sorted le' l').
Proof. intros Hle. induction 1; cbn; [constructor|]. by apply sort_insert_related. Qed.

(** ** Digits *)

Lemma scan_digits_spec ds r :
  Forall is_digit ds -> match r with c :: _ => digit c = false | [] => True end -> scan_digits (ds ++ r) = (ds, r).
Proof.
  intros Hd Hr. induction Hd as [|c ds Hc Hd IH].
  - cbn [app]. destruct r as [|c r]; [done|]. cbn. by rewrite Hr.
  - cbn. replace (digit c) with true by (unfold digit, is_digit in *; lia). by rewrite IH.
Qed.

(** No canonical number starts with a superfluous zero. *)
Lemma pretty_N_go_head x : forall s, (0 < x)%N -> exists c t, codes (pretty_N_go x s) = c :: t /\ 49 <= c <= 57.
Proof.
  induction x as [x IH] using (well_founded_induction N.lt_wf_0). intros s Hx.
  rewrite pretty_N_go_step by done. destruct (decide (0 < x / 10)%N) as [Hq|Hq].
  - apply IH; [apply N.div_lt; lia|done].
  - assert (x / 10 = 0)%N as E by (apply N.nlt_ge in Hq; by apply N.le_0_r). rewrite E. apply N.div_small_iff in E; [|done].
    rewrite N.mod_small by done. change (pretty_N_go 0 ?s) with s. unfold codes.
    cbn [String.list_ascii_of_string map]. do 2 eexists. split; [done|]. rewrite pretty_N_char_code by done. lia.
Qed.
Lemma dec_N_head n : dec_N n = [48] \/ exists c t, dec_N n = c :: t /\ 49 <= c <= 57.
Proof.
  destruct (decide (n = 0%N)) as [->|Hn]; [by left|right].
  destruct (dec_N_spec n) as [_ Hd]. unfold dec_N in *.
  destruct (pretty_N_go_head n "" ltac:(lia)) as (c & t & E & Hc).
  exists c, t. split; [|done]. rewrite u_ascii; unfold pretty, pretty_N; rewrite decide_False by done; [done|].
  destruct (pretty_N_go_numeral n "") as [_ H2]. eapply Forall_impl; [apply H2; constructor|]. unfold is_digit. cbn. lia.
Qed.

Lemma scan_whole_dec n r :
  match r with c :: _ => digit c = false | [] => True end -> scan_whole (dec_N n ++ r) = Some (dec_N n, r).
Proof.
  intros Hr. destruct (dec_N_spec n) as [_ Hd]. destruct (dec_N_head n) as [-> |(c & t & E & Hc)]; [done|].
  pose proof (scan_digits_spec (dec_N n) r Hd Hr) as Hs. rewrite E in *. cbn [app scan_whole] in *.
  replace (c =? 48) with false by lia. replace (digit c) with true by (unfold digit; lia). by rewrite Hs.
Qed.

(** What may follow a value: nothing that continues a number. *)
Definition ends_value (r : ustr) : Prop :=
  match r with c :: _ => digit c = false /\ c <> 46 /\ c <> 101 /\ c <> 69 | [] => True end.
Lemma ends_value_sep c r : c = 44 \/ c = 93 \/ c = 125 -> ends_value (c :: r).
Proof. unfold ends_value, digit. lia. Qed.
Lemma ends_value_digit r : ends_value r -> match r with c :: _ => digit c = false | [] => True end.
Proof. destruct r; [done|]. by intros [? _]. Qed.
Lemma scan_fraction_none r : ends_value r -> scan_fraction r = ([], r).
Proof. destruct r as [|c r]; [done|]. intros (_ & ? & _). cbn. by replace (c =? 46) with false by lia. Qed.
Lemma scan_exponent_none r : ends_value r -> scan_exponent r = ([], r).
Proof. destruct r as [|c r]; [done|]. intros (_ & _ & ? & ?). cbn. by replace ((c =? 101) || (c =? 69)) with false by lia. Qed.

Section numbers.
Context {F : FloatText}.
Lemma scan_number_dec z r :
  readable (PInt z) = true -> ends_value r -> scan_number (dec z ++ r) = Ok (PInt z, r).
Proof.
  cbn [readable]. intros Hz Hr. unfold scan_number, dec.
  assert (forall n, scan_whole (dec_N n ++ r) = Some (dec_N n, r)) as Hw by (intros; by apply scan_whole_dec, ends_value_digit).
  destruct (Z.ltb_spec z 0) as [Hneg|Hpos].
  - cbn [app]. change (45 =? 45) with true. cbn iota. rewrite Hw. cbn iota. rewrite scan_fraction_none by done. cbn iota.
    rewrite scan_exponent_none by done. cbn [app].
    replace (Z.abs z) with (- z) in Hz by lia. rewrite Hz. cbn [ensure rbind].
    rewrite (proj1 (dec_N_spec _)), Z2N.id by lia. by rewrite Z.opp_involutive.
  - specialize (Hw (Z.to_N z)). replace (Z.abs z) with z in Hz by lia.
    destruct (dec_N_head (Z.to_N z)) as [E|(c & t & E & Hc)].
    + rewrite E in *. cbn [app] in *. change (48 =? 45) with false. cbn iota. rewrite Hw. cbn iota.
      rewrite scan_fraction_none by done. cbn iota. rewrite scan_exponent_none by done. cbn [app].
      rewrite Hz. cbn [ensure rbind]. rewrite <-E, (proj1 (dec_N_spec _)), Z2N.id by lia. done.
    + rewrite E in *. cbn [app] in *. replace (c =? 45) with false by lia. cbn iota. rewrite Hw. cbn iota.
      rewrite scan_fraction_none by done. cbn iota. rewrite scan_exponent_none by done. cbn [app].
      rewrite Hz. cbn [ensure rbind]. rewrite <-E, (proj1 (dec_N_spec _)), Z2N.id by lia. done.
Qed.
End numbers.

(** ** Texts *)

Lemma json_hex_digit z : 0 <= z < 16 -> json_hex (hex_digit z) = Some z.
Proof.
  intros Hz. unfold json_hex, hex_digit. destruct (Z.ltb_spec z 10).
  - replace ((48 <=? 48 + z) && (48 + z <=? 57)) with true by lia. f_equal. lia.
  - replace ((48 <=? 87 + z) && (87 + z <=? 57)) with false by lia.
    replace ((97 <=? 87 + z) && (87 + z <=? 102)) with true by lia. f_equal. lia.
Qed.

Lemma scan_string_escape c s : 0 <= c -> scan_string (json_escape c ++ s) = push c (scan_string s).
Proof.
  intros Hc. unfold json_escape.
  destruct (Z.eqb_spec c 34) as [->|]; [done|]. destruct (Z.eqb_spec c 92) as [->|]; [done|].
  destruct (Z.eqb_spec c 10) as [->|]; [done|]. destruct (Z.eqb_spec c 13) as [->|]; [done|].
  destruct (Z.eqb_spec c 9) as [->|]; [done|]. destruct (Z.eqb_spec c 12) as [->|]; [done|].
  destruct (Z.eqb_spec c 8) as [->|]; [done|]. destruct (Z.ltb_spec c 32).
  - assert (hex4 48 48 (hex_digit (c / 16)) (hex_digit (c mod 16)) = Some c) as Hh.
    { unfold hex4. change (json_hex 48) with (Some 0). cbn [mbind option_bind].
      rewrite !json_hex_digit by (split; [apply Z.div_pos; lia|apply Z.div_lt_upper_bound; lia] || apply Z.mod_pos_bound; lia).
      cbn. f_equal. pose proof (Z.div_mod c 16 ltac:(lia)). lia. }
    cbn [app scan_string]. change (92 =? 34) with false. change (92 =? 92) with true. change (117 =? 117) with true. cbn iota.
    rewrite Hh. replace (is_high c) with false by (unfold is_high; lia). cbn [andb].
    by destruct s as [|? [|? [|? [|? [|? [|? ?]]]]]].
  - cbn [app scan_string]. replace (c =? 34) with false by lia. replace (c =? 92) with false by lia.
    by replace (c <? 32) with false by lia.
Qed.
Lemma scan_string_text s r : Forall (fun c => 0 <= c) s -> scan_string (concat (map json_escape s) ++ 34 :: r) = Ok (s, r).
Proof.
  induction 1 as [|c s Hc Hs IH]; [done|]. cbn [map concat]. rewrite <-app_assoc, scan_string_escape by done. by rewrite IH.
Qed.

(** ** Containers *)

Section containers.
Context {H : Host} {F : FloatText}.

Definition reads (value : ustr -> result (pyval * ustr)) (t : ustr) (v : pyval) : Prop :=
  (exists c r, t = c :: r /\ is_ws c = false /\ c <> 93 /\ c <> 125 /\ c < 128) /\ forall r, ends_value r -> value (t ++ r) = Ok (v, r).

Lemma skip_ws_cons c s : is_ws c = false -> skip_ws (c :: s) = c :: s.
Proof. cbn. by intros ->. Qed.

Lemma items_join value vs ts n r :
  Forall2 (reads value) ts vs -> ts <> [] -> (length ts <= n)%nat ->
  items value n (str_join [44] ts ++ 93 :: r) = Ok (vs, r).
Proof.
  intros Hr. revert n. induction Hr as [|t v ts vs [_ Hv] Hts IH]; intros n Hne Hn; [done|].
  destruct n as [|n]; [cbn in Hn; lia|]. cbn [items]. destruct ts as [|t2 ts].
  - inversion Hts; subst. cbn [str_join]. rewrite Hv by (apply ends_value_sep; lia). cbn [rbind fst snd].
    by rewrite skip_ws_cons.
  - inversion Hts as [|t2' v2 ts' vs' Ht2 Hts' E1 E2]; subst. cbn [str_join]. rewrite <-!app_assoc.
    rewrite Hv by (apply ends_value_sep; cbn; lia). cbn [rbind fst snd app]. rewrite skip_ws_cons by done. cbn [Z.eqb]. change (44 =? 93) with false. change (44 =? 44) with true. cbn iota.
    assert (forall x, skip_ws (str_join [44] (t2 :: ts) ++ x) = str_join [44] (t2 :: ts) ++ x) as Hws.
    { intros x. destruct Ht2 as [(c & q & -> & Hc & _) _]. destruct ts; cbn [str_join app]; by apply skip_ws_cons. }
    cbn [str_join] in Hws. rewrite Hws. cbn [str_join] in IH. rewrite IH; [done|done|cbn in *; lia].
Qed.

Definition member_text (k t : ustr) : ustr := json_string k ++ 58 :: t.
Definition reads_member value (p : ustr) (kv : ustr * pyval) : Prop :=
  exists t, p = member_text kv.1 t /\ Forall (fun c => 0 <= c) kv.1 /\ reads value t kv.2.

Lemma members_join value vs ts n r :
  Forall2 (reads_member value) ts vs -> ts <> [] -> (length ts <= n)%nat ->
  members value n (str_join [44] ts ++ 125 :: r) = Ok (vs, r).
Proof.
  intros Hr. revert n. induction Hr as [|p [k v] ts vs (t & -> & Hk & Ht & Hv) Hts IH]; intros n Hne Hn; [done|].
  cbn [fst snd] in *. destruct n as [|n]; [cbn in Hn; lia|].
  assert (forall q, members value (S n) (member_text k t ++ q) =
    let* x := value (t ++ q) in
    match skip_ws x.2 with
    | c :: r =>
        if c =? 125 then Ok ([(k, x.1)], r)
        else if c =? 44 then let* rest := members value n (skip_ws r) in Ok ((k, x.1) :: rest.1, rest.2)
        else Err ValueError
    | [] => Err ValueError
    end) as Hstep.
  { intros q. unfold member_text, json_string. cbn [members app expect]. change (34 =? 34) with true. cbn iota. cbn [rbind].
    rewrite <-!app_assoc. cbn [app]. rewrite scan_string_text by done. cbn [rbind fst snd].
    rewrite skip_ws_cons by done. cbn [expect]. change (58 =? 58) with true. cbn iota. cbn [rbind].
    destruct Ht as (c & t' & -> & Hc & _). cbn [app]. by rewrite (skip_ws_cons c). }
  destruct ts as [|t2 ts].
  - inversion Hts; subst. cbn [str_join]. rewrite Hstep, Hv by (apply ends_value_sep; lia). cbn [rbind fst snd].
    by rewrite skip_ws_cons.
  - inversion Hts as [|t2' v2 ts' vs' Ht2 Hts' E1 E2]; subst. cbn [str_join]. rewrite <-!app_assoc.
    rewrite Hstep, Hv by (apply ends_value_sep; cbn; lia). cbn [rbind fst snd app]. rewrite skip_ws_cons by done.
    change (44 =? 125) with false. change (44 =? 44) with true. cbn iota.
    assert (forall x, skip_ws (str_join [44] (t2 :: ts) ++ x) = str_join [44] (t2 :: ts) ++ x) as Hws.
    { intros x. destruct Ht2 as (t3 & -> & _). unfold member_text, json_string. destruct ts; cbn [str_join app]; by apply skip_ws_cons. }
    cbn [str_join] in Hws. rewrite Hws. cbn [str_join] in IH. rewrite IH; [done|done|cbn in *; lia].
Qed.

Lemma join_length {A} (R : ustr -> A -> Prop) ts (vs : list A) sep :
  (forall t v, R t v -> t <> []) -> Forall2 R ts vs -> (length ts <= length (str_join sep ts))%nat.
Proof.
  intros Hne. induction 1 as [|t v ts vs Ht Hts IH]; [cbn; lia|].
  assert (1 <= length t)%nat by (apply Hne in Ht; destruct t; [done|cbn; lia]).
  destruct ts; cbn [str_join length] in *; [lia|]. rewrite !length_app. cbn [str_join length] in IH. lia.
Qed.
Lemma reads_nonempty value t v : reads value t v -> t <> [].
Proof. by intros [(c & r & -> & _) _]. Qed.
Lemma reads_member_nonempty value t v : reads_member value t v -> t <> [].
Proof. by intros (t' & -> & _). Qed.

Lemma list_body_join value vs ts r :
  Forall2 (reads value) ts vs -> list_body value (str_join [44] ts ++ 93 :: r) = Ok (vs, r).
Proof.
  intros Hr. unfold list_body. destruct (decide (ts = [])) as [->|Hne]; [by inversion Hr|].
  pose proof (join_length _ _ _ [44] (reads_nonempty value) Hr) as Hlen.
  assert (exists c q, str_join [44] ts ++ 93 :: r = c :: q /\ is_ws c = false /\ c <> 93) as (c & q & E & Hc & H93).
  { destruct ts as [|t ts]; [done|]. inversion Hr as [|? ? ? ? [(c & t' & -> & Hc & H93 & _) _]]; subst.
    destruct ts; cbn [str_join app]; eauto. }
  assert (length (c :: q) = length (str_join [44] ts ++ 93 :: r)) as El by by rewrite E.
  rewrite E, skip_ws_cons by done. replace (c =? 93) with false by lia. rewrite <-E. apply items_join; [done|done|].
  rewrite length_app. lia.
Qed.
Lemma object_body_join value vs ts r :
  Forall2 (reads_member value) ts vs -> object_body value (str_join [44] ts ++ 125 :: r) = Ok (vs, r).
Proof.
  intros Hr. unfold object_body. destruct (decide (ts = [])) as [->|Hne]; [by inversion Hr|].
  pose proof (join_length _ _ _ [44] (reads_member_nonempty value) Hr) as Hlen.
  assert (exists q, str_join [44] ts ++ 125 :: r = 34 :: q) as (q & E).
  { destruct ts as [|t ts]; [done|]. inversion Hr as [|? ? ? ? (t' & -> & _)]; subst.
    unfold member_text, json_string. destruct ts; cbn [str_join app]; eauto. }
  rewrite E, skip_ws_cons by done. change (34 =? 125) with false. cbn iota. rewrite <-E. apply members_join; [done|done|].
  rewrite length_app. lia.
Qed.
End containers.

(** ** The round trip *)

Section roundtrip.
Context {H : Host} {F : FloatText}.

Lemma after_other word x w c r : u word = x :: w -> x <> c -> after word (c :: r) = None.
Proof. intros E Hc. unfold after. rewrite E. cbn [starts_with]. by replace (x =? c) with false by lia. Qed.

Lemma scan_number_at h depth c r :
  digit c = true \/ (c = 45 /\ exists d q, r = d :: q /\ digit d = true) -> scan h depth (c :: r) = scan_number (c :: r).
Proof.
  intros Hc. assert (c = 45 \/ 48 <= c <= 57) as Hrange by (unfold digit in Hc; lia).
  assert (after "-Infinity" (c :: r) = None) as Hinf.
  { destruct Hc as [Hd|(-> & d & q & -> & Hd)].
    - eapply after_other; [vm_compute; reflexivity|]. unfold digit in Hd. lia.
    - unfold after. change (u "-Infinity") with (45 :: 73 :: u "nfinity"). cbn [starts_with]. change (45 =? 45) with true. cbn [andb].
      replace (73 =? d) with false by (unfold digit in Hd; lia). done. }
  destruct depth; cbn [scan]; rewrite Hinf;
  replace (c =? 34) with false by lia; replace (c =? 123) with false by lia; replace (c =? 91) with false by lia;
  rewrite (after_other "null" 110 (u "ull")), (after_other "true" 116 (u "rue")), (after_other "false" 102 (u "alse")),
    (after_other "NaN" 78 (u "aN")), (after_other "Infinity" 73 (u "nfinity")) by (reflexivity || lia); done.
Qed.

Lemma reads_dec h depth z : readable (PInt z) = true -> reads (scan h depth) (dec z) (PInt z).
Proof.
  intros Hz. assert (exists c t, dec z = c :: t /\ (digit c = true \/ (c = 45 /\ exists d q, t = d :: q /\ digit d = true))) as (c & t & E & Hc).
  { unfold dec. destruct (z <? 0).
    - destruct (dec_N_head (Z.to_N (- z))) as [-> |(c & t & -> & Hc)]; do 2 eexists; (split; [done|right; split; [done|]]); do 2 eexists; (split; [done|]); unfold digit; lia.
    - destruct (dec_N_head (Z.to_N z)) as [-> |(c & t & -> & Hc)]; do 2 eexists; (split; [done|left]); unfold digit; lia. }
  split.
  - exists c, t. split; [done|]. destruct Hc as [Hd|(-> & _)]; [|done]. unfold digit in Hd. unfold is_ws. split_and!; lia.
  - intros r Hr. rewrite <-(scan_number_dec z r Hz Hr), E. cbn [app]. apply scan_number_at.
    destruct Hc as [Hd|(-> & d & q & -> & Hd)]; [by left|right]. cbn [app]. eauto.
Qed.

(** Hooks that return pairs without a repeated key as they are. *)
Definition keeps_pairs (h : hooks) : Prop := forall ps, NoDup ps.*1 -> on_pairs h ps = Ok ps.

Lemma texts_related (value : ustr -> result (pyval * ustr)) vs ts :
  Forall2 (fun v t => json_text v = Ok t) vs ts ->
  Forall (fun v => forall t, json_text v = Ok t -> reads value t (reread v)) vs -> Forall2 (reads value) ts (map reread vs).
Proof.
  intros Ht Hv. induction Ht as [|v t vs ts Hvt Hts IH]; [constructor|]. inversion Hv; subst. constructor; auto.
Qed.

Definition member_of (kv : ustr * pyval) : result (ustr * ustr) := let* t := json_text kv.2 in Ok (kv.1, json_string kv.1 ++ 58 :: t).
Lemma members_related (value : ustr -> result (pyval * ustr)) d ts :
  Forall2 (fun kv p => member_of kv = Ok p) d ts ->
  Forall (fun kv => Forall (fun c => 0 <= c) kv.1 /\ forall t, json_text kv.2 = Ok t -> reads value t (reread kv.2)) d ->
  Forall2 (fun p kv => p.1 = kv.1 /\ reads_member value p.2 kv) ts (map (fun kv => (kv.1, reread kv.2)) d).
Proof.
  intros Ht Hv. induction Ht as [|[k v] p d ts Hp Hts IH]; [constructor|]. inversion Hv as [|? ? [Hk Hkv] Hd]; subst.
  cbn [map]. constructor; [|by apply IH]. unfold member_of in Hp. cbn [fst snd] in *.
  apply rbind_Ok in Hp as (t & Hvt & [= <-]). split; [done|]. exists t. cbn. split_and!; [done|done|]. by apply Hkv.
Qed.

Lemma height_in (v : pyval) l n : v ∈ l -> (foldr max O (map height l) <= n)%nat -> (height v <= n)%nat.
Proof. induction 1 as [v l|v x l Hv IH]; cbn; lia. Qed.
Lemma chars_ok s : forallb (fun c => 0 <=? c) s = true -> Forall (fun c => 0 <= c) s.
Proof. rewrite forallb_forall. intros Hs. apply Forall_forall. intros c Hc%list_elem_of_In. specialize (Hs c Hc). cbn in Hs. lia. Qed.

Lemma reads_list h depth l t :
  Forall (fun v => forall t, json_text v = Ok t -> reads (scan h depth) t (reread v)) l ->
  json_text (PList l) = Ok t -> reads (scan h (S depth)) t (PList (map reread l)).
Proof.
  intros Hv Ht. cbn [json_text] in Ht. apply rbind_Ok in Ht as (ts & Hts%mapM_Ok & [= <-]).
  pose proof (texts_related _ _ _ Hts Hv) as Hr. split.
  - do 2 eexists. by split_and!.
  - intros r _. cbn [app scan]. change (91 =? 34) with false. change (91 =? 123) with false. change (91 =? 91) with true. cbn iota.
    rewrite <-app_assoc. cbn [app]. by rewrite (list_body_join _ _ _ _ Hr).
Qed.
Lemma reads_dict h depth (d : pydict) t :
  keeps_pairs h -> NoDup d.*1 ->
  Forall (fun kv => Forall (fun c => 0 <= c) kv.1 /\ forall t, json_text kv.2 = Ok t -> reads (scan h depth) t (reread kv.2)) d ->
  json_text (PDict d) = Ok t -> reads (scan h (S depth)) t (reread (PDict d)).
Proof.
  intros Hh Hd Hv Ht. cbn [json_text] in Ht. apply rbind_Ok in Ht as (ts & Hts%mapM_Ok & [= <-]).
  pose proof (members_related _ _ _ Hts Hv) as Hr.
  apply (py_sorted_related _ (fun p q => str_le p.1 q.1) key_le) in Hr; [|by intros a a' b b' [Ea _] [Eb _]; unfold key_le; rewrite Ea, Eb].
  set (ds := py_sorted key_le (map (fun kv => (kv.1, reread kv.2)) d)) in *.
  assert (NoDup ds.*1) as Hds.
  { unfold ds. rewrite (py_sorted_perm key_le). rewrite <-list_fmap_compose. erewrite list_fmap_ext; [exact Hd|]. by intros ? []. }
  assert (Forall2 (reads_member (scan h depth)) (py_sorted (fun p q : ustr * ustr => str_le p.1 q.1) ts).*2 ds) as Hm.
  { rewrite Forall2_fmap_l. eapply Forall2_impl; [exact Hr|]. by intros p kv [_ ?]. }
  split.
  - do 2 eexists. by split_and!.
  - intros r _. cbn [app scan]. change (123 =? 34) with false. change (123 =? 123) with true. cbn iota.
    rewrite <-app_assoc. cbn [app]. rewrite (object_body_join _ _ _ _ Hm). cbn [rbind fst snd reread]. fold ds. by rewrite (Hh _ Hds).
Qed.

Theorem reads_json_text h (Hh : keeps_pairs h) depth : forall v t,
  readable v = true -> (height v <= depth)%nat -> json_text v = Ok t -> reads (scan h depth) t (reread v).
Proof.
  induction depth as [|depth IH]; intros v t Hv Hheight Ht.
  all: destruct v as [|b|z|f|s|l|l|d]; try (cbn in Hheight; lia).
  all: try (injection Ht as <-; by apply reads_dec).
  all: try (by cbn in Hv).
  all: try (destruct b; injection Ht as <-; (split; [by do 2 eexists|by intros r _])).
  all: try (injection Ht as <-; (split; [by do 2 eexists|by intros r _])).
  all: try (injection Ht as <-; (split; [by do 2 eexists|]); intros r _; unfold json_string; cbn [app scan]; change (34 =? 34) with true; cbn iota;
            rewrite <-app_assoc; cbn [app]; rewrite scan_string_text by (by apply chars_ok); done).
  1,2: apply reads_list; [|exact Ht]; apply Forall_forall; intros v Hin t' Ht'; apply IH; [|by eapply height_in; [|cbn in Hheight; apply le_S_n]|done];
    cbn [readable] in Hv; rewrite forallb_forall in Hv; by apply Hv, list_elem_of_In.
  cbn [readable] in Hv. apply andb_true_iff in Hv as [Hnd%bool_decide_eq_true Hf].
  apply reads_dict; [done|done| |done]. apply Forall_forall. intros [k v] Hin. rewrite forallb_forall in Hf.
  specialize (Hf (k, v) (proj1 (list_elem_of_In _ _) Hin)). cbn [fst snd] in *. apply andb_true_iff in Hf as [Hk Hv].
  split; [by apply chars_ok|]. intros t' Ht'. apply IH; [done| |done]. cbn [height] in Hheight. apply le_S_n in Hheight.
  rewrite <-(map_map snd height) in Hheight. eapply height_in; [|exact Hheight]. apply list_elem_of_fmap. by exists (k, v).
Qed.
End roundtrip.

Section documents.
Context {H : Host} {F : FloatText}.

Lemma dset_fresh {V} (d : list (ustr * V)) k v : k ∉ d.*1 -> dset d k v = d ++ [(k, v)].
Proof.
  induction d as [|[k' v'] d IH]; [done|]. cbn. intros [Hne Hk]%not_elem_of_cons. rewrite ueqb_ne by congruence. by rewrite IH.
Qed.
Lemma pairs_kept (ps d : pydict) : NoDup (d ++ ps).*1 ->
  foldM (fun d kv => check negb (dmem d kv.1) else ValueError ;; Ok (dset d kv.1 kv.2)) d ps = Ok (d ++ ps) /\
  foldl (fun d kv => dset d kv.1 kv.2) d ps = d ++ ps.
Proof.
  revert d. induction ps as [|[k v] ps IH]; intros d Hd; [by rewrite app_nil_r|].
  assert (k ∉ d.*1) as Hk.
  { rewrite fmap_app in Hd. apply NoDup_app in Hd as (_ & Hd & _). intros Hk. apply (Hd k Hk). cbn. left. }
  cbn [foldM foldl fst snd]. replace (dmem d k) with false by (symmetry; apply not_true_is_false; by rewrite dmem_spec).
  cbn [negb ensure rbind]. rewrite dset_fresh by done. rewrite (cons_middle (k, v) d ps), app_assoc in Hd |- *. by apply IH.
Qed.
Lemma strict_keeps : keeps_pairs strict_hooks.
Proof. intros ps Hps. cbn. by destruct (pairs_kept ps [] Hps) as [-> _]. Qed.
Lemma plain_keeps : keeps_pairs plain_hooks.
Proof. intros ps Hps. cbn. by destruct (pairs_kept ps [] Hps) as [_ ->]. Qed.

Lemma loads_text h depth v t :
  keeps_pairs h -> readable v = true -> (height v <= depth)%nat -> json_text v = Ok t -> json_loads h depth t = Ok (reread v).
Proof.
  intros Hh Hv Hd Ht. destruct (reads_json_text h Hh depth v t Hv Hd Ht) as [(c & r & -> & Hc & _ & _ & H128) Hr].
  unfold json_loads. replace (negb (c =? 65279)) with true by lia. cbn [ensure rbind]. rewrite skip_ws_cons by done.
  specialize (Hr [] I). rewrite app_nil_r in Hr. by rewrite Hr.
Qed.

(** C30: What is written is read.  The bytes that [canonical_json] makes of a document without
    floats decode to a text that [json.loads], with or without the strict hooks, reads as the
    same document: keys in order, lists for tuples.  In particular two documents with the
    same canonical bytes are the same up to that. *)
Theorem canonical_json_read_back v b depth (Hv : readable v = true) (Hd : (height v <= depth)%nat) (Hb : canonical_json v = Ok b) :
  (exists t, utf8_decode b = Ok t /\ json_loads strict_hooks depth t = Ok (reread v) /\ json_loads plain_hooks depth t = Ok (reread v)) /\
  forall w, readable w = true -> canonical_json w = Ok b -> reread w = reread v.
Proof.
  apply rbind_Ok in Hb as (t & Ht & Hb). apply utf8_decode_encode in Hb as Hb'.
  assert (forall v' depth, readable v' = true -> json_text v' = Ok t -> (height v' <= depth)%nat ->
    json_loads strict_hooks depth t = Ok (reread v') /\ json_loads plain_hooks depth t = Ok (reread v')) as Hall.
  { intros v' n Hv' Ht' Hn. split; apply loads_text; auto using strict_keeps, plain_keeps. }
  split; [exists t; split; [done|by apply Hall]|].
  intros w Hw (t' & Ht' & Hb'2)%rbind_Ok. assert (t' = t) as -> by (eapply utf8_encode_inj; done).
  destruct (Hall v (max (height v) (height w)) Hv Ht ltac:(lia)) as [E1 _]. destruct (Hall w (max (height v) (height w)) Hw Ht' ltac:(lia)) as [E2 _].
  rewrite E1 in E2. congruence.
Qed.
End documents.

Module JsonSamples.
#[export] Instance no_floats : FloatText := {| float_of_text _ := None |}.
Definition v : pyval :=
  obj [("title", PStr [34; 10; 7; 128512]); ("pages", PTuple [PInt (-120); PInt 0; PNone]); ("meta", obj [("b", PBool true); ("a", PList [])])]%string.
Definition b : bytes := match canonical_json (H := test_host) v with Ok b => b | Err _ => [] end.
End JsonSamples.
Lemma canonical_json_read_back_witness :
  let b := JsonSamples.b in length b <> 0%nat /\
  exists t, utf8_decode b = Ok t /\ json_loads (F := JsonSamples.no_floats) strict_hooks 3 t =
    Ok (obj [("meta", obj [("a", PList []); ("b", PBool true)]); ("pages", PList [PInt (-120); PInt 0; PNone]); ("title", PStr [34; 10; 7; 128512])]%string).
Proof.
  intros b. split; [vm_compute; discriminate|].
  destruct (canonical_json_read_back (H := test_host) (F := JsonSamples.no_floats) JsonSamples.v JsonSamples.b 3 eq_refl ltac:(apply Nat.leb_le; vm_compute; reflexivity) ltac:(vm_compute; reflexivity)) as [(t & Hd & Hl & _) _].
  exists t. split; [exact Hd|]. rewrite Hl. vm_compute. reflexivity.
Defined.
