(* ===== verification/Uuid.v ===== *)
(** * UUIDs at the boundary

    Model of [validate_external_uuid] and [validate_uuid7] of [src/contracts/common/ids.py] with
    the parts of [uuid.UUID] and [int(_, 16)] that they use. *)

From S2P Require Import Prelude PyText PyValue.

Open Scope Z_scope.
Open Scope mkb_scope.

Section uuid.
Context {H : Host}.

Definition hex_value (c : Z) : option Z :=
  if (48 <=? c) && (c <=? 57) then Some (c - 48)
  else if (97 <=? c) && (c <=? 102) then Some (c - 87)
  else if (65 <=? c) && (c <=? 70) then Some (c - 55)
  else match decimal_digit c with Some d => Some d | None => None end.

(** Digits with single underscores between them. *)
Fixpoint hex_digits (s : ustr) (acc : Z) (prev_digit : bool) : option Z :=
  match s with
  | [] => if prev_digit then Some acc else None
  | c :: s =>
      match hex_value c with
      | Some d => hex_digits s (acc * 16 + d) true
      | None => if (c =? 95) && prev_digit then hex_digits s acc false else None
      end
  end.

(** [int(s, 16)] *)
Definition int16_of_str (s : ustr) : option Z :=
  let '(neg, body) := match strip s with 43 :: r => (false, r) | 45 :: r => (true, r) | r => (false, r) end in
  let digits :=
    match body with
    | 48 :: x :: r => if (x =? 120) || (x =? 88) then match r with 95 :: r => r | r => r end else body
    | _ => body
    end in
  z ← hex_digits digits 0 false; Some (if neg : bool then - z else z).

Definition strip_braces (s : ustr) : ustr :=
  let brace c := (c =? 123) || (c =? 125) in reverse (drop_while brace (reverse (drop_while brace s))).

(** [uuid.UUID(s).int] *)
Definition parse_uuid (s : ustr) : option Z :=
  let hex := str_replace (strip_braces (str_replace (str_replace s (u "urn:") []) (u "uuid:") [])) (u "-") [] in
  if (length hex =? 32)%nat then
    z ← int16_of_str hex; if (0 <=? z) && (z <? 2 ^ 128) then Some z else None
  else None.

(** [UUID.version]: of the RFC 4122 variant only. *)
Definition uuid_version (z : Z) : option Z :=
  if Z.testbit z 63 && negb (Z.testbit z 62) then Some (Z.land (Z.shiftr z 76) 15) else None.

Fixpoint hex_text (n : nat) (z : Z) : ustr :=
  match n with O => [] | S n => hex_text n (z / 16) ++ [hex_digit (z mod 16)] end.
(** [str(uuid)] *)
Definition uuid_text (z : Z) : ustr :=
  let h := hex_text 32 z in
  take 8 h ++ 45 :: take 4 (drop 8 h) ++ 45 :: take 4 (drop 12 h) ++ 45 :: take 4 (drop 16 h) ++ 45 :: drop 20 h.

(** [validate_external_uuid] *)
Definition validate_external_uuid (value : ustr) : result ustr :=
  match parse_uuid value with
  | None => Err (MkbError "invalid-uuid" 422)
  | Some z =>
      check negb (z =? 0) && bool_decide (uuid_version z ∈ [Some 4; Some 7]) else MkbError "invalid-uuid-version" 422 ;;
      Ok (uuid_text z)
  end.
(** [validate_uuid7] *)
Definition validate_uuid7 (value : ustr) : result ustr :=
  let* canonical := validate_external_uuid value in
  check bool_decide ((z ← parse_uuid canonical; uuid_version z) = Some 7) else MkbError "invalid-internal-uuid" 422 ;;
  Ok canonical.
End uuid.

Section laws.
Context {H : Host}.

Lemma hex_text_length n z : length (hex_text n z) = n.
Proof. revert z. induction n as [|n IH]; intros z; [done|]. cbn. rewrite length_app, IH. cbn. lia. Qed.
Lemma hex_text_lower n z : Forall (fun c => is_lower_hex c = true) (hex_text n z).
Proof.
  revert z. induction n as [|n IH]; intros z; [constructor|]. cbn. apply Forall_app. split; [apply IH|].
  repeat constructor. apply hex_digit_lower. apply Z.mod_pos_bound. lia.
Qed.

Lemma hex_value_digit d : 0 <= d < 16 -> hex_value (hex_digit d) = Some d.
Proof.
  intros Hd. unfold hex_value, hex_digit. destruct (Z.ltb_spec d 10).
  - replace (_ && _) with true by lia. f_equal. lia.
  - replace ((48 <=? 87 + d) && (87 + d <=? 57)) with false by lia. replace (_ && _) with true by lia. f_equal. lia.
Qed.

Lemma hex_digits_app s t acc b z : hex_digits s acc b = Some z -> s <> [] -> hex_digits (s ++ t) acc b = hex_digits t z true.
Proof.
  revert acc b. induction s as [|c s IH]; intros acc b Hs Hne; [done|]. cbn in *. destruct (hex_value c) as [d|].
  - destruct s as [|c' s]; [by injection Hs as <-|]. by apply IH.
  - destruct ((c =? 95) && b); [|done]. destruct s as [|c' s]; [done|]. by apply IH.
Qed.

Lemma hex_digits_text n z acc b : (0 < n)%nat -> 0 <= z < 16 ^ Z.of_nat n ->
  hex_digits (hex_text n z) acc b = Some (acc * 16 ^ Z.of_nat n + z).
Proof.
  revert z acc b. induction n as [|n IH]; intros z acc b Hn Hz; [lia|]. rewrite Nat2Z.inj_succ, Z.pow_succ_r in * by lia. cbn [hex_text].
  pose proof (Z.div_mod z 16 ltac:(lia)) as Hdiv. pose proof (Z.mod_pos_bound z 16 ltac:(lia)) as Hm.
  destruct n as [|n].
  - cbn. rewrite hex_value_digit by done. cbn. f_equal. assert (z / 16 = 0) by (apply Z.div_small; cbn in Hz; lia). lia.
  - erewrite hex_digits_app; [|apply IH; [lia|]|].
    + cbn [hex_digits]. rewrite hex_value_digit by done. f_equal. nia.
    + split; [by apply Z.div_pos; lia|]. apply Z.div_lt_upper_bound; lia.
    + intros E. apply (f_equal length) in E. rewrite hex_text_length in E. done.
Qed.

Lemma replace_char s c : str_replace s [c] [] = List.filter (fun x => negb (x =? c)) s.
Proof.
  unfold str_replace. induction s as [|x s IH]; [done|]. cbn. rewrite Z.eqb_sym. destruct (x =? c); cbn; [done|by rewrite IH].
Qed.
Lemma replace_missing s c old new : Forall (fun x => x <> c) s -> str_replace s (c :: old) new = s.
Proof.
  unfold str_replace. induction 1 as [|x s Hx Hs IH]; [done|]. cbn [replace_go starts_with].
  destruct (Z.eqb_spec c x) as [->|]; [done|]. by rewrite IH.
Qed.
Lemma drop_while_none p s : Forall (fun c => p c = false) s -> drop_while p s = s.
Proof. intros Hs. destruct s as [|c s]; [done|]. cbn. by rewrite (Forall_inv Hs). Qed.
Lemma filter_keep (f : Z -> bool) s : Forall (fun c => f c = true) s -> List.filter f s = s.
Proof. induction 1 as [|c s Hc Hs IH]; [done|]. cbn. by rewrite Hc, IH. Qed.

(** The characters of a canonical text. *)
Definition uuid_char (c : Z) : bool := is_lower_hex c || (c =? 45).
Lemma uuid_text_chars z : Forall (fun c => uuid_char c = true) (uuid_text z).
Proof.
  assert (Forall (fun c => uuid_char c = true) (hex_text 32 z)) as Hh.
  { eapply Forall_impl; [apply hex_text_lower|]. unfold uuid_char. by intros c ->. }
  assert (forall n s, Forall (fun c => uuid_char c = true) s -> Forall (fun c => uuid_char c = true) (45 :: take n s)) as Hd.
  { intros n s Hs. constructor; [done|by apply Forall_take]. }
  unfold uuid_text. repeat (apply Forall_app; split; [apply Forall_take; auto using Forall_drop|]; constructor; [done|]).
  by apply Forall_drop.
Qed.
Lemma uuid_text_length z : length (uuid_text z) = 36%nat.
Proof.
  unfold uuid_text. repeat (rewrite ?length_app, ?length_cons, ?length_take, ?length_drop, ?hex_text_length). lia.
Qed.
Lemma uuid_text_hex z : List.filter (fun x => negb (x =? 45)) (uuid_text z) = hex_text 32 z.
Proof.
  assert (Forall (fun c => negb (c =? 45) = true) (hex_text 32 z)) as Hh.
  { eapply Forall_impl; [apply hex_text_lower|]. unfold is_lower_hex. lia. }
  assert (forall a b, Forall (fun c => negb (c =? 45) = true) a ->
    List.filter (fun x => negb (x =? 45)) (a ++ 45 :: b) = a ++ List.filter (fun x => negb (x =? 45)) b) as Hf.
  { intros a b Ha. rewrite List.filter_app, filter_keep by done. done. }
  assert (forall n m (h : ustr), take m (drop n h) ++ drop (n + m) h = drop n h) as Hcut.
  { intros n m h. by rewrite <-drop_drop, take_drop. }
  unfold uuid_text. rewrite !Hf by (apply Forall_take; auto using Forall_drop). rewrite filter_keep by auto using Forall_drop.
  rewrite (Hcut 16%nat 4%nat), (Hcut 12%nat 4%nat), (Hcut 8%nat 4%nat). apply take_drop.
Qed.

Lemma lower_hex_facts c : is_lower_hex c = true -> isspace c = false /\ c <> 43 /\ c <> 45 /\ c <> 120 /\ c <> 88.
Proof. unfold is_lower_hex, isspace. lia. Qed.

Lemma int16_of_hex_text n z : (0 < n)%nat -> 0 <= z < 16 ^ Z.of_nat n -> int16_of_str (hex_text n z) = Some z.
Proof.
  intros Hn Hz. pose proof (hex_text_lower n z) as Hl. pose proof (hex_digits_text n z 0 false Hn Hz) as Hd.
  assert (strip (hex_text n z) = hex_text n z) as Hstrip.
  { unfold strip, rstrip, lstrip. assert (Forall (fun c => isspace c = false) (hex_text n z)) as Hs.
    { eapply Forall_impl; [exact Hl|]. by intros c [? _]%lower_hex_facts. }
    rewrite (drop_while_none _ (hex_text n z)) by done. rewrite drop_while_none by by apply Forall_reverse. apply reverse_involutive. }
  unfold int16_of_str. rewrite Hstrip. clear Hstrip. revert Hl Hd. destruct (hex_text n z) as [|c h] eqn:E.
  - apply (f_equal length) in E. rewrite hex_text_length in E. cbn in E. lia.
  - intros Hl Hd. pose proof (Forall_inv Hl) as (_ & H1 & H2 & _)%lower_hex_facts.
    assert (match c :: h with 43 :: r => (false, r) | 45 :: r => (true, r) | r => (false, r) end = (false, c :: h)) as ->.
    { destruct c as [|p|p]; try done. repeat (destruct p as [p|p|]; try done). }
    assert (match c :: h with
            | 48 :: x :: r => if (x =? 120) || (x =? 88) then match r with 95 :: r => r | r => r end else c :: h
            | _ => c :: h end = c :: h) as ->.
    { destruct h as [|x h]; [destruct c as [|p|p]; try done; by repeat (destruct p as [p|p|]; try done)|].
      pose proof (Forall_inv (Forall_inv_tail Hl)) as (_ & _ & _ & H3 & H4)%lower_hex_facts.
      replace ((x =? 120) || (x =? 88)) with false by lia. destruct c as [|p|p]; try done. by repeat (destruct p as [p|p|]; try done). }
    rewrite Hd. cbn. f_equal.
Qed.

Lemma parse_uuid_text z : 0 <= z < 2 ^ 128 -> parse_uuid (uuid_text z) = Some z.
Proof.
  intros Hz. pose proof (uuid_text_chars z) as Hc. unfold parse_uuid.
  assert (forall c, uuid_char c = true -> c <> 117 /\ (c =? 123) || (c =? 125) = false) as Hf by (unfold uuid_char, is_lower_hex; lia).
  change (u "urn:") with (117 :: u "rn:"). change (u "uuid:") with (117 :: u "uid:").
  assert (Forall (fun c => c <> 117) (uuid_text z)) as Hu by (eapply Forall_impl; [exact Hc|]; by intros c [? _]%Hf).
  rewrite (replace_missing (uuid_text z) 117 (u "rn:")), (replace_missing (uuid_text z) 117 (u "uid:")) by done. unfold strip_braces. rewrite (drop_while_none _ (uuid_text z)).
  2: { eapply Forall_impl; [exact Hc|]. by intros c [_ ?]%Hf. }
  rewrite drop_while_none, reverse_involutive.
  2: { apply Forall_reverse. eapply Forall_impl; [exact Hc|]. by intros c [_ ?]%Hf. }
  change (u "-") with [45]. rewrite replace_char, uuid_text_hex, hex_text_length, Nat.eqb_refl.
  rewrite int16_of_hex_text; [|lia|exact Hz]. cbn [mbind option_bind]. replace (_ && _) with true; [done|]. symmetry.
  apply andb_true_iff. split; [apply Z.leb_le|apply Z.ltb_lt]; lia.
Qed.

(** Canonical identifiers.  What the boundary accepts as a UUID, in any of the spellings of
    Python, it returns in the canonical spelling of 36 lower case characters, which names the
    same number, is accepted again and returned unchanged. *)
Theorem validate_external_uuid_canonical value canonical (Hv : validate_external_uuid value = Ok canonical) :
  length canonical = 36%nat /\ Forall (fun c => uuid_char c = true) canonical /\
  parse_uuid canonical = parse_uuid value /\ validate_external_uuid canonical = Ok canonical.
Proof.
  unfold validate_external_uuid in *. destruct (parse_uuid value) as [z|] eqn:Ep; [|done].
  apply rbind_Ok in Hv as ([] & Hz & [= <-]).
  assert (0 <= z < 2 ^ 128) as Hrange.
  { unfold parse_uuid in Ep. destruct (_ =? 32)%nat; [|done]. destruct (int16_of_str _) as [z'|]; [|done]. cbn in Ep.
    destruct ((0 <=? z') && (z' <? _)) eqn:E; [|done]. injection Ep as <-. apply andb_true_iff in E as [?%Z.leb_le ?%Z.ltb_lt]. done. }
  rewrite parse_uuid_text, Hz by done. split_and!; [apply uuid_text_length|apply uuid_text_chars|done..].
Qed.
End laws.

Lemma validate_external_uuid_canonical_witness :
  validate_external_uuid (H := test_host) (u "urn:uuid:{0190A1B2C3D47E5F8A9B0C1D2E3F4A5B}") = Ok (u "0190a1b2-c3d4-7e5f-8a9b-0c1d2e3f4a5b") /\
  validate_external_uuid (H := test_host) (u "0190a1b2-c3d4-7e5f-8a9b-0c1d2e3f4a5b") = Ok (u "0190a1b2-c3d4-7e5f-8a9b-0c1d2e3f4a5b").
Proof.
  assert (validate_external_uuid (H := test_host) (u "urn:uuid:{0190A1B2C3D47E5F8A9B0C1D2E3F4A5B}") = Ok (u "0190a1b2-c3d4-7e5f-8a9b-0c1d2e3f4a5b")) as Hv
    by (vm_compute; reflexivity).
  split; [exact Hv|]. exact (proj2 (proj2 (proj2 (validate_external_uuid_canonical (H := test_host) _ _ Hv)))).
Defined.
