(* ===== verification/PublicData.v ===== *)
(** * The safety check of public payloads

    Model of [assert_safe_public_data] of [src/contracts/common/models.py]: no key that names a
    secret, no absolute path and no signed URL anywhere in a value that crosses a public
    contract.  The two patterns are searches; the case-insensitive one compares letters as the
    [re] module does, with the three letters that have foreign case variants. *)

From S2P Require Import Prelude PyText PyValue.

Open Scope Z_scope.
Open Scope mkb_scope.

Definition SECRET_KEYS : list ustr :=
  map u ["authorization"; "token"; "password"; "secret"; "api_key"; "apikey"; "secretkey"; "access_key"; "accesskey";
         "private_key"; "privatekey"]%string.

(** A character matches a lower case ASCII pattern character under [re.IGNORECASE]: its other
    case, and the variants of [i] (dotless and dotted), [s] (long) and [k] (Kelvin sign). *)
Definition same_folded (p c : Z) : bool :=
  (c =? p) || (97 <=? p) && (p <=? 122) && (c =? p - 32)
  || (p =? 105) && ((c =? 304) || (c =? 305)) || (p =? 115) && (c =? 383) || (p =? 107) && (c =? 8490).

Fixpoint folded_prefix (p s : ustr) : bool :=
  match p, s with
  | [], _ => true
  | x :: p, y :: s => same_folded x y && folded_prefix p s
  | _, [] => false
  end.

(** [re.search] of an alternation of literals. *)
Fixpoint searches (ps : list ustr) (s : ustr) : bool :=
  existsb (fun p => folded_prefix p s) ps || match s with [] => false | _ :: s => searches ps s end.

(** [_SECRET_KEY_PATTERN] and [_SIGNED_URL] with their optional separator written out. *)
Definition SECRET_KEY_WORDS : list ustr :=
  map u ["apikey"; "api_key"; "api-key"; "secret"; "token"; "password"; "authorization"]%string.
Definition SIGNED_URL_WORDS : list ustr :=
  map u ["x-amz-signature"; "x-amz-credential"; "signature="; "sig="]%string.

Section public_data.
Context {H : Host}.

(** [[\w.-]] *)
Definition path_char (c : Z) : bool := isalnum c || (c =? 95) || (c =? 46) || (c =? 45).
Definition path_here (s : ustr) : bool := match s with 47 :: c :: _ => path_char c | _ => false end.
(** [_ABSOLUTE_PATH.search]: a slash and a path character at the start or after white space. *)
Fixpoint path_after (may_start : bool) (s : ustr) : bool :=
  may_start && path_here s || match s with [] => false | c :: s => path_after (isspace c) s end.
Definition absolute_path (s : ustr) : bool := path_after true s.

Definition remove_dashes (s : ustr) : ustr := List.filter (fun c => negb (c =? 45)) s.
Definition secret_key (k : ustr) : bool := bool_decide (remove_dashes (lower k) ∈ SECRET_KEYS) || searches SECRET_KEY_WORDS k.
Definition safe_text (s : ustr) : bool := negb (absolute_path s) && negb (searches SIGNED_URL_WORDS s).

(** [assert_safe_public_data] *)
Fixpoint safe_public_data (v : pyval) : bool :=
  match v with
  | PDict d => (fix entries (d : pydict) :=
      match d with [] => true | (k, x) :: d => negb (secret_key k) && safe_public_data x && entries d end) d
  | PList l => (fix items (l : list pyval) := match l with [] => true | x :: l => safe_public_data x && items l end) l
  | PStr s => safe_text s
  | _ => true
  end.

Definition assert_safe_public_data (v : pyval) : result unit := ensure (safe_public_data v) ValueError.
End public_data.

(** ** What a safe payload holds *)

(** The values inside a value, and the keys on the way to them. *)
Inductive inside : pyval -> pyval -> Prop :=
| inside_here v : inside v v
| inside_list v x l : x ∈ l -> inside v x -> inside v (PList l)
| inside_entry v k x d : (k, x) ∈ d -> inside v x -> inside v (PDict d).

Lemma safe_dict {H : Host} d :
  safe_public_data (PDict d) = forallb (fun kv => negb (secret_key kv.1) && safe_public_data kv.2) d.
Proof. simpl. induction d as [|[k x] d IH]; simpl; [done|]. by rewrite IH. Qed.
Lemma safe_list {H : Host} l : safe_public_data (PList l) = forallb safe_public_data l.
Proof. simpl. induction l as [|x l IH]; simpl; [done|]. by rewrite IH. Qed.

Lemma safe_inside {H : Host} v x : inside v x -> safe_public_data x = true -> safe_public_data v = true.
Proof.
  induction 1 as [v|v x l Hx _ IH|v k x d Hx _ IH]; [done|rewrite safe_list|rewrite safe_dict]; rewrite forallb_forall;
    intros Hs; apply IH.
  - by apply Hs, list_elem_of_In.
  - apply list_elem_of_In, Hs, andb_true_iff in Hx as [_ Hx]. done.
Qed.

(** An absolute path is found wherever white space or the start precedes it. *)
Lemma path_after_spec {H : Host} b s :
  path_after b s = true <->
  exists pre rest, s = pre ++ rest /\ path_here rest = true /\
    match last pre with Some c => isspace c = true | None => b = true end.
Proof.
  revert b. induction s as [|c s IH]; intros b; simpl.
  - rewrite orb_false_r, andb_true_iff. split; [by intros [_ ?]|]. intros (pre & rest & Hs & Hp & _).
    symmetry in Hs. apply app_eq_nil in Hs as [-> ->]. done.
  - rewrite orb_true_iff, andb_true_iff, IH. split.
    + intros [[-> Hp]|(pre & rest & -> & Hp & Hl)]; [by exists [], (c :: s)|].
      exists (c :: pre), rest. split_and!; [done|done|]. destruct pre as [|x pre] using rev_ind; [done|].
      rewrite last_snoc in Hl. change (c :: pre ++ [x]) with ((c :: pre) ++ [x]). by rewrite last_snoc.
    + intros ([|c' pre] & rest & Hs & Hp & Hl); simpl in Hs; [subst rest; by left|].
      injection Hs as <- ->. right. exists pre, rest. split_and!; [done|done|].
      destruct pre as [|x pre] using rev_ind; [done|]. change (c :: pre ++ [x]) with ((c :: pre) ++ [x]) in Hl.
      rewrite last_snoc in *. done.
Qed.

(** What the check looks at in one value. *)
Definition locally_safe {H : Host} (v : pyval) : bool :=
  match v with PDict d => forallb (fun kv => negb (secret_key kv.1)) d | PStr s => safe_text s | _ => true end.

Lemma safe_local {H : Host} v : safe_public_data v = true -> locally_safe v = true.
Proof.
  destruct v; try done. rewrite safe_dict. unfold locally_safe. rewrite !forallb_forall. intros Hs kv Hk.
  by apply Hs, andb_true_iff in Hk as [? _].
Qed.

Lemma safe_intro {H : Host} : forall v, (forall w, inside w v -> locally_safe w = true) -> safe_public_data v = true.
Proof.
  fix IH 1. intros v Hv. destruct v as [| | | |s|l|l|d]; try done.
  - apply (Hv (PStr s)). constructor.
  - assert (forall x, x ∈ l -> forall w, inside w x -> locally_safe w = true) as Hl.
    { intros x Hx w Hw. apply Hv. by eapply inside_list. }
    clear Hv. simpl. induction l as [|x l IHl]; [done|]. apply andb_true_iff. split.
    + apply IH. apply Hl. left.
    + apply IHl. intros y Hy. apply Hl. by right.
  - pose proof (Hv _ (inside_here _)) as Hd. simpl in Hd.
    assert (forall k x, (k, x) ∈ d -> forall w, inside w x -> locally_safe w = true) as Hl.
    { intros k x Hx w Hw. apply Hv. by eapply inside_entry. }
    clear Hv. simpl. induction d as [|[k x] d IHd]; [done|]. simpl in Hd. apply andb_true_iff in Hd as [-> Hd].
    apply andb_true_iff. split.
    + simpl. apply IH. apply (Hl k). left.
    + apply IHd; [done|]. intros k' y Hy. apply (Hl k'). by right.
Qed.

Lemma absolute_path_false {H : Host} s :
  absolute_path s = false <->
  forall pre rest, s = pre ++ rest -> match last pre with Some c => isspace c = true | None => True end -> path_here rest = false.
Proof.
  rewrite <-not_true_iff_false. unfold absolute_path. rewrite path_after_spec. split.
  - intros Hn pre rest -> Hl. apply not_true_iff_false. intros Hp. apply Hn. exists pre, rest. split_and!; [done|done|].
    by destruct (last pre).
  - intros Hn (pre & rest & -> & Hp & Hl). rewrite (Hn pre rest) in Hp; [done|done|]. by destruct (last pre).
Qed.

(** an accepted public payload is safe through and through: no key at any depth holds a
    secret word in any letter case, and no text at any depth holds a signed URL or has an
    absolute path at its start or after white space; a value without such keys and texts is
    accepted. *)
Theorem safe_public_data_spec {H : Host} v :
  assert_safe_public_data v = Ok tt <->
  (forall d k x, inside (PDict d) v -> (k, x) ∈ d -> secret_key k = false) /\
  (forall s, inside (PStr s) v ->
     searches SIGNED_URL_WORDS s = false /\
     forall pre rest, s = pre ++ rest -> (match last pre with Some c => isspace c = true | None => True end) ->
       path_here rest = false).
Proof.
  unfold assert_safe_public_data. rewrite ensure_Ok. split.
  - intros Hv. split.
    + intros d k x Hd Hk. pose proof (safe_local _ (safe_inside _ _ Hd Hv)) as Hs. simpl in Hs.
      rewrite forallb_forall in Hs. apply list_elem_of_In, Hs in Hk. by apply negb_true_iff in Hk.
    + intros s Hs. pose proof (safe_local _ (safe_inside _ _ Hs Hv)) as Ht.
      apply andb_true_iff in Ht as [Ha Hu]. rewrite negb_true_iff in Ha, Hu. split; [done|]. by apply absolute_path_false.
  - intros [Hk Hs]. apply safe_intro. intros w Hw. destruct w; try done; simpl.
    + destruct (Hs _ Hw) as [Hu Ha]. unfold safe_text. by rewrite Hu, (proj2 (absolute_path_false s) Ha).
    + apply forallb_forall. intros [k x] Hin. apply list_elem_of_In in Hin. simpl. by rewrite (Hk _ _ _ Hw Hin).
Qed.

Module PublicSamples.
#[local] Existing Instance test_host.
Open Scope list_scope.
Definition safe_value : pyval :=
  obj [("note", PStr (u "see a/b and c")); ("items", PList [PInt 1; obj [("reason", PStr (u "ok"))]])].
Example accepts_safe : assert_safe_public_data safe_value = Ok tt.
Proof. vm_compute. reflexivity. Qed.
Example rejects_unsafe :
  map safe_public_data [obj [("X-API-Key", PNone)]; PList [obj [("accessToKen", PNone)]]; PStr (u "at /etc/passwd");
                        PStr (u "?SIG=x"); obj [("access-key", PNone)]] = [false; false; false; false; false].
Proof. vm_compute. reflexivity. Qed.
End PublicSamples.
