(* ===== verification/LayeredContent.v ===== *)
(** * The layered-content wire contract

    Model of [src/contracts/lsrag/layered_content.py]: the text recipe applied before
    anchors are matched, and the strict validator of the [layered_content.v1] shape.  The
    three schema-file readers of that module are file I/O and are not modelled.

    The validator neither normalises nor invents content: what it accepts it returns
    unchanged ([validate_layered_content_same]), and what it returns has the typed shape
    [lblock] that the compiler relies on ([validate_layered_content_blocks]). *)

From S2P Require Import Prelude PyText PyValue.

Open Scope Z_scope.
Open Scope mkb_scope.

(** [d[k]] *)
Definition dsub (d : pydict) (k : ustr) : result pyval :=
  match dget d k with Some v => Ok v | None => Err KeyError end.

(** Key set tests: [set(d) - allowed] is empty, [set(d) == keys]. *)
Definition keys_within {V} (allowed : list ustr) (d : list (ustr * V)) : bool :=
  forallb (fun kv => bool_decide (kv.1 ∈ allowed)) d.
Definition keys_exactly {V} (keys : list ustr) (d : list (ustr * V)) : bool :=
  keys_within keys d && forallb (fun k => dmem d k) keys.
#[global] Arguments keys_within : simpl never.
#[global] Arguments keys_exactly : simpl never.

Module LayeredContent.

Definition SCHEMA_INVALID : exn := MkbError "STRUCTURE_SCHEMA_INVALID" 422.
Definition SUMMARY_INVALID : exn := MkbError "STRUCTURE_SUMMARY_INVALID" 422.

Definition TOP_LEVEL_KEYS : list ustr :=
  [u "context_meta"; u "date"; u "knowledge_tree"; u "layered_content"].
Definition META_KEYS : list ustr :=
  [u "title"; u "author"; u "publisher"; u "realm"; u "type"; u "tags"; u "channel";
   u "default_locale"; u "source_name"; u "source_url"].
Definition META_TEXT_KEYS : list ustr :=
  [u "title"; u "author"; u "publisher"; u "realm"; u "type"; u "channel"; u "default_locale";
   u "source_name"; u "source_url"].
Definition DATE_KEYS : list ustr := [u "processed_at"; u "published_at"].
Definition TREE_KEYS : list ustr :=
  [u "original_file_uuid"; u "upstream_file_uuids"; u "downstream_file_uuids"].
Definition BLOCK_KEYS : list ustr :=
  [u "block_id"; u "granularity"; u "original_content"; u "llm_summary"].
Definition CHANNEL_KEYS : list ustr := [u "title"; u "body"].

(** [^[0-9a-f]{8}-[0-9a-f]{4}-[0-9a-f]{4}-[0-9a-f]{4}-[0-9a-f]{12}$] under [re.match]:
    [$] also matches before one final newline. *)
Definition UUID_TEMPLATE : list bool :=
  replicate 8 true ++ [false] ++ replicate 4 true ++ [false] ++ replicate 4 true ++ [false]
  ++ replicate 4 true ++ [false] ++ replicate 12 true.
Fixpoint match_template (t : list bool) (s : ustr) : bool :=
  match t, s with
  | [], [] => true
  | [], [c] => c =? 10
  | true :: t', c :: s' => is_lower_hex c && match_template t' s'
  | false :: t', c :: s' => (c =? 45) && match_template t' s'
  | _, _ => false
  end.
Definition uuid_match (s : ustr) : bool := match_template UUID_TEMPLATE s.

(** [^[a-zA-Z][a-zA-Z0-9+.-]*:] *)
Definition is_alpha (c : Z) : bool := ((65 <=? c) && (c <=? 90)) || ((97 <=? c) && (c <=? 122)).
Definition is_uri_char (c : Z) : bool :=
  is_alpha c || ((48 <=? c) && (c <=? 57)) || (c =? 43) || (c =? 46) || (c =? 45).
Definition uri_match (s : ustr) : bool :=
  match s with
  | c :: s' => is_alpha c && match drop_while is_uri_char s' with 58 :: _ => true | _ => false end
  | [] => false
  end.

Section validator.
Context `{Host}.

(** [^\d{4}-\d{2}-\d{2}T] *)
Definition is_decimal (c : Z) : bool := match decimal_digit c with Some _ => true | None => false end.
Definition datetime_match (s : ustr) : bool :=
  match s with
  | y1 :: y2 :: y3 :: y4 :: d1 :: m1 :: m2 :: d2 :: a1 :: a2 :: t :: _ =>
      is_decimal y1 && is_decimal y2 && is_decimal y3 && is_decimal y4 && (d1 =? 45)
      && is_decimal m1 && is_decimal m2 && (d2 =? 45) && is_decimal a1 && is_decimal a2 && (t =? 84)
  | _ => false
  end.

(** The text recipe on a [str], and the function with its type guard. *)
Definition normalize_text (s : ustr) : ustr :=
  nfc (str_replace (str_replace s [13; 10] [10]) [13] [10]).
Definition normalize_layered_text (value : pyval) : result ustr :=
  match value with
  | PStr s => Ok (normalize_text s)
  | _ => Err SCHEMA_INVALID
  end.

Definition object_ (value : pyval) (allowed : list ustr) : result pydict :=
  match value with
  | PDict d => check keys_within allowed d else SCHEMA_INVALID ;; Ok d
  | _ => Err SCHEMA_INVALID
  end.

Definition nullable_text (value : pyval) : result pyval :=
  check is_none value || is_str value else SCHEMA_INVALID ;; Ok value.

(** [isinstance(v, str) and v.strip()] *)
Definition nonblank_str (v : pyval) : bool :=
  match v with PStr s => negb (blank s) | _ => false end.

Definition channel (value : pyval) (summary_required : bool) : result pydict :=
  let* result0 := object_ value CHANNEL_KEYS in
  check keys_exactly CHANNEL_KEYS result0 else SCHEMA_INVALID ;;
  let* t := dsub result0 (u "title") in
  let* t := nullable_text t in
  let result1 := dset result0 (u "title") t in
  let* b := dsub result1 (u "body") in
  let* b := nullable_text b in
  let result2 := dset result1 (u "body") b in
  let* b := dsub result2 (u "body") in
  check negb summary_required || nonblank_str b else SUMMARY_INVALID ;;
  Ok result2.

(** [for key in keys: if key in d: d[key] = _nullable_text(d[key])] *)
Definition nullable_fields (keys : list ustr) (d : pydict) : result pydict :=
  foldM (fun acc key =>
           match dget acc key with
           | Some v => let* v := nullable_text v in Ok (dset acc key v)
           | None => Ok acc
           end) d keys.

Definition str_list (v : pyval) : bool :=
  match v with PList l => forallb is_str l | _ => false end.
Definition uuid_value (v : pyval) : bool := match v with PStr s => uuid_match s | _ => false end.

(** An optional, nullable field [key] of [d] must satisfy [p]. *)
Definition check_optional (d : pydict) (key : ustr) (p : pyval -> bool) : result unit :=
  match dget d key with
  | None | Some PNone => Ok tt
  | Some v => ensure (p v) SCHEMA_INVALID
  end.

Definition validate_meta (v : pyval) : result pydict :=
  let* meta := object_ v META_KEYS in
  let* meta := nullable_fields META_TEXT_KEYS meta in
  let* _ := check_optional meta (u "tags") str_list in
  Ok meta.

Definition validate_date (v : pyval) : result pydict :=
  let* date := object_ v DATE_KEYS in
  nullable_fields date.*1 date.

Definition validate_tree (v : pyval) : result pydict :=
  let* tree := object_ v TREE_KEYS in
  let* _ := check_optional tree (u "original_file_uuid") uuid_value in
  let uuid_list := fun v => match v with PList l => forallb uuid_value l | _ => false end in
  let* _ := check_optional tree (u "upstream_file_uuids") uuid_list in
  let* _ := check_optional tree (u "downstream_file_uuids") uuid_list in
  Ok tree.

(** [isinstance(v, int)] but not [bool], and not negative *)
Definition nat_int (v : pyval) : bool := match v with PInt z => 0 <=? z | _ => false end.

Definition validate_block (summary_required summaries_must_be_null : bool) (raw : pyval) : result pydict :=
  let* block := object_ raw BLOCK_KEYS in
  check keys_exactly BLOCK_KEYS block else SCHEMA_INVALID ;;
  let* bid := dsub block (u "block_id") in
  check nat_int bid else SCHEMA_INVALID ;;
  let* g := dsub block (u "granularity") in
  check nat_int g else SCHEMA_INVALID ;;
  let* oc := dsub block (u "original_content") in
  let* oc := channel oc false in
  let block := dset block (u "original_content") (PDict oc) in
  let* sc := dsub block (u "llm_summary") in
  let* sc := channel sc summary_required in
  let block := dset block (u "llm_summary") (PDict sc) in
  check negb (summaries_must_be_null && existsb (fun kv => negb (is_none kv.2)) sc) else SUMMARY_INVALID ;;
  Ok block.

Definition has_granularity (g : Z) (block : pydict) : bool :=
  match dget block (u "granularity") with Some v => py_eqb v (PInt g) | None => false end.

Definition validate_layered_content (payload : pyval) (summary_required summaries_must_be_null : bool)
    : result pydict :=
  let* top := object_ payload TOP_LEVEL_KEYS in
  check dmem top (u "context_meta") && dmem top (u "layered_content") else SCHEMA_INVALID ;;
  let* cm := dsub top (u "context_meta") in
  let* meta := validate_meta cm in
  let top := dset top (u "context_meta") (PDict meta) in
  let* top :=
    match dget top (u "date") with
    | Some v => let* date := validate_date v in Ok (dset top (u "date") (PDict date))
    | None => Ok top
    end in
  let* top :=
    match dget top (u "knowledge_tree") with
    | Some v => let* tree := validate_tree v in Ok (dset top (u "knowledge_tree") (PDict tree))
    | None => Ok top
    end in
  let* _ :=
    match dget meta (u "source_url") with
    | Some (PStr url) => ensure (ueqb url [] || uri_match url) SCHEMA_INVALID
    | _ => Ok tt
    end in
  let* _ :=
    match dget top (u "date") with
    | Some (PDict date) =>
        forM (fun kv => match kv.2 with
                        | PStr s => ensure (ueqb s [] || datetime_match s) SCHEMA_INVALID
                        | _ => Ok tt
                        end) date
    | _ => Ok tt
    end in
  let* blocks := dsub top (u "layered_content") in
  match blocks with
  | PList (b :: bs) =>
      let* validated := mapM (validate_block summary_required summaries_must_be_null) (b :: bs) in
      check existsb (has_granularity 0) validated else SCHEMA_INVALID ;;
      Ok (dset top (u "layered_content") (PList (map PDict validated)))
  | _ => Err SCHEMA_INVALID
  end.
End validator.
End LayeredContent.

(** ** What an accepted document looks like *)

(** The typed reading of one validated block. *)
Record lblock := {
  lb_id : Z;
  lb_g : Z;
  lb_original : pydict;
  lb_title : pyval;
  lb_body : pyval;
  lb_summary : pydict;
  lb_sum_title : pyval;
  lb_sum_body : pyval
}.

Definition nullable (v : pyval) : Prop := v = PNone \/ exists s, v = PStr s.

Section facts.
Context `{Host}.

Import LayeredContent.

Lemma object_Ok v allowed d : object_ v allowed = Ok d <-> v = PDict d /\ keys_within allowed d = true.
Proof.
  destruct v; simpl; try (split; [done|by intros [? _]]).
  rewrite rbind_Ok. setoid_rewrite ensure_Ok. split.
  - by intros (_ & ? & [= ->]).
  - intros [[= ->] ?]. by exists tt.
Qed.

Lemma nullable_text_Ok v w : nullable_text v = Ok w -> w = v /\ nullable v.
Proof. unfold nullable_text, nullable. intros Hn. inv_res. split; [done|]. destruct w; naive_solver. Qed.

Lemma dsub_Ok d k v : dsub d k = Ok v <-> dget d k = Some v.
Proof. unfold dsub. destruct (dget d k); naive_solver. Qed.

Record channel_shape (c : pydict) (title body : pyval) : Prop := {
  cs_title : dget c (u "title") = Some title;
  cs_body : dget c (u "body") = Some body;
  cs_title_nullable : nullable title;
  cs_body_nullable : nullable body;
  cs_keys : keys_exactly CHANNEL_KEYS c = true
}.

Lemma channel_Ok v sr c :
  channel v sr = Ok c ->
  v = PDict c /\ exists t b, channel_shape c t b /\ (sr = true -> nonblank_str b = true).
Proof.
  unfold channel. intros Hc. inv_res. apply object_Ok in H0 as [-> _].
  apply dsub_Ok in H2. apply nullable_text_Ok in H3 as [-> Ht]. rewrite (dset_same _ _ _ H2) in *.
  apply dsub_Ok in H4. apply nullable_text_Ok in H5 as [-> Hb]. rewrite (dset_same _ _ _ H4) in *.
  apply dsub_Ok in H6. split; [done|]. exists x1, x3. split; [by split|].
  intros ->. simpl in H7. congruence.
Qed.

Record block_shape (sr sn : bool) (d : pydict) (b : lblock) : Prop := {
  bs_id : dget d (u "block_id") = Some (PInt (lb_id b));
  bs_id_nonneg : 0 <= lb_id b;
  bs_g : dget d (u "granularity") = Some (PInt (lb_g b));
  bs_g_nonneg : 0 <= lb_g b;
  bs_original : dget d (u "original_content") = Some (PDict (lb_original b));
  bs_original_shape : channel_shape (lb_original b) (lb_title b) (lb_body b);
  bs_summary : dget d (u "llm_summary") = Some (PDict (lb_summary b));
  bs_summary_shape : channel_shape (lb_summary b) (lb_sum_title b) (lb_sum_body b);
  bs_summary_required : sr = true -> nonblank_str (lb_sum_body b) = true;
  bs_summary_null : sn = true -> lb_sum_title b = PNone /\ lb_sum_body b = PNone;
  bs_keys : keys_exactly BLOCK_KEYS d = true
}.

Lemma nat_int_true v : nat_int v = true <-> exists z, v = PInt z /\ 0 <= z.
Proof. destruct v; simpl; try naive_solver. rewrite Z.leb_le. naive_solver. Qed.

Lemma existsb_false_dget d k v :
  existsb (fun kv : ustr * pyval => negb (is_none kv.2)) d = false -> dget d k = Some v -> v = PNone.
Proof.
  intros He Hg%dget_Some_elem. apply list_elem_of_In in Hg.
  destruct (is_none v) eqn:E; [by destruct v|]. exfalso.
  enough (existsb (fun kv : ustr * pyval => negb (is_none kv.2)) d = true) by congruence.
  apply existsb_exists. exists (k, v). simpl. by rewrite E.
Qed.

Lemma validate_block_Ok sr sn raw d :
  validate_block sr sn raw = Ok d -> raw = PDict d /\ exists b, block_shape sr sn d b.
Proof.
  unfold validate_block. intros Hv. inv_res.
  apply object_Ok in H0 as [-> _]. apply dsub_Ok in H2, H4.
  apply nat_int_true in H3 as (id & -> & Hid), H5 as (g & -> & Hg).
  apply dsub_Ok in H6. apply channel_Ok in H7 as [-> (ot & ob & Ho & _)].
  rewrite (dset_same _ _ _ H6) in *.
  apply dsub_Ok in H8. apply channel_Ok in H9 as [-> (st & sb & Hs & Hreq)].
  rewrite (dset_same _ _ _ H8) in *. split; [done|].
  eexists (Build_lblock id g _ ot ob _ st sb).
  split; simpl; try done. intros ->. simpl in H10. apply negb_true_iff in H10. destruct Hs. split; eauto using existsb_false_dget.
Qed.

Lemma nullable_fields_Ok keys d e : nullable_fields keys d = Ok e -> e = d.
Proof.
  unfold nullable_fields. revert d; induction keys as [|k keys IH]; simpl; intros d Hn; [congruence|].
  inv_res. apply IH in Hn as ->. destruct (dget d k) eqn:E; inv_res; [|done].
  apply nullable_text_Ok in H1 as [-> _]. by apply dset_same.
Qed.

Lemma validate_meta_Ok v d : validate_meta v = Ok d -> v = PDict d.
Proof.
  unfold validate_meta. intros Hv. inv_res. apply object_Ok in H0 as [-> _].
  apply nullable_fields_Ok in H1 as ->. done.
Qed.

Lemma validate_date_Ok v d : validate_date v = Ok d -> v = PDict d.
Proof.
  unfold validate_date. intros Hv. inv_res. apply object_Ok in H0 as [-> _].
  by apply nullable_fields_Ok in Hv as ->.
Qed.

Lemma validate_tree_Ok v d : validate_tree v = Ok d -> v = PDict d.
Proof. unfold validate_tree. intros Hv. inv_res. by apply object_Ok in H0 as [-> _]. Qed.

(** The optional section writes back what it read. *)
Lemma optional_section_same (f : pyval -> result pydict) top k top' :
  (forall v d, f v = Ok d -> v = PDict d) ->
  match dget top k with
  | Some v => let* s := f v in Ok (dset top k (PDict s))
  | None => Ok top
  end = Ok top' -> top' = top.
Proof.
  intros Hf. destruct (dget top k) eqn:E; intros Ho; inv_res; [|done].
  apply Hf in H0 as ->. by apply dset_same.
Qed.

Lemma has_granularity_spec d sr sn b g : block_shape sr sn d b -> has_granularity g d = (lb_g b =? g).
Proof. intros Hb. unfold has_granularity. rewrite (bs_g _ _ _ _ Hb). apply py_eqb_int. Qed.

(** Accepted documents: the payload is the result, its blocks are typed, one is g0. *)
Lemma validate_layered_content_inv payload sr sn d :
  validate_layered_content payload sr sn = Ok d ->
  payload = PDict d /\
  exists meta blocks lbs,
    dget d (u "context_meta") = Some (PDict meta) /\
    dget d (u "layered_content") = Some (PList (map PDict blocks)) /\
    Forall2 (block_shape sr sn) blocks lbs /\ existsb (fun b => lb_g b =? 0) lbs = true.
Proof.
  unfold validate_layered_content. intros Hv. inv_res.
  apply object_Ok in H0 as [-> _]. apply dsub_Ok in H2. apply validate_meta_Ok in H3 as ->.
  rewrite (dset_same _ _ _ H2) in *.
  apply optional_section_same in H4 as ->; [|apply validate_date_Ok].
  apply optional_section_same in H5 as ->; [|apply validate_tree_Ok].
  apply dsub_Ok in H8. match goal with H : dget x (u "layered_content") = Some ?v |- _ => destruct v end; try done. destruct l as [|b0 bs]; [done|]. inv_res.
  assert (Forall2 (fun r d => r = PDict d /\ exists b, block_shape sr sn d b) (b0 :: bs) x1) as HF.
  { apply mapM_Ok in H0. eapply Forall2_impl; [exact H0|]. intros r d'. apply validate_block_Ok. }
  assert (b0 :: bs = map PDict x1) as Hmap.
  { clear -HF. revert HF. generalize (b0 :: bs) as l. clear. intros l.
    induction 1 as [|r d' l l' [-> _] _ IH]; simpl; by f_equal. }
  rewrite Hmap in H8. rewrite (dset_same _ _ _ H8). split; [done|].
  assert (exists lbs, Forall2 (block_shape sr sn) x1 lbs) as (lbs & Hl).
  { clear -HF. induction HF as [|r d' l l' [_ [b Hb]] _ (lbs & IH)].
    - exists []. constructor.
    - exists (b :: lbs). by constructor. }
  exists x2, x1, lbs. split; [done|]. split; [done|]. split; [done|].
  clear -Hl H3. induction Hl as [|d' b l l' Hb Hl IH]; simpl in *; [done|].
  rewrite (has_granularity_spec _ _ _ _ _ Hb) in H3. destruct (lb_g b =? 0); simpl in *; auto.
Qed.

(** The converse directions: what a typed block validates to. *)
Lemma keys_exactly_within {V} keys (d : list (ustr * V)) : keys_exactly keys d = true -> keys_within keys d = true.
Proof. by intros [? _]%andb_true_iff. Qed.

Lemma nullable_text_fwd v : nullable v -> nullable_text v = Ok v.
Proof. intros [->|[s ->]]; done. Qed.

Lemma channel_fwd c t b sr :
  channel_shape c t b -> (sr = true -> nonblank_str b = true) -> channel (PDict c) sr = Ok c.
Proof.
  intros [Ht Hb Hnt Hnb Hk] Hr. unfold channel, object_. rewrite (keys_exactly_within _ _ Hk). simpl.
  rewrite Hk. simpl. unfold dsub. rewrite Ht. simpl. rewrite (nullable_text_fwd _ Hnt). simpl.
  rewrite (dset_same _ _ _ Ht), Hb. simpl. rewrite (nullable_text_fwd _ Hnb). simpl.
  rewrite (dset_same _ _ _ Hb), Hb. simpl. destruct sr; simpl; [by rewrite Hr|done].
Qed.

Lemma validate_block_fwd sr d b : block_shape sr false d b -> validate_block sr false (PDict d) = Ok d.
Proof.
  intros [Hi Hin Hg Hgn Ho Hos Hs Hss Hreq _ Hk]. unfold validate_block, object_.
  rewrite (keys_exactly_within _ _ Hk). simpl. rewrite Hk. simpl. unfold dsub.
  rewrite Hi. simpl. replace (0 <=? lb_id b) with true by lia. simpl.
  rewrite Hg. simpl. replace (0 <=? lb_g b) with true by lia. simpl.
  rewrite Ho. simpl. rewrite (channel_fwd _ _ _ false Hos) by done. simpl.
  rewrite (dset_same _ _ _ Ho), Hs. simpl. rewrite (channel_fwd _ _ _ _ Hss Hreq). simpl.
  by rewrite (dset_same _ _ _ Hs).
Qed.

Lemma keys_within_dset {V} keys (d : list (ustr * V)) k v :
  keys_within keys d = true -> dmem d k = true -> keys_within keys (dset d k v) = true.
Proof.
  unfold keys_within. rewrite !forallb_forall. intros Hw Hm [k' v'] Hin. apply list_elem_of_In in Hin.
  assert (k' ∈ d.*1) as (kv & -> & Hkv)%list_elem_of_fmap.
  { rewrite <-(dset_keys d k v Hm). apply list_elem_of_fmap. by exists (k', v'). }
  apply (Hw kv). by apply list_elem_of_In.
Qed.

Lemma mapM_blocks_fwd sr blocks lbs :
  Forall2 (block_shape sr false) blocks lbs -> mapM (validate_block sr false) (map PDict blocks) = Ok blocks.
Proof.
  induction 1 as [|d b blocks lbs Hb _ IH]; [done|]. simpl. by rewrite (validate_block_fwd _ _ _ Hb), IH.
Qed.

Lemma existsb_g0 sr sn blocks lbs :
  Forall2 (block_shape sr sn) blocks lbs ->
  existsb (has_granularity 0) blocks = existsb (fun b => lb_g b =? 0) lbs.
Proof.
  induction 1 as [|d b blocks lbs Hb _ IH]; [done|]. simpl. by rewrite (has_granularity_spec _ _ _ _ _ Hb), IH.
Qed.

(** Replacing the blocks of an accepted document by well-shaped ones keeps it accepted. *)
Lemma validate_layered_content_replace payload sr sn d sr' blocks lbs :
  validate_layered_content payload sr sn = Ok d ->
  Forall2 (block_shape sr' false) blocks lbs -> existsb (fun b => lb_g b =? 0) lbs = true ->
  let d' := dset d (u "layered_content") (PList (map PDict blocks)) in
  validate_layered_content (PDict d') sr' false = Ok d'.
Proof.
  intros Hv Hbs Hg0. pose proof (validate_layered_content_inv _ _ _ _ Hv) as (-> & _ & old & _ & _ & Hlc & _).
  set (lc := PList (map PDict blocks)). cbn zeta.
  assert (dmem d (u "layered_content") = true) as Hm by (unfold dmem; by rewrite Hlc).
  unfold validate_layered_content in *. inv_res.
  apply object_Ok in H0 as [[= <-] Hk]. apply dsub_Ok in H2. pose proof (validate_meta_Ok _ _ H3) as ->.
  rewrite (dset_same _ _ _ H2) in *.
  pose proof (optional_section_same validate_date _ _ _ validate_date_Ok H4) as ->.
  pose proof (optional_section_same validate_tree _ _ _ validate_tree_Ok H5) as ->.
  unfold object_. rewrite keys_within_dset by done. simpl.
  assert (forall k, k <> u "layered_content" -> dget (dset d (u "layered_content") lc) k = dget d k) as Hne
    by (intros k ?; by rewrite dget_dset_ne).
  unfold dmem at 1 2. rewrite dget_dset_eq, !Hne by ukey_ne.
  rewrite H2. simpl. unfold dsub at 1. rewrite Hne, H2 by ukey_ne. simpl. rewrite H3. simpl.
  assert (dget (dset d (u "layered_content") lc) (u "context_meta") = Some (PDict x2)) as Hcm by (by rewrite Hne by ukey_ne).
  rewrite (dset_same _ _ _ Hcm). rewrite !Hne by ukey_ne.
  assert (match dget d (u "date") with
    | Some v => let* date := validate_date v in Ok (dset (dset d (u "layered_content") lc) (u "date") (PDict date))
    | None => Ok (dset d (u "layered_content") lc) end = Ok (dset d (u "layered_content") lc)) as ->.
  { destruct (dget d (u "date")) eqn:E; [|done]. apply rbind_Ok in H4 as (dt & Hdt & _). rewrite Hdt. simpl.
    rewrite dset_same; [done|]. rewrite Hne by ukey_ne. rewrite E. by rewrite (validate_date_Ok _ _ Hdt). }
  cbn [rbind]. rewrite !Hne by ukey_ne.
  assert (match dget d (u "knowledge_tree") with
    | Some v => let* t := validate_tree v in Ok (dset (dset d (u "layered_content") lc) (u "knowledge_tree") (PDict t))
    | None => Ok (dset d (u "layered_content") lc) end = Ok (dset d (u "layered_content") lc)) as ->.
  { destruct (dget d (u "knowledge_tree")) eqn:E; [|done]. apply rbind_Ok in H5 as (dt & Hdt & _). rewrite Hdt. simpl.
    rewrite dset_same; [done|]. rewrite Hne by ukey_ne. rewrite E. by rewrite (validate_tree_Ok _ _ Hdt). }
  cbn [rbind]. rewrite H6. cbn [rbind]. rewrite Hne by ukey_ne. rewrite H7. cbn [rbind].
  unfold dsub. rewrite dget_dset_eq. cbn [rbind]. subst lc.
  rewrite <-(existsb_g0 _ _ _ _ Hbs) in Hg0. destruct blocks as [|b0 bs]; [done|].
  pose proof (mapM_blocks_fwd _ _ _ Hbs) as Hmap. cbn [map mapM] in Hmap |- *. rewrite Hmap. cbn [rbind].
  rewrite Hg0. cbn [ensure rbind]. f_equal. apply dset_same. by rewrite dget_dset_eq.
Qed.
End facts.

(** ** The text recipe *)

Section normalize.
Context `{HL : HostLaws}.
Import LayeredContent.

Lemma replace_cr_free s : 13 ∉ str_replace s [13] [10].
Proof.
  unfold str_replace. induction s as [|c s IH]; [apply not_elem_of_nil|].
  cbn [replace_go starts_with length Nat.sub]. destruct (13 =? c) eqn:E; simpl.
  - apply not_elem_of_cons. split; [done|exact IH].
  - apply not_elem_of_cons. split; [lia|exact IH].
Qed.

Lemma replace_absent s old new c : head old = Some c -> c ∉ s -> str_replace s old new = s.
Proof.
  unfold str_replace. destruct old as [|o old]; [done|]. intros [= ->].
  induction s as [|x s IH]; intros Hs; [done|]. apply not_elem_of_cons in Hs as [Hx Hs].
  cbn [replace_go starts_with]. destruct (c =? x) eqn:E; [lia|]. simpl. by rewrite IH.
Qed.

Lemma normalize_text_no_cr s : 13 ∉ normalize_text s.
Proof. apply nfc_no_cr, replace_cr_free. Qed.

Lemma normalize_text_idem s : normalize_text (normalize_text s) = normalize_text s.
Proof.
  unfold normalize_text at 1.
  rewrite (replace_absent _ [13; 10] _ 13 eq_refl (normalize_text_no_cr s)).
  rewrite (replace_absent _ [13] _ 13 eq_refl (normalize_text_no_cr s)).
  apply nfc_idem.
Qed.
End normalize.

#[export] Hint Rewrite @normalize_text_idem : mkb.
