(* ===== verification/Cuts.v ===== *)
(** * Quoted cuts and the system-owned g0 block

    Model of [src/contracts/lsrag/cuts.py] and [src/runtime/intake/generation_assemble.py]:
    the model quotes a start and an end anchor per cut, the assembler finds the anchors in
    the clean text, slices it, and puts in front the one g0 block the system owns.

    [realign_construct_original] is not modelled: its fallback [dict(list)] builds
    dictionaries with non-string keys. *)

From S2P Require Import Prelude PyText PyValue LayeredContent.

Open Scope Z_scope.
Open Scope mkb_scope.

(** [l[i]] with Python's negative indices. *)
Definition py_index {A} (l : list A) (i : Z) : result A :=
  let j := if i <? 0 then i + Z.of_nat (length l) else i in
  if j <? 0 then Err IndexError
  else match l !! Z.to_nat j with Some x => Ok x | None => Err IndexError end.

Module Cuts.
Import LayeredContent.

Definition CUTS_SCHEMA_INVALID : exn := MkbError "CUTS_SCHEMA_INVALID" 422.
Definition CUTS_EMPTY : exn := MkbError "CUTS_EMPTY" 422.
Definition CUTS_ANCHOR_MISSING : exn := MkbError "CUTS_ANCHOR_MISSING" 422.
Definition CUTS_ANCHOR_AMBIGUOUS : exn := MkbError "CUTS_ANCHOR_AMBIGUOUS" 422.
Definition CUTS_ORDER_INVALID : exn := MkbError "CUTS_ORDER_INVALID" 422.
Definition SEMANTICS_INCOMPLETE : exn := MkbError "STRUCTURE_CONTEXT_SEMANTICS_INCOMPLETE" 422.

Definition CUTS_SCHEMA_VERSION : ustr := u "mkb.b-json-cuts.v1".
Definition CUTS_TOP_ALLOWED : list ustr := [u "schema_version"; u "cuts"; u "context_meta"].
Definition CUTS_BLOCK_ALLOWED : list ustr := [u "title"; u "start"; u "end"].
Definition CUTS_FORBIDDEN : list ustr :=
  [u "span"; u "start_byte"; u "end_byte"; u "offset"; u "index"; u "body"; u "original"; u "clean";
   u "layered_content"; u "block_id"; u "granularity"].

(** One validated cut and the validated pack (its [schema_version] is the constant). *)
Record cut := { cut_title : option ustr; cut_start : ustr; cut_end : ustr }.
Record cuts_pack := { cp_cuts : list cut; cp_context_meta : option pydict }.

Definition no_forbidden (d : pydict) : bool := forallb (fun k => negb (dmem d k)) CUTS_FORBIDDEN.

Definition nonblank (v : pyval) : result ustr :=
  match v with
  | PStr s => if blank s then Err CUTS_SCHEMA_INVALID else Ok s
  | _ => Err CUTS_SCHEMA_INVALID
  end.

Definition validate_cut (raw : pyval) : result cut :=
  match raw with
  | PDict d =>
      check no_forbidden d else CUTS_SCHEMA_INVALID ;;
      check keys_within CUTS_BLOCK_ALLOWED d else CUTS_SCHEMA_INVALID ;;
      match dget d (u "start"), dget d (u "end") with
      | Some start, Some end_ =>
          let* start := nonblank start in
          let* end_ := nonblank end_ in
          match dget d (u "title") with
          | None | Some PNone => Ok {| cut_title := None; cut_start := start; cut_end := end_ |}
          | Some (PStr t) => Ok {| cut_title := Some t; cut_start := start; cut_end := end_ |}
          | Some _ => Err CUTS_SCHEMA_INVALID
          end
      | _, _ => Err CUTS_SCHEMA_INVALID
      end
  | _ => Err CUTS_SCHEMA_INVALID
  end.

Definition validate_cuts (pack : pyval) : result cuts_pack :=
  match pack with
  | PDict d =>
      check no_forbidden d else CUTS_SCHEMA_INVALID ;;
      check keys_within CUTS_TOP_ALLOWED d else CUTS_SCHEMA_INVALID ;;
      check match dget d (u "schema_version") with
            | Some v => py_eqb v (PStr CUTS_SCHEMA_VERSION)
            | None => false
            end else CUTS_SCHEMA_INVALID ;;
      match dget d (u "cuts") with
      | None | Some PNone => Err CUTS_EMPTY
      | Some (PList []) => Err CUTS_EMPTY
      | Some (PList raws) =>
          let* cuts := mapM validate_cut raws in
          Ok {| cp_cuts := cuts;
                cp_context_meta := match dget d (u "context_meta") with Some (PDict m) => Some m | _ => None end |}
      | Some _ => Err CUTS_SCHEMA_INVALID
      end
  | _ => Err CUTS_SCHEMA_INVALID
  end.

(** ** Anchors *)

Definition IGNORABLE_CHARS : ustr := u "#*_`~>|+-=。，,！!？?:：;；()（）[]【】'“”'、" ++ [34; 9; 13; 10; 32].
Definition LINE_PREFIX_CHARS : ustr := u "#*_`~>|-+ " ++ [9].
Definition CLOSING_CHARS : ustr := u "`)]）】' " ++ [34; 9].
Definition FINAL_CHARS : ustr := u "。，.!,;；：:".

Definition char_in (c : Z) (set : ustr) : bool := bool_decide (c ∈ set).
Definition ignorable (c : Z) : bool := char_in c IGNORABLE_CHARS.

(** The characters kept for matching, each with its index in [clean]. *)
Definition compact (clean : ustr) (search_start : nat) : list (nat * Z) :=
  List.filter (fun p => negb (ignorable p.2)) (enumerate_from search_start (drop search_start clean)).

Definition compact_query (q : ustr) : ustr :=
  let c := List.filter (fun c => negb (ignorable c)) q in
  if ueqb c [] then strip q else c.

(** [while e < len(clean) and clean[e] in CLOSING_CHARS: e += 1], on the rest of the text. *)
Fixpoint count_while (p : Z -> bool) (s : ustr) : nat :=
  match s with
  | c :: s' => if p c then S (count_while p s') else 0
  | [] => 0
  end.

Definition anchor_end (clean : ustr) (e_idx : nat) : nat :=
  let closing c := char_in c CLOSING_CHARS && negb (c =? 10) in
  let e := (e_idx + count_while closing (drop e_idx clean))%nat in
  match clean !! e with
  | Some c => if char_in c FINAL_CHARS then S e else e
  | None => e
  end.

Definition anchor_start (clean : ustr) (s_idx : nat) : nat :=
  let line_start := match rfind_char 10 clean s_idx with Some k => S k | None => 0%nat end in
  if forallb (fun c => char_in c LINE_PREFIX_CHARS) (slice line_start s_idx clean) then line_start else s_idx.

(** The first tier: an exact match, [None] when it does not apply. *)
Definition find_exact (clean start_query end_query : ustr) (search_start : nat) : result (option (nat * nat)) :=
  match str_find clean start_query search_start with
  | None => Ok None
  | Some s =>
      match str_find clean end_query s with
      | None => Ok None
      | Some e =>
          check match str_find clean start_query (S s) with
                | Some second => negb (second <? e)%nat
                | None => true
                end else CUTS_ANCHOR_AMBIGUOUS ;;
          let end_pos := (e + length end_query)%nat in
          Ok (if (s <? end_pos)%nat then Some (s, end_pos) else None)
      end
  end.

Definition find_compact (clean start_query end_query : ustr) (search_start : nat) : result (nat * nat) :=
  let kept := compact clean search_start in
  let orig_indices := kept.*1 in
  let compact_str := kept.*2 in
  let start_compact := compact_query start_query in
  let end_compact := compact_query end_query in
  match str_find compact_str start_compact 0 with
  | None => Err CUTS_ANCHOR_MISSING
  | Some c_s =>
      match str_find compact_str end_compact c_s with
      | None => Err CUTS_ANCHOR_MISSING
      | Some c_e =>
          check match str_find compact_str start_compact (S c_s) with
                | Some second => negb (second <? c_e)%nat
                | None => true
                end else CUTS_ANCHOR_AMBIGUOUS ;;
          let* s_idx := py_index orig_indices (Z.of_nat c_s) in
          let s_idx := anchor_start clean s_idx in
          let* last := py_index orig_indices (Z.of_nat (c_e + length end_compact) - 1) in
          let e_idx := anchor_end clean (S last) in
          check negb (e_idx <=? s_idx)%nat else CUTS_ORDER_INVALID ;;
          Ok (s_idx, e_idx)
      end
  end.

Definition find_anchor_span (clean start_query end_query : ustr) (search_start : nat) : result (nat * nat) :=
  let* exact := find_exact clean start_query end_query search_start in
  match exact with
  | Some span => Ok span
  | None => find_compact clean start_query end_query search_start
  end.

(** ** Assembly *)

Definition text_or_none (t : option ustr) : pyval := match t with Some s => PStr s | None => PNone end.
Definition channel_dict (title body : pyval) : pyval := PDict [(u "title", title); (u "body", body)].
Definition block_dict (id g : Z) (title body : pyval) : pydict :=
  [(u "block_id", PInt id); (u "granularity", PInt g);
   (u "original_content", channel_dict title body);
   (u "llm_summary", channel_dict PNone PNone)].

Section assembler.
Context `{Host}.

(** [granularity == 0 or granularity == "0"] *)
Definition is_g0 (blk : pydict) : bool :=
  let g := default PNone (dget blk (u "granularity")) in
  py_eqb g (PInt 0) || py_eqb g (PStr (u "0")).

Definition drop_unless_mapping (d : pydict) (key : ustr) : pydict :=
  match dget d key with
  | Some v => if is_mapping v then d else dpop d key
  | None => d
  end.

Definition remaining_blocks (candidate : pydict) : list pydict :=
  let raw := match dget candidate (u "layered_content") with Some (PList l) => l | _ => [] end in
  List.filter (fun blk => negb (is_g0 blk)) (omap as_dict raw).

Definition renumber (p : nat * pydict) : pydict := dset p.2 (u "block_id") (PInt (Z.of_nat p.1)).

Definition overlay_system_g0 (clean_text : ustr) (candidate : pydict) : pydict :=
  let clean := normalize_text clean_text in
  let system_g0 := block_dict 0 0 PNone (PStr clean) in
  let new_blocks := system_g0 :: map renumber (enumerate_from 1 (remaining_blocks candidate)) in
  let result := dpop candidate (u "schema_version") in
  let result := dset result (u "layered_content") (PList (map PDict new_blocks)) in
  let result := drop_unless_mapping result (u "date") in
  let result := drop_unless_mapping result (u "knowledge_tree") in
  match dget result (u "context_meta") with
  | Some (PDict _) => result
  | _ => dset result (u "context_meta") (PDict [])
  end.

(** A field that is a non-empty [str]. *)
Definition semantic_text (d : pydict) (key : ustr) : option ustr :=
  match dget d key with
  | Some (PStr s) => if ueqb s [] then None else Some s
  | _ => None
  end.

Definition overlay_system_context_meta (candidate revision_semantics : pydict) : result pydict :=
  let text key := semantic_text revision_semantics key in
  match text (u "realm"), text (u "type"), text (u "channel"), text (u "source_name") with
  | Some realm, Some type, Some channel, Some source_name =>
      match dget revision_semantics (u "context_tags") with
      | Some (PList tags) =>
          check forallb is_str tags else SEMANTICS_INCOMPLETE ;;
          let context := match dget candidate (u "context_meta") with Some (PDict m) => m | _ => [] end in
          let context := dupdate context
            [(u "realm", PStr realm); (u "type", PStr type); (u "channel", PStr channel);
             (u "source_name", PStr source_name); (u "tags", PList tags)] in
          Ok (dset candidate (u "context_meta") (PDict context))
      | _ => Err SEMANTICS_INCOMPLETE
      end
  | _, _, _, _ => Err SEMANTICS_INCOMPLETE
  end.

Definition assemble_cut (clean : ustr) (p : nat * cut) : result pydict :=
  let '(idx, c) := p in
  let* '(s, e) := find_anchor_span clean (cut_start c) (cut_end c) 0 in
  Ok (block_dict (Z.of_nat idx + 1) 1 (text_or_none (cut_title c)) (PStr (slice s e clean))).

Definition assemble_from_cuts (clean_text : ustr) (cuts_pack : pyval) : result pydict :=
  let clean := normalize_text clean_text in
  let* validated := validate_cuts cuts_pack in
  let* g1_blocks := mapM (assemble_cut clean) (enumerate_from 0 (cp_cuts validated)) in
  let raw_candidate :=
    (u "layered_content", PList (map PDict g1_blocks))
    :: match cp_context_meta validated with Some m => [(u "context_meta", PDict m)] | None => [] end in
  Ok (overlay_system_g0 clean raw_candidate).
End assembler.
End Cuts.

(** ** Facts about anchors *)

Module CutsFacts.
Import LayeredContent Cuts.

Lemma count_while_le p s : (count_while p s <= length s)%nat.
Proof. induction s as [|c s IH]; simpl; [lia|]. destruct (p c); lia. Qed.

Lemma anchor_end_bounds clean e : (e <= length clean)%nat -> (e <= anchor_end clean e <= length clean)%nat.
Proof.
  intros He. unfold anchor_end.
  set (cl := fun c => char_in c CLOSING_CHARS && negb (c =? 10)).
  pose proof (count_while_le cl (drop e clean)) as Hc. rewrite length_drop in Hc.
  destruct (clean !! (e + count_while cl (drop e clean))%nat) as [c|] eqn:E; [|lia].
  apply lookup_lt_Some in E. destruct (char_in c FINAL_CHARS); lia.
Qed.

Lemma rfind_char_lt c s hi k : rfind_char c s hi = Some k -> (k < hi)%nat.
Proof.
  induction hi as [|hi IH]; simpl; [done|]. case_bool_decide.
  - intros [= ->]. lia.
  - intros Hk%IH. lia.
Qed.

Lemma anchor_start_le clean s : (anchor_start clean s <= s)%nat.
Proof.
  unfold anchor_start. destruct (rfind_char 10 clean s) as [k|] eqn:E.
  - apply rfind_char_lt in E. case_match; lia.
  - case_match; lia.
Qed.

(** The kept characters are characters of the text, in the order of the text. *)
Lemma filter_enumerate_sorted (f : nat * Z -> bool) l k :
  StronglySorted lt (List.filter f (enumerate_from k l)).*1
  /\ Forall (fun p => (k <= p.1 < k + length l)%nat) (List.filter f (enumerate_from k l)).
Proof.
  revert k; induction l as [|c l IH]; intros k; simpl; [split; constructor|].
  destruct (IH (S k)) as [Hs Hf].
  assert (Forall (fun p => (k <= p.1 < k + S (length l))%nat) (List.filter f (enumerate_from (S k) l))) as Hf'.
  { eapply Forall_impl; [exact Hf|]. simpl. intros; lia. }
  destruct (f (k, c)); simpl; [|done]. split.
  - constructor; [done|]. apply Forall_fmap. eapply Forall_impl; [exact Hf|]. simpl; intros; lia.
  - constructor; [simpl; lia|done].
Qed.

Lemma compact_index clean k i j :
  (compact clean k).*1 !! i = Some j -> (k <= j < length clean)%nat.
Proof.
  unfold compact. intros Hi.
  pose proof (filter_enumerate_sorted (fun p => negb (ignorable p.2)) (drop k clean) k) as [_ Hf].
  apply list_lookup_fmap_Some in Hi as (p & -> & Hp).
  pose proof (Forall_lookup_1 _ _ _ _ Hf Hp) as Hb. simpl in Hb. rewrite length_drop in Hb. lia.
Qed.

Lemma strongly_sorted_lookup (l : list nat) i j x y :
  StronglySorted lt l -> (i <= j)%nat -> l !! i = Some x -> l !! j = Some y -> (x <= y)%nat.
Proof.
  intros Hs; revert i j; induction Hs as [|z l Hs IH Hz]; intros [|i] [|j] Hij Hi Hj; simplify_eq/=; try lia.
  - pose proof (Forall_lookup_1 _ _ _ _ Hz Hj). simpl in *. lia.
  - eapply (IH i j); eauto with lia.
Qed.

Lemma compact_index_mono clean k i j x y :
  (i <= j)%nat -> (compact clean k).*1 !! i = Some x -> (compact clean k).*1 !! j = Some y -> (x <= y)%nat.
Proof. apply strongly_sorted_lookup. apply filter_enumerate_sorted. Qed.

Lemma py_index_nat {A} (l : list A) i x : py_index l (Z.of_nat i) = Ok x <-> l !! i = Some x.
Proof.
  unfold py_index. destruct (Z.ltb_spec (Z.of_nat i) 0); [lia|].
  destruct (Z.ltb_spec (Z.of_nat i) 0); [lia|]. rewrite Nat2Z.id.
  destruct (l !! i); naive_solver.
Qed.

Lemma py_index_lt {A} (l : list A) i : (i < length l)%nat -> exists x, py_index l (Z.of_nat i) = Ok x /\ l !! i = Some x.
Proof. intros Hi. apply lookup_lt_is_Some in Hi as [x Hx]. exists x. by rewrite py_index_nat. Qed.

Lemma py_index_In {A} (l : list A) i x : py_index l i = Ok x -> exists j, l !! j = Some x.
Proof.
  unfold py_index. intros Hx. repeat case_match; simplify_eq; eauto.
Qed.

Lemma compact_query_nonempty q : blank q = false -> (1 <= length (compact_query q))%nat.
Proof.
  intros Hq. unfold compact_query. destruct (ueqb _ []) eqn:E.
  - unfold blank in Hq. apply bool_decide_eq_false in Hq. destruct (strip q); [done|simpl; lia].
  - apply bool_decide_eq_false in E. destruct (List.filter _ q); [done|simpl; lia].
Qed.

(** The exact tier returns a non-empty range of the text, from an occurrence of the start
    anchor to the end of an occurrence of the end anchor. *)
Lemma find_exact_Some clean a b k s e :
  find_exact clean a b k = Ok (Some (s, e)) ->
  occurs_at clean a s /\ (s < e <= length clean)%nat /\
  exists e', e = (e' + length b)%nat /\ (s <= e')%nat /\ occurs_at clean b e'.
Proof.
  unfold find_exact. destruct (str_find clean a k) as [s'|] eqn:Es; [|done].
  destruct (str_find clean b s') as [e'|] eqn:Ee; [|done]. intros Hx. inv_res.
  apply str_find_Some in Es as (_ & Hs & _). apply str_find_Some in Ee as (Hle & He & _).
  destruct (s' <? e' + length b)%nat eqn:E; simplify_eq. apply Nat.ltb_lt in E.
  pose proof (occurs_at_slice _ _ _ He) as [_ Hb].
  split; [done|]. split; [lia|]. eauto.
Qed.

Lemma find_compact_bounds clean a b k s e :
  find_compact clean a b k = Ok (s, e) -> (s < e <= length clean)%nat.
Proof.
  unfold find_compact. destruct (str_find _ (compact_query a) 0) as [cs|]; [|done].
  destruct (str_find _ (compact_query b) cs) as [ce|]; [|done]. intros Hx. inv_res.
  match goal with H : negb (anchor_end _ (S ?l) <=? _)%nat = true, H' : py_index _ _ = Ok ?l |- _ =>
    apply negb_true_iff, Nat.leb_gt in H; apply py_index_In in H' as (j & Hj);
    apply compact_index in Hj; pose proof (anchor_end_bounds clean (S l) ltac:(lia)) end. lia.
Qed.

Lemma find_anchor_span_bounds clean a b k s e :
  find_anchor_span clean a b k = Ok (s, e) -> (s < e <= length clean)%nat.
Proof.
  unfold find_anchor_span. intros Hx. inv_res. destruct x as [[s' e']|].
  - simplify_eq. by apply find_exact_Some in H as (_ & ? & _).
  - by apply find_compact_bounds in Hx.
Qed.

Lemma find_compact_errors clean a b k err :
  blank a = false -> blank b = false ->
  find_compact clean a b k = Err err -> err = CUTS_ANCHOR_MISSING \/ err = CUTS_ANCHOR_AMBIGUOUS.
Proof.
  intros Ha%compact_query_nonempty Hb%compact_query_nonempty. unfold find_compact.
  destruct (str_find _ (compact_query a) 0) as [cs|] eqn:Es; [|intros [= <-]; auto].
  destruct (str_find _ (compact_query b) cs) as [ce|] eqn:Ee; [|intros [= <-]; auto].
  apply str_find_Some in Es as (_ & [_ Hs]%occurs_at_slice & _).
  apply str_find_Some in Ee as (Hle & [_ He]%occurs_at_slice & _).
  rewrite length_fmap in Hs, He.
  intros [[_ ->]%ensure_Err|(_ & _ & Hx)]%rbind_Err; [auto|].
  destruct (py_index_lt (compact clean k).*1 cs) as (i1 & Hi1 & Hl1); [rewrite length_fmap; lia|].
  rewrite Hi1 in Hx. simpl in Hx.
  replace (Z.of_nat (ce + length (compact_query b)) - 1)
    with (Z.of_nat (ce + length (compact_query b) - 1)) in Hx by lia.
  destruct (py_index_lt (compact clean k).*1 (ce + length (compact_query b) - 1)) as (i2 & Hi2 & Hl2);
    [rewrite length_fmap; lia|].
  rewrite Hi2 in Hx. simpl in Hx. exfalso.
  pose proof (compact_index_mono clean k cs (ce + length (compact_query b) - 1) _ _ ltac:(lia) Hl1 Hl2) as Hmono.
  apply compact_index in Hl2. pose proof (anchor_end_bounds clean (S i2) ltac:(lia)).
  pose proof (anchor_start_le clean i1).
  apply rbind_Err in Hx as [[Hx _]%ensure_Err|(_ & _ & Hx)]; [|done].
  apply negb_false_iff, Nat.leb_le in Hx. lia.
Qed.

Lemma find_anchor_span_errors clean a b k err :
  blank a = false -> blank b = false ->
  find_anchor_span clean a b k = Err err -> err = CUTS_ANCHOR_MISSING \/ err = CUTS_ANCHOR_AMBIGUOUS.
Proof.
  intros Ha Hb. unfold find_anchor_span. intros [Hx|([[]|] & _ & Hx)]%rbind_Err; [|done|].
  - revert Hx. unfold find_exact. destruct (str_find clean a k) as [s|]; [|done].
    destruct (str_find clean b s) as [e|]; [|done].
    intros [[_ ->]%ensure_Err|(_ & _ & Hx)]%rbind_Err; [auto|done].
  - exact (find_compact_errors _ _ _ _ _ Ha Hb Hx).
Qed.

Lemma validate_cut_nonblank raw c : validate_cut raw = Ok c -> blank (cut_start c) = false /\ blank (cut_end c) = false.
Proof.
  assert (forall v s, nonblank v = Ok s -> blank s = false) as Hn.
  { intros v s. unfold nonblank. repeat case_match; try done. by intros [= <-]. }
  unfold validate_cut. destruct raw; try done. intros Hv. inv_res.
  destruct (dget d (u "start")) as [vs|]; [|done]. destruct (dget d (u "end")) as [ve|]; [|done].
  inv_res. apply Hn in H1, H2. repeat case_match; simplify_eq/=; done.
Qed.

Lemma validate_cuts_inv pack cp :
  validate_cuts pack = Ok cp ->
  exists d, pack = PDict d /\ (1 <= length (cp_cuts cp))%nat /\
  Forall (fun c => blank (cut_start c) = false /\ blank (cut_end c) = false) (cp_cuts cp).
Proof.
  unfold validate_cuts. destruct pack; try done. intros Hv. inv_res. exists d. split; [done|].
  destruct (dget d (u "cuts")) as [[| | | | |[|raw0 raws]| |]|]; try done. inv_res. simpl.
  match goal with H : mapM _ _ = Ok _ |- _ => rename H into Hm end.
  pose proof (mapM_length _ _ _ Hm) as Hl.
  split; [rewrite Hl; simpl; lia|]. apply mapM_Ok in Hm.
  eapply Forall2_Forall_r; [exact Hm|]. apply Forall_true. intros r c. apply validate_cut_nonblank.
Qed.
End CutsFacts.

(** ** The overlay *)

Module OverlayFacts.
Import LayeredContent Cuts.

Section overlay.
Context `{HL : HostLaws}.

Lemma dpop_absent (d : pydict) k : dget d k = None -> dpop d k = d.
Proof.
  intros Hd%dget_None. unfold dpop. induction d as [|[k' v] d IH]; [done|].
  rewrite filter_cons. simpl in *. apply not_elem_of_cons in Hd as [Hk Hd].
  case_decide; [|congruence]. f_equal. auto.
Qed.

Lemma drop_unless_mapping_ne d k k2 : k <> k2 -> dget (drop_unless_mapping d k) k2 = dget d k2.
Proof.
  intros Hk. unfold drop_unless_mapping. destruct (dget d k) as [v|]; [|done].
  destruct (is_mapping v); [done|]. by apply dget_dpop_ne.
Qed.

Lemma drop_unless_mapping_eq d k v : dget (drop_unless_mapping d k) k = Some v -> is_mapping v = true.
Proof.
  unfold drop_unless_mapping. destruct (dget d k) as [w|] eqn:E; [|congruence].
  destruct (is_mapping w) eqn:Em; [congruence|]. by rewrite dget_dpop_eq.
Qed.

Lemma drop_unless_mapping_id d k :
  (forall v, dget d k = Some v -> is_mapping v = true) -> drop_unless_mapping d k = d.
Proof.
  unfold drop_unless_mapping. destruct (dget d k) as [v|]; [|done]. intros Hm. by rewrite (Hm v).
Qed.

Lemma is_g0_renumber p : is_g0 (renumber p) = is_g0 p.2.
Proof. unfold is_g0, renumber. rewrite dget_dset_ne by ukey_ne. done. Qed.

Lemma omap_as_dict (l : list pydict) : omap as_dict (map PDict l) = l.
Proof. induction l as [|d l IH]; [done|]. change (d :: omap as_dict (map PDict l) = d :: l). by rewrite IH. Qed.

Lemma filter_all {A} (f : A -> bool) l : Forall (fun x => f x = true) l -> List.filter f l = l.
Proof. induction 1 as [|x l Hx _ IH]; simpl; [done|]. rewrite Hx. by f_equal. Qed.

Definition overlay_rest (candidate : pydict) : list pydict :=
  map renumber (enumerate_from 1 (remaining_blocks candidate)).

Lemma overlay_rest_not_g0 cand : Forall (fun b => is_g0 b = false) (overlay_rest cand).
Proof.
  apply Forall_forall. intros b Hb. apply list_elem_of_fmap in Hb as (p & -> & Hp).
  rewrite is_g0_renumber. assert (p.2 ∈ remaining_blocks cand) as Hr.
  { rewrite <-(enumerate_from_snd 1 (remaining_blocks cand)). apply list_elem_of_fmap. eauto. }
  unfold remaining_blocks in Hr. apply list_elem_of_In, filter_In in Hr as [_ Hr].
  by apply negb_true_iff in Hr.
Qed.

Lemma overlay_rest_lookup cand i :
  overlay_rest cand !! i = (fun raw => renumber (S i, raw)) <$> remaining_blocks cand !! i.
Proof.
  unfold overlay_rest. rewrite list_lookup_fmap, enumerate_from_lookup.
  by destruct (remaining_blocks cand !! i).
Qed.

Lemma overlay_lookup clean cand k :
  k <> u "schema_version" -> k <> u "layered_content" -> k <> u "date" -> k <> u "knowledge_tree" ->
  k <> u "context_meta" -> dget (overlay_system_g0 clean cand) k = dget cand k.
Proof.
  intros. unfold overlay_system_g0.
  assert (forall d, dget (match dget d (u "context_meta") with
                          | Some (PDict _) => d | _ => dset d (u "context_meta") (PDict []) end) k = dget d k) as Hcm.
  { intros d. repeat case_match; try done; by rewrite dget_dset_ne. }
  rewrite Hcm, !drop_unless_mapping_ne, dget_dset_ne, dget_dpop_ne by done. done.
Qed.

Lemma overlay_context_meta clean cand :
  exists m, dget (overlay_system_g0 clean cand) (u "context_meta") = Some (PDict m).
Proof.
  unfold overlay_system_g0. set (d := drop_unless_mapping _ _). clearbody d.
  destruct (dget d (u "context_meta")) as [[]|] eqn:E; try (exists []; by rewrite dget_dset_eq).
  by exists d0.
Qed.

Lemma overlay_blocks clean cand :
  dget (overlay_system_g0 clean cand) (u "layered_content")
  = Some (PList (map PDict (block_dict 0 0 PNone (PStr (normalize_text clean)) :: overlay_rest cand))).
Proof.
  unfold overlay_system_g0.
  set (d0 := dset (dpop cand _) _ _).
  assert (dget d0 (u "layered_content")
          = Some (PList (map PDict (block_dict 0 0 PNone (PStr (normalize_text clean)) :: overlay_rest cand)))) as H0
    by (unfold d0; by rewrite dget_dset_eq).
  set (d := drop_unless_mapping _ _).
  assert (dget d (u "layered_content") = dget d0 (u "layered_content")) as Hd.
  { unfold d. rewrite !drop_unless_mapping_ne by ukey_ne. done. }
  rewrite H0 in Hd. clearbody d.
  repeat case_match; rewrite ?dget_dset_ne by ukey_ne; done.
Qed.

Lemma overlay_optional clean cand k v :
  k = u "date" \/ k = u "knowledge_tree" ->
  dget (overlay_system_g0 clean cand) k = Some v -> is_mapping v = true.
Proof.
  intros Hk. unfold overlay_system_g0.
  set (d1 := drop_unless_mapping _ (u "date")). set (d := drop_unless_mapping d1 _).
  assert (dget d k = Some v -> is_mapping v = true) as Hd.
  { destruct Hk as [-> | ->]; [|apply drop_unless_mapping_eq].
    unfold d. rewrite drop_unless_mapping_ne by ukey_ne. apply drop_unless_mapping_eq. }
  assert (k <> u "context_meta") as Hne by (destruct Hk as [-> | ->]; ukey_ne).
  clearbody d. repeat case_match; rewrite ?dget_dset_ne by congruence; done.
Qed.

Lemma overlay_no_schema_version clean cand : dget (overlay_system_g0 clean cand) (u "schema_version") = None.
Proof.
  unfold overlay_system_g0. set (d := drop_unless_mapping _ _).
  assert (dget d (u "schema_version") = None) as Hd.
  { unfold d. rewrite !drop_unless_mapping_ne, dget_dset_ne, dget_dpop_eq by ukey_ne. done. }
  clearbody d. repeat case_match; rewrite ?dget_dset_ne by ukey_ne; done.
Qed.

Lemma overlay_rest_overlay clean cand :
  overlay_rest (overlay_system_g0 clean cand) = overlay_rest cand.
Proof.
  unfold overlay_rest at 1. unfold remaining_blocks.
  rewrite overlay_blocks, omap_as_dict. simpl.
  rewrite filter_all.
  - apply list_eq. intros i. rewrite list_lookup_fmap, enumerate_from_lookup, overlay_rest_lookup.
    destruct (remaining_blocks cand !! i) as [raw|]; simpl; [|done]. f_equal.
    unfold renumber. simpl. by rewrite dset_same by apply dget_dset_eq.
  - eapply Forall_impl; [apply overlay_rest_not_g0|]. simpl. by intros b ->.
Qed.
End overlay.
End OverlayFacts.

(** ** Properties *)

Section properties.
Context `{HL : HostLaws}.
Import LayeredContent Cuts CutsFacts OverlayFacts.

(** The g1 block of cut number [p.1] whose anchors span [sp]. *)
Definition cut_block (clean : ustr) (p : nat * cut) (sp : nat * nat) : pydict :=
  block_dict (Z.of_nat p.1 + 1) 1 (text_or_none (cut_title p.2)) (PStr (slice sp.1 sp.2 clean)).

Lemma assemble_cuts_spans clean i cuts blocks :
  mapM (assemble_cut clean) (enumerate_from i cuts) = Ok blocks ->
  exists spans,
    Forall2 (fun c sp => find_anchor_span clean (cut_start c) (cut_end c) 0 = Ok sp) cuts spans /\
    blocks = zip_with (cut_block clean) (enumerate_from i cuts) spans.
Proof.
  revert i blocks; induction cuts as [|c cuts IH]; intros i blocks Hm; simpl in Hm.
  - injection Hm as <-. exists []. split; [constructor|done].
  - inv_res. destruct x1 as [s e]. inv_res. destruct (IH _ _ H1) as (spans & Hf & ->).
    exists ((s, e) :: spans). split; [by constructor|done].
Qed.

Lemma zip_cut_block_lookup clean cuts spans i b :
  zip_with (cut_block clean) (enumerate_from 0 cuts) spans !! i = Some b ->
  exists c sp, b = cut_block clean (i, c) sp.
Proof.
  rewrite lookup_zip_with_Some. intros (p & sp & -> & Hp & _).
  rewrite enumerate_from_lookup in Hp. destruct (cuts !! i); simplify_eq/=. eauto.
Qed.

Lemma overlay_rest_cut_blocks clean cuts spans extra :
  let blocks := zip_with (cut_block clean) (enumerate_from 0 cuts) spans in
  overlay_rest ((u "layered_content", PList (map PDict blocks)) :: extra) = blocks.
Proof.
  intros blocks. unfold overlay_rest, remaining_blocks. simpl.
  change (ueqb _ _) with true. cbn iota. rewrite omap_as_dict, filter_all.
  - apply list_eq. intros i. rewrite list_lookup_fmap, enumerate_from_lookup.
    destruct (blocks !! i) as [b|] eqn:E; simpl; [|done]. f_equal.
    apply zip_cut_block_lookup in E as (c & sp & ->).
    unfold renumber. simpl. ukey. unfold cut_block, block_dict. simpl. do 3 f_equal. lia.
  - apply Forall_lookup. intros i b Hb. by apply zip_cut_block_lookup in Hb as (c & sp & ->).
Qed.

Lemma semantic_text_Some d k s : semantic_text d k = Some s -> dget d k = Some (PStr s).
Proof.
  unfold semantic_text. destruct (dget d k) as [[]|]; try done. case_match; [done|]. by intros [= ->].
Qed.

(** A document assembled from quoted cuts is the system g0 block, whose body is the
    whole normalised clean text, followed by one g1 block per cut in the order of the
    cuts; every g1 body is a non-empty contiguous slice of the clean text, at the span
    its two anchors were found at. *)
Theorem assemble_from_cuts_sound clean_text pack r :
  assemble_from_cuts clean_text pack = Ok r ->
  let clean := normalize_text clean_text in
  exists cp spans,
    validate_cuts pack = Ok cp /\
    Forall2 (fun c sp => find_anchor_span clean (cut_start c) (cut_end c) 0 = Ok sp) (cp_cuts cp) spans /\
    Forall (fun sp => (sp.1 < sp.2 <= length clean)%nat) spans /\
    dget r (u "layered_content")
    = Some (PList (map PDict (block_dict 0 0 PNone (PStr clean)
                              :: zip_with (cut_block clean) (enumerate_from 0 (cp_cuts cp)) spans))).
Proof.
  unfold assemble_from_cuts. intros Ha. inv_res.
  apply assemble_cuts_spans in H1 as (spans & Hf & ->).
  exists x, spans. split; [done|]. split; [done|]. split.
  - eapply Forall2_Forall_r; [exact Hf|]. apply Forall_true. intros c [s e] Hs.
    by apply find_anchor_span_bounds in Hs.
  - rewrite overlay_blocks, overlay_rest_cut_blocks, normalize_text_idem. done.
Qed.

(** Assembling fails only with the published codes of the cuts contract: no index
    or order error of the anchor search escapes. *)
Theorem assemble_from_cuts_errors clean_text pack e :
  assemble_from_cuts clean_text pack = Err e ->
  e ∈ [CUTS_SCHEMA_INVALID; CUTS_EMPTY; CUTS_ANCHOR_MISSING; CUTS_ANCHOR_AMBIGUOUS].
Proof.
  assert (forall raw, validate_cut raw = Err e -> e = CUTS_SCHEMA_INVALID) as Hcut.
  { assert (forall v, nonblank v = Err e -> e = CUTS_SCHEMA_INVALID) as Hn.
    { intros v. unfold nonblank. destruct v; try by intros [= <-]. by destruct (blank s); intros [= <-]. }
    intros raw. unfold validate_cut. destruct raw; try by intros [= <-].
    intros [[_ ->]%ensure_Err|(_ & _ & Hv)]%rbind_Err; [done|].
    apply rbind_Err in Hv as [[_ ->]%ensure_Err|(_ & _ & Hv)]; [done|].
    destruct (dget d (u "start")), (dget d (u "end")); try by injection Hv as <-.
    apply rbind_Err in Hv as [Hv|(? & _ & Hv)]; [by apply Hn in Hv|].
    apply rbind_Err in Hv as [Hv|(? & _ & Hv)]; [by apply Hn in Hv|].
    destruct (dget d (u "title")) as [[]|]; by simplify_eq/=. }
  unfold assemble_from_cuts. intros [Hv|(cp & Hcp & Hx)]%rbind_Err.
  - enough (e = CUTS_SCHEMA_INVALID \/ e = CUTS_EMPTY) as [-> | ->] by set_solver.
    revert Hv. unfold validate_cuts. destruct pack; try (intros [= <-]; auto).
    intros [[_ ->]%ensure_Err|(_ & _ & Hx)]%rbind_Err; [auto|].
    apply rbind_Err in Hx as [[_ ->]%ensure_Err|(_ & _ & Hx)]; [auto|].
    apply rbind_Err in Hx as [[_ ->]%ensure_Err|(_ & _ & Hx)]; [auto|].
    destruct (dget d (u "cuts")) as [[| | | | |[|raw0 raws]| |]|]; simplify_eq; auto.
    apply rbind_Err in Hx as [(raw & _ & Hraw)%mapM_Err|(? & _ & ?)]; [left; by apply (Hcut raw)|done].
  - apply rbind_Err in Hx as [([i c] & Hin & Hc)%mapM_Err|(? & _ & ?)]; [|done].
    apply validate_cuts_inv in Hcp as (d & -> & _ & Hf).
    assert (c ∈ cp_cuts cp) as Hc'.
    { rewrite <-(enumerate_from_snd 0 (cp_cuts cp)). apply list_elem_of_fmap. by exists (i, c). }
    rewrite Forall_forall in Hf. destruct (Hf _ Hc') as [Hs He].
    simpl in Hc. apply rbind_Err in Hc as [Hc|([] & _ & ?)]; [|done].
    apply find_anchor_span_errors in Hc as [-> | ->]; [set_solver..|done|done].
Qed.

(** The overlay leaves exactly one g0 block, at the head and holding the whole clean
    text; the other blocks keep their order and their content and are renumbered by
    position; a second overlay changes nothing. *)
Theorem overlay_system_g0_spec clean_text candidate :
  let r := overlay_system_g0 clean_text candidate in
  exists rest,
    dget r (u "layered_content")
    = Some (PList (map PDict (block_dict 0 0 PNone (PStr (normalize_text clean_text)) :: rest))) /\
    Forall (fun b => is_g0 b = false) rest /\
    length rest = length (remaining_blocks candidate) /\
    (forall i b, rest !! i = Some b ->
       dget b (u "block_id") = Some (PInt (Z.of_nat (S i))) /\
       exists raw, remaining_blocks candidate !! i = Some raw /\
         forall k, k <> u "block_id" -> dget b k = dget raw k) /\
    overlay_system_g0 clean_text r = r.
Proof.
  intros r. exists (overlay_rest candidate). split; [apply overlay_blocks|].
  split; [apply overlay_rest_not_g0|].
  split; [unfold overlay_rest; rewrite length_map; apply enumerate_from_length|]. split.
  - intros i b Hb. rewrite overlay_rest_lookup in Hb.
    destruct (remaining_blocks candidate !! i) as [raw|] eqn:E; simplify_eq/=.
    unfold renumber; simpl. split; [apply dget_dset_eq|]. exists raw. split; [done|].
    intros k Hk. by apply dget_dset_ne.
  - unfold overlay_system_g0 at 1. fold (overlay_rest r).
    rewrite (overlay_rest_overlay clean_text candidate : overlay_rest r = overlay_rest candidate).
    rewrite (dpop_absent r) by apply overlay_no_schema_version.
    rewrite (dset_same r) by apply overlay_blocks.
    rewrite (drop_unless_mapping_id r (u "date")) by (intros v; apply overlay_optional; by left).
    rewrite (drop_unless_mapping_id r (u "knowledge_tree")) by (intros v; apply overlay_optional; by right).
    destruct (overlay_context_meta clean_text candidate) as (m & Hm). fold r in Hm. by rewrite Hm.
Qed.

(** The filter fields of [context_meta] are those of the committed semantics, whatever
    the model wrote; everything else of the candidate is kept. *)
Theorem overlay_system_context_meta_authority candidate semantics r :
  overlay_system_context_meta candidate semantics = Ok r ->
  exists m,
    dget r (u "context_meta") = Some (PDict m) /\
    (forall k, k ∈ [u "realm"; u "type"; u "channel"; u "source_name"] -> dget m k = dget semantics k) /\
    dget m (u "tags") = dget semantics (u "context_tags") /\
    (forall k, k ∉ [u "realm"; u "type"; u "channel"; u "source_name"; u "tags"] ->
       dget m k = match dget candidate (u "context_meta") with Some (PDict m0) => dget m0 k | _ => None end) /\
    (forall k, k <> u "context_meta" -> dget r k = dget candidate k).
Proof.
  unfold overlay_system_context_meta.
  destruct (semantic_text semantics (u "realm")) as [realm|] eqn:Er; [|done].
  destruct (semantic_text semantics (u "type")) as [type|] eqn:Et; [|done].
  destruct (semantic_text semantics (u "channel")) as [chan|] eqn:Ec; [|done].
  destruct (semantic_text semantics (u "source_name")) as [src|] eqn:Es; [|done].
  apply semantic_text_Some in Er, Et, Ec, Es.
  destruct (dget semantics (u "context_tags")) as [[| | | | |tags| |]|] eqn:Eg; try done.
  intros Hx. inv_res. eexists. rewrite dget_dset_eq. split; [done|].
  unfold dupdate; simpl. split_and!.
  - intros k Hk. rewrite !elem_of_cons in Hk.
    destruct Hk as [->|[->|[->|[->|Hk]]]]; [..|by apply elem_of_nil in Hk];
      repeat first [rewrite dget_dset_eq | rewrite dget_dset_ne by ukey_ne]; congruence.
  - by rewrite dget_dset_eq.
  - intros k Hk. rewrite !not_elem_of_cons in Hk. destruct Hk as (?&?&?&?&?&_).
    rewrite !dget_dset_ne by congruence. by repeat case_match.
  - intros k Hk. by apply dget_dset_ne.
Qed.
End properties.

(** ** Witnesses *)

Module CutsSamples.
Import LayeredContent Cuts.

Definition clean : ustr := u "# Intro" ++ [10] ++ u "Alpha beta." ++ [10] ++ u "**Gamma** delta!".
Definition a_cut (title start end_ : string) : pyval :=
  PDict [(u "title", PStr (u title)); (u "start", PStr (u start)); (u "end", PStr (u end_))].
Definition pack (cuts : list pyval) : pyval :=
  PDict [(u "schema_version", PStr (u "mkb.b-json-cuts.v1")); (u "cuts", PList cuts)].
Definition good_pack : pyval := pack [a_cut "one" "Alpha" "beta."; a_cut "two" "Gamma delta" "delta"].
Definition bad_pack : pyval := pack [a_cut "one" "Omega" "beta."].
Definition semantics : pydict :=
  [(u "realm", PStr (u "r")); (u "type", PStr (u "t")); (u "channel", PStr (u "c"));
   (u "source_name", PStr (u "s")); (u "context_tags", PList [PStr (u "x")])].
End CutsSamples.

Lemma assemble_from_cuts_sound_witness :
  exists r cp spans, @Cuts.assemble_from_cuts test_host CutsSamples.clean CutsSamples.good_pack = Ok r /\
    Cuts.validate_cuts CutsSamples.good_pack = Ok cp /\
    Forall (fun sp => (sp.1 < sp.2 <= length CutsSamples.clean)%nat) spans.
Proof.
  eexists.
  destruct (assemble_from_cuts_sound (HL := test_host_laws) CutsSamples.clean CutsSamples.good_pack _
              ltac:(vm_compute; reflexivity)) as (cp & spans & Hcp & _ & Hsp & _).
  exists cp, spans. split; [vm_compute; reflexivity | split; [exact Hcp | exact Hsp]].
Defined.

Lemma assemble_from_cuts_errors_witness :
  Cuts.CUTS_ANCHOR_MISSING ∈ [Cuts.CUTS_SCHEMA_INVALID; Cuts.CUTS_EMPTY; Cuts.CUTS_ANCHOR_MISSING;
                              Cuts.CUTS_ANCHOR_AMBIGUOUS].
Proof.
  exact (assemble_from_cuts_errors (H := test_host) CutsSamples.clean CutsSamples.bad_pack _
           ltac:(vm_compute; reflexivity)).
Defined.

Lemma overlay_system_g0_spec_witness :
  let r := @Cuts.overlay_system_g0 test_host CutsSamples.clean [] in
  @Cuts.overlay_system_g0 test_host CutsSamples.clean r = r.
Proof.
  destruct (overlay_system_g0_spec (H := test_host) CutsSamples.clean []) as (rest & _ & _ & _ & _ & Hr).
  exact Hr.
Defined.

Lemma overlay_system_context_meta_authority_witness :
  exists r m, Cuts.overlay_system_context_meta [] CutsSamples.semantics = Ok r /\
    dget r (u "context_meta") = Some (PDict m) /\ dget m (u "tags") = Some (PList [PStr (u "x")]).
Proof.
  eexists.
  destruct (overlay_system_context_meta_authority [] CutsSamples.semantics _ ltac:(vm_compute; reflexivity))
    as (m & Hm & _ & Ht & _).
  exists m. split; [vm_compute; reflexivity | split; [exact Hm | exact Ht]].
Defined.
