(* ===== verification/CompilerIR.v ===== *)
(** * The LS-RAG compiler: artifact shapes, digests and payloads

    Model of [src/services/lsrag_compiler/models.py] and [payloads.py]: the frozen
    records of the S06--S08 artifacts, the text recipes shared by the kernels, the semantic
    digests, the JSON payloads of the stored members and their parsers. *)

From S2P Require Import Prelude PyText PyValue LayeredContent.

Open Scope Z_scope.
Open Scope mkb_scope.

(** ** Records *)

Record TextSpan := { start_byte : Z; end_byte : Z }.

Record StructureNode := {
  node_id : ustr;
  node_kind : ustr;
  parent_node_id : option ustr;
  sibling_ordinal : Z;
  depth : Z;
  reading_ordinal : Z;
  content_role : ustr;
  source_anchor : option TextSpan;
  content_digest : option ustr;
  subtree_digest : ustr
}.

Record StructureDocument := {
  sd_generation : ustr;
  sd_clean_artifact : ustr;
  sd_clean_digest : ustr;
  sd_root : ustr;
  sd_nodes : list StructureNode;
  sd_proof : ustr;
  sd_context_meta : pydict
}.

Record RetrievalBlock := {
  rb_id : ustr;
  rb_granularity : Z;
  rb_refs : list ustr;
  rb_spans : list TextSpan;
  rb_text : ustr;
  rb_digest : ustr
}.

Record RetrievalBlockProjection := {
  rp_generation : ustr;
  rp_structure_generation : ustr;
  rp_structure_digest : ustr;
  rp_blocks : list RetrievalBlock;
  rp_proof : ustr
}.

Record ChannelRecord := {
  ch_channel : ustr;
  ch_body : ustr;
  ch_body_digest : ustr;
  ch_content_full : ustr;
  ch_content_full_digest : ustr;
  ch_grounds : ustr;
  ch_reattach : ustr
}.

Record ConstructionUnit := {
  cu_id : ustr;
  cu_granularity : Z;
  cu_coordinate : ustr;
  cu_original : ChannelRecord;
  cu_summary : ChannelRecord
}.

Record ConstructionDocument := {
  cd_generation : ustr;
  cd_structure_generation : ustr;
  cd_projection_generation : ustr;
  cd_structure_digest : ustr;
  cd_projection_digest : ustr;
  cd_units : list ConstructionUnit;
  cd_metadata_digest : ustr;
  cd_recipe : ustr;
  cd_proof : ustr
}.

Record DualChannelProjection := {
  du_generation : ustr;
  du_construction_generation : ustr;
  du_construction_digest : ustr;
  du_units : list ConstructionUnit;
  du_proof : ustr
}.

Record VectorizationUnit := {
  vu_id : ustr;
  vu_granularity : Z;
  vu_channel : ustr;
  vu_coordinate : ustr;
  vu_content_full : ustr;
  vu_digest : ustr
}.

Record VectorizationPlan := {
  vp_required : list VectorizationUnit;
  vp_skipped : list ustr;
  vp_digest : ustr
}.

Record SummaryPlan := { sp_blocks : list ustr; sp_digest : ustr }.

(** [_fail(code, message)] raises with status 422. *)
Definition fail422 (code : string) : exn := MkbError code 422.

Definition NODE_KINDS : list ustr :=
  [u "document"; u "section"; u "paragraph"; u "list"; u "list_item"; u "table"; u "table_row"; u "table_cell";
   u "code"; u "quote"; u "media_ref"; u "heading"].
Definition CHANNELS : list ustr := [u "original"; u "summary"].

(** [_HEADER_KEY.fullmatch(key)]: [[a-z][a-z0-9_.-]{0,63}] *)
Definition is_lower (c : Z) : bool := (97 <=? c) && (c <=? 122).
Definition is_header_char (c : Z) : bool :=
  is_lower c || ((48 <=? c) && (c <=? 57)) || (c =? 95) || (c =? 46) || (c =? 45).
Definition header_key (s : ustr) : bool :=
  match s with
  | c :: r => is_lower c && forallb is_header_char r && (length r <=? 63)%nat
  | [] => false
  end.

Definition header_line (kv : ustr * pyval) : result ustr :=
  let bad := fail422 "CONSTRUCT_METADATA_PROJECTION_INVALID" in
  match kv.2 with
  | PStr value =>
      check header_key kv.1 && negb (bool_decide (0 ∈ value)) && negb (bool_decide (10 ∈ value))
            && negb (bool_decide (13 ∈ value)) else bad ;;
      Ok (kv.1 ++ [58; 32] ++ value)
  | _ => Err bad
  end.

(** [content_full(body=..., metadata_headers=..., recipe_version=...)] *)
Definition content_full (body : ustr) (metadata_headers : option pydict) (recipe_version : ustr) : result ustr :=
  check ueqb recipe_version (u "content_full.v1") else fail422 "CONSTRUCT_RECIPE_UNSUPPORTED" ;;
  let headers := match metadata_headers with Some h => h | None => [] end in
  let* lines := mapM header_line (py_sorted (fun p q => str_le p.1 q.1) headers) in
  Ok match lines with
     | [] => body
     | _ => str_join [10] lines ++ [10; 10] ++ body
     end.

(** [_span_text(value, start_byte, end_byte)] *)
Definition span_text (value : ustr) (sp : TextSpan) : result ustr :=
  let invalid := fail422 "STRUCTURE_ANCHOR_INVALID" in
  let* encoded := utf8_encode value in
  check (0 <=? start_byte sp) && (start_byte sp <=? end_byte sp) && (end_byte sp <=? Z.of_nat (length encoded))
        else invalid ;;
  match utf8_decode (slice (Z.to_nat (start_byte sp)) (Z.to_nat (end_byte sp)) encoded) with
  | Ok t => Ok t
  | Err _ => Err invalid
  end.

(** [_byte_offset(value, char_offset)] *)
Definition byte_offset (value : ustr) (char_offset : nat) : result Z :=
  let* b := utf8_encode (take char_offset value) in Ok (Z.of_nat (length b)).

Section ir.
Context `{Host}.

(** [_text_digest(value)] *)
Definition text_digest (value : ustr) : result ustr := stable_digest (obj [("text", PStr value)]).

(** [_block_number]: [^g[0-2]:b(\d{4})$], then [int]. *)
Definition block_number (block_id : ustr) : result Z :=
  let bad := fail422 "CONSTRUCT_KERNEL_ALIGNMENT_INVALID" in
  match block_id with
  | [g; n; colon; b; d1; d2; d3; d4] =>
      check (g =? 103) && (48 <=? n) && (n <=? 50) && (colon =? 58) && (b =? 98) else bad ;;
      match decimal_digit d1, decimal_digit d2, decimal_digit d3, decimal_digit d4 with
      | Some a1, Some a2, Some a3, Some a4 => Ok (((a1 * 10 + a2) * 10 + a3) * 10 + a4)
      | _, _, _, _ => Err bad
      end
  | _ => Err bad
  end.

(** ** Semantic digests *)

Definition span_pair (sp : TextSpan) : pyval := PTuple [PInt (start_byte sp); PInt (end_byte sp)].

Definition with_context_meta (fields : pydict) (meta : pydict) : pyval :=
  match meta with
  | [] => PDict fields
  | _ => PDict (dset fields (u "context_meta") (PDict meta))
  end.


Definition node_digest_value (n : StructureNode) : pyval :=
  obj [("id", PStr (node_id n)); ("kind", PStr (node_kind n)); ("parent", py_opt (parent_node_id n));
       ("sibling", PInt (sibling_ordinal n)); ("depth", PInt (depth n)); ("reading", PInt (reading_ordinal n));
       ("role", PStr (content_role n));
       ("span", match source_anchor n with None => PNone | Some a => span_pair a end);
       ("content", py_opt (content_digest n)); ("subtree", PStr (subtree_digest n))].

Definition structure_digest_value (d : StructureDocument) : pyval :=
  with_context_meta
    (fields [("generation", PStr (sd_generation d)); ("clean_artifact", PStr (sd_clean_artifact d));
             ("clean_digest", PStr (sd_clean_digest d)); ("root", PStr (sd_root d));
             ("nodes", PList (map node_digest_value (sd_nodes d))); ("proof", PStr (sd_proof d))])
    (sd_context_meta d).

Definition structure_document_digest (d : StructureDocument) : result ustr :=
  stable_digest (structure_digest_value d).

Definition projection_digest_value (p : RetrievalBlockProjection) : pyval :=
  obj [("generation", PStr (rp_generation p)); ("structure_generation", PStr (rp_structure_generation p));
       ("structure_digest", PStr (rp_structure_digest p));
       ("blocks", PList (map (fun b =>
          obj [("id", PStr (rb_id b)); ("g", PInt (rb_granularity b)); ("nodes", PTuple (map PStr (rb_refs b)));
               ("spans", PList (map span_pair (rb_spans b))); ("original", PStr (rb_digest b))]) (rp_blocks p)));
       ("proof", PStr (rp_proof p))].

Definition projection_digest (p : RetrievalBlockProjection) : result ustr :=
  stable_digest (projection_digest_value p).

Definition construction_digest_value (d : ConstructionDocument) : pyval :=
  obj [("generation", PStr (cd_generation d)); ("structure_generation", PStr (cd_structure_generation d));
       ("projection_generation", PStr (cd_projection_generation d));
       ("structure_digest", PStr (cd_structure_digest d)); ("projection_digest", PStr (cd_projection_digest d));
       ("units", PList (map (fun c =>
          PTuple [PStr (cu_id c); PInt (cu_granularity c); PStr (cu_coordinate c);
                  PStr (ch_content_full_digest (cu_original c)); PStr (ch_content_full_digest (cu_summary c))])
          (cd_units d)));
       ("metadata", PStr (cd_metadata_digest d)); ("recipe", PStr (cd_recipe d)); ("proof", PStr (cd_proof d))].

Definition construction_document_digest (d : ConstructionDocument) : result ustr :=
  stable_digest (construction_digest_value d).

(** ** Payloads of the stored members *)

Definition anchor_payload (a : option TextSpan) : pyval :=
  match a with
  | None => PNone
  | Some a => obj [("kind", PStr (u "text_span")); ("start_byte", PInt (start_byte a)); ("end_byte", PInt (end_byte a))]
  end.

Definition node_payload (n : StructureNode) : pyval :=
  obj [("node_id", PStr (node_id n)); ("node_kind", PStr (node_kind n));
       ("parent_node_id", py_opt (parent_node_id n)); ("sibling_ordinal", PInt (sibling_ordinal n));
       ("depth", PInt (depth n)); ("reading_ordinal", PInt (reading_ordinal n));
       ("content_role", PStr (content_role n)); ("source_anchor", anchor_payload (source_anchor n));
       ("content_digest", py_opt (content_digest n)); ("subtree_digest", PStr (subtree_digest n))].

Definition structure_payload (d : StructureDocument) : pyval :=
  with_context_meta
    (fields [("schema_version", PStr (u "mkb.structure-document.v1"));
             ("generation_artifact_uuid", PStr (sd_generation d));
             ("clean_artifact_uuid", PStr (sd_clean_artifact d)); ("clean_digest", PStr (sd_clean_digest d));
             ("document_root_node_id", PStr (sd_root d)); ("nodes", PList (map node_payload (sd_nodes d)));
             ("proof_digest", PStr (sd_proof d))])
    (sd_context_meta d).

Definition span_payload (sp : TextSpan) : pyval :=
  obj [("start_byte", PInt (start_byte sp)); ("end_byte", PInt (end_byte sp))].

Definition block_payload (b : RetrievalBlock) : pyval :=
  obj [("block_id", PStr (rb_id b)); ("granularity", PInt (rb_granularity b));
       ("source_node_refs", PList (map PStr (rb_refs b)));
       ("ordered_source_spans", PList (map span_payload (rb_spans b)));
       ("original", PStr (rb_text b)); ("original_digest", PStr (rb_digest b))].

Definition retrieval_projection_payload (p : RetrievalBlockProjection) : pyval :=
  obj [("schema_version", PStr (u "mkb.retrieval-block-projection.v1"));
       ("generation_artifact_uuid", PStr (rp_generation p));
       ("structure_generation_artifact_uuid", PStr (rp_structure_generation p));
       ("structure_document_digest", PStr (rp_structure_digest p));
       ("blocks", PList (map block_payload (rp_blocks p))); ("proof_digest", PStr (rp_proof p))].

Definition construction_payload (d : ConstructionDocument) : pyval :=
  obj [("schema_version", PStr (u "mkb.construction-document.v1"));
       ("generation_artifact_uuid", PStr (cd_generation d));
       ("structure_generation_artifact_uuid", PStr (cd_structure_generation d));
       ("projection_generation_artifact_uuid", PStr (cd_projection_generation d));
       ("structure_document_digest", PStr (cd_structure_digest d));
       ("projection_digest", PStr (cd_projection_digest d));
       ("metadata_projection_digest", PStr (cd_metadata_digest d)); ("recipe_version", PStr (cd_recipe d));
       ("units", PList (map (fun c =>
          obj [("unit_id", PStr (cu_id c)); ("granularity", PInt (cu_granularity c));
               ("coordinate", PStr (cu_coordinate c))]) (cd_units d)));
       ("proof_digest", PStr (cd_proof d))].

Definition dual_channel_payload (d : DualChannelProjection) : pyval :=
  obj [("schema_version", PStr (u "mkb.dual-channel-projection.v1"));
       ("generation_artifact_uuid", PStr (du_generation d)); ("recipe_version", PStr (u "content_full.v1"));
       ("units", PList (map (fun c =>
          obj [("unit_id", PStr (cu_id c)); ("granularity", PInt (cu_granularity c));
               ("original", PStr (ch_body (cu_original c))); ("summary", PStr (ch_body (cu_summary c)));
               ("original_digest", PStr (ch_body_digest (cu_original c)));
               ("summary_digest", PStr (ch_body_digest (cu_summary c)))]) (du_units d)))].

(** ** Parsers *)

Definition ARTIFACT_INVALID : exn := fail422 "STRUCTURE_ARTIFACT_INVALID".

Definition STRUCTURE_KEYS : list ustr :=
  [u "schema_version"; u "generation_artifact_uuid"; u "clean_artifact_uuid"; u "clean_digest";
   u "document_root_node_id"; u "nodes"; u "proof_digest"].
Definition NODE_KEYS : list ustr :=
  [u "node_id"; u "node_kind"; u "parent_node_id"; u "sibling_ordinal"; u "depth"; u "reading_ordinal";
   u "content_role"; u "source_anchor"; u "content_digest"; u "subtree_digest"].
Definition ANCHOR_KEYS : list ustr := [u "kind"; u "start_byte"; u "end_byte"].
Definition PROJECTION_KEYS : list ustr :=
  [u "schema_version"; u "generation_artifact_uuid"; u "structure_generation_artifact_uuid";
   u "structure_document_digest"; u "blocks"; u "proof_digest"].
Definition PARSED_BLOCK_KEYS : list ustr :=
  [u "block_id"; u "granularity"; u "source_node_refs"; u "ordered_source_spans"; u "original"; u "original_digest"].
Definition SPAN_KEYS : list ustr := [u "start_byte"; u "end_byte"].

(** [str(d[k])], [int(d[k])], [None if d[k] is None else str(d[k])] *)
Definition get_str (d : pydict) (k : string) : result ustr := let* v := dsub d (u k) in Ok (py_str v).
Definition get_int (d : pydict) (k : string) : result Z := let* v := dsub d (u k) in py_int v.
Definition get_opt_str (d : pydict) (k : string) : result (option ustr) :=
  let* v := dsub d (u k) in Ok (if is_none v then None else Some (py_str v)).

(** One element of the sequence given to [dict(...)]: a pair whose first component is a
    [str].  (A pair with another hashable key, which Python accepts, has no counterpart
    among string-keyed dictionaries and is refused.) *)
Definition dict_pair (v : pyval) : result (ustr * pyval) :=
  match v with
  | PList [PStr k; x] | PTuple [PStr k; x] => Ok (k, x)
  | PStr [a; b] => Ok ([a], PStr [b])
  | PDict [(k, _); (k', _)] => Ok (k, PStr k')
  | PList [_; _] | PTuple [_; _] => Err TypeError
  | PList _ | PTuple _ | PStr _ | PDict _ => Err ValueError
  | _ => Err TypeError
  end.

(** [dict(v or {})] *)
Definition py_dict (v : pyval) : result pydict :=
  if negb (truthy v) then Ok []
  else match v with
       | PDict m => Ok m
       | PList l | PTuple l => let* ps := mapM dict_pair l in Ok (dupdate [] ps)
       | PStr s => Err ValueError
       | _ => Err TypeError
       end.

Definition parse_anchor (v : pyval) : result (option TextSpan) :=
  match v with
  | PNone => Ok None
  | PDict d =>
      check keys_exactly ANCHOR_KEYS d else ARTIFACT_INVALID ;;
      let* kind := dsub d (u "kind") in
      check py_eqb kind (PStr (u "text_span")) else ARTIFACT_INVALID ;;
      let* s := get_int d "start_byte" in
      let* e := get_int d "end_byte" in
      Ok (Some {| start_byte := s; end_byte := e |})
  | _ => Err ARTIFACT_INVALID
  end.

Definition parse_node (raw : pyval) : result StructureNode :=
  match raw with
  | PDict d =>
      check keys_exactly NODE_KEYS d else ARTIFACT_INVALID ;;
      let* anchor := dsub d (u "source_anchor") in
      let* span := parse_anchor anchor in
      let* id := get_str d "node_id" in
      let* kind := get_str d "node_kind" in
      let* parent := get_opt_str d "parent_node_id" in
      let* sibling := get_int d "sibling_ordinal" in
      let* dep := get_int d "depth" in
      let* reading := get_int d "reading_ordinal" in
      let* role := get_str d "content_role" in
      let* content := get_opt_str d "content_digest" in
      let* subtree := get_str d "subtree_digest" in
      Ok (Build_StructureNode id kind parent sibling dep reading role span content subtree)
  | _ => Err ARTIFACT_INVALID
  end.

Definition schema_is (d : pydict) (version : string) : bool :=
  match dget d (u "schema_version") with Some v => py_eqb v (PStr (u version)) | None => false end.

Definition parse_structure_payload (d : pydict) : result StructureDocument :=
  check (keys_exactly STRUCTURE_KEYS d || keys_exactly (u "context_meta" :: STRUCTURE_KEYS) d)
        && schema_is d "mkb.structure-document.v1" else ARTIFACT_INVALID ;;
  match dget d (u "nodes") with
  | Some (PList raws) =>
      let* nodes := mapM parse_node raws in
      let* gen := get_str d "generation_artifact_uuid" in
      let* clean := get_str d "clean_artifact_uuid" in
      let* digest := get_str d "clean_digest" in
      let* root := get_str d "document_root_node_id" in
      let* proof := get_str d "proof_digest" in
      let* meta := py_dict (default PNone (dget d (u "context_meta"))) in
      Ok (Build_StructureDocument gen clean digest root nodes proof meta)
  | _ => Err ARTIFACT_INVALID
  end.

Definition parse_span (raw : pyval) : result TextSpan :=
  match raw with
  | PDict d =>
      check keys_exactly SPAN_KEYS d else ARTIFACT_INVALID ;;
      let* s := get_int d "start_byte" in
      let* e := get_int d "end_byte" in
      Ok {| start_byte := s; end_byte := e |}
  | _ => Err ARTIFACT_INVALID
  end.

Definition parse_block (raw : pyval) : result RetrievalBlock :=
  match raw with
  | PDict d =>
      check keys_exactly PARSED_BLOCK_KEYS d else ARTIFACT_INVALID ;;
      match dget d (u "source_node_refs"), dget d (u "ordered_source_spans") with
      | Some (PList refs), Some (PList spans_raw) =>
          check forallb is_str refs else ARTIFACT_INVALID ;;
          let* spans := mapM parse_span spans_raw in
          let* id := get_str d "block_id" in
          let* g := get_int d "granularity" in
          let* text := get_str d "original" in
          let* digest := get_str d "original_digest" in
          Ok (Build_RetrievalBlock id g (omap as_str refs) spans text digest)
      | _, _ => Err ARTIFACT_INVALID
      end
  | _ => Err ARTIFACT_INVALID
  end.

Definition parse_retrieval_projection_payload (d : pydict) : result RetrievalBlockProjection :=
  check keys_exactly PROJECTION_KEYS d && schema_is d "mkb.retrieval-block-projection.v1" else ARTIFACT_INVALID ;;
  match dget d (u "blocks") with
  | Some (PList raws) =>
      let* blocks := mapM parse_block raws in
      let* gen := get_str d "generation_artifact_uuid" in
      let* sgen := get_str d "structure_generation_artifact_uuid" in
      let* sdig := get_str d "structure_document_digest" in
      let* proof := get_str d "proof_digest" in
      Ok (Build_RetrievalBlockProjection gen sgen sdig blocks proof)
  | _ => Err ARTIFACT_INVALID
  end.

(** ** Summary plans *)

Definition block_le (a b : RetrievalBlock) : bool :=
  (rb_granularity a <? rb_granularity b)
  || ((rb_granularity a =? rb_granularity b) && str_le (rb_id a) (rb_id b)).

Definition summary_plan (p : RetrievalBlockProjection) : result SummaryPlan :=
  let block_ids := map rb_id (py_sorted block_le (rp_blocks p)) in
  check negb (length block_ids =? 0)%nat else fail422 "CONSTRUCT_KERNEL_EMPTY" ;;
  let* pd := projection_digest p in
  let* digest := stable_digest (obj [("projection", PStr pd); ("blocks", PTuple (map PStr block_ids))]) in
  Ok {| sp_blocks := block_ids; sp_digest := digest |}.

(** The summaries as the dictionary the comprehension builds. *)
Definition deterministic_summaries (p : RetrievalBlockProjection) (max_chars : Z) : result (list (ustr * ustr)) :=
  check 1 <=? max_chars else fail422 "CONSTRUCT_BUDGET_INVALID" ;;
  let summary b :=
    if Z.of_nat (length (rb_text b)) <=? max_chars then rb_text b
    else rstrip (take (Z.to_nat (max_chars - 1)) (rb_text b)) ++ u "…" in
  Ok (dupdate [] (map (fun b => (rb_id b, summary b)) (rp_blocks p))).
End ir.
(** ** Round trips *)

Section roundtrip.
Context `{Host}.

Lemma parse_node_payload n : parse_node (node_payload n) = Ok n.
Proof. destruct n as [? ? [] ? ? ? ? [[]|] [] ?]; vm_compute; reflexivity. Qed.

Lemma parse_span_payload sp : parse_span (span_payload sp) = Ok sp.
Proof. destruct sp; vm_compute; reflexivity. Qed.

Lemma mapM_map_Ok {A B} (f : B -> result A) (g : A -> B) (l : list A) :
  (forall x, f (g x) = Ok x) -> mapM f (map g l) = Ok l.
Proof. intros Hfg. induction l as [|x l IH]; simpl; [done|]. by rewrite Hfg, IH. Qed.

Lemma omap_as_str (l : list ustr) : omap as_str (map PStr l) = l.
Proof. induction l as [|x l IH]; [done|]. change (x :: omap as_str (map PStr l) = x :: l). by rewrite IH. Qed.

Lemma forallb_is_str (l : list ustr) : forallb is_str (map PStr l) = true.
Proof. by induction l. Qed.

Lemma parse_block_payload b : parse_block (block_payload b) = Ok b.
Proof.
  destruct b as [id g refs spans text digest].
  assert (mapM parse_span (map span_payload spans) = Ok spans) as Hs by apply mapM_map_Ok, parse_span_payload.
  pose proof (forallb_is_str refs) as Hr. pose proof (omap_as_str refs) as Ho.
  revert Hs Hr Ho. unfold block_payload, parse_block. cbn [rb_refs rb_spans].
  generalize (map span_payload spans) (mapM parse_span) (map PStr refs) (forallb is_str) (omap as_str : list pyval -> list ustr).
  intros raws f prefs g1 g2 Hs Hr Ho. vm_compute. by rewrite Hr, Hs, Ho.
Qed.

(** A stored structure member parses back to the document it was written from. *)
Theorem parse_structure_payload_roundtrip d pd :
  structure_payload d = PDict pd -> parse_structure_payload pd = Ok d.
Proof.
  destruct d as [gen clean cdig root nodes proof meta].
  assert (mapM parse_node (map node_payload nodes) = Ok nodes) as Hn by apply mapM_map_Ok, parse_node_payload.
  revert Hn. unfold structure_payload, parse_structure_payload. simpl sd_nodes.
  generalize (map node_payload nodes) (mapM parse_node). intros raws f Hn.
  destruct meta as [|kv meta]; intros [= <-]; vm_compute; by rewrite Hn.
Qed.

(** A stored projection member parses back to the projection it was written from. *)
Theorem parse_retrieval_projection_payload_roundtrip p pd :
  retrieval_projection_payload p = PDict pd -> parse_retrieval_projection_payload pd = Ok p.
Proof.
  destruct p as [gen sgen sdig blocks proof]. 
  assert (mapM parse_block (map block_payload blocks) = Ok blocks) as Hb by apply mapM_map_Ok, parse_block_payload.
  revert Hb. unfold retrieval_projection_payload, parse_retrieval_projection_payload. simpl rp_blocks.
  generalize (map block_payload blocks) (mapM parse_block). intros raws f Hb [= <-]. vm_compute. by rewrite Hb.
Qed.
End roundtrip.

Definition sample_document : StructureDocument :=
  Build_StructureDocument (u "gen") (u "clean") (u "digest") (u "root")
    [Build_StructureNode (u "root") (u "document") None 0 0 0 (u "container") None None (u "x");
     Build_StructureNode (u "node-0001") (u "paragraph") (Some (u "root")) 0 1 1 (u "content")
       (Some {| start_byte := 0; end_byte := 5 |}) (Some (u "d")) (u "d")]
    (u "proof") [(u "realm", PStr (u "r"))].
Definition sample_projection : RetrievalBlockProjection :=
  Build_RetrievalBlockProjection (u "p") (u "gen") (u "sd")
    [Build_RetrievalBlock (u "g0:b0000") 0 [u "node-0001"] [{| start_byte := 0; end_byte := 5 |}] (u "hello") (u "d")]
    (u "proof").

Lemma parse_structure_payload_roundtrip_witness :
  exists pd, structure_payload sample_document = PDict pd /\
    @parse_structure_payload test_host pd = Ok sample_document.
Proof.
  eexists. split; [reflexivity|].
  apply (parse_structure_payload_roundtrip (H := test_host)). reflexivity.
Defined.

Lemma parse_retrieval_projection_payload_roundtrip_witness :
  exists pd, retrieval_projection_payload sample_projection = PDict pd /\
    @parse_retrieval_projection_payload test_host pd = Ok sample_projection.
Proof.
  eexists. split; [reflexivity|].
  apply (parse_retrieval_projection_payload_roundtrip (H := test_host)). reflexivity.
Defined.
