(* ===== verification/CompilerValidate.v ===== *)
(** * The LS-RAG compiler: validators

    Model of [src/services/lsrag_compiler/validate.py].  A validated structure is a tree
    whose content leaves partition the bytes of the clean text, and every projection block
    is the concatenation of the anchored slices it names; a validated construction pairs
    two grounded channels per unit. *)

From S2P Require Import Prelude PyText PyValue LayeredContent CompilerIR.

Open Scope Z_scope.
Open Scope mkb_scope.

Section validate.
Context `{Host}.

Definition zrange (n : nat) : list Z := map Z.of_nat (seq 0 n).

Definition children_of (nodes : list StructureNode) (id : ustr) : list StructureNode :=
  filter (fun n => parent_node_id n = Some id) nodes.
Definition is_leaf (nodes : list StructureNode) (n : StructureNode) : bool :=
  bool_decide (children_of nodes (node_id n) = []).

Definition find_node (nodes : list StructureNode) (id : ustr) : option StructureNode :=
  List.find (fun n => ueqb (node_id n) id) nodes.

(** The root, the identities, the kinds and the reading order. *)
Definition check_root (d : StructureDocument) : result unit :=
  match filter (fun n => parent_node_id n = None) (sd_nodes d) with
  | [r] => ensure (ueqb (node_id r) (sd_root d) && ueqb (node_kind r) (u "document")) (fail422 "STRUCTURE_TREE_ROOT")
  | _ => Err (fail422 "STRUCTURE_TREE_ROOT")
  end.

Definition check_parent (nodes : list StructureNode) (n : StructureNode) : result unit :=
  match parent_node_id n with
  | None => Ok tt
  | Some pid =>
      match find_node nodes pid with
      | None => Err (fail422 "STRUCTURE_TREE_PARENT")
      | Some p => ensure (depth n =? depth p + 1) (fail422 "STRUCTURE_TREE_DEPTH")
      end
  end.

Definition check_siblings (nodes : list StructureNode) (n : StructureNode) : result unit :=
  match parent_node_id n with
  | None => Ok tt
  | Some pid =>
      let members := children_of nodes pid in
      ensure (bool_decide (py_sorted Z.leb (map sibling_ordinal members) = zrange (length members)))
             (fail422 "STRUCTURE_ORDER_INVALID")
  end.

(** The anchor of a content leaf; other leaves contribute none. *)
Definition leaf_span (clean_text : ustr) (leaf : StructureNode) : result (option TextSpan) :=
  if ueqb (content_role leaf) (u "content") then
    match source_anchor leaf with
    | None => Err (fail422 "STRUCTURE_ANCHOR_MISSING")
    | Some a =>
        let* anchored := span_text clean_text a in
        let* dg := text_digest anchored in
        check bool_decide (content_digest leaf = Some dg) else fail422 "STRUCTURE_ANCHOR_DIGEST" ;;
        Ok (Some a)
    end
  else Ok None.

Definition cover_step (clean_text : ustr) (expected_start : Z) (sp : TextSpan) : result Z :=
  let* _ := span_text clean_text sp in
  check (start_byte sp =? expected_start) && (start_byte sp <? end_byte sp)
        else fail422 "STRUCTURE_COVERAGE_INVALID" ;;
  Ok (end_byte sp).

Definition piece_step (clean_text : ustr) (st : Z * list ustr) (sp : TextSpan) : result (Z * list ustr) :=
  let '(previous_end, pieces) := st in
  check (previous_end <=? start_byte sp) && (start_byte sp <? end_byte sp)
        else fail422 "STRUCTURE_PROJECTION_ORDER" ;;
  let* piece := span_text clean_text sp in
  Ok (end_byte sp, pieces ++ [piece]).

Definition check_block (clean_text : ustr) (nodes : list StructureNode) (block_ids : list ustr)
    (b : RetrievalBlock) : result (list ustr) :=
  check negb (bool_decide (rb_id b ∈ block_ids)) && (0 <=? rb_granularity b) && (rb_granularity b <=? 2)
        && negb (length (rb_refs b) =? 0)%nat && negb (length (rb_spans b) =? 0)%nat
        else fail422 "STRUCTURE_PROJECTION_INVALID" ;;
  check forallb (fun id => bool_decide (id ∈ map node_id nodes)) (rb_refs b)
        else fail422 "STRUCTURE_PROJECTION_NODE" ;;
  let* '(_, pieces) := foldM (piece_step clean_text) (-1, []) (rb_spans b) in
  let original := concat pieces in
  let* dg := text_digest original in
  check ueqb original (rb_text b) && ueqb (rb_digest b) dg else fail422 "STRUCTURE_PROJECTION_ORIGINAL" ;;
  Ok (rb_id b :: block_ids).

(** Equality of two finite sets of integers given as lists. *)
Definition same_set (l m : list Z) : bool :=
  forallb (fun x => bool_decide (x ∈ m)) l && forallb (fun x => bool_decide (x ∈ l)) m.

Definition validate_structure (d : StructureDocument) (p : RetrievalBlockProjection) (clean_text : ustr)
    (required_granularities : list Z) : result unit :=
  let nodes := sd_nodes d in
  let* clean_dg := text_digest clean_text in
  check ueqb (sd_clean_digest d) clean_dg else fail422 "STRUCTURE_BINDING_CLEAN_DIGEST" ;;
  check ueqb (rp_structure_generation p) (sd_generation d) && negb (ueqb (rp_generation p) (sd_generation d))
        else fail422 "STRUCTURE_BINDING_CROSS_GENERATION" ;;
  let* dg := structure_document_digest d in
  check ueqb (rp_structure_digest p) dg else fail422 "STRUCTURE_BINDING_DIGEST" ;;
  let* _ := check_root d in
  check bool_decide (NoDup (map node_id nodes)) else fail422 "STRUCTURE_TREE_DUPLICATE_NODE" ;;
  check forallb (fun n => bool_decide (node_kind n ∈ NODE_KINDS)) nodes else fail422 "STRUCTURE_NODE_KIND_INVALID" ;;
  check bool_decide (map reading_ordinal nodes = zrange (length nodes)) else fail422 "STRUCTURE_ORDER_INVALID" ;;
  let* _ := forM (check_parent nodes) nodes in
  let* _ := forM (check_siblings nodes) nodes in
  let* spans := mapM (leaf_span clean_text) (List.filter (is_leaf nodes) nodes) in
  let spans := omap id spans in
  let* covered := foldM (cover_step clean_text) 0 spans in
  let* encoded := utf8_encode clean_text in
  check negb (length spans =? 0)%nat && (covered =? Z.of_nat (length encoded))
        else fail422 "STRUCTURE_COVERAGE_INVALID" ;;
  let* _ := foldM (check_block clean_text nodes) [] (rp_blocks p) in
  ensure (same_set (map rb_granularity (rp_blocks p)) required_granularities
          && existsb (fun b => (rb_granularity b =? 0) && negb (blank (rb_text b))) (rp_blocks p))
         (fail422 "STRUCTURE_PROJECTION_G0_REQUIRED").

(** ** Construction *)

Definition check_channel (recipe : ustr) (headers : option pydict) (coordinate : ustr) (c : ChannelRecord) : result unit :=
  check bool_decide (ch_channel c ∈ CHANNELS) && ueqb (ch_grounds c) coordinate && negb (blank (ch_body c))
        else fail422 "CONSTRUCT_KERNEL_SUMMARY_INCOMPLETE" ;;
  let* recomputed := content_full (ch_body c) headers recipe in
  let* dg := text_digest recomputed in
  ensure (ueqb recomputed (ch_content_full c) && ueqb (ch_content_full_digest c) dg)
         (fail422 "CONSTRUCT_CONTENT_MISMATCH").

Definition reattached (c : ChannelRecord) : bool :=
  ueqb (ch_reattach c) (u "reattached") || ueqb (ch_reattach c) (u "native_full").

Definition g0_ready (c : ConstructionUnit) : bool :=
  (cu_granularity c =? 0) && negb (blank (ch_body (cu_original c))) && reattached (cu_original c).

Definition check_unit (recipe : ustr) (headers : option pydict) (c : ConstructionUnit) : result unit :=
  check ueqb (ch_channel (cu_original c)) (u "original") && ueqb (ch_channel (cu_summary c)) (u "summary")
        && negb (ueqb (cu_coordinate c) []) else fail422 "CONSTRUCT_KERNEL_ALIGNMENT_INVALID" ;;
  let* _ := check_channel recipe headers (cu_coordinate c) (cu_original c) in
  check_channel recipe headers (cu_coordinate c) (cu_summary c).

Definition validate_construction (d : ConstructionDocument) (dual : DualChannelProjection)
    (headers : option pydict) : result unit :=
  let bad := fail422 "CONSTRUCT_BINDING_DIGEST" in
  check ueqb (cd_generation d) (du_construction_generation dual)
        && negb (ueqb (cd_generation d) (du_generation dual))
        && negb (ueqb (cd_structure_generation d) (cd_projection_generation d)) else bad ;;
  let* dg := construction_document_digest d in
  check ueqb (du_construction_digest dual) dg else bad ;;
  check negb (length (cd_units d) =? 0)%nat && bool_decide (map cu_id (cd_units d) = map cu_id (du_units dual))
        else fail422 "CONSTRUCT_KERNEL_ALIGNMENT_INVALID" ;;
  let* _ := forM (check_unit (cd_recipe d) headers) (du_units dual) in
  ensure (existsb g0_ready (du_units dual)) (fail422 "CONSTRUCT_G0_ORIGINAL_REQUIRED").
End validate.

(** ** Facts *)

(** A list of spans tiles the range from [a] to [b] without gap or overlap. *)
Inductive tiles : Z -> list TextSpan -> Z -> Prop :=
| tiles_nil a : tiles a [] a
| tiles_cons a b sp spans :
    start_byte sp = a -> start_byte sp < end_byte sp -> tiles (end_byte sp) spans b -> tiles a (sp :: spans) b.

(** [path nodes n r]: following parents from [n] leads to [r]. *)
Inductive path (nodes : list StructureNode) : StructureNode -> StructureNode -> Prop :=
| path_refl n : n ∈ nodes -> path nodes n n
| path_step n p r :
    n ∈ nodes -> parent_node_id n = Some (node_id p) -> depth n = depth p + 1 -> path nodes p r -> path nodes n r.

Section facts.
Context `{Host}.

Lemma span_text_Ok value sp t :
  span_text value sp = Ok t ->
  exists b, utf8_encode value = Ok b /\ 0 <= start_byte sp <= end_byte sp /\ end_byte sp <= Z.of_nat (length b) /\
    utf8_encode t = Ok (slice (Z.to_nat (start_byte sp)) (Z.to_nat (end_byte sp)) b).
Proof.
  unfold span_text. intros Hs. inv_res. destruct (utf8_decode _) eqn:E; simplify_eq.
  apply utf8_encode_decode in E. exists x. split; [done|]. split; [lia|]. split; [lia|done].
Qed.

Lemma cover_tiles clean spans a c :
  foldM (cover_step clean) a spans = Ok c ->
  tiles a spans c /\ exists texts, Forall2 (fun sp t => span_text clean sp = Ok t) spans texts.
Proof.
  revert a; induction spans as [|sp spans IH]; intros a Hf; simpl in Hf.
  - injection Hf as <-. split; [constructor|]. exists []. constructor.
  - unfold cover_step in Hf. inv_res. destruct (IH _ Hf) as (Ht & texts & Hx).
    breflect. split; [constructor; [lia|lia|done]|]. eexists (_ :: texts). by constructor.
Qed.

Lemma tiles_le a spans c : tiles a spans c -> a <= c.
Proof. induction 1; lia. Qed.

(** Tiling slices re-encode to the bytes they tile. *)
Lemma tiles_concat clean b spans texts a c :
  utf8_encode clean = Ok b -> 0 <= a -> tiles a spans c ->
  Forall2 (fun sp t => span_text clean sp = Ok t) spans texts ->
  utf8_encode (concat texts) = Ok (slice (Z.to_nat a) (Z.to_nat c) b).
Proof.
  intros Hb Ha Ht; revert Ha texts.
  induction Ht as [a|a c sp spans Hs Hlt Ht IH]; intros Ha texts Hf; inversion Hf as [|? t ? texts' Hsp Hf']; subst.
  - unfold slice. by rewrite Nat.sub_diag.
  - apply span_text_Ok in Hsp as (b' & Hb' & Hse & Hel & Henc). assert (b' = b) as -> by congruence.
    simpl. rewrite (utf8_encode_app _ _ _ _ Henc (IH ltac:(lia) _ Hf')).
    pose proof (tiles_le _ _ _ Ht). f_equal. unfold slice.
    set (i := Z.to_nat (start_byte sp)). set (j := Z.to_nat (end_byte sp)). set (k := Z.to_nat c).
    assert (i <= j <= k)%nat as [Hij Hjk] by lia.
    replace (drop j b) with (drop (j - i) (drop i b)) by (rewrite drop_drop; f_equal; lia).
    replace (k - i)%nat with ((j - i) + (k - j))%nat by lia.
    apply take_take_drop.
Qed.

Lemma pieces_fold clean spans st prev' pieces :
  foldM (piece_step clean) st spans = Ok (prev', pieces) ->
  exists texts, pieces = st.2 ++ texts /\ Forall2 (fun sp t => span_text clean sp = Ok t) spans texts /\ Forall (fun sp => st.1 <= start_byte sp < end_byte sp) spans /\ StronglySorted (fun a b => end_byte a <= start_byte b) spans
    /\ st.1 <= prev'.
Proof.
  revert st; induction spans as [|sp spans IH]; intros [prev acc] Hf; simpl in Hf.
  - injection Hf as <- <-. exists []. rewrite app_nil_r. repeat split; try constructor. simpl; lia.
  - unfold piece_step in Hf. inv_res. destruct (IH _ Hf) as (texts & Hp & Ht & Hb & Hs & Hle). simpl in *. breflect.
    exists (x1 :: texts). rewrite Hp, <-app_assoc. split; [done|]. split; [by constructor|].
    assert (Forall (fun s => end_byte sp <= start_byte s) spans) as Hb'
      by (eapply Forall_impl; [exact Hb|]; simpl; intros; lia).
    split; [|split; [by constructor|lia]].
    constructor; [lia|]. eapply Forall_impl; [exact Hb|]. simpl. intros; lia.
Qed.

(** What a checked projection block is. *)
Record block_anchored (clean : ustr) (nodes : list StructureNode) (b : RetrievalBlock) : Prop := {
  ba_granularity : 0 <= rb_granularity b <= 2;
  ba_refs : rb_refs b <> [] /\ forall id, id ∈ rb_refs b -> id ∈ map node_id nodes;
  ba_spans : rb_spans b <> [] /\ StronglySorted (fun s t => end_byte s <= start_byte t) (rb_spans b);
  ba_text : exists texts, Forall2 (fun sp t => span_text clean sp = Ok t) (rb_spans b) texts /\ rb_text b = concat texts;
  ba_digest : text_digest (rb_text b) = Ok (rb_digest b)
}.

Lemma check_block_Ok clean nodes ids b ids' :
  check_block clean nodes ids b = Ok ids' -> ids' = rb_id b :: ids /\ (rb_id b ∉ ids) /\ block_anchored clean nodes b.
Proof.
  unfold check_block. intros Hc. inv_res. destruct x1 as [prev pieces]. inv_res. breflect.
  match goal with H : foldM _ _ _ = _ |- _ => apply pieces_fold in H as (texts & -> & Ht & _ & Hs & _) end. simpl in *.
  rewrite ueqb_eq in *. subst. split; [done|]. split; [done|].
  split; [lia| | | |congruence].
  - split; [by destruct (rb_refs b)|]. intros id Hid.
    rewrite forallb_forall in H1. apply list_elem_of_In in Hid. specialize (H1 _ Hid). by breflect.
  - split; [by destruct (rb_spans b)|done].
  - exists texts. split; [done|congruence].
Qed.

Lemma check_blocks_Ok clean nodes ids blocks ids' :
  foldM (check_block clean nodes) ids blocks = Ok ids' ->
  Forall (block_anchored clean nodes) blocks /\ NoDup (map rb_id blocks) /\ Forall (fun b => rb_id b ∉ ids) blocks.
Proof.
  revert ids; induction blocks as [|b blocks IH]; intros ids Hf; simpl in Hf; [repeat constructor|].
  inv_res. apply check_block_Ok in H0 as (-> & Hn & Hb). destruct (IH _ Hf) as (Hbs & Hnd & Hni).
  split; [by constructor|]. split.
  - simpl. constructor; [|done]. intros (b' & He & Hb')%list_elem_of_fmap.
    rewrite Forall_forall in Hni. apply (Hni b' Hb'). rewrite He. by left.
  - constructor; [done|]. eapply Forall_impl; [exact Hni|]. simpl. set_solver.
Qed.

(** The list of what a passed structure validation has established. *)
Record structure_valid (d : StructureDocument) (p : RetrievalBlockProjection) (clean : ustr) (req : list Z) : Prop := {
  sv_digest : text_digest clean = Ok (sd_clean_digest d);
  sv_binding : rp_structure_generation p = sd_generation d /\ rp_generation p <> sd_generation d /\ structure_document_digest d = Ok (rp_structure_digest p);
  sv_root : check_root d = Ok tt;
  sv_nodup : NoDup (map node_id (sd_nodes d));
  sv_parents : Forall (fun n => check_parent (sd_nodes d) n = Ok tt) (sd_nodes d);
  sv_reading : map reading_ordinal (sd_nodes d) = zrange (length (sd_nodes d));
  sv_leaves : exists lspans encoded,
    mapM (leaf_span clean) (List.filter (is_leaf (sd_nodes d)) (sd_nodes d)) = Ok lspans /\ utf8_encode clean = Ok encoded /\ omap id lspans <> [] /\ tiles 0 (omap id lspans) (Z.of_nat (length encoded)) /\ exists texts, Forall2 (fun sp t => span_text clean sp = Ok t) (omap id lspans) texts;
  sv_blocks : Forall (block_anchored clean (sd_nodes d)) (rp_blocks p) /\ NoDup (map rb_id (rp_blocks p));
  sv_granularities : same_set (map rb_granularity (rp_blocks p)) req = true;
  sv_g0 : existsb (fun b => (rb_granularity b =? 0) && negb (blank (rb_text b))) (rp_blocks p) = true
}.

Lemma validate_structure_inv d p clean req :
  validate_structure d p clean req = Ok tt -> structure_valid d p clean req.
Proof.
  unfold validate_structure. intros Hv. inv_res. breflect. rewrite ueqb_eq in *. subst.
  match goal with H : foldM (check_block _ _) _ _ = _ |- _ => apply check_blocks_Ok in H as (? & ? & _) end.
  match goal with H : foldM (cover_step _) _ _ = _ |- _ => apply cover_tiles in H as (Ht & Hx) end.
  match goal with H : forM (check_parent _) _ = _ |- _ => apply forM_Ok in H end.
  match goal with H : (_ =? Z.of_nat _) = true |- _ => apply Z.eqb_eq in H; subst end.
  split; try done; repeat match goal with x : unit |- _ => destruct x end; try done.
  - repeat split; try done. intros Heq. by rewrite Heq, ueqb_refl in *.
  - eexists _, _. repeat split; try done. intros Hnil. by rewrite Hnil in *.
Qed.
End facts.

(** ** Properties *)

Section properties.
Context `{Host}.

Definition content_leaves (d : StructureDocument) : list StructureNode :=
  List.filter (fun n => ueqb (content_role n) (u "content"))
    (List.filter (is_leaf (sd_nodes d)) (sd_nodes d)).

Lemma leaf_spans_anchors clean leaves lspans :
  mapM (leaf_span clean) leaves = Ok lspans ->
  Forall2 (fun n sp => source_anchor n = Some sp)
    (List.filter (fun n => ueqb (content_role n) (u "content")) leaves) (omap id lspans).
Proof.
  revert lspans; induction leaves as [|n leaves IH]; intros lspans Hm; simpl in Hm; [injection Hm as <-; constructor|].
  inv_res. match goal with Hs : mapM _ _ = Ok _, Hl : leaf_span _ _ = Ok _ |- _ =>
    specialize (IH _ Hs); simpl; unfold leaf_span in Hl end.
  destruct (ueqb (content_role n) (u "content")); [|inv_res; done].
  destruct (source_anchor n) as [a|] eqn:E; [|done]. inv_res. simpl. by constructor.
Qed.

(** C38: In a validated structure the anchors of the content leaves, in reading order, tile
    the bytes of the clean text, and the texts they anchor concatenate to it. *)
Theorem validate_structure_partition d p clean req :
  validate_structure d p clean req = Ok tt ->
  exists spans texts encoded,
    Forall2 (fun n sp => source_anchor n = Some sp) (content_leaves d) spans /\
    utf8_encode clean = Ok encoded /\ tiles 0 spans (Z.of_nat (length encoded)) /\
    Forall2 (fun sp t => span_text clean sp = Ok t) spans texts /\ concat texts = clean.
Proof.
  intros Hv. apply validate_structure_inv in Hv. destruct (sv_leaves _ _ _ _ Hv) as (l & b & Hl & Hb & _ & Ht & texts & Hx).
  exists (omap id l), texts, b. split; [by apply (leaf_spans_anchors clean)|].
  split; [done|]. split; [done|]. split; [done|].
  pose proof (tiles_concat _ _ _ _ _ _ Hb (Z.le_refl 0) Ht Hx) as Hc.
  rewrite Nat2Z.id in Hc. change (Z.to_nat 0) with 0%nat in Hc. rewrite slice_full in Hc.
  by apply (utf8_encode_inj _ _ _ Hc).
Qed.

Lemma find_node_Some nodes id n : find_node nodes id = Some n -> n ∈ nodes /\ node_id n = id.
Proof.
  unfold find_node. intros Hf. apply find_some in Hf as [Hin Heq].
  apply list_elem_of_In in Hin. by apply ueqb_eq in Heq.
Qed.

Lemma depth_lower_bound (nodes : list StructureNode) : exists m, Forall (fun n => m <= depth n) nodes.
Proof.
  induction nodes as [|n nodes (m & Hm)]; [by exists 0|]. exists (Z.min m (depth n)).
  constructor; [lia|]. eapply Forall_impl; [exact Hm|]. simpl; intros; lia.
Qed.

(** A validated structure is a tree: it has one root, of kind document and with the
    declared identity, and following parents from any node leads to it, one level up at
    each step. *)
Theorem validate_structure_tree d p clean req :
  validate_structure d p clean req = Ok tt ->
  exists root,
    root ∈ sd_nodes d /\ parent_node_id root = None /\ node_id root = sd_root d /\ node_kind root = u "document" /\
    forall n, n ∈ sd_nodes d -> path (sd_nodes d) n root.
Proof.
  intros Hv. apply validate_structure_inv in Hv. pose proof (sv_root _ _ _ _ Hv) as Hr. unfold check_root in Hr.
  destruct (filter _ (sd_nodes d)) as [|root [|]] eqn:Ef; try done. apply ensure_Ok in Hr. breflect.
  rewrite ueqb_eq in *.
  assert (forall n, n ∈ sd_nodes d -> parent_node_id n = None -> n = root) as Huniq.
  { intros n Hn Hp. assert (n ∈ [root]) as Hin by (rewrite <-Ef; by apply list_elem_of_filter).
    by apply list_elem_of_singleton in Hin. }
  assert (root ∈ sd_nodes d /\ parent_node_id root = None) as [Hin Hpar].
  { assert (root ∈ [root]) as Hin by by left. rewrite <-Ef in Hin. by apply list_elem_of_filter in Hin as [? ?]. }
  exists root. split; [done|]. split; [done|]. split; [done|]. split; [done|].
  destruct (depth_lower_bound (sd_nodes d)) as (m & Hm). rewrite Forall_forall in Hm.
  assert (forall k n, Z.to_nat (depth n - m) = k -> n ∈ sd_nodes d -> path (sd_nodes d) n root) as Hgen; [|by eauto].
  induction k as [k IH] using lt_wf_ind. intros n Hk Hn.
  destruct (parent_node_id n) as [pid|] eqn:Ep; [|rewrite (Huniq n Hn Ep); by constructor].
  pose proof (sv_parents _ _ _ _ Hv) as Hps. rewrite Forall_forall in Hps. specialize (Hps n Hn).
  unfold check_parent in Hps. rewrite Ep in Hps.
  destruct (find_node (sd_nodes d) pid) as [q|] eqn:Eq; [|done]. apply ensure_Ok, Z.eqb_eq in Hps.
  apply find_node_Some in Eq as [Hq Hid]. subst pid.
  pose proof (Hm q Hq). pose proof (Hm n Hn).
  eapply path_step; eauto. apply (IH (Z.to_nat (depth q - m))); [lia|done|done].
Qed.

(** Every block of a validated projection quotes the clean text: its spans are ordered
    and disjoint, its text is the concatenation of the slices they anchor, and its digest
    is the digest of that text; block identities are distinct and the granularities are
    exactly those of the profile. *)
Theorem validate_structure_blocks d p clean req :
  validate_structure d p clean req = Ok tt ->
  Forall (block_anchored clean (sd_nodes d)) (rp_blocks p) /\ NoDup (map rb_id (rp_blocks p)) /\
  (forall g, g ∈ map rb_granularity (rp_blocks p) <-> g ∈ req).
Proof.
  intros Hv. apply validate_structure_inv in Hv. destruct (sv_blocks _ _ _ _ Hv) as [Hb Hn].
  split; [done|]. split; [done|]. intros g.
  pose proof (sv_granularities _ _ _ _ Hv) as Hs. unfold same_set in Hs. apply andb_true_iff in Hs as [H1 H2].
  rewrite forallb_forall in H1, H2. split; intros Hg; apply list_elem_of_In in Hg; [specialize (H1 g Hg)|specialize (H2 g Hg)]; by breflect.
Qed.
End properties.

(** ** Witnesses *)

Module ValidateSamples.
#[local] Existing Instance test_host.
Definition ok_text (r : result ustr) : ustr := match r with Ok s => s | Err _ => [] end.
Definition clean : ustr := u "Hé. Two.".
Definition full : TextSpan := {| start_byte := 0; end_byte := 9 |}.
Definition document : StructureDocument :=
  Build_StructureDocument (u "g") (u "c") (ok_text (text_digest clean)) (u "root")
    [Build_StructureNode (u "root") (u "document") None 0 0 0 (u "container") None None (u "x");
     Build_StructureNode (u "n1") (u "paragraph") (Some (u "root")) 0 1 1 (u "content")
       (Some {| start_byte := 0; end_byte := 4 |}) (Some (ok_text (text_digest (u "Hé.")))) (u "x");
     Build_StructureNode (u "n2") (u "paragraph") (Some (u "root")) 1 1 2 (u "content")
       (Some {| start_byte := 4; end_byte := 9 |}) (Some (ok_text (text_digest (u " Two.")))) (u "x")]
    (u "proof") [].
Definition projection : RetrievalBlockProjection :=
  Build_RetrievalBlockProjection (u "p") (u "g") (ok_text (structure_document_digest document))
    [Build_RetrievalBlock (u "g0:b0000") 0 [u "n1"; u "n2"] [full] clean (ok_text (text_digest clean))]
    (u "proof").
End ValidateSamples.

Lemma validate_structure_partition_witness :
  exists spans texts, Forall2 (fun n sp => source_anchor n = Some sp) (content_leaves ValidateSamples.document) spans /\
    tiles 0 spans 9 /\ concat texts = ValidateSamples.clean.
Proof.
  destruct (validate_structure_partition (H := test_host) ValidateSamples.document ValidateSamples.projection
              ValidateSamples.clean [0] ltac:(vm_compute; reflexivity)) as (spans & texts & b & Hs & Hb & Ht & _ & Hc).
  exists spans, texts. assert (Z.of_nat (length b) = 9) as Hl by (vm_compute in Hb; injection Hb as <-; reflexivity).
  rewrite Hl in Ht. split; [exact Hs | split; [exact Ht | exact Hc]].
Defined.

Lemma validate_structure_tree_witness :
  exists root, root ∈ sd_nodes ValidateSamples.document /\
    forall n, n ∈ sd_nodes ValidateSamples.document -> path (sd_nodes ValidateSamples.document) n root.
Proof.
  destruct (validate_structure_tree (H := test_host) ValidateSamples.document ValidateSamples.projection
              ValidateSamples.clean [0] ltac:(vm_compute; reflexivity)) as (root & Hin & _ & _ & _ & Hp).
  exists root. split; [exact Hin | exact Hp].
Defined.

Lemma validate_structure_blocks_witness :
  Forall (@block_anchored test_host ValidateSamples.clean (sd_nodes ValidateSamples.document))
    (rp_blocks ValidateSamples.projection).
Proof.
  exact (proj1 (validate_structure_blocks (H := test_host) ValidateSamples.document ValidateSamples.projection
              ValidateSamples.clean [0] ltac:(vm_compute; reflexivity))).
Defined.
