(* ===== verification/CompilerAdopt.v ===== *)
(** * The LS-RAG compiler: adoption of layered candidates

    Model of [src/services/lsrag_compiler/adopt.py]: normalisation of a candidate, adoption
    into a structure document and its retrieval projection with anchors derived from the
    clean text, the single-root structurizer with its sentence projection, and the two
    directions of the summary package.  Mutation of the validated copies is state passing:
    no caller keeps an alias to them. *)

From S2P Require Import Prelude PyText PyValue LayeredContent CompilerIR CompilerValidate.

Open Scope Z_scope.
Open Scope mkb_scope.

Import LayeredContent.

(** [int(d[k])] and [d[k]] asserted to be a dict. *)
Definition sub_dict (d : pydict) (k : string) : result pydict :=
  let* v := dsub d (u k) in
  match v with PDict m => Ok m | _ => Err AssertionError end.

Section adopt.
Context `{Host}.

(** A granularity profile: [tuple[int, ...] | list[int] | None]; empty counts as absent. *)
Definition declared_granularities (granularity_set : option (list Z)) : result (list Z) :=
  let base := match granularity_set with None | Some [] => [0; 1; 2] | Some l => l end in
  let declared := py_sorted Z.leb (remove_dups base) in
  check negb (length declared =? 0)%nat && forallb (fun g => (0 <=? g) && (g <=? 2)) declared
        && bool_decide (0 ∈ declared) else fail422 "STRUCTURE_PROFILE_INVALID" ;;
  Ok declared.

Definition block_key (block : pydict) : result (Z * Z) :=
  let* bid := get_int block "block_id" in
  let* g := get_int block "granularity" in
  Ok (g, bid).

(** [if isinstance(value, str): original[field] = normalize_layered_text(value)] *)
Definition normalize_field (original : pydict) (field : string) : result pydict :=
  let* value := dsub original (u field) in
  Ok match value with PStr s => dset original (u field) (PStr (normalize_text s)) | _ => original end.

(** One iteration of the loop over the raw blocks; [seen] holds the keys met so far. *)
Definition normalize_block (clean : ustr) (seen : list (Z * Z)) (block : pydict)
    : result (list (Z * Z) * pydict) :=
  let* key := block_key block in
  check negb (bool_decide (key ∈ seen)) else fail422 "STRUCTURE_SCHEMA_INVALID" ;;
  let* original := sub_dict block "original_content" in
  let* original := normalize_field original "title" in
  let* original := normalize_field original "body" in
  let* body := dsub original (u "body") in
  let* original :=
    if (key.1 =? 0) && match body with PStr s => blank s | v => is_none v end
    then Ok (dset original (u "body") (PStr clean))
    else check nonblank_str body else fail422 "STRUCTURE_ANCHOR_MISSING" ;; Ok original in
  Ok (key :: seen, dset block (u "original_content") (PDict original)).

Fixpoint normalize_blocks (clean : ustr) (seen : list (Z * Z)) (blocks : list pydict) : result (list pydict) :=
  match blocks with
  | [] => Ok []
  | b :: bs =>
      let* '(seen', b') := normalize_block clean seen b in
      let* bs' := normalize_blocks clean seen' bs in
      Ok (b' :: bs')
  end.

(** The blocks of a validated candidate. *)
Definition layered_blocks (candidate : pydict) : result (list pydict) :=
  let* v := dsub candidate (u "layered_content") in
  match v with PList l => Ok (omap as_dict l) | _ => Err AssertionError end.

Definition normalize_layered_candidate (clean_text : ustr) (layered_json : pyval)
    (granularity_set : option (list Z)) : result pydict :=
  let clean := normalize_text clean_text in
  let* declared := declared_granularities granularity_set in
  let* candidate := validate_layered_content layered_json false true in
  let* raw_blocks := layered_blocks candidate in
  let* observed := mapM (fun b => get_int b "granularity") raw_blocks in
  check same_set observed declared else fail422 "STRUCTURE_GRANULARITY_SET_MISMATCH" ;;
  check (length (List.filter (has_granularity 0) raw_blocks) =? 1)%nat else fail422 "STRUCTURE_G0_REQUIRED" ;;
  let* blocks := normalize_blocks clean [] raw_blocks in
  Ok (dset candidate (u "layered_content") (PList (map PDict blocks))).

(** ** The sentence projection

    [_SENTENCE = \S(?:.*?)(?:[.!?。！？](?=\s|$)|$)] with [DOTALL]: from a character that is
    no white space, lazily to a closing mark before white space or the end, or to the end of
    the text (before its final newline). *)

Definition closing_mark (c : Z) : bool := bool_decide (c ∈ u ".!?。！？").

(** How many characters after the first one the match takes. *)
Fixpoint sentence_len (t : ustr) : nat :=
  match t with
  | [] => 0
  | c :: t' =>
      if closing_mark c && match t' with [] => true | d :: _ => isspace d end then 1
      else if (c =? 10) && bool_decide (t' = []) then 0
      else S (sentence_len t')
  end.

(** [finditer]: the matched ranges; [skip] characters of the current match are passed. *)
Fixpoint sentences (s : ustr) (pos skip : nat) : list (nat * nat) :=
  match s with
  | [] => []
  | c :: s' =>
      match skip with
      | S k => sentences s' (S pos) k
      | O => if isspace c then sentences s' (S pos) 0
             else (pos, (pos + S (sentence_len s'))%nat) :: sentences s' (S pos) (sentence_len s')
      end
  end.

Definition simple_block (id : ustr) (g : Z) (leaf_id : ustr) (sp : TextSpan) (text : ustr) : result RetrievalBlock :=
  let* dg := text_digest text in
  Ok (Build_RetrievalBlock id g [leaf_id] [sp] text dg).

Definition sentence_block (clean_text leaf_id : ustr) (p : nat * (nat * nat)) : result RetrievalBlock :=
  let '(n, (i, j)) := p in
  let* s := byte_offset clean_text i in
  let* e := byte_offset clean_text j in
  simple_block (u "g2:" ++ dec04 (Z.of_nat n)) 2 leaf_id {| start_byte := s; end_byte := e |} (slice i j clean_text).

Definition project_blocks (clean_text leaf_id : ustr) : result (list RetrievalBlock) :=
  let* encoded := utf8_encode clean_text in
  let full := {| start_byte := 0; end_byte := Z.of_nat (length encoded) |} in
  let* b0 := simple_block (u "g0:document") 0 leaf_id full clean_text in
  let* b1 := simple_block (u "g1:document") 1 leaf_id full clean_text in
  let ranges := List.filter (fun r => negb (blank (slice r.1 r.2 clean_text))) (sentences clean_text 0 0) in
  let* sents := mapM (sentence_block clean_text leaf_id) (enumerate_from 0 ranges) in
  match sents with
  | [] => let* b2 := simple_block (u "g2:0000") 2 leaf_id full clean_text in Ok [b0; b1; b2]
  | _ => Ok (b0 :: b1 :: sents)
  end.

(** ** Structures with one leaf *)

Definition LEAF_ID : ustr := u "node-0001".
Definition root_node (subtree : ustr) : StructureNode :=
  Build_StructureNode (u "root") (u "document") None 0 0 0 (u "container") None None subtree.
Definition leaf_node (stop : Z) (leaf_digest : ustr) : StructureNode :=
  Build_StructureNode LEAF_ID (u "paragraph") (Some (u "root")) 0 1 1 (u "content")
    (Some {| start_byte := 0; end_byte := stop |}) (Some leaf_digest) leaf_digest.

(** The document both structurizers build over [clean]. *)
Definition single_leaf_document (generation clean_artifact clean : ustr) (tree : string) (meta : pydict)
    : result StructureDocument :=
  let* digest := text_digest clean in
  let* encoded := utf8_encode clean in
  let stop := Z.of_nat (length encoded) in
  let* subtree := stable_digest (obj [("children", PList [PStr digest])]) in
  let* proof := stable_digest (obj [("tree", PStr (u tree)); ("coverage", PList [PTuple [PInt 0; PInt stop]]);
                                    ("order", PList [PStr (u "root"); PStr LEAF_ID])]) in
  Ok (Build_StructureDocument generation clean_artifact digest (u "root")
        [root_node subtree; leaf_node stop digest] proof meta).

Definition or_default (o : option ustr) (d : ustr) : ustr :=
  match o with Some s => if ueqb s [] then d else s | None => d end.

Definition structurize (clean_text generation_artifact_uuid : ustr) (projection_uuid : option ustr)
    (clean_artifact_uuid : ustr) (clean_digest : option ustr)
    : result (StructureDocument * RetrievalBlockProjection) :=
  check negb (blank clean_text) else fail422 "STRUCTURE_KERNEL_EMPTY" ;;
  let projection_uuid := or_default projection_uuid (generation_artifact_uuid ++ u ":projection") in
  check negb (ueqb generation_artifact_uuid []) && negb (ueqb projection_uuid [])
        && negb (ueqb clean_artifact_uuid []) else fail422 "STRUCTURE_BINDING_INVALID" ;;
  check negb (ueqb projection_uuid generation_artifact_uuid) else fail422 "STRUCTURE_BINDING_INVALID" ;;
  let* observed := text_digest clean_text in
  check match clean_digest with Some c => ueqb c observed | None => true end
        else fail422 "STRUCTURE_BINDING_CLEAN_DIGEST" ;;
  let* document := single_leaf_document generation_artifact_uuid clean_artifact_uuid clean_text "single-root" [] in
  let* blocks := project_blocks clean_text LEAF_ID in
  let* dd := structure_document_digest document in
  let* proof := stable_digest
    (obj [("coverage", PList (map (fun b => PTuple [PStr (rb_id b); PStr (rb_digest b)]) blocks));
          ("required_g", PList [PInt 0; PInt 1; PInt 2])]) in
  let projection := Build_RetrievalBlockProjection projection_uuid generation_artifact_uuid dd blocks proof in
  let* _ := validate_structure document projection clean_text [0; 1; 2] in
  Ok (document, projection).

(** ** Adoption *)

Record anchor := {
  an_block_id : Z; an_projection_id : ustr; an_granularity : Z; an_start : Z; an_end : Z; an_count : Z
}.

Definition anchor_value (a : anchor) : pyval :=
  obj [("block_id", PInt (an_block_id a)); ("projection_block_id", PStr (an_projection_id a));
       ("granularity", PInt (an_granularity a)); ("start_byte", PInt (an_start a)); ("end_byte", PInt (an_end a));
       ("occurrence_count", PInt (an_count a))].

Definition projection_block_id (g bid : Z) : ustr := u "g" ++ dec g ++ u ":b" ++ dec04 bid.

(** One iteration of the anchoring loop; [search_from] is the cursor per granularity. *)
Definition adopt_block (clean : ustr) (search_from : gmap Z nat) (raw : (Z * Z) * pydict)
    : result (gmap Z nat * (RetrievalBlock * anchor)) :=
  let '((granularity, block_id), block) := raw in
  let missing := fail422 "STRUCTURE_ANCHOR_MISSING" in
  let* original := sub_dict block "original_content" in
  match dget original (u "body") with
  | Some (PStr body) =>
      check negb (blank body) else missing ;;
      let nb := normalize_text body in
      check negb ((granularity =? 0) && negb (ueqb nb clean)) else missing ;;
      check str_in nb clean else missing ;;
      match str_find clean nb (default 0%nat (search_from !! granularity)) with
      | None => Err missing
      | Some first_char =>
          let* start := byte_offset clean first_char in
          let* finish := byte_offset clean (first_char + length nb) in
          let* dg := text_digest nb in
          let id := projection_block_id granularity block_id in
          Ok (<[granularity := (first_char + Nat.max (length nb) 1)%nat]> search_from,
              (Build_RetrievalBlock id granularity [LEAF_ID] [{| start_byte := start; end_byte := finish |}] nb dg,
               Build_anchor block_id id granularity start finish (Z.of_nat (str_count clean nb))))
      end
  | _ => Err missing
  end.

Fixpoint adopt_blocks (clean : ustr) (search_from : gmap Z nat) (raws : list ((Z * Z) * pydict))
    : result (list (RetrievalBlock * anchor)) :=
  match raws with
  | [] => Ok []
  | r :: rs =>
      let* '(sf, a) := adopt_block clean search_from r in
      let* rest := adopt_blocks clean sf rs in
      Ok (a :: rest)
  end.

Definition key_le (a b : Z * Z) : bool := (a.1 <? b.1) || ((a.1 =? b.1) && (a.2 <=? b.2)).

Definition adopt_layered_json_with_report (clean_text : ustr) (layered_json : pyval)
    (generation_artifact_uuid : ustr) (projection_uuid : option ustr) (clean_artifact_uuid : ustr)
    (clean_digest : option ustr) (granularity_set : option (list Z))
    : result (StructureDocument * RetrievalBlockProjection * pyval) :=
  let clean := normalize_text clean_text in
  check negb (blank clean) else fail422 "STRUCTURE_KERNEL_EMPTY" ;;
  check negb (ueqb generation_artifact_uuid []) && negb (ueqb clean_artifact_uuid [])
        else fail422 "STRUCTURE_BINDING_INVALID" ;;
  let projection_uuid := or_default projection_uuid (generation_artifact_uuid ++ u ":projection") in
  check negb (ueqb projection_uuid generation_artifact_uuid) else fail422 "STRUCTURE_BINDING_INVALID" ;;
  let* declared := declared_granularities granularity_set in
  let* observed := text_digest clean in
  check match clean_digest with Some c => ueqb c observed | None => true end
        else fail422 "STRUCTURE_BINDING_CLEAN_DIGEST" ;;
  let* candidate := normalize_layered_candidate clean layered_json (Some declared) in
  let* raw_blocks := layered_blocks candidate in
  let* meta := sub_dict candidate "context_meta" in
  let* structure := single_leaf_document generation_artifact_uuid clean_artifact_uuid clean "layered-adopt" meta in
  let* keyed := mapM (fun b => let* k := block_key b in Ok (k, b)) raw_blocks in
  let* adopted := adopt_blocks clean ∅ (py_sorted (fun a b => key_le a.1 b.1) keyed) in
  let report_anchors := PList (map (fun a => anchor_value a.2) adopted) in
  let required := PList (map PInt declared) in
  let* dd := structure_document_digest structure in
  let* proof := stable_digest (obj [("coverage", report_anchors); ("required_g", required)]) in
  let projection := Build_RetrievalBlockProjection projection_uuid generation_artifact_uuid dd adopted.*1 proof in
  let* _ := validate_structure structure projection clean declared in
  let report := fields [("schema_version", PStr (u "mkb.layered-content-adoption-report.v1"));
                        ("disposition", PStr (u "full_valid")); ("granularity_set", required);
                        ("clean_digest", PStr observed); ("anchors", report_anchors)] in
  let* report_proof := stable_digest (PDict report) in
  Ok (structure, projection, PDict (dset report (u "proof_digest") (PStr report_proof))).

Definition adopt_layered_json (clean_text : ustr) (layered_json : pyval) (generation_artifact_uuid : ustr)
    (projection_uuid : option ustr) (clean_artifact_uuid : ustr) (clean_digest : option ustr)
    (granularity_set : option (list Z)) : result (StructureDocument * RetrievalBlockProjection) :=
  let* '(structure, projection, _) :=
    adopt_layered_json_with_report clean_text layered_json generation_artifact_uuid projection_uuid
      clean_artifact_uuid clean_digest granularity_set in
  Ok (structure, projection).

(** ** Summary packages *)

(** [{(b.granularity, _block_number(b.block_id)): b for b in projection.blocks}] *)
Definition projection_by_key (p : RetrievalBlockProjection) : result (gmap (Z * Z) RetrievalBlock) :=
  foldM (fun m b => let* n := block_number (rb_id b) in Ok (<[(rb_granularity b, n) := b]> m)) ∅ (rp_blocks p).

Definition accepted_by_key (accepted : pydict) : result (gmap (Z * Z) pydict) :=
  let* blocks := layered_blocks accepted in
  foldM (fun m b => let* k := block_key b in Ok (<[k := b]> m)) ∅ blocks.

Definition INCOMPLETE : exn := fail422 "CONSTRUCT_KERNEL_SUMMARY_INCOMPLETE".
Definition ALIGNMENT : exn := fail422 "CONSTRUCT_KERNEL_ALIGNMENT_INVALID".
Definition MUTATION : exn := fail422 "CONSTRUCT_KERNEL_ORIGINAL_MUTATION".

(** [str(accepted_original.get("body") or "").strip()] is empty *)
Definition body_blank (v : pyval) : bool := blank (if truthy v then py_str v else []).

Definition original_matches (accepted : option (gmap (Z * Z) pydict)) (key : Z * Z) (original : pydict)
    (b : RetrievalBlock) : result unit :=
  match accepted with
  | Some by_key =>
      match by_key !! key with
      | None => Err MUTATION
      | Some accepted_block =>
          let* accepted_original := dsub accepted_block (u "original_content") in
          let accepted_original :=
            match accepted_original with
            | PDict o =>
                if (key.1 =? 0) && body_blank (default PNone (dget o (u "body")))
                then PDict (dset o (u "body") (PStr (rb_text b))) else accepted_original
            | v => v
            end in
          ensure (py_eqb (PDict original) accepted_original) MUTATION
      end
  | None => ensure (py_eqb (default PNone (dget original (u "body"))) (PStr (rb_text b))) MUTATION
  end.

Definition summary_step (by_key : gmap (Z * Z) RetrievalBlock) (accepted : option (gmap (Z * Z) pydict))
    (st : gset (Z * Z) * pydict) (raw : pydict) : result (gset (Z * Z) * pydict) :=
  let '(seen, summaries) := st in
  let* key := block_key raw in
  check negb (bool_decide (key ∈ seen)) else ALIGNMENT ;;
  match by_key !! key with
  | None => Err ALIGNMENT
  | Some b =>
      let* original := sub_dict raw "original_content" in
      let* summary := sub_dict raw "llm_summary" in
      let* _ := original_matches accepted key original b in
      let body := default PNone (dget summary (u "body")) in
      check nonblank_str body else INCOMPLETE ;;
      Ok ({[key]} ∪ seen, dset summaries (rb_id b) body)
  end.

Definition layered_summary_map (layered_json : pyval) (p : RetrievalBlockProjection)
    (accepted_layered_json : option pyval) : result pydict :=
  let* candidate := validate_layered_content layered_json true false in
  let* accepted :=
    match accepted_layered_json with
    | None => Ok None
    | Some a => let* v := validate_layered_content a false true in Ok (Some v)
    end in
  let* candidate_blocks := layered_blocks candidate in
  let* by_key := projection_by_key p in
  let* accepted_blocks :=
    match accepted with
    | None => Ok None
    | Some a => let* m := accepted_by_key a in Ok (Some m)
    end in
  let* '(seen, summaries) := foldM (summary_step by_key accepted_blocks) (∅, []) candidate_blocks in
  check bool_decide (seen = dom by_key) else ALIGNMENT ;;
  Ok summaries.

Definition fill_step (by_key : gmap (Z * Z) RetrievalBlock) (summaries : pydict)
    (st : gset (Z * Z) * list pydict) (raw : pydict) : result (gset (Z * Z) * list pydict) :=
  let '(seen, done) := st in
  let* key := block_key raw in
  match by_key !! key with
  | None => Err ALIGNMENT
  | Some b =>
      check negb (bool_decide (key ∈ seen)) else ALIGNMENT ;;
      let summary := default PNone (dget summaries (rb_id b)) in
      check nonblank_str summary else INCOMPLETE ;;
      let* channel := sub_dict raw "llm_summary" in
      let raw := dset raw (u "llm_summary") (PDict (dset channel (u "body") summary)) in
      Ok ({[key]} ∪ seen, done ++ [raw])
  end.

Definition fill_layered_summaries (accepted_layered_json : pyval) (p : RetrievalBlockProjection)
    (summaries_by_block_id : pydict) : result pydict :=
  let* candidate := validate_layered_content accepted_layered_json false true in
  let* blocks := layered_blocks candidate in
  let* by_key := projection_by_key p in
  let* '(seen, filled) := foldM (fill_step by_key summaries_by_block_id) (∅, []) blocks in
  check bool_decide (seen = dom by_key) else ALIGNMENT ;;
  Ok (dset candidate (u "layered_content") (PList (map PDict filled))).
End adopt.

(** ** Facts *)

Section facts.
Context `{Host}.

Lemma byte_offset_Ok value i z :
  byte_offset value i = Ok z <-> exists b, utf8_encode (take i value) = Ok b /\ z = Z.of_nat (length b).
Proof. unfold byte_offset. rewrite rbind_Ok. naive_solver. Qed.

(** Character ranges and byte ranges agree. *)
Lemma span_text_offsets value i j s e :
  (i <= j)%nat -> (j <= length value)%nat -> is_ok (utf8_encode value) = true ->
  byte_offset value i = Ok s -> byte_offset value j = Ok e ->
  span_text value {| start_byte := s; end_byte := e |} = Ok (slice i j value) /\ 0 <= s <= e.
Proof.
  intros Hij Hj Hv (bi & Hi & ->)%byte_offset_Ok (bj & Hjj & ->)%byte_offset_Ok.
  destruct (utf8_encode value) as [b|] eqn:Hb; [|done].
  destruct (utf8_encode_slice _ _ _ _ _ _ Hij Hj Hb Hi Hjj) as [Hs Hle].
  split; [|lia]. unfold span_text. rewrite Hb. simpl. rewrite !Nat2Z.id.
  rewrite (utf8_decode_encode _ _ Hs).
  by replace ((0 <=? Z.of_nat (length bi)) && (Z.of_nat (length bi) <=? Z.of_nat (length bj))
    && (Z.of_nat (length bj) <=? Z.of_nat (length b))) with true by lia.
Qed.

Lemma byte_offset_mono value i j s e :
  (i <= j)%nat -> byte_offset value i = Ok s -> byte_offset value j = Ok e -> s <= e.
Proof.
  intros Hij (bi & Hi & ->)%byte_offset_Ok (bj & Hj & ->)%byte_offset_Ok.
  rewrite <-(take_drop i (take j value)), take_take, Nat.min_l in Hj by done.
  apply utf8_encode_app_inv in Hj as (b1 & b2 & H1 & _ & ->).
  assert (b1 = bi) as -> by congruence. rewrite length_app. lia.
Qed.

(** What adoption derives from one keyed candidate block: its original text, verbatim, with
    the byte span of an occurrence in the clean text. *)
Record quotes (clean : ustr) (raw : (Z * Z) * pydict) (b : RetrievalBlock) (a : anchor) : Prop := {
  q_granularity : rb_granularity b = raw.1.1;
  q_id : rb_id b = projection_block_id raw.1.1 raw.1.2;
  q_body : exists original body,
    dget raw.2 (u "original_content") = Some (PDict original) /\ dget original (u "body") = Some (PStr body) /\
    rb_text b = normalize_text body;
  q_span : exists sp, rb_spans b = [sp] /\ span_text clean sp = Ok (rb_text b) /\
    sp = {| start_byte := an_start a; end_byte := an_end a |};
  q_g0 : raw.1.1 = 0 -> rb_text b = clean;
  q_digest : text_digest (rb_text b) = Ok (rb_digest b)
}.


Lemma adopt_block_Ok clean sf raw sf' b a :
  is_ok (utf8_encode clean) = true -> adopt_block clean sf raw = Ok (sf', (b, a)) ->
  quotes clean raw b a /\ an_start a <= an_end a /\
  exists first len, (default 0%nat (sf !! raw.1.1) <= first)%nat /\
    byte_offset clean first = Ok (an_start a) /\ byte_offset clean (first + len) = Ok (an_end a) /\
    sf' = <[raw.1.1 := (first + Nat.max len 1)%nat]> sf.
Proof.
  intros Hc. unfold adopt_block. destruct raw as [[g bid] block]. intros Ha. apply rbind_Ok in Ha as (original & Ho & Ha).
  unfold sub_dict in Ho. apply rbind_Ok in Ho as (v & Hv%dsub_Ok & Ho). destruct v; try done. injection Ho as ->.
  destruct (dget original (u "body")) as [[| | | |body| | |]|] eqn:Eb; try done.
  inv_res. destruct (str_find _ _ _) as [first|] eqn:Ef; [|done]. inv_res.
  apply str_find_Some in Ef as (Hge & Hocc & _). breflect.
  match goal with H1 : byte_offset _ first = Ok _, H2 : byte_offset _ (first + _) = Ok _ |- _ => rename H1 into Hs; rename H2 into He end.
  destruct (occurs_at_slice _ _ _ Hocc) as [Hsl Hle].
  destruct (span_text_offsets clean first (first + length (normalize_text body)) _ _ ltac:(lia) Hle Hc Hs He) as [Hspan Hle2].
  rewrite Hsl in Hspan. split; [|split].
  - split; simpl; try done; [by exists original, body|by eexists|].
    intros ->. destruct (ueqb (normalize_text body) clean) eqn:E; [by apply ueqb_eq|done].
  - simpl. lia.
  - exists first, (length (normalize_text body)). done.
Qed.

(** Blocks of one granularity are anchored left to right without overlap. *)
Definition separated (outs : list (RetrievalBlock * anchor)) : Prop :=
  StronglySorted (fun x y => an_granularity x.2 = an_granularity y.2 -> an_end x.2 <= an_start y.2) outs.

Lemma adopt_block_granularity clean sf raw sf' o :
  adopt_block clean sf raw = Ok (sf', o) -> an_granularity o.2 = raw.1.1.
Proof.
  unfold adopt_block. destruct raw as [[g bid] block]. intros Ha. apply rbind_Ok in Ha as (original & _ & Ha).
  destruct (dget original (u "body")) as [[| | | |body| | |]|]; try done.
  inv_res. destruct (str_find _ _ _); [|done]. by inv_res.
Qed.

Lemma adopt_blocks_Ok clean sf raws outs :
  is_ok (utf8_encode clean) = true -> adopt_blocks clean sf raws = Ok outs ->
  Forall2 (fun raw o => quotes clean raw o.1 o.2) raws outs /\ separated outs /\
  Forall (fun o => exists first, (default 0%nat (sf !! an_granularity o.2) <= first)%nat /\
                                 byte_offset clean first = Ok (an_start o.2)) outs.
Proof.
  intros Hc. revert sf outs; induction raws as [|raw raws IH]; intros sf outs Ha; simpl in Ha.
  { injection Ha as <-. repeat constructor. }
  apply rbind_Ok in Ha as ([sf' [b a]] & Hb & Ha). apply rbind_Ok in Ha as (rest & Hr & [= <-]).
  destruct (IH _ _ Hr) as (Hq & Hsep & Hfrom).
  pose proof (adopt_block_granularity _ _ _ _ _ Hb) as Hg. simpl in Hg.
  apply adopt_block_Ok in Hb as (Hqb & _ & first & len & Hge & Hs & He & ->); [|done].
  split; [by constructor|]. split.
  - constructor; [done|]. eapply Forall_impl; [exact Hfrom|].
    intros o (f & Hf & Hso) Heq. cbn [snd] in Heq |- *. rewrite <-Heq, Hg, lookup_insert_eq in Hf. simpl in Hf.
    eapply byte_offset_mono; [|exact He|exact Hso]. lia.
  - constructor.
    + exists first. simpl. by rewrite Hg.
    + eapply Forall_impl; [exact Hfrom|]. intros o (f & Hf & Hso). exists f. split; [|done].
      destruct (decide (an_granularity o.2 = raw.1.1)) as [Heq|Hne].
      * rewrite Heq in Hf |- *. rewrite lookup_insert_eq in Hf. simpl in Hf. lia.
      * by rewrite lookup_insert_ne in Hf by done.
Qed.

Lemma keyed_snd raws keyed :
  Forall2 (fun b k => (let* k0 := block_key b in Ok (k0, b)) = Ok k) raws keyed ->
  keyed.*2 = raws /\ Forall (fun r => block_key r.2 = Ok r.1) keyed.
Proof.
  induction 1 as [|b k raws keyed Hk _ [<- IH]]; [done|].
  apply rbind_Ok in Hk as (k0 & Hk0 & [= <-]). split; [done|]. by constructor.
Qed.

Lemma key_le_total (x y : ((Z * Z) * pydict)) : key_le x.1 y.1 = true \/ key_le y.1 x.1 = true.
Proof. unfold key_le. destruct x as [[a b] ?], y as [[c d] ?]; simpl. lia. Qed.

Lemma key_le_trans (x y z : ((Z * Z) * pydict)) :
  key_le x.1 y.1 = true -> key_le y.1 z.1 = true -> key_le x.1 z.1 = true.
Proof. unfold key_le. destruct x as [[a b] ?], y as [[c d] ?], z as [[e f] ?]; simpl. lia. Qed.
End facts.

(** ** Properties *)

Section properties.
Context `{Host}.

(** C6: An adopted projection quotes the clean text: its blocks correspond, in the order of
    (granularity, block id), to the blocks of the normalised candidate; each carries the
    candidate's normalised body verbatim together with the byte span of an occurrence of
    that body in the clean text; a granularity 0 block is the whole clean text; blocks of
    the same granularity are anchored left to right without overlap; and the result passes
    the structure validator. *)
Theorem adopt_layered_json_anchors clean_text payload gen proj art cd gs s p report :
  adopt_layered_json_with_report clean_text payload gen proj art cd gs = Ok (s, p, report) ->
  let clean := normalize_text clean_text in
  exists declared candidate raws keyed outs,
    declared_granularities gs = Ok declared /\
    normalize_layered_candidate clean payload (Some declared) = Ok candidate /\
    layered_blocks candidate = Ok raws /\ keyed.*2 ≡ₚ raws /\
    Forall (fun r => block_key r.2 = Ok r.1) keyed /\
    StronglySorted (fun a b => key_le a.1 b.1 = true) keyed /\
    rp_blocks p = outs.*1 /\ Forall2 (fun r o => quotes clean r o.1 o.2) keyed outs /\ separated outs /\
    validate_structure s p clean declared = Ok tt.
Proof.
  unfold adopt_layered_json_with_report. set (clean := normalize_text clean_text). intros Ha.
  inv_res.
  match goal with Hk : mapM _ _ = Ok _ |- _ => apply mapM_Ok in Hk; apply keyed_snd in Hk as [<- Hkeys] end.
  match goal with Hv : validate_structure _ _ _ _ = Ok ?t |- _ => destruct t; pose proof Hv as Hval end.
  apply validate_structure_inv in Hval. destruct (sv_leaves _ _ _ _ Hval) as (? & enc & _ & Henc & _).
  match goal with Hb : adopt_blocks _ _ _ = Ok _ |- _ => apply adopt_blocks_Ok in Hb as (Hq & Hsep & _); [|by rewrite Henc] end.
  do 5 eexists. split; [done|]. split; [done|]. split; [done|].
  split; [apply fmap_Permutation, py_sorted_perm|]. split; [by rewrite py_sorted_perm|].
  split; [apply py_sorted_sorted; [apply key_le_total|apply key_le_trans]|].
  split; [done|]. split; [done|]. split; done.
Qed.
End properties.

(** ** The two directions of the summary package *)

Section summary_facts.
Context `{Host}.

Lemma block_key_shape sr sn d b : block_shape sr sn d b -> block_key d = Ok (lb_g b, lb_id b).
Proof.
  intros Hb. unfold block_key, get_int, dsub. rewrite (bs_id _ _ _ _ Hb). simpl.
  by rewrite (bs_g _ _ _ _ Hb).
Qed.

(** [filled by_key summaries raw b raw' b']: [raw'] is [raw] with its summary. *)
Definition filled (by_key : gmap (Z * Z) RetrievalBlock) (summaries : pydict)
    (raw : pydict) (b : lblock) (raw' : pydict) (b' : lblock) : Prop :=
  exists rb s, by_key !! (lb_g b, lb_id b) = Some rb /\ dget summaries (rb_id rb) = Some (PStr s) /\
    blank s = false /\ lb_sum_body b' = PStr s /\ lb_original b' = lb_original b /\ lb_body b' = lb_body b /\
    lb_g b' = lb_g b /\ lb_id b' = lb_id b.

Lemma dmem_dget {V} (d : list (ustr * V)) k v : dget d k = Some v -> dmem d k = true.
Proof. unfold dmem. by intros ->. Qed.

Lemma keys_exactly_dset {V} keys (d : list (ustr * V)) k v w :
  keys_exactly keys d = true -> dget d k = Some w -> keys_exactly keys (dset d k v) = true.
Proof.
  intros [Hw Hm]%andb_true_iff Hk. apply andb_true_iff. split; [apply keys_within_dset; [done|by eapply dmem_dget]|].
  rewrite forallb_forall in *. intros k' Hin. specialize (Hm _ Hin). unfold dmem in *.
  destruct (decide (k = k')) as [<-|Hne]; [by rewrite dget_dset_eq|by rewrite dget_dset_ne].
Qed.

Definition lkey (b : lblock) : Z * Z := (lb_g b, lb_id b).

(** One step of the filling loop. *)
Lemma fill_step_Ok by_key summaries seen acc raw b seen' acc' :
  block_shape false true raw b ->
  fill_step by_key summaries (seen, acc) raw = Ok (seen', acc') ->
  (lkey b ∉ seen) /\ seen' = {[lkey b]} ∪ seen /\
  exists raw' b', acc' = acc ++ [raw'] /\ block_shape true false raw' b' /\ filled by_key summaries raw b raw' b'.
Proof.
  intros Hb. unfold fill_step. rewrite (block_key_shape _ _ _ _ Hb). cbn [rbind].
  destruct (by_key !! _) as [rb|] eqn:Ek; [|done]. intros Hf.
  apply rbind_Ok in Hf as ([] & Hseen%ensure_Ok & Hf). apply rbind_Ok in Hf as ([] & Hs%ensure_Ok & Hf).
  destruct (dget summaries (rb_id rb)) as [v|] eqn:Es; [|done]. destruct v as [| | | |s| | |]; try done.
  cbn [default id nonblank_str] in Hs. apply negb_true_iff in Hs.
  unfold sub_dict, dsub in Hf. rewrite (bs_summary _ _ _ _ Hb) in Hf. cbn [rbind default id] in Hf. injection Hf as <- <-.
  apply negb_true_iff, bool_decide_eq_false in Hseen. split; [done|]. split; [done|].
  destruct (bs_summary_shape _ _ _ _ Hb) as [Ht Hbd Hnt _ Hk].
  eexists _, (Build_lblock (lb_id b) (lb_g b) (lb_original b) (lb_title b) (lb_body b)
    (dset (lb_summary b) (u "body") (PStr s)) (lb_sum_title b) (PStr s)). split; [done|]. split.
  - destruct Hb. split; simpl; try done; rewrite ?dget_dset_eq, ?dget_dset_ne by ukey_ne; try done.
    + split; rewrite ?dget_dset_eq, ?dget_dset_ne by ukey_ne; try done; [right; eauto|].
      by eapply keys_exactly_dset.
    + by rewrite Hs.
    + by eapply keys_exactly_dset.
  - exists rb, s. done.
Qed.

Lemma fill_fold_Ok by_key summaries raws lbs seen acc seen' acc' :
  Forall2 (block_shape false true) raws lbs ->
  foldM (fill_step by_key summaries) (seen, acc) raws = Ok (seen', acc') ->
  NoDup (map lkey lbs) /\ Forall (fun b => lkey b ∉ seen) lbs /\ seen' = list_to_set (map lkey lbs) ∪ seen /\
  exists new lbs', acc' = acc ++ new /\ Forall2 (block_shape true false) new lbs' /\
    Forall2 (fun b b' => filled by_key summaries [] b [] b') lbs lbs'.
Proof.
  intros Hs; revert seen acc; induction Hs as [|raw b raws lbs Hb Hs IH]; intros seen acc Hf; cbn [foldM] in Hf.
  { injection Hf as <- <-. repeat split; [constructor|constructor|set_solver|].
    exists [], []. rewrite app_nil_r. repeat split; constructor. }
  apply rbind_Ok in Hf as ([seen1 acc1] & H1 & Hf).
  apply (fill_step_Ok _ _ _ _ _ _ _ _ Hb) in H1 as (Hn & -> & raw' & b' & -> & Hb' & Hfill).
  destruct (IH _ _ Hf) as (Hnd & Hfresh & -> & new & lbs' & -> & Hnew & Hfs).
  rewrite Forall_forall in Hfresh. repeat split.
  - simpl. constructor; [|done]. intros (c & Hc & Hin)%list_elem_of_fmap. apply (Hfresh c Hin). rewrite Hc. by apply elem_of_union_l, elem_of_singleton.
  - constructor; [done|]. apply Forall_forall. intros c Hc. specialize (Hfresh c Hc). by apply not_elem_of_union in Hfresh as [_ ?].
  - cbn [map]. rewrite list_to_set_cons, (assoc_L (∪)). f_equal. by rewrite (comm_L (∪)).
  - exists (raw' :: new), (b' :: lbs'). rewrite <-app_assoc. split; [done|]. split; by constructor.
Qed.

Lemma accepted_fold (raws : list pydict) (lbs : list lblock) (m m' : gmap (Z * Z) pydict) :
  Forall2 (block_shape false true) raws lbs -> NoDup (map lkey lbs) ->
  foldM (fun m b => let* k := block_key b in Ok (<[k := b]> m)) m raws = Ok m' ->
  Forall2 (fun raw b => m' !! (lkey b) = Some raw) raws lbs /\
  forall k, k ∉ map lkey lbs -> m' !! k = m !! k.
Proof.
  intros Hs; revert m; induction Hs as [|raw b raws lbs Hb Hs IH]; intros m Hnd Hf; cbn [foldM] in Hf.
  { injection Hf as <-. split; [constructor|done]. }
  rewrite (block_key_shape _ _ _ _ Hb) in Hf. cbn [rbind] in Hf. simpl in Hnd. inversion_clear Hnd as [|? ? Hni Hnd'].
  destruct (IH _ Hnd' Hf) as [Hl Ho]. split.
  - constructor; [|done]. rewrite Ho by done. unfold lkey. by rewrite lookup_insert_eq.
  - intros k Hk. simpl in Hk. apply not_elem_of_cons in Hk as [Hne Hk]. rewrite Ho by done.
    rewrite lookup_insert_ne; [done|]. by intros <-.
Qed.

Lemma channel_eqb_refl c t b : channel_shape c t b -> dict_wf c -> py_eqb (PDict c) (PDict c) = true.
Proof.
  intros [Ht Hb Hnt Hnb Hk] Hwf. simpl. rewrite Nat.eqb_refl. simpl. apply forallb_forall. intros [k v] Hin.
  apply list_elem_of_In in Hin. pose proof (keys_exactly_within _ _ Hk) as Hw. unfold keys_within in Hw.
  rewrite forallb_forall in Hw. specialize (Hw _ (proj1 (list_elem_of_In _ _) Hin)).
  apply bool_decide_eq_true in Hw. simpl in Hw |- *. pose proof (dget_elem _ _ _ Hwf Hin) as Hg. rewrite Hg.
  assert (nullable v) as [->|[s ->]]; [|done|apply ueqb_refl].
  apply elem_of_cons in Hw as [->|Hw]; [|apply list_elem_of_singleton in Hw as ->]; congruence.
Qed.

(** The bodies that the reading direction compares as they are: not a blank whole-document block. *)
Definition body_ready (b : lblock) : Prop := lb_g b = 0 -> nonblank_str (lb_body b) = true.

Lemma summary_step_filled by_key summaries accepted raw b raw' b' :
  block_shape false true raw b -> block_shape true false raw' b' -> filled by_key summaries raw b raw' b' ->
  accepted !! lkey b = Some raw -> dict_wf (lb_original b) -> body_ready b ->
  exists rb s, by_key !! lkey b = Some rb /\ dget summaries (rb_id rb) = Some s /\
    forall seen m, lkey b ∉ seen ->
      summary_step by_key (Some accepted) (seen, m) raw' = Ok ({[lkey b]} ∪ seen, dset m (rb_id rb) s).
Proof.
  intros Hb Hb' (rb & s & Hk & Hs & Hbl & Hsb & Ho & Hbody & Hg & Hid) Hacc Hwf Hready.
  exists rb, (PStr s). split; [done|]. split; [done|]. intros seen m Hn.
  unfold summary_step. rewrite (block_key_shape _ _ _ _ Hb'), Hg, Hid. cbn [rbind].
  rewrite bool_decide_false by done. cbn [negb ensure rbind]. unfold lkey in *. rewrite Hk.
  unfold sub_dict, dsub. rewrite (bs_original _ _ _ _ Hb'), (bs_summary _ _ _ _ Hb'). cbn [rbind].
  unfold original_matches. rewrite Hacc. unfold dsub. rewrite (bs_original _ _ _ _ Hb), Ho. cbn [rbind fst].
  destruct (bs_summary_shape _ _ _ _ Hb') as [_ Hsum _ _ _]. rewrite Hsum, Hsb.
  pose proof (bs_original_shape _ _ _ _ Hb) as Hos.
  assert ((lb_g b =? 0) && body_blank (default PNone (dget (lb_original b) (u "body"))) = false) as ->.
  { destruct (Z.eqb_spec (lb_g b) 0) as [Hz|]; [|done]. specialize (Hready Hz). rewrite (cs_body _ _ _ Hos).
    cbn [default]. unfold id. destruct (lb_body b) as [| | | |t| | |]; try done. cbn [nonblank_str] in Hready.
    apply negb_true_iff in Hready. unfold body_blank. cbn [truthy]. destruct (ueqb t []) eqn:E; [|done].
    apply ueqb_eq in E as ->. by rewrite blank_nil in Hready. }
  rewrite (channel_eqb_refl _ _ _ Hos Hwf). cbn [ensure rbind default nonblank_str]. unfold id.
  cbn [nonblank_str]. rewrite Hbl. done.
Qed.

Definition covers (by_key : gmap (Z * Z) RetrievalBlock) (summaries : pydict) (m m' : pydict) (keys : list (Z * Z)) : Prop :=
  ((forall id v, dget m id = Some v -> dget summaries id = Some v) ->
   forall id v, dget m' id = Some v -> dget summaries id = Some v) /\
  (forall id, dmem m id = true -> dmem m' id = true) /\
  forall k rb, k ∈ keys -> by_key !! k = Some rb -> dmem m' (rb_id rb) = true.

Lemma dmem_dset_mono {V} (d : list (ustr * V)) k v id : dmem d id = true -> dmem (dset d k v) id = true.
Proof.
  unfold dmem. destruct (decide (k = id)) as [<-|]; [by rewrite dget_dset_eq|by rewrite dget_dset_ne].
Qed.

Lemma summary_fold_filled by_key summaries accepted new lbs seen m :
  Forall2 (fun raw' b => exists rb s, by_key !! lkey b = Some rb /\ dget summaries (rb_id rb) = Some s /\
    forall seen m, lkey b ∉ seen ->
      summary_step by_key (Some accepted) (seen, m) raw' = Ok ({[lkey b]} ∪ seen, dset m (rb_id rb) s)) new lbs ->
  NoDup (map lkey lbs) -> Forall (fun b => lkey b ∉ seen) lbs ->
  exists m', foldM (summary_step by_key (Some accepted)) (seen, m) new = Ok (list_to_set (map lkey lbs) ∪ seen, m') /\
    covers by_key summaries m m' (map lkey lbs).
Proof.
  intros HF; revert seen m; induction HF as [|raw' b new lbs (rb & s & Hk & Hs & Hstep) HF IH]; intros seen m Hnd Hfresh.
  { exists m. split; [simpl; f_equal; f_equal; set_solver|]. repeat split; [done|done|set_solver]. }
  simpl in Hnd. inversion_clear Hnd as [|? ? Hni Hnd']. inversion_clear Hfresh as [|? ? Hnb Hfresh'].
  destruct (IH ({[lkey b]} ∪ seen) (dset m (rb_id rb) s)) as (m' & Hf & Ha & Hm & Hc); [done| |].
  { rewrite Forall_forall in Hfresh' |- *. intros c Hcin. apply not_elem_of_union. split; [|by apply Hfresh'].
    intros Heq%elem_of_singleton. apply Hni. rewrite <-Heq. apply list_elem_of_fmap. by exists c. }
  exists m'. split.
  { cbn [foldM]. rewrite Hstep by done. cbn [rbind]. rewrite Hf. do 2 f_equal. cbn [map].
    rewrite list_to_set_cons, (assoc_L (∪)). f_equal. by rewrite (comm_L (∪)). }
  split; [|split].
  - intros Hagree. apply Ha. intros id v. destruct (decide (rb_id rb = id)) as [<-|].
    + rewrite dget_dset_eq. by intros [= <-].
    + rewrite dget_dset_ne by done. apply Hagree.
  - intros id Hid. apply Hm. by apply dmem_dset_mono.
  - intros k rb' [->|Hin]%elem_of_cons Hrb; [|by eapply Hc].
    assert (rb' = rb) as -> by congruence. apply Hm. unfold dmem. by rewrite dget_dset_eq.
Qed.

Lemma accepted_fold_total (raws : list pydict) (lbs : list lblock) (m : gmap (Z * Z) pydict) :
  Forall2 (block_shape false true) raws lbs ->
  exists m', foldM (fun m b => let* k := block_key b in Ok (<[k := b]> m)) m raws = Ok m'.
Proof.
  intros Hs; revert m; induction Hs as [|raw b raws lbs Hb _ IH]; intros m; [by eexists|]. cbn [foldM].
  rewrite (block_key_shape _ _ _ _ Hb). cbn [rbind]. apply IH.
Qed.

Lemma filled_ready by_key summaries accepted old lbs new lbs' :
  Forall2 (block_shape false true) old lbs -> Forall2 (fun raw b => accepted !! (lkey b) = Some raw) old lbs ->
  Forall2 (block_shape true false) new lbs' -> Forall2 (fun b b' => filled by_key summaries [] b [] b') lbs lbs' ->
  (forall raw b, raw ∈ old -> block_shape false true raw b -> dict_wf (lb_original b) /\ body_ready b) ->
  Forall2 (fun raw' b => exists rb s, by_key !! lkey b = Some rb /\ dget summaries (rb_id rb) = Some s /\
    forall seen m, lkey b ∉ seen ->
      summary_step by_key (Some accepted) (seen, m) raw' = Ok ({[lkey b]} ∪ seen, dset m (rb_id rb) s)) new lbs.
Proof.
  intros Ho; revert new lbs'; induction Ho as [|raw b old lbs Hb Ho IH]; intros new lbs' Ha Hn Hf Hr.
  { inversion Hf; subst. inversion Hn; subst. constructor. }
  inversion Hf as [|? b' ? lb2 Hfb Hfs]; subst. inversion Hn as [|raw' ? new2 ? Hb' Hn']; subst.
  inversion Ha as [|? ? ? ? Hab Ha']; subst. destruct (Hr raw b) as [Hwf Hready]; [by left|done|].
  constructor; [|eapply IH; eauto; intros raw0 b0 Hin; apply Hr; by right].
  eapply summary_step_filled; eauto.
Qed.
End summary_facts.

Section summary_properties.
Context `{Host}.

(** Reading back a package that [fill_layered_summaries] completed, against the same
    accepted document, yields for every projection block the summary it was filled with,
    provided the whole-document block carries its body (as the normalised candidate's does). *)
Theorem layered_summary_map_fill accepted p summaries package :
  py_wf accepted = true ->
  fill_layered_summaries accepted p summaries = Ok package ->
  (forall d blocks raw b, accepted = PDict d -> layered_blocks d = Ok blocks -> raw ∈ blocks ->
     block_shape false true raw b -> body_ready b) ->
  exists m by_key,
    layered_summary_map (PDict package) p (Some accepted) = Ok m /\ projection_by_key p = Ok by_key /\
    (forall k b, by_key !! k = Some b -> exists s, dget m (rb_id b) = Some s /\ dget summaries (rb_id b) = Some s) /\
    forall id s, dget m id = Some s -> dget summaries id = Some s.
Proof.
  intros Hwf Hfill Hready. unfold fill_layered_summaries in Hfill.
  apply rbind_Ok in Hfill as (d & Hval & Hfill). apply rbind_Ok in Hfill as (blocks & Hblocks & Hfill).
  apply rbind_Ok in Hfill as (by_key & Hkey & Hfill). apply rbind_Ok in Hfill as ([seen done_] & Hfold & Hfill).
  apply rbind_Ok in Hfill as ([] & Hdom%ensure_Ok & [= <-]). apply bool_decide_eq_true in Hdom.
  pose proof (validate_layered_content_inv _ _ _ _ Hval) as (-> & meta & old & lbs & _ & Hlc & Hshape & Hg0).
  assert (blocks = old) as ->.
  { unfold layered_blocks, dsub in Hblocks. rewrite Hlc in Hblocks. cbn [rbind] in Hblocks. injection Hblocks as <-.
    clear. induction old; simpl; [done|by f_equal]. }
  destruct (fill_fold_Ok _ _ _ _ _ _ _ _ Hshape Hfold) as (Hnd & Hfresh & -> & new & lbs' & -> & Hnew & Hfs).
  cbn [app] in *.
  assert (existsb (fun b => lb_g b =? 0) lbs' = true) as Hg0'.
  { rewrite <-Hg0. clear -Hfs. induction Hfs as [|b b' l l' (?&?&?&?&?&?&?&?&Hg&?) _ IH]; [done|]. simpl. by rewrite Hg, IH. }
  pose proof (validate_layered_content_replace _ _ _ _ _ _ _ Hval Hnew Hg0') as Hval'. cbn zeta in Hval'.
  unfold layered_summary_map. rewrite Hval'. cbn [rbind]. rewrite Hval. cbn [rbind].
  unfold layered_blocks at 1. unfold dsub at 1. rewrite dget_dset_eq. cbn [rbind]. rewrite Hkey. cbn [rbind].
  assert (omap as_dict (map PDict new) = new) as -> by (clear; induction new; simpl; [done|by f_equal]).
  unfold accepted_by_key. rewrite Hblocks. cbn [rbind].
  destruct (accepted_fold_total old lbs ∅ Hshape) as (accepted & Hacc). rewrite Hacc. cbn [rbind].
  destruct (accepted_fold _ _ _ _ Hshape Hnd Hacc) as [Hlook _].
  assert (forall raw b, raw ∈ old -> block_shape false true raw b -> dict_wf (lb_original b) /\ body_ready b) as Hr.
  { intros raw b Hin Hb. split; [|by eapply Hready]. apply py_wf_dict.
    eapply py_wf_dget; [|exact (bs_original _ _ _ _ Hb)]. eapply py_wf_elem; [exact (py_wf_dget _ _ _ Hwf Hlc)|].
    apply list_elem_of_fmap. by exists raw. }
  pose proof (filled_ready _ _ _ _ _ _ _ Hshape Hlook Hnew Hfs Hr) as HF.
  destruct (summary_fold_filled _ _ _ _ _ ∅ [] HF Hnd Hfresh) as (m' & Hm & Ha & _ & Hc). rewrite Hm. cbn [rbind].
  rewrite bool_decide_true by done. cbn [ensure rbind]. exists m', by_key. split; [done|]. split; [done|].
  assert (forall id s, dget m' id = Some s -> dget summaries id = Some s) as Hagree by (apply Ha; done).
  split; [|done]. intros k b Hk.
  assert (k ∈ map lkey lbs) as Hin.
  { assert (k ∈ dom by_key) as Hd by (by apply elem_of_dom_2 in Hk). rewrite <-Hdom, (right_id_L ∅ (∪)) in Hd.
    by apply elem_of_list_to_set in Hd. }
  pose proof (Hc _ _ Hin Hk) as Hd. unfold dmem in Hd. destruct (dget m' (rb_id b)) as [s|] eqn:E; [|done].
  exists s. split; [done|]. by apply Hagree.
Qed.
End summary_properties.

(** ** Single-leaf structures are valid *)

Section single_leaf.
Context `{HL : HostLaws}.

Lemma text_digest_total s : encodable s -> exists d, text_digest s = Ok d /\ digestible (PStr d).
Proof.
  intros Hs. destruct (digestible_digest (obj [("text", PStr s)])) as (b & _ & Hd).
  { apply digestible_dict. repeat constructor; simpl; auto with mkb. }
  exists (sha256_hex b). split; [done|]. by eapply digestible_digest_str.
Qed.

Definition leaf_block (clean : ustr) (b : RetrievalBlock) : Prop :=
  0 <= rb_granularity b <= 2 /\ rb_refs b = [LEAF_ID] /\ text_digest (rb_text b) = Ok (rb_digest b) /\
  exists sp, rb_spans b = [sp] /\ start_byte sp < end_byte sp /\ span_text clean sp = Ok (rb_text b).

Lemma single_leaf_nodes gen art clean tree meta d :
  single_leaf_document gen art clean tree meta = Ok d ->
  exists enc dg st, utf8_encode clean = Ok enc /\ text_digest clean = Ok dg /\
    sd_nodes d = [root_node st; leaf_node (Z.of_nat (length enc)) dg] /\
    sd_generation d = gen /\ sd_clean_artifact d = art /\ sd_clean_digest d = dg /\ sd_root d = u "root" /\
    sd_context_meta d = meta.
Proof. unfold single_leaf_document. intros Hs. inv_res. by do 3 eexists. Qed.

Lemma check_leaf_blocks clean nodes ids blocks :
  LEAF_ID ∈ map node_id nodes -> Forall (leaf_block clean) blocks -> NoDup (map rb_id blocks) ->
  Forall (fun b => rb_id b ∉ ids) blocks -> is_ok (foldM (check_block clean nodes) ids blocks) = true.
Proof.
  intros Hleaf HF; revert ids; induction HF as [|b blocks (Hg & Hr & Hd & sp & Hsp & Hlt & Ht) HF IH]; intros ids Hnd Hids;
    [done|].
  simpl in Hnd. inversion_clear Hnd as [|? ? Hni Hnd']. inversion_clear Hids as [|? ? Hnb Hids'].
  cbn [foldM]. unfold check_block at 1. rewrite bool_decide_false by done. rewrite Hr, Hsp.
  replace (0 <=? rb_granularity b) with true by lia. replace (rb_granularity b <=? 2) with true by lia.
  cbn [negb andb length Nat.eqb ensure rbind forallb]. rewrite bool_decide_true by done.
  cbn [andb ensure rbind foldM piece_step].
  destruct (span_text_Ok _ _ _ Ht) as (enc & _ & Hb & _ & _).
  replace (-1 <=? start_byte sp) with true by lia. replace (start_byte sp <? end_byte sp) with true by lia.
  cbn [andb ensure rbind]. rewrite Ht. cbn [rbind app concat]. rewrite app_nil_r, Hd. cbn [rbind].
  rewrite !ueqb_refl. cbn [andb ensure rbind]. apply IH; [done|].
  rewrite Forall_forall in Hids' |- *. intros c Hc. apply not_elem_of_cons. split; [|by apply Hids'].
  intros Heq. apply Hni. rewrite <-Heq. by apply list_elem_of_fmap_2.
Qed.

Lemma full_span clean enc :
  utf8_encode clean = Ok enc -> span_text clean {| start_byte := 0; end_byte := Z.of_nat (length enc) |} = Ok clean.
Proof.
  intros He. unfold span_text. rewrite He. cbn [start_byte end_byte rbind].
  rewrite !Z.leb_refl. rewrite leb_0_nat.
  cbn [andb].
  cbn [ensure rbind]. rewrite Nat2Z.id. change (Z.to_nat 0) with 0%nat. rewrite slice_full.
  by rewrite (utf8_decode_encode _ _ He).
Qed.

Lemma single_leaf_valid gen art clean tree meta d dd proj blocks proof req :
  single_leaf_document gen art clean tree meta = Ok d -> structure_document_digest d = Ok dd ->
  blank clean = false -> proj <> gen -> Forall (leaf_block clean) blocks -> NoDup (map rb_id blocks) ->
  same_set (map rb_granularity blocks) req = true ->
  existsb (fun b => (rb_granularity b =? 0) && negb (blank (rb_text b))) blocks = true ->
  validate_structure d (Build_RetrievalBlockProjection proj gen dd blocks proof) clean req = Ok tt.
Proof.
  intros Hd Hdd Hbl Hne Hblocks Hnd Hset Hg0.
  apply single_leaf_nodes in Hd as (enc & dg & st & Henc & Hdg & Hnodes & Hgen & _ & Hcd & Hroot & _).
  unfold validate_structure. rewrite Hdg. cbn [rbind rp_structure_generation rp_generation rp_structure_digest rp_blocks].
  rewrite Hcd, Hgen, !ueqb_refl. cbn [ensure rbind]. rewrite ueqb_ne by done. cbn [negb andb ensure rbind].
  rewrite Hdd. cbn [rbind]. rewrite ueqb_refl. cbn [ensure rbind]. unfold check_root. rewrite Hnodes, Hroot.
  set (n0 := root_node st). set (n1 := leaf_node (Z.of_nat (length enc)) dg).
  change (filter (fun n => parent_node_id n = None) [n0; n1]) with [n0]. cbn [node_id node_kind n0 root_node].
  rewrite !ueqb_refl. cbn [andb ensure rbind].
  replace (bool_decide (NoDup (map node_id [n0; n1]))) with true by (by vm_compute).
  replace (forallb (fun n => bool_decide (node_kind n ∈ NODE_KINDS)) [n0; n1]) with true by (by vm_compute).
  replace (bool_decide (map reading_ordinal [n0; n1] = zrange (length [n0; n1]))) with true by (by vm_compute).
  replace (forM (check_parent [n0; n1]) [n0; n1]) with (Ok tt : result unit) by (by vm_compute).
  replace (forM (check_siblings [n0; n1]) [n0; n1]) with (Ok tt : result unit) by (by vm_compute).
  cbn [ensure rbind].
  change (List.filter (is_leaf [n0; n1]) [n0; n1]) with [n1]. cbn [mapM]. unfold leaf_span at 1.
  change (ueqb (content_role n1) (u "content")) with true. cbn [n1 leaf_node source_anchor content_digest].
  rewrite (full_span _ _ Henc). cbn [rbind]. rewrite Hdg. cbn [rbind].
  rewrite bool_decide_true by done. cbn [ensure rbind]. cbn [omap list_omap id foldM]. unfold cover_step at 1.
  rewrite (full_span _ _ Henc). cbn [rbind start_byte end_byte].
  assert (0 < Z.of_nat (length enc)) as Hpos.
  { pose proof (utf8_encode_length _ _ Henc). pose proof (blank_length _ Hbl). lia. }
  rewrite Z.eqb_refl. rewrite (ltb_intro _ _ Hpos). cbn [andb ensure rbind].
  rewrite Henc. cbn [rbind length]. rewrite Z.eqb_refl.
  cbn [Nat.eqb negb andb ensure rbind].
  pose proof (check_leaf_blocks clean [n0; n1] [] blocks ltac:(right; left) Hblocks Hnd) as Hc.
  destruct (foldM (check_block clean [n0; n1]) [] blocks) as [ids|e] eqn:Ef.
  - cbn [rbind]. rewrite Hset, Hg0. done.
  - discriminate Hc. apply Forall_true. intros b. apply not_elem_of_nil.
Qed.
End single_leaf.

(** ** The sentence projection *)

Section sentence_facts.

Lemma sentence_len_le t : (sentence_len t <= length t)%nat.
Proof. induction t as [|c t IH]; simpl; [lia|]. destruct (closing_mark c && _); [lia|]. destruct ((c =? 10) && _); lia. Qed.

(** Ranges in order, disjoint, starting at or after [lo], ending at or before [hi]. *)
Inductive ordered_ranges : nat -> list (nat * nat) -> nat -> Prop :=
| or_nil lo hi : (lo <= hi)%nat -> ordered_ranges lo [] hi
| or_cons lo i j l hi : (lo <= i < j)%nat -> ordered_ranges j l hi -> ordered_ranges lo ((i, j) :: l) hi.

Lemma ordered_ranges_weaken lo lo' l hi : (lo' <= lo)%nat -> ordered_ranges lo l hi -> ordered_ranges lo' l hi.
Proof. intros Hle Ho. inversion Ho; subst; constructor; try lia; done. Qed.

Lemma ordered_ranges_le lo l hi : ordered_ranges lo l hi -> (lo <= hi)%nat.
Proof. induction 1; lia. Qed.

Lemma sentences_ordered s pos skip :
  (skip <= length s)%nat -> ordered_ranges (pos + skip) (sentences s pos skip) (pos + length s).
Proof.
  revert pos skip; induction s as [|c s IH]; intros pos skip Hs; simpl in *; [constructor; lia|].
  replace (pos + S (length s))%nat with (S pos + length s)%nat by lia.
  destruct skip as [|k].
  - destruct (isspace c).
    + apply (ordered_ranges_weaken (S pos + 0)); [lia|]. apply IH. lia.
    + pose proof (sentence_len_le s). constructor; [lia|].
      replace (pos + S (sentence_len s))%nat with (S pos + sentence_len s)%nat by lia. by apply IH.
  - replace (pos + S k)%nat with (S pos + k)%nat by lia. apply IH. lia.
Qed.

(** Every character that is no white space, after the skipped ones, is in a sentence. *)
Lemma sentences_cover s pos skip k c :
  s !! k = Some c -> isspace c = false -> (skip <= k)%nat ->
  exists i j, (i, j) ∈ sentences s pos skip /\ (i <= pos + k < j)%nat.
Proof.
  revert pos skip k; induction s as [|d s IH]; intros pos skip [|k] Hk Hc Hsk; simpl in Hk; try done.
  - injection Hk as ->. assert (skip = 0%nat) as -> by lia. simpl. rewrite Hc.
    exists pos, (pos + S (sentence_len s))%nat. split; [left|lia].
  - cbn [sentences]. destruct skip as [|sk].
    + destruct (isspace d) eqn:Ed.
      * destruct (IH (S pos) 0%nat k Hk Hc ltac:(lia)) as (i & j & Hin & Hb). exists i, j. split; [done|lia].
      * destruct (decide (k < sentence_len s)%nat) as [Hlt|Hge].
        -- exists pos, (pos + S (sentence_len s))%nat. split; [left|lia].
        -- destruct (IH (S pos) (sentence_len s) k Hk Hc ltac:(lia)) as (i & j & Hin & Hb).
           exists i, j. split; [by right|lia].
    + destruct (IH (S pos) sk k Hk Hc ltac:(lia)) as (i & j & Hin & Hb). exists i, j. split; [done|lia].
Qed.

Lemma sentences_nonblank s i j : (i, j) ∈ sentences s 0 0 -> blank (slice i j s) = false.
Proof.
  enough (forall t pos skip pre, s = pre ++ t -> length pre = pos -> (i, j) ∈ sentences t pos skip ->
    exists c, s !! i = Some c /\ isspace c = false /\ (i < j)%nat) as Hgen.
  { intros Hin. destruct (Hgen s 0%nat 0%nat [] eq_refl eq_refl Hin) as (c & Hc & Hsp & Hlt).
    destruct (blank (slice i j s)) eqn:E; [|done]. apply blank_spec in E. rewrite Forall_forall in E.
    rewrite (E c) in Hsp; [done|]. apply (list_elem_of_lookup_2 _ 0%nat). unfold slice.
    rewrite lookup_take_lt by lia. rewrite lookup_drop. by rewrite Nat.add_0_r. }
  intros t; induction t as [|c t IH]; intros pos skip pre Hs Hp Hin; simpl in Hin; [by apply elem_of_nil in Hin|].
  assert (s = (pre ++ [c]) ++ t /\ length (pre ++ [c]) = S pos) as [Hs' Hp'].
  { rewrite <-app_assoc. split; [done|]. rewrite length_app. simpl. lia. }
  destruct skip as [|k]; [|by eapply IH].
  destruct (isspace c) eqn:Ec; [by eapply IH|].
  apply elem_of_cons in Hin as [[= -> ->]|Hin]; [|by eapply IH].
  exists c. split; [|split; [done|lia]]. rewrite Hs. rewrite lookup_app_r by lia. by rewrite Hp, Nat.sub_diag.
Qed.

Lemma ordered_ranges_in lo l hi i j : ordered_ranges lo l hi -> (i, j) ∈ l -> (lo <= i < j)%nat /\ (j <= hi)%nat.
Proof.
  induction 1 as [|lo i' j' l hi Hb Ho IH]; intros Hin; [by apply elem_of_nil in Hin|].
  apply elem_of_cons in Hin as [[= -> ->]|Hin]; [split; [lia|by eapply ordered_ranges_le]|].
  destruct (IH Hin). lia.
Qed.
End sentence_facts.

(** Digestibility of a literal payload, leaf by leaf. *)
Ltac digestible_tac :=
  repeat match goal with
  | |- digestible (obj _) => unfold obj; cbn [map fst snd]
  | |- digestible (PDict _) => apply digestible_dict
  | |- digestible (PList _) => apply digestible_list
  | |- digestible (PTuple _) => apply digestible_tuple
  | |- Forall _ (_ :: _) => apply Forall_cons_2
  | |- Forall _ [] => apply Forall_nil_2
  | |- _ /\ _ => split; cbn [fst snd]
  | |- _ => solve [auto with mkb]
  end.

Section structurize_facts.
Context `{HL : HostLaws}.

Lemma byte_offset_total s i : encodable s -> exists z, byte_offset s i = Ok z.
Proof.
  intros [b Hb]. destruct (utf8_encode_take _ _ i Hb) as [bi Hi]. unfold byte_offset. rewrite Hi. by eexists.
Qed.

Lemma byte_offset_lt s i j a b :
  (i < j)%nat -> (j <= length s)%nat -> byte_offset s i = Ok a -> byte_offset s j = Ok b -> a < b.
Proof.
  intros Hij Hj (bi & Hi & ->)%byte_offset_Ok (bj & Hjj & ->)%byte_offset_Ok.
  rewrite <-(take_drop i (take j s)), take_take, Nat.min_l in Hjj by lia.
  apply utf8_encode_app_inv in Hjj as (b1 & b2 & H1 & H2 & ->).
  assert (b1 = bi) as -> by congruence. rewrite length_app. apply utf8_encode_length in H2.
  rewrite length_drop, length_take in H2. lia.
Qed.

Lemma simple_block_leaf clean id g sp text :
  0 <= g <= 2 -> encodable text -> start_byte sp < end_byte sp -> span_text clean sp = Ok text ->
  exists b, simple_block id g LEAF_ID sp text = Ok b /\
    (leaf_block clean b /\ rb_id b = id /\ rb_granularity b = g /\ rb_text b = text).
Proof.
  intros Hg Ht Hlt Hsp. unfold simple_block. destruct (text_digest_total _ Ht) as (d & Hd & _). rewrite Hd. cbn [rbind].
  eexists. split; [done|]. split; [|done]. split; [done|]. split; [done|]. split; [done|]. by exists sp.
Qed.

Definition g2_id (n : nat) : ustr := u "g2:" ++ dec04 (Z.of_nat n).

Lemma sentence_block_leaf clean n i j :
  encodable clean -> (i < j)%nat -> (j <= length clean)%nat ->
  exists b, sentence_block clean LEAF_ID (n, (i, j)) = Ok b /\
    (leaf_block clean b /\ rb_id b = g2_id n /\ rb_granularity b = 2 /\ rb_text b = slice i j clean).
Proof.
  intros He Hij Hj. unfold sentence_block. destruct (byte_offset_total clean i He) as (s & Hs).
  destruct (byte_offset_total clean j He) as (e & Hee). rewrite Hs, Hee. cbn [rbind].
  destruct (span_text_offsets clean i j s e ltac:(lia) Hj) as [Hspan _]; try done.
  { destruct He as [b ->]. done. }
  apply simple_block_leaf; [lia|by apply encodable_slice|by eapply byte_offset_lt|done].
Qed.

Lemma g2_ids_NoDup ns : NoDup ns -> NoDup (map g2_id ns).
Proof.
  intros Hn. apply NoDup_fmap_2_strong; [|done]. intros a b _ _ Heq. unfold g2_id in Heq.
  apply app_inv_head, dec04_inj in Heq; lia.
Qed.

Lemma sentence_blocks_fields clean ps bs :
  Forall2 (fun p b => leaf_block clean b /\ rb_id b = g2_id p.1 /\ rb_granularity b = 2 /\
                      rb_text b = slice p.2.1 p.2.2 clean) ps bs ->
  map rb_id bs = map g2_id ps.*1 /\ map rb_text bs = map (fun r => slice r.1 r.2 clean) ps.*2 /\
  Forall (leaf_block clean) bs /\ Forall (fun b => rb_granularity b = 2) bs.
Proof.
  induction 1 as [|p b ps bs (? & Hi & ? & Ht) _ (IH1 & IH2 & IH3 & IH4)]; [done|].
  cbn [map fmap list_fmap]. rewrite Hi, Ht, IH1, IH2. repeat split; by constructor.
Qed.

Lemma sentences_nonempty clean : blank clean = false -> sentences clean 0 0 <> [].
Proof.
  intros Hbl Hnil. assert (blank clean = true) as Hb; [|congruence].
  apply blank_spec, Forall_lookup. intros k c Hk. destruct (isspace c) eqn:Ec; [done|].
  destruct (sentences_cover clean 0 0 k c Hk Ec ltac:(lia)) as (i & j & Hin & _).
  rewrite Hnil in Hin. by apply elem_of_nil in Hin.
Qed.

Lemma project_blocks_total clean :
  encodable clean -> blank clean = false ->
  exists blocks, project_blocks clean LEAF_ID = Ok blocks /\ Forall (leaf_block clean) blocks /\
    Forall (fun b => encodable (rb_id b)) blocks /\ NoDup (map rb_id blocks) /\
    same_set (map rb_granularity blocks) [0; 1; 2] = true /\
    existsb (fun b => (rb_granularity b =? 0) && negb (blank (rb_text b))) blocks = true /\
    map rb_text blocks = clean :: clean :: map (fun r => slice r.1 r.2 clean) (sentences clean 0 0).
Proof.
  intros He Hbl. pose proof He as [enc Henc].
  assert (0 < Z.of_nat (length enc)) as Hpos.
  { pose proof (utf8_encode_length _ _ Henc). pose proof (blank_length _ Hbl). lia. }
  unfold project_blocks. rewrite Henc. cbn [rbind].
  set (full := {| start_byte := 0; end_byte := Z.of_nat (length enc) |}).
  destruct (simple_block_leaf clean (u "g0:document") 0 full clean) as (b0 & -> & Hb0 & Hi0 & Hg0 & Ht0); try done.
  { by apply full_span. }
  destruct (simple_block_leaf clean (u "g1:document") 1 full clean) as (b1 & -> & Hb1 & Hi1 & Hg1 & Ht1); try done.
  { by apply full_span. }
  cbn [rbind].
  pose proof (sentences_ordered clean 0 0 (Nat.le_0_l _)) as Hord. cbn [Nat.add] in Hord.
  assert (List.filter (fun r => negb (blank (slice r.1 r.2 clean))) (sentences clean 0 0) = sentences clean 0 0) as ->.
  { assert (forall l : list (nat * nat), (forall i j, (i, j) ∈ l -> blank (slice i j clean) = false) ->
      List.filter (fun r => negb (blank (slice r.1 r.2 clean))) l = l) as Hid.
    { induction l as [|[i j] l IH]; intros Hl; [done|]. simpl. rewrite (Hl i j) by left. simpl. f_equal. apply IH.
      intros; apply Hl; by right. }
    apply Hid. intros i j Hin. by apply sentences_nonblank. }
  destruct (mapM_total (fun p b => leaf_block clean b /\ rb_id b = g2_id p.1 /\ rb_granularity b = 2 /\
              rb_text b = slice p.2.1 p.2.2 clean)
              (sentence_block clean LEAF_ID) (enumerate_from 0 (sentences clean 0 0))) as (bs & Hbs & HF).
  { intros [n [i j]] Hin. apply sentence_block_leaf; [done|..].
    all: assert ((i, j) ∈ sentences clean 0 0) as Hin' by (rewrite <-(enumerate_from_snd 0); apply list_elem_of_fmap; by exists (n, (i, j))).
    all: destruct (ordered_ranges_in _ _ _ _ _ Hord Hin'); simpl; lia. }
  rewrite Hbs. cbn [rbind].
  apply sentence_blocks_fields in HF as (Hids & Htexts & Hleaf & Hgs).
  rewrite enumerate_from_fst in Hids. rewrite enumerate_from_snd in Htexts.
  destruct bs as [|b2 bs].
  { exfalso. apply (sentences_nonempty _ Hbl). symmetry in Htexts. by apply map_eq_nil in Htexts. }
  eexists. split; [done|]. split; [by repeat (constructor; [done|])|].
  split; [|split; [|split; [|split]]].
  - constructor; [rewrite Hi0; apply encodable_u|]. constructor; [rewrite Hi1; apply encodable_u|].
    apply Forall_forall. intros b Hb. assert (rb_id b ∈ map rb_id (b2 :: bs)) as Hid by (by apply list_elem_of_fmap_2).
    rewrite Hids in Hid. apply list_elem_of_fmap in Hid as (n & -> & _). apply encodable_app; [apply encodable_u|].
    apply encodable_digits, dec04_spec. lia.
  - change (NoDup (rb_id b0 :: rb_id b1 :: map rb_id (b2 :: bs))). rewrite Hids, Hi0, Hi1.
    assert (forall x, u "g2:" <> take 3 (u x) -> u x ∉ map g2_id (seq 0 (length (sentences clean 0 0)))) as Hx.
    { intros x Hne (n & Heq & _)%list_elem_of_fmap. apply Hne. rewrite Heq. unfold g2_id. by rewrite take_app_length'. }
    constructor; [apply not_elem_of_cons; split; [ukey_ne|apply Hx; ukey_ne]|].
    constructor; [apply Hx; ukey_ne|]. apply g2_ids_NoDup, NoDup_seq.
  - inversion Hgs as [|? ? Hg2 Hgs']; subst. unfold same_set. cbn [map]. rewrite Hg0, Hg1, Hg2.
    apply andb_true_iff. split; apply forallb_forall; intros g Hin; apply bool_decide_eq_true.
    + apply list_elem_of_In in Hin. repeat (apply elem_of_cons in Hin as [->|Hin]; [set_solver|]).
      apply list_elem_of_fmap in Hin as (b & -> & Hb). rewrite Forall_forall in Hgs'. rewrite (Hgs' b Hb). set_solver.
    + apply list_elem_of_In in Hin. set_solver.
  - cbn [existsb]. rewrite Hg0, Ht0, Hbl. done.
  - change (rb_text b0 :: rb_text b1 :: map rb_text (b2 :: bs) = clean :: clean :: map (fun r => slice r.1 r.2 clean) (sentences clean 0 0)).
    by rewrite Ht0, Ht1, Htexts.
Qed.

Lemma single_leaf_total gen art clean tree meta :
  encodable clean -> exists d, single_leaf_document gen art clean tree meta = Ok d.
Proof.
  intros He. unfold single_leaf_document. destruct (text_digest_total _ He) as (dg & -> & Hdg). cbn [rbind].
  destruct He as [enc ->]. cbn [rbind].
  destruct (digestible_digest (obj [("children", PList [PStr dg])])) as (b & _ & ->); [digestible_tac|].
  cbn [rbind].
  match goal with |- context [stable_digest ?v] => destruct (digestible_digest v) as (b' & _ & ->) end; [|by eexists].
  unfold LEAF_ID. digestible_tac.
Qed.

Lemma single_leaf_digest gen art clean tree d :
  encodable gen -> encodable art -> single_leaf_document gen art clean tree [] = Ok d ->
  exists dd, structure_document_digest d = Ok dd /\ digestible (PStr dd).
Proof.
  intros Hg Ha Hd. pose proof Hd as Hd'. unfold single_leaf_document in Hd'. inv_res.
  match goal with H1 : text_digest _ = Ok _, H2 : stable_digest _ = Ok ?a, H3 : stable_digest _ = Ok ?b |- _ =>
    apply digestible_digest_str in H1, H2, H3 end.
  unfold structure_document_digest.
  match goal with |- context [stable_digest ?v] => destruct (digestible_digest v) as (b & _ & Hb) end.
  { unfold structure_digest_value, with_context_meta, fields. cbn [map fst snd sd_generation sd_clean_artifact
      sd_clean_digest sd_root sd_nodes sd_proof sd_context_meta].
    cbn. unfold node_digest_value. cbn. unfold LEAF_ID, span_pair. digestible_tac. }
  rewrite Hb. eexists. split; [done|]. by eapply digestible_digest_str.
Qed.
End structurize_facts.

Section structurize_properties.
Context `{HL : HostLaws}.

(** [structurize] is total on what it means to accept: for a non-blank text without lone
    surrogates, usable and distinct identities and the right (or no) digest it returns, its
    own validation included; the projection holds the whole text at granularities 0 and 1
    and then the sentences, which are disjoint ranges in order that together contain every
    character that is no white space. *)
Theorem structurize_total clean gen projection art cd :
  encodable clean -> encodable gen -> encodable art -> blank clean = false ->
  gen <> [] -> art <> [] ->
  or_default projection (gen ++ u ":projection") <> gen ->
  (forall c, cd = Some c -> text_digest clean = Ok c) ->
  exists d p,
    structurize clean gen projection art cd = Ok (d, p) /\
    map rb_text (rp_blocks p) = clean :: clean :: map (fun r => slice r.1 r.2 clean) (sentences clean 0 0) /\
    ordered_ranges 0 (sentences clean 0 0) (length clean) /\
    forall k c, clean !! k = Some c -> isspace c = false ->
      exists i j, (i, j) ∈ sentences clean 0 0 /\ (i <= k < j)%nat.
Proof.
  intros He Hge Hae Hbl Hg Ha Hp Hcd. unfold structurize. rewrite Hbl. cbn [negb ensure rbind].
  set (proj := or_default projection (gen ++ u ":projection")) in *.
  assert (proj <> []) as Hpn.
  { subst proj. unfold or_default. destruct projection as [s|]; [|by destruct gen].
    destruct (ueqb s []) eqn:E; [by destruct gen|]. intros ->. by rewrite ueqb_refl in E. }
  rewrite !ueqb_ne by done. cbn [negb andb ensure rbind].
  destruct (text_digest_total _ He) as (dg & Hdg & Hdgd). rewrite Hdg. cbn [rbind].
  assert (match cd with Some c => ueqb c dg | None => true end = true) as ->.
  { destruct cd as [c|]; [|done]. specialize (Hcd c eq_refl). rewrite Hdg in Hcd. injection Hcd as <-. apply ueqb_refl. }
  cbn [ensure rbind].
  destruct (single_leaf_total gen art clean "single-root" [] He) as (d & Hd). rewrite Hd. cbn [rbind].
  destruct (project_blocks_total _ He Hbl) as (blocks & Hb & Hleaf & Hids & Hnd & Hset & Hg0 & Htexts). rewrite Hb. cbn [rbind].
  destruct (single_leaf_digest _ _ _ _ _ Hge Hae Hd) as (dd & Hdd & _). rewrite Hdd. cbn [rbind].
  match goal with |- context [stable_digest ?v] => destruct (digestible_digest v) as (proof & _ & ->) end.
  { digestible_tac. apply Forall_map, Forall_forall. intros b Hin. rewrite Forall_forall in Hleaf, Hids.
    destruct (Hleaf b Hin) as (_ & _ & Hbd & _). apply digestible_digest_str in Hbd. specialize (Hids b Hin).
    cbn. digestible_tac. }
  cbn [rbind]. rewrite (single_leaf_valid _ _ _ _ _ _ _ _ _ _ _ Hd Hdd Hbl Hp Hleaf Hnd Hset Hg0). cbn [rbind].
  eexists _, _. split; [done|]. split; [done|].
  split; [exact (sentences_ordered clean 0 0 (Nat.le_0_l _))|].
  intros k c Hk Hc. exact (sentences_cover clean 0 0 k c Hk Hc (Nat.le_0_l _)).
Qed.
End structurize_properties.

(** ** Witnesses *)

Module AdoptSamples.
#[local] Existing Instance test_host.
Definition clean : ustr := u "First part. Second part.".
Definition channel_value (body : pyval) : pyval := obj [("title", PNone); ("body", body)].
Definition block (id g : Z) (body : pyval) : pyval :=
  obj [("block_id", PInt id); ("granularity", PInt g); ("original_content", channel_value body);
       ("llm_summary", channel_value PNone)].
Definition candidate : pyval :=
  obj [("context_meta", obj []);
       ("layered_content", PList [block 2 1 (PStr (u "Second part.")); block 0 0 PNone; block 1 1 (PStr (u "First part."))])].
Definition accepted : pyval :=
  match normalize_layered_candidate clean candidate (Some [0; 1]) with Ok d => PDict d | Err _ => PNone end.
Definition adopted := adopt_layered_json_with_report clean candidate (u "g") None (u "c") None (Some [0; 1]).
Definition empty_projection := Build_RetrievalBlockProjection [] [] [] [] [].
Definition empty_document := Build_StructureDocument [] [] [] [] [] [] [].
Definition structure : StructureDocument := match adopted with Ok (d, _, _) => d | Err _ => empty_document end.
Definition projection : RetrievalBlockProjection := match adopted with Ok (_, p, _) => p | Err _ => empty_projection end.
Definition report : pyval := match adopted with Ok (_, _, r) => r | Err _ => PNone end.
Definition summaries : pydict := map (fun b => (rb_id b, PStr (u "s" ++ rb_id b))) (rp_blocks projection).
Definition package : pydict :=
  match fill_layered_summaries accepted projection summaries with Ok d => d | Err _ => [] end.
End AdoptSamples.

Lemma adopt_layered_json_anchors_witness :
  map rb_text (rp_blocks AdoptSamples.projection) = [AdoptSamples.clean; u "First part."; u "Second part."] /\
  exists declared, validate_structure (H := test_host) AdoptSamples.structure AdoptSamples.projection AdoptSamples.clean declared = Ok tt.
Proof.
  split; [vm_compute; reflexivity|].
  destruct (adopt_layered_json_anchors (H := test_host) AdoptSamples.clean AdoptSamples.candidate (u "g") None (u "c") None
              (Some [0; 1]) AdoptSamples.structure AdoptSamples.projection AdoptSamples.report ltac:(vm_compute; reflexivity))
    as (declared & _ & _ & _ & _ & _ & _ & _ & _ & _ & _ & _ & _ & _ & Hv).
  exists declared. exact Hv.
Defined.

Lemma layered_summary_map_fill_witness :
  exists m by_key,
    layered_summary_map (H := test_host) (PDict AdoptSamples.package) AdoptSamples.projection (Some AdoptSamples.accepted) = Ok m /\
    projection_by_key (H := test_host) AdoptSamples.projection = Ok by_key /\
    py_eqb (PDict m) (PDict AdoptSamples.summaries) = true.
Proof.
  destruct (layered_summary_map_fill (H := test_host) AdoptSamples.accepted AdoptSamples.projection AdoptSamples.summaries
              AdoptSamples.package ltac:(vm_compute; reflexivity) ltac:(vm_compute; reflexivity)) as (m & by_key & Hm & Hk & _).
  - intros d blocks raw b Ha Hb Hin Hs _. vm_compute in Ha. injection Ha as <-. vm_compute in Hb. injection Hb as <-.
    pose proof (cs_body _ _ _ (bs_original_shape _ _ _ _ Hs)) as Hbody. pose proof (bs_original _ _ _ _ Hs) as Ho.
    destruct b as [bid g o t bd sm st sb]. cbn [lb_original lb_body] in *.
    repeat (apply elem_of_cons in Hin; destruct Hin as [Hin|Hin]; [subst raw; vm_compute in Ho; injection Ho as Ho;
      subst o; vm_compute in Hbody; injection Hbody as Hbody; subst bd; vm_compute; reflexivity|]).
    by apply elem_of_nil in Hin.
  - exists m, by_key. split; [exact Hm|]. split; [exact Hk|]. vm_compute in Hm. injection Hm as <-. vm_compute. reflexivity.
Defined.

Lemma structurize_total_witness :
  exists d p, structurize (H := test_host) (u "One. Two?") (u "g") None (u "c") None = Ok (d, p) /\
    map rb_text (rp_blocks p) = [u "One. Two?"; u "One. Two?"; u "One."; u "Two?"].
Proof.
  destruct (structurize_total (HL := test_host_laws) (u "One. Two?") (u "g") None (u "c") None
    (encodable_u _) (encodable_u _) (encodable_u _) ltac:(vm_compute; reflexivity) ltac:(ukey_ne) ltac:(ukey_ne)
    ltac:(ukey_ne) ltac:(done)) as (d & p & Hs & Ht & _).
  exists d, p. split; [exact Hs|]. rewrite Ht. vm_compute. reflexivity.
Defined.
