(* ===== verification/CompilerConstruct.v ===== *)
(** * The LS-RAG compiler: construction, vectorization plan, leaf services

    Model of [src/services/lsrag_compiler/construct.py] and of the two leaf services over
    the kernel, [src/services/lsrag_structurize/] and [src/services/lsrag_construct/]:
    construction pairs every projection block with its summary, the vectorization plan
    selects the channels to embed, and the services bind inputs, admit them and re-prove
    stored bytes. *)

From S2P Require Import Prelude PyText PyValue LayeredContent CompilerIR CompilerValidate CompilerAdopt.

Open Scope Z_scope.
Open Scope mkb_scope.

Import LayeredContent.

Section construct.
Context `{Host}.

(** The unit of one projection block. *)
Definition construct_unit (structure : StructureDocument) (projection : RetrievalBlockProjection)
    (summaries : pydict) (headers : option pydict) (recipe : ustr) (b : RetrievalBlock) : result ConstructionUnit :=
  let summary := default PNone (dget summaries (rb_id b)) in
  match summary with
  | PStr summary =>
      check negb (blank summary) else fail422 "CONSTRUCT_KERNEL_SUMMARY_INCOMPLETE" ;;
      let coordinate := sd_generation structure ++ u ":" ++ rp_generation projection ++ u ":" ++ rb_id b in
      let* original_full := content_full (rb_text b) headers recipe in
      let* summary_full := content_full summary headers recipe in
      let* original_full_digest := text_digest original_full in
      let* summary_digest := text_digest summary in
      let* summary_full_digest := text_digest summary_full in
      Ok (Build_ConstructionUnit (rb_id b) (rb_granularity b) coordinate
            (Build_ChannelRecord (u "original") (rb_text b) (rb_digest b) original_full original_full_digest coordinate
               (if rb_granularity b =? 0 then u "native_full" else u "reattached"))
            (Build_ChannelRecord (u "summary") summary summary_digest summary_full summary_full_digest coordinate
               (u "not_applicable")))
  | _ => Err (fail422 "CONSTRUCT_KERNEL_SUMMARY_INCOMPLETE")
  end.

(** [frozenset(...)] of the profile or, when it is absent or empty, of the projection. *)
Definition expected_granularities (p : RetrievalBlockProjection) (required : option (list Z)) : list Z :=
  match required with None | Some [] => map rb_granularity (rp_blocks p) | Some l => l end.

Definition sorted_headers (headers : option pydict) : pydict :=
  py_sorted (fun p q => str_le p.1 q.1) (match headers with Some h => h | None => [] end).

Definition construct (structure : StructureDocument) (projection : RetrievalBlockProjection) (clean_text : ustr)
    (construction_uuid : ustr) (dual_uuid : option ustr) (summaries : pydict) (headers : option pydict) (recipe : ustr)
    (required : option (list Z)) : result (ConstructionDocument * DualChannelProjection) :=
  let* _ := validate_structure structure projection clean_text (expected_granularities projection required) in
  let dual_uuid := or_default dual_uuid (construction_uuid ++ u ":dual") in
  check negb (ueqb construction_uuid []) && negb (ueqb dual_uuid []) else fail422 "CONSTRUCT_BINDING_INVALID" ;;
  check negb (ueqb dual_uuid construction_uuid) else fail422 "CONSTRUCT_BINDING_INVALID" ;;
  let* units := mapM (construct_unit structure projection summaries headers recipe) (rp_blocks projection) in
  let* metadata_digest := stable_digest (PDict (sorted_headers headers)) in
  let* sd := structure_document_digest structure in
  let* pd := projection_digest projection in
  let* proof := stable_digest
    (obj [("alignment", PList (map (fun c => PTuple [PStr (cu_id c); PStr (cu_coordinate c)]) units));
          ("full_valid", PBool true); ("g0", PBool true)]) in
  let document := Build_ConstructionDocument construction_uuid (sd_generation structure) (rp_generation projection)
                    sd pd units metadata_digest recipe proof in
  let* dd := construction_document_digest document in
  let* dual_proof := stable_digest
    (obj [("units", PList (map (fun c => PTuple [PStr (cu_id c); PStr (ch_content_full_digest (cu_original c));
                                                PStr (ch_content_full_digest (cu_summary c))]) units))]) in
  let dual := Build_DualChannelProjection dual_uuid construction_uuid dd units dual_proof in
  let* _ := validate_construction document dual headers in
  Ok (document, dual).

(** ** The vectorization plan *)

Definition vector_le (a b : VectorizationUnit) : bool :=
  (vu_granularity a <? vu_granularity b)
  || ((vu_granularity a =? vu_granularity b)
      && (if ueqb (vu_id a) (vu_id b) then str_le (vu_channel a) (vu_channel b) else str_le (vu_id a) (vu_id b))).

Record plan_state := { ps_required : list VectorizationUnit; ps_skipped : list ustr; ps_g0 : bool }.

(** One channel of one unit. *)
Definition plan_channel (recipe : ustr) (headers : option pydict) (budget : Z) (st : plan_state)
    (uc : ConstructionUnit * ChannelRecord) : result plan_state :=
  let '(c, channel) := uc in
  let* recomputed := content_full (ch_body channel) headers recipe in
  let* dg := text_digest recomputed in
  check ueqb (ch_content_full_digest channel) dg && ueqb (ch_content_full channel) recomputed
        else fail422 "VECTORIZE_CONTENT_MISMATCH" ;;
  if (cu_granularity c =? 0) && ueqb (ch_channel channel) (u "original") then
    Ok {| ps_required := ps_required st; ps_skipped := ps_skipped st;
          ps_g0 := ps_g0 st || (negb (blank recomputed) && reattached (cu_original c)) |}
  else if blank recomputed then
    Ok {| ps_required := ps_required st; ps_skipped := ps_skipped st ++ [cu_id c ++ u ":" ++ ch_channel channel];
          ps_g0 := ps_g0 st |}
  else
    let* encoded := utf8_encode recomputed in
    check Z.of_nat (length encoded) <=? budget else fail422 "VECTORIZE_BUDGET_CONTENT_FULL" ;;
    Ok {| ps_required := ps_required st ++
            [Build_VectorizationUnit (cu_id c) (cu_granularity c) (ch_channel channel) (cu_coordinate c) recomputed dg];
          ps_skipped := ps_skipped st; ps_g0 := ps_g0 st |}.

Definition unit_channels (c : ConstructionUnit) : list (ConstructionUnit * ChannelRecord) :=
  [(c, cu_original c); (c, cu_summary c)].

Definition g0_summary (v : VectorizationUnit) : bool :=
  (vu_granularity v =? 0) && ueqb (vu_channel v) (u "summary") && negb (blank (vu_content_full v)).

Definition vectorization_plan (document : ConstructionDocument) (dual : DualChannelProjection)
    (headers : option pydict) (budget : Z) : result VectorizationPlan :=
  let* _ := validate_construction document dual headers in
  check 1 <=? budget else fail422 "VECTORIZE_BUDGET_INVALID" ;;
  let* st := foldM (plan_channel (cd_recipe document) headers budget) (Build_plan_state [] [] false)
               (concat (map unit_channels (du_units dual))) in
  let required := py_sorted vector_le (ps_required st) in
  check ps_g0 st else fail422 "ORIGINAL_NOT_REATTACHED" ;;
  check existsb g0_summary required else fail422 "G0_SUMMARY_REQUIRED" ;;
  let* dg := stable_digest (PList (map (fun v => PStr (vu_digest v)) required)) in
  Ok (Build_VectorizationPlan required (py_sorted str_le (ps_skipped st)) dg).

(** ** Leaf services *)

Record StructurizeBinding := {
  sb_clean_text : ustr;
  sb_clean_artifact : ustr;
  sb_clean_digest : ustr;
  sb_candidate : pyval;
  sb_granularities : list Z;
  sb_structure : ustr;
  sb_projection : ustr
}.

(** The texts and the candidate arrive unchecked and [isinstance] decides; the profile is the
    annotated [tuple[int, ...] | list[int] | None]. *)
Definition bind_structurize (clean_text clean_artifact clean_digest candidate : pyval)
    (granularities : option (list Z)) (structure projection : pyval) : result StructurizeBinding :=
  let binding := fail422 "STRUCTURE_BINDING_INVALID" in
  let profile_invalid := MkbError "STRUCTURE_PROFILE_INVALID" 409 in
  match clean_text with
  | PStr clean_text =>
      check negb (blank clean_text) else fail422 "STRUCTURE_KERNEL_EMPTY" ;;
      match clean_artifact, structure, projection with
      | PStr clean_artifact, PStr structure, PStr projection =>
          check negb (ueqb clean_artifact []) && negb (ueqb structure []) && negb (ueqb projection [])
                && negb (ueqb structure projection) else binding ;;
          match clean_digest with
          | PStr clean_digest =>
              check negb (ueqb clean_digest []) else fail422 "STRUCTURE_BINDING_CLEAN_DIGEST" ;;
              check is_mapping candidate else MkbError "STRUCTURE_CANDIDATE_MISSING" 409 ;;
              match granularities with
              | None | Some [] => Err profile_invalid
              | Some l =>
                  let profile := py_sorted Z.leb (remove_dups l) in
                  check forallb (fun g => (0 <=? g) && (g <=? 2)) profile && bool_decide (0 ∈ profile)
                        else profile_invalid ;;
                  Ok (Build_StructurizeBinding clean_text clean_artifact clean_digest candidate profile structure projection)
              end
          | _ => Err (fail422 "STRUCTURE_BINDING_CLEAN_DIGEST")
          end
      | _, _, _ => Err binding
      end
  | _ => Err (fail422 "STRUCTURE_KERNEL_EMPTY")
  end.

Definition admit_structurize (b : StructurizeBinding)
    : result (pydict * (StructureDocument * RetrievalBlockProjection * pyval)) :=
  let* accepted := normalize_layered_candidate (sb_clean_text b) (sb_candidate b) (Some (sb_granularities b)) in
  let* adopted := adopt_layered_json_with_report (sb_clean_text b) (PDict accepted) (sb_structure b)
                    (Some (sb_projection b)) (sb_clean_artifact b) (Some (sb_clean_digest b))
                    (Some (sb_granularities b)) in
  Ok (accepted, adopted).

Inductive construct_mode := full_construct | metadata_refresh.

Record ConstructBinding := {
  cb_mode : construct_mode;
  cb_clean_text : ustr;
  cb_structure : StructureDocument;
  cb_projection : RetrievalBlockProjection;
  cb_summaries : pydict;
  cb_construction : ustr;
  cb_dual : ustr;
  cb_headers : option pydict;
  cb_granularities : list Z
}.

Definition parse_mode (mode : ustr) : option construct_mode :=
  if ueqb mode (u "full_construct") then Some full_construct
  else if ueqb mode (u "metadata_refresh") then Some metadata_refresh else None.

Definition bind_construct (mode : ustr) (clean_text : pyval) (structure : StructureDocument)
    (projection : RetrievalBlockProjection) (summaries : option pydict) (construction dual : ustr)
    (headers : option pydict) (required : option (list Z)) : result ConstructBinding :=
  match parse_mode mode with
  | None => Err (MkbError "CONSTRUCT_MODE_INVALID" 409)
  | Some m =>
      match clean_text with
      | PStr clean_text =>
          check negb (blank clean_text) else fail422 "CONSTRUCT_BINDING_CLEAN_DIGEST" ;;
          check negb (ueqb construction []) && negb (ueqb dual []) && negb (ueqb construction dual)
                else fail422 "CONSTRUCT_BINDING_INVALID" ;;
          match summaries with
          | None | Some [] => Err (fail422 "CONSTRUCT_KERNEL_SUMMARY_INCOMPLETE")
          | Some summaries =>
              match m, headers with
              | full_construct, Some _ => Err (MkbError "CONSTRUCT_MODE_INVALID" 409)
              | _, _ => Ok (Build_ConstructBinding m clean_text structure projection summaries construction dual headers
                              (expected_granularities projection required))
              end
          end
      | _ => Err (fail422 "CONSTRUCT_BINDING_CLEAN_DIGEST")
      end
  end.

Definition admit_construct (b : ConstructBinding) : result (ConstructionDocument * DualChannelProjection) :=
  construct (cb_structure b) (cb_projection b) (cb_clean_text b) (cb_construction b) (Some (cb_dual b)) (cb_summaries b)
    (cb_headers b) (u "content_full.v1") (Some (cb_granularities b)).

(** ** Re-proving stored bytes *)

Definition reprove_structure_from_candidate (clean_text : ustr) (candidate : pyval) (granularity_set : list Z)
    (structure projection clean_artifact clean_digest : ustr) : result (StructureDocument * RetrievalBlockProjection) :=
  adopt_layered_json clean_text candidate structure (Some projection) clean_artifact (Some clean_digest)
    (Some granularity_set).

(** [value is not None and value != recomputed()]: the recomputation is lazy. *)
Definition digest_differs (value : option ustr) (recompute : result ustr) : result bool :=
  match value with
  | None => Ok false
  | Some v => let* d := recompute in Ok (negb (ueqb v d))
  end.

(** The stored data are [bytes] here: compared with the canonical bytes, a [str] differs. *)
Definition assert_structure_contract_bytes (structure : StructureDocument) (projection : RetrievalBlockProjection)
    (structure_data projection_data : bytes) (structure_digest projection_digest_value : option ustr)
    (mismatch_code : string) : result unit :=
  let mismatch := MkbError mismatch_code 409 in
  let* expected_structure := canonical_json (structure_payload structure) in
  let* expected_projection := canonical_json (retrieval_projection_payload projection) in
  check ueqb structure_data expected_structure && ueqb projection_data expected_projection else mismatch ;;
  let* differs := digest_differs structure_digest (structure_document_digest structure) in
  check negb differs else mismatch ;;
  let* differs := digest_differs projection_digest_value (projection_digest projection) in
  ensure (negb differs) mismatch.

Definition assert_construction_contract_bytes (construction : ConstructionDocument) (dual : DualChannelProjection)
    (construction_data dual_data : bytes) (construction_digest : option ustr) (mismatch_code : string) : result unit :=
  let mismatch := MkbError mismatch_code 409 in
  let* expected := canonical_json (construction_payload construction) in
  check ueqb construction_data expected else mismatch ;;
  let* expected_dual := canonical_json (dual_channel_payload dual) in
  check ueqb dual_data expected_dual else mismatch ;;
  let* differs := digest_differs construction_digest (construction_document_digest construction) in
  ensure (negb differs) mismatch.

(** Both stored members are objects that parse, validate and serialize to the stored bytes;
    [loads] is [json.loads]. Python's [JSONDecodeError] is a [ValueError]. *)
Definition caught (e : exn) : bool :=
  match e with MkbError _ _ | TypeError | ValueError | KeyError | UnicodeEncodeError | UnicodeDecodeError => true | _ => false end.

Definition reprove_structure_from_stored_payloads (loads : bytes -> result pyval) (clean_text : ustr)
    (structure_data projection_data : bytes) (error_code : string)
    : result (StructureDocument * RetrievalBlockProjection) :=
  let error := MkbError error_code 409 in
  let attempt :=
    let* s := loads structure_data in
    let* p := loads projection_data in
    match s, p with
    | PDict s, PDict p =>
        let* structure := parse_structure_payload s in
        let* projection := parse_retrieval_projection_payload p in
        let* _ := validate_structure structure projection clean_text (map rb_granularity (rp_blocks projection)) in
        Ok (structure, projection)
    | _, _ => Err ValueError
    end in
  match attempt with
  | Err e => Err (if caught e then error else e)
  | Ok (structure, projection) =>
      let* expected_structure := canonical_json (structure_payload structure) in
      check ueqb structure_data expected_structure else error ;;
      let* expected_projection := canonical_json (retrieval_projection_payload projection) in
      check ueqb projection_data expected_projection else error ;;
      Ok (structure, projection)
  end.
End construct.

(** ** Facts *)

Section facts.
Context `{HL : HostLaws}.

Lemma text_digest_inj_total s d : text_digest s = Ok d -> digestible (PStr d).
Proof. apply digestible_digest_str. Qed.

(** A checked channel is grounded and its text recomputes. *)
Record channel_valid (recipe : ustr) (headers : option pydict) (coordinate : ustr) (c : ChannelRecord) : Prop := {
  cv_grounds : ch_grounds c = coordinate;
  cv_body : blank (ch_body c) = false;
  cv_full : content_full (ch_body c) headers recipe = Ok (ch_content_full c);
  cv_digest : text_digest (ch_content_full c) = Ok (ch_content_full_digest c)
}.

Lemma check_channel_Ok recipe headers coordinate c :
  check_channel recipe headers coordinate c = Ok tt -> channel_valid recipe headers coordinate c.
Proof.
  unfold check_channel. intros Hc. inv_res. breflect. rewrite ueqb_eq in *. subst. by split.
Qed.

Record unit_valid (recipe : ustr) (headers : option pydict) (c : ConstructionUnit) : Prop := {
  uv_original : ch_channel (cu_original c) = u "original" /\ channel_valid recipe headers (cu_coordinate c) (cu_original c);
  uv_summary : ch_channel (cu_summary c) = u "summary" /\ channel_valid recipe headers (cu_coordinate c) (cu_summary c)
}.

Lemma check_unit_Ok recipe headers c : check_unit recipe headers c = Ok tt -> unit_valid recipe headers c.
Proof.
  unfold check_unit. intros Hc. inv_res. breflect. rewrite ueqb_eq in *.
  repeat match goal with x : unit |- _ => destruct x end.
  split; split; try done; by apply check_channel_Ok.
Qed.

Lemma validate_construction_inv d dual headers :
  validate_construction d dual headers = Ok tt ->
  Forall (unit_valid (cd_recipe d) headers) (du_units dual) /\ existsb g0_ready (du_units dual) = true /\
  map cu_id (cd_units d) = map cu_id (du_units dual).
Proof.
  unfold validate_construction. intros Hv. inv_res. breflect.
  match goal with Hf : forM _ _ = Ok _ |- _ => apply forM_Ok in Hf end.
  split; [|done]. eapply Forall_impl; [eassumption|]. intros c. apply check_unit_Ok.
Qed.

(** The recipe keeps the body, so a channel with a body has a text. *)
Lemma content_full_suffix body headers recipe full :
  content_full body headers recipe = Ok full -> exists pre, full = pre ++ body.
Proof.
  unfold content_full. intros Hc. inv_res. destruct x0; [by exists []|].
  eexists (str_join _ _ ++ [10; 10]). by rewrite <-app_assoc.
Qed.

Lemma blank_app s t : blank (s ++ t) = blank s && blank t.
Proof.
  destruct (blank (s ++ t)) eqn:E; symmetry.
  - apply blank_spec, Forall_app in E as [Hs%blank_spec Ht%blank_spec]. by rewrite Hs, Ht.
  - apply andb_false_iff. destruct (blank s) eqn:Es; [|by left]. destruct (blank t) eqn:Et; [|by right].
    rewrite blank_spec in Es, Et. assert (blank (s ++ t) = true); [|congruence]. by apply blank_spec, Forall_app.
Qed.

Lemma channel_valid_full recipe headers coordinate c :
  channel_valid recipe headers coordinate c -> blank (ch_content_full c) = false.
Proof.
  intros [_ Hb Hf _]. destruct (content_full_suffix _ _ _ _ Hf) as [pre ->]. rewrite blank_app, Hb. apply andb_false_r.
Qed.

(** The vector units a construction asks for: every channel but the g0 originals. *)
Definition vector_unit (c : ConstructionUnit) (ch : ChannelRecord) : VectorizationUnit :=
  Build_VectorizationUnit (cu_id c) (cu_granularity c) (ch_channel ch) (cu_coordinate c) (ch_content_full ch)
    (ch_content_full_digest ch).
Definition unit_vectors (c : ConstructionUnit) : list VectorizationUnit :=
  if cu_granularity c =? 0 then [vector_unit c (cu_summary c)]
  else [vector_unit c (cu_original c); vector_unit c (cu_summary c)].

Definition within (budget : Z) (v : VectorizationUnit) : Prop :=
  exists encoded, utf8_encode (vu_content_full v) = Ok encoded /\ Z.of_nat (length encoded) <= budget.

Lemma plan_channel_valid recipe headers budget st c ch :
  channel_valid recipe headers (cu_coordinate c) ch -> 
  plan_channel recipe headers budget st (c, ch) =
    if (cu_granularity c =? 0) && ueqb (ch_channel ch) (u "original") then
      Ok {| ps_required := ps_required st; ps_skipped := ps_skipped st; ps_g0 := ps_g0 st || reattached (cu_original c) |}
    else
      let* encoded := utf8_encode (ch_content_full ch) in
      check Z.of_nat (length encoded) <=? budget else fail422 "VECTORIZE_BUDGET_CONTENT_FULL" ;;
      Ok {| ps_required := ps_required st ++ [vector_unit c ch]; ps_skipped := ps_skipped st; ps_g0 := ps_g0 st |}.
Proof.
  intros Hv. pose proof (channel_valid_full _ _ _ _ Hv) as Hb. destruct Hv as [_ _ Hf Hd].
  unfold plan_channel. rewrite Hf. cbn [rbind]. rewrite Hd. cbn [rbind]. rewrite !ueqb_refl. cbn [andb ensure rbind].
  rewrite Hb. destruct (_ && _); [done|]. unfold vector_unit. done.
Qed.

(** One unit, then all of them. *)
Lemma plan_unit recipe headers budget st c :
  unit_valid recipe headers c ->
  foldM (plan_channel recipe headers budget) st (unit_channels c) =
    let* _ := forM (fun v => let* e := utf8_encode (vu_content_full v) in
                             ensure (Z.of_nat (length e) <=? budget) (fail422 "VECTORIZE_BUDGET_CONTENT_FULL")) (unit_vectors c) in
    Ok {| ps_required := ps_required st ++ unit_vectors c; ps_skipped := ps_skipped st;
          ps_g0 := ps_g0 st || ((cu_granularity c =? 0) && reattached (cu_original c)) |}.
Proof.
  intros [[Ho Hov] [Hs Hsv]]. unfold unit_channels, unit_vectors. cbn [foldM].
  rewrite (plan_channel_valid _ _ _ _ _ _ Hov), Ho.
  destruct (cu_granularity c =? 0) eqn:Eg.
  - rewrite ueqb_refl. cbn [andb rbind]. rewrite (plan_channel_valid _ _ _ _ _ _ Hsv), Hs, Eg.
    change (ueqb (u "summary") (u "original")) with false. cbn [andb ps_required ps_skipped ps_g0 forM].
    cbn [vector_unit vu_content_full]. destruct (utf8_encode _); [|done]. cbn [rbind].
    by destruct (ensure _ _).
  - cbn [andb]. cbn [forM vector_unit vu_content_full]. destruct (utf8_encode (ch_content_full (cu_original c))); [|done].
    cbn [rbind]. destruct (ensure _ _); [|done]. cbn [rbind].
    rewrite (plan_channel_valid _ _ _ _ _ _ Hsv), Hs, Eg. cbn [andb ps_required ps_skipped ps_g0].
    destruct (utf8_encode _); [|done]. cbn [rbind]. destruct (ensure _ _); [|done]. cbn [rbind].
    by rewrite <-app_assoc, orb_false_r.
Qed.

Definition budget_check (budget : Z) (v : VectorizationUnit) : result unit :=
  let* e := utf8_encode (vu_content_full v) in
  ensure (Z.of_nat (length e) <=? budget) (fail422 "VECTORIZE_BUDGET_CONTENT_FULL").

Lemma budget_check_Ok budget v : budget_check budget v = Ok tt <-> within budget v.
Proof.
  unfold budget_check, within. destruct (utf8_encode (vu_content_full v)) as [e|]; cbn [rbind].
  - rewrite ensure_Ok, Z.leb_le. naive_solver.
  - naive_solver.
Qed.

Lemma forM_app {A} (f : A -> result unit) xs ys : forM f (xs ++ ys) = let* _ := forM f xs in forM f ys.
Proof. induction xs as [|x xs IH]; simpl; [done|]. rewrite IH. by destruct (f x). Qed.

Definition plan_vectors (dual : DualChannelProjection) : list VectorizationUnit := concat (map unit_vectors (du_units dual)).

Lemma plan_fold recipe headers budget st us :
  Forall (unit_valid recipe headers) us ->
  foldM (plan_channel recipe headers budget) st (concat (map unit_channels us)) =
    let* _ := forM (budget_check budget) (concat (map unit_vectors us)) in
    Ok {| ps_required := ps_required st ++ concat (map unit_vectors us); ps_skipped := ps_skipped st;
          ps_g0 := ps_g0 st || existsb (fun c => (cu_granularity c =? 0) && reattached (cu_original c)) us |}.
Proof.
  intros Hu; revert st; induction Hu as [|c us Hc Hu IH]; intros st.
  { simpl. destruct st. by rewrite app_nil_r, orb_false_r. }
  cbn [map concat]. rewrite foldM_app, forM_app, (plan_unit _ _ _ _ _ Hc). fold (budget_check budget).
  change (fun v => let* e := utf8_encode (vu_content_full v) in
                   ensure (Z.of_nat (length e) <=? budget) (fail422 "VECTORIZE_BUDGET_CONTENT_FULL")) with (budget_check budget).
  destruct (forM (budget_check budget) (unit_vectors c)); [|done]. cbn [rbind]. rewrite IH.
  cbn [ps_required ps_skipped ps_g0 existsb]. by rewrite <-app_assoc, orb_assoc.
Qed.

Lemma g0_ready_summary us :
  existsb g0_ready us = true ->
  existsb (fun c => (cu_granularity c =? 0) && reattached (cu_original c)) us = true /\
  exists c, c ∈ us /\ cu_granularity c = 0.
Proof.
  intros (c & Hin & Hc)%existsb_exists. unfold g0_ready in Hc. breflect. split.
  - apply existsb_exists. exists c. split; [done|]. apply andb_true_iff. split; done.
  - exists c. split; [by apply list_elem_of_In|lia].
Qed.

Lemma plan_g0_summary recipe headers us c :
  Forall (unit_valid recipe headers) us -> c ∈ us -> cu_granularity c = 0 ->
  existsb g0_summary (py_sorted vector_le (concat (map unit_vectors us))) = true.
Proof.
  intros Hu Hin Hg. rewrite Forall_forall in Hu. destruct (Hu c Hin) as [_ [Hs Hv]].
  apply existsb_exists. exists (vector_unit c (cu_summary c)). split.
  - apply list_elem_of_In. rewrite py_sorted_perm. apply list_elem_of_In, in_concat. exists (unit_vectors c).
    split; [by apply in_map, list_elem_of_In|]. unfold unit_vectors. rewrite Hg. by left.
  - unfold g0_summary. cbn [vector_unit vu_granularity vu_channel vu_content_full]. rewrite Hg, Hs, ueqb_refl.
    by rewrite (channel_valid_full _ _ _ _ Hv).
Qed.

Lemma vector_le_total x y : vector_le x y = true \/ vector_le y x = true.
Proof.
  unfold vector_le. destruct (Z.lt_trichotomy (vu_granularity x) (vu_granularity y)) as [Hl|[He|Hl]].
  - left. by rewrite (ltb_intro _ _ Hl).
  - rewrite He, Z.eqb_refl, Z.ltb_irrefl. cbn [orb andb].
    destruct (ueqb (vu_id x) (vu_id y)) eqn:E.
    + apply ueqb_eq in E. rewrite E, ueqb_refl. apply str_le_total.
    + rewrite (ueqb_ne (vu_id y) (vu_id x)); [apply str_le_total|]. intros Heq. by rewrite Heq, ueqb_refl in E.
  - right. by rewrite (ltb_intro _ _ Hl).
Qed.

Lemma vector_le_spec x y :
  vector_le x y = true <->
  vu_granularity x < vu_granularity y \/
  (vu_granularity x = vu_granularity y /\
   ((vu_id x <> vu_id y /\ str_le (vu_id x) (vu_id y) = true) \/
    (vu_id x = vu_id y /\ str_le (vu_channel x) (vu_channel y) = true))).
Proof.
  unfold vector_le. rewrite orb_true_iff, andb_true_iff, Z.ltb_lt, Z.eqb_eq.
  destruct (ueqb (vu_id x) (vu_id y)) eqn:E.
  - apply ueqb_eq in E. naive_solver.
  - assert (vu_id x <> vu_id y) by (intros Heq; by rewrite Heq, ueqb_refl in E). naive_solver.
Qed.

Lemma vector_le_trans x y z : vector_le x y = true -> vector_le y z = true -> vector_le x z = true.
Proof.
  rewrite !vector_le_spec. intros [Hxy|[Hxy Hxy']] [Hyz|[Hyz Hyz']]; [left; lia..|].
  right. split; [lia|]. destruct Hxy' as [[Hn1 H1]|[He1 H1]], Hyz' as [[Hn2 H2]|[He2 H2]].
  - left. split; [|by eapply str_le_trans]. intros Heq. rewrite Heq in H1. apply Hn2. by apply str_le_antisym.
  - left. rewrite <-He2. done.
  - left. rewrite He1. done.
  - right. split; [congruence|]. by eapply str_le_trans.
Qed.

Lemma Forall2_with {A B} (P R : A -> B -> Prop) (Q : B -> Prop) xs ys :
  Forall2 P xs ys -> Forall Q ys -> (forall x y, P x y -> Q y -> R x y) -> Forall2 R xs ys.
Proof. intros HP HQ HR; induction HP; inversion HQ; subst; constructor; auto. Qed.
End facts.

(** ** Properties *)

Section properties.
Context `{HL : HostLaws}.

(** Over a validated construction, planning returns exactly when every channel other than
    the granularity 0 originals fits the byte budget; the plan then consists of those
    channels, each once, ordered by (granularity, unit, channel), and skips nothing. *)
Theorem vectorization_plan_spec document dual headers budget :
  validate_construction document dual headers = Ok tt -> 1 <= budget ->
  ((exists plan, vectorization_plan document dual headers budget = Ok plan) <->
   Forall (within budget) (plan_vectors dual)) /\
  forall plan, vectorization_plan document dual headers budget = Ok plan ->
    vp_required plan ≡ₚ plan_vectors dual /\
    StronglySorted (fun a b => vector_le a b = true) (vp_required plan) /\ vp_skipped plan = [] /\
    existsb g0_summary (vp_required plan) = true.
Proof.
  intros Hv Hb. pose proof (validate_construction_inv _ _ _ Hv) as (Hu & Hg0 & _).
  destruct (g0_ready_summary _ Hg0) as (Hready & c & Hc & Hcg).
  pose proof (plan_g0_summary _ _ _ _ Hu Hc Hcg) as Hsum.
  unfold vectorization_plan. rewrite Hv. cbn [rbind]. rewrite (leb_intro _ _ Hb). cbn [ensure rbind].
  rewrite (plan_fold _ _ _ _ _ Hu). fold (plan_vectors dual) in Hsum |- *. cbn [ps_required ps_skipped ps_g0 app].
  assert (forM (budget_check budget) (plan_vectors dual) = Ok tt <-> Forall (within budget) (plan_vectors dual)) as Hiff.
  { rewrite forM_Ok. split; intros HF; (eapply Forall_impl; [exact HF|]); intros v; apply budget_check_Ok. }
  destruct (forM (budget_check budget) (plan_vectors dual)) as [[]|e] eqn:Ef; cbn [rbind].
  2: { split; [|done]. rewrite <-Hiff. split; [by intros [? ?]|done]. }
  cbn [ps_g0 ps_required ps_skipped orb]. rewrite Hready. cbn [ensure rbind]. rewrite Hsum. cbn [ensure rbind].
  destruct (digestible_digest (PList (map (fun v => PStr (vu_digest v)) (py_sorted vector_le (plan_vectors dual)))))
    as (dg & _ & Hdg).
  { apply digestible_list, Forall_map. rewrite py_sorted_perm. apply Forall_forall. intros v Hin.
    unfold plan_vectors in Hin. apply list_elem_of_In, in_concat in Hin as (l & (c' & <- & Hc')%in_map_iff & Hin).
    rewrite Forall_forall in Hu. destruct (Hu c' (proj2 (list_elem_of_In _ _) Hc')) as [[_ Ho] [_ Hs]].
    unfold unit_vectors in Hin. destruct (cu_granularity c' =? 0); simpl in Hin;
      repeat (destruct Hin as [<-|Hin]; [simpl; eapply text_digest_inj_total, cv_digest; eassumption|]); done. }
  rewrite Hdg. cbn [rbind]. split.
  - rewrite <-Hiff. split; [done|]. by eexists.
  - intros plan [= <-]. cbn. split; [apply py_sorted_perm|].
    split; [apply py_sorted_sorted; [apply vector_le_total|apply vector_le_trans]|done].
Qed.

(** What a unit takes from its block. *)
Record constructed (structure : StructureDocument) (projection : RetrievalBlockProjection) (summaries : pydict)
    (headers : option pydict) (recipe : ustr) (b : RetrievalBlock) (c : ConstructionUnit) : Prop := {
  cn_id : cu_id c = rb_id b /\ cu_granularity c = rb_granularity b;
  cn_coordinate : cu_coordinate c = sd_generation structure ++ u ":" ++ rp_generation projection ++ u ":" ++ rb_id b;
  cn_original : ch_body (cu_original c) = rb_text b /\ ch_body_digest (cu_original c) = rb_digest b;
  cn_summary : dget summaries (rb_id b) = Some (PStr (ch_body (cu_summary c))) /\
               text_digest (ch_body (cu_summary c)) = Ok (ch_body_digest (cu_summary c));
  cn_unit : unit_valid recipe headers c;
  cn_reattach : ch_reattach (cu_original c) = if rb_granularity b =? 0 then u "native_full" else u "reattached"
}.

(** A construction has one unit per projection block, in order: the unit quotes the block
    and its digest, carries the given summary, grounds both channels in the block's
    coordinate and holds their recomputable texts; the dual projection has the same units,
    bound by digest to the document, and the pair passes the construction validator. *)
Theorem construct_units structure projection clean gen dual_uuid summaries headers recipe req d dual :
  construct structure projection clean gen dual_uuid summaries headers recipe req = Ok (d, dual) ->
  Forall2 (constructed structure projection summaries headers recipe) (rp_blocks projection) (cd_units d) /\
  du_units dual = cd_units d /\ du_generation dual <> cd_generation d /\
  construction_document_digest d = Ok (du_construction_digest dual) /\
  structure_document_digest structure = Ok (cd_structure_digest d) /\
  projection_digest projection = Ok (cd_projection_digest d) /\
  validate_construction d dual headers = Ok tt.
Proof.
  unfold construct. intros Hc. inv_res. repeat match goal with x : unit |- _ => destruct x end.
  match goal with Hv : validate_construction _ _ _ = Ok tt |- _ => pose proof Hv as Hval;
    apply validate_construction_inv in Hv as (Hu & _ & _) end.
  cbn [du_units cd_units cd_recipe du_generation cd_generation du_construction_digest cd_structure_digest cd_projection_digest] in *.
  split; [|repeat split; try done].
  2: { breflect. intros Heq. by rewrite Heq, ueqb_refl in *. }
  match goal with Hm : mapM _ _ = Ok _ |- _ => apply mapM_Ok in Hm; rename Hm into Hunits end.
  eapply Forall2_with; [exact Hunits|exact Hu|]. intros b c Hb Hc'. unfold construct_unit in Hb.
  destruct (dget summaries (rb_id b)) as [v|] eqn:Ev; cbn [default] in Hb; [|done]. unfold Datatypes.id in Hb.
  destruct v; try done. inv_res. split; try done; split; done.
Qed.

(** Bytes that re-prove are the frozen bytes: when stored members re-prove, the parsed
    structure and projection validate against the clean text, serialize to exactly the stored
    bytes, and the contract comparison accepts those bytes with the recomputed digests. *)
Theorem reprove_stored_bytes loads clean sdata pdata code s p sd pd :
  reprove_structure_from_stored_payloads loads clean sdata pdata code = Ok (s, p) ->
  structure_document_digest s = Ok sd -> projection_digest p = Ok pd ->
  validate_structure s p clean (map rb_granularity (rp_blocks p)) = Ok tt /\
  canonical_json (structure_payload s) = Ok sdata /\ canonical_json (retrieval_projection_payload p) = Ok pdata /\
  forall mismatch, assert_structure_contract_bytes s p sdata pdata (Some sd) (Some pd) mismatch = Ok tt /\
    forall other, other <> sdata ->
      assert_structure_contract_bytes s p other pdata (Some sd) (Some pd) mismatch = Err (MkbError mismatch 409).
Proof.
  unfold reprove_structure_from_stored_payloads. intros Hr Hsd Hpd.
  match type of Hr with match ?m with _ => _ end = _ => destruct m as [[s' p']|e] eqn:Ea end; [|by destruct (caught e)].
  apply rbind_Ok in Hr as (es & Hes & Hr). apply rbind_Ok in Hr as ([] & Hse%ensure_Ok%ueqb_eq & Hr).
  apply rbind_Ok in Hr as (ep & Hep & Hr). apply rbind_Ok in Hr as ([] & Hpe%ensure_Ok%ueqb_eq & [= -> ->]). subst es ep.
  apply rbind_Ok in Ea as (sv & _ & Ea). apply rbind_Ok in Ea as (pv & _ & Ea).
  destruct sv; try done. destruct pv; try done.
  apply rbind_Ok in Ea as (s1 & _ & Ea). apply rbind_Ok in Ea as (p1 & _ & Ea).
  apply rbind_Ok in Ea as ([] & Hv & [= -> ->]).
  split; [done|]. split; [done|]. split; [done|]. intros mismatch.
  unfold assert_structure_contract_bytes, digest_differs. rewrite Hes, Hep. cbn [rbind]. rewrite Hsd, Hpd. cbn [rbind].
  rewrite !ueqb_refl. cbn [andb ensure rbind negb]. split; [done|]. intros other Hne. by rewrite (ueqb_ne _ _ Hne).
Qed.
End properties.

(** ** Witnesses *)

Module ConstructSamples.
#[local] Existing Instance test_host.
Definition headers : option pydict := Some [(u "realm", PStr (u "r1")); (u "author", PStr (u "A"))].
Definition constructed_pair :=
  construct AdoptSamples.structure AdoptSamples.projection AdoptSamples.clean (u "cons") None AdoptSamples.summaries
    headers (u "content_full.v1") (Some [0; 1]).
Definition empty_construction := Build_ConstructionDocument [] [] [] [] [] [] [] [] [].
Definition empty_dual := Build_DualChannelProjection [] [] [] [] [].
Definition document : ConstructionDocument := match constructed_pair with Ok (d, _) => d | Err _ => empty_construction end.
Definition dual : DualChannelProjection := match constructed_pair with Ok (_, d) => d | Err _ => empty_dual end.

Definition stored (v : pyval) : bytes := match canonical_json v with Ok b => b | Err _ => [] end.
Definition structure_data : bytes := stored (structure_payload AdoptSamples.structure).
Definition projection_data : bytes := stored (retrieval_projection_payload AdoptSamples.projection).
(** A reader of just these two members. *)
Definition loads (b : bytes) : result pyval :=
  if ueqb b structure_data then Ok (structure_payload AdoptSamples.structure)
  else if ueqb b projection_data then Ok (retrieval_projection_payload AdoptSamples.projection)
  else Err ValueError.
Definition digest_of (r : result ustr) : ustr := match r with Ok d => d | Err _ => [] end.
End ConstructSamples.

Lemma construct_units_witness :
  map cu_id (cd_units ConstructSamples.document) = [u "g0:b0000"; u "g1:b0001"; u "g1:b0002"] /\
  validate_construction (H := test_host) ConstructSamples.document ConstructSamples.dual ConstructSamples.headers = Ok tt.
Proof.
  split; [vm_compute; reflexivity|].
  destruct (construct_units (H := test_host) AdoptSamples.structure AdoptSamples.projection AdoptSamples.clean (u "cons") None
    AdoptSamples.summaries ConstructSamples.headers (u "content_full.v1") (Some [0; 1]) ConstructSamples.document
    ConstructSamples.dual ltac:(vm_compute; reflexivity)) as (_ & _ & _ & _ & _ & _ & Hv). exact Hv.
Defined.

Lemma vectorization_plan_spec_witness :
  exists plan, vectorization_plan (H := test_host) ConstructSamples.document ConstructSamples.dual ConstructSamples.headers 100 = Ok plan /\
    map (fun v => (vu_granularity v, vu_channel v)) (vp_required plan) =
      [(0, u "summary"); (1, u "original"); (1, u "summary"); (1, u "original"); (1, u "summary")].
Proof.
  destruct (vectorization_plan_spec (HL := test_host_laws) ConstructSamples.document ConstructSamples.dual
    ConstructSamples.headers 100 ltac:(vm_compute; reflexivity) ltac:(lia)) as [Hiff _].
  assert (Forall (within 100) (plan_vectors ConstructSamples.dual)) as Hw.
  { apply Forall_forall. intros v Hin. apply budget_check_Ok.
    assert (forallb (fun v => is_ok (budget_check 100 v)) (plan_vectors ConstructSamples.dual) = true) as Ha
      by (vm_compute; reflexivity).
    rewrite forallb_forall in Ha. specialize (Ha v (proj1 (list_elem_of_In _ _) Hin)).
    destruct (budget_check 100 v) as [[]|]; [reflexivity|discriminate Ha]. }
  destruct (proj2 Hiff Hw) as [plan Hp]. exists plan. split; [exact Hp|].
  vm_compute in Hp. injection Hp as <-. vm_compute. reflexivity.
Defined.

Lemma reprove_stored_bytes_witness :
  canonical_json (H := test_host) (structure_payload AdoptSamples.structure) = Ok ConstructSamples.structure_data.
Proof.
  destruct (reprove_stored_bytes (H := test_host) ConstructSamples.loads AdoptSamples.clean ConstructSamples.structure_data
    ConstructSamples.projection_data "METADATA_REFRESH_SOURCE_INVALID" AdoptSamples.structure AdoptSamples.projection
    (ConstructSamples.digest_of (structure_document_digest (H := test_host) AdoptSamples.structure))
    (ConstructSamples.digest_of (projection_digest (H := test_host) AdoptSamples.projection))
    ltac:(vm_compute; reflexivity) ltac:(vm_compute; reflexivity) ltac:(vm_compute; reflexivity)) as (_ & Hs & _).
  exact Hs.
Defined.
