(* ===== verification/WorkflowContracts.v ===== *)
(** * Workflow definitions

    Model of [src/contracts/workflow/models.py]: the declarative workflow graph and the
    validators that admit it.  The model starts where pydantic has built the typed fields:
    field constraints are boolean tests, [model_validator] bodies are functions returning
    [ValueError] where the code raises it, and Python sets of keys are [gset]s. *)

From S2P Require Import Prelude PyText.

Open Scope Z_scope.
Open Scope mkb_scope.

(** ** Closed vocabularies *)

Inductive WorkflowStepKind := START | PROCESS | CONTROL | JOIN | TERMINAL.
Inductive WorkflowRequiredness := REQUIRED | OPTIONAL.
Inductive WorkflowTerminalKind := TK_SUCCESS | TK_FAILURE | TK_CANCELLED | TK_NOOP.
Inductive WorkflowRouteKind := RK_NORMAL | RK_BRANCH | RK_FAN_OUT | RK_JOIN | RK_TERMINAL.
Inductive WorkflowOutcomeSelector := ALWAYS | SUCCEEDED | FAILED | CANCELLED | SKIPPED.
Inductive WorkflowJoinMode := JM_NONE | ALL_REQUIRED | ALL_TERMINAL.
Inductive WorkflowValueType := LOGICAL_REF | DIGEST | PROOF.
Inductive WorkflowMultiplicity := ONE | MANY.
Inductive WorkflowBindingSourceKind := EXECUTION_CONTEXT | INTAKE_SNAPSHOT | PRIOR_OUTPUT | CONTROL_VALUE | REGISTRY_REF.
Inductive WorkflowExecutionRole := SINGLE_ROOT | SCATTER_ROOT | SCATTER_CHILD.
Inductive WorkflowPhaseKey :=
| RESOLVING_SOURCE | CLEANING | SCATTERING | PREFLIGHT_ADMISSION | AWAITING_HUMAN_REVIEW | STRUCTURIZING
| CONSTRUCTING | VECTORIZING_INDEXING | VALIDATING_PUBLICATION | FAN_IN | UPDATING_METADATA | DEACTIVATING
| DELETING | PURGING | REBUILDING_INDEX.
Inductive GuardPredicate :=
| registered_admission_result | registered_request_intent | registered_metadata_disposition
| registered_markdown_selection | registered_admission_markdown_selection | representation_main_text_presence
| registered_acquisition_mode | representation_media_family | registered_clean_strategy.

#[export] Instance step_kind_eq : EqDecision WorkflowStepKind. Proof. solve_decision. Defined.
#[export] Instance requiredness_eq : EqDecision WorkflowRequiredness. Proof. solve_decision. Defined.
#[export] Instance terminal_kind_eq : EqDecision WorkflowTerminalKind. Proof. solve_decision. Defined.
#[export] Instance route_kind_eq : EqDecision WorkflowRouteKind. Proof. solve_decision. Defined.
#[export] Instance selector_eq : EqDecision WorkflowOutcomeSelector. Proof. solve_decision. Defined.
#[export] Instance join_mode_eq : EqDecision WorkflowJoinMode. Proof. solve_decision. Defined.
#[export] Instance value_type_eq : EqDecision WorkflowValueType. Proof. solve_decision. Defined.
#[export] Instance multiplicity_eq : EqDecision WorkflowMultiplicity. Proof. solve_decision. Defined.
#[export] Instance source_kind_eq : EqDecision WorkflowBindingSourceKind. Proof. solve_decision. Defined.
#[export] Instance execution_role_eq : EqDecision WorkflowExecutionRole. Proof. solve_decision. Defined.
#[export] Instance phase_key_eq : EqDecision WorkflowPhaseKey. Proof. solve_decision. Defined.
#[export] Instance guard_predicate_eq : EqDecision GuardPredicate. Proof. solve_decision. Defined.

(** ** Records *)

Record WorkflowPortDefinition := {
  slot_name : string;
  value_type : WorkflowValueType;
  schema_ref : string;
  required : bool;
  multiplicity : WorkflowMultiplicity
}.

Record WorkflowStepDefinition := {
  step_key : string;
  step_kind : WorkflowStepKind;
  requiredness : WorkflowRequiredness;
  process_key : option string;
  contract_version : option string;
  phase_key : option WorkflowPhaseKey;
  required_proof_kind : option string;
  control_key : option string;
  control_version : option string;
  control_fallback_port : option string;
  input_ports : list WorkflowPortDefinition;
  output_ports : list WorkflowPortDefinition;
  terminal_kind : option WorkflowTerminalKind
}.

Record WorkflowRouteDefinition := {
  route_key : string;
  from_step_key : string;
  to_step_key : string;
  route_kind : WorkflowRouteKind;
  outcome_selector : WorkflowOutcomeSelector;
  priority : Z;
  route_guard : option string;
  join_mode : WorkflowJoinMode
}.

Record WorkflowGuardDefinition := {
  guard_key : string;
  predicate_type : GuardPredicate;
  expected_value : string
}.

Record WorkflowBindingDefinition := {
  target_step_key : string;
  target_slot_name : string;
  source_kind : WorkflowBindingSourceKind;
  source_ref_key : option string;
  source_step_key : option string;
  source_port_name : option string
}.

Record WorkflowDefinition := {
  workflow_key : string;
  revision_number : Z;
  execution_role : WorkflowExecutionRole;
  context_slots : list WorkflowPortDefinition;
  required_process_keys : list string;
  steps : list WorkflowStepDefinition;
  routes : list WorkflowRouteDefinition;
  bindings : list WorkflowBindingDefinition;
  guards : list WorkflowGuardDefinition
}.

(** ** Field patterns *)

Definition lower (c : Z) : bool := (97 <=? c) && (c <=? 122).
Definition digit (c : Z) : bool := (48 <=? c) && (c <=? 57).
Definition key_char (c : Z) : bool := lower c || digit c || (c =? 95) || (c =? 46) || (c =? 45).

(** [^[a-z][a-z0-9_.-]{0,127}$] *)
Definition key_codes (s : ustr) : bool :=
  match s with c :: r => lower c && forallb key_char r && (length r <=? 127)%nat | [] => false end.
Definition WorkflowKey (s : string) : bool := key_codes (codes s).
(** [^mkb\.[a-z][a-z0-9_.-]{0,127}$] *)
Definition SchemaRef (s : string) : bool :=
  match codes s with 109 :: 107 :: 98 :: 46 :: r => key_codes r | _ => false end.
(** [^[a-z0-9][a-z0-9_.-]{0,63}$] *)
Definition ContractVersion (s : string) : bool :=
  match codes s with c :: r => (lower c || digit c) && forallb key_char r && (length r <=? 63)%nat | [] => false end.

Definition opt_ok {A} (p : A -> bool) (o : option A) : bool := match o with Some a => p a | None => true end.
Definition present {A} (o : option A) : bool := match o with Some _ => true | None => false end.
Definition absent {A} (o : option A) : bool := negb (present o).
Definition unique (l : list string) : bool := bool_decide (NoDup l).

Definition port_fields (p : WorkflowPortDefinition) : bool := WorkflowKey (slot_name p) && SchemaRef (schema_ref p).

Definition step_fields (s : WorkflowStepDefinition) : bool :=
  WorkflowKey (step_key s) && opt_ok WorkflowKey (process_key s) && opt_ok ContractVersion (contract_version s)
  && opt_ok WorkflowKey (required_proof_kind s) && opt_ok WorkflowKey (control_key s)
  && opt_ok ContractVersion (control_version s) && opt_ok WorkflowKey (control_fallback_port s)
  && forallb port_fields (input_ports s) && forallb port_fields (output_ports s).

(** ** Shape validators *)

(** [WorkflowStepDefinition.validate_shape] *)
Definition validate_step (s : WorkflowStepDefinition) : result unit :=
  check step_fields s else ValueError ;;
  let input_names := map slot_name (input_ports s) in
  check unique input_names else ValueError ;;
  check unique (map slot_name (output_ports s)) else ValueError ;;
  let no_control := absent (control_key s) && absent (control_version s) && absent (control_fallback_port s) in
  let no_process := absent (process_key s) && absent (contract_version s) && absent (required_proof_kind s) in
  let no_ports := (length (input_ports s) =? 0)%nat && (length (output_ports s) =? 0)%nat && absent (phase_key s) in
  match step_kind s with
  | PROCESS =>
      check present (process_key s) && present (contract_version s) else ValueError ;;
      check present (phase_key s) else ValueError ;;
      check present (required_proof_kind s) else ValueError ;;
      check no_control && absent (terminal_kind s) else ValueError ;;
      ensure (negb (length (output_ports s) =? 0)%nat) ValueError
  | CONTROL =>
      check present (control_key s) else ValueError ;;
      check present (phase_key s) else ValueError ;;
      check no_process && absent (terminal_kind s) else ValueError ;;
      if bool_decide (control_key s = Some "selected_output"%string) then
        check present (control_version s) else ValueError ;;
        check negb (length (input_ports s) =? 0)%nat && negb (existsb required (input_ports s)) else ValueError ;;
        check match output_ports s with [o] => required o | _ => false end else ValueError ;;
        ensure (opt_ok (fun f => bool_decide (f ∈ input_names)) (control_fallback_port s)) ValueError
      else ensure (absent (control_version s) && absent (control_fallback_port s)) ValueError
  | TERMINAL =>
      check bool_decide (requiredness s = REQUIRED) else ValueError ;;
      check present (terminal_kind s) else ValueError ;;
      check no_ports else ValueError ;;
      ensure (no_process && no_control) ValueError
  | START =>
      check bool_decide (requiredness s = REQUIRED) else ValueError ;;
      check no_ports else ValueError ;;
      ensure (no_process && no_control && absent (terminal_kind s)) ValueError
  | JOIN =>
      check no_process && no_control && absent (terminal_kind s) else ValueError ;;
      ensure (absent (phase_key s)) ValueError
  end.

(** [WorkflowRouteDefinition.validate_shape] *)
Definition validate_route (r : WorkflowRouteDefinition) : result unit :=
  check WorkflowKey (route_key r) && WorkflowKey (from_step_key r) && WorkflowKey (to_step_key r)
        && opt_ok WorkflowKey (route_guard r) && (0 <=? priority r) && (priority r <=? 1000000) else ValueError ;;
  ensure (Bool.eqb (bool_decide (route_kind r = RK_JOIN)) (bool_decide (join_mode r <> JM_NONE))) ValueError.

Definition allowed_values (p : GuardPredicate) : list string :=
  match p with
  | registered_admission_result => ["auto_admitted"; "human_review_required"; "rejected"]
  | registered_request_intent =>
      ["intake.ingest"; "intake.rebuild"; "intake.update_metadata"; "intake.deactivate"; "intake.reactivate";
       "intake.delete"; "index.rebuild"]
  | registered_metadata_disposition => ["no_change"]
  | registered_markdown_selection => ["present"]
  | registered_admission_markdown_selection => ["auto_admitted"]
  | representation_main_text_presence => ["present"; "absent"; "unknown"]
  | registered_acquisition_mode => ["static"; "browser"; "pdf"]
  | representation_media_family => ["text"; "pdf"; "image"; "opaque"]
  | registered_clean_strategy =>
      ["web.deterministic"; "web.llm_rewrite"; "web.browser_print_pdf"; "pdf.text_layer"; "pdf.document_understanding";
       "pdf.ocr"; "doc.deterministic"; "doc.document_understanding"; "doc.ocr"; "doc.vision"]
  end%string.

(** [WorkflowGuardDefinition.validate_registered_value] *)
Definition validate_guard (g : WorkflowGuardDefinition) : result unit :=
  check WorkflowKey (guard_key g) else ValueError ;;
  ensure (bool_decide (expected_value g ∈ allowed_values (predicate_type g))) ValueError.

(** [WorkflowBindingDefinition.validate_source_shape] *)
Definition validate_binding (b : WorkflowBindingDefinition) : result unit :=
  check WorkflowKey (target_step_key b) && WorkflowKey (target_slot_name b) && opt_ok WorkflowKey (source_ref_key b)
        && opt_ok WorkflowKey (source_step_key b) && opt_ok WorkflowKey (source_port_name b) else ValueError ;;
  if bool_decide (source_kind b = PRIOR_OUTPUT) then
    check present (source_step_key b) && present (source_port_name b) else ValueError ;;
    ensure (absent (source_ref_key b)) ValueError
  else
    check present (source_ref_key b) else ValueError ;;
    ensure (absent (source_step_key b) && absent (source_port_name b)) ValueError.

(** ** Definition-level validators *)

Definition by_key {A} (key : A -> string) (l : list A) : gmap string A := list_to_map (map (fun a => (key a, a)) (rev l)).

Definition is_kind (k : WorkflowStepKind) (s : WorkflowStepDefinition) : bool := bool_decide (step_kind s = k).

(** [_unique_steps] *)
Definition unique_steps (d : WorkflowDefinition) : result (gmap string WorkflowStepDefinition) :=
  check unique (map step_key (steps d)) else ValueError ;;
  check (length (List.filter (is_kind START) (steps d)) =? 1)%nat else ValueError ;;
  check existsb (is_kind TERMINAL) (steps d) else ValueError ;;
  Ok (by_key step_key (steps d)).

(** [_unique_context_slots], [_unique_guards] *)
Definition unique_context_slots (d : WorkflowDefinition) : result (gmap string WorkflowPortDefinition) :=
  check unique (map slot_name (context_slots d)) else ValueError ;;
  Ok (by_key slot_name (context_slots d)).
Definition unique_guards (d : WorkflowDefinition) : result (gmap string WorkflowGuardDefinition) :=
  check unique (map guard_key (guards d)) else ValueError ;;
  Ok (by_key guard_key (guards d)).

(** [_validate_required_process_keys] *)
Definition validate_required_process_keys (d : WorkflowDefinition) : result unit :=
  check unique (required_process_keys d) else ValueError ;;
  let required_keys :=
    map process_key (List.filter (fun s => is_kind PROCESS s && bool_decide (requiredness s = REQUIRED)) (steps d)) in
  check forallb present required_keys else ValueError ;;
  ensure (bool_decide ((list_to_set (required_process_keys d) : gset string) = list_to_set (omap Datatypes.id required_keys)))
         ValueError.

Abbreviation adjacency := (gmap string (gset string)).
Definition targets (adj : adjacency) (k : string) : gset string := default ∅ (adj !! k).
Definition add_edge (adj : adjacency) (a b : string) : adjacency := <[a := {[b]} ∪ targets adj a]> adj.

Record route_state := {
  rs_adjacency : adjacency;
  rs_priorities : list (string * WorkflowOutcomeSelector * Z);
  rs_guards : gset string
}.

Definition kind_of (steps_by_key : gmap string WorkflowStepDefinition) (k : string) : option WorkflowStepKind :=
  step_kind <$> steps_by_key !! k.

(** One iteration of the loop over the routes. *)
Definition route_step (steps_by_key : gmap string WorkflowStepDefinition) (guards_by_key : gmap string WorkflowGuardDefinition)
    (start_key : string) (st : route_state) (r : WorkflowRouteDefinition) : result route_state :=
  match kind_of steps_by_key (from_step_key r), kind_of steps_by_key (to_step_key r) with
  | Some from_kind, Some to_kind =>
      check bool_decide (from_step_key r <> to_step_key r) else ValueError ;;
      check bool_decide (from_kind <> TERMINAL) else ValueError ;;
      let priority_key := (from_step_key r, outcome_selector r, priority r) in
      check negb (bool_decide (priority_key ∈ rs_priorities st)) else ValueError ;;
      check Bool.eqb (bool_decide (route_kind r = RK_TERMINAL)) (bool_decide (to_kind = TERMINAL)) else ValueError ;;
      check negb (bool_decide (outcome_selector r = ALWAYS) && present (route_guard r)
                  && negb (bool_decide (from_step_key r = start_key))) else ValueError ;;
      check opt_ok (fun g => present (guards_by_key !! g)) (route_guard r) else ValueError ;;
      Ok {| rs_adjacency := add_edge (rs_adjacency st) (from_step_key r) (to_step_key r);
            rs_priorities := priority_key :: rs_priorities st;
            rs_guards := match route_guard r with Some g => {[g]} ∪ rs_guards st | None => rs_guards st end |}
  | _, _ => Err ValueError
  end.

(** The key of the (only) start step. *)
Definition start_key_of (d : WorkflowDefinition) : string :=
  match List.filter (is_kind START) (steps d) with s :: _ => step_key s | [] => "" end.

(** [_validate_routes] *)
Definition validate_routes (d : WorkflowDefinition) (steps_by_key : gmap string WorkflowStepDefinition)
    (guards_by_key : gmap string WorkflowGuardDefinition) : result adjacency :=
  check unique (map route_key (routes d)) else ValueError ;;
  let* st := foldM (route_step steps_by_key guards_by_key (start_key_of d)) (Build_route_state ∅ [] ∅) (routes d) in
  check bool_decide (dom guards_by_key = rs_guards st) else ValueError ;;
  Ok (rs_adjacency st).

(** ** The graph *)

Inductive visit_mark := visiting | visited.
#[export] Instance visit_mark_eq : EqDecision visit_mark. Proof. solve_decision. Defined.

(** The depth-first [visit]; a set is traversed in the order of [elements].  [fuel] bounds
    the depth of the recursion; one more than the number of steps is enough. *)
Fixpoint visit (adj : adjacency) (fuel : nat) (state : gmap string visit_mark) (key : string)
    : result (gmap string visit_mark) :=
  match fuel with
  | O => Err OverflowError
  | S fuel =>
      match state !! key with
      | Some visiting => Err ValueError
      | Some visited => Ok state
      | None =>
          let* state := foldM (visit adj fuel) (<[key := visiting]> state) (elements (targets adj key)) in
          Ok (<[key := visited]> state)
      end
  end.

Definition reverse_adjacency (adj : adjacency) : adjacency :=
  foldl (fun rev e => foldl (fun rev t => add_edge rev t e.1) rev (elements e.2)) ∅ (map_to_list adj).

(** The worklist loop of the terminal coverage; the head of [pending] is popped. *)
Definition cover_sources (reach : gset string * list string) (s : string) : gset string * list string :=
  if bool_decide (s ∈ reach.1) then reach else ({[s]} ∪ reach.1, s :: reach.2).
Fixpoint cover (radj : adjacency) (fuel : nat) (reach : gset string) (pending : list string) : result (gset string) :=
  match pending with
  | [] => Ok reach
  | t :: pending =>
      match fuel with
      | O => Err OverflowError
      | S fuel =>
          let '(reach, pending) := foldl cover_sources (reach, pending) (elements (targets radj t)) in
          cover radj fuel reach pending
      end
  end.

Definition outcome_covered (d : WorkflowDefinition) (s : WorkflowStepDefinition) : bool :=
  negb (is_kind PROCESS s || is_kind CONTROL s)
  || forallb (fun o => existsb (fun r => bool_decide (from_step_key r = step_key s /\ outcome_selector r = o)) (routes d))
       [SUCCEEDED; FAILED; CANCELLED].

(** [_validate_graph] *)
Definition validate_graph (d : WorkflowDefinition) (steps_by_key : gmap string WorkflowStepDefinition) (adj : adjacency)
    : result unit :=
  let keys := dom steps_by_key in
  let start := start_key_of d in
  check existsb (fun r => bool_decide (from_step_key r = start)) (routes d) else ValueError ;;
  let* state := visit adj (S (size keys)) ∅ start in
  check bool_decide (keys ⊆ dom state) else ValueError ;;
  let terminals := list_to_set (map step_key (List.filter (is_kind TERMINAL) (steps d))) in
  let* reach := cover (reverse_adjacency adj) (S (size keys)) terminals (elements terminals) in
  check bool_decide (keys ⊆ reach) else ValueError ;;
  ensure (forallb (outcome_covered d) (steps d)) ValueError.

(** ** Bindings *)

(** [_can_reach]'s loop.  Every pop either returns, skips or visits a new node, whose
    successors are pushed, so two more than the number of edges is enough fuel. *)
Fixpoint can_reach_loop (adj : adjacency) (target : string) (fuel : nat) (seen : gset string) (pending : list string)
    : result bool :=
  match pending with
  | [] => Ok false
  | current :: pending =>
      match fuel with
      | O => Err OverflowError
      | S fuel =>
          if bool_decide (current = target) then Ok true
          else if bool_decide (current ∈ seen) then can_reach_loop adj target fuel seen pending
          else let seen := {[current]} ∪ seen in
               can_reach_loop adj target fuel seen (elements (targets adj current ∖ seen) ++ pending)
      end
  end.
Definition edge_count (adj : adjacency) : nat := sum_list (map (fun e => size e.2) (map_to_list adj)).
Definition can_reach (adj : adjacency) (source target : string) : result bool :=
  if bool_decide (source = target) then Ok false
  else can_reach_loop adj target (S (S (edge_count adj))) ∅ [source].

(** [_validate_compatible_ports] *)
Definition compatible_ports (a b : WorkflowPortDefinition) : bool :=
  bool_decide (value_type a = value_type b) && bool_decide (schema_ref a = schema_ref b)
  && bool_decide (multiplicity a = multiplicity b).

Definition port_table (ports : WorkflowStepDefinition -> list WorkflowPortDefinition) (d : WorkflowDefinition)
    : list ((string * string) * WorkflowPortDefinition) :=
  concat (map (fun s => map (fun p => ((step_key s, slot_name p), p)) (ports s)) (steps d)).
(** A dict comprehension keeps the last pair of a key. *)
Definition port_lookup (table : list ((string * string) * WorkflowPortDefinition)) (k : string * string)
    : option WorkflowPortDefinition :=
  (list_to_map (rev table) : gmap (string * string) WorkflowPortDefinition) !! k.

(** One iteration of the loop over the bindings. *)
Definition binding_step (d : WorkflowDefinition) (steps_by_key : gmap string WorkflowStepDefinition)
    (context_by_slot : gmap string WorkflowPortDefinition) (adj : adjacency)
    (bound : gset (string * string)) (b : WorkflowBindingDefinition) : result (gset (string * string)) :=
  check match kind_of steps_by_key (target_step_key b) with Some (PROCESS | CONTROL) => true | _ => false end
        else ValueError ;;
  let target_key := (target_step_key b, target_slot_name b) in
  match port_lookup (port_table input_ports d) target_key with
  | None => Err ValueError
  | Some target_port =>
      check negb (bool_decide (target_key ∈ bound)) else ValueError ;;
      let bound := {[target_key]} ∪ bound in
      match source_kind b with
      | PRIOR_OUTPUT =>
          match source_step_key b, source_port_name b with
          | Some source_step, Some source_port =>
              match port_lookup (port_table output_ports d) (source_step, source_port) with
              | None => Err ValueError
              | Some port =>
                  let* upstream := can_reach adj source_step (target_step_key b) in
                  check upstream else ValueError ;;
                  check compatible_ports port target_port else ValueError ;;
                  Ok bound
              end
          | _, _ => Err ValueError
          end
      | kind =>
          match context_by_slot !! default ""%string (source_ref_key b) with
          | Some port => check compatible_ports port target_port else ValueError ;; Ok bound
          | None => check bool_decide (kind <> EXECUTION_CONTEXT) else ValueError ;; Ok bound
          end
      end
  end.

(** [_validate_bindings] *)
Definition validate_bindings (d : WorkflowDefinition) (steps_by_key : gmap string WorkflowStepDefinition)
    (context_by_slot : gmap string WorkflowPortDefinition) (adj : adjacency) : result unit :=
  let* bound := foldM (binding_step d steps_by_key context_by_slot adj) ∅ (bindings d) in
  ensure (forallb (fun kp => negb (required kp.2) || bool_decide (kp.1 ∈ bound)) (port_table input_ports d)) ValueError.

(** Field constraints and nested models are validated first, then [validate_definition]. *)
Definition validate_definition (d : WorkflowDefinition) : result unit :=
  check WorkflowKey (workflow_key d) && (1 <=? revision_number d) && forallb port_fields (context_slots d)
        && forallb WorkflowKey (required_process_keys d) && negb (length (required_process_keys d) =? 0)%nat
        && (3 <=? length (steps d))%nat && (2 <=? length (routes d))%nat else ValueError ;;
  let* _ := forM validate_step (steps d) in
  let* _ := forM validate_route (routes d) in
  let* _ := forM validate_binding (bindings d) in
  let* _ := forM validate_guard (guards d) in
  let* steps_by_key := unique_steps d in
  let* context_by_slot := unique_context_slots d in
  let* guards_by_key := unique_guards d in
  let* _ := validate_required_process_keys d in
  let* adj := validate_routes d steps_by_key guards_by_key in
  let* _ := validate_graph d steps_by_key adj in
  validate_bindings d steps_by_key context_by_slot adj.

(** ** Facts: the depth-first visit *)

Definition edge (adj : adjacency) (a b : string) : Prop := b ∈ targets adj a.

Section visit_facts.
Variable adj : adjacency.
#[local] Abbreviation edge := (edge adj).

(** No infinite walk starts at [k]. *)
Definition grounded : string -> Prop := Acc (fun b a => edge a b).

(** The marks that [visit] leaves: visited nodes are closed under edges and grounded. *)
Record marks_ok (state : gmap string visit_mark) : Prop := {
  mk_closed : forall k t, state !! k = Some visited -> edge k t -> state !! t = Some visited;
  mk_grounded : forall k, state !! k = Some visited -> grounded k
}.

Record extends (state state' : gmap string visit_mark) : Prop := {
  ex_visiting : forall k, state' !! k = Some visiting <-> state !! k = Some visiting;
  ex_visited : forall k, state !! k = Some visited -> state' !! k = Some visited
}.

Lemma extends_refl s : extends s s.
Proof. by split. Qed.

Lemma extends_trans s1 s2 s3 : extends s1 s2 -> extends s2 s3 -> extends s1 s3.
Proof. intros [A1 B1] [A2 B2]. split; [|auto]. intros k. by rewrite A2, A1. Qed.

Definition reached_from (key : string) (state state' : gmap string visit_mark) : Prop :=
  forall k, k ∈ dom state' -> k ∈ dom state \/ rtc edge key k.

Definition visit_post (key : string) (state state' : gmap string visit_mark) : Prop :=
  extends state state' /\ marks_ok state' /\ state' !! key = Some visited /\ reached_from key state state'.

Lemma visit_list_ok f source ts state state' :
  (forall t s s', marks_ok s -> f s t = Ok s' -> visit_post t s s') ->
  (forall t, t ∈ ts -> edge source t) -> marks_ok state -> foldM f state ts = Ok state' ->
  extends state state' /\ marks_ok state' /\ (forall t, t ∈ ts -> state' !! t = Some visited) /\
  reached_from source state state'.
Proof.
  intros Hf. revert state; induction ts as [|t ts IH]; intros state He Hm Hfold; cbn [foldM] in Hfold.
  { injection Hfold as <-. split; [apply extends_refl|]. split; [done|]. split; [by intros t ?%elem_of_nil|]. intros k; by left. }
  apply rbind_Ok in Hfold as (s1 & H1 & Hfold). destruct (Hf _ _ _ Hm H1) as (Hx1 & Hm1 & Ht1 & Hr1).
  destruct (IH s1) as (Hx & Hm' & Hts & Hr); [by intros; apply He; right|done|done|].
  split; [by eapply extends_trans|]. split; [done|]. split.
  - intros t' [->|Hin]%elem_of_cons; [by apply Hx|by apply Hts].
  - intros k Hk. destruct (Hr k Hk) as [Hk1|]; [|by right]. destruct (Hr1 k Hk1) as [|Hp]; [by left|].
    right. eapply rtc_l; [|exact Hp]. apply He. by left.
Qed.

Lemma visit_Ok fuel state key state' :
  marks_ok state -> visit adj fuel state key = Ok state' -> visit_post key state state'.
Proof.
  revert state key state'; induction fuel as [|fuel IH]; intros state key state' Hm Hv; [done|]. cbn [visit] in Hv.
  destruct (state !! key) as [[|]|] eqn:Ek; [done| |].
  { injection Hv as <-. split; [apply extends_refl|]. split; [done|]. split; [done|]. intros k; by left. }
  apply rbind_Ok in Hv as (s1 & Hfold & [= <-]).
  set (s0 := <[key := visiting]> state) in *.
  assert (marks_ok s0) as Hm0.
  { split; intros k; unfold s0.
    - intros t. rewrite !lookup_insert. destruct (decide (key = k)); [done|]. intros Hk Ht.
      pose proof (mk_closed _ Hm _ _ Hk Ht) as Htv. destruct (decide (key = t)) as [<-|]; [congruence|done].
    - rewrite lookup_insert. destruct (decide (key = k)); [done|]. apply Hm. }
  destruct (visit_list_ok (visit adj fuel) key (elements (targets adj key)) s0 s1) as (Hx & Hm1 & Hts & Hr); [|by intros t; rewrite elem_of_elements|done|done|].
  { intros t s s' Hs Hvis. by apply IH. }
  assert (forall t, edge key t -> s1 !! t = Some visited) as Hedge by (intros t Ht; apply Hts; by apply elem_of_elements).
  assert (grounded key) as Hg by (constructor; intros t Ht; apply (mk_grounded _ Hm1); by apply Hedge).
  assert (s1 !! key = Some visiting) as Hkey by (apply Hx; unfold s0; by rewrite lookup_insert_eq).
  split; [|split; [|split]].
  - split; intros k; rewrite lookup_insert.
    + destruct (decide (key = k)) as [<-|Hne]; [by rewrite Ek|]. rewrite (ex_visiting _ _ Hx).
      unfold s0. by rewrite lookup_insert_ne.
    + destruct (decide (key = k)) as [<-|Hne]; [done|]. intros Hk. apply Hx. unfold s0. by rewrite lookup_insert_ne.
  - split; intros k.
    + intros t. rewrite !lookup_insert. destruct (decide (key = t)); [done|].
      destruct (decide (key = k)) as [<-|]; [by intros _ ?; apply Hedge|apply (mk_closed _ Hm1)].
    + rewrite lookup_insert. destruct (decide (key = k)) as [<-|]; [done|apply Hm1].
  - by rewrite lookup_insert_eq.
  - intros k. rewrite dom_insert. intros [->%elem_of_singleton|Hk]%elem_of_union; [right; apply rtc_refl|].
    destruct (Hr k Hk) as [Hk0|]; [|by right]. unfold s0 in Hk0. rewrite dom_insert in Hk0.
    apply elem_of_union in Hk0 as [->%elem_of_singleton|]; [right; apply rtc_refl|by left].
Qed.

(** On a grounded node the visit returns, with fuel for the nodes not yet marked. *)
Definition on_path (state : gmap string visit_mark) (key : string) : Prop :=
  forall v, state !! v = Some visiting -> tc edge v key.

Lemma grounded_irreflexive k : grounded k -> ~ tc edge k k.
Proof.
  induction 1 as [k _ IH]. intros Htc. inversion Htc as [? ? He|? b ? He Hb]; subst; [by apply (IH k)|].
  apply (IH b He). eapply tc_r; eassumption.
Qed.

Variable nodes : gset string.
Hypothesis nodes_closed : forall a b, edge a b -> b ∈ nodes.

Lemma rtc_nodes a b : a ∈ nodes -> rtc edge a b -> b ∈ nodes.
Proof. intros Ha Hr. induction Hr; eauto. Qed.

Lemma visit_list_total fuel source ts state :
  (forall state t, marks_ok state -> t ∈ nodes -> dom state ⊆ nodes -> (size (nodes ∖ dom state) < fuel)%nat ->
     on_path state t -> grounded t -> exists state', visit adj fuel state t = Ok state') ->
  (forall t, t ∈ ts -> edge source t) -> source ∈ nodes -> marks_ok state -> dom state ⊆ nodes ->
  (size (nodes ∖ dom state) < fuel)%nat ->
  (forall v, state !! v = Some visiting -> rtc edge v source) -> (forall t, t ∈ ts -> grounded t) ->
  exists state', foldM (visit adj fuel) state ts = Ok state'.
Proof.
  intros Hv. revert state; induction ts as [|t ts IH]; intros state He Hsrc Hm Hd Hf Hp Hg; [by eexists|]. cbn [foldM].
  assert (edge source t) as Het by (apply He; by left).
  assert (t ∈ nodes) as Htn by (eapply nodes_closed; exact Het).
  assert (on_path state t) as Hpt by (intros v Hvis; eapply tc_rtc_l; [by apply Hp|by apply tc_once]).
  destruct (Hv state t Hm Htn Hd Hf Hpt (Hg t ltac:(by left))) as (s1 & H1).
  rewrite H1. cbn [rbind]. apply visit_Ok in H1 as (Hx & Hm1 & _ & Hr); [|done].
  apply IH; [by intros; apply He; right|exact Hsrc|exact Hm1| | | |by intros; apply Hg; right].
  - intros k Hk. destruct (Hr k Hk) as [|Hk']; [by apply Hd|]. eapply rtc_nodes; [|exact Hk']. by eapply nodes_closed.
  - eapply Nat.le_lt_trans; [|exact Hf]. apply subseteq_size. intros k [Hkn Hkd]%elem_of_difference.
    apply elem_of_difference. split; [done|]. intros Hin. apply Hkd. apply elem_of_dom in Hin as [[|] Hk]; apply elem_of_dom.
    + exists visiting. by apply Hx.
    + exists visited. by apply Hx.
  - intros v Hvis. apply Hp. by apply Hx.
Qed.

(** On a grounded node the visit returns, with fuel for the nodes not yet marked. *)
Lemma visit_total fuel state key :
  marks_ok state -> key ∈ nodes -> dom state ⊆ nodes -> (size (nodes ∖ dom state) < fuel)%nat ->
  on_path state key -> grounded key -> exists state', visit adj fuel state key = Ok state'.
Proof.
  revert state key; induction fuel as [|fuel IH]; intros state key Hm Hk Hd Hf Hp Hg; [lia|]. cbn [visit].
  destruct (state !! key) as [[|]|] eqn:Ek; [|by eexists|].
  { exfalso. apply (grounded_irreflexive _ Hg). by apply Hp. }
  assert (key ∉ dom state) as Hkd by (by apply not_elem_of_dom).
  destruct (visit_list_total fuel key (elements (targets adj key)) (<[key := visiting]> state)) as (s1 & H1);
    [exact IH|by intros t ?%elem_of_elements|exact Hk| | | | | |].
  - split; intros k.
    + intros t. rewrite !lookup_insert. destruct (decide (key = k)); [done|]. intros Hkv Ht.
      pose proof (mk_closed _ Hm _ _ Hkv Ht). by destruct (decide (key = t)) as [<-|]; [congruence|].
    + rewrite lookup_insert. destruct (decide (key = k)); [done|]. apply Hm.
  - rewrite dom_insert. set_solver.
  - rewrite dom_insert_L. assert (nodes ∖ ({[key]} ∪ dom state) = (nodes ∖ dom state) ∖ {[key]}) as -> by set_solver.
    rewrite size_difference by set_solver. rewrite size_singleton. assert (0 < size (nodes ∖ dom state))%nat; [|lia].
    apply Nat.neq_0_lt_0. intros Hz. apply size_empty_inv in Hz. set_solver.
  - intros v. rewrite lookup_insert. destruct (decide (key = v)) as [<-|]; [intros _; apply rtc_refl|].
    intros Hv. by apply tc_rtc, Hp.
  - intros t Ht%elem_of_elements. by apply (Acc_inv Hg).
  - rewrite H1. by eexists.
Qed.

(** With fuel for the nodes not yet marked the visit always answers: it marks nodes, or raises
    [ValueError]. *)
Definition answers (state : gmap string visit_mark) (r : result (gmap string visit_mark)) : Prop :=
  match r with Ok state' => dom state ⊆ dom state' /\ dom state' ⊆ nodes | Err e => e = ValueError end.
Definition enough (fuel : nat) (state : gmap string visit_mark) : Prop := dom state ⊆ nodes /\ (size (nodes ∖ dom state) < fuel)%nat.

Lemma enough_more fuel state state' : enough fuel state -> dom state ⊆ dom state' -> dom state' ⊆ nodes -> enough fuel state'.
Proof. intros [_ Hf] Hsub Hn. split; [done|]. eapply Nat.le_lt_trans; [apply subseteq_size|exact Hf]. set_solver. Qed.
Lemma visit_list_answers fuel ts state :
  (forall state t, t ∈ nodes -> enough fuel state -> answers state (visit adj fuel state t)) ->
  (forall t, t ∈ ts -> t ∈ nodes) -> enough fuel state -> answers state (foldM (visit adj fuel) state ts).
Proof.
  intros Hv. revert state; induction ts as [|t ts IH]; intros state Hn He; cbn [foldM]; [by split; [|apply He]|].
  pose proof (Hv state t ltac:(apply Hn; by left) He) as H1. destruct (visit adj fuel state t) as [s1|e]; cbn [rbind answers] in *; [|done].
  destruct H1 as [Hs Hn1]. pose proof (IH s1 ltac:(intros; apply Hn; by right) (enough_more _ _ _ He Hs Hn1)) as H2.
  destruct (foldM _ s1 ts) as [s2|e]; cbn [answers] in *; [|done]. split; [by etrans; [|apply H2]|apply H2].
Qed.
Lemma visit_answers fuel state key : key ∈ nodes -> enough fuel state -> answers state (visit adj fuel state key).
Proof.
  revert state key; induction fuel as [|fuel IH]; intros state key Hk [Hd Hf]; [lia|]. cbn [visit].
  destruct (state !! key) as [[|]|] eqn:Ek; [done|by split|]. apply not_elem_of_dom in Ek.
  pose proof (visit_list_answers fuel (elements (targets adj key)) (<[key := visiting]> state) IH) as Hl.
  assert (dom (<[key := visiting]> state) = {[key]} ∪ dom state) as Ed by apply dom_insert_L.
  assert (enough fuel (<[key := visiting]> state)) as He.
  { split; [rewrite Ed; set_solver|]. rewrite Ed. assert (nodes ∖ ({[key]} ∪ dom state) = (nodes ∖ dom state) ∖ {[key]}) as -> by set_solver.
    rewrite size_difference by set_solver. rewrite size_singleton. assert (size (nodes ∖ dom state) <> 0)%nat; [|lia]. intros Hz%size_empty_inv. set_solver. }
  specialize (Hl ltac:(intros t Ht%elem_of_elements; by eapply nodes_closed) He).
  destruct (foldM _ _ _) as [s1|e]; cbn [rbind answers] in *; [|done]. rewrite dom_insert_L. set_solver.
Qed.

Lemma marks_empty : marks_ok ∅.
Proof. split; intros k; by rewrite lookup_empty. Qed.

(** The visit of a whole graph: it returns exactly on a grounded start, and then its marks
    are the reachable nodes. *)
Lemma visit_start fuel start :
  start ∈ nodes -> (size nodes < fuel)%nat ->
  ((exists state, visit adj fuel ∅ start = Ok state) <-> grounded start) /\
  forall state, visit adj fuel ∅ start = Ok state -> forall k, k ∈ dom state <-> rtc edge start k.
Proof.
  intros Hs Hf. split; [split|].
  - intros [state Hv]. apply visit_Ok in Hv as (_ & Hm & Hk & _); [|apply marks_empty]. by eapply mk_grounded.
  - intros Hg. apply visit_total; [apply marks_empty|exact Hs|rewrite dom_empty; set_solver|by rewrite dom_empty_L, difference_empty_L| |exact Hg].
    intros v. by rewrite lookup_empty.
  - intros state Hv k. apply visit_Ok in Hv as (Hx & Hm & Hk & Hr); [|apply marks_empty]. split.
    + intros Hin. destruct (Hr k Hin) as [H0|]; [|done]. rewrite dom_empty in H0. set_solver.
    + intros Hpath. apply elem_of_dom. exists visited. clear -Hm Hk Hpath. revert Hk.
      induction Hpath as [x|x y z He _ IH]; [done|]. intros Hx. apply IH. by eapply mk_closed.
Qed.
End visit_facts.

(** ** Facts: the worklists *)

Section cover_facts.
Variable radj : adjacency.
Variable nodes : gset string.
Hypothesis sources_in : forall t s, s ∈ targets radj t -> s ∈ nodes.

Lemma cover_sources_fold ss reach pending reach' pending' :
  foldl cover_sources (reach, pending) ss = (reach', pending') ->
  (forall s, s ∈ ss -> s ∈ nodes) ->
  (forall x, x ∈ reach' <-> x ∈ reach \/ x ∈ ss) /\
  (forall x, x ∈ pending -> x ∈ pending') /\ (forall x, x ∈ pending' -> x ∈ pending \/ x ∈ ss) /\
  (forall x, x ∈ ss -> x ∉ reach -> x ∈ pending') /\
  (size (nodes ∖ reach') + length pending' <= size (nodes ∖ reach) + length pending)%nat.
Proof.
  revert reach pending; induction ss as [|s ss IH]; intros reach pending Hf Hn; cbn [foldl] in Hf.
  { injection Hf as <- <-. split; [set_solver|]. split; [done|]. split; [by left|]. split; [set_solver|lia]. }
  assert (forall s, s ∈ ss -> s ∈ nodes) as Hn' by (intros; apply Hn; by right).
  assert (s ∈ nodes) as Hs by (apply Hn; by left).
  unfold cover_sources at 2 in Hf. cbn [fst snd] in Hf.
  destruct (bool_decide (s ∈ reach)) eqn:E.
  - apply bool_decide_eq_true in E. destruct (IH _ _ Hf Hn') as (H1 & H2 & H3 & H4 & H5).
    split; [set_solver|]. split; [done|]. split; [set_solver|]. split; [set_solver|done].
  - apply bool_decide_eq_false in E. destruct (IH _ _ Hf Hn') as (H1 & H2 & H3 & H4 & H5).
    split; [set_solver|]. split; [set_solver|]. split; [set_solver|]. split; [set_solver|].
    assert (size (nodes ∖ ({[s]} ∪ reach)) + 1 <= size (nodes ∖ reach))%nat; [|simpl in H5; lia].
    assert (nodes ∖ ({[s]} ∪ reach) = (nodes ∖ reach) ∖ {[s]}) as -> by set_solver.
    rewrite size_difference by set_solver. rewrite size_singleton.
    assert (size (nodes ∖ reach) <> 0)%nat; [|lia]. intros Hz. apply size_empty_inv in Hz. set_solver.
Qed.

(** [can s t]: from [s] the edges lead to [t]; [radj] lists the sources of a target. *)
Definition source_of (s t : string) : Prop := s ∈ targets radj t.

Lemma cover_spec fuel reach pending :
  (size (nodes ∖ reach) + length pending <= fuel)%nat -> (forall x, x ∈ pending -> x ∈ reach) ->
  (forall t s, t ∈ reach -> t ∉ pending -> source_of s t -> s ∈ reach) ->
  exists reach', cover radj fuel reach pending = Ok reach' /\
    (forall x, x ∈ reach' <-> exists t, t ∈ reach /\ rtc source_of x t).
Proof.
  revert reach pending; induction fuel as [|fuel IH]; intros reach pending Hf Hp Hc; (destruct pending as [|t pending];
    [|try (simpl in Hf; lia)]).
  1,2: exists reach; split; [done|]; intros x; split; [by exists x; split; [|apply rtc_refl]|];
    intros (t & Ht & Hr); induction Hr as [|x y z Hxy _ IHr]; [done|]; eapply Hc; [by apply IHr|apply not_elem_of_nil|exact Hxy].
  cbn [cover]. destruct (foldl cover_sources (reach, pending) (elements (targets radj t))) as [reach1 pending1] eqn:Ef.
  apply cover_sources_fold in Ef as (H1 & H2 & H3 & H4 & H5); [|intros s Hs; rewrite elem_of_elements in Hs; by eapply sources_in].
  destruct (IH reach1 pending1) as (reach' & -> & Hspec).
  - simpl in Hf. lia.
  - intros x Hx. apply H1. destruct (H3 x Hx) as [|]; [left; apply Hp; by right|by right].
  - intros t' s Ht' Hnp Hs. apply H1 in Ht' as [Ht'|Ht'].
    + destruct (decide (t' = t)) as [->|Hne]; [apply H1; right; by apply elem_of_elements|].
      apply H1. left. apply (Hc t'); [done| |done]. intros [->|Hin]%elem_of_cons; [done|]. apply Hnp. by apply H2.
    + destruct (decide (t' ∈ reach)) as [Hin|Hni]; [|exfalso; by apply Hnp, H4].
      destruct (decide (t' = t)) as [->|Hne]; [apply H1; right; by apply elem_of_elements|].
      apply H1. left. apply (Hc t'); [done| |done]. intros [->|Hin']%elem_of_cons; [done|]. apply Hnp. by apply H2.
  - exists reach'. split; [done|]. intros x. rewrite Hspec. split.
    + intros (t' & Ht' & Hr). apply H1 in Ht' as [Ht'|Ht']; [by exists t'|].
      exists t. split; [apply Hp; by left|]. eapply rtc_r; [exact Hr|]. by apply elem_of_elements in Ht'.
    + intros (t' & Ht' & Hr). exists t'. split; [apply H1; by left|done].
Qed.
End cover_facts.

Section reverse_facts.

Lemma targets_add_edge adj a b k : targets (add_edge adj a b) k = if decide (k = a) then {[b]} ∪ targets adj k else targets adj k.
Proof.
  unfold add_edge, targets. destruct (decide (k = a)) as [->|Hne].
  - by rewrite lookup_insert_eq.
  - by rewrite lookup_insert_ne.
Qed.

Lemma reverse_targets a l rev t s :
  s ∈ targets (foldl (fun rev t => add_edge rev t a) rev l) t <-> s ∈ targets rev t \/ (s = a /\ t ∈ l).
Proof.
  revert rev; induction l as [|x l IH]; intros rev; cbn [foldl]; [set_solver|]. rewrite IH, targets_add_edge.
  destruct (decide (t = x)) as [->|]; set_solver.
Qed.

Lemma reverse_adjacency_spec adj t s : s ∈ targets (reverse_adjacency adj) t <-> edge adj s t.
Proof.
  unfold reverse_adjacency.
  assert (forall l rev, s ∈ targets (foldl (fun rev e => foldl (fun rev t => add_edge rev t e.1) rev (elements e.2)) rev l) t <->
    s ∈ targets rev t \/ exists ts, (s, ts) ∈ l /\ t ∈ (ts : gset string)) as Hgen.
  { induction l as [|[a ts] l IH]; intros rev; cbn [foldl fst snd].
    - split; [by left|]. intros [|(ts & Hin & _)]; [done|by apply elem_of_nil in Hin].
    - rewrite IH, reverse_targets, elem_of_elements. split.
      + intros [[|[-> Ht]]|(ts' & Hin & Ht)]; [by left|right; exists ts; split; [left|done]|].
        right. exists ts'. split; [by right|done].
      + intros [|(ts' & Hin & Ht)]; [by left; left|]. apply elem_of_cons in Hin as [[= -> ->]|Hin]; [by left; right|].
        right. by exists ts'. }
  rewrite Hgen. unfold edge, targets. rewrite lookup_empty. cbn [default]. split.
  - intros [Hin|(ts & Hin & Ht)]; [set_solver|]. apply elem_of_map_to_list in Hin. by rewrite Hin.
  - intros Ht. right. destruct (adj !! s) as [ts|] eqn:Es; cbn [default] in Ht; [|set_solver].
    exists ts. split; [by apply elem_of_map_to_list|done].
Qed.

Lemma source_of_edge adj s t : source_of (reverse_adjacency adj) s t <-> edge adj s t.
Proof. apply reverse_adjacency_spec. Qed.

Lemma rtc_source_of adj x t : rtc (source_of (reverse_adjacency adj)) x t <-> rtc (edge adj) x t.
Proof.
  split; (induction 1 as [|a b c He _ IH]; [apply rtc_refl|]; eapply rtc_l; [|exact IH]); by apply source_of_edge.
Qed.
End reverse_facts.

Section reach_facts.
Variable adj : adjacency.

(** The edges that leave nodes not yet seen. *)
Definition weight_list (seen : gset string) (l : list (string * gset string)) : nat :=
  sum_list (map (fun e => if decide (e.1 ∈ seen) then 0%nat else size e.2) l).

Lemma weight_list_insert seen l k ts :
  NoDup l.*1 -> (k, ts) ∈ l -> k ∉ seen -> weight_list seen l = (size ts + weight_list ({[k]} ∪ seen) l)%nat.
Proof.
  assert (forall l, k ∉ l.*1 -> weight_list ({[k]} ∪ seen) l = weight_list seen l) as Hout.
  { clear l. induction l as [|[a us] l IH]; intros Hn; [done|]. cbn in Hn. apply not_elem_of_cons in Hn as [Hne Hn].
    unfold weight_list in *. cbn. rewrite (IH Hn). destruct (decide (a ∈ seen)), (decide (a ∈ {[k]} ∪ seen)); set_solver. }
  induction l as [|[a us] l IH]; intros Hnd Hin Hk; [by apply elem_of_nil in Hin|]. cbn in Hnd. inversion_clear Hnd as [|? ? Hna Hnd'].
  apply elem_of_cons in Hin as [[= <- <-]|Hin].
  - unfold weight_list at 1 2. cbn. fold (weight_list seen l) (weight_list ({[k]} ∪ seen) l). rewrite (Hout l Hna).
    rewrite decide_False by done. rewrite decide_True by set_solver. lia.
  - assert (a <> k) as Hne by (intros ->; apply Hna; apply list_elem_of_fmap; by exists (k, ts)).
    unfold weight_list at 1 2. cbn. fold (weight_list seen l) (weight_list ({[k]} ∪ seen) l). rewrite (IH Hnd' Hin Hk).
    destruct (decide (a ∈ seen)), (decide (a ∈ {[k]} ∪ seen)); set_solver by lia.
Qed.

Definition weight (seen : gset string) : nat := weight_list seen (map_to_list adj).

Lemma weight_insert seen k : k ∉ seen -> weight seen = (size (targets adj k) + weight ({[k]} ∪ seen))%nat.
Proof.
  intros Hk. unfold weight. destruct (adj !! k) as [ts|] eqn:E.
  - unfold targets. rewrite E. cbn [default]. apply weight_list_insert; [apply NoDup_fst_map_to_list|by apply elem_of_map_to_list|done].
  - unfold targets. rewrite E. cbn [default]. rewrite size_empty. cbn. unfold weight_list. f_equal. apply map_ext_in.
    intros [a us] Hin. apply list_elem_of_In, elem_of_map_to_list in Hin. cbn.
    assert (a <> k) by (intros ->; congruence). destruct (decide (a ∈ seen)), (decide (a ∈ {[k]} ∪ seen)); set_solver.
Qed.

(** A seen node leads out of the seen set only through the pending ones. *)
Lemma frontier target (seen : gset string) (pending : list string) x :
  target ∉ seen -> (forall a b, a ∈ seen -> edge adj a b -> b ∈ seen \/ b ∈ pending) ->
  x ∈ seen -> rtc (edge adj) x target -> exists p, p ∈ pending /\ rtc (edge adj) p target.
Proof.
  intros Ht Hc Hin Hpt. induction Hpt as [x|x y z Hxy Hyz IHp]; [done|].
  destruct (Hc x y Hin Hxy) as [Hys|Hyp]; [by apply IHp|by exists y].
Qed.

Lemma can_reach_loop_spec target fuel seen pending :
  (length pending + weight seen < fuel)%nat -> target ∉ seen ->
  (forall a b, a ∈ seen -> edge adj a b -> b ∈ seen \/ b ∈ pending) ->
  exists r, can_reach_loop adj target fuel seen pending = Ok r /\
    (r = true <-> exists p, p ∈ pending /\ rtc (edge adj) p target).
Proof.
  revert seen pending; induction fuel as [|fuel IH]; intros seen pending Hf Ht Hc; [lia|].
  destruct pending as [|c pending].
  { exists false. split; [done|]. split; [done|]. by intros (p & Hp%elem_of_nil & _). }
  cbn [can_reach_loop]. destruct (decide (c = target)) as [->|Hne].
  { rewrite bool_decide_true by done. exists true. split; [done|]. split; [|done]. intros _. exists target. split; [left|apply rtc_refl]. }
  rewrite (bool_decide_false (c = target)) by done.
  destruct (decide (c ∈ seen)) as [Hin|Hni].
  - rewrite bool_decide_true by done.
    assert (forall a b, a ∈ seen -> edge adj a b -> b ∈ seen \/ b ∈ pending) as Hc'.
    { intros a b Ha Hab. destruct (Hc a b Ha Hab) as [|[->|]%elem_of_cons]; auto. }
    destruct (IH seen pending) as (r & -> & Hr); [simpl in Hf; lia|done|done|].
    exists r. split; [done|]. rewrite Hr. split; [intros (p & Hp & Hpt); exists p; split; [by right|done]|].
    intros (p & [->|Hp]%elem_of_cons & Hpt); [by eapply frontier|by exists p].
  - rewrite bool_decide_false by done. set (seen' := {[c]} ∪ seen).
    set (pending' := elements (targets adj c ∖ seen') ++ pending).
    assert (target ∉ seen') as Ht' by (unfold seen'; set_solver).
    assert (forall a b, a ∈ seen' -> edge adj a b -> b ∈ seen' \/ b ∈ pending') as Hc'.
    { intros a b Ha Hab. destruct (decide (b ∈ seen')) as [|Hnb]; [by left|]. right. apply elem_of_app.
      unfold seen' in Ha. apply elem_of_union in Ha as [->%elem_of_singleton|Ha].
      - left. apply elem_of_elements, elem_of_difference. done.
      - right. destruct (Hc a b Ha Hab) as [|[->|]%elem_of_cons]; [| |done]; exfalso; apply Hnb; unfold seen'; set_solver. }
    destruct (IH seen' pending') as (r & -> & Hr); [|done|done|].
    + unfold pending'. simpl in Hf. rewrite length_app. rewrite (weight_insert _ _ Hni) in Hf. fold seen' in Hf.
      assert (length (elements (targets adj c ∖ seen')) <= size (targets adj c))%nat; [|lia].
      change (size (targets adj c ∖ seen') <= size (targets adj c))%nat. apply subseteq_size. set_solver.
    + exists r. split; [done|]. rewrite Hr. split.
      * intros (p & Hp & Hpt). apply elem_of_app in Hp as [Hp|Hp]; [|exists p; split; [by right|done]].
        exists c. split; [left|]. apply elem_of_elements, elem_of_difference in Hp as [Hp _]. by eapply rtc_l.
      * intros (p & [->|Hp]%elem_of_cons & Hpt); [|exists p; split; [apply elem_of_app; by right|done]].
        eapply (frontier target seen' pending' c); [done|done|unfold seen'; set_solver|done].
Qed.

(** [can_reach] is reachability between distinct nodes. *)
Lemma can_reach_spec source target :
  exists r, can_reach adj source target = Ok r /\ (r = true <-> source <> target /\ rtc (edge adj) source target).
Proof.
  unfold can_reach. destruct (decide (source = target)) as [->|Hne].
  { rewrite bool_decide_true by done. exists false. split; [done|]. split; [done|]. by intros [? _]. }
  rewrite bool_decide_false by done.
  assert (weight ∅ = edge_count adj) as Hw.
  { done. }
  destruct (can_reach_loop_spec target (S (S (edge_count adj))) ∅ [source]) as (r & -> & Hr);
    [rewrite Hw; simpl; lia|apply not_elem_of_empty|intros a b Ha; by apply not_elem_of_empty in Ha|].
  exists r. split; [done|]. rewrite Hr. split.
  - intros (p & ->%list_elem_of_singleton & Hp). done.
  - intros [_ Hp]. exists source. split; [by apply list_elem_of_singleton|done].
Qed.
End reach_facts.

(** ** Facts: tables and routes *)

Section table_facts.

Lemma by_key_spec {A} (key : A -> string) (l : list A) k a :
  NoDup (map key l) -> (by_key key l !! k = Some a <-> a ∈ l /\ key a = k).
Proof.
  intros Hnd. unfold by_key.
  assert (NoDup (map (fun a => (key a, a)) (rev l)).*1) as Hnd'.
  { assert (forall l', (map (fun a => (key a, a)) l').*1 = map key l') as -> by (induction l' as [|x l' IH]; [done|cbn; f_equal; exact IH]).
    rewrite map_rev. by rewrite <-Permutation_rev. }
  rewrite <-elem_of_list_to_map by done. rewrite list_elem_of_fmap. split.
  - intros (x & [= -> ->] & Hx). split; [|done]. apply list_elem_of_In. by apply in_rev, list_elem_of_In.
  - intros [Ha <-]. exists a. split; [done|]. apply list_elem_of_In. apply (proj1 (in_rev _ _)). by apply list_elem_of_In.
Qed.

Lemma unique_true l : unique l = true <-> NoDup l.
Proof. apply bool_decide_eq_true. Qed.

(** The graph that the routes of a definition draw. *)
Definition route_edge (d : WorkflowDefinition) (a b : string) : Prop :=
  exists r, r ∈ routes d /\ from_step_key r = a /\ to_step_key r = b.

Definition route_priority (r : WorkflowRouteDefinition) : string * WorkflowOutcomeSelector * Z :=
  (from_step_key r, outcome_selector r, priority r).

(** What one accepted route satisfies. *)
Record route_valid (sbk : gmap string WorkflowStepDefinition) (gbk : gmap string WorkflowGuardDefinition) (start : string)
    (r : WorkflowRouteDefinition) : Prop := {
  rv_from : exists s, sbk !! from_step_key r = Some s /\ step_kind s <> TERMINAL;
  rv_to : exists s, sbk !! to_step_key r = Some s /\ (route_kind r = RK_TERMINAL <-> step_kind s = TERMINAL);
  rv_loop : from_step_key r <> to_step_key r;
  rv_always : outcome_selector r = ALWAYS -> route_guard r <> None -> from_step_key r = start;
  rv_guard : forall g, route_guard r = Some g -> g ∈ dom gbk
}.

Lemma route_step_Ok sbk gbk start st r st' :
  route_step sbk gbk start st r = Ok st' ->
  route_valid sbk gbk start r /\ (route_priority r ∉ rs_priorities st) /\
  rs_adjacency st' = add_edge (rs_adjacency st) (from_step_key r) (to_step_key r) /\
  rs_priorities st' = route_priority r :: rs_priorities st /\
  rs_guards st' = match route_guard r with Some g => {[g]} ∪ rs_guards st | None => rs_guards st end.
Proof.
  unfold route_step, kind_of. destruct (sbk !! from_step_key r) as [s1|] eqn:E1; [|done].
  destruct (sbk !! to_step_key r) as [s2|] eqn:E2; [|done]. cbn [fmap option_fmap option_map].
  intros Hr. inv_res. breflect. split; [|done].
  match goal with Hk : eqb _ _ = true |- _ => apply eqb_prop in Hk; rename Hk into Hkind end.
  match goal with Hk : opt_ok _ _ = true |- _ => rename Hk into Hguard end.
  match goal with Hk : _ && _ = false |- _ => rename Hk into Halways end.
  split; try done.
  - by exists s1.
  - exists s2. split; [done|].
    rewrite <-(bool_decide_eq_true (route_kind r = RK_TERMINAL)), <-(bool_decide_eq_true (step_kind s2 = TERMINAL)).
    by rewrite Hkind.
  - intros Ha Hg. rewrite bool_decide_true in Halways by done. destruct (route_guard r); [|done].
    cbn in Halways. apply negb_false_iff, bool_decide_eq_true in Halways. done.
  - intros g Hg. rewrite Hg in Hguard. cbn in Hguard. apply elem_of_dom. destruct (gbk !! g); [by eexists|done].
Qed.

Record routes_valid (d : WorkflowDefinition) (sbk : gmap string WorkflowStepDefinition)
    (gbk : gmap string WorkflowGuardDefinition) (adj : adjacency) : Prop := {
  rd_routes : Forall (route_valid sbk gbk (start_key_of d)) (routes d);
  rd_priorities : NoDup (map route_priority (routes d));
  rd_edges : forall a b, edge adj a b <-> route_edge d a b;
  rd_guards : forall g, g ∈ dom gbk <-> exists r, r ∈ routes d /\ route_guard r = Some g;
  rd_keys : NoDup (map route_key (routes d))
}.

Lemma validate_routes_Ok d sbk gbk adj : validate_routes d sbk gbk = Ok adj -> routes_valid d sbk gbk adj.
Proof.
  unfold validate_routes. intros Hv. apply rbind_Ok in Hv as ([] & Hu%ensure_Ok%unique_true & Hv).
  apply rbind_Ok in Hv as (st & Hf & Hv). apply rbind_Ok in Hv as ([] & Hg%ensure_Ok%bool_decide_eq_true & [= <-]).
  assert (Forall (route_valid sbk gbk (start_key_of d)) (routes d) /\ NoDup (map route_priority (routes d)) /\
    (forall p, p ∈ rs_priorities st <-> p ∈ map route_priority (routes d)) /\
    (forall a b, edge (rs_adjacency st) a b <-> exists r, r ∈ routes d /\ from_step_key r = a /\ to_step_key r = b) /\
    (forall g, g ∈ rs_guards st <-> exists r, r ∈ routes d /\ route_guard r = Some g)) as (H1 & H2 & _ & H4 & H5).
  { apply (foldM_inv (fun pre st => Forall (route_valid sbk gbk (start_key_of d)) pre /\ NoDup (map route_priority pre) /\
      (forall p, p ∈ rs_priorities st <-> p ∈ map route_priority pre) /\
      (forall a b, edge (rs_adjacency st) a b <-> exists r, r ∈ pre /\ from_step_key r = a /\ to_step_key r = b) /\
      (forall g, g ∈ rs_guards st <-> exists r, r ∈ pre /\ route_guard r = Some g))
      (route_step sbk gbk (start_key_of d)) (routes d) (Build_route_state ∅ [] ∅) st); [|clear|exact Hf].
    - split; [constructor|]. split; [constructor|]. split; [done|]. split.
      + intros a b. unfold edge, targets. cbn. rewrite lookup_empty. cbn. split; [intros Hb; by apply not_elem_of_empty in Hb|].
        by intros (r & Hr%elem_of_nil & _).
      + intros g. cbn. split; [intros Hb; by apply not_elem_of_empty in Hb|]. by intros (r & Hr%elem_of_nil & _).
    - intros pre r post t t' _ (H1 & H2 & H3 & H4 & H5) Hs. apply route_step_Ok in Hs as (Hv & Hn & Ha & Hp & Hg).
      split; [apply Forall_app; split; [done|by constructor]|]. rewrite map_app. split; [|split; [|split]].
      + apply NoDup_app. split; [done|]. split; [|apply NoDup_singleton]. intros p Hp' ->%list_elem_of_singleton.
        apply Hn. by apply H3.
      + intros p. rewrite Hp, elem_of_app, elem_of_cons, H3. cbn [map]. rewrite list_elem_of_singleton. tauto.
      + intros a b. unfold edge. rewrite Ha, targets_add_edge. setoid_rewrite elem_of_app. setoid_rewrite list_elem_of_singleton.
        pose proof (H4 a b) as H4ab. unfold edge in H4ab. destruct (decide (a = from_step_key r)) as [->|Hne].
        * rewrite elem_of_union, elem_of_singleton, H4ab. split.
          -- intros [->|(r' & ? & ? & ?)]; [exists r; auto|exists r'; auto].
          -- intros (r' & [Hin| ->] & Hf' & Ht'); [right; by exists r'|by left].
        * rewrite H4ab. split; [intros (r' & ? & ? & ?); exists r'; auto|].
          intros (r' & [Hin| ->] & Hf' & Ht'); [by exists r'|congruence].
      + intros g. rewrite Hg. setoid_rewrite elem_of_app. setoid_rewrite list_elem_of_singleton.
        destruct (route_guard r) as [g'|] eqn:Eg.
        * rewrite elem_of_union, elem_of_singleton, H5. split.
          -- intros [->|(r' & ? & ?)]; [exists r; auto|exists r'; auto].
          -- intros (r' & [Hin| ->] & Hr'); [right; by exists r'|left; congruence].
        * rewrite H5. split; [intros (r' & ? & ?); exists r'; auto|].
          intros (r' & [Hin| ->] & Hr'); [by exists r'|congruence]. }
  split; try done. intros g. by rewrite Hg.
Qed.
End table_facts.

(** ** Facts: the graph validator *)

Section graph_facts.
Context (d : WorkflowDefinition) (sbk : gmap string WorkflowStepDefinition).
Context (Hsteps : unique_steps d = Ok sbk).

Lemma steps_by_key k s : sbk !! k = Some s <-> s ∈ steps d /\ step_key s = k.
Proof using Hsteps.
  unfold unique_steps in Hsteps. apply rbind_Ok in Hsteps as ([] & Hu%ensure_Ok%unique_true & Hs).
  apply rbind_Ok in Hs as ([] & _ & Hs). apply rbind_Ok in Hs as ([] & _ & [= <-]). by apply by_key_spec.
Qed.

Lemma step_keys k : k ∈ dom sbk <-> exists s, s ∈ steps d /\ step_key s = k.
Proof using Hsteps. rewrite elem_of_dom. split; intros [s Hs]; exists s; by apply steps_by_key. Qed.

Lemma start_step : exists s, s ∈ steps d /\ step_kind s = START /\ step_key s = start_key_of d /\
  forall s', s' ∈ steps d -> step_kind s' = START -> s' = s.
Proof using Hsteps.
  pose proof Hsteps as Hs. unfold unique_steps in Hs. apply rbind_Ok in Hs as ([] & _ & Hs).
  apply rbind_Ok in Hs as ([] & Hl%ensure_Ok%Nat.eqb_eq & _). unfold start_key_of.
  destruct (List.filter (is_kind START) (steps d)) as [|s [|]] eqn:Ef; try done.
  assert (forall s', s' ∈ steps d -> step_kind s' = START -> s' = s) as Hun.
  { intros s' Hin Hk. assert (In s' (List.filter (is_kind START) (steps d))) as Hf.
    { apply filter_In. split; [by apply list_elem_of_In|]. unfold is_kind. by rewrite bool_decide_true. }
    rewrite Ef in Hf. by destruct Hf as [->|[]]. }
  assert (In s (List.filter (is_kind START) (steps d))) as [Hin Hk]%filter_In by (rewrite Ef; by left).
  unfold is_kind in Hk. apply bool_decide_eq_true in Hk.
  exists s. split; [by apply list_elem_of_In|]. done.
Qed.

Lemma terminal_exists : exists s, s ∈ steps d /\ step_kind s = TERMINAL.
Proof using Hsteps.
  pose proof Hsteps as Hs. unfold unique_steps in Hs. apply rbind_Ok in Hs as ([] & _ & Hs).
  apply rbind_Ok in Hs as ([] & _ & Hs). apply rbind_Ok in Hs as ([] & Hl%ensure_Ok & _).
  apply existsb_exists in Hl as (s & Hin & Hk%bool_decide_eq_true). exists s. split; [by apply list_elem_of_In|done].
Qed.

Definition terminal_key (t : string) : Prop := exists s, s ∈ steps d /\ step_kind s = TERMINAL /\ step_key s = t.

Lemma terminal_keys t :
  t ∈ (list_to_set (map step_key (List.filter (is_kind TERMINAL) (steps d))) : gset string) <-> terminal_key t.
Proof.
  rewrite elem_of_list_to_set, list_elem_of_fmap. split.
  - intros (s & -> & Hs). apply list_elem_of_In, filter_In in Hs as [Hin Hk%bool_decide_eq_true].
    exists s. split; [by apply list_elem_of_In|done].
  - intros (s & Hin & Hk & <-). exists s. split; [done|]. apply list_elem_of_In, filter_In.
    split; [by apply list_elem_of_In|]. unfold is_kind. by rewrite bool_decide_true.
Qed.

Context (gbk : gmap string WorkflowGuardDefinition) (adj : adjacency).
Context (Hroutes : validate_routes d sbk gbk = Ok adj).

Lemma edge_closed a b : edge adj a b -> a ∈ dom sbk /\ b ∈ dom sbk.
Proof using Hroutes.
  pose proof (validate_routes_Ok _ _ _ _ Hroutes) as [Hr _ He _ _]. rewrite He. intros (r & Hin & <- & <-).
  rewrite Forall_forall in Hr. destruct (rv_from _ _ _ _ (Hr r Hin)) as (s1 & H1 & _).
  destruct (rv_to _ _ _ _ (Hr r Hin)) as (s2 & H2 & _). split; apply elem_of_dom; by eexists.
Qed.

Lemma start_in : start_key_of d ∈ dom sbk.
Proof using Hsteps. destruct start_step as (s & Hin & _ & <- & _). apply step_keys. by exists s. Qed.

(** The reachable part of the graph is visited, or a cycle is found. *)
Lemma visit_graph :
  ((exists state, visit adj (S (size (dom sbk))) ∅ (start_key_of d) = Ok state) <-> grounded adj (start_key_of d)) /\
  forall state, visit adj (S (size (dom sbk))) ∅ (start_key_of d) = Ok state ->
    forall k, k ∈ dom state <-> rtc (edge adj) (start_key_of d) k.
Proof using Hsteps Hroutes.
  apply (visit_start adj (dom sbk)); [by intros a b [_ ?]%edge_closed|apply start_in|lia].
Qed.

(** The validator answers: it accepts, or it raises [ValueError]. *)
Lemma visit_graph_answers : match visit adj (S (size (dom sbk))) ∅ (start_key_of d) with Ok _ => True | Err e => e = ValueError end.
Proof using Hsteps Hroutes.
  assert (forall a b, edge adj a b -> b ∈ dom sbk) as Hc by (by intros a b [_ ?]%edge_closed).
  pose proof (visit_answers adj (dom sbk) Hc (S (size (dom sbk))) ∅ (start_key_of d) start_in) as Hv.
  destruct (visit _ _ _ _); [done|]. apply Hv. split; [by rewrite dom_empty|]. rewrite dom_empty_L, difference_empty_L. lia.
Qed.

(** The coverage loop returns the steps from which a terminal can be reached. *)
Lemma cover_graph :
  let terminals : gset string := list_to_set (map step_key (List.filter (is_kind TERMINAL) (steps d))) in
  exists reach, cover (reverse_adjacency adj) (S (size (dom sbk))) terminals (elements terminals) = Ok reach /\
    forall k, k ∈ reach <-> exists t, terminal_key t /\ rtc (edge adj) k t.
Proof using Hsteps Hroutes.
  intros terminals.
  destruct (cover_spec (reverse_adjacency adj) (dom sbk)
    (fun t s Hs => proj1 (edge_closed _ _ (proj1 (reverse_adjacency_spec adj t s) Hs)))
    (S (size (dom sbk))) terminals (elements terminals)) as (reach & Hc & Hr).
  - change (length (elements terminals)) with (size terminals).
    assert (terminals ⊆ dom sbk) as Hsub.
    { intros t (s & Hin & _ & <-)%terminal_keys. apply step_keys. by exists s. }
    rewrite size_difference by done. pose proof (subseteq_size _ _ Hsub). lia.
  - by intros x ?%elem_of_elements.
  - intros t s Ht Hn. exfalso. apply Hn. by apply elem_of_elements.
  - exists reach. split; [done|]. intros k. rewrite Hr. setoid_rewrite rtc_source_of.
    split; intros (t & Ht & Hp); exists t; (split; [by apply terminal_keys|done]).
Qed.
End graph_facts.

(** ** Properties *)

Lemma validate_graph_iff_aux d sbk gbk adj :
  unique_steps d = Ok sbk -> validate_routes d sbk gbk = Ok adj ->
  validate_graph d sbk adj = Ok tt <->
    (exists r, r ∈ routes d /\ from_step_key r = start_key_of d) /\
    Acc (fun b a => route_edge d a b) (start_key_of d) /\
    (forall s, s ∈ steps d -> rtc (route_edge d) (start_key_of d) (step_key s)) /\
    (forall s, s ∈ steps d -> exists t, terminal_key d t /\ rtc (route_edge d) (step_key s) t) /\
    forallb (outcome_covered d) (steps d) = true.
Proof.
  intros Hs Hr. pose proof (rd_edges _ _ _ _ (validate_routes_Ok _ _ _ _ Hr)) as Hedge.
  destruct (visit_graph d sbk Hs gbk adj Hr) as [Hvis Hdom].
  destruct (cover_graph d sbk Hs gbk adj Hr) as (reach & Hcov & Hreach).
  assert (forall a b, rtc (edge adj) a b <-> rtc (route_edge d) a b) as Hrtc.
  { intros a b. split; (induction 1 as [|x y z Hxy _ IH]; [apply rtc_refl|eapply rtc_l; [by apply Hedge|done]]). }
  assert (forall k, grounded adj k <-> Acc (fun b a => route_edge d a b) k) as Hacc.
  { intros k. split; (induction 1 as [k _ IH]; constructor; intros y Hy; apply IH; by apply Hedge). }
  assert (existsb (fun r => bool_decide (from_step_key r = start_key_of d)) (routes d) = true <->
          exists r, r ∈ routes d /\ from_step_key r = start_key_of d) as Hstart.
  { rewrite existsb_exists. split; intros (r & Hin & Hf); exists r; rewrite bool_decide_eq_true in *.
    all: split; [by apply list_elem_of_In|done]. }
  unfold validate_graph. rewrite <-Hstart, <-Hacc.
  destruct (existsb _ (routes d)); cbn [ensure rbind]; [|split; [done|by intros [? _]]].
  destruct (visit adj _ ∅ (start_key_of d)) as [state|e]; cbn [rbind].
  2: { split; [done|]. intros (_ & Hg & _). apply Hvis in Hg as [? ?]. done. }
  specialize (Hdom state eq_refl).
  assert (bool_decide (dom sbk ⊆ dom state) = true <-> forall s, s ∈ steps d -> rtc (route_edge d) (start_key_of d) (step_key s)) as Hall.
  { rewrite bool_decide_eq_true. split.
    - intros Hsub s Hin. apply Hrtc, Hdom, Hsub. apply (step_keys d sbk Hs). by exists s.
    - intros Hp k (s & Hin & <-)%(step_keys d sbk Hs). apply Hdom, Hrtc. by apply Hp. }
  rewrite <-Hall. destruct (bool_decide (dom sbk ⊆ dom state)); cbn [ensure rbind]; [|split; [done|by intros (_ & _ & ? & _)]].
  cbn zeta in Hcov. rewrite Hcov. cbn [rbind].
  assert (bool_decide (dom sbk ⊆ reach) = true <-> forall s, s ∈ steps d -> exists t, terminal_key d t /\ rtc (route_edge d) (step_key s) t) as Hterm.
  { rewrite bool_decide_eq_true. split.
    - intros Hsub s Hin. destruct (proj1 (Hreach (step_key s))) as (t & Ht & Hp).
      { apply Hsub, (step_keys d sbk Hs). by exists s. }
      exists t. split; [done|by apply Hrtc].
    - intros Hp k (s & Hin & <-)%(step_keys d sbk Hs). apply Hreach. destruct (Hp s Hin) as (t & Ht & Hpt).
      exists t. split; [done|by apply Hrtc]. }
  rewrite <-Hterm. destruct (bool_decide (dom sbk ⊆ reach)); cbn [ensure rbind]; [|split; [done|by intros (_ & _ & _ & ? & _)]].
  rewrite ensure_Ok. split; [|by intros (_ & _ & _ & _ & ?)]. intros Hoc. split; [done|]. split; [by apply Hvis; eexists|done].
Qed.

Lemma validate_graph_answers d sbk gbk adj :
  unique_steps d = Ok sbk -> validate_routes d sbk gbk = Ok adj -> validate_graph d sbk adj = Ok tt \/ validate_graph d sbk adj = Err ValueError.
Proof.
  intros Hs Hr. pose proof (visit_graph_answers d sbk Hs gbk adj Hr) as Hv. destruct (cover_graph d sbk Hs gbk adj Hr) as (reach & Hcov & _). cbn zeta in Hcov.
  unfold validate_graph. destruct (existsb _ _); [|by right]. cbn [ensure rbind]. destruct (visit _ _ _ _) as [state|e]; cbn [rbind]; [|by subst; right].
  destruct (bool_decide (dom sbk ⊆ dom state)); [|by right]. cbn [ensure rbind]. rewrite Hcov. cbn [rbind].
  destruct (bool_decide _); [|by right]. cbn [ensure rbind]. destruct (forallb _ _); [by left|by right].
Qed.

(** C7: The graph validator decides exactly the graphs it is meant to accept: given a
    definition whose steps and routes passed, it succeeds if the start has a route, no infinite
    walk leaves the start, every step is reachable from the start and reaches a terminal step,
    and process and control steps have a route for each of the three outcomes; in every other
    case it raises [ValueError].  In particular it always answers: the depth-first visit nests
    at most one call per step and the worklist ends, as the model would show an endless one by
    [OverflowError] (how deep the interpreter lets calls nest is not modelled). *)
Theorem validate_graph_iff d sbk gbk adj :
  unique_steps d = Ok sbk -> validate_routes d sbk gbk = Ok adj ->
  let meant :=
    (exists r, r ∈ routes d /\ from_step_key r = start_key_of d) /\
    Acc (fun b a => route_edge d a b) (start_key_of d) /\
    (forall s, s ∈ steps d -> rtc (route_edge d) (start_key_of d) (step_key s)) /\
    (forall s, s ∈ steps d -> exists t, terminal_key d t /\ rtc (route_edge d) (step_key s) t) /\
    forallb (outcome_covered d) (steps d) = true in
  (validate_graph d sbk adj = Ok tt <-> meant) /\ (validate_graph d sbk adj = Err ValueError <-> ~ meant).
Proof.
  intros Hs Hr meant. pose proof (validate_graph_iff_aux _ _ _ _ Hs Hr : _ <-> meant) as Hiff. split; [exact Hiff|]. rewrite <-Hiff.
  destruct (validate_graph_answers _ _ _ _ Hs Hr) as [E|E]; rewrite E; split; congruence.
Qed.

(** The parts of an accepted definition. *)
Lemma validate_definition_inv d :
  validate_definition d = Ok tt ->
  exists sbk cbs gbk adj,
    unique_steps d = Ok sbk /\ unique_context_slots d = Ok cbs /\ unique_guards d = Ok gbk /\
    validate_routes d sbk gbk = Ok adj /\ validate_graph d sbk adj = Ok tt /\ validate_bindings d sbk cbs adj = Ok tt /\
    Forall (fun s => validate_step s = Ok tt) (steps d) /\ Forall (fun b => validate_binding b = Ok tt) (bindings d).
Proof.
  unfold validate_definition. intros Hv. inv_res.
  repeat match goal with x : unit |- _ => destruct x end.
  repeat match goal with Hf : forM _ _ = Ok _ |- _ => apply forM_Ok in Hf end.
  do 4 eexists. repeat (split; [eassumption|]). eassumption.
Qed.

(** A walk along a relation, without its first node. *)
Inductive walk (R : string -> string -> Prop) : string -> list string -> Prop :=
| walk_nil a : walk R a []
| walk_cons a b l : R a b -> walk R b l -> walk R a (b :: l).

Lemma walk_tc R a l x : walk R a l -> x ∈ l -> tc R a x.
Proof.
  induction 1 as [|a b l Hab _ IH]; intros Hx; [by apply elem_of_nil in Hx|].
  apply elem_of_cons in Hx as [->|Hx]; [by apply tc_once|]. eapply tc_l; [exact Hab|by apply IH].
Qed.

Lemma Acc_no_cycle (R : string -> string -> Prop) k : Acc (fun b a => R a b) k -> ~ tc R k k.
Proof.
  induction 1 as [k _ IH]. intros Htc. inversion Htc as [? ? He|? b ? He Hb]; subst; [by apply (IH k)|].
  apply (IH b He). eapply tc_r; eassumption.
Qed.

Lemma walk_NoDup R a l : Acc (fun b a => R a b) a -> walk R a l -> NoDup (a :: l).
Proof.
  intros Ha Hw; revert Ha; induction Hw as [a|a b l Hab Hw IH]; intros Ha; [apply NoDup_singleton|].
  constructor; [|apply IH; by apply (Acc_inv Ha)].
  intros Hin. apply (Acc_no_cycle _ _ Ha). eapply walk_tc; [|exact Hin]. by constructor.
Qed.

(** Every walk in an accepted definition that starts at a reachable step. *)
Lemma accepted_walk d a l :
  validate_definition d = Ok tt -> rtc (route_edge d) (start_key_of d) a -> walk (route_edge d) a l ->
  NoDup (a :: l) /\ (length l < length (steps d))%nat.
Proof.
  intros Hv Ha Hw. apply validate_definition_inv in Hv as (sbk & cbs & gbk & adj & Hs & _ & _ & Hr & Hg & _).
  apply (validate_graph_iff_aux _ _ _ _ Hs Hr) in Hg as (_ & Hacc & _).
  assert (Acc (fun b a => route_edge d a b) a) as Hacca by (clear -Ha Hacc; induction Ha as [|x y z Hxy _ IH]; [done|apply IH; by apply (Acc_inv Hacc)]).
  pose proof (walk_NoDup _ _ _ Hacca Hw) as Hnd. split; [done|].
  assert (forall x y, x ∈ dom sbk -> route_edge d x y -> y ∈ dom sbk) as Hclosed.
  { intros x y _ Hxy. apply (edge_closed d sbk gbk adj Hr x y). by apply (rd_edges _ _ _ _ (validate_routes_Ok _ _ _ _ Hr)). }
  assert (a ∈ dom sbk) as Hina.
  { assert (start_key_of d ∈ dom sbk) as Hst by by apply start_in. clear -Ha Hclosed Hst.
    induction Ha as [|x y z Hxy _ IH]; [done|]. apply IH. by eapply Hclosed. }
  assert (a :: l ⊆ map step_key (steps d)) as Hsub.
  { intros k Hk. assert (k ∈ dom sbk) as (s & Hin & <-)%(step_keys d sbk Hs).
    { clear -Hw Hk Hina Hclosed. induction Hw as [|a b l Hab _ IH]; [by apply list_elem_of_singleton in Hk as ->|].
      apply elem_of_cons in Hk as [->|Hk]; [done|]. apply IH; [by eapply Hclosed|done]. }
    by apply list_elem_of_fmap_2. }
  apply (NoDup_submseteq _ _ Hnd) in Hsub. apply submseteq_length in Hsub. rewrite length_map in Hsub. simpl in Hsub. lia.
Qed.

(** Executions of an accepted definition are finite: every walk along its routes from the
    start visits each step at most once, so it takes fewer transitions than there are steps;
    every step lies on such a walk, and from every step some terminal step is reached. *)
Theorem accepted_definition_terminates d :
  validate_definition d = Ok tt ->
  (forall l, walk (route_edge d) (start_key_of d) l -> NoDup (start_key_of d :: l) /\ (length l < length (steps d))%nat) /\
  (forall s, s ∈ steps d -> rtc (route_edge d) (start_key_of d) (step_key s)) /\
  (forall s, s ∈ steps d -> exists t, t ∈ steps d /\ step_kind t = TERMINAL /\ rtc (route_edge d) (step_key s) (step_key t)).
Proof.
  intros Hv. split; [intros l Hw; by apply (accepted_walk d)|].
  apply validate_definition_inv in Hv as (sbk & cbs & gbk & adj & Hs & _ & _ & Hr & Hg & _).
  apply (validate_graph_iff_aux _ _ _ _ Hs Hr) in Hg as (_ & _ & Hreach & Hterm & _).
  split; [done|]. intros s Hin. destruct (Hterm s Hin) as (t & (st & Hst & Hk & <-) & Hp). by exists st.
Qed.

(** Routing is deterministic by construction: in an accepted definition two routes that
    leave the same step under the same outcome with the same priority are the same route; no
    route leaves a terminal step, and exactly the routes into terminal steps are terminal
    routes. *)
Theorem accepted_definition_routes d :
  validate_definition d = Ok tt ->
  (forall i j r1 r2, routes d !! i = Some r1 -> routes d !! j = Some r2 -> route_priority r1 = route_priority r2 -> i = j) /\
  forall r, r ∈ routes d ->
    (exists s, s ∈ steps d /\ step_key s = from_step_key r /\ step_kind s <> TERMINAL) /\
    (exists s, s ∈ steps d /\ step_key s = to_step_key r /\ (route_kind r = RK_TERMINAL <-> step_kind s = TERMINAL)).
Proof.
  intros Hv. apply validate_definition_inv in Hv as (sbk & cbs & gbk & adj & Hs & _ & _ & Hr & _).
  destruct (validate_routes_Ok _ _ _ _ Hr) as [Hrv Hnd _ _ _]. split.
  - intros i j r1 r2 H1 H2 Heq. apply (NoDup_lookup _ i j (route_priority r1) Hnd).
    + by rewrite list_lookup_fmap, H1.
    + rewrite list_lookup_fmap, H2. simpl. by rewrite Heq.
  - intros r Hin. rewrite Forall_forall in Hrv. destruct (Hrv r Hin) as [(s1 & H1 & Hk1) (s2 & H2 & Hk2) _ _ _].
    apply (steps_by_key d sbk Hs) in H1 as [? ?], H2 as [? ?]. split; [by exists s1|by exists s2].
Qed.

(** What an accepted binding connects. *)
Definition binding_target (b : WorkflowBindingDefinition) : string * string := (target_step_key b, target_slot_name b).

Definition binding_source (d : WorkflowDefinition) (b : WorkflowBindingDefinition) (target_port : WorkflowPortDefinition) : Prop :=
  match source_kind b with
  | PRIOR_OUTPUT => exists src p,
      src ∈ steps d /\ p ∈ output_ports src /\ source_step_key b = Some (step_key src) /\
      source_port_name b = Some (slot_name p) /\ compatible_ports p target_port = true /\
      step_key src <> target_step_key b /\ rtc (route_edge d) (step_key src) (target_step_key b)
  | EXECUTION_CONTEXT => exists p,
      p ∈ context_slots d /\ source_ref_key b = Some (slot_name p) /\ compatible_ports p target_port = true
  | _ => forall p, p ∈ context_slots d -> source_ref_key b = Some (slot_name p) -> compatible_ports p target_port = true
  end.

Definition binding_valid (d : WorkflowDefinition) (b : WorkflowBindingDefinition) : Prop :=
  exists tgt port, tgt ∈ steps d /\ step_key tgt = target_step_key b /\ (step_kind tgt = PROCESS \/ step_kind tgt = CONTROL) /\
    (exists owner, owner ∈ steps d /\ step_key owner = target_step_key b /\ port ∈ input_ports owner) /\
    slot_name port = target_slot_name b /\ binding_source d b port.

Lemma port_lookup_Some ports d k n p :
  port_lookup (port_table ports d) (k, n) = Some p ->
  exists s, s ∈ steps d /\ step_key s = k /\ p ∈ ports s /\ slot_name p = n.
Proof.
  unfold port_lookup. intros Hin%elem_of_list_to_map_2.
  apply list_elem_of_In, in_rev, in_concat in Hin as (l & (s & <- & Hs)%in_map_iff & (q & [= <- <- <-] & Hq)%in_map_iff).
  exists s. split; [by apply list_elem_of_In|]. split; [done|]. split; [by apply list_elem_of_In|done].
Qed.

Lemma binding_step_Ok d sbk cbs gbk adj bound b bound' :
  unique_steps d = Ok sbk -> unique_context_slots d = Ok cbs -> validate_routes d sbk gbk = Ok adj ->
  validate_binding b = Ok tt -> binding_step d sbk cbs adj bound b = Ok bound' ->
  bound' = {[binding_target b]} ∪ bound /\ (binding_target b ∉ bound) /\ binding_valid d b.
Proof.
  intros Hs Hc Hr Hvb Hb. unfold binding_step in Hb. apply rbind_Ok in Hb as ([] & Hk%ensure_Ok & Hb).
  destruct (port_lookup (port_table input_ports d) _) as [port|] eqn:Ep; [|done].
  apply port_lookup_Some in Ep as (owner & Ho & Hok & Hp & Hn).
  apply rbind_Ok in Hb as ([] & Hf%ensure_Ok%negb_true_iff%bool_decide_eq_false & Hb).
  assert (exists tgt, tgt ∈ steps d /\ step_key tgt = target_step_key b /\ (step_kind tgt = PROCESS \/ step_kind tgt = CONTROL))
    as (tgt & Ht & Htk & Htkind).
  { unfold kind_of in Hk. destruct (sbk !! target_step_key b) as [s|] eqn:E; [|done]. cbn in Hk.
    apply (steps_by_key d sbk Hs) in E as [? ?]. exists s. split; [done|]. split; [done|]. destruct (step_kind s); auto; done. }
  assert (forall k p, cbs !! k = Some p <-> p ∈ context_slots d /\ slot_name p = k) as Hctx.
  { intros k p. unfold unique_context_slots in Hc. apply rbind_Ok in Hc as ([] & Hu%ensure_Ok%unique_true & [= <-]).
    by apply by_key_spec. }
  assert (binding_source d b port -> bound' = {[binding_target b]} ∪ bound ->
          bound' = {[binding_target b]} ∪ bound /\ (binding_target b ∉ bound) /\ binding_valid d b) as Hdone.
  { intros Hsrc Hb'. split; [done|]. split; [done|]. exists tgt, port. repeat (split; [done|]). split; [by exists owner|done]. }
  unfold validate_binding in Hvb. apply rbind_Ok in Hvb as ([] & _ & Hvb). unfold binding_source in Hdone.
  destruct (source_kind b) eqn:Ek; cbn in Hvb.
  3: { destruct (source_step_key b) as [ss|] eqn:Ess; [|done]. destruct (source_port_name b) as [sp|] eqn:Esp; [|done].
    destruct (port_lookup (port_table output_ports d) (ss, sp)) as [p|] eqn:Eo; [|done].
    apply port_lookup_Some in Eo as (src & Hsrc & <- & Hpo & <-).
    apply rbind_Ok in Hb as (up & Hup & Hb). apply rbind_Ok in Hb as ([] & ->%ensure_Ok & Hb).
    apply rbind_Ok in Hb as ([] & Hcp%ensure_Ok & [= <-]). apply Hdone; [|done].
    destruct (can_reach_spec adj (step_key src) (target_step_key b)) as (r & Hcr & Hiff).
    assert (r = true) as -> by congruence. destruct (proj1 Hiff eq_refl) as [Hne Hpath].
    exists src, p. repeat (split; [done|]).
    clear -Hpath Hr. induction Hpath as [|x y z Hxy _ IH]; [apply rtc_refl|]. eapply rtc_l; [|exact IH].
    by apply (rd_edges _ _ _ _ (validate_routes_Ok _ _ _ _ Hr)). }
  all: apply rbind_Ok in Hvb as ([] & Href%ensure_Ok & _); destruct (source_ref_key b) as [ref|] eqn:Eref; [|done]; change (default ""%string (Some ref)) with ref in Hb.
  all: destruct (cbs !! ref) as [p|] eqn:Ec; [apply rbind_Ok in Hb as ([] & Hcp%ensure_Ok & [= <-])|
         apply rbind_Ok in Hb as ([] & Hne%ensure_Ok%bool_decide_eq_true & [= <-])]; try done.
  all: apply Hdone; [|done].
  { apply Hctx in Ec as [Hin <-]. by exists p. }
  all: intros q Hq [= ->]; assert (cbs !! slot_name q = Some q) as Hcq by (by apply Hctx); try congruence.
Qed.

(** The data flow of an accepted definition is well typed: every binding fills a declared
    input port of a process or control step from a source of identical type, schema and
    multiplicity; a prior output comes from a different, upstream step; no port is bound
    twice; and every required input port is bound. *)
Theorem accepted_definition_bindings d :
  validate_definition d = Ok tt ->
  Forall (binding_valid d) (bindings d) /\ NoDup (map binding_target (bindings d)) /\
  forall s p, s ∈ steps d -> p ∈ input_ports s -> required p = true ->
    exists b, b ∈ bindings d /\ binding_target b = (step_key s, slot_name p).
Proof.
  intros Hv. apply validate_definition_inv in Hv as (sbk & cbs & gbk & adj & Hs & Hc & _ & Hr & _ & Hb & _ & Hvb).
  unfold validate_bindings in Hb. apply rbind_Ok in Hb as (bound & Hf & Hreq%ensure_Ok).
  assert (Forall (binding_valid d) (bindings d) /\ NoDup (map binding_target (bindings d)) /\
          forall k, k ∈ bound <-> k ∈ map binding_target (bindings d)) as (H1 & H2 & H3).
  { apply (foldM_inv (fun pre bound => Forall (binding_valid d) pre /\ NoDup (map binding_target pre) /\
      forall k, k ∈ bound <-> k ∈ map binding_target pre) (binding_step d sbk cbs adj) (bindings d) ∅ bound); [| |exact Hf].
    - split; [constructor|]. split; [constructor|]. intros k. split; [by intros ?%not_elem_of_empty|by intros ?%elem_of_nil].
    - intros pre b post t t' Hsplit (I1 & I2 & I3) Hstep. rewrite Forall_forall in Hvb.
      assert (validate_binding b = Ok tt) as Hbok by (apply Hvb; rewrite Hsplit; apply elem_of_app; right; by left).
      destruct (binding_step_Ok _ _ _ _ _ _ _ _ Hs Hc Hr Hbok Hstep) as (-> & Hn & Hval).
      split; [apply Forall_app; split; [done|by constructor]|]. rewrite map_app. split.
      + apply NoDup_app. split; [done|]. split; [|apply NoDup_singleton]. intros k Hk ->%list_elem_of_singleton.
        by apply Hn, I3.
      + intros k. rewrite elem_of_union, elem_of_singleton, elem_of_app, I3. cbn [map]. rewrite list_elem_of_singleton. tauto. }
  split; [done|]. split; [done|]. intros s p Hin Hp Hreqp. rewrite forallb_forall in Hreq.
  specialize (Hreq ((step_key s, slot_name p), p)). cbn [fst snd] in Hreq. rewrite Hreqp in Hreq. cbn [negb orb] in Hreq.
  assert (bool_decide ((step_key s, slot_name p) ∈ bound) = true) as Hbd%bool_decide_eq_true.
  { apply Hreq, in_concat. exists (map (fun p => ((step_key s, slot_name p), p)) (input_ports s)).
    split; [apply in_map_iff; exists s; split; [done|by apply list_elem_of_In]|].
    apply in_map_iff. exists p. split; [done|by apply list_elem_of_In]. }
  apply H3, list_elem_of_fmap in Hbd as (b & Heq & Hb). by exists b.
Qed.

(** ** Witnesses *)

Module WorkflowSamples.
Open Scope string_scope.
Definition port (n : string) (req : bool) : WorkflowPortDefinition := Build_WorkflowPortDefinition n LOGICAL_REF "mkb.artifact" req ONE.
Definition plain (k : string) (kind : WorkflowStepKind) (t : option WorkflowTerminalKind) : WorkflowStepDefinition :=
  Build_WorkflowStepDefinition k kind REQUIRED None None None None None None None [] [] t.
Definition process (k pk : string) (ins outs : list WorkflowPortDefinition) : WorkflowStepDefinition :=
  Build_WorkflowStepDefinition k PROCESS REQUIRED (Some pk) (Some "v1") (Some CLEANING) (Some "proof") None None None ins outs None.
Definition route (k a b : string) (kind : WorkflowRouteKind) (o : WorkflowOutcomeSelector) : WorkflowRouteDefinition :=
  Build_WorkflowRouteDefinition k a b kind o 0 None JM_NONE.
Definition definition : WorkflowDefinition :=
  Build_WorkflowDefinition "demo" 1 SINGLE_ROOT [port "upload" true] ["clean"; "structurize"]
    [plain "start" START None; process "clean" "clean" [port "source" true] [port "text" true];
     process "structurize" "structurize" [port "text" true] [port "structure" true];
     plain "done" TERMINAL (Some TK_SUCCESS); plain "failed" TERMINAL (Some TK_FAILURE)]
    [route "r0" "start" "clean" RK_NORMAL ALWAYS;
     route "r1" "clean" "structurize" RK_NORMAL SUCCEEDED;
     route "r2" "clean" "failed" RK_TERMINAL FAILED; route "r3" "clean" "failed" RK_TERMINAL CANCELLED;
     route "r4" "structurize" "done" RK_TERMINAL SUCCEEDED;
     route "r5" "structurize" "failed" RK_TERMINAL FAILED; route "r6" "structurize" "failed" RK_TERMINAL CANCELLED]
    [Build_WorkflowBindingDefinition "clean" "source" EXECUTION_CONTEXT (Some "upload") None None;
     Build_WorkflowBindingDefinition "structurize" "text" PRIOR_OUTPUT None (Some "clean") (Some "text")]
    [].
(** The same graph with a way back. *)
Definition cyclic : WorkflowDefinition :=
  Build_WorkflowDefinition "demo" 1 SINGLE_ROOT (context_slots definition) (required_process_keys definition) (steps definition)
    (routes definition ++ [route "r7" "structurize" "clean" RK_NORMAL SKIPPED]) (bindings definition) [].
Definition table (d : WorkflowDefinition) : gmap string WorkflowStepDefinition :=
  match unique_steps d with Ok t => t | Err _ => ∅ end.
Definition graph (d : WorkflowDefinition) : gmap string (gset string) :=
  match validate_routes d (table d) ∅ with Ok g => g | Err _ => ∅ end.
End WorkflowSamples.

Lemma validate_graph_iff_witness :
  validate_graph WorkflowSamples.cyclic (WorkflowSamples.table WorkflowSamples.cyclic)
    (WorkflowSamples.graph WorkflowSamples.cyclic) = Err ValueError /\
  forall s, s ∈ steps WorkflowSamples.definition ->
    rtc (route_edge WorkflowSamples.definition) (start_key_of WorkflowSamples.definition) (step_key s).
Proof.
  split; [vm_compute; reflexivity|].
  destruct (proj1 (proj1 (validate_graph_iff WorkflowSamples.definition (WorkflowSamples.table WorkflowSamples.definition) ∅
    (WorkflowSamples.graph WorkflowSamples.definition) ltac:(vm_compute; reflexivity) ltac:(vm_compute; reflexivity)))
    ltac:(vm_compute; reflexivity)) as (_ & _ & Hr & _). exact Hr.
Defined.

Lemma accepted_definition_terminates_witness :
  exists t, t ∈ steps WorkflowSamples.definition /\ step_kind t = TERMINAL /\
    rtc (route_edge WorkflowSamples.definition) "clean"%string (step_key t).
Proof.
  destruct (accepted_definition_terminates WorkflowSamples.definition ltac:(vm_compute; reflexivity)) as (_ & _ & Ht).
  apply (Ht (WorkflowSamples.process "clean" "clean" [WorkflowSamples.port "source" true] [WorkflowSamples.port "text" true])).
  right. left.
Defined.

Lemma accepted_definition_routes_witness :
  exists s, s ∈ steps WorkflowSamples.definition /\ step_key s = "failed"%string /\ (RK_TERMINAL = RK_TERMINAL <-> step_kind s = TERMINAL).
Proof.
  destruct (accepted_definition_routes WorkflowSamples.definition ltac:(vm_compute; reflexivity)) as [_ Hr].
  apply (Hr (WorkflowSamples.route "r2" "clean" "failed" RK_TERMINAL FAILED)). right. right. left.
Defined.

Lemma accepted_definition_bindings_witness :
  Forall (binding_valid WorkflowSamples.definition) (bindings WorkflowSamples.definition) /\
  exists b, b ∈ bindings WorkflowSamples.definition /\ binding_target b = ("structurize", "text")%string.
Proof.
  destruct (accepted_definition_bindings WorkflowSamples.definition ltac:(vm_compute; reflexivity)) as (Hb & _ & Hreq).
  split; [exact Hb|].
  apply (Hreq (WorkflowSamples.process "structurize" "structurize" [WorkflowSamples.port "text" true] [WorkflowSamples.port "structure" true])
    (WorkflowSamples.port "text" true)); [right; right; left|left|reflexivity].
Defined.
