(* ===== verification/Dispatch.v ===== *)
(** * Dispatch policy

    Model of [src/runtime/workflow/dispatch.py]: the classification of processes into
    dispatch kinds and the choice of a pool from the lane, the occupancies and the caps. *)

From S2P Require Import Prelude PyText PyValue.

Open Scope Z_scope.

(** [DispatchCaps] with the frozen defaults. *)
Record DispatchCaps := {
  local_running : Z;
  local_queued : Z;
  ni_running : Z;
  ni_queued : Z;
  embed_running : Z;
  embed_queued : Z;
  local_char_budget : Z
}.
Definition default_caps : DispatchCaps := Build_DispatchCaps 2 6 2 4 8 20 16000.

Definition GENERATE_PROCESS_KEYS : list string :=
  ["lsrag.transcribe_markdown"; "lsrag.structurize"; "lsrag.construct"; "clean.extract.web_llm";
   "clean.extract.doc_llm"; "clean.extract.pdf_llm"]%string.
Definition OVER_BUDGET_PROCESS_KEYS : list string := GENERATE_PROCESS_KEYS.
Definition VECTORIZE : string := "lsrag.vectorize".

Inductive DispatchPool := local_inference | non_interactive | embed.
Inductive PoolKind := generate | embedding | unpooled.
#[export] Instance pool_eq : EqDecision DispatchPool. Proof. solve_decision. Defined.
#[export] Instance pool_kind_eq : EqDecision PoolKind. Proof. solve_decision. Defined.

(** The inference mode in the snapshot, when there is a snapshot: [(snapshot["l2"] or {}).get(...)]. *)
Definition pool_kind (process_key : string) (inference_mode : option (option string)) : PoolKind :=
  if bool_decide (process_key ∈ GENERATE_PROCESS_KEYS) then generate
  else if bool_decide (process_key = VECTORIZE) then
    match inference_mode with
    | Some (Some "deterministic"%string) => unpooled
    | _ => embedding
    end
  else unpooled.

Inductive Priority := urgent | high | normal | low.
#[export] Instance priority_eq : EqDecision Priority. Proof. solve_decision. Defined.

(** The channel that the request asked for; any other text selects no pool. *)
Inductive Channel := ch_local | ch_non_interactive | ch_other.

(** [choose_pool].  [priority = None] stands for a text outside the four lanes. *)
Definition choose_pool (priority : option Priority) (kind : PoolKind) (local_queued ni_queued : Z)
    (local_available ni_quota over_budget : bool) (explicit_channel : option Channel) (local_cap ni_cap : Z)
    : option DispatchPool :=
  let local_pool := if local_available && (local_queued <? local_cap) then Some local_inference else None in
  let ni_pool := if ni_quota && (ni_queued <? ni_cap) then Some non_interactive else None in
  match kind with
  | unpooled => None
  | embedding => Some embed
  | generate =>
      match explicit_channel with
      | Some ch_local => local_pool
      | Some ch_non_interactive => ni_pool
      | Some ch_other => None
      | None =>
          match priority with
          | Some (urgent | high) => ni_pool
          | Some normal =>
              if over_budget then ni_pool
              else match local_pool with Some p => Some p | None => ni_pool end
          | Some low => local_pool
          | None => None
          end
      end
  end.

(** The chosen pool has room and is open to the request: a generate process goes to the
    local pool only when it is available and below its cap, to the non-interactive pool only
    with quota and below its cap; embedding work goes to the embed pool only; high lanes
    never take local slots and the low lane never takes non-interactive ones unless the
    request named the channel. *)
Theorem choose_pool_admissible priority kind lq nq la nqt ob ch lcap ncap p :
  choose_pool priority kind lq nq la nqt ob ch lcap ncap = Some p ->
  match p with
  | local_inference => kind = generate /\ la = true /\ lq < lcap /\
      (ch = Some ch_local \/ (ch = None /\ (priority = Some low \/ (priority = Some normal /\ ob = false))))
  | non_interactive => kind = generate /\ nqt = true /\ nq < ncap /\
      (ch = Some ch_non_interactive \/
       (ch = None /\ (priority = Some urgent \/ priority = Some high \/
                      (priority = Some normal /\ (ob = true \/ la = false \/ lcap <= lq)))))
  | embed => kind = embedding
  end.
Proof.
  unfold choose_pool. destruct kind; [|by intros [= <-]|done].
  destruct la, nqt; cbn [andb]; destruct (Z.ltb_spec lq lcap), (Z.ltb_spec nq ncap), ch as [[]|], priority as [[]|], ob;
    intros [= <-]; repeat split; try done; try lia; tauto.
Qed.

(** A generate request waits only when it must: when [choose_pool] returns no pool, every
    pool its lane or channel may use is closed or full. *)
Theorem choose_pool_waits priority lq nq la nqt ob ch lcap ncap :
  choose_pool priority generate lq nq la nqt ob ch lcap ncap = None ->
  let local_closed := la = false \/ lcap <= lq in
  let ni_closed := nqt = false \/ ncap <= nq in
  match ch with
  | Some ch_local => local_closed
  | Some ch_non_interactive => ni_closed
  | Some ch_other => True
  | None =>
      match priority with
      | Some (urgent | high) => ni_closed
      | Some normal => ni_closed /\ (ob = true \/ local_closed)
      | Some low => local_closed
      | None => True
      end
  end.
Proof.
  unfold choose_pool. destruct la, nqt; cbn [andb]; destruct (Z.ltb_spec lq lcap), (Z.ltb_spec nq ncap), ch as [[]|], priority as [[]|], ob;
    intros He; try discriminate He; cbn zeta; repeat split; tauto.
Qed.

Lemma choose_pool_admissible_witness :
  choose_pool (Some normal) generate 6 3 true true false None 6 4 = Some non_interactive /\ (3 < 4)%Z.
Proof.
  split; [reflexivity|].
  destruct (choose_pool_admissible (Some normal) generate 6 3 true true false None 6 4 non_interactive eq_refl)
    as (_ & _ & Hlt & _). exact Hlt.
Defined.

Lemma choose_pool_waits_witness :
  choose_pool (Some low) generate 6 0 true true false None 6 4 = None /\ (true = false \/ (6 <= 6)%Z).
Proof.
  split; [reflexivity|]. exact (choose_pool_waits (Some low) 6 0 true true false None 6 4 eq_refl).
Defined.
