(* ===== verification/Strategies.v ===== *)
(** * Clean strategies and the actual processing binding

    Model of [src/contracts/intake/strategies.py] (the closed registry of clean
    strategies, their bindings to graph steps and acquisition capabilities) and of
    [src/runtime/binding/actual_s05.py] (the digest that seals, once per execution, which
    route and which clean step were really taken).

    The transaction of [seal_actual_binding_tx] is a function on the three tables it
    reads and writes; a call that raises leaves them as they were. *)

From S2P Require Import Prelude PyText PyValue.

Open Scope Z_scope.
Open Scope mkb_scope.

(** ** The registry *)

Inductive CleanStrategyKey :=
| WEB_DETERMINISTIC | WEB_LLM_REWRITE | WEB_BROWSER_PRINT_PDF
| PDF_TEXT_LAYER | PDF_DOCUMENT_UNDERSTANDING | PDF_OCR
| DOC_DETERMINISTIC | DOC_DOCUMENT_UNDERSTANDING | DOC_OCR | DOC_VISION.
#[export] Instance clean_strategy_key_eq : EqDecision CleanStrategyKey. Proof. solve_decision. Defined.

(** [CleanStrategyKey.X.value] *)
Definition key_value (k : CleanStrategyKey) : ustr :=
  match k with
  | WEB_DETERMINISTIC => u "web.deterministic"
  | WEB_LLM_REWRITE => u "web.llm_rewrite"
  | WEB_BROWSER_PRINT_PDF => u "web.browser_print_pdf"
  | PDF_TEXT_LAYER => u "pdf.text_layer"
  | PDF_DOCUMENT_UNDERSTANDING => u "pdf.document_understanding"
  | PDF_OCR => u "pdf.ocr"
  | DOC_DETERMINISTIC => u "doc.deterministic"
  | DOC_DOCUMENT_UNDERSTANDING => u "doc.document_understanding"
  | DOC_OCR => u "doc.ocr"
  | DOC_VISION => u "doc.vision"
  end.

Record CleanStrategyDefinition := {
  strategy_key : CleanStrategyKey;
  definition_version : ustr;
  strategy_channel : ustr;
  acquire_capabilities : list ustr;
  clean_capability : ustr;
  llm_required : bool;
  browser_required : bool;
  prompt_key : option ustr;
  prompt_version : option ustr;
  max_input_bytes : Z
}.

Definition MIB20 : Z := 20 * 1024 * 1024.

Definition http_static : ustr := u "intake.acquire.http_static".
Definition http_browser : ustr := u "intake.acquire.http_browser".
Definition local_object : ustr := u "intake.acquire.local_object".
Definition inline_capability : ustr := u "intake.acquire.inline".
Definition registered_api : ustr := u "intake.acquire.registered_api".

(** A row of the registry without, respectively with, the canonical clean prompt. *)
Definition plain_strategy (k : CleanStrategyKey) (ch : string) (acquire : list ustr) (clean : string)
    : CleanStrategyDefinition :=
  Build_CleanStrategyDefinition k (u "v1") (u ch) acquire (u clean) false false None None MIB20.
Definition llm_strategy (k : CleanStrategyKey) (ch : string) (acquire : list ustr) (clean : string) (browser : bool)
    : CleanStrategyDefinition :=
  Build_CleanStrategyDefinition k (u "v1") (u ch) acquire (u clean) true browser
    (Some (u "promptA.default")) (Some (u "v1")) MIB20.

Definition CLEAN_STRATEGY_DEFINITIONS : list CleanStrategyDefinition :=
  [plain_strategy WEB_DETERMINISTIC "web" [http_static; http_browser] "clean.extract.web";
   llm_strategy WEB_LLM_REWRITE "web" [http_static; http_browser] "clean.extract.web_llm" false;
   llm_strategy WEB_BROWSER_PRINT_PDF "pdf" [http_browser] "clean.extract.pdf_llm" true;
   plain_strategy PDF_TEXT_LAYER "pdf" [local_object; http_static] "clean.extract.pdf_text";
   llm_strategy PDF_DOCUMENT_UNDERSTANDING "pdf" [local_object; http_static] "clean.extract.pdf_llm" false;
   plain_strategy PDF_OCR "pdf" [local_object; http_static] "clean.ocr.local";
   plain_strategy DOC_DETERMINISTIC "doc" [inline_capability; local_object] "clean.extract.deterministic";
   llm_strategy DOC_DOCUMENT_UNDERSTANDING "doc" [local_object] "clean.extract.doc_llm" false;
   plain_strategy DOC_OCR "doc" [local_object] "clean.ocr.local";
   llm_strategy DOC_VISION "doc" [local_object] "clean.extract.vision" false].

Definition BY_KEY : list (ustr * CleanStrategyDefinition) :=
  map (fun d => (key_value (strategy_key d), d)) CLEAN_STRATEGY_DEFINITIONS.

Definition CLEAN_STEP_STRATEGIES : list (ustr * ustr) :=
  [(u "clean", key_value DOC_DETERMINISTIC);
   (u "clean_deterministic", key_value DOC_DETERMINISTIC);
   (u "clean_doc_llm", key_value DOC_DOCUMENT_UNDERSTANDING);
   (u "clean_doc_ocr", key_value DOC_OCR);
   (u "clean_vision", key_value DOC_VISION);
   (u "clean_pdf_text", key_value PDF_TEXT_LAYER);
   (u "clean_pdf_llm", key_value PDF_DOCUMENT_UNDERSTANDING);
   (u "clean_pdf_ocr", key_value PDF_OCR);
   (u "clean_print_pdf", key_value WEB_BROWSER_PRINT_PDF);
   (u "clean_web_static", key_value WEB_DETERMINISTIC);
   (u "clean_web_browser", key_value WEB_DETERMINISTIC);
   (u "clean_web_reacquire", key_value WEB_DETERMINISTIC);
   (u "clean_web_llm_static", key_value WEB_LLM_REWRITE);
   (u "clean_web_llm_browser", key_value WEB_LLM_REWRITE);
   (u "clean_web_llm_reacquire", key_value WEB_LLM_REWRITE)].

Definition SOURCE_KIND_ACQUIRE_CAPABILITIES : list (ustr * list ustr) :=
  [(u "inline_payload", [inline_capability]);
   (u "local_object", [local_object]);
   (u "http_resource", [http_static; http_browser]);
   (u "registered_api", [registered_api])].

Definition resolve_clean_strategy (key : ustr) : result CleanStrategyDefinition :=
  match dget BY_KEY key with
  | None => Err (MkbError "CLEAN_STRATEGY_UNSUPPORTED" 409)
  | Some definition => Ok definition
  end.

(** [a.isdisjoint(b)] *)
Definition disjoint_texts (a b : list ustr) : bool := forallb (fun x => negb (bool_decide (x ∈ a))) b.

Definition assert_clean_strategy_applicable (source_kind : ustr) (key : option ustr) : result unit :=
  match key with
  | None => Ok tt
  | Some key =>
      let* definition := resolve_clean_strategy key in
      match dget SOURCE_KIND_ACQUIRE_CAPABILITIES source_kind with
      | None => Err (MkbError "SOURCE_KIND_INVALID" 422)
      | Some allowed =>
          ensure (negb (disjoint_texts allowed (acquire_capabilities definition)))
                 (MkbError "CLEAN_STRATEGY_KIND_INCOMPATIBLE" 422)
      end
  end.

Definition resolve_bound_clean_strategy (step_key : option ustr) (process_key : ustr)
    : result CleanStrategyDefinition :=
  match step_key with
  | None | Some [] => Err (MkbError "CLEAN_STRATEGY_UNSUPPORTED" 409)
  | Some step_key =>
      match dget CLEAN_STEP_STRATEGIES step_key with
      | None => Err (MkbError "CLEAN_STRATEGY_UNSUPPORTED" 409)
      | Some key =>
          let* definition := resolve_clean_strategy key in
          check ueqb (clean_capability definition) process_key
                else MkbError "CLEAN_STRATEGY_CAPABILITY_MISMATCH" 409 ;;
          Ok definition
      end
  end.

(** [value == "literal"] for an optional text. *)
Definition is_lit (o : option ustr) (s : string) : bool := bool_decide (o = Some (u s)).

Definition derive_selected_clean_strategy (media_family text_layer representation_kind declared : option ustr)
    : result (option ustr) :=
  match declared with
  | Some (c :: rest) =>
      let* _ := resolve_clean_strategy (c :: rest) in Ok declared
  | _ =>
      Ok (if is_lit representation_kind "print_pdf" then Some (key_value WEB_BROWSER_PRINT_PDF)
          else if is_lit media_family "pdf" then
            if is_lit text_layer "present" then Some (key_value PDF_TEXT_LAYER)
            else if is_lit text_layer "absent" || is_lit text_layer "encrypted" then Some (key_value PDF_OCR)
            else Some (key_value PDF_TEXT_LAYER)
          else if is_lit media_family "image" then Some (key_value DOC_OCR)
          else if is_lit representation_kind "rendered" then Some (key_value WEB_DETERMINISTIC)
          else None)
  end.

(** ** The step's strategy by process key ([actual_s05.py]) *)

Definition UNIQUE_STRATEGIES : list (ustr * ustr) :=
  [(u "clean.extract.deterministic", u "doc.deterministic");
   (u "clean.extract.web", u "web.deterministic");
   (u "clean.extract.web_llm", u "web.llm_rewrite");
   (u "clean.extract.pdf_text", u "pdf.text_layer");
   (u "clean.extract.doc_llm", u "doc.document_understanding");
   (u "clean.extract.vision", u "doc.vision");
   (u "clean.map.registered_api", u "registered_api.map")].

Definition clean_strategy_for_step (step_key process_key : ustr) : result ustr :=
  match dget UNIQUE_STRATEGIES process_key with
  | Some strategy => Ok strategy
  | None =>
      if ueqb process_key (u "clean.extract.pdf_llm") then
        Ok (if ueqb step_key (u "clean_print_pdf") then u "web.browser_print_pdf" else u "pdf.document_understanding")
      else if ueqb process_key (u "clean.ocr.local") then
        Ok (if str_in (u "pdf") step_key then u "pdf.ocr" else u "doc.ocr")
      else Err (MkbError "CLEAN_STRATEGY_UNSUPPORTED" 409)
  end.

Definition requires_actual_binding (process_key : ustr) : bool :=
  starts_with (u "clean.") process_key || starts_with (u "lsrag.") process_key
  || bool_decide (process_key ∈ [u "intake.collection.seal"; u "intake.preflight_validate";
                                 u "intake.accept_snapshot"; u "index.validate_publication"]).

(** ** The sealed row and the tables of the transaction *)

Inductive ActualBindingState := legacy_unverifiable | unsealed | sealed.
#[export] Instance actual_binding_state_eq : EqDecision ActualBindingState. Proof. solve_decision. Defined.

(** The seven columns that [seal_actual_binding_tx] selects and returns. *)
Record seal_row := {
  actual_binding_digest : option ustr;
  actual_binding_state : ActualBindingState;
  seal_generation : Z;
  actual_selected_route_digest : option ustr;
  actual_clean_step_key : option ustr;
  actual_clean_process_key : option ustr;
  actual_clean_strategy : option ustr
}.
#[export] Instance seal_row_eq : EqDecision seal_row. Proof. solve_decision. Defined.

Record seal_execution := {
  se_team : ustr;
  se_seal : seal_row;
  se_row_revision : Z;
  se_updated_at : ustr
}.

(** One row of [mkb_acquire_decode_history]. *)
Record history_row := {
  hr_execution : ustr;
  hr_ordinal : Z;
  hr_digest : option ustr
}.

(** One row of [mkb_processing_binding_assertions]. *)
Record binding_assertion := {
  ba_uuid : ustr;
  ba_team : ustr;
  ba_execution : ustr;
  ba_family : ustr;
  ba_key : ustr;
  ba_definition_version : ustr;
  ba_definition_digest : ustr;
  ba_process_key : ustr;
  ba_route_digest : ustr;
  ba_digest : ustr;
  ba_seal_generation : Z;
  ba_asserted_at : ustr
}.

Record seal_db := {
  db_history : list history_row;
  db_executions : gmap ustr seal_execution;
  db_assertions : list binding_assertion
}.

Record seal_call := {
  execution_uuid : ustr;
  selected_route_digest : ustr;
  clean_step_key : ustr;
  clean_process_key : ustr;
  clean_strategy : ustr
}.

Definition opt_digest (o : option ustr) : bool := match o with Some s => is_digest s | None => false end.

Definition projected_actual_digest (row : seal_row) : option ustr :=
  if bool_decide (actual_binding_state row = sealed) then
    if opt_digest (actual_binding_digest row) then actual_binding_digest row else None
  else None.

(** [... WHERE execution_uuid=? ORDER BY ordinal DESC LIMIT 1] *)
Definition latest_history (rows : list history_row) (execution : ustr) : option history_row :=
  head (py_sorted (fun a b => hr_ordinal b <=? hr_ordinal a)
          (List.filter (fun r => ueqb (hr_execution r) execution) rows)).

Section seal.
Context `{Host}.

(** [CleanStrategyDefinition.definition_digest] *)
Definition definition_value (d : CleanStrategyDefinition) : pyval :=
  obj [("strategy_key", PStr (key_value (strategy_key d))); ("definition_version", PStr (definition_version d));
       ("channel", PStr (strategy_channel d)); ("acquire_capabilities", texts (acquire_capabilities d));
       ("clean_capability", PStr (clean_capability d)); ("llm_required", PBool (llm_required d));
       ("browser_required", PBool (browser_required d)); ("prompt_key", py_opt (prompt_key d));
       ("prompt_version", py_opt (prompt_version d)); ("max_input_bytes", PInt (max_input_bytes d))].
Definition definition_digest (d : CleanStrategyDefinition) : result ustr := stable_digest (definition_value d).

Definition clean_strategy_manifest_digest : result ustr :=
  stable_digest (PList (map definition_value CLEAN_STRATEGY_DEFINITIONS)).

(** [contracts/governance.py:ProcessingBinding] *)
Record ProcessingBinding := {
  pb_family : ustr;
  pb_key : ustr;
  pb_definition_version : ustr;
  pb_definition_digest : ustr
}.

Definition processing_binding (family key version digest : ustr) : result ProcessingBinding :=
  check negb (ueqb key []) && negb (ueqb version []) && is_digest digest else ValueError ;;
  Ok (Build_ProcessingBinding family key version digest).

Definition seal_binding (c : seal_call) : result ProcessingBinding :=
  if ueqb (clean_process_key c) (u "clean.map.registered_api") then
    let* dg := stable_digest (obj [("registry", PStr (u "registered_provider_operations")); ("version", PStr (u "v1"))]) in
    processing_binding (u "registered_api_operation") (u "registered_api") (u "v1") dg
  else
    let* strategy := resolve_clean_strategy (clean_strategy c) in
    let* dg := definition_digest strategy in
    processing_binding (u "clean_strategy") (clean_strategy c) (definition_version strategy) dg.

(** The digest of the ordered representation history and the selected clean edge. *)
Definition actual_digest (path_digest : ustr) (c : seal_call) : result ustr :=
  stable_digest
    (obj [("schema_version", PStr (u "mkb.actual-s05-binding.v1"));
          ("representation_path_digest", PStr path_digest);
          ("selected_route_digest", PStr (selected_route_digest c));
          ("clean_step_key", PStr (clean_step_key c));
          ("clean_process_key", PStr (clean_process_key c));
          ("clean_strategy", PStr (clean_strategy c))]).

Definition matches_seal (digest : ustr) (c : seal_call) (row : seal_row) : bool :=
  bool_decide (actual_binding_digest row = Some digest)
  && bool_decide (actual_selected_route_digest row = Some (selected_route_digest c))
  && bool_decide (actual_clean_step_key row = Some (clean_step_key c))
  && bool_decide (actual_clean_process_key row = Some (clean_process_key c))
  && bool_decide (actual_clean_strategy row = Some (clean_strategy c)).

Definition sealed_row (digest : ustr) (c : seal_call) : seal_row :=
  Build_seal_row (Some digest) sealed 1 (Some (selected_route_digest c)) (Some (clean_step_key c))
    (Some (clean_process_key c)) (Some (clean_strategy c)).

Definition SEAL_CONFLICT : exn := MkbError "ACTUAL_S05_SEAL_CONFLICT" 409.

Definition seal_actual_binding_tx (now : ustr) (db : seal_db) (c : seal_call) : result (seal_row * seal_db) :=
  check is_digest (selected_route_digest c) else MkbError "ACTUAL_S05_SEAL_INVALID" 422 ;;
  match hr_digest <$> latest_history (db_history db) (execution_uuid c) with
  | Some (Some path_digest) =>
      check is_digest path_digest else MkbError "ACTUAL_S05_HISTORY_MISSING" 409 ;;
      let* digest := actual_digest path_digest c in
      let* binding := seal_binding c in
      match db_executions db !! execution_uuid c with
      | None => Err (MkbError "ACTUAL_S05_EXECUTION_MISSING" 404)
      | Some e =>
          let row := se_seal e in
          match actual_binding_state row with
          | legacy_unverifiable => Err (MkbError "ACTUAL_S05_LEGACY_UNVERIFIABLE" 409)
          | sealed => if matches_seal digest c row then Ok (row, db) else Err SEAL_CONFLICT
          | unsealed =>
              check bool_decide (actual_binding_digest row = None) && (seal_generation row =? 0)
                    else SEAL_CONFLICT ;;
              let row' := sealed_row digest c in
              let e' := Build_seal_execution (se_team e) row' (se_row_revision e + 1) now in
              let* assertion_id :=
                stable_digest (obj [("execution_uuid", PStr (execution_uuid c)); ("binding", PStr (pb_key binding))]) in
              let* assertion_digest :=
                stable_digest (obj [("actual_binding_digest", PStr digest); ("binding", PStr (pb_key binding))]) in
              let assertion :=
                Build_binding_assertion (take 32 assertion_id) (se_team e) (execution_uuid c) (pb_family binding)
                  (pb_key binding) (pb_definition_version binding) (pb_definition_digest binding)
                  (clean_process_key c) (selected_route_digest c) assertion_digest (seal_generation row') now in
              Ok (row', Build_seal_db (db_history db) (<[execution_uuid c := e']> (db_executions db))
                          (db_assertions db ++ [assertion]))
          end
      end
  | _ => Err (MkbError "ACTUAL_S05_HISTORY_MISSING" 409)
  end.

(** What the rest of the program does to these tables between two seals: append history
    rows; and a sequence of such events, a raising call being rolled back. *)
Inductive seal_event :=
| AppendHistory (row : history_row)
| SealCall (now : ustr) (c : seal_call).

Definition seal_event_step (db : seal_db) (e : seal_event) : seal_db :=
  match e with
  | AppendHistory row => Build_seal_db (db_history db ++ [row]) (db_executions db) (db_assertions db)
  | SealCall now c => match seal_actual_binding_tx now db c with Ok (_, db') => db' | Err _ => db end
  end.
Definition seal_run : seal_db -> list seal_event -> seal_db := foldl seal_event_step.
End seal.

(** ** The registry is coherent *)

Lemma dget_find {V} (d : list (ustr * V)) k v : dget d k = Some v -> (k, v) ∈ d.
Proof. apply dget_Some_elem. Qed.

(** every clean step registered in the graph has one strategy, whose capability is the
    only process the step may run; when [resolve_bound_clean_strategy] accepts a step and
    a process, [clean_strategy_for_step] of the seal (which reads the process key instead
    of the table) names the same strategy, so the two independent tables agree. *)
Theorem bound_strategy_agrees (step_key process_key : ustr) (d : CleanStrategyDefinition)
    (Hbound : resolve_bound_clean_strategy (Some step_key) process_key = Ok d) :
  dget CLEAN_STEP_STRATEGIES step_key = Some (key_value (strategy_key d))
  /\ clean_capability d = process_key
  /\ clean_strategy_for_step step_key process_key = Ok (key_value (strategy_key d))
  /\ requires_actual_binding process_key = true.
Proof.
  unfold resolve_bound_clean_strategy in Hbound. destruct step_key as [|c0 rest]; [done|].
  destruct (dget CLEAN_STEP_STRATEGIES (c0 :: rest)) as [key|] eqn:Hkey; [|done].
  apply rbind_Ok in Hbound as (d' & Hd & Hbound). inv_res. 
  match goal with Hc : ueqb _ _ = true |- _ => apply bool_decide_eq_true in Hc; subst process_key end.
  assert (key = key_value (strategy_key d) /\ clean_strategy_for_step (c0 :: rest) (clean_capability d) = Ok (key_value (strategy_key d))
          /\ requires_actual_binding (clean_capability d) = true) as (-> & Hs & Hr); [|done].
  apply dget_Some_elem in Hkey. revert Hkey Hd. generalize (c0 :: rest). clear. intros step Hkey Hd.
  unfold CLEAN_STEP_STRATEGIES in Hkey.
  repeat (apply elem_of_cons in Hkey as [Hkey|Hkey];
    [injection Hkey as -> ->; vm_compute in Hd; injection Hd as <-; vm_compute; done|]).
  by apply elem_of_nil in Hkey.
Qed.

Lemma bound_strategy_agrees_witness :
  clean_strategy_for_step (u "clean_print_pdf") (u "clean.extract.pdf_llm") = Ok (u "web.browser_print_pdf").
Proof.
  destruct (bound_strategy_agrees (u "clean_print_pdf") (u "clean.extract.pdf_llm")
              (llm_strategy WEB_BROWSER_PRINT_PDF "pdf" [http_browser] "clean.extract.pdf_llm" true)
              ltac:(vm_compute; reflexivity)) as (_ & _ & H & _).
  exact H.
Defined.

(** the applicability of a declared strategy is exactly this table: an inline payload
    only has the deterministic document path, an uploaded object the PDF and document
    paths, an HTTP resource the web and PDF paths, and a registered API none. *)
Theorem applicable_table (source_kind key : ustr) :
  assert_clean_strategy_applicable source_kind (Some key) = Ok tt
  <-> (source_kind = u "inline_payload" /\ key = u "doc.deterministic")
      \/ (source_kind = u "local_object"
          /\ key ∈ [u "pdf.text_layer"; u "pdf.document_understanding"; u "pdf.ocr"; u "doc.deterministic";
                    u "doc.document_understanding"; u "doc.ocr"; u "doc.vision"])
      \/ (source_kind = u "http_resource"
          /\ key ∈ [u "web.deterministic"; u "web.llm_rewrite"; u "web.browser_print_pdf"; u "pdf.text_layer";
                    u "pdf.document_understanding"; u "pdf.ocr"]).
Proof.
  split.
  - intros Hok. unfold assert_clean_strategy_applicable, resolve_clean_strategy in Hok.
    apply rbind_Ok in Hok as (d & Hd & Hok). destruct (dget BY_KEY key) as [d'|] eqn:Hkey; [|done].
    injection Hd as ->. destruct (dget SOURCE_KIND_ACQUIRE_CAPABILITIES source_kind) as [allowed|] eqn:Hkind; [|done].
    apply dget_Some_elem in Hkey, Hkind. unfold BY_KEY, CLEAN_STRATEGY_DEFINITIONS in Hkey. cbn [map] in Hkey.
    unfold SOURCE_KIND_ACQUIRE_CAPABILITIES in Hkind.
    repeat (apply elem_of_cons in Hkind as [Hkind|Hkind];
      [injection Hkind as -> ->;
       repeat (apply elem_of_cons in Hkey as [Hkey|Hkey];
         [injection Hkey as -> ->; first [vm_compute in Hok; discriminate Hok|
            first [left; split; vm_compute; reflexivity
                  |right; left; split; [reflexivity|]; by apply (bool_decide_unpack _); vm_compute
                  |right; right; split; [reflexivity|]; by apply (bool_decide_unpack _); vm_compute]]|]);
       by apply elem_of_nil in Hkey|]).
    by apply elem_of_nil in Hkind.
  - intros [[-> ->]|[[-> Hkey]|[-> Hkey]]]; [vm_compute; reflexivity|..];
      repeat (apply elem_of_cons in Hkey as [->|Hkey]; [vm_compute; reflexivity|]); by apply elem_of_nil in Hkey.
Qed.

(** ** The seal *)
Section seal_facts.
Context {H : Host} {HL : HostLaws H}.

(** What a call that returns did. *)
Record seal_written (now : ustr) (db : seal_db) (c : seal_call) (digest : ustr) (db' : seal_db) : Prop := {
  sw_before : exists e, db_executions db !! execution_uuid c = Some e
    /\ actual_binding_state (se_seal e) = unsealed /\ seal_generation (se_seal e) = 0
    /\ db_executions db' = <[execution_uuid c :=
         Build_seal_execution (se_team e) (sealed_row digest c) (se_row_revision e + 1) now]> (db_executions db);
  sw_history : db_history db' = db_history db;
  sw_assertion : exists a, db_assertions db' = db_assertions db ++ [a]
    /\ ba_execution a = execution_uuid c /\ ba_process_key a = clean_process_key c
    /\ ba_route_digest a = selected_route_digest c /\ ba_seal_generation a = 1
    /\ is_digest (ba_definition_digest a) = true
}.

Lemma seal_binding_digest c b : seal_binding c = Ok b -> is_digest (pb_definition_digest b) = true.
Proof.
  assert (forall f k v dg b', processing_binding f k v dg = Ok b' -> is_digest (pb_definition_digest b') = true) as Hp.
  { intros f k v dg b' Hb. unfold processing_binding in Hb. inv_res. simpl. by breflect. }
  unfold seal_binding. case_match; intros Hb; inv_res; by eapply Hp.
Qed.

Lemma seal_inv now db c row db' :
  seal_actual_binding_tx now db c = Ok (row, db') ->
  exists h path digest,
    latest_history (db_history db) (execution_uuid c) = Some h /\ hr_digest h = Some path
    /\ actual_digest path c = Ok digest
    /\ ((db' = db /\ matches_seal digest c row = true
         /\ exists e, db_executions db !! execution_uuid c = Some e /\ se_seal e = row
            /\ actual_binding_state row = sealed)
        \/ (row = sealed_row digest c /\ seal_written now db c digest db')).
Proof.
  unfold seal_actual_binding_tx. intros Hs. inv_res.
  destruct (latest_history (db_history db) (execution_uuid c)) as [h|] eqn:Hh; [|done].
  change (hr_digest <$> Some h) with (Some (hr_digest h)) in Hs.
  destruct (hr_digest h) as [path|] eqn:Hp; [|done]. inv_res.
  match goal with Hd : actual_digest path c = Ok ?dg |- _ => exists h, path, dg; split; [reflexivity|]; split; [exact Hp|]; split; [exact Hd|] end. destruct (db_executions db !! execution_uuid c) as [e|] eqn:He; [|done].
  destruct (actual_binding_state (se_seal e)) eqn:Hst; [done| |].
  - right. inv_res. breflect. match goal with Hg : (seal_generation _ =? 0) = true |- _ => apply Z.eqb_eq in Hg end.
    split; [reflexivity|]. constructor.
    + exists e. repeat split; assumption || reflexivity.
    + reflexivity.
    + eexists. split; [reflexivity|]. repeat split. by eapply seal_binding_digest.
  - left. destruct (matches_seal _ c (se_seal e)) eqn:Hm; inv_res.
    split; [reflexivity|]. split; [exact Hm|]. exists e. repeat split; assumption.
Qed.

Lemma matches_sealed_row digest c row :
  matches_seal digest c row = true ->
  actual_binding_digest row = Some digest /\ actual_selected_route_digest row = Some (selected_route_digest c)
  /\ actual_clean_step_key row = Some (clean_step_key c) /\ actual_clean_process_key row = Some (clean_process_key c)
  /\ actual_clean_strategy row = Some (clean_strategy c).
Proof. unfold matches_seal. intros. by breflect. Qed.

Lemma actual_digest_is_digest path c digest : actual_digest path c = Ok digest -> is_digest digest = true.
Proof. unfold actual_digest, stable_digest. intros Hd. inv_res. apply sha256_digest. Qed.

(** a seal that returns reports a sealed row whose digest is the canonical digest of
    the latest representation history and of the five coordinates of the call, which
    [projected_actual_digest] therefore exposes; either nothing was written (a replay of
    the identical seal) or exactly one unsealed execution became sealed at generation 1
    with one assertion appended and every other execution untouched. *)
Theorem seal_effect (now : ustr) (db : seal_db) (c : seal_call) (row : seal_row) (db' : seal_db)
    (Hseal : seal_actual_binding_tx now db c = Ok (row, db')) :
  exists h path digest,
    latest_history (db_history db) (execution_uuid c) = Some h /\ hr_digest h = Some path
    /\ actual_digest path c = Ok digest
    /\ projected_actual_digest row = Some digest
    /\ (se_seal <$> db_executions db' !! execution_uuid c) = Some row
    /\ (actual_selected_route_digest row, actual_clean_step_key row, actual_clean_process_key row,
        actual_clean_strategy row)
       = (Some (selected_route_digest c), Some (clean_step_key c), Some (clean_process_key c), Some (clean_strategy c))
    /\ (db' = db \/ seal_written now db c digest db').
Proof.
  destruct (seal_inv _ _ _ _ _ Hseal) as (h & path & digest & Hh & Hp & Hd & Hcase).
  exists h, path, digest. pose proof (actual_digest_is_digest _ _ _ Hd) as Hdg.
  split; [exact Hh|]. split; [exact Hp|]. split; [exact Hd|].
  clear Hseal. destruct Hcase as [(-> & Hm & e & He & <- & Hst)|[-> Hw]].
  - apply matches_sealed_row in Hm as (Hm & E1 & E2 & E3 & E4). rewrite He.
    unfold projected_actual_digest. rewrite Hst, Hm, E1, E2, E3, E4. unfold opt_digest. rewrite Hdg.
    split; [reflexivity|]. split; [reflexivity|]. split; [reflexivity|]. by left.
  - unfold projected_actual_digest, sealed_row at 1 2 3. cbn. rewrite Hdg.
    split; [reflexivity|]. split; [|split; [reflexivity|by right]].
    destruct Hw as [(e & _ & _ & _ & ->) _ _]. by rewrite lookup_insert_eq.
Qed.

Lemma seal_event_keeps db e x ex :
  db_executions db !! x = Some ex -> actual_binding_state (se_seal ex) = sealed ->
  db_executions (seal_event_step db e) !! x = Some ex.
Proof.
  intros Hx Hst. destruct e as [row|now c]; simpl; [done|].
  destruct (seal_actual_binding_tx now db c) as [[row db']|] eqn:E; [|done].
  apply seal_inv in E as (h & path & digest & _ & _ & _ & [(-> & _)|(_ & [(e & He & Hun & _ & ->) _ _])]); [done|].
  rewrite lookup_insert_ne; [done|]. intros <-. rewrite Hx in He. injection He as <-. congruence.
Qed.

Lemma seal_run_keeps evs : forall db x ex,
  db_executions db !! x = Some ex -> actual_binding_state (se_seal ex) = sealed ->
  db_executions (seal_run db evs) !! x = Some ex.
Proof.
  induction evs as [|e evs IH]; intros db x ex Hx Hst; [done|]. simpl.
  apply IH; [by apply seal_event_keeps|done].
Qed.

(** C36: a seal is written once.  Whatever is appended to the history and whatever seals
    are attempted afterwards, in any number and order, the sealed execution keeps its row,
    and a later call for it either returns that same row with nothing written or raises. *)
Theorem sealed_forever (now : ustr) (db : seal_db) (c : seal_call) (row : seal_row) (db' : seal_db)
    (evs : list seal_event)
    (Hseal : seal_actual_binding_tx now db c = Ok (row, db')) :
  (se_seal <$> db_executions (seal_run db' evs) !! execution_uuid c) = Some row
  /\ forall now2 c2 row2 db2, execution_uuid c2 = execution_uuid c ->
       seal_actual_binding_tx now2 (seal_run db' evs) c2 = Ok (row2, db2) ->
       row2 = row /\ db2 = seal_run db' evs
       /\ (selected_route_digest c2, clean_step_key c2, clean_process_key c2, clean_strategy c2)
          = (selected_route_digest c, clean_step_key c, clean_process_key c, clean_strategy c).
Proof.
  assert (exists ex, db_executions db' !! execution_uuid c = Some ex /\ se_seal ex = row
          /\ actual_binding_state row = sealed /\ (exists digest, matches_seal digest c row = true)) as (ex & Hex & Hrow & Hst & dg & Hm).
  { destruct (seal_inv _ _ _ _ _ Hseal) as (h & path & digest & _ & _ & _ & [(-> & Hm & e & He & Hr & Hst)|(-> & [(e & _ & _ & _ & ->) _ _])]).
    - eauto 10.
    - rewrite lookup_insert_eq. eexists. split; [done|]. split; [done|]. split; [done|]. exists digest.
      unfold matches_seal. simpl. by rewrite !bool_decide_eq_true_2. }
  subst row. pose proof (seal_run_keeps evs _ _ _ Hex Hst) as Hkeep. rewrite Hkeep. split; [done|].
  intros now2 c2 row2 db2 Hsame H2.
  apply seal_inv in H2 as (h & path & digest & _ & _ & _ & [(-> & Hm2 & e & He & Hr & _)|(_ & [(e & He & Hun & _) _ _])]).
  - rewrite Hsame, Hkeep in He. injection He as <-. subst row2. split; [done|]. split; [done|].
    apply matches_sealed_row in Hm as (_ & E1 & E2 & E3 & E4), Hm2 as (_ & F1 & F2 & F3 & F4). congruence.
  - rewrite Hsame, Hkeep in He. injection He as <-. congruence.
Qed.

(** ** The assertions table follows the seals *)

Definition assertions_of (db : seal_db) (x : ustr) : list binding_assertion :=
  List.filter (fun a => ueqb (ba_execution a) x) (db_assertions db).

Definition seal_ok (db : seal_db) (x : ustr) (e : seal_execution) : Prop :=
  match actual_binding_state (se_seal e) with
  | sealed => seal_generation (se_seal e) = 1 /\ is_Some (projected_actual_digest (se_seal e))
      /\ exists a, assertions_of db x = [a] /\ ba_seal_generation a = 1
          /\ actual_selected_route_digest (se_seal e) = Some (ba_route_digest a)
          /\ actual_clean_process_key (se_seal e) = Some (ba_process_key a)
  | _ => assertions_of db x = []
  end.

Definition seal_consistent (db : seal_db) : Prop :=
  forall x e, db_executions db !! x = Some e -> seal_ok db x e.

Lemma assertions_of_snoc db db' a x :
  db_assertions db' = db_assertions db ++ [a] ->
  assertions_of db' x = assertions_of db x ++ (if ueqb (ba_execution a) x then [a] else []).
Proof. intros Ha. unfold assertions_of. rewrite Ha, List.filter_app. cbn [List.filter]. by destruct (ueqb _ x). Qed.

Lemma seal_step_consistent db now c row db' :
  seal_consistent db -> seal_actual_binding_tx now db c = Ok (row, db') -> seal_consistent db'.
Proof.
  intros Hok Hs. apply seal_inv in Hs as (h & path & digest & _ & _ & Hd & [(-> & _)|(-> & [(e & He & Hun & Hg & Hexec) _ (a & Ha & Hax & Hp & Hr & Hgen & _)])]);
    [done|].
  apply actual_digest_is_digest in Hd.
  intros x ex Hx. rewrite Hexec in Hx. unfold seal_ok. rewrite (assertions_of_snoc _ _ _ x Ha), Hax.
  destruct (decide (x = execution_uuid c)) as [->|Hne].
  - rewrite lookup_insert_eq in Hx. injection Hx as <-. cbn. unfold projected_actual_digest. cbn. rewrite Hd.
    split; [done|]. split; [by eexists|]. exists a. specialize (Hok _ _ He). unfold seal_ok in Hok. rewrite Hun in Hok.
    rewrite Hok. unfold ueqb. rewrite bool_decide_eq_true_2 by done. rewrite Hp, Hr. done.
  - rewrite lookup_insert_ne in Hx by done. specialize (Hok _ _ Hx). unfold seal_ok in Hok.
    unfold ueqb. rewrite bool_decide_eq_false_2 by (intros <-; done). by rewrite app_nil_r.
Qed.

(** whatever history is appended and whatever seals are attempted, a sealed execution
    stays at generation 1 with a valid 64-digit digest and exactly one assertion, which
    names the route and the process of the seal, and an unsealed one has no assertion. *)
Theorem seal_run_consistent (db : seal_db) (evs : list seal_event)
    (Hdb : seal_consistent db) : seal_consistent (seal_run db evs).
Proof.
  revert db Hdb. induction evs as [|e evs IH]; intros db Hdb; [done|]. cbn [seal_run foldl]. apply IH.
  destruct e as [r|now c]; cbn [seal_event_step]; [exact Hdb|].
  destruct (seal_actual_binding_tx now db c) as [[row db']|] eqn:E; [|done].
  by eapply seal_step_consistent.
Qed.
End seal_facts.

Module SealSamples.
Definition unsealed_row : seal_row := Build_seal_row None unsealed 0 None None None None.
Definition hex64 (c : Z) : ustr := replicate 64 c.
Definition db : seal_db :=
  Build_seal_db [Build_history_row (u "e1") 1 (Some (hex64 97)); Build_history_row (u "e1") 2 (Some (hex64 98))]
    {[ u "e1" := Build_seal_execution (u "team") unsealed_row 3 (u "t0");
       u "e2" := Build_seal_execution (u "team") unsealed_row 0 (u "t0") ]} [].
Definition call : seal_call :=
  Build_seal_call (u "e1") (hex64 99) (u "clean_web_static") (u "clean.extract.web") (u "web.deterministic").
Definition other : seal_call :=
  Build_seal_call (u "e1") (hex64 99) (u "clean_print_pdf") (u "clean.extract.pdf_llm") (u "web.browser_print_pdf").
Definition written : seal_row * seal_db :=
  match seal_actual_binding_tx (H := test_host) (u "t1") db call with Ok p => p | Err _ => (unsealed_row, db) end.
End SealSamples.

Lemma seal_effect_witness : is_Some (projected_actual_digest SealSamples.written.1).
Proof.
  destruct (seal_effect (H := test_host) (HL := test_host_laws) (u "t1") SealSamples.db SealSamples.call
              SealSamples.written.1 SealSamples.written.2 ltac:(vm_compute; reflexivity))
    as (h & path & digest & _ & _ & _ & Hd & _).
  exists digest. exact Hd.
Defined.

Lemma sealed_forever_witness :
  (se_seal <$> db_executions (seal_run (H := test_host) SealSamples.written.2
     [AppendHistory (Build_history_row (u "e1") 3 (Some (SealSamples.hex64 99))); SealCall (u "t2") SealSamples.other])
     !! u "e1") = Some SealSamples.written.1.
Proof.
  exact (proj1 (sealed_forever (H := test_host) (u "t1") SealSamples.db SealSamples.call
           SealSamples.written.1 SealSamples.written.2 _ ltac:(vm_compute; reflexivity))).
Defined.

Lemma seal_run_consistent_witness :
  seal_consistent (seal_run (H := test_host) SealSamples.db
     [SealCall (u "t1") SealSamples.call; SealCall (u "t2") SealSamples.other]).
Proof.
  apply (seal_run_consistent (H := test_host) (HL := test_host_laws)).
  intros x e Hx. assert (se_seal e = SealSamples.unsealed_row) as Hrow.
  { unfold SealSamples.db in Hx. cbn [db_executions] in Hx. apply lookup_insert_Some in Hx as [[_ <-]|[_ Hx]]; [done|].
    apply lookup_singleton_Some in Hx as [_ <-]. reflexivity. }
  unfold seal_ok. rewrite Hrow. reflexivity.
Defined.
