(* ===== verification/Routing.v ===== *)
(** * Route decisions and selected outputs

    Model of the deciding part of [src/runtime/workflow/runtime_materialize.py]
    ([_route_decision], [_guard_matches]) and of
    [src/runtime/workflow/selected_output.py]: which routes of the accepted definition a
    finished step takes under the durable facts of the execution, and the digest-fenced
    projection of the one selected output.

    The route context is the Python dict of the code; [guard_results] is the dict that the
    guard evaluation fills.  [_route_decision] reads two columns of the execution row,
    which [execution_ref] holds. *)

From S2P Require Import Prelude PyText PyValue WorkflowContracts Strategies.

Open Scope Z_scope.
Open Scope mkb_scope.

(** ** Guards *)

(** The fact a registered predicate reads. *)
Definition context_key (p : GuardPredicate) : string :=
  match p with
  | registered_admission_result => "admission_result"
  | registered_request_intent => "request_intent"
  | registered_metadata_disposition => "metadata_disposition"
  | registered_markdown_selection => "markdown_selection"
  | registered_admission_markdown_selection => "admission_markdown_selection"
  | representation_main_text_presence => "main_text_presence"
  | registered_acquisition_mode => "acquisition_mode"
  | representation_media_family => "media_family"
  | registered_clean_strategy => "selected_clean_strategy"
  end.

(** [_guard_matches]; the operator of a guard is always ["eq"] and every predicate is in
    the table, so the two [workflow-guard-unsupported] branches cannot be reached. *)
Definition guard_matches (plan : WorkflowDefinition) (route : WorkflowRouteDefinition) (context results : pydict)
    : result (bool * pydict) :=
  match route_guard route with
  | None => Ok (true, results)
  | Some g =>
      match by_key guard_key (guards plan) !! g with
      | None => Err (MkbError "workflow-guard-missing" 409)
      | Some guard =>
          match dget context (u (context_key (predicate_type guard))) with
          | None => Ok (false, dset results (u g) (PBool false))
          | Some fact =>
              let matched := py_eqb fact (PStr (u (expected_value guard))) in
              Ok (matched, dset results (u g) (PBool matched))
          end
      end
  end.

(** ** The decision *)

Definition leaves (source : string) (selector : WorkflowOutcomeSelector) (r : WorkflowRouteDefinition) : bool :=
  bool_decide (from_step_key r = source) && bool_decide (outcome_selector r = selector).

Definition route_le (a b : WorkflowRouteDefinition) : bool := priority a <=? priority b.

Definition candidate_routes (plan : WorkflowDefinition) (source : string) (selector : WorkflowOutcomeSelector)
    : list WorkflowRouteDefinition :=
  py_sorted route_le (List.filter (leaves source selector) (routes plan)).

Definition reacquire_guard (g : WorkflowGuardDefinition) : bool :=
  bool_decide (predicate_type g = representation_main_text_presence) && bool_decide (expected_value g = "absent"%string).

Definition is_reacquire (plan : WorkflowDefinition) (r : WorkflowRouteDefinition) : bool :=
  match route_guard r with
  | None => false
  | Some k => match by_key guard_key (guards plan) !! k with Some g => reacquire_guard g | None => false end
  end.

(** [route_context.get(k) == v] *)
Definition fact_is (context : pydict) (k v : string) : bool :=
  match dget context (u k) with Some fact => py_eqb fact (PStr (u v)) | None => false end.

Definition reacquire_missing (plan : WorkflowDefinition) (source : string) (selector : WorkflowOutcomeSelector)
    (context : pydict) : bool :=
  bool_decide (selector = SUCCEEDED) && String.prefix "intake.ingest.kind." (workflow_key plan)
  && fact_is context "media_family" "text" && fact_is context "main_text_presence" "absent"
  && (bool_decide (source = "decode_web_static"%string) && existsb reacquire_guard (guards plan))
  && negb (existsb (is_reacquire plan) (candidate_routes plan source selector)).

(** The loop over the candidates: a matching route that is not a fan-out ends it. *)
Fixpoint select_routes (plan : WorkflowDefinition) (context : pydict) (candidates : list WorkflowRouteDefinition)
    (results : pydict) : result (list WorkflowRouteDefinition * pydict) :=
  match candidates with
  | [] => Ok ([], results)
  | route :: rest =>
      let* '(matched, results) := guard_matches plan route context results in
      if negb matched then select_routes plan context rest results
      else if bool_decide (route_kind route <> RK_FAN_OUT) then Ok ([route], results)
      else
        let* '(selected, results) := select_routes plan context rest results in
        Ok (route :: selected, results)
  end.

(** The declared clean strategy contradicts the first selected step. *)
Definition strategy_unreachable (context : pydict) (selected : list WorkflowRouteDefinition) : bool :=
  match dget context (u "selected_clean_strategy"), selected with
  | Some (PStr ((_ :: _) as declared)), first :: _ =>
      match dget CLEAN_STEP_STRATEGIES (u (to_step_key first)) with
      | Some bound => negb (ueqb bound declared)
      | None => false
      end
  | _, _ => false
  end.

Definition selector_value (s : WorkflowOutcomeSelector) : string :=
  match s with
  | ALWAYS => "always" | SUCCEEDED => "succeeded" | FAILED => "failed" | CANCELLED => "cancelled" | SKIPPED => "skipped"
  end.

Record execution_ref := { er_execution_uuid : ustr; er_workflow_revision_uuid : ustr }.

Record decision := {
  dec_routes : list WorkflowRouteDefinition;
  dec_digest : ustr;
  dec_payload : pyval
}.

Section decision.
Context `{Host}.

Definition decision_payload (plan : WorkflowDefinition) (execution : execution_ref) (source : string)
    (selector : WorkflowOutcomeSelector) (guard_results : pydict) (selected : list WorkflowRouteDefinition) : pyval :=
  obj [("workflow_key", PStr (u (workflow_key plan)));
       ("workflow_revision_uuid", PStr (er_workflow_revision_uuid execution));
       ("execution_uuid", PStr (er_execution_uuid execution));
       ("source_step_key", PStr (u source));
       ("outcome_selector", PStr (u (selector_value selector)));
       ("guard_results", PDict guard_results);
       ("routes", texts (map (fun r => u (route_key r)) selected))].

(** [_route_decision] *)
Definition route_decision (plan : WorkflowDefinition) (execution : execution_ref) (source : string)
    (selector : WorkflowOutcomeSelector) (context : pydict) : result decision :=
  check negb (reacquire_missing plan source selector context) else MkbError "workflow-reacquire-edge-undeclared" 409 ;;
  let* '(selected, guard_results) := select_routes plan context (candidate_routes plan source selector) [] in
  check negb (strategy_unreachable context selected) else MkbError "workflow-claimed-strategy-unreachable" 409 ;;
  let payload := decision_payload plan execution source selector guard_results selected in
  let* digest := stable_digest payload in
  Ok (Build_decision selected digest payload).
End decision.

(** ** The selection law *)

(** Whether the guard of a route holds of the facts: an absent fact never matches. *)
Definition route_matches (plan : WorkflowDefinition) (context : pydict) (r : WorkflowRouteDefinition) : bool :=
  match route_guard r with
  | None => true
  | Some g =>
      match by_key guard_key (guards plan) !! g with
      | None => false
      | Some guard => fact_is context (context_key (predicate_type guard)) (expected_value guard)
      end
  end.

(** Fan-out routes accumulate up to and including the first route of another kind. *)
Fixpoint until_winner (l : list WorkflowRouteDefinition) : list WorkflowRouteDefinition :=
  match l with
  | [] => []
  | r :: l => if bool_decide (route_kind r = RK_FAN_OUT) then r :: until_winner l else [r]
  end.

Definition selected_routes (plan : WorkflowDefinition) (source : string) (selector : WorkflowOutcomeSelector)
    (context : pydict) : list WorkflowRouteDefinition :=
  until_winner (List.filter (route_matches plan context) (candidate_routes plan source selector)).

Definition plain_results (results : pydict) : Prop :=
  Forall (fun kv => encodable kv.1 /\ exists b, kv.2 = PBool b) results.

Lemma plain_results_dset results g b : plain_results results -> plain_results (dset results (u g) (PBool b)).
Proof.
  intros Hr. unfold plain_results in *. induction Hr as [|[k v] l [Hk Hv] Hl IH].
  - constructor; [split; [apply encodable_u|by exists b]|constructor].
  - cbn [dset]. destruct (ueqb k (u g)).
    + constructor; [split; [exact Hk|by exists b]|exact Hl].
    + constructor; [split; [exact Hk|exact Hv]|exact IH].
Qed.

Lemma guard_matches_spec plan r context results :
  (forall g, route_guard r = Some g -> is_Some (by_key guard_key (guards plan) !! g)) -> plain_results results ->
  exists results', guard_matches plan r context results = Ok (route_matches plan context r, results')
    /\ plain_results results'.
Proof.
  intros Hg Hr. unfold guard_matches, route_matches, fact_is. destruct (route_guard r) as [g|]; [|eauto].
  destruct (Hg g eq_refl) as [guard ->]. destruct (dget context _); eauto using plain_results_dset.
Qed.

Lemma select_routes_spec plan context cs : forall results,
  (forall r g, r ∈ cs -> route_guard r = Some g -> is_Some (by_key guard_key (guards plan) !! g)) -> plain_results results ->
  exists results', select_routes plan context cs results
    = Ok (until_winner (List.filter (route_matches plan context) cs), results') /\ plain_results results'.
Proof.
  induction cs as [|r cs IH]; intros results Hg Hr; [by exists results|].
  destruct (guard_matches_spec plan r context results) as (res1 & Hm & Hr1); [intros g; apply Hg; left|done|].
  assert (forall r0 g, r0 ∈ cs -> route_guard r0 = Some g -> is_Some (by_key guard_key (guards plan) !! g)) as Hg'
    by (intros r0 g Hin; apply Hg; by right).
  cbn [select_routes List.filter]. rewrite Hm. cbn [rbind].
  destruct (route_matches plan context r); cbn [negb until_winner]; [|by apply IH].
  destruct (decide (route_kind r = RK_FAN_OUT)) as [E|E].
  - rewrite bool_decide_eq_false_2 by (intros Hn; by apply Hn). rewrite bool_decide_eq_true_2 by done.
    destruct (IH res1 Hg' Hr1) as (res2 & -> & Hr2). by exists res2.
  - rewrite bool_decide_eq_true_2 by done. rewrite bool_decide_eq_false_2 by done. by exists res1.
Qed.

Lemma until_winner_sublist l : until_winner l `sublist_of` l.
Proof.
  induction l as [|r l IH]; cbn [until_winner]; [constructor|]. case_bool_decide; constructor; [done|apply sublist_nil_l].
Qed.

Lemma until_winner_nil l : until_winner l = [] -> l = [].
Proof. destruct l; cbn [until_winner]; [done|]. by case_bool_decide. Qed.

(** A route that was left out comes after a selected winner. *)
Lemma until_winner_rest (R : WorkflowRouteDefinition -> WorkflowRouteDefinition -> Prop) l r :
  StronglySorted R l -> r ∈ l -> r ∉ until_winner l ->
  exists w, w ∈ until_winner l /\ route_kind w <> RK_FAN_OUT /\ R w r.
Proof.
  induction 1 as [|x l Hs IH Hx]; intros Hin Hout; [by apply elem_of_nil in Hin|]. cbn [until_winner] in *.
  apply elem_of_cons in Hin as [->|Hin]; [exfalso; apply Hout; case_bool_decide; left|].
  case_bool_decide as Hk.
  - destruct (IH Hin) as (w & Hw & ? & ?); [intros ?; apply Hout; by right|]. exists w. split; [by right|done].
  - exists x. split; [left|]. split; [done|]. rewrite Forall_forall in Hx. by apply Hx.
Qed.

Lemma until_winner_last l i r : until_winner l !! i = Some r -> (S i < length (until_winner l))%nat ->
  route_kind r = RK_FAN_OUT.
Proof.
  revert i. induction l as [|x l IH]; intros i; cbn [until_winner]; [done|].
  case_bool_decide as Hk; cbn [length]; [|lia].
  destruct i as [|i]; cbn; [by intros [= <-]|]. intros Hi Hlen. apply (IH i Hi). lia.
Qed.

(** ** Accepted definitions *)

Lemma route_le_total a b : route_le a b = true \/ route_le b a = true.
Proof. unfold route_le. lia. Qed.
Lemma route_le_trans a b c : route_le a b = true -> route_le b c = true -> route_le a c = true.
Proof. unfold route_le. lia. Qed.

Lemma candidate_spec plan source selector r :
  r ∈ candidate_routes plan source selector <->
  r ∈ routes plan /\ from_step_key r = source /\ outcome_selector r = selector.
Proof.
  unfold candidate_routes. rewrite (py_sorted_perm route_le), !list_elem_of_In, filter_In. unfold leaves.
  rewrite andb_true_iff, !bool_decide_eq_true. tauto.
Qed.

Section accepted.
Context (plan : WorkflowDefinition) (Hplan : validate_definition plan = Ok tt).

Lemma plan_guards r g : r ∈ routes plan -> route_guard r = Some g -> is_Some (by_key guard_key (guards plan) !! g).
Proof.
  apply validate_definition_inv in Hplan as (sbk & cbs & gbk & adj & _ & _ & Hu & Hr & _).
  unfold unique_guards in Hu. inv_res. apply validate_routes_Ok in Hr. intros Hin Hg.
  apply elem_of_dom. apply (rd_guards _ _ _ _ Hr). by exists r.
Qed.

Lemma plan_priorities r1 r2 :
  r1 ∈ routes plan -> r2 ∈ routes plan -> route_priority r1 = route_priority r2 -> r1 = r2.
Proof.
  apply validate_definition_inv in Hplan as (sbk & cbs & gbk & adj & _ & _ & _ & Hr & _).
  apply validate_routes_Ok, rd_priorities in Hr.
  intros [i Hi]%list_elem_of_lookup_1 [j Hj]%list_elem_of_lookup_1 E.
  assert (i = j) as ->; [|congruence].
  rewrite NoDup_alt in Hr. apply (Hr i j (route_priority r1)).
  - change (route_priority <$> routes plan) with (map route_priority (routes plan)). 
    rewrite list_lookup_fmap, Hi. done.
  - rewrite list_lookup_fmap, Hj, E. done.
Qed.

Lemma candidate_priorities source selector r1 r2 :
  r1 ∈ candidate_routes plan source selector -> r2 ∈ candidate_routes plan source selector ->
  priority r1 = priority r2 -> r1 = r2.
Proof.
  intros (Hin1 & Hf1 & Hs1)%candidate_spec (Hin2 & Hf2 & Hs2)%candidate_spec Hp.
  apply plan_priorities; [done..|]. unfold route_priority. congruence.
Qed.
End accepted.

(** Reordering the routes of an accepted definition does not change the candidates. *)
Lemma candidate_order plan plan' source selector :
  validate_definition plan = Ok tt -> routes plan ≡ₚ routes plan' ->
  candidate_routes plan source selector = candidate_routes plan' source selector.
Proof.
  intros Hplan Hperm.
  assert (candidate_routes plan source selector ≡ₚ candidate_routes plan' source selector) as Hc.
  { unfold candidate_routes. rewrite !(py_sorted_perm route_le). 
    clear Hplan. induction Hperm as [|r l l' _ IH|r r' l|l1 l2 l3 _ IH1 _ IH2]; cbn [List.filter]; [done|..].
    - destruct (leaves source selector r); [by constructor|done].
    - destruct (leaves source selector r), (leaves source selector r'); try done. apply Permutation_swap.
    - by rewrite IH1. }
  eapply (StronglySorted_unique_strong (fun a b => route_le a b = true)); [..|exact Hc].
  - intros r1 r2 H1 H2 L1 L2. rewrite <-Hc in H2. apply (candidate_priorities plan Hplan source selector); [done..|].
    unfold route_le in *. lia.
  - apply py_sorted_sorted; [apply route_le_total|apply route_le_trans].
  - apply py_sorted_sorted; [apply route_le_total|apply route_le_trans].
Qed.

(** The same definition with its routes listed otherwise. *)
Definition with_routes (d : WorkflowDefinition) (rs : list WorkflowRouteDefinition) : WorkflowDefinition :=
  Build_WorkflowDefinition (workflow_key d) (revision_number d) (execution_role d) (context_slots d)
    (required_process_keys d) (steps d) rs (bindings d) (guards d).

Section decision_facts.
Context `{Host}.

Lemma decision_payload_digestible plan execution source selector results selected :
  encodable (er_execution_uuid execution) -> encodable (er_workflow_revision_uuid execution) -> plain_results results ->
  digestible (decision_payload plan execution source selector results selected).
Proof.
  intros He Hw Hr. unfold decision_payload, obj. apply digestible_dict, Forall_map.
  assert (digestible (texts (map (fun r => u (route_key r)) selected))) as Ht.
  { unfold texts. apply digestible_list, Forall_map, Forall_map, Forall_true. intros r.
    apply digestible_str, encodable_u. }
  assert (digestible (PDict results)) as Hd.
  { apply digestible_dict. eapply Forall_impl; [exact Hr|]. intros [k v] [Hk [b Hb]]. cbn [fst snd] in *. split; [exact Hk|].
    subst v. destruct b; (eexists; split; [reflexivity|apply encodable_u]). }
  repeat (apply Forall_cons_2; [cbn [fst snd]; split; [apply encodable_u|auto with mkb]|]). constructor.
Qed.

Lemma decision_inv plan execution source selector context :
  validate_definition plan = Ok tt -> encodable (er_execution_uuid execution) ->
  encodable (er_workflow_revision_uuid execution) ->
  let selected := selected_routes plan source selector context in
  route_decision plan execution source selector context =
  if reacquire_missing plan source selector context then Err (MkbError "workflow-reacquire-edge-undeclared" 409)
  else if strategy_unreachable context selected then Err (MkbError "workflow-claimed-strategy-unreachable" 409)
  else
    match select_routes plan context (candidate_routes plan source selector) [] with
    | Ok (_, results) =>
        let payload := decision_payload plan execution source selector results selected in
        match stable_digest payload with
        | Ok digest => Ok (Build_decision selected digest payload)
        | Err e => Err e
        end
    | Err e => Err e
    end.
Proof.
  intros Hplan He Hw selected. unfold route_decision.
  destruct (reacquire_missing plan source selector context); [reflexivity|]. cbn [negb ensure rbind].
  destruct (select_routes_spec plan context (candidate_routes plan source selector) []) as (results & Hs & Hr);
    [intros r g (Hin & _)%candidate_spec; by apply plan_guards|constructor|].
  rewrite Hs. cbn [rbind]. fold (selected_routes plan source selector context). fold selected.
  destruct (strategy_unreachable context selected); reflexivity.
Qed.

Lemma decision_total (plan : WorkflowDefinition) (execution : execution_ref) (source : string)
    (selector : WorkflowOutcomeSelector) (context : pydict)
    (Hplan : validate_definition plan = Ok tt)
    (Hids : encodable (er_execution_uuid execution) /\ encodable (er_workflow_revision_uuid execution)) :
  let selected := selected_routes plan source selector context in
  if reacquire_missing plan source selector context
  then route_decision plan execution source selector context = Err (MkbError "workflow-reacquire-edge-undeclared" 409)
  else if strategy_unreachable context selected
  then route_decision plan execution source selector context = Err (MkbError "workflow-claimed-strategy-unreachable" 409)
  else exists d, route_decision plan execution source selector context = Ok d
         /\ dec_routes d = selected /\ stable_digest (dec_payload d) = Ok (dec_digest d).
Proof.
  intros selected. destruct Hids as [He Hw]. rewrite (decision_inv plan execution source selector context Hplan He Hw).
  fold selected. destruct (reacquire_missing plan source selector context); [reflexivity|].
  destruct (strategy_unreachable context selected); [reflexivity|].
  destruct (select_routes_spec plan context (candidate_routes plan source selector) []) as (results & Hs & Hr);
    [intros r g (Hin & _)%candidate_spec; by apply plan_guards|constructor|].
  rewrite Hs. destruct (digestible_digest _ (decision_payload_digestible plan execution source selector results selected He Hw Hr))
    as (b & _ & Hd).
  cbv zeta. rewrite Hd. eexists. split; [reflexivity|]. split; [reflexivity|]. cbn [dec_payload dec_digest]. exact Hd.
Qed.

(** on an accepted definition the decision always returns, and is exactly: a 409 when an
    absent text has no declared reacquisition edge, a 409 when the declared clean strategy
    contradicts the first selected step, and otherwise the routes of [selected_routes] under
    a canonical digest; no guard is dangling, no digest fails. *)
Theorem route_decision_total (plan : WorkflowDefinition) (execution : execution_ref) (source : string)
    (selector : WorkflowOutcomeSelector) (context : pydict)
    (Hplan : validate_definition plan = Ok tt)
    (Hids : encodable (er_execution_uuid execution) /\ encodable (er_workflow_revision_uuid execution)) :
  let selected := selected_routes plan source selector context in
  if reacquire_missing plan source selector context
  then route_decision plan execution source selector context = Err (MkbError "workflow-reacquire-edge-undeclared" 409)
  else if strategy_unreachable context selected
  then route_decision plan execution source selector context = Err (MkbError "workflow-claimed-strategy-unreachable" 409)
  else exists d, route_decision plan execution source selector context = Ok d
         /\ dec_routes d = selected /\ stable_digest (dec_payload d) = Ok (dec_digest d).
Proof. by apply decision_total. Qed.

Lemma sorted_until_winner (R : WorkflowRouteDefinition -> WorkflowRouteDefinition -> Prop) l :
  StronglySorted R l -> StronglySorted R (until_winner l).
Proof.
  induction 1 as [|r l Hs IH Hr]; cbn [until_winner]; [constructor|].
  case_bool_decide; [|by repeat constructor]. constructor; [done|]. apply Forall_forall. intros x Hx.
  rewrite Forall_forall in Hr. apply Hr. exact (elem_of_sublist _ _ _ Hx (until_winner_sublist l)).
Qed.

Lemma candidates_NoDup plan source selector :
  validate_definition plan = Ok tt -> NoDup (candidate_routes plan source selector).
Proof.
  intros Hplan. unfold candidate_routes. rewrite (py_sorted_perm route_le).
  apply NoDup_ListNoDup, List.NoDup_filter, NoDup_ListNoDup.
  apply validate_definition_inv in Hplan as (? & ? & ? & ? & _ & _ & _ & Hr & _).
  apply validate_routes_Ok, rd_priorities, NoDup_fmap_1 in Hr. exact Hr.
Qed.

(** The matching candidates come by strictly increasing priority. *)
Lemma matching_sorted plan source selector context :
  validate_definition plan = Ok tt ->
  StronglySorted (fun a b => priority a < priority b)
    (List.filter (route_matches plan context) (candidate_routes plan source selector)).
Proof.
  intros Hplan. pose proof (candidate_priorities plan Hplan source selector) as Hinj.
  pose proof (candidates_NoDup plan source selector Hplan) as Hnd.
  assert (StronglySorted (fun a b => route_le a b = true) (candidate_routes plan source selector)) as Hs
    by (apply py_sorted_sorted; [apply route_le_total|apply route_le_trans]).
  revert Hinj Hnd Hs. generalize (candidate_routes plan source selector). intros cs Hinj Hnd Hs.
  induction Hs as [|r l Hs IH Hr]; cbn [List.filter]; [constructor|]. apply NoDup_cons in Hnd as [Hn Hnd].
  assert (StronglySorted (fun a b => priority a < priority b) (List.filter (route_matches plan context) l)) as Hl
    by (apply IH; [intros r1 r2 ? ?; apply Hinj; by right|done]).
  destruct (route_matches plan context r); [|done]. constructor; [done|]. apply Forall_forall.
  intros r' [Hin _]%list_elem_of_In%filter_In. apply list_elem_of_In in Hin.
  rewrite Forall_forall in Hr. specialize (Hr r' Hin). unfold route_le in Hr.
  destruct (decide (priority r = priority r')) as [E|]; [|lia].
  exfalso. apply Hn. rewrite (Hinj r r'); [done|left|by right|done].
Qed.

Lemma decision_selects plan execution source selector context d :
  validate_definition plan = Ok tt -> route_decision plan execution source selector context = Ok d ->
  dec_routes d = selected_routes plan source selector context.
Proof.
  intros Hplan Hd. unfold route_decision in Hd. apply rbind_Ok in Hd as (_ & _ & Hd).
  destruct (select_routes_spec plan context (candidate_routes plan source selector) []) as (results & Hs & Hr);
    [intros r g (Hin & _)%candidate_spec; by apply plan_guards|constructor|].
  rewrite Hs in Hd. cbn [rbind] in Hd. apply rbind_Ok in Hd as (_ & _ & Hd).
  apply rbind_Ok in Hd as (dg & _ & [= <-]). reflexivity.
Qed.

Lemma route_matches_guard plan context r g :
  route_matches plan context r = true -> route_guard r = Some g ->
  exists guard fact, by_key guard_key (guards plan) !! g = Some guard
    /\ dget context (u (context_key (predicate_type guard))) = Some fact
    /\ py_eqb fact (PStr (u (expected_value guard))) = true.
Proof.
  unfold route_matches, fact_is. intros Hm Hg. rewrite Hg in Hm.
  destruct (by_key guard_key (guards plan) !! g) as [guard|]; [|done].
  destruct (dget context _) as [fact|] eqn:E; [|done]. by exists guard, fact.
Qed.

Lemma plan_guard_elem plan g guard :
  validate_definition plan = Ok tt -> by_key guard_key (guards plan) !! g = Some guard ->
  guard ∈ guards plan /\ guard_key guard = g.
Proof.
  intros Hplan. apply validate_definition_inv in Hplan as (? & ? & ? & ? & _ & _ & Hu & _).
  unfold unique_guards in Hu. apply rbind_Ok in Hu as ([] & Hu%ensure_Ok%unique_true & _).
  by apply by_key_spec.
Qed.

(** C8: the selection law.  On an accepted definition every route of a returned decision
    leaves the step under the outcome and its guard, if any, names a fact that is present in
    the context and equal to the expected value; priorities strictly increase along the
    decision; only its last route can be of an exclusive kind; and a matching route that was
    not selected has a strictly larger priority than a selected exclusive route, so an empty
    decision means that nothing matched. *)
Theorem route_decision_law (plan : WorkflowDefinition) (execution : execution_ref) (source : string)
    (selector : WorkflowOutcomeSelector) (context : pydict) (d : decision)
    (Hplan : validate_definition plan = Ok tt)
    (Hd : route_decision plan execution source selector context = Ok d) :
  (forall r, r ∈ dec_routes d -> r ∈ routes plan /\ from_step_key r = source /\ outcome_selector r = selector
     /\ forall g, route_guard r = Some g -> exists guard fact, guard ∈ guards plan /\ guard_key guard = g
          /\ dget context (u (context_key (predicate_type guard))) = Some fact
          /\ py_eqb fact (PStr (u (expected_value guard))) = true)
  /\ StronglySorted Z.lt (map priority (dec_routes d))
  /\ (forall i r, dec_routes d !! i = Some r -> (S i < length (dec_routes d))%nat -> route_kind r = RK_FAN_OUT)
  /\ (forall r, r ∈ routes plan -> from_step_key r = source -> outcome_selector r = selector ->
        route_matches plan context r = true -> r ∉ dec_routes d ->
        exists w, w ∈ dec_routes d /\ route_kind w <> RK_FAN_OUT /\ priority w < priority r).
Proof.
  rewrite (decision_selects _ _ _ _ _ _ Hplan Hd). unfold selected_routes.
  pose proof (matching_sorted plan source selector context Hplan) as Hsorted.
  assert (forall r, r ∈ List.filter (route_matches plan context) (candidate_routes plan source selector)
     <-> r ∈ candidate_routes plan source selector /\ route_matches plan context r = true) as Hms
    by (intros r; rewrite !list_elem_of_In; apply filter_In).
  split; [|split; [|split]].
  - intros r Hr. pose proof (elem_of_sublist _ _ _ Hr (until_winner_sublist _)) as Hin.
    apply Hms in Hin as [(Hin & Hf & Hs)%candidate_spec Hm]. split; [done|]. split; [done|]. split; [done|].
    intros g Hg. destruct (route_matches_guard _ _ _ _ Hm Hg) as (guard & fact & Hk & Hfact & Heq).
    apply (plan_guard_elem _ _ _ Hplan) in Hk as [Hk1 Hk2]. by exists guard, fact.
  - apply sorted_until_winner in Hsorted. revert Hsorted. clear. induction 1 as [|r l Hs IH Hr]; cbn [map]; constructor; [done|].
    by apply Forall_map.
  - intros i r. apply until_winner_last.
  - intros r Hin Hf Hs Hm Hout. apply (until_winner_rest _ _ _ Hsorted); [|done].
    apply Hms. split; [|done]. by apply candidate_spec.
Qed.

(** the decision depends on the routes as a set: reordering the routes of an accepted
    definition changes neither the selected routes nor the decision digest nor the error. *)
Theorem route_decision_order_free (plan : WorkflowDefinition) (routes' : list WorkflowRouteDefinition)
    (execution : execution_ref) (source : string) (selector : WorkflowOutcomeSelector) (context : pydict)
    (Hplan : validate_definition plan = Ok tt) (Hperm : routes plan ≡ₚ routes') :
  route_decision (with_routes plan routes') execution source selector context
  = route_decision plan execution source selector context.
Proof.
  assert (candidate_routes (with_routes plan routes') source selector = candidate_routes plan source selector) as Hc
    by (symmetry; by apply candidate_order).
  assert (forall cs results, select_routes (with_routes plan routes') context cs results = select_routes plan context cs results) as Hs.
  { induction cs as [|r cs IH]; intros results; [reflexivity|]. cbn [select_routes].
    change (guard_matches (with_routes plan routes') r context results) with (guard_matches plan r context results).
    destruct (guard_matches plan r context results) as [[m rs]|]; [|reflexivity]. cbn [rbind]. by rewrite !IH. }
  unfold route_decision. rewrite Hc, Hs. unfold reacquire_missing. rewrite Hc. reflexivity.
Qed.
End decision_facts.

(** ** Selected outputs ([selected_output.py]) *)

Definition SELECTED_OUTPUT_CONTROL_VERSION : ustr := u "selected-output.v1".

Record SelectedOutputProjection := {
  so_candidate_port : ustr;
  so_manifest_ref : ustr;
  so_manifest_digest : ustr;
  so_selection_digest : ustr;
  so_control_version : ustr
}.

(** [isinstance(value, str) and value] *)
Definition nonempty_text (v : option pyval) : option ustr :=
  match v with Some (PStr ((_ :: _) as s)) => Some s | _ => None end.

(** [_is_digest(value)] *)
Definition digest_text (v : option pyval) : option ustr :=
  match v with Some (PStr s) => if is_digest s then Some s else None | _ => None end.

Definition SELECTION_PROOF_INVALID : exn := MkbError "WORKFLOW_SELECTION_PROOF_INVALID" 409.

Section selected_output.
Context `{Host}.

Definition selected_output_compiled_digest (candidate_ports : list ustr) (fallback_port : option ustr)
    (control_version : ustr) : result ustr :=
  check negb (length candidate_ports =? 0)%nat && bool_decide (NoDup candidate_ports) else ValueError ;;
  check match fallback_port with Some f => bool_decide (f ∈ candidate_ports) | None => true end else ValueError ;;
  stable_digest
    (obj [("control_key", PStr (u "selected_output")); ("semantics_version", PStr control_version);
          ("candidate_ports", PTuple (map PStr candidate_ports)); ("fallback_port", py_opt fallback_port);
          ("selection_law", PStr (u "exactly_one_durable_projection"))]).

Definition selection_value (port manifest_ref manifest_digest fact_digest control_version : ustr) : pyval :=
  obj [("candidate_port", PStr port); ("manifest_ref", PStr manifest_ref); ("manifest_digest", PStr manifest_digest);
       ("representation_fact_digest", PStr fact_digest); ("control_version", PStr control_version)].

Definition selection_digest (port manifest_ref manifest_digest fact_digest control_version : ustr) : result ustr :=
  stable_digest (selection_value port manifest_ref manifest_digest fact_digest control_version).

Definition project_selected_output (durable_rows : list pydict) (fact_digest : option pyval) (control_version : ustr)
    : result SelectedOutputProjection :=
  match digest_text fact_digest with
  | None => Err (MkbError "WORKFLOW_SELECTION_FACT_MISSING" 409)
  | Some fact =>
      match durable_rows with
      | [] => Err (MkbError "WORKFLOW_SELECTED_OUTPUT_MISSING" 409)
      | [row] =>
          match nonempty_text (dget row (u "candidate_port")), nonempty_text (dget row (u "manifest_ref")) with
          | Some port, Some manifest_ref =>
              match digest_text (dget row (u "manifest_digest")), digest_text (dget row (u "selection_digest")) with
              | Some manifest_digest, Some selection =>
                  let* expected := selection_digest port manifest_ref manifest_digest fact control_version in
                  check ueqb selection expected else SELECTION_PROOF_INVALID ;;
                  Ok (Build_SelectedOutputProjection port manifest_ref manifest_digest selection control_version)
              | _, _ => Err SELECTION_PROOF_INVALID
              end
          | _, _ => Err SELECTION_PROOF_INVALID
          end
      | _ => Err (MkbError "WORKFLOW_SELECTED_OUTPUT_CONFLICT" 409)
      end
  end.

(** The row a projection is stored as. *)
Definition selection_row (p : SelectedOutputProjection) : pydict :=
  fields [("candidate_port", PStr (so_candidate_port p)); ("manifest_ref", PStr (so_manifest_ref p));
          ("manifest_digest", PStr (so_manifest_digest p)); ("selection_digest", PStr (so_selection_digest p))].

Lemma nonempty_text_Some v s : nonempty_text v = Some s -> v = Some (PStr s) /\ s <> [].
Proof. destruct v as [[]|]; try done. destruct s0 as [|c s0]; [done|]. by intros [= <-]. Qed.

Lemma digest_text_Some v s : digest_text v = Some s -> v = Some (PStr s) /\ is_digest s = true.
Proof. destruct v as [[]|]; try done. cbn. destruct (is_digest s0) eqn:E; [|done]. by intros [= <-]. Qed.

Lemma digest_text_intro s : is_digest s = true -> digest_text (Some (PStr s)) = Some s.
Proof. cbn. by intros ->. Qed.

(** [project_selected_output] accepts exactly one durable row, and the row it accepts is
    the storage of its own result: it returns [p] exactly when the representation fact is a
    digest, there is one row whose four columns are those of [p] with non-empty texts and
    valid digests, and the selection digest recomputes.  So a projection always reads back
    from its row, and no second, empty, truncated or re-signed row is ever accepted. *)
Theorem project_selected_output_iff (durable_rows : list pydict) (fact_digest : option pyval) (control_version : ustr)
    (p : SelectedOutputProjection) :
  project_selected_output durable_rows fact_digest control_version = Ok p <->
  exists fact row, fact_digest = Some (PStr fact) /\ is_digest fact = true /\ durable_rows = [row]
    /\ (forall k v, (k, v) ∈ selection_row p -> dget row k = Some v)
    /\ so_candidate_port p <> [] /\ so_manifest_ref p <> []
    /\ is_digest (so_manifest_digest p) = true /\ is_digest (so_selection_digest p) = true
    /\ so_control_version p = control_version
    /\ selection_digest (so_candidate_port p) (so_manifest_ref p) (so_manifest_digest p) fact control_version
       = Ok (so_selection_digest p).
Proof.
  unfold project_selected_output. split.
  - destruct (digest_text fact_digest) as [fact|] eqn:Hfact; [|done].
    apply digest_text_Some in Hfact as [-> Hfact]. destruct durable_rows as [|row [|]]; [done| |done].
    destruct (nonempty_text (dget row (u "candidate_port"))) as [port|] eqn:Hp; [|done].
    destruct (nonempty_text (dget row (u "manifest_ref"))) as [mref|] eqn:Hm; [|done].
    destruct (digest_text (dget row (u "manifest_digest"))) as [md|] eqn:Hmd; [|done].
    destruct (digest_text (dget row (u "selection_digest"))) as [sel|] eqn:Hsel; [|done].
    apply nonempty_text_Some in Hp as [Hp Hp'], Hm as [Hm Hm']. apply digest_text_Some in Hmd as [Hmd Hmd'], Hsel as [Hsel Hsel'].
    intros Hok. apply rbind_Ok in Hok as (expected & Hexp & Hok). apply rbind_Ok in Hok as (_ & Heq%ensure_Ok & [= <-]).
    apply bool_decide_eq_true in Heq. subst expected. exists fact, row. cbn [so_candidate_port so_manifest_ref so_manifest_digest so_selection_digest so_control_version].
    split; [done|]. split; [done|]. split; [done|]. split; [|done].
    intros k v Hkv. unfold selection_row, fields in Hkv. cbn [map fst snd] in Hkv.
    repeat (apply elem_of_cons in Hkv as [[= -> ->]|Hkv]; [assumption|]). by apply elem_of_nil in Hkv.
  - intros (fact & row & -> & Hfact & -> & Hrow & Hp & Hm & Hmd & Hsel & Hv & Hdg).
    rewrite (digest_text_intro _ Hfact). 
    assert (dget row (u "candidate_port") = Some (PStr (so_candidate_port p))) as -> by (apply Hrow; left).
    assert (dget row (u "manifest_ref") = Some (PStr (so_manifest_ref p))) as -> by (apply Hrow; right; left).
    assert (dget row (u "manifest_digest") = Some (PStr (so_manifest_digest p))) as -> by (apply Hrow; right; right; left).
    assert (dget row (u "selection_digest") = Some (PStr (so_selection_digest p))) as -> by (apply Hrow; right; right; right; left).
    rewrite (digest_text_intro _ Hmd), (digest_text_intro _ Hsel).
    destruct p as [port mref md sel v]. cbn [so_candidate_port so_manifest_ref so_manifest_digest so_selection_digest so_control_version] in *.
    subst v. destruct port as [|c port]; [done|]. destruct mref as [|c' mref]; [done|]. cbn [nonempty_text].
    rewrite Hdg. cbn [rbind]. unfold ueqb. rewrite bool_decide_eq_true_2 by done. reflexivity.
Qed.
End selected_output.

Module RoutingSamples.
Import WorkflowSamples.
Open Scope string_scope.
(** A media-typed fork: PDF, then text with a fan-out, then a fallback. *)
Definition guarded (k a b : string) (kind : WorkflowRouteKind) (p : Z) (g : option string) : WorkflowRouteDefinition :=
  Build_WorkflowRouteDefinition k a b kind SUCCEEDED p g JM_NONE.
Definition failing (k a : string) (o : WorkflowOutcomeSelector) : WorkflowRouteDefinition :=
  Build_WorkflowRouteDefinition k a "failed" RK_TERMINAL o 0 None JM_NONE.
Definition fork : WorkflowDefinition :=
  Build_WorkflowDefinition "demo" 1 SINGLE_ROOT [port "upload" true] ["decode"; "clean.extract.web"; "clean.extract.pdf_text"]
    [plain "start" START None;
     process "decode" "decode" [] [port "out" true];
     process "clean_web_static" "clean.extract.web" [] [port "out" true];
     process "clean_pdf_text" "clean.extract.pdf_text" [] [port "out" true];
     plain "done" TERMINAL (Some TK_SUCCESS); plain "failed" TERMINAL (Some TK_FAILURE)]
    [route "r0" "start" "decode" RK_NORMAL ALWAYS;
     guarded "r3" "decode" "done" RK_TERMINAL 30 None;
     guarded "r1" "decode" "clean_pdf_text" RK_BRANCH 10 (Some "is_pdf");
     guarded "r2" "decode" "clean_web_static" RK_FAN_OUT 20 (Some "is_text");
     failing "f1" "decode" FAILED; failing "f2" "decode" CANCELLED;
     guarded "r4" "clean_web_static" "done" RK_TERMINAL 0 None; failing "f3" "clean_web_static" FAILED;
     failing "f4" "clean_web_static" CANCELLED;
     guarded "r5" "clean_pdf_text" "done" RK_TERMINAL 0 None; failing "f5" "clean_pdf_text" FAILED;
     failing "f6" "clean_pdf_text" CANCELLED]
    []
    [Build_WorkflowGuardDefinition "is_pdf" representation_media_family "pdf";
     Build_WorkflowGuardDefinition "is_text" representation_media_family "text"].
Definition execution : execution_ref := Build_execution_ref (u "e1") (u "w1").
Definition text_context : pydict := fields [("media_family", PStr (u "text"))].
Definition decided : decision :=
  match route_decision (H := test_host) fork execution "decode" SUCCEEDED text_context with
  | Ok d => d | Err _ => Build_decision [] [] PNone end.
End RoutingSamples.

Lemma route_decision_total_witness :
  map route_key (dec_routes RoutingSamples.decided) = ["r2"; "r3"]%string
  /\ route_decision (H := test_host) RoutingSamples.fork RoutingSamples.execution "decode" SUCCEEDED
       (fields [("media_family", PStr (u "text")); ("selected_clean_strategy", PStr (u "pdf.ocr"))])
     = Err (MkbError "workflow-claimed-strategy-unreachable" 409).
Proof.
  split; [vm_compute; reflexivity|].
  exact (route_decision_total (H := test_host) RoutingSamples.fork RoutingSamples.execution "decode" SUCCEEDED
    (fields [("media_family", PStr (u "text")); ("selected_clean_strategy", PStr (u "pdf.ocr"))])
    ltac:(vm_compute; reflexivity) (conj (encodable_u _) (encodable_u _))).
Defined.

Lemma route_decision_law_witness :
  StronglySorted Z.lt (map priority (dec_routes RoutingSamples.decided)) /\ length (dec_routes RoutingSamples.decided) = 2%nat.
Proof.
  split; [|vm_compute; reflexivity].
  destruct (route_decision_law (H := test_host) RoutingSamples.fork RoutingSamples.execution "decode" SUCCEEDED
    RoutingSamples.text_context RoutingSamples.decided ltac:(vm_compute; reflexivity) ltac:(vm_compute; reflexivity))
    as (_ & Hs & _). exact Hs.
Defined.

Lemma route_decision_order_free_witness :
  route_decision (H := test_host) (with_routes RoutingSamples.fork (rev (routes RoutingSamples.fork)))
    RoutingSamples.execution "decode" SUCCEEDED RoutingSamples.text_context = Ok RoutingSamples.decided.
Proof.
  rewrite (route_decision_order_free (H := test_host) RoutingSamples.fork (rev (routes RoutingSamples.fork))
    RoutingSamples.execution "decode" SUCCEEDED RoutingSamples.text_context ltac:(vm_compute; reflexivity)
    (Permutation_rev _)). vm_compute. reflexivity.
Defined.
