(* ===== verification/LsragDefinition.v ===== *)
(** * The shipped single-intake workflows

    Model of [src/workflows/lsrag_definition.py], [lsrag_historical.py] and
    [lsrag_shared_tail.py] of the same directory: the declared graphs as values of
    [WorkflowDefinition], and the documents derived from them (source profiles, revisions
    before the Markdown hop, before metadata refresh and before index rebuild).  Titles and
    descriptions are not fields of the model, and [model_dump] with a later [model_validate]
    is the identity on the modelled fields. *)

From S2P Require Import Prelude PyText WorkflowContracts.

Open Scope Z_scope.
Open Scope string_scope.
Open Scope list_scope.

(** ** Record helpers

    A pydantic model leaves the fields it is not given at their defaults. *)

Definition start_step (key : string) : WorkflowStepDefinition :=
  Build_WorkflowStepDefinition key START REQUIRED None None None None None None None [] [] None.
Definition terminal_step (key : string) (kind : WorkflowTerminalKind) : WorkflowStepDefinition :=
  Build_WorkflowStepDefinition key TERMINAL REQUIRED None None None None None None None [] [] (Some kind).
Definition control_step (key control : string) (phase : WorkflowPhaseKey) (inputs outputs : list WorkflowPortDefinition)
    : WorkflowStepDefinition :=
  Build_WorkflowStepDefinition key CONTROL REQUIRED None None (Some phase) None (Some control) None None inputs outputs None.
Definition route (key from to : string) (kind : WorkflowRouteKind) (selector : WorkflowOutcomeSelector) (prio : Z)
    (guard : option string) : WorkflowRouteDefinition :=
  Build_WorkflowRouteDefinition key from to kind selector prio guard JM_NONE.
Definition prior (target slot source port : string) : WorkflowBindingDefinition :=
  Build_WorkflowBindingDefinition target slot PRIOR_OUTPUT None (Some source) (Some port).
Definition from_context (target slot ref_key : string) : WorkflowBindingDefinition :=
  Build_WorkflowBindingDefinition target slot EXECUTION_CONTEXT (Some ref_key) None None.

Definition set_input_ports (ports : list WorkflowPortDefinition) (s : WorkflowStepDefinition) : WorkflowStepDefinition :=
  Build_WorkflowStepDefinition (step_key s) (step_kind s) (requiredness s) (process_key s) (contract_version s)
    (phase_key s) (required_proof_kind s) (control_key s) (control_version s) (control_fallback_port s) ports
    (output_ports s) (terminal_kind s).
Definition set_process_key (key : string) (s : WorkflowStepDefinition) : WorkflowStepDefinition :=
  Build_WorkflowStepDefinition (step_key s) (step_kind s) (requiredness s) (Some key) (contract_version s)
    (phase_key s) (required_proof_kind s) (control_key s) (control_version s) (control_fallback_port s)
    (input_ports s) (output_ports s) (terminal_kind s).
Definition set_required (b : bool) (p : WorkflowPortDefinition) : WorkflowPortDefinition :=
  Build_WorkflowPortDefinition (slot_name p) (value_type p) (schema_ref p) b (multiplicity p).
Definition set_priority (prio : Z) (r : WorkflowRouteDefinition) : WorkflowRouteDefinition :=
  Build_WorkflowRouteDefinition (route_key r) (from_step_key r) (to_step_key r) (route_kind r) (outcome_selector r) prio
    (route_guard r) (join_mode r).
Definition set_route_kind (kind : WorkflowRouteKind) (r : WorkflowRouteDefinition) : WorkflowRouteDefinition :=
  Build_WorkflowRouteDefinition (route_key r) (from_step_key r) (to_step_key r) kind (outcome_selector r) (priority r)
    (route_guard r) (join_mode r).
Definition set_identity (key : string) (revision : Z) (d : WorkflowDefinition) : WorkflowDefinition :=
  Build_WorkflowDefinition key revision (execution_role d) (context_slots d) (required_process_keys d) (steps d)
    (routes d) (bindings d) (guards d).
Definition set_revision (revision : Z) (d : WorkflowDefinition) : WorkflowDefinition :=
  set_identity (workflow_key d) revision d.

Definition seq (a b : string) : bool := bool_decide (a = b).
Definition sin (a : string) (l : list string) : bool := bool_decide (a ∈ l).
(** [route["guard_key"] == key] *)
Definition guarded_by (r : WorkflowRouteDefinition) (key : string) : bool := bool_decide (route_guard r = Some key).

(** ** Declaration helpers of [lsrag_definition.py] *)

Definition ref (slot_name schema_ref : string) : WorkflowPortDefinition :=
  Build_WorkflowPortDefinition slot_name LOGICAL_REF schema_ref true ONE.
Definition optional_ref (slot_name schema_ref : string) : WorkflowPortDefinition :=
  Build_WorkflowPortDefinition slot_name LOGICAL_REF schema_ref false ONE.
Definition process (step_key process_key : string) (phase_key : WorkflowPhaseKey) (proof_kind : string)
    (input_ports output_ports : list WorkflowPortDefinition) : WorkflowStepDefinition :=
  Build_WorkflowStepDefinition step_key PROCESS REQUIRED (Some process_key) (Some "v1") (Some phase_key) (Some proof_kind)
    None None None input_ports output_ports None.
Definition terminal_routes (step_key : string) : list WorkflowRouteDefinition :=
  [route (String.append step_key ".failed") step_key "failed" RK_TERMINAL FAILED 0 None;
   route (String.append step_key ".cancelled") step_key "cancelled" RK_TERMINAL CANCELLED 0 None].

(** ** The single-intake graph *)

(** [_STEPS] *)
Definition STEPS : list WorkflowStepDefinition :=
  [start_step "start";
   process "index_rebuild" "index.rebuild" REBUILDING_INDEX "index_rebuild_proof"
     [ref "index_rebuild_scope" "mkb.index.rebuild-scope.v1"]
     [ref "index_rebuild_receipt" "mkb.index.rebuild-receipt.v1"];
   process "acquire" "intake.acquire.inline" RESOLVING_SOURCE "acquisition_evidence"
     [ref "source_descriptor" "mkb.intake.source-descriptor.v1"]
     [ref "acquisition_evidence" "mkb.intake.acquisition-evidence.v1"];
   process "decode" "intake.decode.text_json_html" RESOLVING_SOURCE "decode_evidence"
     [ref "acquisition_evidence" "mkb.intake.acquisition-evidence.v1"]
     [ref "decoded_representation" "mkb.intake.decoded-representation.v1"];
   process "clean" "clean.extract.deterministic" CLEANING "clean_candidate_evidence"
     [ref "decoded_representation" "mkb.intake.decoded-representation.v1"]
     [ref "clean_candidate" "mkb.intake.clean-candidate.v1"];
   process "seal_candidate_set" "intake.collection.seal" PREFLIGHT_ADMISSION "candidate_set_seal_proof"
     [ref "clean_candidate" "mkb.intake.clean-candidate.v1"]
     [ref "candidate_set_seal" "mkb.intake.candidate-set-seal.v1"];
   process "preflight_validate" "intake.preflight_validate" PREFLIGHT_ADMISSION "preflight_outcome_evidence"
     [ref "acquisition_evidence" "mkb.intake.acquisition-evidence.v1";
      ref "candidate_set_seal" "mkb.intake.candidate-set-seal.v1";
      ref "clean_candidate" "mkb.intake.clean-candidate.v1"]
     [ref "preflight_outcome" "mkb.intake.preflight-outcome.v1"];
   process "accept_snapshot" "intake.accept_snapshot" PREFLIGHT_ADMISSION "acceptance_proof"
     [ref "candidate_set_seal" "mkb.intake.candidate-set-seal.v1";
      ref "preflight_outcome" "mkb.intake.preflight-outcome.v1"]
     [ref "accepted_intake_revision" "mkb.intake.accepted-revision.v1"];
   control_step "human_review" "human_review_gate" AWAITING_HUMAN_REVIEW
     [ref "accepted_intake_revision" "mkb.intake.accepted-revision.v1";
      ref "preflight_outcome" "mkb.intake.preflight-outcome.v1"]
     [ref "gate_decision" "mkb.intake.gate-decision.v1"];
   process "transcribe_markdown" "lsrag.transcribe_markdown" STRUCTURIZING "markdown_transcription_proof"
     [ref "accepted_intake_revision" "mkb.intake.accepted-revision.v1"]
     [ref "markdown_artifact" "mkb.lsrag.markdown-artifact.v1"];
   process "structurize" "lsrag.structurize" STRUCTURIZING "structure_proof"
     [ref "accepted_intake_revision" "mkb.intake.accepted-revision.v1";
      optional_ref "markdown_artifact" "mkb.lsrag.markdown-artifact.v1"]
     [ref "structure_artifact" "mkb.lsrag.structure-artifact.v1"];
   process "construct" "lsrag.construct" CONSTRUCTING "construct_to_vectorize_gate"
     [optional_ref "structure_artifact" "mkb.lsrag.structure-artifact.v1";
      optional_ref "accepted_intake_revision" "mkb.intake.accepted-revision.v1"]
     [ref "construct_package" "mkb.lsrag.construct-package.v1"];
   process "vectorize" "lsrag.vectorize" VECTORIZING_INDEXING "vectorization_proof"
     [ref "construct_package" "mkb.lsrag.construct-package.v1"]
     [ref "vectorization_receipt" "mkb.vector.vectorization-receipt.v1"];
   process "validate_publication" "index.validate_publication" VALIDATING_PUBLICATION "publication_proof"
     [ref "accepted_intake_revision" "mkb.intake.accepted-revision.v1";
      ref "vectorization_receipt" "mkb.vector.vectorization-receipt.v1"]
     [ref "publication_proof" "mkb.vector.publication-proof.v1"];
   terminal_step "succeeded" TK_SUCCESS;
   terminal_step "failed" TK_FAILURE;
   terminal_step "cancelled" TK_CANCELLED].

(** [_ROUTES], in three parts and the loop that adds the terminal routes. *)
Definition ROUTES_intake : list WorkflowRouteDefinition :=
  [route "start.to_index_rebuild" "start" "index_rebuild" RK_NORMAL ALWAYS 0 (Some "request_intent_index_rebuild");
   route "start.to_acquire" "start" "acquire" RK_NORMAL ALWAYS 10 None;
   route "acquire.to_succeeded_index_rebuild" "acquire" "succeeded" RK_TERMINAL SUCCEEDED 0
    (Some "request_intent_index_rebuild");
   route "acquire.to_succeeded_deactivate" "acquire" "succeeded" RK_TERMINAL SUCCEEDED 1
    (Some "request_intent_deactivate");
   route "acquire.to_succeeded_reactivate" "acquire" "succeeded" RK_TERMINAL SUCCEEDED 2
    (Some "request_intent_reactivate");
   route "acquire.to_succeeded_delete" "acquire" "succeeded" RK_TERMINAL SUCCEEDED 3 (Some "request_intent_delete");
   route "acquire.to_succeeded_metadata_no_change" "acquire" "succeeded" RK_TERMINAL SUCCEEDED 4
    (Some "metadata_no_change");
   route "acquire.to_decode" "acquire" "decode" RK_NORMAL SUCCEEDED 10 None;
   route "decode.to_clean" "decode" "clean" RK_NORMAL SUCCEEDED 0 None;
   route "clean.to_seal_candidate_set" "clean" "seal_candidate_set" RK_NORMAL SUCCEEDED 0 None;
   route "seal_candidate_set.to_preflight_validate" "seal_candidate_set" "preflight_validate" RK_NORMAL SUCCEEDED 0 None;
   route "preflight_validate.to_accept_snapshot" "preflight_validate" "accept_snapshot" RK_NORMAL SUCCEEDED 0 None].
Definition ROUTES_admission : list WorkflowRouteDefinition :=
  [route "accept_snapshot.rebuild_publication" "accept_snapshot" "construct" RK_BRANCH SUCCEEDED 0
    (Some "request_intent_rebuild");
   route "accept_snapshot.metadata_refresh" "accept_snapshot" "construct" RK_BRANCH SUCCEEDED 1
    (Some "request_intent_metadata_refresh");
   route "accept_snapshot.auto_admitted_markdown" "accept_snapshot" "transcribe_markdown" RK_BRANCH SUCCEEDED 10
    (Some "admission_auto_markdown");
   route "accept_snapshot.auto_admitted" "accept_snapshot" "structurize" RK_BRANCH SUCCEEDED 11
    (Some "admission_auto_admitted");
   route "accept_snapshot.human_review" "accept_snapshot" "human_review" RK_BRANCH SUCCEEDED 20
    (Some "admission_human_review_required");
   route "accept_snapshot.rejected" "accept_snapshot" "failed" RK_TERMINAL SUCCEEDED 30 (Some "admission_rejected");
   route "human_review.to_transcribe_markdown" "human_review" "transcribe_markdown" RK_NORMAL SUCCEEDED 0
    (Some "prompt_markdown_present");
   route "human_review.to_structurize" "human_review" "structurize" RK_NORMAL SUCCEEDED 1 None].
Definition ROUTES_generation : list WorkflowRouteDefinition :=
  [route "transcribe_markdown.to_structurize" "transcribe_markdown" "structurize" RK_NORMAL SUCCEEDED 0 None;
   route "structurize.to_construct" "structurize" "construct" RK_NORMAL SUCCEEDED 0 None;
   route "construct.to_vectorize" "construct" "vectorize" RK_NORMAL SUCCEEDED 0 None;
   route "vectorize.to_validate_publication" "vectorize" "validate_publication" RK_NORMAL SUCCEEDED 0 None;
   route "validate_publication.to_succeeded" "validate_publication" "succeeded" RK_TERMINAL SUCCEEDED 0 None;
   route "index_rebuild.to_succeeded" "index_rebuild" "succeeded" RK_TERMINAL SUCCEEDED 0 None].
Definition ROUTES_terminal : list WorkflowRouteDefinition :=
  concat (map terminal_routes
    ["index_rebuild"; "acquire"; "decode"; "clean"; "seal_candidate_set"; "preflight_validate"; "accept_snapshot";
     "human_review"; "transcribe_markdown"; "structurize"; "construct"; "vectorize"; "validate_publication"]).
Definition ROUTES : list WorkflowRouteDefinition :=
  ROUTES_intake ++ ROUTES_admission ++ ROUTES_generation ++ ROUTES_terminal.

(** [_BINDINGS] *)
Definition BINDINGS : list WorkflowBindingDefinition :=
  [from_context "index_rebuild" "index_rebuild_scope" "index_rebuild_scope";
   from_context "acquire" "source_descriptor" "source_descriptor";
   prior "decode" "acquisition_evidence" "acquire" "acquisition_evidence";
   prior "clean" "decoded_representation" "decode" "decoded_representation";
   prior "seal_candidate_set" "clean_candidate" "clean" "clean_candidate";
   prior "preflight_validate" "acquisition_evidence" "acquire" "acquisition_evidence";
   prior "preflight_validate" "candidate_set_seal" "seal_candidate_set" "candidate_set_seal";
   prior "preflight_validate" "clean_candidate" "clean" "clean_candidate";
   prior "accept_snapshot" "candidate_set_seal" "seal_candidate_set" "candidate_set_seal";
   prior "accept_snapshot" "preflight_outcome" "preflight_validate" "preflight_outcome";
   prior "human_review" "accepted_intake_revision" "accept_snapshot" "accepted_intake_revision";
   prior "human_review" "preflight_outcome" "preflight_validate" "preflight_outcome";
   prior "transcribe_markdown" "accepted_intake_revision" "accept_snapshot" "accepted_intake_revision";
   prior "structurize" "accepted_intake_revision" "accept_snapshot" "accepted_intake_revision";
   prior "structurize" "markdown_artifact" "transcribe_markdown" "markdown_artifact";
   prior "construct" "structure_artifact" "structurize" "structure_artifact";
   prior "construct" "accepted_intake_revision" "accept_snapshot" "accepted_intake_revision";
   prior "vectorize" "construct_package" "construct" "construct_package";
   prior "validate_publication" "accepted_intake_revision" "accept_snapshot" "accepted_intake_revision";
   prior "validate_publication" "vectorization_receipt" "vectorize" "vectorization_receipt"].

Definition GUARDS : list WorkflowGuardDefinition :=
  [Build_WorkflowGuardDefinition "request_intent_index_rebuild" registered_request_intent "index.rebuild";
   Build_WorkflowGuardDefinition "request_intent_rebuild" registered_request_intent "intake.rebuild";
   Build_WorkflowGuardDefinition "request_intent_metadata_refresh" registered_request_intent "intake.update_metadata";
   Build_WorkflowGuardDefinition "request_intent_deactivate" registered_request_intent "intake.deactivate";
   Build_WorkflowGuardDefinition "request_intent_reactivate" registered_request_intent "intake.reactivate";
   Build_WorkflowGuardDefinition "request_intent_delete" registered_request_intent "intake.delete";
   Build_WorkflowGuardDefinition "metadata_no_change" registered_metadata_disposition "no_change";
   Build_WorkflowGuardDefinition "admission_auto_admitted" registered_admission_result "auto_admitted";
   Build_WorkflowGuardDefinition "admission_auto_markdown" registered_admission_markdown_selection "auto_admitted";
   Build_WorkflowGuardDefinition "prompt_markdown_present" registered_markdown_selection "present";
   Build_WorkflowGuardDefinition "admission_human_review_required" registered_admission_result "human_review_required";
   Build_WorkflowGuardDefinition "admission_rejected" registered_admission_result "rejected"].

Definition BUILTIN_SINGLE_INTAKE_LSRAG_WORKFLOW : WorkflowDefinition :=
  Build_WorkflowDefinition "intake.ingest.single.inline.lsrag.v1" 4 SINGLE_ROOT
    [ref "source_descriptor" "mkb.intake.source-descriptor.v1"; ref "index_rebuild_scope" "mkb.index.rebuild-scope.v1"]
    ["index.rebuild"; "intake.acquire.inline"; "intake.decode.text_json_html"; "clean.extract.deterministic";
     "intake.collection.seal"; "intake.preflight_validate"; "intake.accept_snapshot"; "lsrag.transcribe_markdown";
     "lsrag.structurize"; "lsrag.construct"; "lsrag.vectorize"; "index.validate_publication"]
    STEPS ROUTES BINDINGS GUARDS.

(** ** Derived documents *)

(** [_without_ns1_markdown_branch] *)
Definition without_ns1_markdown_branch (document : WorkflowDefinition) (revision : Z) : WorkflowDefinition :=
  let fix_ports s :=
    if seq (step_key s) "structurize" then
      set_input_ports (List.filter (fun p => negb (seq (slot_name p) "markdown_artifact")) (input_ports s)) s
    else s in
  let fix_priority r :=
    if seq (route_key r) "accept_snapshot.auto_admitted" then set_priority 10 r
    else if seq (route_key r) "human_review.to_structurize" then set_priority 0 r
    else r in
  let keep_route r :=
    negb (seq (from_step_key r) "transcribe_markdown") && negb (seq (to_step_key r) "transcribe_markdown")
    && negb (sin (route_key r) ["accept_snapshot.auto_admitted_markdown"; "human_review.to_transcribe_markdown"]) in
  let keep_binding b :=
    negb (seq (target_step_key b) "transcribe_markdown")
    && negb (seq (target_step_key b) "structurize" && seq (target_slot_name b) "markdown_artifact") in
  Build_WorkflowDefinition (workflow_key document) revision (execution_role document) (context_slots document)
    (List.filter (fun k => negb (seq k "lsrag.transcribe_markdown")) (required_process_keys document))
    (map fix_ports (List.filter (fun s => negb (seq (step_key s) "transcribe_markdown")) (steps document)))
    (map fix_priority (List.filter keep_route (routes document)))
    (List.filter keep_binding (bindings document))
    (List.filter (fun g => negb (sin (guard_key g) ["admission_auto_markdown"; "prompt_markdown_present"])) (guards document)).

(** [_pre_ns1_execution_document] *)
Definition pre_ns1_execution_document : WorkflowDefinition :=
  without_ns1_markdown_branch BUILTIN_SINGLE_INTAKE_LSRAG_WORKFLOW 3.

Definition d02_acquire_shortcuts : list string :=
  ["acquire.to_succeeded_index_rebuild"; "acquire.to_succeeded_deactivate"; "acquire.to_succeeded_reactivate";
   "acquire.to_succeeded_delete"; "acquire.to_succeeded_metadata_no_change"].
Definition d02_acquire_guards : list string :=
  ["request_intent_deactivate"; "request_intent_reactivate"; "request_intent_delete"; "metadata_no_change"].

(** The edit that [_pre_metadata_refresh_execution_document] and
    [_pre_ns1_metadata_refresh_execution_document] both spell out. *)
Definition drop_metadata_refresh (document : WorkflowDefinition) : WorkflowDefinition :=
  let fix_priority r := if seq (route_key r) "acquire.to_decode" then set_priority 0 r else r in
  let keep_route r :=
    negb (guarded_by r "request_intent_metadata_refresh") && negb (sin (route_key r) d02_acquire_shortcuts) in
  let keep_guard g :=
    negb (seq (guard_key g) "request_intent_metadata_refresh") && negb (sin (guard_key g) d02_acquire_guards) in
  let keep_binding b :=
    negb (seq (target_step_key b) "construct" && seq (target_slot_name b) "accepted_intake_revision") in
  let fix_ports s :=
    if seq (step_key s) "construct" then
      set_input_ports (map (set_required true)
        (List.filter (fun p => seq (slot_name p) "structure_artifact") (input_ports s))) s
    else s in
  Build_WorkflowDefinition (workflow_key document) (revision_number document) (execution_role document)
    (context_slots document) (required_process_keys document) (map fix_ports (steps document))
    (map fix_priority (List.filter keep_route (routes document)))
    (List.filter keep_binding (bindings document)) (List.filter keep_guard (guards document)).

Definition pre_metadata_refresh_execution_document : WorkflowDefinition :=
  drop_metadata_refresh BUILTIN_SINGLE_INTAKE_LSRAG_WORKFLOW.
Definition pre_ns1_metadata_refresh_execution_document : WorkflowDefinition :=
  drop_metadata_refresh pre_ns1_execution_document.

(** [_source_profile_workflow] *)
Definition source_profile_workflow (key acquire decode clean : string) (revision : Z) : WorkflowDefinition :=
  let document := set_identity key revision pre_metadata_refresh_execution_document in
  let replace k :=
    if seq k "intake.acquire.inline" then acquire
    else if seq k "intake.decode.text_json_html" then decode
    else if seq k "clean.extract.deterministic" then clean
    else k in
  let fix_process s :=
    if seq (step_key s) "acquire" then set_process_key acquire s
    else if seq (step_key s) "decode" then set_process_key decode s
    else if seq (step_key s) "clean" then set_process_key clean s
    else s in
  Build_WorkflowDefinition (workflow_key document) (revision_number document) (execution_role document)
    (context_slots document) (map replace (required_process_keys document)) (map fix_process (steps document))
    (routes document) (bindings document) (guards document).

Definition SINGLE_SOURCE_PROFILE_WORKFLOW_KEYS : list (string * string) :=
  [("inline_payload", workflow_key BUILTIN_SINGLE_INTAKE_LSRAG_WORKFLOW);
   ("local_object", "intake.ingest.single.local-object.lsrag.v1");
   ("local_object.pdf", "intake.ingest.single.local-pdf.lsrag.v1");
   ("http_resource.static", "intake.ingest.single.http-static.lsrag.v1");
   ("http_resource.browser", "intake.ingest.single.http-browser.lsrag.v1");
   ("http_resource.pdf", "intake.ingest.single.http-pdf.lsrag.v1");
   ("local_object.image", "intake.ingest.single.local-ocr.lsrag.v1")].
Definition profile_key (profile : string) : string :=
  match List.find (fun p => seq p.1 profile) SINGLE_SOURCE_PROFILE_WORKFLOW_KEYS with Some p => p.2 | None => "" end.

Definition BUILTIN_LOCAL_OBJECT_INTAKE_WORKFLOW : WorkflowDefinition :=
  source_profile_workflow (profile_key "local_object") "intake.acquire.local_object" "intake.decode.text_json_html"
    "clean.extract.deterministic" 2.
Definition BUILTIN_LOCAL_PDF_INTAKE_WORKFLOW : WorkflowDefinition :=
  source_profile_workflow (profile_key "local_object.pdf") "intake.acquire.local_object" "intake.decode.pdf"
    "clean.extract.pdf_text" 4.
Definition BUILTIN_HTTP_STATIC_INTAKE_WORKFLOW : WorkflowDefinition :=
  source_profile_workflow (profile_key "http_resource.static") "intake.acquire.http_static" "intake.decode.text_json_html"
    "clean.extract.web" 3.
Definition BUILTIN_HTTP_BROWSER_INTAKE_WORKFLOW : WorkflowDefinition :=
  source_profile_workflow (profile_key "http_resource.browser") "intake.acquire.http_browser"
    "intake.decode.text_json_html" "clean.extract.web" 3.
Definition BUILTIN_HTTP_PDF_INTAKE_WORKFLOW : WorkflowDefinition :=
  source_profile_workflow (profile_key "http_resource.pdf") "intake.acquire.http_static" "intake.decode.pdf"
    "clean.extract.pdf_text" 4.
Definition BUILTIN_LOCAL_OCR_INTAKE_WORKFLOW : WorkflowDefinition :=
  source_profile_workflow (profile_key "local_object.image") "intake.acquire.local_object" "intake.decode.text_json_html"
    "clean.ocr.local" 2.
Definition BUILTIN_VISION_REJECTION_INTAKE_WORKFLOW : WorkflowDefinition :=
  source_profile_workflow "intake.ingest.single.vision-rejected.lsrag.v1" "intake.acquire.local_object"
    "intake.decode.text_json_html" "clean.extract.vision" 2.
Definition BUILTIN_DOC_LLM_INTAKE_WORKFLOW : WorkflowDefinition :=
  source_profile_workflow "intake.ingest.single.doc-llm.lsrag.v1" "intake.acquire.local_object"
    "intake.decode.text_json_html" "clean.extract.doc_llm" 2.
Definition BUILTIN_HTTP_WEB_LLM_INTAKE_WORKFLOW : WorkflowDefinition :=
  source_profile_workflow "intake.ingest.single.http-web-llm.lsrag.v1" "intake.acquire.http_static"
    "intake.decode.text_json_html" "clean.extract.web_llm" 2.
Definition BUILTIN_HTTP_BROWSER_WEB_LLM_INTAKE_WORKFLOW : WorkflowDefinition :=
  source_profile_workflow "intake.ingest.single.http-browser-web-llm.lsrag.v1" "intake.acquire.http_browser"
    "intake.decode.text_json_html" "clean.extract.web_llm" 2.
Definition BUILTIN_LOCAL_PDF_LLM_INTAKE_WORKFLOW : WorkflowDefinition :=
  source_profile_workflow "intake.ingest.single.local-pdf-understanding.lsrag.v1" "intake.acquire.local_object"
    "intake.decode.pdf" "clean.extract.pdf_llm" 2.
Definition BUILTIN_BROWSER_PRINT_PDF_INTAKE_WORKFLOW : WorkflowDefinition :=
  source_profile_workflow "intake.ingest.single.http-browser-print-pdf.lsrag.v1" "intake.acquire.http_browser"
    "intake.decode.pdf" "clean.extract.pdf_llm" 2.

Definition BUILTIN_SOURCE_PROFILE_WORKFLOWS : list WorkflowDefinition :=
  [BUILTIN_LOCAL_OBJECT_INTAKE_WORKFLOW; BUILTIN_LOCAL_PDF_INTAKE_WORKFLOW; BUILTIN_HTTP_STATIC_INTAKE_WORKFLOW;
   BUILTIN_HTTP_BROWSER_INTAKE_WORKFLOW; BUILTIN_HTTP_PDF_INTAKE_WORKFLOW; BUILTIN_LOCAL_OCR_INTAKE_WORKFLOW;
   BUILTIN_VISION_REJECTION_INTAKE_WORKFLOW; BUILTIN_DOC_LLM_INTAKE_WORKFLOW; BUILTIN_HTTP_WEB_LLM_INTAKE_WORKFLOW;
   BUILTIN_HTTP_BROWSER_WEB_LLM_INTAKE_WORKFLOW; BUILTIN_LOCAL_PDF_LLM_INTAKE_WORKFLOW;
   BUILTIN_BROWSER_PRINT_PDF_INTAKE_WORKFLOW].

Definition BUILTIN_NS1_PRE_MARKDOWN_COMPATIBILITY_WORKFLOWS : list WorkflowDefinition :=
  map (fun d => without_ns1_markdown_branch d (revision_number d - 1))
    (BUILTIN_SINGLE_INTAKE_LSRAG_WORKFLOW :: BUILTIN_SOURCE_PROFILE_WORKFLOWS).

(** ** [lsrag_historical.py] *)

(** [_historical_v2_execution_plan] *)
Definition HISTORICAL_SINGLE_INTAKE_LSRAG_WORKFLOW_V2 : WorkflowDefinition :=
  set_revision 2 pre_ns1_metadata_refresh_execution_document.

(** [_historical_v1_execution_plan] *)
Definition HISTORICAL_SINGLE_INTAKE_LSRAG_WORKFLOW_V1 : WorkflowDefinition :=
  let document := HISTORICAL_SINGLE_INTAKE_LSRAG_WORKFLOW_V2 in
  let fix_priority r := if seq (route_key r) "start.to_acquire" then set_priority 0 r else r in
  let keep_route r :=
    negb (seq (from_step_key r) "index_rebuild") && negb (seq (to_step_key r) "index_rebuild")
    && negb (guarded_by r "request_intent_index_rebuild") in
  Build_WorkflowDefinition (workflow_key document) 1 (execution_role document)
    (List.filter (fun p => negb (seq (slot_name p) "index_rebuild_scope")) (context_slots document))
    (List.filter (fun k => negb (seq k "index.rebuild")) (required_process_keys document))
    (List.filter (fun s => negb (seq (step_key s) "index_rebuild")) (steps document))
    (map fix_priority (List.filter keep_route (routes document)))
    (List.filter (fun b => negb (seq (target_step_key b) "index_rebuild")) (bindings document))
    (List.filter (fun g => negb (seq (guard_key g) "request_intent_index_rebuild")) (guards document)).

Definition BUILTIN_EXECUTION_COMPATIBILITY_WORKFLOWS : list WorkflowDefinition :=
  [HISTORICAL_SINGLE_INTAKE_LSRAG_WORKFLOW_V1; HISTORICAL_SINGLE_INTAKE_LSRAG_WORKFLOW_V2].

(** ** [lsrag_shared_tail.py] *)

Definition SHARED_TAIL_STEP_KEYS : list string :=
  ["seal_candidate_set"; "preflight_validate"; "accept_snapshot"; "human_review"; "transcribe_markdown"; "structurize";
   "construct"; "vectorize"; "validate_publication"; "succeeded"; "failed"; "cancelled"].

Record SharedTailComponents := {
  tail_steps : list WorkflowStepDefinition;
  tail_routes : list WorkflowRouteDefinition;
  tail_bindings : list WorkflowBindingDefinition;
  tail_guards : list WorkflowGuardDefinition;
  tail_required_process_keys : list string
}.

(** The selections that [shared_tail_components] and [shared_tail_digest] both make. *)
Definition in_tail (s : WorkflowStepDefinition) : bool := sin (step_key s) SHARED_TAIL_STEP_KEYS.
Definition route_in_tail (r : WorkflowRouteDefinition) : bool :=
  sin (from_step_key r) SHARED_TAIL_STEP_KEYS && sin (to_step_key r) SHARED_TAIL_STEP_KEYS.
Definition binding_in_tail (b : WorkflowBindingDefinition) : bool :=
  sin (target_step_key b) SHARED_TAIL_STEP_KEYS && opt_ok (fun k => sin k SHARED_TAIL_STEP_KEYS) (source_step_key b).

Definition shared_tail_components : SharedTailComponents :=
  let base := BUILTIN_SINGLE_INTAKE_LSRAG_WORKFLOW in
  let adjust s :=
    if seq (step_key s) "preflight_validate" then
      set_input_ports (List.filter (fun p => negb (seq (slot_name p) "acquisition_evidence")) (input_ports s)) s
    else s in
  let adjusted_steps := map adjust (List.filter in_tail (steps base)) in
  let tail_routes := List.filter route_in_tail (routes base) in
  let referenced_guards := omap route_guard tail_routes in
  {| tail_steps := adjusted_steps;
     tail_routes := tail_routes;
     tail_bindings := List.filter binding_in_tail (bindings base);
     tail_guards := List.filter (fun g => sin (guard_key g) referenced_guards) (guards base);
     tail_required_process_keys := omap (fun s => if is_kind PROCESS s then process_key s else None) adjusted_steps |}.

(** What [shared_tail_digest] digests. *)
Definition shared_tail (d : WorkflowDefinition)
    : list WorkflowStepDefinition * list WorkflowRouteDefinition * list WorkflowBindingDefinition :=
  (List.filter in_tail (steps d), List.filter route_in_tail (routes d), List.filter binding_in_tail (bindings d)).
