(* ===== verification/KindWorkflows.v ===== *)
(** * The shipped kind and scatter workflows

    Model of [src/workflows/builtin_scatter.py] (the collection root, its child and the child
    before the Markdown hop) and of [src/workflows/kind_family.py] (one graph per source kind,
    composed of its own acquisition prefix, a selected-output control and the shared tail).
    [builtin_lsrag.py] and [services/workflow_registry.py] list the graphs the runtime
    registers.  The frozen revision-1 kind graphs are a JSON artifact and are not modelled. *)

From S2P Require Import Prelude PyText WorkflowContracts LsragDefinition.

Open Scope Z_scope.
Open Scope string_scope.
Open Scope list_scope.

(** ** [builtin_scatter.py] *)

Module Scatter.

(** The module declares its own copies of the helpers. *)
Definition ref (slot_name schema_ref : string) : WorkflowPortDefinition :=
  Build_WorkflowPortDefinition slot_name LOGICAL_REF schema_ref true ONE.
Definition optional_ref (slot_name schema_ref : string) : WorkflowPortDefinition :=
  Build_WorkflowPortDefinition slot_name LOGICAL_REF schema_ref false ONE.
Definition process (step_key process_key : string) (phase_key : WorkflowPhaseKey) (proof_kind : string)
    (input_ports output_ports : list WorkflowPortDefinition) : WorkflowStepDefinition :=
  Build_WorkflowStepDefinition step_key PROCESS REQUIRED (Some process_key) (Some "v1") (Some phase_key) (Some proof_kind)
    None None None input_ports output_ports None.
Definition terminal_routes (step_key : string) : list WorkflowRouteDefinition :=
  [route (String.append step_key ".failed") step_key "failed" RK_TERMINAL FAILED 0 None;
   route (String.append step_key ".cancelled") step_key "cancelled" RK_TERMINAL CANCELLED 0 None].

Definition SCATTER_ROOT_WORKFLOW_KEY : string := "intake.ingest.scatter.registered_api.lsrag.v1".
Definition SCATTER_CHILD_WORKFLOW_KEY : string := "intake.ingest.scatter.child.lsrag.v1".

Definition ROOT_STEPS : list WorkflowStepDefinition :=
  [start_step "start";
   process "acquire_registered_api" "intake.acquire.registered_api" RESOLVING_SOURCE "acquisition_evidence"
     [ref "source_descriptor" "mkb.intake.source-descriptor.v1"]
     [ref "acquisition_evidence" "mkb.intake.acquisition-evidence.v1"];
   process "clean_map_registered_api" "clean.map.registered_api" SCATTERING "clean_collection_evidence"
     [ref "acquisition_evidence" "mkb.intake.acquisition-evidence.v1"]
     [ref "clean_collection" "mkb.intake.clean-collection.v1"];
   process "seal_candidate_set" "intake.collection.seal" PREFLIGHT_ADMISSION "candidate_set_seal_proof"
     [ref "clean_collection" "mkb.intake.clean-collection.v1"]
     [ref "candidate_set_seal" "mkb.intake.candidate-set-seal.v1"];
   process "preflight_validate" "intake.preflight_validate" PREFLIGHT_ADMISSION "preflight_outcome_evidence"
     [ref "acquisition_evidence" "mkb.intake.acquisition-evidence.v1";
      ref "candidate_set_seal" "mkb.intake.candidate-set-seal.v1";
      ref "clean_collection" "mkb.intake.clean-collection.v1"]
     [ref "preflight_outcome" "mkb.intake.preflight-outcome.v1"];
   process "accept_snapshot" "intake.accept_snapshot" PREFLIGHT_ADMISSION "acceptance_proof"
     [ref "candidate_set_seal" "mkb.intake.candidate-set-seal.v1";
      ref "preflight_outcome" "mkb.intake.preflight-outcome.v1"]
     [ref "accepted_collection" "mkb.intake.accepted-collection.v1"];
   control_step "human_review" "human_review_gate" AWAITING_HUMAN_REVIEW
     [ref "accepted_collection" "mkb.intake.accepted-collection.v1";
      ref "preflight_outcome" "mkb.intake.preflight-outcome.v1"]
     [ref "gate_decision" "mkb.intake.gate-decision.v1"];
   control_step "scatter_children_join" "scatter_children_join" FAN_IN
     [ref "accepted_collection" "mkb.intake.accepted-collection.v1"]
     [];
   terminal_step "succeeded" TK_SUCCESS;
   terminal_step "failed" TK_FAILURE;
   terminal_step "cancelled" TK_CANCELLED].

Definition ROOT_ROUTES_declared : list WorkflowRouteDefinition :=
  [route "start.to_acquire_registered_api" "start" "acquire_registered_api" RK_NORMAL ALWAYS 0 None;
   route "acquire_registered_api.to_clean_map_registered_api" "acquire_registered_api" "clean_map_registered_api" RK_NORMAL SUCCEEDED 0 None;
   route "clean_map_registered_api.to_seal_candidate_set" "clean_map_registered_api" "seal_candidate_set" RK_NORMAL SUCCEEDED 0 None;
   route "seal_candidate_set.to_preflight_validate" "seal_candidate_set" "preflight_validate" RK_NORMAL SUCCEEDED 0 None;
   route "preflight_validate.to_accept_snapshot" "preflight_validate" "accept_snapshot" RK_NORMAL SUCCEEDED 0 None;
   route "accept_snapshot.auto_admitted" "accept_snapshot" "scatter_children_join" RK_BRANCH SUCCEEDED 10
    (Some "admission_auto_admitted");
   route "accept_snapshot.human_review" "accept_snapshot" "human_review" RK_BRANCH SUCCEEDED 20
    (Some "admission_human_review_required");
   route "accept_snapshot.rejected" "accept_snapshot" "failed" RK_TERMINAL SUCCEEDED 30 (Some "admission_rejected");
   route "human_review.to_scatter_children_join" "human_review" "scatter_children_join" RK_NORMAL SUCCEEDED 0 None;
   route "scatter_children_join.to_succeeded" "scatter_children_join" "succeeded" RK_TERMINAL SUCCEEDED 0 None].
Definition ROOT_ROUTES : list WorkflowRouteDefinition :=
  ROOT_ROUTES_declared ++ concat (map terminal_routes
    ["acquire_registered_api"; "clean_map_registered_api"; "seal_candidate_set"; "preflight_validate"; "accept_snapshot";
     "human_review"; "scatter_children_join"]).

Definition ROOT_BINDINGS : list WorkflowBindingDefinition :=
  [from_context "acquire_registered_api" "source_descriptor" "source_descriptor";
   prior "clean_map_registered_api" "acquisition_evidence" "acquire_registered_api" "acquisition_evidence";
   prior "seal_candidate_set" "clean_collection" "clean_map_registered_api" "clean_collection";
   prior "preflight_validate" "acquisition_evidence" "acquire_registered_api" "acquisition_evidence";
   prior "preflight_validate" "candidate_set_seal" "seal_candidate_set" "candidate_set_seal";
   prior "preflight_validate" "clean_collection" "clean_map_registered_api" "clean_collection";
   prior "accept_snapshot" "candidate_set_seal" "seal_candidate_set" "candidate_set_seal";
   prior "accept_snapshot" "preflight_outcome" "preflight_validate" "preflight_outcome";
   prior "human_review" "accepted_collection" "accept_snapshot" "accepted_collection";
   prior "human_review" "preflight_outcome" "preflight_validate" "preflight_outcome";
   prior "scatter_children_join" "accepted_collection" "accept_snapshot" "accepted_collection"].

Definition ROOT_GUARDS : list WorkflowGuardDefinition :=
  [Build_WorkflowGuardDefinition "admission_auto_admitted" registered_admission_result "auto_admitted";
   Build_WorkflowGuardDefinition "admission_human_review_required" registered_admission_result "human_review_required";
   Build_WorkflowGuardDefinition "admission_rejected" registered_admission_result "rejected"].

Definition BUILTIN_REGISTERED_API_SCATTER_ROOT_WORKFLOW : WorkflowDefinition :=
  Build_WorkflowDefinition SCATTER_ROOT_WORKFLOW_KEY 1 SCATTER_ROOT
    [ref "source_descriptor" "mkb.intake.source-descriptor.v1"]
    ["intake.acquire.registered_api"; "clean.map.registered_api"; "intake.collection.seal"; "intake.preflight_validate";
     "intake.accept_snapshot"]
    ROOT_STEPS ROOT_ROUTES ROOT_BINDINGS ROOT_GUARDS.

(** ** The child graph *)

Definition CHILD_STEPS : list WorkflowStepDefinition :=
  [start_step "start";
   process "transcribe_markdown" "lsrag.transcribe_markdown" STRUCTURIZING "markdown_transcription_proof"
     [ref "accepted_intake_revision" "mkb.intake.accepted-revision.v1"]
     [ref "markdown_artifact" "mkb.lsrag.markdown-artifact.v1"];
   process "structurize" "lsrag.structurize" STRUCTURIZING "structure_proof"
     [ref "accepted_intake_revision" "mkb.intake.accepted-revision.v1";
      optional_ref "markdown_artifact" "mkb.lsrag.markdown-artifact.v1"]
     [ref "structure_artifact" "mkb.lsrag.structure-artifact.v1"];
   process "construct" "lsrag.construct" CONSTRUCTING "construct_to_vectorize_gate"
     [ref "structure_artifact" "mkb.lsrag.structure-artifact.v1"]
     [ref "construct_package" "mkb.lsrag.construct-package.v1"];
   process "vectorize" "lsrag.vectorize" VECTORIZING_INDEXING "vectorization_proof"
     [ref "construct_package" "mkb.lsrag.construct-package.v1"]
     [ref "vectorization_receipt" "mkb.vector.vectorization-receipt.v1"];
   process "validate_publication" "index.validate_publication" VALIDATING_PUBLICATION "publication_proof"
     [ref "accepted_intake_revision" "mkb.intake.accepted-revision.v1";
      ref "vectorization_receipt" "mkb.vector.vectorization-receipt.v1"]
     [ref "publication_proof" "mkb.vector.publication-proof.v1"];
   terminal_step "succeeded" TK_SUCCESS;
   terminal_step "failed" TK_FAILURE;
   terminal_step "cancelled" TK_CANCELLED].

Definition CHILD_ROUTES_declared : list WorkflowRouteDefinition :=
  [route "start.to_transcribe_markdown" "start" "transcribe_markdown" RK_NORMAL ALWAYS 0
    (Some "prompt_markdown_present");
   route "start.to_structurize" "start" "structurize" RK_NORMAL ALWAYS 10 None;
   route "transcribe_markdown.to_structurize" "transcribe_markdown" "structurize" RK_NORMAL SUCCEEDED 0 None;
   route "structurize.to_construct" "structurize" "construct" RK_NORMAL SUCCEEDED 0 None;
   route "construct.to_vectorize" "construct" "vectorize" RK_NORMAL SUCCEEDED 0 None;
   route "vectorize.to_validate_publication" "vectorize" "validate_publication" RK_NORMAL SUCCEEDED 0 None;
   route "validate_publication.to_succeeded" "validate_publication" "succeeded" RK_TERMINAL SUCCEEDED 0 None].
Definition CHILD_ROUTES : list WorkflowRouteDefinition :=
  CHILD_ROUTES_declared ++ concat (map terminal_routes
    ["transcribe_markdown"; "structurize"; "construct"; "vectorize"; "validate_publication"]).

Definition CHILD_BINDINGS : list WorkflowBindingDefinition :=
  [from_context "transcribe_markdown" "accepted_intake_revision" "accepted_intake_revision";
   from_context "structurize" "accepted_intake_revision" "accepted_intake_revision";
   prior "structurize" "markdown_artifact" "transcribe_markdown" "markdown_artifact";
   prior "construct" "structure_artifact" "structurize" "structure_artifact";
   prior "vectorize" "construct_package" "construct" "construct_package";
   from_context "validate_publication" "accepted_intake_revision" "accepted_intake_revision";
   prior "validate_publication" "vectorization_receipt" "vectorize" "vectorization_receipt"].

Definition CHILD_GUARDS : list WorkflowGuardDefinition :=
  [Build_WorkflowGuardDefinition "prompt_markdown_present" registered_markdown_selection "present"].

Definition BUILTIN_REGISTERED_API_SCATTER_CHILD_WORKFLOW : WorkflowDefinition :=
  Build_WorkflowDefinition SCATTER_CHILD_WORKFLOW_KEY 2 SCATTER_CHILD
    [ref "accepted_intake_revision" "mkb.intake.accepted-revision.v1"]
    ["lsrag.transcribe_markdown"; "lsrag.structurize"; "lsrag.construct"; "lsrag.vectorize"; "index.validate_publication"]
    CHILD_STEPS CHILD_ROUTES CHILD_BINDINGS CHILD_GUARDS.

(** [_pre_ns1_scatter_child_workflow] *)
Definition BUILTIN_NS1_PRE_MARKDOWN_SCATTER_COMPATIBILITY_WORKFLOW : WorkflowDefinition :=
  let legacy := BUILTIN_REGISTERED_API_SCATTER_CHILD_WORKFLOW in
  let fix_ports s :=
    if seq (step_key s) "structurize" then
      set_input_ports (List.filter (fun p => negb (seq (slot_name p) "markdown_artifact")) (input_ports s)) s
    else s in
  let fix_priority r := if seq (route_key r) "start.to_structurize" then set_priority 0 r else r in
  let keep_route r :=
    negb (seq (from_step_key r) "transcribe_markdown") && negb (seq (to_step_key r) "transcribe_markdown")
    && negb (seq (route_key r) "start.to_transcribe_markdown") in
  let keep_binding b :=
    negb (seq (target_step_key b) "transcribe_markdown")
    && negb (seq (target_step_key b) "structurize" && seq (target_slot_name b) "markdown_artifact") in
  Build_WorkflowDefinition (workflow_key legacy) 1 (execution_role legacy) (context_slots legacy)
    (List.filter (fun k => negb (seq k "lsrag.transcribe_markdown")) (required_process_keys legacy))
    (map fix_ports (List.filter (fun s => negb (seq (step_key s) "transcribe_markdown")) (steps legacy)))
    (map fix_priority (List.filter keep_route (routes legacy)))
    (List.filter keep_binding (bindings legacy))
    (List.filter (fun g => negb (seq (guard_key g) "prompt_markdown_present")) (guards legacy)).

Definition BUILTIN_SCATTER_WORKFLOWS : list WorkflowDefinition :=
  [BUILTIN_REGISTERED_API_SCATTER_ROOT_WORKFLOW; BUILTIN_REGISTERED_API_SCATTER_CHILD_WORKFLOW].

End Scatter.

(** ** [kind_family.py] *)

Module Kind.

Definition INLINE_KIND_WORKFLOW_KEY : string := "intake.ingest.kind.inline-payload.lsrag.v1".
Definition LOCAL_OBJECT_KIND_WORKFLOW_KEY : string := "intake.ingest.kind.local-object.lsrag.v1".
Definition HTTP_RESOURCE_KIND_WORKFLOW_KEY : string := "intake.ingest.kind.http-resource.lsrag.v1".
Definition SOURCE_KIND_WORKFLOW_KEYS : list (string * string) :=
  [("inline_payload", INLINE_KIND_WORKFLOW_KEY); ("local_object", LOCAL_OBJECT_KIND_WORKFLOW_KEY);
   ("http_resource", HTTP_RESOURCE_KIND_WORKFLOW_KEY)].

Definition ref (slot_name schema_ref : string) (req : bool) : WorkflowPortDefinition :=
  Build_WorkflowPortDefinition slot_name LOGICAL_REF schema_ref req ONE.
Definition process (step_key process_key input_schema output_slot output_schema : string) (phase : WorkflowPhaseKey)
    (proof : string) : WorkflowStepDefinition :=
  Build_WorkflowStepDefinition step_key PROCESS REQUIRED (Some process_key) (Some "v1") (Some phase) (Some proof)
    None None None [ref "input" input_schema true] [ref output_slot output_schema true] None.
Definition acquire (step_key process_key : string) : WorkflowStepDefinition :=
  process step_key process_key "mkb.intake.source-descriptor.v1" "acquisition_evidence"
    "mkb.intake.acquisition-evidence.v1" RESOLVING_SOURCE "acquisition_evidence".
Definition decode (step_key process_key : string) : WorkflowStepDefinition :=
  process step_key process_key "mkb.intake.acquisition-evidence.v1" "decoded_representation"
    "mkb.intake.decoded-representation.v1" RESOLVING_SOURCE "decode_evidence".
Definition clean (step_key process_key : string) : WorkflowStepDefinition :=
  process step_key process_key "mkb.intake.decoded-representation.v1" "clean_candidate"
    "mkb.intake.clean-candidate.v1" CLEANING "clean_candidate_evidence".
Definition route (key source target : string) (selector : WorkflowOutcomeSelector) (prio : Z) (guard : option string)
    : WorkflowRouteDefinition :=
  Build_WorkflowRouteDefinition key source target RK_NORMAL selector prio guard JM_NONE.
Definition terminal_routes (step_keys : list string) : list WorkflowRouteDefinition :=
  concat (map (fun key =>
    [Build_WorkflowRouteDefinition (String.append key ".failed") key "failed" RK_TERMINAL FAILED 0 None JM_NONE;
     Build_WorkflowRouteDefinition (String.append key ".cancelled") key "cancelled" RK_TERMINAL CANCELLED 0 None JM_NONE])
    step_keys).
Definition bind (target slot source port : string) : WorkflowBindingDefinition :=
  Build_WorkflowBindingDefinition target slot PRIOR_OUTPUT None (Some source) (Some port).
Definition bind_context (target slot ref_key : string) : WorkflowBindingDefinition :=
  Build_WorkflowBindingDefinition target slot EXECUTION_CONTEXT (Some ref_key) None None.
Definition guard (key : string) (predicate : GuardPredicate) (expected : string) : WorkflowGuardDefinition :=
  Build_WorkflowGuardDefinition key predicate expected.

Definition selected_control (clean_steps : list WorkflowStepDefinition) : WorkflowStepDefinition :=
  Build_WorkflowStepDefinition "selected_clean" CONTROL REQUIRED None None (Some CLEANING) None (Some "selected_output")
    (Some "selected-output.v1") None
    (map (fun s => ref (step_key s) "mkb.intake.clean-candidate.v1" false) clean_steps)
    [ref "clean_candidate" "mkb.intake.clean-candidate.v1" true] None.

(** [dict.fromkeys(l)]: the first occurrence of each key, in order. *)
Fixpoint fromkeys (seen l : list string) : list string :=
  match l with
  | [] => []
  | k :: l => if sin k seen then fromkeys seen l else k :: fromkeys (k :: seen) l
  end.
(** [{g.guard_key: g for g in l}.values()]: the last guard of each key, at its first position. *)
Definition guards_by_key (l : list WorkflowGuardDefinition) : list WorkflowGuardDefinition :=
  omap (fun k => List.find (fun g => seq (guard_key g) k) (rev l)) (fromkeys [] (map guard_key l)).

Definition is_clean_step (s : WorkflowStepDefinition) : bool :=
  match process_key s with
  | Some key => negb (seq key "") && (String.prefix "clean." key || seq key "intake.replay_frozen_clean")
  | None => false
  end.

(** [_compose]; an empty [context_slots] takes the default as [None] does. *)
Definition compose (key : string) (prefix_steps : list WorkflowStepDefinition) (prefix_routes : list WorkflowRouteDefinition)
    (prefix_bindings : list WorkflowBindingDefinition) (prefix_guards : list WorkflowGuardDefinition)
    (context : list WorkflowPortDefinition) : WorkflowDefinition :=
  let tail := shared_tail_components in
  let clean_steps := List.filter is_clean_step prefix_steps in
  let control_routes :=
    route "selected_clean.to_seal" "selected_clean" "seal_candidate_set" SUCCEEDED 0 None
    :: terminal_routes ["selected_clean"] in
  let control_bindings :=
    map (fun s => bind "selected_clean" (step_key s) (step_key s) "clean_candidate") clean_steps
    ++ [bind "seal_candidate_set" "clean_candidate" "selected_clean" "clean_candidate";
        bind "preflight_validate" "clean_candidate" "selected_clean" "clean_candidate"] in
  Build_WorkflowDefinition key 2 SINGLE_ROOT
    match context with [] => [ref "source_descriptor" "mkb.intake.source-descriptor.v1" true] | _ => context end
    (fromkeys [] (omap process_key prefix_steps ++ tail_required_process_keys tail))
    (start_step "start" :: prefix_steps ++ selected_control clean_steps :: tail_steps tail)
    (prefix_routes ++ control_routes ++ tail_routes tail)
    (prefix_bindings ++ control_bindings ++ tail_bindings tail)
    (guards_by_key (prefix_guards ++ tail_guards tail)).

(** *** [_inline_kind] *)

Definition index_steps : list WorkflowStepDefinition :=
  match List.filter (fun s => seq (step_key s) "index_rebuild") (steps BUILTIN_SINGLE_INTAKE_LSRAG_WORKFLOW) with
  | s :: _ => [s]
  | [] => []
  end.
Definition inline_steps : list WorkflowStepDefinition :=
  index_steps ++
  [acquire "acquire_inline" "intake.acquire.inline";
   decode "decode_text" "intake.decode.text_json_html";
   clean "clean_deterministic" "clean.extract.deterministic";
   process "replay_frozen_clean" "intake.replay_frozen_clean" "mkb.intake.source-descriptor.v1" "clean_candidate"
     "mkb.intake.clean-candidate.v1" PREFLIGHT_ADMISSION "rebuild_clean_replay_proof";
   process "metadata_no_change" "intake.metadata_no_change" "mkb.intake.source-descriptor.v1" "metadata_admission"
     "mkb.intake.candidate-set-seal.v1" UPDATING_METADATA "metadata_no_change_proof"].
Definition inline_routes : list WorkflowRouteDefinition :=
  [route "start.index_rebuild" "start" "index_rebuild" ALWAYS 0 (Some "request_intent_index_rebuild");
   route "start.rebuild" "start" "replay_frozen_clean" ALWAYS 1 (Some "request_intent_rebuild");
   route "start.metadata_no_change" "start" "metadata_no_change" ALWAYS 2 (Some "metadata_no_change");
   route "start.metadata_refresh" "start" "replay_frozen_clean" ALWAYS 3 (Some "request_intent_metadata_refresh");
   route "start.acquire" "start" "acquire_inline" ALWAYS 10 None;
   set_route_kind RK_TERMINAL
     (route "acquire.deactivate" "acquire_inline" "succeeded" SUCCEEDED 0 (Some "request_intent_deactivate"));
   set_route_kind RK_TERMINAL
     (route "acquire.reactivate" "acquire_inline" "succeeded" SUCCEEDED 1 (Some "request_intent_reactivate"));
   set_route_kind RK_TERMINAL
     (route "acquire.delete" "acquire_inline" "succeeded" SUCCEEDED 2 (Some "request_intent_delete"));
   route "acquire.decode" "acquire_inline" "decode_text" SUCCEEDED 10 None;
   route "decode.clean" "decode_text" "clean_deterministic" SUCCEEDED 0 None;
   route "clean.selected" "clean_deterministic" "selected_clean" SUCCEEDED 0 None;
   route "replay.selected" "replay_frozen_clean" "selected_clean" SUCCEEDED 0 None;
   set_route_kind RK_TERMINAL
     (route "metadata_no_change.succeeded" "metadata_no_change" "succeeded" SUCCEEDED 0 None);
   set_route_kind RK_TERMINAL (route "index.succeeded" "index_rebuild" "succeeded" SUCCEEDED 0 None)]
  ++ terminal_routes
       ["index_rebuild"; "acquire_inline"; "decode_text"; "clean_deterministic"; "replay_frozen_clean";
        "metadata_no_change"].
Definition inline_bindings : list WorkflowBindingDefinition :=
  [bind_context "index_rebuild" "index_rebuild_scope" "index_rebuild_scope";
   bind_context "acquire_inline" "input" "source_descriptor";
   bind_context "replay_frozen_clean" "input" "source_descriptor";
   bind_context "metadata_no_change" "input" "source_descriptor";
   bind "decode_text" "input" "acquire_inline" "acquisition_evidence";
   bind "clean_deterministic" "input" "decode_text" "decoded_representation"].
Definition inline_guards : list WorkflowGuardDefinition :=
  [guard "request_intent_index_rebuild" registered_request_intent "index.rebuild";
   guard "request_intent_rebuild" registered_request_intent "intake.rebuild";
   guard "request_intent_metadata_refresh" registered_request_intent "intake.update_metadata";
   guard "request_intent_deactivate" registered_request_intent "intake.deactivate";
   guard "request_intent_reactivate" registered_request_intent "intake.reactivate";
   guard "request_intent_delete" registered_request_intent "intake.delete";
   guard "metadata_no_change" registered_metadata_disposition "no_change"].
Definition BUILTIN_INLINE_KIND_WORKFLOW : WorkflowDefinition :=
  compose INLINE_KIND_WORKFLOW_KEY inline_steps inline_routes inline_bindings inline_guards
    [ref "source_descriptor" "mkb.intake.source-descriptor.v1" true;
     ref "index_rebuild_scope" "mkb.index.rebuild-scope.v1" true].

(** *** [_local_kind] *)

Definition local_decodes : list WorkflowStepDefinition :=
  [decode "decode_text" "intake.decode.text_json_html"; decode "decode_pdf" "intake.decode.pdf";
   decode "decode_image" "intake.decode.text_json_html"].
Definition local_cleans : list WorkflowStepDefinition :=
  map (fun spec => clean spec.1 spec.2)
    [("clean_deterministic", "clean.extract.deterministic"); ("clean_doc_llm", "clean.extract.doc_llm");
     ("clean_doc_ocr", "clean.ocr.local"); ("clean_vision", "clean.extract.vision");
     ("clean_pdf_text", "clean.extract.pdf_text"); ("clean_pdf_llm", "clean.extract.pdf_llm");
     ("clean_pdf_ocr", "clean.ocr.local")].
(** The routes of every clean step to the selected-output control. *)
Definition selected_routes (cleans : list WorkflowStepDefinition) : list WorkflowRouteDefinition :=
  map (fun s => route (String.append (step_key s) ".selected") (step_key s) "selected_clean" SUCCEEDED 0 None) cleans.
Definition local_routes : list WorkflowRouteDefinition :=
  [route "start.acquire" "start" "acquire_local" ALWAYS 0 None;
   route "acquire.decode_pdf" "acquire_local" "decode_pdf" SUCCEEDED 0 (Some "media_pdf");
   route "acquire.decode_image" "acquire_local" "decode_image" SUCCEEDED 1 (Some "media_image");
   route "acquire.decode_text" "acquire_local" "decode_text" SUCCEEDED 10 None;
   route "decode_text.doc_llm" "decode_text" "clean_doc_llm" SUCCEEDED 0 (Some "strategy_doc_llm");
   route "decode_text.deterministic" "decode_text" "clean_deterministic" SUCCEEDED 10 None;
   route "decode_image.vision" "decode_image" "clean_vision" SUCCEEDED 0 (Some "strategy_doc_vision");
   route "decode_image.ocr" "decode_image" "clean_doc_ocr" SUCCEEDED 10 None;
   route "decode_pdf.llm" "decode_pdf" "clean_pdf_llm" SUCCEEDED 0 (Some "strategy_pdf_llm");
   route "decode_pdf.ocr" "decode_pdf" "clean_pdf_ocr" SUCCEEDED 1 (Some "strategy_pdf_ocr");
   route "decode_pdf.text" "decode_pdf" "clean_pdf_text" SUCCEEDED 10 None]
  ++ selected_routes local_cleans
  ++ terminal_routes ("acquire_local" :: map step_key local_decodes ++ map step_key local_cleans).
Definition local_bindings : list WorkflowBindingDefinition :=
  [bind_context "acquire_local" "input" "source_descriptor"]
  ++ map (fun s => bind (step_key s) "input" "acquire_local" "acquisition_evidence") local_decodes
  ++ [bind "clean_deterministic" "input" "decode_text" "decoded_representation";
      bind "clean_doc_llm" "input" "decode_text" "decoded_representation";
      bind "clean_doc_ocr" "input" "decode_image" "decoded_representation";
      bind "clean_vision" "input" "decode_image" "decoded_representation";
      bind "clean_pdf_text" "input" "decode_pdf" "decoded_representation";
      bind "clean_pdf_llm" "input" "decode_pdf" "decoded_representation";
      bind "clean_pdf_ocr" "input" "decode_pdf" "decoded_representation"].
Definition local_guards : list WorkflowGuardDefinition :=
  [guard "media_pdf" representation_media_family "pdf";
   guard "media_image" representation_media_family "image";
   guard "strategy_doc_llm" registered_clean_strategy "doc.document_understanding";
   guard "strategy_doc_vision" registered_clean_strategy "doc.vision";
   guard "strategy_pdf_llm" registered_clean_strategy "pdf.document_understanding";
   guard "strategy_pdf_ocr" registered_clean_strategy "pdf.ocr"].
Definition BUILTIN_LOCAL_OBJECT_KIND_WORKFLOW : WorkflowDefinition :=
  compose LOCAL_OBJECT_KIND_WORKFLOW_KEY
    (acquire "acquire_local" "intake.acquire.local_object" :: local_decodes ++ local_cleans)
    local_routes local_bindings local_guards [].

(** *** [_http_kind] *)

Definition http_acquires : list WorkflowStepDefinition :=
  [acquire "acquire_static" "intake.acquire.http_static"; acquire "acquire_browser" "intake.acquire.http_browser";
   acquire "acquire_browser_reacquire" "intake.acquire.http_browser"; acquire "acquire_print" "intake.acquire.http_browser"].
Definition http_decodes : list WorkflowStepDefinition :=
  [decode "decode_web_static" "intake.decode.text_json_html"; decode "decode_web_browser" "intake.decode.text_json_html";
   decode "decode_web_reacquire" "intake.decode.text_json_html"; decode "decode_pdf" "intake.decode.pdf";
   decode "decode_print" "intake.decode.pdf"].
Definition http_cleans : list WorkflowStepDefinition :=
  map (fun spec => clean spec.1 spec.2)
    [("clean_web_static", "clean.extract.web"); ("clean_web_browser", "clean.extract.web");
     ("clean_web_llm_static", "clean.extract.web_llm"); ("clean_web_llm_browser", "clean.extract.web_llm");
     ("clean_web_reacquire", "clean.extract.web"); ("clean_web_llm_reacquire", "clean.extract.web_llm");
     ("clean_pdf_text", "clean.extract.pdf_text"); ("clean_pdf_llm", "clean.extract.pdf_llm");
     ("clean_pdf_ocr", "clean.ocr.local"); ("clean_print_pdf", "clean.extract.pdf_llm")].
Definition http_routes : list WorkflowRouteDefinition :=
  [route "start.browser" "start" "acquire_browser" ALWAYS 0 (Some "mode_browser");
   route "start.static" "start" "acquire_static" ALWAYS 10 None;
   route "static.decode_pdf" "acquire_static" "decode_pdf" SUCCEEDED 0 (Some "mode_pdf");
   route "static.decode_web" "acquire_static" "decode_web_static" SUCCEEDED 10 None;
   route "browser.decode_web" "acquire_browser" "decode_web_browser" SUCCEEDED 0 None;
   route "reacquire.decode_web" "acquire_browser_reacquire" "decode_web_reacquire" SUCCEEDED 0 None;
   route "print.decode_pdf" "acquire_print" "decode_print" SUCCEEDED 0 None;
   route "decode_static.reacquire_browser" "decode_web_static" "acquire_browser_reacquire" SUCCEEDED 0
     (Some "main_text_absent");
   route "decode_static.print" "decode_web_static" "acquire_print" SUCCEEDED 1 (Some "strategy_print_pdf");
   route "decode_static.web_llm" "decode_web_static" "clean_web_llm_static" SUCCEEDED 2 (Some "strategy_web_llm");
   route "decode_static.web" "decode_web_static" "clean_web_static" SUCCEEDED 10 None;
   route "decode_browser.print" "decode_web_browser" "acquire_print" SUCCEEDED 0 (Some "strategy_print_pdf");
   route "decode_browser.web_llm" "decode_web_browser" "clean_web_llm_browser" SUCCEEDED 1 (Some "strategy_web_llm");
   route "decode_browser.web" "decode_web_browser" "clean_web_browser" SUCCEEDED 10 None;
   route "decode_reacquire.print" "decode_web_reacquire" "acquire_print" SUCCEEDED 0 (Some "strategy_print_pdf");
   route "decode_reacquire.web_llm" "decode_web_reacquire" "clean_web_llm_reacquire" SUCCEEDED 1
     (Some "strategy_web_llm");
   route "decode_reacquire.web" "decode_web_reacquire" "clean_web_reacquire" SUCCEEDED 10 None;
   route "decode_pdf.llm" "decode_pdf" "clean_pdf_llm" SUCCEEDED 0 (Some "strategy_pdf_llm");
   route "decode_pdf.ocr" "decode_pdf" "clean_pdf_ocr" SUCCEEDED 1 (Some "strategy_pdf_ocr");
   route "decode_pdf.text" "decode_pdf" "clean_pdf_text" SUCCEEDED 10 None;
   route "decode_print.clean" "decode_print" "clean_print_pdf" SUCCEEDED 0 None]
  ++ selected_routes http_cleans
  ++ terminal_routes (map step_key http_acquires ++ map step_key http_decodes ++ map step_key http_cleans).
Definition http_bindings : list WorkflowBindingDefinition :=
  map (fun s => bind_context (step_key s) "input" "source_descriptor") http_acquires
  ++ [bind "decode_web_static" "input" "acquire_static" "acquisition_evidence";
      bind "decode_pdf" "input" "acquire_static" "acquisition_evidence";
      bind "decode_web_browser" "input" "acquire_browser" "acquisition_evidence";
      bind "decode_web_reacquire" "input" "acquire_browser_reacquire" "acquisition_evidence";
      bind "decode_print" "input" "acquire_print" "acquisition_evidence";
      bind "clean_web_static" "input" "decode_web_static" "decoded_representation";
      bind "clean_web_llm_static" "input" "decode_web_static" "decoded_representation";
      bind "clean_web_browser" "input" "decode_web_browser" "decoded_representation";
      bind "clean_web_llm_browser" "input" "decode_web_browser" "decoded_representation";
      bind "clean_web_reacquire" "input" "decode_web_reacquire" "decoded_representation";
      bind "clean_web_llm_reacquire" "input" "decode_web_reacquire" "decoded_representation";
      bind "clean_pdf_text" "input" "decode_pdf" "decoded_representation";
      bind "clean_pdf_llm" "input" "decode_pdf" "decoded_representation";
      bind "clean_pdf_ocr" "input" "decode_pdf" "decoded_representation";
      bind "clean_print_pdf" "input" "decode_print" "decoded_representation"].
Definition http_guards : list WorkflowGuardDefinition :=
  [guard "mode_browser" registered_acquisition_mode "browser";
   guard "mode_pdf" registered_acquisition_mode "pdf";
   guard "main_text_absent" representation_main_text_presence "absent";
   guard "strategy_print_pdf" registered_clean_strategy "web.browser_print_pdf";
   guard "strategy_web_llm" registered_clean_strategy "web.llm_rewrite";
   guard "strategy_pdf_llm" registered_clean_strategy "pdf.document_understanding";
   guard "strategy_pdf_ocr" registered_clean_strategy "pdf.ocr"].
Definition BUILTIN_HTTP_RESOURCE_KIND_WORKFLOW : WorkflowDefinition :=
  compose HTTP_RESOURCE_KIND_WORKFLOW_KEY (http_acquires ++ http_decodes ++ http_cleans)
    http_routes http_bindings http_guards [].

Definition BUILTIN_KIND_WORKFLOWS : list WorkflowDefinition :=
  [BUILTIN_INLINE_KIND_WORKFLOW; BUILTIN_LOCAL_OBJECT_KIND_WORKFLOW; BUILTIN_HTTP_RESOURCE_KIND_WORKFLOW].

End Kind.

(** ** The registered graphs *)

(** [BUILTIN_WORKFLOWS] of [services/workflow_registry.py] *)
Definition BUILTIN_WORKFLOWS : list WorkflowDefinition :=
  (Kind.BUILTIN_KIND_WORKFLOWS ++ BUILTIN_SINGLE_INTAKE_LSRAG_WORKFLOW :: BUILTIN_SOURCE_PROFILE_WORKFLOWS)
  ++ Scatter.BUILTIN_SCATTER_WORKFLOWS.

(** [BUILTIN_EXECUTION_COMPATIBILITY_WORKFLOWS] of [builtin_lsrag.py] *)
Definition COMPATIBILITY_WORKFLOWS : list WorkflowDefinition :=
  BUILTIN_EXECUTION_COMPATIBILITY_WORKFLOWS ++ BUILTIN_NS1_PRE_MARKDOWN_COMPATIBILITY_WORKFLOWS
  ++ [Scatter.BUILTIN_NS1_PRE_MARKDOWN_SCATTER_COMPATIBILITY_WORKFLOW].
