(* ===== verification/Shipped.v ===== *)
(** * What the shipped workflows guarantee

    The validators and the route decision applied to every graph the runtime ships
    ([BUILTIN_WORKFLOWS] and the compatibility revisions): all are accepted, the routes lead
    from the generation part to success only by way of the publication gate or of a join, no
    step is left without a decision, and all kind graphs embed one generation tail.  The graph facts are boolean
    checks evaluated once over all definitions, each with the lemma that says what it means. *)

From S2P Require Import Prelude PyText PyValue WorkflowContracts Routing LsragDefinition KindWorkflows.

Open Scope Z_scope.
Open Scope string_scope.
Open Scope list_scope.

Definition SHIPPED : list WorkflowDefinition := BUILTIN_WORKFLOWS ++ COMPATIBILITY_WORKFLOWS.

Definition accepted (d : WorkflowDefinition) : bool :=
  match validate_definition d with Ok _ => true | Err _ => false end.

Lemma shipped_accepted d : d ∈ SHIPPED -> validate_definition d = Ok tt.
Proof.
  assert (forallb accepted SHIPPED = true) as H by vm_cast_no_check (@eq_refl bool true).
  rewrite forallb_forall in H. intros Hd%list_elem_of_In%H. unfold accepted in Hd.
  by destruct (validate_definition d) as [[]|].
Qed.

(** ** The publication gate *)

(** The steps between the seal of a candidate set and its publication. *)
Definition GENERATION_STEPS : list string :=
  ["seal_candidate_set"; "preflight_validate"; "accept_snapshot"; "human_review"; "transcribe_markdown"; "structurize";
   "construct"; "vectorize"].
(** The routes that only a validated publication takes, or a join of published children. *)
Definition GATES : list string := ["validate_publication"; "scatter_children_join"].
Definition gate_passed (gates : list string) (r : WorkflowRouteDefinition) : bool :=
  sin (from_step_key r) gates && bool_decide (outcome_selector r = SUCCEEDED).

(** A sequence of routes of [d], each taken from where the one before it leads. *)
Inductive path (d : WorkflowDefinition) : string -> list WorkflowRouteDefinition -> Prop :=
| path_nil a : path d a []
| path_cons r l : r ∈ routes d -> path d (to_step_key r) l -> path d (from_step_key r) (r :: l).

(** No route leads from a set of steps out of it but those that pass a gate. *)
Definition closed_but (gates inside : list string) (d : WorkflowDefinition) : bool :=
  forallb (fun r => negb (sin (from_step_key r) inside) || sin (to_step_key r) inside || gate_passed gates r) (routes d).

Lemma sin_spec a l : sin a l = true <-> a ∈ l.
Proof. apply bool_decide_eq_true. Qed.

Lemma path_gated d gates inside a l : closed_but gates inside d = true -> a ∈ inside -> path d a l ->
  (exists r, r ∈ l /\ gate_passed gates r = true) \/ Forall (fun r => to_step_key r ∈ inside) l.
Proof.
  intros Hc Ha Hp. revert Ha. induction Hp as [a|r l Hr Hp IH]; intros Ha; [right; constructor|].
  unfold closed_but in Hc. rewrite forallb_forall in Hc. pose proof (Hc r (proj1 (list_elem_of_In _ _) Hr)) as Hr'.
  rewrite !orb_true_iff, negb_true_iff, !sin_spec in Hr'. destruct Hr' as [[Hn|Hin]|Hg].
  - by rewrite (proj2 (sin_spec _ _) Ha) in Hn.
  - destruct (IH Hin) as [(g & Hg & Hl)|Hl]; [left; exists g; split; [by right|done]|right; by constructor].
  - left. exists r. split; [left|done].
Qed.

(** C40: The route graph has a publication gate.  In every shipped workflow, each sequence of
    routes that starts at a step of the generation part, the publication gate or the join
    included, and that reaches the terminal step [succeeded], has taken a route that leaves
    [validate_publication] with the outcome [SUCCEEDED] or, in a collection root, one that
    leaves the join of its children with the outcome [SUCCEEDED]: no failed or cancelled
    validation, no other outcome and no guard leads there.  This is about the declared routes;
    what the two steps have to establish before they succeed is not part of the graph, and a
    join of an empty collection succeeds without a publication. *)
Theorem shipped_publication_gate d a l
    (Hd : d ∈ SHIPPED) (Ha : a ∈ GENERATION_STEPS ++ GATES) (Hw : path d a l) (Hend : "succeeded" ∈ map to_step_key l) :
  exists r, r ∈ l /\ outcome_selector r = SUCCEEDED /\ (from_step_key r = "validate_publication" \/ from_step_key r = "scatter_children_join").
Proof.
  assert (forallb (closed_but GATES (GENERATION_STEPS ++ GATES ++ ["failed"; "cancelled"])) SHIPPED = true) as H
    by vm_cast_no_check (@eq_refl bool true).
  rewrite forallb_forall in H. apply list_elem_of_In, H in Hd.
  destruct (path_gated _ _ _ _ _ Hd ltac:(rewrite app_assoc; apply elem_of_app; by left) Hw) as [(r & Hr & Hg)|Hall].
  - exists r. unfold gate_passed in Hg. apply andb_true_iff in Hg as [Hg%sin_spec Ho%bool_decide_eq_true]. split; [done|]. split; [done|].
    unfold GATES in Hg. apply elem_of_cons in Hg as [Hg|Hg%list_elem_of_singleton]; [by left|by right].
  - apply list_elem_of_fmap in Hend as (r & Hend & Hr). rewrite Forall_forall in Hall. apply Hall in Hr. rewrite <-Hend in Hr.
    apply sin_spec in Hr. by vm_compute in Hr.
Qed.

(** ** Progress of decisions *)

Definition absent_guard (r : WorkflowRouteDefinition) : bool := negb (present (route_guard r)).

(** A route without a guard, or a route for each admission result. *)
Definition has_default (d : WorkflowDefinition) (source : string) (selector : WorkflowOutcomeSelector) : bool :=
  existsb (fun r => leaves source selector r && absent_guard r) (routes d).
Definition tests_admission (d : WorkflowDefinition) (value : string) (r : WorkflowRouteDefinition) : bool :=
  match route_guard r with
  | Some g =>
      match by_key guard_key (guards d) !! g with
      | Some guard => bool_decide (predicate_type guard = registered_admission_result) && seq (expected_value guard) value
      | None => false
      end
  | None => false
  end.
Definition covers_admission (d : WorkflowDefinition) (source : string) (selector : WorkflowOutcomeSelector) : bool :=
  forallb (fun v => existsb (fun r => leaves source selector r && tests_admission d v r) (routes d))
    (allowed_values registered_admission_result).

Definition step_selectors (s : WorkflowStepDefinition) : list WorkflowOutcomeSelector :=
  match step_kind s with START => [ALWAYS] | PROCESS | CONTROL => [SUCCEEDED; FAILED; CANCELLED] | _ => [] end.

Definition decides (d : WorkflowDefinition) : bool :=
  forallb (fun r => negb (bool_decide (route_kind r = RK_FAN_OUT))) (routes d)
  && forallb (fun s => forallb (fun o => has_default d (step_key s) o
                                        || seq (step_key s) "accept_snapshot" && covers_admission d (step_key s) o)
                         (step_selectors s)) (steps d).

(** The reacquisition edge that [_route_decision] insists on is declared. *)
Definition reacquires (d : WorkflowDefinition) : bool :=
  existsb (is_reacquire d) (candidate_routes d "decode_web_static" SUCCEEDED)
  || negb (String.prefix "intake.ingest.kind." (workflow_key d) && existsb reacquire_guard (guards d)).

Section progress.
Context (d : WorkflowDefinition) (source : string) (selector : WorkflowOutcomeSelector) (context : pydict).

Lemma default_matches :
  has_default d source selector = true ->
  exists r, r ∈ candidate_routes d source selector /\ route_matches d context r = true.
Proof.
  unfold has_default, absent_guard. intros (r & Hr & [Hl Hg]%andb_true_iff)%existsb_exists. exists r.
  unfold leaves in Hl. apply andb_true_iff in Hl as [Hf%bool_decide_eq_true Ho%bool_decide_eq_true].
  split; [by apply candidate_spec; apply list_elem_of_In in Hr|]. unfold route_matches. by destruct (route_guard r).
Qed.

Lemma admission_matches v :
  covers_admission d source selector = true -> v ∈ allowed_values registered_admission_result ->
  dget context (u "admission_result") = Some (PStr (u v)) ->
  exists r, r ∈ candidate_routes d source selector /\ route_matches d context r = true.
Proof.
  unfold covers_admission. rewrite forallb_forall. intros Hc Hv%list_elem_of_In%Hc Hf.
  apply existsb_exists in Hv as (r & Hr & [Hl Hg]%andb_true_iff). exists r.
  unfold leaves in Hl. apply andb_true_iff in Hl as [Hs%bool_decide_eq_true Ho%bool_decide_eq_true].
  split; [by apply candidate_spec; apply list_elem_of_In in Hr|]. unfold tests_admission in Hg. unfold route_matches.
  destruct (route_guard r) as [g|]; [|done]. destruct (by_key guard_key (guards d) !! g) as [guard|]; [|done].
  apply andb_true_iff in Hg as [Hp%bool_decide_eq_true He%bool_decide_eq_true]. rewrite Hp, He.
  unfold fact_is, context_key. rewrite Hf. cbn. by apply bool_decide_eq_true.
Qed.

(** Without fan-out routes a decision takes exactly one of the matching candidates. *)
Lemma exclusive_selects_one r :
  forallb (fun r => negb (bool_decide (route_kind r = RK_FAN_OUT))) (routes d) = true ->
  r ∈ candidate_routes d source selector -> route_matches d context r = true ->
  exists w, selected_routes d source selector context = [w] /\ w ∈ candidate_routes d source selector.
Proof.
  intros Hx Hr Hm. unfold selected_routes.
  assert (r ∈ List.filter (route_matches d context) (candidate_routes d source selector)) as Hin
    by (apply list_elem_of_In, filter_In; split; [by apply list_elem_of_In|done]).
  destruct (List.filter _ (candidate_routes d source selector)) as [|w l] eqn:E; [by apply elem_of_nil in Hin|].
  assert (w ∈ candidate_routes d source selector) as Hw.
  { assert (In w (w :: l)) as Hwl by (by left). rewrite <- E in Hwl. apply filter_In in Hwl as [Hwl _]. by apply list_elem_of_In. }
  exists w. split; [|done]. cbn [until_winner]. rewrite forallb_forall in Hx.
  pose proof (proj1 (candidate_spec _ _ _ _) Hw) as (Hwr%list_elem_of_In & _). apply Hx, negb_true_iff in Hwr. by rewrite Hwr.
Qed.

Lemma reacquires_missing : reacquires d = true -> reacquire_missing d source selector context = false.
Proof.
  unfold reacquires, reacquire_missing. intros Hr. apply not_true_iff_false. rewrite !andb_true_iff, negb_true_iff, !bool_decide_eq_true.
  intros (((((-> & Hk) & _) & _) & -> & Hg) & Hn). rewrite Hn, Hk, Hg in Hr. done.
Qed.
End progress.

(** no step of a shipped workflow is left without a decision.  Whatever the facts of
    the execution, a finished start, process or control step takes exactly one declared
    route, or the decision is refused because the caller declared a clean strategy that the
    selected step contradicts; only [accept_snapshot] needs its admission result among the
    facts. *)
Theorem shipped_decisions_progress `{Host} d s selector execution context
    (Hd : d ∈ SHIPPED) (Hs : s ∈ steps d) (Hsel : selector ∈ step_selectors s)
    (Hadmission : step_key s = "accept_snapshot" ->
       exists v, v ∈ allowed_values registered_admission_result /\ dget context (u "admission_result") = Some (PStr (u v)))
    (Hids : encodable (er_execution_uuid execution) /\ encodable (er_workflow_revision_uuid execution)) :
  (exists dec w, route_decision d execution (step_key s) selector context = Ok dec /\ dec_routes dec = [w]
     /\ w ∈ routes d /\ from_step_key w = step_key s /\ outcome_selector w = selector)
  \/ (route_decision d execution (step_key s) selector context = Err (MkbError "workflow-claimed-strategy-unreachable" 409)
      /\ dget context (u "selected_clean_strategy") <> None).
Proof.
  assert (forallb (fun d => decides d && reacquires d) SHIPPED = true) as Hall
    by vm_cast_no_check (@eq_refl bool true).
  pose proof (shipped_accepted d Hd) as Hplan. rewrite forallb_forall in Hall. apply list_elem_of_In, Hall in Hd.
  apply andb_true_iff in Hd as [[Hx Hdec]%andb_true_iff Hre]. rewrite forallb_forall in Hdec.
  apply list_elem_of_In, Hdec in Hs. rewrite forallb_forall in Hs. apply list_elem_of_In, Hs in Hsel.
  assert (exists r, r ∈ candidate_routes d (step_key s) selector /\ route_matches d context r = true) as (r & Hr & Hm).
  { apply orb_true_iff in Hsel as [Hdef|[Hk%bool_decide_eq_true Hc]%andb_true_iff]; [by apply (default_matches d _ _ context)|].
    destruct (Hadmission Hk) as (v & Hv & Hf). by apply (admission_matches d _ _ _ v). }
  destruct (exclusive_selects_one _ _ _ _ r Hx Hr Hm) as (w & Hw & (Hw1 & Hw2 & Hw3)%candidate_spec).
  pose proof (decision_total d execution (step_key s) selector context Hplan Hids) as Ht. cbv zeta in Ht.
  rewrite (reacquires_missing _ _ _ _ Hre) in Ht. destruct (strategy_unreachable _ _) eqn:Eu.
  - right. split; [exact Ht|]. unfold strategy_unreachable in Eu. by destruct (dget context (u "selected_clean_strategy")).
  - left. destruct Ht as (dec & Hok & Hsel' & _). exists dec, w. by rewrite Hsel', Hw.
Qed.

(** ** One generation tail *)

Lemma filter_none {A} (f : A -> bool) l : Forall (fun x => f x = false) l -> List.filter f l = [].
Proof. induction 1 as [|x l Hx _ IH]; cbn; [done|]. by rewrite Hx. Qed.

Lemma control_bindings_outside cleans :
  List.filter binding_in_tail (map (fun s => Kind.bind "selected_clean" (step_key s) (step_key s) "clean_candidate") cleans) = [].
Proof. apply filter_none, Forall_map, Forall_forall. reflexivity. Qed.

(** The tail consists of tail steps, and the control in front of it adds none. *)
Lemma tail_in_tail :
  List.filter in_tail (tail_steps shared_tail_components) = tail_steps shared_tail_components
  /\ List.filter route_in_tail (tail_routes shared_tail_components) = tail_routes shared_tail_components
  /\ List.filter binding_in_tail (tail_bindings shared_tail_components) = tail_bindings shared_tail_components.
Proof. split_and!; vm_compute; reflexivity. Qed.

Lemma control_outside cleans :
  in_tail (start_step "start") = false /\ in_tail (Kind.selected_control cleans) = false
  /\ List.filter route_in_tail (Kind.route "selected_clean.to_seal" "selected_clean" "seal_candidate_set" SUCCEEDED 0 None
       :: Kind.terminal_routes ["selected_clean"]) = []
  /\ List.filter binding_in_tail
       [Kind.bind "seal_candidate_set" "clean_candidate" "selected_clean" "clean_candidate";
        Kind.bind "preflight_validate" "clean_candidate" "selected_clean" "clean_candidate"] = [].
Proof. split_and!; vm_compute; reflexivity. Qed.

(** the generation part of a composed kind graph is the shared tail, step for step, route
    for route and binding for binding, whatever prefix is put in front of it: what
    [shared_tail_digest] digests does not depend on the source kind. *)
Theorem compose_keeps_tail key prefix_steps prefix_routes prefix_bindings prefix_guards context
    (Hs : Forall (fun s => in_tail s = false) prefix_steps)
    (Hr : Forall (fun r => route_in_tail r = false) prefix_routes)
    (Hb : Forall (fun b => binding_in_tail b = false) prefix_bindings) :
  shared_tail (Kind.compose key prefix_steps prefix_routes prefix_bindings prefix_guards context)
  = (tail_steps shared_tail_components, tail_routes shared_tail_components, tail_bindings shared_tail_components).
Proof.
  unfold shared_tail, Kind.compose. cbn [steps routes bindings].
  set (cleans := List.filter Kind.is_clean_step prefix_steps). destruct (control_outside cleans) as (Hstart & Hcontrol & Hroutes & Hbinds).
  destruct tail_in_tail as (Ht1 & Ht2 & Ht3).
  cbn [List.filter]. rewrite Hstart, List.filter_app, (filter_none _ _ Hs). cbn [List.filter]. rewrite Hcontrol, Ht1.
  rewrite !List.filter_app, (filter_none _ _ Hr), Hroutes, (filter_none _ _ Hb), control_bindings_outside, Hbinds, Ht2, Ht3.
  reflexivity.
Qed.

(** ** Witnesses *)

Definition child_route (n : nat) : WorkflowRouteDefinition := nth n Scatter.CHILD_ROUTES_declared (route "" "" "" RK_NORMAL ALWAYS 0 None).
Lemma shipped_publication_gate_witness :
  Scatter.BUILTIN_REGISTERED_API_SCATTER_CHILD_WORKFLOW ∈ SHIPPED /\
  exists r, r ∈ map child_route [4; 5; 6]%nat /\ outcome_selector r = SUCCEEDED /\
    (from_step_key r = "validate_publication" \/ from_step_key r = "scatter_children_join").
Proof.
  assert (Scatter.BUILTIN_REGISTERED_API_SCATTER_CHILD_WORKFLOW ∈ SHIPPED) as Hd
    by (unfold SHIPPED, BUILTIN_WORKFLOWS, Scatter.BUILTIN_SCATTER_WORKFLOWS; rewrite !elem_of_app; left; right; right; left).
  split; [exact Hd|].
  assert (forall n, (n < 7)%nat -> child_route n ∈ routes Scatter.BUILTIN_REGISTERED_API_SCATTER_CHILD_WORKFLOW) as Hr.
  { intros n Hn. apply elem_of_app. left. apply list_elem_of_In, nth_In. exact Hn. }
  apply (shipped_publication_gate _ (from_step_key (child_route 4)) _ Hd); [by apply sin_spec| |by apply sin_spec].
  exact (path_cons _ (child_route 4) [child_route 5; child_route 6] (Hr 4%nat ltac:(lia))
    (path_cons _ (child_route 5) [child_route 6] (Hr 5%nat ltac:(lia)) (path_cons _ (child_route 6) [] (Hr 6%nat ltac:(lia)) (path_nil _ _)))).
Defined.

Module ShippedSamples.
#[export] Existing Instance test_host.
Definition execution : execution_ref := Build_execution_ref (u "e1") (u "w1").
Definition rejected : pydict := fields [("admission_result", PStr (u "rejected"))].
End ShippedSamples.

Lemma shipped_decisions_progress_witness :
  exists dec w, route_decision (H := test_host) Kind.BUILTIN_INLINE_KIND_WORKFLOW ShippedSamples.execution "accept_snapshot" SUCCEEDED
    ShippedSamples.rejected = Ok dec /\ dec_routes dec = [w].
Proof.
  pose proof (shipped_decisions_progress (H := test_host) Kind.BUILTIN_INLINE_KIND_WORKFLOW
    (nth 2 (tail_steps shared_tail_components) (start_step "")) SUCCEEDED ShippedSamples.execution ShippedSamples.rejected) as P.
  destruct P as [(dec & w & Hd & Hw & _)|[_ Hn]].
  - left.
  - apply elem_of_cons; right. apply elem_of_app; right. apply elem_of_cons; right.
    apply (list_elem_of_lookup_2 _ 2%nat). vm_compute. reflexivity.
  - left.
  - intros _. exists "rejected". split; [apply list_elem_of_In; cbn; tauto|reflexivity].
  - split; apply encodable_u.
  - exists dec, w. split; [exact Hd|exact Hw].
  - destruct (Hn eq_refl).
Defined.

Lemma compose_keeps_tail_witness :
  shared_tail Kind.BUILTIN_HTTP_RESOURCE_KIND_WORKFLOW = shared_tail Kind.BUILTIN_INLINE_KIND_WORKFLOW.
Proof.
  transitivity (tail_steps shared_tail_components, tail_routes shared_tail_components, tail_bindings shared_tail_components);
    [|symmetry];
    apply compose_keeps_tail; apply Forall_forall; intros x Hx%list_elem_of_In;
    apply negb_true_iff; revert x Hx; rewrite <- forallb_forall; reflexivity.
Defined.
