(* ===== verification/Outbox.v ===== *)
(** * The transactional outbox

    Model of [src/runtime/workflow/runtime_outbox.py], of [_enqueue_tx] of
    [src/runtime/workflow/runtime_core.py] and of the outbox registry of
    [src/contracts/governance.py]: durable intents are enqueued once per dedupe key, leased
    to one delivery at a time, and end [done] or [dead].

    The table [mkb_outbox] is a finite map from [outbox_id] with its unique index on
    [(team_uuid, dedupe_key)]; times are microseconds (the stored ISO texts of fixed width
    compare like them).  The error texts ([last_error]) and the log of domain events are
    not modelled.  Each function is one transaction: it returns the new table, and an
    exception leaves the old one. *)

From S2P Require Import Prelude PyText PyValue.

Open Scope Z_scope.
Open Scope mkb_scope.

(** ** The registry of kinds ([contracts/governance.py]) *)

Inductive OutboxCriticality := CRITICAL | ADVISORY.
#[export] Instance criticality_eq : EqDecision OutboxCriticality. Proof. solve_decision. Defined.

Record OutboxKindDefinition := {
  ok_kind : string;
  ok_owner_kind : string;
  ok_criticality : OutboxCriticality;
  ok_attempt_budget : Z;
  ok_dead_error_code : string
}.

Definition OUTBOX_KIND_DEFINITIONS : list OutboxKindDefinition :=
  [Build_OutboxKindDefinition "wake_execution" "execution" CRITICAL 8 "OUTBOX_WAKE_DEAD";
   Build_OutboxKindDefinition "wake_process" "process" CRITICAL 8 "OUTBOX_WAKE_DEAD";
   Build_OutboxKindDefinition "cancel_execution" "execution" CRITICAL 8 "OUTBOX_CANCEL_DEAD";
   Build_OutboxKindDefinition "gate_decision" "execution" CRITICAL 8 "OUTBOX_GATE_DEAD";
   Build_OutboxKindDefinition "vectorize_construct" "execution" CRITICAL 8 "OUTBOX_VECTORIZE_DEAD"].

Definition outbox_kind (kind : string) : option OutboxKindDefinition :=
  find (fun d => bool_decide (ok_kind d = kind)) OUTBOX_KIND_DEFINITIONS.

(** ** The table *)

Inductive OutboxStatus := pending | in_flight | done_ | dead.
#[export] Instance outbox_status_eq : EqDecision OutboxStatus. Proof. solve_decision. Defined.

Record outbox_row := {
  ob_team : ustr;
  ob_kind : string;
  ob_payload_json : ustr;
  ob_payload_digest : ustr;
  ob_dedupe_key : ustr;
  ob_status : OutboxStatus;
  ob_attempts : Z;
  ob_available_at : Z;
  ob_lease_owner : option ustr;
  ob_lease_expires_at : option Z;
  ob_owner_kind : string;
  ob_owner_uuid : option ustr;
  ob_owner_generation : Z;
  ob_delivery_generation : Z;
  ob_criticality : OutboxCriticality;
  ob_attempt_budget : Z;
  ob_dead_error_code : string;
  ob_retry_of : option ustr;
  ob_created_at : Z;
  ob_updated_at : Z
}.

(** The columns a transition writes. *)
Definition ob_set (r : outbox_row) (status : OutboxStatus) (attempts available_at : Z) (owner : option ustr)
    (expires : option Z) (now : Z) : outbox_row :=
  Build_outbox_row (ob_team r) (ob_kind r) (ob_payload_json r) (ob_payload_digest r) (ob_dedupe_key r) status attempts
    available_at owner expires (ob_owner_kind r) (ob_owner_uuid r) (ob_owner_generation r) (ob_delivery_generation r)
    (ob_criticality r) (ob_attempt_budget r) (ob_dead_error_code r) (ob_retry_of r) (ob_created_at r) now.

Abbreviation outbox_table := (gmap ustr outbox_row).

(** Does an INSERT violate the primary key or the unique index [ux_mkb_outbox_dedupe]? *)
Definition outbox_conflict (t : outbox_table) (id : ustr) (row : outbox_row) : bool :=
  bool_decide (is_Some (t !! id))
  || existsb (fun kv => ueqb (ob_team kv.2) (ob_team row) && ueqb (ob_dedupe_key kv.2) (ob_dedupe_key row)) (map_to_list t).

Definition seconds (n : Z) : Z := n * 1000000.

Section outbox.
Context `{Host}.

(** [payload.get(k)] in a boolean context. *)
Definition truthy_get (payload : pydict) (k : string) : option pyval :=
  match dget payload (u k) with Some v => if truthy v then Some v else None | None => None end.

Definition text_of (v : option pyval) : option ustr := match v with Some (PStr s) => Some s | _ => None end.

(** [payload.get("generation") or payload.get("fencing_generation") or 0] *)
Definition owner_generation_of (payload : pydict) : Z :=
  match truthy_get payload "generation", truthy_get payload "fencing_generation" with
  | Some (PInt z), _ => z
  | None, Some (PInt z) => z
  | _, _ => 0
  end.

Definition owner_of (payload : pydict) : string * option ustr :=
  match truthy_get payload "execution_uuid", truthy_get payload "task_uuid" with
  | Some e, _ => ("execution"%string, text_of (Some e))
  | None, Some t => ("task"%string, text_of (Some t))
  | None, None => ("system"%string, None)
  end.

(** [_enqueue_tx]; [INSERT OR IGNORE] drops a conflicting row. *)
Definition enqueue_tx (now : Z) (outbox_id : ustr) (t : outbox_table) (team : ustr) (kind : string) (payload : pydict)
    (dedupe_key : ustr) : result outbox_table :=
  match outbox_kind kind with
  | None => Err (MkbError "OUTBOX_KIND_UNREGISTERED" 503)
  | Some definition =>
      let* payload_json := json_text (PDict payload) in
      let '(owner_kind, owner_uuid) := owner_of payload in
      let* digest := stable_digest (PDict payload) in
      let row := Build_outbox_row team kind payload_json digest dedupe_key pending 0 now None None owner_kind owner_uuid
                   (owner_generation_of payload) 1 (ok_criticality definition) (ok_attempt_budget definition)
                   (ok_dead_error_code definition) None now now in
      Ok (if outbox_conflict t outbox_id row then t else <[outbox_id := row]> t)
  end.

(** ** Leases *)

Definition outbox_due (now : Z) (r : outbox_row) : bool :=
  match ob_status r with
  | pending => ob_available_at r <=? now
  | in_flight => match ob_lease_expires_at r with Some e => e <=? now | None => false end
  | _ => false
  end.

(** [ORDER BY available_at ASC, created_at ASC, outbox_id ASC] *)
Definition outbox_le (a b : ustr * outbox_row) : bool :=
  (ob_available_at a.2 <? ob_available_at b.2)
  || (ob_available_at a.2 =? ob_available_at b.2)
     && ((ob_created_at a.2 <? ob_created_at b.2) || (ob_created_at a.2 =? ob_created_at b.2) && str_le a.1 b.1).

Definition next_outbox_row (now : Z) (t : outbox_table) : option (ustr * outbox_row) :=
  head (py_sorted outbox_le (List.filter (fun kv => outbox_due now kv.2) (map_to_list t))).

(** [_lease_outbox_row]: the row as it was read, and the owner of the new lease.  The
    [UPDATE] repeats the condition of the [SELECT] of the same transaction. *)
Definition lease_outbox_row (now : Z) (uuid : ustr) (lease_owner : ustr) (lease_seconds : Z) (t : outbox_table)
    : result (option ((ustr * outbox_row) * ustr) * outbox_table) :=
  let delivery_lease_owner := lease_owner ++ u ":" ++ uuid in
  check (length delivery_lease_owner <=? 256)%nat else MkbError "invalid-lease-owner" 422 ;;
  match next_outbox_row now t with
  | None => Ok (None, t)
  | Some (id, row) =>
      let row' := ob_set row in_flight (ob_attempts row + 1) (ob_available_at row) (Some delivery_lease_owner)
                    (Some (now + seconds lease_seconds)) now in
      Ok (Some (id, row, delivery_lease_owner), <[id := row']> t)
  end.

(** The fence [WHERE outbox_id=? AND status='in_flight' AND lease_owner=?]. *)
Definition holds_lease (r : outbox_row) (owner : ustr) : bool :=
  bool_decide (ob_status r = in_flight) && bool_decide (ob_lease_owner r = Some owner).

(** [_complete_outbox] *)
Definition complete_outbox (now : Z) (id owner : ustr) (t : outbox_table) : outbox_table :=
  match t !! id with
  | Some r => if holds_lease r owner then <[id := ob_set r done_ (ob_attempts r) (ob_available_at r) None None now]> t else t
  | None => t
  end.

(** [_mark_outbox_dead]: the second component is the row handed to
    [_record_outbox_dead_tx]. *)
Definition mark_outbox_dead (now : Z) (id owner : ustr) (t : outbox_table) : outbox_table * option outbox_row :=
  match t !! id with
  | Some r =>
      if holds_lease r owner then
        let r' := ob_set r dead (ob_attempts r) (ob_available_at r) None None now in (<[id := r']> t, Some r')
      else (t, None)
  | None => (t, None)
  end.

(** [int(row.get("attempt_budget") or 8)] *)
Definition attempt_budget (r : outbox_row) : Z := if ob_attempt_budget r =? 0 then 8 else ob_attempt_budget r.

(** [_release_outbox] *)
Definition release_outbox (now : Z) (id owner : ustr) (t : outbox_table) : outbox_table * option outbox_row :=
  match t !! id with
  | Some r =>
      let exhausted := attempt_budget r <=? ob_attempts r in
      if holds_lease r owner then
        (<[id := ob_set r (if exhausted then dead else pending) (ob_attempts r) (now + seconds 1) None None now]> t,
         if exhausted then Some r else None)
      else (t, None)
  | None => (t, None)
  end.

(** ** Deliveries *)

Record OutboxDelivery := {
  od_outbox_id : ustr;
  od_team_uuid : ustr;
  od_kind : string;
  od_payload : pydict;
  od_lease_owner : ustr
}.

(** [_parse_or_kill_outbox]: the delivery of a row whose payload still has its digest; any
    other row dies.  [loads] is [json.loads]. *)
Definition parse_outbox (loads : ustr -> result pyval) (id : ustr) (row : outbox_row) (owner : ustr)
    : result (option OutboxDelivery) :=
  match loads (ob_payload_json row) with
  | Err ValueError | Err TypeError => Ok None
  | Err e => Err e
  | Ok (PDict payload) =>
      let* digest := stable_digest (PDict payload) in
      Ok (if ueqb digest (ob_payload_digest row)
          then Some (Build_OutboxDelivery id (ob_team row) (ob_kind row) payload owner) else None)
  | Ok _ => Ok None
  end.

Definition parse_or_kill_outbox (loads : ustr -> result pyval) (now : Z) (id : ustr) (row : outbox_row) (owner : ustr)
    (t : outbox_table) : result (option OutboxDelivery) * outbox_table * option outbox_row :=
  match parse_outbox loads id row owner with
  | Err e => (Err e, t, None)
  | Ok (Some d) => (Ok (Some d), t, None)
  | Ok None => let '(t, died) := mark_outbox_dead now id owner t in (Ok None, t, died)
  end.

(** [claim_outbox]: lease, then deliver or kill, in two transactions; the last component is
    a row that died in the second one. *)
Definition claim_outbox (loads : ustr -> result pyval) (now : Z) (uuid lease_owner : ustr) (lease_seconds : Z)
    (t : outbox_table) : result (option OutboxDelivery) * outbox_table * option outbox_row :=
  if ueqb lease_owner [] then (Err (MkbError "invalid-lease-owner" 422), t, None)
  else
    match lease_outbox_row now uuid lease_owner lease_seconds t with
    | Err e => (Err e, t, None)
    | Ok (None, t) => (Ok None, t, None)
    | Ok (Some (id, row, owner), t) => parse_or_kill_outbox loads now id row owner t
    end.

(** ** Requeue of a dead delivery *)

Record command_receipt := {
  cr_uuid : ustr;
  cr_team : ustr;
  cr_target : ustr;
  cr_idempotency_key : ustr;
  cr_fingerprint : ustr;
  cr_expected_generation : Z;
  cr_observed_generation : Z;
  cr_result_ref : ustr;
  cr_decided_at : Z
}.

Record outbox_db := { odb_table : outbox_table; odb_receipts : list command_receipt }.

Inductive Disposition := applied | replayed.
Record requeue_result := {
  rq_disposition : Disposition;
  rq_receipt : ustr;
  rq_outbox_id : ustr;
  rq_decided_at : Z
}.

Definition receipt_for (team outbox_id key : ustr) (r : command_receipt) : bool :=
  ueqb (cr_team r) team && ueqb (cr_target r) outbox_id && ueqb (cr_idempotency_key r) key.

(** [int(row.get("delivery_generation") or 1)] *)
Definition delivery_generation (r : outbox_row) : Z :=
  if ob_delivery_generation r =? 0 then 1 else ob_delivery_generation r.

(** The row of a new delivery generation. *)
Definition requeued_row (now : Z) (outbox_id : ustr) (row : outbox_row) : outbox_row :=
  let new_generation := delivery_generation row + 1 in
  Build_outbox_row (ob_team row) (ob_kind row) (ob_payload_json row) (ob_payload_digest row)
    (u "requeue:" ++ outbox_id ++ u ":" ++ dec new_generation) pending 0 now None None (ob_owner_kind row)
    (ob_owner_uuid row) (ob_owner_generation row) new_generation (ob_criticality row) (attempt_budget row)
    (if bool_decide (ob_dead_error_code row = ""%string) then "OUTBOX_CRITICAL_DEAD" else ob_dead_error_code row)
    (Some outbox_id) now now.

Definition requeue_dead_outbox (now : Z) (new_id receipt_uuid outbox_id : ustr) (expected_generation : Z)
    (idempotency_key : ustr) (db : outbox_db) : result (requeue_result * outbox_db) :=
  check negb (ueqb idempotency_key []) && (length idempotency_key <=? 256)%nat
        else MkbError "COMMAND_IDEMPOTENCY_INVALID" 422 ;;
  match odb_table db !! outbox_id with
  | None => Err (MkbError "OUTBOX_NOT_FOUND" 404)
  | Some row =>
      check bool_decide (ob_status row = dead) else MkbError "OUTBOX_REQUEUE_STATE_INVALID" 409 ;;
      check delivery_generation row =? expected_generation else MkbError "COMMAND_FENCE_CONFLICT" 409 ;;
      let* fingerprint :=
        stable_digest (obj [("outbox_id", PStr outbox_id); ("expected_generation", PInt expected_generation);
                            ("idempotency_key", PStr idempotency_key)]) in
      match find (receipt_for (ob_team row) outbox_id idempotency_key) (odb_receipts db) with
      | Some prior =>
          Ok (Build_requeue_result replayed (cr_uuid prior) (cr_result_ref prior) (cr_decided_at prior), db)
      | None =>
          let row' := requeued_row now outbox_id row in
          check negb (outbox_conflict (odb_table db) new_id row') else IntegrityError ;;
          check negb (existsb (fun r => ueqb (cr_uuid r) receipt_uuid) (odb_receipts db)) else IntegrityError ;;
          let receipt := Build_command_receipt receipt_uuid (ob_team row) outbox_id idempotency_key fingerprint
                           expected_generation (delivery_generation row) new_id now in
          Ok (Build_requeue_result applied receipt_uuid new_id now,
              Build_outbox_db (<[new_id := row']> (odb_table db)) (odb_receipts db ++ [receipt]))
      end
  end.

(** ** Dispatch *)

(** The consumer that a delivery reaches. *)
Inductive delivery_action :=
| MaterializeRoot (execution : ustr)
| ObserveProcess (execution process : ustr)
| RequestCancellation (execution : ustr)
| ConsumeGateDecision (decision : ustr)
| ConsumeVectorizeConstruct (delivery : OutboxDelivery).

Definition required_payload_uuid (payload : pydict) (key : string) : result ustr :=
  match dget payload (u key) with
  | Some (PStr s) => Ok s
  | _ => Err (MkbError "outbox-payload-invalid" 500)
  end.

Definition VECTORIZE_INTENT_TEXTS : list string :=
  ["team_uuid"; "task_uuid"; "execution_uuid"; "construction_artifact_uuid"; "construction_ref";
   "construction_content_digest"; "dual_channel_artifact_uuid"; "dual_channel_ref"; "dual_channel_content_digest";
   "construction_schema_digest"; "content_full_recipe_version"]%string.
Definition VECTORIZE_INTENT_DIGESTS : list string :=
  ["construction_content_digest"; "dual_channel_content_digest"; "construction_schema_digest"]%string.
Definition VECTORIZE_INTENT_INVALID : exn := MkbError "vectorize-construct-intent-invalid" 409.

(** [set(payload) == keys] *)
Definition same_keys (payload : pydict) (keys : list ustr) : bool :=
  forallb (fun kv => bool_decide (kv.1 ∈ keys)) payload && forallb (dmem payload) keys.

(** The shape checks of [_consume_vectorize_construct_intent], before it opens its
    transaction. *)
Definition vectorize_intent_shape (d : OutboxDelivery) : result unit :=
  let payload := od_payload d in
  check same_keys payload (u "schema_version" :: map u VECTORIZE_INTENT_TEXTS)
        && match dget payload (u "schema_version") with
           | Some v => py_eqb v (PStr (u "mkb.vectorize-construct-intent.v1")) | None => false end
        else VECTORIZE_INTENT_INVALID ;;
  check forallb (fun k => match dget payload (u k) with Some (PStr (_ :: _)) => true | _ => false end)
          VECTORIZE_INTENT_TEXTS else VECTORIZE_INTENT_INVALID ;;
  check forallb (fun k => match dget payload (u k) with Some (PStr s) => is_digest s | _ => false end)
          VECTORIZE_INTENT_DIGESTS else VECTORIZE_INTENT_INVALID ;;
  ensure (match dget payload (u "team_uuid") with Some (PStr s) => ueqb s (od_team_uuid d) | _ => false end)
         (MkbError "vectorize-construct-team-mismatch" 409).

Definition delivery_target (d : OutboxDelivery) : result delivery_action :=
  let payload := od_payload d in
  if bool_decide (od_kind d = "wake_execution"%string) then
    let* e := required_payload_uuid payload "execution_uuid" in Ok (MaterializeRoot e)
  else if bool_decide (od_kind d = "wake_process"%string) then
    let* e := required_payload_uuid payload "execution_uuid" in
    let* p := required_payload_uuid payload "process_uuid" in Ok (ObserveProcess e p)
  else if bool_decide (od_kind d = "cancel_execution"%string) then
    let* e := required_payload_uuid payload "execution_uuid" in Ok (RequestCancellation e)
  else if bool_decide (od_kind d = "gate_decision"%string) then
    let* g := required_payload_uuid payload "decision_uuid" in Ok (ConsumeGateDecision g)
  else if bool_decide (od_kind d = "vectorize_construct"%string) then
    let* _ := vectorize_intent_shape d in Ok (ConsumeVectorizeConstruct d)
  else Err (MkbError "outbox-kind-unsupported" 500).

(** [dispatch_outbox_once] over a world that holds the table: [perform] is the consumer of
    an action, [on_dead] what [_record_outbox_dead_tx] does to the world. *)
Section dispatch.
Context {W : Type} (table : W -> outbox_table) (set_table : outbox_table -> W -> W).
Variable perform : delivery_action -> W -> result W.
Variable on_dead : outbox_row -> W -> W.

Definition record_dead (died : option outbox_row) (w : W) : W :=
  match died with Some r => on_dead r w | None => w end.

Definition dispatch_outbox_once (loads : ustr -> result pyval) (now : Z) (uuid lease_owner : ustr) (lease_seconds : Z)
    (w : W) : result bool * W :=
  if ueqb lease_owner [] then (Err (MkbError "invalid-lease-owner" 422), w)
  else
    match lease_outbox_row now uuid lease_owner lease_seconds (table w) with
    | Err e => (Err e, w)
    | Ok (None, _) => (Ok false, w)
    | Ok (Some (id, row, owner), t) =>
        let '(delivery, t, died) := parse_or_kill_outbox loads now id row owner t in
        let w := record_dead died (set_table t w) in
        match delivery with
        | Err e => (Err e, w)
        | Ok None => (Ok true, w)
        | Ok (Some d) =>
            match (let* action := delivery_target d in perform action w) with
            | Ok w => (Ok true, set_table (complete_outbox now (od_outbox_id d) (od_lease_owner d) (table w)) w)
            | Err e =>
                let '(t, died) := release_outbox now (od_outbox_id d) (od_lease_owner d) (table w) in
                (Err e, record_dead died (set_table t w))
            end
        end
    end.
End dispatch.
End outbox.

(** ** The lifecycle of a row *)

(** Every [UPDATE mkb_outbox] of the runtime, as a step of one row. *)
Inductive outbox_row_step (r : outbox_row) : outbox_row -> Prop :=
| step_lease now owner expires :
    outbox_due now r = true ->
    outbox_row_step r (ob_set r in_flight (ob_attempts r + 1) (ob_available_at r) (Some owner) (Some expires) now)
| step_complete now owner :
    holds_lease r owner = true ->
    outbox_row_step r (ob_set r done_ (ob_attempts r) (ob_available_at r) None None now)
| step_dead now owner :
    holds_lease r owner = true ->
    outbox_row_step r (ob_set r dead (ob_attempts r) (ob_available_at r) None None now)
| step_release now owner :
    holds_lease r owner = true ->
    outbox_row_step r (ob_set r (if attempt_budget r <=? ob_attempts r then dead else pending) (ob_attempts r)
                         (now + seconds 1) None None now).

(** What one transaction does to the table. *)
Inductive outbox_table_step (t : outbox_table) : outbox_table -> Prop :=
| table_same : outbox_table_step t t
| table_row id r r' : t !! id = Some r -> outbox_row_step r r' -> outbox_table_step t (<[id := r']> t)
| table_insert id r :
    outbox_conflict t id r = false -> ob_status r = pending -> ob_attempts r = 0 -> ob_lease_owner r = None ->
    ob_lease_expires_at r = None -> outbox_table_step t (<[id := r]> t).

Lemma head_elem {A} (l : list A) x : head l = Some x -> x ∈ l.
Proof. destruct l; [done|]. intros [= ->]. left. Qed.

Lemma next_outbox_row_Some now t id r :
  next_outbox_row now t = Some (id, r) -> t !! id = Some r /\ outbox_due now r = true.
Proof.
  unfold next_outbox_row. intros Hn%head_elem. rewrite (py_sorted_perm outbox_le) in Hn.
  apply list_elem_of_In, filter_In in Hn as [Hin Hd]. apply list_elem_of_In, elem_of_map_to_list in Hin. done.
Qed.

Lemma holds_lease_spec r owner : holds_lease r owner = true <-> ob_status r = in_flight /\ ob_lease_owner r = Some owner.
Proof. unfold holds_lease. by rewrite andb_true_iff, !bool_decide_eq_true. Qed.

Section steps.
Context `{Host}.

Lemma enqueue_step now id t team kind payload key t' :
  enqueue_tx now id t team kind payload key = Ok t' -> outbox_table_step t t'.
Proof.
  unfold enqueue_tx. destruct (outbox_kind kind); [|done]. intros Hq.
  apply rbind_Ok in Hq as (json & _ & Hq). destruct (owner_of payload) as [ok ou].
  apply rbind_Ok in Hq as (dg & _ & Hq). injection Hq as <-.
  match goal with |- context [outbox_conflict t id ?r] => destruct (outbox_conflict t id r) eqn:E end; [constructor|].
  by apply table_insert.
Qed.

Lemma lease_step now uuid owner secs t leased t' :
  lease_outbox_row now uuid owner secs t = Ok (leased, t') -> outbox_table_step t t'.
Proof.
  unfold lease_outbox_row. intros Hl. apply rbind_Ok in Hl as (_ & _ & Hl).
  destruct (next_outbox_row now t) as [[id r]|] eqn:E; injection Hl as <- <-; [|constructor].
  apply next_outbox_row_Some in E as [Hid Hd]. apply (table_row _ _ r); [done|by constructor].
Qed.

Lemma complete_step now id owner t : outbox_table_step t (complete_outbox now id owner t).
Proof.
  unfold complete_outbox. destruct (t !! id) as [r|] eqn:E; [|constructor].
  destruct (holds_lease r owner) eqn:Hh; [|constructor]. apply (table_row _ _ r); [done|by eapply step_complete].
Qed.

Lemma dead_step now id owner t : outbox_table_step t (mark_outbox_dead now id owner t).1.
Proof.
  unfold mark_outbox_dead. destruct (t !! id) as [r|] eqn:E; [|constructor].
  destruct (holds_lease r owner) eqn:Hh; [|constructor]. apply (table_row _ _ r); [done|by eapply step_dead].
Qed.

Lemma release_step now id owner t : outbox_table_step t (release_outbox now id owner t).1.
Proof.
  unfold release_outbox. destruct (t !! id) as [r|] eqn:E; [|constructor].
  destruct (holds_lease r owner) eqn:Hh; [|constructor]. apply (table_row _ _ r); [done|by eapply step_release].
Qed.

(** What a requeue that returns did. *)
Lemma requeue_inv now new_id receipt id gen key db res db' :
  requeue_dead_outbox now new_id receipt id gen key db = Ok (res, db') ->
  exists row, odb_table db !! id = Some row /\ ob_status row = dead /\ delivery_generation row = gen
    /\ ((exists prior, find (receipt_for (ob_team row) id key) (odb_receipts db) = Some prior /\ db' = db
           /\ res = Build_requeue_result replayed (cr_uuid prior) (cr_result_ref prior) (cr_decided_at prior))
        \/ (find (receipt_for (ob_team row) id key) (odb_receipts db) = None
            /\ outbox_conflict (odb_table db) new_id (requeued_row now id row) = false
            /\ res = Build_requeue_result applied receipt new_id now
            /\ odb_table db' = <[new_id := requeued_row now id row]> (odb_table db)
            /\ exists r, odb_receipts db' = odb_receipts db ++ [r] /\ receipt_for (ob_team row) id key r = true
                 /\ cr_uuid r = receipt /\ cr_result_ref r = new_id /\ cr_decided_at r = now)).
Proof.
  unfold requeue_dead_outbox. intros Hq. apply rbind_Ok in Hq as (_ & _ & Hq).
  destruct (odb_table db !! id) as [row|]; [|done].
  apply rbind_Ok in Hq as (_ & Hs%ensure_Ok%bool_decide_eq_true & Hq).
  apply rbind_Ok in Hq as (_ & Hg%ensure_Ok%Z.eqb_eq & Hq). apply rbind_Ok in Hq as (fp & _ & Hq).
  exists row. split; [done|]. split; [done|]. split; [done|].
  destruct (find _ (odb_receipts db)) as [prior|].
  - injection Hq as <- <-. left. by exists prior.
  - right. apply rbind_Ok in Hq as (_ & Hc%ensure_Ok%negb_true_iff & Hq).
    apply rbind_Ok in Hq as (_ & _ & Hq). injection Hq as <- <-. split; [done|]. split; [done|]. split; [done|].
    split; [done|]. eexists. split; [reflexivity|]. split; [|done].
    unfold receipt_for, ueqb. cbn. by rewrite !bool_decide_eq_true_2.
Qed.

Lemma requeue_step now new_id receipt id gen key db res db' :
  requeue_dead_outbox now new_id receipt id gen key db = Ok (res, db') ->
  outbox_table_step (odb_table db) (odb_table db').
Proof.
  intros Hq. apply requeue_inv in Hq as (row & _ & _ & _ & [(? & _ & -> & _)|(_ & Hc & _ & -> & _)]); [constructor|].
  by apply table_insert.
Qed.

(** ** Runs *)

Inductive outbox_event :=
| EvEnqueue (now : Z) (id team : ustr) (kind : string) (payload : pydict) (key : ustr)
| EvLease (now : Z) (uuid owner : ustr) (secs : Z)
| EvComplete (now : Z) (id owner : ustr)
| EvDead (now : Z) (id owner : ustr)
| EvRelease (now : Z) (id owner : ustr)
| EvRequeue (now : Z) (new_id receipt id : ustr) (gen : Z) (key : ustr).

Definition with_table (db : outbox_db) (t : outbox_table) : outbox_db := Build_outbox_db t (odb_receipts db).

Definition outbox_step (db : outbox_db) (e : outbox_event) : outbox_db :=
  let t := odb_table db in
  match e with
  | EvEnqueue now id team kind payload key =>
      match enqueue_tx now id t team kind payload key with Ok t => with_table db t | Err _ => db end
  | EvLease now uuid owner secs =>
      match lease_outbox_row now uuid owner secs t with Ok (_, t) => with_table db t | Err _ => db end
  | EvComplete now id owner => with_table db (complete_outbox now id owner t)
  | EvDead now id owner => with_table db (mark_outbox_dead now id owner t).1
  | EvRelease now id owner => with_table db (release_outbox now id owner t).1
  | EvRequeue now new_id receipt id gen key =>
      match requeue_dead_outbox now new_id receipt id gen key db with Ok (_, db) => db | Err _ => db end
  end.
Definition outbox_run : outbox_db -> list outbox_event -> outbox_db := foldl outbox_step.

Lemma outbox_step_refines db e : outbox_table_step (odb_table db) (odb_table (outbox_step db e)).
Proof.
  destruct e as [now id team kind payload key|now uuid owner secs|now id owner|now id owner|now id owner|now n r id g k];
    cbn [outbox_step with_table odb_table].
  - destruct (enqueue_tx _ _ _ _ _ _ _) eqn:E; [by eapply enqueue_step|constructor].
  - destruct (lease_outbox_row _ _ _ _ _) as [[]|] eqn:E; [by eapply lease_step|constructor].
  - apply complete_step.
  - apply dead_step.
  - apply release_step.
  - destruct (requeue_dead_outbox _ _ _ _ _ _ _) as [[]|] eqn:E; [by eapply requeue_step|constructor].
Qed.

(** Rule induction over runs. *)
Lemma outbox_run_ind (P : outbox_table -> Prop) db evs :
  P (odb_table db) -> (forall t t', P t -> outbox_table_step t t' -> P t') -> P (odb_table (outbox_run db evs)).
Proof.
  intros H0 Hs. revert db H0. induction evs as [|e evs IH]; intros db H0; [done|]. cbn [outbox_run foldl].
  apply IH. eapply Hs; [exact H0|apply outbox_step_refines].
Qed.
End steps.

(** ** The invariant *)

Record outbox_row_ok (r : outbox_row) : Prop := {
  rok_lease : ob_status r = in_flight <-> is_Some (ob_lease_owner r);
  rok_expiry : ob_status r = in_flight <-> is_Some (ob_lease_expires_at r);
  rok_attempts : 0 <= ob_attempts r;
  rok_tried : ob_status r <> pending -> 0 < ob_attempts r
}.

Record outbox_ok (t : outbox_table) : Prop := {
  ook_rows : forall id r, t !! id = Some r -> outbox_row_ok r;
  ook_dedupe : forall id1 id2 r1 r2, t !! id1 = Some r1 -> t !! id2 = Some r2 ->
    ob_team r1 = ob_team r2 -> ob_dedupe_key r1 = ob_dedupe_key r2 -> id1 = id2
}.

Lemma outbox_row_step_ok r r' : outbox_row_ok r -> outbox_row_step r r' -> outbox_row_ok r'.
Proof.
  intros [Hl He Ha Ht] Hs.
  assert (forall r1 : outbox_row, ob_status r1 <> in_flight -> ob_lease_owner r1 = None -> ob_lease_expires_at r1 = None ->
    ob_attempts r1 = ob_attempts r -> ob_status r <> pending -> outbox_row_ok r1) as Hclosed.
  { intros r1 H1 H2 H3 H4 H5. constructor; rewrite ?H2, ?H3, ?H4; [split; [done|by intros []]..|lia|by intros _; apply Ht]. }
  destruct Hs as [now owner expires Hd|now owner Hh|now owner Hh|now owner Hh].
  - constructor; cbn [ob_set ob_status ob_lease_owner ob_lease_expires_at ob_attempts];
      [split; [intros _; by eexists|done]..|lia|lia].
  - apply holds_lease_spec in Hh as [Hin _]. apply Hclosed; try done. by rewrite Hin.
  - apply holds_lease_spec in Hh as [Hin _]. apply Hclosed; try done. by rewrite Hin.
  - apply holds_lease_spec in Hh as [Hin _]. apply Hclosed; try done; [|by rewrite Hin]. cbn [ob_set ob_status]. by case_match.
Qed.

Lemma outbox_row_step_keys r r' : outbox_row_step r r' ->
  (ob_team r', ob_kind r', ob_payload_json r', ob_payload_digest r', ob_dedupe_key r')
  = (ob_team r, ob_kind r, ob_payload_json r, ob_payload_digest r, ob_dedupe_key r).
Proof. by intros []. Qed.

Lemma outbox_conflict_false t id r :
  outbox_conflict t id r = false ->
  t !! id = None /\ forall id' r', t !! id' = Some r' -> ob_team r' = ob_team r -> ob_dedupe_key r' <> ob_dedupe_key r.
Proof.
  unfold outbox_conflict. intros [Hid Hc]%orb_false_iff. apply bool_decide_eq_false in Hid. split.
  - destruct (t !! id); [|done]. exfalso. apply Hid. by eexists.
  - intros id' r' Hr Ht Hk. assert (existsb (fun kv => ueqb (ob_team kv.2) (ob_team r) && ueqb (ob_dedupe_key kv.2) (ob_dedupe_key r))
        (map_to_list t) = true) as Hx; [|congruence].
    apply existsb_exists. exists (id', r'). split; [by apply list_elem_of_In, elem_of_map_to_list|].
    unfold ueqb. cbn. by rewrite !bool_decide_eq_true_2.
Qed.

Lemma outbox_table_step_ok t t' : outbox_ok t -> outbox_table_step t t' -> outbox_ok t'.
Proof.
  intros [Hr Hd] Hs. destruct Hs as [|id r r' Hid Hst|id r Hc Hp Ha Ho He]; [by constructor| |].
  - pose proof (outbox_row_step_keys _ _ Hst) as [= Ht _ _ _ Hk]. constructor.
    + intros id1 r1 [[<- <-]|[_ H1]]%lookup_insert_Some; [|by eapply Hr]. eapply outbox_row_step_ok; [by eapply Hr|done].
    + intros id1 id2 r1 r2 [[<- <-]|[Hn1 H1]]%lookup_insert_Some [[<- <-]|[Hn2 H2]]%lookup_insert_Some Ht' Hk'; [done|..].
      * apply (Hd _ _ _ _ Hid H2); congruence.
      * apply (Hd _ _ _ _ H1 Hid); congruence.
      * by apply (Hd _ _ _ _ H1 H2).
  - apply outbox_conflict_false in Hc as [Hid Hc]. constructor.
    + intros id1 r1 [[<- <-]|[_ H1]]%lookup_insert_Some; [|by eapply Hr]. constructor; rewrite ?Hp, ?Ha, ?Ho, ?He; try lia; try done.
      all: split; [done|by intros []].
    + intros id1 id2 r1 r2 [[<- <-]|[Hn1 H1]]%lookup_insert_Some [[<- <-]|[Hn2 H2]]%lookup_insert_Some Ht' Hk'; [done|..].
      * by destruct (Hc _ _ H2).
      * by destruct (Hc _ _ H1).
      * by apply (Hd _ _ _ _ H1 H2).
Qed.

Section theorems.
Context `{Host}.

(** in every run of enqueues, leases, completions, kills, releases and requeues the
    table keeps its invariant: exactly the in-flight rows carry a lease owner and an expiry,
    attempts are never negative and positive once a row has been tried, and at most one row
    exists per team and dedupe key. *)
Theorem outbox_run_ok (db : outbox_db) (evs : list outbox_event)
    (Hdb : outbox_ok (odb_table db)) : outbox_ok (odb_table (outbox_run db evs)).
Proof. apply outbox_run_ind; [exact Hdb|]. intros t t'. apply outbox_table_step_ok. Qed.

(** The history of one row along a run. *)
Record row_history (r r' : outbox_row) : Prop := {
  rh_content : (ob_team r', ob_kind r', ob_payload_json r', ob_payload_digest r', ob_dedupe_key r')
               = (ob_team r, ob_kind r, ob_payload_json r, ob_payload_digest r, ob_dedupe_key r);
  rh_attempts : ob_attempts r <= ob_attempts r';
  rh_terminal : ob_status r = done_ \/ ob_status r = dead -> r' = r
}.

Lemma outbox_row_step_history r r' : outbox_row_step r r' -> row_history r r'.
Proof.
  intros Hs. constructor.
  - by apply outbox_row_step_keys.
  - destruct Hs; cbn; lia.
  - intros Ht. destruct Hs as [now owner expires Hd|now owner Hh|now owner Hh|now owner Hh];
      [unfold outbox_due in Hd; by destruct Ht as [E|E]; rewrite E in Hd|..]; apply holds_lease_spec in Hh as [Hin _];
      rewrite Hin in Ht; by destruct Ht.
Qed.

Lemma outbox_run_history_aux (db : outbox_db) (evs : list outbox_event) (id : ustr) (r : outbox_row)
    (Hrow : odb_table db !! id = Some r) :
  exists r', odb_table (outbox_run db evs) !! id = Some r' /\ row_history r r'.
Proof.
  apply (outbox_run_ind (fun t => exists r', t !! id = Some r' /\ row_history r r')).
  - exists r. split; [exact Hrow|]. by constructor.
  - intros t t' (r1 & H1 & Hh) Hs. destruct Hs as [|id' r2 r2' H2 Hst|id' r2 Hc _ _ _ _]; [by exists r1|..].
    + destruct (decide (id = id')) as [<-|Hne].
      * exists r2'. split; [by rewrite lookup_insert_eq|]. assert (r2 = r1) as -> by congruence.
        destruct Hh as [Hc Ha Ht], (outbox_row_step_history _ _ Hst) as [Hc' Ha' Ht']. constructor; [congruence|lia|].
        intros Hterm. rewrite (Ht Hterm) in Ht'. by apply Ht'.
      * exists r1. split; [|done]. by rewrite lookup_insert_ne.
    + apply outbox_conflict_false in Hc as [Hid _]. exists r1. split; [|done].
      rewrite lookup_insert_ne; [done|]. intros ->. congruence.
Qed.

(** no run ever loses an intent or rewrites it: a row stays in the table with its team,
    kind, payload, digest and dedupe key, its attempt count never decreases, and once it is
    done or dead not a single column changes again. *)
Theorem outbox_run_history (db : outbox_db) (evs : list outbox_event) (id : ustr) (r : outbox_row)
    (Hrow : odb_table db !! id = Some r) :
  exists r', odb_table (outbox_run db evs) !! id = Some r' /\ row_history r r'.
Proof. by apply outbox_run_history_aux. Qed.

(** A delivery that does not hold the row. *)
Definition lost (id owner : ustr) (t : outbox_table) : Prop :=
  forall r, t !! id = Some r -> holds_lease r owner = false.

Definition issues (owner : ustr) (e : outbox_event) : Prop :=
  match e with EvLease now uuid lease_owner secs => lease_owner ++ u ":" ++ uuid = owner | _ => False end.

Lemma lost_insert t id owner id' r : lost id owner t -> holds_lease r owner = false -> lost id owner (<[id' := r]> t).
Proof. intros Hl Hr r' [[_ <-]|[_ H1]]%lookup_insert_Some; [done|by apply Hl]. Qed.

Lemma not_in_flight r owner : ob_status r <> in_flight -> holds_lease r owner = false.
Proof. intros Hs. unfold holds_lease. by rewrite bool_decide_eq_false_2. Qed.

Lemma lost_step id owner db e :
  lost id owner (odb_table db) -> ~ issues owner e -> lost id owner (odb_table (outbox_step db e)).
Proof.
  intros Hl Hi.
  destruct e as [now nid team kind payload key|now uuid lo secs|now rid o|now rid o|now rid o|now n rc rid g k];
    cbn [outbox_step with_table odb_table].
  - unfold enqueue_tx. destruct (outbox_kind kind); [|done]. destruct (json_text _); [|done]. cbn [rbind].
    destruct (owner_of payload). destruct (stable_digest _); [|done]. cbn [rbind with_table odb_table].
    destruct (outbox_conflict _ _ _); [done|]. apply lost_insert; [done|by apply not_in_flight].
  - destruct (lease_outbox_row _ _ _ _ _) as [[l t]|] eqn:E; [|done]. cbn [with_table odb_table].
    unfold lease_outbox_row in E. apply rbind_Ok in E as (_ & _ & E).
    destruct (next_outbox_row now (odb_table db)) as [[lid lr]|]; injection E as <- <-; [|done].
    apply lost_insert; [done|]. destruct (holds_lease _ owner) eqn:Hh; [|done]. exfalso.
    apply holds_lease_spec in Hh as [_ Hh]. cbn in Hh. injection Hh as Hh. by apply Hi.
  - unfold complete_outbox. destruct (odb_table db !! rid) as [r|]; [|done]. destruct (holds_lease r o); [|done].
    apply lost_insert; [done|by apply not_in_flight].
  - unfold mark_outbox_dead. destruct (odb_table db !! rid) as [r|]; [|done]. destruct (holds_lease r o); [|done].
    apply lost_insert; [done|by apply not_in_flight].
  - unfold release_outbox. destruct (odb_table db !! rid) as [r|]; [|done]. destruct (holds_lease r o); [|done].
    apply lost_insert; [done|apply not_in_flight]. cbn. by case_match.
  - destruct (requeue_dead_outbox _ _ _ _ _ _ _) as [[res db']|] eqn:E; [|done].
    apply requeue_inv in E as (row & _ & _ & _ & [(? & _ & -> & _)|(_ & _ & _ & -> & _)]); [done|].
    apply lost_insert; [done|by apply not_in_flight].
Qed.

Lemma lost_run id owner evs : forall db,
  lost id owner (odb_table db) -> Forall (fun e => ~ issues owner e) evs -> lost id owner (odb_table (outbox_run db evs)).
Proof.
  induction evs as [|e evs IH]; intros db Hl Hf; [done|]. apply Forall_cons in Hf as [He Hf]. cbn [outbox_run foldl].
  apply IH; [by apply lost_step|done].
Qed.

(** a superseded consumer is fenced for good.  Once a delivery no longer holds its row
    (the lease expired and was taken over, or the row was completed, released or killed),
    then whatever happens later, as long as its unique lease identity is not issued again,
    its completion, its release and its kill leave the table exactly as it is and report no
    death. *)
Theorem lost_lease_is_fenced (db : outbox_db) (evs : list outbox_event) (id owner : ustr)
    (Hlost : lost id owner (odb_table db))
    (Hfresh : Forall (fun e => ~ issues owner e) evs) :
  let t := odb_table (outbox_run db evs) in
  forall now, complete_outbox now id owner t = t
    /\ mark_outbox_dead now id owner t = (t, None) /\ release_outbox now id owner t = (t, None).
Proof.
  intros t now. pose proof (lost_run id owner evs db Hlost Hfresh) as Hl. fold t in Hl. unfold lost in Hl.
  unfold complete_outbox, mark_outbox_dead, release_outbox.
  destruct (t !! id) as [r|] eqn:E; [|done]. by rewrite (Hl r eq_refl).
Qed.

(** ** Leases are fair *)

Lemma outbox_le_total a b : outbox_le a b = true \/ outbox_le b a = true.
Proof. unfold outbox_le. destruct (str_le_total a.1 b.1) as [-> | ->]; lia. Qed.

Lemma outbox_le_trans a b c : outbox_le a b = true -> outbox_le b c = true -> outbox_le a c = true.
Proof.
  unfold outbox_le. intros H1 H2.
  assert (str_le a.1 b.1 = true -> str_le b.1 c.1 = true -> str_le a.1 c.1 = true) as Ht by apply str_le_trans.
  destruct (str_le a.1 b.1), (str_le b.1 c.1), (str_le a.1 c.1); try lia; by rewrite Ht in *.
Qed.

(** the lease is the oldest due one, and none is skipped: a lease returns nothing exactly
    when no row is due; otherwise the row it returns is due and comes first, by availability,
    creation and identity, among all due rows, and the stored row becomes in flight under the
    returned owner until [lease_seconds] later with one more attempt, while every other row
    stays as it is. *)
Theorem lease_takes_first_due (now : Z) (uuid owner : ustr) (secs : Z) (t t' : outbox_table)
    (leased : option ((ustr * outbox_row) * ustr))
    (Hlease : lease_outbox_row now uuid owner secs t = Ok (leased, t')) :
  match leased with
  | None => t' = t /\ forall id r, t !! id = Some r -> outbox_due now r = false
  | Some ((id, r), delivery_owner) =>
      t !! id = Some r /\ outbox_due now r = true
      /\ (forall id' r', t !! id' = Some r' -> outbox_due now r' = true -> outbox_le (id, r) (id', r') = true)
      /\ (exists r', t' = <[id := r']> t /\ holds_lease r' delivery_owner = true
            /\ ob_lease_expires_at r' = Some (now + seconds secs) /\ ob_attempts r' = ob_attempts r + 1)
  end.
Proof.
  unfold lease_outbox_row in Hlease. apply rbind_Ok in Hlease as (_ & _ & Hl).
  destruct (next_outbox_row now t) as [[id r]|] eqn:E; injection Hl as <- <-.
  - pose proof (next_outbox_row_Some _ _ _ _ E) as [Hid Hd]. split; [done|]. split; [done|]. split.
    + intros id' r' Hid' Hd'. unfold next_outbox_row in E.
      pose proof (py_sorted_sorted outbox_le outbox_le_total outbox_le_trans
                    (List.filter (fun kv => outbox_due now kv.2) (map_to_list t))) as Hs.
      assert ((id', r') ∈ py_sorted outbox_le (List.filter (fun kv => outbox_due now kv.2) (map_to_list t))) as Hin.
      { rewrite (py_sorted_perm outbox_le). apply list_elem_of_In, filter_In. split; [|done].
        by apply list_elem_of_In, elem_of_map_to_list. }
      destruct (py_sorted outbox_le _) as [|x l]; [done|]. injection E as ->.
      apply elem_of_cons in Hin as [<-|Hin]; [by destruct (outbox_le_total (id', r') (id', r'))|].
      inversion Hs as [|? ? _ Hx]; subst. rewrite Forall_forall in Hx. by apply Hx.
    + eexists. split; [reflexivity|]. split; [by apply holds_lease_spec|done].
  - split; [done|]. intros id r Hid. unfold next_outbox_row in E. destruct (outbox_due now r) eqn:Hd; [|done]. exfalso.
    assert ((id, r) ∈ py_sorted outbox_le (List.filter (fun kv => outbox_due now kv.2) (map_to_list t))) as Hin.
    { rewrite (py_sorted_perm outbox_le). apply list_elem_of_In, filter_In. split; [|done].
      by apply list_elem_of_In, elem_of_map_to_list. }
    destruct (py_sorted outbox_le _) as [|x l]; [by apply elem_of_nil in Hin|done].
Qed.

Lemma find_snoc {A} (p : A -> bool) l x : find p (l ++ [x]) = match find p l with Some y => Some y | None => if p x then Some x else None end.
Proof. induction l as [|y l IH]; cbn; [done|]. by destruct (p y). Qed.

Lemma outbox_conflict_dup t id id' r r' :
  t !! id' = Some r' -> ob_team r' = ob_team r -> ob_dedupe_key r' = ob_dedupe_key r -> outbox_conflict t id r = true.
Proof.
  intros Hr Ht Hk. destruct (outbox_conflict t id r) eqn:E; [done|]. apply outbox_conflict_false in E as [_ E].
  by destruct (E _ _ Hr Ht).
Qed.

(** requeueing a dead delivery is idempotent and creates one successor at most: after an
    applied requeue the dead row is still there, the successor waits under the next delivery
    generation, the same command again returns the recorded receipt and successor with
    nothing written, and no command for that delivery ever writes again. *)
Theorem requeue_at_most_once (now : Z) (new_id receipt id : ustr) (gen : Z) (key : ustr) (db db' : outbox_db)
    (res : requeue_result)
    (Hq : requeue_dead_outbox now new_id receipt id gen key db = Ok (res, db'))
    (Happlied : rq_disposition res = applied) :
  (exists r r', odb_table db !! id = Some r /\ odb_table db' !! id = Some r /\ ob_status r = dead
     /\ odb_table db' !! new_id = Some r' /\ ob_status r' = pending /\ ob_retry_of r' = Some id
     /\ ob_delivery_generation r' = delivery_generation r + 1)
  /\ forall now2 new2 receipt2 gen2 key2 res2 db2,
       requeue_dead_outbox now2 new2 receipt2 id gen2 key2 db' = Ok (res2, db2) ->
       db2 = db' /\ rq_disposition res2 = replayed
       /\ (key2 = key -> rq_outbox_id res2 = new_id /\ rq_receipt res2 = receipt /\ rq_decided_at res2 = now).
Proof.
  pose proof (requeue_inv _ _ _ _ _ _ _ _ _ Hq) as (row & Hid & Hdead & Hgen & [(prior & Hf & -> & ->)|Hcase]); [done|].
  destruct Hcase as (Hf & Hc & -> & Htab & rc & Hrc & Hrcf & Hu & Hr & Hdt).
  pose proof (outbox_conflict_false _ _ _ Hc) as [Hn _].
  assert (odb_table db' !! id = Some row) as Hid'.
  { rewrite Htab, lookup_insert_ne; [done|]. intros ->. congruence. }
  assert (odb_table db' !! new_id = Some (requeued_row now id row)) as Hnew by (by rewrite Htab, lookup_insert_eq).
  split; [by exists row, (requeued_row now id row)|].
  intros now2 new2 receipt2 gen2 key2 res2 db2 Hq2.
  apply requeue_inv in Hq2 as (row2 & Hid2 & _ & _ & Hcase2). assert (row2 = row) as -> by congruence.
  destruct Hcase2 as [(prior & Hf2 & -> & ->)|(_ & Hc2 & _)].
  - split; [done|]. split; [done|]. intros ->. rewrite Hrc, find_snoc, Hf, Hrcf in Hf2. injection Hf2 as <-. done.
  - rewrite (outbox_conflict_dup (odb_table db') new2 new_id _ _ Hnew) in Hc2; done.
Qed.
End theorems.

(** ** From enqueue to delivery *)

Section roundtrip.
Context `{Host}.

Lemma mapM_perm {A B} (f : A -> result B) l l' ys :
  l ≡ₚ l' -> mapM f l = Ok ys -> exists ys', mapM f l' = Ok ys' /\ ys ≡ₚ ys'.
Proof.
  intros Hp. revert ys. induction Hp as [|x l l' _ IH|x y l|l1 l2 l3 _ IH1 _ IH2]; intros ys Hm.
  - exists ys. split; [exact Hm|done].
  - cbn in *. apply rbind_Ok in Hm as (b & Hb & Hm). apply rbind_Ok in Hm as (bs & Hbs & [= <-]).
    destruct (IH _ Hbs) as (bs' & Hbs' & Hp'). exists (b :: bs'). rewrite Hb. cbn. rewrite Hbs'. split; [done|by constructor].
  - cbn in *. apply rbind_Ok in Hm as (b & Hb & Hm). apply rbind_Ok in Hm as (bs & Hbs & [= <-]).
    apply rbind_Ok in Hbs as (c & Hc & Hbs). apply rbind_Ok in Hbs as (cs & Hcs & [= <-]).
    exists (c :: b :: cs). rewrite Hc. cbn. rewrite Hb. cbn. rewrite Hcs. split; [done|apply Permutation_swap].
  - destruct (IH1 _ Hm) as (ys' & Hm' & Hp'). destruct (IH2 _ Hm') as (ys'' & Hm'' & Hp''). exists ys''. split; [done|].
    by etrans.
Qed.

Lemma NoDup_fst_unique {A B} (l : list (A * B)) k x y : NoDup l.*1 -> (k, x) ∈ l -> (k, y) ∈ l -> x = y.
Proof.
  induction l as [|[k' z] l IH]; cbn; [by intros _ ?%elem_of_nil|]. intros [Hn Hnd]%NoDup_cons.
  intros [[= <- <-]|Hx]%elem_of_cons [[= E]|Hy]%elem_of_cons; [done| | |by apply IH].
  - exfalso. apply Hn. apply list_elem_of_fmap. by exists (k, y).
  - subst. exfalso. apply Hn. apply list_elem_of_fmap. by exists (k', x).
Qed.

(** The canonical text of an object does not depend on the order of its keys. *)
Lemma json_text_perm (d d' : pydict) t :
  dict_wf d -> d ≡ₚ d' -> json_text (PDict d) = Ok t -> json_text (PDict d') = Ok t.
Proof.
  cbn [json_text]. set (f := fun kv : ustr * pyval => _). intros Hwf Hp Ht. apply rbind_Ok in Ht as (ts & Hts & Ht).
  destruct (mapM_perm f d d' ts Hp Hts) as (ts' & Hts' & Hpt). rewrite Hts'. cbn [rbind].
  rewrite <-Ht. f_equal. f_equal. f_equal. f_equal. f_equal. symmetry.
  assert (forall (l : pydict) rs, mapM f l = Ok rs -> rs.*1 = l.*1) as Hkeys.
  { intros l rs Hm%mapM_Ok. induction Hm as [|kv r l rs Hkv _ IH]; [done|]. cbn. f_equal; [|exact IH].
    unfold f in Hkv. apply rbind_Ok in Hkv as (s & _ & [= <-]). reflexivity. }
  apply (StronglySorted_unique_strong (fun p q => str_le p.1 q.1 = true)).
  - intros p q Hin1 Hin2 L1 L2. rewrite (py_sorted_perm (fun p q => str_le p.1 q.1)) in Hin1.
    rewrite (py_sorted_perm (fun p q => str_le p.1 q.1)), <-Hpt in Hin2. pose proof (str_le_antisym _ _ L1 L2) as E.
    unfold dict_wf in Hwf. rewrite <-(Hkeys _ _ Hts) in Hwf. destruct p as [k x], q as [k' x']. cbn in E. subst k'.
    f_equal. by apply (NoDup_fst_unique ts k).
  - apply py_sorted_sorted; [intros; apply str_le_total|intros a b c; apply str_le_trans].
  - apply py_sorted_sorted; [intros; apply str_le_total|intros a b c; apply str_le_trans].
  - rewrite !(py_sorted_perm (fun p q => str_le p.1 q.1)). exact Hpt.
Qed.

(** [json.loads] inverts [json.dumps(..., sort_keys=True)] on the object, up to the order of
    its keys. *)
Definition loads_dumps (loads : ustr -> result pyval) (d : pydict) : Prop :=
  forall t, json_text (PDict d) = Ok t -> exists d', loads t = Ok (PDict d') /\ d ≡ₚ d'.

(** an intent reaches its consumer as it was enqueued.  Whatever leases, failures and
    requeues happen in between, whoever holds the row parses it into a delivery of the same
    team and kind with the same key/value pairs; it is never killed as malformed. *)
Theorem enqueued_intent_is_delivered (loads : ustr -> result pyval) (now : Z) (id team : ustr) (kind : string)
    (payload : pydict) (key : ustr) (db : outbox_db) (t : outbox_table) (evs : list outbox_event) (row : outbox_row)
    (Hwf : dict_wf payload) (Hloads : loads_dumps loads payload)
    (Hnew : odb_table db !! id = None)
    (Henq : enqueue_tx now id (odb_table db) team kind payload key = Ok t) (Hrow : t !! id = Some row) :
  exists row', odb_table (outbox_run (with_table db t) evs) !! id = Some row'
    /\ forall owner, exists payload', parse_outbox loads id row' owner = Ok (Some (Build_OutboxDelivery id team kind payload' owner))
         /\ payload ≡ₚ payload'.
Proof.
  unfold enqueue_tx in Henq. destruct (outbox_kind kind) as [definition|]; [|done].
  apply rbind_Ok in Henq as (json & Hjson & Henq). destruct (owner_of payload) as [ok ou].
  apply rbind_Ok in Henq as (dg & Hdg & Henq).
  destruct (outbox_conflict _ _ _); injection Henq as <-; [congruence|].
  rewrite lookup_insert_eq in Hrow. injection Hrow as <-.
  match goal with |- context [with_table db ?t0] =>
    destruct (outbox_run_history_aux (with_table db t0) evs id _ (lookup_insert_eq _ _ _)) as (r' & Hr' & [Hc _ _]) end.
  exists r'. split; [exact Hr'|]. intros owner. cbn in Hc. injection Hc as Ht Hk Hj Hd _.
  destruct (Hloads json Hjson) as (payload' & Hl & Hp).
  exists payload'. split; [|exact Hp]. unfold parse_outbox. rewrite Hj, Hl.
  assert (stable_digest (PDict payload') = Ok dg) as ->.
  { unfold stable_digest, canonical_json in *. by rewrite Hjson in Hdg; rewrite (json_text_perm _ _ _ Hwf Hp Hjson). }
  cbn [rbind]. unfold ueqb. by rewrite Hd, bool_decide_eq_true_2, Ht, Hk.
Qed.
End roundtrip.

(** ** Dispatch settles the delivery it leased *)

(** What the dispatcher needs of its world: the table can be replaced, a death notice leaves
    it alone, and a consumer that returns has not touched the rows in flight. *)
Record outbox_world {W : Type} (table : W -> outbox_table) (set_table : outbox_table -> W -> W)
    (perform : delivery_action -> W -> result W) (on_dead : outbox_row -> W -> W) : Prop := {
  ow_get : forall t w, table (set_table t w) = t;
  ow_dead : forall r w, table (on_dead r w) = table w;
  ow_perform : forall a w w', perform a w = Ok w' ->
    forall id r, table w !! id = Some r -> ob_status r = in_flight -> table w' !! id = Some r
}.

Section dispatch_facts.
Context `{Host} {W : Type} (table : W -> outbox_table) (set_table : outbox_table -> W -> W).
Context (perform : delivery_action -> W -> result W) (on_dead : outbox_row -> W -> W).
Context (HW : outbox_world table set_table perform on_dead).

Lemma table_record_dead died w : table (record_dead on_dead died w) = table w.
Proof. destruct died; [apply (ow_dead _ _ _ _ HW)|done]. Qed.

(** a dispatch never leaves the delivery it took in limbo.  With nothing due it reports
    [false] and changes nothing.  Otherwise the first due row gains one attempt, and: when
    the payload does not parse to its digest the row is dead and the call reports [true];
    when the consumer returns the row is done; when the kind is unknown or the consumer
    raises, the error is re-raised and the row is pending again one second later, or dead
    once its attempts reach its budget. *)
Theorem dispatch_settles (loads : ustr -> result pyval) (now : Z) (uuid lease_owner : ustr) (secs : Z) (w w' : W)
    (res : result bool)
    (Howner : lease_owner <> []) (Hlen : (length (lease_owner ++ u ":" ++ uuid) <= 256)%nat)
    (Hrun : dispatch_outbox_once table set_table perform on_dead loads now uuid lease_owner secs w = (res, w')) :
  match next_outbox_row now (table w) with
  | None => res = Ok false /\ w' = w
  | Some (id, r) =>
      match parse_outbox loads id r (lease_owner ++ u ":" ++ uuid) with
      | Err e => res = Err e
      | Ok None => res = Ok true /\ exists r', table w' !! id = Some r' /\ ob_status r' = dead
          /\ ob_attempts r' = ob_attempts r + 1
      | Ok (Some d) =>
          exists r', table w' !! id = Some r' /\ ob_attempts r' = ob_attempts r + 1
          /\ match res with
             | Ok b => b = true /\ ob_status r' = done_ /\ exists a, delivery_target d = Ok a
             | Err e =>
                 if attempt_budget r <=? ob_attempts r + 1 then ob_status r' = dead
                 else ob_status r' = pending /\ ob_available_at r' = now + seconds 1
             end
      end
  end.
Proof.
  unfold dispatch_outbox_once in Hrun. unfold ueqb in Hrun. rewrite bool_decide_eq_false_2 in Hrun by done.
  unfold lease_outbox_row in Hrun. set (owner := lease_owner ++ u ":" ++ uuid) in *.
  assert ((length owner <=? 256)%nat = true) as Hl by (by apply Nat.leb_le). rewrite Hl in Hrun. cbn [ensure rbind] in Hrun.
  destruct (next_outbox_row now (table w)) as [[id r]|] eqn:Hn; [|by injection Hrun as <- <-].
  set (r1 := ob_set r in_flight (ob_attempts r + 1) (ob_available_at r) (Some owner) (Some (now + seconds secs)) now) in *.
  assert (holds_lease r1 owner = true) as Hh by (by apply holds_lease_spec).
  unfold parse_or_kill_outbox in Hrun. destruct (parse_outbox loads id r owner) as [[d|]|e] eqn:Hp.
  - assert (od_outbox_id d = id /\ od_lease_owner d = owner) as [Hid Hown].
    { unfold parse_outbox in Hp. destruct (loads _) as [[]|[]]; try done. apply rbind_Ok in Hp as (dg & _ & Hp).
      destruct (ueqb dg _); [|done]. by injection Hp as <-. }
    cbn [record_dead] in Hrun. rewrite Hid, Hown in Hrun.
    set (w1 := set_table (<[id:=r1]> (table w)) w) in *.
    assert (table w1 !! id = Some r1) as Hr1 by (unfold w1; by rewrite (ow_get _ _ _ _ HW), lookup_insert_eq).
    destruct (let* action := delivery_target d in perform action w1) as [w2|e] eqn:Ha.
    + apply rbind_Ok in Ha as (a & Ha & Hperf). pose proof (ow_perform _ _ _ _ HW _ _ _ Hperf id r1 Hr1 eq_refl) as Hr2.
      injection Hrun as <- <-. rewrite (ow_get _ _ _ _ HW). unfold complete_outbox. rewrite Hr2, Hh. eexists.
      split; [by rewrite lookup_insert_eq|]. split; [done|]. split; [done|]. split; [done|by exists a].
    + unfold release_outbox in Hrun. rewrite Hr1, Hh in Hrun. injection Hrun as <- <-.
      rewrite table_record_dead, (ow_get _ _ _ _ HW). eexists. split; [by rewrite lookup_insert_eq|].
      assert (attempt_budget r1 = attempt_budget r) as -> by done. split; [done|].
      change (ob_attempts r1) with (ob_attempts r + 1).
      destruct (attempt_budget r <=? ob_attempts r + 1); done.
  - unfold mark_outbox_dead in Hrun. rewrite lookup_insert_eq, Hh in Hrun. injection Hrun as <- <-. split; [done|].
    cbn [record_dead]. rewrite (ow_dead _ _ _ _ HW), (ow_get _ _ _ _ HW). eexists. split; [by rewrite lookup_insert_eq|]. done.
  - by injection Hrun as <- <-.
Qed.
End dispatch_facts.

Module OutboxSamples.
Definition payload : pydict := fields [("execution_uuid", PStr (u "e1"))].
Definition empty_db : outbox_db := Build_outbox_db ∅ [].
Definition enqueued : outbox_table :=
  match enqueue_tx (H := test_host) 5 (u "o1") ∅ (u "team") "wake_execution" payload (u "k") with Ok t => t | Err _ => ∅ end.
Definition row : outbox_row :=
  match enqueued !! u "o1" with Some r => r
  | None => Build_outbox_row [] "" [] [] [] dead 0 0 None None "" None 0 0 CRITICAL 0 "" None 0 0 end.
(** A [json.loads] for objects with one text member. *)
Definition loads (s : ustr) : result pyval :=
  if ueqb s (ob_payload_json row) then Ok (PDict payload) else Err ValueError.
(** A consumer that only knows the root wake. *)
Definition perform (a : delivery_action) (t : outbox_table) : result outbox_table :=
  match a with MaterializeRoot _ => Ok t | _ => Err ValueError end.
Definition dead_row : outbox_row := ob_set row dead 8 0 None None 9.
Definition dead_db : outbox_db := Build_outbox_db {[ u "o1" := dead_row ]} [].
Definition requeued : requeue_result * outbox_db :=
  match requeue_dead_outbox (H := test_host) 10 (u "o2") (u "rc") (u "o1") 1 (u "key") dead_db with
  | Ok p => p | Err _ => (Build_requeue_result replayed [] [] 0, dead_db) end.
Definition leased : option ((ustr * outbox_row) * ustr) * outbox_table :=
  match lease_outbox_row 6 (u "x") (u "w1") 30 enqueued with Ok p => p | Err _ => (None, ∅) end.
(** The lease of [w1] expires and [w2] takes over. *)
Definition taken_over : outbox_db :=
  outbox_run (H := test_host) (Build_outbox_db leased.2 []) [EvLease 60000000 (u "y") (u "w2") 30].
End OutboxSamples.

Lemma outbox_run_ok_witness :
  outbox_ok (odb_table (outbox_run (H := test_host) OutboxSamples.empty_db
     [EvEnqueue 5 (u "o1") (u "team") "wake_execution" OutboxSamples.payload (u "k"); EvLease 6 (u "x") (u "w1") 30])).
Proof.
  apply outbox_run_ok. constructor.
  - intros id r Hr. cbn in Hr. by rewrite lookup_empty in Hr.
  - intros id1 id2 r1 r2 Hr. cbn in Hr. by rewrite lookup_empty in Hr.
Defined.

Lemma outbox_run_history_witness :
  exists r', odb_table OutboxSamples.taken_over !! u "o1" = Some r' /\ 1 <= ob_attempts r'.
Proof.
  destruct (outbox_run_history (H := test_host) (Build_outbox_db OutboxSamples.leased.2 [])
     [EvLease 60000000 (u "y") (u "w2") 30] (u "o1") (ob_set OutboxSamples.row in_flight 1 5 (Some (u "w1:x")) (Some 30000006) 6)
     ltac:(vm_compute; reflexivity)) as (r' & Hr & [_ Ha _]).
  exists r'. split; [exact Hr|exact Ha].
Defined.

Lemma lost_lease_is_fenced_witness :
  complete_outbox 70000000 (u "o1") (u "w1:x") (odb_table OutboxSamples.taken_over) = odb_table OutboxSamples.taken_over.
Proof.
  assert (lost (u "o1") (u "w1:x") (odb_table OutboxSamples.taken_over)) as Hl.
  { intros r Hr. assert (odb_table OutboxSamples.taken_over !! u "o1"
      = Some (ob_set OutboxSamples.row in_flight 2 5 (Some (u "w2:y")) (Some 90000000) 60000000)) as E by (vm_compute; reflexivity).
    rewrite E in Hr. injection Hr as <-. vm_compute. reflexivity. }
  exact (proj1 (lost_lease_is_fenced (H := test_host) OutboxSamples.taken_over [] (u "o1") (u "w1:x") Hl
                  (Forall_nil_2 _) 70000000)).
Defined.

Lemma lease_takes_first_due_witness :
  outbox_due 6 OutboxSamples.row = true /\ OutboxSamples.enqueued !! u "o1" = Some OutboxSamples.row.
Proof.
  destruct (lease_takes_first_due 6 (u "x") (u "w1") 30 OutboxSamples.enqueued OutboxSamples.leased.2
    (Some ((u "o1", OutboxSamples.row), u "w1:x")) ltac:(vm_compute; reflexivity)) as (Hr & Hd & _).
  split; [exact Hd|exact Hr].
Defined.

Lemma requeue_at_most_once_witness :
  exists r', odb_table OutboxSamples.requeued.2 !! u "o2" = Some r' /\ ob_delivery_generation r' = 2.
Proof.
  destruct (requeue_at_most_once (H := test_host) 10 (u "o2") (u "rc") (u "o1") 1 (u "key") OutboxSamples.dead_db
    OutboxSamples.requeued.2 OutboxSamples.requeued.1 ltac:(vm_compute; reflexivity) ltac:(vm_compute; reflexivity))
    as ((r & r' & Hr & _ & _ & Hr' & _ & _ & Hg) & _).
  exists r'. split; [exact Hr'|]. rewrite Hg. 
  assert (r = OutboxSamples.dead_row) as -> by (unfold OutboxSamples.dead_db in Hr; cbn [odb_table] in Hr;
    rewrite lookup_singleton_eq in Hr; by injection Hr as <-). vm_compute. reflexivity.
Defined.

Lemma dispatch_settles_witness :
  exists r', (dispatch_outbox_once (H := test_host) (fun t => t) (fun t _ => t) OutboxSamples.perform (fun _ t => t)
     OutboxSamples.loads 6 (u "x") (u "w1") 30 OutboxSamples.enqueued).2 !! u "o1" = Some r' /\ ob_attempts r' = 1.
Proof.
  assert (outbox_world (fun t => t) (fun t _ => t) OutboxSamples.perform (fun (_ : outbox_row) t => t)) as HW.
  { constructor; [done|done|]. intros [] w w' Hp; simpl in Hp; try done. by injection Hp as <-. }
  pose proof (dispatch_settles (H := test_host) _ _ _ _ HW OutboxSamples.loads 6 (u "x") (u "w1") 30 OutboxSamples.enqueued
    _ _ ltac:(done) ltac:(vm_compute; lia) (surjective_pairing _)) as Hd.
  assert (next_outbox_row 6 OutboxSamples.enqueued = Some (u "o1", OutboxSamples.row)) as E by (vm_compute; reflexivity).
  cbv beta in Hd. rewrite E in Hd.
  assert (parse_outbox (H := test_host) OutboxSamples.loads (u "o1") OutboxSamples.row (u "w1" ++ u ":" ++ u "x")
    = Ok (Some (Build_OutboxDelivery (u "o1") (u "team") "wake_execution" OutboxSamples.payload (u "w1" ++ u ":" ++ u "x")))) as E2
    by (vm_compute; reflexivity).
  rewrite E2 in Hd. destruct Hd as (r' & Hr & Ha & _). exists r'. split; [exact Hr|]. rewrite Ha. vm_compute. reflexivity.
Defined.

Lemma enqueued_intent_is_delivered_witness :
  exists row', odb_table (outbox_run (H := test_host) (Build_outbox_db OutboxSamples.enqueued [])
                            [EvLease 6 (u "x") (u "w1") 30; EvRelease 7 (u "o1") (u "w1:x")]) !! u "o1" = Some row'
    /\ is_ok (parse_outbox (H := test_host) OutboxSamples.loads (u "o1") row' (u "w2")) = true.
Proof.
  destruct (enqueued_intent_is_delivered (H := test_host) OutboxSamples.loads 5 (u "o1") (u "team") "wake_execution"
    OutboxSamples.payload (u "k") OutboxSamples.empty_db OutboxSamples.enqueued
    [EvLease 6 (u "x") (u "w1") 30; EvRelease 7 (u "o1") (u "w1:x")] OutboxSamples.row)
    as (row' & Hr & Hp).
  - apply (bool_decide_unpack _). vm_compute. exact I.
  - intros t Ht. assert (json_text (H := test_host) (PDict OutboxSamples.payload) = Ok (ob_payload_json OutboxSamples.row)) as E
      by (vm_compute; reflexivity).
    rewrite E in Ht. injection Ht as <-. exists OutboxSamples.payload. split; [vm_compute; reflexivity|done].
  - vm_compute. reflexivity.
  - vm_compute. reflexivity.
  - vm_compute. reflexivity.
  - exists row'. split; [exact Hr|]. destruct (Hp (u "w2")) as (p' & -> & _). reflexivity.
Defined.
