(* ===== verification/ProcessRows.v ===== *)
(** * The process table and its lifecycle

    Model of the rows of [mkb_processes] and of every SQL statement of the program that
    writes them: [src/runtime/workflow/runtime_core.py] (admission, claim, start,
    heartbeat), [src/runtime/workflow/runtime_outcome.py] (outcomes, retries, lease
    recovery, cancellation), [src/runtime/workflow/runtime_repair.py] (cleanup mark),
    [src/runtime/task/task_commands.py] (task cancellation) and
    [src/services/operator_control.py] (operator restart).

    A statement is a function from a row to [Some] new row when its [WHERE] clause holds and
    [None] otherwise ([rowcount = 0]).  Times are microseconds.  The columns that a process
    receives at its materialization and that no statement writes are in [process_spec];
    error messages, error classes and [payload_extra] are not modelled. *)

From S2P Require Import Prelude PyText PyValue Dispatch.

Open Scope Z_scope.
Open Scope mkb_scope.

Module ProcessStatus.
Inductive t := READY | CLAIMED | RUNNING | RETRY_WAIT | SUCCEEDED | FAILED | CANCELLING | CANCELLED.
End ProcessStatus.
#[export] Instance process_status_eq : EqDecision ProcessStatus.t. Proof. solve_decision. Defined.

(** [_TERMINAL_PROCESS_STATUSES] and [_ACTIVE_PROCESS_STATUSES] of [constants.py]. *)
Definition TERMINAL_PROCESS_STATUSES : list ProcessStatus.t :=
  [ProcessStatus.SUCCEEDED; ProcessStatus.FAILED; ProcessStatus.CANCELLED].
Definition ACTIVE_PROCESS_STATUSES : list ProcessStatus.t :=
  [ProcessStatus.READY; ProcessStatus.CLAIMED; ProcessStatus.RUNNING; ProcessStatus.RETRY_WAIT; ProcessStatus.CANCELLING].
Definition terminal_process (s : ProcessStatus.t) : bool := bool_decide (s ∈ TERMINAL_PROCESS_STATUSES).

Record process_spec := {
  ps_team : ustr;
  ps_execution : ustr;
  ps_task : ustr;
  ps_workflow_step : ustr;
  ps_step_key : string;
  ps_process_key : string;
  ps_contract_version : option string;
  ps_materialization_key : ustr;
  ps_route_digest : ustr;
  ps_spec_digest : ustr;
  ps_input_ref : ustr;
  ps_input_digest : ustr;
  ps_config_ref : ustr;
  ps_config_digest : ustr;
  ps_priority_rank : Z;
  ps_deadline_at : option Z;
  ps_max_retries : Z;
  ps_max_recoveries : Z;
  ps_backoff_policy : option pyval;
  ps_created_at : Z
}.

(** [claim_token_hash, lease_owner, lease_expires_at, heartbeat_at] *)
Record lease_columns := {
  claim_token_hash : option ustr;
  lease_owner : option ustr;
  lease_expires_at : option Z;
  heartbeat_at : option Z
}.
Definition no_lease : lease_columns := Build_lease_columns None None None None.

(** [dispatch_admitted, dispatch_pool, dispatch_enqueued_at] *)
Record dispatch_columns := {
  dispatch_admitted : bool;
  dispatch_pool : option DispatchPool;
  dispatch_enqueued_at : option Z
}.
Definition not_dispatched : dispatch_columns := Build_dispatch_columns false None None.

(** [fencing_generation, delivery_count, retry_count, recovery_count] *)
Record process_counters := {
  fencing_generation : Z;
  delivery_count : Z;
  retry_count : Z;
  recovery_count : Z
}.

Record outcome_columns := {
  accepted_outcome_digest : option ustr;
  output_manifest_ref : option ustr;
  output_manifest_digest : option ustr;
  proof_ref : option ustr;
  proof_digest : option ustr;
  error_code : option ustr;
  failure_disposition : option ustr
}.
Definition no_outcome : outcome_columns := Build_outcome_columns None None None None None None None.

Record process := {
  p_spec : process_spec;
  p_status : ProcessStatus.t;
  p_row_revision : Z;
  p_available_at : Z;
  p_next_retry_at : option Z;
  p_counters : process_counters;
  p_lease : lease_columns;
  p_dispatch : dispatch_columns;
  p_outcome : outcome_columns;
  p_started_at : option Z;
  p_completed_at : option Z;
  p_cleanup_eligible_at : option Z;
  p_updated_at : Z
}.

(** The row [_materialize_process_tx] inserts. *)
Definition new_process (spec : process_spec) (now : Z) : process :=
  Build_process spec ProcessStatus.READY 0 now None (Build_process_counters 0 0 0 0) no_lease not_dispatched no_outcome
    None None None now.

Abbreviation fence p := (fencing_generation (p_counters p)).

Definition bump_fence (c : process_counters) : process_counters :=
  Build_process_counters (fencing_generation c + 1) (delivery_count c) (retry_count c) (recovery_count c).

Definition status_in (p : process) (l : list ProcessStatus.t) : bool := bool_decide (p_status p ∈ l).

(** ** Admission and claim ([runtime_core.py]) *)

(** [_admit_one_tx] *)
Definition upd_admit (pool : option DispatchPool) (now : Z) (p : process) : option process :=
  if dispatch_admitted (p_dispatch p) then None
  else Some (Build_process (p_spec p) (p_status p) (p_row_revision p) (p_available_at p) (p_next_retry_at p) (p_counters p)
               (p_lease p) (Build_dispatch_columns true pool (Some now)) (p_outcome p) (p_started_at p) (p_completed_at p)
               (p_cleanup_eligible_at p) now).

(** The release of lower-priority reservations in [_admit_waiting_processes_tx]. *)
Definition upd_release_reservation (now : Z) (p : process) : option process :=
  if status_in p [ProcessStatus.READY] && dispatch_admitted (p_dispatch p)
     && bool_decide (ps_priority_rank (p_spec p) ∈ [100; 200])
     && bool_decide (ps_process_key (p_spec p) ∈ GENERATE_PROCESS_KEYS)
  then Some (Build_process (p_spec p) (p_status p) (p_row_revision p) (p_available_at p) (p_next_retry_at p) (p_counters p)
               (p_lease p) not_dispatched (p_outcome p) (p_started_at p) (p_completed_at p) (p_cleanup_eligible_at p) now)
  else None.

(** The claim of [claim_next]. *)
Definition upd_claim (token_hash owner : ustr) (expires_at now row_revision : Z) (p : process) : option process :=
  if status_in p [ProcessStatus.READY] && (p_row_revision p =? row_revision) && (p_available_at p <=? now)
  then Some (Build_process (p_spec p) ProcessStatus.CLAIMED (p_row_revision p + 1) (p_available_at p) (p_next_retry_at p)
               (Build_process_counters (fence p + 1) (delivery_count (p_counters p) + 1) (retry_count (p_counters p))
                  (recovery_count (p_counters p)))
               (Build_lease_columns (Some token_hash) (Some owner) (Some expires_at) (heartbeat_at (p_lease p)))
               (p_dispatch p) (p_outcome p) (p_started_at p) (p_completed_at p) (p_cleanup_eligible_at p) now)
  else None.

(** [mark_running] *)
Definition upd_mark_running (now fencing : Z) (p : process) : option process :=
  if status_in p [ProcessStatus.CLAIMED] && (fence p =? fencing)
  then Some (Build_process (p_spec p) ProcessStatus.RUNNING (p_row_revision p + 1) (p_available_at p) (p_next_retry_at p)
               (p_counters p)
               (Build_lease_columns (claim_token_hash (p_lease p)) (lease_owner (p_lease p)) (lease_expires_at (p_lease p))
                  (Some now))
               (p_dispatch p) (p_outcome p) (coalesce (p_started_at p) (Some now)) (p_completed_at p)
               (p_cleanup_eligible_at p) now)
  else None.

(** [heartbeat] *)
Definition upd_heartbeat (now expires_at fencing : Z) (p : process) : option process :=
  if status_in p [ProcessStatus.RUNNING] && (fence p =? fencing)
     && match lease_expires_at (p_lease p) with Some e => now <? e | None => false end
  then Some (Build_process (p_spec p) (p_status p) (p_row_revision p + 1) (p_available_at p) (p_next_retry_at p)
               (p_counters p)
               (Build_lease_columns (claim_token_hash (p_lease p)) (lease_owner (p_lease p)) (Some expires_at) (Some now))
               (p_dispatch p) (p_outcome p) (p_started_at p) (p_completed_at p) (p_cleanup_eligible_at p) now)
  else None.

(** ** Outcomes ([runtime_outcome.py]) *)

(** The success of [accept_outcome]. *)
Definition upd_succeed (digest manifest_ref manifest_digest pref pdigest : ustr) (now fencing : Z) (p : process)
    : option process :=
  if status_in p [ProcessStatus.RUNNING] && (fence p =? fencing)
  then Some (Build_process (p_spec p) ProcessStatus.SUCCEEDED (p_row_revision p + 1) (p_available_at p) (p_next_retry_at p)
               (p_counters p) no_lease (p_dispatch p)
               (Build_outcome_columns (Some digest) (Some manifest_ref) (Some manifest_digest) (Some pref) (Some pdigest)
                  None (failure_disposition (p_outcome p)))
               (p_started_at p) (Some now) (p_cleanup_eligible_at p) now)
  else None.

(** The retryable failure of [accept_outcome]. *)
Definition upd_retry (digest code : ustr) (due now fencing : Z) (p : process) : option process :=
  if status_in p [ProcessStatus.RUNNING] && (fence p =? fencing)
  then Some (Build_process (p_spec p) ProcessStatus.RETRY_WAIT (p_row_revision p + 1) due (Some due)
               (Build_process_counters (fence p) (delivery_count (p_counters p)) (retry_count (p_counters p) + 1)
                  (recovery_count (p_counters p)))
               no_lease not_dispatched
               (Build_outcome_columns (Some digest) (output_manifest_ref (p_outcome p)) (output_manifest_digest (p_outcome p))
                  (proof_ref (p_outcome p)) (proof_digest (p_outcome p)) (Some code) (Some (u "retryable")))
               (p_started_at p) (p_completed_at p) (p_cleanup_eligible_at p) now)
  else None.

(** [_fail_process_tx] *)
Definition upd_fail (digest : option ustr) (code disposition : ustr) (now fencing : Z) (p : process) : option process :=
  if negb (terminal_process (p_status p)) && (fence p =? fencing)
  then Some (Build_process (p_spec p) ProcessStatus.FAILED (p_row_revision p + 1) (p_available_at p) (p_next_retry_at p)
               (p_counters p) no_lease (p_dispatch p)
               (Build_outcome_columns (coalesce digest (accepted_outcome_digest (p_outcome p)))
                  (output_manifest_ref (p_outcome p)) (output_manifest_digest (p_outcome p)) (proof_ref (p_outcome p))
                  (proof_digest (p_outcome p)) (Some code) (Some disposition))
               (p_started_at p) (Some now) (p_cleanup_eligible_at p) now)
  else None.

(** [promote_due_retries] *)
Definition upd_promote (now row_revision : Z) (p : process) : option process :=
  if status_in p [ProcessStatus.RETRY_WAIT] && match p_next_retry_at p with Some d => d <=? now | None => false end
     && (p_row_revision p =? row_revision)
  then Some (Build_process (p_spec p) ProcessStatus.READY (p_row_revision p + 1) now None (p_counters p) (p_lease p)
               (p_dispatch p) (p_outcome p) (p_started_at p) (p_completed_at p) (p_cleanup_eligible_at p) now)
  else None.

(** The replay of [recover_expired_leases]. *)
Definition upd_recover (now fencing : Z) (p : process) : option process :=
  if status_in p [ProcessStatus.CLAIMED; ProcessStatus.RUNNING] && (fence p =? fencing)
     && match lease_expires_at (p_lease p) with Some e => e <=? now | None => false end
  then Some (Build_process (p_spec p) ProcessStatus.READY (p_row_revision p + 1) now (p_next_retry_at p)
               (Build_process_counters (fence p + 1) (delivery_count (p_counters p)) (retry_count (p_counters p))
                  (recovery_count (p_counters p) + 1))
               no_lease not_dispatched (p_outcome p) (p_started_at p) (p_completed_at p) (p_cleanup_eligible_at p) now)
  else None.

(** ** Cancellation *)

(** The expired cancelling lease of [recover_expired_leases]. *)
Definition upd_cancel_expired (now fencing : Z) (p : process) : option process :=
  if status_in p [ProcessStatus.CANCELLING] && (fence p =? fencing)
  then Some (Build_process (p_spec p) ProcessStatus.CANCELLED (p_row_revision p + 1) (p_available_at p) (p_next_retry_at p)
               (p_counters p) no_lease (p_dispatch p) (p_outcome p) (p_started_at p) (Some now) (p_cleanup_eligible_at p) now)
  else None.

(** The three statements of [_cancel_execution_tree_tx], in order; the third is also the one
    of the task command. *)
Definition fence_cancelling (now : Z) (p : process) : process :=
  Build_process (p_spec p) ProcessStatus.CANCELLING (p_row_revision p + 1) (p_available_at p) (p_next_retry_at p)
    (bump_fence (p_counters p)) (p_lease p) (p_dispatch p) (p_outcome p) (p_started_at p) (p_completed_at p)
    (p_cleanup_eligible_at p) now.
Definition upd_cancel_idle (now : Z) (p : process) : option process :=
  if status_in p [ProcessStatus.READY; ProcessStatus.RETRY_WAIT] then Some (fence_cancelling now p) else None.
Definition upd_cancel_close (now : Z) (p : process) : option process :=
  if status_in p [ProcessStatus.CANCELLING] && bool_decide (lease_owner (p_lease p) = None)
     && bool_decide (claim_token_hash (p_lease p) = None)
  then Some (Build_process (p_spec p) ProcessStatus.CANCELLED (p_row_revision p + 1) (p_available_at p) (p_next_retry_at p)
               (p_counters p) no_lease (p_dispatch p) (p_outcome p) (p_started_at p) (Some now) (p_cleanup_eligible_at p) now)
  else None.
Definition upd_cancel_active (now : Z) (p : process) : option process :=
  if status_in p [ProcessStatus.CLAIMED; ProcessStatus.RUNNING] then Some (fence_cancelling now p) else None.

(** ** Operator restart and cleanup mark *)

(** [restart_process] of [operator_control.py]: neither the dispatch columns nor
    [available_at] nor [next_retry_at] are written. *)
Definition upd_restart (now fencing : Z) (p : process) : option process :=
  if (fence p =? fencing) && status_in p [ProcessStatus.CLAIMED; ProcessStatus.RUNNING; ProcessStatus.RETRY_WAIT]
  then Some (Build_process (p_spec p) ProcessStatus.READY (p_row_revision p + 1) (p_available_at p) (p_next_retry_at p)
               (bump_fence (p_counters p)) no_lease (p_dispatch p) (p_outcome p) (p_started_at p) (p_completed_at p)
               (p_cleanup_eligible_at p) now)
  else None.

(** [_evaluate_cleanup_eligibility_tx] *)
Definition upd_cleanup (now : Z) (p : process) : option process :=
  if bool_decide (p_cleanup_eligible_at p = None) && terminal_process (p_status p)
  then Some (Build_process (p_spec p) (p_status p) (p_row_revision p + 1) (p_available_at p) (p_next_retry_at p)
               (p_counters p) (p_lease p) (p_dispatch p) (p_outcome p) (p_started_at p) (p_completed_at p) (Some now) now)
  else None.

(** ** Statements and runs

    A row's history is a sequence of statements that took effect.  [guarded] is what the
    caller of a statement reads of the row in the same transaction before it issues it:
    admission and claim select their candidates, the retry and the recovery compare their
    budgets. *)

Inductive statement :=
| Admit (pool : option DispatchPool) (now : Z)
| ReleaseReservation (now : Z)
| Claim (token_hash owner : ustr) (expires_at now row_revision : Z)
| MarkRunning (now fencing : Z)
| Heartbeat (now expires_at fencing : Z)
| Succeed (digest manifest_ref manifest_digest pref pdigest : ustr) (now fencing : Z)
| Retry (digest code : ustr) (due now fencing : Z)
| Fail (digest : option ustr) (code disposition : ustr) (now fencing : Z)
| Promote (now row_revision : Z)
| Recover (now fencing : Z)
| CancelExpired (now fencing : Z)
| CancelIdle (now : Z)
| CancelClose (now : Z)
| CancelActive (now : Z)
| OperatorRestart (now fencing : Z)
| CleanupMark (now : Z).

Definition exec (s : statement) (p : process) : option process :=
  match s with
  | Admit pool now => upd_admit pool now p
  | ReleaseReservation now => upd_release_reservation now p
  | Claim token owner expires now rev => upd_claim token owner expires now rev p
  | MarkRunning now f => upd_mark_running now f p
  | Heartbeat now expires f => upd_heartbeat now expires f p
  | Succeed d mr md pr pd now f => upd_succeed d mr md pr pd now f p
  | Retry d c due now f => upd_retry d c due now f p
  | Fail d c dp now f => upd_fail d c dp now f p
  | Promote now rev => upd_promote now rev p
  | Recover now f => upd_recover now f p
  | CancelExpired now f => upd_cancel_expired now f p
  | CancelIdle now => upd_cancel_idle now p
  | CancelClose now => upd_cancel_close now p
  | CancelActive now => upd_cancel_active now p
  | OperatorRestart now f => upd_restart now f p
  | CleanupMark now => upd_cleanup now p
  end.

Definition guarded (s : statement) (p : process) : bool :=
  match s with
  | Admit _ _ => status_in p [ProcessStatus.READY]
  | Claim _ _ _ _ _ => dispatch_admitted (p_dispatch p)
  | Retry _ _ _ _ _ => retry_count (p_counters p) <? ps_max_retries (p_spec p)
  | Recover _ _ => recovery_count (p_counters p) <? ps_max_recoveries (p_spec p)
  | _ => true
  end.

Definition step (s : statement) (p : process) : option process := if guarded s p then exec s p else None.

Fixpoint run (ss : list statement) (p : process) : option process :=
  match ss with
  | [] => Some p
  | s :: ss => match step s p with Some p' => run ss p' | None => None end
  end.

(** The statements a worker issues with the fence of its claim. *)
Definition worker_fence (s : statement) : option Z :=
  match s with
  | MarkRunning _ f | Heartbeat _ _ f | Succeed _ _ _ _ _ _ f | Retry _ _ _ _ f | Fail _ _ _ _ f => Some f
  | _ => None
  end.

Definition is_restart (s : statement) : bool := match s with OperatorRestart _ _ => true | _ => false end.
(** Statements that move the lifecycle (the others renew a lease or a queue place). *)
Definition is_lifecycle (s : statement) : bool :=
  match s with Admit _ _ | ReleaseReservation _ | Heartbeat _ _ _ | OperatorRestart _ _ => false | _ => true end.
Definition occurrences (f : statement -> bool) (ss : list statement) : Z := Z.of_nat (length (List.filter f ss)).

(** ** Every statement, one at a time *)

Lemma status_in_elem p l : status_in p l = true <-> p_status p ∈ l.
Proof. apply bool_decide_eq_true. Qed.

Lemma run_app ss1 ss2 p : run (ss1 ++ ss2) p = match run ss1 p with Some q => run ss2 q | None => None end.
Proof. revert p; induction ss1 as [|s ss1 IH]; intros p; simpl; [done|]. destruct (step s p); [apply IH|done]. Qed.

Lemma run_snoc ss s p q : run (ss ++ [s]) p = Some q <-> exists r, run ss p = Some r /\ step s r = Some q.
Proof.
  rewrite run_app. destruct (run ss p) as [r|]; simpl; [|by split; [|intros (? & ? & ?)]].
  destruct (step s r) as [r'|] eqn:E; split; [intros [= <-]; by exists r|intros (? & [= <-] & ?); congruence|done|].
  intros (? & [= <-] & ?); congruence.
Qed.

(** Invariant rule of runs: what every statement preserves, every run does. *)
Lemma run_ind (P : list statement -> process -> Prop) p :
  P [] p -> (forall ss s q q', P ss q -> run ss p = Some q -> step s q = Some q' -> P (ss ++ [s]) q') ->
  forall ss q, run ss p = Some q -> P ss q.
Proof.
  intros H0 Hs ss. induction ss as [|s ss IH] using rev_ind; intros q Hq.
  - by injection Hq as <-.
  - apply run_snoc in Hq as (r & Hr & Hq). eapply Hs; eauto.
Qed.

Lemma run_preserves (P : process -> Prop) p :
  P p -> (forall s q q', P q -> step s q = Some q' -> P q') -> forall ss q, run ss p = Some q -> P q.
Proof. intros H0 Hs ss q. apply (run_ind (fun _ => P)); eauto. Qed.

(** Case analysis of a statement that took effect. *)
Ltac step_inv H :=
  unfold step in H; match type of H with (if guarded ?s _ then _ else _) = _ => destruct s end;
  cbn [guarded exec] in H;
  unfold upd_admit, upd_release_reservation, upd_claim, upd_mark_running, upd_heartbeat, upd_succeed, upd_retry, upd_fail,
    upd_promote, upd_recover, upd_cancel_expired, upd_cancel_idle, upd_cancel_close, upd_cancel_active, upd_restart,
    upd_cleanup, fence_cancelling, bump_fence in H;
  repeat match type of H with
  | (if ?b then _ else _) = Some _ => let E := fresh "E" in destruct b eqn:E; [|discriminate H]
  | (if ?b then None else _) = Some _ => let E := fresh "E" in destruct b eqn:E; [discriminate H|]
  end; injection H as <-; breflect;
  repeat match goal with
  | E : status_in _ _ = true |- _ => apply status_in_elem in E
  | E : (_ =? _)%Z = true |- _ => apply Z.eqb_eq in E
  | E : (_ <=? _)%Z = true |- _ => apply Z.leb_le in E
  | E : (_ <? _)%Z = true |- _ => apply Z.ltb_lt in E
  end.

Lemma spec_frozen s p q : step s p = Some q -> p_spec q = p_spec p.
Proof. intros H. by step_inv H. Qed.

Lemma run_spec ss p q : run ss p = Some q -> p_spec q = p_spec p.
Proof. apply (run_preserves (fun q => p_spec q = p_spec p)); [done|]. intros s r r' <- Hs. by eapply spec_frozen. Qed.

(** ** The invariant of a row *)

Definition held (l : lease_columns) : Prop :=
  is_Some (claim_token_hash l) /\ is_Some (lease_owner l) /\ is_Some (lease_expires_at l).

(** Who may hold a lease in which status. *)
Definition lease_ok (s : ProcessStatus.t) (l : lease_columns) : Prop :=
  match s with
  | ProcessStatus.CLAIMED | ProcessStatus.RUNNING => held l
  | ProcessStatus.CANCELLING => l = no_lease \/ held l
  | _ => l = no_lease
  end.

Definition dispatch_ok (p : process) : Prop :=
  match p_status p with
  | ProcessStatus.CLAIMED | ProcessStatus.RUNNING => dispatch_admitted (p_dispatch p) = true
  | ProcessStatus.RETRY_WAIT => p_dispatch p = not_dispatched /\ p_next_retry_at p = Some (p_available_at p)
  | _ => dispatch_admitted (p_dispatch p) = false -> p_dispatch p = not_dispatched
  end.

Definition spent (n budget : Z) : Prop := n = 0 \/ 0 < n <= budget.

Record row_ok (p : process) : Prop := {
  ro_lease : lease_ok (p_status p) (p_lease p);
  ro_dispatch : dispatch_ok p;
  ro_retries : spent (retry_count (p_counters p)) (ps_max_retries (p_spec p));
  ro_recoveries : spent (recovery_count (p_counters p)) (ps_max_recoveries (p_spec p));
  ro_fence : 0 <= delivery_count (p_counters p) <= fence p;
  ro_revision : fence p <= p_row_revision p;
  ro_completed : terminal_process (p_status p) = true <-> is_Some (p_completed_at p);
  ro_cleanup : is_Some (p_cleanup_eligible_at p) -> terminal_process (p_status p) = true;
  ro_proof : p_status p = ProcessStatus.SUCCEEDED ->
    is_Some (accepted_outcome_digest (p_outcome p)) /\ is_Some (output_manifest_ref (p_outcome p)) /\
    is_Some (proof_ref (p_outcome p)) /\ error_code (p_outcome p) = None
}.

Lemma new_process_ok spec now : row_ok (new_process spec now).
Proof.
  split; cbn; try done; try lia; try (by left); split; try done; intros [? ?]; done.
Qed.

Lemma terminal_in p : terminal_process (p_status p) = true <-> p_status p ∈ TERMINAL_PROCESS_STATUSES.
Proof. apply bool_decide_eq_true. Qed.

Ltac status_cases :=
  repeat match goal with
  | E : _ ∈ _ :: _ |- _ => apply elem_of_cons in E as [E|E]
  | E : _ ∈ [] |- _ => by inversion E
  end.

Lemma dispatch_off p : dispatch_ok p -> dispatch_admitted (p_dispatch p) = false -> p_dispatch p = not_dispatched.
Proof. unfold dispatch_ok. destruct (p_status p); intros Hd E; try apply Hd; congruence. Qed.

Lemma step_ok s p q : row_ok p -> step s p = Some q -> row_ok q.
Proof.
  intros [Hl Hd Hr Hc Hf Hv Ht Hu Hp] H. pose proof (dispatch_off p Hd) as Hoff.
  unfold dispatch_ok, lease_ok, terminal_process, spent in *.
  step_inv H; status_cases; split; cbn in *;
    repeat match goal with E : p_status p = _ |- _ => rewrite E in * end; cbn in *; auto; try lia; try done;
    unfold spent, held in *; cbn in *; intros; try congruence; try lia; intuition eauto.
Qed.

Lemma run_ok ss p q : row_ok p -> run ss p = Some q -> row_ok q.
Proof. intros Hp. apply (run_preserves row_ok); [done|]. intros s r r'. apply step_ok. Qed.

(** ** The fence *)

(** A statement leaves the revision alone only when it writes nothing but the queue place;
    every other statement takes the next revision. *)
Definition same_but_queue (p q : process) : Prop :=
  p_status q = p_status p /\ p_row_revision q = p_row_revision p /\ p_available_at q = p_available_at p /\
  p_next_retry_at q = p_next_retry_at p /\ p_counters q = p_counters p /\ p_lease q = p_lease p /\
  p_outcome q = p_outcome p /\ p_completed_at q = p_completed_at p /\ p_cleanup_eligible_at q = p_cleanup_eligible_at p.

#[export] Instance same_but_queue_preorder : PreOrder same_but_queue.
Proof. split; unfold same_but_queue; [done|]. intros ??; intuition congruence. Qed.

Lemma step_revision s p q : step s p = Some q -> same_but_queue p q \/ p_row_revision q = p_row_revision p + 1.
Proof. intros H. step_inv H; cbn; auto; left; repeat split. Qed.

Lemma run_revision ss p q :
  run ss p = Some q -> p_row_revision p <= p_row_revision q /\ (p_row_revision q = p_row_revision p -> same_but_queue p q).
Proof.
  revert ss q. apply (run_preserves (fun q => p_row_revision p <= p_row_revision q /\ _)); [split; [lia|done]|].
  intros s q q' [Hle Heq] Hs. destruct (step_revision _ _ _ Hs) as [Hq|Hq].
  - destruct Hq as (? & Hr & ?) eqn:E. rewrite Hr. split; [done|]. intros Hq'. rewrite (Heq Hq'). exact Hq.
  - rewrite Hq. split; lia.
Qed.

(** What a statement does to the fence: it keeps it, or takes the next one.  Within a
    generation the holder of a claim stays the same. *)
Definition active (s : ProcessStatus.t) : bool := bool_decide (s ∈ [ProcessStatus.CLAIMED; ProcessStatus.RUNNING]).
Definition holder (p : process) : option (option ustr * option ustr) :=
  if active (p_status p) then Some (claim_token_hash (p_lease p), lease_owner (p_lease p)) else None.

Lemma step_fence s p q :
  step s p = Some q ->
  fence q = fence p + 1 \/ (fence q = fence p /\ (is_Some (holder q) -> holder q = holder p)).
Proof.
  intros H. unfold holder, active. step_inv H; cbn; auto; right; (split; [done|]); status_cases;
    rewrite ?H, ?E in *; cbn; try done; intros [? ?]; done.
Qed.

Lemma run_fence ss p q :
  run ss p = Some q ->
  fence p <= fence q /\ (fence q = fence p -> is_Some (holder q) -> holder q = holder p).
Proof.
  revert ss q. apply (run_preserves (fun q => fence p <= fence q /\ (fence q = fence p -> is_Some (holder q) -> holder q = holder p)));
    [split; [lia|done]|].
  intros s q q' [Hle Heq] Hs. destruct (step_fence _ _ _ Hs) as [Hf|[Hf Hh]].
  - rewrite Hf. split; lia.
  - rewrite Hf. split; [done|]. intros Hp Hq. specialize (Hh Hq). rewrite Hh. apply Heq; [done|]. by rewrite <-Hh.
Qed.

(** The statements that end the generation of a claim. *)
Definition raises_fence (s : statement) : bool :=
  match s with Claim _ _ _ _ _ | Recover _ _ | CancelIdle _ | CancelActive _ | OperatorRestart _ _ => true | _ => false end.

Lemma step_raises s p q : raises_fence s = true -> step s p = Some q -> fence q = fence p + 1.
Proof. intros Hr H. step_inv H; try discriminate Hr; done. Qed.

Lemma run_raises ss p q : existsb raises_fence ss = true -> run ss p = Some q -> fence p < fence q.
Proof.
  revert p. induction ss as [|s ss IH]; intros p He Hr; [done|]. simpl in He, Hr.
  destruct (step s p) as [p'|] eqn:Es; [|done]. apply orb_true_iff in He as [He|He].
  - apply step_raises in Es; [|done]. destruct (run_fence _ _ _ Hr) as [? _]. lia.
  - specialize (IH p' He Hr). destruct (step_fence _ _ _ Es) as [E|[E _]]; rewrite E in IH; lia.
Qed.

Lemma stale_statement s f p : worker_fence s = Some f -> f <> fence p -> step s p = None.
Proof.
  intros Hw Hf. unfold step.
  assert ((fence p =? f) = false) as E by (apply Z.eqb_neq; congruence).
  destruct s; try discriminate Hw; injection Hw as Hw; subst; cbn [guarded exec];
    unfold upd_mark_running, upd_heartbeat, upd_succeed, upd_retry, upd_fail;
    rewrite E, ?andb_false_r; cbn [andb]; by repeat case_match.
Qed.

(** Mutual exclusion of workers.  The fencing generation of a row names one claim: in any
    history of the row, two moments at which it is claimed or running under the same
    generation have the same claim token and the same lease owner; and once the row has been
    claimed again, recovered, restarted or fenced by a cancellation, no statement of the
    worker of the earlier generation (start, heartbeat, success, retry, failure) takes
    effect. *)
Theorem fence_excludes_stale_workers (p : process) (before after : list statement) (q r : process)
    (Hbefore : run before p = Some q) (Hafter : run after q = Some r) :
  (fence r = fence q -> is_Some (holder r) -> holder r = holder q) /\
  (existsb raises_fence after = true -> forall s, worker_fence s = Some (fence q) -> step s r = None).
Proof.
  split; [by apply (run_fence _ _ _ Hafter)|]. intros He s Hs. eapply stale_statement; [done|].
  pose proof (run_raises _ _ _ He Hafter). lia.
Qed.

(** ** Terminal rows *)

Definition with_cleanup (q : process) (revision : Z) (at_ : option Z) (updated : Z) : process :=
  Build_process (p_spec q) (p_status q) revision (p_available_at q) (p_next_retry_at q) (p_counters q) (p_lease q)
    (p_dispatch q) (p_outcome q) (p_started_at q) (p_completed_at q) at_ updated.

Lemma step_terminal s p q :
  terminal_process (p_status p) = true -> step s p = Some q ->
  exists now, s = CleanupMark now /\ p_cleanup_eligible_at p = None /\
    q = with_cleanup p (p_row_revision p + 1) (Some now) now.
Proof.
  intros Ht H. apply terminal_in in Ht. unfold TERMINAL_PROCESS_STATUSES in Ht. step_inv H; status_cases; try congruence; eauto.
  all: exfalso; match goal with E : terminal_process _ = false |- _ => rewrite Ht in E; discriminate E end.
Qed.

(** A terminal row is final: of all statements of the program only the cleanup mark
    applies to it, at most once, and it changes nothing but the mark itself; status, fence,
    counters, lease and the accepted outcome stay as they are for ever. *)
Theorem terminal_rows_are_final (p q : process) (ss : list statement)
    (Hterminal : terminal_process (p_status p) = true) (Hrun : run ss p = Some q) :
  ss = [] /\ q = p \/
  exists now, ss = [CleanupMark now] /\ p_cleanup_eligible_at p = None /\
    q = with_cleanup p (p_row_revision p + 1) (Some now) now.
Proof.
  destruct ss as [|s ss]; [left; injection Hrun as <-; done|right]. simpl in Hrun. destruct (step s p) as [p'|] eqn:Es; [|done].
  destruct (step_terminal _ _ _ Hterminal Es) as (now & -> & Hn & ->). destruct ss as [|s ss]; [by injection Hrun as <-; eauto|].
  simpl in Hrun. destruct (step s _) as [p''|] eqn:Es2; [|done].
  apply step_terminal in Es2 as (? & -> & [=] & _). done.
Qed.

(** ** Deliveries and termination *)

(** What is left of a row's life: its retries and recoveries, and the rank of its status. *)
Definition status_rank (s : ProcessStatus.t) : Z :=
  match s with
  | ProcessStatus.RETRY_WAIT => 6 | ProcessStatus.READY => 5 | ProcessStatus.CLAIMED => 4 | ProcessStatus.RUNNING => 3
  | ProcessStatus.CANCELLING => 2 | _ => 0
  end.
Definition budget_left (p : process) : Z :=
  Z.max 0 (ps_max_retries (p_spec p) - retry_count (p_counters p))
  + Z.max 0 (ps_max_recoveries (p_spec p) - recovery_count (p_counters p)).
Definition life_left (p : process) : Z :=
  4 * budget_left p + status_rank (p_status p)
  + match p_cleanup_eligible_at p with None => 1 | Some _ => 0 end.

Lemma life_left_nonneg p : 0 <= life_left p.
Proof.
  assert (0 <= status_rank (p_status p)) by (by destruct (p_status p)).
  unfold life_left, budget_left. case_match; lia.
Qed.

Lemma step_life s p q :
  is_restart s = false -> step s p = Some q ->
  life_left q <= life_left p /\ (is_lifecycle s = true -> life_left q < life_left p).
Proof.
  intros Hr H. unfold life_left, budget_left. step_inv H; try discriminate Hr; cbn -[Z.mul Z.max]; status_cases;
    repeat match goal with E : p_status p = _ |- _ => rewrite E | E : p_cleanup_eligible_at p = _ |- _ => rewrite E end;
    cbn -[Z.mul Z.max]; try lia.
  all: try (split; [|intros _]; destruct (p_status p); cbn; try done; lia).
Qed.

(** A claim uses up a delivery; only a retry, a recovery or a restart buys another one. *)
Definition deliveries_due (p : process) : Z :=
  delivery_count (p_counters p)
  + match p_status p with ProcessStatus.READY | ProcessStatus.RETRY_WAIT => 1 | _ => 0 end.
Definition deliveries_paid (p : process) : Z := 1 + retry_count (p_counters p) + recovery_count (p_counters p).

Lemma step_deliveries s p q :
  step s p = Some q ->
  deliveries_due q - deliveries_paid q <= deliveries_due p - deliveries_paid p + (if is_restart s then 1 else 0).
Proof.
  intros H. unfold deliveries_due, deliveries_paid. step_inv H; cbn [is_restart]; cbn; status_cases;
    repeat match goal with E : p_status p = _ |- _ => rewrite E end; cbn; try lia.
  all: destruct (p_status p); lia.
Qed.

Lemma occurrences_snoc f ss s : occurrences f (ss ++ [s]) = occurrences f ss + (if f s then 1 else 0).
Proof. unfold occurrences. rewrite List.filter_app, length_app. simpl. destruct (f s); simpl; lia. Qed.

Lemma run_deliveries ss p q :
  run ss p = Some q ->
  deliveries_due q - deliveries_paid q <= deliveries_due p - deliveries_paid p + occurrences is_restart ss.
Proof.
  revert ss q.
  apply (run_ind (fun ss q => deliveries_due q - deliveries_paid q
                              <= deliveries_due p - deliveries_paid p + occurrences is_restart ss)); [change (occurrences is_restart []) with 0; lia|].
  intros ss s q q' IH _ Hs. apply step_deliveries in Hs. rewrite occurrences_snoc. lia.
Qed.

Lemma run_life ss p q :
  run ss p = Some q -> existsb is_restart ss = false -> life_left q + occurrences is_lifecycle ss <= life_left p.
Proof.
  revert ss q. apply (run_ind (fun ss q => existsb is_restart ss = false -> life_left q + occurrences is_lifecycle ss <= life_left p)).
  - change (occurrences is_lifecycle []) with 0. lia.
  - intros ss s q q' IH _ Hs He. rewrite existsb_app in He. cbn in He. rewrite orb_false_r in He. breflect.
    rewrite occurrences_snoc. destruct (step_life _ _ _ ltac:(done) Hs) as [Hle Hlt].
    specialize (IH ltac:(done)). destruct (is_lifecycle s); [specialize (Hlt eq_refl)|]; lia.
Qed.

(** Bounded work.  A row that starts ready with its two budgets is delivered to workers
    at most once per retry and recovery of its budgets, plus once, plus once per operator
    restart; and without restarts its whole history has at most
    [4 * (max_retries + max_recoveries) + 6] lifecycle statements, so it cannot cycle between
    ready, running and retry for ever. *)
Theorem history_is_bounded (spec : process_spec) (now : Z) (ss : list statement) (q : process)
    (Hretries : 0 <= ps_max_retries spec) (Hrecoveries : 0 <= ps_max_recoveries spec)
    (Hrun : run ss (new_process spec now) = Some q) :
  delivery_count (p_counters q) <= 1 + ps_max_retries spec + ps_max_recoveries spec + occurrences is_restart ss /\
  (existsb is_restart ss = false ->
   occurrences is_lifecycle ss <= 4 * (ps_max_retries spec + ps_max_recoveries spec) + 6).
Proof.
  pose proof (run_ok _ _ _ (new_process_ok spec now) Hrun) as Hok. pose proof (run_spec _ _ _ Hrun) as Hsp. cbn in Hsp.
  split.
  - pose proof (run_deliveries _ _ _ Hrun) as Hd. pose proof (ro_retries _ Hok) as Hr. pose proof (ro_recoveries _ Hok) as Hc.
    rewrite Hsp in Hr, Hc. unfold spent, deliveries_due, deliveries_paid in *. cbn in Hd. destruct (p_status q); lia.
  - intros He. pose proof (run_life _ _ _ Hrun He) as Hl. pose proof (life_left_nonneg q).
    assert (life_left (new_process spec now) = 4 * (ps_max_retries spec + ps_max_recoveries spec) + 6)
      by (unfold life_left, budget_left; cbn -[Z.mul Z.max]; lia).
    lia.
Qed.

(** Every history of a row keeps its invariant: exactly the claimed, running and
    still-leased cancelling rows carry a claim token, an owner and an expiry; a claimed or
    running row was admitted; a row waiting for its retry has lost its place in the queue;
    the two budgets are never overrun; completion time, cleanup mark and proof columns match
    the status; and the columns of the materialization never change. *)
Theorem row_invariant (spec : process_spec) (now : Z) (ss : list statement) (q : process)
    (Hrun : run ss (new_process spec now) = Some q) :
  row_ok q /\ p_spec q = spec.
Proof. split; [exact (run_ok _ _ _ (new_process_ok spec now) Hrun)|exact (run_spec _ _ _ Hrun)]. Qed.

(** The row revision is a version: if a later state of the row still has the revision that
    was read, then nothing but its place in the dispatch queue has changed since, so a
    statement that compares the revision acts on the row that was read. *)
Theorem revision_is_version (p q : process) (ss : list statement)
    (Hrun : run ss p = Some q) (Hsame : p_row_revision q = p_row_revision p) :
  same_but_queue p q /\ existsb is_lifecycle ss = false.
Proof.
  split; [by apply (run_revision _ _ _ Hrun)|].
  destruct (existsb is_lifecycle ss) eqn:He; [exfalso|done]. revert p Hrun Hsame He.
  induction ss as [|s ss IH]; intros p Hrun Hsame He; [done|]. simpl in Hrun, He.
  destruct (step s p) as [p'|] eqn:Es; [|done]. destruct (run_revision _ _ _ Hrun) as [Hle _].
  destruct (step_revision _ _ _ Es) as [(_ & Hp & _)|Hp]; [|lia].
  apply orb_true_iff in He as [He|He]; [|by apply (IH p'); congruence].
  clear IH Hrun. step_inv Es; try discriminate He; cbn in Hp; lia.
Qed.

(** ** A concrete history

    A process is admitted, claimed and started, fails once, is retried, expires in the hands
    of its second worker, is recovered and succeeds with its third one. *)

Module History.
Definition spec : process_spec :=
  Build_process_spec (u "team") (u "exec") (u "task") (u "step") "decode" "clean.extract.web" None (u "m") (u "r") (u "s") (u "in")
    (u "ind") (u "cfg") (u "cfgd") 200 None 1 1 None 0.
Definition first_attempt : list statement :=
  [Admit None 1; Claim (u "t1") (u "w1") 40 10 0; MarkRunning 11 1; Heartbeat 12 50 1;
   Retry (u "d1") (u "io") 30 20 1].
Definition second_attempt : list statement :=
  [Promote 31 4; Admit None 31; Claim (u "t2") (u "w2") 60 32 5; MarkRunning 33 2; Recover 70 2].
Definition third_attempt : list statement :=
  [Admit None 71; Claim (u "t3") (u "w3") 100 72 8; MarkRunning 73 4;
   Succeed (u "d3") (u "out") (u "outd") (u "proof") (u "proofd") 80 4].
Definition all_attempts : list statement := first_attempt ++ second_attempt ++ third_attempt.
Abbreviation final := (run all_attempts (new_process spec 0)).
End History.

Lemma fence_excludes_stale_workers_witness :
  match run (take 4 History.first_attempt) (new_process History.spec 0) with
  | Some q =>
      match run (drop 4 History.first_attempt ++ History.second_attempt) q with
      | Some r => step (Succeed (u "late") (u "o") (u "o") (u "p") (u "p") 90 1) r = None
      | None => False
      end
  | None => False
  end.
Proof.
  destruct (run (take 4 _) _) as [q|] eqn:Eq; [|vm_compute in Eq; discriminate Eq].
  destruct (run _ q) as [r|] eqn:Er; [|vm_compute in Eq; injection Eq as <-; vm_compute in Er; discriminate Er].
  apply (fence_excludes_stale_workers (new_process History.spec 0) _ _ q r Eq Er); [reflexivity|].
  vm_compute in Eq. injection Eq as <-. reflexivity.
Defined.

Lemma terminal_rows_are_final_witness :
  match History.final with
  | Some p => match run [CleanupMark 200] p with Some q => p_outcome q = p_outcome p | None => False end
  | None => False
  end.
Proof.
  destruct History.final as [p|] eqn:Ep; [|vm_compute in Ep; discriminate Ep].
  assert (terminal_process (p_status p) = true) as Ht by (vm_compute in Ep; injection Ep as <-; reflexivity).
  destruct (run [CleanupMark 200] p) as [q|] eqn:Eq; [|vm_compute in Ep; injection Ep as <-; vm_compute in Eq; discriminate Eq].
  destruct (terminal_rows_are_final p q [CleanupMark 200] Ht Eq) as [[H _]|(now & _ & _ & ->)]; [discriminate H|reflexivity].
Defined.

Lemma history_is_bounded_witness :
  match History.final with Some q => delivery_count (p_counters q) = 3 /\ 3 <= 1 + 1 + 1 + 0 | None => False end.
Proof.
  destruct History.final as [q|] eqn:Eq; [|vm_compute in Eq; discriminate Eq].
  destruct (history_is_bounded History.spec 0 History.all_attempts q ltac:(done) ltac:(done) Eq) as [Hd _].
  assert (delivery_count (p_counters q) = 3) as E by (vm_compute in Eq; injection Eq as <-; reflexivity).
  rewrite E in Hd. split; [exact E|exact Hd].
Defined.

Lemma row_invariant_witness : match History.final with Some q => row_ok q /\ p_spec q = History.spec | None => False end.
Proof.
  destruct History.final as [q|] eqn:Eq; [|vm_compute in Eq; discriminate Eq].
  exact (row_invariant History.spec 0 History.all_attempts q Eq).
Defined.

Lemma revision_is_version_witness :
  match run (take 3 History.first_attempt) (new_process History.spec 0) with
  | Some p => same_but_queue p p /\ existsb is_lifecycle [] = false
  | None => False
  end.
Proof.
  destruct (run _ _) as [p|] eqn:Ep; [|vm_compute in Ep; discriminate Ep].
  exact (revision_is_version p p [] eq_refl eq_refl).
Defined.
