(* ===== verification/ExecutionRows.v ===== *)
(** * Execution and task rows

    Model of the rows of [mkb_executions] and [mkb_tasks] and of every SQL statement of the
    workflow runtime that writes them: [src/runtime/workflow/runtime_core.py],
    [runtime_outcome.py], [runtime_materialize.py], [runtime_gates.py],
    [runtime_scatter.py], [runtime_outbox.py] and [runtime_repair.py] of the same directory,
    [src/runtime/task/task_projection.py] and [src/runtime/task/task_commands.py].

    As for processes, a statement is a function from a row to [Some] new row when its
    [WHERE] clause holds.  Titles, messages, soft-delete columns and the columns of the intake
    services (snapshot, change set, observation) are not modelled. *)

From S2P Require Import Prelude PyText PyValue Dispatch Strategies.

Open Scope Z_scope.
Open Scope mkb_scope.

Module ExecutionStatus.
Inductive t := CREATED | READY | RUNNING | WAITING | SUCCEEDED | FAILED | CANCELLING | CANCELLED.
End ExecutionStatus.
#[export] Instance execution_status_eq : EqDecision ExecutionStatus.t. Proof. solve_decision. Defined.

Module TaskStatus.
Inductive t := QUEUED | RUNNING | CANCELLING | SUCCEEDED | FAILED | CANCELLED.
End TaskStatus.
#[export] Instance task_status_eq : EqDecision TaskStatus.t. Proof. solve_decision. Defined.

(** [_TERMINAL_EXECUTION_STATUSES] *)
Definition TERMINAL_EXECUTION_STATUSES : list ExecutionStatus.t :=
  [ExecutionStatus.SUCCEEDED; ExecutionStatus.FAILED; ExecutionStatus.CANCELLED].
Definition terminal_execution (s : ExecutionStatus.t) : bool := bool_decide (s ∈ TERMINAL_EXECUTION_STATUSES).

(** ** Execution rows *)

Record execution_identity := {
  ei_team : ustr;
  ei_task : ustr;
  ei_trace : ustr;
  ei_generation : Z;
  ei_root : ustr;
  ei_parent : option ustr;
  ei_role : string;
  ei_requiredness : string;
  ei_workflow_revision : ustr;
  ei_compiled_digest : ustr;
  ei_domain_binding_digest : ustr;
  ei_config_ref : ustr;
  ei_config_digest : ustr;
  ei_manifest_ref : option ustr;
  ei_manifest_digest : option ustr;
  ei_payload_extra : pyval
}.

(** [waiting_reason, waiting_ref, next_wake_at] *)
Record execution_wait := {
  waiting_reason : option string;
  waiting_ref : option ustr;
  next_wake_at : option Z
}.
Definition no_wait : execution_wait := Build_execution_wait None None None.

Record process_counts := {
  total_process_count : Z;
  active_process_count : Z;
  succeeded_process_count : Z;
  failed_process_count : Z;
  cancelled_process_count : Z
}.

Record execution_final := {
  result_ref : option ustr;
  publication_proof_ref : option ustr;
  final_error_code : option ustr;
  terminal_summary_digest : option ustr;
  summary_completed_at : option Z;
  completed_at : option Z
}.
Definition no_final : execution_final := Build_execution_final None None None None None None.

Record execution := {
  e_id : execution_identity;
  e_status : ExecutionStatus.t;
  e_row_revision : Z;
  e_phase : option string;
  e_wait : execution_wait;
  e_current_process : option ustr;
  e_counts : process_counts;
  e_seal : seal_row;
  e_cancel_requested_at : option Z;
  e_cancel_converged_at : option Z;
  e_final : execution_final;
  e_started_at : option Z;
  e_updated_at : Z
}.

Definition ex_in (e : execution) (l : list ExecutionStatus.t) : bool := bool_decide (e_status e ∈ l).
Definition waits_for (e : execution) (reason : string) (ref : ustr) : bool :=
  bool_decide (waiting_reason (e_wait e) = Some reason) && bool_decide (waiting_ref (e_wait e) = Some ref).

(** The columns that the transitions between non-terminal statuses write. *)
Definition ex_move (e : execution) (status : ExecutionStatus.t) (phase : option string) (wait : execution_wait)
    (current : option ustr) (started : option Z) (now : Z) : execution :=
  Build_execution (e_id e) status (e_row_revision e + 1) phase wait current (e_counts e) (e_seal e)
    (e_cancel_requested_at e) (e_cancel_converged_at e) (e_final e) started now.

(** The columns that the transitions to a terminal status write. *)
Definition ex_close (e : execution) (status : ExecutionStatus.t) (wait : execution_wait) (converged : option Z)
    (final : execution_final) (now : Z) : execution :=
  Build_execution (e_id e) status (e_row_revision e + 1) (e_phase e) wait None (e_counts e) (e_seal e)
    (e_cancel_requested_at e) converged final (e_started_at e) now.

(** [mark_running] *)
Definition ex_start (now : Z) (e : execution) : option execution :=
  if ex_in e [ExecutionStatus.READY]
  then Some (ex_move e ExecutionStatus.RUNNING (e_phase e) (e_wait e) (e_current_process e)
               (coalesce (e_started_at e) (Some now)) now)
  else None.

(** The retry wait of [accept_outcome]. *)
Definition ex_retry_wait (process : ustr) (due now : Z) (e : execution) : option execution :=
  if ex_in e [ExecutionStatus.READY; ExecutionStatus.RUNNING; ExecutionStatus.WAITING]
  then Some (ex_move e ExecutionStatus.WAITING (e_phase e)
               (Build_execution_wait (Some "retry_due"%string) (Some process) (Some due)) (e_current_process e)
               (e_started_at e) now)
  else None.

(** [promote_due_retries] *)
Definition ex_retry_ready (process : ustr) (now : Z) (e : execution) : option execution :=
  if ex_in e [ExecutionStatus.WAITING] && waits_for e "retry_due" process
  then Some (ex_move e ExecutionStatus.READY (e_phase e) no_wait (e_current_process e) (e_started_at e) now)
  else None.

(** [_materialize_process_tx] *)
Definition ex_materialized (phase : option string) (process : ustr) (now : Z) (e : execution) : option execution :=
  if negb (terminal_execution (e_status e)) && negb (ex_in e [ExecutionStatus.CANCELLING])
  then Some (ex_move e ExecutionStatus.READY phase no_wait (Some process) (e_started_at e) now)
  else None.

(** The human-review wait of [_enter_control_tx]. *)
Definition ex_gate_wait (phase : option string) (gate : ustr) (row_revision now : Z) (e : execution) : option execution :=
  if (e_row_revision e =? row_revision) && negb (terminal_execution (e_status e))
     && negb (ex_in e [ExecutionStatus.CANCELLING])
  then Some (ex_move e ExecutionStatus.WAITING phase
               (Build_execution_wait (Some "human_review"%string) (Some gate) None) (e_current_process e)
               (e_started_at e) now)
  else None.

(** The resumption of a released Gate ([resolve_gate], [consume_gate_decision]). *)
Definition ex_gate_resume (gate : ustr) (now : Z) (e : execution) : option execution :=
  if ex_in e [ExecutionStatus.WAITING] && bool_decide (waiting_ref (e_wait e) = Some gate)
  then Some (ex_move e ExecutionStatus.READY (e_phase e) no_wait (e_current_process e) (e_started_at e) now)
  else None.

(** [_enter_scatter_children_join_tx] *)
Definition ex_join_wait (change_set : ustr) (now : Z) (e : execution) : option execution :=
  if negb (terminal_execution (e_status e)) && negb (ex_in e [ExecutionStatus.CANCELLING])
  then Some (ex_move e ExecutionStatus.WAITING (Some "fan_in"%string)
               (Build_execution_wait (Some "scatter_children"%string) (Some change_set) None) None (e_started_at e) now)
  else None.

(** [_release_scatter_children_tx] *)
Definition ex_prerequisite_released (change_set : ustr) (now : Z) (e : execution) : option execution :=
  if ex_in e [ExecutionStatus.WAITING] && waits_for e "durable_prerequisite" change_set
  then Some (ex_move e ExecutionStatus.READY (e_phase e) no_wait (e_current_process e) (e_started_at e) now)
  else None.

Definition ex_request_cancel (now : Z) (e : execution) : execution :=
  Build_execution (e_id e) ExecutionStatus.CANCELLING (e_row_revision e + 1) (e_phase e) (e_wait e) (e_current_process e)
    (e_counts e) (e_seal e) (coalesce (e_cancel_requested_at e) (Some now)) (e_cancel_converged_at e) (e_final e)
    (e_started_at e) now.

(** [_cancel_execution_tree_tx] *)
Definition ex_cancelling (now : Z) (e : execution) : option execution :=
  if negb (terminal_execution (e_status e)) && negb (ex_in e [ExecutionStatus.CANCELLING])
  then Some (ex_request_cancel now e) else None.

(** The task command [cancel]. *)
Definition ex_task_cancel (now : Z) (e : execution) : option execution :=
  if negb (terminal_execution (e_status e)) then Some (ex_request_cancel now e) else None.

(** [_converge_cancellation_tx] *)
Definition ex_cancelled (summary : ustr) (now : Z) (e : execution) : option execution :=
  if ex_in e [ExecutionStatus.CANCELLING]
  then Some (ex_close e ExecutionStatus.CANCELLED no_wait (Some now)
               (Build_execution_final (result_ref (e_final e)) (publication_proof_ref (e_final e))
                  (final_error_code (e_final e)) (Some summary) (Some now) (Some now)) now)
  else None.

(** [_terminalize_execution_tx] *)
Definition ex_terminalize (status : ExecutionStatus.t) (result proof code : option ustr) (summary : ustr) (now : Z)
    (e : execution) : option execution :=
  if negb (terminal_execution (e_status e)) && terminal_execution status
  then Some (ex_close e status no_wait (e_cancel_converged_at e)
               (Build_execution_final result proof code (Some summary) (Some now) (Some now)) now)
  else None.

(** [_fail_execution_integrity_tx]: the waiting columns stay. *)
Definition ex_fail_integrity (code summary : ustr) (now : Z) (e : execution) : option execution :=
  if negb (terminal_execution (e_status e))
  then Some (ex_close e ExecutionStatus.FAILED (e_wait e) (e_cancel_converged_at e)
               (Build_execution_final (result_ref (e_final e)) (publication_proof_ref (e_final e)) (Some code) (Some summary)
                  (Some now) (Some now)) now)
  else None.

(** The dead critical delivery of [_record_outbox_dead_tx], which reads the status first; the
    current process stays. *)
Definition ex_outbox_dead (code : ustr) (now : Z) (e : execution) : option execution :=
  if negb (terminal_execution (e_status e))
  then Some (Build_execution (e_id e) ExecutionStatus.FAILED (e_row_revision e + 1) (e_phase e) (e_wait e)
               (e_current_process e) (e_counts e) (e_seal e) (e_cancel_requested_at e) (e_cancel_converged_at e)
               (Build_execution_final (result_ref (e_final e)) (publication_proof_ref (e_final e)) (Some code)
                  (terminal_summary_digest (e_final e)) (summary_completed_at (e_final e)) (Some now))
               (e_started_at e) now)
  else None.

(** [_refresh_execution_counts_tx]: a projection, which takes no revision. *)
Definition ex_counts (counts : process_counts) (now : Z) (e : execution) : option execution :=
  Some (Build_execution (e_id e) (e_status e) (e_row_revision e) (e_phase e) (e_wait e) (e_current_process e) counts
          (e_seal e) (e_cancel_requested_at e) (e_cancel_converged_at e) (e_final e) (e_started_at e) now).

(** [_repair_terminal_projection_tx], on terminal roots. *)
Definition ex_clear_current (now : Z) (e : execution) : option execution :=
  if bool_decide (is_Some (e_current_process e))
  then Some (ex_move e (e_status e) (e_phase e) (e_wait e) None (e_started_at e) now) else None.

(** [seal_actual_binding_tx] *)
Definition ex_sealed (seal : seal_row) (now : Z) (e : execution) : option execution :=
  if bool_decide (actual_binding_state (e_seal e) = unsealed)
     && bool_decide (actual_binding_digest (e_seal e) = None) && (seal_generation (e_seal e) =? 0)
  then Some (Build_execution (e_id e) (e_status e) (e_row_revision e + 1) (e_phase e) (e_wait e) (e_current_process e)
               (e_counts e) seal (e_cancel_requested_at e) (e_cancel_converged_at e) (e_final e) (e_started_at e) now)
  else None.

Inductive execution_statement :=
| XStart (now : Z)
| XRetryWait (process : ustr) (due now : Z)
| XRetryReady (process : ustr) (now : Z)
| XMaterialized (phase : option string) (process : ustr) (now : Z)
| XGateWait (phase : option string) (gate : ustr) (row_revision now : Z)
| XGateResume (gate : ustr) (now : Z)
| XJoinWait (change_set : ustr) (now : Z)
| XPrerequisiteReleased (change_set : ustr) (now : Z)
| XCancelling (now : Z)
| XTaskCancel (now : Z)
| XCancelled (summary : ustr) (now : Z)
| XTerminalize (status : ExecutionStatus.t) (result proof code : option ustr) (summary : ustr) (now : Z)
| XFailIntegrity (code summary : ustr) (now : Z)
| XOutboxDead (code : ustr) (now : Z)
| XCounts (counts : process_counts) (now : Z)
| XClearCurrent (now : Z)
| XSealed (seal : seal_row) (now : Z).

Definition ex_exec (s : execution_statement) : execution -> option execution :=
  match s with
  | XStart now => ex_start now
  | XRetryWait p due now => ex_retry_wait p due now
  | XRetryReady p now => ex_retry_ready p now
  | XMaterialized ph p now => ex_materialized ph p now
  | XGateWait ph g r now => ex_gate_wait ph g r now
  | XGateResume g now => ex_gate_resume g now
  | XJoinWait c now => ex_join_wait c now
  | XPrerequisiteReleased c now => ex_prerequisite_released c now
  | XCancelling now => ex_cancelling now
  | XTaskCancel now => ex_task_cancel now
  | XCancelled s now => ex_cancelled s now
  | XTerminalize st r p c s now => ex_terminalize st r p c s now
  | XFailIntegrity c s now => ex_fail_integrity c s now
  | XOutboxDead c now => ex_outbox_dead c now
  | XCounts c now => ex_counts c now
  | XClearCurrent now => ex_clear_current now
  | XSealed s now => ex_sealed s now
  end.

Definition ex_step (e e' : execution) : Prop := exists s, ex_exec s e = Some e'.
Definition ex_run : execution -> execution -> Prop := rtc ex_step.

(** ** Task rows *)

Record task_counts := {
  cnt_total : Z;
  cnt_required : Z;
  cnt_active : Z;
  cnt_succeeded : Z;
  cnt_failed : Z;
  cnt_cancelled : Z
}.
Definition no_counts : task_counts := Build_task_counts 0 0 0 0 0 0.

Record task := {
  t_priority : Priority;
  t_request_intent : ustr;
  t_deadline_at : option Z;
  t_trace : ustr;
  t_status : TaskStatus.t;
  t_row_revision : Z;
  t_generation : Z;
  t_root : option ustr;
  t_counts : task_counts;
  t_result_ref : option ustr;
  t_proof_ref : option ustr;
  t_result_disposition : option string;
  t_error_code : option ustr;
  t_cancel_requested_at : option Z;
  t_started_at : option Z;
  t_completed_at : option Z;
  t_updated_at : Z
}.

Definition t_in (t : task) (l : list TaskStatus.t) : bool := bool_decide (t_status t ∈ l).

(** [proofless_lifecycle] of [project_task_status_tx]. *)
Definition PROOFLESS_INTENTS : list ustr :=
  [u "intake.update_metadata"; u "intake.deactivate"; u "intake.reactivate"; u "intake.delete"].

Definition nonempty (o : option ustr) : bool := match o with Some (_ :: _) => true | _ => false end.

(** The statuses from which [project_task_status_tx] enters [target]. *)
Definition projectable (target status : TaskStatus.t) : bool :=
  match target with
  | TaskStatus.RUNNING => bool_decide (status = TaskStatus.QUEUED)
  | TaskStatus.SUCCEEDED => bool_decide (status = TaskStatus.RUNNING)
  | TaskStatus.FAILED => bool_decide (status ∈ [TaskStatus.RUNNING; TaskStatus.CANCELLING; TaskStatus.QUEUED])
  | TaskStatus.CANCELLED => bool_decide (status = TaskStatus.CANCELLING)
  | _ => false
  end.

Definition terminal_task (s : TaskStatus.t) : bool :=
  bool_decide (s ∈ [TaskStatus.SUCCEEDED; TaskStatus.FAILED; TaskStatus.CANCELLED]).

Record projection := {
  pr_target : TaskStatus.t;
  pr_expected_generation : option Z;
  pr_root : option ustr;
  pr_result_ref : option ustr;
  pr_proof_ref : option ustr;
  pr_result_disposition : option string;
  pr_error_code : option ustr
}.

(** [project_task_status_tx] on the row it reads: [None] when it returns [False]. *)
Definition project_task_status (now : Z) (c : projection) (t : task) : result (option task) :=
  if negb (match pr_expected_generation c with Some g => t_generation t =? g | None => true end) then Ok None
  else if negb (match pr_root c with Some r => bool_decide (t_root t = Some r) | None => true end) then Ok None
  else
    check match pr_result_disposition c with Some d => bool_decide (d = "exhausted_zero"%string) | None => true end
      else MkbError "TASK_DISPOSITION_UNSUPPORTED" 409 ;;
    check negb (bool_decide (pr_target c = TaskStatus.SUCCEEDED) && negb (nonempty (pr_proof_ref c))
                && negb (bool_decide (pr_result_disposition c = Some "exhausted_zero"%string))
                && negb (bool_decide (t_request_intent t ∈ PROOFLESS_INTENTS)))
      else MkbError "task-proof-missing" 409 ;;
    if projectable (pr_target c) (t_status t) then
      Ok (Some (Build_task (t_priority t) (t_request_intent t) (t_deadline_at t) (t_trace t) (pr_target c)
                  (t_row_revision t + 1) (t_generation t) (t_root t) (t_counts t)
                  (coalesce (pr_result_ref c) (t_result_ref t)) (coalesce (pr_proof_ref c) (t_proof_ref t))
                  (coalesce (pr_result_disposition c) (t_result_disposition t)) (pr_error_code c)
                  (t_cancel_requested_at t)
                  (coalesce (t_started_at t) (if bool_decide (pr_target c = TaskStatus.RUNNING) then Some now else None))
                  (if terminal_task (pr_target c) then Some now else t_completed_at t) now))
    else Ok None.

(** The task statement of the [cancel] command. *)
Definition task_cancel (revision now : Z) (t : task) : option task :=
  if (t_row_revision t =? revision) && t_in t [TaskStatus.QUEUED; TaskStatus.RUNNING; TaskStatus.CANCELLING]
  then Some (Build_task (t_priority t) (t_request_intent t) (t_deadline_at t) (t_trace t) TaskStatus.CANCELLING
               (t_row_revision t + 1) (t_generation t) (t_root t) (t_counts t) (t_result_ref t) (t_proof_ref t)
               (t_result_disposition t) (t_error_code t) (Some now) (t_started_at t) (t_completed_at t) now)
  else None.

(** The task statement of the [retry] command, which admits failed and cancelled tasks: a new
    generation under a new root execution; the result disposition stays. *)
Definition task_retry (revision : Z) (root : ustr) (now : Z) (t : task) : option task :=
  if (t_row_revision t =? revision) && t_in t [TaskStatus.FAILED; TaskStatus.CANCELLED]
  then Some (Build_task (t_priority t) (t_request_intent t) (t_deadline_at t) (t_trace t) TaskStatus.QUEUED
               (t_row_revision t + 1) (t_generation t + 1) (Some root) no_counts None None (t_result_disposition t) None
               None None None now)
  else None.

(** The progress projection of [_refresh_execution_counts_tx], of the current root only. *)
Definition task_refresh (root : ustr) (counts : task_counts) (now : Z) (t : task) : option task :=
  if bool_decide (t_root t = Some root)
  then Some (Build_task (t_priority t) (t_request_intent t) (t_deadline_at t) (t_trace t) (t_status t)
               (t_row_revision t + 1) (t_generation t) (t_root t) counts (t_result_ref t) (t_proof_ref t)
               (t_result_disposition t) (t_error_code t) (t_cancel_requested_at t) (t_started_at t) (t_completed_at t) now)
  else None.

(** The priority of the [patch] command, which is locked once the task has left the queue. *)
Definition task_patch_priority (revision : Z) (priority : Priority) (now : Z) (t : task) : option task :=
  if (t_row_revision t =? revision) && (bool_decide (priority = t_priority t) || t_in t [TaskStatus.QUEUED])
  then Some (Build_task priority (t_request_intent t) (t_deadline_at t) (t_trace t) (t_status t) (t_row_revision t + 1)
               (t_generation t) (t_root t) (t_counts t) (t_result_ref t) (t_proof_ref t) (t_result_disposition t)
               (t_error_code t) (t_cancel_requested_at t) (t_started_at t) (t_completed_at t) now)
  else None.

(** One statement of the program on a task row. *)
Inductive task_step : task -> task -> Prop :=
| TProject now c t t' : project_task_status now c t = Ok (Some t') -> task_step t t'
| TCancel revision now t t' : task_cancel revision now t = Some t' -> task_step t t'
| TRetry revision root now t t' : task_retry revision root now t = Some t' -> task_step t t'
| TRefresh root counts now t t' : task_refresh root counts now t = Some t' -> task_step t t'
| TPatch revision priority now t t' : task_patch_priority revision priority now t = Some t' -> task_step t t'.
Definition task_run : task -> task -> Prop := rtc task_step.
(** The two that the engine issues: the others are task commands. *)
Inductive engine_task_step : task -> task -> Prop :=
| EProject now c t t' : project_task_status now c t = Ok (Some t') -> engine_task_step t t'
| ERefresh root counts now t t' : task_refresh root counts now t = Some t' -> engine_task_step t t'.
Definition engine_task_run : task -> task -> Prop := rtc engine_task_step.

(** ** What every statement keeps *)

Ltac ex_inv H :=
  match type of H with ex_exec ?s _ = _ => destruct s end;
  cbn [ex_exec] in H;
  unfold ex_start, ex_retry_wait, ex_retry_ready, ex_materialized, ex_gate_wait, ex_gate_resume, ex_join_wait,
    ex_prerequisite_released, ex_cancelling, ex_task_cancel, ex_cancelled, ex_terminalize, ex_fail_integrity, ex_outbox_dead,
    ex_counts, ex_clear_current, ex_sealed, ex_move, ex_close, ex_request_cancel, ex_in, waits_for in H;
  repeat match type of H with
  | (if ?b then _ else _) = Some _ => let E := fresh "E" in destruct b eqn:E; [|discriminate H]
  end; injection H as <-.

(** The columns of a row that a terminal execution keeps. *)
Definition outcome_of (e : execution) : ExecutionStatus.t * execution_final * execution_wait * option Z :=
  (e_status e, e_final e, e_wait e, e_cancel_converged_at e).

Lemma ex_step_identity s e e' : ex_exec s e = Some e' -> e_id e' = e_id e.
Proof. intros H. by ex_inv H. Qed.

Lemma ex_step_terminal s e e' :
  terminal_execution (e_status e) = true -> ex_exec s e = Some e' -> outcome_of e' = outcome_of e.
Proof.
  intros Ht H. destruct (e_status e) eqn:Es; try discriminate Ht;
    ex_inv H; rewrite ?Es, ?andb_false_r in *; cbn in *; rewrite ?andb_false_r in *; try discriminate; unfold outcome_of; cbn; congruence.
Qed.

Definition stopping (s : ExecutionStatus.t) : bool := bool_decide (s = ExecutionStatus.CANCELLING) || terminal_execution s.

Lemma ex_step_stopping s e e' : stopping (e_status e) = true -> ex_exec s e = Some e' -> stopping (e_status e') = true.
Proof.
  intros Ht H. destruct (e_status e) eqn:Es; try discriminate Ht;
    ex_inv H; rewrite ?Es, ?andb_false_r in *; cbn in *; rewrite ?andb_false_r in *; try discriminate; try done.
  all: unfold stopping; apply andb_true_iff in E as [_ E]; rewrite E; by rewrite orb_true_r.
Qed.

Record execution_ok (e : execution) : Prop := {
  eo_waiting : e_status e = ExecutionStatus.WAITING -> is_Some (waiting_reason (e_wait e)) /\ is_Some (waiting_ref (e_wait e));
  eo_completed : terminal_execution (e_status e) = true <-> is_Some (completed_at (e_final e));
  eo_cancelling : e_status e = ExecutionStatus.CANCELLING -> is_Some (e_cancel_requested_at e)
}.

Lemma coalesce_is_Some {A} (a : option A) b : is_Some (coalesce a (Some b)).
Proof. destruct a; eauto. Qed.

Lemma ex_step_ok s e e' : execution_ok e -> ex_exec s e = Some e' -> execution_ok e'.
Proof.
  intros [Hw Hc Hn] H. destruct (e_status e) eqn:Es;
    ex_inv H; rewrite ?Es, ?andb_false_r in *; cbn in *; rewrite ?andb_false_r in *; try discriminate;
    split; cbn; rewrite ?Es; try done; eauto using coalesce_is_Some; try (by intros ->).
  all: apply andb_true_iff in E as [_ E]; rewrite ?E; try (by intros E'; rewrite E' in E); split; eauto.
Qed.

(** A revision names the row up to its progress counters. *)
Definition same_but_counts (e e' : execution) : Prop :=
  outcome_of e' = outcome_of e /\ e_phase e' = e_phase e /\ e_current_process e' = e_current_process e /\
  e_seal e' = e_seal e /\ e_cancel_requested_at e' = e_cancel_requested_at e /\ e_started_at e' = e_started_at e.

Lemma ex_step_revision s e e' :
  ex_exec s e = Some e' ->
  e_row_revision e' = e_row_revision e + 1 \/ (e_row_revision e' = e_row_revision e /\ same_but_counts e e').
Proof. intros H. ex_inv H; cbn; auto. right. by repeat split. Qed.

(** What an execution keeps from one moment to any later one. *)
Record execution_later (e e' : execution) : Prop := {
  el_identity : e_id e' = e_id e;
  el_revision : e_row_revision e <= e_row_revision e';
  el_same : e_row_revision e' = e_row_revision e -> same_but_counts e e';
  el_terminal : terminal_execution (e_status e) = true -> outcome_of e' = outcome_of e;
  el_stopping : stopping (e_status e) = true -> stopping (e_status e') = true
}.

#[export] Instance execution_later_preorder : PreOrder execution_later.
Proof.
  split.
  - intros e. by split.
  - intros a b c [Hi1 Hr1 Hs1 Ht1 Hp1] [Hi2 Hr2 Hs2 Ht2 Hp2]. split; try congruence; try lia; auto.
    + intros E. assert (e_row_revision b = e_row_revision a) as E1 by lia. assert (e_row_revision c = e_row_revision b) as E2 by lia.
      specialize (Hs1 E1). specialize (Hs2 E2). unfold same_but_counts in *. destruct_and!. split_and!; congruence.
    + intros T. rewrite Ht2, Ht1; [done..|]. specialize (Ht1 T). unfold outcome_of in Ht1. congruence.
Qed.

Lemma ex_step_later s e e' : ex_exec s e = Some e' -> execution_later e e'.
Proof.
  intros H. split.
  - by eapply ex_step_identity.
  - destruct (ex_step_revision _ _ _ H) as [E|[E _]]; lia.
  - destruct (ex_step_revision _ _ _ H) as [E|[E ?]]; [lia|done].
  - intros T. by eapply ex_step_terminal.
  - intros T. by eapply ex_step_stopping.
Qed.

Lemma ex_run_later e e' : ex_run e e' -> execution_later e e'.
Proof. induction 1 as [e|e m e' [s Hs] _ IH]; [done|]. etrans; [by eapply ex_step_later|exact IH]. Qed.

Lemma ex_run_ok e e' : execution_ok e -> ex_run e e' -> execution_ok e'.
Proof. intros Hok. induction 1 as [e|e m e' [s Hs] _ IH]; [done|]. apply IH. by eapply ex_step_ok. Qed.

(** The life of an execution.  Whatever statements of the runtime a row goes through: its
    identity never changes; a row that waits names its reason and its reference (the
    constraint of the schema), a row is completed exactly when it is terminal, and a
    cancelling row was asked to cancel; a terminal row keeps its status, its result, its
    error and its wait for ever; a cancelling row never goes back to ready, running or
    waiting; and a row whose revision has not moved has not changed but for its counters. *)
Theorem execution_lifecycle (e e' : execution) (Hok : execution_ok e) (Hrun : ex_run e e') :
  execution_ok e' /\ execution_later e e'.
Proof. split; [exact (ex_run_ok e e' Hok Hrun)|exact (ex_run_later e e' Hrun)]. Qed.

(** ** Tasks *)

Record task_ok (t : task) : Prop := {
  to_completed : terminal_task (t_status t) = true <-> is_Some (t_completed_at t);
  to_proof : t_status t = TaskStatus.SUCCEEDED ->
    nonempty (t_proof_ref t) = true \/ t_result_disposition t = Some "exhausted_zero"%string
    \/ t_request_intent t ∈ PROOFLESS_INTENTS
}.

(** What a task keeps within a generation, and across them. *)
Record task_later (t t' : task) : Prop := {
  tl_generation : t_generation t <= t_generation t';
  tl_revision : t_row_revision t <= t_row_revision t';
  tl_terminal : t_generation t' = t_generation t -> terminal_task (t_status t) = true -> t_status t' = t_status t;
  tl_cancelling : t_generation t' = t_generation t -> t_status t = TaskStatus.CANCELLING ->
    t_status t' ∈ [TaskStatus.CANCELLING; TaskStatus.CANCELLED; TaskStatus.FAILED];
  tl_succeeded : t_status t = TaskStatus.SUCCEEDED -> t_status t' = TaskStatus.SUCCEEDED /\ t_generation t' = t_generation t
}.

Lemma project_task_Some now c t t' :
  project_task_status now c t = Ok (Some t') ->
  projectable (pr_target c) (t_status t) = true /\ t_status t' = pr_target c /\ t_generation t' = t_generation t /\
  t_row_revision t' = t_row_revision t + 1 /\ t_request_intent t' = t_request_intent t /\ t_root t' = t_root t /\
  t_completed_at t' = (if terminal_task (pr_target c) then Some now else t_completed_at t) /\
  (pr_target c = TaskStatus.SUCCEEDED ->
     nonempty (t_proof_ref t') = true \/ t_result_disposition t' = Some "exhausted_zero"%string
     \/ t_request_intent t' ∈ PROOFLESS_INTENTS).
Proof.
  unfold project_task_status. intros H. destruct (negb _); [discriminate|]. destruct (negb _); [discriminate|].
  inv_res. destruct (projectable _ _) eqn:Ep; [|discriminate H]. injection H as <-. cbn. split_and!; try done.
  intros Ht. rewrite Ht in *. rewrite bool_decide_eq_true_2 in H1 by done. cbn [andb] in H1.
  destruct (nonempty (pr_proof_ref c)) eqn:Ev; [left; by destruct (pr_proof_ref c)|]. cbn [negb andb] in H1.
  destruct (bool_decide (pr_result_disposition c = Some "exhausted_zero"%string)) eqn:Ed.
  - right; left. breflect. by rewrite Ed.
  - cbn [negb andb] in H1. breflect. by right; right.
Qed.

Lemma task_step_later t t' : task_step t t' -> task_later t t'.
Proof.
  destruct 1 as [now c t t' H|revision now t t' H|revision root now t t' H|root counts now t t' H|revision priority now t t' H].
  - destruct (project_task_Some _ _ _ _ H) as (Hp & Hs & Hg & Hr & _). split; try lia; rewrite Hs; intros;
      destruct (pr_target c), (t_status t); try discriminate; try done; set_solver.
  - unfold task_cancel in H. case_match eqn:E; [|discriminate]. injection H as <-. apply andb_true_iff in E as [_ E].
    unfold t_in in E. split; cbn; try lia; destruct (t_status t); try discriminate; try done; set_solver.
  - unfold task_retry in H. case_match eqn:E; [|discriminate]. injection H as <-. apply andb_true_iff in E as [_ E].
    unfold t_in in E. split; cbn; try lia; destruct (t_status t); try discriminate; try done; lia.
  - unfold task_refresh in H. case_match; [|discriminate]. injection H as <-. split; cbn; try lia; try done. intros _ ->. set_solver.
  - unfold task_patch_priority in H. case_match; [|discriminate]. injection H as <-. split; cbn; try lia; try done.
    intros _ ->. set_solver.
Qed.

#[export] Instance task_later_preorder : PreOrder task_later.
Proof.
  split.
  - intros t. split; try lia; try done. intros _ ->. set_solver.
  - intros a b c [Hg1 Hr1 Ht1 Hc1 Hs1] [Hg2 Hr2 Ht2 Hc2 Hs2]. split; try lia.
    + intros E T. rewrite Ht2; [apply Ht1; [lia|done]|lia|]. by rewrite Ht1 by (done || lia).
    + intros E T. assert (t_generation b = t_generation a) as E1 by lia. assert (t_generation c = t_generation b) as E2 by lia.
      specialize (Hc1 E1 T). rewrite !elem_of_cons in Hc1. destruct Hc1 as [Hb|[Hb|[Hb|Hb]]]; [by apply Hc2| | |by inversion Hb];
        rewrite (Ht2 E2) by (by rewrite Hb); rewrite Hb; set_solver.
    + intros T. destruct (Hs1 T) as [Hb Eb]. destruct (Hs2 Hb) as [Hc Ec]. split; congruence.
Qed.

Lemma task_step_ok t t' : task_ok t -> task_step t t' -> task_ok t'.
Proof.
  intros [Hc Hp]. destruct 1 as [now c t t' H|revision now t t' H|revision root now t t' H|root counts now t t' H|revision priority now t t' H].
  - destruct (project_task_Some _ _ _ _ H) as (Hpr & Hs & _ & _ & _ & _ & Hcp & Hpf). split; rewrite Hs; [|done].
    rewrite Hcp. destruct (terminal_task (pr_target c)) eqn:E; [by split; eauto|].
    rewrite <-Hc. destruct (pr_target c), (t_status t); try discriminate; done.
  - unfold task_cancel in H. case_match eqn:E; [|discriminate]. injection H as <-. apply andb_true_iff in E as [_ E].
    unfold t_in in E. split; cbn; [|done]. rewrite <-Hc. destruct (t_status t); try discriminate; done.
  - unfold task_retry in H. case_match; [|discriminate]. injection H as <-. split; cbn; [|done]. split; [done|by intros [? ?]].
  - unfold task_refresh in H. case_match; [|discriminate]. injection H as <-. by split.
  - unfold task_patch_priority in H. case_match; [|discriminate]. injection H as <-. by split.
Qed.

(** The engine moves neither the generation nor the root of a task. *)
Lemma engine_task_run_root t t' :
  engine_task_run t t' ->
  t_root t' = t_root t /\ t_request_intent t' = t_request_intent t /\ t_generation t' = t_generation t.
Proof.
  induction 1 as [t|t m t' Hs _ (Hr & Hi & Hg)]; [done|]. rewrite Hr, Hi, Hg.
  destruct Hs as [now c t m H|root counts now t m H]; [by destruct (project_task_Some _ _ _ _ H) as (_ & _ & ? & _ & ? & ? & _)|].
  unfold task_refresh in H. case_match; by simplify_eq/=.
Qed.

(** The life of a task.  Within a generation a terminal task keeps its status and a
    cancelling task can only become cancelled or failed, never succeeded; across generations
    (the retry command) a succeeded task stays succeeded; a task is completed exactly when it
    is terminal; and a succeeded task has a publication proof, unless its result was declared
    empty or its intent is one of the proofless lifecycle intents. *)
Theorem task_lifecycle (t t' : task) (Hok : task_ok t) (Hrun : task_run t t') : task_ok t' /\ task_later t t'.
Proof.
  induction Hrun as [t|t m t' Hs _ IH]; [done|]. destruct (IH (task_step_ok _ _ Hok Hs)) as [Hok' Hl].
  split; [done|]. etrans; [by apply task_step_later|exact Hl].
Qed.

(** ** Concrete lives *)

Module Lives.
Definition identity : execution_identity :=
  Build_execution_identity (u "team") (u "task") (u "trace") 1 (u "e1") None "root" "required" (u "w1") (u "digest")
    (u "dom") (u "cfg") (u "cfgd") (Some (u "in")) (Some (u "ind")) (PDict []).
Definition created : execution :=
  Build_execution identity ExecutionStatus.CREATED 0 None no_wait None (Build_process_counts 0 0 0 0 0)
    (Build_seal_row None unsealed 0 None None None None) None None no_final None 0.
Definition life : list execution_statement :=
  [XMaterialized (Some "cleaning"%string) (u "p1") 1; XCounts (Build_process_counts 1 1 0 0 0) 1; XStart 2;
   XRetryWait (u "p1") 30 20; XRetryReady (u "p1") 31; XCancelling 40; XCancelled (u "summary") 41].
Fixpoint ex_life (ss : list execution_statement) (e : execution) : option execution :=
  match ss with [] => Some e | s :: ss => match ex_exec s e with Some e' => ex_life ss e' | None => None end end.
Lemma ex_life_run ss e e' : ex_life ss e = Some e' -> ex_run e e'.
Proof.
  revert e. induction ss as [|s ss IH]; intros e H; simpl in H; [injection H as <-; apply rtc_refl|].
  destruct (ex_exec s e) as [m|] eqn:E; [|discriminate]. eapply rtc_l; [by exists s|by apply IH].
Qed.

Definition queued : task :=
  Build_task normal (u "intake.ingest") None (u "trace") TaskStatus.QUEUED 0 1 (Some (u "e1")) no_counts None None None None None
    None None 0.
Definition goes (target : TaskStatus.t) (proof : option ustr) : projection :=
  Build_projection target (Some 1) (Some (u "e1")) None proof None None.
Definition running : task :=
  Build_task normal (u "intake.ingest") None (u "trace") TaskStatus.RUNNING 1 1 (Some (u "e1")) no_counts None None None None
    None (Some 5) None 5.
Definition succeeded : task :=
  Build_task normal (u "intake.ingest") None (u "trace") TaskStatus.SUCCEEDED 2 1 (Some (u "e1")) no_counts None
    (Some (u "proof")) None None None (Some 5) (Some 9) 9.
End Lives.

Lemma execution_lifecycle_witness :
  match Lives.ex_life Lives.life Lives.created with
  | Some e => e_status e = ExecutionStatus.CANCELLED /\ execution_ok e
  | None => False
  end.
Proof.
  assert (execution_ok Lives.created) as Hok by (split; [done|split; [done|by intros [? ?]]|done]).
  destruct (Lives.ex_life _ _) as [e|] eqn:E; [|vm_compute in E; discriminate E].
  split; [vm_compute in E; injection E as <-; reflexivity|].
  exact (proj1 (execution_lifecycle Lives.created e Hok (Lives.ex_life_run _ _ _ E))).
Defined.

Lemma task_lifecycle_witness :
  project_task_status 5 (Lives.goes TaskStatus.RUNNING None) Lives.queued = Ok (Some Lives.running) /\
  project_task_status 9 (Lives.goes TaskStatus.SUCCEEDED (Some (u "proof"))) Lives.running = Ok (Some Lives.succeeded) /\
  project_task_status 9 (Lives.goes TaskStatus.SUCCEEDED None) Lives.running = Err (MkbError "task-proof-missing" 409) /\
  task_ok Lives.succeeded.
Proof.
  split; [reflexivity|]. split; [reflexivity|]. split; [reflexivity|].
  refine (proj1 (task_lifecycle Lives.queued Lives.succeeded _ _)).
  - split; [split; [done|by intros [? ?]]|done].
  - eapply rtc_l; [exact (TProject 5 (Lives.goes TaskStatus.RUNNING None) Lives.queued Lives.running eq_refl)|].
    apply rtc_once. exact (TProject 9 (Lives.goes TaskStatus.SUCCEEDED (Some (u "proof"))) Lives.running Lives.succeeded eq_refl).
Defined.
