(* ===== verification/Engine.v ===== *)
(** * The workflow engine: store, progress and termination

    The transactional state of the workflow runtime and the parts of it that close
    executions: [src/runtime/workflow/runtime_core.py] ([_execution],
    [_refresh_execution_counts_tx], [_assert_execution_binding], [_assert_process_declared])
    and [src/runtime/workflow/runtime_outcome.py] ([_terminalize_execution_tx],
    [_project_root_task_tx], [_fail_execution_integrity_tx], [_cancel_execution_tree_tx],
    [_converge_cancellation_tx], [request_cancellation]) with
    [_notify_scatter_parent_terminal_tx] of [runtime_scatter.py].

    A transaction is a function of the database that returns a value and the new database,
    or raises and leaves the old one.  The instants that one transaction reads from the
    clock are one [now].  Domain events, which nothing reads back, and metrics are not
    modelled.  The tables of other services ([mkb_execution_gates], intake, generation,
    registry) are an abstract [World]; the class [Services] lists what the engine asks of
    their owners. *)

From S2P Require Import Prelude PyText PyValue Txn WorkflowContracts Dispatch Strategies Routing Outbox ProcessRows ExecutionRows.

Open Scope Z_scope.
Open Scope mkb_scope.

(** ** The database and its transactions *)

(** One row of [mkb_workflow_selected_outputs], unique per execution and control step. *)
Record selected_output := {
  so_candidate_port : string;
  so_source_process : option ustr;
  so_manifest_ref : ustr;
  so_manifest_digest : ustr;
  so_route_digest : ustr;
  so_selection_digest : ustr;
  so_fallback_used : bool;
  so_projected_at : Z
}.

Record db {World : Type} := {
  d_processes : gmap ustr process;
  d_executions : gmap ustr execution;
  d_tasks : gmap (ustr * ustr) task;
  d_outbox : outbox_table;
  d_selected : gmap (ustr * string) selected_output;
  d_uuids : nat;
  d_world : World
}.
Arguments db World : clear implicits.

(** A transaction over the engine's tables. *)
Abbreviation tx World A := (txn (db World) A).

Section store.
Context {World : Type}.

Definition set_processes (m : gmap ustr process) (d : db World) : db World :=
  Build_db World m (d_executions d) (d_tasks d) (d_outbox d) (d_selected d) (d_uuids d) (d_world d).
Definition set_executions (m : gmap ustr execution) (d : db World) : db World :=
  Build_db World (d_processes d) m (d_tasks d) (d_outbox d) (d_selected d) (d_uuids d) (d_world d).
Definition set_tasks (m : gmap (ustr * ustr) task) (d : db World) : db World :=
  Build_db World (d_processes d) (d_executions d) m (d_outbox d) (d_selected d) (d_uuids d) (d_world d).
Definition set_outbox (t : outbox_table) (d : db World) : db World :=
  Build_db World (d_processes d) (d_executions d) (d_tasks d) t (d_selected d) (d_uuids d) (d_world d).
Definition set_selected (m : gmap (ustr * string) selected_output) (d : db World) : db World :=
  Build_db World (d_processes d) (d_executions d) (d_tasks d) (d_outbox d) m (d_uuids d) (d_world d).
Definition set_world (w : World) (d : db World) : db World :=
  Build_db World (d_processes d) (d_executions d) (d_tasks d) (d_outbox d) (d_selected d) (d_uuids d) w.
Definition next_uuid (d : db World) : db World :=
  Build_db World (d_processes d) (d_executions d) (d_tasks d) (d_outbox d) (d_selected d) (S (d_uuids d)) (d_world d).

(** [UPDATE mkb_processes SET ... WHERE process_uuid=? AND ...] with its [rowcount]. *)
Definition update_process (id : ustr) (f : process -> option process) : tx World bool := fun d =>
  match d_processes d !! id ≫= f with
  | Some p => Ok (true, set_processes (<[id := p]> (d_processes d)) d)
  | None => Ok (false, d)
  end.

(** [UPDATE mkb_processes SET ... WHERE ...] over all rows. *)
Definition apply_where (sel : process -> bool) (f : process -> option process) (p : process) : process :=
  if sel p then match f p with Some p' => p' | None => p end else p.
Definition update_processes (sel : process -> bool) (f : process -> option process) : tx World unit :=
  modify (fun d => set_processes (apply_where sel f <$> d_processes d) d).

Definition update_execution (id : ustr) (f : execution -> option execution) : tx World bool := fun d =>
  match d_executions d !! id ≫= f with
  | Some e => Ok (true, set_executions (<[id := e]> (d_executions d)) d)
  | None => Ok (false, d)
  end.

Definition update_task (team tid : ustr) (f : task -> option task) : tx World bool := fun d =>
  match d_tasks d !! (team, tid) ≫= f with
  | Some t => Ok (true, set_tasks (<[(team, tid) := t]> (d_tasks d)) d)
  | None => Ok (false, d)
  end.

(** [_execution] *)
Definition execution_row (id : ustr) : tx World execution := fun d =>
  match d_executions d !! id with Some e => Ok (e, d) | None => Err (MkbError "execution-not-found" 404) end.

Definition is_root (id : ustr) (e : execution) : bool := bool_decide (ei_root (e_id e) = id).
Definition has_role (e : execution) (role : string) : bool := bool_decide (ei_role (e_id e) = role).
End store.

(** What a route application knows of its source process: the columns of the row that its
    caller selected. *)
Record source_row := {
  sr_uuid : ustr;
  sr_manifest_ref : option ustr;
  sr_proof_ref : option ustr
}.
Definition full_source (id : ustr) (p : process) : source_row :=
  Build_source_row id (output_manifest_ref (p_outcome p)) (proof_ref (p_outcome p)).

(** ** Outcomes and commands ([src/contracts/runtime/models.py]) *)

Inductive OutcomeDisposition := O_SUCCEEDED | O_FAILED | O_RETRYABLE_FAILURE | O_WAITING.
#[export] Instance outcome_disposition_eq : EqDecision OutcomeDisposition. Proof. solve_decision. Defined.

Record ProcessOutcome := {
  po_team : ustr;
  po_task : ustr;
  po_execution : ustr;
  po_process : ustr;
  po_fencing_generation : Z;
  po_disposition : OutcomeDisposition;
  po_outcome_digest : ustr;
  po_output_manifest_ref : option ustr;
  po_output_manifest_digest : option ustr;
  po_proof_ref : option ustr;
  po_proof_digest : option ustr;
  po_error_code : option ustr;
  po_error_message : option ustr;
  po_payload_extra : pydict
}.

Record ProcessCommand := {
  pc_team : ustr;
  pc_task : ustr;
  pc_trace : ustr;
  pc_execution : ustr;
  pc_process : ustr;
  pc_step_key : string;
  pc_process_key : string;
  pc_contract_version : option string;
  pc_fencing_generation : Z;
  pc_command_input_digest : ustr;
  pc_input_manifest_ref : ustr;
  pc_input_manifest_digest : ustr;
  pc_config_snapshot_ref : ustr;
  pc_config_snapshot_digest : ustr;
  pc_binding_digest : option ustr;
  pc_binding_state : ActualBindingState;
  pc_policy_binding_digest : ustr;
  pc_dispatch_pool : option DispatchPool;
  pc_task_priority : Priority
}.

(** ** Services of other owners *)

Class Services (World : Type) := {
  (** [uuid7()], as an enumeration of the identifiers it returns. *)
  uuid7 : nat -> ustr;
  (** The stored text of an instant. *)
  timestamp : Z -> ustr;
  (** [mkb_workflow_revisions] joined with the registry: compiled digest and key. *)
  workflow_revision : World -> ustr -> option (ustr * string);
  (** [mkb_workflow_steps]: the step identifier of a step key, and all step keys. *)
  workflow_step_uuid : World -> ustr -> string -> option ustr;
  workflow_step_keys : World -> ustr -> list string;
  (** The digest of the latest row of [mkb_representation_facts] of an execution. *)
  representation_fact : World -> ustr -> option ustr;
  (** [_typed_route_context_tx]: the guard facts, read from task, candidate set, audit and
      representation rows. *)
  typed_route_context : ustr -> execution -> db World -> result pydict;
  (** The statements of [_cancel_execution_tree_tx] on gates and candidate sets. *)
  supersede_and_abandon : Z -> ustr -> ustr -> World -> World;
  (** The scatter branch of [_refresh_execution_counts_tx]: [None] when it does not apply. *)
  refresh_scatter_counts : Z -> ustr -> ustr -> ustr -> db World -> result (option (db World));
  (** [_maybe_converge_scatter_root_tx] *)
  maybe_converge_scatter_root : Z -> ustr -> db World -> result (bool * db World);
  (** The waits of [_enter_control_tx]: human review and the scatter join. *)
  enter_wait_control : Z -> WorkflowDefinition -> ustr -> WorkflowStepDefinition -> ustr -> option source_row ->
    pydict -> db World -> result (bool * db World);
  (** The parsed [strict_payload_json] of a task's audit row; [None] when there is none or it
      is not JSON. *)
  task_audit : World -> ustr -> ustr -> option pyval;
  (** The rows of [mkb_acquire_decode_history]. *)
  decode_history : World -> list history_row;
  (** [ProcessOutcomeCommitter.validate_and_commit], when one is configured. *)
  commit_outcome : option (ProcessCommand -> ProcessOutcome -> db World -> result (db World));
  (** [write_pending_generation_evidence_tx] *)
  write_pending_evidence : ustr -> process -> World -> result World
}.

(** The configuration of [WorkflowCoreMixin.__init__] that decisions depend on. *)
Record engine_config := {
  ec_active_keys : list string;
  ec_plans : list (ustr * WorkflowDefinition);
  ec_caps : DispatchCaps;
  ec_live_inference : bool;
  ec_local_generation_enabled : bool;
  ec_ni_quota : bool;
  ec_default_max_retries : Z;
  ec_default_max_recoveries : Z;
  ec_retry_delay_seconds : Z;
  ec_claimable_process_keys : option (list string);
  ec_priority_gate_enabled : bool
}.

Section engine.
Context {World : Type} {H : Host} {SV : Services World} (cfg : engine_config).

Definition fresh_uuid : tx World ustr := fun d => Ok (uuid7 (d_uuids d), next_uuid d).

Definition enqueue (now : Z) (team : ustr) (kind : string) (payload : pydict) (dedupe_key : ustr) : tx World unit :=
  let! id := fresh_uuid in
  fun d => let* t := enqueue_tx now id (d_outbox d) team kind payload dedupe_key in Ok (tt, set_outbox t d).

(** ** Progress counters *)

Definition counts_of (ps : list process) : process_counts :=
  let n f := Z.of_nat (length (List.filter (fun p => f (p_status p)) ps)) in
  Build_process_counts (n (fun _ => true)) (n (fun s => bool_decide (s ∈ ACTIVE_PROCESS_STATUSES)))
    (n (fun s => bool_decide (s = ProcessStatus.SUCCEEDED))) (n (fun s => bool_decide (s = ProcessStatus.FAILED)))
    (n (fun s => bool_decide (s = ProcessStatus.CANCELLED))).

Definition processes_of (id : ustr) (d : db World) : list process :=
  (rows_where (fun _ p => ueqb (ps_execution (p_spec p)) id) (d_processes d)).*2.

(** The members of a root's progress: its children, or itself when it has none. *)
Definition members_of (team task root : ustr) (d : db World) : list execution :=
  let own e := ueqb (ei_team (e_id e)) team && ueqb (ei_task (e_id e)) task && ueqb (ei_root (e_id e)) root in
  let child (e : execution) := present (ei_parent (e_id e)) in
  let children := rows_where (fun _ e => own e && child e) (d_executions d) in
  (rows_where (fun _ e => own e && (child e || (length children =? 0)%nat)) (d_executions d)).*2.

Definition member_counts (es : list execution) : task_counts :=
  let n f := Z.of_nat (length (List.filter f es)) in
  Build_task_counts (n (fun _ => true)) (n (fun e => bool_decide (ei_requiredness (e_id e) = "required"%string)))
    (n (fun e => ex_in e [ExecutionStatus.CREATED; ExecutionStatus.READY; ExecutionStatus.RUNNING; ExecutionStatus.WAITING;
                          ExecutionStatus.CANCELLING]))
    (n (fun e => ex_in e [ExecutionStatus.SUCCEEDED])) (n (fun e => ex_in e [ExecutionStatus.FAILED]))
    (n (fun e => ex_in e [ExecutionStatus.CANCELLED])).

(** [_refresh_execution_counts_tx] *)
Definition refresh_execution_counts (now : Z) (id : ustr) : tx World unit :=
  let! ps := gets (processes_of id) in
  update_execution id (ex_counts (counts_of ps) now) ;!
  let! execution := gets (fun d => d_executions d !! id) in
  match execution with
  | None => raise (MkbError "execution-not-found" 409)
  | Some e =>
      let team := ei_team (e_id e) in
      let task := ei_task (e_id e) in
      let root := ei_root (e_id e) in
      fun d =>
        let* scattered :=
          match d_executions d !! root with
          | Some r => if has_role r "scatter_root" then refresh_scatter_counts now team task root d else Ok None
          | None => Ok None
          end in
        match scattered with
        | Some d' => Ok (tt, d')
        | None =>
            let* r := update_task team task (task_refresh root (member_counts (members_of team task root d)) now) d in
            Ok (tt, r.2)
        end
  end.

(** ** Task projection *)

Definition task_status_of (s : ExecutionStatus.t) : TaskStatus.t :=
  match s with
  | ExecutionStatus.SUCCEEDED => TaskStatus.SUCCEEDED
  | ExecutionStatus.FAILED => TaskStatus.FAILED
  | _ => TaskStatus.CANCELLED
  end.

(** [project_task_status_tx] on the table. *)
Definition project_task (now : Z) (team task : ustr) (c : projection) : tx World bool := fun d =>
  match d_tasks d !! (team, task) with
  | None => Ok (false, d)
  | Some t =>
      let* r := project_task_status now c t in
      match r with
      | Some t' => Ok (true, set_tasks (<[(team, task) := t']> (d_tasks d)) d)
      | None => Ok (false, d)
      end
  end.

(** [_project_root_task_tx]; [status] is one of the three terminal ones. *)
Definition project_root_task (now : Z) (id : ustr) (e : execution) (status : ExecutionStatus.t)
    (source : option source_row) (code : option ustr) (disposition : option string) : tx World unit :=
  if negb (is_root id e) then ret tt
  else
    let exhausted_zero := bool_decide (disposition = Some "exhausted_zero"%string) in
    project_task now (ei_team (e_id e)) (ei_task (e_id e))
      (Build_projection (task_status_of status) None (Some id)
         (source ≫= sr_manifest_ref) (if exhausted_zero then None else source ≫= sr_proof_ref)
         disposition code) ;!
    ret tt.

(** ** Cancellation *)

Definition opt_text (o : option ustr) : pyval := match o with Some s => PStr s | None => PNone end.

Definition active_processes (id : ustr) (d : db World) : Z :=
  count_rows (fun _ p => ueqb (ps_execution (p_spec p)) id && bool_decide (p_status p ∈ ACTIVE_PROCESS_STATUSES)) (d_processes d).

Definition unfinished_descendants (id : ustr) (d : db World) : Z :=
  count_rows (fun k e => is_root id e && negb (ueqb k id) && negb (terminal_execution (e_status e))) (d_executions d).

(** [_converge_cancellation_tx] with [_notify_scatter_parent_terminal_tx], which may converge
    the parent in turn; [fuel] bounds the chain of parents. *)
Fixpoint converge_cancellation (fuel : nat) (now : Z) (id : ustr) : tx World bool :=
  match fuel with
  | O => raise RecursionError
  | S fuel =>
      let! current := execution_row id in
      if negb (ex_in current [ExecutionStatus.CANCELLING]) then ret false
      else
        let! active := gets (active_processes id) in
        let! descendants := gets (unfinished_descendants id) in
        if negb (active =? 0) || is_root id current && negb (descendants =? 0) then ret false
        else
          let! summary := lift (stable_digest (obj [("execution_uuid", PStr id); ("terminal_status", PStr (u "cancelled"))])) in
          let! updated := update_execution id (ex_cancelled summary now) in
          if updated then
            (if is_root id current then refresh_execution_counts now id else ret tt) ;!
            project_root_task now id current ExecutionStatus.CANCELLED None None None ;!
            match ei_parent (e_id current) with
            | Some ((_ :: _) as parent) =>
                let! p := execution_row parent in
                if ex_in p [ExecutionStatus.CANCELLING] then converge_cancellation fuel now parent ;! ret true
                else if has_role p "scatter_root" then maybe_converge_scatter_root now parent ;! ret true
                else ret true
            | _ => ret true
            end
          else ret false
  end.

(** A child's parent is a root, so the chain of parents has two rows. *)
Definition PARENT_CHAIN : nat := 2.

(** [_notify_scatter_parent_terminal_tx] *)
Definition notify_parent (now : Z) (e : execution) : tx World unit :=
  match ei_parent (e_id e) with
  | Some ((_ :: _) as parent) =>
      let! p := execution_row parent in
      if ex_in p [ExecutionStatus.CANCELLING] then converge_cancellation PARENT_CHAIN now parent ;! ret tt
      else if has_role p "scatter_root" then maybe_converge_scatter_root now parent ;! ret tt
      else ret tt
  | _ => ret tt
  end.

Definition of_execution (id : ustr) (p : process) : bool := ueqb (ps_execution (p_spec p)) id.

(** One round of the first loop of [_cancel_execution_tree_tx]. *)
Definition cancel_execution (now : Z) (id : ustr) (e : execution) : tx World bool :=
  let! changed := update_execution id (ex_cancelling now) in
  update_processes (of_execution id) (upd_cancel_idle now) ;!
  update_processes (of_execution id) (upd_cancel_close now) ;!
  update_processes (of_execution id) (upd_cancel_active now) ;!
  modify (fun d => set_world (supersede_and_abandon now (ei_team (e_id e)) id (d_world d)) d) ;!
  ret changed.

(** [ORDER BY CASE WHEN parent_execution_uuid IS NULL THEN 1 ELSE 0 END, execution_uuid] *)
Definition children_first (a b : ustr * execution) : bool :=
  match ei_parent (e_id a.2), ei_parent (e_id b.2) with
  | Some _, None => true
  | None, Some _ => false
  | _, _ => str_le a.1 b.1
  end.

Definition cancellable (root : ustr) (include_root : bool) (d : db World) : list (ustr * execution) :=
  py_sorted children_first
    (rows_where (fun k e => is_root root e && (include_root || negb (ueqb k root)) && negb (terminal_execution (e_status e)))
       (d_executions d)).

(** [_cancel_execution_tree_tx] *)
Definition cancel_execution_tree (now : Z) (id : ustr) (root : execution) (include_root : bool) : tx World Z :=
  require (is_root id root) (MkbError "cancel-tree-root-invalid" 409) ;!
  let! rows := gets (cancellable id include_root) in
  let! changed := count_loop (fun r => cancel_execution now r.1 r.2) rows in
  count_loop (fun r => converge_cancellation PARENT_CHAIN now r.1) rows ;!
  ret changed.

(** [request_cancellation] *)
Definition request_cancellation (now : Z) (id : ustr) : tx World bool :=
  let! e := execution_row id in
  if terminal_execution (e_status e) then ret false
  else
    let root := ei_root (e_id e) in
    let! r := execution_row root in
    cancel_execution_tree now root r true ;!
    refresh_execution_counts now root ;!
    ret true.

(** ** Termination *)

Definition scatter_root (id : ustr) (e : execution) : bool := is_root id e && has_role e "scatter_root".

(** [_fail_execution_integrity_tx] *)
Definition fail_execution_integrity (now : Z) (id : ustr) (code : string) : tx World unit :=
  let! current := execution_row id in
  (if scatter_root id current then cancel_execution_tree now id current false ;! ret tt else ret tt) ;!
  let! summary := lift (stable_digest (obj [("execution_uuid", PStr id); ("error_code", PStr (u code))])) in
  let! updated := update_execution id (ex_fail_integrity (u code) summary now) in
  if updated then
    project_root_task now id current ExecutionStatus.FAILED None (Some (u code)) None ;!
    notify_parent now current
  else ret tt.

Definition terminal_status (k : WorkflowTerminalKind) : ExecutionStatus.t :=
  match k with
  | TK_SUCCESS | TK_NOOP => ExecutionStatus.SUCCEEDED
  | TK_FAILURE => ExecutionStatus.FAILED
  | TK_CANCELLED => ExecutionStatus.CANCELLED
  end.
Definition execution_status_value (s : ExecutionStatus.t) : string :=
  match s with
  | ExecutionStatus.CREATED => "created" | ExecutionStatus.READY => "ready" | ExecutionStatus.RUNNING => "running"
  | ExecutionStatus.WAITING => "waiting" | ExecutionStatus.SUCCEEDED => "succeeded" | ExecutionStatus.FAILED => "failed"
  | ExecutionStatus.CANCELLING => "cancelling" | ExecutionStatus.CANCELLED => "cancelled"
  end.

Definition counts_value (c : process_counts) : pyval :=
  obj [("total_process_count", PInt (total_process_count c)); ("active_process_count", PInt (active_process_count c));
       ("succeeded_process_count", PInt (succeeded_process_count c)); ("failed_process_count", PInt (failed_process_count c));
       ("cancelled_process_count", PInt (cancelled_process_count c))].

Definition terminal_summary (e : execution) (counts : process_counts) (route_digest : ustr) (status : ExecutionStatus.t)
    (source : option ustr) (code : option ustr) : pyval :=
  obj [("workflow_revision_uuid", PStr (ei_workflow_revision (e_id e)));
       ("compiled_digest", PStr (ei_compiled_digest (e_id e)));
       ("route_decision_digest", PStr route_digest);
       ("terminal_status", PStr (u (execution_status_value status)));
       ("counts", counts_value counts);
       ("source_process_uuid", opt_text source);
       ("error_code", opt_text code)].

(** [_terminalize_execution_tx] *)
Definition terminalize_execution (now : Z) (id : ustr) (kind : option WorkflowTerminalKind)
    (source : option source_row) (route_digest : ustr) (code : option ustr) (disposition : option string) : tx World unit :=
  match kind with
  | None => raise (MkbError "workflow-terminal-invalid" 500)
  | Some kind =>
      let status := terminal_status kind in
      let! current := execution_row id in
      if terminal_execution (e_status current) then ret tt
      else
        (if scatter_root id current && bool_decide (status ∈ [ExecutionStatus.FAILED; ExecutionStatus.CANCELLED])
         then cancel_execution_tree now id current false ;! ret tt else ret tt) ;!
        let exhausted_zero := bool_decide (disposition = Some "exhausted_zero"%string) in
        let succeeded := bool_decide (status = ExecutionStatus.SUCCEEDED) in
        let proof := source ≫= sr_proof_ref in
        if succeeded && match source with None => true | Some _ => negb exhausted_zero && negb (nonempty proof) end
        then fail_execution_integrity now id "workflow-success-proof-missing"
        else if exhausted_zero && bool_decide (kind = TK_NOOP)
        then fail_execution_integrity now id "TASK_DISPOSITION_UNSUPPORTED"
        else
          refresh_execution_counts now id ;!
          let! row := execution_row id in
          let! summary := lift (stable_digest (terminal_summary current (e_counts row) route_digest status (sr_uuid <$> source) code)) in
          let final_error :=
            match code with
            | Some (_ :: _) => code
            | _ => if succeeded then None else Some (u "workflow-terminal-failure")
            end in
          let! updated :=
            update_execution id
              (ex_terminalize status (source ≫= sr_manifest_ref)
                 (if exhausted_zero then None else proof) final_error summary now) in
          if updated then
            project_root_task now id current status source final_error disposition ;!
            notify_parent now current
          else ret tt
  end.

(** ** The immutable plan of an execution *)

(** [_assert_execution_binding] *)
Definition assert_execution_binding (e : execution) : tx World WorkflowDefinition :=
  let! w := gets d_world in
  match workflow_revision w (ei_workflow_revision (e_id e)) with
  | None => raise (MkbError "workflow-binding-missing" 503)
  | Some (digest, key) =>
      require (ueqb digest (ei_compiled_digest (e_id e)) && bool_decide (key ∈ ec_active_keys cfg))
        (MkbError "workflow-binding-mismatch" 409) ;!
      match dget (ec_plans cfg) (ei_compiled_digest (e_id e)) with
      | None => raise (MkbError "workflow-compiled-plan-unavailable" 503)
      | Some plan =>
          require (bool_decide (workflow_key plan = key)) (MkbError "workflow-binding-mismatch" 409) ;!
          require (bool_decide ((list_to_set (workflow_step_keys w (ei_workflow_revision (e_id e))) : gset string)
                                = list_to_set (map step_key (steps plan))))
            (MkbError "workflow-step-registry-mismatch" 409) ;!
          ret plan
      end
  end.

Definition plan_step (plan : WorkflowDefinition) (key : string) : option WorkflowStepDefinition :=
  find (fun s => bool_decide (step_key s = key)) (steps plan).

(** [_assert_process_declared] *)
Definition process_declared (plan : WorkflowDefinition) (p : process) : bool :=
  match plan_step plan (ps_step_key (p_spec p)) with
  | Some s =>
      bool_decide (step_kind s = PROCESS) && bool_decide (process_key s = Some (ps_process_key (p_spec p)))
      && bool_decide (contract_version s = ps_contract_version (p_spec p))
  | None => false
  end.
Definition assert_process_declared (plan : WorkflowDefinition) (p : process) : tx World unit :=
  require (process_declared plan p) (MkbError "workflow-process-undeclared" 409).
End engine.
