(* ===== verification/Materialize.v ===== *)
(** * Materialization of processes and application of routes

    Model of the writing half of [src/runtime/workflow/runtime_materialize.py]:
    [_input_manifest_tx], [_materialize_process_tx], [_enter_selected_output_tx],
    [_enter_control_tx], [_apply_routes_tx] and [_safe_replay], over the engine's database.

    The two waiting controls (human review, scatter join) are services of their owners.  A
    selected-output control applies the routes that leave it in turn, so the two functions
    are one recursion on [fuel]; the acyclic graph of an accepted definition bounds it. *)

From S2P Require Import Prelude PyText PyValue Txn WorkflowContracts Dispatch Strategies Routing Outbox ProcessRows ExecutionRows.
From S2P Require Import Engine.

Open Scope Z_scope.
Open Scope mkb_scope.

Definition source_kind_value (k : WorkflowBindingSourceKind) : string :=
  match k with
  | EXECUTION_CONTEXT => "execution_context" | INTAKE_SNAPSHOT => "intake_snapshot" | PRIOR_OUTPUT => "prior_output"
  | CONTROL_VALUE => "control_value" | REGISTRY_REF => "registry_ref"
  end.
Definition phase_value (p : WorkflowPhaseKey) : string :=
  match p with
  | RESOLVING_SOURCE => "resolving_source" | CLEANING => "cleaning" | SCATTERING => "scattering"
  | PREFLIGHT_ADMISSION => "preflight_admission" | AWAITING_HUMAN_REVIEW => "awaiting_human_review"
  | STRUCTURIZING => "structurizing" | CONSTRUCTING => "constructing" | VECTORIZING_INDEXING => "vectorizing_indexing"
  | VALIDATING_PUBLICATION => "validating_publication" | FAN_IN => "fan_in" | UPDATING_METADATA => "updating_metadata"
  | DEACTIVATING => "deactivating" | DELETING => "deleting" | PURGING => "purging" | REBUILDING_INDEX => "rebuilding_index"
  end.
Definition priority_value (p : Priority) : string :=
  match p with low => "low" | normal => "normal" | high => "high" | urgent => "urgent" end.
(** [_TASK_PRIORITY_RANK] *)
Definition priority_rank (p : Priority) : Z := match p with low => 100 | normal => 200 | high => 300 | urgent => 400 end.
Definition binding_state_value (s : ActualBindingState) : string :=
  match s with legacy_unverifiable => "legacy_unverifiable" | unsealed => "unsealed" | sealed => "sealed" end.

Definition opt_string (o : option string) : pyval := match o with Some s => PStr (u s) | None => PNone end.

(** The intents that never pass the clean boundary. *)
Definition UNSEALED_INTENTS : list ustr := [u "intake.rebuild"; u "intake.update_metadata"; u "index.rebuild"].

(** [_safe_replay] of a stored policy ([None] for a missing or unreadable one). *)
Definition safe_replay (policy : option pyval) : bool :=
  match policy with
  | Some (PDict d) => match dget d (u "safe_replay") with Some (PBool true) => true | _ => false end
  | _ => false
  end.

Section materialize.
Context {World : Type} {H : Host} {SV : Services World} (cfg : engine_config).

(** ** The input manifest *)

(** What a prior output offers: ref, digest, completion time, selected port. *)
Definition offer : Type := option ustr * option ustr * option Z * option string.

(** The latest row of a step: [ORDER BY completed_at DESC LIMIT 1]. *)
Definition later_first (a b : ustr * process) : bool :=
  match p_completed_at a.2, p_completed_at b.2 with
  | Some x, Some y => y <=? x
  | Some _, None => true
  | None, Some _ => false
  | None, None => true
  end.
Definition latest_process (id : ustr) (step : string) (d : db World) : option (ustr * process) :=
  head (py_sorted later_first (rows_where (fun _ p => of_execution id p && bool_decide (ps_step_key (p_spec p) = step))
                                 (d_processes d))).

Definition is_selected_output (plan : WorkflowDefinition) (step : string) : bool :=
  match plan_step plan step with Some s => bool_decide (control_key s = Some "selected_output"%string) | None => false end.

Definition prior_offer (plan : WorkflowDefinition) (id : ustr) (source : string) (d : db World) : option offer :=
  if is_selected_output plan source then
    match d_selected d !! (id, source) with
    | Some o => Some (Some (so_manifest_ref o), Some (so_manifest_digest o), Some (so_projected_at o), Some (so_candidate_port o))
    | None => None
    end
  else
    match latest_process id source d with
    | Some (_, p) =>
        if bool_decide (p_status p = ProcessStatus.SUCCEEDED)
        then Some (output_manifest_ref (p_outcome p), output_manifest_digest (p_outcome p), p_completed_at p, None)
        else None
    | None => None
    end.

(** [completed_at >= primary_completed_at], an absent time being the least. *)
Definition not_earlier (a b : option Z) : bool :=
  match a, b with _, None => true | None, Some _ => false | Some x, Some y => y <=? x end.

(** The manifest entries so far, and the primary input: ref, digest, completion time. *)
Definition input_acc : Type := list pyval * (option ustr * option ustr * option Z).

Definition bind_input (plan : WorkflowDefinition) (id : ustr) (step : WorkflowStepDefinition) (d : db World)
    (acc : input_acc) (b : WorkflowBindingDefinition) : result input_acc :=
  let '(entries, primary) := acc in
  if negb (bool_decide (target_step_key b = step_key step)) then Ok acc
  else
    let kind := ("kind"%string, PStr (u (source_kind_value (source_kind b)))) in
    let entry source := obj [("target_slot", PStr (u (target_slot_name b))); ("source", obj source)] in
    if bool_decide (source_kind b = PRIOR_OUTPUT) then
      match source_step_key b ≫= fun s => prior_offer plan id s d with
      | None =>
          match find (fun p => bool_decide (slot_name p = target_slot_name b)) (input_ports step) with
          | Some p => if required p then Err (MkbError "workflow-binding-unavailable" 409) else Ok acc
          | None => Err (MkbError "workflow-binding-unavailable" 409)
          end
      | Some (ref, digest, at_, port) =>
          let source := [kind; ("step_key"%string, opt_string (source_step_key b));
                         ("port"%string, opt_string (source_port_name b)); ("ref"%string, opt_text ref);
                         ("digest"%string, opt_text digest)]
                        ++ match port with
                           | Some s => if bool_decide (s = ""%string) then [] else [("selected_candidate_port"%string, PStr (u s))]
                           | None => []
                           end in
          Ok (entries ++ [entry source],
              if not_earlier at_ primary.2 then (ref, digest, at_) else primary)
      end
    else
      Ok (entries ++ [entry [kind; ("ref_key"%string, opt_string (source_ref_key b)); ("execution_uuid"%string, PStr id)]], primary).

(** [_input_manifest_tx] *)
Definition input_manifest (plan : WorkflowDefinition) (id : ustr) (e : execution) (step : WorkflowStepDefinition) (d : db World)
    : result (pyval * ustr * ustr) :=
  let* '(entries, (primary_ref, primary_digest, _)) := foldM (bind_input plan id step d) ([], (None, None, None)) (bindings plan) in
  let manifest :=
    obj [("schema_version", PStr (u "mkb.workflow-input-manifest.v1")); ("execution_uuid", PStr id);
         ("workflow_revision_uuid", PStr (ei_workflow_revision (e_id e))); ("step_key", PStr (u (step_key step)));
         ("bindings", PList entries)] in
  match primary_ref, primary_digest with
  | Some ref, Some digest => Ok (manifest, ref, digest)
  | _, _ =>
      match ei_manifest_ref (e_id e), ei_manifest_digest (e_id e) with
      | Some ((_ :: _) as ref), Some ((_ :: _) as digest) => Ok (manifest, ref, digest)
      | _, _ =>
          let* fallback := stable_digest manifest in
          Ok (manifest, u "mkbworkflow-test-input:v1:" ++ fallback, fallback)
      end
  end.

(** ** Processes *)

Definition materialization_value (id : ustr) (step : string) (route_digest : ustr) : pyval :=
  obj [("execution_uuid", PStr id); ("step_key", PStr (u step)); ("route_decision_digest", PStr route_digest)].

Definition process_spec_value (e : execution) (step_uuid : ustr) (step : WorkflowStepDefinition) (input_binding route_digest : ustr)
    (t : task) (deadline : pyval) : pyval :=
  obj [("workflow_revision_uuid", PStr (ei_workflow_revision (e_id e))); ("workflow_step_uuid", PStr step_uuid);
       ("step_key", PStr (u (step_key step))); ("process_key", opt_string (process_key step));
       ("contract_version", opt_string (contract_version step)); ("input_binding_digest", PStr input_binding);
       ("config_snapshot_digest", PStr (ei_config_digest (e_id e)));
       ("actual_binding_state", PStr (u (binding_state_value (actual_binding_state (e_seal e)))));
       ("actual_binding_digest", opt_text (projected_actual_digest (e_seal e)));
       ("route_decision_digest", PStr route_digest); ("priority", PStr (u (priority_value (t_priority t))));
       ("deadline_at", deadline)].

Definition replayable (key : string) : bool :=
  negb (bool_decide (key ∈ GENERATE_PROCESS_KEYS)) && negb (bool_decide (key ∈ OVER_BUDGET_PROCESS_KEYS))
  && negb (bool_decide (key = VECTORIZE)).

Definition control_snapshot (key : string) (route_digest : ustr) : pyval :=
  obj [("safe_replay", PBool (replayable key)); ("retry_delay_seconds", PInt (ec_retry_delay_seconds cfg));
       ("materialized_from_route", PStr route_digest)].

(** The text of a stored time in a digest. *)
Definition time_value (o : option Z) : pyval := match o with Some z => PStr (timestamp z) | None => PNone end.

(** The clean boundary of [_materialize_process_tx]. *)
Definition clean_boundary (key : string) (t : task) (e : execution) : result unit :=
  if requires_actual_binding (u key) && negb (bool_decide (t_request_intent t ∈ UNSEALED_INTENTS)) then
    match actual_binding_state (e_seal e) with
    | unsealed => Err (MkbError "ACTUAL_S05_UNSEALED" 409)
    | sealed => ensure (present (projected_actual_digest (e_seal e))) (MkbError "ACTUAL_S05_INTEGRITY" 503)
    | legacy_unverifiable => Ok tt
    end
  else Ok tt.

Definition materialized_already (id step_uuid key : ustr) (d : db World) : bool :=
  negb (count_rows (fun _ p => of_execution id p && ueqb (ps_workflow_step (p_spec p)) step_uuid
                               && ueqb (ps_materialization_key (p_spec p)) key) (d_processes d) =? 0).

(** [INSERT INTO mkb_processes]: a used primary key raises. *)
Definition insert_process (id : ustr) (p : process) : tx World unit := fun d =>
  if bool_decide (is_Some (d_processes d !! id)) then Err IntegrityError
  else Ok (tt, set_processes (<[id := p]> (d_processes d)) d).

(** [_materialize_process_tx] *)
Definition materialize_process (now : Z) (plan : WorkflowDefinition) (id : ustr) (e : execution) (step : WorkflowStepDefinition)
    (route_digest : ustr) : tx World bool :=
  let! w := gets d_world in
  match workflow_step_uuid w (ei_workflow_revision (e_id e)) (step_key step) with
  | None => raise (MkbError "workflow-step-missing" 503)
  | Some step_uuid =>
      let! row := gets (fun d => d_tasks d !! (ei_team (e_id e), ei_task (e_id e))) in
      match row with
      | None => raise (MkbError "workflow-task-missing" 409)
      | Some t =>
          let key := default "None"%string (process_key step) in
          lift (clean_boundary key t e) ;!
          let! input := (fun d => let* m := input_manifest plan id e step d in Ok (m, d)) in
          let! input_binding := lift (stable_digest input.1.1) in
          let! materialization_key := lift (stable_digest (materialization_value id (step_key step) route_digest)) in
          let! spec_digest :=
            lift (stable_digest (process_spec_value e step_uuid step input_binding route_digest t (time_value (t_deadline_at t)))) in
          let! process_uuid := fresh_uuid in
          let! exists_already := gets (materialized_already id step_uuid materialization_key) in
          if exists_already then ret false
          else
            let spec :=
              Build_process_spec (ei_team (e_id e)) id (ei_task (e_id e)) step_uuid (step_key step) key (contract_version step)
                materialization_key route_digest spec_digest input.1.2 input.2 (ei_config_ref (e_id e))
                (ei_config_digest (e_id e)) (priority_rank (t_priority t)) (t_deadline_at t) (ec_default_max_retries cfg)
                (ec_default_max_recoveries cfg) (Some (control_snapshot key route_digest)) now in
            insert_process process_uuid (new_process spec now) ;!
            let! updated := update_execution id (ex_materialized (phase_value <$> phase_key step) process_uuid now) in
            require updated (MkbError "PROCESS_MATERIALIZATION_EXECUTION_FENCE" 409) ;!
            enqueue now (ei_team (e_id e)) "wake_process"
              (fields [("execution_uuid", PStr id); ("process_uuid", PStr process_uuid)])
              (u "materialize-process:" ++ process_uuid) ;!
            ret true
      end
  end.

(** ** Selected outputs *)

Record candidate := {
  ca_port : string;
  ca_source : option (ustr * process);
  ca_ref : ustr;
  ca_digest : ustr;
  ca_fallback : bool
}.

(** The succeeded rows of a step, [ORDER BY completed_at, process_uuid]. *)
Definition earlier_first (a b : ustr * process) : bool :=
  match p_completed_at a.2, p_completed_at b.2 with
  | Some x, Some y => (x <? y) || (x =? y) && str_le a.1 b.1
  | None, Some _ => true
  | Some _, None => false
  | None, None => str_le a.1 b.1
  end.
Definition succeeded_rows (id : ustr) (step : string) (d : db World) : list (ustr * process) :=
  py_sorted earlier_first
    (rows_where (fun _ p => of_execution id p && bool_decide (ps_step_key (p_spec p) = step)
                            && bool_decide (p_status p = ProcessStatus.SUCCEEDED)) (d_processes d)).

(** The candidates of the prior outputs; [None] when a row lacks its manifest. *)
Fixpoint rows_candidates (port : string) (rows : list (ustr * process)) : option (list candidate) :=
  match rows with
  | [] => Some []
  | (k, p) :: rows =>
      match output_manifest_ref (p_outcome p), output_manifest_digest (p_outcome p) with
      | Some ((_ :: _) as ref), Some ((_ :: _) as digest) =>
          match rows_candidates port rows with
          | Some cs => Some (Build_candidate port (Some (k, p)) ref digest false :: cs)
          | None => None
          end
      | _, _ => None
      end
  end.
Fixpoint prior_candidates (id : ustr) (bs : list WorkflowBindingDefinition) (d : db World) : option (list candidate) :=
  match bs with
  | [] => Some []
  | b :: bs =>
      if negb (bool_decide (source_kind b = PRIOR_OUTPUT)) then prior_candidates id bs d
      else
        match rows_candidates (target_slot_name b) (match source_step_key b with Some s => succeeded_rows id s d | None => [] end) with
        | Some cs => match prior_candidates id bs d with Some cs' => Some (cs ++ cs') | None => None end
        | None => None
        end
  end.

Definition fallback_candidates (step : WorkflowStepDefinition) (bs : list WorkflowBindingDefinition) (e : execution)
    : list candidate :=
  match control_fallback_port step with
  | None => []
  | Some port =>
      match find (fun b => bool_decide (target_slot_name b = port)) bs with
      | Some b =>
          if bool_decide (source_kind b = EXECUTION_CONTEXT) then
            match ei_manifest_ref (e_id e), ei_manifest_digest (e_id e) with
            | Some ((_ :: _) as ref), Some ((_ :: _) as digest) => [Build_candidate (target_slot_name b) None ref digest true]
            | _, _ => []
            end
          else []
      | None => []
      end
  end.

Definition selection_material (id : ustr) (step : WorkflowStepDefinition) (c : candidate) (fact route_digest : ustr) : pyval :=
  obj [("execution_uuid", PStr id); ("control_step_key", PStr (u (step_key step)));
       ("control_version", PStr (u (default ""%string (control_version step)))); ("candidate_port", PStr (u (ca_port c)));
       ("selected_source_process_uuid", opt_text (fst <$> ca_source c));
       ("accepted_outcome_digest", opt_text (ca_source c ≫= fun s => accepted_outcome_digest (p_outcome s.2)));
       ("output_manifest_ref", PStr (ca_ref c)); ("output_manifest_digest", PStr (ca_digest c));
       ("representation_fact_digest", PStr fact); ("route_decision_digest", PStr route_digest);
       ("fallback_used", PBool (ca_fallback c))].

(** [INSERT OR IGNORE INTO mkb_workflow_selected_outputs]: the unique index and the checks on
    the digests make a row ignored; the surviving digest is read back. *)
Definition insert_selected (id : ustr) (step : string) (o : selected_output) (d : db World) : db World :=
  if bool_decide (is_Some (d_selected d !! (id, step)))
     || negb (is_digest (so_manifest_digest o)) || negb (is_digest (so_route_digest o)) || negb (is_digest (so_selection_digest o))
  then d else set_selected (<[(id, step) := o]> (d_selected d)) d.

(** The source columns that the candidate query selects: the proof is not among them. *)
Definition candidate_source (c : candidate) : option source_row :=
  match ca_source c with Some (k, _) => Some (Build_source_row k (Some (ca_ref c)) None) | None => None end.

(** The selecting half of [_enter_selected_output_tx]: [None] when the execution failed
    closed or was over, otherwise the row that was read and the source of the output. *)
Definition project_selection (now : Z) (plan : WorkflowDefinition) (id : ustr) (step : WorkflowStepDefinition)
    (route_digest : ustr) : tx World (option (execution * option source_row)) :=
  let! current := execution_row id in
  if stopping (e_status current) then ret None
  else
    let bs := List.filter (fun b => bool_decide (target_step_key b = step_key step)) (bindings plan) in
    let! prior := gets (prior_candidates id bs) in
    match prior with
    | None => fail_execution_integrity now id "workflow-selected-output-proof-invalid" ;! ret None
    | Some cs =>
        match (if (length cs =? 0)%nat then fallback_candidates step bs current else cs) with
        | [] => fail_execution_integrity now id "workflow-selected-output-missing" ;! ret None
        | [selected] =>
            let! w := gets d_world in
            let! fact :=
              match representation_fact w id with
              | Some fact => ret fact
              | None =>
                  lift (stable_digest (obj [("legacy_representation_fact", PBool true); ("execution_uuid", PStr id);
                                            ("candidate_output_digest", PStr (ca_digest selected))]))
              end in
            let! digest := lift (stable_digest (selection_material id step selected fact route_digest)) in
            fresh_uuid ;!
            modify (insert_selected id (step_key step)
                      (Build_selected_output (ca_port selected) (fst <$> ca_source selected) (ca_ref selected) (ca_digest selected)
                         route_digest digest (ca_fallback selected) now)) ;!
            let! durable := gets (fun d => so_selection_digest <$> d_selected d !! (id, step_key step)) in
            if bool_decide (durable = Some digest) then ret (Some (current, candidate_source selected))
            else fail_execution_integrity now id "workflow-selected-output-conflict" ;! ret None
        | _ => fail_execution_integrity now id "workflow-selected-output-conflict" ;! ret None
        end
    end.

(** ** Routes *)

Definition result_disposition (context : pydict) : option string :=
  match dget context (u "operation_mode") with
  | Some v => if py_eqb v (PStr (u "index_rebuild_noop")) then Some "exhausted_zero"%string else None
  | None => None
  end.

Definition execution_ref_of (id : ustr) (e : execution) : execution_ref :=
  Build_execution_ref id (ei_workflow_revision (e_id e)).

(** [_enter_control_tx] for the two waiting controls. *)
Definition enter_wait (now : Z) (plan : WorkflowDefinition) (id : ustr) (step : WorkflowStepDefinition) (route_digest : ustr)
    (source : option source_row) (context : pydict) : tx World bool :=
  if bool_decide (control_key step = Some "scatter_children_join"%string)
     || bool_decide (control_key step = Some "human_review_gate"%string)
  then enter_wait_control now plan id step route_digest source context
  else raise (MkbError "workflow-control-unsupported" 409).

(** [_apply_routes_tx], with [_enter_selected_output_tx] inlined where it recurs. *)
Fixpoint apply_routes (fuel : nat) (now : Z) (plan : WorkflowDefinition) (id : ustr) (e : execution) (dec : decision)
    (source : option source_row) (context : pydict) (terminal_error : option ustr) : tx World bool :=
  match fuel with
  | O => raise RecursionError
  | S fuel =>
      match dec_routes dec with
      | [] => fail_execution_integrity now id "workflow-route-unmatched" ;! ret false
      | routes =>
          any_loop
            (fun route =>
               match plan_step plan (to_step_key route) with
               | None => fail_execution_integrity now id "workflow-target-missing" ;! ret false
               | Some target =>
                   match step_kind target with
                   | TERMINAL =>
                       terminalize_execution now id (terminal_kind target) source (dec_digest dec) terminal_error
                         (result_disposition context) ;!
                       ret true
                   | PROCESS => materialize_process now plan id e target (dec_digest dec)
                   | CONTROL =>
                       if bool_decide (control_key target = Some "selected_output"%string) then
                         let! selection := project_selection now plan id target (dec_digest dec) in
                         match selection with
                         | None => ret false
                         | Some (current, selected) =>
                             let! next :=
                               lift (route_decision plan (execution_ref_of id current) (step_key target) SUCCEEDED []) in
                             apply_routes fuel now plan id current next selected [] None
                         end
                       else enter_wait now plan id target (dec_digest dec) source context
                   | _ => fail_execution_integrity now id "workflow-target-invalid" ;! ret false
                   end
               end)
            routes
      end
  end.

(** The selected-output controls of a path are distinct steps of the acyclic graph. *)
Definition route_fuel (plan : WorkflowDefinition) : nat := S (length (steps plan)).
End materialize.
