(* ===== verification/Outcome.v ===== *)
(** * Outcomes, retries and lease recovery

    Model of [src/runtime/workflow/runtime_outcome.py] ([accept_outcome],
    [promote_due_retries], [recover_expired_leases], [_route_after_terminal_process_tx],
    [_fail_process_tx]), of [_assert_outcome_identity], [_process_with_execution] and
    [_command_from_process] of [runtime_core.py] and of [canonical_outcome_digest] of
    [helpers.py].

    The random delay of a retry is an argument [jitter].  Error messages are not stored in
    the modelled rows. *)

From S2P Require Import Prelude PyText PyValue Txn WorkflowContracts Dispatch Strategies Routing Outbox ProcessRows ExecutionRows.
From S2P Require Import Engine Materialize.

Open Scope Z_scope.
Open Scope mkb_scope.

Definition disposition_value (d : OutcomeDisposition) : string :=
  match d with
  | O_SUCCEEDED => "succeeded" | O_FAILED => "failed" | O_RETRYABLE_FAILURE => "retryable_failure" | O_WAITING => "waiting"
  end.

(** [model_dump] without [outcome_digest]. *)
Definition outcome_value (o : ProcessOutcome) : pyval :=
  obj [("schema_version", PStr (u "mkb.process-outcome.v1")); ("team_uuid", PStr (po_team o)); ("task_uuid", PStr (po_task o));
       ("execution_uuid", PStr (po_execution o)); ("process_uuid", PStr (po_process o));
       ("fencing_generation", PInt (po_fencing_generation o)); ("disposition", PStr (u (disposition_value (po_disposition o))));
       ("output_manifest_ref", opt_text (po_output_manifest_ref o));
       ("output_manifest_digest", opt_text (po_output_manifest_digest o)); ("proof_ref", opt_text (po_proof_ref o));
       ("proof_digest", opt_text (po_proof_digest o)); ("error_code", opt_text (po_error_code o));
       ("error_message", opt_text (po_error_message o)); ("payload_extra", PDict (po_payload_extra o))].

Definition ConflictError (code : string) : exn := MkbError code 409.

Section outcome.
Context {World : Type} {H : Host} {SV : Services World} (cfg : engine_config).

(** [canonical_outcome_digest] *)
Definition canonical_outcome_digest (o : ProcessOutcome) : result ustr := stable_digest (outcome_value o).

(** The join of [_process_with_execution]: the process, its execution and its task. *)
Definition joined : Type := process * execution * task.
Definition join_process (p : process) (d : db World) : option joined :=
  match d_executions d !! ps_execution (p_spec p) with
  | Some e =>
      if ueqb (ei_team (e_id e)) (ps_team (p_spec p)) then
        match d_tasks d !! (ps_team (p_spec p), ps_task (p_spec p)) with Some t => Some (p, e, t) | None => None end
      else None
  | None => None
  end.
Definition process_with_execution (id : ustr) : tx World joined := fun d =>
  match d_processes d !! id ≫= fun p => join_process p d with
  | Some j => Ok (j, d)
  | None => Err (MkbError "process-not-found" 404)
  end.

(** [_assert_outcome_identity] *)
Definition assert_outcome_identity (p : process) (o : ProcessOutcome) : result unit :=
  check ueqb (ps_team (p_spec p)) (po_team o) && ueqb (ps_task (p_spec p)) (po_task o)
        && ueqb (ps_execution (p_spec p)) (po_execution o) else ConflictError "outcome-identity-mismatch" ;;
  ensure (fence p =? po_fencing_generation o) (ConflictError "stale-process-fence").

(** [_command_from_process] *)
Definition command_from_process (id : ustr) (j : joined) : result ProcessCommand :=
  let '(p, e, t) := j in
  let s := p_spec p in
  check negb (ueqb (ps_input_ref s) []) && negb (ueqb (ps_input_digest s) []) && negb (ueqb (ps_config_ref s) [])
        && negb (ueqb (ps_config_digest s) []) && negb (ueqb (ps_spec_digest s) [])
        && negb (ueqb (ei_domain_binding_digest (e_id e)) []) else MkbError "process-command-integrity" 503 ;;
  let state := actual_binding_state (e_seal e) in
  let actual := projected_actual_digest (e_seal e) in
  check negb (bool_decide (state = sealed) && absent actual) else MkbError "ACTUAL_S05_INTEGRITY" 503 ;;
  check negb (bool_decide (state = unsealed) && requires_actual_binding (u (ps_process_key s))
              && negb (bool_decide (t_request_intent t ∈ UNSEALED_INTENTS))) else ConflictError "ACTUAL_S05_UNSEALED" ;;
  Ok (Build_ProcessCommand (ps_team s) (ps_task s) (ei_trace (e_id e)) (ps_execution s) id (ps_step_key s) (ps_process_key s)
        (ps_contract_version s) (fence p) (ps_spec_digest s) (ps_input_ref s) (ps_input_digest s) (ps_config_ref s)
        (ps_config_digest s) actual state (ei_domain_binding_digest (e_id e)) (dispatch_pool (p_dispatch p)) (t_priority t)).

(** ** Failure of a process *)

(** [_fail_process_tx] with the row its caller read: a row that another owner has fenced
    meanwhile is left alone. *)
Definition fail_process (now : Z) (id : ustr) (p : process) (code : ustr) (disposition : string) (digest : option ustr) : tx World unit :=
  let! updated := update_process id (upd_fail digest code (u disposition) now (fence p)) in
  if updated then
    fun d => let* w := write_pending_evidence id p (d_world d) in Ok (tt, set_world w d)
  else
    let! current := gets (fun d => d_processes d !! id) in
    match current with
    | None => ret tt
    | Some c => if fence c =? fence p then raise (ConflictError "stale-process-fence") else ret tt
    end.

(** ** Routing after a terminal process *)

Definition typed_overlay (context route_context : pydict) : pydict :=
  let copy_int k ctx :=
    match dget route_context (u k) with
    | Some (PInt z) => dset ctx (u k) (PInt z) | Some (PBool b) => dset ctx (u k) (PBool b) | _ => ctx
    end in
  let ctx := match dget route_context (u "operation_mode") with
             | Some (PStr s) => dset context (u "operation_mode") (PStr s) | _ => context end in
  let ctx := copy_int "target_count" ctx in
  let ctx := copy_int "rebuild_count" ctx in
  match dget route_context (u "gate_action") with Some v => dset ctx (u "gate_action") v | None => ctx end.

(** The clean workers among the targets of a decision. *)
Definition clean_targets (plan : WorkflowDefinition) (rs : list WorkflowRouteDefinition) : list (string * string) :=
  omap (fun r =>
          match plan_step plan (to_step_key r) with
          | Some s => match process_key s with
                      | Some k => if String.prefix "clean." k then Some (step_key s, k) else None
                      | None => None
                      end
          | None => None
          end) rs.

Definition unsealed_intent (context : pydict) : bool :=
  match dget context (u "request_intent") with Some (PStr s) => bool_decide (s ∈ UNSEALED_INTENTS) | _ => false end.

(** The tables of [seal_actual_binding_tx] as the engine's database holds them. *)
Definition seal_tables (d : db World) : seal_db :=
  Build_seal_db (decode_history (d_world d))
    ((fun e => Build_seal_execution (ei_team (e_id e)) (e_seal e) (e_row_revision e) (timestamp (e_updated_at e)))
       <$> d_executions d) [].

(** The call of [seal_actual_binding_tx]: the seal columns of the execution row. *)
Definition seal_execution_row (now : Z) (call : seal_call) : tx World unit := fun d =>
  let* sealed := seal_actual_binding_tx (timestamp now) (seal_tables d) call in
  let* r := update_execution (execution_uuid call) (ex_sealed sealed.1 now) d in
  Ok (tt, r.2).

(** The sealing step of [_route_after_terminal_process_tx], when the decision selects a clean
    worker; it returns the row to route with. *)
Definition seal_selected_worker (now : Z) (plan : WorkflowDefinition) (id : ustr) (e : execution) (dec : decision)
    (context : pydict) : tx World execution :=
  match clean_targets plan (dec_routes dec) with
  | [] => ret e
  | targets =>
      if bool_decide (actual_binding_state (e_seal e) = legacy_unverifiable) || unsealed_intent context then ret e
      else
        match targets with
        | [(step, key)] =>
            let! strategy := lift (clean_strategy_for_step (u step) (u key)) in
            (if bool_decide (actual_binding_state (e_seal e) = sealed) then
               require (bool_decide (actual_clean_step_key (e_seal e) = Some (u step))
                        && bool_decide (actual_clean_process_key (e_seal e) = Some (u key))
                        && bool_decide (actual_clean_strategy (e_seal e) = Some strategy)) SEAL_CONFLICT
             else seal_execution_row now (Build_seal_call id (dec_digest dec) (u step) (u key) strategy)) ;!
            execution_row id
        | _ => raise (ConflictError "ACTUAL_S05_CLEAN_ROUTE_AMBIGUOUS")
        end
  end.

(** [_route_after_terminal_process_tx] *)
Definition route_after_terminal (now : Z) (id : ustr) (e : execution) (pid : ustr) (p : process)
    (selector : WorkflowOutcomeSelector) (route_context : pydict) (terminal_error : option ustr) : tx World unit :=
  let! plan := assert_execution_binding cfg e in
  let! facts := (fun d => let* c := typed_route_context id e d in Ok (c, d)) in
  let typed := typed_overlay facts route_context in
  let! dec := lift (route_decision plan (execution_ref_of id e) (ps_step_key (p_spec p)) selector typed) in
  let! e' := seal_selected_worker now plan id e dec typed in
  apply_routes cfg (route_fuel plan) now plan id e' dec (Some (full_source pid p)) typed terminal_error ;!
  ret tt.

(** ** Acceptance of an outcome *)

Definition all_present (o : ProcessOutcome) : bool :=
  nonempty (po_output_manifest_ref o) && nonempty (po_output_manifest_digest o) && nonempty (po_proof_ref o)
  && nonempty (po_proof_digest o).

Definition text (o : option ustr) : ustr := default [] o.

(** The process failed: record it and route its failure. *)
Definition fail_and_route (now : Z) (eid : ustr) (e : execution) (pid : ustr) (p : process) (code : ustr) (disposition : string)
    (digest : option ustr) (route_context : pydict) : tx World unit :=
  fail_process now pid p code disposition digest ;!
  route_after_terminal now eid e pid p FAILED route_context (Some code).

Definition accept_success (now : Z) (eid : ustr) (e : execution) (pid : ustr) (j : joined) (o : ProcessOutcome) : tx World unit :=
  match commit_outcome with
  | Some commit =>
      let! command := lift (command_from_process pid j) in
      fun d => let* d' := commit command o d in Ok (tt, d')
  | None => ret tt
  end ;!
  let! updated :=
    update_process pid (upd_succeed (po_outcome_digest o) (text (po_output_manifest_ref o)) (text (po_output_manifest_digest o))
                          (text (po_proof_ref o)) (text (po_proof_digest o)) now (po_fencing_generation o)) in
  require updated (ConflictError "stale-process-fence") ;!
  let! accepted := process_with_execution pid in
  route_after_terminal now eid e pid accepted.1.1 SUCCEEDED (po_payload_extra o) None.

(** The cap of the retry delay: [max(retry_delay_seconds, 0.001) * 2 ** retry_count]. *)
Definition retry_cap (p : process) : Z :=
  Z.max (ec_retry_delay_seconds cfg * 1000000) 1000 * 2 ^ retry_count (p_counters p).

Definition accept_retry (now jitter : Z) (eid : ustr) (pid : ustr) (p : process) (o : ProcessOutcome) : tx World unit :=
  let due := now + jitter in
  let! updated := update_process pid (upd_retry (po_outcome_digest o) (text (po_error_code o)) due now (po_fencing_generation o)) in
  require updated (ConflictError "stale-process-fence") ;!
  update_execution eid (ex_retry_wait pid due now) ;!
  enqueue now (ps_team (p_spec p)) "wake_process"
    (fields [("execution_uuid", PStr (ps_execution (p_spec p))); ("process_uuid", PStr pid)])
    (u "retry-process:" ++ pid ++ u ":" ++ dec (retry_count (p_counters p) + 1)).

(** [accept_outcome] *)
Definition accept_outcome (now jitter : Z) (o : ProcessOutcome) : tx World bool :=
  let! digest := lift (canonical_outcome_digest o) in
  require (ueqb digest (po_outcome_digest o)) (ConflictError "outcome-digest-invalid") ;!
  let pid := po_process o in
  let! j := process_with_execution pid in
  let p := j.1.1 in
  lift (assert_outcome_identity p o) ;!
  if terminal_process (p_status p) then
    if bool_decide (accepted_outcome_digest (p_outcome p) = Some (po_outcome_digest o)) then ret false
    else raise (ConflictError "stale-process-outcome")
  else
    require (status_in p [ProcessStatus.RUNNING]) (ConflictError "process-not-running") ;!
    let eid := ps_execution (p_spec p) in
    let! e := execution_row eid in
    require (negb (terminal_execution (e_status e))) (ConflictError "TERMINAL_OUTCOME_FENCED") ;!
    require (negb (ex_in e [ExecutionStatus.CANCELLING])) (ConflictError "execution-cancelling") ;!
    let has_error := nonempty (po_error_code o) && nonempty (po_error_message o) in
    match po_disposition o with
    | O_SUCCEEDED =>
        if all_present o then accept_success now eid e pid j o
        else fail_and_route now eid e pid p (u "outcome-proof-invalid") "integrity" None []
    | O_RETRYABLE_FAILURE =>
        require has_error (MkbError "outcome-error-required" 422) ;!
        if retry_count (p_counters p) <? ps_max_retries (p_spec p) then accept_retry now jitter eid pid p o
        else fail_and_route now eid e pid p (u "retry-exhausted") "retry-exhausted" (Some (po_outcome_digest o)) []
    | O_FAILED =>
        require has_error (MkbError "outcome-error-required" 422) ;!
        fail_and_route now eid e pid p (text (po_error_code o)) "non-retryable" (Some (po_outcome_digest o)) (po_payload_extra o)
    | O_WAITING => raise (MkbError "unsupported-process-outcome" 422)
    end ;!
    refresh_execution_counts now eid ;!
    ret true.

(** ** Due retries *)

Definition wake (now : Z) (pid : ustr) (p : process) (dedupe : ustr) : tx World unit :=
  enqueue now (ps_team (p_spec p)) "wake_process"
    (fields [("execution_uuid", PStr (ps_execution (p_spec p))); ("process_uuid", PStr pid)]) dedupe.

Definition retry_le (a b : ustr * process) : bool :=
  match p_next_retry_at a.2, p_next_retry_at b.2 with
  | Some x, Some y => (x <? y) || (x =? y) && str_le a.1 b.1
  | None, _ => true
  | Some _, None => false
  end.

(** The executions that a join on [mkb_executions] finds for a process. *)
Definition execution_of (p : process) (d : db World) : option execution :=
  match d_executions d !! ps_execution (p_spec p) with
  | Some e => if ueqb (ei_team (e_id e)) (ps_team (p_spec p)) then Some e else None
  | None => None
  end.

Definition due_retries (now : Z) (limit : Z) (d : db World) : list (ustr * process) :=
  take (Z.to_nat limit)
    (py_sorted retry_le
       (rows_where
          (fun _ p => status_in p [ProcessStatus.RETRY_WAIT]
                      && match p_next_retry_at p with Some t => t <=? now | None => false end
                      && match execution_of p d with Some e => negb (stopping (e_status e)) | None => false end)
          (d_processes d))).

Definition promote_one (now : Z) (pid : ustr) (p : process) : tx World bool :=
  let! updated := update_process pid (upd_promote now (p_row_revision p)) in
  if updated then
    update_execution (ps_execution (p_spec p)) (ex_retry_ready pid now) ;!
    wake now pid p (u "retry-ready:" ++ pid ++ u ":" ++ dec (p_row_revision p + 1)) ;!
    ret true
  else ret false.

(** [promote_due_retries] *)
Definition promote_due_retries (now : Z) (limit : Z) : tx World Z :=
  if limit <? 1 then ret 0
  else
    let! rows := gets (due_retries now limit) in
    count_loop (fun r => promote_one now r.1 r.2) rows.

(** ** Expired leases *)

Definition lease_le (a b : ustr * process) : bool :=
  match lease_expires_at (p_lease a.2), lease_expires_at (p_lease b.2) with
  | Some x, Some y => (x <? y) || (x =? y) && str_le a.1 b.1
  | None, _ => true
  | Some _, None => false
  end.

Definition expired_leases (now : Z) (limit : Z) (d : db World) : list (ustr * process) :=
  take (Z.to_nat limit)
    (py_sorted lease_le
       (rows_where
          (fun _ p => status_in p [ProcessStatus.CLAIMED; ProcessStatus.RUNNING; ProcessStatus.CANCELLING]
                      && match lease_expires_at (p_lease p) with Some t => t <=? now | None => false end
                      && match execution_of p d with Some _ => true | None => false end)
          (d_processes d))).

(** One row of [recover_expired_leases]. *)
Definition recover_one (now : Z) (pid : ustr) (p : process) : tx World bool :=
  let eid := ps_execution (p_spec p) in
  let! e := execution_row eid in
  if status_in p [ProcessStatus.CANCELLING] || ex_in e [ExecutionStatus.CANCELLING] then
    let! updated := update_process pid (upd_cancel_expired now (fence p)) in
    converge_cancellation PARENT_CHAIN now eid ;!
    ret updated
  else if negb (safe_replay (ps_backoff_policy (p_spec p))) then
    fail_and_route now eid e pid p (u "indeterminate-side-effect") "indeterminate" None [] ;!
    ret true
  else if ps_max_recoveries (p_spec p) <=? recovery_count (p_counters p) then
    fail_and_route now eid e pid p (u "recovery-exhausted") "recovery-exhausted" None [] ;!
    ret true
  else
    let! updated := update_process pid (upd_recover now (fence p)) in
    if updated then wake now pid p (u "lease-recovery:" ++ pid ++ u ":" ++ dec (fence p + 1)) ;! ret true
    else ret false.

(** [recover_expired_leases]; the executions of the rows are refreshed once each. *)
Definition recover_expired_leases (now : Z) (limit : Z) : tx World Z :=
  if limit <? 1 then ret 0
  else
    let! rows := gets (expired_leases now limit) in
    let! recovered := count_loop (fun r => recover_one now r.1 r.2) rows in
    count_loop (fun eid => refresh_execution_counts now eid ;! ret true)
      (remove_dups (map (fun r => ps_execution (p_spec r.2)) rows)) ;!
    ret recovered.
End outcome.
