(* ===== verification/Scheduler.v ===== *)
(** * Admission, claim and lease of processes

    Model of the scheduling operations of [src/runtime/workflow/runtime_core.py]
    ([_dispatch_facts_from_audit], [_admit_one_tx], [_admit_waiting_processes_tx],
    [claim_next], [_fail_expired_ready_tx], [mark_running], [heartbeat], [materialize_root]),
    of the queries of [dispatch.py] ([get_pool_occupancies], [get_waiting_count]) and of
    [restart_process] of [src/services/operator_control.py].

    The expired row of [claim_next] is picked without an order in the code; the model takes
    the least identifier. *)

From S2P Require Import Prelude PyText PyValue Txn WorkflowContracts Dispatch Strategies Routing Outbox ProcessRows ExecutionRows.
From S2P Require Import Engine Materialize Outcome.

Open Scope Z_scope.
Open Scope mkb_scope.

(** ** Occupancy ([dispatch.py]) *)

Record PoolOccupancy := { po_running : Z; po_queued : Z }.

Definition in_pool (k : DispatchPool) (p : process) : bool := bool_decide (dispatch_pool (p_dispatch p) = Some k).
Definition is_running (p : process) : bool := status_in p [ProcessStatus.CLAIMED; ProcessStatus.RUNNING].
Definition is_queued (p : process) : bool := status_in p [ProcessStatus.READY] && dispatch_admitted (p_dispatch p).

(** [get_pool_occupancies] *)
Definition pool_occupancy (m : gmap ustr process) (k : DispatchPool) : PoolOccupancy :=
  Build_PoolOccupancy (count_rows (fun _ p => in_pool k p && is_running p) m) (count_rows (fun _ p => in_pool k p && is_queued p) m).

Definition POOLED_PROCESS_KEYS : list string := GENERATE_PROCESS_KEYS ++ [VECTORIZE].

(** [get_waiting_count] *)
Definition waiting_count (m : gmap ustr process) : Z :=
  count_rows (fun _ p => status_in p [ProcessStatus.READY] && negb (dispatch_admitted (p_dispatch p))
                         && bool_decide (ps_process_key (p_spec p) ∈ POOLED_PROCESS_KEYS)) m.

(** ** Facts of the request *)

Record dispatch_facts := {
  df_explicit_channel : option Channel;
  df_source_chars : Z
}.

(** [raw in {"local-inference", "non-interactive"}]: an unhashable value raises. *)
Definition channel_of (v : option pyval) : result (option Channel) :=
  match v with
  | Some (PStr s) =>
      Ok (if ueqb s (u "local-inference") then Some ch_local
          else if ueqb s (u "non-interactive") then Some ch_non_interactive else None)
  | Some (PList _) | Some (PDict _) => Err TypeError
  | _ => Ok None
  end.

(** [_dispatch_facts_from_audit] on the parsed envelope.  A named channel counts when its
    source is ["explicit"] or absent. *)
Definition dispatch_facts_from_audit (envelope : option pyval) : result dispatch_facts :=
  match envelope with
  | Some (PDict env) =>
      match dget env (u "payload") with
      | Some (PDict payload) =>
          let* raw := channel_of (dget payload (u "compression_channel")) in
          let named :=
            match dget payload (u "channel_source") with
            | None | Some PNone => raw
            | Some v => if py_eqb v (PStr (u "explicit")) then raw else None
            end in
          let chars :=
            match dget payload (u "source") with
            | Some (PDict origin) => match dget origin (u "size_bytes") with Some v => default 0 (as_int v) | None => 0 end
            | _ => 0
            end in
          Ok (Build_dispatch_facts named chars)
      | _ => Ok (Build_dispatch_facts None 0)
      end
  | _ => Ok (Build_dispatch_facts None 0)
  end.

Section scheduler.
Context {World : Type} {H : Host} {SV : Services World} (cfg : engine_config).

(** [snapshot["l2"]["inference_mode"]] *)
Definition inference_mode : option (option string) :=
  Some (Some (if ec_live_inference cfg then "live" else "deterministic")%string).

(** ** Admission *)

(** Rows a worker could be given: the joined execution and task are live. *)
Definition schedulable (p : process) (d : db World) : option joined :=
  match join_process p d with
  | Some (p, e, t) =>
      if ex_in e [ExecutionStatus.READY; ExecutionStatus.RUNNING] && t_in t [TaskStatus.QUEUED; TaskStatus.RUNNING]
      then Some (p, e, t) else None
  | None => None
  end.
Definition is_schedulable (p : process) (d : db World) : bool := match schedulable p d with Some _ => true | None => false end.

Record waiting_row := {
  wr_id : ustr;
  wr_process : process;
  wr_priority : Priority;
  wr_kind : PoolKind;
  wr_facts : dispatch_facts
}.

Definition waiting_processes (now : Z) (d : db World) : list (ustr * process) :=
  rows_where (fun _ p => status_in p [ProcessStatus.READY] && negb (dispatch_admitted (p_dispatch p))
                         && (p_available_at p <=? now) && is_schedulable p d) (d_processes d).

Definition classify (d : db World) (r : ustr * process) : result waiting_row :=
  let s := p_spec r.2 in
  let* facts := dispatch_facts_from_audit (task_audit (d_world d) (ps_team s) (ps_task s)) in
  let priority := match d_tasks d !! (ps_team s, ps_task s) with Some t => t_priority t | None => normal end in
  Ok (Build_waiting_row r.1 r.2 priority (pool_kind (ps_process_key s) inference_mode) facts).

(** [(available_at, created_at, process_uuid)] *)
Definition arrival_le (a b : waiting_row) : bool :=
  let pa := wr_process a in
  let pb := wr_process b in
  (p_available_at pa <? p_available_at pb)
  || (p_available_at pa =? p_available_at pb)
     && ((ps_created_at (p_spec pa) <? ps_created_at (p_spec pb))
         || (ps_created_at (p_spec pa) =? ps_created_at (p_spec pb)) && str_le (wr_id a) (wr_id b)).
(** [(-priority_rank, available_at, created_at, process_uuid)] *)
Definition lane_le (a b : waiting_row) : bool :=
  let ra := ps_priority_rank (p_spec (wr_process a)) in
  let rb := ps_priority_rank (p_spec (wr_process b)) in
  (rb <? ra) || (ra =? rb) && arrival_le a b.

Definition of_kind (k : PoolKind) (r : waiting_row) : bool := bool_decide (wr_kind r = k).

(** [_admit_one_tx] *)
Definition admit_one (now : Z) (r : waiting_row) (pool : option DispatchPool) : tx World bool :=
  update_process (wr_id r) (upd_admit pool now).

Fixpoint admit_unpooled (now : Z) (rs : list waiting_row) : tx World unit :=
  match rs with
  | [] => ret tt
  | r :: rs => admit_one now r None ;! admit_unpooled now rs
  end.

Fixpoint admit_embeds (now : Z) (rs : list waiting_row) (queued : Z) : tx World unit :=
  match rs with
  | [] => ret tt
  | r :: rs =>
      if Dispatch.embed_queued (ec_caps cfg) <=? queued then ret tt
      else
        let! admitted := admit_one now r (Some embed) in
        admit_embeds now rs (if admitted : bool then queued + 1 else queued)
  end.

(** The pool of one generate row under the occupancies so far. *)
Definition generate_pool (r : waiting_row) (local ni : Z) : option DispatchPool :=
  let over_budget :=
    bool_decide (ps_process_key (p_spec (wr_process r)) ∈ OVER_BUDGET_PROCESS_KEYS)
    && (local_char_budget (ec_caps cfg) <? df_source_chars (wr_facts r)) in
  choose_pool (Some (wr_priority r)) generate local ni (ec_live_inference cfg && ec_local_generation_enabled cfg)
    (ec_ni_quota cfg) over_budget (df_explicit_channel (wr_facts r)) (Dispatch.local_queued (ec_caps cfg))
    (Dispatch.ni_queued (ec_caps cfg)).

Definition gated (r : waiting_row) : bool :=
  ec_priority_gate_enabled cfg && bool_decide (wr_priority r ∈ [low; normal]).

Fixpoint admit_generates (now : Z) (rs : list waiting_row) (local ni : Z) : tx World unit :=
  match rs with
  | [] => ret tt
  | r :: rs =>
      if gated r then admit_generates now rs local ni
      else
        match generate_pool r local ni with
        | Some local_inference =>
            if local <? Dispatch.local_queued (ec_caps cfg) then
              let! admitted := admit_one now r (Some local_inference) in
              admit_generates now rs (if admitted : bool then local + 1 else local) ni
            else admit_generates now rs local ni
        | Some non_interactive =>
            if ni <? Dispatch.ni_queued (ec_caps cfg) then
              let! admitted := admit_one now r (Some non_interactive) in
              admit_generates now rs local (if admitted : bool then ni + 1 else ni)
            else admit_generates now rs local ni
        | _ => admit_generates now rs local ni
        end
  end.

(** [_admit_waiting_processes_tx] *)
Definition admit_waiting_processes (now : Z) : tx World unit :=
  (if ec_priority_gate_enabled cfg then update_processes (fun _ => true) (upd_release_reservation now) else ret tt) ;!
  let! d := gets id in
  let queued k := po_queued (pool_occupancy (d_processes d) k) in
  let! rows := lift (mapM (classify d) (waiting_processes now d)) in
  admit_unpooled now (List.filter (of_kind unpooled) rows) ;!
  admit_embeds now (py_sorted arrival_le (List.filter (of_kind embedding) rows)) (queued embed) ;!
  admit_generates now (py_sorted lane_le (List.filter (of_kind generate) rows)) (queued local_inference) (queued non_interactive).

(** ** Claim *)

Definition claimable (p : process) : bool :=
  match ec_claimable_process_keys cfg with Some keys => bool_decide (ps_process_key (p_spec p) ∈ keys) | None => true end.

Definition expired_ready (now : Z) (d : db World) : option (ustr * process) :=
  head (rows_where (fun _ p => status_in p [ProcessStatus.READY]
                               && match ps_deadline_at (p_spec p) with Some t => t <? now | None => false end
                               && is_schedulable p d && claimable p) (d_processes d)).

Definition due_admitted (now : Z) (d : db World) (p : process) : bool :=
  status_in p [ProcessStatus.READY] && (p_available_at p <=? now) && dispatch_admitted (p_dispatch p)
  && is_schedulable p d && claimable p.

(** [ORDER BY available_at, created_at, process_uuid] *)
Definition embed_le (a b : ustr * process) : bool :=
  (p_available_at a.2 <? p_available_at b.2)
  || (p_available_at a.2 =? p_available_at b.2)
     && ((ps_created_at (p_spec a.2) <? ps_created_at (p_spec b.2))
         || (ps_created_at (p_spec a.2) =? ps_created_at (p_spec b.2)) && str_le a.1 b.1).

(** [CASE WHEN deadline_at IS NULL THEN 1 ELSE 0 END, deadline_at, created_at, process_uuid] *)
Definition deadline_le (a b : ustr * process) : bool :=
  let tail := (ps_created_at (p_spec a.2) <? ps_created_at (p_spec b.2))
              || (ps_created_at (p_spec a.2) =? ps_created_at (p_spec b.2)) && str_le a.1 b.1 in
  match ps_deadline_at (p_spec a.2), ps_deadline_at (p_spec b.2) with
  | Some x, Some y => (x <? y) || (x =? y) && tail
  | Some _, None => true
  | None, Some _ => false
  | None, None => tail
  end.
(** [ORDER BY priority_rank DESC, available_at, deadline ..., created_at, process_uuid] *)
Definition other_le (a b : ustr * process) : bool :=
  let ra := ps_priority_rank (p_spec a.2) in
  let rb := ps_priority_rank (p_spec b.2) in
  (rb <? ra)
  || (ra =? rb) && ((p_available_at a.2 <? p_available_at b.2)
                    || (p_available_at a.2 =? p_available_at b.2) && deadline_le a b).

Definition embed_candidate (now : Z) (d : db World) : option (ustr * process) :=
  if po_running (pool_occupancy (d_processes d) embed) <? Dispatch.embed_running (ec_caps cfg) then
    head (py_sorted embed_le (rows_where (fun _ p => due_admitted now d p && in_pool embed p) (d_processes d)))
  else None.

(** The pools, besides the embed pool, that may run one more process. *)
Definition other_pool_open (d : db World) (p : process) : bool :=
  match dispatch_pool (p_dispatch p) with
  | None => true
  | Some local_inference => po_running (pool_occupancy (d_processes d) local_inference) <? Dispatch.local_running (ec_caps cfg)
  | Some non_interactive => po_running (pool_occupancy (d_processes d) non_interactive) <? Dispatch.ni_running (ec_caps cfg)
  | Some embed => false
  end.
Definition other_candidate (now : Z) (d : db World) : option (ustr * process) :=
  head (py_sorted other_le (rows_where (fun _ p => due_admitted now d p && other_pool_open d p) (d_processes d))).

Definition claim_candidate (now : Z) (d : db World) : option (ustr * process) :=
  match embed_candidate now d, other_candidate now d with
  | Some a, Some b => Some (if embed_le a b then a else b)
  | Some a, None => Some a
  | None, o => o
  end.

(** [_fail_expired_ready_tx] *)
Definition fail_expired_ready (now : Z) (pid : ustr) (p : process) : tx World unit :=
  let eid := ps_execution (p_spec p) in
  let! joined := execution_row eid in
  assert_execution_binding cfg joined ;!
  fail_process now pid p (u "deadline-exceeded-before-start") "deadline" None ;!
  let! e := execution_row eid in
  route_after_terminal cfg now eid e pid p FAILED [] (Some (u "deadline-exceeded-before-start")) ;!
  refresh_execution_counts now eid.

Record ClaimedProcess := {
  cp_command : ProcessCommand;
  cp_claim_token : ustr;
  cp_lease_expires_at : Z
}.

(** What one round of the loop of [claim_next] does: [None] stops with nothing to claim,
    [Some None] tries again, [Some (Some c)] is a claim. *)
Definition claim_round (now expires_at : Z) (token token_hash owner : ustr) : tx World (option (option ClaimedProcess)) :=
  let! expired := gets (expired_ready now) in
  match expired with
  | Some (pid, p) => fail_expired_ready now pid p ;! ret (Some None)
  | None =>
      admit_waiting_processes now ;!
      let! candidate := gets (claim_candidate now) in
      match candidate with
      | None => ret None
      | Some (pid, p) =>
          let! e := execution_row (ps_execution (p_spec p)) in
          let! plan := assert_execution_binding cfg e in
          assert_process_declared plan p ;!
          if match ps_deadline_at (p_spec p) with Some t => t <? now | None => false end then
            fail_expired_ready now pid p ;! ret (Some None)
          else
            let! updated := update_process pid (upd_claim token_hash owner expires_at now (p_row_revision p)) in
            if updated then
              let! j := process_with_execution pid in
              let! command := lift (command_from_process pid j) in
              ret (Some (Some (Build_ClaimedProcess command token expires_at)))
            else ret (Some None)
      end
  end.

Fixpoint claim_rounds (n : nat) (now expires_at : Z) (token token_hash owner : ustr) : tx World (option ClaimedProcess) :=
  match n with
  | O => ret None
  | S n =>
      let! r := claim_round now expires_at token token_hash owner in
      match r with
      | None => ret None
      | Some (Some c) => ret (Some c)
      | Some None => claim_rounds n now expires_at token token_hash owner
      end
  end.

(** [claim_next]: the retries that are due are promoted in a transaction of their own, which
    stays when the claim raises. *)
Definition claim_next (ready : bool) (promoted_at now : Z) (token owner : ustr) (lease_seconds : Z) (d : db World)
    : result (option ClaimedProcess) * db World :=
  let guards :=
    check negb (ueqb owner []) && (length owner <=? 256)%nat else MkbError "invalid-lease-owner" 422 ;;
    check (1 <=? lease_seconds) && (lease_seconds <=? 3600) else MkbError "invalid-lease-seconds" 422 ;;
    ensure ready (MkbError "workflow-not-ready" 503) in
  match guards with
  | Err e => (Err e, d)
  | Ok _ =>
      match promote_due_retries promoted_at 64 d with
      | Err e => (Err e, d)
      | Ok (_, d) =>
          match stable_digest (obj [("claim_token", PStr token)]) with
          | Err e => (Err e, d)
          | Ok token_hash =>
              if bool_decide (ec_claimable_process_keys cfg = Some []) then (Ok None, d)
              else
                match claim_rounds 64 now (now + seconds lease_seconds) token token_hash owner d with
                | Ok (c, d) => (Ok c, d)
                | Err e => (Err e, d)
                end
          end
      end
  end.

(** ** Start and heartbeat *)

(** [mark_running] *)
Definition mark_running (now : Z) (pid : ustr) (fencing : Z) : tx World bool :=
  let! j := process_with_execution pid in
  let p := j.1.1 in
  if status_in p [ProcessStatus.RUNNING] && (fence p =? fencing) then ret false
  else
    let! updated := update_process pid (upd_mark_running now fencing) in
    require updated (ConflictError "stale-process-fence") ;!
    let eid := ps_execution (p_spec p) in
    let! e := execution_row eid in
    (if ex_in e [ExecutionStatus.READY] then update_execution eid (ex_start now) else ret true) ;!
    (if is_root eid e then
       project_task now (ei_team (e_id e)) (ei_task (e_id e)) (Build_projection TaskStatus.RUNNING None (Some eid) None None None None)
     else ret true) ;!
    ret true.

(** [heartbeat] *)
Definition heartbeat (now : Z) (pid : ustr) (fencing lease_seconds : Z) : tx World bool :=
  require ((1 <=? lease_seconds) && (lease_seconds <=? 3600)) (MkbError "invalid-lease-seconds" 422) ;!
  update_process pid (upd_heartbeat now (now + seconds lease_seconds) fencing).

(** ** The root wake *)

(** [materialize_root] *)
Definition materialize_root (now : Z) (id : ustr) : tx World bool :=
  let! e := execution_row id in
  if terminal_execution (e_status e) then ret false
  else if ex_in e [ExecutionStatus.CANCELLING] then converge_cancellation PARENT_CHAIN now id ;! ret false
  else if ex_in e [ExecutionStatus.WAITING] then
    if bool_decide (waiting_reason (e_wait e) = Some "scatter_children"%string) then
      let! changed := maybe_converge_scatter_root now id in
      refresh_execution_counts now id ;!
      ret changed
    else ret false
  else
    let! plan := assert_execution_binding cfg e in
    let! context := (fun d => let* c := typed_route_context id e d in Ok (c, d)) in
    if negb (match dget context (u "request_intent") with Some v => is_str v | None => false end) then
      fail_execution_integrity now id "workflow-task-intent-missing" ;! ret false
    else
      match find (fun s => bool_decide (step_kind s = START)) (steps plan) with
      | None => raise RuntimeError
      | Some start =>
          let! dec := lift (route_decision plan (execution_ref_of id e) (step_key start) ALWAYS context) in
          match dec_routes dec with
          | [] => fail_execution_integrity now id "workflow-start-route-missing" ;! ret false
          | _ =>
              let! changed := apply_routes cfg (route_fuel plan) now plan id e dec None context None in
              refresh_execution_counts now id ;!
              ret changed
          end
      end.

(** ** Operator restart *)

(** [restart_process] without the receipt of the command: the first call with a key. *)
Definition restart_process (now : Z) (team pid : ustr) (expected_generation : Z) (idempotency_key : ustr) : tx World unit :=
  require ((0 <=? expected_generation) && negb (ueqb idempotency_key [])) (MkbError "COMMAND_FENCE_CONFLICT" 422) ;!
  let! row := gets (fun d => d_processes d !! pid) in
  match row with
  | Some p =>
      require (ueqb (ps_team (p_spec p)) team) (MkbError "PROCESS_NOT_FOUND" 404) ;!
      require (fence p =? expected_generation) (MkbError "COMMAND_FENCE_CONFLICT" 409) ;!
      require (negb (terminal_process (p_status p))) (MkbError "CONTROL_TERMINAL_IMMUTABLE" 409) ;!
      let! updated := update_process pid (upd_restart now expected_generation) in
      require updated (MkbError "COMMAND_FENCE_CONFLICT" 409) ;!
      wake now pid p (u "operator-restart:" ++ pid ++ u ":" ++ dec (expected_generation + 1))
  | None => raise (MkbError "PROCESS_NOT_FOUND" 404)
  end.
End scheduler.
