(* ===== verification/EngineLaws.v ===== *)
(** * The engine only issues legal statements

    Every transaction of the engine changes its tables by the row statements of
    [ProcessRows.v] and [ExecutionRows.v] alone: processes and executions are never deleted,
    new processes start ready, and each row moves by a run of statements whose guards held.
    The laws of rows (fences, final rows, budgets) therefore hold in every database the
    engine reaches, whatever the interleaving of its transactions.

    [legal] is that abstract specification; the services of other owners are assumed to keep
    it ([ServicesLaws]), which states their documented contract: they do not write process,
    execution or task rows except through the same statements. *)

From S2P Require Import Prelude PyText PyValue Txn WorkflowContracts Dispatch Strategies Routing Outbox ProcessRows ExecutionRows.
From S2P Require Import Engine Materialize Outcome Scheduler.

Open Scope Z_scope.
Open Scope mkb_scope.

(** ** Rows that move by statements *)

Definition moved (ok : statement -> bool) (p p' : process) : Prop := exists ss, run ss p = Some p' /\ forallb ok ss = true.
Definition born (ok : statement -> bool) (p : process) : Prop := exists spec now, moved ok (new_process spec now) p.

#[export] Instance moved_preorder ok : PreOrder (moved ok).
Proof.
  split.
  - intros p. by exists [].
  - intros p q r (ss1 & Hr1 & Ho1) (ss2 & Hr2 & Ho2). exists (ss1 ++ ss2). rewrite run_app, Hr1, forallb_app, Ho1, Ho2. done.
Qed.

Lemma moved_step ok s p p' : step s p = Some p' -> ok s = true -> moved ok p p'.
Proof. intros Hs Ho. exists [s]. simpl. by rewrite Hs, Ho. Qed.

Lemma born_moved ok p p' : born ok p -> moved ok p p' -> born ok p'.
Proof. intros (spec & now & Hp) Hm. exists spec, now. by etrans. Qed.

Lemma born_new ok spec now : born ok (new_process spec now).
Proof. by exists spec, now. Qed.

Lemma moved_weaken (ok ok' : statement -> bool) p p' : (forall s, ok s = true -> ok' s = true) -> moved ok p p' -> moved ok' p p'.
Proof.
  intros Hw (ss & Hr & Ho). exists ss. split; [done|]. rewrite forallb_forall in *. eauto.
Qed.

#[export] Instance ex_run_preorder : PreOrder ex_run.
Proof. unfold ex_run. apply _. Qed.
#[export] Instance engine_task_run_preorder : PreOrder engine_task_run.
Proof. unfold engine_task_run. apply _. Qed.

(** ** Legal transactions *)

Section legal.
Context {World : Type}.

(** [ok] says which process statements may have been issued. *)
Record legal (ok : statement -> bool) (d d' : db World) : Prop := {
  lg_processes : evolves (moved ok) (born ok) (d_processes d) (d_processes d');
  lg_executions : evolves ex_run execution_ok (d_executions d) (d_executions d');
  lg_tasks : evolves engine_task_run (fun _ => False) (d_tasks d) (d_tasks d');
  lg_outbox : d_outbox d ⊆ d_outbox d';
  lg_selected : d_selected d ⊆ d_selected d'
}.

#[export] Instance legal_preorder ok : PreOrder (legal ok).
Proof.
  split.
  - intros d. split; try done; apply evolves_refl; apply _.
  - intros a b c [] []. split; try (by etrans).
    + eapply evolves_trans; eauto using born_moved; apply _.
    + eapply evolves_trans; eauto using ex_run_ok; apply _.
    + eapply evolves_trans; eauto; apply _.
Qed.

Lemma legal_weaken (ok ok' : statement -> bool) d d' : (forall s, ok s = true -> ok' s = true) -> legal ok d d' -> legal ok' d d'.
Proof.
  intros Hw []. split; try done. intros k. specialize (lg_processes0 k). destruct (d_processes d !! k), (d_processes d' !! k); try done.
  - by eapply moved_weaken.
  - destruct lg_processes0 as (spec & now & Hm). exists spec, now. by eapply moved_weaken.
Qed.

Ltac legal_only :=
  split; cbn; first [done | apply evolves_refl; apply _ | idtac].

Lemma legal_set_process ok d id p p' :
  d_processes d !! id = Some p -> moved ok p p' -> legal ok d (set_processes (<[id := p']> (d_processes d)) d).
Proof. intros Hp Hm. legal_only. by eapply evolves_insert. Qed.
Lemma legal_new_process ok d id p :
  d_processes d !! id = None -> born ok p -> legal ok d (set_processes (<[id := p]> (d_processes d)) d).
Proof. intros Hp Hb. legal_only. by apply evolves_fresh. Qed.
Lemma legal_map_processes ok d f :
  (forall p, moved ok p (f p)) -> legal ok d (set_processes (f <$> d_processes d) d).
Proof. intros Hf. legal_only. apply evolves_fmap. auto. Qed.
Lemma legal_set_execution ok d id e e' s :
  d_executions d !! id = Some e -> ex_exec s e = Some e' -> legal ok d (set_executions (<[id := e']> (d_executions d)) d).
Proof. intros He Hs. legal_only. eapply evolves_insert; [done|done|]. apply rtc_once. by exists s. Qed.
Lemma legal_set_task ok d k t t' :
  d_tasks d !! k = Some t -> engine_task_step t t' -> legal ok d (set_tasks (<[k := t']> (d_tasks d)) d).
Proof. intros Ht Hs. legal_only. eapply evolves_insert; [done|done|]. by apply rtc_once. Qed.
Lemma legal_set_outbox ok d t : d_outbox d ⊆ t -> legal ok d (set_outbox t d).
Proof. intros Ht. by legal_only. Qed.
Lemma legal_set_selected ok d m : d_selected d ⊆ m -> legal ok d (set_selected m d).
Proof. intros Ht. by legal_only. Qed.
Lemma legal_set_world ok d w : legal ok d (set_world w d).
Proof. by legal_only. Qed.
Lemma legal_next_uuid ok d : legal ok d (next_uuid d).
Proof. by legal_only. Qed.

(** The store operations. *)
Lemma update_process_Ok id (f : process -> option process) (d : db World) b d' :
  update_process id f d = Ok (b, d') ->
  (b = true /\ exists p p', d_processes d !! id = Some p /\ f p = Some p' /\ d' = set_processes (<[id := p']> (d_processes d)) d) \/
  (b = false /\ d' = d /\ d_processes d !! id ≫= f = None).
Proof.
  unfold update_process. destruct (d_processes d !! id) as [p|] eqn:Ep; simpl; [|intros [= <- <-]; auto].
  destruct (f p) as [p'|] eqn:Ef; intros [= <- <-]; [left|auto]. split; [done|]. by exists p, p'.
Qed.

Lemma update_execution_Ok id (f : execution -> option execution) (d : db World) b d' :
  update_execution id f d = Ok (b, d') ->
  (b = true /\ exists e e', d_executions d !! id = Some e /\ f e = Some e' /\ d' = set_executions (<[id := e']> (d_executions d)) d) \/
  (b = false /\ d' = d /\ d_executions d !! id ≫= f = None).
Proof.
  unfold update_execution. destruct (d_executions d !! id) as [e|] eqn:Ee; simpl; [|intros [= <- <-]; auto].
  destruct (f e) as [e'|] eqn:Ef; intros [= <- <-]; [left|auto]. split; [done|]. by exists e, e'.
Qed.

Lemma keeps_update_process ok id f (s : statement) :
  (forall p p', f p = Some p' -> step s p = Some p') -> ok s = true ->
  keeps (S := db World) (legal ok) (update_process id f).
Proof.
  intros Hf Ho d b d' [(_ & p & p' & Hp & Hfp & ->)|(_ & -> & _)]%update_process_Ok; [|reflexivity].
  eapply legal_set_process; [done|]. eapply moved_step; eauto.
Qed.

Lemma keeps_update_processes ok sel f (s : statement) :
  (forall p p', f p = Some p' -> step s p = Some p') -> ok s = true ->
  keeps (S := db World) (legal ok) (update_processes sel f).
Proof.
  intros Hf Ho. apply keeps_modify. intros d. apply legal_map_processes. intros p. unfold apply_where.
  destruct (sel p); [|reflexivity]. destruct (f p) eqn:E; [|reflexivity]. eapply moved_step; eauto.
Qed.

Lemma keeps_update_execution ok id s : keeps (S := db World) (legal ok) (update_execution id (ex_exec s)).
Proof.
  intros d b d' [(_ & e & e' & He & Hf & ->)|(_ & -> & _)]%update_execution_Ok; [|reflexivity]. by eapply legal_set_execution.
Qed.

Lemma keeps_update_task ok team tid f : (forall t t', f t = Some t' -> engine_task_step t t') ->
  keeps (S := db World) (legal ok) (update_task team tid f).
Proof.
  intros Hf d b d'. unfold update_task. destruct (d_tasks d !! (team, tid)) as [t|] eqn:Et; simpl; [|by intros [= _ <-]].
  destruct (f t) as [t'|] eqn:Ef; intros [= _ <-]; [|reflexivity]. eapply legal_set_task; eauto.
Qed.

Lemma reads_execution_row id : reads (S := db World) (execution_row id).
Proof. intros d e d'. unfold execution_row. by destruct (d_executions d !! id); intros [= _ <-]. Qed.
End legal.

(** ** The contract of the services *)

(** Statements that take no queue place, no lease and no restart. *)
Definition quiet (s : statement) : bool :=
  match s with Admit _ _ | Claim _ _ _ _ _ | OperatorRestart _ _ => false | _ => true end.

Class ServicesLaws (World : Type) (SV : Services World) : Prop := {
  refresh_scatter_legal : forall now team task id (d d' : db World), refresh_scatter_counts now team task id d = Ok (Some d') -> legal quiet d d';
  converge_scatter_legal : forall now id (d : db World) b d', maybe_converge_scatter_root now id d = Ok (b, d') -> legal quiet d d';
  enter_wait_legal : forall now plan id step digest source ctx (d : db World) b d',
    enter_wait_control now plan id step digest source ctx d = Ok (b, d') -> legal quiet d d';
  commit_legal : forall commit command o (d d' : db World), commit_outcome = Some commit -> commit command o d = Ok d' -> legal quiet d d'
}.

Create HintDb legal.
Ltac keeps_tac :=
  repeat match goal with
  | |- keeps _ (bind _ _) => apply keeps_bind; [apply _| |intros ?]
  | |- keeps _ (if ?b then _ else _) => destruct b
  | |- keeps _ (match ?x with _ => _ end) => destruct x
  | |- keeps _ (let _ := _ in _) => cbn zeta
  end;
  auto with legal;
  try (apply keeps_reads; [apply _|]; solve [auto with mkb | apply reads_execution_row]).

Section laws.
Context {World : Type} {H : Host} {SV : Services World} {SL : ServicesLaws World SV} (cfg : engine_config).
Local Abbreviation okay m := (keeps (S := db World) (legal quiet) m).

Lemma keeps_modify_world f : okay (modify (fun d => set_world (f d) d)).
Proof. apply keeps_modify. intros d. apply legal_set_world. Qed.

Lemma keeps_fresh_uuid : okay fresh_uuid.
Proof. intros d a d' [= _ <-]. apply legal_next_uuid. Qed.

Lemma enqueue_tx_subset now id t team kind payload key t' :
  enqueue_tx now id t team kind payload key = Ok t' -> t ⊆ t'.
Proof.
  unfold enqueue_tx. destruct (outbox_kind kind); [|done]. intros Ht. inv_res. destruct (owner_of payload).
  inv_res. destruct (outbox_conflict _ _ _) eqn:E; [done|]. apply insert_subseteq.
  unfold outbox_conflict in E. breflect. destruct (t !! id) eqn:Ei; [|done]. exfalso. eauto.
Qed.

Lemma keeps_enqueue now team kind payload key : okay (enqueue now team kind payload key).
Proof.
  unfold enqueue. apply keeps_bind; [apply _|apply keeps_fresh_uuid|]. intros id d a d' Hd. inv_res.
  apply legal_set_outbox. by eapply enqueue_tx_subset.
Qed.

Lemma keeps_exec_update id f s : (forall e, f e = ex_exec s e) -> okay (update_execution id f).
Proof.
  intros Hf d b d' Hd. apply (keeps_update_execution quiet id s d b d'). unfold update_execution in *.
  destruct (d_executions d !! id); simpl in *; [rewrite <-Hf|]; exact Hd.
Qed.

Lemma keeps_refresh now id : okay (refresh_execution_counts now id).
Proof.
  unfold refresh_execution_counts. apply keeps_bind; [apply _|apply keeps_reads; [apply _|auto with mkb]|]. intros ps.
  apply keeps_bind; [apply _|by apply (keeps_exec_update id _ (XCounts (counts_of ps) now))|]. intros _.
  apply keeps_bind; [apply _|apply keeps_reads; [apply _|auto with mkb]|]. intros [e|]; [|by intros d ? ?].
  cbn zeta. intros d a d' Hd. apply rbind_Ok in Hd as ([d1|] & Hs & Hd).
  - injection Hd as _ <-. destruct (d_executions d !! _); [|done]. destruct (has_role _ _); [|done].
    by eapply refresh_scatter_legal.
  - apply rbind_Ok in Hd as ([b d1] & Hu & [= _ <-]). revert Hu. apply keeps_update_task. intros t t' Ht. by eapply ERefresh.
Qed.

Lemma keeps_project_task now team tid c : okay (project_task now team tid c).
Proof.
  intros d b d'. unfold project_task. destruct (d_tasks d !! (team, tid)) as [t|] eqn:Et; [|by intros [= _ <-]].
  intros Hd. inv_res. destruct x as [t'|]; inv_res; [|reflexivity]. eapply legal_set_task; [done|]. by eapply EProject.
Qed.
Hint Resolve keeps_modify_world keeps_fresh_uuid keeps_enqueue keeps_refresh keeps_project_task : legal.

Lemma keeps_project_root now id e status source code disposition :
  okay (project_root_task now id e status source code disposition).
Proof. unfold project_root_task. keeps_tac. Qed.
Hint Resolve keeps_project_root : legal.

Lemma keeps_converge_scatter now id : okay (maybe_converge_scatter_root now id).
Proof. intros d b d'. apply converge_scatter_legal. Qed.
Hint Resolve keeps_converge_scatter : legal.

Lemma keeps_cancelled id summary now : okay (update_execution id (ex_cancelled summary now)).
Proof. by apply (keeps_exec_update id _ (XCancelled summary now)). Qed.
Lemma keeps_cancelling id now : okay (update_execution id (ex_cancelling now)).
Proof. by apply (keeps_exec_update id _ (XCancelling now)). Qed.
Lemma keeps_fail_integrity_row id code summary now : okay (update_execution id (ex_fail_integrity code summary now)).
Proof. by apply (keeps_exec_update id _ (XFailIntegrity code summary now)). Qed.
Lemma keeps_terminalize_row id st r p c s now : okay (update_execution id (ex_terminalize st r p c s now)).
Proof. by apply (keeps_exec_update id _ (XTerminalize st r p c s now)). Qed.
Lemma keeps_materialized_row id ph p now : okay (update_execution id (ex_materialized ph p now)).
Proof. by apply (keeps_exec_update id _ (XMaterialized ph p now)). Qed.
Lemma keeps_retry_wait_row id p due now : okay (update_execution id (ex_retry_wait p due now)).
Proof. by apply (keeps_exec_update id _ (XRetryWait p due now)). Qed.
Lemma keeps_retry_ready_row id p now : okay (update_execution id (ex_retry_ready p now)).
Proof. by apply (keeps_exec_update id _ (XRetryReady p now)). Qed.
Lemma keeps_start_row id now : okay (update_execution id (ex_start now)).
Proof. by apply (keeps_exec_update id _ (XStart now)). Qed.
Lemma keeps_sealed_row id seal now : okay (update_execution id (ex_sealed seal now)).
Proof. by apply (keeps_exec_update id _ (XSealed seal now)). Qed.
Hint Resolve keeps_cancelled keeps_cancelling keeps_fail_integrity_row keeps_terminalize_row keeps_materialized_row
  keeps_retry_wait_row keeps_retry_ready_row keeps_start_row keeps_sealed_row : legal.

Lemma keeps_converge fuel now id : okay (converge_cancellation fuel now id).
Proof. revert id. induction fuel as [|fuel IH]; intros id; simpl; keeps_tac. Qed.
Hint Resolve keeps_converge : legal.

Lemma keeps_notify now e : okay (notify_parent now e).
Proof. unfold notify_parent. keeps_tac. Qed.

Lemma keeps_cancel_execution now id e : okay (cancel_execution now id e).
Proof.
  unfold cancel_execution. keeps_tac.
  - by apply (keeps_update_processes quiet _ _ (CancelIdle now)).
  - by apply (keeps_update_processes quiet _ _ (CancelClose now)).
  - by apply (keeps_update_processes quiet _ _ (CancelActive now)).
Qed.
Hint Resolve keeps_notify keeps_cancel_execution : legal.

Lemma keeps_loop {A} (f : A -> tx World bool) xs : (forall x, okay (f x)) -> okay (count_loop f xs).
Proof. apply keeps_count_loop. apply _. Qed.

Lemma keeps_cancel_tree now id root inc : okay (cancel_execution_tree now id root inc).
Proof. unfold cancel_execution_tree. keeps_tac; apply keeps_loop; auto with legal. Qed.
Hint Resolve keeps_cancel_tree : legal.

Lemma keeps_request_cancellation now id : okay (request_cancellation now id).
Proof. unfold request_cancellation. keeps_tac. Qed.

Lemma keeps_fail_integrity now id code : okay (fail_execution_integrity now id code).
Proof. unfold fail_execution_integrity. keeps_tac. Qed.
Hint Resolve keeps_fail_integrity keeps_request_cancellation : legal.

Lemma keeps_terminalize now id kind source digest code disposition :
  okay (terminalize_execution now id kind source digest code disposition).
Proof. unfold terminalize_execution. keeps_tac. Qed.
Hint Resolve keeps_terminalize : legal.

Lemma keeps_assert_binding e : okay (assert_execution_binding cfg e).
Proof. unfold assert_execution_binding. keeps_tac. Qed.

Lemma keeps_assert_declared plan p : okay (assert_process_declared plan p).
Proof. apply keeps_reads; [apply _|apply reads_require]. Qed.

(** A query of the tables that may raise. *)
Lemma keeps_query {A} (f : db World -> result A) : okay (fun d => let* a := f d in Ok (a, d)).
Proof. intros d a d' Hd. inv_res. reflexivity. Qed.
Hint Resolve keeps_assert_binding keeps_assert_declared keeps_query : legal.

Lemma keeps_insert_process id spec now : okay (insert_process id (new_process spec now)).
Proof.
  intros d a d'. unfold insert_process. case_bool_decide as E; [done|]. intros [= _ <-].
  apply legal_new_process; [by apply eq_None_not_Some|apply born_new].
Qed.
Hint Resolve keeps_insert_process : legal.

Lemma keeps_materialize now plan id e step digest : okay (materialize_process cfg now plan id e step digest).
Proof. unfold materialize_process. keeps_tac. Qed.

Lemma insert_selected_legal id step o d : legal quiet d (insert_selected (World := World) id step o d).
Proof.
  unfold insert_selected. destruct (bool_decide _) eqn:E; [reflexivity|]. destruct (_ || _); [reflexivity|].
  apply legal_set_selected. apply insert_subseteq. breflect. by apply eq_None_not_Some.
Qed.

Lemma keeps_project_selection now plan id step digest : okay (project_selection now plan id step digest).
Proof.
  unfold project_selection. keeps_tac. all: apply keeps_modify; intros d; apply insert_selected_legal.
Qed.
Hint Resolve keeps_materialize keeps_project_selection : legal.

Lemma keeps_enter_wait now plan id step digest source ctx : okay (enter_wait now plan id step digest source ctx).
Proof. unfold enter_wait. destruct (_ || _); [|by intros d ? ?]. intros d b d'. apply enter_wait_legal. Qed.
Hint Resolve keeps_enter_wait : legal.

Lemma keeps_apply_routes fuel now plan id e dec source ctx terminal_error :
  okay (apply_routes cfg fuel now plan id e dec source ctx terminal_error).
Proof.
  revert id e dec source ctx terminal_error. induction fuel as [|fuel IH]; intros; [by intros d ? ?|]. cbn [apply_routes].
  destruct (dec_routes dec) as [|r rs]; [keeps_tac|]. apply keeps_any_loop; [apply _|]. intros route. keeps_tac.
Qed.
Hint Resolve keeps_apply_routes : legal.

Lemma keeps_seal_row now call : okay (seal_execution_row now call).
Proof.
  intros d a d' Hd. unfold seal_execution_row in Hd. inv_res. destruct x0 as [b d1]. cbn. by eapply keeps_sealed_row.
Qed.
Hint Resolve keeps_seal_row : legal.

Lemma keeps_seal_worker now plan id e dec ctx : okay (seal_selected_worker now plan id e dec ctx).
Proof. unfold seal_selected_worker. keeps_tac. Qed.
Hint Resolve keeps_seal_worker : legal.

Lemma keeps_route_after now id e pid p selector ctx terminal_error :
  okay (route_after_terminal cfg now id e pid p selector ctx terminal_error).
Proof. unfold route_after_terminal. keeps_tac. Qed.

Lemma keeps_fail_process now id p code disposition digest : okay (fail_process now id p code disposition digest).
Proof.
  unfold fail_process. keeps_tac.
  - by apply (keeps_update_process quiet _ _ (Fail digest code (u disposition) now (fence p))).
  - intros d a' d' Hd. inv_res. apply legal_set_world.
Qed.
Hint Resolve keeps_route_after keeps_fail_process : legal.

Lemma keeps_fail_and_route now eid e pid p code disposition digest ctx :
  okay (fail_and_route cfg now eid e pid p code disposition digest ctx).
Proof. unfold fail_and_route. keeps_tac. Qed.
Hint Resolve keeps_fail_and_route : legal.

Lemma reads_join id : reads (S := db World) (process_with_execution id).
Proof. intros d a d'. unfold process_with_execution. by case_match; intros [= _ <-]. Qed.
Lemma keeps_join id : okay (process_with_execution id).
Proof. apply keeps_reads; [apply _|apply reads_join]. Qed.
Hint Resolve keeps_join : legal.

Lemma keeps_accept_success now eid e pid j o : okay (accept_success cfg now eid e pid j o).
Proof.
  unfold accept_success. destruct commit_outcome as [commit|] eqn:Ec; keeps_tac;
    try by (apply (keeps_update_process quiet _ _
              (Succeed (po_outcome_digest o) (text (po_output_manifest_ref o)) (text (po_output_manifest_digest o))
                 (text (po_proof_ref o)) (text (po_proof_digest o)) now (po_fencing_generation o)))).
  intros d x d' Hd. inv_res. by eapply commit_legal.
Qed.

Lemma join_Ok id (d : db World) j d' :
  process_with_execution id d = Ok (j, d') -> d' = d /\ d_processes d !! id = Some j.1.1 /\ join_process j.1.1 d = Some j.
Proof.
  unfold process_with_execution. destruct (d_processes d !! id) as [p|]; simpl; [|done].
  destruct (join_process p d) as [j'|] eqn:Ej; [|done]. intros [= -> ->].
  assert (j.1.1 = p) as E by (unfold join_process in Ej; repeat case_match; simplify_eq; done). rewrite E. done.
Qed.

Lemma execution_row_Ok id (d : db World) e d' : execution_row id d = Ok (e, d') -> d' = d /\ d_executions d !! id = Some e.
Proof. unfold execution_row. destruct (d_executions d !! id); [|done]. by intros [= -> ->]. Qed.

Lemma accept_retry_legal now jitter eid pid p o (d : db World) x d' :
  d_processes d !! pid = Some p -> retry_count (p_counters p) < ps_max_retries (p_spec p) ->
  accept_retry now jitter eid pid p o d = Ok (x, d') -> legal quiet d d'.
Proof.
  intros Hp Hlt Hd. unfold accept_retry in Hd. cbn zeta in Hd. apply bind_Ok in Hd as (b & d1 & Hu & Hd).
  apply update_process_Ok in Hu as [(-> & p0 & p' & Hp0 & Hup & ->)|(-> & -> & _)].
  - rewrite Hp in Hp0. injection Hp0 as <-. etrans.
    + eapply legal_set_process; [exact Hp|].
      apply (moved_step quiet (Retry (po_outcome_digest o) (text (po_error_code o)) (now + jitter) now (po_fencing_generation o)));
        [|reflexivity].
      unfold step. cbn [guarded exec]. by rewrite ltb_intro.
    + revert Hd. match goal with |- ?m _ = _ -> _ => assert (okay m) as Hk by keeps_tac end. apply Hk.
  - apply bind_Ok in Hd as (? & ? & [? _]%require_Ok & _). done.
Qed.

(** The state in which [accept_outcome] decides, and what it then runs. *)
Lemma accept_outcome_inv now jitter o (d : db World) b d' :
  accept_outcome cfg now jitter o d = Ok (b, d') ->
  exists p, d_processes d !! po_process o = Some p /\ fence p = po_fencing_generation o /\
    canonical_outcome_digest o = Ok (po_outcome_digest o) /\ assert_outcome_identity p o = Ok tt /\
    ((b = false /\ d' = d /\ terminal_process (p_status p) = true /\
      accepted_outcome_digest (p_outcome p) = Some (po_outcome_digest o)) \/
     (b = true /\ p_status p = ProcessStatus.RUNNING /\ exists e j d1 x,
        d_executions d !! ps_execution (p_spec p) = Some e /\ stopping (e_status e) = false /\
        j.1.1 = p /\ join_process p d = Some j /\
        match po_disposition o with
        | O_SUCCEEDED =>
            if all_present o then accept_success cfg now (ps_execution (p_spec p)) e (po_process o) j o
            else fail_and_route cfg now (ps_execution (p_spec p)) e (po_process o) p (u "outcome-proof-invalid") "integrity" None []
        | O_RETRYABLE_FAILURE =>
            if retry_count (p_counters p) <? ps_max_retries (p_spec p)
            then accept_retry now jitter (ps_execution (p_spec p)) (po_process o) p o
            else fail_and_route cfg now (ps_execution (p_spec p)) e (po_process o) p (u "retry-exhausted") "retry-exhausted"
                   (Some (po_outcome_digest o)) []
        | O_FAILED =>
            fail_and_route cfg now (ps_execution (p_spec p)) e (po_process o) p (text (po_error_code o)) "non-retryable"
              (Some (po_outcome_digest o)) (po_payload_extra o)
        | O_WAITING => raise RuntimeError
        end d = Ok (x, d1) /\
        (po_disposition o = O_RETRYABLE_FAILURE \/ po_disposition o = O_FAILED ->
         nonempty (po_error_code o) = true /\ nonempty (po_error_message o) = true) /\
        refresh_execution_counts now (ps_execution (p_spec p)) d1 = Ok (tt, d'))).
Proof.
  unfold accept_outcome. intros Hd. apply bind_Ok in Hd as (digest & d1 & [Hg ->]%lift_Ok & Hd).
  apply bind_Ok in Hd as (? & ? & [Hdg ->]%require_Ok & Hd). apply ueqb_eq in Hdg as ->.
  cbn zeta in Hd. apply bind_Ok in Hd as (j & d1 & Hj & Hd). apply join_Ok in Hj as (-> & Hp & Hj).
  apply bind_Ok in Hd as (? & ? & [Hid ->]%lift_Ok & Hd). exists j.1.1. split; [done|].
  assert (fence j.1.1 = po_fencing_generation o) as Hfe
    by (pose proof Hid as Hid'; unfold assert_outcome_identity in Hid'; inv_res; by apply Z.eqb_eq).
  split; [exact Hfe|]. split; [done|]. match type of Hid with _ = Ok ?v => destruct v end. split; [done|].
  destruct (terminal_process (p_status j.1.1)) eqn:Et.
  - left. case_bool_decide as Ea; [|done]. by injection Hd as <- <-.
  - right. apply bind_Ok in Hd as (? & ? & [Hr ->]%require_Ok & Hd). apply status_in_elem in Hr.
    apply list_elem_of_singleton in Hr. apply bind_Ok in Hd as (e & ? & He & Hd). apply execution_row_Ok in He as [-> He].
    apply bind_Ok in Hd as (? & ? & [Hnt ->]%require_Ok & Hd). apply bind_Ok in Hd as (? & ? & [Hnc ->]%require_Ok & Hd).
    apply bind_Ok in Hd as (y & d1 & Hm & Hd). apply bind_Ok in Hd as ([] & d2 & Href & [= <- <-]).
    split; [done|]. split; [done|].
    assert (stopping (e_status e) = false) as Hs.
    { unfold stopping. breflect. rewrite Hnt, orb_false_r. apply bool_decide_eq_false_2. intros E. unfold ex_in in Hnc.
      rewrite E in Hnc. discriminate Hnc. }
    assert (nonempty (po_error_code o) && nonempty (po_error_message o) = true ->
            nonempty (po_error_code o) = true /\ nonempty (po_error_message o) = true) as Hsplit by apply andb_true_iff.
    destruct (po_disposition o).
    + exists e, j, d1, y. split_and!; try done. by intros [?|?].
    + apply bind_Ok in Hm as (? & ? & [Hne ->]%require_Ok & Hm). exists e, j, d1, y. split_and!; try done. auto.
    + apply bind_Ok in Hm as (? & ? & [Hne ->]%require_Ok & Hm). exists e, j, d1, y. split_and!; try done. auto.
    + discriminate Hm.
Qed.

Lemma keeps_accept_outcome now jitter o : okay (accept_outcome cfg now jitter o).
Proof.
  intros d b d' Hd. destruct (accept_outcome_inv _ _ _ _ _ _ Hd) as (p & Hp & _ & _ & _ & [(_ & -> & _)|(_ & _ & Hrest)]); [reflexivity|].
  destruct Hrest as (e & j & d1 & x & _ & _ & <- & _ & Hm & _ & Hr). etrans; [|by eapply keeps_refresh].
  destruct (po_disposition o).
  - destruct (all_present o); [by eapply keeps_accept_success|by eapply keeps_fail_and_route].
  - by eapply keeps_fail_and_route.
  - destruct (Z.ltb_spec (retry_count (p_counters j.1.1)) (ps_max_retries (p_spec j.1.1)));
      [by eapply accept_retry_legal|by eapply keeps_fail_and_route].
  - done.
Qed.

Lemma step_recovery s p q : step s p = Some q -> fence q = fence p -> recovery_count (p_counters q) = recovery_count (p_counters p).
Proof. intros Hs. step_inv Hs; cbn; try done; lia. Qed.

(** Rows of one generation have spent the same recoveries. *)
Lemma run_recovery ss p q : run ss p = Some q -> fence q = fence p -> recovery_count (p_counters q) = recovery_count (p_counters p).
Proof.
  intros Hr. enough (fence p <= fence q /\ (fence q = fence p -> recovery_count (p_counters q) = recovery_count (p_counters p))) as [_ ?] by done.
  revert ss q Hr. apply (run_preserves (fun q => fence p <= fence q /\ (fence q = fence p ->
    recovery_count (p_counters q) = recovery_count (p_counters p)))); [done|].
  intros s q q' [Hle Heq] Hs. pose proof (step_recovery _ _ _ Hs) as Hrec. destruct (step_fence _ _ _ Hs) as [E|[E _]]; rewrite E in *.
  - split; lia.
  - split; [done|]. intros E'. rewrite Hrec by done. auto.
Qed.

Lemma recover_one_legal now pid p (d0 d : db World) b d' :
  d_processes d0 !! pid = Some p -> legal quiet d0 d -> recover_one cfg now pid p d = Ok (b, d') -> legal quiet d d'.
Proof.
  intros Hp Hl Hd. unfold recover_one in Hd. cbn zeta in Hd. apply bind_Ok in Hd as (e & ? & [-> He]%execution_row_Ok & Hd).
  destruct (_ || _).
  { revert Hd. match goal with |- ?m _ = _ -> _ => assert (okay m) as Hk end; [|apply Hk].
    keeps_tac. by apply (keeps_update_process quiet _ _ (CancelExpired now (fence p))). }
  destruct (negb _).
  { revert Hd. match goal with |- ?m _ = _ -> _ => assert (okay m) as Hk by keeps_tac end. apply Hk. }
  destruct (Z.leb_spec (ps_max_recoveries (p_spec p)) (recovery_count (p_counters p))) as [_|Hlt].
  { revert Hd. match goal with |- ?m _ = _ -> _ => assert (okay m) as Hk by keeps_tac end. apply Hk. }
  apply bind_Ok in Hd as (c & d1 & Hu & Hd).
  apply update_process_Ok in Hu as [(-> & q & q' & Hq & Hup & ->)|(-> & -> & _)]; [|by injection Hd as _ <-].
  etrans; [eapply legal_set_process; [exact Hq|]|].
  - apply (moved_step quiet (Recover now (fence p))); [|reflexivity]. unfold step. cbn [guarded exec].
    destruct (evolves_lookup _ _ _ _ _ _ (lg_processes _ _ _ Hl) Hp) as (q0 & Hq0 & (ss & Hrun & _)).
    rewrite Hq in Hq0. injection Hq0 as <-. assert (fence q = fence p) as Ef.
    { unfold upd_recover in Hup. case_match eqn:E; [|done]. breflect. by apply Z.eqb_eq. }
    rewrite (run_recovery _ _ _ Hrun Ef), (run_spec _ _ _ Hrun). by rewrite ltb_intro.
  - revert Hd. match goal with |- ?m _ = _ -> _ => assert (okay m) as Hk end; [|apply Hk]. unfold wake. keeps_tac.
Qed.

Lemma keeps_recover now limit : okay (recover_expired_leases cfg now limit).
Proof.
  unfold recover_expired_leases. destruct (limit <? 1); [keeps_tac|]. intros d n d' Hd.
  apply bind_Ok in Hd as (rows & ? & [= <- <-] & Hd). apply bind_Ok in Hd as (n1 & d1 & Hl & Hd).
  apply bind_Ok in Hd as (n2 & d2 & Hr & [= _ <-]). etrans.
  - eapply (count_loop_keeps (legal quiet)); [|exact Hl]. intros [pid p] d3 b d4 Hin Hd3 Hone.
    eapply recover_one_legal; [|exact Hd3|exact Hone]. cbn. unfold expired_leases in Hin.
    apply elem_of_take in Hin as (i & Hi & _). apply list_elem_of_lookup_2 in Hi. rewrite py_sorted_perm in Hi.
    by apply rows_where_elem in Hi as [? _].
  - revert Hr. apply keeps_loop. intros eid. keeps_tac.
Qed.

Lemma keeps_promote_one now pid p : okay (promote_one now pid p).
Proof.
  unfold promote_one, wake. keeps_tac. by apply (keeps_update_process quiet _ _ (Promote now (p_row_revision p))).
Qed.
Lemma keeps_promote now limit : okay (promote_due_retries now limit).
Proof. unfold promote_due_retries. keeps_tac. apply keeps_loop. intros r. apply keeps_promote_one. Qed.
Hint Resolve keeps_promote keeps_recover : legal.

Lemma keeps_fail_expired now pid p : okay (fail_expired_ready cfg now pid p).
Proof. unfold fail_expired_ready. keeps_tac. Qed.

Lemma keeps_mark_running now pid fencing : okay (mark_running now pid fencing).
Proof.
  unfold mark_running. keeps_tac. by apply (keeps_update_process quiet _ _ (MarkRunning now fencing)).
Qed.

Lemma keeps_heartbeat now pid fencing seconds : okay (heartbeat now pid fencing seconds).
Proof.
  unfold heartbeat. keeps_tac. by apply (keeps_update_process quiet _ _ (Heartbeat now (now + Outbox.seconds seconds) fencing)).
Qed.

Lemma keeps_materialize_root now id : okay (materialize_root cfg now id).
Proof. unfold materialize_root. keeps_tac. Qed.
Hint Resolve keeps_fail_expired : legal.

(** ** Admission and claim *)

Definition queue_only (s : statement) : bool := match s with Admit _ _ | ReleaseReservation _ => true | _ => false end.
Definition not_restart (s : statement) : bool := negb (is_restart s).

Lemma step_queue_status s p q : queue_only s = true -> step s p = Some q -> p_status q = p_status p.
Proof. intros Ho Hs. step_inv Hs; try discriminate Ho; done. Qed.

Lemma moved_queue_status p q : moved queue_only p q -> p_status q = p_status p.
Proof.
  intros (ss & Hr & Ho). revert p Hr Ho. induction ss as [|s ss IH]; intros p Hr Ho; simpl in *; [by injection Hr as <-|].
  destruct (step s p) as [p1|] eqn:Es; [|done]. breflect. rewrite (IH p1) by done. by eapply step_queue_status.
Qed.

(** The rows of one admission round, against the state in which they were read. *)
Definition ready_rows (d0 : db World) (rs : list waiting_row) : Prop :=
  Forall (fun r => exists p, d_processes d0 !! wr_id r = Some p /\ p_status p = ProcessStatus.READY) rs.

Lemma admit_one_legal now (d0 d : db World) r pool b d' :
  ready_rows d0 [r] -> legal queue_only d0 d -> admit_one now r pool d = Ok (b, d') -> legal queue_only d d'.
Proof.
  intros Hr Hl Hd. apply Forall_singleton in Hr as (p & Hp & Hs). unfold admit_one in Hd.
  apply update_process_Ok in Hd as [(_ & q & q' & Hq & Hup & ->)|(_ & -> & _)]; [|reflexivity].
  eapply legal_set_process; [exact Hq|]. apply (moved_step queue_only (Admit pool now)); [|reflexivity].
  destruct (evolves_lookup _ _ _ _ _ _ (lg_processes _ _ _ Hl) Hp) as (q0 & Hq0 & Hm). rewrite Hq in Hq0. injection Hq0 as <-.
  unfold step. cbn [guarded exec]. apply moved_queue_status in Hm. unfold status_in. rewrite Hm, Hs. exact Hup.
Qed.

Lemma ready_rows_cons d0 r rs : ready_rows d0 (r :: rs) <-> ready_rows d0 [r] /\ ready_rows d0 rs.
Proof. unfold ready_rows. rewrite Forall_cons, Forall_singleton. done. Qed.

Lemma admit_unpooled_legal now d0 rs (d : db World) x d' :
  ready_rows d0 rs -> legal queue_only d0 d -> admit_unpooled now rs d = Ok (x, d') -> legal queue_only d d'.
Proof.
  revert d. induction rs as [|r rs IH]; intros d Hr Hl Hd; simpl in Hd; [by injection Hd as _ <-|].
  apply ready_rows_cons in Hr as [H1 H2]. apply bind_Ok in Hd as (b & d1 & Ha & Hd).
  pose proof (admit_one_legal _ _ _ _ _ _ _ H1 Hl Ha) as H3. etrans; [exact H3|].
  eapply IH; [done| |exact Hd]. by etrans.
Qed.

Lemma admit_embeds_legal now d0 rs q (d : db World) x d' :
  ready_rows d0 rs -> legal queue_only d0 d -> admit_embeds cfg now rs q d = Ok (x, d') -> legal queue_only d d'.
Proof.
  revert d q. induction rs as [|r rs IH]; intros d q Hr Hl Hd; simpl in Hd; [by injection Hd as _ <-|].
  destruct (_ <=? _); [by injection Hd as _ <-|].
  apply ready_rows_cons in Hr as [H1 H2]. apply bind_Ok in Hd as (b & d1 & Ha & Hd).
  pose proof (admit_one_legal _ _ _ _ _ _ _ H1 Hl Ha) as H3. etrans; [exact H3|].
  eapply IH; [done| |exact Hd]. by etrans.
Qed.

Lemma admit_generates_legal now d0 rs l n (d : db World) x d' :
  ready_rows d0 rs -> legal queue_only d0 d -> admit_generates cfg now rs l n d = Ok (x, d') -> legal queue_only d d'.
Proof.
  revert d l n. induction rs as [|r rs IH]; intros d l n Hr Hl Hd; simpl in Hd; [by injection Hd as _ <-|].
  apply ready_rows_cons in Hr as [H1 H2].
  destruct (gated cfg r); [by eapply IH|]. destruct (generate_pool cfg r l n) as [[]|]; try (by eapply IH);
    (destruct (_ <? _); [|by eapply IH]); apply bind_Ok in Hd as (b & d1 & Ha & Hd);
    pose proof (admit_one_legal _ _ _ _ _ _ _ H1 Hl Ha) as H3; (etrans; [exact H3|]); (eapply IH; [done| |exact Hd]); by etrans.
Qed.

(** What the classification of the waiting rows returns. *)
Lemma classify_rows now (d : db World) rows :
  mapM (classify cfg d) (waiting_processes now d) = Ok rows ->
  Forall (fun r => d_processes d !! wr_id r = Some (wr_process r) /\ p_status (wr_process r) = ProcessStatus.READY /\
                   dispatch_admitted (p_dispatch (wr_process r)) = false /\ p_available_at (wr_process r) <= now /\
                   is_schedulable (wr_process r) d = true) rows.
Proof.
  intros Hm%mapM_Ok. rewrite Forall_forall. intros r Hr. apply list_elem_of_lookup_1 in Hr as (i & Hi).
  eapply Forall2_lookup_r in Hm as ((k, p) & Hx & Hc); [|exact Hi]. apply list_elem_of_lookup_2 in Hx.
  unfold waiting_processes in Hx. apply rows_where_elem in Hx as [Hk Hf]. unfold classify in Hc. inv_res. cbn in *.
  apply andb_true_iff in Hf as [Hf Hsch]. apply andb_true_iff in Hf as [Hf Hav]. apply andb_true_iff in Hf as [Hst Had].
  apply Z.leb_le in Hav. apply negb_true_iff in Had. apply status_in_elem, list_elem_of_singleton in Hst. done.
Qed.

Lemma classify_ready now (d : db World) rows :
  mapM (classify cfg d) (waiting_processes now d) = Ok rows -> ready_rows d rows.
Proof. intros Hr%classify_rows. eapply Forall_impl; [exact Hr|]. cbn. intros r (Hp & Hs & _). by exists (wr_process r). Qed.

Lemma ready_rows_filter d0 f rs : ready_rows d0 rs -> ready_rows d0 (List.filter f rs).
Proof.
  unfold ready_rows. rewrite !Forall_forall. intros Hr r Hin. apply Hr. apply list_elem_of_In in Hin. apply list_elem_of_In.
  by apply filter_In in Hin as [? _].
Qed.
Lemma ready_rows_sorted d0 le rs : ready_rows d0 rs -> ready_rows d0 (py_sorted le rs).
Proof. unfold ready_rows. by rewrite py_sorted_perm. Qed.

(** The state after the gate has released its reservations. *)
Lemma release_legal now (d : db World) x d' :
  (if ec_priority_gate_enabled cfg then update_processes (fun _ => true) (upd_release_reservation now) else ret tt) d = Ok (x, d') ->
  legal queue_only d d'.
Proof.
  destruct (ec_priority_gate_enabled cfg); [|by intros [= _ <-]].
  apply (keeps_update_processes queue_only _ _ (ReleaseReservation now)); done.
Qed.

Lemma admit_waiting_legal now (d : db World) x d' : admit_waiting_processes cfg now d = Ok (x, d') -> legal queue_only d d'.
Proof.
  unfold admit_waiting_processes. intros Hd. apply bind_Ok in Hd as (x1 & d1 & Hrel & Hd).
  apply bind_Ok in Hd as (d2 & ? & [= <- <-] & Hd). cbn zeta in Hd.
  apply bind_Ok in Hd as (rows & ? & [Hm ->]%lift_Ok & Hd). apply classify_ready in Hm.
  apply bind_Ok in Hd as (x2 & d3 & Hu & Hd). apply bind_Ok in Hd as (x3 & d4 & He & Hg).
  apply release_legal in Hrel.
  assert (legal queue_only d1 d3) as H13 by (eapply admit_unpooled_legal; [by apply ready_rows_filter|reflexivity|exact Hu]).
  assert (legal queue_only d3 d4) as H34
    by (eapply admit_embeds_legal; [apply ready_rows_sorted; by apply ready_rows_filter|exact H13|exact He]).
  assert (legal queue_only d1 d4) as H14 by (by etrans).
  etrans; [exact Hrel|]. etrans; [exact H14|].
  eapply admit_generates_legal; [apply ready_rows_sorted; by apply ready_rows_filter|exact H14|exact Hg].
Qed.

(** ** The claimed row *)

Definition running_cap (k : DispatchPool) : Z :=
  match k with
  | local_inference => Dispatch.local_running (ec_caps cfg)
  | non_interactive => Dispatch.ni_running (ec_caps cfg)
  | embed => Dispatch.embed_running (ec_caps cfg)
  end.
Definition queued_cap (k : DispatchPool) : Z :=
  match k with
  | local_inference => Dispatch.local_queued (ec_caps cfg)
  | non_interactive => Dispatch.ni_queued (ec_caps cfg)
  | embed => Dispatch.embed_queued (ec_caps cfg)
  end.

(** A pool that may run one more process; work outside the pools always may. *)
Definition pool_open (d : db World) (p : process) : Prop :=
  match dispatch_pool (p_dispatch p) with
  | Some k => po_running (pool_occupancy (d_processes d) k) < running_cap k
  | None => True
  end.

Lemma head_sorted_elem {A} (le : A -> A -> bool) l x : head (py_sorted le l) = Some x -> x ∈ l.
Proof. intros Hx. rewrite <-(py_sorted_perm le l). destruct (py_sorted le l); [done|]. injection Hx as <-. left. Qed.

Lemma embed_candidate_Some now (d : db World) pid p :
  embed_candidate cfg now d = Some (pid, p) ->
  d_processes d !! pid = Some p /\ due_admitted cfg now d p = true /\ dispatch_pool (p_dispatch p) = Some embed /\ pool_open d p.
Proof.
  unfold embed_candidate. destruct (Z.ltb_spec (po_running (pool_occupancy (d_processes d) embed)) (Dispatch.embed_running (ec_caps cfg)));
    [|done]. intros [Hp Hf]%head_sorted_elem%rows_where_elem. apply andb_true_iff in Hf as [Hdue Hk].
  unfold in_pool in Hk. breflect. unfold pool_open. rewrite Hk. done.
Qed.

Lemma other_candidate_Some now (d : db World) pid p :
  other_candidate cfg now d = Some (pid, p) ->
  d_processes d !! pid = Some p /\ due_admitted cfg now d p = true /\ pool_open d p.
Proof.
  unfold other_candidate. intros [Hp Hf]%head_sorted_elem%rows_where_elem. apply andb_true_iff in Hf as [Hdue Hk].
  split_and!; [done|done|]. unfold other_pool_open, pool_open in *. destruct (dispatch_pool (p_dispatch p)) as [[]|]; try done;
    by apply Z.ltb_lt in Hk.
Qed.

Lemma claim_candidate_Some now (d : db World) pid p :
  claim_candidate cfg now d = Some (pid, p) ->
  d_processes d !! pid = Some p /\ due_admitted cfg now d p = true /\ pool_open d p.
Proof.
  unfold claim_candidate. destruct (embed_candidate cfg now d) as [[ka pa]|] eqn:Ea, (other_candidate cfg now d) as [[kb pb]|] eqn:Eb;
    intros [= Hc]; try (destruct (embed_le _ _)); simplify_eq;
    first [apply embed_candidate_Some in Ea as (? & ? & _ & ?); done | apply other_candidate_Some in Eb; done].
Qed.

(** One round of the claim loop: a failed expired process, or an admission that finds
    nothing, an expired candidate or a row that is claimed. *)
Inductive claim_case (now expires : Z) (token token_hash owner : ustr) (d : db World)
    : option (option ClaimedProcess) -> db World -> Prop :=
| Claim_expired pid p d' :
    expired_ready cfg now d = Some (pid, p) -> legal quiet d d' -> claim_case now expires token token_hash owner d (Some None) d'
| Claim_idle d1 :
    expired_ready cfg now d = None -> admit_waiting_processes cfg now d = Ok (tt, d1) ->
    claim_candidate cfg now d1 = None -> claim_case now expires token token_hash owner d None d1
| Claim_late d1 pid p d' :
    expired_ready cfg now d = None -> admit_waiting_processes cfg now d = Ok (tt, d1) ->
    claim_candidate cfg now d1 = Some (pid, p) -> legal quiet d1 d' ->
    claim_case now expires token token_hash owner d (Some None) d'
| Claim_won d1 pid p p' e plan command j d' :
    expired_ready cfg now d = None -> admit_waiting_processes cfg now d = Ok (tt, d1) ->
    claim_candidate cfg now d1 = Some (pid, p) -> d_processes d1 !! pid = Some p ->
    d_executions d1 !! ps_execution (p_spec p) = Some e -> assert_execution_binding cfg e d1 = Ok (plan, d1) ->
    process_declared plan p = true ->
    match ps_deadline_at (p_spec p) with Some t => t <? now | None => false end = false ->
    upd_claim token_hash owner expires now (p_row_revision p) p = Some p' ->
    d' = set_processes (<[pid := p']> (d_processes d1)) d1 ->
    command_from_process pid j = Ok command -> j.1.1 = p' ->
    claim_case now expires token token_hash owner d (Some (Some (Build_ClaimedProcess command token expires))) d'.

Lemma reads_binding e : reads (S := db World) (assert_execution_binding cfg e).
Proof.
  unfold assert_execution_binding. apply reads_bind; [auto with mkb|]. intros w. destruct (workflow_revision _ _) as [[]|]; [|auto with mkb].
  apply reads_bind; [auto with mkb|]. intros _. destruct (dget _ _); [|auto with mkb].
  apply reads_bind; [auto with mkb|]. intros _. apply reads_bind; auto with mkb.
Qed.

Lemma claim_round_case now expires token token_hash owner (d : db World) r d' :
  claim_round cfg now expires token token_hash owner d = Ok (r, d') -> claim_case now expires token token_hash owner d r d'.
Proof.
  unfold claim_round. intros Hd. apply bind_Ok in Hd as (ex & ? & [= <- <-] & Hd).
  destruct (expired_ready cfg now d) as [[pid p]|] eqn:Eex.
  { apply bind_Ok in Hd as (y & d1 & Hf & [= <- <-]). eapply Claim_expired; [done|]. by eapply keeps_fail_expired. }
  apply bind_Ok in Hd as ([] & d1 & Ha & Hd). apply bind_Ok in Hd as (c & ? & [= <- <-] & Hd).
  destruct (claim_candidate cfg now d1) as [[pid p]|] eqn:Ec; [|injection Hd as <- <-; by eapply Claim_idle].
  apply bind_Ok in Hd as (e & ? & [-> He]%execution_row_Ok & Hd).
  apply bind_Ok in Hd as (plan & d2 & Hb & Hd). pose proof (reads_binding _ _ _ _ Hb) as ->.
  apply bind_Ok in Hd as (? & ? & [Hdecl ->]%require_Ok & Hd).
  pose proof (claim_candidate_Some _ _ _ _ Ec) as (Hp & Hdue & Hopen).
  destruct (match ps_deadline_at _ with Some _ => _ | None => _ end) eqn:Edl.
  { apply bind_Ok in Hd as (y & d2 & Hf & [= <- <-]). eapply Claim_late; [done..|]. by eapply keeps_fail_expired. }
  apply bind_Ok in Hd as (b & d2 & Hu & Hd).
  apply update_process_Ok in Hu as [(-> & q & q' & Hq & Hup & ->)|(-> & -> & _)];
    [|injection Hd as <- <-; eapply Claim_late; [done..|reflexivity]].
  rewrite Hp in Hq. injection Hq as <-. apply bind_Ok in Hd as (j & d3 & Hj & Hd). apply join_Ok in Hj as (-> & Hj & _).
  apply bind_Ok in Hd as (cmd & ? & [Hcmd ->]%lift_Ok & [= <- <-]). cbn in Hj. rewrite lookup_insert_eq in Hj. injection Hj as Hj.
  by eapply Claim_won.
Qed.

Lemma claim_round_legal now expires token token_hash owner (d : db World) r d' :
  claim_round cfg now expires token token_hash owner d = Ok (r, d') -> legal not_restart d d'.
Proof.
  assert (forall d1 d2 : db World, legal queue_only d1 d2 -> legal not_restart d1 d2) as Hq
    by (intros d1 d2; apply legal_weaken; by intros []).
  assert (forall d1 d2 : db World, legal quiet d1 d2 -> legal not_restart d1 d2) as Hn
    by (intros d1 d2; apply legal_weaken; by intros []).
  intros Hc%claim_round_case.
  destruct Hc as [pid p d' _ Hl|d1 _ Ha _|d1 pid p d' _ Ha _ Hl|d1 pid p p' e plan cmd j d' _ Ha Hc Hp _ _ _ _ Hup -> _ _].
  - auto.
  - apply Hq. by eapply admit_waiting_legal.
  - etrans; [apply Hq; by eapply admit_waiting_legal|auto].
  - etrans; [apply Hq; by eapply admit_waiting_legal|]. eapply legal_set_process; [done|].
    apply (moved_step not_restart (Claim token_hash owner expires now (p_row_revision p))); [|done].
    apply claim_candidate_Some in Hc as (_ & Hdue & _). unfold due_admitted in Hdue. unfold step. cbn [guarded exec].
    destruct (dispatch_admitted (p_dispatch p)); [done|]. by rewrite andb_false_r in Hdue.
Qed.

Lemma claim_rounds_legal n now expires token token_hash owner (d : db World) r d' :
  claim_rounds cfg n now expires token token_hash owner d = Ok (r, d') -> legal not_restart d d'.
Proof.
  revert d r. induction n as [|n IH]; intros d r Hd; simpl in Hd; [by injection Hd as _ <-|].
  apply bind_Ok in Hd as (c & d1 & Hc & Hd). apply claim_round_legal in Hc.
  destruct c as [[c|]|]; [by injection Hd as _ <-| |by injection Hd as _ <-]. etrans; [exact Hc|by eapply IH].
Qed.

Lemma quiet_not_restart (d d' : db World) : legal quiet d d' -> legal not_restart d d'.
Proof. apply legal_weaken. by intros []. Qed.

Lemma claim_next_legal ready promoted_at now token owner secs (d : db World) r d' :
  claim_next cfg ready promoted_at now token owner secs d = (r, d') -> legal not_restart d d'.
Proof.
  unfold claim_next. cbn zeta. destruct (rbind _ _); [|by intros [= _ <-]].
  destruct (promote_due_retries promoted_at 64 d) as [[n d1]|] eqn:Ep; [|by intros [= _ <-]].
  apply keeps_promote, quiet_not_restart in Ep. destruct (stable_digest _); [|by intros [= _ <-]].
  case_bool_decide; [by intros [= _ <-]|].
  destruct (claim_rounds _ _ _ _ _ _ _ _) as [[c d2]|] eqn:Ec; [|by intros [= _ <-]].
  intros [= _ <-]. etrans; [exact Ep|by eapply claim_rounds_legal].
Qed.

Definition any_statement (s : statement) : bool := true.

Lemma restart_legal now team pid g key : keeps (S := db World) (legal any_statement) (restart_process now team pid g key).
Proof.
  unfold restart_process. apply keeps_bind; [apply _|apply keeps_reads; [apply _|apply reads_require]|]. intros _.
  apply keeps_bind; [apply _|apply keeps_reads; [apply _|apply reads_gets]|]. intros [p|]; [|by intros d ? ?].
  do 3 (apply keeps_bind; [apply _|apply keeps_reads; [apply _|apply reads_require]|]; intros _).
  apply keeps_bind; [apply _|by apply (keeps_update_process any_statement _ _ (OperatorRestart now g))|]. intros b.
  apply keeps_bind; [apply _|apply keeps_reads; [apply _|apply reads_require]|]. intros _.
  intros d x d' Hd. apply (legal_weaken quiet); [done|]. revert Hd. apply keeps_enqueue.
Qed.
End laws.
