(* ===== verification/EngineSamples.v ===== *)
(** * A small engine

    A concrete instance of the services and a database with four submitted tasks over a
    one-step workflow, with caps of one.  The witnesses of the engine's theorems evaluate
    their runs on it. *)

From S2P Require Import Prelude PyText PyValue Txn WorkflowContracts Dispatch Strategies Routing Outbox ProcessRows ExecutionRows.
From S2P Require Import Engine Materialize Outcome Scheduler EngineLaws.

Open Scope Z_scope.
Open Scope mkb_scope.

Module EngineSamples.
Import WorkflowSamples.
Open Scope list_scope.
#[export] Existing Instance test_host.

Definition plan : WorkflowDefinition :=
  Build_WorkflowDefinition "demo" 1 SINGLE_ROOT [port "upload" true] ["lsrag.structurize"]
    [plain "start" START None; process "structurize" "lsrag.structurize" [port "source" true] [port "text" true];
     plain "done" TERMINAL (Some TK_SUCCESS); plain "failed" TERMINAL (Some TK_FAILURE)]
    [route "r0" "start" "structurize" RK_NORMAL ALWAYS; route "r1" "structurize" "done" RK_TERMINAL SUCCEEDED;
     route "r2" "structurize" "failed" RK_TERMINAL FAILED; route "r3" "structurize" "failed" RK_TERMINAL CANCELLED]
    [Build_WorkflowBindingDefinition "structurize" "source" EXECUTION_CONTEXT (Some "upload") None None]
    [].

(** No gate, scatter, audit or retrieval: the services answer what an idle owner answers. *)
#[export] Instance services : Services unit := {|
  uuid7 n := u "id-" ++ dec (Z.of_nat n);
  timestamp z := dec z;
  workflow_revision _ _ := Some (u "plan-digest", "demo"%string);
  workflow_step_uuid _ _ key := Some (u "step-" ++ u key);
  workflow_step_keys _ _ := map step_key (steps plan);
  representation_fact _ _ := None;
  typed_route_context _ _ _ := Ok (fields [("request_intent", PStr (u "intake.ingest"))]);
  supersede_and_abandon _ _ _ w := w;
  refresh_scatter_counts _ _ _ _ _ := Ok None;
  maybe_converge_scatter_root _ _ d := Ok (false, d);
  enter_wait_control _ _ _ _ _ _ _ d := Ok (false, d);
  task_audit _ _ _ := None;
  decode_history _ := [];
  commit_outcome := None;
  write_pending_evidence _ _ w := Ok w
|}.

#[export] Instance services_laws : ServicesLaws unit services.
Proof. split; simpl; intros; try discriminate; simplify_eq; reflexivity. Qed.

Definition config : engine_config :=
  Build_engine_config ["demo"%string] [(u "plan-digest", plan)] (Build_DispatchCaps 1 1 1 1 1 1 16000) true true true 3 3 5 None false.

Definition identity (n : Z) : execution_identity :=
  Build_execution_identity (u "team") (u "task-" ++ dec n) (u "trace") 1 (u "root-" ++ dec n) None "root" "required"
    (u "revision") (u "plan-digest") (u "binding") (u "config") (u "config-digest") (Some (u "upload")) (Some (u "upload-digest"))
    PNone.
Definition ready_execution (n : Z) : execution :=
  Build_execution (identity n) ExecutionStatus.READY 0 None no_wait None (Build_process_counts 0 0 0 0 0)
    (Build_seal_row None legacy_unverifiable 0 None None None None) None None no_final None 0.
Definition queued_task (n : Z) : task :=
  Build_task normal (u "intake.ingest") None (u "trace") TaskStatus.QUEUED 0 1 (Some (u "root-" ++ dec n)) no_counts None None None
    None None None None 0.

(** Tasks [1 .. n], submitted and not yet started. *)
Definition submitted (n : nat) : db unit :=
  let ids := map Z.of_nat (seq 1 n) in
  Build_db unit ∅ (list_to_map (map (fun i => (u "root-" ++ dec i, ready_execution i)) ids))
    (list_to_map (map (fun i => ((u "team", u "task-" ++ dec i), queued_task i)) ids)) ∅ ∅ 0 tt.

(** The process that root [n] materializes first takes the next identifier. *)
Definition pid (n : nat) : ustr := u "id-" ++ dec (Z.of_nat n).
Definition status_of (d : db unit) (id : ustr) : option ProcessStatus.t := p_status <$> d_processes d !! id.

Definition with_digest (o : ProcessOutcome) : ProcessOutcome :=
  Build_ProcessOutcome (po_team o) (po_task o) (po_execution o) (po_process o) (po_fencing_generation o) (po_disposition o)
    (match canonical_outcome_digest o with Ok g => g | Err _ => [] end) (po_output_manifest_ref o) (po_output_manifest_digest o)
    (po_proof_ref o) (po_proof_digest o) (po_error_code o) (po_error_message o) (po_payload_extra o).
(** A success with its proofs, and a failure, of the process [p] of root [n] under a generation. *)
Definition success (n : Z) (p : ustr) (generation : Z) : ProcessOutcome :=
  with_digest (Build_ProcessOutcome (u "team") (u "task-" ++ dec n) (u "root-" ++ dec n) p generation O_SUCCEEDED []
    (Some (u "out")) (Some (u "out-digest")) (Some (u "proof")) (Some (u "proof-digest")) None None []).
Definition retryable (n : Z) (p : ustr) (generation : Z) : ProcessOutcome :=
  with_digest (Build_ProcessOutcome (u "team") (u "task-" ++ dec n) (u "root-" ++ dec n) p generation O_RETRYABLE_FAILURE []
    None None None None (Some (u "timeout")) (Some (u "slow")) []).
End EngineSamples.
