(* ===== verification/EngineRuns.v ===== *)
(** * Runs of the engine

    The transactions of the engine as one step relation, and what holds in every run of
    them: the tables evolve by the row statements alone, stale workers are fenced, accepted
    outcomes are replayed without effect, and the pools of [dispatch.py] never exceed their
    caps unless an operator restarts a process. *)

From S2P Require Import Prelude PyText PyValue Txn WorkflowContracts Dispatch Strategies Routing Outbox ProcessRows ExecutionRows.
From S2P Require Import Engine Materialize Outcome Scheduler EngineLaws EngineSamples.

Open Scope Z_scope.
Open Scope mkb_scope.

(** One call of the engine; each is one transaction, the claim two. *)
Inductive engine_op :=
| OpMaterializeRoot (now : Z) (execution : ustr)
| OpClaim (ready : bool) (promoted_at now : Z) (token owner : ustr) (lease_seconds : Z)
| OpStart (now : Z) (process : ustr) (fencing : Z)
| OpHeartbeat (now : Z) (process : ustr) (fencing lease_seconds : Z)
| OpAccept (now jitter : Z) (outcome : ProcessOutcome)
| OpPromote (now limit : Z)
| OpRecover (now limit : Z)
| OpCancel (now : Z) (execution : ustr)
| OpRestart (now : Z) (team process : ustr) (expected_generation : Z) (idempotency_key : ustr).

Definition op_restarts (op : engine_op) : bool := match op with OpRestart _ _ _ _ _ => true | _ => false end.

Section runs.
Context {World : Type} {H : Host} {SV : Services World} {SL : ServicesLaws World SV} (cfg : engine_config).

(** The database after a transaction: an exception rolls it back. *)
Definition after {A} (m : tx World A) (d : db World) : db World := match m d with Ok (_, d') => d' | Err _ => d end.

Definition engine_step (d : db World) (op : engine_op) : db World :=
  match op with
  | OpMaterializeRoot now e => after (materialize_root cfg now e) d
  | OpClaim ready at_ now token owner secs => (claim_next cfg ready at_ now token owner secs d).2
  | OpStart now p f => after (mark_running now p f) d
  | OpHeartbeat now p f secs => after (heartbeat now p f secs) d
  | OpAccept now jitter o => after (accept_outcome cfg now jitter o) d
  | OpPromote now limit => after (promote_due_retries now limit) d
  | OpRecover now limit => after (recover_expired_leases cfg now limit) d
  | OpCancel now e => after (request_cancellation now e) d
  | OpRestart now team p g key => after (restart_process now team p g key) d
  end.
Definition engine_run : db World -> list engine_op -> db World := foldl engine_step.

Lemma after_keeps {A} ok (m : tx World A) d : keeps (legal ok) m -> legal ok d (after m d).
Proof. intros Hm. unfold after. destruct (m d) as [[a d']|] eqn:E; [by eapply Hm|reflexivity]. Qed.

Lemma after_quiet {A} (m : tx World A) d : keeps (legal quiet) m -> legal not_restart d (after m d).
Proof. intros Hm. by apply quiet_not_restart, after_keeps. Qed.

Lemma step_legal op d : op_restarts op = false -> legal not_restart d (engine_step d op).
Proof.
  destruct op; intros Ho; try discriminate Ho; simpl;
    try (apply after_quiet; auto using keeps_materialize_root, keeps_mark_running, keeps_heartbeat, keeps_accept_outcome,
           keeps_promote, keeps_recover, keeps_request_cancellation).
  destruct (claim_next _ _ _ _ _ _ _ _) as [r d'] eqn:E. by eapply claim_next_legal.
Qed.

Lemma step_any op d : legal any_statement d (engine_step d op).
Proof.
  destruct (op_restarts op) eqn:Ho; [|eapply legal_weaken; [|by apply step_legal]; done].
  destruct op; try discriminate Ho. simpl. apply after_keeps, restart_legal.
Qed.

Lemma run_any ops d : legal any_statement d (engine_run d ops).
Proof.
  revert d. induction ops as [|op ops IH]; intros d; [reflexivity|]. simpl. etrans; [apply step_any|apply IH].
Qed.

Lemma run_not_restart ops d : existsb op_restarts ops = false -> legal not_restart d (engine_run d ops).
Proof.
  revert d. induction ops as [|op ops IH]; intros d Ho; [reflexivity|]. simpl in *. breflect.
  etrans; [by apply step_legal|by apply IH].
Qed.

(** C1: Refinement.  Whatever calls are made of the engine, in whatever order and with
    whatever clocks, tokens and outcomes: process, execution and task rows are never
    deleted, every process row moves by a run of the row statements whose guards held and
    every new one starts ready, execution and task rows move by their statements, and no
    selected output and no enqueued intent is overwritten.  Without operator restarts no
    process is restarted. *)
Theorem engine_refines_row_statements (d : db World) (ops : list engine_op) :
  legal any_statement d (engine_run d ops) /\
  (existsb op_restarts ops = false -> legal not_restart d (engine_run d ops)).
Proof. split; [apply run_any|apply run_not_restart]. Qed.

(** ** Stale workers *)

Lemma heartbeat_stale now pid f secs (d : db World) p :
  d_processes d !! pid = Some p -> fence p <> f -> 1 <= secs <= 3600 -> heartbeat now pid f secs d = Ok (false, d).
Proof.
  intros Hp Hf Hs. unfold heartbeat, bind, require, lift. rewrite !leb_intro by lia. cbn [andb ensure rbind].
  cbn [fst snd]. unfold update_process. rewrite Hp. cbn [mbind option_bind]. unfold upd_heartbeat.
  rewrite (proj2 (Z.eqb_neq _ _)) by done. by rewrite andb_false_r.
Qed.

Lemma mark_running_stale now pid f (d : db World) p :
  d_processes d !! pid = Some p -> fence p <> f -> exists e, mark_running now pid f d = Err e.
Proof.
  intros Hp Hf. destruct (mark_running now pid f d) as [[b d']|e] eqn:E; [exfalso|by exists e].
  unfold mark_running in E. apply bind_Ok in E as (j & d1 & Hj & E). apply join_Ok in Hj as (-> & Hj & _). cbn zeta in E.
  rewrite Hp in Hj. injection Hj as Hj. rewrite <-Hj in E. rewrite (proj2 (Z.eqb_neq _ _)), andb_false_r in E by done.
  apply bind_Ok in E as (b1 & d1 & Hu & E). apply update_process_Ok in Hu as [(-> & q & q' & Hq & Hup & _)|(-> & -> & _)].
  - rewrite Hp in Hq. injection Hq as <-. unfold upd_mark_running in Hup.
    rewrite (proj2 (Z.eqb_neq _ _)), andb_false_r in Hup by done. done.
  - apply bind_Ok in E as (? & ? & [? _]%require_Ok & _). done.
Qed.

Lemma accept_stale now jitter o (d : db World) p :
  d_processes d !! po_process o = Some p -> fence p <> po_fencing_generation o -> exists e, accept_outcome cfg now jitter o d = Err e.
Proof.
  intros Hp Hf. destruct (accept_outcome cfg now jitter o d) as [[b d']|e] eqn:E; [exfalso|by exists e].
  apply accept_outcome_inv in E as (q & Hq & Hfq & _). congruence.
Qed.

(** The row of a process in a later database. *)
Lemma legal_process ok (d d' : db World) pid p :
  legal ok d d' -> d_processes d !! pid = Some p -> exists p' ss, d_processes d' !! pid = Some p' /\ run ss p = Some p'.
Proof.
  intros Hl Hp. destruct (evolves_lookup _ _ _ _ _ _ (lg_processes _ _ _ Hl) Hp) as (p' & Hp' & ss & Hr & _). eauto.
Qed.

(** C33: A worker that lost its claim can do nothing.  If at some moment a worker holds a
    process under a generation, and in a later state of the engine the process has another
    generation (it was claimed again, recovered, restarted or cancelled), then in that state
    the worker's heartbeat extends nothing, its start raises and each of its outcomes,
    whatever it reports, raises and changes nothing. *)
Theorem stale_workers_are_fenced (d : db World) (ops : list engine_op) (pid : ustr) (p p' : process)
    (Hp : d_processes d !! pid = Some p) (Hp' : d_processes (engine_run d ops) !! pid = Some p')
    (Hstale : fence p' <> fence p) :
  fence p < fence p' /\
  forall now jitter secs,
    (1 <= secs <= 3600 -> heartbeat now pid (fence p) secs (engine_run d ops) = Ok (false, engine_run d ops)) /\
    (exists e, mark_running now pid (fence p) (engine_run d ops) = Err e) /\
    (forall o, po_process o = pid -> po_fencing_generation o = fence p ->
       exists e, accept_outcome cfg now jitter o (engine_run d ops) = Err e).
Proof.
  destruct (legal_process _ _ _ _ _ (run_any ops d) Hp) as (q & ss & Hq & Hr). rewrite Hp' in Hq. injection Hq as <-.
  destruct (run_fence _ _ _ Hr) as [Hle _]. split; [lia|]. intros now jitter secs. split_and!.
  - intros Hs. by eapply heartbeat_stale.
  - by eapply mark_running_stale.
  - intros o Ho Hf. eapply accept_stale; [by rewrite Ho|congruence].
Qed.

(** ** Replays of an outcome *)

(** Outcomes that end their process and are recorded by their digest. *)
Definition decisive (o : ProcessOutcome) : bool :=
  match po_disposition o with O_SUCCEEDED => all_present o | O_FAILED => true | _ => false end.

(** A terminal row that recorded the outcome [o]. *)
Definition recorded (o : ProcessOutcome) (p : process) : Prop :=
  terminal_process (p_status p) = true /\ fence p = po_fencing_generation o /\
  accepted_outcome_digest (p_outcome p) = Some (po_outcome_digest o).

Lemma recorded_run o ss p q : recorded o p -> run ss p = Some q -> recorded o q.
Proof.
  intros Hrec. apply (run_preserves (recorded o)); [done|]. intros s r r' (Ht & Hf & Ha) Hs.
  destruct (step_terminal _ _ _ Ht Hs) as (now & _ & _ & ->). done.
Qed.

Lemma recorded_legal ok o (d d' : db World) pid p :
  legal ok d d' -> d_processes d !! pid = Some p -> recorded o p -> exists p', d_processes d' !! pid = Some p' /\ recorded o p'.
Proof.
  intros Hl Hp Hr. destruct (legal_process _ _ _ _ _ Hl Hp) as (p' & ss & Hp' & Hrun). exists p'. split; [done|].
  by eapply recorded_run.
Qed.

Lemma accept_success_records now eid e pid j o (d : db World) x d' :
  pid = po_process o -> accept_success cfg now eid e pid j o d = Ok (x, d') ->
  exists p', d_processes d' !! pid = Some p' /\ recorded o p'.
Proof.
  intros -> Hd. unfold accept_success in Hd. apply bind_Ok in Hd as (? & d1 & _ & Hd).
  apply bind_Ok in Hd as (b & d2 & Hu & Hd). apply bind_Ok in Hd as (? & ? & [-> ->]%require_Ok & Hd).
  apply update_process_Ok in Hu as [(_ & q & q' & Hq & Hup & ->)|(? & _)]; [|done].
  assert (recorded o q') as Hrec.
  { unfold upd_succeed in Hup. case_match eqn:Ec; [|done]. injection Hup as <-. apply andb_true_iff in Ec as [_ Ec].
    apply Z.eqb_eq in Ec. by split_and!. }
  match type of Hd with ?m ?d0 = _ => assert (keeps (legal quiet) m) as Hk by eauto using keeps_bind, keeps_join, keeps_route_after with typeclass_instances end.
  eapply recorded_legal; [by eapply Hk| |exact Hrec]. cbn. apply lookup_insert_eq.
Qed.

Lemma fail_records now eid e pid p code disposition o ctx (d : db World) x d' :
  d_processes d !! pid = Some p -> fence p = po_fencing_generation o ->
  fail_and_route cfg now eid e pid p code disposition (Some (po_outcome_digest o)) ctx d = Ok (x, d') ->
  exists p', d_processes d' !! pid = Some p' /\ recorded o p'.
Proof.
  intros Hp Hf Hd. unfold fail_and_route in Hd. apply bind_Ok in Hd as (y & d1 & Hfail & Hd).
  enough (exists p', d_processes d1 !! pid = Some p' /\ recorded o p') as (p' & Hp' & Hrec).
  { eapply recorded_legal; [|exact Hp'|exact Hrec]. revert Hd. apply keeps_route_after. }
  unfold fail_process in Hfail. apply bind_Ok in Hfail as (b & d2 & Hu & Hfail).
  apply update_process_Ok in Hu as [(-> & q & q' & Hq & Hup & ->)|(-> & -> & _)].
  - inv_res. exists q'. split; [cbn; apply lookup_insert_eq|].
    unfold upd_fail in Hup. case_match eqn:Ec; [|done]. injection Hup as <-. apply andb_true_iff in Ec as [_ Ec].
    apply Z.eqb_eq in Ec. split_and!; [done| |done]. cbn. congruence.
  - apply bind_Ok in Hfail as (c & ? & [= <- <-] & Hfail). rewrite Hp in Hfail. by rewrite Z.eqb_refl in Hfail.
Qed.

(** The join of a process survives every legal transaction. *)
Lemma join_legal ok (d d' : db World) p p' j :
  legal ok d d' -> p_spec p' = p_spec p -> join_process p d = Some j -> exists j', join_process p' d' = Some j' /\ j'.1.1 = p'.
Proof.
  intros Hl Hs. unfold join_process. rewrite Hs.
  destruct (d_executions d !! ps_execution (p_spec p)) as [e|] eqn:Ee; [|done].
  destruct (evolves_lookup _ _ _ _ _ _ (lg_executions _ _ _ Hl) Ee) as (e' & -> & He').
  pose proof (el_identity _ _ (ex_run_later _ _ He')) as ->. destruct (ueqb _ _); [|done].
  destruct (d_tasks d !! _) as [t|] eqn:Et; [|done].
  destruct (evolves_lookup _ _ _ _ _ _ (lg_tasks _ _ _ Hl) Et) as (t' & -> & _). intros _. eauto.
Qed.

Lemma accept_recorded now jitter o (d : db World) p j :
  canonical_outcome_digest o = Ok (po_outcome_digest o) -> d_processes d !! po_process o = Some p -> recorded o p ->
  join_process p d = Some j -> j.1.1 = p -> assert_outcome_identity p o = Ok tt ->
  accept_outcome cfg now jitter o d = Ok (false, d).
Proof.
  intros Hdg Hp (Ht & Hf & Ha) Hj Hjp Hid. unfold accept_outcome.
  rewrite (bind_run _ _ _ _ _ (lift_run _ _ d Hdg)). rewrite ueqb_refl, (bind_run _ _ d tt d) by done. cbn zeta.
  rewrite (bind_run _ _ d j d) by (unfold process_with_execution; rewrite Hp; cbn [mbind option_bind]; by rewrite Hj).
  rewrite Hjp, (bind_run _ _ _ _ _ (lift_run _ _ d Hid)), Ht. by rewrite bool_decide_eq_true_2.
Qed.

(** C34: Acceptance is idempotent.  Once a success with its proofs or a failure has been
    accepted, submitting the same outcome again, at any later time and after whatever other
    calls of the engine, returns [False] and changes nothing. *)
Theorem accepted_outcome_is_replayed (now jitter : Z) (o : ProcessOutcome) (d d' : db World) (ops : list engine_op)
    (now2 jitter2 : Z) (Hdecisive : decisive o = true) (Haccept : accept_outcome cfg now jitter o d = Ok (true, d')) :
  accept_outcome cfg now2 jitter2 o (engine_run d' ops) = Ok (false, engine_run d' ops).
Proof.
  destruct (accept_outcome_inv _ _ _ _ _ _ _ Haccept) as (p & Hp & Hf & Hdg & Hid & [(? & _)|(_ & _ & Hrest)]); [done|].
  destruct Hrest as (e & j & d1 & x & _ & _ & Hjp & Hj & Hm & _ & Href).
  assert (exists p1, d_processes d1 !! po_process o = Some p1 /\ recorded o p1) as (p1 & Hp1 & Hr1).
  { unfold decisive in Hdecisive. destruct (po_disposition o); try discriminate Hdecisive.
    - rewrite Hdecisive in Hm. by eapply accept_success_records.
    - by eapply fail_records. }
  assert (legal any_statement d1 (engine_run d' ops)) as Hl.
  { etrans; [|apply run_any]. eapply legal_weaken; [|by eapply keeps_refresh]. done. }
  destruct (recorded_legal _ _ _ _ _ _ Hl Hp1 Hr1) as (p2 & Hp2 & Hr2).
  assert (legal any_statement d (engine_run d' ops)) as Hl0.
  { etrans; [|apply run_any]. eapply legal_weaken; [|by eapply keeps_accept_outcome]. done. }
  destruct (legal_process _ _ _ _ _ Hl0 Hp) as (q & ss & Hq & Hrun). rewrite Hp2 in Hq. injection Hq as <-.
  pose proof (run_spec _ _ _ Hrun) as Hsp. destruct (join_legal _ _ _ _ p2 _ Hl0 Hsp Hj) as (j2 & Hj2 & Hjp2).
  eapply accept_recorded; [done..|]. unfold assert_outcome_identity in *. destruct Hr2 as (_ & Hf2 & _).
  rewrite Hsp, Hf2. rewrite Hf in Hid. exact Hid.
Qed.
End runs.

(** ** Witnesses *)

Import EngineSamples.

Module RunSamples.
(** Three roots started; a worker holds the first process. *)
Definition claim_at (t : Z) : engine_op := OpClaim true t t (u "token") (u "worker") 60.
Definition started : list engine_op :=
  [OpMaterializeRoot 1 (u "root-1"); OpMaterializeRoot 2 (u "root-2"); OpMaterializeRoot 3 (u "root-3"); claim_at 10].
Definition restart : engine_op := OpRestart 20 (u "team") (pid 0) 1 (u "key").
Abbreviation claimed := (engine_run config (submitted 4) started).
Abbreviation running := (engine_step config claimed (OpStart 11 (pid 0) 1)).
End RunSamples.
Import RunSamples.

Lemma engine_refines_row_statements_witness : legal not_restart (submitted 4) claimed.
Proof. apply (engine_refines_row_statements config (submitted 4) started). vm_compute. reflexivity. Defined.

(** The operator restarts the claimed process: its first worker is locked out. *)
Lemma stale_workers_are_fenced_witness :
  exists e, mark_running 30 (pid 0) 1 (engine_run config claimed [restart]) = Err e.
Proof.
  assert ((fun p => fence p) <$> d_processes claimed !! pid 0 = Some 1) as (p & Hp & Hf)%fmap_Some by (vm_compute; reflexivity).
  assert ((fun p => fence p) <$> d_processes (engine_run config claimed [restart]) !! pid 0 = Some 2) as (p' & Hp' & Hf')%fmap_Some
    by (vm_compute; reflexivity).
  destruct (stale_workers_are_fenced config _ _ _ _ _ Hp Hp' ltac:(rewrite <-Hf, <-Hf'; discriminate)) as [_ Hs].
  destruct (Hs 30 0 0) as (_ & Hm & _). rewrite <-Hf in Hm. exact Hm.
Defined.

Lemma after_true (m : tx unit bool) (d : db unit) :
  match m d with Ok (b, _) => b | Err _ => false end = true -> m d = Ok (true, after m d).
Proof. unfold after. destruct (m d) as [[b d']|e]; [|done]. by intros ->. Qed.

(** The success is submitted again after another root has been started and claimed. *)
Lemma accepted_outcome_is_replayed_witness :
  let o := success 1 (pid 0) 1 in
  let d := after (accept_outcome config 12 0 o) running in
  accept_outcome config 99 0 o (engine_run config d [claim_at 20]) = Ok (false, engine_run config d [claim_at 20]).
Proof.
  intros o d. apply (accepted_outcome_is_replayed config 12 0 o running d [claim_at 20] 99 0); [vm_compute; reflexivity|].
  apply after_true. vm_compute. reflexivity.
Defined.
