(* ===== verification/Claims.v ===== *)
(** * What a claim promises

    The contract of [claim_next] ([src/runtime/workflow/runtime_core.py]) for a worker: the
    process it is given was due, admitted, runnable and first in its order, the command it
    is given names that process under a fresh generation, no two claims ever hand out the
    same generation of a process, and a round that finds nothing leaves no runnable process
    whose pool is open. *)

From S2P Require Import Prelude PyText PyValue Txn WorkflowContracts Dispatch Strategies Routing Outbox ProcessRows ExecutionRows.
From S2P Require Import Engine Materialize Outcome Scheduler EngineLaws EngineSamples EngineRuns.

Open Scope Z_scope.
Open Scope mkb_scope.

(** ** The claim orders *)

(** A lexicographic comparison: the first key, then the rest. *)
Definition lex (x y : Z) (rest : bool) : bool := (x <? y) || (x =? y) && rest.

Lemma lex_total x y b b' : b = true \/ b' = true -> lex x y b = true \/ lex y x b' = true.
Proof.
  unfold lex. intros Hb. destruct (Z.lt_total x y) as [Hl|[Heq|Hl]].
  - left. by rewrite ltb_intro.
  - rewrite Heq, Z.ltb_irrefl, Z.eqb_refl. destruct Hb as [-> | ->]; auto.
  - right. by rewrite ltb_intro.
Qed.

Lemma lex_trans x y z b b' b'' :
  (b = true -> b' = true -> b'' = true) -> lex x y b = true -> lex y z b' = true -> lex x z b'' = true.
Proof.
  unfold lex. rewrite !orb_true_iff, !andb_true_iff, !Z.ltb_lt, !Z.eqb_eq.
  intros Hb [?|(-> & ?)] [?|(-> & ?)]; [left; lia|left; lia|left; lia|right; auto].
Qed.

Lemma embed_le_lex a b :
  embed_le a b = lex (p_available_at a.2) (p_available_at b.2)
                   (lex (ps_created_at (p_spec a.2)) (ps_created_at (p_spec b.2)) (str_le a.1 b.1)).
Proof. done. Qed.
Lemma embed_le_total a b : embed_le a b = true \/ embed_le b a = true.
Proof. rewrite !embed_le_lex. apply lex_total, lex_total, str_le_total. Qed.
Lemma embed_le_trans a b c : embed_le a b = true -> embed_le b c = true -> embed_le a c = true.
Proof. rewrite !embed_le_lex. apply lex_trans, lex_trans, str_le_trans. Qed.

Definition by_age (a b : ustr * process) : bool :=
  lex (ps_created_at (p_spec a.2)) (ps_created_at (p_spec b.2)) (str_le a.1 b.1).
Lemma by_age_total a b : by_age a b = true \/ by_age b a = true.
Proof. apply lex_total, str_le_total. Qed.
Lemma by_age_trans a b c : by_age a b = true -> by_age b c = true -> by_age a c = true.
Proof. apply lex_trans, str_le_trans. Qed.

Lemma deadline_le_lex a b :
  deadline_le a b = match ps_deadline_at (p_spec a.2), ps_deadline_at (p_spec b.2) with
                    | Some x, Some y => lex x y (by_age a b)
                    | Some _, None => true
                    | None, Some _ => false
                    | None, None => by_age a b
                    end.
Proof. done. Qed.
Lemma deadline_le_total a b : deadline_le a b = true \/ deadline_le b a = true.
Proof.
  rewrite !deadline_le_lex. destruct (ps_deadline_at _), (ps_deadline_at _); auto using by_age_total. apply lex_total, by_age_total.
Qed.
Lemma deadline_le_trans a b c : deadline_le a b = true -> deadline_le b c = true -> deadline_le a c = true.
Proof.
  rewrite !deadline_le_lex. destruct (ps_deadline_at _), (ps_deadline_at _), (ps_deadline_at _); try done.
  - apply lex_trans, by_age_trans.
  - apply by_age_trans.
Qed.

Lemma other_le_lex a b :
  other_le a b = lex (ps_priority_rank (p_spec b.2)) (ps_priority_rank (p_spec a.2))
                   (lex (p_available_at a.2) (p_available_at b.2) (deadline_le a b)).
Proof. unfold other_le, lex. by rewrite (Z.eqb_sym (ps_priority_rank (p_spec b.2))). Qed.
Lemma other_le_total a b : other_le a b = true \/ other_le b a = true.
Proof.
  unfold other_le. destruct (lex_total (p_available_at a.2) (p_available_at b.2) _ _ (deadline_le_total a b)) as [E|E]; unfold lex in E;
    destruct (Z.lt_total (ps_priority_rank (p_spec a.2)) (ps_priority_rank (p_spec b.2))) as [Hl|[Heq|Hl]];
    try (rewrite Heq, Z.ltb_irrefl, Z.eqb_refl, E; by auto); try (left; by rewrite ltb_intro); right; by rewrite ltb_intro.
Qed.
Lemma other_le_trans a b c : other_le a b = true -> other_le b c = true -> other_le a c = true.
Proof.
  rewrite !other_le_lex. intros H1 H2. revert H2 H1. apply lex_trans. intros H2 H1. revert H1 H2.
  apply lex_trans, deadline_le_trans.
Qed.

Lemma head_sorted_least {A} (le : A -> A -> bool) l x y :
  (forall a b, le a b = true \/ le b a = true) -> (forall a b c, le a b = true -> le b c = true -> le a c = true) ->
  head (py_sorted le l) = Some x -> y ∈ l -> le x y = true.
Proof.
  intros Ht Htr Hx Hy. rewrite <-(py_sorted_perm le) in Hy. pose proof (py_sorted_sorted le Ht Htr l) as Hs.
  destruct (py_sorted le l) as [|z l']; [done|]. injection Hx as ->. apply StronglySorted_inv in Hs as [_ Hs].
  apply elem_of_cons in Hy as [->|Hy]; [by destruct (Ht x x)|]. rewrite Forall_forall in Hs. by apply Hs.
Qed.

(** The row after the claim statement. *)
Lemma upd_claim_Some token_hash owner expires now rev p p' :
  upd_claim token_hash owner expires now rev p = Some p' ->
  p_spec p' = p_spec p /\ p_status p' = ProcessStatus.CLAIMED /\ fence p' = fence p + 1 /\
  delivery_count (p_counters p') = delivery_count (p_counters p) + 1 /\
  lease_owner (p_lease p') = Some owner /\ lease_expires_at (p_lease p') = Some expires.
Proof. unfold upd_claim. destruct (_ && _); [|done]. intros [= <-]. done. Qed.

Section claims.
Context {World : Type} {H : Host} {SV : Services World} {SL : ServicesLaws World SV} (cfg : engine_config).

(** ** The candidate *)

Definition in_embed (p : process) : bool := in_pool embed p.

Lemma embed_candidate_least now (d : db World) a b q :
  embed_candidate cfg now d = Some a -> d_processes d !! b = Some q -> due_admitted cfg now d q = true ->
  in_embed q = true -> embed_le a (b, q) = true.
Proof.
  unfold embed_candidate. destruct (_ <? _); [|done]. intros Ha Hq Hdue Hk.
  eapply (head_sorted_least embed_le); [apply embed_le_total|apply embed_le_trans|exact Ha|].
  apply rows_where_elem. split; [done|]. unfold in_embed in Hk. by rewrite Hdue, Hk.
Qed.

Lemma other_candidate_least now (d : db World) a b q :
  other_candidate cfg now d = Some a -> d_processes d !! b = Some q -> due_admitted cfg now d q = true ->
  other_pool_open cfg d q = true -> other_le a (b, q) = true.
Proof.
  unfold other_candidate. intros Ha Hq Hdue Hk.
  eapply (head_sorted_least other_le); [apply other_le_total|apply other_le_trans|exact Ha|].
  apply rows_where_elem. split; [done|]. by rewrite Hdue, Hk.
Qed.

Lemma embed_candidate_pool now (d : db World) a : embed_candidate cfg now d = Some a -> in_embed a.2 = true.
Proof.
  destruct a as [k p]. intros (_ & _ & Hk & _)%embed_candidate_Some. unfold in_embed, in_pool. by rewrite bool_decide_eq_true_2.
Qed.
Lemma other_candidate_pool now (d : db World) a : other_candidate cfg now d = Some a -> in_embed a.2 = false.
Proof.
  destruct a as [k p]. unfold other_candidate. intros [_ Hf]%head_sorted_elem%rows_where_elem.
  apply andb_true_iff in Hf as [_ Hf]. unfold other_pool_open in Hf. unfold in_embed, in_pool. apply bool_decide_eq_false_2. intros E.
  cbn in E. by rewrite E in Hf.
Qed.

(** The pool of a process, other than the embed pool, may run one more. *)
Lemma other_open (d : db World) p : in_embed p = false -> pool_open cfg d p -> other_pool_open cfg d p = true.
Proof.
  unfold in_embed, in_pool, pool_open, other_pool_open. intros Hk%bool_decide_eq_false.
  destruct (dispatch_pool (p_dispatch p)) as [[]|]; try done; by intros ?%Z.ltb_lt.
Qed.

(** The order in which the candidates of one class are taken. *)
Definition class_le (a b : ustr * process) : bool := if in_embed a.2 then embed_le a b else other_le a b.

Lemma claim_candidate_least now (d : db World) a b q :
  claim_candidate cfg now d = Some a -> d_processes d !! b = Some q -> due_admitted cfg now d q = true ->
  in_embed a.2 = in_embed q -> pool_open cfg d q -> class_le a (b, q) = true.
Proof.
  unfold claim_candidate, class_le. intros Hc Hq Hdue Hclass Hopen.
  assert ((embed_candidate cfg now d = Some a /\ in_embed a.2 = true) \/ (other_candidate cfg now d = Some a /\ in_embed a.2 = false))
    as [[Ha Hk]|[Ha Hk]].
  { destruct (embed_candidate cfg now d) as [x|] eqn:Ex, (other_candidate cfg now d) as [y|] eqn:Ey; try done.
    - injection Hc as <-. destruct (embed_le x y); [left|right]; eauto using embed_candidate_pool, other_candidate_pool.
    - injection Hc as ->. eauto using embed_candidate_pool.
    - injection Hc as ->. eauto using other_candidate_pool. }
  - rewrite Hk in *. by eapply embed_candidate_least.
  - rewrite Hk in *. eapply other_candidate_least; [done..|]. by apply other_open.
Qed.

Lemma claim_candidate_None now (d : db World) b q :
  claim_candidate cfg now d = None -> d_processes d !! b = Some q -> due_admitted cfg now d q = true -> ~ pool_open cfg d q.
Proof.
  unfold claim_candidate. destruct (embed_candidate cfg now d) as [x|] eqn:Ex; [by destruct (other_candidate cfg now d)|].
  intros Hn Hq Hdue Hopen. destruct (in_embed q) eqn:Hk.
  - unfold embed_candidate in Ex. unfold in_embed, in_pool in Hk. pose proof Hk as Hk'. apply bool_decide_eq_true in Hk'.
    unfold pool_open in Hopen. rewrite Hk' in Hopen. cbn [running_cap] in Hopen. rewrite ltb_intro in Ex by done.
    assert ((b, q) ∈ py_sorted embed_le (rows_where (fun _ p => due_admitted cfg now d p && in_pool embed p) (d_processes d))) as Hin.
    { rewrite (py_sorted_perm embed_le). apply rows_where_elem. unfold in_pool. by rewrite Hdue, Hk. }
    destruct (py_sorted embed_le _); [by apply elem_of_nil in Hin|done].
  - unfold other_candidate in Hn.
    assert ((b, q) ∈ py_sorted other_le (rows_where (fun _ p => due_admitted cfg now d p && other_pool_open cfg d p) (d_processes d)))
      as Hin.
    { rewrite (py_sorted_perm other_le). apply rows_where_elem. by rewrite Hdue, other_open. }
    destruct (py_sorted other_le _); [by apply elem_of_nil in Hin|done].
Qed.

(** ** A won claim *)

Lemma claim_rounds_won n now expires token token_hash owner (d : db World) c d' :
  claim_rounds cfg n now expires token token_hash owner d = Ok (Some c, d') ->
  exists dr, legal not_restart d dr /\ claim_case cfg now expires token token_hash owner dr (Some (Some c)) d'.
Proof.
  revert d. induction n as [|n IH]; intros d Hd; simpl in Hd; [done|].
  apply bind_Ok in Hd as (r & d1 & Hr & Hd). destruct r as [[c1|]|]; [|apply IH in Hd as (dr & Hl & Hc)|done].
  - injection Hd as -> ->. exists d. split; [reflexivity|]. by apply claim_round_case.
  - exists dr. split; [|done]. etrans; [by eapply claim_round_legal|done].
Qed.

Lemma claim_next_won ready promoted_at now token owner secs (d : db World) c d' :
  claim_next cfg ready promoted_at now token owner secs d = (Ok (Some c), d') ->
  exists token_hash dr, stable_digest (obj [("claim_token", PStr token)]) = Ok token_hash /\ legal not_restart d dr /\
    claim_case cfg now (now + Outbox.seconds secs) token token_hash owner dr (Some (Some c)) d'.
Proof.
  unfold claim_next. cbn zeta. destruct (rbind _ _); [|done].
  destruct (promote_due_retries promoted_at 64 d) as [[n d1]|] eqn:Ep; [|done].
  apply keeps_promote, quiet_not_restart in Ep. destruct (stable_digest _) as [th|] eqn:Eh; [|done]. case_bool_decide; [done|].
  destruct (claim_rounds _ _ _ _ _ _ _ _) as [[c1 d2]|] eqn:Ec; [|done]. intros [= -> ->].
  apply claim_rounds_won in Ec as (dr & Hl & Hc). exists th, dr. split; [done|]. split; [by etrans|done].
Qed.

(** The command is built from the row as claimed. *)
Lemma command_of_row pid j command :
  command_from_process pid j = Ok command ->
  pc_process command = pid /\ pc_fencing_generation command = fence j.1.1 /\ pc_execution command = ps_execution (p_spec j.1.1) /\
  pc_process_key command = ps_process_key (p_spec j.1.1).
Proof. unfold command_from_process. destruct j as [[p e] t]. intros Hc. inv_res. done. Qed.

Lemma claim_case_won now expires token token_hash owner (d : db World) c d' :
  claim_case cfg now expires token token_hash owner d (Some (Some c)) d' ->
  exists d1 pid p p', legal not_restart d d1 /\ claim_candidate cfg now d1 = Some (pid, p) /\ d_processes d1 !! pid = Some p /\
    upd_claim token_hash owner expires now (p_row_revision p) p = Some p' /\ d' = set_processes (<[pid := p']> (d_processes d1)) d1 /\
    (exists e plan, d_executions d1 !! ps_execution (p_spec p) = Some e /\ assert_execution_binding cfg e d1 = Ok (plan, d1) /\
                    process_declared plan p = true) /\
    match ps_deadline_at (p_spec p) with Some t => t <? now | None => false end = false /\
    pc_process (cp_command c) = pid /\ pc_fencing_generation (cp_command c) = fence p' /\ cp_claim_token c = token /\
    cp_lease_expires_at c = expires /\ pc_process_key (cp_command c) = ps_process_key (p_spec p).
Proof.
  intros Hc. inversion Hc as [| | |d1 pid p p' e plan command j d2 _ Ha Hcand Hp He Hb Hdecl Hdl Hup Hd' Hcmd Hj]; subst.
  destruct (command_of_row _ _ _ Hcmd) as (Hpid & Hf & _ & Hk). exists d1, pid, p, j.1.1. split_and!; try done.
  - eapply legal_weaken; [|by eapply admit_waiting_legal]. by intros [].
  - by exists e, plan.
  - cbn. rewrite Hk. by destruct (upd_claim_Some _ _ _ _ _ _ _ Hup) as [-> _].
Qed.

(** C35: Soundness of a claim.  A claim that returns a command was made in a state [d1] that
    the engine reached before it (by promotions, admissions and failures of expired
    processes), on a process that was ready, due, admitted, claimable, of a live execution
    and task, declared by the execution's compiled plan, not past its deadline and in a pool
    with a free running place; no other such process of its class (embed or not) comes before
    it in the claim order.  The claim changes exactly this row: the process is claimed, leased
    to the owner until the returned instant, one generation and one delivery later, and the
    command names the process and that generation. *)
Theorem claim_is_sound (ready : bool) (promoted_at now : Z) (token owner : ustr) (secs : Z) (d d' : db World) (c : ClaimedProcess)
    (Hclaim : claim_next cfg ready promoted_at now token owner secs d = (Ok (Some c), d')) :
  exists d1 pid p p', legal not_restart d d1 /\ d_processes d1 !! pid = Some p /\
    due_admitted cfg now d1 p = true /\ pool_open cfg d1 p /\
    (exists e plan, d_executions d1 !! ps_execution (p_spec p) = Some e /\ assert_execution_binding cfg e d1 = Ok (plan, d1) /\
                    process_declared plan p = true) /\
    (forall t, ps_deadline_at (p_spec p) = Some t -> now <= t) /\
    (forall pid' q, d_processes d1 !! pid' = Some q -> due_admitted cfg now d1 q = true -> in_embed p = in_embed q ->
       pool_open cfg d1 q -> class_le (pid, p) (pid', q) = true) /\
    d' = set_processes (<[pid := p']> (d_processes d1)) d1 /\
    p_status p' = ProcessStatus.CLAIMED /\ fence p' = fence p + 1 /\
    delivery_count (p_counters p') = delivery_count (p_counters p) + 1 /\
    lease_owner (p_lease p') = Some owner /\ lease_expires_at (p_lease p') = Some (cp_lease_expires_at c) /\
    cp_lease_expires_at c = now + Outbox.seconds secs /\ cp_claim_token c = token /\
    pc_process (cp_command c) = pid /\ pc_fencing_generation (cp_command c) = fence p'.
Proof.
  apply claim_next_won in Hclaim as (th & dr & _ & Hl & Hc).
  apply claim_case_won in Hc as (d1 & pid & p & p' & Hl1 & Hcand & Hp & Hup & Hd' & Hplan & Hdl & Hpid & Hf & Ht & Hexp & _).
  exists d1, pid, p, p'. destruct (claim_candidate_Some _ _ _ _ _ Hcand) as (_ & Hdue & Hopen).
  destruct (upd_claim_Some _ _ _ _ _ _ _ Hup) as (_ & Hs & Hfp & Hdel & Hown & Hlease).
  split_and!; try done; [by etrans| | |by rewrite Hexp].
  - intros t Ht'. rewrite Ht' in Hdl. by apply Z.ltb_ge.
  - intros pid' q Hq Hq2 Hclass Hq3. by eapply claim_candidate_least.
Qed.

(** ** Exclusive generations *)

Lemma claim_next_row ready promoted_at now token owner secs (d : db World) c d' :
  claim_next cfg ready promoted_at now token owner secs d = (Ok (Some c), d') ->
  exists p p', legal not_restart d d' /\ d_processes d' !! pc_process (cp_command c) = Some p' /\ fence p' = pc_fencing_generation (cp_command c) /\
    (forall q, d_processes d !! pc_process (cp_command c) = Some q -> exists ss, run ss q = Some p) /\ fence p' = fence p + 1.
Proof.
  intros Hclaim. pose proof (claim_next_legal _ _ _ _ _ _ _ _ _ _ Hclaim) as Hl'.
  apply claim_next_won in Hclaim as (th & dr & _ & Hl & Hc).
  apply claim_case_won in Hc as (d1 & pid & p & p' & Hl1 & _ & Hp & Hup & -> & _ & _ & Hpid & Hf & _).
  exists p, p'. split; [done|]. rewrite Hpid. split; [apply lookup_insert_eq|]. split; [done|]. split.
  - intros q Hq. assert (legal not_restart d d1) as Hd1 by (by transitivity dr).
    destruct (legal_process _ _ _ _ _ Hd1 Hq) as (p1 & ss & Hp1 & Hr). rewrite Hp in Hp1. injection Hp1 as <-. by exists ss.
  - by destruct (upd_claim_Some _ _ _ _ _ _ _ Hup) as (_ & _ & ? & _).
Qed.

(** C2: Mutual exclusion.  Two claims, with whatever calls of the engine between them and
    whatever the clocks, never hand out the same generation of a process: when the second
    claim returns the process of the first, its generation is greater, so (by the fence) the
    first worker has already lost the process. *)
Theorem claims_are_exclusive (ready ready2 : bool) (promoted now promoted2 now2 : Z) (token owner token2 owner2 : ustr) (secs secs2 : Z)
    (d d1 d2 : db World) (c c2 : ClaimedProcess) (ops : list engine_op)
    (Hfirst : claim_next cfg ready promoted now token owner secs d = (Ok (Some c), d1))
    (Hsecond : claim_next cfg ready2 promoted2 now2 token2 owner2 secs2 (engine_run cfg d1 ops) = (Ok (Some c2), d2)) :
  pc_process (cp_command c2) = pc_process (cp_command c) ->
  pc_fencing_generation (cp_command c) < pc_fencing_generation (cp_command c2).
Proof.
  intros Heq. apply claim_next_row in Hfirst as (_ & p' & _ & Hp & <- & _).
  destruct (legal_process _ _ _ _ _ (run_any cfg ops d1) Hp) as (q & ss & Hq & Hr).
  apply claim_next_row in Hsecond as (p2 & p2' & _ & Hp2 & <- & Hrun & ->).
  rewrite Heq in Hrun. destruct (Hrun _ Hq) as (ss2 & Hr2).
  destruct (run_fence _ _ _ Hr) as [? _], (run_fence _ _ _ Hr2) as [? _]. lia.
Qed.

(** ** Idle rounds *)

(** A round of [claim_next] that reports nothing to claim is right: no ready process of
    a live execution had an expired deadline when it began, and in the state it leaves there
    is no due, admitted, claimable process whose pool may run one more. *)
Theorem idle_round_has_no_work (now expires : Z) (token token_hash owner : ustr) (d d' : db World)
    (Hidle : claim_round cfg now expires token token_hash owner d = Ok (None, d')) :
  expired_ready cfg now d = None /\
  forall pid p, d_processes d' !! pid = Some p -> due_admitted cfg now d' p = true ->
    exists k, dispatch_pool (p_dispatch p) = Some k /\ running_cap cfg k <= po_running (pool_occupancy (d_processes d') k).
Proof.
  apply claim_round_case in Hidle. inversion Hidle as [|d1 Hx Ha Hc| |]; subst. split; [done|].
  intros pid p Hp Hdue. pose proof (claim_candidate_None _ _ _ _ Hc Hp Hdue) as Hn. unfold pool_open in Hn.
  destruct (dispatch_pool (p_dispatch p)) as [k|]; [|by exfalso]. exists k. split; [done|]. lia.
Qed.
End claims.

(** ** Witnesses *)

Import EngineSamples RunSamples.

Abbreviation three_roots := (engine_run config (submitted 4) (take 3 started)).
Abbreviation first_claim := (claim_next config true 10 10 (u "token") (u "worker") 60 three_roots).
Abbreviation second_claim := (claim_next config true 30 30 (u "token2") (u "worker2") 60 (engine_run config first_claim.2 [restart])).
Definition claimed_command (r : result (option ClaimedProcess) * db unit) : option (ustr * Z) :=
  match r.1 with
  | Ok (Some c) => Some (pc_process (cp_command c), pc_fencing_generation (cp_command c))
  | _ => None
  end.

Lemma claimed_eq (r : result (option ClaimedProcess) * db unit) id g :
  claimed_command r = Some (id, g) ->
  exists c, r = (Ok (Some c), r.2) /\ pc_process (cp_command c) = id /\ pc_fencing_generation (cp_command c) = g.
Proof. unfold claimed_command. destruct r as [[[c|]|] d]; try done. intros [= <- <-]. by exists c. Qed.

Lemma claim_is_sound_witness :
  exists p, p_status p = ProcessStatus.CLAIMED /\ d_processes first_claim.2 !! pid 0 = Some p.
Proof.
  assert (claimed_command first_claim = Some (pid 0, 1)) as (c & Hc & Hid & _)%claimed_eq by (vm_compute; reflexivity).
  destruct (claim_is_sound config true 10 10 (u "token") (u "worker") 60 three_roots first_claim.2 c Hc)
    as (d1 & pid1 & p & p' & _ & _ & _ & _ & _ & _ & _ & -> & Hs & _ & _ & _ & _ & _ & _ & Hpid & _).
  exists p'. split; [exact Hs|]. rewrite <-Hid, Hpid. apply lookup_insert_eq.
Defined.

(** The operator restarts the claimed process and it is claimed again. *)
Lemma claims_are_exclusive_witness :
  exists c c2, first_claim.1 = Ok (Some c) /\ second_claim.1 = Ok (Some c2) /\
    pc_process (cp_command c2) = pc_process (cp_command c) /\
    pc_fencing_generation (cp_command c) < pc_fencing_generation (cp_command c2).
Proof.
  assert (claimed_command first_claim = Some (pid 0, 1)) as (c & Hc & Hid & _)%claimed_eq by (vm_compute; reflexivity).
  assert (claimed_command second_claim = Some (pid 0, 3)) as (c2 & Hc2 & Hid2 & _)%claimed_eq by (vm_compute; reflexivity).
  assert (pc_process (cp_command c2) = pc_process (cp_command c)) as E by (rewrite Hid, Hid2; reflexivity).
  exists c, c2. split; [by rewrite Hc|]. split; [by rewrite Hc2|]. split; [exact E|].
  exact (claims_are_exclusive config true true 10 10 30 30 (u "token") (u "worker") (u "token2") (u "worker2") 60 60
    three_roots first_claim.2 second_claim.2 c c2 [restart] Hc Hc2 E).
Defined.

Lemma idle_round_has_no_work_witness :
  expired_ready config 10 (submitted 4) = None.
Proof.
  destruct (idle_round_has_no_work config 10 20 [] [] [] (submitted 4) (after (claim_round config 10 20 [] [] []) (submitted 4)))
    as [Hx _]; [vm_compute; reflexivity|exact Hx].
Defined.
