(* ===== verification/Termination.v ===== *)
(** * The engine's recursions end

    [_apply_routes_tx] re-enters itself at selected-output controls and
    [_converge_cancellation_tx] re-enters itself at the parent of a scatter child.  The model
    runs both on fuel; here the fuels chosen are shown to be enough: more fuel changes
    nothing, whatever the plan, the database and the services. *)

From S2P Require Import Prelude PyText PyValue Txn WorkflowContracts Dispatch Strategies Routing Outbox ProcessRows ExecutionRows.
From S2P Require Import Engine Materialize Outcome Scheduler EngineLaws EngineSamples EngineRuns.

Open Scope Z_scope.
Open Scope mkb_scope.

Section congruence.
Context {World : Type}.

(** Transactions that agree everywhere. *)
Definition same {A} (m1 m2 : tx World A) : Prop := forall d, m1 d = m2 d.

Lemma same_bind {A B} (m1 m2 : tx World A) (k1 k2 : A -> tx World B) :
  same m1 m2 -> (forall a, same (k1 a) (k2 a)) -> same (bind m1 k1) (bind m2 k2).
Proof. intros Hm Hk d. unfold bind. rewrite Hm. destruct (m2 d) as [[a d1]|]; [apply Hk|done]. Qed.

Lemma same_any_loop {A} (f g : A -> tx World bool) xs :
  (forall x, x ∈ xs -> same (f x) (g x)) -> same (any_loop f xs) (any_loop g xs).
Proof.
  intros Hf. induction xs as [|x xs IH]; simpl; [done|]. apply same_bind; [apply Hf; left|].
  intros b. apply same_bind; [apply IH; intros y Hy; apply Hf; by right|done].
Qed.
End congruence.

Section routing.
Context {World : Type} {H : Host} {SV : Services World} (cfg : engine_config).
Variable plan : WorkflowDefinition.
Hypothesis Hplan : validate_definition plan = Ok tt.

(** Every walk from the targets of a decision is shorter than [n]. *)
Definition shallow (n : nat) (rs : list WorkflowRouteDefinition) : Prop :=
  forall r l, r ∈ rs -> walk (route_edge plan) (to_step_key r) l -> (length l < n)%nat.

Lemma decision_routes execution source selector context dec r :
  route_decision plan execution source selector context = Ok dec -> r ∈ dec_routes dec ->
  r ∈ routes plan /\ from_step_key r = source.
Proof.
  intros Hd Hr. rewrite (decision_selects _ _ _ _ _ _ Hplan Hd) in Hr. unfold selected_routes in Hr.
  pose proof (elem_of_sublist _ _ _ Hr (until_winner_sublist _)) as Hin. apply list_elem_of_In, filter_In in Hin as [Hin _].
  apply list_elem_of_In, candidate_spec in Hin as (? & ? & _). done.
Qed.

Lemma decision_shallow execution source selector context dec :
  route_decision plan execution source selector context = Ok dec -> shallow (length (steps plan)) (dec_routes dec).
Proof.
  intros Hd r l Hr Hw. destruct (decision_routes _ _ _ _ _ _ Hd Hr) as [Hin _].
  pose proof Hplan as Hp. apply validate_definition_inv in Hp as (sbk & cbs & gbk & adj & Hs & _ & _ & Hrv & Hg & _).
  apply (validate_graph_iff_aux _ _ _ _ Hs Hrv) in Hg as (_ & _ & Hreach & _).
  pose proof (rd_routes _ _ _ _ (validate_routes_Ok _ _ _ _ Hrv)) as Hroutes. rewrite Forall_forall in Hroutes.
  destruct (rv_to _ _ _ _ (Hroutes _ Hin)) as (s & Hs' & _). apply (steps_by_key plan sbk Hs) in Hs' as [Hstep Hk].
  eapply accepted_walk; [exact Hplan| |exact Hw]. rewrite <-Hk. by apply Hreach.
Qed.

(** A decision taken at the target of a shallow one is shallower. *)
Lemma shallow_next n rs route execution selector context dec :
  shallow (S n) rs -> route ∈ rs -> route_decision plan execution (to_step_key route) selector context = Ok dec ->
  shallow n (dec_routes dec).
Proof.
  intros Hsh Hroute Hd r l Hr Hw. destruct (decision_routes _ _ _ _ _ _ Hd Hr) as [Hin Hfrom].
  assert (walk (route_edge plan) (to_step_key route) (to_step_key r :: l)) as Hw2.
  { constructor; [|done]. by exists r. }
  specialize (Hsh _ _ Hroute Hw2). simpl in Hsh. lia.
Qed.

Lemma plan_step_key key s : plan_step plan key = Some s -> step_key s = key.
Proof. intros Hf%find_some. destruct Hf as [_ Hf]. by apply bool_decide_eq_true in Hf. Qed.

Lemma apply_routes_more n m now id e dec source context terminal_error :
  shallow n (dec_routes dec) ->
  same (apply_routes cfg (S n) now plan id e dec source context terminal_error)
    (apply_routes cfg (S n + m) now plan id e dec source context terminal_error).
Proof.
  revert id e dec source context terminal_error. induction n as [|n IH]; intros id e dec source context terminal_error Hsh.
  - destruct (dec_routes dec) as [|r rs] eqn:E.
    + simpl. by rewrite E.
    + exfalso. specialize (Hsh r [] ltac:(left) (walk_nil _ _)). simpl in Hsh. lia.
  - cbn [apply_routes Nat.add]. destruct (dec_routes dec) as [|r0 rs] eqn:E; [done|]. apply same_any_loop. intros route Hroute.
    destruct (plan_step plan (to_step_key route)) as [target|] eqn:Et; [|done]. apply plan_step_key in Et.
    destruct (step_kind target); try done. case_bool_decide; [|done].
    apply same_bind; [done|]. intros [[current selected]|]; [|done]. intros d. unfold bind, lift.
    destruct (route_decision plan (execution_ref_of id current) (step_key target) SUCCEEDED []) as [next|] eqn:Ed; [|done].
    cbn [rbind fst snd]. apply IH. rewrite Et in Ed. by eapply shallow_next.
Qed.

(** The recursion of the routes ends.  For a plan that the validator accepts and any
    decision of [route_decision] on it, applying its routes with the fuel [route_fuel] gives
    the result of any greater fuel: selected-output controls re-enter the routes at most once
    per step of the plan, so [RecursionError] is never the model's own. *)
Theorem route_fuel_suffices (extra : nat) (now : Z) (id : ustr) (e : execution) (execution : execution_ref) (origin : string)
    (selector : WorkflowOutcomeSelector) (facts : pydict) (dec : decision) (source : option source_row) (context : pydict)
    (terminal_error : option ustr) (d : db World)
    (Hdec : route_decision plan execution origin selector facts = Ok dec) :
  apply_routes cfg (route_fuel plan + extra) now plan id e dec source context terminal_error d =
  apply_routes cfg (route_fuel plan) now plan id e dec source context terminal_error d.
Proof. symmetry. apply apply_routes_more. by eapply decision_shallow. Qed.
End routing.

Section cancellation.
Context {World : Type} {H : Host} {SV : Services World} {SL : ServicesLaws World SV}.

Definition parent_of (e : execution) : option ustr :=
  match ei_parent (e_id e) with Some ((_ :: _) as parent) => Some parent | _ => None end.

(** Scatter children hang off roots: a parent is a row that has no parent. *)
Definition parents_are_roots (d : db World) : Prop :=
  forall id e parent, d_executions d !! id = Some e -> parent_of e = Some parent ->
  exists p, d_executions d !! parent = Some p /\ parent_of p = None.

Lemma legal_parent ok (d d' : db World) id e :
  legal ok d d' -> d_executions d !! id = Some e -> exists e', d_executions d' !! id = Some e' /\ parent_of e' = parent_of e.
Proof.
  intros Hl He. destruct (evolves_lookup _ _ _ _ _ _ (lg_executions _ _ _ Hl) He) as (e' & He' & Hr).
  exists e'. split; [done|]. unfold parent_of. by rewrite (el_identity _ _ (ex_run_later _ _ Hr)).
Qed.

Lemma execution_row_run id e (d : db World) : d_executions d !! id = Some e -> execution_row id d = Ok (e, d).
Proof. unfold execution_row. by intros ->. Qed.

(** What runs between the read of an execution and the visit of its parent is legal. *)
Lemma bind_agree {A B} (m : tx World A) (k1 k2 : A -> tx World B) (d : db World) :
  keeps (legal quiet) m -> (forall a d', legal quiet d d' -> k1 a d' = k2 a d') -> bind m k1 d = bind m k2 d.
Proof.
  intros Hm Hk. unfold bind. destruct (m d) as [[a d1]|] eqn:E; [|done]. cbn [rbind fst snd]. apply Hk. by eapply Hm.
Qed.

(** Two fuels agree at an execution when they agree at its parent. *)
Lemma converge_agree f g now id (d : db World) :
  (forall e parent d', d_executions d !! id = Some e -> parent_of e = Some parent -> legal quiet d d' ->
     converge_cancellation f now parent d' = converge_cancellation g now parent d') ->
  converge_cancellation (S f) now id d = converge_cancellation (S g) now id d.
Proof.
  intros Hfg. cbn [converge_cancellation]. destruct (d_executions d !! id) as [e|] eqn:He.
  2: { assert (execution_row id d = Err (MkbError "execution-not-found" 404)) as Hn by (unfold execution_row; by rewrite He).
       unfold bind. by rewrite Hn. }
  pose proof (execution_row_run _ _ _ He) as Hrow. rewrite !(bind_run _ _ _ _ _ Hrow).
  destruct (negb _); [done|]. do 2 (apply bind_agree; [apply keeps_reads; [apply _|apply reads_gets]|]; intros ? ? ?).
  destruct (_ || _); [done|]. apply bind_agree; [apply keeps_reads; [apply _|apply reads_lift]|]. intros summary d3 H3.
  apply bind_agree; [apply keeps_cancelled|]. intros [] d4 H4; [|done].
  apply bind_agree; [destruct (is_root id e); [apply keeps_refresh|apply keeps_reads; [apply _|apply reads_ret]]|]. intros _ d5 H5.
  apply bind_agree; [apply keeps_project_root|]. intros _ d6 H6. unfold parent_of in Hfg.
  destruct (ei_parent (e_id e)) as [[|c parent]|] eqn:Ep; [done| |done].
  apply bind_agree; [apply keeps_reads; [apply _|apply reads_execution_row]|]. intros p d7 H7. destruct (ex_in _ _); [|done].
  unfold bind. erewrite Hfg; [done|done|by rewrite Ep|]. by repeat (etrans; [eassumption|]).
Qed.

(** The convergence of a cancellation ends.  When parents are roots, as the scatter
    members of the program are, converging an execution visits at most its parent after it:
    with the fuel [PARENT_CHAIN] the result is that of any greater fuel. *)
Theorem parent_chain_suffices (extra : nat) (now : Z) (id : ustr) (d : db World) (Hroots : parents_are_roots d) :
  converge_cancellation (PARENT_CHAIN + extra) now id d = converge_cancellation PARENT_CHAIN now id d.
Proof.
  unfold PARENT_CHAIN. cbn [Nat.add]. apply converge_agree. intros e parent d1 He Hp Hl.
  destruct (Hroots _ _ _ He Hp) as (p & Hpe & Hnone). destruct (legal_parent _ _ _ _ _ Hl Hpe) as (p' & Hp' & Heq).
  apply converge_agree. intros e' parent' d2 He' Hp2 _. congruence.
Qed.
End cancellation.

(** ** Witnesses *)

Import EngineSamples RunSamples.
Open Scope list_scope.

Module ChainSamples.
(** A cancelling root and its last cancelling child. *)
Definition with_parent (n : Z) (parent : option ustr) (role : string) : execution :=
  let i := identity n in
  let e := ready_execution n in
  Build_execution
    (Build_execution_identity (ei_team i) (u "task-1") (ei_trace i) 1 (u "root-1") parent role "required"
       (ei_workflow_revision i) (ei_compiled_digest i) (ei_domain_binding_digest i) (ei_config_ref i) (ei_config_digest i)
       (ei_manifest_ref i) (ei_manifest_digest i) PNone)
    ExecutionStatus.CANCELLING 0 None no_wait None (e_counts e) (e_seal e) None None no_final None 0.
Definition tree : db unit :=
  set_executions (<[u "root-1" := with_parent 1 None "scatter_root"]>
    (<[u "root-2" := with_parent 2 (Some (u "root-1")) "scatter_child"]> ∅)) (submitted 2).
End ChainSamples.

Lemma tree_parents : parents_are_roots ChainSamples.tree.
Proof.
  intros id e parent He Hp. unfold ChainSamples.tree in He. cbn [d_executions set_executions] in He.
  apply lookup_insert_Some in He as [[_ <-]|[_ He]]; [discriminate Hp|].
  apply lookup_insert_Some in He as [[_ <-]|[_ He]]; [|by rewrite lookup_empty in He].
  vm_compute in Hp. injection Hp as <-. eexists. split; vm_compute; reflexivity.
Qed.

(** The child converges and takes its root with it. *)
Lemma parent_chain_suffices_witness :
  match converge_cancellation (PARENT_CHAIN + 5) 9 (u "root-2") ChainSamples.tree with
  | Ok (_, d) => e_status <$> d_executions d !! u "root-1" = Some ExecutionStatus.CANCELLED
  | Err _ => False
  end.
Proof.
  rewrite (parent_chain_suffices 5 9 (u "root-2") ChainSamples.tree tree_parents). vm_compute. reflexivity.
Defined.

Abbreviation start_decision := (route_decision plan (Build_execution_ref (u "root-1") (u "revision")) "start" ALWAYS []).

Lemma route_fuel_suffices_witness :
  exists dec, start_decision = Ok dec /\
    forall d, apply_routes config (route_fuel plan + 7) 1 plan (u "root-1") (ready_execution 1) dec None [] None d =
              apply_routes config (route_fuel plan) 1 plan (u "root-1") (ready_execution 1) dec None [] None d.
Proof.
  assert (match start_decision with Ok dec => length (dec_routes dec) | Err _ => O end = 1%nat) as Hl by (vm_compute; reflexivity).
  destruct start_decision as [dec|] eqn:E; [|discriminate Hl].
  exists dec. split; [reflexivity|]. intros d.
  exact (route_fuel_suffices config plan ltac:(vm_compute; reflexivity) 7 1 (u "root-1") (ready_execution 1)
    (Build_execution_ref (u "root-1") (u "revision")) "start"%string ALWAYS [] dec None [] None d E).
Defined.
