(* ===== verification/Capacity.v ===== *)
(** * Pool capacities

    The caps of [dispatch.py] as an invariant of the engine: in every run without operator
    restarts, no dispatch pool ever has more claimed or running processes, or more admitted
    waiting ones, than its caps allow; with a restart the waiting cap can be exceeded. *)

From S2P Require Import Prelude PyText PyValue Txn WorkflowContracts Dispatch Strategies Routing Outbox ProcessRows ExecutionRows.
From S2P Require Import Engine Materialize Outcome Scheduler EngineLaws EngineSamples EngineRuns.

Open Scope Z_scope.
Open Scope mkb_scope.

(** ** Counting rows *)

Section counting.
Context {A : Type}.
Implicit Types (m : gmap ustr A) (f : ustr -> A -> bool).

Lemma filter_perm (f : ustr * A -> bool) l l' : l ≡ₚ l' -> List.filter f l ≡ₚ List.filter f l'.
Proof.
  induction 1; simpl; repeat case_match; auto; [by constructor..|by etrans].
Qed.

Lemma count_rows_perm f m l :
  map_to_list m ≡ₚ l -> count_rows f m = Z.of_nat (length (List.filter (fun kv => f kv.1 kv.2) l)).
Proof. intros Hl. unfold count_rows, rows_where. rewrite py_sorted_perm. f_equal. apply Permutation_length. by apply filter_perm. Qed.

Definition b2z (b : bool) : Z := if b then 1 else 0.

Lemma count_rows_empty f : count_rows f (∅ : gmap ustr A) = 0.
Proof. rewrite (count_rows_perm f _ []); [done|]. by rewrite map_to_list_empty. Qed.

Lemma count_rows_fresh f m k a : m !! k = None -> count_rows f (<[k := a]> m) = b2z (f k a) + count_rows f m.
Proof.
  intros Hk. rewrite (count_rows_perm f _ ((k, a) :: map_to_list m)) by by apply map_to_list_insert.
  rewrite (count_rows_perm f m (map_to_list m)) by done. cbn. destruct (f k a); cbn [b2z length]; lia.
Qed.

Lemma count_rows_delete f m k a : m !! k = Some a -> count_rows f m = b2z (f k a) + count_rows f (delete k m).
Proof.
  intros Hk. rewrite <-(count_rows_fresh f (delete k m) k a) by apply lookup_delete_eq. by rewrite insert_delete_id.
Qed.

Lemma count_rows_update f m k a a' :
  m !! k = Some a -> count_rows f (<[k := a']> m) = count_rows f m - b2z (f k a) + b2z (f k a').
Proof.
  intros Hk. rewrite (count_rows_delete f m k a) by done. rewrite <-insert_delete_eq, count_rows_fresh by apply lookup_delete_eq. lia.
Qed.

Lemma count_rows_nonneg f m : 0 <= count_rows f m.
Proof. unfold count_rows. lia. Qed.

(** A table whose marked rows were all marked before has no more of them. *)
Lemma count_rows_mono f m m' :
  (forall k a', m' !! k = Some a' -> f k a' = true -> exists a, m !! k = Some a /\ f k a = true) ->
  count_rows f m' <= count_rows f m.
Proof.
  revert m. induction m' as [|k a' m' Hk IH] using map_ind; intros m Hm.
  - rewrite count_rows_empty. apply count_rows_nonneg.
  - rewrite count_rows_fresh by done. destruct (f k a') eqn:E; cbn [b2z].
    + destruct (Hm k a') as (a & Ha & Hf); [apply lookup_insert_eq|done|].
      rewrite (count_rows_delete f m k a), Hf by done. cbn [b2z]. enough (count_rows f m' <= count_rows f (delete k m)) by lia.
      apply IH. intros j b Hj Hfj. assert (j <> k) by (intros ->; congruence).
      destruct (Hm j b) as (b0 & Hb0 & ?); [by rewrite lookup_insert_ne|done|]. exists b0. by rewrite lookup_delete_ne.
    + rewrite Z.add_0_l. apply IH. intros j b Hj Hfj. assert (j <> k) by (intros ->; congruence).
      apply (Hm j b); [by rewrite lookup_insert_ne|done].
Qed.
End counting.

(** ** Which statements can fill a pool *)

Definition queued_in (k : DispatchPool) (p : process) : bool := in_pool k p && is_queued p.
Definition running_in (k : DispatchPool) (p : process) : bool := in_pool k p && is_running p.

Lemma quiet_fills_nothing s p q k :
  row_ok p -> quiet s = true -> step s p = Some q ->
  (queued_in k q = true -> queued_in k p = true) /\ (running_in k q = true -> running_in k p = true).
Proof.
  intros Hok Ho Hs. pose proof (ro_dispatch _ Hok) as Hd. unfold dispatch_ok in Hd.
  unfold queued_in, running_in, in_pool, is_queued, is_running, status_in in *.
  step_inv Hs; try discriminate Ho; status_cases; cbn;
    repeat match goal with E : p_status p = _ |- _ => rewrite E in * end; cbn in *; rewrite ?andb_false_r; auto.
  all: split; intros Hq; try discriminate Hq.
  destruct Hd as [Hd _]. rewrite Hd in Hq. cbn in Hq. by rewrite andb_false_r in Hq.
Qed.

Lemma moved_fills_nothing p q k :
  row_ok p -> moved quiet p q ->
  (queued_in k q = true -> queued_in k p = true) /\ (running_in k q = true -> running_in k p = true).
Proof.
  intros Hok (ss & Hr & Ho). revert p Hok Hr Ho. induction ss as [|s ss IH]; intros p Hok Hr Ho; simpl in *; [by injection Hr as <-|].
  destruct (step s p) as [r|] eqn:Es; [|done]. breflect. destruct (quiet_fills_nothing _ _ _ k Hok H Es) as [Hq Hrun].
  destruct (IH r) as [Hq2 Hrun2]; [by eapply step_ok|done|done|]. auto.
Qed.

Section capacity.
Context {World : Type} {H : Host} {SV : Services World} {SL : ServicesLaws World SV} (cfg : engine_config).

Definition rows_ok (d : db World) : Prop := map_Forall (fun _ p => row_ok p) (d_processes d).

Lemma rows_ok_legal ok (d d' : db World) : legal ok d d' -> rows_ok d -> rows_ok d'.
Proof.
  intros Hl Hd pid q Hq. pose proof (lg_processes _ _ _ Hl pid) as Hp. rewrite Hq in Hp.
  destruct (d_processes d !! pid) as [p|] eqn:E.
  - destruct Hp as (ss & Hr & _). eapply run_ok; [exact (Hd _ _ E)|exact Hr].
  - destruct Hp as (spec & now & ss & Hr & _). eapply run_ok; [apply new_process_ok|exact Hr].
Qed.

Lemma po_queued_count m k : po_queued (pool_occupancy m k) = count_rows (fun _ => queued_in k) m.
Proof. done. Qed.
Lemma po_running_count m k : po_running (pool_occupancy m k) = count_rows (fun _ => running_in k) m.
Proof. done. Qed.

(** A quiet transaction takes no slot. *)
Lemma quiet_occupancy (d d' : db World) k :
  rows_ok d -> legal quiet d d' ->
  po_queued (pool_occupancy (d_processes d') k) <= po_queued (pool_occupancy (d_processes d) k) /\
  po_running (pool_occupancy (d_processes d') k) <= po_running (pool_occupancy (d_processes d) k).
Proof.
  intros Hd Hl.
  assert (forall pid q, d_processes d' !! pid = Some q -> queued_in k q = true \/ running_in k q = true ->
          exists p, d_processes d !! pid = Some p /\
            (queued_in k q = true -> queued_in k p = true) /\ (running_in k q = true -> running_in k p = true)) as Hm.
  { intros pid q Hq Hor. pose proof (lg_processes _ _ _ Hl pid) as Hp. rewrite Hq in Hp.
    destruct (d_processes d !! pid) as [p|] eqn:E.
    - exists p. split; [done|]. eapply moved_fills_nothing; [exact (Hd _ _ E)|exact Hp].
    - exfalso. destruct Hp as (spec & now & Hp). destruct (moved_fills_nothing _ _ k (new_process_ok spec now) Hp) as [Hq1 Hr1].
      unfold queued_in, running_in, in_pool in Hq1, Hr1. cbn in Hq1, Hr1. destruct Hor; [by specialize (Hq1 H0)|by specialize (Hr1 H0)]. }
  split; [rewrite !po_queued_count|rewrite !po_running_count]; apply count_rows_mono; intros pid q Hq Hf;
    destruct (Hm pid q Hq) as (p & Hp & Hqp & Hrp); eauto.
Qed.

(** No pool runs more processes, or has more admitted waiting ones, than its caps allow. *)
Definition running_ok (d : db World) : Prop := forall k, po_running (pool_occupancy (d_processes d) k) <= running_cap cfg k.
Definition queued_ok (d : db World) : Prop := forall k, po_queued (pool_occupancy (d_processes d) k) <= queued_cap cfg k.

Lemma quiet_running_ok (d d' : db World) : rows_ok d -> legal quiet d d' -> running_ok d -> running_ok d'.
Proof. intros Hr Hl Hc k. destruct (quiet_occupancy d d' k Hr Hl). specialize (Hc k). lia. Qed.
Lemma quiet_queued_ok (d d' : db World) : rows_ok d -> legal quiet d d' -> queued_ok d -> queued_ok d'.
Proof. intros Hr Hl Hc k. destruct (quiet_occupancy d d' k Hr Hl). specialize (Hc k). lia. Qed.

(** *** Admission *)

(** An admitted row takes one queue place of its pool and no other. *)
Lemma admit_one_occupancy now (d0 d : db World) r pool b d' k :
  ready_rows d0 [r] -> legal queue_only d0 d -> admit_one now r pool d = Ok (b, d') ->
  po_running (pool_occupancy (d_processes d') k) = po_running (pool_occupancy (d_processes d) k) /\
  po_queued (pool_occupancy (d_processes d') k) =
    po_queued (pool_occupancy (d_processes d) k) + b2z (b && bool_decide (pool = Some k)).
Proof.
  intros Hr Hl Hd. apply Forall_singleton in Hr as (p & Hp & Hs). unfold admit_one in Hd.
  apply update_process_Ok in Hd as [(-> & q & q' & Hq & Hup & ->)|(-> & -> & _)]; [|cbn [b2z andb]; lia].
  destruct (evolves_lookup _ _ _ _ _ _ (lg_processes _ _ _ Hl) Hp) as (q0 & Hq0 & Hm). rewrite Hq in Hq0. injection Hq0 as <-.
  apply moved_queue_status in Hm. rewrite Hs in Hm. unfold upd_admit in Hup. destruct (dispatch_admitted (p_dispatch q)) eqn:Ea; [done|].
  injection Hup as <-. cbn [d_processes set_processes].
  rewrite !po_running_count, !po_queued_count, !(count_rows_update _ _ _ q) by done.
  unfold running_in, queued_in, is_running, is_queued, in_pool, status_in. cbn. rewrite Hm, Ea.
  rewrite (bool_decide_eq_false_2 (ProcessStatus.READY ∈ [ProcessStatus.CLAIMED; ProcessStatus.RUNNING])) by (by rewrite !elem_of_cons, elem_of_nil; intros [|[|]]).
  rewrite (bool_decide_eq_true_2 (ProcessStatus.READY ∈ [ProcessStatus.READY])) by (by apply list_elem_of_singleton).
  cbn. rewrite !andb_false_r, andb_true_r. cbn [b2z]. lia.
Qed.

(** What a round of admissions does to the pools: no running process more, and no queue
    beyond its cap. *)
Definition admits (d d' : db World) : Prop :=
  forall k, po_running (pool_occupancy (d_processes d') k) = po_running (pool_occupancy (d_processes d) k) /\
            (po_queued (pool_occupancy (d_processes d) k) <= queued_cap cfg k ->
             po_queued (pool_occupancy (d_processes d') k) <= queued_cap cfg k).

#[export] Instance admits_preorder : PreOrder admits.
Proof. split; [by intros d k|]. intros a b c Hab Hbc k. destruct (Hbc k) as [-> ?], (Hab k) as [-> ?]. auto. Qed.

Lemma admit_unpooled_admits now d0 rs (d : db World) x d' :
  ready_rows d0 rs -> legal queue_only d0 d -> admit_unpooled now rs d = Ok (x, d') ->
  forall k, po_running (pool_occupancy (d_processes d') k) = po_running (pool_occupancy (d_processes d) k) /\
            po_queued (pool_occupancy (d_processes d') k) = po_queued (pool_occupancy (d_processes d) k).
Proof.
  revert d. induction rs as [|r rs IH]; intros d Hr Hl Hd k; simpl in Hd; [by injection Hd as _ <-|].
  apply ready_rows_cons in Hr as [H1 H2]. apply bind_Ok in Hd as (b & d1 & Ha & Hd).
  destruct (admit_one_occupancy _ _ _ _ _ _ _ k H1 Hl Ha) as [Hrun Hq].
  rewrite (bool_decide_eq_false_2 (None = Some k)) in Hq by done. rewrite andb_false_r in Hq. cbn [b2z] in Hq.
  destruct (IH d1) with (k := k) as [-> ->]; [done| |done|lia]. etrans; [exact Hl|]. by eapply admit_one_legal.
Qed.

Lemma admit_embeds_admits now d0 rs q (d : db World) x d' :
  ready_rows d0 rs -> legal queue_only d0 d -> po_queued (pool_occupancy (d_processes d) embed) <= q ->
  admit_embeds cfg now rs q d = Ok (x, d') ->
  admits d d' /\ forall k, k <> embed -> po_queued (pool_occupancy (d_processes d') k) = po_queued (pool_occupancy (d_processes d) k).
Proof.
  revert d q. induction rs as [|r rs IH]; intros d q Hr Hl Hle Hd; simpl in Hd; [by injection Hd as _ <-|].
  destruct (Z.leb_spec (Dispatch.embed_queued (ec_caps cfg)) q) as [_|Hlt]; [by injection Hd as _ <-|].
  apply ready_rows_cons in Hr as [H1 H2]. apply bind_Ok in Hd as (b & d1 & Ha & Hd).
  pose proof (fun k => admit_one_occupancy _ _ _ _ _ _ _ k H1 Hl Ha) as Hocc.
  apply IH in Hd as [Hadm Hother]; [|done|etrans; [exact Hl|by eapply admit_one_legal]|].
  - split.
    + intros k. destruct (Hadm k) as [-> Hq], (Hocc k) as [-> Hq1]. split; [done|]. intros Hcap. apply Hq. rewrite Hq1.
      case_bool_decide as E; [injection E as <-; cbn [queued_cap]|rewrite andb_false_r; cbn [b2z]]; destruct b; cbn [b2z andb]; lia.
    + intros k Hk. rewrite Hother by done. destruct (Hocc k) as [_ ->]. rewrite bool_decide_eq_false_2 by congruence.
      rewrite andb_false_r. cbn [b2z]. lia.
  - destruct (Hocc embed) as [_ ->]. rewrite bool_decide_eq_true_2 by done. destruct b; cbn [b2z andb]; lia.
Qed.

Lemma admit_generates_admits now d0 rs l n (d : db World) x d' :
  ready_rows d0 rs -> legal queue_only d0 d -> po_queued (pool_occupancy (d_processes d) local_inference) <= l ->
  po_queued (pool_occupancy (d_processes d) non_interactive) <= n -> admit_generates cfg now rs l n d = Ok (x, d') -> admits d d'.
Proof.
  revert d l n. induction rs as [|r rs IH]; intros d l n Hr Hl Hle1 Hle2 Hd; simpl in Hd; [by injection Hd as _ <-|].
  apply ready_rows_cons in Hr as [H1 H2]. destruct (gated cfg r); [by eapply IH|].
  assert (forall pool b d1, admit_one now r (Some pool) d = Ok (b, d1) -> forall k,
    po_running (pool_occupancy (d_processes d1) k) = po_running (pool_occupancy (d_processes d) k) /\
    po_queued (pool_occupancy (d_processes d1) k) =
      po_queued (pool_occupancy (d_processes d) k) + (if b && bool_decide (pool = k) then 1 else 0)) as Hocc.
  { intros pool b d1 Ha k. destruct (admit_one_occupancy _ _ _ _ _ _ _ k H1 Hl Ha) as [Hrun Hq]. split; [done|]. rewrite Hq. unfold b2z.
    by rewrite (bool_decide_ext (Some pool = Some k) (pool = k)) by (split; congruence). }
  destruct (generate_pool cfg r l n) as [[]|]; try (by eapply IH);
    (match type of Hd with (if ?c then _ else _) _ = _ => destruct c eqn:Ec end; [apply Z.ltb_lt in Ec|by eapply IH]);
    apply bind_Ok in Hd as (b & d1 & Ha & Hd); pose proof (Hocc _ _ _ Ha) as Hk;
    (transitivity d1;
      [intros k; destruct (Hk k) as [-> ->]; split; [done|]; case_bool_decide; subst; destruct b; cbn [andb queued_cap]; lia
      |eapply IH; [done|etrans; [exact Hl|by eapply admit_one_legal]| | |exact Hd]]);
    match goal with |- po_queued (pool_occupancy _ ?k) <= _ => destruct (Hk k) as [_ ->] end; case_bool_decide; try done;
    destruct b; cbn [andb]; lia.
Qed.

(** The admission round keeps both caps. *)
Lemma admit_waiting_admits now (d : db World) x d' :
  rows_ok d -> admit_waiting_processes cfg now d = Ok (x, d') ->
  (running_ok d -> running_ok d') /\ (queued_ok d -> queued_ok d').
Proof.
  intros Hrows Hd. unfold admit_waiting_processes in Hd. apply bind_Ok in Hd as (x1 & d1 & Hrel & Hd).
  assert (legal quiet d d1) as Hq1.
  { destruct (ec_priority_gate_enabled cfg); [|by injection Hrel as _ <-].
    revert Hrel. by apply (keeps_update_processes quiet _ _ (ReleaseReservation now)). }
  apply bind_Ok in Hd as (d2 & ? & [= <- <-] & Hd). cbn zeta in Hd.
  apply bind_Ok in Hd as (rows & ? & [Hm ->]%lift_Ok & Hd). apply classify_ready in Hm.
  apply bind_Ok in Hd as (x2 & d3 & Hu & Hd). apply bind_Ok in Hd as (x3 & d4 & He & Hg).
  assert (legal queue_only d1 d3) as H13 by (eapply admit_unpooled_legal; [by apply ready_rows_filter|reflexivity|exact Hu]).
  assert (legal queue_only d1 d4) as H14.
  { etrans; [exact H13|]. eapply admit_embeds_legal; [apply ready_rows_sorted; by apply ready_rows_filter|exact H13|exact He]. }
  pose proof (admit_unpooled_admits _ _ _ _ _ _ (ready_rows_filter _ _ _ Hm) (reflexivity d1) Hu) as Hk3.
  apply (admit_embeds_admits now d1) in He as [Ha4 Hk4];
    [|apply ready_rows_sorted; by apply ready_rows_filter|exact H13|by destruct (Hk3 embed) as [_ ->]].
  apply (admit_generates_admits now d1) in Hg as Ha5;
    [|apply ready_rows_sorted; by apply ready_rows_filter|exact H14
     |rewrite Hk4 by done; by destruct (Hk3 local_inference) as [_ ->]|rewrite Hk4 by done; by destruct (Hk3 non_interactive) as [_ ->]].
  split; intros Hc; [pose proof (quiet_running_ok _ _ Hrows Hq1 Hc) as Hc1|pose proof (quiet_queued_ok _ _ Hrows Hq1 Hc) as Hc1];
    intros k; specialize (Hc1 k); destruct (Hk3 k) as [E1 E2], (Ha4 k) as [E3 E4], (Ha5 k) as [E5 E6].
  - lia.
  - apply E6, E4. lia.
Qed.
(** *** Claims *)

Lemma set_process_occupancy (d : db World) pid p p' k :
  d_processes d !! pid = Some p ->
  po_running (pool_occupancy (<[pid := p']> (d_processes d)) k) =
    po_running (pool_occupancy (d_processes d) k) - b2z (running_in k p) + b2z (running_in k p') /\
  po_queued (pool_occupancy (<[pid := p']> (d_processes d)) k) =
    po_queued (pool_occupancy (d_processes d) k) - b2z (queued_in k p) + b2z (queued_in k p').
Proof. intros Hp. by rewrite !po_running_count, !po_queued_count, !(count_rows_update _ _ _ p) by done. Qed.

Lemma claimed_row now token_hash owner expires rev p p' k :
  upd_claim token_hash owner expires now rev p = Some p' ->
  running_in k p = false /\ queued_in k p' = false /\ running_in k p' = in_pool k p.
Proof.
  unfold upd_claim. case_match eqn:E; [|done]. intros [= <-]. apply andb_true_iff in E as [[E _]%andb_true_iff _].
  apply status_in_elem, list_elem_of_singleton in E.
  unfold running_in, queued_in, is_running, is_queued, in_pool, status_in. cbn. rewrite E. cbn. rewrite !andb_false_r, andb_true_r. done.
Qed.

Lemma claim_case_caps now expires token token_hash owner (d : db World) r d' :
  rows_ok d -> claim_case cfg now expires token token_hash owner d r d' ->
  (running_ok d -> running_ok d') /\ (queued_ok d -> queued_ok d').
Proof.
  intros Hrows Hc.
  destruct Hc as [pid p d' _ Hl|d1 _ Ha _|d1 pid p d' _ Ha _ Hl|d1 pid p p' e plan cmd j d' _ Ha Hc Hp _ _ _ _ Hup -> _ _].
  - split; [by apply quiet_running_ok|by apply quiet_queued_ok].
  - by eapply admit_waiting_admits.
  - pose proof (rows_ok_legal _ _ _ (admit_waiting_legal _ _ _ _ _ Ha) Hrows) as Hrows1.
    destruct (admit_waiting_admits _ _ _ _ Hrows Ha) as [H1 H2].
    split; intros Hc; [eapply quiet_running_ok|eapply quiet_queued_ok]; eauto.
  - destruct (admit_waiting_admits _ _ _ _ Hrows Ha) as [H1 H2]. apply claim_candidate_Some in Hc as (_ & _ & Hopen).
    split; intros Hcap k; [specialize (H1 Hcap k)|specialize (H2 Hcap k)]; cbn [d_processes set_processes];
      destruct (set_process_occupancy d1 pid p p' k Hp) as [Er Eq]; destruct (claimed_row _ _ _ _ _ _ _ k Hup) as (E1 & E2 & E3).
    + rewrite Er, E1, E3. unfold pool_open in Hopen. unfold in_pool.
      case_bool_decide as Ek; cbn [b2z]; [rewrite Ek in Hopen|]; lia.
    + rewrite Eq, E2. cbn [b2z]. destruct (queued_in k p); cbn [b2z]; lia.
Qed.

Lemma claim_rounds_caps n now expires token token_hash owner (d : db World) r d' :
  rows_ok d -> claim_rounds cfg n now expires token token_hash owner d = Ok (r, d') ->
  (running_ok d -> running_ok d') /\ (queued_ok d -> queued_ok d').
Proof.
  revert d r. induction n as [|n IH]; intros d r Hrows Hd; simpl in Hd; [by injection Hd as _ <-|].
  apply bind_Ok in Hd as (c & d1 & Hc & Hd). pose proof (claim_round_legal _ _ _ _ _ _ _ _ _ Hc) as Hl.
  apply claim_round_case, claim_case_caps in Hc as [H1 H2]; [|done].
  destruct c as [[c|]|]; try (by injection Hd as _ <-). apply IH in Hd as [H3 H4]; [auto|by eapply rows_ok_legal].
Qed.

Lemma claim_next_caps ready promoted_at now token owner secs (d : db World) r d' :
  rows_ok d -> claim_next cfg ready promoted_at now token owner secs d = (r, d') ->
  (running_ok d -> running_ok d') /\ (queued_ok d -> queued_ok d').
Proof.
  intros Hrows. unfold claim_next. cbn zeta. destruct (rbind _ _); [|by intros [= _ <-]].
  destruct (promote_due_retries promoted_at 64 d) as [[n d1]|] eqn:Ep; [|by intros [= _ <-]].
  apply keeps_promote in Ep. pose proof (rows_ok_legal _ _ _ Ep Hrows) as Hrows1.
  pose proof (quiet_running_ok _ _ Hrows Ep) as H1. pose proof (quiet_queued_ok _ _ Hrows Ep) as H2.
  destruct (stable_digest _); [|by intros [= _ <-]]. case_bool_decide; [by intros [= _ <-]|].
  destruct (claim_rounds _ _ _ _ _ _ _ _) as [[c d2]|] eqn:Ec; [|by intros [= _ <-]].
  apply claim_rounds_caps in Ec as [H3 H4]; [|done]. intros [= _ <-]. auto.
Qed.

(** *** Restarts *)

(** An operator restart ends a run and starts none. *)
Lemma restart_running now team pid g key (d : db World) x d' :
  rows_ok d -> restart_process now team pid g key d = Ok (x, d') -> running_ok d -> running_ok d'.
Proof.
  intros Hrows Hd. unfold restart_process in Hd. apply bind_Ok in Hd as (? & ? & [_ ->]%require_Ok & Hd).
  apply bind_Ok in Hd as (row & ? & [= <- <-] & Hd). destruct (d_processes d !! pid) as [p|]; [|done].
  do 3 apply bind_Ok in Hd as (? & ? & [_ ->]%require_Ok & Hd).
  apply bind_Ok in Hd as (b & d1 & Hu & Hd). apply bind_Ok in Hd as (? & ? & [-> ->]%require_Ok & Hd).
  apply update_process_Ok in Hu as [(_ & q & q' & Hq & Hup & ->)|(? & _)]; [|done].
  intros Hc. eapply quiet_running_ok; [| |].
  2: { unfold wake in Hd. eapply keeps_enqueue; exact Hd. }
  - intros i r Hi. cbn in Hi. destruct (decide (i = pid)) as [->|Hne].
    + rewrite lookup_insert_eq in Hi. injection Hi as <-. eapply (step_ok (OperatorRestart now g)); [exact (Hrows _ _ Hq)|exact Hup].
    + rewrite lookup_insert_ne in Hi by done. exact (Hrows _ _ Hi).
  - intros k. cbn [d_processes set_processes]. destruct (set_process_occupancy d pid q q' k Hq) as [-> _].
    unfold upd_restart in Hup. case_match; [|done]. injection Hup as <-. specialize (Hc k).
    match goal with |- _ - _ + b2z ?c <= _ => assert (c = false) as -> by (unfold running_in, is_running, status_in; cbn; by rewrite andb_false_r) end.
    destruct (running_in k q); cbn [b2z]; lia.
Qed.

(** *** Runs *)

Lemma after_kept {A} (P : db World -> Prop) (m : tx World A) d :
  (forall a d', m d = Ok (a, d') -> P d') -> P d -> P (after m d).
Proof. intros Hm Hd. unfold after. destruct (m d) as [[a d']|]; [by eapply Hm|done]. Qed.

Lemma after_quiet_caps {A} (m : tx World A) (d : db World) :
  rows_ok d -> keeps (legal quiet) m -> (running_ok d -> running_ok (after m d)) /\ (queued_ok d -> queued_ok (after m d)).
Proof.
  intros Hrows Hm. pose proof (after_keeps quiet m d Hm) as Hl.
  split; [by apply quiet_running_ok|by apply quiet_queued_ok].
Qed.

Lemma quiet_both (P Q Q' : Prop) : P /\ (Q -> Q') -> P /\ (false = false -> Q -> Q').
Proof. tauto. Qed.

Lemma step_caps op (d : db World) :
  rows_ok d -> (running_ok d -> running_ok (engine_step cfg d op)) /\
  (op_restarts op = false -> queued_ok d -> queued_ok (engine_step cfg d op)).
Proof.
  intros Hrows. destruct op; simpl;
    try (apply quiet_both, after_quiet_caps; [exact Hrows|];
         auto using keeps_materialize_root, keeps_mark_running, keeps_heartbeat, keeps_accept_outcome,
           keeps_promote, keeps_recover, keeps_request_cancellation).
  - destruct (claim_next _ _ _ _ _ _ _ _) as [r d'] eqn:E. apply claim_next_caps in E as [? ?]; auto.
  - split; [|done]. intros Hc. apply after_kept; [|done]. intros a d' Hd. by eapply restart_running.
Qed.

Lemma run_caps ops (d : db World) :
  rows_ok d -> (running_ok d -> running_ok (engine_run cfg d ops)) /\
  (existsb op_restarts ops = false -> queued_ok d -> queued_ok (engine_run cfg d ops)).
Proof.
  revert d. induction ops as [|op ops IH]; intros d Hrows; [done|]. simpl.
  destruct (step_caps op d Hrows) as [H1 H2]. destruct (IH (engine_step cfg d op)) as [H3 H4].
  { eapply rows_ok_legal; [apply step_any|done]. }
  split; [auto|]. intros Ho. breflect. auto.
Qed.

(** C5: The caps of the dispatch pools are an invariant.  From well-formed rows within the
    caps, whatever calls are made of the engine, no pool ever has more claimed or running
    processes than its running cap; and without operator restarts no pool ever has more
    admitted waiting processes than its queued cap. *)
Theorem pool_caps_hold (d : db World) (ops : list engine_op) (k : DispatchPool)
    (Hrows : rows_ok d) (Hrunning : running_ok d) (Hqueued : queued_ok d) :
  po_running (pool_occupancy (d_processes (engine_run cfg d ops)) k) <= running_cap cfg k /\
  (existsb op_restarts ops = false ->
   po_queued (pool_occupancy (d_processes (engine_run cfg d ops)) k) <= queued_cap cfg k).
Proof. destruct (run_caps ops d Hrows) as [H1 H2]. split; [by apply H1|intros Ho; by apply H2]. Qed.
End capacity.

(** ** Witnesses and limits *)

Import EngineSamples RunSamples.

Lemma submitted_rows_ok n : rows_ok (submitted n).
Proof. apply map_Forall_empty. Qed.

(** Three processes compete for pools of one. *)
Lemma pool_caps_hold_witness : po_running (pool_occupancy (d_processes claimed) local_inference) <= 1.
Proof.
  destruct (pool_caps_hold config (submitted 4) started local_inference (submitted_rows_ok 4)) as [Hr _].
  - intros []; vm_compute; discriminate.
  - intros []; vm_compute; discriminate.
  - exact Hr.
Defined.

(** Without the exclusion of restarts the queued cap does not hold: [restart_process]
    puts a claimed process back to [ready] with its admission, next to the process that was
    admitted to its place meanwhile, so a pool with a queue of one holds two. *)
Theorem restart_overfills_queue :
  po_queued (pool_occupancy (d_processes (engine_run config (submitted 4) (started ++ [claim_at 15; claim_at 16]))) local_inference) = 1 /\
  po_queued (pool_occupancy (d_processes (engine_run config (submitted 4) (started ++ [claim_at 15; claim_at 16; restart]))) local_inference) = 2 /\
  queued_cap config local_inference = 1.
Proof. vm_compute. split; [reflexivity|]. split; reflexivity. Qed.
