(* ===== verification/Intake.v ===== *)
(** * The tables of the intake services

    The columns that the workflow engine reads and writes in tables it does not own: gates and
    their targets and decisions, candidate sets, snapshots with their memberships and change
    sets, items, artifacts, stored objects, publication proofs, audits, representation facts,
    and the registry of workflow revisions.  The record [world] holds them; [mkb_executions]
    and [mkb_tasks] have columns that only intake services write, which are here too
    ([w_targets], [w_task_intake]).
    A table is a finite map where rows are updated by key and a list in row order elsewhere.
    Stored JSON is its parsed value, [None] when it does not parse. *)

From S2P Require Import Prelude PyText PyValue Dispatch Strategies ProcessRows ExecutionRows.

Open Scope Z_scope.
Open Scope mkb_scope.

(** ** Rows *)

(** The columns of [mkb_executions] written when intake creates the execution. *)
Record execution_target := {
  et_kind : string;
  et_uuid : option ustr;
  et_snapshot : option ustr;
  et_change_set : option ustr;
  et_ordinal : option Z;
  et_revision : option ustr;
  et_manifest_revision : Z
}.
Definition no_target : execution_target := Build_execution_target "" None None None None None 0.

Record candidate_set := {
  cs_uuid : ustr;
  cs_team : ustr;
  cs_execution : ustr;
  cs_admission_result : option ustr;
  cs_staging_state : string;
  cs_accepted_snapshot : option ustr;
  cs_preflight_ref : option ustr;
  cs_preflight_digest : option ustr;
  cs_row_revision : Z;
  cs_updated_at : Z
}.

Record snapshot := {
  sn_team : ustr;
  sn_uuid : ustr;
  sn_source : ustr;
  sn_execution : option ustr;
  sn_preflight_ref : option ustr;
  sn_preflight_digest : option ustr
}.

Record membership := {
  mb_team : ustr;
  mb_snapshot : ustr;
  mb_ordinal : Z;
  mb_item : option ustr;
  mb_revision : option ustr;
  mb_decision_kind : string;
  mb_required : Z
}.

Record change_set := { ch_uuid : ustr; ch_team : ustr; ch_snapshot : ustr; ch_digest : ustr }.

Record change_fact := {
  cf_change_set : ustr;
  cf_team : ustr;
  cf_kind : string;
  cf_ordinal : Z;
  cf_item : option ustr;
  cf_revision : option ustr
}.

Record item := {
  it_lifecycle : string;
  it_latest_revision : option ustr;
  it_serving_revision : option ustr;
  it_deactivated_at : option Z;
  it_row_revision : Z;
  it_updated_at : Z
}.

Record revision := { rv_team : ustr; rv_uuid : ustr; rv_item : ustr; rv_snapshot : ustr }.

Record artifact := {
  ar_team : ustr;
  ar_uuid : ustr;
  ar_owner_snapshot : option ustr;
  ar_owner_revision : option ustr;
  ar_role : string;
  ar_digest : ustr;
  ar_object : option ustr
}.

Record source := { sc_team : ustr; sc_uuid : ustr; sc_kind : ustr; sc_version : ustr }.
Record source_kind_definition := { sk_kind : ustr; sk_version : ustr; sk_profile : option ustr }.
Record preflight_profile := { pp_key : ustr; pp_version : ustr; pp_check_set : ustr; pp_digest : ustr }.

Record stored_object := { obj_uuid : ustr; obj_team : ustr; obj_digest : ustr; obj_size : Z; obj_tombstoned_at : option Z }.
Record object_reference := {
  or_uuid : ustr;
  or_team : ustr;
  or_object : ustr;
  or_purpose : string;
  or_owner_kind : string;
  or_owner : ustr;
  or_digest : ustr;
  or_size : Z
}.

Record publication_proof := {
  pf_uuid : ustr;
  pf_team : ustr;
  pf_item : ustr;
  pf_revision : ustr;
  pf_execution : option ustr;
  pf_process : option ustr
}.

Record item_transition := { tr_team : ustr; tr_execution : option ustr; tr_action : string }.
Record task_audit_row := { au_team : ustr; au_task : ustr; au_received_at : Z; au_payload : option pyval }.

Record representation_fact_row := {
  rf_uuid : ustr;
  rf_execution : ustr;
  rf_kind : ustr;
  rf_text_layer : ustr;
  rf_main_text_presence : ustr;
  rf_media_family : ustr;
  rf_digest : ustr;
  rf_created_at : Z
}.
Record decode_history_row := { dh_team : ustr; dh_execution : ustr; dh_ordinal : Z; dh_fact : ustr; dh_path_digest : ustr }.

(** ** Gates *)

Inductive gate_status := gate_open | gate_released | gate_rejected | gate_superseded.
#[export] Instance gate_status_eq : EqDecision gate_status. Proof. solve_decision. Defined.
Inductive gate_action := approve | reject | reclean.
#[export] Instance gate_action_eq : EqDecision gate_action. Proof. solve_decision. Defined.
Definition action_value (a : gate_action) : string :=
  match a with approve => "approve" | reject => "reject" | reclean => "reclean" end.

Record gate := {
  g_team : ustr;
  g_task : ustr;
  g_execution : ustr;
  g_generation : Z;
  g_kind : string;
  g_status : gate_status;
  g_revision : Z;
  g_opened_at : Z;
  g_terminal_at : option Z;
  g_workflow_revision : ustr;
  g_binding_digest : ustr;
  g_actual_digest : option ustr
}.

Record gate_target := {
  gt_team : ustr;
  gt_digest : ustr;
  gt_review_target : option pyval;
  gt_clean_digest : ustr;
  gt_preflight_ref : option ustr;
  gt_intake_refs : pyval
}.

Record gate_decision := {
  gd_gate : ustr;
  gd_team : ustr;
  gd_expected_revision : Z;
  gd_action : gate_action;
  gd_actor : ustr;
  gd_idempotency_key : ustr;
  gd_target_digest : ustr;
  gd_digest : ustr
}.

Record world := {
  w_workflows : list (ustr * (ustr * string));
  w_workflow_steps : list (ustr * (string * ustr));
  w_targets : gmap ustr execution_target;
  w_task_intake : gmap (ustr * ustr) (option ustr * option ustr);
  w_deleted_tasks : list (ustr * ustr);
  w_audits : list task_audit_row;
  w_facts : list representation_fact_row;
  w_history : list decode_history_row;
  w_candidate_sets : list candidate_set;
  w_snapshots : list snapshot;
  w_memberships : list membership;
  w_change_sets : list change_set;
  w_change_facts : list change_fact;
  w_items : gmap (ustr * ustr) item;
  w_revisions : list revision;
  w_artifacts : list artifact;
  w_sources : list source;
  w_source_kinds : list source_kind_definition;
  w_profiles : list preflight_profile;
  w_objects : list stored_object;
  w_references : list object_reference;
  w_proofs : list publication_proof;
  w_transitions : list item_transition;
  w_gates : gmap ustr gate;
  w_gate_targets : gmap ustr gate_target;
  w_gate_decisions : gmap ustr gate_decision
}.

Definition set_gates (m : gmap ustr gate) (w : world) : world :=
  Build_world (w_workflows w) (w_workflow_steps w) (w_targets w) (w_task_intake w) (w_deleted_tasks w) (w_audits w) (w_facts w) (w_history w)
    (w_candidate_sets w) (w_snapshots w) (w_memberships w) (w_change_sets w) (w_change_facts w) (w_items w) (w_revisions w)
    (w_artifacts w) (w_sources w) (w_source_kinds w) (w_profiles w) (w_objects w) (w_references w) (w_proofs w)
    (w_transitions w) m (w_gate_targets w) (w_gate_decisions w).
Definition set_gate_targets (m : gmap ustr gate_target) (w : world) : world :=
  Build_world (w_workflows w) (w_workflow_steps w) (w_targets w) (w_task_intake w) (w_deleted_tasks w) (w_audits w) (w_facts w) (w_history w)
    (w_candidate_sets w) (w_snapshots w) (w_memberships w) (w_change_sets w) (w_change_facts w) (w_items w) (w_revisions w)
    (w_artifacts w) (w_sources w) (w_source_kinds w) (w_profiles w) (w_objects w) (w_references w) (w_proofs w)
    (w_transitions w) (w_gates w) m (w_gate_decisions w).
Definition set_gate_decisions (m : gmap ustr gate_decision) (w : world) : world :=
  Build_world (w_workflows w) (w_workflow_steps w) (w_targets w) (w_task_intake w) (w_deleted_tasks w) (w_audits w) (w_facts w) (w_history w)
    (w_candidate_sets w) (w_snapshots w) (w_memberships w) (w_change_sets w) (w_change_facts w) (w_items w) (w_revisions w)
    (w_artifacts w) (w_sources w) (w_source_kinds w) (w_profiles w) (w_objects w) (w_references w) (w_proofs w)
    (w_transitions w) (w_gates w) (w_gate_targets w) m.
Definition set_items (m : gmap (ustr * ustr) item) (w : world) : world :=
  Build_world (w_workflows w) (w_workflow_steps w) (w_targets w) (w_task_intake w) (w_deleted_tasks w) (w_audits w) (w_facts w) (w_history w)
    (w_candidate_sets w) (w_snapshots w) (w_memberships w) (w_change_sets w) (w_change_facts w) m (w_revisions w)
    (w_artifacts w) (w_sources w) (w_source_kinds w) (w_profiles w) (w_objects w) (w_references w) (w_proofs w)
    (w_transitions w) (w_gates w) (w_gate_targets w) (w_gate_decisions w).
Definition set_candidate_sets (l : list candidate_set) (w : world) : world :=
  Build_world (w_workflows w) (w_workflow_steps w) (w_targets w) (w_task_intake w) (w_deleted_tasks w) (w_audits w) (w_facts w) (w_history w)
    l (w_snapshots w) (w_memberships w) (w_change_sets w) (w_change_facts w) (w_items w) (w_revisions w)
    (w_artifacts w) (w_sources w) (w_source_kinds w) (w_profiles w) (w_objects w) (w_references w) (w_proofs w)
    (w_transitions w) (w_gates w) (w_gate_targets w) (w_gate_decisions w).
Definition add_reference (r : object_reference) (w : world) : world :=
  Build_world (w_workflows w) (w_workflow_steps w) (w_targets w) (w_task_intake w) (w_deleted_tasks w) (w_audits w) (w_facts w) (w_history w)
    (w_candidate_sets w) (w_snapshots w) (w_memberships w) (w_change_sets w) (w_change_facts w) (w_items w) (w_revisions w)
    (w_artifacts w) (w_sources w) (w_source_kinds w) (w_profiles w) (w_objects w) (w_references w ++ [r]) (w_proofs w)
    (w_transitions w) (w_gates w) (w_gate_targets w) (w_gate_decisions w).

(** ** Queries *)

Definition is_some_of (o : option ustr) (v : ustr) : bool := match o with Some x => ueqb x v | None => false end.
(** SQL equality of two nullable columns. *)
Definition sql_eq (a b : option ustr) : bool := match a with Some x => is_some_of b x | None => false end.
Definition stext (a b : string) : bool := bool_decide (a = b).

Definition target_of (w : world) (execution : ustr) : execution_target := default no_target (w_targets w !! execution).
Definition task_intake (w : world) (team task : ustr) : option ustr * option ustr :=
  default (None, None) (w_task_intake w !! (team, task)).

(** [FROM a JOIN b ON ...]: the rows of [l] that join, each continued by [k]. *)
Definition join_rows {A B} (l : list A) (on : A -> bool) (k : A -> list B) : list B := concat (map k (List.filter on l)).

Definition live_object (o : stored_object) : bool := bool_decide (obj_tombstoned_at o = None).

(** The statements of [_cancel_execution_tree_tx] on the gates and candidate sets. *)
Definition supersede_gate (now : Z) (execution : ustr) (g : gate) : gate :=
  if ueqb (g_execution g) execution && bool_decide (g_status g = gate_open) then
    Build_gate (g_team g) (g_task g) (g_execution g) (g_generation g) (g_kind g) gate_superseded (g_revision g + 1)
      (g_opened_at g) (Some now) (g_workflow_revision g) (g_binding_digest g) (g_actual_digest g)
  else g.
Definition abandon_candidate_set (now : Z) (team execution : ustr) (c : candidate_set) : candidate_set :=
  if ueqb (cs_team c) team && ueqb (cs_execution c) execution
     && (stext (cs_staging_state c) "open" || stext (cs_staging_state c) "sealed") then
    Build_candidate_set (cs_uuid c) (cs_team c) (cs_execution c) (cs_admission_result c) "abandoned"
      (cs_accepted_snapshot c) (cs_preflight_ref c) (cs_preflight_digest c) (cs_row_revision c + 1) now
  else c.
Definition supersede_and_abandon_tx (now : Z) (team execution : ustr) (w : world) : world :=
  set_candidate_sets (map (abandon_candidate_set now team execution) (w_candidate_sets w))
    (set_gates (supersede_gate now execution <$> w_gates w) w).

(** The latest row of [mkb_representation_facts] of an execution:
    [ORDER BY created_at DESC, representation_fact_uuid DESC LIMIT 1]. *)
Definition later_fact (a b : representation_fact_row) : bool :=
  (rf_created_at b <? rf_created_at a) || (rf_created_at b =? rf_created_at a) && str_le (rf_uuid b) (rf_uuid a).
Definition latest_fact (w : world) (execution : ustr) : option representation_fact_row :=
  head (py_sorted later_fact (List.filter (fun f => ueqb (rf_execution f) execution) (w_facts w))).

(** The latest audit of a task: [ORDER BY received_at DESC LIMIT 1]. *)
Definition latest_audit (w : world) (team task : ustr) : option task_audit_row :=
  head (py_sorted (fun a b => au_received_at b <=? au_received_at a)
          (List.filter (fun a => ueqb (au_team a) team && ueqb (au_task a) task) (w_audits w))).

(** The newest decoded representation of an execution, as [read_route_facts] joins it. *)
Definition newest_history (w : world) (team execution : ustr) : option representation_fact_row :=
  head (join_rows
          (py_sorted (fun a b => dh_ordinal b <=? dh_ordinal a)
             (List.filter (fun h => ueqb (dh_team h) team && ueqb (dh_execution h) execution) (w_history w)))
          (fun _ => true)
          (fun h => List.filter (fun f => ueqb (rf_uuid f) (dh_fact h)) (w_facts w))).
