(* ===== verification/RouteContext.v ===== *)
(** * The typed facts behind route decisions

    Model of [_typed_route_context_tx] of [src/runtime/workflow/runtime_materialize.py], of
    [read_route_facts] of [src/runtime/intake/representation_history.py] with
    the strategy it derives, and of the prompt defaults of [src/services/prompt_profiles.py] that
    decide whether a Markdown hop exists.
    The facts come from durable rows only.  A malformed audit payload leaves the facts that
    were read before the failure, as the [try] block of the code does. *)

From S2P Require Import Prelude PyText PyValue Txn WorkflowContracts Dispatch Strategies Routing Outbox ProcessRows ExecutionRows.
From S2P Require Import Engine Intake.

Open Scope Z_scope.
Open Scope mkb_scope.

(** ** Prompt defaults *)

Definition DOCUMENTATION_DOMAIN : ustr := u "documentation".
Definition DOCUMENTATION_FLAVORS : list ustr := map u ["qna"; "eval"; "closure"; "plan"; "code-review"]%string.
Definition GRANULARITY_LEVELS : list ustr := map u ["g0"; "g1"; "g2"]%string.

(** [json_prompt_id_for] *)
Definition json_prompt_id_for (domain granularity : option ustr) : result (option ustr) :=
  check opt_ok (fun g => bool_decide (g ∈ GRANULARITY_LEVELS)) granularity else ValueError ;;
  if bool_decide (domain = Some DOCUMENTATION_DOMAIN) then
    Ok (Some (u "promptB.documentation." ++ match granularity with Some ((_ :: _) as g) => g | _ => u "g1" end))
  else Ok ((fun g => u "promptB.json." ++ g) <$> granularity).

(** [default_prompt_ids] *)
Definition default_prompt_ids (domain flavor granularity : option ustr) : result (list (ustr * option ustr)) :=
  check negb (present flavor && absent domain) else ValueError ;;
  check opt_ok (fun g => bool_decide (g ∈ GRANULARITY_LEVELS)) granularity else ValueError ;;
  check opt_ok (fun d => ueqb d DOCUMENTATION_DOMAIN) domain else ValueError ;;
  let* selected :=
    match domain with
    | None => Ok []
    | Some _ =>
        let defaults := [(u "clean", Some (u "promptA.default")); (u "markdown", None);
                         (u "json", Some (u "promptB.documentation.g1"));
                         (u "summarizer", Some (u "promptC.documentation.default"))] in
        match flavor with
        | None => Ok defaults
        | Some f =>
            check bool_decide (f ∈ DOCUMENTATION_FLAVORS) else ValueError ;;
            Ok (dset defaults (u "markdown") (Some (u "promptB.documentation." ++ f)))
        end
    end in
  let* json_id := json_prompt_id_for domain granularity in
  Ok (match json_id with Some id => dset selected (u "json") (Some id) | None => selected end).

(** A payload value when it is a text. *)
Definition text_of (v : option pyval) : option ustr := match v with Some (PStr s) => Some s | _ => None end.

(** [_markdown_id_from_domain_flavor] *)
Definition markdown_id_from_domain_flavor (payload : pydict) : option ustr :=
  match default_prompt_ids (text_of (dget payload (u "domain"))) (text_of (dget payload (u "flavor")))
          (text_of (dget payload (u "granularity"))) with
  | Ok defaults => match dget defaults (u "markdown") with Some (Some ((_ :: _) as id)) => Some id | _ => None end
  | Err _ => None
  end.

(** ** Representation facts *)

Record route_facts := { rt_main_text_presence : ustr; rt_media_family : ustr; rt_strategy : option ustr }.

(** [read_route_facts] *)
Definition read_route_facts (w : world) (team execution : ustr) : result (option route_facts) :=
  match newest_history w team execution with
  | None => Ok None
  | Some f =>
      let* selected :=
        derive_selected_clean_strategy (Some (rf_media_family f)) (Some (rf_text_layer f)) (Some (rf_kind f)) None in
      Ok (Some (Build_route_facts (rf_main_text_presence f) (rf_media_family f) selected))
  end.

Section context.
Context {H : Host}.

(** [media_type.split(";", 1)[0].strip().casefold()] *)
Definition normalized_media (media_type : ustr) : ustr :=
  casefold (strip (match str_find media_type (u ";") 0 with Some i => take i media_type | None => media_type end)).
Definition media_family (media_type : ustr) : ustr :=
  let m := normalized_media media_type in
  if ueqb m (u "application/pdf") then u "pdf"
  else if starts_with (u "image/") m then u "image"
  else if starts_with (u "text/") m || ueqb m (u "application/json") then u "text"
  else u "opaque".

Definition hashable (v : pyval) : bool := match v with PList _ | PDict _ => false | _ => true end.
(** [v in {texts}]: membership in a set of texts raises on a value that cannot be hashed. *)
Definition in_texts (v : pyval) (l : list string) : result bool :=
  if hashable v then Ok (existsb (fun s => py_eqb v (PStr (u s))) l) else Err TypeError.

(** The facts of [payload.source]; a failure keeps the facts set before it. *)
Definition source_facts (origin : pydict) (context : pydict) : pydict * bool :=
  let context :=
    match dget origin (u "clean_strategy") with
    | Some (PStr ((_ :: _) as s)) => dset context (u "selected_clean_strategy") (PStr s)
    | _ => context
    end in
  let mode := default PNone (dget origin (u "acquisition_mode")) in
  match in_texts mode ["static"; "browser"; "pdf"]%string with
  | Err _ => (context, false)
  | Ok known =>
      let context := if known then dset context (u "acquisition_mode") mode else context in
      (match dget origin (u "media_type") with
       | Some (PStr m) => dset context (u "media_family") (PStr (media_family m))
       | _ => context
       end, true)
  end.

Definition dict_of (v : option pyval) : option pydict := match v with Some (PDict d) => Some d | _ => None end.

(** The Markdown prompt of the payload: selected, named, or the default of its flavor. *)
Definition markdown_id (payload : pydict) : pyval :=
  let selected :=
    match dict_of (dget payload (u "prompt_selection")) ≫= fun s => dict_of (dget s (u "markdown")) with
    | Some m => default PNone (dget m (u "prompt_id"))
    | None => PNone
    end in
  if truthy selected then selected
  else
    let named := default PNone (dget payload (u "markdown_prompt_id")) in
    if truthy named then named
    else match markdown_id_from_domain_flavor payload with Some id => PStr id | None => PNone end.

(** The [try] block over the latest audit envelope. *)
Definition audit_facts (envelope : pyval) (context : pydict) : pydict :=
  match dict_of (Some envelope) ≫= fun e => dict_of (dget e (u "payload")) with
  | None => context
  | Some payload =>
      let '(context, alive) :=
        match dict_of (dget payload (u "source")) with Some origin => source_facts origin context | None => (context, true) end in
      if negb alive then context
      else
        match markdown_id payload with
        | PStr (_ :: _) =>
            let context := dset context (u "markdown_selection") (PStr (u "present")) in
            if fact_is context "admission_result" "auto_admitted"
            then dset context (u "admission_markdown_selection") (PStr (u "auto_admitted")) else context
        | _ => context
        end
  end.

(** The disposition declared in [payload_extra], outside any [try]. *)
Definition declared_disposition (extra : pyval) (context : pydict) : result pydict :=
  match extra with
  | PDict d =>
      let declared := default PNone (dget d (u "metadata_disposition")) in
      let* known := in_texts declared ["no_change"; "changed"]%string in
      Ok (if known then dset context (u "metadata_disposition") declared else context)
  | _ => Ok context
  end.

(** [_typed_route_context_tx] with a configured representation reader. *)
Definition typed_route_context_tx (id : ustr) (e : execution) (d : db world) : result pydict :=
  let w := d_world d in
  let team := ei_team (e_id e) in
  let context := match d_tasks d !! (team, ei_task (e_id e)) with
                 | Some t => [(u "request_intent", PStr (t_request_intent t))] | None => [] end in
  let context :=
    match List.find (fun c => ueqb (cs_team c) team && ueqb (cs_execution c) id) (w_candidate_sets w) with
    | Some c => match cs_admission_result c with Some r => dset context (u "admission_result") (PStr r) | None => context end
    | None => context
    end in
  let* context := declared_disposition (ei_payload_extra (e_id e)) context in
  let no_change := existsb (fun t => ueqb (tr_team t) team && is_some_of (tr_execution t) id && stext (tr_action t) "no_change")
                     (w_transitions w) in
  let context := if no_change then dset context (u "metadata_disposition") (PStr (u "no_change")) else context in
  let context :=
    match latest_audit w team (ei_task (e_id e)) ≫= au_payload with
    | Some envelope => audit_facts envelope context
    | None => context
    end in
  let* facts := read_route_facts w team id in
  match facts with
  | None => Ok context
  | Some facts =>
      let context := dset context (u "main_text_presence") (PStr (rt_main_text_presence facts)) in
      let context := dset context (u "media_family") (PStr (rt_media_family facts)) in
      Ok (match rt_strategy facts with
          | Some s => if dmem context (u "selected_clean_strategy") then context
                      else dset context (u "selected_clean_strategy") (PStr s)
          | None => context
          end)
  end.
End context.
