(* ===== verification/FanIn.v ===== *)
(** * Scatter: fan-out release and collect-all fan-in

    Model of [src/runtime/workflow/runtime_scatter.py] and of the scatter half of
    [_refresh_execution_counts_tx] with [_refresh_scatter_task_counts_tx] of
    [runtime_core.py].  The denominator of a collection is the accepted membership set with
    its change-set facts, never the number of child rows; the root waits until every bound
    child is terminal and succeeds only with one publication proof per required member. *)

From S2P Require Import Prelude PyText PyValue Txn WorkflowContracts Dispatch Strategies Routing Outbox ProcessRows ExecutionRows.
From S2P Require Import Engine Materialize Intake.

Open Scope Z_scope.
Open Scope mkb_scope.

(** ** The required set *)

Record member := { m_ordinal : Z; m_item : ustr; m_revision : ustr }.
#[export] Instance member_eq : EqDecision member. Proof. solve_decision. Defined.

(** One required membership; [None] when it is not an accepted, bound one. *)
Definition required_member (m : membership) : option member :=
  match mb_item m, mb_revision m with
  | Some ((_ :: _) as i), Some ((_ :: _) as r) =>
      if stext (mb_decision_kind m) "accepted" then Some (Build_member (mb_ordinal m) i r) else None
  | _, _ => None
  end.

Fixpoint all_some {A} (l : list (option A)) : option (list A) :=
  match l with
  | [] => Some []
  | Some a :: l => cons a <$> all_some l
  | None :: _ => None
  end.

Definition member_key (m : member) : Z * ustr * ustr := (m_ordinal m, m_item m, m_revision m).
Definition fact_key (f : change_fact) : option (Z * ustr * ustr) :=
  match cf_item f, cf_revision f with
  | Some ((_ :: _) as i), Some ((_ :: _) as r) => Some (cf_ordinal f, i, r)
  | _, _ => None
  end.

(** [_scatter_expected_members_tx] *)
Definition expected_members (w : world) (team snapshot change_set : ustr) : option (list member) :=
  if existsb (fun c => ueqb (ch_team c) team && ueqb (ch_uuid c) change_set && ueqb (ch_snapshot c) snapshot) (w_change_sets w)
  then
    let memberships :=
      py_sorted (fun a b => mb_ordinal a <=? mb_ordinal b)
        (List.filter (fun m => ueqb (mb_team m) team && ueqb (mb_snapshot m) snapshot) (w_memberships w)) in
    let facts :=
      List.filter (fun f => ueqb (cf_team f) team && ueqb (cf_change_set f) change_set && stext (cf_kind f) "accept_revision")
        (w_change_facts w) in
    match all_some (map required_member (List.filter (fun m => mb_required m =? 1) memberships)) with
    | None => None
    | Some expected =>
        let expected_facts : gset (Z * ustr * ustr) := list_to_set (map member_key expected) in
        let actual_facts : gset (Z * ustr * ustr) := list_to_set (omap fact_key facts) in
        if (size actual_facts =? length facts)%nat && bool_decide (actual_facts = expected_facts) then Some expected else None
    end
  else None.

(** [{member["intake_item_uuid"]: member for member in expected}] *)
Definition by_item (expected : list member) : list (ustr * member) :=
  foldl (fun acc m => dset acc (m_item m) m) [] expected.

(** ** Children *)

Abbreviation child_row := (ustr * execution)%type.

Definition children_of (team parent : ustr) (d : db world) : list child_row :=
  rows_where (fun _ e => ueqb (ei_team (e_id e)) team && bool_decide (ei_parent (e_id e) = Some parent)
                         && ueqb (ei_root (e_id e)) parent) (d_executions d).

Definition child_target (w : world) (c : child_row) : option ustr := et_uuid (target_of w c.1).

(** What both the fan-in and the progress counters require of the child of a member. *)
Definition child_of_member (w : world) (m : member) (c : child_row) : bool :=
  let t := target_of w c.1 in
  has_role c.2 "scatter_child" && stext (ei_requiredness (e_id c.2)) "required" && stext (et_kind t) "intake_item"
  && bool_decide (et_ordinal t = Some (m_ordinal m)) && bool_decide (et_revision t = Some (m_revision m)).

Definition candidates (w : world) (children : list child_row) (i : ustr) : list child_row :=
  List.filter (fun c => is_some_of (child_target w c) i) children.

(** The one child bound to a required member. *)
Definition bound_child (w : world) (snapshot change_set : ustr) (children : list child_row) (im : ustr * member)
    : option child_row :=
  match candidates w children im.1 with
  | [c] =>
      let t := target_of w c.1 in
      if child_of_member w im.2 c && is_some_of (et_snapshot t) snapshot && is_some_of (et_change_set t) change_set
      then Some c else None
  | _ => None
  end.

(** The bound children, [None] when the child rows do not exactly cover the required set. *)
Definition bound_children (w : world) (snapshot change_set : ustr) (children : list child_row) (expected : list member)
    : option (list child_row) :=
  let items := by_item expected in
  if forallb (fun c => match child_target w c with Some i => dmem items i | None => false end) children then
    match all_some (map (bound_child w snapshot change_set children) items) with
    | Some bound => if (length bound =? length expected)%nat then Some bound else None
    | None => None
    end
  else None.

(** ** Progress counters *)

Definition member_status (w : world) (children : list child_row) (im : ustr * member) : ExecutionStatus.t :=
  match candidates w children im.1 with
  | [c] => if child_of_member w im.2 c then e_status c.2 else ExecutionStatus.CREATED
  | _ => ExecutionStatus.CREATED
  end.

Section fan_in.
Context {H : Host} {SV : Services world}.

(** [_refresh_scatter_task_counts_tx]; the child counters of the root are not columns of the
    model. *)
Definition refresh_scatter_task_counts (now : Z) (team task root : ustr) (expected : list member) : tx world unit :=
  let! d := gets Datatypes.id in
  let children :=
    List.filter (fun c => ueqb (ei_task (e_id c.2)) task) (children_of team root d) in
  let statuses := map (member_status (d_world d) children) (by_item expected) in
  let n l := Z.of_nat (length (List.filter (fun s => bool_decide (s ∈ l)) statuses)) in
  let total := Z.of_nat (length expected) in
  update_task team task
    (task_refresh root
       (Build_task_counts total total
          (n [ExecutionStatus.CREATED; ExecutionStatus.READY; ExecutionStatus.RUNNING; ExecutionStatus.WAITING;
              ExecutionStatus.CANCELLING])
          (n [ExecutionStatus.SUCCEEDED]) (n [ExecutionStatus.FAILED]) (n [ExecutionStatus.CANCELLED])) now) ;!
  ret tt.

(** The accepted collection of the task whose current root is [id]. *)
Definition collection_of (team task id : ustr) (d : db world) : option (ustr * ustr) :=
  match d_tasks d !! (team, task) with
  | Some t =>
      if is_some_of (t_root t) id then
        match task_intake (d_world d) team task with
        | (Some ((_ :: _) as s), Some ((_ :: _) as c)) => Some (s, c)
        | _ => None
        end
      else None
  | None => None
  end.

(** The scatter branch of [_refresh_execution_counts_tx] for an execution of the root [id]. *)
Definition refresh_scatter (now : Z) (team task id : ustr) (d : db world) : result (option (db world)) :=
  match collection_of team task id d with
  | None => Ok None
  | Some (snapshot, change_set) =>
      match expected_members (d_world d) team snapshot change_set with
      | None => Ok None
      | Some expected =>
          let* r := refresh_scatter_task_counts now team task id expected d in
          Ok (Some r.2)
      end
  end.

(** ** The accept process of a zero-member collection *)

Definition is_step (step key : string) (p : process) : bool :=
  stext (ps_step_key (p_spec p)) step && stext (ps_process_key (p_spec p)) key.
Definition accepted_row (team id : ustr) (p : process) : bool :=
  ueqb (ps_team (p_spec p)) team && of_execution id p && bool_decide (p_status p = ProcessStatus.SUCCEEDED)
  && is_step "accept_snapshot" "intake.accept_snapshot" p.

(** [ORDER BY completed_at DESC, process_uuid DESC]; a missing time sorts last. *)
Definition latest_first (a b : ustr * process) : bool :=
  match p_completed_at a.2, p_completed_at b.2 with
  | Some x, Some y => (y <? x) || (x =? y) && str_le b.1 a.1
  | Some _, None => true
  | None, Some _ => false
  | None, None => str_le b.1 a.1
  end.

(** [_scatter_root_terminal_proof_tx] *)
Definition root_terminal_proof (team id : ustr) (source : option source_row) (d : db world) : option (ustr * process) :=
  let durable :=
    head (py_sorted latest_first
      (rows_where (fun _ p => accepted_row team id p && present (proof_ref (p_outcome p))
                              && present (output_manifest_ref (p_outcome p))) (d_processes d))) in
  match sr_uuid <$> source with
  | Some ((_ :: _) as pid) =>
      match d_processes d !! pid with
      | Some p =>
          if accepted_row team id p && nonempty (proof_ref (p_outcome p)) && nonempty (output_manifest_ref (p_outcome p))
          then Some (pid, p) else durable
      | None => durable
      end
  | _ => durable
  end.

(** [_last_terminal_process_tx] *)
Definition last_terminal_process (id : ustr) (d : db world) : option (ustr * process) :=
  head (py_sorted latest_first (rows_where (fun _ p => of_execution id p && terminal_process (p_status p)) (d_processes d))).

Definition source_of_row (r : ustr * process) : source_row := full_source r.1 r.2.

(** ** Entering the join *)

(** One round of [_release_scatter_children_tx]. *)
Definition release_child (now : Z) (team change_set : ustr) (c : child_row) : tx world bool :=
  let! updated := update_execution c.1 (ex_prerequisite_released change_set now) in
  if updated then
    enqueue now team "wake_execution"
      [(u "execution_uuid", PStr c.1); (u "task_uuid", PStr (ei_task (e_id c.2)));
       (u "generation", PInt (ei_generation (e_id c.2)))]
      (u "scatter-child-release:" ++ c.1 ++ u ":" ++ change_set) ;!
    ret true
  else ret false.

Definition release_scatter_children (now : Z) (id team change_set : ustr) : tx world Z :=
  let! rows :=
    gets (fun d => List.filter (fun c => has_role c.2 "scatter_child" && ex_in c.2 [ExecutionStatus.WAITING]
                                         && waits_for c.2 "durable_prerequisite" change_set) (children_of team id d)) in
  count_loop (release_child now team change_set) rows.

(** [_enter_scatter_children_join_tx] *)
Definition enter_children_join (now : Z) (id route_digest : ustr) (source : option source_row) : tx world bool :=
  let! current := execution_row id in
  if stopping (e_status current) then ret false
  else
    let team := ei_team (e_id current) in
    let! d := gets Datatypes.id in
    match collection_of team (ei_task (e_id current)) id d with
    | Some (snapshot, change_set) =>
        if negb (is_some_of (et_snapshot (target_of (d_world d) id)) snapshot)
        then fail_execution_integrity now id "scatter-acceptance-binding-missing" ;! ret false
        else
          match expected_members (d_world d) team snapshot change_set with
          | None => fail_execution_integrity now id "scatter-required-set-invalid" ;! ret false
          | Some [] =>
              match root_terminal_proof team id source d with
              | None => fail_execution_integrity now id "scatter-zero-proof-missing" ;! ret false
              | Some proof =>
                  terminalize_execution now id (Some TK_SUCCESS) (Some (source_of_row proof)) route_digest None
                    (Some "exhausted_zero"%string) ;!
                  ret true
              end
          | Some _ =>
              release_scatter_children now id team change_set ;!
              let! updated := update_execution id (ex_join_wait change_set now) in
              refresh_execution_counts now id ;!
              ret updated
          end
    | None => fail_execution_integrity now id "scatter-acceptance-binding-missing" ;! ret false
    end.

(** ** Fan-in *)

(** The publication evidence of one succeeded child: its process, or the integrity code. *)
Definition publication_process (team : ustr) (d : db world) (cm : child_row * member) : string + (ustr * process) :=
  let '((cid, child), m) := cm in
  let proofs :=
    List.filter (fun p => ueqb (pf_team p) team && ueqb (pf_item p) (m_item m) && ueqb (pf_revision p) (m_revision m)
                          && is_some_of (pf_execution p) cid) (w_proofs (d_world d)) in
  match map pf_process proofs with
  | [Some ((_ :: _) as pid)] =>
      match d_processes d !! pid with
      | Some p =>
          if ueqb (ps_team (p_spec p)) team && of_execution cid p && bool_decide (p_status p = ProcessStatus.SUCCEEDED)
             && is_step "validate_publication" "index.validate_publication" p
             && nonempty (proof_ref (p_outcome p)) && nonempty (output_manifest_ref (p_outcome p))
             && bool_decide (publication_proof_ref (e_final child) = proof_ref (p_outcome p))
          then inr (pid, p) else inl "scatter-publication-proof-invalid"%string
      | None => inl "scatter-publication-proof-invalid"%string
      end
  | _ => inl "scatter-publication-proof-missing"%string
  end.

Fixpoint collect_proofs (team : ustr) (d : db world) (l : list (child_row * member)) : string + list (ustr * process) :=
  match l with
  | [] => inr []
  | cm :: l =>
      match publication_process team d cm with
      | inl code => inl code
      | inr p => match collect_proofs team d l with inl code => inl code | inr ps => inr (p :: ps) end
      end
  end.

(** [max(..., key=(completed_at or "", process_uuid))]: the first of the greatest. *)
Definition later_process (a b : ustr * process) : bool :=
  match p_completed_at a.2, p_completed_at b.2 with
  | Some x, Some y => (x <? y) || (x =? y) && negb (str_le b.1 a.1)
  | None, Some _ => true
  | Some _, None => false
  | None, None => negb (str_le b.1 a.1)
  end.
Definition latest_proof (l : list (ustr * process)) : option (ustr * process) :=
  match l with [] => None | p :: l => Some (foldl (fun best q => if later_process best q then q else best) p l) end.

Definition fan_in_digest (snapshot change_set : ustr) (bound : list child_row) : result ustr :=
  stable_digest (obj [("kind", PStr (u "scatter-fan-in.v1")); ("snapshot_uuid", PStr snapshot);
                      ("change_set_uuid", PStr change_set);
                      ("children", PList (map (fun c => obj [("execution_uuid", PStr c.1);
                                                             ("status", PStr (u (execution_status_value (e_status c.2))))])
                                            (py_sorted key_le bound)))]).

Definition by_target (w : world) (a b : child_row) : bool :=
  str_le (default (u "None") (child_target w a)) (default (u "None") (child_target w b)).
Definition by_item_uuid (a b : member) : bool := str_le (m_item a) (m_item b).

(** All bound children are terminal: collect them. *)
Definition collect_children (now : Z) (id team snapshot change_set : ustr) (expected : list member) (bound : list child_row)
    : tx world bool :=
  let! digest := lift (fan_in_digest snapshot change_set bound) in
  let in_status s := List.filter (fun c => ex_in c.2 [s]) bound in
  let! d := gets Datatypes.id in
  match in_status ExecutionStatus.FAILED ++ in_status ExecutionStatus.CANCELLED with
  | worst :: _ =>
      terminalize_execution now id (Some TK_FAILURE) (source_of_row <$> last_terminal_process worst.1 d) digest
        (Some (u (match in_status ExecutionStatus.FAILED with [] => "scatter-required-child-cancelled"
                  | _ => "scatter-required-child-failed" end))) None ;!
      ret true
  | [] =>
      match collect_proofs team d
              (zip (py_sorted (by_target (d_world d)) bound) (py_sorted by_item_uuid expected)) with
      | inl code => fail_execution_integrity now id code ;! ret true
      | inr proofs =>
          terminalize_execution now id (Some TK_SUCCESS) (source_of_row <$> latest_proof proofs) digest None None ;!
          ret true
      end
  end.

(** [_maybe_converge_scatter_root_tx] *)
Definition converge_scatter_root (now : Z) (id : ustr) : tx world bool :=
  let! current := execution_row id in
  if negb (has_role current "scatter_root" && ex_in current [ExecutionStatus.WAITING]
           && bool_decide (waiting_reason (e_wait current) = Some "scatter_children"%string))
  then ret false
  else
    let team := ei_team (e_id current) in
    let! d := gets Datatypes.id in
    match collection_of team (ei_task (e_id current)) id d with
    | None => fail_execution_integrity now id "scatter-acceptance-binding-missing" ;! ret true
    | Some (snapshot, change_set) =>
        match expected_members (d_world d) team snapshot change_set with
        | None => fail_execution_integrity now id "scatter-required-set-invalid" ;! ret true
        | Some [] =>
            match root_terminal_proof team id None d with
            | None => fail_execution_integrity now id "scatter-zero-proof-missing" ;! ret true
            | Some proof =>
                let! digest :=
                  lift (stable_digest (obj [("kind", PStr (u "scatter-zero-fan-in")); ("snapshot_uuid", PStr snapshot);
                                            ("change_set_uuid", PStr change_set)])) in
                terminalize_execution now id (Some TK_SUCCESS) (Some (source_of_row proof)) digest None
                  (Some "exhausted_zero"%string) ;!
                ret true
            end
        | Some expected =>
            if negb (existsb (fun c => ueqb (ch_team c) team && ueqb (ch_uuid c) change_set) (w_change_sets (d_world d)))
            then fail_execution_integrity now id "scatter-change-set-missing" ;! ret true
            else
              match bound_children (d_world d) snapshot change_set (children_of team id d) expected with
              | None => fail_execution_integrity now id "scatter-child-intent-invalid" ;! ret true
              | Some bound =>
                  if existsb (fun c => negb (terminal_execution (e_status c.2))) bound then ret false
                  else collect_children now id team snapshot change_set expected bound
              end
        end
    end.
End fan_in.
