(* ===== verification/Gates.v ===== *)
(** * Human-review gates

    Model of [src/runtime/workflow/runtime_gates.py], of the human-review branch of
    [_enter_control_tx] and of [_control_step] of [runtime_materialize.py], and of
    [_scatter_human_review_evidence_tx] of [runtime_scatter.py].  A gate opens only on a target
    frozen from durable evidence, takes one decision, and its decision resumes or fails the
    execution that waits on it. *)

From S2P Require Import Prelude PyText PyValue Txn WorkflowContracts Dispatch Strategies Routing Outbox ProcessRows ExecutionRows.
From S2P Require Import Engine Materialize Outcome Intake FanIn.

Open Scope Z_scope.
Open Scope mkb_scope.

Definition EVIDENCE_INVALID : exn := MkbError "gate-target-evidence-invalid" 409.

(** ** Evidence *)

Record evidence := {
  ev_accept_process : pyval;
  ev_preflight_outcome : pyval;
  ev_preflight_ref : option ustr;
  ev_intake_refs : pyval;
  ev_clean_artifact : pyval;
  ev_clean_digest : ustr;
  ev_objects : list stored_object
}.

(** The accept process with all its immutable columns. *)
Definition accepted_evidence (e : execution) (id : ustr) (source : option source_row) (d : db world)
    : option (ustr * process) :=
  match source with
  | None => None
  | Some s =>
      match d_processes d !! sr_uuid s with
      | None => None
      | Some p =>
          let o := p_outcome p in
          let complete :=
            nonempty (Some (ps_input_ref (p_spec p))) && nonempty (Some (ps_input_digest (p_spec p)))
            && nonempty (output_manifest_ref o) && nonempty (output_manifest_digest o) && nonempty (proof_ref o)
            && nonempty (proof_digest o) in
          if ueqb (ps_team (p_spec p)) (ei_team (e_id e)) && of_execution id p
             && ueqb (ps_task (p_spec p)) (ei_task (e_id e)) && bool_decide (p_status p = ProcessStatus.SUCCEEDED)
             && is_step "accept_snapshot" "intake.accept_snapshot" p && complete
          then Some (sr_uuid s, p) else None
      end
  end.

(** The one succeeded preflight whose output the accept process took as its input. *)
Definition preflight_evidence (e : execution) (id : ustr) (accepted : process) (d : db world) : option (ustr * process) :=
  match rows_where (fun _ p =>
          ueqb (ps_team (p_spec p)) (ei_team (e_id e)) && of_execution id p && ueqb (ps_task (p_spec p)) (ei_task (e_id e))
          && is_step "preflight_validate" "intake.preflight_validate" p && bool_decide (p_status p = ProcessStatus.SUCCEEDED)
          && is_some_of (output_manifest_ref (p_outcome p)) (ps_input_ref (p_spec accepted))
          && is_some_of (output_manifest_digest (p_outcome p)) (ps_input_digest (p_spec accepted))) (d_processes d) with
  | [(k, p)] => if nonempty (proof_ref (p_outcome p)) && nonempty (proof_digest (p_outcome p)) then Some (k, p) else None
  | _ => None
  end.

(** The unambiguous preflight profile. *)
Definition profile_evidence (w : world) (key : option ustr) : option preflight_profile :=
  match key with
  | Some ((_ :: _) as k) =>
      match List.filter (fun p => ueqb (pp_key p) k) (w_profiles w) with [p] => Some p | _ => None end
  | _ => None
  end.

(** [_gate_evidence_object_tx] *)
Definition evidence_object (w : world) (team : ustr) (object : option ustr) : option stored_object :=
  match object with
  | Some ((_ :: _) as o) =>
      List.find (fun s => ueqb (obj_team s) team && ueqb (obj_uuid s) o && live_object s) (w_objects w)
  | _ => None
  end.
Definition object_of_digest (w : world) (team : ustr) (digest : option ustr) : option stored_object :=
  List.find (fun s => ueqb (obj_team s) team && is_some_of digest (obj_digest s) && live_object s) (w_objects w).

Definition process_fields (r : ustr * process) : list (string * pyval) :=
  [("process_uuid", PStr r.1); ("fencing_generation", PInt (fence r.2));
   ("output_manifest_ref", opt_text (output_manifest_ref (p_outcome r.2)));
   ("output_manifest_digest", opt_text (output_manifest_digest (p_outcome r.2)));
   ("proof_ref", opt_text (proof_ref (p_outcome r.2))); ("proof_digest", opt_text (proof_digest (p_outcome r.2)))].
Definition preflight_value (r : ustr * process) (p : preflight_profile) : pyval :=
  obj (process_fields r ++
       [("profile_key", PStr (pp_key p)); ("profile_definition_version", PStr (pp_version p));
        ("profile_definition_digest", PStr (pp_digest p)); ("check_set_digest", PStr (pp_check_set p))]).

(** One row of the join behind a single-item review target. *)
Record intake_row := {
  ir_snapshot : snapshot;
  ir_candidate : candidate_set;
  ir_item : ustr;
  ir_revision : ustr;
  ir_artifact : artifact;
  ir_profile : option ustr
}.

Definition profile_of_source (w : world) (s : snapshot) : list (option ustr) :=
  join_rows (w_sources w) (fun c => ueqb (sc_team c) (sn_team s) && ueqb (sc_uuid c) (sn_source s)) (fun c =>
  join_rows (w_source_kinds w) (fun k => ueqb (sk_kind k) (sc_kind c) && ueqb (sk_version k) (sc_version c)) (fun k =>
  [sk_profile k])).

Definition intake_rows (w : world) (team execution ref digest : ustr) : list intake_row :=
  join_rows (w_snapshots w) (fun s => ueqb (sn_team s) team && is_some_of (sn_execution s) execution
                                      && is_some_of (sn_preflight_ref s) ref && is_some_of (sn_preflight_digest s) digest) (fun s =>
  join_rows (w_candidate_sets w) (fun c => ueqb (cs_team c) team && is_some_of (cs_accepted_snapshot c) (sn_uuid s)
                                      && is_some_of (sn_execution s) (cs_execution c)
                                      && sql_eq (cs_preflight_ref c) (sn_preflight_ref s)
                                      && sql_eq (cs_preflight_digest c) (sn_preflight_digest s)
                                      && stext (cs_staging_state c) "accepted") (fun c =>
  join_rows (w_memberships w) (fun m => ueqb (mb_team m) team && ueqb (mb_snapshot m) (sn_uuid s)
                                      && stext (mb_decision_kind m) "accepted") (fun m =>
  join_rows (map_to_list (w_items w)) (fun i => ueqb i.1.1 team && is_some_of (mb_item m) i.1.2) (fun i =>
  join_rows (w_revisions w) (fun r => ueqb (rv_team r) team && is_some_of (mb_revision m) (rv_uuid r)
                                      && ueqb (rv_item r) i.1.2 && ueqb (rv_snapshot r) (sn_uuid s)
                                      && is_some_of (it_latest_revision i.2) (rv_uuid r)) (fun r =>
  join_rows (w_artifacts w) (fun a => ueqb (ar_team a) team && is_some_of (ar_owner_revision a) (rv_uuid r)
                                      && stext (ar_role a) "clean_text") (fun a =>
  map (Build_intake_row s c i.1.2 (rv_uuid r) a) (profile_of_source w s))))))).

Definition from_option {A} (o : option A) : result A := match o with Some a => Ok a | None => Err EVIDENCE_INVALID end.

(** [_human_review_evidence_tx] *)
Definition human_review_evidence (id : ustr) (e : execution) (source : option source_row) (d : db world) : result evidence :=
  let w := d_world d in
  let team := ei_team (e_id e) in
  let* accepted := from_option (accepted_evidence e id source d) in
  let* preflight := from_option (preflight_evidence e id accepted.2 d) in
  let* row :=
    match intake_rows w team id (ps_input_ref (p_spec accepted.2)) (ps_input_digest (p_spec accepted.2)) with
    | [r] => Ok r | _ => Err EVIDENCE_INVALID end in
  let* profile := from_option (profile_evidence w (ir_profile row)) in
  let* clean_object := from_option (evidence_object w team (ar_object (ir_artifact row))) in
  let* preflight_object := from_option (object_of_digest w team (output_manifest_digest (p_outcome preflight.2))) in
  Ok {| ev_accept_process := obj (process_fields accepted);
        ev_preflight_outcome := preflight_value preflight profile;
        ev_preflight_ref := output_manifest_ref (p_outcome preflight.2);
        ev_intake_refs :=
          obj [("intake_source_uuid", PStr (sn_source (ir_snapshot row)));
               ("candidate_set_uuid", PStr (cs_uuid (ir_candidate row)));
               ("intake_snapshot_uuid", PStr (sn_uuid (ir_snapshot row)));
               ("intake_item_uuid", PStr (ir_item row)); ("intake_revision_uuid", PStr (ir_revision row))];
        ev_clean_artifact :=
          obj [("intake_artifact_uuid", PStr (ar_uuid (ir_artifact row)));
               ("content_digest", PStr (ar_digest (ir_artifact row)))];
        ev_clean_digest := ar_digest (ir_artifact row);
        ev_objects := [clean_object; preflight_object] |}.

(** The collection row: snapshot, candidate set if any, change set, profile key. *)
Definition collection_rows (w : world) (team execution snapshot change_set ref digest : ustr)
    : list (Intake.snapshot * option candidate_set * Intake.change_set * option ustr) :=
  join_rows (w_snapshots w) (fun s => ueqb (sn_team s) team && ueqb (sn_uuid s) snapshot && is_some_of (sn_execution s) execution
                                      && is_some_of (sn_preflight_ref s) ref && is_some_of (sn_preflight_digest s) digest) (fun s =>
  join_rows (w_change_sets w) (fun c => ueqb (ch_team c) team && ueqb (ch_snapshot c) (sn_uuid s) && ueqb (ch_uuid c) change_set) (fun c =>
  join_rows (profile_of_source w s) (fun _ => true) (fun p =>
  match List.filter (fun k => ueqb (cs_team k) team && is_some_of (cs_accepted_snapshot k) (sn_uuid s)
                              && stext (cs_staging_state k) "accepted") (w_candidate_sets w) with
  | [] => [(s, None, c, p)]
  | ks => map (fun k => (s, Some k, c, p)) ks
  end))).

(** The clean artifact of every required member, in member order. *)
Definition member_artifacts (w : world) (team snapshot : ustr) : list artifact :=
  join_rows (py_sorted (fun a b => mb_ordinal a <=? mb_ordinal b)
               (List.filter (fun m => ueqb (mb_team m) team && ueqb (mb_snapshot m) snapshot && (mb_required m =? 1)) (w_memberships w)))
    (fun _ => true) (fun m =>
  join_rows (w_revisions w) (fun r => ueqb (rv_team r) team && is_some_of (mb_revision m) (rv_uuid r)) (fun r =>
  List.filter (fun a => ueqb (ar_team a) team && is_some_of (ar_owner_revision a) (rv_uuid r) && stext (ar_role a) "clean_text")
    (w_artifacts w))).

Definition artifact_le (a b : artifact) : bool := str_le (ar_uuid a) (ar_uuid b).

(** [_scatter_human_review_evidence_tx] *)
Definition scatter_review_evidence (id : ustr) (e : execution) (source : option source_row) (d : db world) : result evidence :=
  let w := d_world d in
  let team := ei_team (e_id e) in
  let* accepted := from_option (accepted_evidence e id source d) in
  let* '(snapshot, change_set) := from_option (collection_of team (ei_task (e_id e)) id d) in
  let* '(s, candidate, c, key) :=
    from_option (head (collection_rows w team id snapshot change_set (ps_input_ref (p_spec accepted.2))
                         (ps_input_digest (p_spec accepted.2)))) in
  let* preflight := from_option (preflight_evidence e id accepted.2 d) in
  let* profile := from_option (profile_evidence w key) in
  let members := member_artifacts w team (sn_uuid s) in
  let required_count :=
    length (List.filter (fun m => ueqb (mb_team m) team && ueqb (mb_snapshot m) (sn_uuid s) && (mb_required m =? 1))
              (w_memberships w)) in
  check (length members =? required_count)%nat else EVIDENCE_INVALID ;;
  let* '(a, role) :=
    match members with
    | a :: _ => Ok (a, "clean_text"%string)
    | [] =>
        match head (py_sorted artifact_le
                (List.filter (fun a => ueqb (ar_team a) team && is_some_of (ar_owner_snapshot a) (sn_uuid s)
                                       && stext (ar_role a) "raw_acquisition") (w_artifacts w))) with
        | Some a => Ok (a, "raw_acquisition"%string)
        | None => Err EVIDENCE_INVALID
        end
    end in
  let* object := from_option (evidence_object w team (ar_object a)) in
  let* preflight_object := from_option (object_of_digest w team (output_manifest_digest (p_outcome preflight.2))) in
  Ok {| ev_accept_process := obj (process_fields accepted);
        ev_preflight_outcome := preflight_value preflight profile;
        ev_preflight_ref := output_manifest_ref (p_outcome preflight.2);
        ev_intake_refs :=
          obj [("intake_source_uuid", PStr (sn_source s)); ("candidate_set_uuid", opt_text (cs_uuid <$> candidate));
               ("intake_snapshot_uuid", PStr (sn_uuid s)); ("change_set_uuid", PStr (ch_uuid c));
               ("change_set_digest", PStr (ch_digest c)); ("required_member_count", PInt (Z.of_nat required_count))];
        ev_clean_artifact :=
          obj [("intake_artifact_uuid", PStr (ar_uuid a)); ("content_digest", PStr (obj_digest object));
               ("artifact_role", PStr (u role))];
        ev_clean_digest := obj_digest object;
        ev_objects := [object; preflight_object] |}.

(** ** Opening a gate *)

(** The frozen review target. *)
Definition review_target (id : ustr) (e : execution) (gate_id route_digest actual : ustr) (ev : evidence) : pyval :=
  obj [("schema_version", PStr (u "mkb.execution-gate-target.v1"));
       ("team_uuid", PStr (ei_team (e_id e))); ("task_uuid", PStr (ei_task (e_id e)));
       ("execution_uuid", PStr id); ("generation", PInt (ei_generation (e_id e)));
       ("waiting_ref", PStr gate_id); ("expected_execution_revision", PInt (e_row_revision e + 1));
       ("workflow_binding",
        obj [("workflow_revision_uuid", PStr (ei_workflow_revision (e_id e)));
             ("compiled_digest", PStr (ei_compiled_digest (e_id e)));
             ("config_snapshot_digest", PStr (ei_config_digest (e_id e)));
             ("actual_binding_state", PStr (u "sealed")); ("actual_binding_digest", PStr actual)]);
       ("route_decision_digest", PStr route_digest); ("accept_process", ev_accept_process ev);
       ("preflight_outcome", ev_preflight_outcome ev); ("intake_refs", ev_intake_refs ev);
       ("clean_artifact", ev_clean_artifact ev); ("allowed_actions", texts [u "approve"; u "reject"])].

Section gates.
Context {H : Host} {SV : Services world} (cfg : engine_config).

Definition insert_gate (k : ustr) (g : gate) : tx world unit :=
  let! w := gets d_world in
  require (negb (bool_decide (is_Some (w_gates w !! k)))) IntegrityError ;!
  modify (fun d => set_world (set_gates (<[k := g]> (w_gates (d_world d))) (d_world d)) d).
Definition insert_target (k : ustr) (t : gate_target) : tx world unit :=
  let! w := gets d_world in
  require (negb (bool_decide (is_Some (w_gate_targets w !! k)))) IntegrityError ;!
  modify (fun d => set_world (set_gate_targets (<[k := t]> (w_gate_targets (d_world d))) (d_world d)) d).

(** [_hold_gate_evidence_tx] *)
Definition hold_evidence (team gate_id : ustr) (o : stored_object) : tx world unit :=
  let! id := fresh_uuid in
  modify (fun d => set_world (add_reference
    (Build_object_reference id team (obj_uuid o) "gate_evidence" "execution_gate" gate_id (obj_digest o) (obj_size o)) (d_world d)) d).
Fixpoint hold_all (team gate_id : ustr) (l : list stored_object) : tx world unit :=
  match l with [] => ret tt | o :: l => hold_evidence team gate_id o ;! hold_all team gate_id l end.

(** The evidence the code looks for; an admission that asks for no review is no evidence. *)
Definition gate_evidence (id : ustr) (e : execution) (source : option source_row) (context : pydict) (d : db world)
    : result evidence :=
  if fact_is context "admission_result" "human_review_required" then
    if has_role e "scatter_root" then scatter_review_evidence id e source d else human_review_evidence id e source d
  else Err EVIDENCE_INVALID.

Definition open_gate_of (w : world) (id : ustr) (kind : string) : bool :=
  existsb (fun g => ueqb (g_execution g.2) id && stext (g_kind g.2) kind && bool_decide (g_status g.2 = gate_open))
    (map_to_list (w_gates w)).

(** The human-review branch of [_enter_control_tx]. *)
Definition enter_human_review (now : Z) (id : ustr) (step : WorkflowStepDefinition) (route_digest : ustr)
    (source : option source_row) (context : pydict) : tx world bool :=
  let kind := default ""%string (control_key step) in
  let! w := gets d_world in
  if open_gate_of w id kind then ret false
  else
    let! current := execution_row id in
    if stopping (e_status current) then ret false
    else
      let! d := gets Datatypes.id in
      match gate_evidence id current source context d with
      | Err e =>
          if bool_decide (e = EVIDENCE_INVALID) then
            fail_execution_integrity now id "gate-target-evidence-invalid" ;! ret false
          else raise e
      | Ok ev =>
          let! gate_id := fresh_uuid in
          match projected_actual_digest (e_seal current) with
          | None => fail_execution_integrity now id "ACTUAL_S05_UNSEALED" ;! ret false
          | Some actual =>
              let target := review_target id current gate_id route_digest actual ev in
              let! target_digest := lift (stable_digest target) in
              let! binding :=
                lift (stable_digest (obj [("route", PStr route_digest); ("execution", PStr id);
                                          ("actual_binding_digest", PStr actual)])) in
              insert_gate gate_id
                (Build_gate (ei_team (e_id current)) (ei_task (e_id current)) id (ei_generation (e_id current)) kind gate_open 0
                   now None (ei_workflow_revision (e_id current)) binding (Some actual)) ;!
              insert_target gate_id
                (Build_gate_target (ei_team (e_id current)) target_digest (Some target) (ev_clean_digest ev)
                   (ev_preflight_ref ev) (ev_intake_refs ev)) ;!
              hold_all (ei_team (e_id current)) gate_id (ev_objects ev) ;!
              let! updated :=
                update_execution id (ex_gate_wait (phase_value <$> phase_key step) gate_id (e_row_revision current) now) in
              require updated (ConflictError "execution-transition-conflict") ;!
              ret true
          end
      end.

End gates.
