(* ===== verification/GateDecisions.v ===== *)
(** * Decisions of human-review gates

    Model of [resolve_gate], [consume_gate_decision], [_gate_target_for_action_tx] and
    [_apply_human_review_item_lifecycle_tx] of [src/runtime/workflow/runtime_gates.py], of
    [_control_step] of [runtime_materialize.py], and of the public admission of a decision:
    [decide_gate], [_gate_and_target] and [_parse_gate_target] of [src/runtime/task/] with
    [assert_model_capacity_allowed].

    The public command only closes the gate and records the decision; the consumer of its
    outbox delivery alone moves the execution. *)

From S2P Require Import Prelude PyText PyValue Txn PublicData WorkflowContracts Dispatch Strategies Routing Outbox ProcessRows ExecutionRows.
From S2P Require Import Engine Materialize Outcome Intake RouteContext.

Open Scope Z_scope.
Open Scope mkb_scope.

(** ** The frozen target *)

(** [action in {"approve", "reject", "reclean"}], as the action it is. *)
Definition action_of (v : pyval) : option gate_action :=
  List.find (fun a => py_eqb v (PStr (u (action_value a)))) [approve; reject; reclean].

(** The actions of a stored list, read in order: one that cannot be hashed raises when it is
    reached, an unknown one ends the search. *)
Fixpoint read_actions (l : list pyval) : result (option (list gate_action)) :=
  match l with
  | [] => Ok (Some [])
  | v :: l =>
      check hashable v else TypeError ;;
      match action_of v with
      | None => Ok None
      | Some a => let* r := read_actions l in Ok (cons a <$> r)
      end
  end.

(** The checks on [allowed_actions] that both readers of a target make; [None] when they fail. *)
Definition allowed_actions (review : pyval) : result (option (list gate_action)) :=
  match review with
  | PDict r =>
      match dget r (u "allowed_actions") with
      | Some (PList ((_ :: _) as l)) =>
          let* actions := read_actions l in
          Ok (match actions with Some a => if bool_decide (NoDup a) then Some a else None | None => None end)
      | _ => Ok None
      end
  | _ => Ok None
  end.

(** [_gate_target_for_action_tx]: the digest of the target when it allows the action. *)
Definition target_for_action (w : world) (gate_id : ustr) (action : gate_action) : result ustr :=
  match w_gate_targets w !! gate_id with
  | None => Err (MkbError "gate-target-missing" 409)
  | Some t =>
      match gt_review_target t with
      | None => Err (MkbError "gate-target-invalid" 409)
      | Some review =>
          let* actions := allowed_actions review in
          match actions with
          | None => Err (MkbError "gate-target-invalid" 409)
          | Some actions => check bool_decide (action ∈ actions) else ConflictError "gate-action-not-allowed" ;; Ok (gt_digest t)
          end
      end
  end.

(** The control step of a gate: exactly one of that kind. *)
Definition control_step (plan : WorkflowDefinition) (kind : string) : result WorkflowStepDefinition :=
  match List.filter (fun s => bool_decide (step_kind s = CONTROL) && bool_decide (control_key s = Some kind)) (steps plan) with
  | [s] => Ok s
  | _ => Err (MkbError "gate-control-mismatch" 409)
  end.

(** ** Items under review *)

Definition activate_item (now : Z) (i : item) : item :=
  if stext (it_lifecycle i) "deactivated" then
    Build_item "active" (it_latest_revision i) (it_serving_revision i) None (it_row_revision i + 1) now
  else i.
Definition deactivate_item (now : Z) (i : item) : item :=
  if stext (it_lifecycle i) "active" then
    Build_item "deactivated" (it_latest_revision i) None (Some now) (it_row_revision i + 1) now
  else i.

Definition in_snapshot (w : world) (team snapshot item : ustr) : bool :=
  existsb (fun m => ueqb (mb_team m) team && ueqb (mb_snapshot m) snapshot && is_some_of (mb_item m) item) (w_memberships w).

(** [_apply_human_review_item_lifecycle_tx] *)
Definition apply_item_lifecycle (now : Z) (id : ustr) (e : execution) (active : bool) (w : world) : world :=
  let team := ei_team (e_id e) in
  match et_snapshot (target_of w id) with
  | Some ((_ :: _) as snapshot) =>
      set_items
        (map_imap (fun k i => Some (if ueqb k.1 team && in_snapshot w team snapshot k.2
                                    then (if active then activate_item now i else deactivate_item now i) else i)) (w_items w)) w
  | _ => w
  end.

(** ** Closing a gate *)

Definition decided_status (a : gate_action) : gate_status := match a with reject => gate_rejected | _ => gate_released end.

(** [UPDATE mkb_execution_gates SET ... WHERE ... status='open' AND gate_revision=?] *)
Definition close_gate (now : Z) (a : gate_action) (revision : Z) (g : gate) : option gate :=
  if bool_decide (g_status g = gate_open) && (g_revision g =? revision) then
    Some (Build_gate (g_team g) (g_task g) (g_execution g) (g_generation g) (g_kind g) (decided_status a) (g_revision g + 1)
            (g_opened_at g) (Some now) (g_workflow_revision g) (g_binding_digest g) (g_actual_digest g))
  else None.

Definition decision_of_key (w : world) (gate_id key : ustr) : option (ustr * gate_decision) :=
  List.find (fun d => ueqb (gd_gate d.2) gate_id && ueqb (gd_idempotency_key d.2) key) (map_to_list (w_gate_decisions w)).

Section decisions.
Context {H : Host} {SV : Services world} (cfg : engine_config).

Definition update_world (f : world -> world) : tx world unit := modify (fun d => set_world (f (d_world d)) d).

(** [INSERT INTO mkb_execution_gate_decisions] under a new identifier. *)
Definition insert_decision (g : gate_decision) : tx world ustr :=
  let! id := fresh_uuid in
  let! w := gets d_world in
  require (negb (bool_decide (is_Some (w_gate_decisions w !! id)))
           && bool_decide (decision_of_key w (gd_gate g) (gd_idempotency_key g) = None)) IntegrityError ;!
  update_world (fun w => set_gate_decisions (<[id := g]> (w_gate_decisions w)) w) ;!
  ret id.

Definition update_gate (gate_id : ustr) (f : gate -> option gate) : tx world bool := fun d =>
  match w_gates (d_world d) !! gate_id ≫= f with
  | Some g => Ok (true, set_world (set_gates (<[gate_id := g]> (w_gates (d_world d))) (d_world d)) d)
  | None => Ok (false, d)
  end.

(** ** The public command *)

(** [assert_model_capacity_allowed] *)
Definition MODEL_BEARING_INTENTS : list ustr := [u "intake.ingest"; u "intake.rebuild"].
Definition capacity_allowed (t : task) : bool :=
  negb (ec_priority_gate_enabled cfg && bool_decide (t_request_intent t ∈ MODEL_BEARING_INTENTS)
        && bool_decide (t_priority t ∈ [low; normal])).

(** [_parse_gate_target]: the allowed actions and the expected execution revision. *)
Definition parse_gate_target (g : gate) (gate_id : ustr) (t : gate_target) : result (list gate_action * Z) :=
  let invalid := MkbError "gate-target-invalid" 409 in
  match gt_review_target t with
  | Some ((PDict r) as review) =>
      let is_text k v := match dget r (u k) with Some x => py_eqb x (PStr v) | None => false end in
      match allowed_actions review, dget r (u "expected_execution_revision") with
      | Ok (Some actions), Some (PInt revision) =>
          check is_text "team_uuid" (g_team g) && is_text "task_uuid" (g_task g)
                && match dget r (u "generation") with Some x => py_eqb x (PInt (g_generation g)) | None => false end
                && is_text "waiting_ref" gate_id && safe_public_data review else invalid ;;
          Ok (actions, revision)
      | _, _ => Err invalid
      end
  | _ => Err invalid
  end.

(** [_gate_and_target] *)
Definition gate_and_target (team task gate_id : ustr) (w : world) : result (gate * gate_target * (list gate_action * Z)) :=
  match w_gates w !! gate_id with
  | Some g =>
      check ueqb (g_team g) team && ueqb (g_task g) task else MkbError "gate-not-found" 404 ;;
      match w_gate_targets w !! gate_id with
      | Some t =>
          check ueqb (gt_team t) team else MkbError "gate-target-invalid" 409 ;;
          let* data := parse_gate_target g gate_id t in
          Ok (g, t, data)
      | None => Err (MkbError "gate-target-invalid" 409)
      end
  | None => Err (MkbError "gate-not-found" 404)
  end.

(** [GateDecisionRequest]; [gr_extra] is the decision evidence that goes into the digest. *)
Record gate_request := {
  gr_expected_revision : Z;
  gr_target_digest : ustr;
  gr_action : gate_action;
  gr_idempotency_key : ustr;
  gr_reason : option ustr;
  gr_payload_extra : pydict
}.

Definition decision_extra (r : gate_request) : pyval :=
  obj ([("actor_evidence", PStr (u "internal_token"))]
       ++ match gr_reason r with Some x => [("reason", PStr x)] | None => [] end
       ++ match gr_payload_extra r with [] => [] | x => [("evidence", PDict x)] end).
Definition command_value (r : gate_request) (actor : ustr) : pyval :=
  obj [("expected_gate_revision", PInt (gr_expected_revision r)); ("target_digest", PStr (gr_target_digest r));
       ("action", PStr (u (action_value (gr_action r)))); ("idempotency_key", PStr (gr_idempotency_key r));
       ("actor_fingerprint", PStr actor); ("payload_extra", decision_extra r)].

Definition task_deleted (w : world) (team task : ustr) : bool := bool_decide ((team, task) ∈ w_deleted_tasks w).

(** [decide_gate]: whether it replayed an earlier decision, and the decision. *)
Definition decide_gate (now : Z) (team task_id gate_id : ustr) (r : gate_request) (actor : ustr) : tx world (bool * ustr) :=
  let! digest := lift (stable_digest (command_value r actor)) in
  let! d := gets Datatypes.id in
  match d_tasks d !! (team, task_id) with
  | None => raise (MkbError "task-not-found" 404)
  | Some t =>
      let w := d_world d in
      require (negb (task_deleted w team task_id)) (MkbError "task-deleted" 410) ;!
      let! found := lift (gate_and_target team task_id gate_id w) in
      let '(g, target, (actions, revision)) := found in
      match decision_of_key w gate_id (gr_idempotency_key r) with
      | Some (k, existing) =>
          require (ueqb (gd_digest existing) digest) (ConflictError "gate-idempotency-conflict") ;!
          ret (true, k)
      | None =>
          require (bool_decide (gr_action r = reject) || capacity_allowed t) (MkbError "MODEL_AT_CAPACITY" 429) ;!
          require (bool_decide (g_status g = gate_open)) (ConflictError "gate-terminal") ;!
          require (g_revision g =? gr_expected_revision r) (ConflictError "gate-revision-conflict") ;!
          require (ueqb (gt_digest target) (gr_target_digest r)) (ConflictError "gate-target-conflict") ;!
          require (bool_decide (gr_action r ∈ actions)) (ConflictError "gate-action-not-allowed") ;!
          require (match d_executions d !! g_execution g with
                   | Some e => ueqb (ei_team (e_id e)) team && ueqb (ei_task (e_id e)) task_id
                               && (ei_generation (e_id e) =? g_generation g) && ex_in e [ExecutionStatus.WAITING]
                               && bool_decide (waiting_ref (e_wait e) = Some gate_id) && (e_row_revision e =? revision)
                   | None => false
                   end) (ConflictError "gate-execution-stale") ;!
          let! k := insert_decision
            (Build_gate_decision gate_id team (gr_expected_revision r) (gr_action r) actor (gr_idempotency_key r)
               (gr_target_digest r) digest) in
          let! updated := update_gate gate_id (close_gate now (gr_action r) (gr_expected_revision r)) in
          require updated (ConflictError "gate-revision-conflict") ;!
          enqueue now team "gate_decision"
            (fields [("gate_uuid", PStr gate_id); ("task_uuid", PStr task_id); ("generation", PInt (g_generation g));
                     ("action", PStr (u (action_value (gr_action r)))); ("decision_uuid", PStr k)])
            (u "gate-decision:" ++ k) ;!
          ret (false, k)
      end
  end.

(** ** The consumer *)

Definition GATE_PROJECTION_MISSING : exn := MkbError "gate-execution-projection-missing" 409.

(** The selector of a decision and the error that a rejection ends with. *)
Definition decision_route (a : gate_action) (rejected : string) : option (WorkflowOutcomeSelector * option ustr) :=
  match a with
  | approve => Some (SUCCEEDED, None)
  | reject => Some (FAILED, Some (u rejected))
  | reclean => None
  end.

(** The shared tail of the two consumers: items, route decision, routes, counters. *)
Definition advance_decision (now : Z) (plan : WorkflowDefinition) (id : ustr) (e : execution) (control : WorkflowStepDefinition)
    (selector : WorkflowOutcomeSelector) (context : pydict) (terminal_error : option ustr) : tx world bool :=
  let! decided := lift (route_decision plan (execution_ref_of id e) (step_key control) selector context) in
  let! changed := apply_routes cfg (route_fuel plan) now plan id e decided None context terminal_error in
  refresh_execution_counts now id ;!
  ret changed.

(** The resumption of a waiting execution; it returns the row to route with. *)
Definition resume_waiting (now : Z) (id gate_id : ustr) (e : execution) : tx world execution :=
  if ex_in e [ExecutionStatus.WAITING] then
    let! resumed := update_execution id (ex_gate_resume gate_id now) in
    require resumed GATE_PROJECTION_MISSING ;!
    execution_row id
  else ret e.

(** [consume_gate_decision] *)
Definition consume_gate_decision (now : Z) (decision_id : ustr) : tx world bool :=
  let! w := gets d_world in
  match w_gate_decisions w !! decision_id ≫= (fun dec => (fun g => (dec, g)) <$> w_gates w !! gd_gate dec) with
  | None => raise (MkbError "gate-decision-not-found" 404)
  | Some (dec, g) =>
      let! digest := lift (target_for_action w (gd_gate dec) (gd_action dec)) in
      require (ueqb (gd_target_digest dec) digest) (ConflictError "gate-target-digest-conflict") ;!
      require (bool_decide (g_status g = decided_status (gd_action dec))) (ConflictError "gate-decision-state-conflict") ;!
      let id := g_execution g in
      let! e := execution_row id in
      if ex_in e [ExecutionStatus.CANCELLING; ExecutionStatus.CANCELLED] then ret true
      else if terminal_execution (e_status e) then ret false
      else
        let! e := resume_waiting now id (gd_gate dec) e in
        let! plan := assert_execution_binding cfg e in
        let! control := lift (control_step plan (g_kind g)) in
        match decision_route (gd_action dec) "gate-rejected" with
        | None => raise (MkbError "gate-action-route-unavailable" 409)
        | Some (selector, terminal_error) =>
            require (ex_in e [ExecutionStatus.RUNNING; ExecutionStatus.READY]
                     || bool_decide (gd_action dec = reject) && ex_in e [ExecutionStatus.WAITING]) GATE_PROJECTION_MISSING ;!
            let! facts := (fun d => let* c := typed_route_context id e d in Ok (c, d)) in
            update_world (apply_item_lifecycle now id e (bool_decide (gd_action dec = approve))) ;!
            advance_decision now plan id e control selector
              (dset facts (u "gate_action") (PStr (u (action_value (gd_action dec))))) terminal_error
        end
  end.

(** ** The engine's own decision *)

Definition own_decision_value (gate_id : ustr) (revision : Z) (a : gate_action) (key : ustr) : pyval :=
  obj [("gate_uuid", PStr gate_id); ("gate_revision", PInt revision); ("action", PStr (u (action_value a)));
       ("idempotency_key", PStr key)].

(** [resolve_gate] *)
Definition resolve_gate (now : Z) (gate_id : ustr) (expected : Z) (action key actor : ustr) : tx world bool :=
  match action_of (PStr action) with
  | None => raise (MkbError "gate-action-invalid" 422)
  | Some a =>
      require (nonempty (Some key) && nonempty (Some actor)) (MkbError "gate-decision-invalid" 422) ;!
      let! w := gets d_world in
      match w_gates w !! gate_id with
      | None => raise (MkbError "gate-not-found" 404)
      | Some g =>
          if bool_decide (is_Some (decision_of_key w gate_id key)) then ret false
          else
            require (bool_decide (g_status g = gate_open) && (g_revision g =? expected)) (ConflictError "gate-revision-conflict") ;!
            let! target := lift (target_for_action w gate_id a) in
            let id := g_execution g in
            let! e := execution_row id in
            let! plan := assert_execution_binding cfg e in
            require (ex_in e [ExecutionStatus.WAITING] && bool_decide (waiting_ref (e_wait e) = Some gate_id))
              (ConflictError "gate-execution-conflict") ;!
            let! digest := lift (stable_digest (own_decision_value gate_id expected a key)) in
            insert_decision (Build_gate_decision gate_id (g_team g) expected a actor key target digest) ;!
            let! updated := update_gate gate_id (close_gate now a expected) in
            require updated (ConflictError "gate-revision-conflict") ;!
            let! control := lift (control_step plan (g_kind g)) in
            match decision_route a "gate-reject" with
            | None => raise (MkbError "gate-action-route-unavailable" 409)
            | Some (selector, terminal_error) =>
                update_world (apply_item_lifecycle now id e (bool_decide (a = approve))) ;!
                let! e' :=
                  (if bool_decide (a = approve) then update_execution id (ex_gate_resume gate_id now) ;! execution_row id
                   else ret e) in
                advance_decision now plan id e' control selector (fields [("gate_action", PStr action)]) terminal_error ;!
                ret true
            end
      end
  end.
End decisions.
