(* ===== verification/IntakeServices.v ===== *)
(** * The engine with its owners

    The instance of [Services] given by the program's own code: [Intake.v], [RouteContext.v],
    [FanIn.v] and [GateDecisions.v].  Fan-in terminates executions, and a terminated child
    asks its root to converge in turn, so the instance is a tower: level [S n] may re-enter
    level [n].  Each re-entry follows the termination of an execution, so the number of
    unfinished executions is enough levels ([Tower.v]).

    What remains a parameter ([Externals]): the identifiers of [uuid7], the stored form of
    times, and the two capabilities that the intake service injects (the outcome committer and
    the pending-evidence writer). *)

From S2P Require Import Prelude PyText PyValue Txn WorkflowContracts Dispatch Strategies Routing Outbox ProcessRows ExecutionRows.
From S2P Require Import Engine Materialize Outcome Scheduler EngineLaws Intake RouteContext FanIn Gates GateDecisions.

Open Scope Z_scope.
Open Scope mkb_scope.

Class Externals := {
  x_uuid7 : nat -> ustr;
  x_timestamp : Z -> ustr;
  x_commit_outcome : option (ProcessCommand -> ProcessOutcome -> db world -> result (db world));
  x_write_pending_evidence : ustr -> process -> world -> result world
}.

(** The committer writes intake and generation tables; of the engine's tables it may create
    the executions of scatter children. *)
Class ExternalsLaws (X : Externals) : Prop := {
  x_commit_legal : forall commit command o (d d' : db world),
    x_commit_outcome = Some commit -> commit command o d = Ok d' -> legal quiet d d'
}.

Section services.
Context {H : Host} {X : Externals}.

Definition step_uuid_of (w : world) (revision : ustr) (key : string) : option ustr :=
  (fun r => r.2.2) <$> List.find (fun r => ueqb r.1 revision && stext r.2.1 key) (w_workflow_steps w).
Definition step_keys_of (w : world) (revision : ustr) : list string :=
  map (fun r => r.2.1) (List.filter (fun r => ueqb r.1 revision) (w_workflow_steps w)).

(** [_enter_control_tx] of the two waits. *)
Definition enter_wait_of (SV : Services world) (now : Z) (id : ustr) (step : WorkflowStepDefinition)
    (route_digest : ustr) (source : option source_row) (context : pydict) : tx world bool :=
  if bool_decide (control_key step = Some "scatter_children_join"%string) then enter_children_join now id route_digest source
  else enter_human_review now id step route_digest source context.

(** The services whose two re-entrant operations are given. *)
Definition services_over (converge : Z -> ustr -> tx world bool)
    (wait : Z -> ustr -> WorkflowStepDefinition -> ustr -> option source_row -> pydict -> tx world bool) : Services world := {|
  uuid7 := x_uuid7;
  timestamp := x_timestamp;
  workflow_revision w id := dget (w_workflows w) id;
  workflow_step_uuid := step_uuid_of;
  workflow_step_keys := step_keys_of;
  representation_fact w id := rf_digest <$> latest_fact w id;
  typed_route_context := typed_route_context_tx;
  supersede_and_abandon := supersede_and_abandon_tx;
  refresh_scatter_counts := refresh_scatter;
  maybe_converge_scatter_root := converge;
  enter_wait_control now _ := wait now;
  task_audit w team task := latest_audit w team task ≫= au_payload;
  decode_history w := map (fun h => Build_history_row (dh_execution h) (dh_ordinal h) (Some (dh_path_digest h))) (w_history w);
  commit_outcome := x_commit_outcome;
  write_pending_evidence := x_write_pending_evidence
|}.

(** Level [S n] re-enters level [n]; level [0] has no call left. *)
Fixpoint tower_operations (n : nat) : (Z -> ustr -> tx world bool)
    * (Z -> ustr -> WorkflowStepDefinition -> ustr -> option source_row -> pydict -> tx world bool) :=
  match n with
  | O => (fun _ _ => raise RecursionError, fun _ _ _ _ _ _ => raise RecursionError)
  | S n =>
      let SV := services_over (tower_operations n).1 (tower_operations n).2 in
      (converge_scatter_root (SV := SV), enter_wait_of SV)
  end.
Definition tower (n : nat) : Services world := services_over (tower_operations n).1 (tower_operations n).2.
End services.

(** ** The owners keep the engine's contract *)

Section laws.
Context {H : Host} {X : Externals} {XL : ExternalsLaws X}.

Section level.
Context {SV : Services world} {SL : ServicesLaws world SV}.
Local Abbreviation okay m := (keeps (S := db world) (legal quiet) m).
#[local] Hint Resolve keeps_fresh_uuid keeps_enqueue keeps_refresh keeps_fail_integrity keeps_terminalize keeps_loop
  keeps_modify_world : legal.

Lemma keeps_release_child now team change_set c : okay (release_child now team change_set c).
Proof.
  unfold release_child. keeps_tac. by apply (keeps_exec_update c.1 _ (XPrerequisiteReleased change_set now)).
Qed.
#[local] Hint Resolve keeps_release_child : legal.

Lemma keeps_join_entry now id digest source : okay (enter_children_join now id digest source).
Proof.
  unfold enter_children_join, release_scatter_children. keeps_tac. match goal with |- keeps _ (update_execution _ (ex_join_wait ?c _)) => by apply (keeps_exec_update id _ (XJoinWait c now)) end.
Qed.

Lemma keeps_collect now id team snapshot change_set expected bound :
  okay (collect_children now id team snapshot change_set expected bound).
Proof. unfold collect_children. keeps_tac. Qed.
#[local] Hint Resolve keeps_collect : legal.

Lemma keeps_converge_root now id : okay (converge_scatter_root now id).
Proof. unfold converge_scatter_root. keeps_tac. Qed.

Lemma keeps_hold team gate l : okay (hold_all team gate l).
Proof. induction l as [|o l IH]; simpl; unfold hold_evidence; keeps_tac. Qed.
#[local] Hint Resolve keeps_hold : legal.

Lemma keeps_human_review now id step digest source ctx : okay (enter_human_review now id step digest source ctx).
Proof.
  unfold enter_human_review, insert_gate, insert_target. keeps_tac; try apply keeps_modify_world.
  match goal with |- keeps _ (update_execution _ (ex_gate_wait ?p ?g ?r _)) =>
    by apply (keeps_exec_update id _ (XGateWait p g r now)) end.
Qed.
#[local] Hint Resolve keeps_join_entry keeps_human_review : legal.

Lemma keeps_enter_wait_of now id step digest source ctx : okay (enter_wait_of SV now id step digest source ctx).
Proof. unfold enter_wait_of. keeps_tac. Qed.
End level.

Lemma refresh_scatter_keeps now team task id d d' : refresh_scatter now team task id d = Ok (Some d') -> legal quiet d d'.
Proof.
  unfold refresh_scatter. destruct (collection_of team task id d) as [[snapshot change_set]|]; [|done].
  destruct (expected_members _ _ _ _) as [expected|]; [|done]. intros Hd. apply rbind_Ok in Hd as ([[] d1] & Hr & [= <-]).
  revert Hr. match goal with |- ?m d = _ -> _ => assert (keeps (legal quiet) m) as Hk end; [|apply Hk].
  unfold refresh_scatter_task_counts. keeps_tac. apply keeps_update_task. intros t t' Ht. by eapply ERefresh.
Qed.

#[export] Instance tower_laws n : ServicesLaws world (tower n).
Proof.
  induction n as [|n IH]; split; try exact refresh_scatter_keeps; try exact x_commit_legal; cbn.
  - by intros.
  - by intros.
  - intros now id. by apply keeps_converge_root.
  - intros now plan id step digest source ctx. by apply keeps_enter_wait_of.
Qed.
End laws.
