(* ===== verification/IntakeSamples.v ===== *)
(** * A small database of the intake services

    Two tasks over the shipped workflows, evaluated by the witnesses: an ingest whose accepted
    snapshot asks for human review, and a scatter collection of two items whose children have
    published. *)

From S2P Require Import Prelude PyText PyValue Txn WorkflowContracts Dispatch Strategies Routing LsragDefinition KindWorkflows.
From S2P Require Import Outbox ProcessRows ExecutionRows Engine Materialize Outcome Scheduler EngineLaws EngineSamples.
From S2P Require Import Intake RouteContext FanIn Gates GateDecisions IntakeServices.

Open Scope Z_scope.
Open Scope mkb_scope.

Module IntakeSamples.
Open Scope list_scope.
#[export] Existing Instance test_host.

#[export] Instance externals : Externals := {|
  x_uuid7 n := u "id-" ++ dec (Z.of_nat n);
  x_timestamp z := dec z;
  x_commit_outcome := None;
  x_write_pending_evidence _ _ w := Ok w
|}.
#[export] Instance externals_laws : ExternalsLaws externals.
Proof. split. by intros. Qed.

Definition TEAM : ustr := u "team".
Definition TASK : ustr := u "task".
Definition ingest_plan : WorkflowDefinition := BUILTIN_SINGLE_INTAKE_LSRAG_WORKFLOW.
Definition scatter_plan : WorkflowDefinition := Scatter.BUILTIN_REGISTERED_API_SCATTER_ROOT_WORKFLOW.

Definition config : engine_config :=
  Build_engine_config [workflow_key ingest_plan; workflow_key scatter_plan]
    [(u "ingest-digest", ingest_plan); (u "scatter-digest", scatter_plan)]
    (Build_DispatchCaps 1 1 1 1 1 1 16000) true true true 3 3 5 None false.

Definition row_of (revision digest : ustr) (role : string) (parent : option ustr) (s : ExecutionStatus.t) (w : execution_wait)
    (f : execution_final) : execution :=
  Build_execution
    (Build_execution_identity TEAM TASK (u "trace") 1 (u "root") parent role "required" revision digest (u "binding") (u "config")
       (u "config-digest") (Some (u "upload")) (Some (u "upload-digest")) PNone)
    s 5 None w None (Build_process_counts 0 0 0 0 0)
    (Build_seal_row (Some (test_digest [])) sealed 1 None None None None) None None f None 0.
Definition task_row : task :=
  Build_task normal (u "intake.ingest") None (u "trace") TaskStatus.RUNNING 0 1 (Some (u "root")) no_counts None None None
    None None None None 0.

(** A succeeded process with the outputs and proofs named after it. *)
Definition done_process (execution : ustr) (step key : string) (name input : ustr) : process :=
  Build_process
    (Build_process_spec TEAM execution TASK (u "step") step key None name (u "route") (u "spec") input (input ++ u "-digest")
       (u "config") (u "config-digest") 200 None 3 3 None 0)
    ProcessStatus.SUCCEEDED 3 0 None (Build_process_counters 1 1 0 0) no_lease not_dispatched
    (Build_outcome_columns (Some (u "outcome")) (Some (name ++ u "-out")) (Some (name ++ u "-out-digest"))
       (Some (name ++ u "-proof")) (Some (name ++ u "-proof-digest")) None None)
    (Some 1) (Some 2) None 2.

Definition workflow_rows (revision digest : ustr) (plan : WorkflowDefinition)
    : list (ustr * (ustr * string)) * list (ustr * (string * ustr)) :=
  ([(revision, (digest, workflow_key plan))], map (fun s => (revision, (step_key s, u "step-" ++ u (step_key s)))) (steps plan)).

(** ** An ingest under review *)

Definition preflight : process := done_process (u "root") "preflight_validate" "intake.preflight_validate" (u "pre") (u "candidate").
Definition accept_ : process := done_process (u "root") "accept_snapshot" "intake.accept_snapshot" (u "acc") (u "pre-out").
Definition review_world : world :=
  let rows := workflow_rows (u "ingest-rev") (u "ingest-digest") ingest_plan in
  {| w_workflows := rows.1; w_workflow_steps := rows.2;
     w_targets := {[ u "root" := Build_execution_target "" None (Some (u "snap")) None None None 0 ]};
     w_task_intake := ∅; w_deleted_tasks := []; w_audits := []; w_facts := []; w_history := [];
     w_candidate_sets := [Build_candidate_set (u "cand") TEAM (u "root") (Some (u "human_review_required")) "accepted"
                            (Some (u "snap")) (Some (u "pre-out")) (Some (u "pre-out-digest")) 1 1];
     w_snapshots := [Build_snapshot TEAM (u "snap") (u "source") (Some (u "root")) (Some (u "pre-out")) (Some (u "pre-out-digest"))];
     w_memberships := [Build_membership TEAM (u "snap") 0 (Some (u "item")) (Some (u "rev")) "accepted" 1];
     w_change_sets := []; w_change_facts := [];
     w_items := {[ (TEAM, u "item") := Build_item "deactivated" (Some (u "rev")) None (Some 1) 1 1 ]};
     w_revisions := [Build_revision TEAM (u "rev") (u "item") (u "snap")];
     w_artifacts := [Build_artifact TEAM (u "art") None (Some (u "rev")) "clean_text" (u "clean-digest") (Some (u "obj"))];
     w_sources := [Build_source TEAM (u "source") (u "inline_payload") (u "1")];
     w_source_kinds := [Build_source_kind_definition (u "inline_payload") (u "1") (Some (u "profile"))];
     w_profiles := [Build_preflight_profile (u "profile") (u "1") (u "checks") (u "profile-digest")];
     w_objects := [Build_stored_object (u "obj") TEAM (u "clean-digest") 10 None;
                   Build_stored_object (u "pre-obj") TEAM (u "pre-out-digest") 20 None];
     w_references := []; w_proofs := []; w_transitions := []; w_gates := ∅; w_gate_targets := ∅; w_gate_decisions := ∅ |}.
Definition ingest_row : execution :=
  row_of (u "ingest-rev") (u "ingest-digest") "root" None ExecutionStatus.RUNNING no_wait no_final.
Definition review_db : db world :=
  Build_db world (<[u "acc" := accept_]> {[ u "pre" := preflight ]}) {[ u "root" := ingest_row ]} {[ (TEAM, TASK) := task_row ]} ∅ ∅ 0
    review_world.
Definition review_step : option WorkflowStepDefinition := plan_step ingest_plan "human_review".
Definition review_context : pydict := fields [("admission_result", PStr (u "human_review_required"))].
Definition review_source : option source_row := Some (full_source (u "acc") accept_).

(** ** A collection of two items *)

Definition child_row_of (item : string) (s : ExecutionStatus.t) : execution :=
  row_of (u "child-rev") (u "child-digest") "scatter_child" (Some (u "root")) s no_wait
    (Build_execution_final None (Some (u item ++ u "-pub-proof")) None (Some (u "summary")) (Some 2) (Some 2)).
Definition child_target_of (item : string) (ordinal : Z) : execution_target :=
  Build_execution_target "intake_item" (Some (u item)) (Some (u "snap")) (Some (u "changes")) (Some ordinal) (Some (u item ++ u "-rev")) 1.
Definition publication (item child : string) : process :=
  done_process (u child) "validate_publication" "index.validate_publication" (u item ++ u "-pub") (u "vectors").
Definition scatter_world : world :=
  let rows := workflow_rows (u "scatter-rev") (u "scatter-digest") scatter_plan in
  {| w_workflows := rows.1; w_workflow_steps := rows.2;
     w_targets := <[u "root" := Build_execution_target "" None (Some (u "snap")) (Some (u "changes")) None None 1]>
                    (<[u "child-1" := child_target_of "b" 0]> {[ u "child-2" := child_target_of "a" 1 ]});
     w_task_intake := {[ (TEAM, TASK) := (Some (u "snap"), Some (u "changes")) ]};
     w_deleted_tasks := []; w_audits := []; w_facts := []; w_history := []; w_candidate_sets := []; w_snapshots := [];
     w_memberships := [Build_membership TEAM (u "snap") 1 (Some (u "a")) (Some (u "a-rev")) "accepted" 1;
                       Build_membership TEAM (u "snap") 0 (Some (u "b")) (Some (u "b-rev")) "accepted" 1];
     w_change_sets := [Build_change_set (u "changes") TEAM (u "snap") (u "changes-digest")];
     w_change_facts := [Build_change_fact (u "changes") TEAM "accept_revision" 0 (Some (u "b")) (Some (u "b-rev"));
                        Build_change_fact (u "changes") TEAM "accept_revision" 1 (Some (u "a")) (Some (u "a-rev"))];
     w_items := ∅; w_revisions := []; w_artifacts := []; w_sources := []; w_source_kinds := []; w_profiles := []; w_objects := [];
     w_references := [];
     w_proofs := [Build_publication_proof (u "p1") TEAM (u "b") (u "b-rev") (Some (u "child-1")) (Some (u "b-pub"));
                  Build_publication_proof (u "p2") TEAM (u "a") (u "a-rev") (Some (u "child-2")) (Some (u "a-pub"))];
     w_transitions := []; w_gates := ∅; w_gate_targets := ∅; w_gate_decisions := ∅ |}.
Definition scatter_row : execution :=
  row_of (u "scatter-rev") (u "scatter-digest") "scatter_root" None ExecutionStatus.WAITING
    (Build_execution_wait (Some "scatter_children"%string) (Some (u "changes")) None) no_final.
(** The second child in a given status. *)
Definition scatter_db (second : ExecutionStatus.t) : db world :=
  Build_db world (<[u "b-pub" := publication "b" "child-1"]> {[ u "a-pub" := publication "a" "child-2" ]})
    (<[u "root" := scatter_row]> (<[u "child-1" := child_row_of "b" ExecutionStatus.SUCCEEDED]> {[ u "child-2" := child_row_of "a" second ]}))
    {[ (TEAM, TASK) := task_row ]} ∅ ∅ 0 scatter_world.

(** The same collection, of which no member was accepted. *)
Definition empty_world : world :=
  let rows := workflow_rows (u "scatter-rev") (u "scatter-digest") scatter_plan in
  {| w_workflows := rows.1; w_workflow_steps := rows.2; w_targets := w_targets scatter_world; w_task_intake := w_task_intake scatter_world;
     w_deleted_tasks := []; w_audits := []; w_facts := []; w_history := []; w_candidate_sets := []; w_snapshots := [];
     w_memberships := []; w_change_sets := w_change_sets scatter_world; w_change_facts := [];
     w_items := ∅; w_revisions := []; w_artifacts := []; w_sources := []; w_source_kinds := []; w_profiles := []; w_objects := [];
     w_references := []; w_proofs := []; w_transitions := []; w_gates := ∅; w_gate_targets := ∅; w_gate_decisions := ∅ |}.
Definition empty_db : db world :=
  Build_db world {[ u "acc" := accept_ ]} {[ u "root" := scatter_row ]} {[ (TEAM, TASK) := task_row ]} ∅ ∅ 0 empty_world.

(** What a run leaves of the root. *)
Definition root_after {A} (r : result (A * db world)) : option (ExecutionStatus.t * option ustr) :=
  match r with
  | Ok (_, d) => (fun e => (e_status e, final_error_code (e_final e))) <$> d_executions d !! u "root"
  | Err _ => None
  end.
End IntakeSamples.
