(* ===== verification/Repair.v ===== *)
(** * The repair sweep

    Model of [src/runtime/workflow/runtime_repair.py]: [repair_once] rebuilds scheduling
    intents from durable rows and closes what it cannot rebuild, and
    [_evaluate_cleanup_eligibility_tx] marks quiescent processes.

    The statements without [ORDER BY] are read in key order.  [json_extract] of the database
    is a parameter: the text member of a stored JSON object, if there is one. *)

From S2P Require Import Prelude PyText PyValue Txn WorkflowContracts Dispatch Strategies Routing Outbox ProcessRows ExecutionRows.
From S2P Require Import Engine Materialize Outcome Scheduler Intake RouteContext FanIn Gates GateDecisions IntakeServices.

Open Scope Z_scope.
Open Scope mkb_scope.

Section repair.
Context {H : Host} {SV : Services world} (cfg : engine_config) (json_extract : ustr -> string -> option ustr).
(** [cleanup_recovery_window_seconds] *)
Variable recovery_window : Z.

(** ** Redelivered intents *)

Definition outbox_has (f : outbox_row -> bool) (d : db world) : bool := existsb (fun kv => f kv.2) (map_to_list (d_outbox d)).
Definition undelivered (r : outbox_row) : bool := bool_decide (ob_status r = pending) || bool_decide (ob_status r = in_flight).

(** The decisions whose gate was closed by them. *)
Definition settled_decision (w : world) (dec : gate_decision) : bool :=
  match w_gates w !! gd_gate dec with
  | Some g => bool_decide (gd_action dec = approve) && bool_decide (g_status g = gate_released)
              || bool_decide (gd_action dec = reject) && bool_decide (g_status g = gate_rejected)
  | None => false
  end.
Definition settled_decisions (d : db world) : list (ustr * gate_decision) :=
  rows_where (fun _ dec => settled_decision (d_world d) dec) (w_gate_decisions (d_world d)).

Definition redeliver_decision (now : Z) (r : ustr * gate_decision) : tx world bool :=
  let keys := [u "gate-decision:" ++ r.1; u "repair-gate-decision:" ++ r.1] in
  let! before :=
    gets (outbox_has (fun o => ueqb (ob_team o) (gd_team r.2) && bool_decide (ob_dedupe_key o ∈ keys) && undelivered o)) in
  if before then ret false
  else
    enqueue now (gd_team r.2) "gate_decision" (fields [("decision_uuid", PStr r.1)]) (u "repair-gate-decision:" ++ r.1) ;!
    ret true.

(** One intent with its own dedupe key: counted when the key is new. *)
Definition enqueue_missing (now : Z) (team : ustr) (kind : string) (payload : pydict) (key : ustr) : tx world bool :=
  let! known := gets (outbox_has (fun o => ueqb (ob_team o) team && ueqb (ob_dedupe_key o) key)) in
  if known then ret false else enqueue now team kind payload key ;! ret true.

Definition ready_processes (d : db world) : list (ustr * process) :=
  rows_where (fun _ p => status_in p [ProcessStatus.READY]
                         && match d_executions d !! ps_execution (p_spec p) with
                            | Some e => negb (stopping (e_status e)) | None => false end) (d_processes d).
Definition wake_process (now : Z) (r : ustr * process) : tx world bool :=
  enqueue_missing now (ps_team (p_spec r.2)) "wake_process"
    (fields [("execution_uuid", PStr (ps_execution (p_spec r.2))); ("process_uuid", PStr r.1)])
    (u "repair-wake-process:" ++ r.1 ++ u ":" ++ dec (fence r.2)).

Definition idle_executions (d : db world) : list (ustr * execution) :=
  rows_where (fun id e => ex_in e [ExecutionStatus.CREATED; ExecutionStatus.READY] && (active_processes id d =? 0)) (d_executions d).
Definition wake_execution (now : Z) (r : ustr * execution) : tx world bool :=
  let! w := gets d_world in
  enqueue_missing now (ei_team (e_id r.2)) "wake_execution"
    (fields [("execution_uuid", PStr r.1); ("task_uuid", PStr (ei_task (e_id r.2))); ("generation", PInt (ei_generation (e_id r.2)))])
    (u "repair-wake-execution:" ++ r.1 ++ u ":" ++ dec (et_manifest_revision (target_of w r.1))).

Definition cancelling_roots (d : db world) : list (ustr * execution) :=
  rows_where (fun id e => is_root id e && ex_in e [ExecutionStatus.CANCELLING]) (d_executions d).

(** ** Stalled routes *)

Definition gate_decided_for (w : world) (id : ustr) : bool :=
  existsb (fun kv => match w_gates w !! gd_gate kv.2 with Some g => ueqb (g_execution g) id | None => false end)
    (map_to_list (w_gate_decisions w)).

(** An execution that stands at a terminal process, with that process. *)
Definition stalled_at (d : db world) (id : ustr) (e : execution) : option ustr :=
  match e_current_process e with
  | Some pid =>
      match d_processes d !! pid with
      | Some p =>
          if negb (stopping (e_status e)) && negb (ex_in e [ExecutionStatus.WAITING]) && terminal_process (p_status p)
             && negb (gate_decided_for (d_world d) id)
          then Some pid else None
      | None => None
      end
  | None => None
  end.
Definition stalled (d : db world) : list (ustr * execution * ustr) :=
  omap (fun r => (fun pid => (r, pid)) <$> stalled_at d r.1 r.2) (rows_where (fun _ _ => true) (d_executions d)).

Definition terminal_selector (s : ProcessStatus.t) : option WorkflowOutcomeSelector :=
  match s with
  | ProcessStatus.SUCCEEDED => Some SUCCEEDED
  | ProcessStatus.FAILED => Some FAILED
  | ProcessStatus.CANCELLED => Some CANCELLED
  | _ => None
  end.

(** [_repair_terminal_process_transition_tx] *)
Definition repair_terminal_transition (now : Z) (id : ustr) (e : execution) (pid : ustr) : tx world bool :=
  let! j := process_with_execution pid in
  let p := j.1.1 in
  match terminal_selector (p_status p) with
  | None => raise KeyError
  | Some selector =>
      let! plan := assert_execution_binding cfg e in
      let routes :=
        List.filter (fun r => bool_decide (from_step_key r = ps_step_key (p_spec p)) && bool_decide (outcome_selector r = selector)
                              && absent (route_guard r)) (routes plan) in
      if (length routes =? 1)%nat then
        let! decided := lift (route_decision plan (execution_ref_of id e) (ps_step_key (p_spec p)) selector []) in
        apply_routes cfg (route_fuel plan) now plan id e decided (Some (full_source pid p)) []
          (if bool_decide (selector = FAILED) then error_code (p_outcome p) else None) ;!
        ret true
      else fail_execution_integrity now id "repair-terminal-route-ambiguous" ;! ret true
  end.

(** ** Waits *)

Definition pending_decision (team : ustr) (gate : option ustr) (d : db world) : bool :=
  outbox_has (fun o => ueqb (ob_team o) team && bool_decide (ob_kind o = "gate_decision"%string) && undelivered o
                       && match json_extract (ob_payload_json o) "decision_uuid" ≫= fun k => w_gate_decisions (d_world d) !! k with
                          | Some dec => is_some_of gate (gd_gate dec) | None => false end) d.

Definition gate_of_wait (d : db world) (id : ustr) (e : execution) : option gate :=
  match waiting_ref (e_wait e) ≫= fun g => w_gates (d_world d) !! g with
  | Some g => if ueqb (g_execution g) id then Some g else None
  | None => None
  end.

(** One waiting execution. *)
Definition repair_wait (now : Z) (r : ustr * execution) : tx world bool :=
  let '(id, e) := r in
  let broken code := fail_execution_integrity now id code ;! ret true in
  match waiting_reason (e_wait e) with
  | Some reason =>
      if stext reason "scatter_children" then maybe_converge_scatter_root now id
      else if stext reason "durable_prerequisite" then
        let! parent := match ei_parent (e_id e) with
                       | Some ((_ :: _) as p) => let! row := execution_row p in ret (Some (p, row))
                       | _ => ret None end in
        match parent with
        | Some (pid, p) =>
            if has_role e "scatter_child" && has_role p "scatter_root" && nonempty (waiting_ref (e_wait e)) then
              if terminal_execution (e_status p) then cancel_execution_tree now pid p false ;! ret true else ret false
            else broken "waiting-prerequisite-invalid"%string
        | None => broken "waiting-prerequisite-invalid"%string
        end
      else if stext reason "human_review" then
        let! d := gets Datatypes.id in
        match gate_of_wait d id e with
        | Some _ => ret false
        | None =>
            if pending_decision (ei_team (e_id e)) (waiting_ref (e_wait e)) d then ret false else broken "waiting-gate-invalid"%string
        end
      else if stext reason "retry_due" then
        let! d := gets Datatypes.id in
        match waiting_ref (e_wait e) ≫= fun p => d_processes d !! p with
        | Some p =>
            if ueqb (ps_execution (p_spec p)) id && status_in p [ProcessStatus.RETRY_WAIT] then ret false
            else broken "waiting-retry-invalid"%string
        | None => broken "waiting-retry-invalid"%string
        end
      else broken "waiting-reason-invalid"%string
  | None => broken "waiting-reason-invalid"%string
  end.

Definition waiting_executions (d : db world) : list (ustr * execution) :=
  rows_where (fun _ e => ex_in e [ExecutionStatus.WAITING]) (d_executions d).

(** ** Terminal roots *)

(** [_repair_terminal_projection_tx] *)
Definition repair_terminal_projection (now : Z) (r : ustr * execution) : tx world Z :=
  let '(id, e) := r in
  refresh_execution_counts now id ;!
  let! cleared := update_execution id (ex_clear_current now) in
  let! projected :=
    project_task now (ei_team (e_id e)) (ei_task (e_id e))
      (Build_projection (task_status_of (e_status e)) None (Some id) (result_ref (e_final e)) (publication_proof_ref (e_final e)) None
         (final_error_code (e_final e))) in
  ret ((if cleared then 1 else 0) + (if projected then 1 else 0)).

Definition terminal_roots (d : db world) : list (ustr * execution) :=
  rows_where (fun id e => is_root id e && terminal_execution (e_status e)) (d_executions d).

(** ** Cleanup *)

Definition gate_of_decision (w : world) (k : ustr) : option gate :=
  match w_gate_decisions w !! k with Some dec => w_gates w !! gd_gate dec | None => None end.

(** An undelivered intent of the execution, by its own identifier or by its gate decision. *)
Definition pending_intent (d : db world) (team id : ustr) : bool :=
  outbox_has (fun o => ueqb (ob_team o) team && undelivered o
                       && (is_some_of (json_extract (ob_payload_json o) "execution_uuid") id
                           || bool_decide (ob_kind o = "gate_decision"%string)
                              && match json_extract (ob_payload_json o) "decision_uuid" ≫= gate_of_decision (d_world d) with
                                 | Some g => ueqb (g_execution g) id | None => false end)) d.

Definition due_before (t : option Z) (bound : Z) : bool := match t with Some t => t <=? bound | None => false end.

Definition quiescent (now : Z) (d : db world) (id : ustr) (e : execution) : bool :=
  terminal_execution (e_status e) && present (terminal_summary_digest (e_final e)) && present (summary_completed_at (e_final e))
  && due_before (completed_at (e_final e)) (now - Outbox.seconds recovery_window) && absent (e_current_process e)
  && (negb (ex_in e [ExecutionStatus.SUCCEEDED]) || present (publication_proof_ref (e_final e)))
  && (active_processes id d =? 0)
  && (count_rows (fun _ p => of_execution id p && match lease_expires_at (p_lease p) with Some t => now <? t | None => false end)
        (d_processes d) =? 0)
  && negb (pending_intent d (ei_team (e_id e)) id).

Definition cleanup_candidate (now : Z) (d : db world) (p : process) : bool :=
  terminal_process (p_status p) && absent (p_cleanup_eligible_at p)
  && match execution_of p d with Some e => quiescent now d (ps_execution (p_spec p)) e | None => false end.

(** [ORDER BY e.completed_at, p.completed_at, p.process_uuid]; a missing time sorts first. *)
Definition time_lt (a b : option Z) : bool :=
  match a, b with None, Some _ => true | Some x, Some y => x <? y | _, None => false end.
Definition cleanup_le (d : db world) (a b : ustr * process) : bool :=
  let done r := execution_of r.2 d ≫= fun e => completed_at (e_final e) in
  time_lt (done a) (done b)
  || bool_decide (done a = done b)
     && (time_lt (p_completed_at a.2) (p_completed_at b.2)
         || bool_decide (p_completed_at a.2 = p_completed_at b.2) && str_le a.1 b.1).

(** [_evaluate_cleanup_eligibility_tx] *)
Definition evaluate_cleanup (now limit : Z) : tx world Z :=
  let! rows := gets (fun d => take (Z.to_nat limit)
                       (py_sorted (cleanup_le d) (rows_where (fun _ p => cleanup_candidate now d p) (d_processes d)))) in
  count_loop (fun r => update_process r.1 (upd_cleanup now)) rows.

(** [evaluate_cleanup_eligibility_once] *)
Definition evaluate_cleanup_eligibility_once (now limit : Z) : tx world Z :=
  require ((1 <=? limit) && (limit <=? 10000)) ValueError ;! evaluate_cleanup now limit.

(** ** The sweep *)

(** The one transaction of [repair_once], after the two that it calls first. *)
Definition repair_rows (now : Z) : tx world Z :=
  let! decisions := gets settled_decisions in
  let! a := count_loop (redeliver_decision now) decisions in
  let! roots := gets cancelling_roots in
  let! b := sum_loop (fun r => cancel_execution_tree now r.1 r.2 true) roots in
  let! ready := gets ready_processes in
  let! c := count_loop (wake_process now) ready in
  let! idle := gets idle_executions in
  let! e := count_loop (wake_execution now) idle in
  let! stuck := gets stalled in
  let! f := count_loop (fun r => repair_terminal_transition now r.1.1 r.1.2 r.2) stuck in
  let! waits := gets waiting_executions in
  let! g := count_loop (repair_wait now) waits in
  let! ended := gets terminal_roots in
  let! h := sum_loop (repair_terminal_projection now) ended in
  let! i := evaluate_cleanup now 256 in
  ret (a + b + c + e + f + g + h + i).

(** The default [limit] of the two. *)
Definition REPAIR_LIMIT : Z := 128.

(** [repair_once]: three transactions, each of which commits on its own. *)
Definition repair_once (now : Z) (d : db world) : result Z * db world :=
  match promote_due_retries now REPAIR_LIMIT d with
  | Err x => (Err x, d)
  | Ok (n, d) =>
      match recover_expired_leases cfg now REPAIR_LIMIT d with
      | Err x => (Err x, d)
      | Ok (m, d) => match repair_rows now d with Err x => (Err x, d) | Ok (k, d) => (Ok (n + m + k), d) end
      end
  end.
End repair.
