(* ===== verification/Tower.v ===== *)
(** * The tower of services is high enough

    Fan-in terminates its root and a terminated execution asks its parent to converge, so
    [_maybe_converge_scatter_root_tx] and [_terminalize_execution_tx] are mutually recursive
    without a visible bound.  Here the bound is proved: each re-entry follows the termination
    of an execution that was open, no modelled transaction between two re-entries opens one,
    so with more levels than open executions the result does not depend on the level. *)

From S2P Require Import Prelude PyText PyValue Txn WorkflowContracts Dispatch Strategies Routing Outbox ProcessRows ExecutionRows.
From S2P Require Import Engine Materialize Outcome Scheduler EngineLaws EngineSamples EngineRuns Termination.
From S2P Require Import Intake RouteContext FanIn Gates GateDecisions IntakeServices.
From S2P Require Import EngineSamples IntakeSamples.

Open Scope Z_scope.
Open Scope mkb_scope.

(** ** Open executions *)

Section open.
Context {World : Type}.

Definition open_execution (kv : ustr * execution) : Prop := terminal_execution (e_status kv.2) = false.
#[export] Instance open_execution_dec kv : Decision (open_execution kv).
Proof. unfold open_execution. apply _. Defined.
Definition open_executions (d : db World) : gset ustr := dom (filter open_execution (d_executions d)).
Definition unfinished (d : db World) : nat := size (open_executions d).

(** No execution is opened. *)
Definition shrinks (d d' : db World) : Prop := open_executions d' ⊆ open_executions d.
#[export] Instance shrinks_preorder : PreOrder shrinks.
Proof. unfold shrinks. split; [by intros d|by intros a b c; set_solver]. Qed.

Lemma elem_of_open d id :
  id ∈ open_executions d <-> exists e, d_executions d !! id = Some e /\ terminal_execution (e_status e) = false.
Proof.
  unfold open_executions. rewrite elem_of_dom. split.
  - intros [e He]. apply map_lookup_filter_Some in He as [He Ho]. by exists e.
  - intros (e & He & Ho). exists e. by apply map_lookup_filter_Some.
Qed.

Lemma shrinks_unfinished d d' : shrinks d d' -> (unfinished d' <= unfinished d)%nat.
Proof. unfold shrinks, unfinished. intros Hs. by apply subseteq_size. Qed.

Lemma same_executions_shrinks d d' : d_executions d' = d_executions d -> shrinks d d'.
Proof. unfold shrinks, open_executions. by intros ->. Qed.

(** A row of the table is replaced. *)
Lemma set_execution_shrinks d id e e' :
  d_executions d !! id = Some e -> (terminal_execution (e_status e) = true -> terminal_execution (e_status e') = true) ->
  shrinks d (set_executions (<[id := e']> (d_executions d)) d).
Proof.
  intros He Ht k. rewrite !elem_of_open. cbn. intros (x & Hx & Ho). apply lookup_insert_Some in Hx as [[<- <-]|[_ Hx]]; [|by exists x].
  exists e. split; [done|]. destruct (terminal_execution (e_status e)); [|done]. by rewrite Ht in Ho.
Qed.

(** An open row ends: one open execution less. *)
Lemma close_execution d id e e' :
  d_executions d !! id = Some e -> terminal_execution (e_status e) = false -> terminal_execution (e_status e') = true ->
  (unfinished (set_executions (<[id := e']> (d_executions d)) d) < unfinished d)%nat.
Proof.
  intros He Ho Ht. unfold unfinished. apply subset_size. split.
  - by eapply set_execution_shrinks.
  - intros Hs. specialize (Hs id). rewrite !elem_of_open in Hs. cbn in Hs.
    destruct Hs as (x & Hx & Hxo); [by exists e|]. rewrite lookup_insert_eq in Hx. injection Hx as <-. congruence.
Qed.

Lemma keeps_same_executions {A} (m : tx World A) :
  (forall d a d', m d = Ok (a, d') -> d_executions d' = d_executions d) -> keeps shrinks m.
Proof. intros Hm d a d' Hd. apply same_executions_shrinks. by eapply Hm. Qed.

Lemma shrinks_statement id f s : (forall e, f e = ex_exec s e) -> keeps shrinks (update_execution (World := World) id f).
Proof.
  intros Hf d b d' [(_ & e & e' & He & Hs & ->)|(_ & -> & _)]%update_execution_Ok; [|done]. rewrite Hf in Hs.
  eapply set_execution_shrinks; [done|]. intros Ht. pose proof (ex_step_terminal _ _ _ Ht Hs) as Ho.
  unfold outcome_of in Ho. congruence.
Qed.

Lemma shrinks_query {A} (f : db World -> result A) : keeps shrinks (fun d => let* a := f d in Ok (a, d)).
Proof. apply keeps_same_executions. intros d a d' Hd. by inv_res. Qed.

Lemma shrinks_process id f : keeps shrinks (update_process (World := World) id f).
Proof. apply keeps_same_executions. intros d b d'. unfold update_process. by destruct (_ ≫= f); intros [= _ <-]. Qed.
Lemma shrinks_task team task f : keeps shrinks (update_task (World := World) team task f).
Proof. apply keeps_same_executions. intros d b d'. unfold update_task. by destruct (_ ≫= f); intros [= _ <-]. Qed.
Lemma shrinks_modify (f : db World -> db World) : (forall d, d_executions (f d) = d_executions d) -> keeps shrinks (modify f).
Proof. intros Hf. apply keeps_same_executions. intros d a d' [= _ <-]. apply Hf. Qed.
Lemma shrinks_processes sel f : keeps shrinks (update_processes (World := World) sel f).
Proof. by apply shrinks_modify. Qed.
End open.

Create HintDb shrink.
Ltac shrinks_tac :=
  repeat match goal with
  | |- keeps _ (bind _ _) => apply keeps_bind; [apply _| |intros ?]
  | |- keeps _ (count_loop _ _) => apply keeps_count_loop; [apply _|intros ?]
  | |- keeps _ (any_loop _ _) => apply keeps_any_loop; [apply _|intros ?]
  | |- keeps _ (if ?b then _ else _) => destruct b
  | |- keeps _ (match ?x with _ => _ end) => destruct x
  | |- keeps _ (let _ := _ in _) => cbn zeta
  end;
  auto with shrink;
  try (apply keeps_reads; [apply _|]; solve [auto with mkb | apply reads_execution_row]);
  try (apply shrinks_modify; intros; reflexivity).
#[export] Hint Resolve shrinks_process shrinks_task shrinks_processes shrinks_query : shrink.

(** What the owners promise here: they open no execution. *)
Class Shrinking {World} (SV : Services World) : Prop := {
  refresh_shrinks : forall now team task id (d d' : db World),
    refresh_scatter_counts now team task id d = Ok (Some d') -> shrinks d d';
  converge_shrinks : forall now id, keeps shrinks (maybe_converge_scatter_root now id);
  wait_shrinks : forall now plan id step digest source ctx, keeps shrinks (enter_wait_control now plan id step digest source ctx)
}.

Section engine.
Context {World : Type} {H : Host} {SV : Services World} {SS : Shrinking SV} (cfg : engine_config).
Local Abbreviation okay m := (keeps (S := db World) shrinks m).

Lemma shrinks_fresh : okay fresh_uuid.
Proof. apply keeps_same_executions. by intros d a d' [= _ <-]. Qed.
#[local] Hint Resolve shrinks_fresh converge_shrinks wait_shrinks : shrink.
Lemma shrinks_enqueue now team kind payload key : okay (enqueue now team kind payload key).
Proof. unfold enqueue. shrinks_tac. apply keeps_same_executions. intros d b d' Hd. by inv_res. Qed.

Lemma shrinks_refresh now id : okay (refresh_execution_counts now id).
Proof.
  unfold refresh_execution_counts. shrinks_tac.
  - match goal with |- keeps _ (update_execution _ (ex_counts ?c _)) => by apply (shrinks_statement id _ (XCounts c now)) end.
  - intros d x d' Hd. apply rbind_Ok in Hd as ([d1|] & Hs & Hd).
    + injection Hd as _ <-. destruct (d_executions d !! _); [|done]. destruct (has_role _ _); [|done].
      by eapply refresh_shrinks.
    + apply rbind_Ok in Hd as ([b d1] & Hu & [= _ <-]). revert Hu. apply shrinks_task.
Qed.

Lemma shrinks_project now team task c : okay (project_task now team task c).
Proof.
  apply keeps_same_executions. intros d b d'. unfold project_task. destruct (d_tasks d !! _) as [t|]; [|by intros [= _ <-]].
  intros Hd. inv_res. by destruct x; inv_res.
Qed.
#[local] Hint Resolve shrinks_enqueue shrinks_refresh shrinks_project : shrink.
Lemma shrinks_project_root now id e status source code disposition :
  okay (project_root_task now id e status source code disposition).
Proof. unfold project_root_task. shrinks_tac. Qed.
Lemma shrinks_cancelled id s now : okay (update_execution id (ex_cancelled s now)).
Proof. by apply (shrinks_statement id _ (XCancelled s now)). Qed.
Lemma shrinks_cancelling id now : okay (update_execution id (ex_cancelling now)).
Proof. by apply (shrinks_statement id _ (XCancelling now)). Qed.
Lemma shrinks_fail_row id c s now : okay (update_execution id (ex_fail_integrity c s now)).
Proof. by apply (shrinks_statement id _ (XFailIntegrity c s now)). Qed.
Lemma shrinks_terminalize_row id st r p c s now : okay (update_execution id (ex_terminalize st r p c s now)).
Proof. by apply (shrinks_statement id _ (XTerminalize st r p c s now)). Qed.
#[local] Hint Resolve shrinks_project_root shrinks_cancelled shrinks_cancelling shrinks_fail_row shrinks_terminalize_row : shrink.

Lemma shrinks_converge fuel now id : okay (converge_cancellation fuel now id).
Proof. revert id. induction fuel as [|fuel IH]; intros id; simpl; shrinks_tac. Qed.
#[local] Hint Resolve shrinks_converge : shrink.
Lemma shrinks_notify now e : okay (notify_parent now e).
Proof. unfold notify_parent. shrinks_tac. Qed.
Lemma shrinks_cancel now id e : okay (cancel_execution now id e).
Proof. unfold cancel_execution. shrinks_tac. Qed.
#[local] Hint Resolve shrinks_notify shrinks_cancel : shrink.
Lemma shrinks_tree now id root inc : okay (cancel_execution_tree now id root inc).
Proof. unfold cancel_execution_tree. shrinks_tac. Qed.
#[local] Hint Resolve shrinks_tree : shrink.
Lemma shrinks_fail now id code : okay (fail_execution_integrity now id code).
Proof. unfold fail_execution_integrity. shrinks_tac. Qed.
#[local] Hint Resolve shrinks_fail : shrink.
Lemma shrinks_terminalize now id kind source digest code disposition :
  okay (terminalize_execution now id kind source digest code disposition).
Proof. unfold terminalize_execution. shrinks_tac. Qed.
#[local] Hint Resolve shrinks_terminalize : shrink.
Lemma shrinks_request now id : okay (request_cancellation now id).
Proof. unfold request_cancellation. shrinks_tac. Qed.

Lemma shrinks_materialize now plan id e step digest : okay (materialize_process cfg now plan id e step digest).
Proof.
  unfold materialize_process. shrinks_tac.
  - apply keeps_same_executions. intros d b d'. unfold insert_process. by case_bool_decide; intros [= _ <-].
  - match goal with |- keeps _ (update_execution _ (ex_materialized ?p ?q _)) => by apply (shrinks_statement id _ (XMaterialized p q now)) end.
Qed.
Lemma shrinks_selection now plan id step digest : okay (project_selection now plan id step digest).
Proof.
  unfold project_selection. shrinks_tac. all: apply shrinks_modify; intros d; unfold insert_selected; by repeat case_match.
Qed.
#[local] Hint Resolve shrinks_materialize shrinks_selection : shrink.
Lemma shrinks_wait now plan id step digest source ctx : okay (enter_wait now plan id step digest source ctx).
Proof. unfold enter_wait. shrinks_tac. Qed.
#[local] Hint Resolve shrinks_wait : shrink.
Lemma shrinks_routes fuel now plan id e dec source ctx terminal_error :
  okay (apply_routes cfg fuel now plan id e dec source ctx terminal_error).
Proof. revert id e dec source ctx terminal_error. induction fuel as [|fuel IH]; intros; cbn [apply_routes]; shrinks_tac. Qed.
End engine.

(** ** The owners open no execution *)

Section owners.
Context {H : Host}.

Section level.
Context {SV : Services world} {SS : Shrinking SV}.
Local Abbreviation okay m := (keeps (S := db world) shrinks m).
#[local] Hint Resolve shrinks_fresh shrinks_enqueue shrinks_refresh shrinks_fail shrinks_terminalize : shrink.

Lemma shrinks_join_entry now id digest source : okay (enter_children_join now id digest source).
Proof.
  unfold enter_children_join, release_scatter_children, release_child. shrinks_tac.
  - match goal with |- keeps _ (update_execution ?i (ex_prerequisite_released ?c _)) =>
      by apply (shrinks_statement i _ (XPrerequisiteReleased c now)) end.
  - match goal with |- keeps _ (update_execution _ (ex_join_wait ?c _)) => by apply (shrinks_statement id _ (XJoinWait c now)) end.
Qed.
Lemma shrinks_converge_root now id : okay (converge_scatter_root now id).
Proof. unfold converge_scatter_root, collect_children. shrinks_tac. Qed.
Lemma shrinks_hold team gate l : okay (hold_all team gate l).
Proof. induction l as [|o l IH]; simpl; unfold hold_evidence; shrinks_tac. Qed.
#[local] Hint Resolve shrinks_hold : shrink.
Lemma shrinks_human_review now id step digest source ctx : okay (enter_human_review now id step digest source ctx).
Proof.
  unfold enter_human_review, insert_gate, insert_target. shrinks_tac.
  match goal with |- keeps _ (update_execution _ (ex_gate_wait ?p ?g ?r _)) =>
    by apply (shrinks_statement id _ (XGateWait p g r now)) end.
Qed.
Lemma shrinks_wait_of now id step digest source ctx : okay (enter_wait_of SV now id step digest source ctx).
Proof. unfold enter_wait_of. case_bool_decide; [apply shrinks_join_entry|apply shrinks_human_review]. Qed.
End level.

Lemma refresh_scatter_shrinks now team task id d d' : refresh_scatter now team task id d = Ok (Some d') -> shrinks d d'.
Proof.
  unfold refresh_scatter. destruct (collection_of team task id d) as [[snapshot change_set]|]; [|done].
  destruct (expected_members _ _ _ _) as [expected|]; [|done]. intros Hd. apply rbind_Ok in Hd as ([[] d1] & Hr & [= <-]).
  revert Hr. match goal with |- ?m d = _ -> _ => assert (keeps shrinks m) as Hk end; [|apply Hk].
  unfold refresh_scatter_task_counts. shrinks_tac.
Qed.

Context {X : Externals}.
#[export] Instance tower_shrinking n : Shrinking (tower n).
Proof.
  induction n as [|n IH]; split; try exact refresh_scatter_shrinks; cbn.
  - by intros.
  - by intros.
  - intros now id. apply shrinks_converge_root.
  - intros now plan id step digest source ctx. apply shrinks_wait_of.
Qed.
End owners.

(** ** Agreement below a number of open executions *)

Definition agree (k : nat) {A} (m1 m2 : tx world A) : Prop := forall d, (unfinished d < k)%nat -> m1 d = m2 d.

Lemma agree_same k {A} (m : tx world A) : agree k m m.
Proof. by intros d _. Qed.
Lemma agree_weaken k {A} (m1 m2 : tx world A) : agree (S k) m1 m2 -> agree k m1 m2.
Proof. intros Hm d Hd. apply Hm. lia. Qed.
Lemma agree_bind k {A B} (m1 m2 : tx world A) (k1 k2 : A -> tx world B) :
  agree k m1 m2 -> keeps shrinks m2 -> (forall a, agree k (k1 a) (k2 a)) -> agree k (bind m1 k1) (bind m2 k2).
Proof.
  intros Hm Hs Hk d Hd. unfold bind. rewrite (Hm d Hd). destruct (m2 d) as [[a d1]|] eqn:E; [|done]. cbn.
  apply Hk. pose proof (shrinks_unfinished _ _ (Hs _ _ _ E)). lia.
Qed.
Lemma agree_count_loop k {A} (f g : A -> tx world bool) xs :
  (forall x, agree k (f x) (g x)) -> (forall x, keeps shrinks (g x)) -> agree k (count_loop f xs) (count_loop g xs).
Proof.
  intros Hf Hs. induction xs as [|x xs IH]; simpl; [apply agree_same|]. apply agree_bind; [apply Hf|apply Hs|].
  intros b. apply agree_bind; [exact IH|by apply keeps_count_loop; [apply _|]|]. intros n. apply agree_same.
Qed.
Lemma agree_any_loop k {A} (f g : A -> tx world bool) xs :
  (forall x, agree k (f x) (g x)) -> (forall x, keeps shrinks (g x)) -> agree k (any_loop f xs) (any_loop g xs).
Proof.
  intros Hf Hs. induction xs as [|x xs IH]; simpl; [apply agree_same|]. apply agree_bind; [apply Hf|apply Hs|].
  intros b. apply agree_bind; [exact IH|by apply keeps_any_loop; [apply _|]|]. intros n. apply agree_same.
Qed.

(** After a statement that ends an open row, one open execution less is left. *)
Lemma agree_close k id (f : execution -> option execution) {A} (k1 k2 r : tx world A) :
  (forall e e', f e = Some e' -> terminal_execution (e_status e) = false /\ terminal_execution (e_status e') = true) ->
  agree k k1 k2 ->
  agree (S k) (bind (update_execution id f) (fun b => if b then k1 else r)) (bind (update_execution id f) (fun b => if b then k2 else r)).
Proof.
  intros Hf Hk d Hd. unfold bind. destruct (update_execution id f d) as [[b d1]|] eqn:E; [|done]. cbn.
  apply update_execution_Ok in E as [(-> & e & e' & He & Hs & ->)|(-> & -> & _)]; [|done].
  apply Hk. destruct (Hf _ _ Hs) as [Ho Ht]. pose proof (close_execution _ _ _ _ He Ho Ht). lia.
Qed.

Create HintDb agree.

Section levels.
Context {H : Host} {X : Externals} (cfg : engine_config).
Variables c1 c2 : Z -> ustr -> tx world bool.
Variables w1 w2 : Z -> ustr -> WorkflowStepDefinition -> ustr -> option source_row -> pydict -> tx world bool.
Local Abbreviation S1 := (services_over c1 w1).
Local Abbreviation S2 := (services_over c2 w2).
Context {SS : Shrinking S2}.
Variable k : nat.
Hypothesis Hc : forall now id, agree k (c1 now id) (c2 now id).
#[local] Hint Resolve shrinks_fresh shrinks_enqueue shrinks_refresh shrinks_project_root shrinks_converge shrinks_notify shrinks_cancel
  shrinks_tree shrinks_fail shrinks_terminalize shrinks_cancelled shrinks_cancelling shrinks_fail_row shrinks_terminalize_row : shrink.
#[local] Hint Resolve converge_shrinks : shrink.

Lemma converge_levels fuel now id : agree (S k) (converge_cancellation (SV := S1) fuel now id) (converge_cancellation (SV := S2) fuel now id).
Proof.
  revert id. induction fuel as [|fuel IH]; intros id; cbn [converge_cancellation]; [apply agree_same|].
  apply agree_bind; [apply agree_same|shrinks_tac|]. intros current. destruct (negb _); [apply agree_same|].
  do 2 (apply agree_bind; [apply agree_same|shrinks_tac|]; intros ?). destruct (_ || _); [apply agree_same|].
  apply agree_bind; [apply agree_same|shrinks_tac|]. intros summary. apply agree_close.
  { intros e e'. unfold ex_cancelled, ex_in. case_match eqn:E; [|done]. intros [= <-]. breflect. cbn.
    apply list_elem_of_singleton in E as ->. done. }
  apply agree_bind; [by apply agree_same|shrinks_tac|]. intros _. apply agree_bind; [by apply agree_same|shrinks_tac|]. intros _.
  destruct (ei_parent (e_id current)) as [[|c parent]|]; try apply agree_same.
  apply agree_bind; [apply agree_same|shrinks_tac|]. intros p. destruct (ex_in _ _).
  - apply agree_bind; [apply agree_weaken, IH|shrinks_tac|]. intros ?. apply agree_same.
  - destruct (has_role _ _); [|apply agree_same]. apply agree_bind; [apply Hc|apply converge_shrinks|]. intros ?. apply agree_same.
Qed.

Lemma notify_levels now e : agree k (notify_parent (SV := S1) now e) (notify_parent (SV := S2) now e).
Proof.
  unfold notify_parent. destruct (ei_parent (e_id e)) as [[|c parent]|]; try apply agree_same.
  apply agree_bind; [apply agree_same|shrinks_tac|]. intros p. destruct (ex_in _ _).
  - apply agree_bind; [apply agree_weaken, converge_levels|shrinks_tac|]. intros ?. apply agree_same.
  - destruct (has_role _ _); [|apply agree_same]. apply agree_bind; [apply Hc|apply converge_shrinks|]. intros ?. apply agree_same.
Qed.

Lemma tree_levels now id root inc :
  agree (S k) (cancel_execution_tree (SV := S1) now id root inc) (cancel_execution_tree (SV := S2) now id root inc).
Proof.
  unfold cancel_execution_tree. do 3 (apply agree_bind; [by apply agree_same|shrinks_tac|]; intros ?).
  apply agree_bind; [|shrinks_tac|intros ?; apply agree_same]. apply agree_count_loop; intros x; [apply converge_levels|shrinks_tac].
Qed.

Lemma fail_levels now id code :
  agree (S k) (fail_execution_integrity (SV := S1) now id code) (fail_execution_integrity (SV := S2) now id code).
Proof.
  unfold fail_execution_integrity. apply agree_bind; [apply agree_same|shrinks_tac|]. intros current.
  apply agree_bind; [|shrinks_tac|].
  { destruct (scatter_root _ _); [|apply agree_same]. apply agree_bind; [apply tree_levels|shrinks_tac|]. intros ?. apply agree_same. }
  intros _. apply agree_bind; [apply agree_same|shrinks_tac|]. intros summary. apply agree_close.
  { intros e e'. unfold ex_fail_integrity. case_match eqn:E; [|done]. intros [= <-]. breflect. done. }
  apply agree_bind; [by apply agree_same|shrinks_tac|]. intros _. apply notify_levels.
Qed.

Lemma terminalize_levels now id kind source digest code disposition :
  agree (S k) (terminalize_execution (SV := S1) now id kind source digest code disposition)
    (terminalize_execution (SV := S2) now id kind source digest code disposition).
Proof.
  unfold terminalize_execution. destruct kind as [kind|]; [|apply agree_same]. cbn zeta.
  apply agree_bind; [apply agree_same|shrinks_tac|]. intros current. destruct (terminal_execution _); [apply agree_same|].
  apply agree_bind; [|shrinks_tac|].
  { destruct (_ && _); [|apply agree_same]. apply agree_bind; [apply tree_levels|shrinks_tac|]. intros ?. apply agree_same. }
  intros _. destruct (_ && _); [apply fail_levels|]. destruct (_ && _); [apply fail_levels|].
  apply agree_bind; [by apply agree_same|shrinks_tac|]. intros _.
  do 2 (apply agree_bind; [apply agree_same|shrinks_tac|]; intros ?). apply agree_close.
  { intros e e'. unfold ex_terminalize. case_match eqn:E; [|done]. intros [= <-]. breflect. cbn. split; [done|]. by destruct kind. }
  apply agree_bind; [by apply agree_same|shrinks_tac|]. intros _. apply notify_levels.
Qed.

(** A step after a terminal operation. *)
Lemma then_levels {A B} (m1 m2 : tx world A) (r : tx world B) :
  agree (S k) m1 m2 -> keeps shrinks m2 -> agree (S k) (bind m1 (fun _ => r)) (bind m2 (fun _ => r)).
Proof. intros Hm Hs. apply agree_bind; [done|done|]. intros _. apply agree_same. Qed.
#[local] Hint Resolve fail_levels terminalize_levels then_levels : agree.
#[local] Hint Extern 1 (agree _ (ret _) _) => apply agree_same : agree.
#[local] Hint Extern 1 (agree _ (raise _) _) => apply agree_same : agree.
#[local] Hint Extern 1 (keeps _ _) => solve [shrinks_tac] : agree.

Lemma converge_root_levels now id :
  agree (S k) (converge_scatter_root (SV := S1) now id) (converge_scatter_root (SV := S2) now id).
Proof.
  unfold converge_scatter_root, collect_children. apply agree_bind; [apply agree_same|shrinks_tac|]. intros current.
  destruct (negb _); [apply agree_same|]. cbn zeta. apply agree_bind; [apply agree_same|shrinks_tac|]. intros d.
  destruct (collection_of _ _ _ _) as [[snapshot change_set]|]; [|auto with agree].
  destruct (expected_members _ _ _ _) as [[|m expected]|]; [| |auto with agree].
  - destruct (root_terminal_proof _ _ _ _); [|auto with agree]. apply agree_bind; [apply agree_same|shrinks_tac|]. auto with agree.
  - destruct (negb _); [auto with agree|]. destruct (bound_children _ _ _ _ _) as [bound|]; [|auto with agree].
    destruct (existsb _ _); [apply agree_same|]. apply agree_bind; [apply agree_same|shrinks_tac|]. intros digest.
    apply agree_bind; [apply agree_same|shrinks_tac|]. intros d'. destruct (_ ++ _); [|auto with agree].
    destruct (collect_proofs _ _ _); auto with agree.
Qed.

Lemma wait_levels now id step digest source ctx :
  agree (S k) (enter_wait_of S1 now id step digest source ctx) (enter_wait_of S2 now id step digest source ctx).
Proof.
  unfold enter_wait_of. case_bool_decide.
  - unfold enter_children_join. apply agree_bind; [apply agree_same|shrinks_tac|]. intros current.
    destruct (stopping _); [apply agree_same|]. apply agree_bind; [apply agree_same|shrinks_tac|]. intros d.
    destruct (collection_of _ _ _ _) as [[snapshot change_set]|]; [|auto with agree]. destruct (negb _); [auto with agree|].
    destruct (expected_members _ _ _ _) as [[|m expected]|]; [| |auto with agree].
    + destruct (root_terminal_proof _ _ _ _); auto with agree.
    + by apply agree_same.
  - unfold enter_human_review. apply agree_bind; [apply agree_same|shrinks_tac|]. intros w.
    destruct (open_gate_of _ _ _); [apply agree_same|]. apply agree_bind; [apply agree_same|shrinks_tac|]. intros current.
    destruct (stopping _); [apply agree_same|]. apply agree_bind; [apply agree_same|shrinks_tac|]. intros d.
    destruct (gate_evidence _ _ _ _ _) as [ev|e]; [|destruct (bool_decide _); auto with agree].
    apply agree_bind; [by apply agree_same|shrinks_tac|]. intros gate. destruct (projected_actual_digest _); [|auto with agree].
    by apply agree_same.
Qed.

Lemma request_levels now id :
  agree (S k) (request_cancellation (SV := S1) now id) (request_cancellation (SV := S2) now id).
Proof.
  unfold request_cancellation. apply agree_bind; [apply agree_same|shrinks_tac|]. intros e.
  destruct (terminal_execution _); [apply agree_same|]. apply agree_bind; [apply agree_same|shrinks_tac|]. intros r.
  apply agree_bind; [apply tree_levels|shrinks_tac|]. intros _. by apply agree_same.
Qed.

Section routes.
Hypothesis Hw : forall now id step digest source ctx,
  agree (S k) (w1 now id step digest source ctx) (w2 now id step digest source ctx).
#[local] Hint Resolve shrinks_materialize shrinks_selection shrinks_wait shrinks_routes : shrink.

Lemma selection_levels now plan id step digest :
  agree (S k) (project_selection (SV := S1) now plan id step digest) (project_selection (SV := S2) now plan id step digest).
Proof.
  unfold project_selection. apply agree_bind; [apply agree_same|shrinks_tac|]. intros current.
  destruct (stopping _); [apply agree_same|]. cbn zeta. apply agree_bind; [apply agree_same|shrinks_tac|]. intros [cs|]; [|auto with agree].
  match goal with |- agree _ (match ?l with _ => _ end) _ => destruct l as [|selected [|]] end; auto with agree.
  do 5 (apply agree_bind; [by apply agree_same|shrinks_tac;
    try (apply shrinks_modify; intros ?; unfold insert_selected; by repeat case_match)|]; intros ?).
  apply agree_bind; [by apply agree_same|shrinks_tac|]. intros durable. case_bool_decide; auto with agree.
Qed.

Lemma routes_levels fuel now plan id e dec source ctx terminal_error :
  agree (S k) (apply_routes (SV := S1) cfg fuel now plan id e dec source ctx terminal_error)
    (apply_routes (SV := S2) cfg fuel now plan id e dec source ctx terminal_error).
Proof.
  revert id e dec source ctx terminal_error. induction fuel as [|fuel IH]; intros; cbn [apply_routes]; [apply agree_same|].
  destruct (dec_routes dec); [auto with agree|]. apply agree_any_loop; intros route; [|shrinks_tac].
  destruct (plan_step _ _) as [target|]; [|auto with agree]. destruct (step_kind target); auto with agree; [by apply agree_same|].
  case_bool_decide.
  - apply agree_bind; [apply selection_levels|shrinks_tac|]. intros [[current selected]|]; [|apply agree_same].
    apply agree_bind; [apply agree_same|shrinks_tac|]. intros next. apply IH.
  - unfold enter_wait. destruct (_ || _); [|apply agree_same]. apply Hw.
Qed.
End routes.
End levels.

(** ** Enough levels *)

Section enough.
Context {H : Host} {X : Externals} (cfg : engine_config).

Lemma tower_agree n m now id :
  agree n ((tower_operations n).1 now id) ((tower_operations (n + m)).1 now id).
Proof.
  revert now id. induction n as [|n IH]; intros now id; [by intros d Hd; lia|]. cbn [tower_operations Nat.add fst].
  apply (converge_root_levels _ _ _ _ (SS := tower_shrinking (n + m)) n IH).
Qed.

Lemma tower_wait_agree n m now id step digest source ctx :
  agree n ((tower_operations n).2 now id step digest source ctx) ((tower_operations (n + m)).2 now id step digest source ctx).
Proof.
  destruct n as [|n]; [by intros d Hd; lia|]. cbn [tower_operations Nat.add snd].
  apply (wait_levels _ _ _ _ (SS := tower_shrinking (n + m)) n (tower_agree n m)).
Qed.

(** C37: The mutual recursion of fan-in, termination and cancellation ends.  With more levels
    than there are open executions in the database, the result of converging a scatter root,
    of applying any route decision (with the gates, joins and terminations that it enters) and
    of cancelling a tree no longer depends on the height of the tower. *)
Theorem tower_suffices (n m : nat) (d : db world) (Hn : (unfinished d < n)%nat) :
  (forall now id,
     maybe_converge_scatter_root (Services := tower (n + m)) now id d = maybe_converge_scatter_root (Services := tower n) now id d) /\
  (forall fuel now plan id e dec source ctx terminal_error,
     apply_routes (SV := tower (n + m)) cfg fuel now plan id e dec source ctx terminal_error d
     = apply_routes (SV := tower n) cfg fuel now plan id e dec source ctx terminal_error d) /\
  (forall now id, request_cancellation (SV := tower (n + m)) now id d = request_cancellation (SV := tower n) now id d).
Proof.
  destruct n as [|k]; [lia|].
  assert (forall now id, agree k ((tower_operations (S k)).1 now id) ((tower_operations (S k + m)).1 now id)) as Hc
    by (intros; apply agree_weaken, tower_agree).
  split_and!; intros; symmetry.
  - by apply (tower_agree (S k) m).
  - by apply (routes_levels cfg _ _ _ _ (SS := tower_shrinking (S k + m)) k Hc (tower_wait_agree (S k) m)).
  - by apply (request_levels _ _ _ _ (SS := tower_shrinking (S k + m)) k Hc).
Qed.
End enough.

Import IntakeSamples.

Lemma tower_suffices_witness :
  (unfinished (scatter_db ExecutionStatus.SUCCEEDED) < 2)%nat /\
  maybe_converge_scatter_root (Services := tower (2 + 3)) 10 (u "root") (scatter_db ExecutionStatus.SUCCEEDED)
  = maybe_converge_scatter_root (Services := tower 2) 10 (u "root") (scatter_db ExecutionStatus.SUCCEEDED).
Proof.
  split; [vm_compute; lia|]. apply (tower_suffices config 2 3 (scatter_db ExecutionStatus.SUCCEEDED)). vm_compute. lia.
Defined.
