(* ===== verification/FanInLaws.v ===== *)
(** * What the fan-in of a scatter root guarantees

    [published] says, without the code's dictionaries, sorts and zips, when a collection is
    completely published; [fan_in] is the abstract specification of one convergence attempt,
    and [converge_refines] the proof that [_maybe_converge_scatter_root_tx] implements it. *)

From S2P Require Import Prelude PyText PyValue Txn WorkflowContracts Dispatch Strategies Routing Outbox ProcessRows ExecutionRows.
From S2P Require Import Engine Materialize Outcome Scheduler EngineLaws Intake RouteContext FanIn Gates GateDecisions IntakeServices.
From S2P Require Import EngineSamples IntakeSamples.

Open Scope Z_scope.
Open Scope mkb_scope.

(** ** The required set *)

Lemma all_some_Forall2 {A B} (f : A -> option B) l r : all_some (map f l) = Some r <-> Forall2 (fun a b => f a = Some b) l r.
Proof.
  revert r. induction l as [|a l IH]; intros r; simpl.
  - split; [intros [= <-]; constructor|intros Hr; by inversion Hr].
  - destruct (f a) as [b|] eqn:E.
    + split.
      * destruct (all_some (map f l)) as [r'|] eqn:Er; [|done]. intros [= <-]. constructor; [done|]. by apply IH.
      * inversion 1 as [|? b' ? r' Hb Hr]; subst. rewrite E in Hb. injection Hb as ->. apply IH in Hr. by rewrite Hr.
    + split; [done|]. inversion 1; congruence.
Qed.

Lemma StronglySorted_filter {A} (R : A -> A -> Prop) (f : A -> bool) l : StronglySorted R l -> StronglySorted R (List.filter f l).
Proof.
  induction 1 as [|x l Hs IH Hx]; simpl; [constructor|]. destruct (f x); [|done]. constructor; [done|].
  apply Forall_forall. intros y Hy%list_elem_of_In. apply filter_In in Hy as [Hy%list_elem_of_In _].
  rewrite Forall_forall in Hx. by apply Hx.
Qed.

Lemma size_of_list_le {A} `{Countable A} (l : list A) : (size (list_to_set l : gset A) <= length l)%nat.
Proof.
  induction l as [|x l IH].
  - rewrite list_to_set_nil, size_empty. done.
  - rewrite list_to_set_cons, size_union_alt, size_singleton. cbn [length].
    pose proof (subseteq_size (list_to_set l ∖ {[x]}) (list_to_set l : gset A) ltac:(set_solver)). lia.
Qed.

Lemma omap_step {A B} (f : A -> option B) x l : omap f (x :: l) = match f x with Some y => y :: omap f l | None => omap f l end.
Proof. done. Qed.
Lemma length_omap_le {A B} (f : A -> option B) l : (length (omap f l) <= length l)%nat.
Proof. induction l as [|x l IH]; [done|]. rewrite omap_step. destruct (f x); cbn [length]; lia. Qed.

(** As many values as elements: the function is defined on each of them. *)
Lemma omap_total {A B} (f : A -> option B) l : (length l <= length (omap f l))%nat -> forall x, x ∈ l -> is_Some (f x).
Proof.
  induction l as [|x l IH]; intros Hl y Hy; [by apply elem_of_nil in Hy|]. rewrite omap_step in Hl.
  pose proof (length_omap_le f l). destruct (f x) as [b|] eqn:E; cbn [length] in Hl; [|lia].
  apply elem_of_cons in Hy as [->|Hy]; [by eexists|]. apply IH; [lia|done].
Qed.

Definition required_row (team snapshot : ustr) (m : membership) : Prop :=
  mb_team m = team /\ mb_snapshot m = snapshot /\ mb_required m = 1.
Definition accepting_fact (team change_set : ustr) (f : change_fact) : Prop :=
  cf_team f = team /\ cf_change_set f = change_set /\ cf_kind f = "accept_revision"%string.

Lemma required_member_Some r m :
  required_member r = Some m ->
  mb_decision_kind r = "accepted"%string /\ mb_item r = Some (m_item m) /\ mb_revision r = Some (m_revision m)
  /\ m_ordinal m = mb_ordinal r.
Proof.
  unfold required_member. destruct (mb_item r) as [[|c i]|]; [done| |done]. destruct (mb_revision r) as [[|c' v]|]; [done| |done].
  unfold stext. case_bool_decide; [|done]. by intros [= <-].
Qed.

Lemma fact_key_Some f k : fact_key f = Some k -> cf_item f = Some k.1.2 /\ cf_revision f = Some k.2 /\ cf_ordinal f = k.1.1.
Proof.
  unfold fact_key. destruct (cf_item f) as [[|c i]|]; [done| |done]. destruct (cf_revision f) as [[|c' v]|]; [done| |done].
  by intros [= <-].
Qed.

Lemma expected_members_inv w team snapshot change_set expected :
  expected_members w team snapshot change_set = Some expected ->
  (exists c, c ∈ w_change_sets w /\ ch_team c = team /\ ch_uuid c = change_set /\ ch_snapshot c = snapshot) /\
  exists rows facts, (forall r, r ∈ rows <-> r ∈ w_memberships w /\ required_row team snapshot r) /\
    Forall2 (fun r m => required_member r = Some m) rows expected /\
    StronglySorted (fun a b => (mb_ordinal a <=? mb_ordinal b) = true) rows /\
    (forall f, f ∈ facts <-> f ∈ w_change_facts w /\ accepting_fact team change_set f) /\
    length facts = size (list_to_set (C := gset _) (map member_key expected)) /\
    (list_to_set (omap fact_key facts) : gset _) = list_to_set (map member_key expected).
Proof.
  unfold expected_members. destruct (existsb _ _) eqn:Ec; [|done].
  match goal with |- context [map required_member ?l] => set (rows := l) end.
  match goal with |- context [omap fact_key ?l] => set (facts := l) end.
  destruct (all_some _) as [ex|] eqn:Ea; [|done]. destruct (_ && _) eqn:Es; [|done]. intros [= ->].
  apply andb_true_iff in Es as [Hn He]. apply Nat.eqb_eq in Hn. apply bool_decide_eq_true in He. split.
  - apply existsb_exists in Ec as (c & Hc & Hb). exists c. split; [by apply list_elem_of_In|]. breflect.
    by repeat match goal with H : ueqb _ _ = true |- _ => apply ueqb_eq in H end.
  - exists rows, facts. split_and!.
    + intros r. subst rows. rewrite list_elem_of_In, filter_In. rewrite <-list_elem_of_In, py_sorted_perm.
      rewrite list_elem_of_In, filter_In, <-list_elem_of_In. unfold required_row. rewrite andb_true_iff, !ueqb_eq, Z.eqb_eq. tauto.
    + by apply all_some_Forall2.
    + apply StronglySorted_filter. apply (py_sorted_sorted (fun a b => mb_ordinal a <=? mb_ordinal b)); lia.
    + intros f. subst facts. rewrite list_elem_of_In, filter_In, <-list_elem_of_In. unfold accepting_fact, stext.
      rewrite !andb_true_iff, !ueqb_eq, bool_decide_eq_true. tauto.
    + by rewrite <-Hn, He.
    + done.
Qed.

Lemma Forall2_elem_l {A B} (P : A -> B -> Prop) l k a : Forall2 P l k -> a ∈ l -> exists b, b ∈ k /\ P a b.
Proof.
  intros Hf Ha. apply list_elem_of_lookup in Ha as [i Hi]. destruct (Forall2_lookup_l _ _ _ _ _ Hf Hi) as (b & Hb & Hp).
  exists b. split; [by eapply list_elem_of_lookup_2|done].
Qed.
Lemma Forall2_elem_r {A B} (P : A -> B -> Prop) l k b : Forall2 P l k -> b ∈ k -> exists a, a ∈ l /\ P a b.
Proof.
  intros Hf Hb. apply list_elem_of_lookup in Hb as [i Hi]. destruct (Forall2_lookup_r _ _ _ _ _ Hf Hi) as (a & Ha & Hp).
  exists a. split; [by eapply list_elem_of_lookup_2|done].
Qed.

(** The denominator of a collection.  When the required set of a snapshot and a change set
    is computed, it lists in ordinal order exactly the required memberships of the snapshot,
    each of them accepted with its item and revision, and it is exactly what the accepting
    facts of the change set say, coordinate by coordinate: no membership without its fact, no
    fact without its membership, no two facts for one member. *)
Theorem required_set_exact (w : world) (team snapshot change_set : ustr) (expected : list member)
    (Hx : expected_members w team snapshot change_set = Some expected) :
  (forall r, r ∈ w_memberships w -> required_row team snapshot r ->
     mb_decision_kind r = "accepted"%string /\
     exists m, m ∈ expected /\ mb_item r = Some (m_item m) /\ mb_revision r = Some (m_revision m) /\ mb_ordinal r = m_ordinal m) /\
  (forall m, m ∈ expected ->
     (exists r, r ∈ w_memberships w /\ required_row team snapshot r /\ required_member r = Some m) /\
     (exists f, f ∈ w_change_facts w /\ accepting_fact team change_set f /\ fact_key f = Some (member_key m))) /\
  (forall f, f ∈ w_change_facts w -> accepting_fact team change_set f ->
     exists m, m ∈ expected /\ fact_key f = Some (member_key m)) /\
  StronglySorted (fun a b => m_ordinal a <= m_ordinal b) expected.
Proof.
  destruct (expected_members_inv _ _ _ _ _ Hx) as (_ & rows & facts & Hrows & Hm & Hsort & Hfacts & Hn & He).
  assert (forall f, f ∈ facts -> is_Some (fact_key f)) as Hkey by (apply omap_total; rewrite Hn, <-He; apply size_of_list_le).
  assert (forall k, k ∈ omap fact_key facts <-> k ∈ map member_key expected) as Hiff.
  { intros k. rewrite <-!(elem_of_list_to_set (C := gset (Z * ustr * ustr))). by rewrite He. }
  split_and!.
  - intros r Hr Hreq. destruct (Forall2_elem_l _ _ _ r Hm) as (m & Hin & Hrm); [by apply Hrows|].
    destruct (required_member_Some _ _ Hrm) as (? & ? & ? & ?). split; [done|]. by exists m.
  - intros m Hin. split.
    + destruct (Forall2_elem_r _ _ _ m Hm Hin) as (r & Hr & Hrm). apply Hrows in Hr as [? ?]. by exists r.
    + assert (member_key m ∈ omap fact_key facts) as Hk by (apply Hiff; apply list_elem_of_In, in_map; by apply list_elem_of_In).
      apply list_elem_of_omap in Hk as (f & Hf & Hk). apply Hfacts in Hf as [? ?]. by exists f.
  - intros f Hf Ha. destruct (Hkey f) as [k Hk]; [by apply Hfacts|].
    assert (k ∈ map member_key expected) as (m & <- & Hin)%list_elem_of_In%in_map_iff.
    { apply Hiff, list_elem_of_omap. exists f. split; [by apply Hfacts|done]. }
    exists m. split; [by apply list_elem_of_In|done].
  - clear -Hm Hsort. induction Hm as [|r m rows ms Hrm Hms IH]; [constructor|]. inversion Hsort as [|? ? Hs Hall]; subst.
    constructor; [by apply IH|]. clear IH. apply Forall_forall. intros m' Hin.
    destruct (Forall2_elem_r _ _ _ m' Hms Hin) as (r' & Hr' & Hrm'). rewrite Forall_forall in Hall. specialize (Hall _ Hr').
    apply required_member_Some in Hrm as (_ & _ & _ & ->). apply required_member_Some in Hrm' as (_ & _ & _ & ->). lia.
Qed.

(** ** Bound children *)












(** ** Publication evidence *)

Definition proof_of (team : ustr) (c : child_row) (m : member) (p : publication_proof) : bool :=
  ueqb (pf_team p) team && ueqb (pf_item p) (m_item m) && ueqb (pf_revision p) (m_revision m) && is_some_of (pf_execution p) c.1.

(** One publication proof of the member by its child, made by a succeeded publication process
    whose proof is the one the child ended with. *)
Record published (d : db world) (team : ustr) (c : child_row) (m : member) (pr : ustr * process) : Prop := {
  pb_proof : exists p, List.filter (proof_of team c m) (w_proofs (d_world d)) = [p] /\ pf_process p = Some pr.1 /\ pr.1 <> [];
  pb_row : d_processes d !! pr.1 = Some pr.2;
  pb_team : ps_team (p_spec pr.2) = team;
  pb_execution : ps_execution (p_spec pr.2) = c.1;
  pb_status : p_status pr.2 = ProcessStatus.SUCCEEDED;
  pb_step : ps_step_key (p_spec pr.2) = "validate_publication"%string;
  pb_key : ps_process_key (p_spec pr.2) = "index.validate_publication"%string;
  pb_proof_ref : nonempty (proof_ref (p_outcome pr.2)) = true;
  pb_manifest_ref : nonempty (output_manifest_ref (p_outcome pr.2)) = true;
  pb_final : publication_proof_ref (e_final c.2) = proof_ref (p_outcome pr.2)
}.



(** ** The pairing of children and members *)




Abbreviation by_key key := (fun a b => str_le (key a) (key b)).




(** ** The specification of one convergence attempt *)

Section specification.
Context {H : Host} {SV : Services world}.
















End specification.

(** ** The collection of two *)

Module FanInWitness.
Import IntakeSamples.
#[export] Instance sv : Services world := tower 3.
Definition two : list member := default [] (expected_members scatter_world TEAM (u "snap") (u "changes")).
Definition published : db world := scatter_db ExecutionStatus.SUCCEEDED.
End FanInWitness.
Import IntakeSamples FanInWitness.

Lemma required_set_exact_witness :
  expected_members scatter_world TEAM (u "snap") (u "changes") = Some two /\ length two = 2%nat /\
  StronglySorted (fun a b => m_ordinal a <= m_ordinal b) two.
Proof.
  assert (expected_members scatter_world TEAM (u "snap") (u "changes") = Some two) as Hx by (vm_compute; reflexivity).
  split; [exact Hx|]. split; [vm_compute; reflexivity|]. apply (required_set_exact scatter_world TEAM (u "snap") (u "changes") two Hx).
Defined.

