(* ===== verification/GateLaws.v ===== *)
(** * What a human-review gate guarantees

    A gate opens only on evidence and freezes a target that names the very revision at which
    its execution waits; it takes one decision, on the target that was reviewed; and the
    consumer of the decision moves no execution but one that waits on this gate or already
    runs. *)

From S2P Require Import Prelude PyText PyValue Txn PublicData WorkflowContracts Dispatch Strategies Routing Outbox ProcessRows ExecutionRows.
From S2P Require Import Engine Materialize Outcome Scheduler EngineLaws EngineRuns.
From S2P Require Import Intake RouteContext FanIn Gates GateDecisions IntakeServices.
From S2P Require Import EngineSamples IntakeSamples.

Open Scope Z_scope.
Open Scope mkb_scope.

(** ** Opening *)

Section opening.
Context {H : Host} {SV : Services world} {SL : ServicesLaws world SV}.

Definition evidence_reference (team gate_id : ustr) (o : stored_object) (r : object_reference) : Prop :=
  or_team r = team /\ or_object r = obj_uuid o /\ or_purpose r = "gate_evidence"%string /\ or_owner_kind r = "execution_gate"%string
  /\ or_owner r = gate_id /\ or_digest r = obj_digest o /\ or_size r = obj_size o.

(** Everything but the object references and the identifiers is left alone. *)
Lemma hold_all_Ok team gate_id l d x d' :
  hold_all team gate_id l d = Ok (x, d') ->
  d_executions d' = d_executions d /\ w_gates (d_world d') = w_gates (d_world d) /\
  w_gate_targets (d_world d') = w_gate_targets (d_world d) /\
  exists rs, w_references (d_world d') = w_references (d_world d) ++ rs /\ Forall2 (evidence_reference team gate_id) l rs.
Proof.
  revert d. induction l as [|o l IH]; intros d; cbn [hold_all].
  - intros [= _ <-]. split_and!; [done..|]. exists []. by rewrite app_nil_r.
  - intros ([] & d1 & Ho & Hl)%bind_Ok. unfold hold_evidence in Ho. apply bind_Ok in Ho as (k & d2 & [= <- <-] & [= <-]).
    destruct (IH _ Hl) as (He & Hg & Ht & rs & Hr & Hf). cbn in *. split_and!; [done..|].
    eexists (_ :: rs). rewrite Hr, <-app_assoc. split; [done|]. by constructor.
Qed.

Definition field (v : pyval) (k : string) : option pyval := match v with PDict d => dget d (u k) | _ => None end.

(** What the opening of a gate leaves behind. *)
Record gate_opened (id : ustr) (e : execution) (kind : string) (ev : evidence) (gate_id : ustr) (d d' : db world) : Prop := {
  go_gate : exists g, w_gates (d_world d') !! gate_id = Some g /\ w_gates (d_world d) !! gate_id = None /\
    g_status g = gate_open /\ g_revision g = 0 /\ g_execution g = id /\ g_kind g = kind /\ g_team g = ei_team (e_id e) /\
    g_task g = ei_task (e_id e) /\ g_generation g = ei_generation (e_id e);
  go_execution : exists e', d_executions d' !! id = Some e' /\ e_status e' = ExecutionStatus.WAITING /\ e_id e' = e_id e /\
    waiting_reason (e_wait e') = Some "human_review"%string /\ waiting_ref (e_wait e') = Some gate_id /\
    e_row_revision e' = e_row_revision e + 1;
  go_target : exists t review, w_gate_targets (d_world d') !! gate_id = Some t /\ gt_review_target t = Some review /\
    gt_team t = ei_team (e_id e) /\ stable_digest review = Ok (gt_digest t) /\
    field review "waiting_ref" = Some (PStr gate_id) /\
    field review "expected_execution_revision" = Some (PInt (e_row_revision e + 1)) /\
    field review "team_uuid" = Some (PStr (ei_team (e_id e))) /\ field review "task_uuid" = Some (PStr (ei_task (e_id e))) /\
    field review "generation" = Some (PInt (ei_generation (e_id e))) /\
    field review "accept_process" = Some (ev_accept_process ev) /\ field review "preflight_outcome" = Some (ev_preflight_outcome ev) /\
    field review "intake_refs" = Some (ev_intake_refs ev) /\ field review "clean_artifact" = Some (ev_clean_artifact ev) /\
    field review "allowed_actions" = Some (texts [u "approve"; u "reject"]);
  go_held : exists rs, w_references (d_world d') = w_references (d_world d) ++ rs /\
    Forall2 (evidence_reference (ei_team (e_id e)) gate_id) (ev_objects ev) rs
}.

Lemma gate_opens_aux now id step route_digest source context d d' :
  enter_human_review now id step route_digest source context d = Ok (true, d') ->
  fact_is context "admission_result" "human_review_required" = true /\
  exists e ev gate_id, d_executions d !! id = Some e /\ stopping (e_status e) = false /\
    gate_evidence id e source context d = Ok ev /\ gate_opened id e (default ""%string (control_key step)) ev gate_id d d'.
Proof.
  intros Hd. unfold enter_human_review in Hd. cbn zeta in Hd. apply bind_Ok in Hd as (w & d0 & [= <- <-] & Hd).
  destruct (open_gate_of _ _ _); [done|]. apply bind_Ok in Hd as (e & d0 & [-> He]%execution_row_Ok & Hd).
  destruct (stopping (e_status e)) eqn:Es; [done|]. apply bind_Ok in Hd as (dd & d0 & [= <- <-] & Hd). cbn in Hd.
  destruct (gate_evidence id e source context d) as [ev|x] eqn:Ev.
  2: { destruct (bool_decide _); [|done]. by apply bind_Ok in Hd as (? & ? & _ & ?). }
  split. { unfold gate_evidence in Ev. by destruct (fact_is _ _ _). }
  apply bind_Ok in Hd as (gate_id & d1 & [= <- <-] & Hd).
  destruct (projected_actual_digest _) as [actual|]; [|by apply bind_Ok in Hd as (? & ? & _ & ?)].
  cbn zeta in Hd. apply bind_Ok in Hd as (digest & d1 & [Hdg ->]%lift_Ok & Hd).
  apply bind_Ok in Hd as (binding & d1 & [_ ->]%lift_Ok & Hd).
  apply bind_Ok in Hd as ([] & d1 & Hg & Hd). unfold insert_gate in Hg. apply bind_Ok in Hg as (w & d2 & [= <- <-] & Hg).
  apply bind_Ok in Hg as (? & d2 & [Hn ->]%require_Ok & [= <-]).
  apply bind_Ok in Hd as ([] & d1 & Ht & Hd). unfold insert_target in Ht. apply bind_Ok in Ht as (w & d2 & [= <- <-] & Ht).
  apply bind_Ok in Ht as (? & d2 & [_ ->]%require_Ok & [= <-]).
  apply bind_Ok in Hd as ([] & d1 & Hh & Hd). destruct (hold_all_Ok _ _ _ _ _ _ Hh) as (Hex & Hgs & Hts & rs & Hrs & Hf).
  apply bind_Ok in Hd as (b & d2 & Hu & Hd). apply bind_Ok in Hd as (? & d3 & [-> ->]%require_Ok & [= <-]).
  apply update_execution_Ok in Hu as [(_ & e1 & e' & He1 & Hs & ->)|(? & _)]; [|done].
  rewrite Hex in He1. cbn in He1. rewrite He in He1. injection He1 as <-. unfold ex_gate_wait in Hs.
  destruct (_ && _) eqn:E; [|done]. injection Hs as <-.
  exists e, ev, (uuid7 (d_uuids d)). split_and!; [done..|]. split; cbn.
  - rewrite Hgs. cbn. rewrite lookup_insert_eq. eexists. split; [done|]. split; [|done].
    apply negb_true_iff, bool_decide_eq_false in Hn. by apply eq_None_not_Some.
  - rewrite lookup_insert_eq. eexists. by split.
  - rewrite Hts. cbn. rewrite lookup_insert_eq. do 2 eexists. split; [done|]. split; [done|]. split; [done|]. split; [exact Hdg|].
    split_and!; vm_compute; reflexivity.
  - exists rs. cbn in Hrs. done.
Qed.

(** What a reviewer approves is what was there.  A human-review control that opens a gate
    does so because the admission result asked for it and durable evidence was found; the
    gate is new, open and belongs to the execution; its target is stored under its own digest
    and carries exactly that evidence; the execution waits on this gate at the very revision
    that the target expects; and every evidence object is held by a reference of the gate. *)
Theorem gate_opens (now : Z) (id : ustr) (step : WorkflowStepDefinition) (route_digest : ustr) (source : option source_row)
    (context : pydict) (d d' : db world) (Hrun : enter_human_review now id step route_digest source context d = Ok (true, d')) :
  fact_is context "admission_result" "human_review_required" = true /\
  exists e ev gate_id, d_executions d !! id = Some e /\ stopping (e_status e) = false /\
    gate_evidence id e source context d = Ok ev /\ gate_opened id e (default ""%string (control_key step)) ev gate_id d d'.
Proof. by eapply gate_opens_aux. Qed.
End opening.

(** ** Deciding *)

Section deciding.
Context {H : Host} {SV : Services world} (cfg : engine_config).

Lemma find_unique {A} (f : A -> bool) l a : a ∈ l -> f a = true -> (forall b, b ∈ l -> f b = true -> b = a) -> List.find f l = Some a.
Proof.
  intros Ha Hf Hu. destruct (List.find f l) as [b|] eqn:E.
  - apply find_some in E as [Hb Hfb]. f_equal. apply Hu; [by apply list_elem_of_In|done].
  - rewrite (find_none f l E a) in Hf; [done|by apply list_elem_of_In].
Qed.

Lemma decision_of_key_None w gate_id key k g :
  decision_of_key w gate_id key = None -> w_gate_decisions w !! k = Some g -> gd_gate g = gate_id -> gd_idempotency_key g = key -> False.
Proof.
  intros Hn Hk Hg Hi. assert (In (k, g) (map_to_list (w_gate_decisions w))) as Hin by by apply list_elem_of_In, elem_of_map_to_list.
  pose proof (find_none _ _ Hn _ Hin) as Hf. cbn in Hf. by rewrite Hg, Hi, !ueqb_refl in Hf.
Qed.

(** The decision that was just recorded is the one its key names. *)
Lemma decision_of_key_new w k g :
  w_gate_decisions w !! k = None -> decision_of_key w (gd_gate g) (gd_idempotency_key g) = None ->
  decision_of_key (set_gate_decisions (<[k := g]> (w_gate_decisions w)) w) (gd_gate g) (gd_idempotency_key g) = Some (k, g).
Proof.
  intros Hk Hn. apply find_unique.
  - apply elem_of_map_to_list. cbn. by rewrite lookup_insert_eq.
  - cbn. by rewrite !ueqb_refl.
  - intros [k' g'] Hin%elem_of_map_to_list Hf. cbn in *. apply lookup_insert_Some in Hin as [[<- <-]|[_ Hin]]; [done|].
    apply andb_true_iff in Hf as [Hg%ueqb_eq Hi%ueqb_eq]. exfalso. by eapply decision_of_key_None.
Qed.

(** A gate differs from its closed form in what a decision writes only. *)
Lemma parse_gate_target_same g g' gate_id t :
  g_team g' = g_team g -> g_task g' = g_task g -> g_generation g' = g_generation g ->
  parse_gate_target g' gate_id t = parse_gate_target g gate_id t.
Proof. unfold parse_gate_target. by intros -> -> ->. Qed.

(** The state in which a decision commits, and what it commits. *)
Record gate_decided (now : Z) (team task gate_id : ustr) (r : gate_request) (actor k : ustr) (d d' : db world) : Prop := {
  dc_gate : exists g, w_gates (d_world d) !! gate_id = Some g /\ g_team g = team /\ g_task g = task /\ g_status g = gate_open /\
    g_revision g = gr_expected_revision r /\
    (exists g', close_gate now (gr_action r) (g_revision g) g = Some g' /\ w_gates (d_world d') = <[gate_id := g']> (w_gates (d_world d))) /\
    exists e t actions revision, d_executions d !! g_execution g = Some e /\ e_status e = ExecutionStatus.WAITING /\
      waiting_ref (e_wait e) = Some gate_id /\ w_gate_targets (d_world d) !! gate_id = Some t /\ gt_team t = team /\
      gt_digest t = gr_target_digest r /\ parse_gate_target g gate_id t = Ok (actions, revision) /\
      gr_action r ∈ actions /\ e_row_revision e = revision;
  dc_decision : exists digest, stable_digest (command_value r actor) = Ok digest /\ w_gate_decisions (d_world d) !! k = None /\
    decision_of_key (d_world d) gate_id (gr_idempotency_key r) = None /\
    w_gate_decisions (d_world d') =
      <[k := Build_gate_decision gate_id team (gr_expected_revision r) (gr_action r) actor (gr_idempotency_key r)
               (gr_target_digest r) digest]> (w_gate_decisions (d_world d));
  dc_visible : is_Some (d_tasks d !! (team, task)) /\ task_deleted (d_world d) team task = false;
  dc_targets : w_gate_targets (d_world d') = w_gate_targets (d_world d);
  dc_deleted : w_deleted_tasks (d_world d') = w_deleted_tasks (d_world d);
  dc_executions : d_executions d' = d_executions d;
  dc_processes : d_processes d' = d_processes d;
  dc_tasks : d_tasks d' = d_tasks d
}.

Lemma gate_and_target_Ok team task gate_id w g t data :
  gate_and_target team task gate_id w = Ok (g, t, data) ->
  w_gates w !! gate_id = Some g /\ g_team g = team /\ g_task g = task /\ w_gate_targets w !! gate_id = Some t /\
  gt_team t = team /\ parse_gate_target g gate_id t = Ok data.
Proof.
  unfold gate_and_target. destruct (w_gates w !! gate_id) as [g'|]; [|done]. intros Hx.
  apply rbind_Ok in Hx as (? & Hc%ensure_Ok & Hx). apply andb_true_iff in Hc as [Hc1%ueqb_eq Hc2%ueqb_eq].
  destruct (w_gate_targets w !! gate_id) as [t'|]; [|done].
  apply rbind_Ok in Hx as (? & Hc%ensure_Ok & Hx). apply ueqb_eq in Hc. apply rbind_Ok in Hx as (data' & Hp & [= <- <- <-]). done.
Qed.

Lemma enqueue_frame now team kind payload key (d : db world) x d' :
  enqueue now team kind payload key d = Ok (x, d') ->
  d_executions d' = d_executions d /\ d_processes d' = d_processes d /\ d_tasks d' = d_tasks d /\ d_world d' = d_world d.
Proof.
  unfold enqueue. intros (k & d1 & [= <- <-] & Hd)%bind_Ok. apply rbind_Ok in Hd as (t & _ & [= _ <-]). done.
Qed.

Lemma decide_gate_inv now team task gate_id r actor d b k d' :
  decide_gate cfg now team task gate_id r actor d = Ok ((b, k), d') ->
  (b = true /\ d' = d /\ exists digest dec, stable_digest (command_value r actor) = Ok digest /\
     decision_of_key (d_world d) gate_id (gr_idempotency_key r) = Some (k, dec) /\ gd_digest dec = digest) \/
  (b = false /\ gate_decided now team task gate_id r actor k d d').
Proof.
  unfold decide_gate. intros (digest & d0 & [Hdg ->]%lift_Ok & Hd)%bind_Ok. apply bind_Ok in Hd as (dd & d0 & [= <- <-] & Hd).
  destruct (d_tasks _ !! _) as [t|] eqn:Et; [|done]. cbn zeta in Hd.
  apply bind_Ok in Hd as (? & d0 & [Hdel ->]%require_Ok & Hd).
  apply bind_Ok in Hd as ([[g target] [actions revision]] & d0 & [Hgt ->]%lift_Ok & Hd).
  destruct (gate_and_target_Ok _ _ _ _ _ _ _ Hgt) as (Hg & Hgteam & Hgtask & Ht & Hgt_team & Hp). cbn in Hd.
  destruct (decision_of_key _ _ _) as [[k0 existing]|] eqn:Ek.
  - apply bind_Ok in Hd as (? & d0 & [He ->]%require_Ok & [= <- <- <-]). apply ueqb_eq in He. left. split_and!; [done..|].
    exists digest, existing. split_and!; [done|done|done].
  - right. do 6 (apply bind_Ok in Hd as (? & ? & [? ->]%require_Ok & Hd)).
    apply bind_Ok in Hd as (k1 & d1 & Hi & Hd). unfold insert_decision in Hi. apply bind_Ok in Hi as (k2 & d2 & [= <- <-] & Hi).
    apply bind_Ok in Hi as (w & d2 & [= <- <-] & Hi). apply bind_Ok in Hi as (? & d2 & [Hfresh ->]%require_Ok & Hi).
    apply bind_Ok in Hi as ([] & d3 & [= <-] & [= <- <-]).
    apply bind_Ok in Hd as (updated & d3 & Hu & Hd). apply bind_Ok in Hd as (? & d4 & [-> ->]%require_Ok & Hd).
    apply bind_Ok in Hd as ([] & d5 & Hq & [= <- <- <-]). destruct (enqueue_frame _ _ _ _ _ _ _ _ Hq) as (Hqe & Hqp & Hqt & Hqw).
    unfold update_gate in Hu. cbn in Hu. rewrite Hg in Hu. cbn in Hu. destruct (close_gate _ _ _ g) as [g'|] eqn:Ec; [|done].
    injection Hu as <-. split; [done|].
    apply andb_true_iff in Hfresh as [Hf1 _]. apply negb_true_iff, bool_decide_eq_false in Hf1. apply eq_None_not_Some in Hf1.
    breflect.
    repeat match goal with Hx : ueqb _ _ = true |- _ => apply ueqb_eq in Hx | Hx : (_ =? _) = true |- _ => apply Z.eqb_eq in Hx end.
    split; rewrite ?Hqe, ?Hqp, ?Hqt, ?Hqw; try done.
    + exists g. split_and!; try done.
      * exists g'. split; [|done]. match goal with Hx : g_revision g = _ |- _ => by rewrite Hx end.
      * destruct (d_executions d !! g_execution g) as [e|]; [|done]. breflect.
        exists e, target, actions, revision. split_and!; try done.
        -- unfold ex_in in *. breflect. by apply list_elem_of_singleton.
        -- by apply Z.eqb_eq.
    + exists digest. by split_and!.
Qed.

Lemma parse_gate_target_closed now a revision g g' gate_id t :
  close_gate now a revision g = Some g' -> parse_gate_target g' gate_id t = parse_gate_target g gate_id t /\
  g_team g' = g_team g /\ g_task g' = g_task g /\ g_status g' = decided_status a.
Proof. unfold close_gate. destruct (_ && _); [|done]. intros [= <-]. by split; [apply parse_gate_target_same|]. Qed.

(** The gate of a committed decision, as its next reader finds it. *)
Lemma decided_gate_read now team task gate_id r actor k d d' :
  gate_decided now team task gate_id r actor k d d' ->
  exists g t data, gate_and_target team task gate_id (d_world d') = Ok (g, t, data) /\ g_status g <> gate_open.
Proof.
  intros [(g & Hg & Ht & Hk & _ & _ & (g' & Hc & Hg') & (e & t & actions & revision & _ & _ & _ & Htg & Hteam & _ & Hp & _)) _ _ Htargets _ _ _ _].
  destruct (parse_gate_target_closed _ _ _ _ _ gate_id t Hc) as (Hp' & Ht' & Hk' & Hs). exists g', t, (actions, revision).
  unfold gate_and_target. rewrite Hg', lookup_insert_eq, Ht', Hk', Ht, Hk, !ueqb_refl, Htargets, Htg, Hteam, ueqb_refl, Hp', Hp. cbn.
  split; [done|]. rewrite Hs. by destruct (gr_action r).
Qed.

(** C4: A gate takes one decision.  A decision that commits closes an open gate at the expected
    revision, on the frozen target that its digest names, with an action that the target
    allows, while the execution waits on this gate at the revision the target expects; it
    records itself, writes no execution, process or task row, and leaves the rest to its
    outbox delivery.  Sending the same command again returns the same decision and writes
    nothing, and no command after it commits a second decision. *)
Theorem gate_decided_once (now : Z) (team task gate_id : ustr) (r : gate_request) (actor k : ustr) (d d' : db world)
    (Hrun : decide_gate cfg now team task gate_id r actor d = Ok ((false, k), d')) :
  gate_decided now team task gate_id r actor k d d' /\
  (forall now', decide_gate cfg now' team task gate_id r actor d' = Ok ((true, k), d')) /\
  (forall now' r' actor' b k' d'', decide_gate cfg now' team task gate_id r' actor' d' = Ok ((b, k'), d'') -> b = true /\ d'' = d').
Proof.
  destruct (decide_gate_inv _ _ _ _ _ _ _ _ _ _ Hrun) as [(? & _)|(_ & Hdec)]; [done|]. split; [exact Hdec|].
  destruct (decided_gate_read _ _ _ _ _ _ _ _ _ Hdec) as (g & t & [actions revision] & Hgt & Hopen).
  destruct Hdec as [_ (digest & Hdg & Hk & Hkey & Hds) [[tk Htk] Hdel] _ Hdel' _ _ Htasks]. split.
  - intros now'. unfold decide_gate. rewrite (bind_run _ _ _ _ _ (lift_run _ _ d' Hdg)). rewrite (bind_run _ _ d' d' d') by done.
    rewrite Htasks, Htk. cbn zeta. unfold task_deleted in *. rewrite Hdel', Hdel. rewrite (bind_run _ _ d' tt d') by done.
    rewrite (bind_run _ _ _ _ _ (lift_run _ _ d' Hgt)). cbn.
    assert (decision_of_key (d_world d') gate_id (gr_idempotency_key r) =
      Some (k, Build_gate_decision gate_id team (gr_expected_revision r) (gr_action r) actor (gr_idempotency_key r) (gr_target_digest r) digest)) as ->.
    { pose proof (decision_of_key_new (d_world d) k (Build_gate_decision gate_id team (gr_expected_revision r) (gr_action r) actor
        (gr_idempotency_key r) (gr_target_digest r) digest) Hk Hkey) as Hn. unfold decision_of_key in *. rewrite Hds. exact Hn. }
    cbn. by rewrite ueqb_refl.
  - intros now' r' actor' b k' d'' Hd. apply decide_gate_inv in Hd as [(-> & -> & _)|(-> & Hdec)]; [done|]. exfalso.
    destruct Hdec as [(g2 & Hg2 & _ & _ & Hs & _) _ _ _ _ _ _ _]. destruct (gate_and_target_Ok _ _ _ _ _ _ _ Hgt) as (Hg3 & _). congruence.
Qed.

(** ** Consuming a decision *)

Lemma resume_waiting_Ok now id gate_id e (d : db world) e' d' :
  d_executions d !! id = Some e -> resume_waiting now id gate_id e d = Ok (e', d') ->
  (e_status e = ExecutionStatus.WAITING /\ waiting_ref (e_wait e) = Some gate_id /\ e_status e' = ExecutionStatus.READY) \/
  (e_status e <> ExecutionStatus.WAITING /\ e' = e).
Proof.
  intros He. unfold resume_waiting. destruct (ex_in e _) eqn:Ew.
  - intros (b & d1 & Hu & Hd)%bind_Ok. apply bind_Ok in Hd as (? & d2 & [-> ->]%require_Ok & Hd).
    apply execution_row_Ok in Hd as [-> He']. left.
    apply update_execution_Ok in Hu as [(_ & e1 & e2 & He1 & Hf & ->)|(? & _)]; [|done].
    rewrite He in He1. injection He1 as <-. cbn in He'. rewrite lookup_insert_eq in He'. injection He' as <-.
    unfold ex_gate_resume in Hf. destruct (_ && _) eqn:E; [|done]. injection Hf as <-. breflect.
    split_and!; [|done|done]. unfold ex_in in Ew. breflect. by apply list_elem_of_singleton.
  - intros [= <- <-]. right. split; [|done]. intros E. unfold ex_in in Ew. rewrite E in Ew. done.
Qed.

Lemma consume_inv now decision_id (d : db world) b d' :
  consume_gate_decision cfg now decision_id d = Ok (b, d') ->
  exists dec g e, w_gate_decisions (d_world d) !! decision_id = Some dec /\ w_gates (d_world d) !! gd_gate dec = Some g /\
    d_executions d !! g_execution g = Some e /\ g_status g = decided_status (gd_action dec) /\
    target_for_action (d_world d) (gd_gate dec) (gd_action dec) = Ok (gd_target_digest dec) /\
    ((stopping (e_status e) = true /\ d' = d /\ b = negb (terminal_execution (e_status e)) || bool_decide (e_status e = ExecutionStatus.CANCELLED)) \/
     (stopping (e_status e) = false /\ gd_action dec <> reclean /\
      ((e_status e = ExecutionStatus.WAITING /\ waiting_ref (e_wait e) = Some (gd_gate dec)) \/
       e_status e = ExecutionStatus.READY \/ e_status e = ExecutionStatus.RUNNING))).
Proof.
  unfold consume_gate_decision. intros (w & d0 & [= <- <-] & Hd)%bind_Ok.
  destruct (w_gate_decisions (d_world d) !! decision_id) as [dec|] eqn:Ed; cbn in Hd; [|done].
  destruct (w_gates (d_world d) !! gd_gate dec) as [g|] eqn:Eg; cbn in Hd; [|done].
  apply bind_Ok in Hd as (digest & d0 & [Ht ->]%lift_Ok & Hd). apply bind_Ok in Hd as (? & d0 & [Hdg ->]%require_Ok & Hd).
  apply ueqb_eq in Hdg as <-. apply bind_Ok in Hd as (? & d0 & [Hs%bool_decide_eq_true ->]%require_Ok & Hd).
  apply bind_Ok in Hd as (e & d0 & [-> He]%execution_row_Ok & Hd). exists dec, g, e. split_and!; [done..|].
  destruct (ex_in e [ExecutionStatus.CANCELLING; ExecutionStatus.CANCELLED]) eqn:Ec.
  { injection Hd as <- <-. left. unfold ex_in in Ec. apply bool_decide_eq_true in Ec.
    apply elem_of_cons in Ec as [E|E%list_elem_of_singleton]; by rewrite E. }
  assert (e_status e <> ExecutionStatus.CANCELLING) as Hcn by (intros E; unfold ex_in in Ec; by rewrite E in Ec).
  assert (e_status e <> ExecutionStatus.CANCELLED) as Hcd by (intros E; unfold ex_in in Ec; by rewrite E in Ec).
  destruct (terminal_execution (e_status e)) eqn:Et.
  { injection Hd as <- <-. left. unfold stopping. rewrite Et, orb_true_r, bool_decide_eq_false_2 by done. done. }
  right. split; [unfold stopping; by rewrite Et, bool_decide_eq_false_2|].
  apply bind_Ok in Hd as (e' & d1 & Hr & Hd). apply bind_Ok in Hd as (plan & d2 & _ & Hd).
  apply bind_Ok in Hd as (control & d3 & _ & Hd). destruct (decision_route _ _) as [[selector terminal_error]|] eqn:Er; [|done].
  apply bind_Ok in Hd as (? & d4 & [Hq _]%require_Ok & _). split; [by intros E; rewrite E in Er|].
  destruct (resume_waiting_Ok _ _ _ _ _ _ _ He Hr) as [(Hw & Href & _)|(Hw & ->)]; [by left|]. right.
  unfold ex_in in Hq. apply orb_true_iff in Hq as [Hq|Hq].
  - apply bool_decide_eq_true, elem_of_cons in Hq as [?|?%list_elem_of_singleton]; auto.
  - apply andb_true_iff in Hq as [_ Hq%bool_decide_eq_true%list_elem_of_singleton]. done.
Qed.

(** The consumer of a decision moves no execution that it does not control.  When it
    succeeds, the gate of the decision was closed by that very action, on the frozen target
    that the decision names and that allows the action; a cancelled or cancelling execution
    and a finished one are left exactly as they are; and any other execution was waiting on
    this gate, or was ready or running.  An execution that waits for something else makes it
    raise, whatever the decision says. *)
Theorem consume_gate_decision_guarded (now : Z) (decision_id : ustr) (d : db world) :
  (forall b d', consume_gate_decision cfg now decision_id d = Ok (b, d') ->
     exists dec g e, w_gate_decisions (d_world d) !! decision_id = Some dec /\ w_gates (d_world d) !! gd_gate dec = Some g /\
       d_executions d !! g_execution g = Some e /\ g_status g = decided_status (gd_action dec) /\
       target_for_action (d_world d) (gd_gate dec) (gd_action dec) = Ok (gd_target_digest dec) /\
       ((stopping (e_status e) = true /\ d' = d /\ b = negb (terminal_execution (e_status e)) || bool_decide (e_status e = ExecutionStatus.CANCELLED)) \/
        (stopping (e_status e) = false /\ gd_action dec <> reclean /\
         ((e_status e = ExecutionStatus.WAITING /\ waiting_ref (e_wait e) = Some (gd_gate dec)) \/
          e_status e = ExecutionStatus.READY \/ e_status e = ExecutionStatus.RUNNING)))) /\
  (forall dec g e, w_gate_decisions (d_world d) !! decision_id = Some dec -> w_gates (d_world d) !! gd_gate dec = Some g ->
     d_executions d !! g_execution g = Some e -> e_status e = ExecutionStatus.WAITING -> waiting_ref (e_wait e) <> Some (gd_gate dec) ->
     exists x, consume_gate_decision cfg now decision_id d = Err x).
Proof.
  split.
  - intros b d' Hd. by apply consume_inv in Hd.
  - intros dec g e Hdec Hg He Hs Hw. destruct (consume_gate_decision cfg now decision_id d) as [[b d']|x] eqn:Hd; [|by exists x].
    exfalso. apply consume_inv in Hd as (dec' & g' & e' & Hdec' & Hg' & He' & _ & _ & Hcase).
    rewrite Hdec in Hdec'. injection Hdec' as <-. rewrite Hg in Hg'. injection Hg' as <-. rewrite He in He'. injection He' as <-.
    rewrite Hs in Hcase. destruct Hcase as [(Hst & _)|(_ & _ & [(_ & ?)|[?|?]])]; [by vm_compute in Hst|congruence..].
Qed.
End deciding.

(** ** The ingest under review *)

Module GateWitness.
Import IntakeSamples.
#[export] Instance sv : Services world := tower 3.
Definition human_review : WorkflowStepDefinition :=
  default (Build_WorkflowStepDefinition "" CONTROL OPTIONAL None None None None None None None [] [] None) review_step.
Abbreviation opening := (enter_human_review 10 (u "root") human_review (u "routes") review_source review_context review_db).
Definition opened : db world := match opening with Ok (_, d) => d | Err _ => review_db end.
Definition target : ustr := match map_to_list (w_gate_targets (d_world opened)) with kv :: _ => gt_digest kv.2 | [] => [] end.
Definition approval : gate_request := Build_gate_request 0 target approve (u "key") None [].
Abbreviation decided := (decide_gate config 11 TEAM TASK (u "id-0") approval (u "actor") opened).
End GateWitness.
Import IntakeSamples GateWitness.

Lemma gate_opens_witness :
  opening = Ok (true, opened) /\ fact_is review_context "admission_result" "human_review_required" = true.
Proof.
  assert (opening = Ok (true, opened)) as Hrun by (vm_compute; reflexivity). split; [exact Hrun|].
  apply (gate_opens 10 (u "root") human_review (u "routes") review_source review_context review_db opened Hrun).
Defined.

Lemma gate_decided_once_witness :
  exists k d', decided = Ok ((false, k), d') /\ gate_decided 11 TEAM TASK (u "id-0") approval (u "actor") k opened d'.
Proof.
  destruct decided as [[[b k] d']|x] eqn:Hrun; [|exfalso; vm_compute in Hrun; discriminate].
  assert (b = false) as -> by (vm_compute in Hrun; congruence). exists k, d'. split; [reflexivity|].
  apply (gate_decided_once config 11 TEAM TASK (u "id-0") approval (u "actor") k opened d' Hrun).
Defined.
