(* ===== verification/RepairLaws.v ===== *)
(** * What the repair sweep guarantees

    The sweep issues only fenced statements and takes no queue place or lease; every ready
    process and every idle execution has a durable intent after it; and a root that succeeded
    without a publication proof makes every pass abort. *)

From S2P Require Import Prelude PyText PyValue Txn WorkflowContracts Dispatch Strategies Routing Outbox ProcessRows ExecutionRows.
From S2P Require Import Engine Materialize Outcome Scheduler EngineLaws Intake RouteContext FanIn Gates GateDecisions IntakeServices.
From S2P Require Import Repair.
From S2P Require Import EngineSamples IntakeSamples.

Open Scope Z_scope.
Open Scope mkb_scope.

Section laws.
Context {H : Host} {SV : Services world} {SL : ServicesLaws world SV}.
Context (cfg : engine_config) (json_extract : ustr -> string -> option ustr) (recovery_window : Z).
Local Abbreviation okay m := (keeps (S := db world) (legal quiet) m).
Local Abbreviation rows := (repair_rows cfg json_extract recovery_window).
Local Abbreviation sweep := (repair_once cfg json_extract recovery_window).

#[local] Hint Resolve keeps_fresh_uuid keeps_enqueue keeps_refresh keeps_project_task keeps_fail_integrity keeps_cancel_tree keeps_loop
  keeps_apply_routes keeps_assert_binding keeps_converge_scatter keeps_promote keeps_recover keeps_join : legal.

(** ** Legality *)

Lemma keeps_sum {A} (f : A -> tx world Z) xs : (forall x, okay (f x)) -> okay (sum_loop f xs).
Proof. apply keeps_sum_loop, _. Qed.

Lemma keeps_redeliver now r : okay (redeliver_decision now r).
Proof. unfold redeliver_decision. keeps_tac. Qed.
Lemma keeps_missing now team kind payload key : okay (enqueue_missing now team kind payload key).
Proof. unfold enqueue_missing. keeps_tac. Qed.
#[local] Hint Resolve keeps_redeliver keeps_missing : legal.
Lemma keeps_wake_process now r : okay (wake_process now r).
Proof. unfold wake_process. keeps_tac. Qed.
Lemma keeps_wake_execution now r : okay (wake_execution now r).
Proof. unfold wake_execution. keeps_tac. Qed.
Lemma keeps_terminal_transition now id e pid : okay (repair_terminal_transition cfg now id e pid).
Proof. unfold repair_terminal_transition. keeps_tac. Qed.
Lemma keeps_wait now r : okay (repair_wait json_extract now r).
Proof.
  destruct r as [id e]. unfold repair_wait. keeps_tac.
Qed.
Lemma keeps_terminal_projection now r : okay (repair_terminal_projection now r).
Proof.
  destruct r as [id e]. unfold repair_terminal_projection. keeps_tac.
  by apply (keeps_exec_update _ _ (XClearCurrent now)).
Qed.
Lemma keeps_cleanup now limit : okay (evaluate_cleanup json_extract recovery_window now limit).
Proof.
  unfold evaluate_cleanup. keeps_tac. apply keeps_loop. intros r. by apply (keeps_update_process quiet _ _ (CleanupMark now)).
Qed.
#[local] Hint Resolve keeps_sum keeps_wake_process keeps_wake_execution keeps_terminal_transition keeps_wait
  keeps_terminal_projection keeps_cleanup : legal.
Lemma keeps_repair_rows now : okay (rows now).
Proof. unfold repair_rows. keeps_tac. Qed.
#[local] Hint Resolve keeps_repair_rows : legal.

(** The three transactions of a pass, however many of them commit. *)
Lemma sweep_legal now d : legal quiet d (sweep now d).2.
Proof.
  unfold repair_once. destruct (promote_due_retries _ _ d) as [[n d1]|x] eqn:E1; [|reflexivity].
  pose proof (keeps_promote now REPAIR_LIMIT d n d1 E1) as L1.
  destruct (recover_expired_leases _ _ _ d1) as [[m d2]|x] eqn:E2; [|exact L1].
  pose proof (keeps_recover cfg now REPAIR_LIMIT d1 m d2 E2) as L2.
  destruct (rows now d2) as [[k d3]|x] eqn:E3; cbn; [|by etrans].
  etrans; [|by eapply keeps_repair_rows]. by etrans.
Qed.

(** ** A root without a proof *)

(** A root that is still its task's root, that has succeeded without a publication proof
    (nothing was published: the collection was empty or there was nothing to rebuild), and whose
    intent is not one of the proofless lifecycle intents. *)
Record exhausted_root (id : ustr) (d : db world) : Prop := {
  xr_row : exists e t, d_executions d !! id = Some e /\ is_root id e = true /\ e_status e = ExecutionStatus.SUCCEEDED
    /\ nonempty (publication_proof_ref (e_final e)) = false
    /\ d_tasks d !! (ei_team (e_id e), ei_task (e_id e)) = Some t /\ t_root t = Some id /\ t_request_intent t ∉ PROOFLESS_INTENTS
}.

Lemma exhausted_stays id d d' : legal quiet d d' -> exhausted_root id d -> exhausted_root id d'.
Proof.
  intros [_ Hx Ht _ _] [(e & t & He & Hr & Hs & Hp & Hk & Hroot & Hi)].
  destruct (evolves_lookup _ _ _ _ _ _ Hx He) as (e' & He' & Hrun%ex_run_later).
  pose proof (el_identity _ _ Hrun) as Hid. assert (outcome_of e' = outcome_of e) as Ho by (apply (el_terminal _ _ Hrun); by rewrite Hs).
  injection Ho as Ho1 Ho2 _ _.
  destruct (evolves_lookup _ _ _ _ _ _ Ht Hk) as (t' & Ht' & (E1 & E2 & _)%engine_task_run_root).
  split. exists e', t'. rewrite Hid, Ho1, Ho2, E1, E2. unfold is_root in *. by rewrite Hid.
Qed.

(** The projection asks for a proof before it looks at the status of the task. *)
Lemma projection_refused now (d : db world) id t team task final :
  d_tasks d !! (team, task) = Some t -> t_root t = Some id -> t_request_intent t ∉ PROOFLESS_INTENTS ->
  nonempty (publication_proof_ref final) = false ->
  project_task now team task
    (Build_projection (task_status_of ExecutionStatus.SUCCEEDED) None (Some id) (result_ref final) (publication_proof_ref final) None
       (final_error_code final)) d = Err (MkbError "task-proof-missing" 409).
Proof.
  intros Ht Hr Hi Hp. unfold project_task, project_task_status. rewrite Ht. cbn -[bool_decide].
  rewrite Hp, !bool_decide_eq_true_2, !bool_decide_eq_false_2 by done. done.
Qed.

Lemma terminal_projection_blocked now id e d v :
  d_executions d !! id = Some e -> exhausted_root id d -> forall d', legal quiet d d' -> repair_terminal_projection now (id, e) d' <> Ok v.
Proof.
  intros He Hx d' Hl. pose proof (exhausted_stays _ _ _ Hl Hx) as Hx'. destruct Hx as [(e0 & t & He0 & _ & Hs & Hp & _)]. simplify_eq.
  unfold repair_terminal_projection. destruct v as [? ?d0]. intros ([] & d1 & H1 & (b & d2 & H2 & (c & d3 & H3 & _)%bind_Ok)%bind_Ok)%bind_Ok.
  assert (legal quiet d' d2) as Hl2.
  { etrans; [by eapply keeps_refresh|]. by eapply (keeps_exec_update _ _ (XClearCurrent now)). }
  destruct (exhausted_stays _ _ _ Hl2 Hx') as [(e2 & t2 & He2 & _ & _ & _ & Ht2 & Hr2 & Hi2)].
  destruct (evolves_lookup _ _ _ _ _ _ (lg_executions _ _ _ Hl) He) as (e1 & He1 & Hrun1%ex_run_later).
  destruct (evolves_lookup _ _ _ _ _ _ (lg_executions _ _ _ Hl2) He1) as (e2' & He2' & Hrun2%ex_run_later). simplify_eq.
  rewrite (el_identity _ _ Hrun2), (el_identity _ _ Hrun1) in Ht2. rewrite Hs in H3.
  by rewrite (projection_refused _ _ _ _ _ _ _ Ht2 Hr2 Hi2 Hp) in H3.
Qed.

Lemma sum_loop_blocked {A} (f : A -> tx world Z) x d0 : (forall x, okay (f x)) ->
  (forall d v, legal quiet d0 d -> f x d <> Ok v) -> forall xs d v, x ∈ xs -> legal quiet d0 d -> sum_loop f xs d <> Ok v.
Proof.
  intros Hf Hx xs. induction xs as [|y xs IH]; intros d v Hin Hl; [by apply elem_of_nil in Hin|].
  cbn [sum_loop]. destruct v as [s ds]. intros (n & d1 & H1 & (m & d2 & H2 & _)%bind_Ok)%bind_Ok. apply elem_of_cons in Hin as [-> | Hin].
  - by apply Hx in H1.
  - eapply (IH d1); [done| |exact H2]. etrans; [done|]. by eapply Hf.
Qed.

Lemma terminal_projections_blocked now id d v :
  exhausted_root id d -> sum_loop (repair_terminal_projection now) (terminal_roots d) d <> Ok v.
Proof.
  intros Hx. destruct (Hx) as [(e & _ & He & Hr & Hs & _)].
  apply (sum_loop_blocked _ (id, e) d); [apply keeps_terminal_projection| | |reflexivity].
  - intros d1 v1 Hl. by eapply terminal_projection_blocked.
  - apply rows_where_elem. split; [done|]. by rewrite Hr, Hs.
Qed.

Lemma keeps_before {A B} id (m : tx world A) (k : A -> tx world B) d v :
  okay m -> exhausted_root id d -> (forall a d', exhausted_root id d' -> k a d' <> Ok v) -> bind m k d <> Ok v.
Proof. intros Hm Hx Hk. destruct v as [b d'']. intros (a & d' & H1 & H2)%bind_Ok. eapply Hk, H2. eapply exhausted_stays, Hx. by eapply Hm. Qed.

Lemma rows_blocked now id d v : exhausted_root id d -> rows now d <> Ok v.
Proof.
  intros Hx. unfold repair_rows.
  do 12 (eapply keeps_before; [solve [auto with legal|apply keeps_reads; [apply _|apply reads_gets]]|exact Hx|clear d Hx; intros ? d Hx]).
  destruct v as [? ?d0]. intros (? & ? & [= <- <-] & (? & ? & Hp & _)%bind_Ok)%bind_Ok. by eapply terminal_projections_blocked.
Qed.

(** ** Rebuilt intents *)

Definition has_intent (d : db world) (team key : ustr) : Prop :=
  exists k o, d_outbox d !! k = Some o /\ ob_team o = team /\ ob_dedupe_key o = key.

Lemma outbox_has_true f (d : db world) : outbox_has f d = true <-> exists k o, d_outbox d !! k = Some o /\ f o = true.
Proof.
  unfold outbox_has. rewrite existsb_exists. split.
  - intros ([k o] & Hin & Hf). exists k, o. by rewrite <-elem_of_map_to_list, list_elem_of_In.
  - intros (k & o & Hk & Hf). exists (k, o). split; [|done]. by apply list_elem_of_In, elem_of_map_to_list.
Qed.

(** Identifiers that were not handed out yet name no row. *)
Definition fresh_ids (d : db world) : Prop := forall n, (d_uuids d <= n)%nat -> d_outbox d !! uuid7 n = None.

(** A row that was just enqueued. *)
Definition due_now (now : Z) (o : outbox_row) : Prop := ob_status o = pending /\ ob_available_at o = now /\ ob_attempts o = 0.
(** A row of the team under the key: one that stood in the table before, in whatever state, or
    one that is due now. *)
Definition woken (now : Z) (d d' : db world) (team key : ustr) : Prop :=
  exists k o, d_outbox d' !! k = Some o /\ ob_team o = team /\ ob_dedupe_key o = key /\ (d_outbox d !! k = Some o \/ due_now now o).

(** A transaction that only enqueues. *)
Record enqueues (now : Z) (d d' : db world) : Prop := {
  eq_processes : d_processes d' = d_processes d;
  eq_executions : d_executions d' = d_executions d;
  eq_world : d_world d' = d_world d;
  eq_outbox : d_outbox d ⊆ d_outbox d';
  eq_new : forall k o, d_outbox d' !! k = Some o -> d_outbox d !! k = Some o \/ due_now now o;
  eq_fresh : fresh_ids d -> fresh_ids d'
}.
#[local] Instance enqueues_preorder now : PreOrder (enqueues now).
Proof.
  split; [by split; eauto|]. intros a b c [? ? ? ? N1 ?] [? ? ? ? N2 ?]. split; try congruence; [by etrans| |eauto].
  intros k o [Ho|?]%N2; [by apply N1|by right].
Qed.

Context {Hinj : Inj eq eq uuid7}.

(** One intent: the table is left alone when the key or the identifier is taken. *)
Lemma enqueue_Ok now team kind payload key d x d' :
  enqueue (World := world) now team kind payload key d = Ok (x, d') ->
  exists t row, d' = set_outbox t (next_uuid d) /\ d_outbox d ⊆ t /\ ob_team row = team /\ ob_dedupe_key row = key /\ due_now now row /\
    t = (if outbox_conflict (d_outbox d) (uuid7 (d_uuids d)) row then d_outbox d else <[uuid7 (d_uuids d) := row]> (d_outbox d)).
Proof.
  unfold enqueue. intros (id & d1 & [= <- <-] & Hd)%bind_Ok. cbn in Hd.
  destruct (enqueue_tx _ _ _ _ _ _ _) as [t|] eqn:Ht; [|done]. injection Hd as _ <-. pose proof (enqueue_tx_subset _ _ _ _ _ _ _ _ Ht) as Hsub.
  unfold enqueue_tx in Ht. destruct (outbox_kind kind); [|done]. inv_res. destruct (owner_of payload). inv_res.
  do 2 eexists. split; [reflexivity|]. split; [exact Hsub|]. split; [|split; [|split; [|reflexivity]]]; done.
Qed.

Lemma enqueue_enqueues now team kind payload key : keeps (enqueues now) (enqueue (World := world) now team kind payload key).
Proof.
  intros d a d' (t & row & -> & Hsub & _ & _ & Hdue & Ht)%enqueue_Ok. split; cbn; [done..| |].
  { intros k o. rewrite Ht. destruct (outbox_conflict _ _ _); [by left|]. rewrite lookup_insert_Some. intros [[_ <-]|[_ ?]]; [by right|by left]. }
  intros Hf n Hn. cbn in *. rewrite Ht. destruct (outbox_conflict _ _ _); [apply Hf; lia|].
  rewrite lookup_insert_ne; [apply Hf; lia|]. intros ?%Hinj. lia.
Qed.

Lemma enqueue_intent now team kind payload key d x d' :
  fresh_ids d -> enqueue (World := world) now team kind payload key d = Ok (x, d') -> has_intent d' team key.
Proof.
  intros Hf (t & row & -> & _ & Hteam & Hkey & _ & Ht)%enqueue_Ok. unfold has_intent. cbn. rewrite Ht.
  destruct (outbox_conflict _ _ _) eqn:Ec; [|by eexists _, _; split; [apply lookup_insert_eq|]].
  unfold outbox_conflict in Ec. rewrite (bool_decide_eq_false_2 (is_Some _)) in Ec by (rewrite Hf by lia; by intros [? ?]).
  cbn [orb] in Ec. apply (outbox_has_true (fun o => ueqb (ob_team o) (ob_team row) && ueqb (ob_dedupe_key o) (ob_dedupe_key row))) in Ec as (k & o & Hk & Hko). apply andb_true_iff in Hko as [E1%ueqb_eq E2%ueqb_eq]. exists k, o. split; [done|]. by split; congruence.
Qed.

Lemma missing_enqueues now team kind payload key : keeps (enqueues now) (enqueue_missing now team kind payload key).
Proof.
  unfold enqueue_missing. apply keeps_bind; [apply _|apply keeps_reads; [apply _|apply reads_gets]|]. intros [].
  - apply keeps_reads; [apply _|apply reads_ret].
  - apply keeps_bind; [apply _|apply enqueue_enqueues|]. intros _. apply keeps_reads; [apply _|apply reads_ret].
Qed.

Lemma missing_intent now team kind payload key d b d' :
  fresh_ids d -> enqueue_missing now team kind payload key d = Ok (b, d') -> has_intent d' team key.
Proof.
  intros Hf. unfold enqueue_missing. intros (k & d1 & [= <- <-] & Hd)%bind_Ok.
  destruct (outbox_has _ _) eqn:Ek.
  - injection Hd as _ <-. apply outbox_has_true in Ek as (k & o & Hk & Hko). apply andb_true_iff in Hko as [E1%ueqb_eq E2%ueqb_eq]. exists k, o. split; [done|]. by split; congruence.
  - apply bind_Ok in Hd as (x & d1 & Hd & [= _ <-]). by eapply enqueue_intent.
Qed.

(** A known key is neither enqueued nor counted again. *)
Lemma missing_known now team kind payload key d :
  has_intent d team key -> enqueue_missing now team kind payload key d = Ok (false, d).
Proof.
  intros (k & o & Hk & <- & <-). unfold enqueue_missing, bind, gets. rewrite (proj2 (outbox_has_true _ _)); [done|].
  exists k, o. split; [done|]. rewrite !(proj2 (ueqb_eq _ _)) by done. done.
Qed.

Lemma has_intent_enqueued d d' team key : d_outbox d ⊆ d_outbox d' -> has_intent d team key -> has_intent d' team key.
Proof. intros Hs (k & o & Hk & Hrest). exists k, o. split; [by eapply lookup_weaken|done]. Qed.

Lemma woken_later now d d1 d' team key : enqueues now d d1 -> d_outbox d1 ⊆ d_outbox d' -> has_intent d1 team key -> woken now d d' team key.
Proof. intros L Hs (k & o & Hk & Ht & Hkey). exists k, o. split; [by eapply lookup_weaken|]. split; [done|]. split; [done|]. by apply (eq_new _ _ _ L). Qed.

Lemma redeliver_enqueues now r : keeps (enqueues now) (redeliver_decision now r).
Proof.
  unfold redeliver_decision. apply keeps_bind; [apply _|apply keeps_reads; [apply _|apply reads_gets]|]. intros [].
  - apply keeps_reads; [apply _|apply reads_ret].
  - apply keeps_bind; [apply _|apply enqueue_enqueues|]. intros _. apply keeps_reads; [apply _|apply reads_ret].
Qed.
Lemma wake_process_enqueues now r : keeps (enqueues now) (wake_process now r).
Proof. apply missing_enqueues. Qed.
Lemma wake_execution_enqueues now r : keeps (enqueues now) (wake_execution now r).
Proof. unfold wake_execution. apply keeps_bind; [apply _|apply keeps_reads; [apply _|apply reads_gets]|]. intros w. apply missing_enqueues. Qed.

Lemma count_loop_reaches {A} now (f : A -> tx world bool) x xs : (forall x, keeps (enqueues now) (f x)) -> x ∈ xs ->
  forall d n d', count_loop f xs d = Ok (n, d') -> exists d1 b d2, enqueues now d d1 /\ f x d1 = Ok (b, d2) /\ enqueues now d2 d'.
Proof.
  intros Hf Hin d. revert d. induction xs as [|y xs IH]; intros d n d'; [by apply elem_of_nil in Hin|]. cbn [count_loop].
  intros (b & d1 & Hy & (m & d2 & Hl & [= _ <-])%bind_Ok)%bind_Ok. apply elem_of_cons in Hin as [-> | Hin].
  - exists d, b, d1. split_and!; [done..|]. by eapply (keeps_count_loop (enqueues now)).
  - destruct (IH Hin _ _ _ Hl) as (d3 & b3 & d4 & H1 & H2 & H3). exists d3, b3, d4. split_and!; [|done..].
    etrans; [by eapply Hf|done].
Qed.

Definition process_key (pid : ustr) (p : process) : ustr := u "repair-wake-process:" ++ pid ++ u ":" ++ dec (fence p).
Definition execution_key (w : world) (id : ustr) : ustr :=
  u "repair-wake-execution:" ++ id ++ u ":" ++ dec (et_manifest_revision (target_of w id)).

Lemma rows_reach now d n d' : rows now d = Ok (n, d') -> cancelling_roots d = [] ->
  exists d1 c d2 e d3, enqueues now d d1 /\ count_loop (wake_process now) (ready_processes d1) d1 = Ok (c, d2) /\
    count_loop (wake_execution now) (idle_executions d2) d2 = Ok (e, d3) /\ legal quiet d3 d'.
Proof.
  unfold repair_rows. intros (? & ? & [= <- <-] & (a & d1 & Ha & (? & ? & [= <- <-] & (b & d2 & Hb & Hrun)%bind_Ok)%bind_Ok)%bind_Ok)%bind_Ok Hc.
  assert (enqueues now d d1) as L1 by (eapply (keeps_count_loop (enqueues now)), Ha; apply redeliver_enqueues).
  unfold cancelling_roots in *. rewrite (eq_executions _ _ _ L1), Hc in Hb. injection Hb as _ ->.
  revert Hrun. intros (? & ? & [= <- <-] & (c & d3 & Hw & (? & ? & [= <- <-] & (e & d4 & Hx & Hrest)%bind_Ok)%bind_Ok)%bind_Ok)%bind_Ok.
  exists d2, c, d3, e, d4. split_and!; [done..|].
  match type of Hrest with ?m d4 = _ => assert (okay m) as Hk by keeps_tac end. by eapply Hk.
Qed.

(** C32: The repair sweep rebuilds lost wake-ups.  Whenever the transaction of a repair pass
    that looks at the rows commits, and no root execution was cancelling and the identifiers
    drawn for new outbox rows are unused, then for every ready process of an execution that is
    not stopping the outbox has a row under the wake-up key of the process and its fencing
    generation, and for every created or ready execution without an active process one under
    the wake-up key of the execution and its manifest revision.  Each of these rows stood in
    the outbox before the pass, in whatever state, or is pending, unattempted and due now. *)
Theorem repair_rebuilds_intents (now : Z) (d : db world) (n : Z) (d' : db world)
    (Hrun : rows now d = Ok (n, d')) (Hfresh : fresh_ids d) (Hroots : cancelling_roots d = []) :
  (forall pid p e, d_processes d !! pid = Some p -> p_status p = ProcessStatus.READY ->
     d_executions d !! ps_execution (p_spec p) = Some e -> stopping (e_status e) = false ->
     woken now d d' (ps_team (p_spec p)) (process_key pid p)) /\
  (forall id e, d_executions d !! id = Some e -> e_status e ∈ [ExecutionStatus.CREATED; ExecutionStatus.READY] ->
     active_processes id d = 0 -> woken now d d' (ei_team (e_id e)) (execution_key (d_world d) id)).
Proof.
  destruct (rows_reach _ _ _ _ Hrun Hroots) as (d1 & c & d2 & k & d3 & L1 & Hw & Hx & L3).
  assert (enqueues now d1 d2) as L2 by (eapply (keeps_count_loop (enqueues now)), Hw; apply wake_process_enqueues).
  assert (enqueues now d2 d3) as L23 by (eapply (keeps_count_loop (enqueues now)), Hx; apply wake_execution_enqueues).
  assert (enqueues now d d3) as L by (etrans; [exact L1|by etrans]). pose proof (lg_outbox _ _ _ L3) as Hout. split.
  - intros pid p e Hp Hs He Hst. destruct (count_loop_reaches now (wake_process now) (pid, p) (ready_processes d1) (wake_process_enqueues now)) with (2 := Hw)
      as (d4 & b & d5 & L4 & Hf & L5).
    { apply rows_where_elem. rewrite (eq_processes _ _ _ L1), (eq_executions _ _ _ L1), He, Hst. split; [done|]. unfold status_in. by rewrite Hs. }
    apply (missing_intent _ _ _ _ _ d4 b d5) in Hf; [|by apply (eq_fresh _ _ _ L4), (eq_fresh _ _ _ L1)].
    apply (woken_later now d d3 d' _ _ L Hout). eapply has_intent_enqueued, Hf. etrans; [exact (eq_outbox _ _ _ L5)|exact (eq_outbox _ _ _ L23)].
  - intros id e He Hs Ha. destruct (count_loop_reaches now (wake_execution now) (id, e) (idle_executions d2) (wake_execution_enqueues now)) with (2 := Hx)
      as (d4 & b & d5 & L4 & Hf & L5).
    { apply rows_where_elem. rewrite (eq_executions _ _ _ L2), (eq_executions _ _ _ L1). split; [done|].
      unfold active_processes in *. rewrite (eq_processes _ _ _ L2), (eq_processes _ _ _ L1), Ha. unfold ex_in. by rewrite bool_decide_eq_true_2. }
    apply bind_Ok in Hf as (w & d6 & [= <- <-] & Hf).
    apply (missing_intent _ _ _ _ _ d4 b d5) in Hf; [|by apply (eq_fresh _ _ _ L4), (eq_fresh _ _ _ L2), (eq_fresh _ _ _ L1)].
    rewrite (eq_world _ _ _ L4), (eq_world _ _ _ L2), (eq_world _ _ _ L1) in Hf.
    apply (woken_later now d d3 d' _ _ L Hout). eapply has_intent_enqueued, Hf. exact (eq_outbox _ _ _ L5).
Qed.

(** A pass of the sweep, whichever of its three transactions commit, issues only fenced row
    statements that take no queue place, no lease and no restart; it drops no intent and no
    selected output, and it leaves the outcome of every terminal execution as it was. *)
Theorem repair_once_quiet (now : Z) (d : db world) :
  legal quiet d (sweep now d).2 /\
  (forall id e, d_executions d !! id = Some e -> terminal_execution (e_status e) = true ->
     exists e', d_executions (sweep now d).2 !! id = Some e' /\ outcome_of e' = outcome_of e).
Proof.
  pose proof (sweep_legal now d) as Hl. split; [done|]. intros id e He Ht.
  destruct (evolves_lookup _ _ _ _ _ _ (lg_executions _ _ _ Hl) He) as (e' & He' & Hr%ex_run_later).
  exists e'. split; [done|]. by apply (el_terminal _ _ Hr).
Qed.

(** A task whose current root has succeeded without a publication proof makes the row
    transaction of every pass abort, and the pass leaves such a root behind, so that the next
    pass aborts too: no intent is rebuilt and no process is marked for cleanup. *)
Theorem exhausted_root_blocks_repair (now : Z) (d : db world) (id : ustr) (Hroot : exhausted_root id d) :
  (exists x, rows now d = Err x) /\ exists x d', sweep now d = (Err x, d') /\ exhausted_root id d'.
Proof.
  assert (forall d', exhausted_root id d' -> exists x, rows now d' = Err x) as Hrows.
  { intros d' Hx. destruct (rows now d') as [v|x] eqn:E; [|by exists x]. by destruct (rows_blocked now id d' v Hx). }
  split; [by apply Hrows|]. pose proof (exhausted_stays _ _ _ (sweep_legal now d) Hroot) as Hend. unfold repair_once in *.
  destruct (promote_due_retries _ _ d) as [[k d1]|x] eqn:E1; [|by exists x, d]. pose proof (keeps_promote now REPAIR_LIMIT d k d1 E1) as L1.
  destruct (recover_expired_leases _ _ _ d1) as [[m d2]|x] eqn:E2; [|by exists x, d1].
  pose proof (keeps_recover cfg now REPAIR_LIMIT d1 m d2 E2) as L2.
  destruct (Hrows d2) as (x & Hx); [eapply exhausted_stays, Hroot; by etrans|]. rewrite Hx in *. by exists x, d2.
Qed.
End laws.

(** ** Concrete passes *)

Module RepairWitness.
Import IntakeSamples.
#[export] Instance sv : Services world := tower 3.
(** A [json_extract] that finds nothing. *)
Definition extract (_ : ustr) (_ : string) : option ustr := None.
(** An ingest whose first process was not materialized yet. *)
Definition created : execution := row_of (u "ingest-rev") (u "ingest-digest") "root" None ExecutionStatus.CREATED no_wait no_final.
Definition created_db : db world :=
  Build_db world ∅ {[ u "root" := created ]} {[ (TEAM, TASK) := task_row ]} ∅ ∅ 0 review_world.
Abbreviation pass := (repair_rows config extract 3600 20 created_db).
(** The empty collection after its fan-in. *)
Definition converged : db world := match maybe_converge_scatter_root 10 (u "root") empty_db with Ok (_, d) => d | Err _ => empty_db end.
End RepairWitness.
Import IntakeSamples RepairWitness.

#[local] Instance uuid7_inj : Inj eq eq (uuid7 : nat -> ustr).
Proof.
  intros n m Hnm. cbn in Hnm. injection Hnm as Hnm. unfold dec in Hnm. rewrite !(proj2 (Z.ltb_ge _ _)) in Hnm by lia.
  pose proof (proj1 (dec_N_spec (Z.to_N (Z.of_nat n)))) as Hn. rewrite Hnm in Hn. rewrite (proj1 (dec_N_spec _)) in Hn. lia.
Qed.

Lemma repair_once_quiet_witness : legal quiet created_db (repair_once config extract 3600 20 created_db).2.
Proof. apply (repair_once_quiet config extract 3600 20 created_db). Defined.

Lemma repair_rebuilds_intents_witness :
  exists n d', pass = Ok (n, d') /\ woken 20 created_db d' TEAM (u "repair-wake-execution:root:0").
Proof.
  destruct pass as [[n d']|x] eqn:Hrun; [|exfalso; vm_compute in Hrun; discriminate]. exists n, d'. split; [reflexivity|].
  eapply (repair_rebuilds_intents config extract 3600 20 created_db n d' Hrun) with (id := u "root") (e := created).
  - intros k Hk. apply lookup_empty.
  - vm_compute. reflexivity.
  - vm_compute. reflexivity.
  - apply list_elem_of_In. cbn. by left.
  - vm_compute. reflexivity.
Defined.

Lemma exhausted_root_blocks_repair_witness :
  exhausted_root (u "root") converged /\ exists x, repair_rows config extract 3600 20 converged = Err x.
Proof.
  assert (exhausted_root (u "root") converged) as Hroot.
  { split. eexists _, _. split; [vm_compute; reflexivity|]. do 3 (split; [vm_compute; reflexivity|]).
    split; [vm_compute; reflexivity|]. split; [vm_compute; reflexivity|].
    assert (bool_decide (u "intake.ingest" ∈ PROOFLESS_INTENTS) = false) as Hi by (vm_compute; reflexivity).
    by apply bool_decide_eq_false in Hi. }
  split; [exact Hroot|]. apply (exhausted_root_blocks_repair config extract 3600 20 converged (u "root") Hroot).
Defined.
