(* ===== verification/ObjectStore.v ===== *)
(** * The content-addressed object store

    Model of [src/storage/local_store.py] ([LocalObjectStore]) with the handles of
    [src/contracts/storage/handles.py].  The directory tree is two finite maps from a team and
    a digest to bytes: the live objects and the quarantine.  Staging files, which no other
    operation reads, file modes and [fsync] are not modelled; every operation that holds the
    write lock is one step. *)

From S2P Require Import Prelude PyText PyValue Txn.

Open Scope Z_scope.
Open Scope mkb_scope.

(** ** Handles *)

(** The pattern of [ObjectHandle.value] after its prefix. *)
Definition handle_char (c : Z) : bool :=
  (97 <=? c) && (c <=? 122) || (65 <=? c) && (c <=? 90) || (48 <=? c) && (c <=? 57)
  || (c =? 46) || (c =? 95) || (c =? 58) || (c =? 45).
Definition HANDLE_PREFIX : ustr := u "mkbobj:v1:".
Definition handle_value (team digest : ustr) : ustr := HANDLE_PREFIX ++ team ++ u ":" ++ digest.

(** [object_handle], with the validation of the model. *)
Definition object_handle (team digest : ustr) : result ustr :=
  check forallb handle_char (team ++ u ":" ++ digest) else ValueError ;;
  Ok (handle_value team digest).

(** The groups of [_HANDLE_ID.fullmatch]. *)
Definition uuid_char (c : Z) : bool := is_lower_hex c || (c =? 45).
Definition handle_groups (h : ustr) : option (ustr * ustr) :=
  let body := drop (length HANDLE_PREFIX) h in
  let team := take 36 body in
  let digest := drop 37 body in
  if ueqb (take (length HANDLE_PREFIX) h) HANDLE_PREFIX && (length team =? 36)%nat && forallb uuid_char team
     && ueqb (take 1 (drop 36 body)) (u ":") && is_digest digest
  then Some (team, digest) else None.

(** [digest_from_handle] *)
Definition digest_from_handle (team h : ustr) : result ustr :=
  match handle_groups h with
  | None => Err (MkbError "SEC_PATH_REJECTED" 422)
  | Some (owner, digest) => check ueqb owner team else MkbError "OBJECT_AUTH_TEAM_MISMATCH" 403 ;; Ok digest
  end.

(** ** The store *)

Record cas := { c_live : gmap (ustr * ustr) bytes; c_quarantine : gmap (ustr * ustr) bytes }.

Record object_stat := { os_handle : ustr; os_sha256 : ustr; os_size : Z; os_media : option ustr }.

Record promote_request := {
  pq_team : ustr;
  pq_purpose : string;
  pq_media : option ustr;
  pq_expected_sha256 : option ustr
}.

Section store.
Context {H : Host}.
Variable max_object_bytes : Z.

Definition size_of (b : bytes) : Z := Z.of_nat (length b).

(** The loop over the chunks: it stops at the chunk that exceeds the limit. *)
Fixpoint read_chunks (seen : bytes) (chunks : list bytes) : result bytes :=
  match chunks with
  | [] => Ok seen
  | [] :: rest => read_chunks seen rest
  | chunk :: rest =>
      check size_of (seen ++ chunk) <=? max_object_bytes else MkbError "OBJECT_BUDGET_SIZE" 413 ;;
      read_chunks (seen ++ chunk) rest
  end.

(** [_promote_staging_sync] *)
Definition promote_staging (team digest : ustr) (data : bytes) (media : option ustr) : txn cas object_stat :=
  let! s := gets id in
  match c_live s !! (team, digest) with
  | Some existing =>
      require (ueqb (sha256_hex existing) digest && (size_of existing =? size_of data)) (MkbError "OBJECT_INTEGRITY_COLLISION" 503)
  | None => modify (fun s => Build_cas (<[(team, digest) := data]> (c_live s)) (c_quarantine s))
  end ;!
  let! handle := lift (object_handle team digest) in
  ret (Build_object_stat handle digest (size_of data) media).

(** [promote_stream] *)
Definition promote_stream (chunks : list bytes) (r : promote_request) : txn cas object_stat :=
  let! data := lift (read_chunks [] chunks) in
  require (negb ((size_of data =? 0) && bool_decide (pq_purpose r = "upload_pending"%string))) (MkbError "OBJECT_EMPTY" 422) ;!
  let digest := sha256_hex data in
  require (match pq_expected_sha256 r with Some ((_ :: _) as e) => ueqb e digest | _ => true end) (MkbError "OBJECT_INTEGRITY_DIGEST" 422) ;!
  promote_staging (pq_team r) digest data (pq_media r).

(** [promote] *)
Definition promote (data : bytes) (r : promote_request) : txn cas object_stat := promote_stream [data] r.

(** [read_verified] *)
Definition read_verified (s : cas) (team h : ustr) : result bytes :=
  let* digest := digest_from_handle team h in
  match c_live s !! (team, digest) with
  | None => Err (MkbError "OBJECT_MISSING" 404)
  | Some data => check ueqb (sha256_hex data) digest else MkbError "OBJECT_INTEGRITY_DIGEST" 503 ;; Ok data
  end.

(** [delete_if_unreferenced] *)
Definition delete_if_unreferenced (team h : ustr) : txn cas bool :=
  let! digest := lift (digest_from_handle team h) in
  let! s := gets id in
  match c_live s !! (team, digest) with
  | None => ret false
  | Some _ => modify (fun s => Build_cas (delete (team, digest) (c_live s)) (c_quarantine s)) ;! ret true
  end.

(** ** Quarantine *)

Definition quarantine_bytes (k : ustr * ustr) (s : cas) : bool * cas :=
  match c_live s !! k with
  | None => (false, s)
  | Some data => (true, Build_cas (delete k (c_live s)) (<[k := data]> (c_quarantine s)))
  end.
Definition restore_bytes (k : ustr * ustr) (s : cas) : bool * cas :=
  match c_live s !! k, c_quarantine s !! k with
  | Some _, _ => (true, Build_cas (c_live s) (delete k (c_quarantine s)))
  | None, None => (false, s)
  | None, Some data => (true, Build_cas (<[k := data]> (c_live s)) (delete k (c_quarantine s)))
  end.
Definition destroy_bytes (k : ustr * ustr) (s : cas) : cas := Build_cas (c_live s) (delete k (c_quarantine s)).

Definition with_digest {A} (team h : ustr) (f : ustr * ustr -> cas -> A * cas) : txn cas A := fun s =>
  let* digest := digest_from_handle team h in Ok (f (team, digest) s).

(** [quarantine_object], [restore_quarantined], [destroy_quarantined] *)
Definition quarantine_object (team h : ustr) : txn cas bool := with_digest team h quarantine_bytes.
Definition restore_quarantined (team h : ustr) : txn cas bool := with_digest team h restore_bytes.
Definition destroy_quarantined (team h : ustr) : txn cas unit := with_digest team h (fun k s => (tt, destroy_bytes k s)).

(** [list_quarantined]; the order of a directory is not specified, here it is that of the map. *)
Definition list_quarantined (s : cas) : list (ustr * ustr) :=
  List.filter (fun k => (length k.2 =? 64)%nat) (map fst (map_to_list (c_quarantine s))).

(** ** Integrity *)

(** Every file is named by the digest of its bytes. *)
Definition cas_ok (s : cas) : Prop :=
  (forall k b, c_live s !! k = Some b -> sha256_hex b = k.2) /\ (forall k b, c_quarantine s !! k = Some b -> sha256_hex b = k.2).

Definition keeps_files {A} (m : txn cas A) : Prop := forall s a s', m s = Ok (a, s') -> cas_ok s -> cas_ok s'.

Lemma quarantine_ok k s : cas_ok s -> cas_ok (quarantine_bytes k s).2.
Proof.
  intros [Hl Hq]. unfold quarantine_bytes. destruct (c_live s !! k) as [b|] eqn:E; [|done]. split; cbn; intros j c.
  - intros [_ Hj]%lookup_delete_Some. eauto.
  - rewrite lookup_insert_Some. intros [[<- <-]|[_ Hj]]; eauto.
Qed.
Lemma restore_ok k s : cas_ok s -> cas_ok (restore_bytes k s).2.
Proof.
  intros [Hl Hq]. unfold restore_bytes. destruct (c_live s !! k) eqn:E; [|destruct (c_quarantine s !! k) as [b|] eqn:Eq; [|done]];
    split; cbn; intros j c; rewrite ?lookup_delete_Some, ?lookup_insert_Some; try (by intros [? ?]; eauto); eauto.
  intros [[<- <-]|[_ Hj]]; eauto.
Qed.
Lemma destroy_ok k s : cas_ok s -> cas_ok (destroy_bytes k s).
Proof. intros [Hl Hq]. split; cbn; [done|]. intros j c [_ Hj]%lookup_delete_Some. eauto. Qed.

Lemma promote_stream_Ok chunks r s st s' :
  promote_stream chunks r s = Ok (st, s') ->
  let data := concat chunks in
  let k := (pq_team r, sha256_hex data) in
  st = Build_object_stat (handle_value (pq_team r) (sha256_hex data)) (sha256_hex data) (size_of data) (pq_media r) /\
  size_of data <= Z.max 0 max_object_bytes /\ c_quarantine s' = c_quarantine s /\
  (pq_purpose r = "upload_pending"%string -> data <> []) /\
  (exists b, c_live s' !! k = Some b /\ sha256_hex b = k.2 /\ size_of b = size_of data) /\
  (s' = s \/ c_live s !! k = None /\ c_live s' = <[k := data]> (c_live s)).
Proof.
  assert (forall seen l b, read_chunks seen l = Ok b -> b = seen ++ concat l /\ (size_of seen <= Z.max 0 max_object_bytes -> size_of b <= Z.max 0 max_object_bytes)) as Hread.
  { intros seen l. revert seen. induction l as [|c l IH]; intros seen b; cbn [read_chunks concat].
    - intros [= <-]. by rewrite app_nil_r.
    - destruct c as [|x c]; [by intros [-> ?]%IH|]. intros ([] & Hc%ensure_Ok & Hb)%rbind_Ok. apply IH in Hb as [-> Hs].
      split; [by rewrite <-app_assoc|]. intros _. apply Hs. lia. }
  intros Hrun data k. revert Hrun. unfold promote_stream. intros (b & s1 & [Hb ->]%lift_Ok & ([] & s2 & [He ->]%require_Ok & ([] & s3 & [_ ->]%require_Ok & Hp)%bind_Ok)%bind_Ok)%bind_Ok.
  destruct (Hread _ _ _ Hb) as [-> Hsize]. change ([] ++ concat chunks) with data in *.
  specialize (Hsize ltac:(unfold size_of; cbn; lia)).
  unfold promote_staging in Hp. apply bind_Ok in Hp as (s3 & s4 & [= <- <-] & Hp). apply bind_Ok in Hp as ([] & s5 & Hput & Hp).
  apply bind_Ok in Hp as (h & s6 & [Hh ->]%lift_Ok & [= <- <-]). unfold object_handle in Hh. apply rbind_Ok in Hh as (? & _ & [= <-]).
  split; [done|]. split; [done|]. fold k in Hput. destruct (c_live s !! k) as [b|] eqn:Ek.
  - apply require_Ok in Hput as [Hd ->]. apply andb_true_iff in Hd as [Hd%ueqb_eq Hsz%Z.eqb_eq]. split_and!; [done| |by exists b|by left].
    intros Hpu ->. rewrite Hpu, bool_decide_eq_true_2 in He by done. done.
  - injection Hput as <-. cbn. split_and!; [done| | |by right].
    + intros Hpu ->. rewrite Hpu, bool_decide_eq_true_2 in He by done. done.
    + exists data. by rewrite lookup_insert_eq.
Qed.

Lemma promote_stream_keeps chunks r : keeps_files (promote_stream chunks r).
Proof.
  intros s st s' (_ & _ & Hq & _ & _ & Hs)%promote_stream_Ok [Hl Hq']. destruct Hs as [-> |[_ Hs]]; [by split|].
  split; rewrite ?Hq, ?Hs; [|done]. intros j c. rewrite lookup_insert_Some. intros [[<- <-]|[_ Hj]]; eauto.
Qed.

(** A handle that parses names its own team and digest. *)
Lemma digest_of_handle team digest d : digest_from_handle team (handle_value team digest) = Ok d -> d = digest.
Proof.
  unfold digest_from_handle, handle_groups, handle_value. rewrite drop_app_length. cbv zeta.
  destruct (_ && _) eqn:E; [|done]. breflect. destruct (ueqb _ team) eqn:Et; [|done]. intros [= <-].
  apply ueqb_eq in Et. assert (length team = 36%nat) as Hlen.
  { rewrite <-Et at 1. by apply Nat.eqb_eq. }
  change (drop 37 (team ++ (u ":" ++ digest)) = digest). rewrite app_assoc. apply drop_app_length'. rewrite length_app, Hlen. done.
Qed.
End store.
