(* ===== verification/Objects.v ===== *)
(** * Catalogue, uploads and holds

    Model of [src/services/object_upload.py], [src/services/object_upload_ttl.py] and the
    catalogue half of [src/services/artifacts.py] over [mkb_stored_objects],
    [mkb_object_references] and [mkb_object_upload_sessions].  Promotion journals, which
    nothing reads back, are not modelled; instants are microseconds, in the order of their
    fixed-width texts. *)

From S2P Require Import Prelude PyText PyValue Txn ObjectStore.

Open Scope Z_scope.
Open Scope mkb_scope.

(** ** Rows *)

(** [digest_algorithm] is ['sha256'] by a [CHECK]. *)
Record catalog_row := {
  so_team : ustr;
  so_digest : ustr;
  so_size : Z;
  so_media : option ustr;
  so_backend : ustr;
  so_created_at : Z;
  so_tombstoned_at : option Z
}.

Record reference_row := {
  rf_team : ustr;
  rf_object : ustr;
  rf_purpose : string;
  rf_owner_kind : string;
  rf_owner : ustr;
  rf_digest : ustr;
  rf_size : Z;
  rf_created_at : Z;
  rf_released_at : option Z;
  rf_session : option ustr
}.

Inductive session_state :=
| S_receiving | S_prepared | S_promoted | S_committed | S_reserved | S_consumed | S_cancelled | S_expired | S_failed.
#[export] Instance session_state_eq_dec : EqDecision session_state.
Proof. solve_decision. Defined.

Record session_row := {
  se_team : ustr;
  se_token_hash : ustr;
  se_key : ustr;
  se_staging : ustr;
  se_state : session_state;
  se_object : option ustr;
  se_digest : option ustr;
  se_size : option Z;
  se_media : option ustr;
  se_pending : option ustr;
  se_reserved : option (ustr * Z);
  se_revision : Z;
  se_terminal_at : option Z
}.

(** An open row of [mkb_intake_cleanup_intents]; [hold_refs_json] is [None] when it does not
    parse. *)
Record cleanup_intent := {
  ci_team : ustr;
  ci_uuid : ustr;
  ci_requested_at : Z;
  ci_open : bool;
  ci_hold_refs : option pyval;
  ci_target_ref : pyval;
  ci_reference_snapshot : pyval
}.

Record delete_proof := {
  dp_team : ustr;
  dp_object : ustr;
  dp_digest : ustr;
  dp_size : Z;
  dp_fence : ustr;
  dp_unlinked_at : Z;
  dp_scanner : ustr
}.

Record catalog := {
  o_objects : gmap ustr catalog_row;
  o_references : gmap ustr reference_row;
  o_sessions : gmap ustr session_row;
  o_teams : gmap ustr ustr;
  o_tasks : list (ustr * ustr);
  o_intents : list cleanup_intent;
  o_proofs : gmap ustr delete_proof;
  o_uuids : nat
}.

Definition set_objects (m : gmap ustr catalog_row) (d : catalog) : catalog :=
  Build_catalog m (o_references d) (o_sessions d) (o_teams d) (o_tasks d) (o_intents d) (o_proofs d) (o_uuids d).
Definition set_references (m : gmap ustr reference_row) (d : catalog) : catalog :=
  Build_catalog (o_objects d) m (o_sessions d) (o_teams d) (o_tasks d) (o_intents d) (o_proofs d) (o_uuids d).
Definition set_sessions (m : gmap ustr session_row) (d : catalog) : catalog :=
  Build_catalog (o_objects d) (o_references d) m (o_teams d) (o_tasks d) (o_intents d) (o_proofs d) (o_uuids d).
Definition set_proofs (m : gmap ustr delete_proof) (d : catalog) : catalog :=
  Build_catalog (o_objects d) (o_references d) (o_sessions d) (o_teams d) (o_tasks d) (o_intents d) m (o_uuids d).
Definition draw_uuid (d : catalog) : catalog :=
  Build_catalog (o_objects d) (o_references d) (o_sessions d) (o_teams d) (o_tasks d) (o_intents d) (o_proofs d) (S (o_uuids d)).

Definition live_row (o : catalog_row) : bool := bool_decide (so_tombstoned_at o = None).
Definition unreleased (r : reference_row) : bool := bool_decide (rf_released_at r = None).
Definition purpose_is (p : string) (r : reference_row) : bool := bool_decide (rf_purpose r = p).
Definition owner_kind_is (k : string) (r : reference_row) : bool := bool_decide (rf_owner_kind r = k).
Definition of_object (team object : ustr) (r : reference_row) : bool := ueqb (rf_team r) team && ueqb (rf_object r) object.

(** The first row in key order. *)
Definition first_row {A} (f : ustr -> A -> bool) (m : gmap ustr A) : option (ustr * A) := head (rows_where f m).

(** [live_stored_object_uuid] *)
Definition live_object (d : catalog) (team digest : ustr) (size : Z) : option ustr :=
  fst <$> first_row (fun _ o => ueqb (so_team o) team && ueqb (so_digest o) digest && (so_size o =? size) && live_row o) (o_objects d).

Definition session_by_key (d : catalog) (team key : ustr) : option (ustr * session_row) :=
  first_row (fun _ s => ueqb (se_team s) team && ueqb (se_key s) key) (o_sessions d).

(** ** Unique indexes *)

(** [ux_obj_stored_digest_size_live] and the primary key; the team exists. *)
Definition object_conflict (k : ustr) (o : catalog_row) (d : catalog) : bool :=
  bool_decide (is_Some (o_objects d !! k)) || bool_decide (is_Some (live_object d (so_team o) (so_digest o) (so_size o))).

(** [ux_obj_upload_pending_live], [ux_nhx1_upload_pending_session] and the primary key. *)
Definition reference_conflict (k : ustr) (r : reference_row) (d : catalog) : bool :=
  bool_decide (is_Some (o_references d !! k))
  || purpose_is "upload_pending" r && unreleased r
     && existsb (fun kv => purpose_is "upload_pending" kv.2 && unreleased kv.2 && ueqb (rf_team kv.2) (rf_team r)
          && (ueqb (rf_object kv.2) (rf_object r) && bool_decide (rf_owner_kind kv.2 = rf_owner_kind r) && ueqb (rf_owner kv.2) (rf_owner r)
              || bool_decide (is_Some (rf_session r)) && bool_decide (rf_session kv.2 = rf_session r)))
          (map_to_list (o_references d)).

Definition session_conflict (k : ustr) (s : session_row) (d : catalog) : bool :=
  bool_decide (is_Some (o_sessions d !! k))
  || existsb (fun kv => ueqb (se_team kv.2) (se_team s)
                        && (ueqb (se_token_hash kv.2) (se_token_hash s) || ueqb (se_key kv.2) (se_key s) || ueqb (se_staging kv.2) (se_staging s)))
       (map_to_list (o_sessions d)).

Section catalogue.
Context {H : Host}.
(** [uuid7()], as an enumeration of the identifiers it returns. *)
Variable uuid7 : nat -> ustr.
Abbreviation ctx := (txn catalog).

Definition new_uuid : ctx ustr := fun d => Ok (uuid7 (o_uuids d), draw_uuid d).

Definition insert_reference (k : ustr) (r : reference_row) : ctx unit :=
  let! d := gets id in
  require (negb (reference_conflict k r d)) IntegrityError ;!
  modify (fun d => set_references (<[k := r]> (o_references d)) d).
(** [INSERT OR IGNORE] *)
Definition insert_reference_or_ignore (k : ustr) (r : reference_row) : ctx unit :=
  modify (fun d => if reference_conflict k r d then d else set_references (<[k := r]> (o_references d)) d).
Definition insert_object_or_ignore (k : ustr) (o : catalog_row) : ctx unit :=
  modify (fun d => if object_conflict k o d then d else set_objects (<[k := o]> (o_objects d)) d).
Definition insert_session (k : ustr) (s : session_row) : ctx unit :=
  let! d := gets id in
  require (negb (session_conflict k s d)) IntegrityError ;!
  modify (fun d => set_sessions (<[k := s]> (o_sessions d)) d).

Definition update_session (k : ustr) (f : session_row -> option session_row) : ctx bool := fun d =>
  match o_sessions d !! k ≫= f with
  | Some s => Ok (true, set_sessions (<[k := s]> (o_sessions d)) d)
  | None => Ok (false, d)
  end.
(** [UPDATE mkb_object_references SET released_at=? WHERE ...] *)
Definition release (now : Z) (r : reference_row) : reference_row :=
  Build_reference_row (rf_team r) (rf_object r) (rf_purpose r) (rf_owner_kind r) (rf_owner r) (rf_digest r) (rf_size r)
    (rf_created_at r) (Some now) (rf_session r).
Definition release_where (now : Z) (f : reference_row -> bool) : ctx unit :=
  modify (fun d => set_references ((fun r => if f r then release now r else r) <$> o_references d) d).

(** ** Session tokens *)

Fixpoint split_on (c : Z) (s : ustr) : list ustr :=
  match s with
  | [] => [[]]
  | x :: s =>
      if x =? c then [] :: split_on c s
      else match split_on c s with w :: ws => (x :: w) :: ws | [] => [[x]] end
  end.

Definition sha256_text (s : ustr) : result ustr := let* b := utf8_encode s in Ok (sha256_hex b).
(** [_token_hash] *)
Definition token_hash (token : ustr) : result ustr := sha256_text token.
(** [_session_token] *)
Definition session_token (team key session : ustr) : result ustr :=
  let* digest := sha256_text (team ++ u ":" ++ key ++ u ":" ++ session) in
  Ok (u "mkbsession:v1:" ++ session ++ u ":" ++ take 32 digest).

(** [_session_tx] *)
Definition session_of_token (d : catalog) (team token : ustr) : result (option (ustr * session_row)) :=
  match split_on 58 token with
  | [p; v; id; _] =>
      if ueqb p (u "mkbsession") && ueqb v (u "v1") then
        match o_sessions d !! id with
        | Some s =>
            if ueqb (se_team s) team then
              let* expected := session_token team (se_key s) id in
              if ueqb expected token then
                let* h := token_hash token in Ok (if ueqb h (se_token_hash s) then Some (id, s) else None)
              else Ok None
            else Ok None
        | None => Ok None
        end
      else Ok None
  | _ => Ok None
  end.

(** ** Uploads *)

Record upload_record := {
  ur_stat : object_stat;
  ur_object : ustr;
  ur_replay : bool;
  ur_token : option ustr
}.

Definition with_media (st : object_stat) (m : option ustr) : object_stat :=
  Build_object_stat (os_handle st) (os_sha256 st) (os_size st) m.
Definition legacy_key (st : object_stat) : ustr := u "legacy:" ++ os_sha256 st ++ u ":" ++ dec (os_size st).
Definition pending_reference (now : Z) (team object : ustr) (kind : string) (owner : ustr) (st : object_stat) (session : option ustr)
    : reference_row :=
  Build_reference_row team object "upload_pending" kind owner (os_sha256 st) (os_size st) now None session.

(** The catalogue row of the bytes: an existing live row, or a new one; [true] when another
    row than the new one was found. *)
Definition catalog_object (now : Z) (team : ustr) (st : object_stat) : ctx (ustr * bool) :=
  let! d := gets id in
  match live_object d team (os_sha256 st) (os_size st) with
  | Some object => ret (object, false)
  | None =>
      let! candidate := new_uuid in
      insert_object_or_ignore candidate (Build_catalog_row team (os_sha256 st) (os_size st) (os_media st) (u "local_fs") now None) ;!
      let! d := gets id in
      match live_object d team (os_sha256 st) (os_size st) with
      | None => raise (MkbError "OBJECT_CATALOG_COMMIT_FAILED" 503)
      | Some object => ret (object, negb (ueqb object candidate))
      end
  end.

(** A new session: catalogue row, session, pending hold, commit. *)
Definition upload_new (now : Z) (team : ustr) (st : object_stat) (requested : option ustr) (key : ustr) : ctx upload_record :=
  let! found := catalog_object now team st in
  let object := found.1 in
  let! session := new_uuid in
  let! token := lift (session_token team key session) in
  let! hash := lift (token_hash token) in
  let! _fingerprint := lift (sha256_text (team ++ u ":" ++ key ++ u ":" ++ os_sha256 st)) in
  let row state pending revision :=
    Build_session_row team hash key (u "staging:" ++ session) state (Some object) (Some (os_sha256 st)) (Some (os_size st)) (os_media st)
      pending None revision None in
  insert_session session (row S_promoted None 0) ;!
  let! _journal := new_uuid in
  let! owner := match requested with Some _ => ret session | None => new_uuid end in
  let kind := match requested with Some _ => "upload_session" | None => "public_upload" end%string in
  let! reference := new_uuid in
  insert_reference_or_ignore reference (pending_reference now team object kind owner st (Some session)) ;!
  let! d := gets id in
  match first_row (fun _ r => of_object team object r && purpose_is "upload_pending" r && ueqb (rf_owner r) owner && unreleased r) (o_references d) with
  | None => raise (MkbError "OBJECT_PENDING_COMMIT_FAILED" 503)
  | Some (pending, _) =>
      match o_objects d !! object with
      | Some o =>
          require (ueqb (so_team o) team && live_row o) (MkbError "OBJECT_CATALOG_COMMIT_FAILED" 503) ;!
          update_session session (fun s => if bool_decide (se_state s = S_promoted) then Some (row S_committed (Some pending) (se_revision s + 1)) else None) ;!
          ret (Build_upload_record (with_media st (so_media o)) object found.2
                 (match requested with Some _ => Some token | None => None end))
      | None => raise (MkbError "OBJECT_CATALOG_COMMIT_FAILED" 503)
      end
  end.

(** The key of [upload] as it was requested. *)
Definition requested_key (key : option ustr) : result (option ustr) :=
  match key with
  | None => Ok None
  | Some k => check negb (blank k) else MkbError "OBJECT_IDEMPOTENCY_INVALID" 422 ;; Ok (Some (strip k))
  end.

(** The transaction of [upload], after the bytes were promoted as [st]. *)
Definition upload_transaction (now : Z) (team : ustr) (st : object_stat) (requested : option ustr) : ctx upload_record :=
  let key := default (legacy_key st) requested in
  let! d := gets id in
  match o_teams d !! team with
  | None => raise (MkbError "team-not-found" 404)
  | Some status =>
      require (ueqb status (u "active")) (MkbError "team-not-active" 409) ;!
      match session_by_key d team key with
      | None => upload_new now team st requested key
      | Some (sid, s) =>
          require (bool_decide (se_digest s = Some (os_sha256 st)) && bool_decide (se_size s = Some (os_size st)))
            (MkbError "OBJECT_SESSION_CONFLICT" 409) ;!
          match se_object s ≫= (fun object => (fun o => (object, o)) <$> o_objects d !! object) with
          | Some (object, o) =>
              if ueqb (so_team o) team && live_row o then
                let! token := lift (session_token team key sid) in
                match requested with
                | Some _ => ret (Build_upload_record (with_media st (so_media o)) object true (Some token))
                | None =>
                    let! reference := new_uuid in
                    let! owner := new_uuid in
                    insert_reference reference (pending_reference now team object "public_upload" owner st None) ;!
                    ret (Build_upload_record (with_media st (so_media o)) object true None)
                end
              else match requested with
                   | Some _ => raise (MkbError "OBJECT_SESSION_CONFLICT" 503)
                   | None => let! fresh := new_uuid in upload_new now team st requested (key ++ u ":" ++ fresh)
                   end
          | None =>
              match requested with
              | Some _ => raise (MkbError "OBJECT_SESSION_CONFLICT" 503)
              | None => let! fresh := new_uuid in upload_new now team st requested (key ++ u ":" ++ fresh)
              end
          end
      end
  end.

(** [_catalog_stat] of the outcome committer: the row and a hold of its process. *)
Definition catalog_stat (now : Z) (team : ustr) (st : object_stat) (owner_kind : string) (owner : ustr) : ctx unit :=
  let! d := gets id in
  let! object :=
    match live_object d team (os_sha256 st) (os_size st) with
    | Some object => ret object
    | None =>
        let! fresh := new_uuid in
        let row := Build_catalog_row team (os_sha256 st) (os_size st) (os_media st) (u "local_fs") now None in
        let! d := gets id in
        require (negb (object_conflict fresh row d)) IntegrityError ;!
        modify (fun d => set_objects (<[fresh := row]> (o_objects d)) d) ;!
        ret fresh
    end in
  let! reference := new_uuid in
  insert_reference reference
    (Build_reference_row team object "process_io" owner_kind owner (os_sha256 st) (os_size st) now None None).

(** ** Sessions *)

Definition end_session (now : Z) (state : session_state) (s : session_row) : session_row :=
  Build_session_row (se_team s) (se_token_hash s) (se_key s) (se_staging s) state (se_object s) (se_digest s) (se_size s) (se_media s)
    (se_pending s) (se_reserved s) (se_revision s + 1) (Some now).
Definition reserve (task : ustr) (generation : Z) (s : session_row) : session_row :=
  Build_session_row (se_team s) (se_token_hash s) (se_key s) (se_staging s) S_reserved (se_object s) (se_digest s) (se_size s)
    (se_media s) (se_pending s) (Some (task, generation)) (se_revision s + 1) (se_terminal_at s).
Definition early_session (s : session_row) : bool := bool_decide (se_state s ∈ [S_receiving; S_prepared; S_promoted; S_committed]).
Definition held_by (session : ustr) (r : reference_row) : bool :=
  bool_decide (rf_session r = Some session) && purpose_is "upload_pending" r && unreleased r.

(** [reserve_session] *)
Definition reserve_session (team token task : ustr) (generation : Z) : ctx bool :=
  require (1 <=? generation) (MkbError "OBJECT_SESSION_COMMAND_INVALID" 422) ;!
  let! d := gets id in
  let! found := lift (session_of_token d team token) in
  match found with
  | None => raise (MkbError "OBJECT_SESSION_NOT_FOUND" 404)
  | Some (sid, s) =>
      if bool_decide (se_state s = S_committed) then
        require (bool_decide ((team, task) ∈ o_tasks d)) IntegrityError ;!
        update_session sid (fun s => Some (reserve task generation s))
      else ret false
  end.

(** [consume_session] *)
Definition consume_session (now : Z) (team token : ustr) : ctx bool :=
  let! d := gets id in
  let! found := lift (session_of_token d team token) in
  match found with
  | None => raise (MkbError "OBJECT_SESSION_NOT_FOUND" 404)
  | Some (sid, _) =>
      let! consumed := update_session sid (fun s => if bool_decide (se_state s = S_reserved) then Some (end_session now S_consumed s) else None) in
      if consumed then release_where now (held_by sid) ;! ret true else ret false
  end.

(** [cancel_session] *)
Definition cancel_session (now : Z) (team token : ustr) : ctx bool :=
  let! d := gets id in
  let! found := lift (session_of_token d team token) in
  match found with
  | None => raise (MkbError "OBJECT_SESSION_NOT_FOUND" 404)
  | Some (sid, _) =>
      let! cancelled := update_session sid (fun s => if early_session s then Some (end_session now S_cancelled s) else None) in
      release_where now (held_by sid) ;!
      ret cancelled
  end.

(** [ORDER BY created_at DESC, reference_uuid DESC] and its reverse. *)
Definition newest_first (a b : ustr * reference_row) : bool :=
  (rf_created_at b.2 <? rf_created_at a.2) || (rf_created_at a.2 =? rf_created_at b.2) && str_le b.1 a.1.
Definition oldest_first (a b : ustr * reference_row) : bool :=
  (rf_created_at a.2 <? rf_created_at b.2) || (rf_created_at a.2 =? rf_created_at b.2) && str_le a.1 b.1.

(** [cancel] of one legacy hold of an object. *)
Definition cancel_upload (now : Z) (team h : ustr) : ctx bool :=
  let! digest := lift (digest_from_handle team h) in
  let! d := gets id in
  match first_row (fun _ o => ueqb (so_team o) team && ueqb (so_digest o) digest && live_row o) (o_objects d) with
  | None => raise (MkbError "OBJECT_NOT_FOUND" 404)
  | Some (object, _) =>
      match py_sorted newest_first
              (rows_where (fun _ r => of_object team object r && purpose_is "upload_pending" r && owner_kind_is "public_upload" r && unreleased r)
                 (o_references d)) with
      | (k, r) :: _ => modify (fun d => set_references (<[k := release now r]> (o_references d)) d) ;! ret true
      | [] => ret false
      end
  end.

(** ** Status *)

Inductive upload_disposition := UD_pending | UD_ingested | UD_expired | UD_tombstoned.
Record object_status := {
  os_stat : object_stat;
  os_disposition : upload_disposition;
  os_token : option ustr
}.

(** [ORDER BY (tombstoned_at IS NULL) DESC, created_at DESC] *)
Definition live_then_newest (a b : ustr * catalog_row) : bool :=
  live_row a.2 && negb (live_row b.2) || eqb (live_row a.2) (live_row b.2) && (so_created_at b.2 <=? so_created_at a.2).
Definition present (f : reference_row -> bool) (d : catalog) : bool := bool_decide (is_Some (first_row (fun _ => f) (o_references d))).
Definition row_disposition (d : catalog) (team object : ustr) (o : catalog_row) (session : option ustr) : upload_disposition :=
  if negb (live_row o) then UD_tombstoned
  else if present (fun r => of_object team object r && purpose_is "upload_pending" r && unreleased r
                            && match session with Some sid => bool_decide (rf_session r = Some sid) | None => true end) d then UD_pending
  else if present (fun r => of_object team object r && purpose_is "intake_snapshot_artifact" r
                            && owner_kind_is "intake_snapshot_source_object" r && unreleased r) d then UD_ingested
  else UD_expired.

(** [stat] *)
Definition status_of (d : catalog) (team h : ustr) (token : option ustr) : result object_status :=
  let* digest := digest_from_handle team h in
  let* session :=
    match token with
    | None => Ok None
    | Some t =>
        let* found := session_of_token d team t in
        match found with
        | None => Err (MkbError "OBJECT_SESSION_NOT_FOUND" 404)
        | Some (sid, s) =>
            check bool_decide (se_digest s = Some digest) else MkbError "OBJECT_SESSION_CONFLICT" 409 ;; Ok (Some (sid, s))
        end
    end in
  match py_sorted live_then_newest (rows_where (fun _ o => ueqb (so_team o) team && ueqb (so_digest o) digest) (o_objects d)) with
  | [] => Err (MkbError "OBJECT_NOT_FOUND" 404)
  | (object, o) :: _ =>
      let* handle := object_handle team digest in
      let* token := match session with Some (sid, s) => let* t := session_token team (se_key s) sid in Ok (Some t) | None => Ok None end in
      Ok (Build_object_status (Build_object_stat handle digest (so_size o) (so_media o)) (row_disposition d team object o (fst <$> session)) token)
  end.

(** ** Expiry *)

(** The statement on holds of one round of [scan_once]. *)
Definition expire_hold (now : Z) (kr : ustr * reference_row) : ctx bool :=
  let '(k, r) := kr in
  let! d := gets id in
  match o_references d !! k with
  | Some r =>
      if unreleased r then modify (fun d => set_references (<[k := release now r]> (o_references d)) d) ;! ret true else ret false
  | None => ret false
  end.
Definition expire_session (now : Z) (r : reference_row) : ctx unit :=
  match rf_session r with
  | Some ((_ :: _) as sid) => update_session sid (fun s => if early_session s then Some (end_session now S_expired s) else None) ;! ret tt
  | _ => ret tt
  end.
Definition session_released (d : catalog) (r : reference_row) : bool :=
  match rf_session r ≫= fun sid => o_sessions d !! sid with
  | Some s => negb (bool_decide (se_state s ∈ [S_reserved; S_consumed]))
  | None => true
  end.
Definition expired_holds (cutoff : Z) (d : catalog) : list (ustr * reference_row) :=
  py_sorted oldest_first
    (rows_where (fun _ r => purpose_is "upload_pending" r && unreleased r && (rf_created_at r <=? cutoff) && session_released d r) (o_references d)).

(** The transaction of [ObjectUploadLifecycleService.scan_once]. *)
Definition expire_uploads (now pending_ttl limit : Z) : ctx Z :=
  require ((1 <=? limit) && (limit <=? 10000)) ValueError ;!
  let! rows := gets (fun d => take (Z.to_nat limit) (expired_holds (now - pending_ttl) d)) in
  count_loop (fun kr => let! b := expire_hold now kr in expire_session now kr.2 ;! ret b) rows.
End catalogue.
