(* ===== verification/ObjectGc.v ===== *)
(** * Orphan collection

    Model of [src/services/object_gc.py]: a candidate is checked, its bytes are moved to the
    quarantine outside of any transaction, a second transaction checks again and writes the
    proof and the tombstone, and the quarantine is destroyed or restored.  The clock of the
    service and [timestamp], the text of an instant, are parameters.  Handles of teams that are
    not UUIDs are refused by [digest_from_handle]; the error of their own validation, which
    comes first, is not told apart. *)

From S2P Require Import Prelude PyText PyValue Txn ObjectStore Objects.

Open Scope Z_scope.
Open Scope mkb_scope.

Inductive disposition :=
| GC_DELETED | GC_STALE | GC_LIVE_REFERENCE | GC_HOLD | GC_CLEANUP_FENCE | GC_DUPLICATE_CATALOG | GC_MISSING_BYTES | GC_ERROR.
#[export] Instance disposition_eq_dec : EqDecision disposition.
Proof. solve_decision. Defined.

Record candidate := {
  gc_team : ustr;
  gc_object : ustr;
  gc_digest : ustr;
  gc_size : Z;
  gc_created_at : Z;
  gc_unowned_at : Z;
  gc_media : option ustr
}.
Definition gc_handle (c : candidate) : ustr := handle_value (gc_team c) (gc_digest c).
Definition gc_key (c : candidate) : ustr * ustr := (gc_team c, gc_digest c).

(** [MAX(h.released_at)], or the creation of the row. *)
Definition latest_release (d : catalog) (team object : ustr) : option Z :=
  foldr (fun kv acc => match rf_released_at kv.2 with
                       | Some t => if of_object team object kv.2 then Some (match acc with Some a => Z.max a t | None => t end) else acc
                       | None => acc end) None (map_to_list (o_references d)).
Definition unowned_at (d : catalog) (k : ustr) (o : catalog_row) : Z := default (so_created_at o) (latest_release d (so_team o) k).

Definition has_live_reference (d : catalog) (team object : ustr) : bool :=
  existsb (fun kv => of_object team object kv.2 && unreleased kv.2) (map_to_list (o_references d)).

Definition candidate_of (d : catalog) (kv : ustr * catalog_row) : candidate :=
  Build_candidate (so_team kv.2) kv.1 (so_digest kv.2) (so_size kv.2) (so_created_at kv.2) (unowned_at d kv.1 kv.2) (so_media kv.2).

(** [ORDER BY o.created_at, o.stored_object_uuid] *)
Definition oldest_object (a b : ustr * catalog_row) : bool :=
  (so_created_at a.2 <? so_created_at b.2) || (so_created_at a.2 =? so_created_at b.2) && str_le a.1 b.1.

Definition local_row (o : catalog_row) : bool := live_row o && ueqb (so_backend o) (u "local_fs").

(** [collect_candidates] *)
Definition collect_candidates (now grace limit : Z) (d : catalog) : result (list candidate) :=
  check (1 <=? limit) && (limit <=? 10000) else ValueError ;;
  Ok (map (candidate_of d)
        (take (Z.to_nat limit)
           (py_sorted oldest_object
              (rows_where (fun k o => local_row o && (unowned_at d k o <=? now - grace) && negb (has_live_reference d (so_team o) k))
                 (o_objects d))))).

(** [_same_catalogue_row] *)
Definition same_row (d : catalog) (c : candidate) : bool :=
  match o_objects d !! gc_object c with
  | Some o =>
      local_row o && ueqb (so_team o) (gc_team c) && ueqb (so_digest o) (gc_digest c) && (so_size o =? gc_size c)
      && (so_created_at o =? gc_created_at c) && (unowned_at d (gc_object c) o =? gc_unowned_at c)
  | None => false
  end.

(** [_mentions_candidate] *)
Definition coordinates (c : candidate) : list ustr :=
  [gc_object c; gc_digest c; gc_handle c; u "stored_object:" ++ gc_object c; u "object:" ++ gc_object c; u "sha256:" ++ gc_digest c].
Section mentions.
Variable c : candidate.
Fixpoint mentions (v : pyval) : bool :=
  match v with
  | PStr s => bool_decide (s ∈ coordinates c)
  | PDict d => (fix entries (d : pydict) := match d with [] => false | (_, x) :: d => mentions x || entries d end) d
  | PList l | PTuple l => (fix items (l : list pyval) := match l with [] => false | x :: l => mentions x || items l end) l
  | _ => false
  end.
End mentions.

(** One intent of [_has_cleanup_fence_tx]. *)
Definition intent_fences (c : candidate) (i : cleanup_intent) : bool :=
  match ci_hold_refs i with
  | Some (PList l) => mentions c (PList l) || mentions c (ci_target_ref i) || mentions c (ci_reference_snapshot i)
  | _ => true
  end.
Definition has_cleanup_fence (d : catalog) (c : candidate) : bool :=
  existsb (intent_fences c) (List.filter (fun i => ueqb (ci_team i) (gc_team c) && ci_open i) (o_intents d)).

Definition live_duplicates (d : catalog) (team digest : ustr) : Z :=
  count_rows (fun _ o => ueqb (so_team o) team && ueqb (so_digest o) digest && live_row o) (o_objects d).

(** [_delete_blocker_tx] *)
Definition delete_blocker (d : catalog) (c : candidate) : option disposition :=
  if negb (live_duplicates d (gc_team c) (gc_digest c) =? 1) then Some GC_DUPLICATE_CATALOG
  else match py_sorted oldest_first (rows_where (fun _ r => of_object (gc_team c) (gc_object c) r && unreleased r) (o_references d)) with
       | (_, r) :: _ =>
           Some (if bool_decide (rf_purpose r ∈ ["operator_hold"; "backup_hold"]%string) then GC_HOLD else GC_LIVE_REFERENCE)
       | [] => if has_cleanup_fence d c then Some GC_CLEANUP_FENCE else None
       end.

(** The first transaction of [delete_candidate]: [None] lets the collection go on. *)
Definition gc_check (now grace : Z) (c : candidate) (d : catalog) : option disposition :=
  if negb (same_row d c) then Some GC_STALE
  else if negb (gc_unowned_at c <=? now - grace) then Some GC_STALE
  else delete_blocker d c.

Section gc.
Context {H : Host}.
Variable uuid7 : nat -> ustr.
Variable timestamp : Z -> ustr.
Variable scanner : ustr.

(** [_delete_fence_digest] *)
Definition fence_value (c : candidate) : pyval :=
  obj [("schema_version", PStr (u "mkb.object-delete-fence.v1")); ("scanner_id", PStr scanner); ("team_uuid", PStr (gc_team c));
       ("stored_object_uuid", PStr (gc_object c)); ("content_digest", PStr (gc_digest c)); ("size_bytes", PInt (gc_size c));
       ("catalogued_at", PStr (timestamp (gc_created_at c))); ("unowned_at", PStr (timestamp (gc_unowned_at c)));
       ("live_reference_count", PInt 0)].

Definition tombstone (now : Z) (o : catalog_row) : catalog_row :=
  Build_catalog_row (so_team o) (so_digest o) (so_size o) (so_media o) (so_backend o) (so_created_at o) (Some now).

Definition DELETE_FENCE : exn := MkbError "OBJECT_CONFLICT_DELETE_FENCE" 409.

(** The second transaction: [Some] blocker, or the proof and the tombstone. *)
Definition gc_commit (now : Z) (c : candidate) : txn catalog (option disposition) :=
  let! d := gets id in
  require (same_row d c) DELETE_FENCE ;!
  match delete_blocker d c with
  | Some blocker => ret (Some blocker)
  | None =>
      let! fence := lift (stable_digest (fence_value c)) in
      let! proof := new_uuid uuid7 in
      let! d := gets id in
      require (negb (bool_decide (is_Some (o_proofs d !! proof)))) IntegrityError ;!
      modify (fun d => set_proofs (<[proof := Build_delete_proof (gc_team c) (gc_object c) (gc_digest c) (gc_size c) fence now scanner]> (o_proofs d)) d) ;!
      let! d := gets id in
      match o_objects d !! gc_object c with
      | Some o =>
          require (ueqb (so_team o) (gc_team c) && live_row o) (MkbError "OBJECT_CONFLICT_DELETE_TOMBSTONE" 409) ;!
          modify (fun d => set_objects (<[gc_object c := tombstone now o]> (o_objects d)) d) ;!
          ret None
      | None => raise (MkbError "OBJECT_CONFLICT_DELETE_TOMBSTONE" 409)
      end
  end.

(** ** A collection without other actors *)

Record storage := { st_catalog : catalog; st_files : cas }.

Definition on_catalog {A} (m : txn catalog A) : txn storage A := fun s =>
  let* r := m (st_catalog s) in Ok (r.1, Build_storage r.2 (st_files s)).
Definition on_files {A} (m : txn cas A) : txn storage A := fun s =>
  let* r := m (st_files s) in Ok (r.1, Build_storage (st_catalog s) r.2).

Definition is_mkb_error (e : exn) : bool := match e with MkbError _ _ => true | _ => false end.

(** [delete_candidate].  A pair of a result and a state: what raises after the quarantine has
    already moved bytes. *)
Definition delete_candidate (now grace : Z) (c : candidate) (s : storage) : result disposition * storage :=
  match gc_check now grace c (st_catalog s) with
  | Some blocker => (Ok blocker, s)
  | None =>
      match on_files (quarantine_object (gc_team c) (gc_handle c)) s with
      | Err e => (Err e, s)
      | Ok (false, s) => (Ok GC_MISSING_BYTES, s)
      | Ok (true, s) =>
          let restore r s := match on_files (restore_quarantined (gc_team c) (gc_handle c)) s with
                             | Ok (_, s) => (r, s) | Err e => (Err e, s) end in
          match on_catalog (gc_commit now c) s with
          | Err e => if is_mkb_error e then restore (Err e) s else (Err e, s)
          | Ok (Some blocker, s) => restore (Ok blocker) s
          | Ok (None, s) =>
              match on_files (destroy_quarantined (gc_team c) (gc_handle c)) s with
              | Ok (_, s) => (Ok GC_DELETED, s) | Err e => (Err e, s) end
          end
      end
  end.

(** ** Reconciliation *)

(** [_persistence_row_tombstoned]: the newest row of the digest. *)
Definition newest_object (a b : ustr * catalog_row) : bool := so_created_at b.2 <=? so_created_at a.2.
Definition row_tombstoned (d : catalog) (team digest : ustr) : bool :=
  match py_sorted newest_object (rows_where (fun _ o => ueqb (so_team o) team && ueqb (so_digest o) digest) (o_objects d)) with
  | (_, o) :: _ => negb (live_row o)
  | [] => false
  end.
Definition live_digest (d : catalog) (team digest : ustr) : bool :=
  negb (live_duplicates d team digest =? 0).

(** One round of [reconcile_quarantine]. *)
Definition reconcile_one (k : ustr * ustr) : txn storage bool :=
  let! s := gets id in
  let d := st_catalog s in
  let h := handle_value k.1 k.2 in
  if negb (live_digest d k.1 k.2) then
    (if row_tombstoned d k.1 k.2 then on_files (destroy_quarantined k.1 h) else ret tt) ;! ret false
  else on_files (restore_quarantined k.1 h).
Definition reconcile_quarantine : txn storage Z :=
  let! s := gets id in count_loop reconcile_one (list_quarantined (st_files s)).

(** [scan_once]: an [MkbError] of a candidate keeps its code, another exception is masked. *)
Record candidate_result := { cr_candidate : candidate; cr_disposition : disposition; cr_error : option string }.
Definition error_code_of (e : exn) : string := match e with MkbError code _ => code | _ => "OBJECT_UNAVAILABLE_GC" end.

Fixpoint delete_all (now grace : Z) (cs : list candidate) (s : storage) : list candidate_result * storage :=
  match cs with
  | [] => ([], s)
  | c :: cs =>
      let r := delete_candidate now grace c s in
      let rs := delete_all now grace cs r.2 in
      (match r.1 with
       | Ok disp => Build_candidate_result c disp None
       | Err e => Build_candidate_result c GC_ERROR (Some (error_code_of e))
       end :: rs.1, rs.2)
  end.

Definition scan_once (now grace limit : Z) : txn storage (list candidate_result) :=
  reconcile_quarantine ;!
  let! cs := (fun s => let* cs := collect_candidates now grace limit (st_catalog s) in Ok (cs, s)) in
  fun s => Ok (delete_all now grace cs s).
End gc.
