(* ===== verification/ObjectRuns.v ===== *)
(** * Uploads and collections side by side

    The actors of the object store as one system: promotions, the transactions that hold what
    was promoted, the transactions that release holds, and one collector whose checks, moves
    and transactions interleave with all of them. *)

From S2P Require Import Prelude PyText PyValue Txn ObjectStore Objects ObjectGc.

Open Scope Z_scope.
Open Scope mkb_scope.

(** ** The system *)

(** Where the collector stands in [delete_candidate]. *)
Inductive gc_phase :=
| Idle
| Checked (c : candidate)
| Quarantined (c : candidate)
| Blocked (c : candidate)
| Committed (c : candidate).

Record system := { y_storage : storage; y_promoted : list (ustr * object_stat); y_gc : gc_phase }.

Inductive action :=
| Promote (chunks : list bytes) (r : promote_request)
| Upload (now : Z) (i : nat) (requested : option ustr)
| Catalog (now : Z) (i : nat) (owner_kind : string) (owner : ustr)
| Reserve (team token task : ustr) (generation : Z)
| Consume (now : Z) (team token : ustr)
| CancelSession (now : Z) (team token : ustr)
| CancelUpload (now : Z) (team h : ustr)
| Expire (now ttl limit : Z)
| GcCheck (now grace : Z) (c : candidate)
| GcQuarantine
| GcCommit (now : Z)
| GcFinish
| Reconcile (k : ustr * ustr).

Section system.
Context {H : Host}.
Context (max_object_bytes : Z) (uuid7 : nat -> ustr) (timestamp : Z -> ustr) (scanner : ustr).

(** A transaction that raises leaves the state. *)
Definition perform {A} (m : txn storage A) (y : system) : system :=
  match m (y_storage y) with Ok (_, s) => Build_system s (y_promoted y) (y_gc y) | Err _ => y end.
Definition in_phase (p : gc_phase) (y : system) : system := Build_system (y_storage y) (y_promoted y) p.
Definition gc_files (f : ustr -> ustr -> txn cas bool) (c : candidate) : txn storage bool := on_files (f (gc_team c) (gc_handle c)).

Definition act (a : action) (y : system) : system :=
  match a with
  | Promote chunks r =>
      match on_files (promote_stream max_object_bytes chunks r) (y_storage y) with
      | Ok (st, s) => Build_system s (y_promoted y ++ [(pq_team r, st)]) (y_gc y)
      | Err _ => y
      end
  | Upload now i requested =>
      match y_promoted y !! i with
      | Some (team, st) => perform (on_catalog (upload_transaction uuid7 now team st requested)) y
      | None => y
      end
  | Catalog now i kind owner =>
      match y_promoted y !! i with
      | Some (team, st) => perform (on_catalog (catalog_stat uuid7 now team st kind owner)) y
      | None => y
      end
  | Reserve team token task generation => perform (on_catalog (reserve_session team token task generation)) y
  | Consume now team token => perform (on_catalog (consume_session now team token)) y
  | CancelSession now team token => perform (on_catalog (cancel_session now team token)) y
  | CancelUpload now team h => perform (on_catalog (cancel_upload now team h)) y
  | Expire now ttl limit => perform (on_catalog (expire_uploads now ttl limit)) y
  | GcCheck now grace c =>
      match y_gc y, gc_check now grace c (st_catalog (y_storage y)) with Idle, None => in_phase (Checked c) y | _, _ => y end
  | GcQuarantine =>
      match y_gc y with
      | Checked c =>
          match gc_files quarantine_object c (y_storage y) with
          | Ok (true, s) => Build_system s (y_promoted y) (Quarantined c)
          | _ => in_phase Idle y
          end
      | _ => y
      end
  | GcCommit now =>
      match y_gc y with
      | Quarantined c =>
          match on_catalog (gc_commit uuid7 timestamp scanner now c) (y_storage y) with
          | Ok (None, s) => Build_system s (y_promoted y) (Committed c)
          | Ok (Some _, s) => Build_system s (y_promoted y) (Blocked c)
          | Err e => in_phase (if is_mkb_error e then Blocked c else Idle) y
          end
      | _ => y
      end
  | GcFinish =>
      match y_gc y with
      | Blocked c => in_phase Idle (perform (gc_files restore_quarantined c) y)
      | Committed c => in_phase Idle (perform (on_files (destroy_quarantined (gc_team c) (gc_handle c))) y)
      | _ => y
      end
  | Reconcile k => match y_gc y with Idle => perform (reconcile_one k) y | _ => y end
  end.

Definition run_actions (l : list action) (y : system) : system := foldl (fun y a => act a y) y l.

(** ** What a hold is owed *)

Definition catalog_of (y : system) : catalog := st_catalog (y_storage y).
Definition files_of (y : system) : cas := st_files (y_storage y).
Definition key_of (o : catalog_row) : ustr * ustr := (so_team o, so_digest o).

(** A live catalogue row with an unreleased reference. *)
Definition held (d : catalog) (object : ustr) (o : catalog_row) : Prop :=
  o_objects d !! object = Some o /\ live_row o = true /\
  exists k r, o_references d !! k = Some r /\ rf_object r = object /\ unreleased r = true.

Definition live_bytes (s : cas) (k : ustr * ustr) : Prop := is_Some (c_live s !! k).
Definition some_bytes (s : cas) (k : ustr * ustr) : Prop := live_bytes s k \/ is_Some (c_quarantine s !! k).

(** Sessions name rows of their own team and bytes; [NULL] columns name nothing. *)
Definition sessions_bound (d : catalog) : Prop :=
  forall sid s object, o_sessions d !! sid = Some s -> se_object s = Some object ->
    exists o, o_objects d !! object = Some o /\ se_digest s = Some (so_digest o).

Record covered (y : system) : Prop := {
  cv_files : cas_ok (files_of y);
  cv_sessions : sessions_bound (catalog_of y);
  cv_held : forall object o, held (catalog_of y) object o -> some_bytes (files_of y) (key_of o);
  cv_committed : forall c object o, y_gc y = Committed c -> held (catalog_of y) object o -> key_of o = gc_key c ->
    live_bytes (files_of y) (key_of o)
}.

(** What a hold relies on and does not check: the bytes that were promoted for it are still
    in place when its transaction runs. *)
Definition in_time (a : action) (y : system) : Prop :=
  match a with
  | Upload _ i _ | Catalog _ i _ _ =>
      forall team st, y_promoted y !! i = Some (team, st) -> live_bytes (files_of y) (team, os_sha256 st)
  | _ => True
  end.
Fixpoint all_in_time (l : list action) (y : system) : Prop :=
  match l with [] => True | a :: l => in_time a y /\ all_in_time l (act a y) end.
End system.
