(* ===== verification/ObjectLaws.v ===== *)
(** * What the object store guarantees

    An accepted upload holds bytes that are in place; holds of one digest survive every
    interleaving with the collector as long as each hold is taken while its bytes are in
    place; and the window that the code leaves open. *)

From S2P Require Import Prelude PyText PyValue Txn ObjectStore Objects ObjectGc ObjectRuns.

Open Scope Z_scope.
Open Scope mkb_scope.

(** ** Transactions that release *)

Record releases (d d' : catalog) : Prop := {
  rl_objects : o_objects d' = o_objects d;
  rl_references : forall k r', o_references d' !! k = Some r' ->
    exists r, o_references d !! k = Some r /\ rf_object r' = rf_object r /\ (unreleased r' = true -> unreleased r = true);
  rl_sessions : forall sid s', o_sessions d' !! sid = Some s' ->
    exists s, o_sessions d !! sid = Some s /\ se_object s' = se_object s /\ se_digest s' = se_digest s
}.
#[export] Instance releases_preorder : PreOrder releases.
Proof.
  split; [by split; eauto|]. intros a b c [Ho1 Hr1 Hs1] [Ho2 Hr2 Hs2]. split; [congruence| |].
  - intros k r (r1 & H1 & E1 & U1)%Hr2. apply Hr1 in H1 as (r2 & H2 & E2 & U2). exists r2. split_and!; [done|congruence|auto].
  - intros k s (s1 & H1 & E1 & D1)%Hs2. apply Hs1 in H1 as (s2 & H2 & E2 & D2). exists s2. split_and!; congruence.
Qed.

Definition same_session (f : session_row -> option session_row) : Prop :=
  forall s s', f s = Some s' -> se_object s' = se_object s /\ se_digest s' = se_digest s.

Lemma releases_update_session k f : same_session f -> keeps releases (update_session k f).
Proof.
  intros Hf d b d'. unfold update_session. destruct (o_sessions d !! k) as [s|] eqn:E; cbn; [|by intros [= _ <-]].
  destruct (f s) as [s'|] eqn:Ef; intros [= _ <-]; [|done]. split; cbn; [done|by eauto|].
  intros sid t. rewrite lookup_insert_Some. intros [[<- <-]|[_ Ht]]; [exists s; split; [done|by apply Hf]|by exists t].
Qed.
Lemma releases_where now f : keeps releases (release_where now f).
Proof.
  intros d b d' [= _ <-]. split; cbn; [done| |by eauto]. intros k r'. rewrite lookup_fmap. intros (r & Hr & ->)%fmap_Some. exists r.
  split; [done|]. by destruct (f r).
Qed.
Lemma releases_one now k r d : o_references d !! k = Some r -> releases d (set_references (<[k := release now r]> (o_references d)) d).
Proof.
  intros Hk. split; cbn; [done| |by eauto]. intros j r'. rewrite lookup_insert_Some. intros [[<- <-]|[_ Hj]]; [|by eauto]. by exists r.
Qed.

Create HintDb objects.
Lemma same_reserve task generation : same_session (fun s => Some (reserve task generation s)).
Proof. by intros s s' [= <-]. Qed.
Lemma same_end (b : session_row -> bool) now state : same_session (fun s => if b s then Some (end_session now state s) else None).
Proof. intros s s'. destruct (b s); [|done]. by intros [= <-]. Qed.
#[local] Hint Resolve same_reserve same_end releases_update_session releases_where : objects.

Ltac rel_tac :=
  repeat match goal with
  | |- keeps _ (bind _ _) => apply keeps_bind; [apply _| |intros ?]
  | |- keeps _ (if ?b then _ else _) => destruct b
  | |- keeps _ (match ?x with _ => _ end) => destruct x
  end;
  auto with objects; try (apply keeps_reads; [apply _|]; solve [auto with mkb]).

Section releasing.
Context {H : Host}.

Lemma releases_reserve team token task generation : keeps releases (reserve_session team token task generation).
Proof. unfold reserve_session. rel_tac. Qed.
Lemma releases_consume now team token : keeps releases (consume_session now team token).
Proof. unfold consume_session. rel_tac. Qed.
Lemma releases_cancel now team token : keeps releases (cancel_session now team token).
Proof. unfold cancel_session. rel_tac. Qed.
Lemma releases_cancel_upload now team h : keeps releases (cancel_upload now team h).
Proof.
  intros d b d'. unfold cancel_upload. intros (digest & d1 & [_ ->]%lift_Ok & (? & ? & [= <- <-] & Hd)%bind_Ok)%bind_Ok.
  destruct (first_row _ _) as [[object o]|]; [|done].
  destruct (py_sorted _ _) as [|[k r] l] eqn:El; [by injection Hd as _ <-|]. apply bind_Ok in Hd as (? & ? & [= <- <-] & [= _ <-]).
  apply releases_one. assert ((k, r) ∈ py_sorted newest_first
    (rows_where (fun _ r => of_object team object r && purpose_is "upload_pending" r && owner_kind_is "public_upload" r && unreleased r) (o_references d))) as Hin
    by (rewrite El; left).
  rewrite py_sorted_perm in Hin. by apply rows_where_elem in Hin as [? _].
Qed.
Lemma releases_expire now ttl limit : keeps releases (expire_uploads now ttl limit).
Proof.
  unfold expire_uploads. rel_tac. apply keeps_count_loop; [apply _|]. intros [k r]. rel_tac.
  - intros d b d'. unfold expire_hold. intros (? & ? & [= <- <-] & Hd)%bind_Ok. destruct (o_references d !! k) as [r0|] eqn:Ek; [|by injection Hd as _ <-].
    destruct (unreleased r0); [|by injection Hd as _ <-]. apply bind_Ok in Hd as (? & ? & [= <- <-] & [= _ <-]). by apply releases_one.
  - unfold expire_session. rel_tac.
Qed.
End releasing.

(** ** Transactions that hold *)

Record takes (k : ustr * ustr) (d d' : catalog) : Prop := {
  tk_kept : o_objects d ⊆ o_objects d';
  tk_objects : forall id o, o_objects d' !! id = Some o -> o_objects d !! id = Some o \/ key_of o = k;
  tk_references : forall id r, o_references d' !! id = Some r ->
    o_references d !! id = Some r \/ exists o, o_objects d' !! rf_object r = Some o /\ key_of o = k;
  tk_sessions : forall sid s object, o_sessions d' !! sid = Some s -> se_object s = Some object ->
    (exists s0, o_sessions d !! sid = Some s0 /\ se_object s0 = Some object /\ se_digest s = se_digest s0)
    \/ exists o, o_objects d' !! object = Some o /\ se_digest s = Some (so_digest o)
}.
#[export] Instance takes_preorder k : PreOrder (takes k).
Proof.
  split; [by split; eauto|]. intros a b c [Hk1 Ho1 Hr1 Hs1] [Hk2 Ho2 Hr2 Hs2]. split.
  - by etrans.
  - intros id o [?|?]%Ho2; [by apply Ho1|by right].
  - intros id r [[?|(o & Ho & Hk)]%Hr1|?]%Hr2; [by left|right; exists o; split; [by eapply lookup_weaken|done]|by right].
  - intros sid s object Hs E. destruct (Hs2 _ _ _ Hs E) as [(s0 & H0 & E0 & D0)|?]; [|by right].
    destruct (Hs1 _ _ _ H0 E0) as [(s1 & H1 & E1 & D1)|(o & Ho & Hd)].
    + left. exists s1. split_and!; congruence.
    + right. exists o. split; [by eapply lookup_weaken|congruence].
Qed.

Lemma takes_sessions k d d' : takes k d d' -> sessions_bound d -> sessions_bound d'.
Proof.
  intros [Hk _ _ Hs] Hb sid s object Hs' E. destruct (Hs _ _ _ Hs' E) as [(s0 & H0 & E0 & D0)|?]; [|done].
  destruct (Hb _ _ _ H0 E0) as (o & Ho & Hd). exists o. split; [by eapply lookup_weaken|congruence].
Qed.

Lemma live_object_Some d team digest size object :
  live_object d team digest size = Some object ->
  exists o, o_objects d !! object = Some o /\ so_team o = team /\ so_digest o = digest /\ so_size o = size /\ live_row o = true.
Proof.
  unfold live_object, first_row. destruct (head _) as [[k o]|] eqn:E; [|done]. intros [= <-]. apply head_Some_elem_of in E.
  apply rows_where_elem in E as [Ho Hf]. exists o. breflect. split_and!; try done; try (by apply ueqb_eq). by apply Z.eqb_eq.
Qed.

Section taking.
Context {H : Host} (uuid7 : nat -> ustr).

Lemma takes_uuid k : keeps (takes k) (new_uuid uuid7).
Proof. intros d a d' [= _ <-]. split; cbn; eauto. Qed.

Lemma takes_insert_object k id o : key_of o = k -> keeps (takes k) (insert_object_or_ignore id o).
Proof.
  intros Hk d a d' [= _ <-]. destruct (object_conflict id o d) eqn:E; [reflexivity|]. unfold object_conflict in E. breflect.
  assert (o_objects d !! id = None) as Hid by (destruct (o_objects d !! id); [exfalso; eauto|done]).
  split; cbn; [by apply insert_subseteq| |eauto|eauto].
  intros j o'. rewrite lookup_insert_Some. intros [[<- <-]|[_ Hj]]; eauto.
Qed.

Lemma takes_insert_reference k id r d o :
  o_objects d !! rf_object r = Some o -> key_of o = k -> takes k d (set_references (<[id := r]> (o_references d)) d).
Proof.
  intros Ho Hk. split; cbn; eauto. intros j r'. rewrite lookup_insert_Some. intros [[<- <-]|[_ Hj]]; eauto.
Qed.

Lemma takes_insert_session k id s d o object :
  se_object s = Some object -> o_objects d !! object = Some o -> se_digest s = Some (so_digest o) ->
  takes k d (set_sessions (<[id := s]> (o_sessions d)) d).
Proof.
  intros Hs Ho Hd. split; cbn; eauto. intros j t object'. rewrite lookup_insert_Some. intros [[<- <-]|[_ Hj]] E; [|left; eauto].
  right. exists o. split; congruence.
Qed.

Lemma takes_update_session k sid f d b d' o object :
  o_objects d !! object = Some o -> (forall s s', f s = Some s' -> se_object s' = Some object /\ se_digest s' = Some (so_digest o)) ->
  update_session sid f d = Ok (b, d') -> takes k d d' /\ o_objects d' = o_objects d /\ o_references d' = o_references d.
Proof.
  intros Ho Hf. unfold update_session. destruct (o_sessions d !! sid) as [s|] eqn:E; cbn; [|by intros [= _ <-]].
  destruct (f s) as [s'|] eqn:Ef; intros [= _ <-]; [|done]. apply Hf in Ef as [Hs Hd]. split_and!; [|done..].
  by eapply takes_insert_session.
Qed.

Lemma catalog_object_Ok now team st d r d' :
  catalog_object uuid7 now team st d = Ok (r, d') ->
  takes (team, os_sha256 st) d d' /\
  exists o, o_objects d' !! r.1 = Some o /\ key_of o = (team, os_sha256 st) /\ so_size o = os_size st /\ live_row o = true.
Proof.
  unfold catalog_object. intros (? & ? & [= <- <-] & Hd)%bind_Ok. destruct (live_object d team _ _) as [object|] eqn:E.
  - injection Hd as <- <-. split; [reflexivity|]. apply live_object_Some in E as (o & Ho & Ht & Hg & Hz & Hl).
    exists o. unfold key_of. rewrite Ht, Hg. done.
  - apply bind_Ok in Hd as (c & d1 & Hc & Hd). apply bind_Ok in Hd as ([] & d2 & Hi & Hd). apply bind_Ok in Hd as (? & ? & [= <- <-] & Hd).
    assert (takes (team, os_sha256 st) d d2) as Ht by (etrans; [by eapply takes_uuid|by eapply takes_insert_object, Hi]).
    destruct (live_object d2 _ _ _) as [object|] eqn:El; [|done]. injection Hd as <- <-. split; [done|].
    apply live_object_Some in El as (o & Ho & Ht' & Hg & Hz & Hl). exists o. unfold key_of. cbn. rewrite Ht', Hg. done.
Qed.

(** A hold of [object] that the call has taken or found. *)
Definition pending_hold (d : catalog) (team object : ustr) : Prop :=
  exists k r, o_references d !! k = Some r /\ of_object team object r = true /\ rf_purpose r = "upload_pending"%string /\ unreleased r = true.

(** What an upload hands out: a live row of its team and bytes. *)
Definition names_bytes (d : catalog) (team : ustr) (st : object_stat) (r : upload_record) : Prop :=
  exists o, o_objects d !! ur_object r = Some o /\ key_of o = (team, os_sha256 st) /\ so_size o = os_size st /\ live_row o = true
    /\ ur_stat r = with_media st (so_media o).

Lemma takes_row k d d' object o : takes k d d' -> o_objects d !! object = Some o -> o_objects d' !! object = Some o.
Proof. intros [Hk _ _ _] Ho. by eapply lookup_weaken. Qed.

Lemma upload_new_Ok now team st requested key d r d' :
  upload_new uuid7 now team st requested key d = Ok (r, d') ->
  takes (team, os_sha256 st) d d' /\ names_bytes d' team st r /\ pending_hold d' team (ur_object r).
Proof.
  unfold upload_new. intros (found & d1 & Hc & Hd)%bind_Ok. apply catalog_object_Ok in Hc as (T1 & o & Ho & Hk & Hz & Hl). cbn zeta in Hd.
  apply bind_Ok in Hd as (session & d2 & Hu & Hd). pose proof (takes_uuid (team, os_sha256 st) _ _ _ Hu) as T2.
  apply bind_Ok in Hd as (token & ? & [_ ->]%lift_Ok & Hd). apply bind_Ok in Hd as (hash & ? & [_ ->]%lift_Ok & Hd).
  apply bind_Ok in Hd as (fp & ? & [_ ->]%lift_Ok & Hd). apply bind_Ok in Hd as ([] & d3 & Hs & Hd).
  assert (o_objects d2 !! found.1 = Some o) as Ho2 by by eapply takes_row.
  assert (takes (team, os_sha256 st) d2 d3) as T3.
  { unfold insert_session in Hs. apply bind_Ok in Hs as (? & ? & [= <- <-] & Hs). apply bind_Ok in Hs as ([] & ? & [_ ->]%require_Ok & [= <-]).
    eapply takes_insert_session; [done|exact Ho2|]. cbn. injection Hk as _ ->. done. }
  apply bind_Ok in Hd as (journal & d4 & Hj & Hd). pose proof (takes_uuid (team, os_sha256 st) _ _ _ Hj) as T4.
  apply bind_Ok in Hd as (owner & d5 & Hw & Hd).
  assert (takes (team, os_sha256 st) d4 d5) as T5 by (destruct requested; [by injection Hw as _ <-|by eapply takes_uuid]).
  apply bind_Ok in Hd as (reference & d6 & Hr & Hd). pose proof (takes_uuid (team, os_sha256 st) _ _ _ Hr) as T6.
  apply bind_Ok in Hd as ([] & d7 & Hi & Hd).
  assert (takes (team, os_sha256 st) d2 d6) as T36 by (etrans; [exact T3|]; etrans; [exact T4|]; etrans; [exact T5|exact T6]).
  assert (o_objects d6 !! found.1 = Some o) as Ho6 by by eapply takes_row.
  assert (takes (team, os_sha256 st) d6 d7) as T7.
  { injection Hi as <-. destruct (reference_conflict _ _ d6); [reflexivity|]. by eapply takes_insert_reference. }
  apply bind_Ok in Hd as (? & ? & [= <- <-] & Hd). destruct (first_row _ _) as [[pending p]|] eqn:Ep; [|done].
  assert (o_objects d7 !! found.1 = Some o) as Ho7 by by eapply takes_row. rewrite Ho7 in Hd.
  apply bind_Ok in Hd as ([] & ? & [_ ->]%require_Ok & Hd). apply bind_Ok in Hd as (b & d8 & Hup & [= <- <-]).
  eapply (takes_update_session (team, os_sha256 st)) in Hup as (T8 & Eo & Er); [|exact Ho7|].
  2: { intros s s'. destruct (bool_decide _); [|done]. intros [= <-]. cbn. injection Hk as _ ->. done. }
  split; [|split].
  - etrans; [exact T1|]. etrans; [exact T2|]. etrans; [exact T36|]. by etrans.
  - exists o. cbn. rewrite Eo. done.
  - apply head_Some_elem_of, rows_where_elem in Ep as [Hp Hf]. exists pending, p. cbn. rewrite Er.
    apply andb_true_iff in Hf as [[[Hf1 Hf2%bool_decide_eq_true]%andb_true_iff _]%andb_true_iff Hf4]. done.
Qed.

Lemma session_by_key_Some d team key sid s :
  session_by_key d team key = Some (sid, s) -> o_sessions d !! sid = Some s /\ se_team s = team /\ se_key s = key.
Proof.
  unfold session_by_key, first_row. intros [Hs Hf]%head_Some_elem_of%rows_where_elem. breflect. split_and!; [done|by apply ueqb_eq..].
Qed.

(** [upload]: what it leaves, whether it found a session or made one. *)
Lemma upload_Ok now team st requested d r d' :
  sessions_bound d -> upload_transaction uuid7 now team st requested d = Ok (r, d') ->
  takes (team, os_sha256 st) d d' /\
  (exists o, o_objects d' !! ur_object r = Some o /\ key_of o = (team, os_sha256 st) /\ live_row o = true) /\
  (ur_replay r = false \/ requested = None -> pending_hold d' team (ur_object r)) /\
  (ur_replay r = true -> requested <> None -> d' = d \/ pending_hold d' team (ur_object r)).
Proof.
  intros Hb. unfold upload_transaction. intros (? & ? & [= <- <-] & Hd)%bind_Ok. destruct (o_teams d !! team) as [status|]; [|done].
  apply bind_Ok in Hd as ([] & ? & [_ ->]%require_Ok & Hd).
  assert (forall key d1, takes (team, os_sha256 st) d d1 -> upload_new uuid7 now team st requested key d1 = Ok (r, d') ->
    takes (team, os_sha256 st) d d' /\ (exists o, o_objects d' !! ur_object r = Some o /\ key_of o = (team, os_sha256 st) /\ live_row o = true) /\
    (ur_replay r = false \/ requested = None -> pending_hold d' team (ur_object r)) /\
    (ur_replay r = true -> requested <> None -> d' = d \/ pending_hold d' team (ur_object r))) as Hnew.
  { intros key d1 T1 (T2 & (o & Ho & Hk & _ & Hl & _) & Hp)%upload_new_Ok. split; [by etrans|]. split; [by exists o|]. split; [done|]. by right. }
  assert (forall key, (let! fresh := new_uuid uuid7 in upload_new uuid7 now team st requested (key ++ u ":" ++ fresh)) d = Ok (r, d') ->
    takes (team, os_sha256 st) d d' /\ (exists o, o_objects d' !! ur_object r = Some o /\ key_of o = (team, os_sha256 st) /\ live_row o = true) /\
    (ur_replay r = false \/ requested = None -> pending_hold d' team (ur_object r)) /\
    (ur_replay r = true -> requested <> None -> d' = d \/ pending_hold d' team (ur_object r))) as Hfresh.
  { intros key (fresh & d1 & Hu & Hn)%bind_Ok. eapply Hnew, Hn. by eapply takes_uuid. }
  destruct (session_by_key d team _) as [[sid s]|] eqn:Es; [|by eapply Hnew; [reflexivity|exact Hd]].
  apply bind_Ok in Hd as ([] & ? & [Hsame ->]%require_Ok & Hd). apply andb_true_iff in Hsame as [Hsha%bool_decide_eq_true _].
  apply session_by_key_Some in Es as (Hs & _ & _).
  destruct (se_object s) as [object|] eqn:Eo; cbn [mbind option_bind] in Hd; [|destruct requested; [done|by eapply Hfresh]].
  destruct (o_objects d !! object) as [o|] eqn:Ho; cbn [fmap option_fmap option_map] in Hd; [|destruct requested; [done|by eapply Hfresh]].
  destruct (ueqb (so_team o) team && live_row o) eqn:El; [|destruct requested; [done|by eapply Hfresh]].
  apply andb_true_iff in El as [Ht%ueqb_eq Hl]. destruct (Hb _ _ _ Hs Eo) as (o' & Ho' & Hd'). assert (o' = o) as -> by congruence.
  assert (key_of o = (team, os_sha256 st)) as Hk by (unfold key_of; congruence).
  apply bind_Ok in Hd as (token & ? & [_ ->]%lift_Ok & Hd). destruct requested as [k|].
  - injection Hd as <- <-. cbn. split; [reflexivity|]. split; [by exists o|]. split; [by intros [?|?]|]. by left.
  - apply bind_Ok in Hd as (ref & d1 & Hu1 & Hd). apply bind_Ok in Hd as (owner & d2 & Hu2 & Hd). apply bind_Ok in Hd as ([] & d3 & Hi & [= <- <-]).
    injection Hu1 as <- <-. injection Hu2 as <- <-. unfold insert_reference in Hi. apply bind_Ok in Hi as (? & ? & [= <- <-] & Hi).
    apply bind_Ok in Hi as ([] & ? & [_ ->]%require_Ok & [= <-]). cbn. split; [|split; [|split; [|done]]].
    + etrans; [|by eapply (takes_insert_reference _ _ _ (draw_uuid (draw_uuid d)) o)]. by split; cbn; eauto.
    + by exists o.
    + intros _. eexists _, _. cbn. rewrite lookup_insert_eq. split; [done|]. unfold of_object. cbn. rewrite !ueqb_refl. done.
Qed.

Lemma catalog_stat_takes now team st kind owner : keeps (takes (team, os_sha256 st)) (catalog_stat uuid7 now team st kind owner).
Proof.
  intros d [] d'. unfold catalog_stat. intros (? & ? & [= <- <-] & (object & d1 & Hf & (ref & d2 & Hu & Hi)%bind_Ok)%bind_Ok)%bind_Ok.
  assert (takes (team, os_sha256 st) d d1 /\ exists o, o_objects d1 !! object = Some o /\ key_of o = (team, os_sha256 st)) as [T1 (o & Ho & Hk)].
  { destruct (live_object d team _ _) as [k|] eqn:El.
    - injection Hf as <- <-. split; [reflexivity|]. apply live_object_Some in El as (o & Ho & Ht & Hg & _). exists o. unfold key_of. rewrite Ht, Hg. done.
    - apply bind_Ok in Hf as (fresh & d3 & Hn & Hf). cbn zeta in Hf. apply bind_Ok in Hf as (? & ? & [= <- <-] & Hf).
      apply bind_Ok in Hf as ([] & ? & [Hc ->]%require_Ok & Hf). apply bind_Ok in Hf as ([] & d4 & Hp & [= <- <-]).
      pose proof (takes_uuid (team, os_sha256 st) _ _ _ Hn) as T1. injection Hp as <-. split.
      + etrans; [exact T1|]. eapply (takes_insert_object (team, os_sha256 st) fresh); [|unfold insert_object_or_ignore, modify].
        2: { rewrite (proj1 (negb_true_iff _) Hc). reflexivity. } done.
      + eexists. split; [apply lookup_insert_eq|done]. }
  pose proof (takes_uuid (team, os_sha256 st) _ _ _ Hu) as T2. etrans; [exact T1|]. etrans; [exact T2|].
  unfold insert_reference in Hi. apply bind_Ok in Hi as (? & ? & [= <- <-] & Hi). apply bind_Ok in Hi as ([] & ? & [_ ->]%require_Ok & [= <-]).
  eapply takes_insert_reference; [|exact Hk]. by eapply takes_row.
Qed.
End taking.

(** ** The collector *)

Lemma count_one {A} (f : ustr -> A -> bool) (m : gmap ustr A) a x b y :
  count_rows f m = 1 -> m !! a = Some x -> f a x = true -> m !! b = Some y -> f b y = true -> a = b.
Proof.
  unfold count_rows. intros Hc Ha Hfa Hb Hfb.
  assert ((a, x) ∈ rows_where f m) as Hx by by apply rows_where_elem. assert ((b, y) ∈ rows_where f m) as Hy by by apply rows_where_elem.
  destruct (rows_where f m) as [|p [|q l]]; cbn in Hc; try lia. apply list_elem_of_singleton in Hx, Hy. congruence.
Qed.
Lemma count_none {A} (f : ustr -> A -> bool) (m : gmap ustr A) a x :
  count_rows f m = 0 -> m !! a = Some x -> f a x = false.
Proof.
  unfold count_rows. intros Hc Ha. destruct (f a x) eqn:E; [|done]. assert ((a, x) ∈ rows_where f m) as Hx by by apply rows_where_elem.
  destruct (rows_where f m); [by apply elem_of_nil in Hx|cbn in Hc; lia].
Qed.

Lemma same_row_true d c : same_row d c = true ->
  exists o, o_objects d !! gc_object c = Some o /\ live_row o = true /\ key_of o = gc_key c.
Proof.
  unfold same_row, local_row. destruct (o_objects d !! gc_object c) as [o|]; [|done]. intros Hs. exists o. split; [done|].
  rewrite !andb_true_iff in Hs. destruct Hs as (((((( Hl & _) & Ht) & Hd) & _) & _) & _). split; [done|].
  unfold key_of, gc_key. apply ueqb_eq in Ht, Hd. congruence.
Qed.

Lemma delete_blocker_None d c : delete_blocker d c = None ->
  live_duplicates d (gc_team c) (gc_digest c) = 1 /\ has_cleanup_fence d c = false /\
  forall k r, o_references d !! k = Some r -> of_object (gc_team c) (gc_object c) r = true -> unreleased r = false.
Proof.
  unfold delete_blocker. destruct (_ =? 1) eqn:E1; [|done]. cbn [negb]. destruct (py_sorted _ _) as [|[? ?] l] eqn:E2; [|done].
  destruct (has_cleanup_fence d c); [done|]. intros _. split_and!; [by apply Z.eqb_eq|done|]. intros k r Hr Ho. destruct (unreleased r) eqn:Eu; [|done].
  assert ((k, r) ∈ py_sorted oldest_first (rows_where (fun _ r => of_object (gc_team c) (gc_object c) r && unreleased r) (o_references d))) as Hin.
  { rewrite py_sorted_perm. apply rows_where_elem. by rewrite Ho, Eu. }
  rewrite E2 in Hin. by apply elem_of_nil in Hin.
Qed.

Section collecting.
Context {H : Host} (uuid7 : nat -> ustr) (timestamp : Z -> ustr) (scanner : ustr).
Local Abbreviation commit := (gc_commit uuid7 timestamp scanner).

Lemma gc_commit_Ok now c d r d' : commit now c d = Ok (r, d') ->
  exists o, o_objects d !! gc_object c = Some o /\ live_row o = true /\ key_of o = gc_key c /\ r = delete_blocker d c /\
  match r with
  | Some _ => d' = d
  | None => o_objects d' = <[gc_object c := tombstone now o]> (o_objects d) /\ o_references d' = o_references d /\ o_sessions d' = o_sessions d /\
      exists k f, o_proofs d !! k = None /\ stable_digest (fence_value timestamp scanner c) = Ok f /\
        o_proofs d' = <[k := Build_delete_proof (gc_team c) (gc_object c) (gc_digest c) (gc_size c) f now scanner]> (o_proofs d)
  end.
Proof.
  unfold gc_commit. intros (? & ? & [= <- <-] & ([] & ? & [Hs ->]%require_Ok & Hd)%bind_Ok)%bind_Ok. apply same_row_true in Hs as (o & Ho & Hl & Hk).
  exists o. split; [done|]. split; [done|]. split; [done|]. change (id d) with d in *. destruct (delete_blocker d c) as [b|]; [by injection Hd as <- <-|].
  apply bind_Ok in Hd as (fence & ? & [Hf ->]%lift_Ok & Hd). apply bind_Ok in Hd as (proof & d1 & [= <- <-] & Hd).
  apply bind_Ok in Hd as (? & ? & [= <- <-] & Hd). apply bind_Ok in Hd as ([] & ? & [Hp ->]%require_Ok & Hd).
  apply bind_Ok in Hd as ([] & d2 & [= <-] & Hd). apply bind_Ok in Hd as (? & ? & [= <- <-] & Hd). cbn in Hd. rewrite Ho in Hd.
  apply bind_Ok in Hd as ([] & ? & [_ ->]%require_Ok & Hd). apply bind_Ok in Hd as ([] & d3 & [= <-] & [= <- <-]). split; [done|]. cbn. split_and!; [done..|].
  eexists _, _. split_and!; [|exact Hf|done]. apply negb_true_iff, bool_decide_eq_false in Hp. cbn in Hp. by apply eq_None_not_Some.
Qed.

Lemma with_digest_Ok {A} team digest (f : ustr * ustr -> cas -> A * cas) s r s' :
  with_digest team (handle_value team digest) f s = Ok (r, s') -> (r, s') = f (team, digest) s.
Proof. unfold with_digest. intros (d & Hd & [= Hf])%rbind_Ok. by rewrite <-(digest_of_handle _ _ _ Hd). Qed.

Lemma on_files_Ok {A} (m : txn cas A) s r s' : on_files m s = Ok (r, s') ->
  m (st_files s) = Ok (r, st_files s') /\ st_catalog s' = st_catalog s.
Proof. unfold on_files. intros ([a f] & Hm & [= <- <-])%rbind_Ok. done. Qed.
Lemma on_catalog_Ok {A} (m : txn catalog A) s r s' : on_catalog m s = Ok (r, s') ->
  m (st_catalog s) = Ok (r, st_catalog s') /\ st_files s' = st_files s.
Proof. unfold on_catalog. intros ([a f] & Hm & [= <- <-])%rbind_Ok. done. Qed.
End collecting.

(** Moving bytes to and from the quarantine loses nothing. *)
Lemma quarantine_bytes_keeps k j s : some_bytes s j -> some_bytes (quarantine_bytes k s).2 j.
Proof.
  unfold quarantine_bytes, some_bytes, live_bytes. destruct (c_live s !! k) as [b|] eqn:E; [|done]. cbn. destruct (decide (j = k)) as [->|Hj].
  - right. rewrite lookup_insert_eq. eauto.
  - rewrite lookup_delete_ne, lookup_insert_ne by done. done.
Qed.
Lemma restore_bytes_live k j s : live_bytes s j \/ j = k /\ some_bytes s k -> live_bytes (restore_bytes k s).2 j.
Proof.
  unfold restore_bytes, some_bytes, live_bytes. intros Hj. destruct (c_live s !! k) as [b|] eqn:E.
  - destruct Hj as [?|[-> _]]; cbn; [done|]. by exists b.
  - destruct (c_quarantine s !! k) as [b|] eqn:Eq; cbn.
    + destruct (decide (j = k)) as [->|Hn]; [rewrite lookup_insert_eq; eauto|rewrite lookup_insert_ne by done].
      by destruct Hj as [?|[? _]].
    + destruct Hj as [?|[-> [[? ?]|[? ?]]]]; [done|congruence..].
Qed.
Lemma restore_bytes_keeps k j s : some_bytes s j -> some_bytes (restore_bytes k s).2 j.
Proof.
  intros Hj. destruct (decide (j = k)) as [->|Hn]; [left; apply restore_bytes_live; by right|].
  destruct Hj as [Hj|Hj]; [left; apply restore_bytes_live; by left|]. right. unfold restore_bytes.
  destruct (c_live s !! k); cbn; [by rewrite lookup_delete_ne|]. destruct (c_quarantine s !! k); cbn; [by rewrite lookup_delete_ne|done].
Qed.

(** ** The invariant of the system *)

Lemma held_releases d d' object o : releases d d' -> held d' object o -> held d object o.
Proof.
  intros [Ho Hr _] (H1 & H2 & k & r' & Hk & E & U). split; [by rewrite <-Ho|]. split; [done|].
  destruct (Hr _ _ Hk) as (r & Hk' & E' & U'). exists k, r. split_and!; [done|congruence|auto].
Qed.
Lemma held_takes k d d' object o : takes k d d' -> held d' object o -> held d object o \/ key_of o = k.
Proof.
  intros [Hs Ho Hr _] (H1 & H2 & j & r & Hj & E & U). destruct (Ho _ _ H1) as [H3|?]; [|by right].
  destruct (Hr _ _ Hj) as [Hj'|(o' & Ho' & Hk)]; [|right; congruence]. left. split; [done|]. split; [done|]. by exists j, r.
Qed.

Section runs.
Context {H : Host} (max_object_bytes : Z) (uuid7 : nat -> ustr) (timestamp : Z -> ustr) (scanner : ustr).
Local Abbreviation step := (act max_object_bytes uuid7 timestamp scanner).

(** A step that leaves the files and the phase. *)
Lemma covered_catalog y d' :
  covered y -> (sessions_bound (catalog_of y) -> sessions_bound d') ->
  (forall object o, held d' object o -> held (catalog_of y) object o \/ live_bytes (files_of y) (key_of o)) ->
  covered (Build_system (Build_storage d' (files_of y)) (y_promoted y) (y_gc y)).
Proof.
  intros [Hf Hs Hh Hc] Hb Hd. split; cbn; auto.
  - intros object o [Ho|Ho]%Hd; [by eapply Hh|by left].
  - intros c object o Hp [Ho|Ho]%Hd Hk; [by eapply Hc|done].
Qed.

Lemma covered_perform {A} (m : txn catalog A) y :
  covered y ->
  (forall a d', m (catalog_of y) = Ok (a, d') -> (sessions_bound (catalog_of y) -> sessions_bound d') /\
     forall object o, held d' object o -> held (catalog_of y) object o \/ live_bytes (files_of y) (key_of o)) ->
  covered (perform (on_catalog m) y).
Proof.
  intros Hy Hm. unfold perform. destruct (on_catalog m (y_storage y)) as [[a s]|] eqn:E; [|done].
  apply on_catalog_Ok in E as [E Ef]. destruct (Hm _ _ E) as [Hb Hd]. destruct s as [d f]. cbn in *. subst f. by apply covered_catalog.
Qed.

Lemma covered_releasing {A} (m : txn catalog A) y : keeps releases m -> covered y -> covered (perform (on_catalog m) y).
Proof.
  intros Hm Hy. apply covered_perform; [done|]. intros a d' Hr%Hm. split.
  - intros Hb sid s' object Hs' E. destruct (rl_sessions _ _ Hr _ _ Hs') as (s & Hs & E1 & E2).
    destruct (Hb sid s object) as (o & Ho & Hd); [done|congruence|]. exists o. rewrite (rl_objects _ _ Hr). split; congruence.
  - intros object o Ho. left. by eapply held_releases.
Qed.

Lemma covered_taking {A} (m : txn catalog A) y k :
  (forall a d', sessions_bound (catalog_of y) -> m (catalog_of y) = Ok (a, d') -> takes k (catalog_of y) d') ->
  live_bytes (files_of y) k -> covered y -> covered (perform (on_catalog m) y).
Proof.
  intros Hm Hk Hy. apply covered_perform; [done|]. intros a d' Hr%Hm; [|by apply cv_sessions]. split; [by eapply takes_sessions|].
  intros object o [?|Ho]%(held_takes _ _ _ _ _ Hr); [by left|right; by rewrite Ho].
Qed.

(** A step that leaves the catalogue. *)
Lemma covered_files y f p :
  covered y -> cas_ok f -> (forall k, some_bytes (files_of y) k -> some_bytes f k) ->
  (forall c, p = Committed c -> forall object o, held (catalog_of y) object o -> key_of o = gc_key c -> live_bytes f (key_of o)) ->
  covered (Build_system (Build_storage (catalog_of y) f) (y_promoted y) p).
Proof. intros [Hf Hs Hh Hc] Hok Hk Hp. split; cbn; eauto. Qed.

Lemma covered_phase y p : covered y -> (forall c, p <> Committed c) -> covered (in_phase p y).
Proof. intros [Hf Hs Hh Hc] Hp. split; try done. intros c object o E. by destruct (Hp c). Qed.

Lemma covered_promote chunks r y : covered y -> covered (step (Promote chunks r) y).
Proof.
  intros Hy. cbn [act]. destruct (on_files _ _) as [[st s]|] eqn:E; [|done]. apply on_files_Ok in E as [Hp Hc].
  pose proof (promote_stream_keeps _ _ _ _ _ _ Hp (cv_files _ Hy)) as Hok. apply promote_stream_Ok in Hp as (_ & _ & Hq & _ & _ & Hs).
  assert (forall k, live_bytes (files_of y) k -> live_bytes (st_files s) k) as Hlive.
  { intros k [b Hb]. unfold live_bytes. destruct Hs as [-> |[Hn ->]]; [by exists b|]. rewrite lookup_insert_is_Some.
    destruct (decide ((pq_team r, sha256_hex (concat chunks)) = k)); [by left|right]. split; [done|by exists b]. }
  destruct Hy as [Hf Hb Hh Hcm]. unfold catalog_of, files_of in *. split; cbn; unfold catalog_of, files_of in *; cbn; rewrite ?Hc; auto.
  - intros object o Ho. destruct (Hh _ _ Ho) as [Hl|Hqq]; [left; by apply Hlive|right]. by rewrite Hq.
  - intros c object o Hph Ho Hk. apply Hlive. by eapply Hcm.
Qed.

Lemma quarantine_key c y s : gc_files quarantine_object c (y_storage y) = Ok (true, s) ->
  st_catalog s = catalog_of y /\ st_files s = (quarantine_bytes (gc_key c) (files_of y)).2.
Proof.
  unfold gc_files, quarantine_object, gc_handle. intros [Hq Hc]%on_files_Ok. apply with_digest_Ok in Hq. split; [done|].
  change (gc_team c, gc_digest c) with (gc_key c) in Hq. unfold files_of. by rewrite <-Hq.
Qed.

Lemma covered_quarantine y : covered y -> covered (step GcQuarantine y).
Proof.
  intros Hy. cbn [act]. destruct (y_gc y) as [|c|c|c|c] eqn:Ep; try done.
  destruct (gc_files _ c _) as [[[] s]|] eqn:E; try (by apply covered_phase). apply quarantine_key in E as [Hc Hf]. destruct s as [d f]. cbn in *. subst d f.
  apply covered_files; [done|by apply quarantine_ok, cv_files|intros k; apply quarantine_bytes_keeps|done].
Qed.

Lemma covered_commit now y : covered y -> covered (step (GcCommit now) y).
Proof.
  intros Hy. cbn [act]. destruct (y_gc y) as [|c|c|c|c] eqn:Ep; try done.
  destruct (on_catalog _ _) as [[[b|] s]|e] eqn:E.
  - apply on_catalog_Ok in E as [E Ef]. apply gc_commit_Ok in E as (o & _ & _ & _ & _ & Ed). destruct s as [d f]. cbn in *. subst d f.
    apply covered_files; [done|apply cv_files, Hy|done|done].
  - apply on_catalog_Ok in E as [E Ef]. apply gc_commit_Ok in E as (o & Ho & Hl & Hk & Hb & Eo & Er & Es & _). destruct s as [d f]. cbn in *. subst f.
    symmetry in Hb. apply delete_blocker_None in Hb as (Hone & _ & _). destruct Hy as [Hf Hs Hh Hc].
    assert (forall object o', held d object o' -> held (catalog_of y) object o' /\ object <> gc_object c) as Hd.
    { intros object o' (H1 & H2 & k & r & H3 & H4). rewrite Eo, lookup_insert_Some in H1. destruct H1 as [[<- <-]|[Hn H1]]; [done|].
      split; [|done]. split; [done|]. split; [done|]. exists k, r. rewrite Er in H3. done. }
    split; unfold catalog_of, files_of in *; cbn; auto.
    + intros sid s object Hsid Hso. rewrite Es in Hsid. destruct (Hs _ _ _ Hsid Hso) as (o' & Ho' & Hdg). rewrite Eo.
      destruct (decide (gc_object c = object)) as [<-|Hn]; [|exists o'; by rewrite lookup_insert_ne].
      exists (tombstone now o). rewrite lookup_insert_eq. split; [done|]. cbn. congruence.
    + intros object o' [Hheld _]%Hd. by eapply Hh.
    + intros c' object o' [= <-] Hheld Hk'. destruct (Hd _ _ Hheld) as [(H1 & H2 & _) Hn]. destruct Hn.
      eapply (count_one _ _ _ _ _ _ Hone H1); [|exact Ho|]; cbn; rewrite ?Hl, ?H2; unfold key_of, gc_key in *;
        injection Hk as E3 E4; injection Hk' as E1 E2; rewrite ?E1, ?E2, ?E3, ?E4, !ueqb_refl; done.
  - apply covered_phase; [done|]. by destruct (is_mkb_error e).
Qed.

Lemma covered_finish y : covered y -> covered (step GcFinish y).
Proof.
  intros Hy. cbn [act]. destruct (y_gc y) as [|c|c|c|c] eqn:Ep; try done.
  - apply covered_phase; [|done]. unfold perform. destruct (gc_files _ c _) as [[b s]|] eqn:E; [|done].
    apply on_files_Ok in E as [E Hc]. apply with_digest_Ok in E. destruct s as [d f]. cbn in *. subst d.
    assert (f = (restore_bytes (gc_key c) (files_of y)).2) as -> by (unfold files_of, gc_key; by rewrite <-E).
    apply covered_files; [done|by apply restore_ok, cv_files|intros k; apply restore_bytes_keeps|]. rewrite Ep. done.
  - unfold perform. destruct (on_files _ _) as [[b s]|] eqn:E; [|by apply covered_phase].
    apply on_files_Ok in E as [E Hc]. apply with_digest_Ok in E. destruct s as [d f]. cbn in *. subst d. injection E as _ ->.
    change (gc_team c, gc_digest c) with (gc_key c). destruct Hy as [Hf Hs Hh Hcm].
    split; unfold catalog_of, files_of in *; cbn; [by apply destroy_ok|done| |done].
    intros object o Ho. destruct (decide (key_of o = gc_key c)) as [Hk|Hk]; [left; by eapply Hcm|].
    destruct (Hh _ _ Ho) as [?|Hq]; [by left|right]. cbn. by rewrite lookup_delete_ne.
Qed.

Lemma reconcile_held k d o object : live_digest d k.1 k.2 = false -> o_objects d !! object = Some o -> live_row o = true -> key_of o <> k.
Proof.
  unfold live_digest, live_duplicates. intros Hc%negb_false_iff%Z.eqb_eq Ho Hl Hk. pose proof (count_none _ _ _ _ Hc Ho) as Hf.
  cbn beta in Hf. rewrite Hl, <-Hk in Hf. cbn in Hf. rewrite !ueqb_refl in Hf. done.
Qed.

Lemma covered_reconcile k y : covered y -> covered (step (Reconcile k) y).
Proof.
  intros Hy. cbn [act]. destruct (y_gc y) eqn:Ep; try done. unfold perform, reconcile_one, bind, gets. cbn [rbind id fst snd].
  fold (catalog_of y). destruct (live_digest (catalog_of y) k.1 k.2) eqn:El; cbn [negb].
  - destruct (on_files _ _) as [[b s]|] eqn:E; [|done]. apply on_files_Ok in E as [E Hc]. apply with_digest_Ok in E. destruct s as [d f]. cbn in *. subst d.
    assert (f = (restore_bytes (k.1, k.2) (files_of y)).2) as -> by (unfold files_of; by rewrite <-E).
    apply covered_files; [done|by apply restore_ok, cv_files|intros j; apply restore_bytes_keeps|]. rewrite Ep. done.
  - destruct (row_tombstoned _ _ _); [|by destruct y]. destruct (on_files _ _) as [[b s]|] eqn:E; [|done]. cbn [rbind fst snd ret].
    apply on_files_Ok in E as [E Hc]. apply with_digest_Ok in E. destruct s as [d f]. cbn in *. subst d. injection E as _ ->.
    destruct Hy as [Hf Hs Hh Hcm]. split; unfold catalog_of, files_of in *; cbn; [by apply destroy_ok|done| |by rewrite Ep].
    intros object o Ho. destruct (Hh _ _ Ho) as [?|Hq]; [by left|right]. cbn. rewrite lookup_delete_ne; [done|].
    intros Hk. destruct Ho as (Ho & Hl & _). eapply (reconcile_held k _ _ _ El Ho Hl). by destruct k.
Qed.

Lemma covered_step a y : in_time a y -> covered y -> covered (step a y).
Proof.
  intros Ht Hy. destruct a; try (cbn [act]; apply covered_releasing; [|done]).
  - by apply covered_promote.
  - cbn [act]. destruct (y_promoted y !! i) as [[team st]|] eqn:Ei; [|done].
    eapply covered_taking; [|by eapply Ht|done]. by intros r d' Hb [? _]%upload_Ok.
  - cbn [act]. destruct (y_promoted y !! i) as [[team st]|] eqn:Ei; [|done].
    eapply covered_taking; [|by eapply Ht|done]. intros r d' _. apply catalog_stat_takes.
  - apply releases_reserve.
  - apply releases_consume.
  - apply releases_cancel.
  - apply releases_cancel_upload.
  - apply releases_expire.
  - cbn [act]. destruct (y_gc y), (gc_check now grace c (st_catalog (y_storage y))); try done. by apply covered_phase.
  - by apply covered_quarantine.
  - by apply covered_commit.
  - by apply covered_finish.
  - by apply covered_reconcile.
Qed.

Lemma covered_run l y : all_in_time max_object_bytes uuid7 timestamp scanner l y -> covered y ->
  covered (run_actions max_object_bytes uuid7 timestamp scanner l y).
Proof. revert y. induction l as [|a l IH]; intros y; [done|]. intros [Ht Hl] Hy. apply IH; [done|]. by apply covered_step. Qed.

(** C9: Holds keep bytes.  However promotions, uploads, releases, expiries and the steps of the
    collector interleave, as long as every hold is taken while the bytes promoted for it are in
    place, the bytes of every live catalogue row with an unreleased reference exist, intact,
    in the store or in the quarantine; and with the collector idle, reconciliation puts them
    back where readers find them. *)
Theorem held_bytes_survive (l : list action) (y : system) (Hy : covered y)
    (Hl : all_in_time max_object_bytes uuid7 timestamp scanner l y) :
  let y' := run_actions max_object_bytes uuid7 timestamp scanner l y in
  forall object o, held (catalog_of y') object o ->
  (exists b, (c_live (files_of y') !! key_of o = Some b \/ c_quarantine (files_of y') !! key_of o = Some b) /\ sha256_hex b = so_digest o) /\
  (y_gc y' = Idle -> is_ok (digest_from_handle (so_team o) (handle_value (so_team o) (so_digest o))) = true ->
   exists b, read_verified (files_of (step (Reconcile (key_of o)) y')) (so_team o) (handle_value (so_team o) (so_digest o)) = Ok b).
Proof.
  intros y' object o Ho. assert (covered y') as Hc by by apply covered_run. split.
  - destruct (cv_files _ Hc) as [Hfl Hfq]. destruct (cv_held _ Hc _ _ Ho) as [[b Hb]|[b Hb]]; exists b.
    + split; [by left|]. by rewrite (Hfl _ _ Hb).
    + split; [by right|]. by rewrite (Hfq _ _ Hb).
  - intros Hidle Hh. destruct (digest_from_handle (so_team o) _) as [dg|] eqn:Ed; [|done]. pose proof (digest_of_handle _ _ _ Ed) as ->.
    pose proof (covered_step (Reconcile (key_of o)) y' I Hc) as Hc'. cbn [act] in *. rewrite Hidle in *.
    unfold perform, reconcile_one, bind, gets in *. cbn [rbind id fst snd] in *. fold (catalog_of y') in *.
    assert (live_digest (catalog_of y') (so_team o) (so_digest o) = true) as Hlive.
    { destruct (live_digest _ _ _) eqn:E; [done|]. destruct Ho as (Ho & Hl' & _). by destruct (reconcile_held (key_of o) _ _ _ E Ho Hl'). }
    cbn [key_of fst snd] in *. rewrite Hlive in *. cbn [negb] in *.
    unfold on_files, restore_quarantined, with_digest in *. rewrite Ed in *. cbn [rbind] in *. unfold read_verified. rewrite Ed. cbn [rbind].
    destruct (restore_bytes_live (key_of o) (key_of o) (files_of y')) as [b Hb]; [right; split; [done|by eapply cv_held]|].
    change (c_live _ !! _) with (c_live (restore_bytes (key_of o) (files_of y')).2 !! key_of o). rewrite Hb. exists b.
    unfold ensure. rewrite (proj2 (ueqb_eq _ _)); [done|]. exact (proj1 (restore_ok (key_of o) _ (cv_files _ Hc)) _ _ Hb).
Qed.
End runs.

(** ** The window before a hold *)

Section window.
Context {H : Host} (max_object_bytes : Z) (uuid7 : nat -> ustr) (timestamp : Z -> ustr) (scanner : ustr).
Local Abbreviation step := (act max_object_bytes uuid7 timestamp scanner).
Local Abbreviation run := (run_actions max_object_bytes uuid7 timestamp scanner).

Definition promotes (a : action) : bool := match a with Promote _ _ => true | _ => false end.
(** Neither in the store nor in the quarantine. *)
Definition gone (k : ustr * ustr) (s : cas) : Prop := c_live s !! k = None /\ c_quarantine s !! k = None.

Lemma gone_bytes k s : gone k s -> ~ some_bytes s k.
Proof. intros [Hl Hq] [[b Hb]|[b Hb]]; congruence. Qed.
Lemma gone_with_digest {A} (f : ustr * ustr -> cas -> A * cas) k team h s a s' :
  (forall j, gone k s -> gone k (f j s).2) -> with_digest team h f s = Ok (a, s') -> gone k s -> gone k s'.
Proof. intros Hf (d & _ & [= Hs])%rbind_Ok Hg. specialize (Hf (team, d) Hg). by rewrite Hs in Hf. Qed.
Lemma gone_quarantine k j s : gone k s -> gone k (quarantine_bytes j s).2.
Proof.
  intros [Hl Hq]. unfold quarantine_bytes. destruct (c_live s !! j) as [b|] eqn:E; [|done]. assert (j <> k) by congruence.
  split; cbn; [by apply lookup_delete_None; right|by rewrite lookup_insert_ne].
Qed.
Lemma gone_restore k j s : gone k s -> gone k (restore_bytes j s).2.
Proof.
  intros [Hl Hq]. unfold restore_bytes. destruct (c_live s !! j); [|destruct (c_quarantine s !! j) as [b|] eqn:E; [|done]];
    (split; cbn; [|by apply lookup_delete_None; right]); [done|]. rewrite lookup_insert_ne; [done|congruence].
Qed.
Lemma gone_destroy k j s : gone k s -> gone k (destroy_bytes j s).
Proof. intros [Hl Hq]. split; cbn; [done|]. by apply lookup_delete_None; right. Qed.

Lemma gone_perform {A} (m : txn storage A) k y :
  (forall a s, m (y_storage y) = Ok (a, s) -> gone k (st_files s)) -> gone k (files_of y) -> gone k (files_of (perform m y)).
Proof. intros Hm Hg. unfold perform. destruct (m (y_storage y)) as [[a s]|]; [by eapply Hm|done]. Qed.
Lemma gone_catalog {A} (m : txn catalog A) k y : gone k (files_of y) -> gone k (files_of (perform (on_catalog m) y)).
Proof. intros Hg. apply gone_perform; [|done]. intros a s [_ Ef]%on_catalog_Ok. by rewrite Ef. Qed.
Lemma gone_files {A} (m : txn cas A) k y :
  (forall a s, m (files_of y) = Ok (a, s) -> gone k (files_of y) -> gone k s) -> gone k (files_of y) -> gone k (files_of (perform (on_files m) y)).
Proof. intros Hm Hg. apply gone_perform; [|done]. intros a s [E _]%on_files_Ok. by eapply Hm. Qed.

(** Only a promotion brings bytes back. *)
Lemma gone_step k a y : promotes a = false -> gone k (files_of y) -> gone k (files_of (step a y)).
Proof.
  intros Ha Hg. destruct a as [chunks r|now i requested|now i kind owner| | | | | |now grace c| |now| |j]; cbn [act]; try done; try (by apply gone_catalog).
  - destruct (y_promoted y !! i) as [[team st]|]; [|done]. by apply gone_catalog.
  - destruct (y_promoted y !! i) as [[team st]|]; [|done]. by apply gone_catalog.
  - by destruct (y_gc y), (gc_check now grace c (st_catalog (y_storage y))).
  - destruct (y_gc y) as [|c|c|c|c]; try done. destruct (gc_files _ c _) as [[[] s]|] eqn:E; try done.
    apply quarantine_key in E as [_ Ef]. unfold files_of. cbn. rewrite Ef. by apply gone_quarantine.
  - destruct (y_gc y) as [|c|c|c|c]; try done. destruct (on_catalog _ _) as [[b s]|e] eqn:E; [|by destruct (is_mkb_error e)].
    apply on_catalog_Ok in E as [_ Ef]. destruct b; unfold files_of; cbn; by rewrite Ef.
  - destruct (y_gc y) as [|c|c|c|c]; try done; unfold in_phase, files_of; cbn.
    + change (gone k (files_of (perform (gc_files restore_quarantined c) y))). apply gone_files; [|done].
      intros a s E. eapply gone_with_digest, E. intros j. apply gone_restore.
    + change (gone k (files_of (perform (on_files (destroy_quarantined (gc_team c) (gc_handle c))) y))). apply gone_files; [|done].
      intros a s E. eapply gone_with_digest, E. intros j. apply gone_destroy.
  - destruct (y_gc y); try done. apply gone_perform; [|done]. intros a s. unfold reconcile_one, bind, gets. cbn [rbind id fst snd].
    destruct (negb _); [destruct (row_tombstoned _ _ _); [|by intros [= _ <-]]|].
    + destruct (on_files _ _) as [[b s1]|] eqn:E; [|done]. intros [= _ <-]. apply on_files_Ok in E as [E _].
      eapply gone_with_digest; [|exact E|exact Hg]. intros i. apply gone_destroy.
    + intros [E _]%on_files_Ok. eapply gone_with_digest; [|exact E|exact Hg]. intros i. apply gone_restore.
Qed.
Lemma gone_run k l y : Forall (fun a => promotes a = false) l -> gone k (files_of y) -> gone k (files_of (run l y)).
Proof. revert y. induction l as [|a l IH]; intros y; [done|]. intros [Ha Hl]%Forall_cons Hg. apply IH; [done|]. by apply gone_step. Qed.

Lemma promoted_perform {A} (m : txn storage A) y : y_promoted (perform m y) = y_promoted y.
Proof. unfold perform. by destruct (m (y_storage y)) as [[a s]|]. Qed.
Lemma promoted_step a y i x : y_promoted y !! i = Some x -> y_promoted (step a y) !! i = Some x.
Proof.
  intros Hi. destruct a as [chunks r|now j requested|now j kind owner| | | | | |now grace c| |now| |k]; cbn [act]; rewrite ?promoted_perform; try done.
  - destruct (on_files _ _) as [[st s]|]; [by apply lookup_app_l_Some|done].
  - destruct (y_promoted y !! j) as [[team st]|]; by rewrite ?promoted_perform.
  - destruct (y_promoted y !! j) as [[team st]|]; by rewrite ?promoted_perform.
  - by destruct (y_gc y), (gc_check now grace c (st_catalog (y_storage y))).
  - destruct (y_gc y); try done. by destruct (gc_files _ _ _) as [[[] s]|].
  - destruct (y_gc y); try done. by destruct (on_catalog _ _) as [[[b|] s]|].
  - destruct (y_gc y); try done; cbn; by rewrite promoted_perform.
  - destruct (y_gc y); by rewrite ?promoted_perform.
Qed.
Lemma promoted_run l y i x : y_promoted y !! i = Some x -> y_promoted (run l y) !! i = Some x.
Proof. revert y. induction l as [|a l IH]; intros y Hi; [done|]. by apply IH, promoted_step. Qed.

Lemma idle_step a y : y_gc y = Idle -> a = GcQuarantine \/ (exists now, a = GcCommit now) -> step a y = y.
Proof. intros Hi [-> |[now ->]]; cbn [act]; by rewrite Hi. Qed.

(** A collection that was not interrupted. *)
Lemma collection_gone y now grace c now' c' : y_gc y = Idle ->
  y_gc (run [GcCheck now grace c; GcQuarantine; GcCommit now'] y) = Committed c' ->
  c' = c /\ is_ok (digest_from_handle (gc_team c) (gc_handle c)) = true /\
  gone (gc_key c) (files_of (run [GcCheck now grace c; GcQuarantine; GcCommit now'; GcFinish] y)).
Proof.
  intros Hi.
  change (y_gc (step (GcCommit now') (step GcQuarantine (step (GcCheck now grace c) y))) = Committed c' -> c' = c /\
    is_ok (digest_from_handle (gc_team c) (gc_handle c)) = true /\
    gone (gc_key c) (files_of (step GcFinish (step (GcCommit now') (step GcQuarantine (step (GcCheck now grace c) y)))))).
  assert (step (GcCheck now grace c) y = y \/ step (GcCheck now grace c) y = in_phase (Checked c) y) as [-> | ->].
  { cbn [act]. rewrite Hi. destruct (gc_check _ _ _ _); auto. }
  { rewrite (idle_step GcQuarantine y), (idle_step (GcCommit now') y) by eauto. by rewrite Hi. }
  change (step GcQuarantine (in_phase (Checked c) y)) with
    match gc_files quarantine_object c (y_storage y) with
    | Ok (true, s) => Build_system s (y_promoted y) (Quarantined c) | _ => in_phase Idle (in_phase (Checked c) y) end.
  destruct (gc_files quarantine_object c (y_storage y)) as [[[] s]|] eqn:E; [|by rewrite idle_step by eauto..].
  pose proof E as [Ec Ef]%quarantine_key. apply on_files_Ok in E as [E _]. unfold quarantine_object, with_digest in E. apply rbind_Ok in E as (d & Hd & _).
  cbn [act y_gc y_storage y_promoted]. destruct (on_catalog _ s) as [[[b|] s']|e] eqn:Eg; [done| |by destruct (is_mkb_error e)].
  intros [= <-]. split; [done|]. rewrite Hd. split; [done|]. apply on_catalog_Ok in Eg as [_ Ef'].
  cbn [act y_gc y_storage y_promoted in_phase]. unfold perform, on_files, destroy_quarantined, with_digest, files_of. cbn. rewrite Hd. cbn.
  pose proof (digest_of_handle _ _ _ Hd) as ->. rewrite Ef', Ef. unfold gone, gc_key. cbn. rewrite lookup_delete_eq. split; [|done].
  unfold quarantine_bytes. destruct (c_live (files_of y) !! _) eqn:El; cbn; [apply lookup_delete_eq|done].
Qed.

(** An upload that is no replay has made its session and its hold. *)
Lemma upload_fresh now team st requested d r d' :
  upload_transaction uuid7 now team st requested d = Ok (r, d') -> ur_replay r = false ->
  names_bytes d' team st r /\ pending_hold d' team (ur_object r).
Proof.
  intros Hd Hr. enough (exists key d1, upload_new uuid7 now team st requested key d1 = Ok (r, d')) as (key & d1 & [_ ?]%upload_new_Ok) by done.
  revert Hd. unfold upload_transaction. intros (? & ? & [= <- <-] & Hd)%bind_Ok. destruct (o_teams d !! team) as [status|]; [|done].
  apply bind_Ok in Hd as ([] & ? & [_ ->]%require_Ok & Hd). destruct (session_by_key d team _) as [[sid s]|]; [|by eexists _, _].
  apply bind_Ok in Hd as ([] & ? & [_ ->]%require_Ok & Hd).
  assert (forall key, match requested with
    | Some _ => raise (MkbError "OBJECT_SESSION_CONFLICT" 503)
    | None => let! fresh := new_uuid uuid7 in upload_new uuid7 now team st requested (key ++ u ":" ++ fresh)
    end d = Ok (r, d') -> exists key d1, upload_new uuid7 now team st requested key d1 = Ok (r, d')) as Hagain.
  { intros key. destruct requested; [done|]. intros (fresh & d1 & _ & Hn)%bind_Ok. by eexists _, _. }
  destruct (_ ≫= _) as [[object o]|]; [|by eapply Hagain]. destruct (_ && _); [|by eapply Hagain].
  apply bind_Ok in Hd as (token & ? & [_ ->]%lift_Ok & Hd). destruct requested; [by injection Hd as <- _|].
  apply bind_Ok in Hd as (? & ? & _ & Hd). apply bind_Ok in Hd as (? & ? & _ & Hd). by apply bind_Ok in Hd as ([] & ? & _ & [= <- _]).
Qed.

(** C12: Late holds lose bytes.  Bytes are promoted for an upload; before the upload takes its
    hold the collector deletes a catalogued object of these very bytes, from its check to the
    destruction of the quarantine.  Then, whatever else happens short of another promotion,
    whenever the transaction of the upload answers with a new upload (as it does in the
    witness), the catalogue has a live row of the bytes with an unreleased hold, while the bytes
    are gone: every reader of the handle that the promotion gave gets [OBJECT_MISSING], until
    bytes are promoted again. *)
Theorem late_hold_loses_bytes (y : system) chunks request st s now grace c now' (l : list action) now'' requested r d
    (Hidle : y_gc y = Idle)
    (Hst : on_files (promote_stream max_object_bytes chunks request) (y_storage y) = Ok (st, s))
    (Hsame : gc_key c = (pq_team request, os_sha256 st))
    (Hgc : y_gc (run [Promote chunks request; GcCheck now grace c; GcQuarantine; GcCommit now'] y) = Committed c)
    (Hl : Forall (fun a => promotes a = false) l) :
  let y' := run ([Promote chunks request; GcCheck now grace c; GcQuarantine; GcCommit now'; GcFinish] ++ l) y in
  upload_transaction uuid7 now'' (pq_team request) st requested (catalog_of y') = Ok (r, d) -> ur_replay r = false ->
  let y'' := step (Upload now'' (length (y_promoted y)) requested) y' in
  catalog_of y'' = d /\
  (exists o, held d (ur_object r) o /\ key_of o = (pq_team request, os_sha256 st) /\ so_size o = os_size st) /\
  forall later, Forall (fun a => promotes a = false) later ->
    ~ some_bytes (files_of (run later y'')) (pq_team request, os_sha256 st) /\
    read_verified (files_of (run later y'')) (pq_team request) (os_handle st) = Err (MkbError "OBJECT_MISSING" 404).
Proof.
  intros y' Hup Hr y''. set (y1 := step (Promote chunks request) y).
  assert (y_gc y1 = Idle /\ y_promoted y1 !! length (y_promoted y) = Some (pq_team request, st)) as [Hi1 Hp1].
  { unfold y1. cbn [act]. rewrite Hst. cbn. split; [done|]. by apply list_lookup_middle. }
  destruct (collection_gone y1 now grace c now' c Hi1 Hgc) as (_ & Hh & Hgone).
  assert (y' = run l (run [GcCheck now grace c; GcQuarantine; GcCommit now'; GcFinish] y1)) as Ey by (unfold y', run_actions; by rewrite foldl_app).
  assert (gone (pq_team request, os_sha256 st) (files_of y')) as Hg by (rewrite Ey, <-Hsame; by apply gone_run).
  assert (y_promoted y' !! length (y_promoted y) = Some (pq_team request, st)) as Hp by (rewrite Ey; by do 2 apply promoted_run).
  assert (y'' = perform (on_catalog (upload_transaction uuid7 now'' (pq_team request) st requested)) y') as Ey2 by (unfold y''; cbn [act]; by rewrite Hp).
  split; [|split].
  - rewrite Ey2. unfold perform, on_catalog. unfold catalog_of in Hup. by rewrite Hup.
  - destruct (upload_fresh _ _ _ _ _ _ _ Hup Hr) as [(o & Ho & Hk & Hz & Hlive & _) (k & p & Hkp & Hof & _ & Hun)].
    exists o. split; [|done]. split; [done|]. split; [done|]. exists k, p. apply andb_true_iff in Hof as [_ Hof%ueqb_eq]. done.
  - intros later Hlater. assert (gone (pq_team request, os_sha256 st) (files_of (run later y''))) as [Hl1 Hl2].
    { apply gone_run; [done|]. rewrite Ey2. by apply gone_catalog. }
    split; [by apply gone_bytes|]. apply on_files_Ok in Hst as [Hst%promote_stream_Ok _]. destruct Hst as [Est _].
    injection Hsame as Et Ed. unfold gc_handle in Hh. rewrite Et, Ed in Hh. rewrite Est in Hh, Hl1 |- *. cbn [os_handle os_sha256] in Hh, Hl1 |- *.
    unfold read_verified. destruct (digest_from_handle _ _) as [dg|] eqn:E; [|done]. pose proof (digest_of_handle _ _ _ E) as ->. cbn [rbind]. by rewrite Hl1.
Qed.
End window.

(** ** Runs *)

Module ObjectSamples.
#[export] Existing Instance test_host.
Definition ids (n : nat) : ustr := u "id-" ++ dec (Z.of_nat n).
Definition TEAM : ustr := u "00000000-0000-0000-0000-00000000000a".
Definition TEXT : bytes := u "hello".
Definition digest : ustr := sha256_hex TEXT.
(** An object that nothing has referenced since it was catalogued. *)
Definition orphan : catalog_row := Build_catalog_row TEAM digest 5 None (u "local_fs") 0 None.
Definition start_catalog : catalog := Build_catalog {[ u "object" := orphan ]} ∅ ∅ {[ TEAM := u "active" ]} [] [] ∅ 0.
Definition start : system := Build_system (Build_storage start_catalog (Build_cas {[ (TEAM, digest) := TEXT ]} ∅)) [] Idle.
Definition request : promote_request := Build_promote_request TEAM "upload_pending" None None.
Definition candidate : candidate := candidate_of start_catalog (u "object", orphan).
Definition collect : list action := [GcCheck 100 10 candidate; GcQuarantine; GcCommit 101; GcFinish].
Definition upload : action := Upload 100 0 (Some (u "key")).
Definition run_from (l : list action) : system := run_actions 100 ids dec (u "scanner") l start.

Definition is_held (d : catalog) (kv : ustr * catalog_row) : bool :=
  live_row kv.2 && existsb (fun r => ueqb (rf_object r.2) kv.1 && unreleased r.2) (map_to_list (o_references d)).
(** The keys of held rows, with whether a reader gets bytes. *)
Definition held_rows (y : system) : list (ustr * bool) :=
  map (fun kv => (kv.1, is_ok (read_verified (files_of y) (so_team kv.2) (handle_value (so_team kv.2) (so_digest kv.2)))))
    (List.filter (is_held (catalog_of y)) (map_to_list (o_objects (catalog_of y)))).
End ObjectSamples.
Import ObjectSamples.

Lemma start_covered : covered start.
Proof.
  split.
  - split; cbn; intros k b; [|by intros [=]]. by intros [<- <-]%lookup_singleton_Some.
  - intros sid s object [=].
  - intros object o (_ & _ & k & r & [=] & _).
  - intros c object o [=].
Qed.

Abbreviation early := ([Promote [TEXT] request; upload] ++ collect).
Lemma held_bytes_survive_witness :
  all_in_time 100 ids dec (u "scanner") early start /\
  (exists object o, held (catalog_of (run_from early)) object o) /\
  exists b, read_verified (files_of (act 100 ids dec (u "scanner") (Reconcile (TEAM, digest)) (run_from early))) TEAM (handle_value TEAM digest) = Ok b.
Proof.
  assert (all_in_time 100 ids dec (u "scanner") early start) as Ht.
  { split; [exact I|]. split; [|do 4 (split; [exact I|]); exact I]. intros team st.
    replace (y_promoted _ !! 0%nat) with (Some (TEAM, Build_object_stat (handle_value TEAM digest) digest 5 None)) by (vm_compute; reflexivity).
    intros Hst. injection Hst as <- <-. exists TEXT. vm_compute. reflexivity. }
  assert (held (catalog_of (run_from early)) (u "object") orphan) as Hh.
  { split; [by vm_compute|]. split; [done|].
    exists (u "id-2"), (Build_reference_row TEAM (u "object") "upload_pending" "upload_session" (u "id-0") digest 5 100 None (Some (u "id-0"))). by vm_compute. }
  split_and!; [done|by exists (u "object"), orphan|].
  by apply (held_bytes_survive 100 ids dec (u "scanner") early start start_covered Ht (u "object") orphan Hh); vm_compute.
Defined.

Abbreviation hello_stat := (Build_object_stat (handle_value TEAM digest) digest 5 None).

Abbreviation collecting_steps := [Promote [TEXT] request; GcCheck 100 10 candidate; GcQuarantine; GcCommit 101].
Abbreviation collected :=
  (run_actions 100 ids dec (u "scanner") ([Promote [TEXT] request; GcCheck 100 10 candidate; GcQuarantine; GcCommit 101; GcFinish] ++ []) start).
Abbreviation accepted := (act 100 ids dec (u "scanner") (Upload 100 (length (y_promoted start)) (Some (u "key"))) collected).

Lemma late_hold_loses_bytes_witness :
  y_gc (run_actions 100 ids dec (u "scanner") collecting_steps start) = Committed candidate /\
  exists r d o, upload_transaction ids 100 (pq_team request) hello_stat (Some (u "key")) (catalog_of collected) = Ok (r, d) /\ held d (ur_object r) o /\
    read_verified (files_of (run_actions 100 ids dec (u "scanner") [Expire 900 10 100] accepted)) (pq_team request) (os_handle hello_stat)
      = Err (MkbError "OBJECT_MISSING" 404).
Proof.
  assert (y_gc (run_actions 100 ids dec (u "scanner") collecting_steps start) = Committed candidate) as Hgc by (vm_compute; reflexivity).
  split; [exact Hgc|].
  assert (match upload_transaction ids 100 (pq_team request) hello_stat (Some (u "key")) (catalog_of collected) with Ok (r, _) => ur_replay r | Err _ => true end = false)
    as Hr by (vm_compute; reflexivity).
  destruct (upload_transaction ids 100 (pq_team request) hello_stat (Some (u "key")) (catalog_of collected)) as [[r d]|e] eqn:E; [|discriminate Hr].
  assert (on_files (promote_stream 100 [TEXT] request) (y_storage start) = Ok (hello_stat, y_storage start)) as Hst
    by (vm_cast_no_check (eq_refl (Ok (hello_stat, y_storage start)))).
  assert (gc_key candidate = (pq_team request, os_sha256 hello_stat)) as Hkey by (vm_compute; reflexivity).
  destruct (late_hold_loses_bytes 100 ids dec (u "scanner") start [TEXT] request hello_stat (y_storage start) 100 10 candidate 101 [] 100 (Some (u "key")) r d
    eq_refl Hst Hkey Hgc (Forall_nil_2 _) E Hr) as (_ & (o & Ho & _) & Hlost).
  exists r, d, o. split; [reflexivity|]. split; [exact Ho|].
  destruct (Hlost [Expire 900 10 100]) as [_ Hread]; [apply Forall_cons_2; [reflexivity|apply Forall_nil_2]|]. exact Hread.
Defined.
