(* ===== verification/UploadLaws.v ===== *)
(** * Sessions of uploads

    What one accepted upload leaves in the catalogue, the life of a session through every
    action on the store, and the replay of an upload under its idempotency key at any later
    time. *)

From S2P Require Import Prelude PyText PyValue Txn ObjectStore Objects ObjectGc ObjectRuns ObjectLaws.

Open Scope Z_scope.
Open Scope mkb_scope.

(** ** A new session *)

Section uploads.
Context {H : Host} (uuid7 : nat -> ustr).

(** Transactions that leave the sessions and the teams. *)
Definition same_sessions (d d' : catalog) : Prop := o_sessions d' = o_sessions d /\ o_teams d' = o_teams d.
#[export] Instance same_sessions_preorder : PreOrder same_sessions.
Proof. split; [done|]. intros a b c [? ?] [? ?]. split; congruence. Qed.

Lemma same_uuid : keeps same_sessions (new_uuid uuid7).
Proof. by intros d a d' [= _ <-]. Qed.
Lemma same_catalog_object now team st : keeps same_sessions (catalog_object uuid7 now team st).
Proof.
  unfold catalog_object. apply keeps_bind; [apply _|apply keeps_reads; auto with mkb; apply _|]. intros d.
  destruct (live_object d _ _ _); [apply keeps_reads; auto with mkb; apply _|].
  apply keeps_bind; [apply _|apply same_uuid|intros c]. apply keeps_bind; [apply _| |intros []].
  - intros d0 a d' [= _ <-]. by destruct (object_conflict _ _ _).
  - apply keeps_reads; [apply _|]. apply reads_bind; [auto with mkb|]. intros d1. destruct (live_object d1 _ _ _); auto with mkb.
Qed.
Lemma same_reference k r : keeps same_sessions (insert_reference k r).
Proof. intros d [] d'. unfold insert_reference. intros (? & ? & [= <- <-] & ([] & ? & [_ ->]%require_Ok & [= <-])%bind_Ok)%bind_Ok. done. Qed.
Lemma same_reference_or_ignore k r : keeps same_sessions (insert_reference_or_ignore k r).
Proof. intros d [] d' [= <-]. by destruct (reference_conflict k r d). Qed.

(** The session a new upload commits. *)
Record new_session (team key : ustr) (st : object_stat) (object sid : ustr) (s : session_row) : Prop := {
  ns_team : se_team s = team;
  ns_key : se_key s = key;
  ns_state : se_state s = S_committed /\ se_revision s = 1;
  ns_object : se_object s = Some object;
  ns_digest : se_digest s = Some (os_sha256 st);
  ns_size : se_size s = Some (os_size st)
}.

Lemma upload_new_session now team st requested key d r d' :
  upload_new uuid7 now team st requested key d = Ok (r, d') ->
  exists sid s, o_sessions d !! sid = None /\ o_sessions d' = <[sid := s]> (o_sessions d) /\ o_teams d' = o_teams d /\
    session_by_key d team key = None /\ new_session team key st (ur_object r) sid s /\
    match requested with
    | Some _ => exists token, ur_token r = Some token /\ session_token team key sid = Ok token
    | None => ur_token r = None
    end.
Proof.
  unfold upload_new. intros (found & d1 & Hc%same_catalog_object & Hd)%bind_Ok. cbn zeta in Hd.
  apply bind_Ok in Hd as (sid & d2 & T2%same_uuid & Hd).
  apply bind_Ok in Hd as (token & ? & [Htoken ->]%lift_Ok & Hd). apply bind_Ok in Hd as (hash & ? & [_ ->]%lift_Ok & Hd).
  apply bind_Ok in Hd as (fp & ? & [_ ->]%lift_Ok & Hd). apply bind_Ok in Hd as ([] & d3 & Hs & Hd).
  apply bind_Ok in Hd as (journal & d4 & T4%same_uuid & Hd). apply bind_Ok in Hd as (owner & d5 & Hw & Hd).
  assert (same_sessions d4 d5) as T5 by (destruct requested; [by injection Hw as _ <-|by eapply same_uuid]).
  apply bind_Ok in Hd as (reference & d6 & T6%same_uuid & Hd). apply bind_Ok in Hd as ([] & d7 & T7%same_reference_or_ignore & Hd).
  apply bind_Ok in Hd as (? & ? & [= <- <-] & Hd). destruct (first_row _ _) as [[pending p]|]; [|done].
  destruct (o_objects d7 !! found.1) as [o|]; [|done]. apply bind_Ok in Hd as ([] & ? & [_ ->]%require_Ok & Hd).
  apply bind_Ok in Hd as (b & d8 & Hup & [= <- <-]).
  assert (same_sessions d d2) as T by (by etrans). assert (same_sessions d3 d7) as T'.
  { etrans; [exact T4|]. etrans; [exact T5|]. by etrans. }
  unfold insert_session in Hs. apply bind_Ok in Hs as (? & ? & [= <- <-] & Hs). apply bind_Ok in Hs as ([] & ? & [Hfree ->]%require_Ok & [= <-]).
  destruct T as [Es Et], T' as [Es' Et']. cbn in Es', Et'. rewrite Es in Es'. rewrite Et in Et'.
  unfold session_conflict in Hfree. apply negb_true_iff, orb_false_iff in Hfree as [Hfree Hkey]. rewrite Es in Hfree, Hkey.
  assert (o_sessions d !! sid = None) as Hid by (apply eq_None_not_Some; by eapply bool_decide_eq_false_1).
  revert Hup. unfold update_session. rewrite Es', lookup_insert_eq. cbn [mbind option_bind se_state]. rewrite bool_decide_eq_true_2 by done.
  intros [= _ <-]. exists sid. eexists. cbn [o_sessions o_teams set_sessions]. split; [done|].
  rewrite insert_insert_eq. split; [reflexivity|]. split; [done|]. split; [|split].
  - unfold session_by_key, first_row. destruct (head _) as [[k s]|] eqn:E; [|done]. apply head_Some_elem_of, rows_where_elem in E as [Hk Hf].
    exfalso. apply andb_true_iff in Hf as [Hf1 Hf2]. assert ((k, s) ∈ map_to_list (o_sessions d)) as Hin by by apply elem_of_map_to_list.
    apply not_true_iff_false in Hkey. apply Hkey, existsb_exists. exists (k, s). split; [by apply list_elem_of_In|]. cbn.
    by rewrite Hf1, Hf2, orb_true_r.
  - by split.
  - cbn. destruct requested; [by exists token|done].
Qed.

(** ** The session of a keyed upload *)

Lemma session_by_key_new d d' team key sid s :
  session_by_key d team key = None -> o_sessions d' = <[sid := s]> (o_sessions d) -> o_sessions d !! sid = None ->
  se_team s = team -> se_key s = key -> session_by_key d' team key = Some (sid, s).
Proof.
  intros Hn Hs Hf Ht Hk.
  assert ((sid, s) ∈ rows_where (fun _ s => ueqb (se_team s) team && ueqb (se_key s) key) (o_sessions d')) as Hin.
  { apply rows_where_elem. by rewrite Hs, lookup_insert_eq, Ht, Hk, !ueqb_refl. }
  destruct (session_by_key d' team key) as [[k t]|] eqn:E; unfold session_by_key, first_row in E.
  - apply head_Some_elem_of, rows_where_elem in E as [Hkt Hb]. rewrite Hs, lookup_insert_Some in Hkt. destruct Hkt as [[<- <-]|[Hne Hkt]]; [done|].
    exfalso. unfold session_by_key, first_row in Hn.
    assert ((k, t) ∈ rows_where (fun _ s => ueqb (se_team s) team && ueqb (se_key s) key) (o_sessions d)) as Hkin by by apply rows_where_elem.
    destruct (rows_where _ (o_sessions d)); [by apply elem_of_nil in Hkin|done].
  - destruct (rows_where _ (o_sessions d')); [by apply elem_of_nil in Hin|done].
Qed.

(** What a keyed upload answers is what its session says. *)
Lemma upload_keyed_session now team st key d r d' :
  upload_transaction uuid7 now team st (Some key) d = Ok (r, d') ->
  exists sid s o token, session_by_key d' team key = Some (sid, s) /\ se_digest s = Some (os_sha256 st) /\ se_size s = Some (os_size st) /\
    se_object s = Some (ur_object r) /\ o_objects d' !! ur_object r = Some o /\ ueqb (so_team o) team && live_row o = true /\
    ur_stat r = with_media st (so_media o) /\ session_token team key sid = Ok token /\ ur_token r = Some token /\ o_teams d' !! team = Some (u "active").
Proof.
  unfold upload_transaction. intros (? & ? & [= <- <-] & Hd)%bind_Ok. destruct (o_teams d !! team) as [status|] eqn:Et; [|done].
  apply bind_Ok in Hd as ([] & ? & [Hst%ueqb_eq ->]%require_Ok & Hd). subst status. cbn [from_option id] in Hd.
  destruct (session_by_key d team key) as [[sid s]|] eqn:Es.
  - apply bind_Ok in Hd as ([] & ? & [Hsame ->]%require_Ok & Hd). apply andb_true_iff in Hsame as [Hsha%bool_decide_eq_true Hz%bool_decide_eq_true].
    destruct (se_object s) as [object|] eqn:Eo; cbn [mbind option_bind] in Hd; [|done].
    destruct (o_objects d !! object) as [o|] eqn:Ho; cbn [fmap option_fmap option_map] in Hd; [|done].
    destruct (ueqb (so_team o) team && live_row o) eqn:El; [|done]. apply bind_Ok in Hd as (token & ? & [Htoken ->]%lift_Ok & [= <- <-]).
    by exists sid, s, o, token.
  - pose proof Hd as (sid & s & Hfree & Hs & Ht & Hkey & [N1 N2 N3 N4 N5 N6] & token & Htok & Htoken)%upload_new_session.
    apply upload_new_Ok in Hd as (_ & (o & Ho & Hk & Hz & Hl & Hstat) & _). injection Hk as Hteam _. exists sid, s, o, token.
    split_and!; try done; [by eapply session_by_key_new|by rewrite Hteam, ueqb_refl, Hl|congruence].
Qed.
End uploads.

(** ** The life of a session *)

(** The transitions that the services make. *)
Definition session_steps (a b : session_state) : bool :=
  match a, b with
  | S_committed, S_reserved | S_reserved, S_consumed => true
  | (S_receiving | S_prepared | S_promoted | S_committed), (S_cancelled | S_expired) => true
  | _, _ => false
  end.

Record session_edge (s s' : session_row) : Prop := {
  sg_row : (se_team s', se_token_hash s', se_key s', se_staging s') = (se_team s, se_token_hash s, se_key s, se_staging s);
  sg_bytes : (se_object s', se_digest s', se_size s') = (se_object s, se_digest s, se_size s);
  sg_state : session_steps (se_state s) (se_state s') = true;
  sg_revision : se_revision s' = se_revision s + 1
}.

(** A session that a new upload may leave behind, or that came of one. *)
Definition session_born (s : session_row) : Prop := exists s0, se_state s0 = S_committed /\ se_revision s0 = 1 /\ rtc session_edge s0 s.
Definition sessions_move (d d' : catalog) : Prop := evolves (rtc session_edge) session_born (o_sessions d) (o_sessions d').
#[export] Instance sessions_move_preorder : PreOrder sessions_move.
Proof.
  split; [intros d; apply evolves_refl; apply _|]. intros a b c. apply evolves_trans; [apply _|].
  intros s s' (s0 & ? & ? & ?) ?. exists s0. split_and!; [done..|by etrans].
Qed.

Lemma moves_same d d' : o_sessions d' = o_sessions d -> sessions_move d d'.
Proof. intros E. unfold sessions_move. rewrite E. apply evolves_refl, _. Qed.
Lemma moves_reads {A} (m : txn catalog A) : reads m -> keeps sessions_move m.
Proof. apply keeps_reads, _. Qed.
Lemma moves_update k f : (forall s s', f s = Some s' -> session_edge s s') -> keeps sessions_move (update_session k f).
Proof.
  intros Hf d b d'. unfold update_session. destruct (o_sessions d !! k) as [s|] eqn:E; cbn; [|by intros [= _ <-]].
  destruct (f s) as [s'|] eqn:Ef; intros [= _ <-]; [|reflexivity]. apply (evolves_insert _ _ _ _ s); [done|done|by apply rtc_once, Hf].
Qed.
Lemma moves_references f : keeps sessions_move (modify (fun d => set_references (f d) d)).
Proof. intros d b d' [= _ <-]. by apply moves_same. Qed.
Lemma moves_release now f : keeps sessions_move (release_where now f).
Proof. apply moves_references. Qed.

Lemma edge_end now state s :
  session_steps (se_state s) state = true -> session_edge s (end_session now state s).
Proof. intros Hs. by split. Qed.
Lemma edge_early now state s s' : state = S_cancelled \/ state = S_expired ->
  (if early_session s then Some (end_session now state s) else None) = Some s' -> session_edge s s'.
Proof.
  unfold early_session. destruct (bool_decide_reflect (se_state s ∈ [S_receiving; S_prepared; S_promoted; S_committed])) as [Hs|]; [|done].
  intros Hst [= <-]. apply edge_end. rewrite !elem_of_cons in Hs.
  destruct Hs as [-> |[-> |[-> |[-> |Hs]]]]; [by destruct Hst as [-> | ->]..|by apply elem_of_nil in Hs].
Qed.

Create HintDb sessions.
#[local] Hint Resolve moves_references moves_release moves_reads : sessions.

Ltac move_tac :=
  repeat match goal with
  | |- keeps _ (bind _ _) => apply keeps_bind; [apply _| |intros ?]
  | |- keeps _ (if ?b then _ else _) => destruct b
  | |- keeps _ (match ?x with _ => _ end) => destruct x
  end;
  auto with sessions mkb.

Section moving.
Context {H : Host} (uuid7 : nat -> ustr).

Lemma moves_reserve team token task generation : keeps sessions_move (reserve_session team token task generation).
Proof.
  unfold reserve_session. apply keeps_bind; [apply _|move_tac|intros []]. intros d b d' (? & ? & [= <- <-] & Hd)%bind_Ok.
  apply bind_Ok in Hd as (found & ? & [Hf ->]%lift_Ok & Hd). destruct found as [[sid s]|]; [|done].
  destruct (bool_decide_reflect (se_state s = S_committed)) as [Hs|]; [|by injection Hd as _ <-].
  apply bind_Ok in Hd as ([] & ? & [_ ->]%require_Ok & Hd). unfold update_session in Hd.
  assert (o_sessions d !! sid = Some s) as Hsid.
  { unfold session_of_token in Hf. destruct (split_on 58 token) as [|? [|? [|id [|? [|]]]]]; try done. destruct (_ && _); [|done].
    destruct (o_sessions d !! id) as [s'|] eqn:E; [|done]. destruct (ueqb _ _); [|done]. apply rbind_Ok in Hf as (? & _ & Hf).
    destruct (ueqb _ _); [|done]. apply rbind_Ok in Hf as (? & _ & Hf). destruct (ueqb _ _); congruence. }
  rewrite Hsid in Hd. cbn in Hd. injection Hd as _ <-. apply (evolves_insert _ _ _ _ s); [done|done|apply rtc_once]. split; try done. cbn. by rewrite Hs.
Qed.
Lemma moves_consume now team token : keeps sessions_move (consume_session now team token).
Proof.
  unfold consume_session. move_tac. apply moves_update. intros t t'. destruct (bool_decide_reflect (se_state t = S_reserved)) as [Ht|]; [|done].
  intros [= <-]. apply edge_end. by rewrite Ht.
Qed.
Lemma moves_cancel now team token : keeps sessions_move (cancel_session now team token).
Proof. unfold cancel_session. move_tac. apply moves_update. intros t t'. apply edge_early. by left. Qed.
Lemma moves_cancel_upload now team h : keeps sessions_move (cancel_upload now team h).
Proof. unfold cancel_upload. move_tac. Qed.
Lemma moves_expire now ttl limit : keeps sessions_move (expire_uploads now ttl limit).
Proof.
  unfold expire_uploads. move_tac. apply keeps_count_loop; [apply _|]. intros [k r]. move_tac.
  - unfold expire_hold. move_tac.
  - unfold expire_session. move_tac. apply moves_update. intros t t'. apply edge_early. by right.
Qed.
End moving.

(** ** What later transactions leave *)

(** A catalogue row only ages: what it names stays, and so does a tombstone. *)
Definition ages (o o' : catalog_row) : Prop := exists now, o' = tombstone now o.
(** The unique index on the team and the idempotency key. *)
Definition session_keys (d : catalog) : Prop := forall i j s t,
  o_sessions d !! i = Some s -> o_sessions d !! j = Some t -> se_team s = se_team t -> se_key s = se_key t -> i = j.

Record later (d d' : catalog) : Prop := {
  lt_sessions : sessions_move d d';
  lt_objects : evolves (rtc ages) (fun _ => True) (o_objects d) (o_objects d');
  lt_keys : session_keys d -> session_keys d'
}.
#[export] Instance later_preorder : PreOrder later.
Proof.
  split; [intros d; split; [done|apply evolves_refl, _|done]|]. intros a b c [S1 O1 K1] [S2 O2 K2].
  split; [by etrans|by eapply evolves_trans; [apply _|done|..]|auto].
Qed.

Lemma session_edges_keep s s' : rtc session_edge s s' ->
  (se_team s', se_token_hash s', se_key s', se_staging s') = (se_team s, se_token_hash s, se_key s, se_staging s) /\
  (se_object s', se_digest s', se_size s') = (se_object s, se_digest s, se_size s) /\ se_revision s <= se_revision s' /\
  (se_revision s' = se_revision s -> s' = s).
Proof.
  induction 1 as [s|s s1 s' Hedge Hr (H1 & H2 & H3 & H4)]; [split_and!; (done || lia)|]. destruct Hedge as [E1 E2 E3 E4]. split_and!; [congruence|congruence|lia|lia].
Qed.

Lemma ages_keep o o' : rtc ages o o' ->
  so_team o' = so_team o /\ so_media o' = so_media o /\ (live_row o = false -> live_row o' = false).
Proof. induction 1 as [|o o1 o' [now ->] _ (H1 & H2 & H3)]; [done|]. split_and!; [by rewrite H1|by rewrite H2|]. intros _. by apply H3. Qed.

Lemma objects_kept d d' : o_objects d ⊆ o_objects d' -> evolves (rtc ages) (fun _ => True) (o_objects d) (o_objects d').
Proof.
  intros Hs k. destruct (o_objects d !! k) as [o|] eqn:E; [|by destruct (o_objects d' !! k)].
  by rewrite (lookup_weaken _ _ _ _ E Hs).
Qed.

(** Transactions without new sessions. *)
Lemma later_no_new d d' : sessions_move d d' -> (forall sid s, o_sessions d' !! sid = Some s -> is_Some (o_sessions d !! sid)) ->
  evolves (rtc ages) (fun _ => True) (o_objects d) (o_objects d') -> later d d'.
Proof.
  intros Hm Hn Ho. split; [done..|]. intros Hk i j s' t' Hi Hj Ht Hkey. destruct (Hn _ _ Hi) as [s Hs], (Hn _ _ Hj) as [t Hjt].
  eapply evolves_lookup in Hs as Hs2; [|exact Hm]. destruct Hs2 as (s1 & Hs1 & [[= E1 E2 E3 E4] _]%session_edges_keep).
  eapply evolves_lookup in Hjt as Hj2; [|exact Hm]. destruct Hj2 as (t1 & Ht1 & [[= F1 F2 F3 F4] _]%session_edges_keep).
  apply (Hk i j s t); congruence.
Qed.
Lemma later_same d d' : o_sessions d' = o_sessions d -> o_objects d ⊆ o_objects d' -> later d d'.
Proof. intros Hs Ho. apply later_no_new; [by apply moves_same|rewrite Hs; by eauto|by apply objects_kept]. Qed.
Lemma later_releases {A} (m : txn catalog A) : keeps releases m -> keeps sessions_move m -> keeps later m.
Proof.
  intros Hr Hm d a d' Hd. destruct (Hr _ _ _ Hd) as [Ho _ Hs]. apply later_no_new; [by eapply Hm|by intros sid s' (s & ? & _)%Hs; exists s|].
  by apply objects_kept; rewrite Ho.
Qed.

(** A new session takes a key that no session has. *)
Lemma session_by_key_None d team key i s : session_by_key d team key = None -> o_sessions d !! i = Some s ->
  se_team s = team -> se_key s = key -> False.
Proof.
  unfold session_by_key, first_row. intros Hn Hi Ht Hk.
  assert ((i, s) ∈ rows_where (fun _ s => ueqb (se_team s) team && ueqb (se_key s) key) (o_sessions d)) as Hin
    by (apply rows_where_elem; by rewrite Ht, Hk, !ueqb_refl).
  destruct (rows_where _ (o_sessions d)); [by apply elem_of_nil in Hin|done].
Qed.
Lemma session_by_key_unique d team key sid s : session_keys d -> o_sessions d !! sid = Some s ->
  se_team s = team -> se_key s = key -> session_by_key d team key = Some (sid, s).
Proof.
  intros Hk Hs Ht Hkey. destruct (session_by_key d team key) as [[j t]|] eqn:E; [|by edestruct session_by_key_None].
  apply session_by_key_Some in E as (Hj & Ht' & Hk'). assert (j = sid) as -> by (apply (Hk j sid t s); congruence). congruence.
Qed.

Section replaying.
Context {H : Host} (max_object_bytes : Z) (uuid7 : nat -> ustr) (timestamp : Z -> ustr) (scanner : ustr).

Lemma later_upload_new now team st requested key : keeps later (upload_new uuid7 now team st requested key).
Proof.
  intros d r d' Hd. pose proof Hd as (sid & s & Hf & Hs & _ & Hkey & Hn & _)%upload_new_session. apply upload_new_Ok in Hd as ([Ho _ _ _] & _).
  split; [|by apply objects_kept|].
  - unfold sessions_move. rewrite Hs. apply evolves_fresh; [done|done|]. exists s. destruct (ns_state _ _ _ _ _ _ Hn). done.
  - destruct Hn as [N1 N2 _ _ _ _]. intros Hk i j a b. rewrite Hs, !lookup_insert_Some.
    intros [[<- <-]|[Hi Ha]] [[<- <-]|[Hj Hb]] Ht Hkk; [done| | |by eapply Hk].
    + exfalso. eapply (session_by_key_None d team key); [done|exact Hb|congruence..].
    + exfalso. eapply (session_by_key_None d team key); [done|exact Ha|congruence..].
Qed.
Lemma later_upload now team st requested : keeps later (upload_transaction uuid7 now team st requested).
Proof.
  assert (forall k r, keeps later (insert_reference k r)) as Hr.
  { intros k r d [] d'. unfold insert_reference. intros (? & ? & [= <- <-] & ([] & ? & [_ ->]%require_Ok & [= <-])%bind_Ok)%bind_Ok. by apply later_same. }
  assert (keeps later (new_uuid uuid7)) as Hu by (intros d b d' [= _ <-]; by apply later_same).
  pose proof later_upload_new. assert (forall A (m : txn catalog A), reads m -> keeps later m) by (intros; apply keeps_reads; [apply _|done]).
  unfold upload_transaction. move_tac.
Qed.
Lemma same_catalog_stat now team st kind owner : keeps same_sessions (catalog_stat uuid7 now team st kind owner).
Proof.
  intros d [] d'. unfold catalog_stat. intros (? & ? & [= <- <-] & (object & d1 & Hf & (ref & d2 & T2%same_uuid & T3%same_reference)%bind_Ok)%bind_Ok)%bind_Ok.
  assert (same_sessions d d1) as T1; [|by etrans; [exact T1|etrans]].
  destruct (live_object d team _ _) as [k|]; [by injection Hf as _ <-|].
  apply bind_Ok in Hf as (fresh & d3 & T4%same_uuid & Hf). apply bind_Ok in Hf as (? & ? & [= <- <-] & Hf).
  apply bind_Ok in Hf as ([] & ? & [_ ->]%require_Ok & Hf). by apply bind_Ok in Hf as ([] & d4 & [= <-] & [= _ <-]).
Qed.
Lemma later_catalog_stat now team st kind owner : keeps later (catalog_stat uuid7 now team st kind owner).
Proof.
  intros d a d' Hd. pose proof Hd as [Ho _ _ _]%catalog_stat_takes. apply same_catalog_stat in Hd as [Hs _]. by apply later_same.
Qed.

Lemma later_commit now c : keeps later (gc_commit uuid7 timestamp scanner now c).
Proof.
  intros d r d' (o & Ho & _ & _ & _ & Hd)%gc_commit_Ok. destruct r as [b|]; [by subst d'|]. destruct Hd as (Ed & _ & Es & _).
  apply later_no_new; [by apply moves_same|rewrite Es; by eauto|]. rewrite Ed.
  apply (evolves_insert _ _ _ _ o); [done|done|]. apply rtc_once. by exists now.
Qed.
End replaying.

Section lifecycle.
Context {H : Host} (max_object_bytes : Z) (uuid7 : nat -> ustr) (timestamp : Z -> ustr) (scanner : ustr).
Local Abbreviation step := (act max_object_bytes uuid7 timestamp scanner).
Local Abbreviation moved y y' := (later (catalog_of y) (catalog_of y')).

Lemma moved_catalog {A} (m : txn catalog A) y : keeps later m -> moved y (perform (on_catalog m) y).
Proof.
  intros Hm. unfold perform, on_catalog. destruct (m (st_catalog (y_storage y))) as [[a d]|e] eqn:E; cbn; [|done]. by eapply Hm.
Qed.
Lemma moved_files {A} (m : txn cas A) y : moved y (perform (on_files m) y).
Proof. unfold perform, on_files. by destruct (m (st_files (y_storage y))) as [[a f]|e]. Qed.
Lemma moved_reconcile k y : moved y (perform (reconcile_one k) y).
Proof.
  unfold perform, reconcile_one, bind, gets. cbn [rbind id fst snd]. destruct (negb _).
  - destruct (row_tombstoned _ _ _); [|done]. unfold on_files. by destruct (destroy_quarantined _ _ _) as [[? ?]|].
  - unfold on_files. by destruct (restore_quarantined _ _ _) as [[? ?]|].
Qed.

Lemma later_step a y : moved y (step a y).
Proof.
  destruct a as [chunks r|now i requested|now i kind owner| | | | | |now grace c| |now| |k]; cbn [act].
  - unfold on_files. by destruct (promote_stream _ _ _ _) as [[? ?]|].
  - destruct (y_promoted y !! i) as [[team st]|]; [|done]. apply moved_catalog, later_upload.
  - destruct (y_promoted y !! i) as [[team st]|]; [|done]. apply moved_catalog, later_catalog_stat.
  - apply moved_catalog, later_releases; [apply releases_reserve|apply moves_reserve].
  - apply moved_catalog, later_releases; [apply releases_consume|apply moves_consume].
  - apply moved_catalog, later_releases; [apply releases_cancel|apply moves_cancel].
  - apply moved_catalog, later_releases; [apply releases_cancel_upload|apply moves_cancel_upload].
  - apply moved_catalog, later_releases; [apply releases_expire|apply moves_expire].
  - by destruct (y_gc y), (gc_check now grace c (st_catalog (y_storage y))).
  - destruct (y_gc y) as [|c|c|c|c]; try done. unfold gc_files, on_files. by destruct (quarantine_object _ _ _) as [[[] ?]|].
  - destruct (y_gc y) as [|c|c|c|c]; try done. destruct (on_catalog _ _) as [[b s]|e] eqn:E; [|by destruct (is_mkb_error e)].
    apply on_catalog_Ok in E as [E _]. apply later_commit in E. by destruct b.
  - destruct (y_gc y) as [|c|c|c|c]; try done.
    + change (moved y (perform (on_files (restore_quarantined (gc_team c) (gc_handle c))) y)). apply moved_files.
    + change (moved y (perform (on_files (destroy_quarantined (gc_team c) (gc_handle c))) y)). apply moved_files.
  - destruct (y_gc y); try done. apply moved_reconcile.
Qed.

Lemma later_run l y : moved y (run_actions max_object_bytes uuid7 timestamp scanner l y).
Proof. revert y. induction l as [|a l IH]; intros y; [done|]. etrans; [apply later_step|apply IH]. Qed.

Definition session_terminal (s : session_state) : bool := bool_decide (s ∈ [S_consumed; S_cancelled; S_expired; S_failed]).
Lemma terminal_final s s' : session_terminal (se_state s) = true -> rtc session_edge s s' -> s' = s.
Proof.
  intros Hs Hr. destruct Hr as [|s s1 s' [_ _ He _] _]; [done|]. exfalso. destruct (se_state s); cbn in *; discriminate.
Qed.
(** C39: The life of an upload session.  Through any sequence of actions on the store a session
    is never deleted and never renamed: it moves along committed - reserved - consumed or from
    an early state to cancelled or expired, its object, digest, size, key and token stay, its
    revision grows with every step, and a consumed, cancelled or expired session never changes
    again, so that a session is consumed only by way of a reservation. *)
Theorem session_lifecycle (l : list action) (y : system) sid s (Hs : o_sessions (catalog_of y) !! sid = Some s) :
  exists s', o_sessions (catalog_of (run_actions max_object_bytes uuid7 timestamp scanner l y)) !! sid = Some s' /\
    (se_team s', se_token_hash s', se_key s', se_staging s') = (se_team s, se_token_hash s, se_key s, se_staging s) /\
    (se_object s', se_digest s', se_size s') = (se_object s, se_digest s, se_size s) /\
    rtc (fun a b => session_steps a b = true) (se_state s) (se_state s') /\
    se_revision s <= se_revision s' /\ (se_revision s' = se_revision s -> s' = s) /\
    (session_terminal (se_state s) = true -> s' = s).
Proof.
  pose proof (lt_sessions _ _ (later_run l y)) as Hm. eapply evolves_lookup in Hm as (s' & Hs' & Hr); [|exact Hs]. exists s'.
  destruct (session_edges_keep _ _ Hr) as (H1 & H2 & H3 & H4). split_and!; try done; [|by intros; apply terminal_final].
  clear - Hr. induction Hr as [|a b c [_ _ He _] _ IH]; [done|]. by eapply rtc_l.
Qed.

(** ** Replays *)

(** The other services create, stop and remove teams. *)
Inductive event :=
| Acting (a : action)
| Teams (teams : gmap ustr ustr).
Definition set_teams (teams : gmap ustr ustr) (d : catalog) : catalog :=
  Build_catalog (o_objects d) (o_references d) (o_sessions d) teams (o_tasks d) (o_intents d) (o_proofs d) (o_uuids d).
Definition happen (y : system) (e : event) : system :=
  match e with
  | Acting a => act max_object_bytes uuid7 timestamp scanner a y
  | Teams teams => Build_system (Build_storage (set_teams teams (catalog_of y)) (files_of y)) (y_promoted y) (y_gc y)
  end.
Abbreviation history := (foldl happen).

Lemma later_history l y : moved y (history y l).
Proof.
  revert y. induction l as [|e l IH]; intros y; [done|]. etrans; [|apply IH]. destruct e as [a|teams]; [apply later_step|].
  by apply later_same.
Qed.

(** The answer to a repeated key, from the session and the row that it names. *)
Lemma upload_repeated now team st key d sid s object o :
  session_by_key d team key = Some (sid, s) -> se_object s = Some object -> o_objects d !! object = Some o -> so_team o = team ->
  o_teams d !! team = Some (u "active") ->
  upload_transaction uuid7 now team st (Some key) d =
    (require (bool_decide (se_digest s = Some (os_sha256 st)) && bool_decide (se_size s = Some (os_size st))) (MkbError "OBJECT_SESSION_CONFLICT" 409) ;!
     if live_row o then
       let! token := lift (session_token team key sid) in ret (Build_upload_record (with_media st (so_media o)) object true (Some token))
     else raise (MkbError "OBJECT_SESSION_CONFLICT" 503)) d.
Proof.
  intros Hs Ho Hrow Hteam Ht. unfold upload_transaction. rewrite (bind_run _ _ _ d d) by done. rewrite Ht. cbn [from_option id].
  rewrite (bind_run _ _ _ tt d) by done. rewrite Hs. unfold bind. destruct (require _ _ d) as [[x d1]|e] eqn:E; [|done].
  cbn [rbind fst snd]. apply require_Ok in E as [_ ->]. rewrite Ho. cbn [mbind option_bind]. rewrite Hrow. cbn [fmap option_fmap option_map].
  rewrite Hteam, ueqb_refl. by destruct (live_row o).
Qed.
Lemma upload_inactive now team st requested d : o_teams d !! team <> Some (u "active") ->
  exists e, e ∈ [MkbError "team-not-found" 404; MkbError "team-not-active" 409] /\ upload_transaction uuid7 now team st requested d = Err e.
Proof.
  intros Ht. unfold upload_transaction. rewrite (bind_run _ _ _ d d) by done. destruct (o_teams d !! team) as [status|].
  - exists (MkbError "team-not-active" 409). split; [by right; left|]. unfold bind, require, lift, ensure.
    destruct (ueqb status (u "active")) eqn:E; [|done]. apply ueqb_eq in E. congruence.
  - exists (MkbError "team-not-found" 404). split; [by left|done].
Qed.

(** C10: Idempotence of keyed uploads.  Once an upload under an idempotency key was accepted
    (where no two sessions of a team share a key, as their unique index demands), then after any
    further actions on the store (promotions, uploads, holds of processes, reservations,
    consumptions, cancellations, expiries, collections, reconciliations) and any changes of the
    teams, at any time, the row that it named is still there, and a repeated key is answered
    from it and without any write: while the team is active, the same bytes get the same object,
    token and stat, as a replay, as long as the collector has not deleted the row, and a conflict
    with status 503 afterwards; other bytes get a conflict with status 409; and in a team that is
    gone or not active every upload is refused. *)
Theorem upload_replays now team st key d r d' (Hkeys : session_keys d)
    (Hup : upload_transaction uuid7 now team st (Some key) d = Ok (r, d')) (y : system) (Hy : catalog_of y = d') (l : list event) :
  let d2 := catalog_of (history y l) in
  exists o, o_objects d2 !! ur_object r = Some o /\ so_team o = team /\ forall now',
  (o_teams d2 !! team = Some (u "active") ->
     (forall media, upload_transaction uuid7 now' team (with_media st media) (Some key) d2 =
        if live_row o then Ok (Build_upload_record (ur_stat r) (ur_object r) true (ur_token r), d2)
        else Err (MkbError "OBJECT_SESSION_CONFLICT" 503)) /\
     (forall st', (os_sha256 st', os_size st') <> (os_sha256 st, os_size st) ->
        upload_transaction uuid7 now' team st' (Some key) d2 = Err (MkbError "OBJECT_SESSION_CONFLICT" 409))) /\
  (o_teams d2 !! team <> Some (u "active") -> forall st' requested, exists e,
     e ∈ [MkbError "team-not-found" 404; MkbError "team-not-active" 409] /\ upload_transaction uuid7 now' team st' requested d2 = Err e).
Proof.
  intros d2. pose proof (lt_keys _ _ (later_upload uuid7 now team st (Some key) _ _ _ Hup) Hkeys) as Hkeys'.
  apply upload_keyed_session in Hup as (sid & s & o & token & Hs & Hd & Hz & Ho & Hrow & Hlive & Hstat & Htoken & Htok & _).
  apply andb_true_iff in Hlive as [Hteam%ueqb_eq _]. apply session_by_key_Some in Hs as (Hs & Hst & Hsk).
  pose proof (later_history l y) as [Hm Hobj Hk]. rewrite Hy in Hm, Hobj, Hk. specialize (Hk Hkeys'). fold d2 in Hm, Hobj, Hk.
  eapply evolves_lookup in Hs as (s2 & Hs2 & ([= E1 E2 E3 E4] & [= E5 E6 E7] & _)%session_edges_keep); [|exact Hm].
  eapply evolves_lookup in Hrow as (o2 & Hrow & (Ht2 & Hm2 & _)%ages_keep); [|exact Hobj].
  assert (session_by_key d2 team key = Some (sid, s2)) as Hkey by (apply session_by_key_unique; [done|done|congruence..]).
  exists o2. split; [done|]. split; [congruence|]. intros now'. split; [|intros Ht st' requested; by apply upload_inactive]. intros Ht.
  pose proof (fun st' => upload_repeated now' team st' key d2 sid s2 (ur_object r) o2 Hkey ltac:(congruence) Hrow ltac:(congruence) Ht) as Hrun.
  split; [intros media|intros st' Hne]; rewrite Hrun, E6, E7, Hd, Hz.
  - rewrite !bool_decide_eq_true_2 by done. destruct (live_row o2); [|done]. rewrite Hstat, Htok, Hm2. unfold bind, lift. by rewrite Htoken.
  - unfold bind, require, lift, ensure.
    destruct (bool_decide_reflect (Some (os_sha256 st) = Some (os_sha256 st'))) as [[= F1]|]; [|done].
    destruct (bool_decide_reflect (Some (os_size st) = Some (os_size st'))) as [[= F2]|]; [|done]. by rewrite F1, F2 in Hne.
Qed.
End lifecycle.

(** ** Runs *)

Import ObjectSamples.
Abbreviation hello := (Build_object_stat (handle_value TEAM digest) digest 5 None).
Abbreviation first_upload := (upload_transaction ids 100 TEAM hello (Some (u "key")) start_catalog).

Abbreviation token := (match session_token TEAM (u "key") (u "id-0") with Ok t => t | Err _ => [] end).
(** After the upload: with its hold released the collector deletes its bytes. *)
Abbreviation after d l := (foldl (happen 100 ids dec (u "scanner")) (Build_system (Build_storage d (files_of start)) [] Idle) l).
Abbreviation cancelling := [Acting (CancelSession 200 TEAM token)].
Abbreviation collecting := (cancelling ++ map Acting [GcCheck 900 10 (Build_candidate TEAM (u "object") digest 5 0 200 None); GcQuarantine; GcCommit 901; GcFinish]).

Lemma start_keys : session_keys start_catalog.
Proof. intros i j s t [=]. Qed.

Lemma upload_replays_witness :
  exists r d, first_upload = Ok (r, d) /\
  upload_transaction ids 300 TEAM (with_media hello (Some (u "text/plain"))) (Some (u "key")) (catalog_of (after d cancelling))
    = Ok (Build_upload_record (ur_stat r) (ur_object r) true (ur_token r), catalog_of (after d cancelling)) /\
  upload_transaction ids 950 TEAM hello (Some (u "key")) (catalog_of (after d collecting)) = Err (MkbError "OBJECT_SESSION_CONFLICT" 503) /\
  upload_transaction ids 950 TEAM (Build_object_stat (handle_value TEAM digest) digest 6 None) (Some (u "key")) (catalog_of (after d collecting))
    = Err (MkbError "OBJECT_SESSION_CONFLICT" 409) /\
  exists e, e ∈ [MkbError "team-not-found" 404; MkbError "team-not-active" 409] /\
    upload_transaction ids 300 TEAM hello None (catalog_of (after d (cancelling ++ [Teams ∅]))) = Err e.
Proof.
  assert (match first_upload with
    | Ok (r, d) => (live_row <$> o_objects (catalog_of (after d cancelling)) !! ur_object r) = Some true /\
        (live_row <$> o_objects (catalog_of (after d collecting)) !! ur_object r) = Some false /\
        o_teams (catalog_of (after d cancelling)) !! TEAM = Some (u "active") /\ o_teams (catalog_of (after d collecting)) !! TEAM = Some (u "active")
    | Err _ => False end) as Hruns by (vm_compute; repeat split).
  destruct first_upload as [[r d]|e] eqn:E; [|destruct Hruns]. exists r, d. split; [done|]. destruct Hruns as (L1 & L2 & T1 & T2).
  pose proof (fun l => upload_replays 100 ids dec (u "scanner") 100 TEAM hello (u "key") start_catalog r d start_keys E
    (Build_system (Build_storage d (files_of start)) [] Idle) eq_refl l) as Hall. cbv zeta in Hall.
  destruct (Hall cancelling) as (o1 & Ho1 & _ & H1), (Hall collecting) as (o2 & Ho2 & _ & H2), (Hall (cancelling ++ [Teams ∅])) as (o3 & _ & _ & H3).
  rewrite Ho1 in L1. injection L1 as L1. rewrite Ho2 in L2. injection L2 as L2.
  split_and!.
  - destruct (H1 300) as [Ha _]. destruct (Ha T1) as [Hs _]. rewrite Hs, L1. reflexivity.
  - destruct (H2 950) as [Ha _]. destruct (Ha T2) as [Hs _]. change hello with (with_media hello None). rewrite Hs, L2. reflexivity.
  - destruct (H2 950) as [Ha _]. destruct (Ha T2) as [_ Hs]. apply Hs. intros Heq. apply (f_equal snd) in Heq. cbn [snd os_size] in Heq. discriminate.
  - destruct (H3 300) as [_ Ha]. apply Ha. rewrite foldl_app. discriminate.
Defined.

Abbreviation uploaded := (run_from [Promote [TEXT] request; upload]).
Abbreviation closing := [CancelSession 200 TEAM token; Expire 900 10 100].

Lemma session_lifecycle_witness :
  (se_state <$> o_sessions (catalog_of uploaded) !! u "id-0") = Some S_committed /\
  (se_state <$> o_sessions (catalog_of (run_actions 100 ids dec (u "scanner") closing uploaded)) !! u "id-0") = Some S_cancelled /\
  match o_sessions (catalog_of uploaded) !! u "id-0" with
  | Some s => exists s', o_sessions (catalog_of (run_actions 100 ids dec (u "scanner") closing uploaded)) !! u "id-0" = Some s' /\
      se_revision s <= se_revision s'
  | None => False
  end.
Proof.
  split; [vm_compute; reflexivity|]. split; [vm_compute; reflexivity|].
  assert (is_Some (o_sessions (catalog_of uploaded) !! u "id-0")) as Hsome by (vm_compute; eauto).
  revert Hsome. generalize (session_lifecycle 100 ids dec (u "scanner") closing uploaded (u "id-0")).
  destruct (o_sessions (catalog_of uploaded) !! u "id-0") as [s|]; intros Hlife Hsome; [|exact (is_Some_None Hsome)].
  destruct (Hlife s eq_refl) as (s' & Hs & _ & _ & _ & Hr & _). exists s'. split; assumption.
Defined.
