(* ===== verification/Staging.v ===== *)
(** * Staged outcomes

    Model of [src/services/artifacts.py] ([OutcomeArtifactCommitter]): bytes of a stage are
    promoted and remembered in memory under the process and its fence; the transaction that
    accepts the outcome catalogues them, takes the holds of the process and runs the callback
    of the stage.  The store and the memory outlive a call that raises. *)

From S2P Require Import Prelude PyText PyValue Txn ObjectStore Objects ObjectGc ObjectRuns ObjectLaws Strategies Dispatch WorkflowContracts Engine.

Open Scope Z_scope.
Open Scope mkb_scope.

#[export] Instance process_command_eq : EqDecision ProcessCommand.
Proof. solve_decision. Defined.

Record staged_artifacts := {
  sa_output_ref : ustr;
  sa_output_digest : ustr;
  sa_proof_ref : ustr;
  sa_proof_digest : ustr
}.

(** [_PendingCommit] *)
Record pending_commit := {
  pd_command : ProcessCommand;
  pd_output : object_stat;
  pd_proof : object_stat;
  pd_callback : txn catalog unit
}.

Record committer := {
  cm_files : cas;
  cm_pending : gmap (ustr * Z) pending_commit
}.
Definition stage_key (c : ProcessCommand) : ustr * Z := (pc_process c, pc_fencing_generation c).
Definition PENDING_LIMIT : Z := 1024.

Section staging.
Context {H : Host}.
Variables (max_object_bytes : Z) (uuid7 : nat -> ustr).

Definition process_io (c : ProcessCommand) (media : ustr) : promote_request :=
  Build_promote_request (pc_team c) "process_io" (Some media) None.

(** What [stage] does with two promoted objects. *)
Definition remember (c : ProcessCommand) (output proof : object_stat) (callback : txn catalog unit) (pending : gmap (ustr * Z) pending_commit)
    : result (gmap (ustr * Z) pending_commit) :=
  match pending !! stage_key c with
  | Some p =>
      check ueqb (os_sha256 (pd_output p)) (os_sha256 output) && ueqb (os_sha256 (pd_proof p)) (os_sha256 proof)
            && ueqb (pc_execution (pd_command p)) (pc_execution c) else MkbError "stage-output-conflict" 409 ;;
      Ok pending
  | None =>
      check negb (PENDING_LIMIT <=? Z.of_nat (size pending)) else MkbError "OBJECT_PENDING_OUTPUT_LIMIT" 503 ;;
      Ok (<[stage_key c := Build_pending_commit c output proof callback]> pending)
  end.

(** [stage] *)
Definition stage (c : ProcessCommand) (output_bytes proof_bytes : bytes) (output_media proof_media : ustr) (callback : txn catalog unit)
    (m : committer) : result staged_artifacts * committer :=
  match promote max_object_bytes output_bytes (process_io c output_media) (cm_files m) with
  | Err e => (Err e, m)
  | Ok (output, files) =>
      match promote max_object_bytes proof_bytes (process_io c proof_media) files with
      | Err e => (Err e, Build_committer files (cm_pending m))
      | Ok (proof, files) =>
          match remember c output proof callback (cm_pending m) with
          | Err e => (Err e, Build_committer files (cm_pending m))
          | Ok pending =>
              (Ok (Build_staged_artifacts (os_handle output) (os_sha256 output) (os_handle proof) (os_sha256 proof)), Build_committer files pending)
          end
      end
  end.

(** The body of the [try] of [validate_and_commit]. *)
Definition commit_pending (now : Z) (c : ProcessCommand) (o : ProcessOutcome) (pending : option pending_commit) : txn catalog unit :=
  match pending with
  | None => raise (MkbError "OBJECT_PENDING_OUTPUT_MISSING" 409)
  | Some p =>
      require (bool_decide (pd_command p = c)) (MkbError "stage-command-conflict" 409) ;!
      require (bool_decide (po_output_manifest_ref o = Some (os_handle (pd_output p)))
               && bool_decide (po_output_manifest_digest o = Some (os_sha256 (pd_output p)))
               && bool_decide (po_proof_ref o = Some (os_handle (pd_proof p)))
               && bool_decide (po_proof_digest o = Some (os_sha256 (pd_proof p)))) (MkbError "stage-output-integrity" 409) ;!
      catalog_stat uuid7 now (pc_team c) (pd_output p) "process_output" (pc_process c) ;!
      catalog_stat uuid7 now (pc_team c) (pd_proof p) "process_proof" (pc_process c) ;!
      pd_callback p
  end.

(** [validate_and_commit], inside the transaction that accepts the outcome; the [finally]
    forgets the entry. *)
Definition validate_and_commit (now : Z) (c : ProcessCommand) (o : ProcessOutcome) (m : committer) (d : catalog)
    : result (unit * catalog) * committer :=
  (commit_pending now c o (cm_pending m !! stage_key c) d, Build_committer (cm_files m) (delete (stage_key c) (cm_pending m))).

(** [discard] *)
Definition discard (c : ProcessCommand) (m : committer) : committer :=
  Build_committer (cm_files m) (delete (stage_key c) (cm_pending m)).

(** ** Laws *)

(** What the memory may hold: entries under their own key, with bytes of their own team. *)
Record staged_ok (m : committer) : Prop := {
  sk_files : cas_ok (cm_files m);
  sk_bound : Z.of_nat (size (cm_pending m)) <= PENDING_LIMIT;
  sk_entries : forall k p, cm_pending m !! k = Some p -> stage_key (pd_command p) = k /\
    os_handle (pd_output p) = handle_value (pc_team (pd_command p)) (os_sha256 (pd_output p)) /\
    os_handle (pd_proof p) = handle_value (pc_team (pd_command p)) (os_sha256 (pd_proof p))
}.

Lemma promote_Ok c data media f st f' : promote max_object_bytes data (process_io c media) f = Ok (st, f') ->
  os_sha256 st = sha256_hex data /\ os_handle st = handle_value (pc_team c) (sha256_hex data) /\ os_size st = size_of data /\
  (cas_ok f -> cas_ok f') /\ live_bytes f' (pc_team c, sha256_hex data) /\ (forall k, live_bytes f k -> live_bytes f' k).
Proof.
  intros Hp. pose proof (promote_stream_keeps max_object_bytes [data] (process_io c media) _ _ _ Hp) as Hk.
  apply promote_stream_Ok in Hp as (-> & _ & _ & _ & (b & Hb & _ & _) & Hs). cbn [concat] in *. rewrite app_nil_r in *. cbn in *.
  split_and!; try done; [by exists b|]. intros k Hl. destruct Hs as [-> |[Hn Hs]]; [done|]. unfold live_bytes. rewrite Hs.
  destruct (decide ((pc_team c, sha256_hex data) = k)) as [<-|]; [rewrite lookup_insert_eq; eauto|by rewrite lookup_insert_ne].
Qed.

Lemma size_delete_le {A} (m : gmap (ustr * Z) A) k : (size (delete k m) <= size m)%nat.
Proof. apply map_subseteq_size, delete_subseteq. Qed.

Lemma stage_staged_ok c ob pb om pm callback m : staged_ok m -> staged_ok (stage c ob pb om pm callback m).2.
Proof.
  intros [Hf Hb He]. unfold stage. destruct (promote _ ob _ _) as [[output f1]|] eqn:E1; [|done].
  apply promote_Ok in E1 as (Hs1 & Hh1 & _ & Hk1 & _). destruct (promote _ pb _ f1) as [[proof f2]|] eqn:E2; [|split; cbn; auto].
  apply promote_Ok in E2 as (Hs2 & Hh2 & _ & Hk2 & _). destruct (remember _ _ _ _ _) as [pending|] eqn:Er; [|split; cbn; auto].
  unfold remember in Er. destruct (cm_pending m !! stage_key c) as [p|] eqn:Ep; cbn [rbind] in Er.
  - apply rbind_Ok in Er as (? & _ & [= <-]). split; cbn; auto.
  - apply rbind_Ok in Er as (? & Hl%ensure_Ok & [= <-]). unfold PENDING_LIMIT in *. split; cbn; auto.
    + rewrite map_size_insert, Ep. unfold PENDING_LIMIT. lia.
    + intros k p. rewrite lookup_insert_Some. intros [[<- <-]|[_ Hp]]; [|auto]. cbn. rewrite Hs1, Hs2. done.
Qed.
Lemma forget_staged_ok c m : staged_ok m -> staged_ok (discard c m).
Proof.
  intros [Hf Hb He]. split; cbn; [done| |].
  - pose proof (size_delete_le (cm_pending m) (stage_key c)). lia.
  - intros k p [_ Hp]%lookup_delete_Some. auto.
Qed.

(** The hold of a process on bytes of its team. *)
Definition process_hold (d : catalog) (team digest : ustr) (kind : string) (owner : ustr) : Prop :=
  exists object o k r, o_objects d !! object = Some o /\ key_of o = (team, digest) /\ live_row o = true /\
    o_references d !! k = Some r /\ rf_object r = object /\ rf_purpose r = "process_io"%string /\ rf_owner_kind r = kind /\
    rf_owner r = owner /\ unreleased r = true.

Lemma catalog_stat_holds now team st kind owner d d' :
  catalog_stat uuid7 now team st kind owner d = Ok (tt, d') -> process_hold d' team (os_sha256 st) kind owner.
Proof.
  unfold catalog_stat. intros (? & ? & [= <- <-] & (object & d1 & Hf & (ref & d2 & [= <- <-] & Hi)%bind_Ok)%bind_Ok)%bind_Ok.
  assert (exists o, o_objects d1 !! object = Some o /\ key_of o = (team, os_sha256 st) /\ live_row o = true) as (o & Ho & Hk & Hl).
  { destruct (live_object d team _ _) as [k|] eqn:El.
    - injection Hf as <- <-. apply live_object_Some in El as (o & Ho & Ht & Hg & _ & Hl). exists o. unfold key_of. rewrite Ht, Hg. done.
    - apply bind_Ok in Hf as (fresh & d3 & [= <- <-] & Hf). cbn zeta in Hf. apply bind_Ok in Hf as (? & ? & [= <- <-] & Hf).
      apply bind_Ok in Hf as ([] & ? & [Hc ->]%require_Ok & Hf). apply bind_Ok in Hf as ([] & d4 & [= <-] & [= <- <-]).
      eexists. cbn. rewrite lookup_insert_eq. done. }
  unfold insert_reference in Hi. apply bind_Ok in Hi as (? & ? & [= <- <-] & Hi). apply bind_Ok in Hi as ([] & ? & [_ ->]%require_Ok & [= <-]).
  eexists object, o, _, _. split; [exact Ho|]. split; [done|]. split; [done|]. split; [cbn; apply lookup_insert_eq|]. done.
Qed.

(** Cataloguing keeps the holds that are there. *)
Lemma catalog_stat_keeps_hold now team st kind owner d d' team' digest' kind' owner' :
  catalog_stat uuid7 now team st kind owner d = Ok (tt, d') -> process_hold d team' digest' kind' owner' ->
  process_hold d' team' digest' kind' owner'.
Proof.
  intros Hc (object & o & k & r & Ho & Hk & Hl & Hr & Hrest). exists object, o, k, r. split; [|split; [done|split; [done|split; [|done]]]].
  - eapply takes_row; [|exact Ho]. by eapply catalog_stat_takes.
  - revert Hc. unfold catalog_stat. intros (? & ? & [= <- <-] & (ob & d1 & Hf & (ref & d2 & [= <- <-] & Hi)%bind_Ok)%bind_Ok)%bind_Ok.
    assert (o_references d1 = o_references d) as Hd1.
    { destruct (live_object d team _ _); [by injection Hf as _ <-|]. apply bind_Ok in Hf as (fresh & d3 & [= <- <-] & Hf).
      apply bind_Ok in Hf as (? & ? & [= <- <-] & Hf). apply bind_Ok in Hf as ([] & ? & [_ ->]%require_Ok & Hf).
      by apply bind_Ok in Hf as ([] & d4 & [= <-] & [= _ <-]). }
    unfold insert_reference in Hi. apply bind_Ok in Hi as (? & ? & [= <- <-] & Hi). apply bind_Ok in Hi as ([] & ? & [Hfree ->]%require_Ok & [= <-]).
    cbn. rewrite lookup_insert_ne; [by rewrite Hd1|]. intros <-. unfold reference_conflict in Hfree. cbn in Hfree. rewrite Hd1, Hr in Hfree. done.
Qed.

(** C11: Staged bytes reach the catalogue.  Bytes that a stage has promoted, the first one
    under its process and fence, are in the store, and the transaction that accepts an outcome
    with exactly the references and digests it handed out catalogues both objects under live
    rows of the team, holds them for the process, and only then runs the callback of the stage;
    whatever that transaction answers, the entry is gone, and a second commit under the same
    process and fence is refused. *)
Theorem staged_outcome_commits c ob pb om pm callback m a m1 o
    (Hok : staged_ok m) (Hfresh : cm_pending m !! stage_key c = None)
    (Hstage : stage c ob pb om pm callback m = (Ok a, m1))
    (Hout : (po_output_manifest_ref o, po_output_manifest_digest o) = (Some (sa_output_ref a), Some (sa_output_digest a)))
    (Hproof : (po_proof_ref o, po_proof_digest o) = (Some (sa_proof_ref a), Some (sa_proof_digest a))) :
  staged_ok m1 /\
  live_bytes (cm_files m1) (pc_team c, sha256_hex ob) /\ live_bytes (cm_files m1) (pc_team c, sha256_hex pb) /\
  a = Build_staged_artifacts (handle_value (pc_team c) (sha256_hex ob)) (sha256_hex ob) (handle_value (pc_team c) (sha256_hex pb)) (sha256_hex pb) /\
  forall now d,
  let r := validate_and_commit now c o m1 d in
  (forall d', r.1 = Ok (tt, d') -> exists d1, callback d1 = Ok (tt, d') /\
     process_hold d1 (pc_team c) (sha256_hex ob) "process_output" (pc_process c) /\
     process_hold d1 (pc_team c) (sha256_hex pb) "process_proof" (pc_process c)) /\
  cm_pending r.2 = cm_pending m /\
  forall now' o' d', (validate_and_commit now' c o' r.2 d').1 = Err (MkbError "OBJECT_PENDING_OUTPUT_MISSING" 409).
Proof.
  pose proof (stage_staged_ok c ob pb om pm callback m Hok) as Hok1. rewrite Hstage in Hok1. split; [done|].
  revert Hstage. unfold stage. destruct (promote _ ob _ _) as [[output f1]|] eqn:E1; [|done].
  apply promote_Ok in E1 as (Hs1 & Hh1 & _ & _ & Hl1 & _). destruct (promote _ pb _ f1) as [[proof f2]|] eqn:E2; [|done].
  apply promote_Ok in E2 as (Hs2 & Hh2 & _ & _ & Hl2 & Hk2). unfold remember. rewrite Hfresh.
  unfold ensure. destruct (negb (PENDING_LIMIT <=? _)); cbn [rbind]; [|done]. intros [= <- <-]. cbn in Hout, Hproof.
  split; [by apply Hk2|]. split; [done|]. split; [by rewrite Hs1, Hs2, Hh1, Hh2|].
  intros now d. unfold validate_and_commit. cbn [fst snd cm_pending cm_files]. rewrite lookup_insert_eq. split_and!.
  - intros d' Hr. unfold commit_pending in Hr. cbn [pd_command pd_output pd_proof pd_callback] in Hr.
    apply bind_Ok in Hr as ([] & ? & [_ ->]%require_Ok & Hr). apply bind_Ok in Hr as ([] & ? & [_ ->]%require_Ok & Hr).
    apply bind_Ok in Hr as ([] & d1 & Hc1 & Hr). apply bind_Ok in Hr as ([] & d2 & Hc2 & Hr). exists d2. split; [done|].
    rewrite <-Hs1, <-Hs2. split; [|by eapply catalog_stat_holds]. eapply catalog_stat_keeps_hold; [exact Hc2|]. by eapply catalog_stat_holds.
  - by rewrite delete_insert_id.
  - intros now' o' d'. by rewrite lookup_delete_eq.
Qed.
End staging.

Module StagingSamples.
Import ObjectSamples.
Definition command : ProcessCommand :=
  Build_ProcessCommand TEAM (u "task") (u "trace") (u "execution") (u "process") "clean" "process.clean" None 3 (u "input") (u "manifest") (u "m")
    (u "config") (u "c") None legacy_unverifiable (u "policy") None normal.
Definition outcome (a : staged_artifacts) : ProcessOutcome :=
  Build_ProcessOutcome TEAM (u "task") (u "execution") (u "process") 3 O_SUCCEEDED [] (Some (sa_output_ref a)) (Some (sa_output_digest a))
    (Some (sa_proof_ref a)) (Some (sa_proof_digest a)) None None [].
Definition idle : committer := Build_committer (Build_cas ∅ ∅) ∅.
End StagingSamples.
Import ObjectSamples StagingSamples.
Abbreviation staged := (stage 100 command TEXT (u "{}") (u "application/json") (u "application/json") (ret tt) idle).

Lemma staged_outcome_commits_witness :
  match staged with
  | (Ok a, m1) =>
      let r := validate_and_commit ids 200 command (outcome a) m1 start_catalog in
      is_ok r.1 = true /\ live_bytes (cm_files m1) (TEAM, sha256_hex TEXT) /\
      (forall d', r.1 = Ok (tt, d') -> exists d1, (ret tt : txn catalog unit) d1 = Ok (tt, d') /\
         process_hold d1 TEAM (sha256_hex TEXT) "process_output" (u "process"))
  | _ => False
  end.
Proof.
  assert (is_ok (fst staged) = true) as Hs by (vm_compute; reflexivity).
  assert (is_ok (validate_and_commit ids 200 command
      (outcome (match fst staged with Ok a => a | Err _ => Build_staged_artifacts [] [] [] [] end)) (snd staged) start_catalog).1 = true) as Hr
    by (vm_compute; reflexivity).
  revert Hs Hr. generalize (staged_outcome_commits 100 ids command TEXT (u "{}") (u "application/json") (u "application/json") (ret tt) idle).
  destruct staged as [[a|e] m1]; cbn [fst snd]; intros Hlaw Hs Hr; [|discriminate Hs].
  assert (staged_ok idle) as Hidle by (split; cbn; done).
  destruct (Hlaw a m1 (outcome a) Hidle eq_refl eq_refl eq_refl eq_refl) as (_ & Hl & _ & _ & Hrest).
  destruct (Hrest 200 start_catalog) as (Hok & _ & _). split; [exact Hr|split; [exact Hl|]].
  intros d' Hd'. destruct (Hok d' Hd') as (d1 & Hd & Ho & _). exists d1. split; [exact Hd|exact Ho].
Defined.
