(* ===== verification/RetrievalTables.v ===== *)
(** * What retrieval reads

    The tables that [src/services/retrieval] and [src/persistence/retrieval_access.py] read, and
    the two publication fences of [retrieval_rank.py]: the joins and the predicate of
    [_fetch_candidate_rows] and those of [_revalidate_publication_fence].  Every joined table is
    reached by a key, so that a record joins at most one row of each. *)

From S2P Require Import Prelude PyText PyValue Txn PyFloat.

Open Scope Z_scope.
Open Scope mkb_scope.

(** ** Rows *)

(** The frozen identity of an embedding space. *)
Record layer_a := {
  la_model : ustr;
  la_key : ustr;
  la_version : ustr;
  la_adapter : ustr;
  la_dimension : Z
}.
#[export] Instance layer_a_eq : EqDecision layer_a.
Proof. solve_decision. Defined.

Record namespace_row := {
  nr_team : ustr;
  nr_key : ustr;
  nr_layer : layer_a;
  nr_metric : ustr;
  nr_status : ustr;
  nr_deleted : bool
}.

(** The embedding column: a blob, or a JSON text as [json.loads] parses it. *)
Inductive embedding_value :=
| EV_blob (b : bytes)
| EV_text (parsed : option pyval).

Record vector_row := {
  vr_team : ustr;
  vr_namespace : ustr;
  vr_artifact : ustr;
  vr_artifact_type : ustr;
  vr_unit : ustr;
  vr_channel : ustr;
  vr_item : option ustr;
  vr_revision : option ustr;
  vr_source_handle : option ustr;
  vr_layer : layer_a;
  vr_embedding : embedding_value;
  vr_content_digest : ustr;
  vr_published : bool;
  vr_generation : Z;
  vr_deleted : bool
}.

Record pointer_row := {
  pr_generation : Z;
  pr_state : ustr;
  pr_proof : option ustr;
  pr_artifact : option ustr
}.

Record proof_row := {
  pf_type : ustr;
  pf_version : ustr;
  pf_team : ustr;
  pf_item : ustr;
  pf_revision : ustr;
  pf_artifact : ustr;
  pf_artifact_type : ustr;
  pf_namespace : ustr;
  pf_layer : layer_a;
  pf_generation : Z;
  pf_expected : Z;
  pf_actual : Z;
  pf_matched : Z
}.

Record manifest_row := {
  mf_team : ustr;
  mf_proof : ustr;
  mf_item : ustr;
  mf_revision : ustr;
  mf_namespace : ustr;
  mf_generation : Z
}.

Record item_row := {
  it_team : ustr;
  it_source : ustr;
  it_state : ustr;
  it_deleted : bool;
  it_serving : option ustr
}.

Record artifact_row := {
  ar_team : ustr;
  ar_type : ustr;
  ar_disposition : ustr;
  ar_handle : option ustr;
  ar_media : option ustr;
  ar_size : Z;
  ar_digest : ustr
}.

Record binding_row := {
  br_team : option ustr;
  br_capability : ustr;
  br_adapter : ustr;
  br_key : ustr;
  br_version : ustr;
  br_enabled : bool;
  br_priority : Z
}.

Record facet_row := { fc_team : ustr; fc_record : ustr; fc_key : ustr; fc_value : ustr }.
#[export] Instance facet_row_eq : EqDecision facet_row.
Proof. solve_decision. Defined.

(** Sources are keyed by team and identifier, pointers by team, item and namespace, members by
    manifest, team and record. *)
Record tables := {
  t_teams : gmap ustr (ustr * bool);
  t_namespaces : gmap ustr namespace_row;
  t_records : gmap ustr vector_row;
  t_pointers : gmap (ustr * ustr * ustr) pointer_row;
  t_proofs : gmap ustr proof_row;
  t_manifests : gmap ustr manifest_row;
  t_members : gset (ustr * ustr * ustr);
  t_items : gmap ustr item_row;
  t_sources : gmap (ustr * ustr) ustr;
  t_artifacts : gmap ustr artifact_row;
  t_facets : list facet_row;
  t_bindings : list binding_row
}.

(** ** Joined rows *)

Record joined := {
  j_record_uuid : ustr;
  j_record : vector_row;
  j_item : ustr;
  j_revision : option ustr;
  j_namespace : namespace_row;
  j_pointer : pointer_row;
  j_proof_uuid : ustr;
  j_proof : proof_row;
  j_manifest : option ustr;
  j_item_row : item_row;
  j_source_kind : option ustr;
  j_artifact : artifact_row
}.

(** The manifest of a proof with the proof's coordinates. *)
Definition manifest_of (d : tables) (proof : ustr) (p : proof_row) : option ustr :=
  fst <$> head (rows_where (fun _ m => ueqb (mf_proof m) proof && ueqb (mf_team m) (pf_team p) && ueqb (mf_item m) (pf_item p)
                              && ueqb (mf_revision m) (pf_revision p) && ueqb (mf_namespace m) (pf_namespace p) && (mf_generation m =? pf_generation p))
                (t_manifests d)).

(** The [JOIN]s: namespace, active pointer, its proof, item, source, artifact. *)
Definition join_row (d : tables) (id : ustr) (r : vector_row) : option joined :=
  n ← t_namespaces d !! vr_namespace r;
  item ← vr_item r;
  p ← t_pointers d !! (vr_team r, item, vr_namespace r);
  proof ← pr_proof p;
  pf ← t_proofs d !! proof;
  i ← t_items d !! item;
  a ← t_artifacts d !! vr_artifact r;
  if ueqb (nr_team n) (vr_team r) && ueqb (it_team i) (vr_team r) && ueqb (ar_team a) (vr_team r)
  then Some (Build_joined id r item (vr_revision r) n p proof pf (manifest_of d proof pf) i (t_sources d !! (it_team i, it_source i)) a)
  else None.

(** [_PROOF_COMPLETE_SET_PREDICATE] *)
Definition proof_records (d : tables) (p : proof_row) : Z :=
  count_rows (fun _ r => ueqb (vr_team r) (pf_team p) && bool_decide (vr_item r = Some (pf_item p)) && bool_decide (vr_revision r = Some (pf_revision p))
                && ueqb (vr_namespace r) (pf_namespace p) && ueqb (vr_artifact r) (pf_artifact p) && ueqb (vr_artifact_type r) (pf_artifact_type p)
                && bool_decide (vr_layer r = pf_layer p) && (vr_generation r =? pf_generation p) && negb (vr_deleted r) && vr_published r)
    (t_records d).

Definition same_space (a b : layer_a) : bool :=
  ueqb (la_key a) (la_key b) && ueqb (la_version a) (la_version b) && ueqb (la_adapter a) (la_adapter b) && (la_dimension a =? la_dimension b).

(** The proof is complete and names the record's own coordinates. *)
Definition proof_fence (d : tables) (j : joined) : bool :=
  let r := j_record j in
  let p := j_proof j in
  ueqb (pf_type p) (u "index.publication.v1") && ueqb (pf_version p) (u "v1") && ueqb (pf_team p) (vr_team r) && ueqb (pf_item p) (j_item j)
  && bool_decide (Some (pf_revision p) = vr_revision r) && ueqb (pf_namespace p) (vr_namespace r) && ueqb (pf_artifact p) (vr_artifact r)
  && ueqb (pf_artifact_type p) (vr_artifact_type r) && same_space (pf_layer p) (vr_layer r) && (pf_generation p =? vr_generation r)
  && (pf_expected p =? pf_actual p) && (pf_actual p =? pf_matched p) && (pf_actual p =? proof_records d p).

(** The active pointer serves exactly the record's generation and artifact. *)
Definition pointer_fence (j : joined) : bool :=
  let r := j_record j in
  let p := j_pointer j in
  ueqb (pr_state p) (u "active") && (pr_generation p =? vr_generation r) && bool_decide (pr_artifact p = Some (vr_artifact r)).

(** [S04]: the item is active and serves the record's revision. *)
Definition item_fence (i : item_row) (revision : option ustr) : bool :=
  ueqb (it_state i) (u "active") && negb (it_deleted i)
  && match it_serving i, revision with Some s, Some r => ueqb s r | _, _ => false end.

Definition manifest_fence (d : tables) (j : joined) : bool :=
  match j_manifest j with
  | None => true
  | Some m => bool_decide ((m, vr_team (j_record j), j_record_uuid j) ∈ t_members d)
  end.

(** The conditions that both fences share. *)
Definition publication_fence (d : tables) (j : joined) : bool :=
  let r := j_record j in
  negb (vr_deleted r) && vr_published r
  && ueqb (nr_status (j_namespace j)) (u "active") && negb (nr_deleted (j_namespace j)) && bool_decide (vr_layer r = nr_layer (j_namespace j))
  && pointer_fence j && proof_fence d j
  && ueqb (ar_type (j_artifact j)) (vr_artifact_type r) && ueqb (ar_disposition (j_artifact j)) (u "full_valid")
  && item_fence (j_item_row j) (vr_revision r) && manifest_fence d j.

(** A record that may be served. *)
Definition served (d : tables) (team namespace : ustr) (j : joined) : bool :=
  ueqb (vr_team (j_record j)) team && ueqb (vr_namespace (j_record j)) namespace && publication_fence d j.

(** ** Candidate rows *)

(** The columns that [_fetch_candidate_rows] selects. *)
Record hit_row := {
  hr_record : ustr;
  hr_team : ustr;
  hr_namespace : ustr;
  hr_artifact : ustr;
  hr_artifact_type : ustr;
  hr_unit : ustr;
  hr_channel : ustr;
  hr_item : ustr;
  hr_revision : option ustr;
  hr_source_handle : option ustr;
  hr_embedding : embedding_value;
  hr_dimension : Z;
  hr_content_digest : ustr;
  hr_generation : Z;
  hr_proof : ustr;
  hr_handle : option ustr
}.
Definition hit_of (j : joined) : hit_row :=
  let r := j_record j in
  Build_hit_row (j_record_uuid j) (vr_team r) (vr_namespace r) (vr_artifact r) (vr_artifact_type r) (vr_unit r) (vr_channel r) (j_item j)
    (vr_revision r) (vr_source_handle r) (vr_embedding r) (la_dimension (vr_layer r)) (vr_content_digest r) (vr_generation r) (j_proof_uuid j)
    (ar_handle (j_artifact j)).

Definition FACET_KEYS : list (ustr * ustr) :=
  [(u "realm", u "realm"); (u "type", u "type"); (u "semantic_channel", u "channel"); (u "source_name", u "source_name");
   (u "is_active", u "is_active"); (u "context_tags", u "context_tags")].

(** One filter: item, source kind, or a facet of the record. *)
Definition filter_accepts (d : tables) (j : joined) (kv : ustr * ustr) : bool :=
  let '(k, v) := kv in
  if ueqb k (u "intake_item_uuid") then ueqb (j_item j) v
  else if ueqb k (u "source_kind") then bool_decide (j_source_kind j = Some v)
  else match dget FACET_KEYS k with
       | Some facet => bool_decide (Build_facet_row (vr_team (j_record j)) (j_record_uuid j) facet v ∈ t_facets d)
       | None => true
       end.

(** What narrows a scan beyond the request: coordinates, artifacts, a forced channel. *)
Record narrowing := {
  nw_pairs : list (ustr * ustr);
  nw_artifacts : list ustr;
  nw_channel : option ustr
}.
Definition no_narrowing : narrowing := Build_narrowing [] [] None.

Definition wanted (d : tables) (filters : list (ustr * ustr)) (w : narrowing) (j : joined) : bool :=
  let r := j_record j in
  forallb (filter_accepts d j) filters
  && match match nw_channel w with Some c => Some c | None => dget filters (u "vector_channel") end with Some c => ueqb (vr_channel r) c | None => true end
  && match nw_pairs w with [] => true | ps => bool_decide ((vr_artifact r, vr_unit r) ∈ ps) end
  && match nw_artifacts w with [] => true | l => bool_decide (vr_artifact r ∈ l) end.

Definition joined_rows (d : tables) : list joined :=
  omap (fun kv => join_row d kv.1 kv.2) (rows_where (fun _ _ => true) (t_records d)).

(** [_fetch_candidate_rows] *)
Definition fetch_candidate_rows (scan_limit : Z) (d : tables) (team namespace : ustr) (filters : list (ustr * ustr)) (w : narrowing)
    : result (list hit_row) :=
  let rows := List.filter (fun j => served d team namespace j && wanted d filters w j) (joined_rows d) in
  check Z.of_nat (length rows) <=? scan_limit else MkbError "RETRIEVE_SCAN_TRUNCATED" 503 ;;
  Ok (map hit_of rows).

(** ** Fences on submitted coordinates *)

Record coordinate := { co_record : ustr; co_item : ustr; co_revision : ustr }.
Definition names (c : coordinate) (id : ustr) (item revision : option ustr) : bool :=
  ueqb (co_record c) id && bool_decide (item = Some (co_item c)) && bool_decide (revision = Some (co_revision c)).

(** The records of [_revalidate_publication_fence] and of [_sql_batch_eligibility]. *)
Definition fence_approves (d : tables) (team namespace : ustr) (requested : list coordinate) : list ustr :=
  map j_record_uuid (List.filter (fun j => served d team namespace j
      && existsb (fun c => names c (j_record_uuid j) (Some (j_item j)) (vr_revision (j_record j))) requested) (joined_rows d)).
Definition sql_batch_eligibility (d : tables) (team : ustr) (requested : list coordinate) : list ustr :=
  map fst (rows_where (fun id r => ueqb (vr_team r) team && existsb (fun c => names c id (vr_item r) (vr_revision r)) requested
                        && match vr_item r with
                           | Some item => match t_items d !! item with
                                          | Some i => ueqb (it_team i) (vr_team r) && item_fence i (vr_revision r)
                                          | None => false end
                           | None => false end) (t_records d)).
