(* ===== verification/RetrievalAccess.v ===== *)
(** * Bodies and eligibility behind retrieval

    Model of [src/persistence/retrieval_access.py] ([ArtifactRetrievalAccess]): the batch
    eligibility fence of the intake and the hydration of bodies from stored projections, over
    the tables of [RetrievalTables.v] and the object store of [ObjectStore.v].  The adapter is
    one instance of the ports of [Retrieval.v].

    [depth] is how deep the interpreter lets [json.loads] nest; the request cache of
    projections is explicit. *)

From S2P Require Import Prelude PyText PyValue Txn PyFloat Json ObjectStore RetrievalTables.

Open Scope Z_scope.
Open Scope mkb_scope.

Definition DUAL_CHANNEL_PROJECTION_SCHEMA : ustr := u "mkb.dual-channel-projection.v1".
Definition JSON_MEDIA_TYPES : list ustr := map u ["application/json"; "application/ld+json"]%string.
Definition CHANNELS : list ustr := map u ["original"; "summary"]%string.
Definition MAX_UNIT_ID_LENGTH : Z := 512.
Definition MAX_CHANNEL_CHARS : Z := 8388608.

Record projection_unit := { pu_id : ustr; pu_granularity : Z; pu_channels : list (ustr * ustr) }.
Definition units := list (ustr * projection_unit).

(** [hmac.compare_digest] of two texts takes ASCII only. *)
Definition compare_digest (a b : ustr) : result bool :=
  let ascii := forallb (fun c => c <? 128) in
  check ascii a && ascii b else TypeError ;; Ok (ueqb a b).

(** [_safe_identifier] *)
Definition safe_identifier (s : ustr) (most : Z) : bool :=
  negb (ueqb s []) && (Z.of_nat (length s) <=? most) && forallb (fun c => 32 <=? c) s.
Definition safe_identifier_value (v : pyval) (most : Z) : bool :=
  match v with PStr s => safe_identifier s most | _ => false end.

(** ** Eligibility *)

(** [_normalise_candidates]: one coordinate of each record, none of a record submitted with two. *)
Definition submit (st : list (ustr * coordinate) * list ustr) (c : coordinate) : list (ustr * coordinate) * list ustr :=
  let '(by_vector, conflicted) := st in
  if negb (safe_identifier (co_record c) 512 && safe_identifier (co_item c) 512 && safe_identifier (co_revision c) 512) then st else
  match dget by_vector (co_record c) with
  | Some prior =>
      if ueqb (co_item prior) (co_item c) && ueqb (co_revision prior) (co_revision c) then st
      else (dpop by_vector (co_record c), co_record c :: conflicted)
  | None => if bool_decide (co_record c ∈ conflicted) then st else (dset by_vector (co_record c) c, conflicted)
  end.
Definition normalise_candidates (cs : list coordinate) : list coordinate := (foldl submit ([], []) cs).1.*2.

(** The batches of [candidate_chunk_size]. *)
Fixpoint chunks {A} (n : nat) (size : nat) (l : list A) : list (list A) :=
  match n, l with
  | _, [] => []
  | O, _ => [l]
  | S n, _ => take size l :: chunks n size (drop size l)
  end.
Definition eligible_row (d : tables) (team id : ustr) (r : vector_row) : bool :=
  ueqb (vr_team r) team && negb (vr_deleted r)
  && match vr_item r with
     | Some item => match t_items d !! item with Some i => ueqb (it_team i) (vr_team r) && item_fence i (vr_revision r) | None => false end
     | None => false
     end.
Definition approve_chunk (d : tables) (team : ustr) (requested : list coordinate) : list ustr :=
  map fst (rows_where (fun id r => eligible_row d team id r && existsb (fun c => names c id (vr_item r) (vr_revision r)) requested) (t_records d)).

(** [filter_retrieval_eligible] *)
Definition filter_retrieval_eligible (chunk_size : Z) (team : ustr) (cs : list coordinate) (d : tables) : list ustr :=
  let requested := normalise_candidates cs in
  if negb (safe_identifier team 128) then []
  else concat (map (approve_chunk d team) (chunks (length requested) (Z.to_nat (Z.min chunk_size 250)) requested)).

(** ** Projections *)

Definition DOCUMENT_INVALID : exn := MkbError "RETRIEVE_BODY_DOCUMENT_INVALID" 422.
Definition INTEGRITY : exn := MkbError "RETRIEVE_BODY_INTEGRITY" 503.
Definition get (d : pydict) (k : string) : pyval := default PNone (dget d (u k)).
Definition is_text (v : pyval) (s : ustr) : bool := match v with PStr t => ueqb t s | _ => false end.
Definition keys_within (d : pydict) (allowed : list ustr) : bool := forallb (fun kv => bool_decide (kv.1 ∈ allowed)) d.
(** [set(d) == keys] *)
Definition keys_are (d : pydict) (keys : list ustr) : bool := keys_within d keys && forallb (fun k => dmem d k) keys.

Section projections.
Context {H : Host}.

(** [_parse_channel] *)
Definition parse_channel (raw : pyval) : result ustr :=
  match raw with
  | PDict d =>
      check keys_within d (map u ["content"; "content_digest"]%string) else DOCUMENT_INVALID ;;
      match get d "content" with
      | PStr content =>
          check Z.of_nat (length content) <=? MAX_CHANNEL_CHARS else DOCUMENT_INVALID ;;
          match get d "content_digest" with
          | PNone => Ok content
          | PStr expected =>
              check (length expected =? 64)%nat else DOCUMENT_INVALID ;;
              let* bytes := utf8_encode content in
              let* same := compare_digest (sha256_hex bytes) expected in
              check same else INTEGRITY ;;
              Ok content
          | _ => Err DOCUMENT_INVALID
          end
      | _ => Err DOCUMENT_INVALID
      end
  | _ => Err DOCUMENT_INVALID
  end.

Definition parse_granularity (v : pyval) : result Z :=
  match v with PInt z => check (0 <=? z) && (z <=? 2) else DOCUMENT_INVALID ;; Ok z | _ => Err DOCUMENT_INVALID end.
Definition parse_unit_id (v : pyval) : result ustr :=
  match v with PStr s => check safe_identifier s MAX_UNIT_ID_LENGTH else DOCUMENT_INVALID ;; Ok s | _ => Err DOCUMENT_INVALID end.

(** [_parse_unit] *)
Definition parse_unit (raw : pyval) : result projection_unit :=
  match raw with
  | PDict d =>
      check keys_are d (map u ["unit_id"; "granularity"; "channels"]%string) else DOCUMENT_INVALID ;;
      let* id := parse_unit_id (get d "unit_id") in
      let* granularity := parse_granularity (get d "granularity") in
      match get d "channels" with
      | PDict ((_ :: _) as channels) =>
          check keys_within channels CHANNELS else DOCUMENT_INVALID ;;
          let* texts := mapM (fun kv => let* t := parse_channel kv.2 in Ok (kv.1, t)) channels in
          Ok (Build_projection_unit id granularity texts)
      | _ => Err DOCUMENT_INVALID
      end
  | _ => Err DOCUMENT_INVALID
  end.

(** One channel of [_parse_direct_channel_unit] against its receipt. *)
Definition check_receipt (d : pydict) (content : ustr) (key : string) : result unit :=
  match get d key with
  | PStr expected =>
      check (length expected =? 64)%nat else DOCUMENT_INVALID ;;
      let* digest := stable_digest (obj [("text", PStr content)]%string) in
      let* same := compare_digest digest expected in
      ensure same INTEGRITY
  | _ => Err DOCUMENT_INVALID
  end.
Definition DIRECT_KEYS : list ustr := map u ["unit_id"; "granularity"; "original"; "summary"; "original_digest"; "summary_digest"]%string.

(** [_parse_direct_channel_unit] *)
Definition parse_direct_channel_unit (raw : pyval) : result projection_unit :=
  match raw with
  | PDict d =>
      check keys_are d DIRECT_KEYS else DOCUMENT_INVALID ;;
      let* id := parse_unit_id (get d "unit_id") in
      let* granularity := parse_granularity (get d "granularity") in
      match get d "original", get d "summary" with
      | PStr original, PStr summary =>
          check (Z.of_nat (length original) <=? MAX_CHANNEL_CHARS) && (Z.of_nat (length summary) <=? MAX_CHANNEL_CHARS) else DOCUMENT_INVALID ;;
          let* _ := check_receipt d original "original_digest" in
          let* _ := check_receipt d summary "summary_digest" in
          Ok (Build_projection_unit id granularity [(u "original", original); (u "summary", summary)])
      | _, _ => Err DOCUMENT_INVALID
      end
  | _ => Err DOCUMENT_INVALID
  end.

(** The projection inside an [mkb.stage-output.v1] envelope. *)
Definition projection_of_envelope (document : pydict) (generation : ustr) : result pydict :=
  check is_text (get document "process_key") (u "lsrag.construct") else DOCUMENT_INVALID ;;
  match get document "state", get document "output" with
  | PDict state, PDict output =>
      check is_text (get state "dual_channel_artifact_uuid") generation else DOCUMENT_INVALID ;;
      match get output "construct_package" with
      | PDict package =>
          check match get package "content_full" with PBool true => true | _ => false end else DOCUMENT_INVALID ;;
          match get package "dual_channel" with
          | PDict projection =>
              check py_eqb (PDict projection) (get state "dual_channel") else DOCUMENT_INVALID ;;
              check is_text (get projection "schema_version") DUAL_CHANNEL_PROJECTION_SCHEMA else DOCUMENT_INVALID ;;
              Ok projection
          | _ => Err DOCUMENT_INVALID
          end
      | _ => Err DOCUMENT_INVALID
      end
  | _, _ => Err DOCUMENT_INVALID
  end.

(** [_projection_from_document] *)
Definition projection_from_document (document : pyval) (generation : ustr) : result pydict :=
  match document with
  | PDict d =>
      if is_text (get d "schema_version") DUAL_CHANNEL_PROJECTION_SCHEMA then
        check keys_within d (map u ["schema_version"; "generation_artifact_uuid"; "units"; "recipe_version"]%string) else DOCUMENT_INVALID ;;
        check implb (dmem d (u "recipe_version")) (is_text (get d "recipe_version") (u "content_full.v1")) else DOCUMENT_INVALID ;;
        Ok d
      else
        check is_text (get d "schema_version") (u "mkb.stage-output.v1") else DOCUMENT_INVALID ;;
        projection_of_envelope d generation
  | _ => Err DOCUMENT_INVALID
  end.

Definition add_unit (parse : pyval -> result projection_unit) (parsed : units) (raw : pyval) : result units :=
  let* unit := parse raw in
  check negb (dmem parsed (pu_id unit)) else DOCUMENT_INVALID ;;
  Ok (dset parsed (pu_id unit) unit).
Definition units_of (projection : pydict) (generation : ustr) : result units :=
  let declared := get projection "generation_artifact_uuid" in
  check is_none declared || is_text declared generation else DOCUMENT_INVALID ;;
  match get projection "units" with
  | PList raw =>
      let parse := if dmem projection (u "recipe_version") then parse_direct_channel_unit else parse_unit in
      foldM (add_unit parse) [] raw
  | _ => Err DOCUMENT_INVALID
  end.
End projections.

(** ** Hydration *)

(** The projections that a request has parsed, by team and artifact. *)
Abbreviation cache := (gmap (ustr * ustr) units).

Section hydration.
Context {H : Host} {F : FloatText} (depth : nat) (max_artifact_bytes : Z).

(** [_parse_projection]; what is not caught of [json.loads] is the [RecursionError]. *)
Definition parse_projection (data : bytes) (generation : ustr) : result units :=
  check Z.of_nat (length data) <=? max_artifact_bytes else MkbError "RETRIEVE_BODY_BUDGET" 422 ;;
  let* document :=
    (match (let* text := utf8_decode data in json_loads strict_hooks depth text) with
     | Err RecursionError => Err RecursionError
     | Err _ => Err DOCUMENT_INVALID
     | Ok v => Ok v
     end) in
  let* projection := projection_from_document document generation in
  units_of projection generation.

(** [str(media_type or "").split(";", maxsplit=1)[0].strip().casefold()] *)
Fixpoint before (c : Z) (s : ustr) : ustr := match s with x :: s => if x =? c then [] else x :: before c s | [] => [] end.
Definition ends_with (s suffix : ustr) : bool := starts_with (reverse suffix) (reverse s).
Definition json_media (media : option ustr) : bool :=
  let m := casefold (strip (before 59 (default [] media))) in
  bool_decide (m ∈ JSON_MEDIA_TYPES) || ends_with m (u "+json").
(** The pattern of [ObjectHandle]. *)
Definition handle_shape (h : ustr) : bool :=
  starts_with HANDLE_PREFIX h
  && match drop (length HANDLE_PREFIX) h with [] => false | body => forallb handle_char body end.

Definition projection_artifact (d : tables) (team generation : ustr) : option artifact_row :=
  match t_artifacts d !! generation with
  | Some a => if ueqb (ar_team a) team && ueqb (ar_type a) (u "dual_channel_projection") && ueqb (ar_disposition a) (u "full_valid") then Some a else None
  | None => None
  end.

(** The units of an artifact, from its verified bytes. *)
Definition load_units (d : tables) (store : cas) (team generation : ustr) : result (option units) :=
  match projection_artifact d team generation with
  | None => Ok None
  | Some a =>
      check 0 <=? ar_size a else MkbError "RETRIEVE_BODY_ARTIFACT_INVALID" 503 ;;
      check ar_size a <=? max_artifact_bytes else MkbError "RETRIEVE_BODY_BUDGET" 422 ;;
      check json_media (ar_media a) else MkbError "RETRIEVE_BODY_MEDIA_TYPE" 422 ;;
      let handle := default (u "None") (ar_handle a) in
      check handle_shape handle else MkbError "RETRIEVE_BODY_HANDLE_INVALID" 422 ;;
      let* data := read_verified store team handle in
      check Z.of_nat (length data) =? ar_size a else INTEGRITY ;;
      let* same := compare_digest (sha256_hex data) (ar_digest a) in
      check same else INTEGRITY ;;
      let* parsed := parse_projection data generation in
      Ok (Some parsed)
  end.

(** What is selected of the units of an artifact. *)
Definition select_body (us : units) (unit channel : ustr) : option pyval :=
  pu ← dget us unit; content ← dget (pu_channels pu) channel;
  Some (obj [("content", PStr content); ("granularity", PInt (pu_granularity pu))]%string).

Definition request_safe (team generation unit channel : ustr) : bool :=
  bool_decide (channel ∈ CHANNELS) && safe_identifier unit MAX_UNIT_ID_LENGTH && safe_identifier team 128 && safe_identifier generation 128.

(** [load_retrieval_body], with the cache of the request where there is one. *)
Definition load_retrieval_body (d : tables) (store : cas) (c : option cache) (team generation unit channel : ustr)
    : result (option pyval * option cache) :=
  if negb (request_safe team generation unit channel) then Ok (None, c) else
  match (c ← c; c !! (team, generation)) with
  | Some us => Ok (select_body us unit channel, c)
  | None =>
      let* found := load_units d store team generation in
      Ok (match found with
          | None => (None, c)
          | Some us => (select_body us unit channel, insert (team, generation) us <$> c)
          end)
  end.
End hydration.
