(* ===== verification/Retrieval.v ===== *)
(** * Search requests, spaces and ranking

    Model of [src/services/retrieval/retrieval_request.py] and of the ranking half of
    [retrieval_rank.py], with [src/services/deterministic_embedding.py].  Scores are binary64
    numbers; inference, the body store, an eligibility service and a delegated scorer are the
    ports of the class [Ports]. *)

From S2P Require Import Prelude PyText PyValue Txn PyFloat Uuid PublicData RetrievalTables.
From Stdlib Require Import SpecFloat.

Open Scope Z_scope.
Open Scope mkb_scope.

(** ** Requests *)

Record search_input := {
  si_team : ustr;
  si_query : ustr;
  si_namespace_key : option ustr;
  si_namespace_uuid : option ustr;
  si_return_k : Z;
  si_recall_k : Z;
  si_threshold : float;
  si_filters : list (ustr * ustr);
  si_pack : bool;
  si_schema : ustr;
  si_legacy : bool
}.

(** A mapping as a client sends it, or an object with attributes. *)
Inductive request := R_mapping (d : pydict) | R_object (attributes : pydict).

Record settings := {
  cf_live : bool;
  cf_rerank : bool;
  cf_max_topk : Z;
  cf_threshold : float;
  cf_pack_hits : Z;
  cf_pack_chars : Z;
  cf_inflation_roots : Z;
  cf_inflation_chars : Z;
  cf_scan_limit : Z
}.

Definition FILTER_KEYS : list ustr :=
  map u ["intake_item_uuid"; "source_kind"; "realm"; "type"; "semantic_channel"; "vector_channel"; "source_name"; "is_active"; "context_tags"]%string.
Definition LEGACY_FILTER_KEYS : list ustr := map u ["intake_item_uuid"; "source_kind"; "channel"]%string.
Definition SOURCE_KINDS : list ustr := map u ["inline_payload"; "local_object"; "http_resource"; "registered_api"]%string.
Definition DISTANCE_METRICS : list ustr := map u ["cosine"; "l2"; "inner_product"]%string.
Definition REQUEST_KEYS : list ustr :=
  map u ["schema_version"; "team_uuid"; "query"; "namespace_key"; "namespace_uuid"; "return_k"; "recall_k"; "score_threshold"; "threshold";
         "include_pack"; "top_k"; "filters"]%string.
Definition FORBIDDEN_REQUEST_KEYS : list ustr :=
  map u ["index_generation"; "raw_query_vector"; "query_embedding"; "distance_metric"; "embedding_model"; "model_override"; "include_answer"; "stream"]%string.
Definition V1 : ustr := u "mkb.retrieval.v1".
Definition V2 : ustr := u "mkb.retrieval.v2".
Definition CHANNELS : list ustr := map u ["original"; "summary"]%string.

Definition SCHEMA (code : string) : exn := MkbError code 422.

Section requests.
Context {H : Host}.

Definition request_value (r : request) (k : string) : pyval :=
  match r with R_mapping d | R_object d => default PNone (dget d (u k)) end.

(** [v in {texts}]: a set looks up the hash first. *)
Definition in_texts (v : pyval) (l : list ustr) : result bool :=
  match v with
  | PList _ | PDict _ => Err TypeError
  | PStr s => Ok (bool_decide (s ∈ l))
  | _ => Ok false
  end.
(** [v in {0, 1}] *)
Definition in_bits (v : pyval) : result bool :=
  match v with
  | PList _ | PDict _ => Err TypeError
  | _ => Ok (py_eqb v (PInt 0) || py_eqb v (PInt 1))
  end.

(** [_as_positive_int] *)
Definition as_positive_int (v : pyval) : result Z :=
  match v with
  | PInt z => check 1 <=? z else SCHEMA "RETRIEVE_TOPK_INVALID" ;; Ok z
  | _ => Err (SCHEMA "RETRIEVE_TOPK_INVALID")
  end.
(** [_as_finite_float] *)
Definition as_finite_float (v : pyval) : result float :=
  match v with
  | PInt z => float_of_int z
  | PFloat f => check is_finite f else SCHEMA "RETRIEVE_SCHEMA_THRESHOLD_INVALID" ;; Ok f
  | _ => Err (SCHEMA "RETRIEVE_SCHEMA_THRESHOLD_INVALID")
  end.

(** One entry of the loop of [_normalise_filters]: [None] skips it. *)
Definition normalise_filter (k : ustr) (v : pyval) : result (option (ustr * ustr)) :=
  let invalid := SCHEMA "RETRIEVE_FILTER_INVALID" in
  if is_none v then Ok None else
  let* v := (if ueqb k (u "is_active") && negb (is_bool v) then let* b := in_bits v in Ok (if b : bool then PStr (py_str v) else v) else Ok v) in
  match v with
  | PStr ((_ :: _) as s) =>
      let* s := (if ueqb k (u "intake_item_uuid") then
                   match validate_external_uuid s with Ok c => Ok c | Err _ => Err invalid end
                 else Ok s) in
      check implb (ueqb k (u "source_kind")) (bool_decide (s ∈ SOURCE_KINDS)) else invalid ;;
      check implb (ueqb k (u "channel") || ueqb k (u "vector_channel")) (bool_decide (s ∈ CHANNELS)) else invalid ;;
      Ok (Some (if ueqb k (u "channel") then u "vector_channel" else k, s))
  | _ => Err invalid
  end.

(** [_normalise_filters] *)
Definition normalise_filters (raw : pyval) (schema : ustr) : result (list (ustr * ustr) * bool) :=
  let invalid := SCHEMA "RETRIEVE_FILTER_INVALID" in
  match raw with
  | PNone => Ok ([], false)
  | PDict d =>
      let allowed := if ueqb schema V1 then LEGACY_FILTER_KEYS else FILTER_KEYS in
      check forallb (fun kv => bool_decide (kv.1 ∈ allowed)) d else invalid ;;
      let* r := foldM (fun acc kv =>
          let* f := normalise_filter kv.1 kv.2 in
          Ok (match f with
              | Some (k, s) => (dset acc.1 k s, acc.2 || ueqb kv.1 (u "channel"))
              | None => acc
              end)) ([], false) d in
      check safe_public_data (PDict (map (fun kv => (kv.1, PStr kv.2)) r.1)) else invalid ;;
      Ok r
  | _ => Err invalid
  end.

Definition given (v : pyval) : bool := negb (is_none v).
Definition MAX_QUERY : Z := 8192.
Definition optional_float (v : pyval) (otherwise : float) : result float :=
  if given v then as_finite_float v else Ok otherwise.
Definition optional_positive (v : pyval) (otherwise : Z) : result Z :=
  if given v then as_positive_int v else Ok otherwise.

(** The keys and the version of a mapping. *)
Definition request_shape (r : request) : result unit :=
  match r with
  | R_object _ => Ok tt
  | R_mapping d =>
      check forallb (fun kv => negb (bool_decide (kv.1 ∈ FORBIDDEN_REQUEST_KEYS))) d else SCHEMA "RETRIEVE_SCHEMA_FORBIDDEN_FIELD" ;;
      check forallb (fun kv => bool_decide (kv.1 ∈ REQUEST_KEYS)) d else SCHEMA "RETRIEVE_SCHEMA_UNKNOWN_FIELD" ;;
      let v := request_value r "schema_version" in
      if given v then let* ok := in_texts v [V1; V2] in ensure ok (SCHEMA "RETRIEVE_SCHEMA_INVALID") else Ok tt
  end.

Definition request_team (r : request) : result ustr :=
  let required := SCHEMA "RETRIEVE_SCHEMA_TEAM_REQUIRED" in
  match request_value r "team_uuid" with
  | PStr s => check negb (blank s) else required ;; match validate_external_uuid s with Ok c => Ok c | Err _ => Err required end
  | _ => Err required
  end.

Definition request_query (r : request) : result ustr :=
  match request_value r "query" with
  | PStr q => check Z.of_nat (length q) <=? MAX_QUERY else SCHEMA "RETRIEVE_SCHEMA_INVALID" ;; Ok q
  | _ => Err (SCHEMA "RETRIEVE_SCHEMA_QUERY_INVALID")
  end.

Definition request_bounds (cf : settings) (r : request) : result (Z * Z) :=
  let invalid := SCHEMA "RETRIEVE_TOPK_INVALID" in
  let return_k := request_value r "return_k" in
  let top_k := request_value r "top_k" in
  check negb (given return_k && given top_k) else invalid ;;
  let* return_k := optional_positive (if given return_k then return_k else top_k) 10 in
  let* recall_k := optional_positive (request_value r "recall_k") 20 in
  check (return_k <=? cf_max_topk cf) && (recall_k <=? cf_max_topk cf) && (return_k <=? recall_k) else invalid ;;
  Ok (return_k, recall_k).

Definition request_threshold (cf : settings) (r : request) : result float :=
  let t := request_value r "score_threshold" in
  optional_float (if given t then t else request_value r "threshold") (cf_threshold cf).

Definition request_schema (r : request) : result ustr :=
  let v := request_value r "schema_version" in
  let v := if truthy v then v else PStr V1 in
  let* ok := in_texts v [V1; V2] in
  check ok else SCHEMA "RETRIEVE_SCHEMA_INVALID" ;;
  match v with PStr s => Ok s | _ => Err (SCHEMA "RETRIEVE_SCHEMA_INVALID") end.

Definition request_namespace (r : request) : result (option ustr * option ustr) :=
  let invalid := SCHEMA "RETRIEVE_SCHEMA_NAMESPACE_INVALID" in
  let key := request_value r "namespace_key" in
  let id := request_value r "namespace_uuid" in
  check given key || given id else SCHEMA "RETRIEVE_SCHEMA_NAMESPACE_REQUIRED" ;;
  let* key :=
    (match key with
     | PNone => Ok None
     | PStr s => check negb (blank s) else invalid ;; check (length s <=? 256)%nat else invalid ;; Ok (Some s)
     | _ => Err invalid
     end) in
  let* id :=
    (match id with
     | PNone => Ok None
     | PStr s => check negb (blank s) else invalid ;; match validate_external_uuid s with Ok c => Ok (Some c) | Err _ => Err invalid end
     | _ => Err invalid
     end) in
  check negb (bool_decide (is_Some key) && bool_decide (is_Some id)) else invalid ;;
  Ok (key, id).

Definition request_pack (r : request) : result bool :=
  match request_value r "include_pack" with
  | PNone => Ok true
  | PBool b => Ok b
  | _ => Err (SCHEMA "RETRIEVE_SCHEMA_PACK_INVALID")
  end.

(** [_normalise_request] *)
Definition normalise_request (cf : settings) (r : request) : result search_input :=
  let* _ := request_shape r in
  let* team := request_team r in
  let* query := request_query r in
  let* k := request_bounds cf r in
  let* threshold := request_threshold cf r in
  let* schema := request_schema r in
  let* filters := normalise_filters (request_value r "filters") schema in
  let* namespace := request_namespace r in
  let* pack := request_pack r in
  Ok (Build_search_input team (strip query) namespace.1 namespace.2 k.1 k.2 threshold filters.1 pack schema filters.2).

(** The guards of the constructor. *)
Definition settings_ok (cf : settings) : bool :=
  (1 <=? cf_max_topk cf) && (1 <=? cf_pack_hits cf) && (1 <=? cf_pack_chars cf) && (0 <=? cf_inflation_roots cf)
  && (1 <=? cf_inflation_chars cf) && (cf_max_topk cf <=? cf_scan_limit cf) && is_finite (cf_threshold cf).
End requests.

(** ** Ports *)

Record embed_response := {
  em_key : ustr;
  em_version : ustr;
  em_adapter : option ustr;
  em_dimension : Z;
  em_vectors : list (list float)
}.
(** The inference facade, as far as search calls it. *)
Record inference := {
  in_embed : ustr -> binding_row -> ustr -> Z -> result embed_response;
  in_rerank : ustr -> list ustr -> result (list pyval)
}.
Class Ports := {
  inference_port : option inference;
  (** team, artifact, unit and channel to a body *)
  body_port : option (ustr -> ustr -> ustr -> ustr -> result (option pyval));
  eligibility_port : option (ustr -> list coordinate -> tables -> result (list ustr));
  scorer_port : option (ustr -> namespace_row -> list hit_row -> result pyval)
}.

(** ** The space of a search *)

(** [_resolve_namespace] *)
Definition resolve_namespace (d : tables) (q : search_input) : result (ustr * namespace_row) :=
  let active (n : namespace_row) := ueqb (nr_team n) (si_team q) && ueqb (nr_status n) (u "active") && negb (nr_deleted n) in
  let found :=
    match si_namespace_uuid q with
    | Some id => head (rows_where (fun k n => ueqb k id && active n) (t_namespaces d))
    | None => head (rows_where (fun _ n => bool_decide (si_namespace_key q = Some (nr_key n)) && active n) (t_namespaces d))
    end in
  match found with
  | None => Err (MkbError "RETRIEVE_SPACE_NAMESPACE_UNKNOWN" 404)
  | Some (id, n) =>
      let l := nr_layer n in
      check 1 <=? la_dimension l else MkbError "RETRIEVE_SPACE_INVALID" 503 ;;
      check forallb (fun s : ustr => negb (ueqb s [])) [la_model l; la_key l; la_version l; la_adapter l] else MkbError "RETRIEVE_SPACE_INVALID" 503 ;;
      check bool_decide (nr_metric n ∈ DISTANCE_METRICS) else MkbError "RETRIEVE_SPACE_METRIC_INVALID" 503 ;;
      Ok (id, n)
  end.

(** [ORDER BY CASE WHEN team_uuid=? THEN 0 ELSE 1 END, priority] *)
Definition binding_le (team : ustr) (a b : binding_row) : bool :=
  let own x := bool_decide (br_team x = Some team) in
  own a && negb (own b) || eqb (own a) (own b) && (br_priority a <=? br_priority b).
(** The literals of [InferenceBinding]. *)
Definition INFERENCE_ADAPTERS : list ustr := map u ["local_vllm"; "remote_gemini"; "deterministic"]%string.
Definition binding_valid (b : binding_row) : bool :=
  bool_decide (br_adapter b ∈ INFERENCE_ADAPTERS) && (1 <=? length (br_key b))%nat && (length (br_key b) <=? 256)%nat
  && (1 <=? length (br_version b))%nat && (length (br_version b) <=? 256)%nat.

(** [_resolve_embed_binding] *)
Definition resolve_embed_binding (cf : settings) (d : tables) (team : ustr) (n : namespace_row) : result (option binding_row) :=
  if negb (cf_live cf) then Ok None else
  let l := nr_layer n in
  match py_sorted (binding_le team)
          (List.filter (fun b => ueqb (br_capability b) (u "embed") && br_enabled b && ueqb (br_adapter b) (la_adapter l) && ueqb (br_key b) (la_key l)
              && ueqb (br_version b) (la_version l) && (bool_decide (br_team b = Some team) || bool_decide (br_team b = None))) (t_bindings d)) with
  | [] => Err (MkbError "RETRIEVE_INFERENCE_BINDING_MISSING" 503)
  | b :: _ => check binding_valid b else MkbError "RETRIEVE_SPACE_BINDING_INVALID" 503 ;; Ok (Some b)
  end.

(** [_embed_query] *)
Definition embed_query {P : Ports} (q : search_input) (n : namespace_row) (binding : option binding_row) : result (list float) :=
  match inference_port, binding with
  | Some inf, Some b =>
      match in_embed inf (si_team q) b (si_query q) (la_dimension (nr_layer n)) with
      | Err _ => Err (MkbError "RETRIEVE_INFERENCE_EMBED_FAILED" 503)
      | Ok r =>
          let l := nr_layer n in
          check ueqb (em_key r) (la_key l) && ueqb (em_version r) (la_version l)
                && match em_adapter r with Some a => ueqb a (la_adapter l) | None => true end && (em_dimension r =? la_dimension l)
            else MkbError "RETRIEVE_SPACE_LAYER_A_MISMATCH" 422 ;;
          match em_vectors r with
          | [v] =>
              check Z.of_nat (length v) =? la_dimension l else MkbError "RETRIEVE_SPACE_LAYER_A_MISMATCH" 422 ;;
              check forallb is_finite v else MkbError "RETRIEVE_INFERENCE_EMBED_FAILED" 503 ;;
              Ok v
          | _ => Err (MkbError "RETRIEVE_SPACE_LAYER_A_MISMATCH" 422)
          end
      end
  | _, _ => Err (MkbError "RETRIEVE_INFERENCE_EMBED_UNAVAILABLE" 503)
  end.

(** ** Vectors *)

Section vectors.
Context {H : Host} {FT : FloatText}.

(** [_TOKEN.findall]: maximal runs of word characters. *)
Definition word_char (c : Z) : bool := isalnum c || (c =? 95) || (19968 <=? c) && (c <=? 40959).
Fixpoint tokens (s : ustr) : list ustr :=
  match s with
  | [] => []
  | c :: s =>
      let rest := tokens s in
      if word_char c then
        match s, rest with
        | c' :: _, w :: ws => if word_char c' then (c :: w) :: ws else [c] :: rest
        | _, _ => [c] :: rest
        end
      else rest
  end.

(** The first eight bytes of a digest as two big endian numbers, from its hexadecimal text. *)
Definition hex_number (s : ustr) : Z := foldl (fun acc c => acc * 16 + default 0 (hex_value c)) 0 s.
Definition add_at (v : list float) (i : Z) (x : float) : list float := alter (fun f => fadd f x) (Z.to_nat i) v.
Definition quarter : float := of_dyadic 1 (-2).
Definition add_token (dimension : Z) (v : list float) (token : ustr) : result (list float) :=
  let* b := utf8_encode token in
  let digest := sha256_hex b in
  let first := hex_number (take 8 digest) mod dimension in
  let second := hex_number (take 8 (drop 8 digest)) mod dimension in
  Ok (add_at (add_at v first fone) second (fneg quarter)).

(** [deterministic_embedding]: the squares are multiples of 1/16, so that their sum is exact in
    any order. *)
Definition deterministic_embedding (value : ustr) (dimension : Z) : result (list float) :=
  check 1 <=? dimension else ValueError ;;
  let* v := foldM (add_token dimension) (replicate (Z.to_nat dimension) fzero) (tokens (casefold value)) in
  let* norm := math_sqrt (foldl (fun acc c => fadd acc (fmul c c)) fzero v) in
  if feq norm fzero then Ok (<[0%nat := fone]> v) else mapM (fun c => fdiv c norm) v.

(** [_decode_embedding] *)
Definition decode_embedding (e : embedding_value) (dimension : Z) : result (list float) :=
  check 1 <=? dimension else ValueError ;;
  let* decoded :=
    (match e with
     | EV_blob b =>
         check Z.of_nat (length b) =? dimension * 4 else ValueError ;;
         match unpack_f32 b with Some v => Ok v | None => Err ValueError end
     | EV_text (Some (PList l)) =>
         check Z.of_nat (length l) =? dimension else ValueError ;; mapM py_float l
     | EV_text _ => Err ValueError
     end) in
  check forallb is_finite decoded else ValueError ;;
  Ok decoded.

(** [_cosine] *)
Definition cosine (left right : list float) : result float :=
  check (length left =? length right)%nat else ValueError ;;
  let* dot := fsum (zip_with fmul left right) in
  let* ls := fsum (map (fun v => fmul v v) left) in
  let* left_norm := math_sqrt ls in
  let* rs := fsum (map (fun v => fmul v v) right) in
  let* right_norm := math_sqrt rs in
  check is_finite dot && is_finite left_norm && is_finite right_norm else ValueError ;;
  if feq left_norm fzero || feq right_norm fzero then Ok fzero else
  let* score := fdiv dot (fmul left_norm right_norm) in
  check is_finite score else ValueError ;;
  Ok score.

(** [_embedding_score] *)
Definition embedding_score (metric : ustr) (left right : list float) : result float :=
  if ueqb metric (u "cosine") then cosine left right else
  check (length left =? length right)%nat else ValueError ;;
  let* score :=
    (if ueqb metric (u "inner_product") then fsum (zip_with fmul left right)
     else if ueqb metric (u "l2") then
       let* d := fsum (zip_with (fun a b => fmul (fsub a b) (fsub a b)) left right) in
       check negb (flt d fzero) && is_finite d else ValueError ;;
       let* root := math_sqrt d in
       fdiv fone (fadd fone root)
     else Err ValueError) in
  check is_finite score else ValueError ;;
  Ok score.

(** ** Ranking *)

Record candidate := { cd_row : hit_row; cd_score : float; cd_granularity : Z }.
Definition cd_uuid (c : candidate) : ustr := hr_record (cd_row c).

(** What [except (OverflowError, TypeError, ValueError, struct.error)] takes. *)
Definition vector_error (e : exn) : bool :=
  bool_decide (e ∈ [OverflowError; TypeError; ValueError; UnicodeEncodeError; UnicodeDecodeError]).

Variable infer_granularity : ustr -> Z.

Definition candidate_of (row : hit_row) (score : float) : candidate := Build_candidate row score (infer_granularity (hr_unit row)).

(** The loop over the rows with a query embedding: candidates and the number of malformed
    vectors. *)
Fixpoint score_rows (metric : ustr) (query : list float) (rows : list hit_row) : result (list candidate * Z) :=
  match rows with
  | [] => Ok ([], 0)
  | row :: rows =>
      match (let* v := decode_embedding (hr_embedding row) (hr_dimension row) in embedding_score metric query v) with
      | Ok score => let* r := score_rows metric query rows in Ok (candidate_of row score :: r.1, r.2)
      | Err e => if vector_error e then let* r := score_rows metric query rows in Ok (r.1, r.2 + 1) else Err e
      end
  end.
(** The loop with the scores of a delegated scorer. *)
Fixpoint delegated_rows (scores : pydict) (rows : list hit_row) : result (list candidate) :=
  match rows with
  | [] => Ok []
  | row :: rows =>
      match dget scores (hr_record row) with
      | None => delegated_rows scores rows
      | Some raw =>
          let* score := as_finite_float raw in
          let* cs := delegated_rows scores rows in
          Ok (candidate_of row score :: cs)
      end
  end.

Definition candidate_le (a b : candidate) : bool := rank_le (cd_score a, cd_uuid a) (cd_score b, cd_uuid b).
Definition top_candidates (q : search_input) (cs : list candidate) : list candidate :=
  take (Z.to_nat (si_recall_k q)) (py_sorted candidate_le cs).

Definition LIVE_ADAPTERS : list ustr := map u ["local_vllm"; "remote_gemini"]%string.

(** [_rank_ann_candidates].  Without a query embedding and without a scorer the offline
    embedding is computed, so that the token similarity of its last branch never runs. *)
Definition rank_ann_candidates {P : Ports} (cf : settings) (q : search_input) (n : namespace_row) (rows : list hit_row)
    (embedding : option (list float)) : result (list candidate) :=
  let* embedding :=
    (match embedding, scorer_port with
     | None, None =>
         check cf_live cf || negb (bool_decide (la_adapter (nr_layer n) ∈ LIVE_ADAPTERS)) else MkbError "RETRIEVE_SPACE_LAYER_A_MISMATCH" 409 ;;
         match deterministic_embedding (si_query q) (la_dimension (nr_layer n)) with
         | Ok v => Ok (Some v)
         | Err e => Err (if bool_decide (e ∈ [TypeError; ValueError; UnicodeEncodeError; UnicodeDecodeError])
                         then MkbError "RETRIEVE_SPACE_LAYER_A_MISMATCH" 503 else e)
         end
     | e, _ => Ok e
     end) in
  match embedding, scorer_port with
  | Some v, _ =>
      let* r := score_rows (nr_metric n) v rows in
      check negb ((1 <=? Z.of_nat (length rows)) && (length r.1 =? 0)%nat && negb (r.2 =? 0)) else MkbError "RETRIEVE_DEPENDENCY_VECTOR_INVALID" 503 ;;
      Ok (top_candidates q r.1)
  | None, Some scorer =>
      match scorer (si_query q) n rows with
      | Ok (PDict scores) => let* cs := delegated_rows scores rows in Ok (top_candidates q cs)
      | _ => Err (MkbError "RETRIEVE_DEPENDENCY_VECTOR" 503)
      end
  | None, None => Ok []
  end.

(** ** Fences after the scan *)

Definition coordinate_of (c : candidate) : coordinate :=
  Build_coordinate (cd_uuid c) (hr_item (cd_row c)) (match hr_revision (cd_row c) with Some r => r | None => u "None" end).

(** [_revalidate_publication_fence] *)
Definition revalidate (d : tables) (q : search_input) (namespace : ustr) (cs : list candidate) : list candidate :=
  let approved := fence_approves d (si_team q) namespace (map coordinate_of cs) in
  List.filter (fun c => bool_decide (cd_uuid c ∈ approved)) cs.

(** [_apply_batch_eligibility], with the tables as the eligibility check sees them and as the
    second fence sees them. *)
Definition apply_batch_eligibility {P : Ports} (eligible fence : tables) (q : search_input) (namespace : ustr) (cs : list candidate)
    : result (list candidate) :=
  let payload := map coordinate_of cs in
  let* approved :=
    (match eligibility_port with
     | Some port =>
         match port (si_team q) payload eligible with
         | Ok ids => Ok ids
         | Err (MkbError code status) => Err (MkbError code status)
         | Err _ => Err (MkbError "RETRIEVE_DEPENDENCY_ELIGIBILITY" 503)
         end
     | None => Ok (sql_batch_eligibility eligible (si_team q) payload)
     end) in
  Ok (revalidate fence q namespace (List.filter (fun c => bool_decide (cd_uuid c ∈ approved)) cs)).
End vectors.
