(* ===== verification/RetrievalPack.v ===== *)
(** * Results, context packs and the search itself

    Model of [src/services/retrieval/retrieval_pack.py], of [search] of [retrieval_request.py], and
    of the result contracts of [src/contracts/vector/models.py] as far as search builds them.
    A search reads six snapshots of the tables, one per transaction; other actors may write
    between them. *)

From S2P Require Import Prelude PyText PyValue Txn PyFloat Uuid PublicData RetrievalTables Retrieval.

Open Scope Z_scope.
Open Scope mkb_scope.

(** ** Granularity and text *)

Definition is_sep (c : Z) : bool := bool_decide (c ∈ [46; 95; 58; 47; 45]).
Definition is_joiner (c : Z) : bool := bool_decide (c ∈ [61; 95; 58; 45]).
(** A separator, or [$]. *)
Definition ends_here (s : ustr) : bool :=
  match s with [] => true | [c] => (c =? 10) || is_sep c | c :: _ => is_sep c end.
Definition drop_joiner (s : ustr) : ustr := match s with c :: r => if is_joiner c then r else s | [] => [] end.
Definition level_here (s : ustr) : option Z :=
  match s with
  | c :: r => if (48 <=? c) && (c <=? 50) && ends_here r then Some (c - 48) else None
  | [] => None
  end.
(** The first pattern behind its separator: [g(?:ranularity)?[=_:-]?([012])(?:$|[._:/-])]. *)
Definition g_level (s : ustr) : option Z :=
  if folded_prefix (u "g") s then
    let s := drop 1 s in
    level_here (drop_joiner (if folded_prefix (u "ranularity") s then drop 10 s else s))
  else None.
Fixpoint search_level (may_start : bool) (s : ustr) : option Z :=
  match (if may_start then g_level s else None) with
  | Some g => Some g
  | None => match s with [] => None | c :: s => search_level (is_sep c) s end
  end.
(** The second pattern, at the start. *)
Definition start_level (s : ustr) : option Z :=
  let prefix := u "granularity" in
  if folded_prefix prefix s then level_here (drop_joiner (drop (length prefix) s)) else level_here s.

Record coordinate_of_unit := { gc_artifact : ustr; gc_unit : ustr; gc_granularity : Z; gc_channel : ustr }.

Record generation_refs := {
  gr_item : ustr;
  gr_revision : ustr;
  gr_artifact : ustr;
  gr_artifact_type : ustr;
  gr_namespace : ustr;
  gr_proof : ustr
}.

Inductive traceback := T_not_needed | T_resolved | T_failed | T_degraded.
#[export] Instance traceback_eq : EqDecision traceback.
Proof. solve_decision. Defined.
Inductive inflation := I_not_requested | I_attached | I_missing | I_truncated | I_skipped.
#[export] Instance inflation_eq : EqDecision inflation.
Proof. solve_decision. Defined.
Inductive rerank_status := RS_applied | RS_failed | RS_skipped | RS_not_requested.
#[export] Instance rerank_status_eq : EqDecision rerank_status.
Proof. solve_decision. Defined.
Inductive tier := Focus_fragment | Document_root.

Record material := { mt_content : option ustr; mt_ref : option ustr; mt_granularity : option Z; mt_hydrated : bool }.
Definition available (m : material) : bool := bool_decide (is_Some (mt_content m)) || bool_decide (is_Some (mt_ref m)).

(** What inflation attaches to a result. *)
Record root_context := { rc_content : option ustr; rc_ref : option ustr; rc_coordinate : option coordinate_of_unit; rc_status : inflation }.
Definition no_root (s : inflation) : root_context := Build_root_context None None None s.

Record search_result := {
  rs_score : float;
  rs_ann : float;
  rs_rerank : option float;
  rs_hit_channel : ustr;
  rs_hit_content : option ustr;
  rs_hit_ref : option ustr;
  rs_content : option ustr;
  rs_ref : option ustr;
  rs_coordinate : coordinate_of_unit;
  rs_granularity : Z;
  rs_refs : generation_refs;
  rs_traceback : traceback;
  rs_tier : tier;
  rs_filters : list (ustr * ustr);
  rs_root : root_context
}.
Definition set_root (c : root_context) (r : search_result) : search_result :=
  Build_search_result (rs_score r) (rs_ann r) (rs_rerank r) (rs_hit_channel r) (rs_hit_content r) (rs_hit_ref r) (rs_content r) (rs_ref r)
    (rs_coordinate r) (rs_granularity r) (rs_refs r) (rs_traceback r) (rs_tier r) (rs_filters r) c.
Definition set_score (s : float) (r : search_result) : search_result :=
  Build_search_result s (rs_ann r) (Some s) (rs_hit_channel r) (rs_hit_content r) (rs_hit_ref r) (rs_content r) (rs_ref r)
    (rs_coordinate r) (rs_granularity r) (rs_refs r) (rs_traceback r) (rs_tier r) (rs_filters r) (rs_root r).

Record work := { wk_result : search_result; wk_candidate : candidate }.
Definition wk_uuid (w : work) : ustr := cd_uuid (wk_candidate w).
Definition on_result (f : search_result -> search_result) (w : work) : work := Build_work (f (wk_result w)) (wk_candidate w).

Section material.
Context {H : Host}.

(** [_infer_granularity] *)
Definition infer_granularity (unit : ustr) : Z :=
  match search_level true unit with
  | Some g => g
  | None =>
      match start_level unit with
      | Some g => g
      | None =>
          let lowered := casefold unit in
          if existsb (fun w => str_in w lowered) (map u ["root"; "document"; "full"]%string) then 0
          else if existsb (fun w => str_in w lowered) (map u ["leaf"; "sentence"; "paragraph"; "fragment"]%string) then 2
          else 1
      end
  end.

(** [_safe_ref] *)
Definition safe_ref (v : option ustr) : option ustr :=
  match v with Some ((_ :: _) as s) => if safe_text s then Some s else None | _ => None end.

(** [_redact_paths]: [[redacted-path]] for every match of [_ABSOLUTE_PATH_IN_TEXT]. *)
Definition REDACTED : ustr := u "[redacted-path]".
Definition next_path_char (s : ustr) : bool := match s with c :: _ => path_char c | [] => false end.
Definition may_begin (prev : option Z) : bool :=
  match prev with Some c => negb ((c =? 58) || (c =? 47) || isalnum c || (c =? 95)) | None => true end.
Fixpoint redact_go (in_path : bool) (prev : option Z) (s : ustr) : ustr :=
  match s with
  | [] => []
  | c :: s =>
      if in_path && (path_char c || (c =? 47) && next_path_char s) then redact_go true (Some c) s
      else if (c =? 47) && may_begin prev && next_path_char s then REDACTED ++ redact_go true (Some c) s
      else c :: redact_go false (Some c) s
  end.
Definition redact_paths (s : ustr) : ustr := redact_go false None s.

(** [RetrievalBody], from what the body port returned. *)
Definition MAX_BODY : Z := 8388608.
Definition opt_field (d : pydict) (k : string) (most : Z) : result (option ustr) :=
  match default PNone (dget d (u k)) with
  | PNone => Ok None
  | PStr s => check Z.of_nat (length s) <=? most else ValueError ;; Ok (Some s)
  | _ => Err ValueError
  end.
Definition retrieval_body (raw : pyval) : result (option ustr * option ustr * option Z) :=
  match raw with
  | PStr s => check Z.of_nat (length s) <=? MAX_BODY else ValueError ;; Ok (Some s, None, None)
  | PDict d =>
      check forallb (fun kv => bool_decide (kv.1 ∈ map u ["content"; "content_ref"; "granularity"]%string)) d else ValueError ;;
      let* content := opt_field d "content" MAX_BODY in
      let* ref := opt_field d "content_ref" 2048 in
      let* granularity :=
        (match default PNone (dget d (u "granularity")) with
         | PNone => Ok None
         | PInt z => check (0 <=? z) && (z <=? 2) else ValueError ;; Ok (Some z)
         | _ => Err ValueError
         end) in
      check match ref with Some s => safe_text s | None => true end else ValueError ;;
      check bool_decide (is_Some content) || bool_decide (is_Some ref) else ValueError ;;
      Ok (content, ref, granularity)
  | _ => Err ValueError
  end.

(** [_load_material] *)
Definition load_material {P : Ports} (team : ustr) (row : hit_row) (channel : ustr) : result material :=
  let fallback := coalesce (safe_ref (hr_source_handle row)) (safe_ref (hr_handle row)) in
  match body_port with
  | None => Ok (Build_material None fallback None false)
  | Some loader =>
      match loader team (hr_artifact row) (hr_unit row) channel with
      | Err (MkbError code status) => Err (MkbError code status)
      | Err _ => Err (MkbError "RETRIEVE_DEPENDENCY_BODY" 503)
      | Ok None => Ok (Build_material None fallback None false)
      | Ok (Some raw) =>
          match retrieval_body raw with
          | Err _ => Err (MkbError "RETRIEVE_BODY_DOCUMENT_INVALID" 503)
          | Ok (content, ref, granularity) =>
              Ok (Build_material (redact_paths <$> content) (coalesce (safe_ref ref) fallback) granularity true)
          end
      end
  end.

(** ** Result contracts *)

Definition opt_text (o : option ustr) : pyval := match o with Some s => PStr s | None => PNone end.
Definition dump_coordinate (c : coordinate_of_unit) : pyval :=
  obj [("generation_artifact_uuid", PStr (gc_artifact c)); ("unit_id", PStr (gc_unit c)); ("granularity", PInt (gc_granularity c));
       ("channel", PStr (gc_channel c))]%string.
Definition dump_refs (r : generation_refs) : pyval :=
  obj [("intake_item_uuid", PStr (gr_item r)); ("intake_revision_uuid", PStr (gr_revision r)); ("generation_artifact_uuid", PStr (gr_artifact r));
       ("generation_artifact_type", PStr (gr_artifact_type r)); ("namespace_uuid", PStr (gr_namespace r)); ("publication_proof_uuid", PStr (gr_proof r))]%string.

(** [GenerationScopedCoordinate] *)
Definition make_coordinate (artifact unit : ustr) (granularity : Z) (channel : ustr) : result coordinate_of_unit :=
  check (1 <=? length unit)%nat && (length unit <=? 512)%nat && (0 <=? granularity) && (granularity <=? 2) && bool_decide (channel ∈ CHANNELS)
        && safe_text artifact && safe_text unit else ValueError ;;
  Ok (Build_coordinate_of_unit artifact unit granularity channel).
(** [RetrievalGenerationRefs] *)
Definition make_refs (r : generation_refs) : result generation_refs :=
  check forallb safe_text [gr_item r; gr_revision r; gr_artifact r; gr_artifact_type r; gr_namespace r; gr_proof r] else ValueError ;; Ok r.
(** [RetrievalResult] before any inflation. *)
Definition make_result (r : search_result) : result search_result :=
  check bool_decide (rs_hit_channel r ∈ CHANNELS) && (0 <=? rs_granularity r) && (rs_granularity r <=? 2) else ValueError ;;
  check safe_public_data
          (obj [("hit_content", opt_text (rs_hit_content r)); ("hit_content_ref", opt_text (rs_hit_ref r)); ("payload_content", opt_text (rs_content r));
                ("payload_content_ref", opt_text (rs_ref r)); ("inflation_root_content", PNone); ("inflation_root_content_ref", PNone);
                ("inflation_root_coordinate", PNone); ("coordinate", dump_coordinate (rs_coordinate r)); ("generation_refs", dump_refs (rs_refs r));
                ("filters_echo", PDict (map (fun kv => (kv.1, PStr kv.2)) (rs_filters r)))]%string) else ValueError ;;
  Ok r.

(** ** From candidates to results *)

(** [_load_traceback_originals]: the coordinates whose original is a served record. *)
Definition traceback_originals (cf : settings) (d : tables) (q : search_input) (namespace : ustr) (cs : list candidate) : result (list (ustr * ustr)) :=
  match map (fun c => (hr_artifact (cd_row c), hr_unit (cd_row c))) (List.filter (fun c => ueqb (hr_channel (cd_row c)) (u "summary")) cs) with
  | [] => Ok []
  | pairs =>
      let* rows := fetch_candidate_rows (cf_scan_limit cf) d (si_team q) namespace (si_filters q) (Build_narrowing pairs [] (Some (u "original"))) in
      Ok (map (fun r => (hr_artifact r, hr_unit r)) rows)
  end.

(** [_to_result_work] *)
Definition to_result_work {P : Ports} (q : search_input) (originals : list (ustr * ustr)) (c : candidate) : result work :=
  let row := cd_row c in
  let* hit := load_material (si_team q) row (hr_channel row) in
  let level m otherwise := default otherwise (mt_granularity m) in
  let granularity := level hit (cd_granularity c) in
  let* found :=
    (if ueqb (hr_channel row) (u "original") then Ok (hit, granularity, T_not_needed)
     else
       let* original := load_material (si_team q) row (u "original") in
       Ok (if mt_hydrated original && available original then (original, level original granularity, T_resolved)
           else if bool_decide ((hr_artifact row, hr_unit row) ∈ originals) then (hit, granularity, T_degraded)
           else (hit, granularity, T_failed))) in
  let '(payload, granularity, status) := found in
  let* coordinate := make_coordinate (hr_artifact row) (hr_unit row) granularity (hr_channel row) in
  let* refs := make_refs (Build_generation_refs (hr_item row) (match hr_revision row with Some r => r | None => u "None" end) (hr_artifact row)
                            (hr_artifact_type row) (hr_namespace row) (hr_proof row)) in
  let* result := make_result
    (Build_search_result (cd_score c) (cd_score c) None (hr_channel row) (mt_content hit) (mt_ref hit) (mt_content payload) (mt_ref payload)
       coordinate granularity refs status (if granularity =? 0 then Document_root else Focus_fragment) (si_filters q) (no_root I_not_requested)) in
  Ok (Build_work result c).

(** ** Inflation *)

Definition is_root_result (w : work) : bool := rs_granularity (wk_result w) =? 0.
Definition wk_artifact (w : work) : ustr := hr_artifact (cd_row (wk_candidate w)).

(** The first row of an artifact whose unit is a document root. *)
Definition root_of (rows : list hit_row) (artifact : ustr) : option hit_row :=
  List.find (fun r => ueqb (hr_artifact r) artifact && (infer_granularity (hr_unit r) =? 0)) rows.

Definition attach {P : Ports} (cf : settings) (team artifact : ustr) (root : hit_row) (attached : list ustr) : result (list ustr * root_context) :=
  let* m := load_material team root (u "original") in
  if negb (available m) then Ok (attached, no_root I_missing)
  else if negb (default (infer_granularity (hr_unit root)) (mt_granularity m) =? 0) then Ok (attached, no_root I_missing)
  else
    let* coordinate := make_coordinate artifact (hr_unit root) 0 (u "original") in
    let long := match mt_content m with Some s => cf_inflation_chars cf <? Z.of_nat (length s) | None => false end in
    Ok (attached ++ [artifact],
        Build_root_context (if long then take (Z.to_nat (cf_inflation_chars cf)) <$> mt_content m else mt_content m) (mt_ref m) (Some coordinate)
          (if long then I_truncated else I_attached)).

(** The loop over the results; [attached] is [attached_generations]. *)
Fixpoint inflate {P : Ports} (cf : settings) (team : ustr) (rows : list hit_row) (attached : list ustr) (ws : list work) : result (list work) :=
  match ws with
  | [] => Ok []
  | w :: ws =>
      if is_root_result w then let* rest := inflate cf team rows attached ws in Ok (w :: rest) else
      let artifact := wk_artifact w in
      let* r :=
        (match root_of rows artifact with
         | None => Ok (attached, no_root I_missing)
         | Some root =>
             if negb (bool_decide (artifact ∈ attached)) && (cf_inflation_roots cf <=? Z.of_nat (size (list_to_set attached : gset ustr)))
             then Ok (attached, no_root I_skipped)
             else attach cf team artifact root attached
         end) in
      let* rest := inflate cf team rows r.1 ws in
      Ok (on_result (set_root r.2) w :: rest)
  end.

(** [_inflate_documents] *)
Definition inflate_documents {P : Ports} (cf : settings) (d : tables) (q : search_input) (namespace : ustr) (ws : list work) : result (list work) :=
  match map wk_artifact (List.filter (fun w => negb (is_root_result w)) ws) with
  | [] => Ok ws
  | targets =>
      if cf_inflation_roots cf =? 0 then Ok ws else
      match fetch_candidate_rows (cf_scan_limit cf) d (si_team q) namespace (si_filters q) (Build_narrowing [] targets (Some (u "original"))) with
      | Err _ => Ok (map (fun w => if is_root_result w then w else on_result (set_root (no_root I_missing)) w) ws)
      | Ok rows => inflate cf (si_team q) rows [] ws
      end
  end.

(** ** Deduplication and reranking *)

Definition unit_key (w : work) : ustr * ustr :=
  let c := rs_coordinate (wk_result w) in (gc_artifact c, gc_unit c).
Definition resolved_priority (w : work) : Z := if bool_decide (rs_traceback (wk_result w) = T_resolved) then 0 else 1.
(** [_dedup_key(a) < _dedup_key(b)] *)
Definition dedup_lt (a b : work) : bool :=
  let sa := rs_ann (wk_result a) in
  let sb := rs_ann (wk_result b) in
  if feq sa sb then
    (resolved_priority a <? resolved_priority b) || (resolved_priority a =? resolved_priority b) && str_lt (wk_uuid a) (wk_uuid b)
  else flt sb sa.
(** A dict of works: the place of the first, the best of each key. *)
Fixpoint keep_best (w : work) (selected : list work) : list work :=
  match selected with
  | [] => [w]
  | x :: rest => if bool_decide (unit_key x = unit_key w) then (if dedup_lt w x then w else x) :: rest else x :: keep_best w rest
  end.
Definition ann_le (a b : work) : bool := rank_le (rs_ann (wk_result a), wk_uuid a) (rs_ann (wk_result b), wk_uuid b).
(** [_deduplicate] *)
Definition deduplicate (ws : list work) : list work := py_sorted ann_le (foldl (fun acc w => keep_best w acc) [] ws).

Definition score_le (a b : work) : bool := rank_le (rs_score (wk_result a), wk_uuid a) (rs_score (wk_result b), wk_uuid b).
(** [_rerank] *)
Definition rerank {P : Ports} (cf : settings) (query : ustr) (ws : list work) : rerank_status * list work :=
  if negb (cf_rerank cf) then (RS_not_requested, ws)
  else if (length ws <=? 1)%nat then (RS_skipped, ws)
  else
    match inference_port with
    | None => (RS_failed, ws)
    | Some inf =>
        match mapM (fun w => match rs_content (wk_result w) with Some s => Ok s | None => Err TypeError end) ws with
        | Err _ => (RS_skipped, ws)
        | Ok documents =>
            match (let* scores := in_rerank inf query documents in
                   check (length scores =? length ws)%nat else ValueError ;;
                   mapM as_finite_float scores) with
            | Err _ => (RS_failed, ws)
            | Ok scores => (RS_applied, py_sorted score_le (zip_with (fun s w => on_result (set_score s) w) scores ws))
            end
        end
    end.

(** ** The context pack *)

Record pack_segment := { sg_tier : tier; sg_coordinate : coordinate_of_unit; sg_content : option ustr; sg_ref : option ustr }.
Record pack_view := {
  pv_text : option ustr;
  pv_segments : list pack_segment;
  pv_hits : Z;
  pv_chars : Z;
  pv_truncated : bool
}.
Definition dump_segment (s : pack_segment) : pyval :=
  obj [("tier", PStr (match sg_tier s with Focus_fragment => u "focus_fragment" | Document_root => u "document_root" end));
       ("coordinate", dump_coordinate (sg_coordinate s)); ("content", opt_text (sg_content s)); ("content_ref", opt_text (sg_ref s))]%string.
Definition dump_pack (p : pack_view) : pyval :=
  obj [("text", opt_text (pv_text p)); ("segments", PList (map dump_segment (pv_segments p))); ("pack_hit_count", PInt (pv_hits p));
       ("pack_char_count", PInt (pv_chars p)); ("truncated", PBool (pv_truncated p))]%string.

(** [PackSegment] *)
Definition make_segment (s : pack_segment) : result pack_segment :=
  check bool_decide (is_Some (sg_content s)) || bool_decide (is_Some (sg_ref s)) else ValueError ;;
  check safe_public_data (obj [("content", opt_text (sg_content s)); ("content_ref", opt_text (sg_ref s)); ("coordinate", dump_coordinate (sg_coordinate s))]%string)
    else ValueError ;;
  Ok s.

(** [_pack_segment] *)
Definition pack_one (t : tier) (c : coordinate_of_unit) (content ref : option ustr) (room : Z) : result (option pack_segment * Z * bool) :=
  if room <? 0 then Ok (None, 0, true)
  else match content with
       | None =>
           match ref with
           | None => Ok (None, 0, false)
           | Some _ => let* s := make_segment (Build_pack_segment t c None ref) in Ok (Some s, 0, false)
           end
       | Some text =>
           if room =? 0 then Ok (None, 0, true) else
           let included := take (Z.to_nat room) text in
           let* s := make_segment (Build_pack_segment t c (Some included) None) in
           Ok (Some s, Z.of_nat (length included), (length included <? length text)%nat)
       end.

Record packing := {
  pk_segments : list pack_segment;
  pk_texts : list ustr;
  pk_used : Z;
  pk_hits : Z;
  pk_truncated : bool;
  pk_roots : list ustr
}.
Definition mark_truncated (b : bool) (s : packing) : packing :=
  Build_packing (pk_segments s) (pk_texts s) (pk_used s) (pk_hits s) (pk_truncated s || b) (pk_roots s).
(** A segment that was included. *)
Definition add_segment (seg : pack_segment) (chars : Z) (cut : bool) (s : packing) : packing :=
  Build_packing (pk_segments s ++ [seg]) (match sg_content seg with Some ((_ :: _) as t) => pk_texts s ++ [t] | _ => pk_texts s end)
    (pk_used s + chars) (pk_hits s) (pk_truncated s || cut) (pk_roots s).
Definition count_hit (s : packing) : packing :=
  Build_packing (pk_segments s) (pk_texts s) (pk_used s) (pk_hits s + 1) (pk_truncated s) (pk_roots s).
Definition add_root (a : ustr) (s : packing) : packing :=
  Build_packing (pk_segments s) (pk_texts s) (pk_used s) (pk_hits s) (pk_truncated s) (a :: pk_roots s).

(** The root of one result, when it has one and it is not in the pack. *)
Definition pack_root (cf : settings) (r : search_result) (s : packing) : result (bool * packing) :=
  let c := rs_root r in
  if bool_decide (rc_status c ∈ [I_attached; I_truncated]) then
    match rc_coordinate c with
    | None => Ok (false, mark_truncated true s)
    | Some coordinate =>
        if bool_decide (gc_artifact coordinate ∈ pk_roots s) then Ok (false, s) else
        let s := add_root (gc_artifact coordinate) s in
        let* p := pack_one Document_root coordinate (rc_content c) (rc_ref c) (cf_pack_chars cf - pk_used s) in
        Ok (true, match p with
                  | (None, _, _) => mark_truncated true s
                  | (Some seg, chars, cut) => add_segment seg chars cut s
                  end)
    end
  else Ok (true, s).

(** The loop of [_pack]. *)
Fixpoint pack_loop (cf : settings) (rs : list search_result) (s : packing) : result packing :=
  match rs with
  | [] => Ok s
  | r :: rest =>
      if cf_pack_hits cf <=? pk_hits s then Ok (mark_truncated true s) else
      let* p := pack_one (if rs_granularity r =? 0 then Document_root else Focus_fragment) (rs_coordinate r) (rs_content r) (rs_ref r)
                  (cf_pack_chars cf - pk_used s) in
      match p with
      | (None, _, _) => pack_loop cf rest (mark_truncated true s)
      | (Some seg, chars, cut) =>
          let s := count_hit (add_segment seg chars cut s) in
          let s := if rs_granularity r =? 0 then add_root (gc_artifact (rs_coordinate r)) s else s in
          let* root := pack_root cf r s in
          let '(reached, s) := root in
          if reached && (cf_pack_chars cf <=? pk_used s) && negb (length rest =? 0)%nat then Ok (mark_truncated true s)
          else pack_loop cf rest s
      end
  end.

(** [_pack] *)
Definition pack (cf : settings) (rs : list search_result) : result pack_view :=
  let* s := pack_loop cf rs (Build_packing [] [] 0 0 false []) in
  Ok (Build_pack_view (match pk_texts s with [] => None | ts => Some (str_join (u "

") ts) end) (pk_segments s) (pk_hits s) (pk_used s)
       (pk_truncated s || (pk_hits s <? Z.of_nat (length rs)))).

(** ** The search *)

Inductive empty_reason := E_no_hit | E_all_filtered | E_below_threshold | E_blank_query.

Record diagnostics := {
  dg_recall_k : Z;
  dg_return_k : Z;
  dg_threshold : float;
  dg_ann_hits : Z;
  dg_eligible : Z;
  dg_filtered : Z;
  dg_rerank : rerank_status;
  dg_pack_truncated : bool;
  dg_inflation_truncated : bool;
  dg_empty : option empty_reason;
  dg_filters : list (ustr * ustr)
}.
Record bundle := {
  bu_ok : bool;
  bu_team : ustr;
  bu_query_digest : ustr;
  bu_results : list search_result;
  bu_pack : option pack_view;
  bu_diagnostics : diagnostics
}.

(** [RetrievalBundle] *)
Definition make_bundle (b : bundle) : result bundle :=
  check is_digest (bu_query_digest b) else ValueError ;;
  check bu_ok b || (length (bu_results b) =? 0)%nat else ValueError ;;
  check safe_public_data (obj [("team_uuid", PStr (bu_team b)); ("pack", match bu_pack b with Some p => dump_pack p | None => PNone end)]%string) else ValueError ;;
  check (1 <=? dg_recall_k (bu_diagnostics b)) && (1 <=? dg_return_k (bu_diagnostics b)) && (0 <=? dg_ann_hits (bu_diagnostics b))
        && (0 <=? dg_eligible (bu_diagnostics b)) && (0 <=? dg_filtered (bu_diagnostics b)) else ValueError ;;
  check safe_public_data (PDict (map (fun kv => (kv.1, PStr kv.2)) (dg_filters (bu_diagnostics b)))) else ValueError ;;
  Ok b.

(** [_empty_bundle] *)
Definition empty_bundle (cf : settings) (q : search_input) (digest : ustr) (reason : empty_reason) (ann filtered : Z) : result bundle :=
  make_bundle (Build_bundle false (si_team q) digest []
    (if si_pack q then Some (Build_pack_view None [] 0 0 false) else None)
    (Build_diagnostics (si_recall_k q) (si_return_k q) (si_threshold q) ann 0 filtered (if cf_rerank cf then RS_skipped else RS_not_requested)
       false false (Some reason) (si_filters q))).

(** The tables as each transaction of one search sees them. *)
Record snapshots := {
  sn_space : tables;
  sn_scan : tables;
  sn_eligible : tables;
  sn_fence : tables;
  sn_trace : tables;
  sn_inflate : tables
}.

Section search.
Context {FT : FloatText} {P : Ports}.

Definition zlen {A} (l : list A) : Z := Z.of_nat (length l).

(** The results of eligible candidates: hydrated, inflated, deduplicated, reranked and cut. *)
Definition results_of (cf : settings) (s : snapshots) (q : search_input) (namespace : ustr) (cs : list candidate) : result (rerank_status * list work) :=
  let* originals := traceback_originals cf (sn_trace s) q namespace cs in
  let* ws := mapM (to_result_work q originals) cs in
  let* ws := inflate_documents cf (sn_inflate s) q namespace ws in
  let r := rerank cf (si_query q) (deduplicate ws) in
  Ok (r.1, take (Z.to_nat (si_return_k q)) r.2).

(** [_search_with_query] *)
Definition search_with_query (cf : settings) (s : snapshots) (q : search_input) (digest : ustr) : result bundle :=
  check match t_teams (sn_space s) !! si_team q with Some (status, deleted) => ueqb status (u "active") && negb deleted | None => true end
    else MkbError "RETRIEVE_TEAM_INACTIVE" 409 ;;
  let* found := resolve_namespace (sn_space s) q in
  let '(namespace, n) := found in
  let* binding := resolve_embed_binding cf (sn_space s) (si_team q) n in
  let* embedding := (if cf_live cf then let* v := embed_query q n binding in Ok (Some v) else Ok None) in
  let* rows := fetch_candidate_rows (cf_scan_limit cf) (sn_scan s) (si_team q) namespace (si_filters q) no_narrowing in
  let* candidates := rank_ann_candidates infer_granularity cf q n rows embedding in
  if (length candidates =? 0)%nat then empty_bundle cf q digest E_no_hit 0 0 else
  let hits := zlen candidates in
  let thresholded := List.filter (fun c => fle (si_threshold q) (cd_score c)) candidates in
  if (length thresholded =? 0)%nat then empty_bundle cf q digest E_below_threshold hits hits else
  let* eligible := apply_batch_eligibility (sn_eligible s) (sn_fence s) q namespace thresholded in
  if (length eligible =? 0)%nat then empty_bundle cf q digest E_all_filtered hits (hits - zlen eligible) else
  let* r := results_of cf s q namespace eligible in
  let '(status, ws) := r in
  let results := map wk_result ws in
  let packed := if si_pack q then match pack cf results with Ok p => Some p | Err _ => None end else None in
  let truncated := si_pack q && match packed with Some p => pv_truncated p | None => true end in
  make_bundle (Build_bundle true (si_team q) digest results packed
    (Build_diagnostics (si_recall_k q) (si_return_k q) (si_threshold q) hits (zlen eligible) (hits - zlen eligible) status truncated
       (existsb (fun w => bool_decide (rc_status (rs_root (wk_result w)) = I_truncated)) ws) None (si_filters q))).

(** [search] *)
Definition search (cf : settings) (s : snapshots) (r : request) : result bundle :=
  let* q := normalise_request cf r in
  let* b := utf8_encode (si_query q) in
  let digest := sha256_hex b in
  if blank (si_query q) then empty_bundle cf q digest E_blank_query 0 0 else search_with_query cf s q digest.
End search.
End material.
