(* ===== verification/RetrievalLaws.v ===== *)
(** * What a search returns

    Every result was publishable in the snapshot of the scan, eligible, and publishable again in
    the snapshot of the second fence; results are ranked, unique per unit, the best of their
    unit and at most as many as asked for; the context pack keeps to its budgets and says when
    it leaves something out; text that leaves the system names no absolute path. *)

From S2P Require Import Prelude PyText PyValue Txn PyFloat Uuid PublicData RetrievalTables Retrieval RetrievalPack.
From Stdlib Require Import SpecFloat.

Open Scope Z_scope.
Open Scope mkb_scope.

(** ** Candidates *)

Lemma fetch_Ok limit d team ns fs w rows : fetch_candidate_rows limit d team ns fs w = Ok rows ->
  forall row, row ∈ rows -> exists j, j ∈ joined_rows d /\ served d team ns j = true /\ wanted d fs w j = true /\ row = hit_of j.
Proof.
  unfold fetch_candidate_rows. intros ([] & _ & [= <-])%rbind_Ok row Hrow. apply list_elem_of_In, in_map_iff in Hrow as (j & <- & Hj).
  apply filter_In in Hj as [Hj [Hs Hw]%andb_true_iff]. exists j. split_and!; [by apply list_elem_of_In|done..].
Qed.

Lemma fdiv_Ok a b c : fdiv a b = Ok c -> nonzero b = true.
Proof. unfold fdiv. by destruct (nonzero b). Qed.

Lemma embedding_score_finite metric l r s : embedding_score metric l r = Ok s -> is_finite s = true.
Proof.
  unfold embedding_score. destruct (ueqb metric _).
  - unfold cosine. intros ([] & _ & (dot & _ & (ls & _ & (ln & _ & (rsq & _ & (rn & _ & ([] & _ & Hs)%rbind_Ok)%rbind_Ok)%rbind_Ok)%rbind_Ok)%rbind_Ok)%rbind_Ok)%rbind_Ok.
    destruct (feq ln fzero || feq rn fzero); [by injection Hs as <-|].
    apply rbind_Ok in Hs as (x & _ & ([] & Hx%ensure_Ok & [= <-])%rbind_Ok). done.
  - intros ([] & _ & (x & _ & ([] & Hx%ensure_Ok & [= <-])%rbind_Ok)%rbind_Ok)%rbind_Ok. done.
Qed.

Lemma as_finite_float_Ok v f : as_finite_float v = Ok f -> is_finite f = true.
Proof.
  destruct v; try done; cbn.
  - unfold float_of_int. destruct (is_finite (of_dyadic z 0)) eqn:E; [|done]. by intros [= <-].
  - intros ([] & Hf%ensure_Ok & [= <-])%rbind_Ok. done.
Qed.

Section laws.
Context {H : Host} {FT : FloatText} {P : Ports}.

Local Abbreviation from_rows rows := (Forall (fun c => cd_row c ∈ (rows : list hit_row) /\ is_finite (cd_score c) = true)).

Lemma score_rows_Ok metric query rows r : score_rows infer_granularity metric query rows = Ok r -> from_rows rows r.1.
Proof.
  revert r. induction rows as [|row rows IH]; intros r; cbn [score_rows]; [by intros [= <-]; constructor|].
  destruct (rbind (decode_embedding _ _) _) as [score|e] eqn:E.
  - intros (r' & Hr & [= <-])%rbind_Ok. cbn. constructor.
    + split; [left|]. apply rbind_Ok in E as (v & _ & Hv). by eapply embedding_score_finite.
    + eapply Forall_impl; [by apply IH|]. intros c [? ?]. split; [by right|done].
  - destruct (vector_error e); [|done]. intros (r' & Hr & [= <-])%rbind_Ok. cbn.
    eapply Forall_impl; [by apply IH|]. intros c [? ?]. split; [by right|done].
Qed.
Lemma delegated_rows_Ok scores rows cs : delegated_rows infer_granularity scores rows = Ok cs -> from_rows rows cs.
Proof.
  revert cs. induction rows as [|row rows IH]; intros cs; cbn [delegated_rows]; [by intros [= <-]; constructor|].
  destruct (dget scores (hr_record row)) as [raw|].
  - intros (score & Hf & (cs' & Hc & [= <-])%rbind_Ok)%rbind_Ok. constructor; [split; [left|by eapply as_finite_float_Ok]|].
    eapply Forall_impl; [by apply IH|]. intros c [? ?]. split; [by right|done].
  - intros Hc. eapply Forall_impl; [by apply IH|]. intros c [? ?]. split; [by right|done].
Qed.
Lemma top_from_rows q rows cs : from_rows rows cs -> from_rows rows (top_candidates q cs).
Proof. intros Hc. unfold top_candidates. apply Forall_take. by rewrite py_sorted_perm. Qed.

Lemma rank_Ok cf q n rows e cs : rank_ann_candidates infer_granularity cf q n rows e = Ok cs ->
  from_rows rows cs /\ (length cs <= Z.to_nat (si_recall_k q))%nat.
Proof.
  unfold rank_ann_candidates. intros (e' & _ & Hr)%rbind_Ok.
  assert (forall l, (length (top_candidates q l) <= Z.to_nat (si_recall_k q))%nat) as Hlen.
  { intros l. unfold top_candidates. rewrite length_take. lia. }
  destruct e' as [v|]; [|destruct scorer_port as [scorer|]; [|by injection Hr as <-; split; [constructor|cbn; lia]]].
  - apply rbind_Ok in Hr as (r & Hs & ([] & _ & [= <-])%rbind_Ok). split; [|done]. by apply top_from_rows, (score_rows_Ok (nr_metric n) v).
  - destruct (scorer _ n rows) as [[| | | | | | |scores]|]; try done. apply rbind_Ok in Hr as (r & Hs & [= <-]).
    split; [|done]. by apply top_from_rows, (delegated_rows_Ok scores).
Qed.

(** What the eligibility stage lets through: the record is still served, under the item and the
    revision of a submitted candidate of the same record. *)
Definition passed (fence : tables) (team namespace : ustr) (cs : list candidate) (c : candidate) : Prop :=
  exists j c', j ∈ joined_rows fence /\ served fence team namespace j = true /\ j_record_uuid j = cd_uuid c /\
    c' ∈ cs /\ cd_uuid c' = cd_uuid c /\ j_item j = hr_item (cd_row c') /\ vr_revision (j_record j) = Some (co_revision (coordinate_of c')).

Lemma eligible_Ok eligible fence q ns cs cs' : apply_batch_eligibility eligible fence q ns cs = Ok cs' ->
  forall c, c ∈ cs' -> c ∈ cs /\ passed fence (si_team q) ns cs c.
Proof.
  unfold apply_batch_eligibility. intros (ids & _ & [= <-])%rbind_Ok c Hc. unfold revalidate in Hc.
  apply list_elem_of_In, filter_In in Hc as [Hc Ha%bool_decide_eq_true]. apply filter_In in Hc as [Hc _].
  split; [by apply list_elem_of_In|]. unfold fence_approves in Ha. apply list_elem_of_In, in_map_iff in Ha as (j & Hj & Hin).
  apply filter_In in Hin as [Hin [Hs (co & Hco & Hn)%existsb_exists]%andb_true_iff].
  apply in_map_iff in Hco as (c' & <- & Hc'). apply filter_In in Hc' as [Hc' _]. unfold names in Hn.
  apply andb_true_iff in Hn as [[Hn1%ueqb_eq Hn2%bool_decide_eq_true]%andb_true_iff Hn3%bool_decide_eq_true].
  exists j, c'. cbn in Hn1, Hn2. injection Hn2 as Hn2. split_and!; [by apply list_elem_of_In|done..|by apply list_elem_of_In|congruence|done|done].
Qed.
End laws.

(** A record joins at most one row. *)
Lemma joined_rows_elem d j : j ∈ joined_rows d -> exists r, t_records d !! j_record_uuid j = Some r /\ join_row d (j_record_uuid j) r = Some j.
Proof.
  unfold joined_rows. intros ([id r] & Hj & Hr)%list_elem_of_omap. cbn in *. apply rows_where_elem in Hj as [Hj _].
  assert (j_record_uuid j = id) as ->; [|by exists r]. revert Hr. unfold join_row.
  repeat (match goal with |- context [mbind _ ?x] => destruct x; cbn [mbind option_bind]; [|done] end). destruct (_ && _); [|done]. by intros [= <-].
Qed.
Lemma joined_rows_unique d j j' : j ∈ joined_rows d -> j' ∈ joined_rows d -> j_record_uuid j = j_record_uuid j' -> j = j'.
Proof. intros (r & Hr & Hj)%joined_rows_elem (r' & Hr' & Hj')%joined_rows_elem E. rewrite E in Hr, Hj. congruence. Qed.

(** ** From candidates to results *)

Definition refs_of (row : hit_row) : generation_refs :=
  Build_generation_refs (hr_item row) (match hr_revision row with Some r => r | None => u "None" end) (hr_artifact row)
    (hr_artifact_type row) (hr_namespace row) (hr_proof row).

(** What a result keeps of the candidate it came from. *)
Record from_candidate (w : work) : Prop := {
  fr_ann : rs_ann (wk_result w) = cd_score (wk_candidate w);
  fr_refs : rs_refs (wk_result w) = refs_of (cd_row (wk_candidate w));
  fr_key : unit_key w = (hr_artifact (cd_row (wk_candidate w)), hr_unit (cd_row (wk_candidate w)))
}.
(** Two works of one candidate that differ in score and root. *)
Definition same_work (w w' : work) : Prop := wk_candidate w' = wk_candidate w /\
  rs_ann (wk_result w') = rs_ann (wk_result w) /\ rs_refs (wk_result w') = rs_refs (wk_result w) /\ unit_key w' = unit_key w /\
  rs_score (wk_result w') = rs_score (wk_result w) /\ rs_traceback (wk_result w') = rs_traceback (wk_result w).

Section results.
Context {H : Host} {FT : FloatText} {P : Ports}.

Lemma to_result_work_Ok q originals c w : to_result_work q originals c = Ok w ->
  wk_candidate w = c /\ from_candidate w /\ rs_score (wk_result w) = rs_ann (wk_result w).
Proof.
  unfold to_result_work. intros (hit & _ & (found & _ & Hw)%rbind_Ok)%rbind_Ok. destruct found as [[payload g] status].
  apply rbind_Ok in Hw as (co & Hco & (refs & Hrefs & (res & Hres & [= <-])%rbind_Ok)%rbind_Ok).
  unfold make_coordinate in Hco. apply rbind_Ok in Hco as ([] & _ & [= <-]). unfold make_refs in Hrefs. apply rbind_Ok in Hrefs as ([] & _ & [= <-]).
  unfold make_result in Hres. apply rbind_Ok in Hres as ([] & _ & ([] & _ & [= <-])%rbind_Ok). by split_and!.
Qed.

Lemma mapM_Forall2 {A B} (f : A -> result B) l l' : mapM f l = Ok l' -> Forall2 (fun a b => f a = Ok b) l l'.
Proof.
  revert l'. induction l as [|a l IH]; intros l'; cbn [mapM]; [by intros [= <-]|].
  intros (b & Hb & (bs & Hbs & [= <-])%rbind_Ok)%rbind_Ok. constructor; [done|by apply IH].
Qed.

Lemma same_root c w : same_work w (on_result (set_root c) w).
Proof. by split_and!. Qed.
Lemma inflate_same cf team rows attached ws ws' : inflate cf team rows attached ws = Ok ws' -> Forall2 same_work ws ws'.
Proof.
  revert attached ws'. induction ws as [|w ws IH]; intros attached ws'; cbn [inflate]; [by intros [= <-]|]. destruct (is_root_result w).
  - intros (rest & Hr & [= <-])%rbind_Ok. constructor; [by split_and!|by eapply IH].
  - intros (r & _ & (rest & Hr & [= <-])%rbind_Ok)%rbind_Ok. constructor; [apply same_root|by eapply IH].
Qed.
Lemma inflate_documents_same cf d q ns ws ws' : inflate_documents cf d q ns ws = Ok ws' -> Forall2 same_work ws ws'.
Proof.
  assert (Forall2 same_work ws ws) as Hid by (apply Forall2_same_length_lookup_2; [done|]; intros i x y -> [= ->]; by split_and!).
  unfold inflate_documents. destruct (map _ _); [by intros [= <-]|]. destruct (_ =? 0); [by intros [= <-]|].
  destruct (fetch_candidate_rows _ _ _ _ _ _) as [rows|]; [apply inflate_same|]. intros [= <-]. clear Hid.
  induction ws as [|w ws IH]; [done|]. cbn [map]. constructor; [|done]. destruct (is_root_result w); [by split_and!|apply same_root].
Qed.

(** ** Deduplication *)

Lemma keep_best_keys w sel : forall k, k ∈ map unit_key (keep_best w sel) <-> k = unit_key w \/ k ∈ map unit_key sel.
Proof.
  intros k. induction sel as [|x sel IH]; cbn [keep_best map].
  - rewrite elem_of_cons, elem_of_nil. tauto.
  - case_bool_decide as E; cbn [map]; rewrite !elem_of_cons.
    + destruct (dedup_lt w x); rewrite ?E; tauto.
    + rewrite IH. tauto.
Qed.
Lemma keep_best_nodup w sel : NoDup (map unit_key sel) -> NoDup (map unit_key (keep_best w sel)).
Proof.
  induction sel as [|x sel IH]; cbn [keep_best map]; [repeat constructor; apply not_elem_of_nil|]. intros [Hx Hn]%NoDup_cons.
  case_bool_decide as E; cbn [map].
  - apply NoDup_cons. destruct (dedup_lt w x); [by rewrite <-E|done].
  - apply NoDup_cons. split; [|auto]. rewrite keep_best_keys. by intros [?|?].
Qed.
Lemma keep_best_elem w sel x : x ∈ keep_best w sel -> x = w \/ x ∈ sel.
Proof.
  induction sel as [|y sel IH]; cbn [keep_best]; [rewrite list_elem_of_singleton; auto|].
  case_bool_decide; rewrite !elem_of_cons.
  - destruct (dedup_lt w y); intros [-> |?]; auto.
  - intros [-> |?%IH]; tauto.
Qed.

(** The order of deduplication, on finite scores. *)
Definition finite_work (w : work) : Prop := is_finite (rs_ann (wk_result w)) = true.
Lemma str_lt_trans a b c : str_lt a b = true -> str_lt b c = true -> str_lt a c = true.
Proof.
  unfold str_lt. rewrite !negb_true_iff. intros H1 H2. apply not_true_iff_false. intros H3.
  destruct (str_le_total a b) as [Hab|Hab]; [|congruence]. rewrite (str_le_trans _ _ _ H3 Hab) in H2. done.
Qed.
Lemma str_lt_irrefl a : str_lt a a = false.
Proof. unfold str_lt. by destruct (str_le_total a a) as [-> | ->]. Qed.
Lemma dedup_lt_key a b : finite_work a -> finite_work b ->
  dedup_lt a b = klt (fkey (rs_ann (wk_result b))) (fkey (rs_ann (wk_result a)))
    || bool_decide (fkey (rs_ann (wk_result a)) = fkey (rs_ann (wk_result b)))
       && ((resolved_priority a <? resolved_priority b) || (resolved_priority a =? resolved_priority b) && str_lt (wk_uuid a) (wk_uuid b)).
Proof.
  intros Ha Hb. unfold dedup_lt. rewrite feq_key, flt_key by done. case_bool_decide as E; [|by rewrite orb_false_r].
  by rewrite E, klt_irrefl.
Qed.
Lemma dedup_lt_irrefl a : finite_work a -> dedup_lt a a = false.
Proof. intros Ha. rewrite dedup_lt_key by done. rewrite klt_irrefl, Z.ltb_irrefl, str_lt_irrefl, !andb_false_r. done. Qed.
Lemma dedup_lt_trans a b c : finite_work a -> finite_work b -> finite_work c ->
  dedup_lt a b = true -> dedup_lt b c = true -> dedup_lt a c = true.
Proof.
  intros Ha Hb Hc. rewrite !dedup_lt_key by done.
  rewrite !orb_true_iff, !andb_true_iff, !orb_true_iff, !andb_true_iff, !bool_decide_eq_true, !Z.ltb_lt, !Z.eqb_eq.
  intros [H1|[E1 H1]] [H2|[E2 H2]].
  - left. by eapply klt_trans.
  - left. by rewrite <-E2.
  - left. by rewrite E1.
  - right. split; [congruence|]. destruct H1 as [H1|[P1 H1]], H2 as [H2|[P2 H2]]; [left; lia..|right]. split; [congruence|by eapply str_lt_trans].
Qed.

(** Whatever was offered for a key, what is kept is no worse. *)
Definition best_of (seen sel : list work) : Prop :=
  forall w, w ∈ seen -> exists x, x ∈ sel /\ unit_key x = unit_key w /\ dedup_lt w x = false.
Lemma keep_best_best w seen sel : finite_work w -> Forall finite_work sel -> Forall finite_work seen ->
  best_of seen sel -> best_of (seen ++ [w]) (keep_best w sel).
Proof.
  intros Hw Hsel Hseen Hb. assert (forall v y, finite_work v -> y ∈ sel -> unit_key y = unit_key v -> dedup_lt v y = false ->
    exists x, x ∈ keep_best w sel /\ unit_key x = unit_key v /\ dedup_lt v x = false) as Hkeep.
  { intros v y Hv Hy Hk Hlt. clear Hb. induction sel as [|z sel IH]; [by apply elem_of_nil in Hy|]. apply Forall_cons in Hsel as [Hz Hsel].
    cbn [keep_best]. apply elem_of_cons in Hy. case_bool_decide as E.
    - destruct Hy as [<-|Hy]; [|exists y; split; [by right|done]].
      destruct (dedup_lt w y) eqn:Ew; [|exists y; split; [by left|done]]. exists w. split; [by left|]. split; [congruence|].
      apply not_true_iff_false. intros Hvw. rewrite (dedup_lt_trans v w y) in Hlt by done. done.
    - destruct Hy as [<-|Hy]; [exists y; split; [by left|done]|]. destruct (IH Hsel Hy) as (x & Hx & ?). exists x. split; [by right|done]. }
  intros v [Hv|Hv]%elem_of_app.
  - destruct (Hb v Hv) as (y & Hy & Hk & Hlt). rewrite Forall_forall in Hseen. by eapply (Hkeep v y); [apply Hseen|..].
  - apply list_elem_of_singleton in Hv as ->. clear Hb Hkeep. induction sel as [|z sel IH]; cbn [keep_best].
    + exists w. split; [left|]. split; [done|by apply dedup_lt_irrefl].
    + apply Forall_cons in Hsel as [Hz Hsel]. case_bool_decide as E.
      * destruct (dedup_lt w z) eqn:Ew; [exists w|exists z]; (split; [by left|]); [|done]. split; [done|by apply dedup_lt_irrefl].
      * destruct (IH Hsel) as (x & Hx & ?). exists x. split; [by right|done].
Qed.

Lemma dedup_fold ws : Forall finite_work ws ->
  let sel := foldl (fun acc w => keep_best w acc) [] ws in
  NoDup (map unit_key sel) /\ (forall x, x ∈ sel -> x ∈ ws) /\ best_of ws sel.
Proof.
  cbn zeta. induction ws as [|w ws IH] using rev_ind; [intros _; split_and!; [constructor|by intros x ?|by intros x ?%elem_of_nil]|].
  intros [Hws Hw]%Forall_app. apply Forall_cons in Hw as [Hw _]. destruct (IH Hws) as (Hn & Hin & Hb). rewrite foldl_app. cbn [foldl]. split_and!.
  - by apply keep_best_nodup.
  - intros x [-> |Hx]%keep_best_elem; apply elem_of_app; [right; by left|left; auto].
  - apply keep_best_best; [done| |done|done]. rewrite Forall_forall in *. auto.
Qed.

Lemma deduplicate_spec ws : Forall finite_work ws ->
  NoDup (map unit_key (deduplicate ws)) /\ (forall x, x ∈ deduplicate ws -> x ∈ ws) /\ best_of ws (deduplicate ws) /\
  StronglySorted (fun a b => ann_le a b = true) (deduplicate ws).
Proof.
  intros Hws. destruct (dedup_fold ws Hws) as (Hn & Hin & Hb). unfold deduplicate. pose proof (py_sorted_perm ann_le (foldl (fun acc w => keep_best w acc) [] ws)) as Hp.
  split_and!.
  - eapply NoDup_Permutation_proper; [|exact Hn]. by apply fmap_Permutation.
  - intros x Hx. rewrite Hp in Hx. auto.
  - intros w (x & Hx & ?)%Hb. exists x. by rewrite Hp.
  - apply (rank_sorted (fun w => (rs_ann (wk_result w), wk_uuid w))). rewrite Forall_forall in *. intros x Hx. apply Hws. auto.
Qed.
End results.

(** ** Reranking *)

Section searching.
Context {H : Host} {FT : FloatText} {P : Ports}.

(** Two works of one candidate, whatever their scores and roots. *)
Definition same_hit (w w' : work) : Prop := wk_candidate w' = wk_candidate w /\ rs_ann (wk_result w') = rs_ann (wk_result w) /\
  rs_refs (wk_result w') = rs_refs (wk_result w) /\ unit_key w' = unit_key w.

Lemma rerank_spec cf query ws : Forall (fun w => is_finite (rs_score (wk_result w)) = true) ws ->
  StronglySorted (fun a b => score_le a b = true) ws ->
  let r := rerank cf query ws in
  (exists ws', r.2 ≡ₚ ws' /\ Forall2 same_hit ws ws') /\
  Forall (fun w => is_finite (rs_score (wk_result w)) = true) r.2 /\ StronglySorted (fun a b => score_le a b = true) r.2 /\
  (r.1 <> RS_applied -> r.2 = ws).
Proof.
  intros Hf Hs. assert (Forall2 same_hit ws ws) as Hid by (apply Forall2_same_length_lookup_2; [done|]; intros i x y -> [= ->]; by split_and!).
  assert (forall st, let r := (st, ws) in (exists ws', r.2 ≡ₚ ws' /\ Forall2 same_hit ws ws') /\
    Forall (fun w => is_finite (rs_score (wk_result w)) = true) r.2 /\ StronglySorted (fun a b => score_le a b = true) r.2 /\ (r.1 <> RS_applied -> r.2 = ws)) as Hsame.
  { intros st. cbn. split_and!; [by exists ws|done..]. }
  cbn zeta. unfold rerank. destruct (negb (cf_rerank cf)); [apply Hsame|]. destruct (_ <=? 1)%nat; [apply Hsame|].
  destruct inference_port as [inf|]; [|apply Hsame]. destruct (mapM _ ws) as [documents|]; [|apply Hsame].
  destruct (rbind (in_rerank inf query documents) _) as [scores|] eqn:E; [|apply Hsame]. clear Hsame. cbn [fst snd].
  apply rbind_Ok in E as (raw & _ & ([] & Hlen%ensure_Ok & Hm)%rbind_Ok). apply Nat.eqb_eq in Hlen. apply mapM_Forall2 in Hm.
  pose proof (Forall2_length _ _ _ Hm) as Hl. rewrite Hlen in Hl.
  set (l := zip_with _ scores ws). assert (Forall2 same_hit ws l) as Hl2.
  { subst l. clear - Hl. revert scores Hl. induction ws as [|w ws IH]; intros [|s scores]; try done. intros [= Hl]. cbn. constructor; [by split_and!|by apply IH]. }
  assert (Forall (fun w => is_finite (rs_score (wk_result w)) = true) l) as Hfl.
  { subst l. clear - Hl Hm. revert scores raw Hl Hm. induction ws as [|w ws IH]; intros [|s scores] raw; try done.
    intros [= Hl] Hm. inversion Hm; subst. cbn. constructor; [by eapply as_finite_float_Ok|by eapply IH]. }
  split_and!.
  - exists l. split; [apply py_sorted_perm|done].
  - by rewrite py_sorted_perm.
  - by apply (rank_sorted (fun w => (rs_score (wk_result w), wk_uuid w))).
  - done.
Qed.

Lemma Forall2_in_r {A B} (R : A -> B -> Prop) l l' b : Forall2 R l l' -> b ∈ l' -> exists a, a ∈ l /\ R a b.
Proof. intros Hl (i & Hi)%list_elem_of_lookup. eapply Forall2_lookup_r in Hl as (a & Ha & ?); [|exact Hi]. exists a. split; [by eapply list_elem_of_lookup_2|done]. Qed.
Lemma Forall2_keys (R : work -> work -> Prop) l l' : (forall a b, R a b -> unit_key b = unit_key a) -> Forall2 R l l' -> map unit_key l' = map unit_key l.
Proof. intros Hk. induction 1 as [|a b l l' Hab Hl IH]; [done|]. cbn. by rewrite IH, (Hk _ _ Hab). Qed.

(** The results of one search before the bundle. *)
Lemma results_of_spec cf s q ns cs st ws : Forall (fun c => is_finite (cd_score c) = true) cs ->
  results_of cf s q ns cs = Ok (st, ws) ->
  (length ws <= Z.to_nat (si_return_k q))%nat /\ NoDup (map unit_key ws) /\
  Forall (fun w => wk_candidate w ∈ cs /\ from_candidate w /\ is_finite (rs_score (wk_result w)) = true) ws /\
  StronglySorted (fun a b => score_le a b = true) ws /\ (st <> RS_applied -> Forall (fun w => rs_score (wk_result w) = rs_ann (wk_result w)) ws).
Proof.
  intros Hcs. unfold results_of. intros (originals & _ & (ws1 & H1%mapM_Forall2 & (ws2 & H2%inflate_documents_same & [= <- <-])%rbind_Ok)%rbind_Ok)%rbind_Ok.
  assert (Forall (fun w => wk_candidate w ∈ cs /\ from_candidate w /\ rs_score (wk_result w) = rs_ann (wk_result w)) ws1) as W1.
  { apply Forall_forall. intros w Hw. destruct (Forall2_in_r _ _ _ _ H1 Hw) as (c & Hc & (<- & Hf & Hs)%to_result_work_Ok). done. }
  assert (Forall (fun w => wk_candidate w ∈ cs /\ from_candidate w /\ rs_score (wk_result w) = rs_ann (wk_result w)) ws2) as W2.
  { apply Forall_forall. intros w Hw. destruct (Forall2_in_r _ _ _ _ H2 Hw) as (v & Hv & Ec & Ea & Er & Ek & Es & _).
    rewrite Forall_forall in W1. destruct (W1 v Hv) as (Hc & [F1 F2 F3] & Hs). rewrite Ec. split_and!; [done| |congruence]. split; congruence. }
  clear H1 H2 W1. assert (Forall finite_work ws2) as Hfin.
  { eapply Forall_impl; [exact W2|]. intros w (Hc & [F1 _ _] & _). rewrite Forall_forall in Hcs. unfold finite_work. rewrite F1. auto. }
  destruct (deduplicate_spec ws2 Hfin) as (Hn & Hin & _ & Hsorted). set (ds := deduplicate ws2) in *.
  assert (Forall (fun w => wk_candidate w ∈ cs /\ from_candidate w /\ rs_score (wk_result w) = rs_ann (wk_result w)) ds) as W3.
  { rewrite Forall_forall in *. auto. }
  assert (Forall (fun w => is_finite (rs_score (wk_result w)) = true) ds) as Hfd.
  { rewrite Forall_forall in *. intros w Hw. destruct (W3 w Hw) as (_ & _ & ->). apply Hfin. auto. }
  assert (StronglySorted (fun a b => score_le a b = true) ds) as Hsd.
  { clear - Hsorted W3. induction Hsorted as [|w l Hl IH Hw]; constructor; apply Forall_cons in W3 as [(_ & _ & E) W3]; [auto|].
    rewrite Forall_forall in *. intros v Hv. destruct (W3 v Hv) as (_ & _ & E'). unfold score_le. rewrite E, E'. by apply Hw. }
  destruct (rerank_spec cf (si_query q) ds Hfd Hsd) as ((ds' & Hp & Hsame) & Hfr & Hsr & Hna). split_and!.
  - rewrite length_take. lia.
  - cut (NoDup (map unit_key (rerank cf (si_query q) ds).2)).
    { rewrite <-(take_drop (Z.to_nat (si_return_k q)) (rerank cf (si_query q) ds).2) at 1. rewrite map_app. by intros [? _]%NoDup_app. }
    eapply NoDup_Permutation_proper; [by apply fmap_Permutation, Hp|]. change (unit_key <$> ds') with (map unit_key ds').
    rewrite (Forall2_keys same_hit ds ds'); [done| |done]. by intros a b (_ & _ & _ & ?).
  - apply Forall_take, Forall_forall. intros w Hw. rewrite Forall_forall in Hfr. split; [|split; [|auto]]; rewrite Hp in Hw;
      destruct (Forall2_in_r _ _ _ _ Hsame Hw) as (v & Hv & Ec & Ea & Er & Ek); rewrite Forall_forall in W3; destruct (W3 v Hv) as (Hc & [F1 F2 F3] & _);
      [by rewrite Ec|split; congruence].
  - clear - Hsr. revert Hsr. generalize (rerank cf (si_query q) ds).2. intros l Hl. revert l Hl. induction (Z.to_nat (si_return_k q)) as [|n IH]; intros l Hl; [constructor|].
    destruct Hl as [|w l Hl Hw]; [constructor|]. cbn. constructor; [auto|by apply Forall_take].
  - intros Hst. rewrite Hna by done. apply Forall_take. eapply Forall_impl; [exact W3|]. by intros w (_ & _ & ?).
Qed.

(** One search: what it took from its snapshots. *)
Lemma search_Ok cf s r b : search cf s r = Ok b ->
  exists q, normalise_request cf r = Ok q /\ dg_return_k (bu_diagnostics b) = si_return_k q /\ bu_team b = si_team q /\ (bu_results b = [] \/
    exists namespace n rows cs es st ws, resolve_namespace (sn_space s) q = Ok (namespace, n) /\
      fetch_candidate_rows (cf_scan_limit cf) (sn_scan s) (si_team q) namespace (si_filters q) no_narrowing = Ok rows /\
      Forall (fun c => cd_row c ∈ (rows : list hit_row) /\ is_finite (cd_score c) = true) cs /\
      apply_batch_eligibility (sn_eligible s) (sn_fence s) q namespace (List.filter (fun c => fle (si_threshold q) (cd_score c)) cs) = Ok es /\
      results_of cf s q namespace es = Ok (st, ws) /\ bu_results b = map wk_result ws /\ dg_rerank (bu_diagnostics b) = st).
Proof.
  assert (forall x y, make_bundle x = Ok y -> y = x) as Hmake.
  { intros x y. unfold make_bundle. by intros ([] & _ & ([] & _ & ([] & _ & ([] & _ & ([] & _ & [= <-])%rbind_Ok)%rbind_Ok)%rbind_Ok)%rbind_Ok)%rbind_Ok. }
  unfold search. intros (q & Hq & (bs & _ & Hb)%rbind_Ok)%rbind_Ok. exists q. split; [done|].
  assert (forall reason ann filtered, empty_bundle cf q (sha256_hex bs) reason ann filtered = Ok b ->
    dg_return_k (bu_diagnostics b) = si_return_k q /\ bu_team b = si_team q /\ bu_results b = []) as Hempty by (by intros ? ? ? ->%Hmake).
  destruct (blank (si_query q)); [apply Hempty in Hb as (? & ? & ?); auto|].
  unfold search_with_query in Hb. apply rbind_Ok in Hb as ([] & _ & ([namespace n] & Hn & Hb)%rbind_Ok).
  apply rbind_Ok in Hb as (binding & _ & (embedding & _ & (rows & Hrows & (cs & Hcs & Hb)%rbind_Ok)%rbind_Ok)%rbind_Ok).
  apply rank_Ok in Hcs as [Hcs _]. destruct (length cs =? 0)%nat; [apply Hempty in Hb as (? & ? & ?); auto|].
  cbn zeta in Hb. destruct (length (List.filter _ cs) =? 0)%nat; [apply Hempty in Hb as (? & ? & ?); auto|].
  apply rbind_Ok in Hb as (es & Hes & Hb). destruct (length es =? 0)%nat; [apply Hempty in Hb as (? & ? & ?); auto|].
  apply rbind_Ok in Hb as ([st ws] & Hws & ->%Hmake). split; [done|]. split; [done|]. right. by exists namespace, n, rows, cs, es, st, ws.
Qed.
End searching.

(** ** Searches *)

Section properties.
Context {H : Host} {FT : FloatText} {P : Ports}.

(** C13: Only published records are served.  Whatever other actors write between the
    transactions of a search, every result comes from a record that was published, proved,
    pointed at and served by its item, under the request's filters, when the scan ran, and the
    same record of the same item and revision was all of that again when the second fence ran;
    its references are those of the scanned row and its similarity reaches the threshold. *)
Theorem results_are_published cf s r b (Hrun : search cf s r = Ok b) :
  forall x, x ∈ bu_results b -> exists q namespace n j j',
    normalise_request cf r = Ok q /\ resolve_namespace (sn_space s) q = Ok (namespace, n) /\
    j ∈ joined_rows (sn_scan s) /\ served (sn_scan s) (si_team q) namespace j = true /\ forallb (filter_accepts (sn_scan s) j) (si_filters q) = true /\
    j' ∈ joined_rows (sn_fence s) /\ served (sn_fence s) (si_team q) namespace j' = true /\
    j_record_uuid j' = j_record_uuid j /\ j_item j' = j_item j /\ vr_revision (j_record j') = vr_revision (j_record j) /\
    rs_refs x = refs_of (hit_of j) /\
    (gc_artifact (rs_coordinate x), gc_unit (rs_coordinate x)) = (vr_artifact (j_record j), vr_unit (j_record j)) /\
    fle (si_threshold q) (rs_ann x) = true.
Proof.
  intros x Hx. apply search_Ok in Hrun as (q & Hq & _ & _ & [E|(namespace & n & rows & cs & es & st & ws & Hn & Hrows & Hcs & Hes & Hws & Eb & _)]).
  { rewrite E in Hx. by apply elem_of_nil in Hx. }
  rewrite Eb in Hx. apply list_elem_of_In, in_map_iff in Hx as (w & <- & Hw%list_elem_of_In).
  pose proof (eligible_Ok _ _ _ _ _ _ Hes) as Helig.
  assert (forall c, c ∈ es -> cd_row c ∈ rows /\ is_finite (cd_score c) = true /\ fle (si_threshold q) (cd_score c) = true) as Hin.
  { intros c Hc. destruct (Helig c Hc) as [Hf _]. apply list_elem_of_In, filter_In in Hf as [Hf Ht]. rewrite Forall_forall in Hcs.
    destruct (Hcs c) as [? ?]; [by apply list_elem_of_In|]. done. }
  apply results_of_spec in Hws as (_ & _ & Hall & _); [|apply Forall_forall; intros c Hc; by apply Hin].
  rewrite Forall_forall in Hall. destruct (Hall w Hw) as (Hc & [F1 F2 F3] & _). set (c := wk_candidate w) in *.
  destruct (Hin c Hc) as (Hrow & _ & Ht). destruct (Helig c Hc) as [_ (j' & c' & Hj' & Hs' & Hid & Hc' & Hcu & Hit & Hrev)].
  assert (cd_row c' ∈ rows) as Hrow'.
  { apply list_elem_of_In, filter_In in Hc' as [Hc' _]. rewrite Forall_forall in Hcs. by apply Hcs, list_elem_of_In. }
  destruct (fetch_Ok _ _ _ _ _ _ _ Hrows _ Hrow) as (j & Hj & Hs & Hwant & Ej).
  destruct (fetch_Ok _ _ _ _ _ _ _ Hrows _ Hrow') as (j2 & Hj2 & Hs2 & _ & Ej2).
  assert (j2 = j) as ->.
  { apply (joined_rows_unique (sn_scan s)); [done..|]. unfold cd_uuid in Hcu. rewrite Ej, Ej2 in Hcu. exact Hcu. }
  exists q, namespace, n, j, j'. unfold wanted in Hwant. apply andb_true_iff in Hwant as [[[Hwant _]%andb_true_iff _]%andb_true_iff _].
  assert (exists rv, vr_revision (j_record j) = Some rv) as [rv Erv].
  { unfold served, publication_fence in Hs. apply andb_true_iff in Hs as [_ Hs]. rewrite !andb_true_iff in Hs. destruct Hs as [[_ Hi] _].
    unfold item_fence in Hi. apply andb_true_iff in Hi as [_ Hi]. destruct (it_serving _); [|done]. destruct (vr_revision (j_record j)); [by eexists|done]. }
  split_and!; try done.
  - rewrite Hid. unfold cd_uuid. by rewrite Ej.
  - by rewrite Hit, Ej2.
  - rewrite Hrev. unfold coordinate_of. cbn. rewrite Ej2. cbn. by rewrite Erv.
  - by rewrite F2, Ej.
  - unfold unit_key in F3. cbn in F3. rewrite F3, Ej. done.
  - by rewrite F1.
Qed.

(** C14: The shape of an answer.  A search returns at most [return_k] results, one per artifact
    and unit, in the order of their scores, every score a finite number; unless the reranker
    was applied the score is the similarity of the vector search. *)
Theorem answer_is_ranked cf s r b (Hrun : search cf s r = Ok b) :
  (length (bu_results b) <= Z.to_nat (dg_return_k (bu_diagnostics b)))%nat /\
  NoDup (map (fun x => (gc_artifact (rs_coordinate x), gc_unit (rs_coordinate x))) (bu_results b)) /\
  StronglySorted (fun x y => fle (rs_score y) (rs_score x) = true) (bu_results b) /\
  Forall (fun x => is_finite (rs_score x) = true) (bu_results b) /\
  (dg_rerank (bu_diagnostics b) <> RS_applied -> Forall (fun x => rs_score x = rs_ann x) (bu_results b)).
Proof.
  apply search_Ok in Hrun as (q & Hq & -> & _ & [-> |(namespace & n & rows & cs & es & st & ws & Hn & Hrows & Hcs & Hes & Hws & -> & ->)]).
  { split_and!; [cbn; lia|constructor|constructor|constructor|by intros _]. }
  pose proof (eligible_Ok _ _ _ _ _ _ Hes) as Helig. apply results_of_spec in Hws as (Hlen & Hn' & Hall & Hsorted & Hst).
  2: { apply Forall_forall. intros c Hc. destruct (Helig c Hc) as [Hf _]. apply list_elem_of_In, filter_In in Hf as [Hf%list_elem_of_In _].
       rewrite Forall_forall in Hcs. by apply Hcs. }
  split_and!.
  - by rewrite length_map.
  - by rewrite map_map.
  - clear - Hsorted Hall. induction Hsorted as [|w l Hl IH Hw]; cbn; constructor; apply Forall_cons in Hall as [(_ & _ & Hf) Hall]; [auto|].
    apply Forall_forall. rewrite Forall_forall in Hw, Hall. intros x Hx. apply list_elem_of_In, in_map_iff in Hx as (v & <- & Hv%list_elem_of_In).
    destruct (Hall v Hv) as (_ & _ & Hfv). by apply (rank_le_fle (rs_score (wk_result w), wk_uuid w) (rs_score (wk_result v), wk_uuid v)), Hw.
  - apply Forall_map. eapply Forall_impl; [exact Hall|]. by intros w (_ & _ & ?).
  - intros Hna. apply Forall_map. by apply Hst.
Qed.
End properties.

(** ** The context pack *)

Section packs.
Context {H : Host}.
Variable cf : settings.
Hypothesis Hcf : settings_ok cf = true.

Definition seg_chars (s : pack_segment) : Z := match sg_content s with Some t => Z.of_nat (length t) | None => 0 end.
Definition sum_chars (l : list pack_segment) : Z := foldr (fun s n => seg_chars s + n) 0 l.
Lemma sum_chars_app l s : sum_chars (l ++ [s]) = sum_chars l + seg_chars s.
Proof. unfold sum_chars. induction l as [|x l IH]; cbn in *; lia. Qed.

(** The segments of the results that the pack holds, one per result. *)
Definition shown (l : list pack_segment) (r : search_result) : Prop :=
  exists s, s ∈ l /\ sg_coordinate s = rs_coordinate r /\ sg_content s = rs_content r /\ (rs_content r = None -> sg_ref s = rs_ref r).

Record packing_ok (s : packing) : Prop := {
  pa_used : pk_used s = sum_chars (pk_segments s);
  pa_room : 0 <= pk_used s <= cf_pack_chars cf;
  pa_hits : 0 <= pk_hits s <= cf_pack_hits cf;
  pa_texts : concat (pk_texts s) = concat (omap sg_content (pk_segments s))
}.

Lemma pack_one_Ok t c content ref room seg chars cut : pack_one t c content ref room = Ok (Some seg, chars, cut) ->
  sg_coordinate seg = c /\ chars = seg_chars seg /\ 0 <= chars <= Z.max 0 room /\
  (cut = false -> sg_content seg = content) /\ (content = None -> sg_ref seg = ref).
Proof.
  unfold pack_one. destruct (Z.ltb_spec room 0); [done|]. destruct content as [text|].
  - destruct (Z.eqb_spec room 0); [done|]. intros (s & Hs & [= <- <- <-])%rbind_Ok. unfold make_segment in Hs.
    apply rbind_Ok in Hs as ([] & _ & ([] & _ & [= <-])%rbind_Ok). cbn. rewrite length_take. split_and!; try done; try lia.
    intros Hcut%Nat.ltb_ge. by rewrite take_ge by lia.
  - destruct ref as [ref|]; [|done]. intros (s & Hs & [= <- <- <-])%rbind_Ok. unfold make_segment in Hs.
    apply rbind_Ok in Hs as ([] & _ & ([] & _ & [= <-])%rbind_Ok). cbn. split_and!; done || lia.
Qed.

Lemma add_segment_ok seg chars cut s t c content ref : packing_ok s ->
  pack_one t c content ref (cf_pack_chars cf - pk_used s) = Ok (Some seg, chars, cut) -> packing_ok (add_segment seg chars cut s).
Proof.
  intros [Hu Hr Hh Ht] (_ & -> & Hc & _)%pack_one_Ok. split; cbn.
  - rewrite sum_chars_app. lia.
  - lia.
  - done.
  - rewrite omap_app, concat_app, <-Ht. cbn. unfold sg_content. destruct seg as [? ? [[|x l]|] ?]; cbn; rewrite ?app_nil_r, ?concat_app; cbn; rewrite ?app_nil_r; done.
Qed.
Lemma mark_ok b s : packing_ok s -> packing_ok (mark_truncated b s).
Proof. intros [? ? ? ?]. by split. Qed.
Lemma add_root_ok a s : packing_ok s -> packing_ok (add_root a s).
Proof. intros [? ? ? ?]. by split. Qed.

Lemma pack_root_Ok r s reached s' : packing_ok s -> pack_root cf r s = Ok (reached, s') ->
  packing_ok s' /\ pk_hits s' = pk_hits s /\ (pk_truncated s = true -> pk_truncated s' = true) /\
  exists l, pk_segments s' = pk_segments s ++ l.
Proof.
  intros Hs. unfold pack_root. case_bool_decide; [|intros [= <- <-]; split_and!; [done..|exists []; by rewrite app_nil_r]].
  destruct (rc_coordinate (rs_root r)) as [c|]; [|intros [= <- <-]; split_and!; [by apply mark_ok|done|cbn; by intros ->|exists []; by rewrite app_nil_r]].
  case_bool_decide; [intros [= <- <-]; split_and!; [done..|exists []; by rewrite app_nil_r]|].
  intros (p & Hp & [= <- <-])%rbind_Ok. destruct p as [[[seg|] chars] cut]; split_and!.
  - by eapply add_segment_ok; [apply add_root_ok|exact Hp].
  - done.
  - cbn. by intros ->.
  - by exists [seg].
  - by apply mark_ok, add_root_ok.
  - done.
  - cbn. by intros ->.
  - exists []. by rewrite app_nil_r.
Qed.

Lemma shown_app l l' r : shown l r -> shown (l ++ l') r.
Proof. intros (s & Hs & ?). exists s. split; [apply elem_of_app; by left|done]. Qed.

Lemma pack_loop_Ok rs s s' : packing_ok s -> pack_loop cf rs s = Ok s' ->
  packing_ok s' /\ (pk_truncated s = true -> pk_truncated s' = true) /\ pk_hits s' <= pk_hits s + Z.of_nat (length rs) /\
  (exists l, pk_segments s' = pk_segments s ++ l) /\
  (pk_truncated s' = false -> pk_hits s' = pk_hits s + Z.of_nat (length rs) /\ Forall (shown (pk_segments s')) rs).
Proof.
  revert s. induction rs as [|r rs IH]; intros s Hs; cbn [pack_loop].
  { intros [= <-]. split_and!; [done|done|cbn; lia|exists []; by rewrite app_nil_r|split; [cbn; lia|constructor]]. }
  destruct (Z.leb_spec (cf_pack_hits cf) (pk_hits s)).
  { intros [= <-]. split_and!; [by apply mark_ok|cbn; by intros ->|cbn; lia|exists []; by rewrite app_nil_r|]. cbn. by rewrite orb_true_r. }
  intros (p & Hp & Hrun)%rbind_Ok. destruct p as [[[seg|] chars] cut].
  2: { apply IH in Hrun as (H1 & H2 & H3 & H4 & H5); [|by apply mark_ok]. cbn [mark_truncated pk_hits pk_segments pk_truncated] in *. rewrite orb_true_r in H2.
       split_and!; [done|auto|cbn; lia|done|]. by rewrite H2. }
  pose proof (pack_one_Ok _ _ _ _ _ _ _ _ Hp) as (Hco & _ & _ & Hfull & Href).
  pose proof (add_segment_ok _ _ _ _ _ _ _ _ Hs Hp) as Hadd. set (s1 := count_hit (add_segment seg chars cut s)) in *.
  assert (packing_ok s1) as Hs1 by (destruct Hadd as [? ? ? ?]; split; cbn in *; try done; lia). cbn zeta in Hrun.
  set (s2 := if rs_granularity r =? 0 then add_root (gc_artifact (rs_coordinate r)) s1 else s1) in *.
  assert (packing_ok s2 /\ pk_hits s2 = pk_hits s + 1 /\ pk_truncated s2 = pk_truncated s || cut /\ pk_segments s2 = pk_segments s ++ [seg]) as (Hs2 & Eh & Et & Eg).
  { unfold s2. destruct (rs_granularity r =? 0); [split; [by apply add_root_ok|done]|done]. }
  apply rbind_Ok in Hrun as ([reached s3] & Hroot & Hrun). apply pack_root_Ok in Hroot as (Hs3 & Eh3 & Ht3 & l3 & Eg3); [|done].
  destruct (reached && _ && _).
  - injection Hrun as <-. split_and!; [by apply mark_ok|cbn; by intros Ht; rewrite Ht3 by (rewrite Et, Ht; done)|cbn; lia| |cbn; by rewrite orb_true_r].
    cbn. rewrite Eg3, Eg. exists ([seg] ++ l3). by rewrite app_assoc.
  - apply IH in Hrun as (H1 & H2 & H3 & (l & H4) & H5); [|done]. split_and!.
    + done.
    + intros Ht. apply H2, Ht3. by rewrite Et, Ht.
    + cbn. lia.
    + rewrite H4, Eg3, Eg. exists ([seg] ++ l3 ++ l). by rewrite !app_assoc.
    + intros Hf. destruct (H5 Hf) as [Hh Hall]. split; [cbn; lia|]. constructor; [|done].
      assert (cut = false) as ->.
      { destruct cut; [|done]. rewrite H2 in Hf; [done|]. apply Ht3. by rewrite Et, orb_true_r. }
      exists seg. split_and!; [|done|by apply Hfull|by intros Hn; apply Href].
      rewrite H4, Eg3, Eg. apply elem_of_app; left. apply elem_of_app; left. apply elem_of_app; right. by left.
Qed.
End packs.

Section pack_property.
Context {H : Host}.

(** C15: The context pack keeps its budget and tells.  A pack never holds more characters of
    content or more hits than configured, counts exactly the characters that it holds, its text
    is a join of texts that are together the contents of its segments in order, and when it
    does not say [truncated] every result is in it, with its own coordinate and its whole
    content. *)
Theorem pack_within_budget cf rs p (Hcf : settings_ok cf = true) (Hp : pack cf rs = Ok p) :
  0 <= pv_chars p <= cf_pack_chars cf /\ 0 <= pv_hits p <= cf_pack_hits cf /\ pv_hits p <= Z.of_nat (length rs) /\
  pv_chars p = sum_chars (pv_segments p) /\
  (exists ts, pv_text p = match ts with [] => None | _ => Some (str_join (u "

") ts) end /\ concat ts = concat (omap sg_content (pv_segments p))) /\
  (pv_truncated p = false -> pv_hits p = Z.of_nat (length rs) /\ Forall (shown (pv_segments p)) rs).
Proof.
  unfold pack in Hp. apply rbind_Ok in Hp as (s & Hs & [= <-]).
  assert (packing_ok cf (Build_packing [] [] 0 0 false [])) as H0.
  { unfold settings_ok in Hcf. rewrite !andb_true_iff, !Z.leb_le in Hcf. split; cbn; done || lia. }
  apply pack_loop_Ok in Hs as ([Hu Hr Hh Ht] & _ & Hlen & _ & Hfull); [|done]. cbn in *. split_and!; try done; try lia.
  - exists (pk_texts s). split; [|done]. by destruct (pk_texts s).
  - intros [Hf _]%orb_false_iff. by apply Hfull.
Qed.

(** White space is not alphanumeric, for Python as for Unicode. *)
Definition spaces_separate : Prop := forall c, isspace c = true -> isalnum c = false.

Lemma redact_go_safe (Hsp : spaces_separate) s : forall in_path prev b,
  (b = true -> in_path = false /\ may_begin prev = true) -> path_after b (redact_go in_path prev s) = false.
Proof.
  induction s as [|c s IH]; intros in_path prev b Hb; cbn [redact_go].
  - destruct b; [|done]. done.
  - destruct (in_path && (path_char c || (c =? 47) && next_path_char s)) eqn:E1.
    { apply andb_true_iff in E1 as [-> _]. destruct b; [by destruct (Hb eq_refl)|]. apply IH. done. }
    destruct ((c =? 47) && may_begin prev && next_path_char s) eqn:E2.
    { transitivity (path_after false (redact_go true (Some c) s)); [by destruct b|]. by apply IH. }
    cbn [path_after]. rewrite IH.
    + rewrite orb_false_r. apply not_true_iff_false. intros [Hbt Hh]%andb_true_iff. destruct (Hb Hbt) as [-> Hm].
      unfold path_here in Hh. destruct (Z.eqb_spec c 47) as [->|Hc].
      * rewrite Hm in E2. cbn in E2. destruct s as [|c2 s]; [done|]. cbn [next_path_char] in E2. cbn [redact_go] in Hh.
        cbn in Hh. rewrite andb_false_r in Hh. cbn in Hh. congruence.
      * destruct c as [|c|c]; try done. do 6 (destruct c as [c|c|]; try done).
    + intros Hc. split; [done|]. unfold may_begin. rewrite (Hsp _ Hc). unfold isspace in Hc. lia.
Qed.

(** No host path leaves the system.  Whatever text the body store returns, the redacted
    text that becomes the content of a result holds no absolute path, so that this check of
    the public contracts never rejects a document. *)
Theorem redacted_text_has_no_path s (Hsp : spaces_separate) : absolute_path (redact_paths s) = false.
Proof. by apply redact_go_safe. Qed.

Lemma strip_length q : (length (strip q) <= length q)%nat.
Proof.
  assert (forall p t, (length (drop_while p t) <= length t)%nat) as Hd.
  { intros p t. destruct (drop_while_suffix p t) as (pre & E & _). apply (f_equal length) in E. rewrite length_app in E. lia. }
  unfold strip, rstrip, lstrip. rewrite length_reverse. etrans; [apply Hd|]. rewrite length_reverse. apply Hd.
Qed.
Lemma optional_positive_Ok v otherwise z : 1 <= otherwise -> optional_positive v otherwise = Ok z -> 1 <= z.
Proof.
  intros Ho. unfold optional_positive. destruct (given v); [|by intros [= <-]]. destruct v; try done. cbn.
  intros ([] & Hz%ensure_Ok & [= <-])%rbind_Ok. lia.
Qed.

Lemma normalise_filter_key k v k' s schema :
  k ∈ (if ueqb schema V1 then LEGACY_FILTER_KEYS else FILTER_KEYS) -> normalise_filter k v = Ok (Some (k', s)) -> k' ∈ FILTER_KEYS.
Proof.
  intros Hk. unfold normalise_filter. destruct (is_none v); [done|]. intros (v' & _ & Hv)%rbind_Ok. destruct v' as [| | | |[|c t]| | |]; try done.
  apply rbind_Ok in Hv as (t' & _ & ([] & _ & ([] & _ & [= <- _])%rbind_Ok)%rbind_Ok).
  destruct (ueqb k (u "channel")) eqn:E; [by apply (bool_decide_unpack _); vm_compute|]. destruct (ueqb schema V1); [|done].
  unfold LEGACY_FILTER_KEYS in Hk. cbn [map] in Hk. rewrite !elem_of_cons, elem_of_nil in Hk.
  destruct Hk as [-> |[-> |[-> |[]]]]; [by apply (bool_decide_unpack _); vm_compute..|done].
Qed.

Lemma normalise_filters_Ok raw schema r : normalise_filters raw schema = Ok r ->
  Forall (fun kv => kv.1 ∈ FILTER_KEYS) r.1 /\ safe_public_data (PDict (map (fun kv => (kv.1, PStr kv.2)) r.1)) = true.
Proof.
  unfold normalise_filters. destruct raw as [| | | | | | |d]; try done; [intros [= <-]; by split; [constructor|]|].
  intros ([] & Hd%ensure_Ok & (r' & Hr & ([] & Hs%ensure_Ok & [= <-])%rbind_Ok)%rbind_Ok)%rbind_Ok. split; [|done]. clear Hs.
  rewrite forallb_forall in Hd. assert (forall kv, kv ∈ d -> kv.1 ∈ (if ueqb schema V1 then LEGACY_FILTER_KEYS else FILTER_KEYS)) as Hin.
  { intros kv Hkv%list_elem_of_In. by apply Hd, bool_decide_eq_true in Hkv. }
  clear Hd. assert (Forall (fun kv : ustr * ustr => kv.1 ∈ FILTER_KEYS) ([], false).1) as H0 by constructor. revert H0 Hr.
  generalize (@nil (ustr * ustr), false) as acc. induction d as [|[k v] d IH]; intros acc Hacc Hr; cbn [foldM] in Hr; [by injection Hr as <-|].
  apply rbind_Ok in Hr as (acc' & (f & Hf & [= <-])%rbind_Ok & Hr). eapply IH; [by intros; apply Hin; right| |exact Hr]. cbn in Hf.
  destruct f as [[k' s]|]; [|done]. cbn. eapply normalise_filter_key in Hf; [|apply (Hin (k, v)); by left].
  clear - Hacc Hf. destruct acc as [l b]. cbn [fst] in *. induction Hacc as [|[j t] l Hj Hl IH]; cbn [dset]; [constructor; [done|constructor]|]. destruct (ueqb j k'); by constructor.
Qed.

(** Accepted requests are bounded.  A request that passes normalisation asks for
    [1 <= return_k <= recall_k <= max_topk] results, carries a query of at most 8192 characters,
    a finite threshold, exactly one selector of a namespace and only registered filters that
    name no secret and no path. *)
Theorem normalise_request_sound cf r q (Hcf : settings_ok cf = true) (Hq : normalise_request cf r = Ok q) :
  1 <= si_return_k q <= si_recall_k q /\ si_recall_k q <= cf_max_topk cf /\ Z.of_nat (length (si_query q)) <= MAX_QUERY /\
  is_finite (si_threshold q) = true /\ (is_Some (si_namespace_key q) <-> si_namespace_uuid q = None) /\
  Forall (fun kv => kv.1 ∈ FILTER_KEYS) (si_filters q) /\ safe_public_data (PDict (map (fun kv => (kv.1, PStr kv.2)) (si_filters q))) = true /\
  (exists raw, validate_external_uuid raw = Ok (si_team q)).
Proof.
  unfold settings_ok in Hcf. rewrite !andb_true_iff, !Z.leb_le in Hcf. destruct Hcf as [_ Hthreshold].
  unfold normalise_request in Hq. apply rbind_Ok in Hq as ([] & _ & (team & Hteam & (query & Hquery & (k & Hk & (t & Ht & (schema & _ & Hq)%rbind_Ok)%rbind_Ok)%rbind_Ok)%rbind_Ok)%rbind_Ok).
  apply rbind_Ok in Hq as (fs & [Hf Hsafe]%normalise_filters_Ok & (ns & Hns & (b & _ & [= <-])%rbind_Ok)%rbind_Ok). cbn.
  unfold request_bounds in Hk. apply rbind_Ok in Hk as ([] & _ & (rk & Hrk%optional_positive_Ok & (ck & Hck%optional_positive_Ok & ([] & Hb%ensure_Ok & [= <-])%rbind_Ok)%rbind_Ok)%rbind_Ok); [|lia..].
  rewrite !andb_true_iff, !Z.leb_le in Hb. split_and!; cbn; try lia.
  - unfold request_query in Hquery. destruct (request_value r "query"); try done. apply rbind_Ok in Hquery as ([] & Hl%ensure_Ok & [= <-]).
    pose proof (strip_length s). lia.
  - unfold request_threshold, optional_float in Ht. destruct (given _); [by eapply as_finite_float_Ok|by injection Ht as <-].
  - unfold request_namespace in Hns. apply rbind_Ok in Hns as ([] & Hg%ensure_Ok & (key & Hkey & (id & Hid & ([] & Hboth%ensure_Ok & [= <-])%rbind_Ok)%rbind_Ok)%rbind_Ok).
    cbn. assert (given (request_value r "namespace_key") = bool_decide (is_Some key)) as E1.
    { destruct (request_value r "namespace_key"); try done; [by injection Hkey as <-|]. by apply rbind_Ok in Hkey as (? & _ & (? & _ & [= <-])%rbind_Ok). }
    assert (given (request_value r "namespace_uuid") = bool_decide (is_Some id)) as E2.
    { destruct (request_value r "namespace_uuid"); try done; [by injection Hid as <-|]. apply rbind_Ok in Hid as (? & _ & Hid).
      destruct (validate_external_uuid s); [by injection Hid as <-|done]. }
    rewrite E1, E2 in Hg. destruct key, id; try done; split; try done; by intros [? [=]].
  - done.
  - done.
  - unfold request_team in Hteam. destruct (request_value r "team_uuid"); try done. apply rbind_Ok in Hteam as ([] & _ & Hteam).
    destruct (validate_external_uuid s) eqn:E; [|done]. injection Hteam as <-. by exists s.
Qed.
End pack_property.

(** ** Runs *)

Module RetrievalSamples.
#[export] Existing Instance test_host.
#[export] Instance no_float_text : FloatText := {| float_of_text := fun _ => None |}.
Definition TEAM : ustr := u "0190a1b2-c3d4-7e5f-8a9b-0c1d2e3f4a5b".
Definition layer : layer_a := Build_layer_a (u "model") (u "key") (u "1") (u "deterministic") 2.
Definition F1 : bytes := [0; 0; 128; 63].
Definition F0 : bytes := [0; 0; 0; 0].
Definition record (unit channel : string) (v : bytes) : vector_row :=
  Build_vector_row TEAM (u "space") (u "artifact") (u "dual_channel_projection") (u unit) (u channel) (Some (u "item")) (Some (u "revision"))
    None layer (EV_blob v) (u "digest") true 1 false.
Definition proof : proof_row :=
  Build_proof_row (u "index.publication.v1") (u "v1") TEAM (u "item") (u "revision") (u "artifact") (u "dual_channel_projection") (u "space") layer 1 3 3 3.
Definition published : tables := {|
  t_teams := {[ TEAM := (u "active", false) ]};
  t_namespaces := {[ u "space" := Build_namespace_row TEAM (u "key") layer (u "cosine") (u "active") false ]};
  t_records := list_to_map [(u "r1", record "g1:a" "original" (F1 ++ F0)); (u "r2", record "g1:a" "summary" (F1 ++ F1)); (u "r3", record "g0:root" "original" (F0 ++ F1))];
  t_pointers := {[ (TEAM, u "item", u "space") := Build_pointer_row 1 (u "active") (Some (u "proof")) (Some (u "artifact")) ]};
  t_proofs := {[ u "proof" := proof ]};
  t_manifests := ∅;
  t_members := ∅;
  t_items := {[ u "item" := Build_item_row TEAM (u "source") (u "active") false (Some (u "revision")) ]};
  t_sources := {[ (TEAM, u "source") := u "inline_payload" ]};
  t_artifacts := {[ u "artifact" := Build_artifact_row TEAM (u "dual_channel_projection") (u "full_valid") None None 0 (u "digest") ]};
  t_facets := [];
  t_bindings := []
|}.
(** The item stops serving its revision. *)
Definition withdrawn : tables := {|
  t_teams := t_teams published; t_namespaces := t_namespaces published; t_records := t_records published; t_pointers := t_pointers published;
  t_proofs := t_proofs published; t_manifests := ∅; t_members := ∅;
  t_items := {[ u "item" := Build_item_row TEAM (u "source") (u "active") false None ]};
  t_sources := t_sources published; t_artifacts := t_artifacts published; t_facets := []; t_bindings := []
|}.
#[export] Instance sample_ports : Ports := {|
  inference_port := None;
  body_port := Some (fun _ _ unit channel => Ok (Some (PStr (u "text of " ++ unit ++ u " " ++ channel))));
  eligibility_port := None;
  scorer_port := None
|}.
Definition cf : settings := Build_settings false true 100 fzero 5 40 3 8000 1000.
Definition still (d : tables) : snapshots := Build_snapshots d d d d d d.
Definition fenced_late : snapshots := Build_snapshots published published published withdrawn published published.
Definition ask : request := R_mapping (fields [("team_uuid", PStr TEAM); ("query", PStr (u "alpha beta")); ("namespace_key", PStr (u "key"))]%string).
Definition outcome (s : snapshots) := search cf s ask.
End RetrievalSamples.
Import RetrievalSamples.
Abbreviation answer := (search cf (still published) ask).

Lemma results_are_published_witness :
  match answer with
  | Ok b => exists x j', x ∈ bu_results b /\ j' ∈ joined_rows published /\ vr_artifact (j_record j') = gc_artifact (rs_coordinate x)
  | Err _ => False
  end.
Proof.
  assert (match answer with Ok b => (length (bu_results b) =? 2)%nat | Err _ => false end = true) as Hlen by (vm_compute; reflexivity).
  revert Hlen. generalize (results_are_published cf (still published) ask).
  destruct answer as [b|e]; intros Hlaw Hlen; [|discriminate Hlen]. destruct (bu_results b) as [|x xs] eqn:E; [discriminate Hlen|].
  assert (x ∈ bu_results b) as Hx by (rewrite E; left).
  destruct (Hlaw b eq_refl x Hx) as (q & ns & n & j & j' & _ & _ & Hj & _ & _ & _ & _ & _ & _ & _ & _ & Hc & _).
  exists x, j. split; [left|]. split; [exact Hj|]. exact (eq_sym (f_equal fst Hc)).
Defined.

Lemma answer_is_ranked_witness :
  match answer with
  | Ok b => length (bu_results b) = 2%nat /\ StronglySorted (fun x y => fle (rs_score y) (rs_score x) = true) (bu_results b)
  | Err _ => False
  end.
Proof.
  assert (match answer with Ok b => length (bu_results b) | Err _ => 0%nat end = 2%nat) as Hlen by (vm_compute; reflexivity).
  revert Hlen. generalize (answer_is_ranked cf (still published) ask).
  destruct answer as [b|e]; intros Hlaw Hlen; [|discriminate Hlen]. split; [exact Hlen|].
  destruct (Hlaw b eq_refl) as (_ & _ & Hs & _). exact Hs.
Defined.

Abbreviation sample_result text :=
  (Build_search_result fone fone None (u "original") (Some text) None (Some text) None (Build_coordinate_of_unit (u "artifact") (u "unit") 1 (u "original")) 1
     (refs_of (hit_of (Build_joined (u "r1") (record "g1:a" "original" F0) (u "item") None (Build_namespace_row TEAM (u "key") layer (u "cosine") (u "active") false)
        (Build_pointer_row 1 (u "active") None None) (u "proof") proof None (Build_item_row TEAM (u "s") (u "active") false None) None
        (Build_artifact_row TEAM (u "t") (u "d") None None 0 []))))
     T_not_needed Focus_fragment [] (no_root I_not_requested)).
Abbreviation two_texts := [sample_result (u "twenty-four characters.."); sample_result (u "another twenty-four chars")].

Lemma pack_within_budget_witness :
  match pack cf two_texts with
  | Ok p => pv_chars p = 40 /\ pv_truncated p = true /\ 0 <= pv_chars p <= cf_pack_chars cf /\ pv_chars p = sum_chars (pv_segments p)
  | Err _ => False
  end.
Proof.
  assert (settings_ok cf = true) as Hcf by (vm_compute; reflexivity).
  assert (match pack cf two_texts with Ok p => (pv_chars p, pv_truncated p) | Err _ => (0, false) end = (40, true)) as Hlen by (vm_compute; reflexivity).
  revert Hlen. generalize (pack_within_budget cf two_texts). destruct (pack cf two_texts) as [p|e]; intros Hlaw Hlen; [|discriminate Hlen].
  destruct (Hlaw p Hcf eq_refl) as (Hc & _ & _ & Hsum & _). injection Hlen as Hchars Htr. split; [exact Hchars|]. split; [exact Htr|]. split; [exact Hc|exact Hsum].
Defined.

Lemma redacted_text_has_no_path_witness :
  spaces_separate (H := test_host) /\ redact_paths (H := test_host) (u "see /etc/passwd, a/b and https://x/y") = u "see [redacted-path], a/b and https://x/y" /\
  absolute_path (H := test_host) (u "see /etc/passwd, a/b and https://x/y") = true /\
  absolute_path (H := test_host) (redact_paths (H := test_host) (u "see /etc/passwd, a/b and https://x/y")) = false.
Proof.
  assert (spaces_separate (H := test_host)) as Hsp by (intros c; unfold isspace; cbn; lia).
  split; [exact Hsp|]. split; [vm_compute; reflexivity|]. split; [vm_compute; reflexivity|]. exact (redacted_text_has_no_path (H := test_host) _ Hsp).
Defined.

Lemma normalise_request_sound_witness :
  match normalise_request cf ask with
  | Ok q => 1 <= si_return_k q <= si_recall_k q /\ is_finite (si_threshold q) = true
  | Err _ => False
  end.
Proof.
  assert (settings_ok cf = true) as Hcf by (vm_compute; reflexivity).
  assert (is_ok (normalise_request cf ask) = true) as Hok by (vm_compute; reflexivity).
  revert Hok. generalize (normalise_request_sound cf ask). destruct (normalise_request cf ask) as [q|e]; intros Hlaw Hok; [|discriminate Hok].
  destruct (Hlaw q Hcf eq_refl) as (Hk & _ & _ & Hf & _). split; [exact Hk|exact Hf].
Defined.
