(* ===== verification/HydrationLaws.v ===== *)
(** * What construct writes, retrieval reads

    Theorems about [RetrievalAccess.v]: the channel texts of a construction, serialized,
    promoted and recorded, are what hydration returns; hydrated bytes are proved by their
    digests; the request cache changes no answer; batches change no eligibility. *)

From S2P Require Import Prelude PyText PyValue Txn PyFloat Json JsonLaws ObjectStore RetrievalTables RetrievalAccess.
From S2P Require Import LayeredContent CompilerIR CompilerValidate CompilerAdopt CompilerConstruct.

Open Scope Z_scope.
Open Scope mkb_scope.

(** ** Units *)

Section units.
Context {H : Host} {HL : HostLaws H} {F : FloatText}.

(** The unit of a stored projection, with its keys in the order of its canonical text. *)
Definition stored_unit (c : ConstructionUnit) : pyval :=
  obj [("granularity", PInt (cu_granularity c)); ("original", PStr (ch_body (cu_original c)));
       ("original_digest", PStr (ch_body_digest (cu_original c))); ("summary", PStr (ch_body (cu_summary c)));
       ("summary_digest", PStr (ch_body_digest (cu_summary c))); ("unit_id", PStr (cu_id c))]%string.
Definition stored_projection (d : DualChannelProjection) : pyval :=
  obj [("generation_artifact_uuid", PStr (du_generation d)); ("recipe_version", PStr (u "content_full.v1"));
       ("schema_version", PStr DUAL_CHANNEL_PROJECTION_SCHEMA); ("units", PList (map stored_unit (du_units d)))]%string.

Lemma reread_payload d : reread (dual_channel_payload d) = stored_projection d.
Proof.
  unfold dual_channel_payload, stored_projection. cbn [reread obj map fst snd]. rewrite map_map.
  rewrite (map_ext _ stored_unit); [vm_compute; reflexivity|]. intros c. vm_compute. reflexivity.
Qed.

Definition as_unit (c : ConstructionUnit) : projection_unit :=
  Build_projection_unit (cu_id c) (cu_granularity c) [(u "original", ch_body (cu_original c)); (u "summary", ch_body (cu_summary c))].

(** What hydration can deliver: identifiers without control characters, texts within the
    budget of a channel. *)
Definition code_points (s : ustr) : bool := forallb (fun c => 0 <=? c) s.
Definition deliverable (c : ConstructionUnit) : bool :=
  safe_identifier (cu_id c) MAX_UNIT_ID_LENGTH
  && forallb (fun t => code_points t && (Z.of_nat (length t) <=? MAX_CHANNEL_CHARS)) [ch_body (cu_original c); ch_body (cu_summary c)].
(** The receipts of a unit are the digests of its texts. *)
Definition receipted (c : ConstructionUnit) : Prop :=
  0 <= cu_granularity c <= 2 /\
  text_digest (ch_body (cu_original c)) = Ok (ch_body_digest (cu_original c)) /\
  text_digest (ch_body (cu_summary c)) = Ok (ch_body_digest (cu_summary c)).

Lemma text_digest_is_digest t dg : text_digest t = Ok dg -> is_digest dg = true.
Proof. intros (b & _ & [= <-])%rbind_Ok. apply sha256_digest. Qed.

Lemma compare_same dg : is_digest dg = true -> compare_digest dg dg = Ok true.
Proof.
  intros Hd%is_digest_ascii. unfold compare_digest. replace (forallb (fun c => c <? 128) dg) with true.
  { cbn. by rewrite ueqb_refl. }
  symmetry. apply forallb_forall. intros c Hc%list_elem_of_In. rewrite Forall_forall in Hd. specialize (Hd c Hc). cbn in Hd. lia.
Qed.

Lemma check_receipt_Ok d t key dg :
  get d key = PStr dg -> text_digest t = Ok dg -> check_receipt d t key = Ok tt.
Proof.
  intros Hk Ht. pose proof (text_digest_is_digest _ _ Ht) as Hd. unfold check_receipt. rewrite Hk.
  assert (length dg = 64%nat) as -> by (unfold is_digest in Hd; apply andb_true_iff in Hd as [Hd _]; by apply Nat.eqb_eq).
  cbn [Nat.eqb ensure rbind]. unfold text_digest in Ht. rewrite Ht. cbn [rbind]. by rewrite compare_same.
Qed.

Lemma parse_stored_unit c : deliverable c = true -> receipted c -> parse_direct_channel_unit (stored_unit c) = Ok (as_unit c).
Proof.
  intros Hd (Hg & Ho & Hs). unfold deliverable in Hd. apply andb_true_iff in Hd as [Hid Ht].
  cbn [forallb] in Ht. rewrite !andb_true_iff in Ht. destruct Ht as ([_ Hlo] & [_ Hls] & _).
  unfold parse_direct_channel_unit, stored_unit, obj. cbv iota.
  set (d := map _ _). assert (keys_are d DIRECT_KEYS = true) as -> by reflexivity. cbn [ensure rbind].
  change (get d "unit_id") with (PStr (cu_id c)). cbn [parse_unit_id]. rewrite Hid. cbn [ensure rbind].
  change (get d "granularity") with (PInt (cu_granularity c)). cbn [parse_granularity].
  replace ((0 <=? cu_granularity c) && (cu_granularity c <=? 2)) with true by lia. cbn [ensure rbind].
  change (get d "original") with (PStr (ch_body (cu_original c))). change (get d "summary") with (PStr (ch_body (cu_summary c))). cbv iota.
  rewrite Hlo, Hls. cbn [andb ensure rbind].
  rewrite (check_receipt_Ok d _ "original_digest" _ eq_refl Ho). cbn [rbind].
  by rewrite (check_receipt_Ok d _ "summary_digest" _ eq_refl Hs).
Qed.

Lemma add_units cs parsed :
  NoDup (map cu_id cs) -> (forall c, c ∈ cs -> cu_id c ∉ parsed.*1) ->
  Forall (fun c => deliverable c = true /\ receipted c) cs ->
  foldM (add_unit parse_direct_channel_unit) parsed (map stored_unit cs) = Ok (parsed ++ map (fun c => (cu_id c, as_unit c)) cs).
Proof.
  revert parsed. induction cs as [|c cs IH]; intros parsed Hnd Hfresh Hcs; [by rewrite app_nil_r|].
  cbn [map] in *. apply NoDup_cons in Hnd as [Hc Hnd]. inversion Hcs as [|? ? [Hd Hr] Hcs']; subst.
  cbn [foldM]. unfold add_unit at 1. rewrite parse_stored_unit by done. cbn [rbind]. change (pu_id (as_unit c)) with (cu_id c).
  assert (cu_id c ∉ parsed.*1) as Hnew by (apply Hfresh; left).
  replace (dmem parsed (cu_id c)) with false by (symmetry; apply not_true_is_false; by rewrite dmem_spec).
  cbn [negb ensure rbind]. rewrite dset_fresh by done. rewrite IH; [by rewrite <-app_assoc|done| |done].
  intros c' Hc'. rewrite fmap_app. cbn. apply not_elem_of_app. split; [apply Hfresh; by right|].
  intros E%list_elem_of_singleton. apply Hc. apply list_elem_of_fmap. by exists c'.
Qed.

Lemma units_of_stored d :
  NoDup (map cu_id (du_units d)) -> Forall (fun c => deliverable c = true /\ receipted c) (du_units d) ->
  exists p, projection_from_document (stored_projection d) (du_generation d) = Ok p /\
    units_of p (du_generation d) = Ok (map (fun c => (cu_id c, as_unit c)) (du_units d)).
Proof.
  intros Hnd Hcs. unfold stored_projection, obj. set (p := map _ _). exists p. split; [reflexivity|].
  unfold units_of. change (get p "generation_artifact_uuid") with (PStr (du_generation d)). cbn [is_none is_text orb].
  rewrite ueqb_refl. cbn [ensure rbind]. change (get p "units") with (PList (map stored_unit (du_units d))). cbv iota.
  change (dmem p (u "recipe_version")) with true. cbv iota. rewrite add_units; [done|done| |done].
  intros c _. apply not_elem_of_nil.
Qed.

Lemma dget_units cs c : NoDup (map cu_id cs) -> c ∈ cs -> dget (map (fun c => (cu_id c, as_unit c)) cs) (cu_id c) = Some (as_unit c).
Proof.
  intros Hnd Hc. apply dget_elem.
  - unfold dict_wf. rewrite <-list_fmap_compose. exact Hnd.
  - apply list_elem_of_fmap. by exists c.
Qed.

Lemma readable_text t : code_points t = true -> readable (PStr t) = true.
Proof. done. Qed.
Lemma digest_code_points t dg : text_digest t = Ok dg -> code_points dg = true.
Proof.
  intros Hd%text_digest_is_digest%is_digest_ascii. apply forallb_forall. intros c Hc%list_elem_of_In.
  rewrite Forall_forall in Hd. specialize (Hd c Hc). cbn in Hd. lia.
Qed.
Lemma safe_code_points s most : safe_identifier s most = true -> code_points s = true.
Proof.
  unfold safe_identifier. intros [_ Hs]%andb_true_iff. apply forallb_forall. intros c Hc. rewrite forallb_forall in Hs. specialize (Hs c Hc). cbn in Hs. lia.
Qed.

(** The unit as it is written. *)
Definition written_unit (c : ConstructionUnit) : pyval :=
  obj [("unit_id", PStr (cu_id c)); ("granularity", PInt (cu_granularity c));
       ("original", PStr (ch_body (cu_original c))); ("summary", PStr (ch_body (cu_summary c)));
       ("original_digest", PStr (ch_body_digest (cu_original c))); ("summary_digest", PStr (ch_body_digest (cu_summary c)))]%string.
Lemma readable_unit c : deliverable c = true -> receipted c ->
  readable (written_unit c) = true /\ height (written_unit c) = 1%nat.
Proof.
  intros Hd (Hg & Ho & Hs). unfold deliverable in Hd. apply andb_true_iff in Hd as [Hid Ht].
  cbn [forallb] in Ht. rewrite !andb_true_iff in Ht. destruct Ht as ([Hpo _] & [Hps _] & _).
  split; [|reflexivity]. unfold written_unit, obj. cbn [readable map forallb fst snd].
  rewrite bool_decide_eq_true_2; [|apply (bool_decide_eq_true_1 _); reflexivity].
  apply safe_code_points in Hid. apply digest_code_points in Ho, Hs. unfold code_points in *.
  rewrite Hid, Ho, Hs, Hpo, Hps.
  assert (cu_granularity c = 0 \/ cu_granularity c = 1 \/ cu_granularity c = 2) as [-> |[-> | ->]] by lia; reflexivity.
Qed.
Lemma readable_payload d :
  code_points (du_generation d) = true -> Forall (fun c => deliverable c = true /\ receipted c) (du_units d) ->
  readable (dual_channel_payload d) = true /\ (height (dual_channel_payload d) <= 3)%nat.
Proof.
  intros Hg Hcs. change (dual_channel_payload d) with
    (obj [("schema_version", PStr (u "mkb.dual-channel-projection.v1")); ("generation_artifact_uuid", PStr (du_generation d));
          ("recipe_version", PStr (u "content_full.v1")); ("units", PList (map written_unit (du_units d)))]%string).
  assert (Forall (fun v => readable v = true /\ height v = 1%nat) (map written_unit (du_units d))) as Hu.
  { apply Forall_map. eapply Forall_impl; [exact Hcs|]. intros c [Hd Hr]. by apply readable_unit. }
  revert Hu. generalize (map written_unit (du_units d)). intros l Hu. split.
  - unfold obj. cbn [readable map forallb fst snd]. rewrite bool_decide_eq_true_2; [|apply (bool_decide_eq_true_1 _); reflexivity].
    unfold code_points in Hg. rewrite Hg.
    replace (forallb readable l) with true; [reflexivity|]. symmetry. apply forallb_forall. intros v Hv%list_elem_of_In.
    rewrite Forall_forall in Hu. by apply Hu.
  - unfold obj. cbn [height map foldr fst snd]. assert (foldr max 0 (map height l) <= 1)%nat; [|lia].
    clear -Hu. induction Hu as [|v l [_ Hv] Hu IH]; cbn; lia.
Qed.
End units.

(** ** Hydration *)

Section hydration.
Context {H : Host} {HL : HostLaws H} {F : FloatText}.

Lemma handle_shape_value team digest d : digest_from_handle team (handle_value team digest) = Ok d -> handle_shape (handle_value team digest) = true.
Proof.
  unfold digest_from_handle, handle_groups, handle_shape, handle_value. intros Hd.
  replace (starts_with HANDLE_PREFIX (HANDLE_PREFIX ++ team ++ u ":" ++ digest)) with true by (symmetry; apply starts_with_spec; eauto).
  rewrite drop_app_length in *. cbn [andb]. destruct (_ && _) eqn:E in Hd; [|done].
  rewrite !andb_true_iff in E. destruct E as [[[[_ Hlen] Hteam] Hsep] Hdig]. apply Nat.eqb_eq in Hlen.
  destruct (ueqb _ team) eqn:Et in Hd; [|done]. apply ueqb_eq in Et. rewrite Et in Hteam, Hlen.
  assert (drop 37 (team ++ u ":" ++ digest) = digest) as E37.
  { rewrite app_assoc. apply drop_app_length'. rewrite length_app, Hlen. done. }
  rewrite E37 in Hdig. destruct team as [|x team]; [done|]. cbn [app]. change (x :: team ++ u ":" ++ digest) with ((x :: team) ++ u ":" ++ digest).
  rewrite !forallb_app. rewrite !andb_true_iff. split_and!.
  - apply forallb_forall. intros c Hc. rewrite forallb_forall in Hteam. specialize (Hteam c Hc). unfold ObjectStore.uuid_char, is_lower_hex, handle_char in *. lia.
  - reflexivity.
  - unfold is_digest in Hdig. apply andb_true_iff in Hdig as [_ Hx]. apply forallb_forall. intros c Hc. rewrite forallb_forall in Hx. specialize (Hx c Hc).
    unfold is_lower_hex, handle_char in *. lia.
Qed.

Lemma parse_stored depth max d b :
  canonical_json (dual_channel_payload d) = Ok b -> (3 <= depth)%nat -> Z.of_nat (length b) <= max ->
  code_points (du_generation d) = true -> NoDup (map cu_id (du_units d)) ->
  Forall (fun c => deliverable c = true /\ receipted c) (du_units d) ->
  parse_projection depth max b (du_generation d) = Ok (map (fun c => (cu_id c, as_unit c)) (du_units d)).
Proof.
  intros Hb Hdepth Hmax Hg Hnd Hcs. destruct (readable_payload d Hg Hcs) as [Hr Hh].
  apply rbind_Ok in Hb as (t & Ht & Hb). apply utf8_decode_encode in Hb.
  unfold parse_projection. replace (Z.of_nat (length b) <=? max) with true by lia. cbn [ensure rbind]. rewrite Hb. cbn [rbind].
  rewrite (loads_text _ _ _ _ strict_keeps Hr (Nat.le_trans _ _ _ Hh Hdepth) Ht). cbn [rbind]. rewrite reread_payload.
  destruct (units_of_stored d Hnd Hcs) as (p & -> & Hu). cbn [rbind]. exact Hu.
Qed.

(** The ledger row that records a promoted object. *)
Definition records (a : artifact_row) (st : object_stat) : Prop :=
  ar_handle a = Some (os_handle st) /\ ar_size a = os_size st /\ ar_digest a = os_sha256 st /\ json_media (ar_media a) = true.

Lemma load_promoted depth max limit b rq s st store d tb a :
  promote limit b rq s = Ok (st, store) ->
  (forall old, c_live s !! (pq_team rq, sha256_hex b) = Some old -> old = b) ->
  is_ok (digest_from_handle (pq_team rq) (os_handle st)) = true ->
  projection_artifact tb (pq_team rq) (du_generation d) = Some a -> records a st ->
  canonical_json (dual_channel_payload d) = Ok b -> (3 <= depth)%nat -> Z.of_nat (length b) <= max ->
  code_points (du_generation d) = true -> NoDup (map cu_id (du_units d)) ->
  Forall (fun c => deliverable c = true /\ receipted c) (du_units d) ->
  load_units depth max tb store (pq_team rq) (du_generation d) = Ok (Some (map (fun c => (cu_id c, as_unit c)) (du_units d))).
Proof.
  intros Hp Hold Hok Ha (Hah & Haz & Had & Ham) Hb Hdepth Hmax Hg Hnd Hcs.
  apply promote_stream_Ok in Hp as (Est & _ & _ & _ & (b' & Hb' & _) & Hlive). cbn [concat] in *. rewrite app_nil_r in *.
  rewrite Est in *. cbn [os_handle os_size os_sha256] in *.
  assert (c_live store !! (pq_team rq, sha256_hex b) = Some b) as Hread.
  { destruct Hlive as [-> |[_ ->]]; [|by rewrite lookup_insert_eq]. pose proof (Hold _ Hb') as ->. exact Hb'. }
  destruct (digest_from_handle _ _) as [dg|] eqn:Edg; [|done]. pose proof (digest_of_handle _ _ _ Edg) as ->.
  unfold load_units. rewrite Ha, Haz, Ham, Hah. unfold size_of. replace (0 <=? Z.of_nat (length b)) with true by lia.
  replace (Z.of_nat (length b) <=? max) with true by lia. cbn [ensure rbind default from_option id]. rewrite (handle_shape_value _ _ _ Edg). cbn [ensure rbind].
  unfold read_verified. rewrite Edg. cbn [rbind]. rewrite Hread, ueqb_refl. cbn [ensure rbind]. rewrite Z.eqb_refl. cbn [ensure rbind].
  rewrite Had, compare_same by apply sha256_digest. cbn [rbind ensure].
  by rewrite (parse_stored depth max d b).
Qed.
End hydration.

(** ** Properties *)

Section properties.
Context {H : Host} {HL : HostLaws H} {F : FloatText}.

Lemma constructed_receipts structure projection clean gen dual_uuid summaries headers recipe req doc dual :
  construct structure projection clean gen dual_uuid summaries headers recipe req = Ok (doc, dual) ->
  du_units dual = cd_units doc /\ NoDup (map cu_id (cd_units doc)) /\ Forall receipted (cd_units doc).
Proof.
  unfold construct. intros (? & Hv & Hc)%rbind_Ok. destruct x. apply validate_structure_inv in Hv.
  destruct (sv_blocks _ _ _ _ Hv) as [Hblocks Hnd]. inv_res. cbn [du_units cd_units].
  match goal with Hx : mapM _ (rp_blocks projection) = Ok _ |- _ => apply mapM_Ok in Hx; rename Hx into Hm end.
  clear -Hm Hblocks Hnd HL. split; [done|]. revert Hblocks Hnd. induction Hm as [|b c bs cs Hb Hbs IH]; intros Hblocks Hnd; [split; constructor|].
  inversion Hblocks as [|? ? Hba Hblocks']; subst. cbn [map] in *. apply NoDup_cons in Hnd as [Hn Hnd].
  destruct (IH Hblocks' Hnd) as [IHn IHr].
  assert (cu_id c = rb_id b /\ receipted c) as [Hid Hr].
  { unfold construct_unit in Hb. destruct (default _ _); try done. inv_res. cbn. split; [done|].
    unfold receipted. cbn. split_and!; [apply (ba_granularity _ _ _ Hba)|apply (ba_granularity _ _ _ Hba)|apply (ba_digest _ _ _ Hba)|done]. }
  split; constructor; auto. rewrite Hid. intros (c' & E & Hc')%list_elem_of_fmap. apply Hn.
  clear -Hbs E Hc'. induction Hbs as [|b' c2 bs cs Hb' Hbs IH]; [by apply not_elem_of_nil in Hc'|].
  apply elem_of_cons in Hc' as [-> |Hc']; cbn [map]; [|right; by apply IH]. rewrite E.
  unfold construct_unit in Hb'. destruct (default _ _); try done. inv_res. cbn. left.
Qed.

Definition body (t : ustr) (g : Z) : pyval := obj [("content", PStr t); ("granularity", PInt g)]%string.

(** C25: What construct writes, retrieval reads, within the limits of hydration.  Suppose the
    projection of a construction is serialized, promoted to the object store (over no other
    bytes of the same digest) and recorded in the artifact ledger, and it is within what
    hydration admits and [construct] does not itself enforce: the identifiers of the team, of
    the generation and of the units are not empty, without control characters and of at most
    128, 128 and 512 characters; the texts of both channels have at most 8388608 characters;
    and the serialized projection is within the byte budget of hydration (with JSON that may
    nest three deep).  Then hydration returns for every unit of the construction the exact
    texts of both its channels with its granularity, and nothing for any other unit. *)
Theorem construction_is_hydrated structure projection clean gen dual_uuid summaries headers recipe req doc dual
    limit b rq s st store depth max tb a
    (Hc : construct structure projection clean gen dual_uuid summaries headers recipe req = Ok (doc, dual))
    (Hb : canonical_json (dual_channel_payload dual) = Ok b)
    (Hp : promote limit b rq s = Ok (st, store)) (Hok : is_ok (digest_from_handle (pq_team rq) (os_handle st)) = true)
    (Hold : forall old, c_live s !! (pq_team rq, sha256_hex b) = Some old -> old = b)
    (Ha : projection_artifact tb (pq_team rq) (du_generation dual) = Some a) (Hrec : records a st)
    (Hdepth : (3 <= depth)%nat) (Hmax : Z.of_nat (length b) <= max)
    (Hsafe : safe_identifier (pq_team rq) 128 && safe_identifier (du_generation dual) 128 && forallb deliverable (cd_units doc) = true) :
  let load := load_retrieval_body depth max tb store None (pq_team rq) (du_generation dual) in
  Forall (fun c => load (cu_id c) (u "original") = Ok (Some (body (ch_body (cu_original c)) (cu_granularity c)), None) /\
                   load (cu_id c) (u "summary") = Ok (Some (body (ch_body (cu_summary c)) (cu_granularity c)), None)) (cd_units doc) /\
  forall unit channel, unit ∉ map cu_id (cd_units doc) -> load unit channel = Ok (None, None).
Proof.
  destruct (constructed_receipts _ _ _ _ _ _ _ _ _ _ _ Hc) as (Hu & Hnd & Hr).
  rewrite !andb_true_iff in Hsafe. destruct Hsafe as [[Hteam Hgen] Hdel].
  assert (Forall (fun c => deliverable c = true /\ receipted c) (du_units dual)) as Hcs.
  { rewrite Hu. apply Forall_and. split; [|done]. apply Forall_forall. intros c Hin%list_elem_of_In. rewrite forallb_forall in Hdel. by apply Hdel. }
  rewrite <-Hu in *.
  pose proof (load_promoted depth max limit b rq s st store dual tb a Hp Hold Hok Ha Hrec Hb Hdepth Hmax (safe_code_points _ _ Hgen) Hnd Hcs) as Hload.
  assert (forall unit channel, load_retrieval_body depth max tb store None (pq_team rq) (du_generation dual) unit channel =
    Ok (if request_safe (pq_team rq) (du_generation dual) unit channel
        then select_body (map (fun c => (cu_id c, as_unit c)) (du_units dual)) unit channel else None, None)) as Hrun.
  { intros unit channel. unfold load_retrieval_body. destruct (request_safe _ _ _ _); [|done]. cbn [negb mbind option_bind]. by rewrite Hload. }
  intros load. unfold load. split.
  - rewrite Forall_forall in Hcs. apply Forall_forall. intros c Hin. destruct (Hcs c Hin) as [Hd _].
    assert (safe_identifier (cu_id c) MAX_UNIT_ID_LENGTH = true) as Hid by (unfold deliverable in Hd; by apply andb_true_iff in Hd as [? _]).
    rewrite !Hrun. unfold request_safe. rewrite Hteam, Hgen, Hid. unfold select_body. rewrite (dget_units _ _ Hnd Hin).
    split; reflexivity.
  - intros unit channel Hn. rewrite Hrun. destruct (request_safe _ _ _ _); [|done]. unfold select_body.
    rewrite (proj2 (dget_None _ unit)); [done|]. by rewrite <-list_fmap_compose.
Qed.

(** Hydrated bodies are proved.  A body that hydration returns without a cache stands in a
    projection that parses from bytes of the requesting team's own store, whose length and
    SHA-256 are those of the ledger row of that team's fully valid artifact. *)
Theorem hydrated_body_is_proved depth max tb store team generation unit channel v c
    (Hl : load_retrieval_body depth max tb store None team generation unit channel = Ok (Some v, c)) :
  exists a data us, projection_artifact tb team generation = Some a /\
    c_live store !! (team, sha256_hex data) = Some data /\
    sha256_hex data = ar_digest a /\ Z.of_nat (length data) = ar_size a /\ Z.of_nat (length data) <= max /\
    parse_projection depth max data generation = Ok us /\ select_body us unit channel = Some v.
Proof.
  unfold load_retrieval_body in Hl. destruct (negb _); [done|]. cbn [mbind option_bind] in Hl.
  apply rbind_Ok in Hl as (found & Hf & [= Hv]). destruct found as [us|]; [|done]. injection Hv as Hv _.
  unfold load_units in Hf. destruct (projection_artifact tb team generation) as [a|] eqn:Ea; [|done].
  apply rbind_Ok in Hf as ([] & _ & ([] & Hmax%ensure_Ok & ([] & _ & ([] & _ & Hf)%rbind_Ok)%rbind_Ok)%rbind_Ok).
  apply rbind_Ok in Hf as (data & Hr & ([] & Hsz%ensure_Ok & (same & Hs & ([] & Hsame%ensure_Ok & (us' & Hp & [= ->])%rbind_Ok)%rbind_Ok)%rbind_Ok)%rbind_Ok).
  apply rbind_Ok in Hs as ([] & _ & [= <-]). apply ueqb_eq in Hsame.
  unfold read_verified in Hr. apply rbind_Ok in Hr as (dg & _ & Hr). destruct (c_live store !! (team, dg)) as [data'|] eqn:El; [|done].
  apply rbind_Ok in Hr as ([] & Hdg%ensure_Ok & [= <-]). apply ueqb_eq in Hdg.
  exists a, data', us. rewrite Hdg. split_and!; [done|done|by rewrite <-Hdg|lia|lia|done|done].
Qed.

(** A cache that holds what the store holds. *)
Definition coherent (depth : nat) (max : Z) (tb : tables) (store : cas) (c : option cache) : Prop :=
  forall (m : cache) (team generation : ustr) us, c = Some m -> m !! (team, generation) = Some us -> load_units depth max tb store team generation = Ok (Some us).

(** The request cache is transparent.  Starting from a cache that agrees with the store,
    every request returns what it returns without a cache, and leaves such a cache. *)
Theorem cache_is_transparent depth max tb store c team generation unit channel (Hc : coherent depth max tb store c) :
  match load_retrieval_body depth max tb store c team generation unit channel,
        load_retrieval_body depth max tb store None team generation unit channel with
  | Ok (v, c'), Ok (w, None) => v = w /\ coherent depth max tb store c'
  | Err e, Err f => e = f
  | _, _ => False
  end.
Proof.
  unfold load_retrieval_body. destruct (negb _); [done|]. cbn [mbind option_bind].
  destruct c as [m|]; cbn [mbind option_bind].
  2: { destruct (load_units _ _ _ _ _ _) as [[us|]|]; cbn [rbind fmap option_map]; done. }
  destruct (m !! (team, generation)) as [us|] eqn:Em.
  - rewrite (Hc m _ _ _ eq_refl Em). cbn. done.
  - destruct (load_units depth max tb store team generation) as [[us|]|] eqn:El; cbn [rbind fmap option_fmap option_map]; [|done|done].
    split; [done|]. intros m' team' generation' us' [= <-]. rewrite lookup_insert_Some. intros [[[= <- <-] <-]|[_ Hm]]; [done|].
    by apply (Hc m).
Qed.
End properties.

(** ** Eligibility *)

Section eligibility.

Definition safe_coordinate (c : coordinate) : bool :=
  safe_identifier (co_record c) 512 && safe_identifier (co_item c) 512 && safe_identifier (co_revision c) 512.
(** The only coordinate that a batch submits for its record. *)
Definition sole (l : list coordinate) (c : coordinate) : Prop :=
  c ∈ l /\ safe_coordinate c = true /\ forall c', c' ∈ l -> safe_coordinate c' = true -> co_record c' = co_record c -> c' = c.

Lemma dict_wf_dset {V} (d : list (ustr * V)) k v : dict_wf d -> dict_wf (dset d k v).
Proof.
  unfold dict_wf. intros Hd. destruct (dmem d k) eqn:E; [by rewrite dset_keys|].
  assert (k ∉ d.*1) as Hk by (intros Hk; apply dmem_spec in Hk; congruence). rewrite dset_fresh by done.
  rewrite fmap_app. apply NoDup_app. split_and!; [done| |cbn; repeat constructor; apply not_elem_of_nil].
  intros x Hx ->%list_elem_of_singleton. done.
Qed.
Lemma dict_wf_dpop {V} (d : list (ustr * V)) k : dict_wf d -> dict_wf (dpop d k).
Proof. unfold dict_wf, dpop. intros Hd. eapply sublist_NoDup; [exact Hd|]. apply fmap_sublist, sublist_filter. Qed.

Record submitted (l : list coordinate) (st : list (ustr * coordinate) * list ustr) : Prop := {
  sb_wf : dict_wf st.1;
  sb_sole : forall k c, dget st.1 k = Some c <-> co_record c = k /\ sole l c;
  sb_conflict : forall k, k ∈ st.2 <-> dget st.1 k = None /\ exists c, c ∈ l /\ safe_coordinate c = true /\ co_record c = k
}.

Lemma submitted_same l c st :
  (safe_coordinate c = true -> dget st.1 (co_record c) = None /\ co_record c ∈ st.2 \/ dget st.1 (co_record c) = Some c) ->
  submitted l st -> submitted (l ++ [c]) st.
Proof.
  intros Hc [Hwf Hs Hx]. split; [done| |].
  - intros k x. rewrite Hs. split; intros [Hk (Hin & Hsx & Hall)]; (split; [done|]).
    + split_and!; [by apply elem_of_app; left|done|]. intros c' [Hc'|Hc'%list_elem_of_singleton]%elem_of_app; [by apply Hall|]. subst c'.
      intros Hsafe Er. destruct (Hc Hsafe) as [[Hn _]|Hsome].
      * assert (dget st.1 (co_record x) = Some x) as E by (apply Hs; split; [done|by split_and!]). rewrite <-Er, Hn in E. done.
      * apply Hs in Hsome as [_ (Hcin & _)]. by apply Hall.
    + apply elem_of_app in Hin as [Hin|Hin%list_elem_of_singleton].
      * split_and!; [done|done|]. intros c' Hc' ? ?. apply Hall; [by apply elem_of_app; left|done|done].
      * subst x. destruct (Hc Hsx) as [[Hn Hconf]|Hsome]; [|by apply Hs in Hsome as [_ ?]].
        apply Hx in Hconf as [_ (c' & Hc' & Hs' & Er)].
        assert (c' = c) as -> by (apply Hall; [by apply elem_of_app; left|done|done]).
        split_and!; [done|done|]. intros c'' Hc'' ? ?. apply Hall; [by apply elem_of_app; left|done|done].
  - intros k. rewrite Hx. split; intros [Hn (x & Hin & Hsx & Er)]; (split; [done|]).
    + exists x. split_and!; [by apply elem_of_app; left|done|done].
    + apply elem_of_app in Hin as [Hin|Hin%list_elem_of_singleton]; [by exists x|]. subst x. subst k.
      destruct (Hc Hsx) as [[_ Hconf]|Hsome]; [by apply Hx in Hconf as [_ ?]|by rewrite Hn in Hsome].
Qed.

Lemma submit_step l c st : submitted l st -> submitted (l ++ [c]) (submit st c).
Proof.
  intros Hst. destruct st as [d x]. unfold submit. fold (safe_coordinate c).
  destruct (safe_coordinate c) eqn:Hsafe; cbn [negb]; [|apply submitted_same; [congruence|done]].
  destruct (dget d (co_record c)) as [p|] eqn:Ep.
  - destruct (proj1 (sb_sole _ _ Hst _ _) Ep) as [Epr (Hpin & Hps & Hpall)].
    destruct (ueqb (co_item p) (co_item c) && ueqb (co_revision p) (co_revision c)) eqn:Eq.
    + rewrite andb_true_iff, !ueqb_eq in Eq. destruct Eq as [E1 E2].
      assert (p = c) as -> by (destruct p, c; cbn in *; congruence). apply submitted_same; [by right|done].
    + assert (p <> c) as Hne by (intros ->; by rewrite !ueqb_refl in Eq).
      destruct Hst as [Hwf Hs Hx]. cbn [fst snd] in *. split; cbn [fst snd].
      * by apply dict_wf_dpop.
      * intros k y. destruct (decide (k = co_record c)) as [-> |Hk].
        -- rewrite dget_dpop_eq. split; [done|]. intros [Er (Hin & Hsy & Hall)].
           destruct Hne. trans y; [apply Hall; [by apply elem_of_app; left|done|congruence]|].
           symmetry. apply Hall; [apply elem_of_app; right; by left|done|congruence].
        -- rewrite dget_dpop_ne, Hs by congruence. split; intros [Er (Hin & Hsy & Hall)]; (split; [done|split_and!; [|done|]]).
           ++ apply elem_of_app. by left.
           ++ intros z [Hz|Hz%list_elem_of_singleton]%elem_of_app ? ?; [by apply Hall|congruence].
           ++ apply elem_of_app in Hin as [?|Hin%list_elem_of_singleton]; [done|congruence].
           ++ intros z Hz ? ?. apply Hall; [by apply elem_of_app; left|done|done].
      * intros k. rewrite elem_of_cons. destruct (decide (k = co_record c)) as [->|Hk].
        -- rewrite dget_dpop_eq. split; [intros _|by left]. split; [done|]. exists c. split_and!; [apply elem_of_app; right; by left|done|done].
        -- rewrite dget_dpop_ne, Hx by congruence. split.
           ++ intros [?|[Hn (z & Hz & ? & ?)]]; [done|]. split; [done|]. exists z. split_and!; [apply elem_of_app; by left|done|done].
           ++ intros [Hn (z & Hz & ? & ?)]. right. split; [done|]. exists z. split_and!; [|done|done].
              apply elem_of_app in Hz as [?|Hz%list_elem_of_singleton]; [done|congruence].
  - case_bool_decide as Hconf; [apply submitted_same; [by left|done]|].
    destruct Hst as [Hwf Hs Hx]. cbn [fst snd] in *.
    assert (forall z, z ∈ l -> safe_coordinate z = true -> co_record z <> co_record c) as Hnone.
    { intros z Hz Hsz Er. apply Hconf, Hx. split; [done|by exists z]. }
    split; cbn [fst snd].
    + by apply dict_wf_dset.
    + intros k y. destruct (decide (k = co_record c)) as [-> |Hk].
      * rewrite dget_dset_eq. split.
        -- intros [= <-]. split; [done|]. split_and!; [apply elem_of_app; right; by left|done|].
           intros z [Hz|Hz%list_elem_of_singleton]%elem_of_app Hsz Er; [by destruct (Hnone z Hz Hsz)|done].
        -- intros [Er (Hin & Hsy & _)]. apply elem_of_app in Hin as [Hin|Hin%list_elem_of_singleton]; [by destruct (Hnone y Hin Hsy)|by subst].
      * rewrite dget_dset_ne, Hs by congruence. split; intros [Er (Hin & Hsy & Hall)]; (split; [done|split_and!; [|done|]]).
        -- apply elem_of_app. by left.
        -- intros z [Hz|Hz%list_elem_of_singleton]%elem_of_app ? ?; [by apply Hall|congruence].
        -- apply elem_of_app in Hin as [?|Hin%list_elem_of_singleton]; [done|congruence].
        -- intros z Hz ? ?. apply Hall; [by apply elem_of_app; left|done|done].
    + intros k. rewrite Hx. destruct (decide (k = co_record c)) as [->|Hk].
      * rewrite dget_dset_eq. split; [|by intros [? _]]. intros [_ (z & Hz & Hsz & Er)]. by destruct (Hnone z Hz Hsz).
      * rewrite dget_dset_ne by congruence. split; intros [Hn (z & Hz & ? & ?)]; (split; [done|]); exists z.
        -- split_and!; [apply elem_of_app; by left|done|done].
        -- split_and!; [|done|done]. apply elem_of_app in Hz as [?|Hz%list_elem_of_singleton]; [done|congruence].
Qed.

Lemma normalise_candidates_spec l c : c ∈ normalise_candidates l <-> sole l c.
Proof.
  assert (submitted l (foldl submit ([], []) l)) as [Hwf Hs _].
  { induction l as [|c' l IH] using rev_ind.
    - split; [constructor| |]; cbn.
      + intros k x. split; [done|]. intros [_ (Hin & _)]. by apply not_elem_of_nil in Hin.
      + intros k. split; [by intros ?%not_elem_of_nil|]. intros [_ (x & Hin & _)]. by apply not_elem_of_nil in Hin.
    - rewrite foldl_app. cbn. by apply submit_step. }
  unfold normalise_candidates. rewrite list_elem_of_fmap. split.
  - intros ([k x] & -> & Hin). apply dget_elem in Hin; [|done]. by apply Hs in Hin as [_ ?].
  - intros Hsole. exists (co_record c, c). split; [done|]. apply dget_Some_elem. by apply Hs.
Qed.

Lemma concat_chunks {A} n size (l : list A) : concat (chunks n size l) = l.
Proof.
  revert l. induction n as [|n IH]; intros [|x l]; cbn [chunks concat]; [done|by rewrite app_nil_r|done|].
  rewrite IH. apply take_drop.
Qed.

Lemma approve_chunk_spec d team requested id :
  id ∈ approve_chunk d team requested <->
  exists r c, t_records d !! id = Some r /\ eligible_row d team id r = true /\ c ∈ requested /\ names c id (vr_item r) (vr_revision r) = true.
Proof.
  unfold approve_chunk. rewrite list_elem_of_fmap. split.
  - intros ([k r] & -> & [Hr Hp]%rows_where_elem). apply andb_true_iff in Hp as [Hp (c & Hc%list_elem_of_In & Hn)%existsb_exists]. by exists r, c.
  - intros (r & c & Hr & He & Hc & Hn). exists (id, r). split; [done|]. apply rows_where_elem. split; [done|].
    apply andb_true_iff. split; [done|]. apply existsb_exists. exists c. split; [by apply list_elem_of_In|done].
Qed.

(** C31: Eligibility of a batch.  A record is approved when the identifier of the team is
    well-formed, the batch submits exactly one well-formed coordinate for the record, the
    record is the team's, not deleted and at that coordinate, and the team's active item serves
    that revision, whatever the batch size; and no other record is. *)
Theorem batch_eligibility chunk_size team cs d id :
  id ∈ filter_retrieval_eligible chunk_size team cs d <->
  safe_identifier team 128 = true /\
  exists c r i, sole cs c /\ co_record c = id /\ t_records d !! id = Some r /\
    vr_team r = team /\ vr_deleted r = false /\ vr_item r = Some (co_item c) /\ vr_revision r = Some (co_revision c) /\
    t_items d !! co_item c = Some i /\ it_team i = team /\ it_state i = u "active" /\ it_deleted i = false /\ it_serving i = Some (co_revision c).
Proof.
  unfold filter_retrieval_eligible. destruct (safe_identifier team 128); cbn [negb].
  2: { split; [by intros ?%not_elem_of_nil|by intros [? _]]. }
  set (requested := normalise_candidates cs). set (n := length requested). set (size := Z.to_nat _).
  assert (id ∈ concat (map (approve_chunk d team) (chunks n size requested)) <-> id ∈ approve_chunk d team requested) as ->.
  { rewrite <-(concat_chunks n size requested) at 2. generalize (chunks n size requested). intros l. rewrite approve_chunk_spec.
    rewrite list_elem_of_In, in_concat. split.
    - intros (x & (y & <- & Hy)%in_map_iff & Hid). apply list_elem_of_In, approve_chunk_spec in Hid as (r & c & Hr & He & Hc & Hn).
      exists r, c. split_and!; [done|done| |done]. apply list_elem_of_In, in_concat. exists y. split; [done|by apply list_elem_of_In].
    - intros (r & c & Hr & He & (y & Hy & Hc)%list_elem_of_In%in_concat & Hn). exists (approve_chunk d team y). split; [apply in_map_iff; eauto|].
      apply list_elem_of_In, approve_chunk_spec. exists r, c. split_and!; [done|done|by apply list_elem_of_In|done]. }
  rewrite approve_chunk_spec. unfold eligible_row, names, item_fence. split.
  - intros (r & c & Hr & He & Hc%normalise_candidates_spec & Hn). split; [done|]. breflect.
    destruct (vr_item r) as [item|] eqn:Eit; [|done]. destruct (t_items d !! item) as [i|] eqn:Ei; [|done]. breflect.
    rewrite ?ueqb_eq in *. simplify_eq. destruct (it_serving i) as [sv|] eqn:Es; [|done].
    destruct (vr_revision r) as [rv|] eqn:Erv; [|done]. rewrite ?ueqb_eq in *. simplify_eq.
    exists c, r, i. split_and!; try done; congruence.
  - intros (_ & c & r & i & Hc & <- & Hr & <- & Hdel & Hitem & Hrev & Hi & Hti & Hst & Hdi & Hsv). exists r, c.
    apply normalise_candidates_spec in Hc. rewrite Hitem, Hrev, Hi, Hti, Hst, Hdi, Hsv, Hdel, !ueqb_refl.
    rewrite !bool_decide_eq_true_2 by done. by split_and!.
Qed.
End eligibility.

(** ** Witnesses *)

Module HydrationSamples.
#[local] Existing Instance test_host.
#[export] Instance no_floats : FloatText := {| float_of_text _ := None |}.
Definition team : ustr := u "11111111-1111-4111-8111-111111111111".
Definition document : ConstructionDocument := Eval vm_compute in ConstructSamples.document.
Definition dual : DualChannelProjection := Eval vm_compute in ConstructSamples.dual.
Definition data : bytes := Eval vm_compute in ConstructSamples.stored (dual_channel_payload dual).
Definition request : promote_request := Build_promote_request team "generation_artifact" (Some (u "application/json")) None.
Definition empty_store : cas := Build_cas ∅ ∅.
Definition stat : object_stat := Eval vm_compute in Build_object_stat (handle_value team (sha256_hex data)) (sha256_hex data) (size_of data) (Some (u "application/json")).
Definition store : cas := Build_cas {[(team, sha256_hex data) := data]} ∅.
Definition artifact : artifact_row :=
  Build_artifact_row team (u "dual_channel_projection") (u "full_valid") (Some (os_handle stat)) (Some (u "application/json; charset=utf-8")) (os_size stat) (os_sha256 stat).
Definition layer : layer_a := Build_layer_a (u "m") (u "m") (u "1") (u "local_vllm") 4.
Definition record : vector_row :=
  Build_vector_row team (u "n") (du_generation dual) (u "dual_channel_projection") (u "g1:b0001") (u "summary") (Some (u "item")) (Some (u "r2")) None layer (EV_blob []) [] true 1 false.
Definition ledger : tables :=
  Build_tables ∅ ∅ {[u "v1" := record]} ∅ ∅ ∅ ∅ {[u "item" := Build_item_row team (u "s") (u "active") false (Some (u "r2"))]} ∅ {[du_generation dual := artifact]} [] [].
Definition load := load_retrieval_body 3 100000 ledger store None team (du_generation dual).
Definition first : coordinate := Build_coordinate (u "v1") (u "item") (u "r2").
End HydrationSamples.

Lemma nothing_stored k old : c_live HydrationSamples.empty_store !! k = Some old -> old = HydrationSamples.data.
Proof. unfold HydrationSamples.empty_store. cbn [c_live]. by rewrite lookup_empty. Qed.
Lemma artifact_recorded : records (H := test_host) HydrationSamples.artifact HydrationSamples.stat.
Proof. split_and!; [reflexivity..|vm_compute; reflexivity]. Qed.

Lemma data_promoted : promote (H := test_host) 100000 HydrationSamples.data HydrationSamples.request HydrationSamples.empty_store = Ok (HydrationSamples.stat, HydrationSamples.store).
Proof. vm_cast_no_check (eq_refl (Ok (HydrationSamples.stat, HydrationSamples.store))). Qed.

Lemma construction_is_hydrated_witness :
  let load := load_retrieval_body (H := test_host) (F := HydrationSamples.no_floats) 3 100000 HydrationSamples.ledger HydrationSamples.store None
    (pq_team HydrationSamples.request) (du_generation HydrationSamples.dual) in
  Forall (fun c => load (cu_id c) (u "original") = Ok (Some (body (ch_body (cu_original c)) (cu_granularity c)), None) /\
                   load (cu_id c) (u "summary") = Ok (Some (body (ch_body (cu_summary c)) (cu_granularity c)), None)) (cd_units HydrationSamples.document) /\
  forall unit channel, unit ∉ map cu_id (cd_units HydrationSamples.document) -> load unit channel = Ok (None, None).
Proof.
  exact (construction_is_hydrated (H := test_host) (HL := test_host_laws) (F := HydrationSamples.no_floats)
    AdoptSamples.structure AdoptSamples.projection AdoptSamples.clean (u "cons") None AdoptSamples.summaries ConstructSamples.headers (u "content_full.v1") (Some [0; 1])
    HydrationSamples.document HydrationSamples.dual 100000 HydrationSamples.data HydrationSamples.request HydrationSamples.empty_store HydrationSamples.stat HydrationSamples.store
    3 100000 HydrationSamples.ledger HydrationSamples.artifact ltac:(vm_compute; reflexivity) ltac:(vm_compute; reflexivity) data_promoted ltac:(vm_compute; reflexivity)
    (nothing_stored _) ltac:(vm_compute; reflexivity) artifact_recorded
    ltac:(apply le_n) ltac:(vm_compute; discriminate) ltac:(vm_compute; reflexivity)).
Defined.

Lemma hydrated_body_is_proved_witness :
  exists a data, projection_artifact HydrationSamples.ledger HydrationSamples.team (du_generation HydrationSamples.dual) = Some a /\
    sha256_hex (Host := test_host) data = ar_digest a.
Proof.
  assert (load_retrieval_body (H := test_host) (F := HydrationSamples.no_floats) 3 100000 HydrationSamples.ledger HydrationSamples.store None HydrationSamples.team
    (du_generation HydrationSamples.dual) (u "g1:b0001") (u "original") = Ok (Some (body (u "First part.") 1), None)) as E by (vm_compute; reflexivity).
  destruct (hydrated_body_is_proved (H := test_host) (F := HydrationSamples.no_floats) 3 100000 HydrationSamples.ledger HydrationSamples.store HydrationSamples.team
    (du_generation HydrationSamples.dual) (u "g1:b0001") (u "original") _ _ E) as (a & data & us & Ha & Hl & Hd & Hrest).
  exact (ex_intro _ a (ex_intro _ data (conj Ha Hd))).
Defined.

Lemma cache_is_transparent_witness :
  exists c, load_retrieval_body (H := test_host) (F := HydrationSamples.no_floats) 3 100000 HydrationSamples.ledger HydrationSamples.store (Some ∅) HydrationSamples.team (du_generation HydrationSamples.dual) (u "nothing") (u "original") = Ok (None, c) /\
    coherent (H := test_host) (F := HydrationSamples.no_floats) 3 100000 HydrationSamples.ledger HydrationSamples.store c.
Proof.
  assert (coherent (H := test_host) (F := HydrationSamples.no_floats) 3 100000 HydrationSamples.ledger HydrationSamples.store (Some ∅)) as Hc.
  { intros m team generation us Hm Hl. injection Hm as <-. vm_compute in Hl. discriminate Hl. }
  pose proof (cache_is_transparent (H := test_host) (F := HydrationSamples.no_floats) 3 100000 HydrationSamples.ledger HydrationSamples.store (Some ∅) HydrationSamples.team
    (du_generation HydrationSamples.dual) (u "nothing") (u "original") Hc) as Ht.
  assert (load_retrieval_body (H := test_host) (F := HydrationSamples.no_floats) 3 100000 HydrationSamples.ledger HydrationSamples.store None HydrationSamples.team
    (du_generation HydrationSamples.dual) (u "nothing") (u "original") = Ok (None, None)) as E by (vm_compute; reflexivity).
  rewrite E in Ht. destruct (load_retrieval_body _ _ _ _ _ _ _ _ _) as [[v c]|] in Ht |- *; [|destruct Ht].
  destruct Ht as [-> Ht]. exists c. split; [reflexivity|exact Ht].
Defined.
