(* ===== verification/Index.v ===== *)
(** * The vector index: tables and writers of records

    The tables that publication, lifecycle and retirement write, as the rows of
    [RetrievalTables.v] with the columns that only writers read, and the view that retrieval
    has of them ([index_view]).  On them, from [src/runtime/intake/vector_publish_commit.py],
    [vectorize.py] and [generation_artifacts.py]: the namespace, the claim of an index
    generation, the gate on construct artifacts, and the fenced upsert of records and facets.

    Instants are microseconds; of [deleted_at] columns only their presence is kept; audit
    events and the log of model calls, which nothing reads back, are not modelled.  Foreign
    keys to tables of other owners (teams, revisions, tasks, executions) are not either. *)

From S2P Require Import Prelude PyText PyValue Txn PyFloat Outbox Engine Objects RetrievalTables.

Open Scope Z_scope.
Open Scope mkb_scope.

(** ** Rows *)

Record space_row := { sp_row :> namespace_row; sp_generation : Z }.
Record record_row := {
  vx_row :> vector_row;
  vx_source : option ustr;
  vx_task : ustr;
  vx_execution : ustr;
  vx_chars : Z;
  vx_embedding_digest : ustr;
  vx_dedupe : ustr
}.
Record alias_row := { al_row :> pointer_row; al_revision : Z; al_candidate : option Z; al_updated : Z }.
Record evidence_row := {
  ev_row :> proof_row;
  ev_execution : ustr;
  ev_process : ustr;
  ev_required_digest : ustr;
  ev_actual_digest : ustr;
  ev_command_digest : ustr
}.
Record edition_row := {
  ed_row :> manifest_row;
  ed_epoch : Z;
  ed_artifact : ustr;
  ed_count : Z;
  ed_set_digest : ustr;
  ed_digest : ustr
}.
Record member_row := { mr_team : ustr; mr_ordinal : Z; mr_digest : ustr }.
Record intake_row := { ix_row :> item_row; ix_latest : option ustr; ix_revision : Z; ix_deactivated_at : option Z }.
Record filter_row := { fx_row :> facet_row; fx_version : ustr; fx_digest : ustr }.

(** [mkb_intake_item_transitions] *)
Record transition_row := {
  tr_team : ustr;
  tr_item : ustr;
  tr_action : ustr;
  tr_version : ustr;
  tr_before : ustr;
  tr_after : ustr;
  tr_latest : option ustr;
  tr_serving_before : option ustr;
  tr_serving_after : option ustr;
  tr_revision_before : Z;
  tr_revision_after : Z;
  tr_causes : option ustr * option ustr * option ustr;
  tr_proof : option ustr * option ustr;
  tr_policy : option ustr;
  tr_fence : ustr
}.

Inductive intent_status := I_open | I_completed | I_abandoned.
#[export] Instance intent_status_eq : EqDecision intent_status.
Proof. solve_decision. Defined.
(** [mkb_intake_cleanup_intents] *)
Record intent_row := {
  in_team : ustr;
  in_policy : ustr;
  in_kind : ustr;
  in_target : ustr;
  in_substrates : ustr;
  in_snapshot : option ustr;
  in_status : intent_status;
  in_trace : option ustr;
  in_requested : Z;
  in_eligible : option Z;
  in_completed : option Z;
  in_projection : option ustr
}.
(** [mkb_intake_cleanup_proofs] *)
Record receipt_row := {
  rc_intent : ustr;
  rc_team : ustr;
  rc_substrate : ustr;
  rc_target : ustr;
  rc_kind : ustr;
  rc_digest : ustr
}.

Record stage_artifact := { sa_row :> artifact_row; sa_execution : option ustr; sa_task : option ustr }.
Record semantic_row := {
  sm_team : ustr;
  sm_revision : ustr;
  sm_key : ustr;
  sm_version : ustr;
  sm_kind : ustr;
  sm_text : option ustr;
  sm_int : option Z
}.
Record action_row := { ac_allowed : list ustr; ac_effects : list ustr }.

(** What retrieval reads and these components write. *)
Record published := {
  x_spaces : gmap ustr space_row;
  x_records : gmap ustr record_row;
  x_aliases : gmap (ustr * ustr * ustr) alias_row;
  x_proofs : gmap ustr evidence_row;
  x_editions : gmap ustr edition_row;
  x_members : gmap (ustr * ustr) member_row;
  x_items : gmap ustr intake_row;
  x_facets : list filter_row
}.
(** What they write and retrieval does not read. *)
Record ledgers := {
  l_transitions : gmap ustr transition_row;
  l_intents : gmap ustr intent_row;
  l_receipts : gmap ustr receipt_row;
  l_references : gmap ustr reference_row;
  l_outbox : outbox_table;
  l_uuids : nat
}.
(** What they only read.  Actions have their masks split; models are the active ones. *)
Record registries := {
  g_teams : gmap ustr (ustr * bool);
  g_sources : gmap (ustr * ustr) ustr;
  g_artifacts : gmap ustr stage_artifact;
  g_current : gmap (ustr * ustr * ustr) ustr;
  g_bindings : list binding_row;
  g_semantics : list semantic_row;
  g_definitions : gmap (ustr * ustr) ustr;
  g_models : list (ustr * ustr);
  g_actions : gmap (ustr * ustr) action_row
}.
Record index_db := { x_pub : published; x_log : ledgers; x_reg : registries }.

Definition set_pub (p : published) (d : index_db) : index_db := Build_index_db p (x_log d) (x_reg d).
Definition set_log (l : ledgers) (d : index_db) : index_db := Build_index_db (x_pub d) l (x_reg d).

Definition set_spaces m (p : published) := Build_published m (x_records p) (x_aliases p) (x_proofs p) (x_editions p) (x_members p) (x_items p) (x_facets p).
Definition set_records m (p : published) := Build_published (x_spaces p) m (x_aliases p) (x_proofs p) (x_editions p) (x_members p) (x_items p) (x_facets p).
Definition set_aliases m (p : published) := Build_published (x_spaces p) (x_records p) m (x_proofs p) (x_editions p) (x_members p) (x_items p) (x_facets p).
Definition set_evidence m (p : published) := Build_published (x_spaces p) (x_records p) (x_aliases p) m (x_editions p) (x_members p) (x_items p) (x_facets p).
Definition set_editions m (p : published) := Build_published (x_spaces p) (x_records p) (x_aliases p) (x_proofs p) m (x_members p) (x_items p) (x_facets p).
Definition set_members m (p : published) := Build_published (x_spaces p) (x_records p) (x_aliases p) (x_proofs p) (x_editions p) m (x_items p) (x_facets p).
Definition set_items m (p : published) := Build_published (x_spaces p) (x_records p) (x_aliases p) (x_proofs p) (x_editions p) (x_members p) m (x_facets p).
Definition set_facets l (p : published) := Build_published (x_spaces p) (x_records p) (x_aliases p) (x_proofs p) (x_editions p) (x_members p) (x_items p) l.

Definition set_transitions m (l : ledgers) := Build_ledgers m (l_intents l) (l_receipts l) (l_references l) (l_outbox l) (l_uuids l).
Definition set_intents m (l : ledgers) := Build_ledgers (l_transitions l) m (l_receipts l) (l_references l) (l_outbox l) (l_uuids l).
Definition set_receipts m (l : ledgers) := Build_ledgers (l_transitions l) (l_intents l) m (l_references l) (l_outbox l) (l_uuids l).
Definition set_refs m (l : ledgers) := Build_ledgers (l_transitions l) (l_intents l) (l_receipts l) m (l_outbox l) (l_uuids l).
Definition set_wakes m (l : ledgers) := Build_ledgers (l_transitions l) (l_intents l) (l_receipts l) (l_references l) m (l_uuids l).
Definition set_uuids n (l : ledgers) := Build_ledgers (l_transitions l) (l_intents l) (l_receipts l) (l_references l) (l_outbox l) n.

(** The tables as retrieval reads them. *)
Definition member_keys (m : gmap (ustr * ustr) member_row) : gset (ustr * ustr * ustr) :=
  list_to_set (map (fun kv => (kv.1.1, mr_team kv.2, kv.1.2)) (map_to_list m)).
Definition index_view (d : index_db) : tables :=
  let p := x_pub d in
  let g := x_reg d in
  Build_tables (g_teams g) (sp_row <$> x_spaces p) (vx_row <$> x_records p) (al_row <$> x_aliases p) (ev_row <$> x_proofs p)
    (ed_row <$> x_editions p) (member_keys (x_members p)) (ix_row <$> x_items p) (g_sources g) (sa_row <$> g_artifacts g)
    (map fx_row (x_facets p)) (g_bindings g).

(** ** Statements *)

Section statements.
Context {H : Host}.
Variable uuid7 : nat -> ustr.
Abbreviation ctx := (txn index_db).

Definition fresh_uuid : ctx ustr := fun d => Ok (uuid7 (l_uuids (x_log d)), set_log (set_uuids (S (l_uuids (x_log d))) (x_log d)) d).
Definition on_pub (f : published -> published) : ctx unit := modify (fun d => set_pub (f (x_pub d)) d).
Definition on_log (f : ledgers -> ledgers) : ctx unit := modify (fun d => set_log (f (x_log d)) d).
(** [UPDATE ... SET g WHERE f] *)
Definition update_where {A} (f : ustr -> A -> bool) (g : A -> A) (m : gmap ustr A) : gmap ustr A :=
  map_imap (fun k a => Some (if f k a then g a else a)) m.
Definition unused {K A} `{Countable K} (k : K) (m : gmap K A) : bool := bool_decide (m !! k = None).
(** A row of a team. *)
Definition item_of (team item : ustr) (p : published) : option intake_row :=
  match x_items p !! item with Some i => if ueqb (it_team (ix_row i)) team then Some i else None | None => None end.
(** [UPDATE mkb_vector_records SET ... WHERE f], with the number of rows. *)
Definition update_records (f : ustr -> record_row -> bool) (g : record_row -> record_row) : ctx Z :=
  let! d := gets x_pub in
  on_pub (set_records (update_where f g (x_records d))) ;!
  ret (count_rows f (x_records d)).

Definition set_vector (r : record_row) (v : vector_row) : record_row :=
  Build_record_row v (vx_source r) (vx_task r) (vx_execution r) (vx_chars r) (vx_embedding_digest r) (vx_dedupe r).
Definition with_state (published deleted : bool) (r : vector_row) : vector_row :=
  Build_vector_row (vr_team r) (vr_namespace r) (vr_artifact r) (vr_artifact_type r) (vr_unit r) (vr_channel r) (vr_item r) (vr_revision r)
    (vr_source_handle r) (vr_layer r) (vr_embedding r) (vr_content_digest r) published (vr_generation r) deleted.
(** [publication_state='indexed'], ['withdrawn'] and [deleted_at=?] *)
Definition index_record (r : record_row) : record_row := set_vector r (with_state true (vr_deleted r) r).
Definition withdraw_record (r : record_row) : record_row := set_vector r (with_state false (vr_deleted r) r).
Definition delete_record (r : record_row) : record_row := set_vector r (with_state (vr_published r) true r).

(** ** Unique indexes and foreign keys *)

(** [ux_vec_coord_active] (migration 015); with [embedding_model] as its key it implies the
    Layer A index of migration 017. *)
Definition same_coordinate (a b : vector_row) : bool :=
  ueqb (vr_team a) (vr_team b) && ueqb (vr_namespace a) (vr_namespace b) && ueqb (vr_artifact a) (vr_artifact b)
  && ueqb (vr_unit a) (vr_unit b) && ueqb (vr_channel a) (vr_channel b) && ueqb (la_model (vr_layer a)) (la_model (vr_layer b))
  && (vr_generation a =? vr_generation b).
Definition space_of (p : published) (team namespace : ustr) (layer : layer_a) : bool :=
  match x_spaces p !! namespace with Some n => ueqb (nr_team (sp_row n)) team && bool_decide (nr_layer (sp_row n) = layer) | None => false end.
Definition record_keys_ok (r : record_row) (d : index_db) : bool :=
  space_of (x_pub d) (vr_team r) (vr_namespace r) (vr_layer r)
  && match g_artifacts (x_reg d) !! vr_artifact r with Some a => ueqb (ar_team (sa_row a)) (vr_team r) | None => false end
  && match vx_source r with Some s => bool_decide (is_Some (g_sources (x_reg d) !! (vr_team r, s))) | None => true end
  && match vr_item r with Some i => bool_decide (is_Some (item_of (vr_team r) i (x_pub d))) | None => true end.
Definition record_conflict (k : ustr) (r : record_row) (d : index_db) : bool :=
  let records := x_records (x_pub d) in
  bool_decide (is_Some (records !! k))
  || bool_decide (is_Some (first_row (fun _ (o : record_row) => negb (vr_deleted o) && negb (vr_deleted r) && same_coordinate o r) records))
  || negb (record_keys_ok r d).

(** ** Namespaces *)

(** [_namespace_key] *)
Definition namespace_key (l : layer_a) : ustr :=
  la_key l ++ u "|" ++ la_version l ++ u "|" ++ la_adapter l ++ u "|" ++ dec (la_dimension l).

Definition LAYER_A_INVALID : exn := MkbError "VECTORIZE_SPACE_LAYER_A_INVALID" 422.
(** [_validate_layer_a]; [embedding_model] and [embedding_model_key] are both the model key. *)
Definition validate_layer_a (raw : pydict) : result (layer_a * option ustr) :=
  match dget raw (u "model_key"), dget raw (u "model_version"), dget raw (u "adapter_kind"), dget raw (u "dimension") with
  | Some key, Some version, Some adapter, Some dimension =>
      match key, version, adapter, dimension with
      | PStr key, PStr version, PStr adapter, PInt dimension =>
          check negb (ueqb key []) && negb (ueqb version []) && negb (ueqb adapter []) && (1 <=? dimension) else LAYER_A_INVALID ;;
          match default PNone (dget raw (u "binding_digest")) with
          | PNone => Ok (Build_layer_a key key version adapter dimension, None)
          | PStr b => check is_digest b else LAYER_A_INVALID ;; Ok (Build_layer_a key key version adapter dimension, Some b)
          | _ => Err LAYER_A_INVALID
          end
      | _, _, _, _ => Err LAYER_A_INVALID
      end
  | _, _, _, _ => Err KeyError
  end.

Definition named_space (team : ustr) (l : layer_a) (p : published) : option (ustr * space_row) :=
  first_row (fun _ (n : space_row) => ueqb (nr_team n) team && ueqb (nr_key n) (namespace_key l)) (x_spaces p).

(** [_namespace_coordinates]: the namespace and the generation to claim. *)
Definition namespace_coordinates (team : ustr) (l : layer_a) : ctx (ustr * Z) :=
  let! d := gets x_pub in
  match first_row (fun _ (n : space_row) => ueqb (nr_team n) team && ueqb (nr_key n) (namespace_key l) && ueqb (nr_status n) (u "active") && negb (nr_deleted n)) (x_spaces d) with
  | Some (k, n) => ret (k, sp_generation n + 1)
  | None => let! k := fresh_uuid in ret (k, 1)
  end.

(** [_ensure_namespace] *)
Definition ensure_namespace (team namespace : ustr) (l : layer_a) : ctx unit :=
  let! d := gets id in
  match named_space team l (x_pub d) with
  | Some (k, _) => require (ueqb k namespace) (MkbError "VECTOR_NAMESPACE_BINDING_CONFLICT" 409)
  | None =>
      require (bool_decide ((la_key l, la_version l) ∈ g_models (x_reg d))) (MkbError "REGISTRY_NOT_FOUND" 503) ;!
      require (unused namespace (x_spaces (x_pub d))) IntegrityError ;!
      on_pub (fun p => set_spaces (<[namespace := Build_space_row (Build_namespace_row team (namespace_key l) l (u "cosine") (u "active") false) 0]> (x_spaces p)) p)
  end.

Definition set_generation (g : Z) (n : space_row) : space_row := Build_space_row n g.
(** The compare-and-set of a namespace's generation. *)
Definition claim_generation (team namespace : ustr) (next : Z) : ctx unit :=
  let! p := gets x_pub in
  match x_spaces p !! namespace with
  | Some n =>
      require (ueqb (nr_team (sp_row n)) team && ueqb (nr_status (sp_row n)) (u "active") && (sp_generation n =? next - 1)) (MkbError "VECTORIZE_GENERATION_FENCE" 409) ;!
      on_pub (fun p => set_spaces (<[namespace := set_generation next n]> (x_spaces p)) p)
  | None => raise (MkbError "VECTORIZE_GENERATION_FENCE" 409)
  end.

(** ** The gate on construct artifacts *)

Definition GATE : exn := MkbError "CONSTRUCT_TO_VECTORIZE_GATE" 409.
(** [_generation_state_text] *)
Definition generation_state_text (state : pydict) (key : string) (e : exn) : result ustr :=
  match dget state (u key) with Some (PStr s) => check negb (ueqb s []) else e ;; Ok s | _ => Err e end.

(** An artifact of a generation: its type and the keys of its coordinates in the state. *)
Record generation_member := { gm_type : string; gm_uuid : string; gm_handle : string; gm_digest : string; gm_size : string }.
(** [_structure_generation_members], [_construction_output_members] *)
Definition STRUCTURE_MEMBERS : list generation_member :=
  [Build_generation_member "structure_document" "structure_artifact_uuid" "structure_artifact_ref" "structure_artifact_content_digest" "structure_artifact_size_bytes";
   Build_generation_member "retrieval_block_projection" "retrieval_block_projection_artifact_uuid" "retrieval_block_projection_ref"
     "retrieval_block_projection_content_digest" "retrieval_block_projection_size_bytes";
   Build_generation_member "structure_validation_report" "structure_validation_artifact_uuid" "structure_validation_artifact_ref"
     "structure_validation_artifact_content_digest" "structure_validation_artifact_size_bytes"]%string.
Definition OUTPUT_MEMBERS : list generation_member :=
  [Build_generation_member "construction_document" "construction_artifact_uuid" "construction_artifact_ref" "construction_artifact_content_digest" "construction_artifact_size_bytes";
   Build_generation_member "dual_channel_projection" "dual_channel_artifact_uuid" "dual_channel_artifact_ref" "dual_channel_artifact_content_digest" "dual_channel_artifact_size_bytes";
   Build_generation_member "construction_validation_report" "construction_validation_artifact_uuid" "construction_validation_artifact_ref"
     "construction_validation_artifact_content_digest" "construction_validation_artifact_size_bytes"]%string.

(** [_construct_mode] *)
Definition construct_mode (state : pydict) : result ustr :=
  match default PNone (dget state (u "construct_mode")) with
  | PNone => Ok (u "full_construct")
  | PStr m => check bool_decide (m ∈ map u ["full_construct"; "metadata_refresh"]%string) else MkbError "CONSTRUCT_MODE_INVALID" 409 ;; Ok m
  | PList _ | PDict _ => Err TypeError
  | _ => Err (MkbError "CONSTRUCT_MODE_INVALID" 409)
  end.

(** One member of [_assert_generation_members_tx]. *)
Definition assert_member (c : ProcessCommand) (state : pydict) (e : exn) (g : generation_member) : ctx unit :=
  let! id := lift (generation_state_text state (gm_uuid g) e) in
  let! handle := lift (generation_state_text state (gm_handle g) e) in
  let! digest := lift (generation_state_text state (gm_digest g) e) in
  let! size := lift (match dget state (u (gm_size g)) with Some (PInt z) => check 0 <=? z else e ;; Ok z | _ => Err e end) in
  let! r := gets x_reg in
  require (match g_artifacts r !! id with
           | Some a => ueqb (ar_team (sa_row a)) (pc_team c) && ueqb (ar_type a) (u (gm_type g)) && bool_decide (ar_handle a = Some handle)
                       && ueqb (ar_digest a) digest && (ar_size a =? size) && ueqb (ar_disposition a) (u "full_valid")
                       && bool_decide (sa_execution a = Some (pc_execution c)) && bool_decide (sa_task a = Some (pc_task c))
           | None => false
           end) e ;!
  require (bool_decide (g_current r !! (pc_team c, pc_execution c, u (gm_type g)) = Some id)) e.

(** [_assert_construct_to_vectorize_gate_tx] *)
Definition assert_construct_to_vectorize_gate (c : ProcessCommand) (state : pydict) : ctx unit :=
  let! mode := lift (construct_mode state) in
  foldr (fun g k => assert_member c state GATE g ;! k) (ret tt)
    (if ueqb mode (u "metadata_refresh") then OUTPUT_MEMBERS else STRUCTURE_MEMBERS ++ OUTPUT_MEMBERS).

(** ** Records *)

(** A record that the plan of [_vectorize_from_construct] wants written, and its packed vector. *)
Record planned := { pl_uuid : ustr; pl_unit : ustr; pl_channel : ustr; pl_content : ustr; pl_digest : ustr; pl_blob : bytes }.

(** [state[key]] as a column of texts. *)
Definition state_column (state : pydict) (key : string) : result (option ustr) :=
  match dget state (u key) with Some (PStr s) => Ok (Some s) | Some PNone => Ok None | Some _ => Err TypeError | None => Err KeyError end.

(** The open record of a coordinate ([_existing_vector_coordinate_uuid]). *)
Definition existing_coordinate (p : published) (team namespace artifact unit channel model : ustr) (generation : Z) : option ustr :=
  fst <$> first_row (fun _ (r : record_row) => ueqb (vr_team r) team && ueqb (vr_namespace r) namespace && ueqb (vr_artifact r) artifact && ueqb (vr_unit r) unit
                       && ueqb (vr_channel r) channel && ueqb (la_model (vr_layer r)) model && (vr_generation r =? generation)
                       && negb (vr_published r) && negb (vr_deleted r)) (x_records p).

Definition dedupe_of (artifact unit channel model : ustr) : result ustr :=
  stable_digest (obj [("generation_artifact_uuid", PStr artifact); ("unit_id", PStr unit); ("channel", PStr channel); ("embedding_model", PStr model)]%string).

(** [_upsert_vector_record_tx] *)
Definition upsert_vector_record (c : ProcessCommand) (state : pydict) (namespace : ustr) (generation : Z) (l : layer_a) (r : planned) : ctx ustr :=
  require (forallb (fun s => negb (ueqb s [])) [pl_uuid r; pl_unit r; pl_channel r; pl_content r; pl_digest r]) (MkbError "VECTORIZE_INPUT_INVALID" 422) ;!
  require (bool_decide (pl_channel r ∈ map u ["original"; "summary"]%string)) (MkbError "VECTORIZE_INPUT_INVALID" 422) ;!
  let! digest := lift (stable_digest (obj [("text", PStr (pl_content r))]%string)) in
  require (ueqb digest (pl_digest r)) (MkbError "VECTORIZE_CONTENT_MISMATCH" 409) ;!
  let! artifact := lift (generation_state_text state "dual_channel_artifact_uuid" GATE) in
  let! handle := lift (generation_state_text state "dual_channel_artifact_ref" GATE) in
  let! d := gets id in
  let existing := existing_coordinate (x_pub d) (pc_team c) namespace artifact (pl_unit r) (pl_channel r) (la_key l) generation in
  require (match existing with Some id => ueqb id (pl_uuid r) | None => true end) (MkbError "VECTORIZE_COORDINATE_FENCE" 409) ;!
  let! source := lift (state_column state "intake_source_uuid") in
  let! item := lift (state_column state "intake_item_uuid") in
  let! revision := lift (state_column state "intake_revision_uuid") in
  let! dedupe := lift (dedupe_of artifact (pl_unit r) (pl_channel r) (la_key l)) in
  let row := Build_record_row
    (Build_vector_row (pc_team c) namespace artifact (u "dual_channel_projection") (pl_unit r) (pl_channel r) item revision (Some handle) l
       (EV_blob (pl_blob r)) (pl_digest r) false generation false)
    source (pc_task c) (pc_execution c) (Z.of_nat (length (pl_content r))) (sha256_hex (pl_blob r)) dedupe in
  require (match existing with Some _ => record_keys_ok row d | None => negb (record_conflict (pl_uuid r) row d) end) IntegrityError ;!
  on_pub (fun p => set_records (<[pl_uuid r := row]> (x_records p)) p) ;!
  ret (pl_uuid r).

(** ** Facets *)

Definition FILTER_BINDING : exn := MkbError "VECTORIZE_FILTER_BINDING" 409.
Definition facet_of (p : published) (record key : ustr) : option filter_row :=
  head (List.filter (fun f : filter_row => ueqb (fc_record f) record && ueqb (fc_key f) key) (x_facets p)).
(** One facet of a record: written once, and the same ever after. *)
Definition upsert_facet (team record key value version digest : ustr) : ctx unit :=
  let! p := gets x_pub in
  match facet_of p record key with
  | None => let! _ := fresh_uuid in on_pub (fun p => set_facets (x_facets p ++ [Build_filter_row (Build_facet_row team record key value) version digest]) p)
  | Some f => require (ueqb (fc_value (fx_row f)) value && ueqb (fx_version f) version && ueqb (fx_digest f) digest) FILTER_BINDING
  end.

(** [_upsert_vector_source_kind_facet_tx] *)
Definition upsert_source_kind_facet (team record : ustr) (kind : option ustr) : ctx unit :=
  match kind with
  | Some ((_ :: _) as kind) =>
      let! digest := lift (stable_digest (obj [("facet", PStr (u "source_kind")); ("version", PStr (u "v1"))]%string)) in
      upsert_facet team record (u "source_kind") kind (u "v1") digest
  | _ => raise FILTER_BINDING
  end.

Definition SIX_TUPLE : list ustr := map u ["channel"; "context_tags"; "is_active"; "realm"; "source_name"; "type"]%string.
(** The rows of a revision that a registered definition backs, with the definition's digest. *)
Definition semantics_of (d : index_db) (team revision : ustr) : list (semantic_row * ustr) :=
  omap (fun s => if ueqb (sm_team s) team && ueqb (sm_revision s) revision && bool_decide (sm_key s ∈ SIX_TUPLE)
                 then g ← g_definitions (x_reg d) !! (sm_key s, sm_version s); Some (s, g) else None) (g_semantics (x_reg d)).
Definition facet_value (s : semantic_row) : result ustr :=
  if ueqb (sm_key s) (u "is_active") then
    match sm_int s with
    | Some z => check ueqb (sm_kind s) (u "int") && ((z =? 0) || (z =? 1)) else FILTER_BINDING ;; Ok (dec z)
    | None => Err FILTER_BINDING
    end
  else match sm_text s with
       | Some t => check ueqb (sm_kind s) (u "text") else FILTER_BINDING ;; Ok t
       | None => Err FILTER_BINDING
       end.

(** [_upsert_vector_semantic_facets_tx]; of two versions of a key the last row counts. *)
Definition upsert_semantic_facets (team record : ustr) (revision : option ustr) : ctx unit :=
  match revision with
  | None => raise FILTER_BINDING
  | Some revision =>
      let! d := gets id in
      let by_key := foldl (fun m s => dset m (sm_key s.1) s) [] (semantics_of d team revision) in
      require (forallb (dmem by_key) SIX_TUPLE) FILTER_BINDING ;!
      foldr (fun key k =>
          match dget by_key key with
          | Some (s, digest) => let! value := lift (facet_value s) in upsert_facet team record key value (sm_version s) digest ;! k
          | None => k
          end) (ret tt) SIX_TUPLE
  end.

(** ** Vectorization *)

Definition write_record (c : ProcessCommand) (state : pydict) (namespace : ustr) (generation : Z) (l : layer_a) (r : planned) : ctx unit :=
  let! id := upsert_vector_record c state namespace generation l r in
  let! kind := lift (state_column state "source_kind") in
  upsert_source_kind_facet (pc_team c) id kind ;!
  let! revision := lift (state_column state "intake_revision_uuid") in
  upsert_semantic_facets (pc_team c) id revision.

(** The callback of [_vectorize_from_construct]. *)
Definition vectorize_commit (c : ProcessCommand) (state : pydict) (namespace : ustr) (generation : Z) (l : layer_a) (rs : list planned) : ctx unit :=
  assert_construct_to_vectorize_gate c state ;!
  ensure_namespace (pc_team c) namespace l ;!
  claim_generation (pc_team c) namespace generation ;!
  foldr (fun r k => write_record c state namespace generation l r ;! k) (ret tt) rs.
End statements.
