(* ===== verification/VectorContracts.v ===== *)
(** * The contracts between vectorization and publication

    Model of the vectorize contracts of [src/contracts/vector/models.py]: the fields with their
    bounds, the validators that run after them, [model_dump] and [model_validate] of a
    dictionary.  Models are strict and forbid unknown keys; every refusal of pydantic is a
    [ValueError]. *)

From S2P Require Import Prelude PyText PyValue PublicData.

Open Scope Z_scope.
Open Scope mkb_scope.

(** ** Fields *)

Definition bounded_text (most : Z) (s : ustr) : bool := (1 <=? Z.of_nat (length s)) && (Z.of_nat (length s) <=? most).
Definition no_unknown (keys : list string) (d : pydict) : bool := forallb (fun kv => bool_decide (kv.1 ∈ map u keys)) d.
Definition raw_field (d : pydict) (k : string) : option pyval := dget d (u k).
Definition text_field (d : pydict) (k : string) : result ustr := match raw_field d k with Some (PStr s) => Ok s | _ => Err ValueError end.
Definition optional_text (d : pydict) (k : string) : result (option ustr) :=
  match default PNone (raw_field d k) with PNone => Ok None | PStr s => Ok (Some s) | _ => Err ValueError end.
(** A field with a default text, and one with a default integer. *)
Definition literal_field (d : pydict) (k value : string) : result unit :=
  ensure (match default (PStr (u value)) (raw_field d k) with PStr s => ueqb s (u value) | _ => false end) ValueError.
Definition int_field (d : pydict) (k : string) (absent : option Z) : result Z :=
  match raw_field d k, absent with Some (PInt z), _ => Ok z | None, Some z => Ok z | _, _ => Err ValueError end.
Definition text_items (l : list pyval) : result (list ustr) := mapM (fun v => match v with PStr s => Ok s | _ => Err ValueError end) l.

Definition sorted_texts (l : list ustr) : list ustr := py_sorted str_le l.
Definition distinct (l : list ustr) : bool := bool_decide (NoDup l).

(** ** [EmbeddingModelRef] *)

Section contracts.
Context {H : Host}.

Record embedding_ref := { em_key : ustr; em_version : ustr; em_adapter : ustr; em_dimension : Z; em_binding : option ustr }.
#[export] Instance embedding_ref_eq : EqDecision embedding_ref.
Proof. solve_decision. Defined.
Definition dump_embedding_ref (r : embedding_ref) : pydict :=
  fields [("model_key", PStr (em_key r)); ("model_version", PStr (em_version r)); ("adapter_kind", PStr (em_adapter r)); ("dimension", PInt (em_dimension r));
          ("binding_digest", py_opt (em_binding r))]%string.
Definition make_embedding_ref (r : embedding_ref) : result embedding_ref :=
  check bounded_text 256 (em_key r) && bounded_text 256 (em_version r) && bounded_text 128 (em_adapter r) && (1 <=? em_dimension r) && (em_dimension r <=? 65536)
        && match em_binding r with Some b => is_digest b | None => true end && safe_public_data (PDict (dump_embedding_ref r)) else ValueError ;;
  Ok r.
Definition parse_embedding_ref (v : pyval) : result embedding_ref :=
  match v with
  | PDict d =>
      check no_unknown ["model_key"; "model_version"; "adapter_kind"; "dimension"; "binding_digest"]%string d else ValueError ;;
      let* key := text_field d "model_key" in
      let* version := text_field d "model_version" in
      let* adapter := text_field d "adapter_kind" in
      let* dimension := int_field d "dimension" None in
      let* binding := optional_text d "binding_digest" in
      make_embedding_ref (Build_embedding_ref key version adapter dimension binding)
  | _ => Err ValueError
  end.

(** ** [VectorizeCommand] *)

Inductive vectorize_mode := from_construct | purge_generation.
#[export] Instance vectorize_mode_eq : EqDecision vectorize_mode.
Proof. solve_decision. Defined.
Definition mode_text (m : vectorize_mode) : ustr := match m with from_construct => u "from_construct" | purge_generation => u "purge_generation" end.
Definition parse_mode (d : pydict) : result vectorize_mode :=
  let* s := text_field d "mode" in
  if ueqb s (u "from_construct") then Ok from_construct else if ueqb s (u "purge_generation") then Ok purge_generation else Err ValueError.

(** [channel_filter] can only be ['all'], its default. *)
Record VectorizeCommand := {
  vc_mode : vectorize_mode;
  vc_team : ustr;
  vc_execution : ustr;
  vc_input_digest : ustr;
  vc_construction : option ustr;
  vc_construction_digest : option ustr;
  vc_dual : option ustr;
  vc_dual_digest : option ustr;
  vc_recipe : option ustr;
  vc_item : option ustr;
  vc_revision : option ustr;
  vc_namespace_key : option ustr;
  vc_namespace : option ustr;
  vc_embedding : option embedding_ref;
  vc_targets : list ustr
}.
#[export] Instance vectorize_command_eq : EqDecision VectorizeCommand.
Proof. solve_decision. Defined.
Definition MAX_TARGETS : Z := 10000.
Definition given {A} (o : option A) : bool := bool_decide (is_Some o).
Definition optional_bounded (most : Z) (o : option ustr) : bool := match o with Some s => bounded_text most s | None => true end.
Definition optional_digest (o : option ustr) : bool := match o with Some s => is_digest s | None => true end.
Definition construct_fields (c : VectorizeCommand) : list bool :=
  [given (vc_construction c); given (vc_construction_digest c); given (vc_dual c); given (vc_dual_digest c); given (vc_recipe c); given (vc_item c);
   given (vc_revision c); given (vc_namespace_key c); given (vc_namespace c); given (vc_embedding c)].
Definition command_bounds (c : VectorizeCommand) : bool :=
  bounded_text 128 (vc_team c) && bounded_text 128 (vc_execution c) && is_digest (vc_input_digest c)
  && forallb (optional_bounded 128) [vc_construction c; vc_dual c; vc_recipe c; vc_item c; vc_revision c; vc_namespace c]
  && optional_digest (vc_construction_digest c) && optional_digest (vc_dual_digest c) && optional_bounded 256 (vc_namespace_key c)
  && (Z.of_nat (length (vc_targets c)) <=? MAX_TARGETS) && forallb (bounded_text 128) (vc_targets c).
(** [enforce_mode_specific_closed_shape] *)
Definition command_shape (c : VectorizeCommand) : bool :=
  safe_public_data (obj [("team_uuid", PStr (vc_team c)); ("execution_uuid", PStr (vc_execution c)); ("command_input_digest", PStr (vc_input_digest c))]%string)
  && match vc_mode c with
     | from_construct => forallb id (construct_fields c) && bool_decide (vc_targets c = [])
     | purge_generation =>
         negb (bool_decide (vc_targets c = [])) && forallb negb (construct_fields c) && distinct (vc_targets c)
         && bool_decide (vc_targets c = sorted_texts (vc_targets c))
     end
  && safe_public_data (texts (vc_targets c)).
Definition make_command (c : VectorizeCommand) : result VectorizeCommand := check command_bounds c && command_shape c else ValueError ;; Ok c.

Definition dump_command (c : VectorizeCommand) : pydict :=
  fields [("schema_version", PStr (u "mkb.vectorize-command.v1")); ("mode", PStr (mode_text (vc_mode c))); ("team_uuid", PStr (vc_team c));
     ("execution_uuid", PStr (vc_execution c)); ("command_input_digest", PStr (vc_input_digest c)); ("construction_artifact_uuid", py_opt (vc_construction c));
     ("construction_content_digest", py_opt (vc_construction_digest c)); ("dual_channel_generation_artifact_uuid", py_opt (vc_dual c));
     ("dual_channel_content_digest", py_opt (vc_dual_digest c)); ("content_full_recipe_version", py_opt (vc_recipe c)); ("intake_item_uuid", py_opt (vc_item c));
     ("intake_revision_uuid", py_opt (vc_revision c)); ("namespace_key", py_opt (vc_namespace_key c)); ("namespace_uuid", py_opt (vc_namespace c));
     ("embedding_model_ref", match vc_embedding c with Some r => PDict (dump_embedding_ref r) | None => PNone end);
     ("target_generation_artifact_uuids", texts (vc_targets c)); ("channel_filter", PStr (u "all"))]%string.
Definition COMMAND_KEYS : list string :=
  ["schema_version"; "mode"; "team_uuid"; "execution_uuid"; "command_input_digest"; "construction_artifact_uuid"; "construction_content_digest";
   "dual_channel_generation_artifact_uuid"; "dual_channel_content_digest"; "content_full_recipe_version"; "intake_item_uuid"; "intake_revision_uuid";
   "namespace_key"; "namespace_uuid"; "embedding_model_ref"; "target_generation_artifact_uuids"; "channel_filter"]%string.
Definition parse_command (v : pyval) : result VectorizeCommand :=
  match v with
  | PDict d =>
      check no_unknown COMMAND_KEYS d else ValueError ;;
      let* _ := literal_field d "schema_version" "mkb.vectorize-command.v1" in
      let* _ := literal_field d "channel_filter" "all" in
      let* mode := parse_mode d in
      let* team := text_field d "team_uuid" in
      let* execution := text_field d "execution_uuid" in
      let* input := text_field d "command_input_digest" in
      let* construction := optional_text d "construction_artifact_uuid" in
      let* construction_digest := optional_text d "construction_content_digest" in
      let* dual := optional_text d "dual_channel_generation_artifact_uuid" in
      let* dual_digest := optional_text d "dual_channel_content_digest" in
      let* recipe := optional_text d "content_full_recipe_version" in
      let* item := optional_text d "intake_item_uuid" in
      let* revision := optional_text d "intake_revision_uuid" in
      let* namespace_key := optional_text d "namespace_key" in
      let* namespace := optional_text d "namespace_uuid" in
      let* embedding := (match default PNone (raw_field d "embedding_model_ref") with PNone => Ok None | v => let* r := parse_embedding_ref v in Ok (Some r) end) in
      let* targets := (match default (PList []) (raw_field d "target_generation_artifact_uuids") with PList l => text_items l | _ => Err ValueError end) in
      make_command (Build_VectorizeCommand mode team execution input construction construction_digest dual dual_digest recipe item revision namespace_key
                      namespace embedding targets)
  | _ => Err ValueError
  end.

(** ** [VectorizeHandoffV1] *)

Record VectorizeHandoff := {
  vh_team : ustr;
  vh_execution : ustr;
  vh_input_digest : ustr;
  vh_artifact : ustr;
  vh_content_digest : ustr;
  vh_recipe : ustr;
  vh_namespace : ustr;
  vh_embedding : embedding_ref;
  vh_required : Z;
  vh_succeeded : Z;
  vh_skipped : Z;
  vh_failed : Z
}.
#[export] Instance vectorize_handoff_eq : EqDecision VectorizeHandoff.
Proof. solve_decision. Defined.
Definition dump_handoff (h : VectorizeHandoff) : pydict :=
  fields [("schema_version", PStr (u "mkb.vectorize-handoff.v1")); ("disposition", PStr (u "full_valid")); ("team_uuid", PStr (vh_team h));
     ("execution_uuid", PStr (vh_execution h)); ("command_input_digest", PStr (vh_input_digest h)); ("generation_artifact_uuid", PStr (vh_artifact h));
     ("generation_artifact_type", PStr (u "dual_channel_projection")); ("generation_content_digest", PStr (vh_content_digest h));
     ("content_full_recipe_version", PStr (vh_recipe h)); ("namespace_uuid", PStr (vh_namespace h)); ("embedding_model_ref", PDict (dump_embedding_ref (vh_embedding h)));
     ("required_units", PInt (vh_required h)); ("succeeded_units", PInt (vh_succeeded h)); ("skipped_empty_units", PInt (vh_skipped h));
     ("failed_units", PInt (vh_failed h))]%string.
(** The bounds and [enforce_complete_write_proof]. *)
Definition make_handoff (h : VectorizeHandoff) : result VectorizeHandoff :=
  check forallb (bounded_text 128) [vh_team h; vh_execution h; vh_artifact h; vh_recipe h; vh_namespace h] && is_digest (vh_input_digest h)
        && is_digest (vh_content_digest h) && (1 <=? vh_required h) && (0 <=? vh_succeeded h) && (0 <=? vh_skipped h) && (0 <=? vh_failed h)
        && (vh_succeeded h =? vh_required h) && (vh_failed h =? 0) && safe_public_data (PDict (dump_handoff h)) else ValueError ;;
  Ok h.
Definition HANDOFF_KEYS : list string :=
  ["schema_version"; "disposition"; "team_uuid"; "execution_uuid"; "command_input_digest"; "generation_artifact_uuid"; "generation_artifact_type";
   "generation_content_digest"; "content_full_recipe_version"; "namespace_uuid"; "embedding_model_ref"; "required_units"; "succeeded_units";
   "skipped_empty_units"; "failed_units"]%string.
Definition parse_handoff (v : pyval) : result VectorizeHandoff :=
  match v with
  | PDict d =>
      check no_unknown HANDOFF_KEYS d else ValueError ;;
      let* _ := literal_field d "schema_version" "mkb.vectorize-handoff.v1" in
      let* _ := literal_field d "disposition" "full_valid" in
      let* _ := literal_field d "generation_artifact_type" "dual_channel_projection" in
      let* team := text_field d "team_uuid" in
      let* execution := text_field d "execution_uuid" in
      let* input := text_field d "command_input_digest" in
      let* artifact := text_field d "generation_artifact_uuid" in
      let* content := text_field d "generation_content_digest" in
      let* recipe := text_field d "content_full_recipe_version" in
      let* namespace := text_field d "namespace_uuid" in
      let* embedding := (match raw_field d "embedding_model_ref" with Some v => parse_embedding_ref v | None => Err ValueError end) in
      let* required := int_field d "required_units" None in
      let* succeeded := int_field d "succeeded_units" None in
      let* skipped := int_field d "skipped_empty_units" (Some 0) in
      let* failed := int_field d "failed_units" (Some 0) in
      make_handoff (Build_VectorizeHandoff team execution input artifact content recipe namespace embedding required succeeded skipped failed)
  | _ => Err ValueError
  end.

(** ** [VectorizePurgeReceiptV1] and [VectorizeOutcome] *)

Record PurgeReceipt := {
  vp_team : ustr;
  vp_execution : ustr;
  vp_input_digest : ustr;
  vp_targets : list ustr;
  vp_matched : Z;
  vp_deleted : Z
}.
#[export] Instance purge_receipt_eq : EqDecision PurgeReceipt.
Proof. solve_decision. Defined.
Definition dump_receipt (r : PurgeReceipt) : pydict :=
  fields [("schema_version", PStr (u "mkb.vectorize-purge-receipt.v1")); ("disposition", PStr (u "full_valid")); ("mode", PStr (u "purge_generation"));
     ("team_uuid", PStr (vp_team r)); ("execution_uuid", PStr (vp_execution r)); ("command_input_digest", PStr (vp_input_digest r));
     ("target_generation_artifact_uuids", texts (vp_targets r)); ("channel_filter", PStr (u "all")); ("matched_records", PInt (vp_matched r));
     ("soft_deleted_records", PInt (vp_deleted r))]%string.
(** The bounds and [enforce_exact_soft_delete_receipt]. *)
Definition make_receipt (r : PurgeReceipt) : result PurgeReceipt :=
  check bounded_text 128 (vp_team r) && bounded_text 128 (vp_execution r) && is_digest (vp_input_digest r) && negb (bool_decide (vp_targets r = []))
        && forallb (bounded_text 128) (vp_targets r) && (0 <=? vp_matched r) && (0 <=? vp_deleted r)
        && distinct (vp_targets r) && bool_decide (vp_targets r = sorted_texts (vp_targets r))
        && (vp_deleted r =? vp_matched r) && safe_public_data (PDict (dump_receipt r)) else ValueError ;;
  Ok r.
Definition RECEIPT_KEYS : list string :=
  ["schema_version"; "disposition"; "mode"; "team_uuid"; "execution_uuid"; "command_input_digest"; "target_generation_artifact_uuids"; "channel_filter";
   "matched_records"; "soft_deleted_records"]%string.
Definition parse_receipt (v : pyval) : result PurgeReceipt :=
  match v with
  | PDict d =>
      check no_unknown RECEIPT_KEYS d else ValueError ;;
      let* _ := literal_field d "schema_version" "mkb.vectorize-purge-receipt.v1" in
      let* _ := literal_field d "disposition" "full_valid" in
      let* _ := literal_field d "mode" "purge_generation" in
      let* filter := text_field d "channel_filter" in
      check ueqb filter (u "all") else ValueError ;;
      let* team := text_field d "team_uuid" in
      let* execution := text_field d "execution_uuid" in
      let* input := text_field d "command_input_digest" in
      let* targets := (match raw_field d "target_generation_artifact_uuids" with Some (PList l) => text_items l | _ => Err ValueError end) in
      let* matched := int_field d "matched_records" None in
      let* deleted := int_field d "soft_deleted_records" None in
      make_receipt (Build_PurgeReceipt team execution input targets matched deleted)
  | _ => Err ValueError
  end.

Record VectorizeOutcome := {
  vo_mode : vectorize_mode;
  vo_input_digest : ustr;
  vo_handoff : option VectorizeHandoff;
  vo_receipt : option PurgeReceipt
}.
#[export] Instance vectorize_outcome_eq : EqDecision VectorizeOutcome.
Proof. solve_decision. Defined.
(** [enforce_mode_specific_outcome] *)
Definition make_outcome (o : VectorizeOutcome) : result VectorizeOutcome :=
  check is_digest (vo_input_digest o)
        && match vo_mode o, vo_handoff o, vo_receipt o with
           | from_construct, Some h, None => ueqb (vh_input_digest h) (vo_input_digest o)
           | purge_generation, None, Some r => ueqb (vp_input_digest r) (vo_input_digest o)
           | _, _, _ => false
           end else ValueError ;;
  Ok o.
Definition dump_outcome (o : VectorizeOutcome) : pydict :=
  fields [("schema_version", PStr (u "mkb.vectorize-outcome.v1")); ("disposition", PStr (u "full_valid")); ("mode", PStr (mode_text (vo_mode o)));
     ("command_input_digest", PStr (vo_input_digest o)); ("handoff", match vo_handoff o with Some h => PDict (dump_handoff h) | None => PNone end);
     ("purge_receipt", match vo_receipt o with Some r => PDict (dump_receipt r) | None => PNone end)]%string.
Definition OUTCOME_KEYS : list string := ["schema_version"; "disposition"; "mode"; "command_input_digest"; "handoff"; "purge_receipt"]%string.
Definition parse_outcome (v : pyval) : result VectorizeOutcome :=
  match v with
  | PDict d =>
      check no_unknown OUTCOME_KEYS d else ValueError ;;
      let* _ := literal_field d "schema_version" "mkb.vectorize-outcome.v1" in
      let* _ := literal_field d "disposition" "full_valid" in
      let* mode := parse_mode d in
      let* input := text_field d "command_input_digest" in
      let* handoff := (match default PNone (raw_field d "handoff") with PNone => Ok None | v => let* h := parse_handoff v in Ok (Some h) end) in
      let* receipt := (match default PNone (raw_field d "purge_receipt") with PNone => Ok None | v => let* r := parse_receipt v in Ok (Some r) end) in
      make_outcome (Build_VectorizeOutcome mode input handoff receipt)
  | _ => Err ValueError
  end.

(** ** What is dumped validates again *)

Lemma text_items_texts l : text_items (map PStr l) = Ok l.
Proof. unfold text_items. induction l as [|s l IH]; [done|]. cbn [map mapM rbind]. by rewrite IH. Qed.
Lemma optional_text_opt (d : pydict) k o : dget d (u k) = Some (py_opt o) -> optional_text d k = Ok o.
Proof. intros Hd. unfold optional_text, raw_field. rewrite Hd. by destruct o. Qed.

Lemma made {A} (b : bool) (x y : A) e : (check b else e ;; Ok x) = Ok y -> y = x.
Proof. destruct b; [by intros [= ->]|done]. Qed.

Lemma is_ok_made {A} (b : bool) (x : A) e : is_ok (check b else e ;; Ok x) = true -> (check b else e ;; Ok x) = Ok x.
Proof. by destruct b. Qed.

Lemma parse_dump_embedding_ref r r' : make_embedding_ref r = Ok r' -> parse_embedding_ref (PDict (dump_embedding_ref r)) = Ok r.
Proof.
  intros Hm. pose proof (made _ _ _ _ Hm) as ->. cbv [parse_embedding_ref].
  assert (forall k v a dm b, let d := dump_embedding_ref (Build_embedding_ref k v a dm b) in
    no_unknown ["model_key"; "model_version"; "adapter_kind"; "dimension"; "binding_digest"]%string d = true /\ text_field d "model_key" = Ok k /\ text_field d "model_version" = Ok v /\
    text_field d "adapter_kind" = Ok a /\ int_field d "dimension" None = Ok dm /\ optional_text d "binding_digest" = Ok b) as Hf.
  { intros k v a dm b. cbv zeta. split_and!; try reflexivity. by apply optional_text_opt. }
  destruct r as [k v a dm b]. destruct (Hf k v a dm b) as (-> & -> & -> & -> & -> & ->). cbn [rbind ensure]. exact Hm.
Qed.

Lemma rbind_step {A B} (m : result A) (k : A -> result B) a r : m = Ok a -> k a = r -> rbind m k = r.
Proof. by intros ->. Qed.

(** Reads the fields of a dumped model one after the other. *)
Ltac read_fields := repeat (eapply rbind_step; [first [reflexivity | apply optional_text_opt; reflexivity]|cbv beta]).

Lemma parse_dump_handoff h : is_ok (make_embedding_ref (vh_embedding h)) = true -> is_ok (make_handoff h) = true ->
  parse_handoff (PDict (dump_handoff h)) = Ok h.
Proof.
  intros Er%is_ok_made%parse_dump_embedding_ref Eh%is_ok_made.
  destruct h as [tm ex inp art con rec ns em rq sc sk fl]. cbn [vh_embedding] in Er. unfold parse_handoff.
  do 11 (eapply rbind_step; [reflexivity|cbv beta]).
  eapply rbind_step; [transitivity (parse_embedding_ref (PDict (dump_embedding_ref em))); [reflexivity|exact Er]|]. cbv beta. read_fields. exact Eh.
Qed.

Lemma parse_dump_receipt r : is_ok (make_receipt r) = true -> parse_receipt (PDict (dump_receipt r)) = Ok r.
Proof.
  intros Er%is_ok_made.
  destruct r as [tm ex inp tg mt dl]. unfold parse_receipt. do 9 (eapply rbind_step; [reflexivity|cbv beta]).
  eapply rbind_step; [apply text_items_texts|]. cbv beta. do 2 (eapply rbind_step; [reflexivity|cbv beta]). exact Er.
Qed.

Definition parts_valid (o : VectorizeOutcome) : bool :=
  match vo_handoff o with Some h => is_ok (make_embedding_ref (vh_embedding h)) && is_ok (make_handoff h) | None => true end
  && match vo_receipt o with Some r => is_ok (make_receipt r) | None => true end.

Lemma parse_mode_text (d : pydict) m : dget d (u "mode") = Some (PStr (mode_text m)) -> parse_mode d = Ok m.
Proof. intros Hd. unfold parse_mode, text_field, raw_field. rewrite Hd. by destruct m. Qed.

(** The contracts between vectorization and publication survive their JSON form: a command
    or an outcome that was constructed, with all its parts, is what its validator makes of its
    dump. *)
Theorem contracts_round_trip :
  (forall c, is_ok (make_command c) = true -> match vc_embedding c with Some r => is_ok (make_embedding_ref r) | None => true end = true ->
     parse_command (PDict (dump_command c)) = Ok c) /\
  (forall o, is_ok (make_outcome o) = true -> parts_valid o = true -> parse_outcome (PDict (dump_outcome o)) = Ok o).
Proof.
  split.
  - intros c Ec%is_ok_made Hr.
    destruct c as [md tm ex inp co cod du dud rec it rv nk ns em tg]. cbn [vc_embedding] in Hr. unfold parse_command.
    do 3 (eapply rbind_step; [reflexivity|cbv beta]). eapply rbind_step; [by apply parse_mode_text|]. cbv beta. read_fields.
    eapply rbind_step.
    { change (default PNone _) with (match em with Some r => PDict (dump_embedding_ref r) | None => PNone end).
      instantiate (1 := em). destruct em as [r|]; [|done]. apply is_ok_made, parse_dump_embedding_ref in Hr. cbv beta iota. by rewrite Hr. }
    cbv beta. eapply rbind_step; [apply text_items_texts|]. exact Ec.
  - intros o Eo%is_ok_made Hp.
    destruct o as [md inp h r]. unfold parts_valid in Hp. cbn [vo_handoff vo_receipt] in Hp. apply andb_true_iff in Hp as [Hh Hr].
    unfold parse_outcome. do 3 (eapply rbind_step; [reflexivity|cbv beta]). eapply rbind_step; [by apply parse_mode_text|]. cbv beta. eapply rbind_step; [reflexivity|cbv beta].
    eapply rbind_step.
    { change (default PNone _) with (match h with Some h => PDict (dump_handoff h) | None => PNone end). instantiate (1 := h). destruct h as [h|]; [|done].
      apply andb_true_iff in Hh as [He Hh]. cbv beta iota. by rewrite parse_dump_handoff. }
    cbv beta. eapply rbind_step; [|exact Eo].
    change (default PNone _) with (match r with Some r => PDict (dump_receipt r) | None => PNone end). destruct r as [r|]; [|done]. cbv beta iota. by rewrite parse_dump_receipt.
Qed.
End contracts.
