(* ===== verification/Lifecycle.v ===== *)
(** * Lifecycle and serving of intake items

    Model of [src/services/intake_lifecycle/lifecycle_apply.py] and [lifecycle_publish.py]
    over the tables of [Index.v]: a lifecycle command deactivates, reactivates or deletes an
    item, and a publication command lets it serve a revision.  Both write the ledger of
    transitions, whose fence makes a repeated command harmless, and wake the execution. *)

From S2P Require Import Prelude PyText PyValue Txn Outbox Objects RetrievalTables Index.

Open Scope Z_scope.
Open Scope mkb_scope.

(** ** Commands *)

(** [IntakeLifecycleCommand]; [lc_causes] are task, execution and process, [lc_proof] the
    reference and digest of the process proof. *)
Record lifecycle_command := {
  lc_team : ustr;
  lc_item : ustr;
  lc_action : ustr;
  lc_trace : ustr;
  lc_key : ustr;
  lc_expected : option Z;
  lc_causes : option ustr * option ustr * option ustr;
  lc_proof : option ustr * option ustr
}.
Record lifecycle_result := {
  lr_before : ustr;
  lr_state : ustr;
  lr_revision : Z;
  lr_cleared : bool;
  lr_fence : ustr;
  lr_applied : bool;
  lr_intent : option ustr
}.
(** [IntakePublicationCommand] *)
Record publication_command := {
  pb_team : ustr;
  pb_item : ustr;
  pb_revision : ustr;
  pb_proof_uuid : ustr;
  pb_namespace : ustr;
  pb_generation : Z;
  pb_trace : ustr;
  pb_key : ustr;
  pb_expected : option Z;
  pb_causes : option ustr * option ustr * option ustr;
  pb_proof : option ustr * option ustr
}.
Record publication_result := { ps_before : option ustr; ps_serving : option ustr; ps_revision : Z; ps_fence : ustr; ps_applied : bool }.

Section lifecycle.
Context {H : Host}.
Variables (uuid7 : nat -> ustr) (now : Z).
Abbreviation ctx := (txn index_db).

Definition ITEM_NOT_FOUND : exn := MkbError "intake-item-not-found" 404.
Definition REVISION_CONFLICT : exn := MkbError "intake-item-revision-conflict" 409.
Definition ITEM_DELETED : exn := MkbError "intake-item-deleted" 409.

(** ** Shared statements *)

(** A transition of the item under a fence. *)
Definition transitioned (d : index_db) (team item fence : ustr) : bool :=
  bool_decide (is_Some (first_row (fun _ t => ueqb (tr_team t) team && ueqb (tr_item t) item && ueqb (tr_fence t) fence) (l_transitions (x_log d)))).
Definition set_item (item : ustr) (i : intake_row) : ctx unit := on_pub (fun p => set_items (<[item := i]> (x_items p)) p).
Definition record_transition (t : transition_row) : ctx unit :=
  let! id := fresh_uuid uuid7 in
  let! d := gets x_log in
  require (unused id (l_transitions d) && bool_decide (tr_before t ∈ map u ["active"; "deactivated"; "deleted"]%string)) IntegrityError ;!
  on_log (fun l => set_transitions (<[id := t]> (l_transitions l)) l).

(** [_enqueue_execution_wake_tx]; identifiers are ASCII, which [json.dumps] leaves as they are. *)
Definition enqueue_execution_wake (team : ustr) (task : option ustr) (execution fence prefix : ustr) : ctx unit :=
  let payload := fields ([("execution_uuid"%string, PStr execution)] ++ match task with Some t => [("task_uuid"%string, PStr t)] | None => [] end) in
  let! payload_json := lift (json_text (PDict payload)) in
  let! digest := lift (stable_digest (PDict payload)) in
  let! id := fresh_uuid uuid7 in
  match outbox_kind "wake_execution" with
  | None => raise KeyError
  | Some k =>
      let row := Build_outbox_row team "wake_execution" payload_json digest (prefix ++ u ":" ++ execution ++ u ":" ++ fence) pending 0 now None None
                   "execution" (Some execution) 0 1 (ok_criticality k) (ok_attempt_budget k) (ok_dead_error_code k) None now now in
      on_log (fun l => set_wakes (if outbox_conflict (l_outbox l) id row then l_outbox l else <[id := row]> (l_outbox l)) l)
  end.

(** ** Lifecycle commands *)

(** [_validate_command] *)
Definition validate_command (c : lifecycle_command) : result unit :=
  let invalid := MkbError "INTAKE_LIFECYCLE_COMMAND_INVALID" 422 in
  check bool_decide (lc_action c ∈ map u ["deactivate"; "reactivate"; "delete"]%string) else MkbError "INTAKE_LIFECYCLE_ACTION_INVALID" 422 ;;
  check forallb (fun s => negb (ueqb s [])) [lc_team c; lc_item c; lc_trace c] else invalid ;;
  check negb (ueqb (lc_key c) []) && (length (lc_key c) <=? 256)%nat else invalid ;;
  ensure (match lc_expected c with Some e => 0 <=? e | None => true end) invalid.

(** [_target_state] *)
Definition target_state (action current : ustr) : result (option ustr) :=
  if ueqb action (u "deactivate") then
    if ueqb current (u "active") then Ok (Some (u "deactivated")) else if ueqb current (u "deactivated") then Ok None else Err ITEM_DELETED
  else if ueqb action (u "reactivate") then
    if ueqb current (u "deactivated") then Ok (Some (u "active")) else if ueqb current (u "active") then Ok None else Err ITEM_DELETED
  else if ueqb current (u "active") || ueqb current (u "deactivated") then Ok (Some (u "deleted"))
  else Ok None.

(** [_action_definition_tx]; the effect of an action carries its name. *)
Definition action_definition (d : index_db) (action current : ustr) : result ustr :=
  match g_actions (x_reg d) !! (action, u "v1") with
  | None => Err (MkbError "INTAKE_ACTION_UNREGISTERED" 503)
  | Some a =>
      check bool_decide (current ∈ ac_allowed a) else MkbError "intake-lifecycle-transition-invalid" 409 ;;
      check bool_decide (action ∈ ac_effects a) else MkbError "INTAKE_ACTION_DEFINITION_INVALID" 503 ;;
      Ok (u "v1")
  end.

(** [_existing_cleanup_tx]: the latest open intent. *)
Definition later_intent (a b : ustr * intent_row) : bool :=
  (in_requested b.2 <? in_requested a.2) || (in_requested b.2 =? in_requested a.2) && str_le b.1 a.1.
Definition existing_cleanup (d : index_db) (team item : ustr) : option ustr :=
  fst <$> head (py_sorted later_intent (rows_where (fun _ i => ueqb (in_team i) team && ueqb (in_kind i) (u "intake_item")
     && ueqb (in_target i) (u "intake_item:" ++ item) && bool_decide (in_status i = I_open)) (l_intents (x_log d)))).
Definition insert_intent (id : ustr) (i : intent_row) : ctx unit :=
  let! l := gets x_log in
  require (unused id (l_intents l)) IntegrityError ;!
  on_log (fun l => set_intents (<[id := i]> (l_intents l)) l).
(** [_ensure_delete_cleanup_tx] *)
Definition ensure_delete_cleanup (team item trace : ustr) : ctx ustr :=
  let! d := gets id in
  match existing_cleanup d team item with
  | Some intent => ret intent
  | None =>
      let! intent := fresh_uuid uuid7 in
      let target := u "intake_item:" ++ item in
      let! substrates := lift (stable_digest (obj [("target_ref", PStr target);
         ("required_substrates", texts (map u ["derived_generation"; "intake_artifact"; "vector_projection"]%string))]%string)) in
      insert_intent intent (Build_intent_row team (u "mkb.retention.intake-delete.v1") (u "intake_item") target substrates None I_open (Some trace) now None None None) ;!
      ret intent
  end.

Definition lifecycle_fence (c : lifecycle_command) : result ustr :=
  stable_digest (obj [("schema_version", PStr (u "mkb.intake-lifecycle-command.v1")); ("team_uuid", PStr (lc_team c));
    ("intake_item_uuid", PStr (lc_item c)); ("action", PStr (lc_action c)); ("idempotency_key", PStr (lc_key c))]%string).

Definition set_lifecycle (target : ustr) (i : intake_row) : intake_row :=
  Build_intake_row (Build_item_row (it_team i) (it_source i) target (ueqb target (u "deleted") || it_deleted i) None)
    (ix_latest i) (ix_revision i + 1)
    (if ueqb target (u "active") then None else if ueqb target (u "deactivated") then Some now else ix_deactivated_at i).
Definition withdraw_alias (a : alias_row) : alias_row :=
  Build_alias_row (Build_pointer_row (pr_generation a) (u "withdrawn") (pr_proof a) (pr_artifact a)) (al_revision a + 1) None now.

(** The item, its aliases and its records leave the index. *)
Definition withdraw_item (team item target : ustr) (i : intake_row) : ctx unit :=
  set_item item (set_lifecycle target i) ;!
  on_pub (fun p => set_aliases (map_imap (fun k a => Some (if ueqb k.1.1 team && ueqb k.1.2 item && negb (ueqb (pr_state (al_row a)) (u "withdrawn"))
                                                           then withdraw_alias a else a)) (x_aliases p)) p) ;!
  let! _ := update_records (fun _ r => ueqb (vr_team r) team && bool_decide (vr_item r = Some item) && negb (vr_deleted r) && vr_published r) withdraw_record in
  ret tt.

(** What a deletion adds: released holds and a cleanup intent. *)
Definition delete_effects (c : lifecycle_command) (cleanup : option ustr) : ctx (option ustr) :=
  if ueqb (lc_action c) (u "delete") then
    on_log (fun l => set_refs ((fun r => if ueqb (rf_team r) (lc_team c) && ueqb (rf_owner r) (lc_item c) && unreleased r then release now r else r) <$> l_references l) l) ;!
    let! intent := ensure_delete_cleanup (lc_team c) (lc_item c) (lc_trace c) in
    ret (Some intent)
  else ret cleanup.

(** [apply_tx] *)
Definition apply_lifecycle (c : lifecycle_command) : ctx lifecycle_result :=
  lift (validate_command c) ;!
  let! fence := lift (lifecycle_fence c) in
  let! d := gets id in
  match item_of (lc_team c) (lc_item c) (x_pub d) with
  | None => raise ITEM_NOT_FOUND
  | Some i =>
      let cleanup := existing_cleanup d (lc_team c) (lc_item c) in
      let unchanged := Build_lifecycle_result (it_state i) (it_state i) (ix_revision i) (bool_decide (it_serving i = None)) fence false cleanup in
      if transitioned d (lc_team c) (lc_item c) fence then ret unchanged else
      require (match lc_expected c with Some e => ix_revision i =? e | None => true end) REVISION_CONFLICT ;!
      let! target := lift (target_state (lc_action c) (it_state i)) in
      match target with
      | None => ret unchanged
      | Some target =>
          let! version := lift (action_definition d (lc_action c) (it_state i)) in
          withdraw_item (lc_team c) (lc_item c) target i ;!
          let! intent := delete_effects c cleanup in
          record_transition (Build_transition_row (lc_team c) (lc_item c) (lc_action c) version (it_state i) target (ix_latest i) (it_serving i) None
            (ix_revision i) (ix_revision i + 1) (lc_causes c) (lc_proof c)
            (if ueqb (lc_action c) (u "delete") then Some (u "mkb.retention.intake-delete") else None) fence) ;!
          match lc_causes c with
          | (task, Some execution, _) => enqueue_execution_wake (lc_team c) task execution fence (u "intake-lifecycle-wake")
          | _ => ret tt
          end ;!
          ret (Build_lifecycle_result (it_state i) target (ix_revision i + 1) true fence true intent)
      end
  end.

(** ** Publication commands *)

(** [_validate_publication_command] *)
Definition validate_publication_command (c : publication_command) : result unit :=
  let invalid := MkbError "INTAKE_PUBLICATION_COMMAND_INVALID" 422 in
  let '(task, execution, process) := pb_causes c in
  let given := [Some (pb_team c); Some (pb_item c); Some (pb_revision c); Some (pb_proof_uuid c); Some (pb_namespace c); Some (pb_trace c); Some (pb_key c);
                task; execution; process; (pb_proof c).1; (pb_proof c).2] in
  check forallb (fun s => match s with Some (_ :: _) => true | _ => false end) given else invalid ;;
  check (length (pb_key c) <=? 256)%nat && (0 <=? pb_generation c) else invalid ;;
  check match pb_expected c with Some e => 0 <=? e | None => true end else invalid ;;
  ensure (match (pb_proof c).2 with Some dg => is_digest dg | None => false end) invalid.

(** [_publication_definition_tx] *)
Definition publication_definition (d : index_db) : result ustr :=
  match g_actions (x_reg d) !! (u "publish_revision", u "v1") with
  | None => Err (MkbError "INTAKE_ACTION_UNREGISTERED" 503)
  | Some a =>
      check bool_decide (u "active" ∈ ac_allowed a) else MkbError "INTAKE_ACTION_DEFINITION_INVALID" 503 ;;
      check bool_decide (u "advance_serving" ∈ ac_effects a) else MkbError "INTAKE_ACTION_DEFINITION_INVALID" 503 ;;
      Ok (u "v1")
  end.

Definition publication_fence_digest (c : publication_command) : result ustr :=
  stable_digest (obj [("schema_version", PStr (u "mkb.intake-publication-command.v1")); ("team_uuid", PStr (pb_team c));
    ("intake_item_uuid", PStr (pb_item c)); ("intake_revision_uuid", PStr (pb_revision c)); ("publication_proof_uuid", PStr (pb_proof_uuid c));
    ("idempotency_key", PStr (pb_key c))]%string).

Definition SERVING_FENCE : exn := MkbError "PUBLICATION_SERVING_FENCE" 409.
Definition PROOF_INVALID : exn := MkbError "PUBLICATION_PROOF_INVALID" 409.
Definition POINTER_FENCE : exn := MkbError "PUBLICATION_POINTER_FENCE" 409.

(** The proof of the command, complete and of the same process. *)
Definition proof_for (c : publication_command) (p : published) : result evidence_row :=
  match x_proofs p !! pb_proof_uuid c with
  | Some e =>
      check ueqb (pf_team (ev_row e)) (pb_team c) && ueqb (pf_item e) (pb_item c) && ueqb (pf_revision e) (pb_revision c)
            && ueqb (pf_namespace e) (pb_namespace c) && (pf_generation e =? pb_generation c) else PROOF_INVALID ;;
      check bool_decide ((pb_causes c).1.2 = Some (ev_execution e)) && bool_decide ((pb_causes c).2 = Some (ev_process e))
            && (pf_expected e =? pf_actual e) && (pf_expected e =? pf_matched e) else PROOF_INVALID ;;
      Ok e
  | None => Err PROOF_INVALID
  end.
Definition alias_for (c : publication_command) (e : evidence_row) (p : published) : bool :=
  match x_aliases p !! (pb_team c, pb_item c, pb_namespace c) with
  | Some a => ueqb (pr_state (al_row a)) (u "active") && (pr_generation a =? pb_generation c) && bool_decide (pr_proof a = Some (pb_proof_uuid c))
              && bool_decide (pr_artifact a = Some (pf_artifact e))
  | None => false
  end.
Definition serve_revision (revision : ustr) (i : intake_row) : intake_row :=
  Build_intake_row (Build_item_row (it_team i) (it_source i) (it_state i) (it_deleted i) (Some revision)) (ix_latest i) (ix_revision i + 1) (ix_deactivated_at i).

(** [publish_revision_tx] *)
Definition publish_revision (c : publication_command) : ctx publication_result :=
  lift (validate_publication_command c) ;!
  let! fence := lift (publication_fence_digest c) in
  let! d := gets id in
  match item_of (pb_team c) (pb_item c) (x_pub d) with
  | None => raise ITEM_NOT_FOUND
  | Some i =>
      if transitioned d (pb_team c) (pb_item c) fence then
        require (bool_decide (it_serving i = Some (pb_revision c))) (MkbError "intake-publication-replay-conflict" 409) ;!
        ret (Build_publication_result (it_serving i) (it_serving i) (ix_revision i) fence false)
      else
      require (match pb_expected c with Some e => ix_revision i =? e | None => true end) REVISION_CONFLICT ;!
      require (ueqb (it_state i) (u "active")) SERVING_FENCE ;!
      require (bool_decide (ix_latest i = Some (pb_revision c))) SERVING_FENCE ;!
      let! version := lift (publication_definition d) in
      let! e := lift (proof_for c (x_pub d)) in
      require (alias_for c e (x_pub d)) POINTER_FENCE ;!
      set_item (pb_item c) (serve_revision (pb_revision c) i) ;!
      record_transition (Build_transition_row (pb_team c) (pb_item c) (u "publish_revision") version (u "active") (u "active") (ix_latest i) (it_serving i)
        (Some (pb_revision c)) (ix_revision i) (ix_revision i + 1) (pb_causes c) (pb_proof c) None fence) ;!
      match pb_causes c with
      | (task, Some execution, _) => enqueue_execution_wake (pb_team c) task execution fence (u "intake-publication-wake")
      | _ => raise AssertionError
      end ;!
      ret (Build_publication_result (it_serving i) (Some (pb_revision c)) (ix_revision i + 1) fence true)
  end.
End lifecycle.
