(* ===== verification/Retirement.v ===== *)
(** * Retirement of index generations and purges

    Model of [src/services/index_retirement.py] and [src/services/vector_purge.py] over the
    tables of [Index.v]: an intent freezes the grace of a superseded generation, and a due
    intent deletes its records only behind the active pointer; a purge command deletes the
    records of whole artifacts under the receipt that was planned for it.

    Stamps are microseconds: every writer stamps with a well-formed UTC text, [stamp], which
    parses back.  [grace] is the positive grace of the service. *)

From S2P Require Import Prelude PyText PyValue Txn Engine Objects RetrievalTables Index Lifecycle VectorContracts.

Open Scope Z_scope.
Open Scope mkb_scope.

(** ** Targets *)

Definition RETIREMENT_POLICY_REF : ustr := u "mkb.retention.index-generation.v1".
Definition RETIREMENT_TARGET_KIND : ustr := u "index_generation".

(** [target_ref] *)
Definition target_ref (item namespace : ustr) (generation : Z) : result ustr :=
  check negb (ueqb item []) && negb (ueqb namespace []) && negb (bool_decide (58 ∈ item)) && negb (bool_decide (58 ∈ namespace)) else ValueError ;;
  check 0 <=? generation else ValueError ;;
  Ok (u "index-generation:v1:" ++ item ++ u ":" ++ namespace ++ u ":" ++ dec generation).
(** [_parse_target_ref] *)
Definition parse_target_ref {H : Host} (s : ustr) : option (ustr * ustr * Z) :=
  match split_on 58 s with
  | [prefix; version; item; namespace; generation] =>
      if ueqb prefix (u "index-generation") && ueqb version (u "v1") && negb (ueqb item []) && negb (ueqb namespace []) then
        match int_of_str generation with
        | Ok g => if (0 <=? g) && ueqb (dec g) generation then Some (item, namespace, g) else None
        | Err _ => None
        end
      else None
  | _ => None
  end.

(** [IndexGenerationRetirementIntent], [IndexGenerationRetirementCandidate] *)
Record retirement_intent := { ri_uuid : ustr; ri_team : ustr; ri_target : ustr * ustr * Z; ri_eligible : option Z; ri_requested : Z; ri_snapshot : option ustr }.
Record candidate := { rt_uuid : ustr; rt_team : ustr; rt_target : ustr; rt_eligible : option Z; rt_requested : Z }.
Inductive disposition :=
| soft_purged | not_due | stale | active_generation | pointer_unavailable | invalid_target | abandoned | retirement_error.
Record retirement_result := { rr_uuid : ustr; rr_disposition : disposition; rr_count : Z; rr_code : option string }.
Definition closed_as (uuid : ustr) (x : disposition) (n : Z) : retirement_result := Build_retirement_result uuid x n None.

Section retirement.
Context {H : Host}.
Variables (stamp : Z -> ustr) (uuid7 : nat -> ustr) (grace now : Z).
Abbreviation ctx := (txn index_db).

(** The alias behind which an item is served, as [_active_pointer_tx] joins it. *)
Definition serving_item (i : intake_row) : bool := ueqb (it_state i) (u "active") && negb (it_deleted i) && negb (bool_decide (it_serving i = None)).
Definition serving_alias (p : published) (team item namespace : ustr) : option alias_row :=
  a ← x_aliases p !! (team, item, namespace);
  n ← x_spaces p !! namespace;
  i ← item_of team item p;
  if ueqb (nr_team (sp_row n)) team && ueqb (nr_status n) (u "active") && negb (nr_deleted n) && serving_item i && ueqb (pr_state (al_row a)) (u "active")
  then Some a else None.

(** ** Scheduling *)

Definition INDEX_FENCE : exn := MkbError "INDEX_RETIREMENT_POINTER_FENCE" 409.
Definition INTENT_FENCE : exn := MkbError "INDEX_RETIREMENT_INTENT_FENCE" 409.
Definition substrate_digest : result ustr :=
  stable_digest (obj [("schema_version", PStr (u "mkb.index-generation-retirement-substrates.v1")); ("substrates", texts [u "vector_projection_soft_delete"])]%string).
Definition open_retirement (team target : ustr) (i : intent_row) : bool :=
  ueqb (in_team i) team && ueqb (in_kind i) RETIREMENT_TARGET_KIND && ueqb (in_target i) target && bool_decide (in_status i = I_open).
Definition intent_of_row (id : ustr) (i : intent_row) : result retirement_intent :=
  match parse_target_ref (in_target i) with
  | Some t => Ok (Build_retirement_intent id (in_team i) t (in_eligible i) (in_requested i) (in_snapshot i))
  | None => Err (MkbError "INDEX_RETIREMENT_TARGET_INVALID" 409)
  end.
(** [_pointer_snapshot_ref] *)
Definition pointer_snapshot_ref (team item namespace : ustr) (retired successor revision : Z) (artifact : option ustr) : result ustr :=
  let* digest := stable_digest (obj [("team_uuid", PStr team); ("intake_item_uuid", PStr item); ("namespace_uuid", PStr namespace);
     ("retired_index_generation", PInt retired); ("successor_index_generation", PInt successor); ("pointer_row_revision", PInt revision);
     ("successor_generation_artifact_uuid", py_opt artifact)]%string) in
  Ok (u "mkb.index-pointer-retirement.v1:" ++ digest).

(** [_validate_schedule] *)
Definition validate_schedule (team item namespace : ustr) (retired successor revision : Z) : result unit :=
  let* _ := target_ref item namespace retired in
  check negb (ueqb team []) else ValueError ;;
  check retired <? successor else ValueError ;;
  ensure (0 <=? revision) ValueError.

(** [schedule_retirement_tx]; [ux_intake_cleanup_open_index_generation] makes open targets unique. *)
Definition schedule_retirement (team item namespace : ustr) (retired successor revision : Z) (trace : option ustr) (cutover : option Z)
    : ctx (retirement_intent * bool) :=
  lift (validate_schedule team item namespace retired successor revision) ;!
  let! d := gets id in
  match serving_alias (x_pub d) team item namespace with
  | None => raise INDEX_FENCE
  | Some a =>
      require ((pr_generation a =? successor) && (al_revision a =? revision)) INDEX_FENCE ;!
      let effective := default (al_updated a) cutover in
      let! target := lift (target_ref item namespace retired) in
      match first_row (fun _ i => open_retirement team target i && ueqb (in_policy i) RETIREMENT_POLICY_REF) (l_intents (x_log d)) with
      | Some (id, i) => let! r := lift (intent_of_row id i) in ret (r, false)
      | None =>
          let! intent := fresh_uuid uuid7 in
          let! snapshot := lift (pointer_snapshot_ref team item namespace retired successor revision (pr_artifact a)) in
          let! substrates := lift substrate_digest in
          require (negb (bool_decide (is_Some (first_row (fun _ => open_retirement team target) (l_intents (x_log d)))))) IntegrityError ;!
          insert_intent intent (Build_intent_row team RETIREMENT_POLICY_REF RETIREMENT_TARGET_KIND target substrates (Some snapshot) I_open trace
                                  effective (Some (effective + grace)) None None) ;!
          ret (Build_retirement_intent intent team (item, namespace, retired) (Some (effective + grace)) effective (Some snapshot), true)
      end
  end.

(** ** Discovery *)

Definition validate_limit (limit : Z) : result unit := ensure ((1 <=? limit) && (limit <=? 10000)) ValueError.
(** An old generation that still has records, and the alias that superseded it. *)
Definition superseded := (alias_row * (ustr * ustr * ustr) * Z)%type.
Definition superseded_le (a b : superseded) : bool :=
  let '(ra, (ta, ia, na), ga) := a in
  let '(rb, (tb, ib, nb), gb) := b in
  if al_updated ra =? al_updated rb then
    if ueqb ta tb then if ueqb ia ib then if ueqb na nb then ga <=? gb else str_le na nb else str_le ia ib else str_le ta tb
  else al_updated ra <? al_updated rb.
Definition old_generations (p : published) (team item namespace : ustr) (active : Z) : list Z :=
  remove_dups (map (fun kv => vr_generation (vx_row kv.2))
    (rows_where (fun _ (r : record_row) => ueqb (vr_team r) team && bool_decide (vr_item r = Some item) && ueqb (vr_namespace r) namespace
                                           && negb (vr_deleted r) && (vr_generation r <? active)) (x_records p))).
Definition superseded_generations (p : published) : list superseded :=
  concat (map (fun kv => let '((team, item, namespace), _) := kv in
      match serving_alias p team item namespace with
      | Some a => map (fun g => (a, (team, item, namespace), g)) (old_generations p team item namespace (pr_generation a))
      | None => []
      end) (map_to_list (x_aliases p))).

(** [discover_retirements] *)
Definition discover_retirements (limit : Z) : ctx Z :=
  lift (validate_limit limit) ;!
  let! p := gets x_pub in
  sum_loop (fun s : superseded =>
      let '(a, (team, item, namespace), g) := s in
      let! r := schedule_retirement team item namespace g (pr_generation a) (al_revision a) None (Some (al_updated a)) in
      ret (if r.2 : bool then 1 else 0))
    (take (Z.to_nat limit) (py_sorted superseded_le (superseded_generations p))).

(** ** Collection *)

Definition due_le (a b : ustr * intent_row) : bool :=
  let e r := default 0 (in_eligible r) in
  if e a.2 =? e b.2 then if in_requested a.2 =? in_requested b.2 then str_le a.1 b.1 else in_requested a.2 <? in_requested b.2 else e a.2 <? e b.2.
Definition is_due (eligible : option Z) : bool := match eligible with Some e => e <=? now | None => false end.
(** [collect_due] *)
Definition collect_due (limit : Z) : ctx (list candidate) :=
  lift (validate_limit limit) ;!
  let! l := gets x_log in
  ret (map (fun kv => Build_candidate kv.1 (in_team kv.2) (in_target kv.2) (in_eligible kv.2) (in_requested kv.2))
    (take (Z.to_nat limit) (py_sorted due_le (rows_where (fun _ i => ueqb (in_policy i) RETIREMENT_POLICY_REF && ueqb (in_kind i) RETIREMENT_TARGET_KIND
        && bool_decide (in_status i = I_open) && is_due (in_eligible i)) (l_intents l))))).

(** [_same_candidate] *)
Definition same_candidate (c : candidate) (i : intent_row) : bool :=
  bool_decide (in_status i = I_open) && ueqb (in_team i) (rt_team c) && ueqb (in_target i) (rt_target c) && bool_decide (in_eligible i = rt_eligible c)
  && (in_requested i =? rt_requested c).
Definition of_generation (team item namespace : ustr) (generation : Z) (r : record_row) : bool :=
  ueqb (vr_team r) team && bool_decide (vr_item r = Some item) && ueqb (vr_namespace r) namespace && (vr_generation r =? generation) && negb (vr_deleted r).
Definition delete_generation (team item namespace : ustr) (generation : Z) : ctx Z :=
  update_records (fun _ => of_generation team item namespace generation) delete_record.
(** [UPDATE mkb_intake_cleanup_intents SET status=? WHERE intent_uuid=? AND status='open'] *)
Definition close_intent (id : ustr) (status : intent_status) (projection : option ustr) : ctx unit :=
  let! l := gets x_log in
  match l_intents l !! id with
  | Some i =>
      require (bool_decide (in_status i = I_open)) INTENT_FENCE ;!
      on_log (fun l => set_intents (<[id := Build_intent_row (in_team i) (in_policy i) (in_kind i) (in_target i) (in_substrates i) (in_snapshot i) status (in_trace i)
                                              (in_requested i) (in_eligible i) (Some now) (match projection with Some _ => projection | None => in_projection i end)]> (l_intents l)) l)
  | None => raise INTENT_FENCE
  end.
(** [_close_unavailable_intent_tx] *)
Definition close_unavailable (c : candidate) (item namespace : ustr) (retired : Z) : ctx retirement_result :=
  let! _ := delete_generation (rt_team c) item namespace retired in
  close_intent (rt_uuid c) I_abandoned None ;!
  ret (closed_as (rt_uuid c) abandoned 0).

Definition cleanup_digest (c : candidate) (item namespace : ustr) (retired : Z) (a : alias_row) (count : Z) (eligible : option Z) : result ustr :=
  stable_digest (obj [("schema_version", PStr (u "mkb.index-generation-cleanup-proof.v1")); ("intent_uuid", PStr (rt_uuid c)); ("team_uuid", PStr (rt_team c));
    ("intake_item_uuid", PStr item); ("namespace_uuid", PStr namespace); ("retired_index_generation", PInt retired);
    ("active_index_generation", PInt (pr_generation a)); ("pointer_row_revision", PInt (al_revision a)); ("soft_deleted_count", PInt count);
    ("eligible_at", match eligible with Some e => PStr (stamp e) | None => PNone end); ("soft_deleted_at", PStr (stamp now))]%string).
(** The records of the generation, their cleanup proof and the end of the intent. *)
Definition purge_retired (c : candidate) (item namespace : ustr) (retired : Z) (eligible : option Z) : ctx retirement_result :=
  let! count := delete_generation (rt_team c) item namespace retired in
  let! p := gets x_pub in
  match serving_alias p (rt_team c) item namespace with
  | Some a =>
      require (retired <? pr_generation a) INDEX_FENCE ;!
      let! proof := fresh_uuid uuid7 in
      let! digest := lift (cleanup_digest c item namespace retired a count eligible) in
      let! l := gets x_log in
      require (unused proof (l_receipts l)) IntegrityError ;!
      on_log (fun l => set_receipts (<[proof := Build_receipt_row (rt_uuid c) (rt_team c) (u "vector_projection") (rt_target c) (u "index_generation_soft_delete.v1") digest]> (l_receipts l)) l) ;!
      close_intent (rt_uuid c) I_completed (Some (u "mkb.cleanup-proof:v1:" ++ proof)) ;!
      ret (closed_as (rt_uuid c) soft_purged count)
  | None => raise INDEX_FENCE
  end.

(** [soft_purge] *)
Definition soft_purge (c : candidate) : ctx retirement_result :=
  let! d := gets id in
  match l_intents (x_log d) !! rt_uuid c with
  | Some i =>
      if negb (same_candidate c i) then ret (closed_as (rt_uuid c) stale 0)
      else if negb (is_due (in_eligible i)) then ret (closed_as (rt_uuid c) not_due 0)
      else match parse_target_ref (in_target i) with
           | None => ret (closed_as (rt_uuid c) invalid_target 0)
           | Some (item, namespace, retired) =>
               match serving_alias (x_pub d) (rt_team c) item namespace with
               | None => close_unavailable c item namespace retired
               | Some a =>
                   if pr_generation a <=? retired then ret (closed_as (rt_uuid c) active_generation 0)
                   else purge_retired c item namespace retired (in_eligible i)
               end
           end
  | None => ret (closed_as (rt_uuid c) stale 0)
  end.

(** [scan_once]: each candidate in a transaction of its own. *)
Definition attempt (c : candidate) : ctx retirement_result := fun d =>
  match soft_purge c d with
  | Ok r => Ok r
  | Err (MkbError code _) => Ok (Build_retirement_result (rt_uuid c) retirement_error 0 (Some code), d)
  | Err _ => Ok (Build_retirement_result (rt_uuid c) retirement_error 0 (Some "INDEX_RETIREMENT_UNAVAILABLE"%string), d)
  end.
Fixpoint attempts (cs : list candidate) : ctx (list retirement_result) :=
  match cs with [] => ret [] | c :: cs => let! r := attempt c in let! rs := attempts cs in ret (r :: rs) end.
Definition scan_once (limit : Z) : ctx (Z * list retirement_result) :=
  let! discovered := discover_retirements limit in
  let! candidates := collect_due limit in
  let! results := attempts candidates in
  ret (discovered, results).

(** ** Purges of artifacts *)

(** [_assert_purge_command]; the only channel filter is ['all']. *)
Definition assert_purge_command (c : VectorizeCommand) : result unit :=
  ensure (bool_decide (vc_mode c = purge_generation)) (MkbError "PURGE_COMMAND_INVALID" 422).
(** [_assert_targets_tx] *)
Definition assert_targets (c : VectorizeCommand) : ctx unit :=
  let! g := gets x_reg in
  require (bool_decide (map fst (rows_where (fun id (a : stage_artifact) => ueqb (ar_team a) (vc_team c) && ueqb (ar_type a) (u "dual_channel_projection")
                                               && ueqb (ar_disposition a) (u "full_valid") && bool_decide (id ∈ vc_targets c)) (g_artifacts g)) = vc_targets c))
    (MkbError "PURGE_TARGET_NOT_FOUND" 409).
(** [_active_where] *)
Definition active_where (c : VectorizeCommand) (r : record_row) : bool :=
  ueqb (vr_team r) (vc_team c) && negb (vr_deleted r) && bool_decide (vr_artifact r ∈ vc_targets c).
Definition receipt_for (c : VectorizeCommand) (matched : Z) : result PurgeReceipt :=
  make_receipt (Build_PurgeReceipt (vc_team c) (vc_execution c) (vc_input_digest c) (vc_targets c) matched matched).
(** [plan] *)
Definition plan_purge (c : VectorizeCommand) : ctx PurgeReceipt :=
  lift (assert_purge_command c) ;!
  assert_targets c ;!
  let! p := gets x_pub in
  lift (receipt_for c (count_rows (fun _ => active_where c) (x_records p))).
(** [purge_tx] *)
Definition purge (c : VectorizeCommand) (expected : PurgeReceipt) : ctx PurgeReceipt :=
  lift (assert_purge_command c) ;!
  require (ueqb (vp_team expected) (vc_team c) && ueqb (vp_execution expected) (vc_execution c) && ueqb (vp_input_digest expected) (vc_input_digest c)
           && bool_decide (vp_targets expected = vc_targets c)) (MkbError "PURGE_RECEIPT_BINDING_INVALID" 409) ;!
  assert_targets c ;!
  let! p := gets x_pub in
  let matched := count_rows (fun _ => active_where c) (x_records p) in
  require (matched =? vp_matched expected) (MkbError "PURGE_REQUIRED_SET_CHANGED" 409) ;!
  let! deleted := update_records (fun _ => active_where c) delete_record in
  require (deleted =? matched) (MkbError "PURGE_REQUIRED_SET_CHANGED" 409) ;!
  lift (receipt_for c deleted).
(** The callback of [_purge_vector_generation]. *)
Definition purge_commit (c : VectorizeCommand) (expected : PurgeReceipt) : ctx unit :=
  let! actual := purge c expected in
  require (bool_decide (actual = expected)) (MkbError "PURGE_REQUIRED_SET_CHANGED" 409).
End retirement.
