(* ===== verification/Publication.v ===== *)
(** * Publication of an index generation

    Model of [_publish] of [src/runtime/intake/vector_publish_commit.py] over the tables of
    [Index.v]: the checks of the vectorize handoff, and the one transaction that indexes the
    records, writes the proof, the manifest and its members, moves the active pointer, lets
    the item serve the revision and schedules the retirement of the generation before. *)

From S2P Require Import Prelude PyText PyValue Txn Engine Objects RetrievalTables Index Lifecycle VectorContracts Retirement.

Open Scope Z_scope.
Open Scope mkb_scope.

(** ** The handoff *)

Definition HANDOFF_INVALID : exn := MkbError "PUBLICATION_HANDOFF_INVALID" 409.
Definition INPUT_INVALID : exn := MkbError "PUBLICATION_INPUT_INVALID" 422.

Section publication.
Context {H : Host}.
Variables (uuid7 : nat -> ustr) (grace now : Z) (retires : bool).
Abbreviation ctx := (txn index_db).

Definition state_get (state : pydict) (k : string) : pyval := default PNone (dget state (u k)).
Definition state_is (state : pydict) (k : string) (s : ustr) : bool := match state_get state k with PStr t => ueqb t s | _ => false end.
(** [state[key]] where a column must have a text. *)
Definition state_value (state : pydict) (k : string) : result ustr :=
  match dget state (u k) with Some (PStr s) => Ok s | Some PNone => Err IntegrityError | Some _ => Err TypeError | None => Err KeyError end.

(** [_layer_a_from_state] *)
Definition layer_a_from_state (state : pydict) : result (layer_a * option ustr) :=
  match state_get state "layer_a" with PDict raw => validate_layer_a raw | _ => Err INPUT_INVALID end.

Definition handoff_binds (c : ProcessCommand) (state : pydict) (units : Z) (h : VectorizeHandoff) (o : VectorizeOutcome) (v : VectorizeCommand) : bool :=
  bool_decide (vo_mode o = from_construct) && bool_decide (vo_handoff o = Some h) && bool_decide (vc_mode v = from_construct)
  && ueqb (vh_team h) (pc_team c) && ueqb (vh_execution h) (pc_execution c) && ueqb (vh_input_digest h) (vc_input_digest v)
  && state_is state "dual_channel_artifact_uuid" (vh_artifact h) && state_is state "dual_channel_artifact_content_digest" (vh_content_digest h)
  && ueqb (vh_recipe h) (u "content_full.v1") && state_is state "namespace_uuid" (vh_namespace h)
  && (vh_required h =? units) && (vh_succeeded h =? units) && (vh_failed h =? 0)
  && bool_decide (vc_dual v = Some (vh_artifact h)) && bool_decide (vc_dual_digest v = Some (vh_content_digest h))
  && bool_decide (vc_namespace v = Some (vh_namespace h)) && bool_decide (vc_recipe v = Some (vh_recipe h)).
Definition handoff_layer (h : VectorizeHandoff) (l : layer_a) : bool :=
  let r := vh_embedding h in
  ueqb (em_key r) (la_key l) && ueqb (em_version r) (la_version l) && ueqb (em_adapter r) (la_adapter l) && (em_dimension r =? la_dimension l).
(** [_assert_vectorize_handoff_for_publication] *)
Definition assert_handoff (c : ProcessCommand) (state : pydict) (units : Z) (l : layer_a) : result unit :=
  match state_get state "vectorize_handoff", state_get state "vectorize_outcome", state_get state "vectorize_command" with
  | PDict handoff, PDict outcome, PDict command =>
      match parse_handoff (PDict handoff), parse_outcome (PDict outcome), parse_command (PDict command) with
      | Ok h, Ok o, Ok v =>
          check handoff_binds c state units h o v else HANDOFF_INVALID ;;
          ensure (handoff_layer h l) HANDOFF_INVALID
      | _, _, _ => Err HANDOFF_INVALID
      end
  | _, _, _ => Err (MkbError "PUBLICATION_HANDOFF_MISSING" 409)
  end.

(** ** Record sets *)

Definition record_pair (raw : pyval) : result (ustr * ustr) :=
  match raw with
  | PDict d =>
      match dget d (u "vector_record_uuid"), dget d (u "content_digest") with
      | Some (PStr id), Some (PStr digest) => Ok (id, digest)
      | None, _ | _, None => Err KeyError
      | _, _ => Err TypeError
      end
  | _ => Err TypeError
  end.
Definition pair_le (a b : ustr * ustr) : bool := if ueqb a.1 b.1 then str_le a.2 b.2 else str_le a.1 b.1.
Definition pairs_value (l : list (ustr * ustr)) : pyval := PList (map (fun p => PTuple [PStr p.1; PStr p.2]) l).
Definition set_digest (l : list (ustr * ustr)) : result ustr := stable_digest (pairs_value (py_sorted pair_le l)).

(** What the callback of [_publish] has: the records with their digest, the generation, the
    Layer A, and the state for the rest. *)
Record publication := { pn_records : list (ustr * ustr); pn_required : ustr; pn_generation : Z; pn_layer : layer_a; pn_state : pydict }.

(** [_publish] up to its material. *)
Definition prepare_publication (c : ProcessCommand) (state : pydict) : result publication :=
  match state_get state "vector_records" with
  | PList ((_ :: _) as raw) =>
      check forallb (fun k => negb (is_none (state_get state k))) ["namespace_uuid"; "index_generation"; "dual_channel_artifact_uuid"; "publication_proof_uuid"]%string else INPUT_INVALID ;;
      let* l := layer_a_from_state state in
      let* _ := assert_handoff c state (Z.of_nat (length raw)) l.1 in
      let* records := mapM record_pair raw in
      let* required := set_digest records in
      match state_get state "index_generation" with
      | PInt g => Ok (Build_publication records required g l.1 state)
      | _ => Err TypeError
      end
  | _ => Err (MkbError "PUBLICATION_VECTOR_MISSING" 409)
  end.

(** ** The transaction *)

Definition VECTOR_FENCE : exn := MkbError "PUBLICATION_VECTOR_FENCE" 409.
Definition wanted_record (team : ustr) (ids : list ustr) (id : ustr) (r : record_row) : bool := ueqb (vr_team r) team && bool_decide (id ∈ ids).

(** The records of the set become indexed; their pairs in key order. *)
Definition index_records (team : ustr) (p : publication) : ctx (list (ustr * ustr)) :=
  let ids := (pn_records p).*1 in
  let! d := gets x_pub in
  let fetched := rows_where (wanted_record team ids) (x_records d) in
  require ((length fetched =? length ids)%nat && forallb (fun kv => negb (vr_published (vx_row kv.2)) && (vr_generation (vx_row kv.2) =? pn_generation p)) fetched) VECTOR_FENCE ;!
  let pairs := map (fun kv => (kv.1, vr_content_digest (vx_row kv.2))) fetched in
  let! actual := lift (set_digest pairs) in
  require (ueqb actual (pn_required p)) VECTOR_FENCE ;!
  let! updated := update_records (fun id r => wanted_record team ids id r && negb (vr_published r)) index_record in
  require (updated =? Z.of_nat (length ids)) VECTOR_FENCE ;!
  ret pairs.

Definition artifact_of (d : index_db) (team artifact : ustr) : bool :=
  match g_artifacts (x_reg d) !! artifact with Some a => ueqb (ar_team (sa_row a)) team | None => false end.
(** The proof row. *)
Definition insert_proof (c : ProcessCommand) (p : publication) (count : Z) (actual : ustr) : ctx ustr :=
  let! proof := lift (state_value (pn_state p) "publication_proof_uuid") in
  let! item := lift (state_value (pn_state p) "intake_item_uuid") in
  let! revision := lift (state_value (pn_state p) "intake_revision_uuid") in
  let! artifact := lift (state_value (pn_state p) "dual_channel_artifact_uuid") in
  let! namespace := lift (state_value (pn_state p) "namespace_uuid") in
  let! d := gets id in
  require (unused proof (x_proofs (x_pub d)) && space_of (x_pub d) (pc_team c) namespace (pn_layer p) && artifact_of d (pc_team c) artifact
           && bool_decide (is_Some (item_of (pc_team c) item (x_pub d)))) IntegrityError ;!
  on_pub (fun q => set_evidence (<[proof := Build_evidence_row
      (Build_proof_row (u "index.publication.v1") (u "v1") (pc_team c) item revision artifact (u "dual_channel_projection") namespace (pn_layer p) (pn_generation p)
         count count count) (pc_execution c) (pc_process c) (pn_required p) actual (pc_command_input_digest c)]> (x_proofs q)) q) ;!
  ret proof.

Definition edition_conflict (k : ustr) (m : edition_row) (p : published) : bool :=
  bool_decide (is_Some (x_editions p !! k))
  || bool_decide (is_Some (first_row (fun _ (o : edition_row) => ueqb (mf_proof o) (mf_proof m)
       || ueqb (mf_team o) (mf_team m) && ueqb (mf_item o) (mf_item m) && ueqb (mf_namespace o) (mf_namespace m) && (mf_generation o =? mf_generation m)) (x_editions p))).
Fixpoint insert_members (edition team : ustr) (ordinal : Z) (members : list (ustr * ustr)) : ctx unit :=
  match members with
  | [] => ret tt
  | (id, digest) :: members =>
      let! p := gets x_pub in
      require (unused (edition, id) (x_members p)) IntegrityError ;!
      on_pub (fun p => set_members (<[(edition, id) := Build_member_row team ordinal digest]> (x_members p)) p) ;!
      insert_members edition team (ordinal + 1) members
  end.
(** The manifest of the proof and its members. *)
Definition insert_manifest (c : ProcessCommand) (p : publication) (proof : ustr) (pairs : list (ustr * ustr)) : ctx unit :=
  let! item := lift (state_value (pn_state p) "intake_item_uuid") in
  let! revision := lift (state_value (pn_state p) "intake_revision_uuid") in
  let! artifact := lift (state_value (pn_state p) "dual_channel_artifact_uuid") in
  let! namespace := lift (state_value (pn_state p) "namespace_uuid") in
  let! d := gets x_pub in
  match item_of (pc_team c) item d with
  | None => raise (MkbError "PUBLICATION_ITEM_MISSING" 409)
  | Some i =>
      let! edition := fresh_uuid uuid7 in
      let members := py_sorted pair_le pairs in
      let! set := lift (stable_digest (pairs_value members)) in
      let! digest := lift (stable_digest (obj [("proof_uuid", PStr proof); ("team_uuid", PStr (pc_team c)); ("item_epoch", PInt (ix_revision i)); ("member_set", pairs_value members)]%string)) in
      let row := Build_edition_row (Build_manifest_row (pc_team c) proof item revision namespace (pn_generation p)) (ix_revision i) artifact
                   (Z.of_nat (length members)) set digest in
      require (negb (edition_conflict edition row d)) IntegrityError ;!
      on_pub (fun q => set_editions (<[edition := row]> (x_editions q)) q) ;!
      insert_members edition (pc_team c) 0 members
  end.

(** The active pointer after the publication; the one before, if any. *)
Definition move_pointer (c : ProcessCommand) (p : publication) (item namespace artifact proof : ustr) : ctx (option alias_row) :=
  let! d := gets x_pub in
  let k := (pc_team c, item, namespace) in
  let to (r : Z) := Build_alias_row (Build_pointer_row (pn_generation p) (u "active") (Some proof) (Some artifact)) r None now in
  match x_aliases d !! k with
  | None =>
      on_pub (fun q => set_aliases (<[k := to 0]> (x_aliases q)) q) ;!
      ret None
  | Some a =>
      require (pr_generation (al_row a) <? pn_generation p) POINTER_FENCE ;!
      on_pub (fun q => set_aliases (<[k := to (al_revision a + 1)]> (x_aliases q)) q) ;!
      ret (Some a)
  end.
Definition raise_generation (team namespace : ustr) (g : Z) : ctx unit :=
  on_pub (fun q => match x_spaces q !! namespace with
                   | Some n => if ueqb (nr_team (sp_row n)) team && ueqb (nr_status n) (u "active")
                               then set_spaces (<[namespace := set_generation (Z.max (sp_generation n) g) n]> (x_spaces q)) q else q
                   | None => q
                   end).

Definition publication_key (c : ProcessCommand) (proof : ustr) : result ustr :=
  stable_digest (obj [("process_uuid", PStr (pc_process c)); ("fencing_generation", PInt (pc_fencing_generation c)); ("publication_proof_uuid", PStr proof)]%string).

(** The callback of [_publish]; [refs] are the reference and digest of the process proof,
    [retires] whether a retirement service is configured. *)
Definition publish_commit (c : ProcessCommand) (p : publication) (refs : ustr * ustr) : ctx unit :=
  let! pairs := index_records (pc_team c) p in
  let! actual := lift (set_digest pairs) in
  let! proof := insert_proof c p (Z.of_nat (length (pn_records p))) actual in
  insert_manifest c p proof pairs ;!
  let! item := lift (state_value (pn_state p) "intake_item_uuid") in
  let! revision := lift (state_value (pn_state p) "intake_revision_uuid") in
  let! artifact := lift (state_value (pn_state p) "dual_channel_artifact_uuid") in
  let! namespace := lift (state_value (pn_state p) "namespace_uuid") in
  let! before := move_pointer c p item namespace artifact proof in
  raise_generation (pc_team c) namespace (pn_generation p) ;!
  let! key := lift (publication_key c proof) in
  let! _ := publish_revision uuid7 now (Build_publication_command (pc_team c) item revision proof namespace (pn_generation p) (pc_trace c) key None
              (Some (pc_task c), Some (pc_execution c), Some (pc_process c)) (Some refs.1, Some refs.2)) in
  match before with
  | Some a =>
      if retires && (pr_generation (al_row a) <? pn_generation p) then
        let! _ := schedule_retirement uuid7 grace (pc_team c) item namespace (pr_generation a) (pn_generation p) (al_revision a + 1) (Some (pc_trace c)) None in
        ret tt
      else ret tt
  | None => ret tt
  end.
End publication.
