(* ===== verification/IndexLaws.v ===== *)
(** * Laws of the index

    What retrieval sees of the writers of [Index.v], [Lifecycle.v], [Retirement.v] and
    [Publication.v].  [hits] are the rows that a search may rank; the laws say for each
    transaction which hits it adds and which it takes away, and nothing else. *)

From S2P Require Import Prelude PyText PyValue Txn Outbox Engine Objects RetrievalTables Index Lifecycle VectorContracts Retirement Publication.

Open Scope Z_scope.
Open Scope mkb_scope.

(** ** Rows of related maps *)

Lemma key_le_sorted {A} (f : ustr -> A -> bool) m : StronglySorted (fun a b => key_le a b = true) (rows_where f m).
Proof.
  apply py_sorted_sorted; unfold key_le; [intros [] []; apply str_le_total|intros [] [] []; cbn; apply str_le_trans].
Qed.
Lemma rows_where_nodup {A} (f : ustr -> A -> bool) m : NoDup (rows_where f m).*1.
Proof.
  unfold rows_where. rewrite py_sorted_perm. eapply sublist_NoDup; [apply (NoDup_fst_map_to_list m)|]. apply fmap_sublist.
  induction (map_to_list m) as [|[k a] l IH]; [constructor|]. cbn. destruct (f k a); by constructor.
Qed.

Lemma sorted_rows_unique {A} (l l' : list (ustr * A)) : NoDup l.*1 -> l ≡ₚ l' -> py_sorted key_le l = py_sorted key_le l'.
Proof.
  intros Hn Hp. assert (forall l : list (ustr * A), StronglySorted (fun a b => key_le a b = true) (py_sorted key_le l)) as Hs.
  { intros l0. apply py_sorted_sorted; unfold key_le; [intros [] []; apply str_le_total|intros [] [] []; cbn; apply str_le_trans]. }
  apply (StronglySorted_unique_strong (fun a b => key_le a b = true)); [|done|done|by rewrite !py_sorted_perm].
  intros [k a] [k' b] H1 H2 Hle Hle'. rewrite py_sorted_perm in H1. rewrite py_sorted_perm, <-Hp in H2.
  assert (k = k') as <- by (apply str_le_antisym; [exact Hle|exact Hle']). f_equal.
  apply list_elem_of_lookup in H1 as [i Hi]. apply list_elem_of_lookup in H2 as [i' Hi'].
  assert (i = i') as <- by (eapply (NoDup_lookup l.*1); [done|by rewrite list_lookup_fmap, Hi|by rewrite list_lookup_fmap, Hi']). congruence.
Qed.
(** A new row that is not wanted. *)
Lemma rows_where_insert {A} (f : ustr -> A -> bool) m k a : m !! k = None -> f k a = false -> rows_where f (<[k := a]> m) = rows_where f m.
Proof.
  intros Hk Hf. apply sorted_rows_unique.
  - eapply sublist_NoDup; [apply (NoDup_fst_map_to_list (<[k := a]> m))|]. apply fmap_sublist. induction (map_to_list _) as [|[k' b] l IH]; [constructor|]. cbn. destruct (f k' b); by constructor.
  - assert (forall l l' : list (ustr * A), l ≡ₚ l' -> List.filter (fun kv => f kv.1 kv.2) l ≡ₚ List.filter (fun kv => f kv.1 kv.2) l') as Hfp.
    { induction 1; cbn; repeat case_match; try done; try (by constructor); by etrans. }
    rewrite (Hfp _ _ (map_to_list_insert m k a Hk)). cbn. by rewrite Hf.
Qed.

Section rows.
Context {A B : Type}.
Implicit Types (m : gmap ustr A) (n : gmap ustr B).

Lemma rows_where_map (g : ustr -> A -> B) m n : (forall k, n !! k = g k <$> m !! k) ->
  rows_where (fun _ _ => true) n = map (fun kv => (kv.1, g kv.1 kv.2)) (rows_where (fun _ _ => true) m).
Proof.
  intros Hn. set (l := rows_where (fun _ _ => true) n). set (l' := map _ _).
  assert (l'.*1 = (rows_where (fun _ _ => true) m).*1) as Hk by (unfold l'; induction (rows_where _ m) as [|[k a] l0 IH]; cbn; congruence).
  assert (NoDup l'.*1) as Hnd by (rewrite Hk; apply rows_where_nodup).
  apply (StronglySorted_unique_strong (fun a b => key_le a b = true)).
  - intros [k a] [k' b] H1 H2 Hle Hle'. assert (k = k') as <- by (apply str_le_antisym; [exact Hle|exact Hle']).
    f_equal. apply rows_where_elem in H1 as [H1 _]. unfold l' in H2. apply list_elem_of_In, in_map_iff in H2 as ([k0 a0] & [= <- <-] & H2).
    apply list_elem_of_In, rows_where_elem in H2 as [H2 _]. rewrite Hn, H2 in H1. by injection H1.
  - apply py_sorted_sorted; unfold key_le; [intros [] []; apply str_le_total|intros [] [] []; cbn; apply str_le_trans].
  - pose proof (key_le_sorted (fun _ _ => true) m) as Hs. unfold l'. clear -Hs. induction Hs as [|[k a] l Hs IH Hl]; cbn; constructor; [done|].
    apply Forall_map. eapply Forall_impl; [exact Hl|]. intros [k' a']. done.
  - apply NoDup_Permutation; [apply (NoDup_fmap_1 fst), rows_where_nodup|by apply (NoDup_fmap_1 fst)|].
    intros [k b]. unfold l, l'. rewrite rows_where_elem, Hn. split.
    + intros [Hb _]. destruct (m !! k) as [a|] eqn:Ek; [|done]. injection Hb as <-.
      apply list_elem_of_In, in_map_iff. exists (k, a). split; [done|]. by apply list_elem_of_In, rows_where_elem.
    + intros ([k0 a0] & [= <- <-] & H2%list_elem_of_In)%list_elem_of_In%in_map_iff. apply rows_where_elem in H2 as [-> _]. done.
Qed.

Lemma filter_length_perm {C} (f : C -> bool) l l' : l ≡ₚ l' -> length (List.filter f l) = length (List.filter f l').
Proof. induction 1; cbn; repeat case_match; cbn; congruence. Qed.
Lemma count_rows_all (f : ustr -> A -> bool) m : count_rows f m = Z.of_nat (length (List.filter (fun kv => f kv.1 kv.2) (rows_where (fun _ _ => true) m))).
Proof.
  unfold count_rows, rows_where. f_equal. etrans; [apply Permutation_length, py_sorted_perm|]. etrans; [|symmetry; apply filter_length_perm, py_sorted_perm].
  f_equal. induction (map_to_list m) as [|x l IH]; cbn; [done|]. by rewrite IH.
Qed.
End rows.

Lemma count_rows_map {A B} (g : ustr -> A -> B) (m : gmap ustr A) (n : gmap ustr B) f h : (forall k, n !! k = g k <$> m !! k) ->
  (forall k a, m !! k = Some a -> h k (g k a) = f k a) -> count_rows h n = count_rows f m.
Proof.
  intros Hn Hf. rewrite !count_rows_all, (rows_where_map g m n Hn). f_equal.
  assert (forall x, x ∈ rows_where (fun _ _ => true) m -> m !! x.1 = Some x.2) as Hin by (intros [k a] [H _]%rows_where_elem; done).
  induction (rows_where _ m) as [|[k a] l IH]; [done|]. cbn. rewrite (Hf k a) by (apply (Hin (k, a)); left).
  specialize (IH (fun x Hx => Hin x (list_elem_of_further _ _ _ Hx))). by destruct (f k a); cbn; rewrite IH.
Qed.
Lemma update_where_lookup {A} (f : ustr -> A -> bool) (g : A -> A) (m : gmap ustr A) k : update_where f g m !! k = (fun a => if f k a then g a else a) <$> m !! k.
Proof. unfold update_where. rewrite map_lookup_imap. by destruct (m !! k). Qed.

(** ** Hits *)

(** The hit of one record, if it is served and wanted. *)
Definition hit (d : tables) (team namespace : ustr) (filters : list (ustr * ustr)) (w : narrowing) (id : ustr) (r : vector_row) : option hit_row :=
  j ← join_row d id r;
  if served d team namespace j && wanted d filters w j then Some (hit_of j) else None.
Definition hits (d : tables) (team namespace : ustr) (filters : list (ustr * ustr)) (w : narrowing) : list hit_row :=
  omap (fun kv => hit d team namespace filters w kv.1 kv.2) (rows_where (fun _ _ => true) (t_records d)).

Lemma fetch_hits limit d team namespace filters w :
  fetch_candidate_rows limit d team namespace filters w =
  if Z.of_nat (length (hits d team namespace filters w)) <=? limit then Ok (hits d team namespace filters w) else Err (MkbError "RETRIEVE_SCAN_TRUNCATED" 503).
Proof.
  assert (hits d team namespace filters w = map hit_of (List.filter (fun j => served d team namespace j && wanted d filters w j) (joined_rows d))) as ->.
  { unfold hits, hit, joined_rows. induction (rows_where _ _) as [|[k r] l IH]; [done|]. cbn. destruct (join_row d k r) as [j|]; cbn; [|exact IH].
    destruct (_ && _); cbn; [f_equal|]; exact IH. }
  rewrite length_map. unfold fetch_candidate_rows, ensure. by destruct (_ <=? limit).
Qed.

(** Two states with the same records' keys: the hits change pointwise. *)
Lemma hits_pointwise (f f' : hit_row -> bool) d d' g team namespace filters w :
  (forall k, t_records d' !! k = g k <$> t_records d !! k) ->
  (forall k r, t_records d !! k = Some r ->
     (h ← hit d' team namespace filters w k (g k r); if f' h then Some h else None) = (h ← hit d team namespace filters w k r; if f h then Some h else None)) ->
  List.filter f' (hits d' team namespace filters w) = List.filter f (hits d team namespace filters w).
Proof.
  intros Hg Hh. unfold hits. rewrite (rows_where_map g _ _ Hg).
  assert (forall x, x ∈ rows_where (fun _ _ => true) (t_records d) -> t_records d !! x.1 = Some x.2) as Hin by (intros [k a] [H _]%rows_where_elem; done).
  induction (rows_where _ (t_records d)) as [|[k r] l IH]; [done|]. cbn. specialize (IH (fun x Hx => Hin x (list_elem_of_further _ _ _ Hx))).
  pose proof (Hh k r (Hin (k, r) (list_elem_of_here _ _))) as Hk. revert Hk.
  destruct (hit d' team namespace filters w k (g k r)) as [h'|], (hit d team namespace filters w k r) as [h|]; cbn; try destruct (f' h'); try destruct (f h); cbn; intros; simplify_eq; by rewrite ?IH.
Qed.
Lemma filter_true {A} (l : list A) : List.filter (fun _ => true) l = l.
Proof. induction l as [|x l IH]; cbn; [done|by rewrite IH]. Qed.

(** ** The fence, with what depends on other records apart *)

Definition static_fence (j : joined) : bool :=
  let r := j_record j in
  let p := j_proof j in
  negb (vr_deleted r) && vr_published r
  && ueqb (nr_status (j_namespace j)) (u "active") && negb (nr_deleted (j_namespace j)) && bool_decide (vr_layer r = nr_layer (j_namespace j))
  && pointer_fence j
  && (ueqb (pf_type p) (u "index.publication.v1") && ueqb (pf_version p) (u "v1") && ueqb (pf_team p) (vr_team r) && ueqb (pf_item p) (j_item j)
      && bool_decide (Some (pf_revision p) = vr_revision r) && ueqb (pf_namespace p) (vr_namespace r) && ueqb (pf_artifact p) (vr_artifact r)
      && ueqb (pf_artifact_type p) (vr_artifact_type r) && same_space (pf_layer p) (vr_layer r) && (pf_generation p =? vr_generation r)
      && (pf_expected p =? pf_actual p) && (pf_actual p =? pf_matched p))
  && ueqb (ar_type (j_artifact j)) (vr_artifact_type r) && ueqb (ar_disposition (j_artifact j)) (u "full_valid")
  && item_fence (j_item_row j) (vr_revision r).
Lemma publication_fence_split d j :
  publication_fence d j = static_fence j && (pf_actual (j_proof j) =? proof_records d (j_proof j)) && manifest_fence d j.
Proof.
  unfold publication_fence, static_fence, proof_fence. apply eq_iff_eq_true. rewrite !andb_true_iff.
  split; intros Hb; destruct_and! Hb; split_and!; assumption.
Qed.

Record static_facts (j : joined) : Prop := {
  sf_live : vr_deleted (j_record j) = false;
  sf_published : vr_published (j_record j) = true;
  sf_space : nr_status (j_namespace j) = u "active" /\ nr_deleted (j_namespace j) = false;
  sf_pointer : pr_state (j_pointer j) = u "active" /\ pr_generation (j_pointer j) = vr_generation (j_record j) /\ pr_artifact (j_pointer j) = Some (vr_artifact (j_record j));
  sf_team : pf_team (j_proof j) = vr_team (j_record j);
  sf_item : pf_item (j_proof j) = j_item j;
  sf_namespace : pf_namespace (j_proof j) = vr_namespace (j_record j);
  sf_artifact : pf_artifact (j_proof j) = vr_artifact (j_record j);
  sf_generation : pf_generation (j_proof j) = vr_generation (j_record j);
  sf_serving : it_state (j_item_row j) = u "active" /\ it_deleted (j_item_row j) = false /\ it_serving (j_item_row j) = vr_revision (j_record j) /\ it_serving (j_item_row j) <> None
}.
Lemma static_fence_facts j : static_fence j = true -> static_facts j.
Proof.
  unfold static_fence, pointer_fence, item_fence. intros Hs. breflect. rewrite ?ueqb_eq, ?negb_true_iff in *.
  destruct (it_serving (j_item_row j)) as [s|] eqn:Es; [|done]. destruct (vr_revision (j_record j)) as [rv|] eqn:Er; [|done]. rewrite ?ueqb_eq in *. subst.
  constructor; rewrite ?Es, ?Er; try done; try (split_and!; first [done|lia]); lia.
Qed.

Lemma join_row_facts d id r j : join_row d id r = Some j ->
  j_record_uuid j = id /\ j_record j = r /\ vr_item r = Some (j_item j) /\ t_namespaces d !! vr_namespace r = Some (j_namespace j) /\
  t_pointers d !! (vr_team r, j_item j, vr_namespace r) = Some (j_pointer j) /\ pr_proof (j_pointer j) = Some (j_proof_uuid j) /\
  t_proofs d !! j_proof_uuid j = Some (j_proof j) /\ t_items d !! j_item j = Some (j_item_row j) /\
  nr_team (j_namespace j) = vr_team r /\ it_team (j_item_row j) = vr_team r /\ j_manifest j = manifest_of d (j_proof_uuid j) (j_proof j).
Proof.
  unfold join_row. intros Hj. destruct (t_namespaces d !! vr_namespace r) as [n|] eqn:En; [|done]. cbn [mbind option_bind] in Hj.
  destruct (vr_item r) as [item|] eqn:Ei; [|done]. cbn [mbind option_bind] in Hj.
  destruct (t_pointers d !! (vr_team r, item, vr_namespace r)) as [p|] eqn:Ep; [|done]. cbn [mbind option_bind] in Hj.
  destruct (pr_proof p) as [proof|] eqn:Eq; [|done]. cbn [mbind option_bind] in Hj. destruct (t_proofs d !! proof) as [pf|] eqn:Ef; [|done]. cbn [mbind option_bind] in Hj.
  destruct (t_items d !! item) as [i|] eqn:Eit; [|done]. cbn [mbind option_bind] in Hj. destruct (t_artifacts d !! vr_artifact r) as [a|] eqn:Ea; [|done]. cbn [mbind option_bind] in Hj.
  destruct (_ && _) eqn:Eb; [|done]. injection Hj as <-. cbn. breflect. rewrite ?ueqb_eq in *. by split_and!.
Qed.

(** What one transaction does to the hits, from what it does to the record of each and to its
    join.  [kept] says of which records the hits stay. *)
Lemma hits_frame (kept : vector_row -> bool) (f : hit_row -> bool) d d' g team namespace filters w :
  (forall k, t_records d' !! k = g <$> t_records d !! k) -> t_members d' = t_members d -> t_facets d' = t_facets d ->
  (forall k r j, t_records d !! k = Some r -> kept r = false -> join_row d' k (g r) = Some j -> static_fence j = false) ->
  (forall k r, t_records d !! k = Some r -> kept r = true -> g r = r /\ join_row d' k r = join_row d k r) ->
  (forall k r j, t_records d !! k = Some r -> kept r = true -> join_row d k r = Some j -> static_fence j = true ->
     proof_records d' (j_proof j) = proof_records d (j_proof j)) ->
  (forall k r j, t_records d !! k = Some r -> join_row d k r = Some j -> static_fence j = true -> f (hit_of j) = kept r) ->
  hits d' team namespace filters w = List.filter f (hits d team namespace filters w).
Proof.
  intros Hg Hm Hfa Hkill Hkeep Hcount Hf. rewrite <-(filter_true (hits d' _ _ _ _)). apply (hits_pointwise f (fun _ => true) d d' (fun _ => g)); [done|]. intros k r Hr. unfold hit.
  destruct (kept r) eqn:Ek.
  - destruct (Hkeep k r Hr Ek) as [-> ->]. destruct (join_row d k r) as [j|] eqn:Ej; [|done]. cbn [mbind option_bind].
    assert (served d' team namespace j && wanted d' filters w j = served d team namespace j && wanted d filters w j) as ->.
    { unfold served, wanted, filter_accepts. rewrite Hfa, !publication_fence_split. unfold manifest_fence. rewrite Hm.
      destruct (static_fence j) eqn:Es; [|by rewrite !andb_false_r]. by rewrite (Hcount k r j Hr Ek Ej Es). }
    destruct (served d team namespace j && wanted d filters w j) eqn:Ew; [|done]. cbn [mbind option_bind].
    apply andb_true_iff in Ew as [Ew _]. unfold served in Ew. rewrite publication_fence_split in Ew.
    apply andb_true_iff in Ew as [_ [[Hs _]%andb_true_iff _]%andb_true_iff]. by rewrite (Hf k r j Hr Ej Hs), Ek.
  - assert (forall dd x, join_row dd k x = None \/ (exists j, join_row dd k x = Some j)) as Hcase by (intros dd x; destruct (join_row dd k x); eauto).
    assert ((j ← join_row d' k (g r); if served d' team namespace j && wanted d' filters w j then Some (hit_of j) else None) = None) as ->.
    { destruct (Hcase d' (g r)) as [->|[j Ej]]; [done|]. rewrite Ej. cbn [mbind option_bind]. pose proof (Hkill k r j Hr Ek Ej) as Hs.
      unfold served. by rewrite publication_fence_split, Hs, !andb_false_r. }
    destruct (Hcase d r) as [->|[j Ej]]; [done|]. rewrite Ej. cbn [mbind option_bind]. destruct (_ && _) eqn:Ew; [|done]. cbn [mbind option_bind].
    apply andb_true_iff in Ew as [Ew _]. unfold served in Ew. rewrite publication_fence_split in Ew.
    apply andb_true_iff in Ew as [_ [[Hs _]%andb_true_iff _]%andb_true_iff]. by rewrite (Hf k r j Hr Ej Hs), Ek.
Qed.

(** ** Transactions *)

(** Only the ledgers change. *)
Definition same_index (d d' : index_db) : Prop := x_pub d' = x_pub d /\ x_reg d' = x_reg d.
#[export] Instance same_index_preorder : PreOrder same_index.
Proof. split; [done|]. intros a b c [H1 H2] [H3 H4]. split; congruence. Qed.
Lemma same_index_view d d' : same_index d d' -> index_view d' = index_view d.
Proof. intros [Hp Hr]. unfold index_view. by rewrite Hp, Hr. Qed.

(** The same rows for every search. *)
Definition same_hits (d d' : index_db) : Prop :=
  forall team namespace filters w, hits (index_view d') team namespace filters w = hits (index_view d) team namespace filters w.
#[export] Instance same_hits_preorder : PreOrder same_hits.
Proof. split; [done|]. intros a b c H1 H2 team ns fs w. by rewrite H2, H1. Qed.

Section ledger.
Context {H : Host}.
Variables (uuid7 : nat -> ustr) (grace now : Z).

Lemma fresh_uuid_same : keeps same_index (fresh_uuid uuid7).
Proof. by intros d a d' [= _ <-]. Qed.
Lemma on_log_same f : keeps same_index (on_log f).
Proof. by apply keeps_modify. Qed.
Lemma insert_intent_same k i : keeps same_index (insert_intent k i).
Proof. apply keeps_bind; [apply _|apply keeps_reads; [apply _|apply reads_gets]|]. intros l. apply keeps_bind; [apply _|apply keeps_reads; [apply _|apply reads_require]|]. intros _. apply on_log_same. Qed.
End ledger.
#[export] Hint Resolve fresh_uuid_same on_log_same insert_intent_same : mkb.

(** Decides [keeps same_index] for transactions that only write ledgers. *)
Ltac keeps_ledger :=
  repeat (cbn [fst snd]; first
    [ solve [eauto with mkb]
    | apply keeps_bind; [apply _| |intros ?]
    | apply keeps_reads; [apply _|solve [eauto with mkb]]
    | match goal with |- keeps _ (match ?x with _ => _ end) => destruct x end
    | progress cbv zeta ]).

Section retirement.
Context {H : Host}.
Variables (stamp : Z -> ustr) (uuid7 : nat -> ustr) (grace now : Z).

Lemma schedule_same team item ns g s r tr c : keeps same_index (schedule_retirement uuid7 grace team item ns g s r tr c).
Proof. unfold schedule_retirement. keeps_ledger. Qed.
Lemma discover_same limit : keeps same_index (discover_retirements uuid7 grace limit).
Proof.
  unfold discover_retirements. keeps_ledger. apply keeps_sum_loop; [apply _|]. intros [[al [[tm it] nm]] g].
  apply keeps_bind; [apply _|apply schedule_same|]. intros ?. keeps_ledger.
Qed.
Lemma collect_same limit : keeps same_index (collect_due now limit).
Proof. unfold collect_due. keeps_ledger. Qed.
Lemma close_intent_same k s p : keeps same_index (close_intent now k s p).
Proof. unfold close_intent. keeps_ledger. Qed.

Lemma update_records_Ok f g d n d' : update_records f g d = Ok (n, d') ->
  d' = set_pub (set_records (update_where f g (x_records (x_pub d))) (x_pub d)) d /\ n = count_rows f (x_records (x_pub d)).
Proof. intros (p & d1 & [= <- <-] & (x & d2 & [= _ <-] & [= <- <-])%bind_Ok)%bind_Ok. done. Qed.

(** Deletion of a generation that no alias serves. *)
Definition retires_only (d d' : index_db) : Prop :=
  x_reg d' = x_reg d /\
  (x_pub d' = x_pub d \/ exists team item ns g,
     x_pub d' = set_records (update_where (fun _ => of_generation team item ns g) delete_record (x_records (x_pub d))) (x_pub d) /\
     match serving_alias (x_pub d) team item ns with Some a => g < pr_generation (al_row a) | None => True end).

Lemma soft_purge_Ok c d r d' : soft_purge stamp uuid7 now c d = Ok (r, d') -> retires_only d d'.
Proof.
  assert (retires_only d d) as Hrefl by (split; [done|by left]).
  intros (d0 & d1 & [= <- <-] & Hp)%bind_Ok. destruct (l_intents (x_log d) !! rt_uuid c) as [i|]; [|by injection Hp as _ <-].
  destruct (negb (same_candidate c i)); [by injection Hp as _ <-|]. destruct (negb (is_due now (in_eligible i))); [by injection Hp as _ <-|].
  destruct (parse_target_ref (in_target i)) as [[[item ns] g]|]; [|by injection Hp as _ <-].
  destruct (serving_alias (x_pub d) (rt_team c) item ns) as [a|] eqn:Ea.
  - destruct (pr_generation a <=? g) eqn:Eg; [by injection Hp as _ <-|]. apply bind_Ok in Hp as (n & d1 & [-> _]%update_records_Ok & Hp).
    assert (same_index (set_pub (set_records (update_where (fun _ => of_generation (rt_team c) item ns g) delete_record (x_records (x_pub d))) (x_pub d)) d) d') as [Hp' Hr'].
    { revert Hp. match goal with |- ?m ?s = _ -> _ => enough (keeps same_index m) as Hk by apply Hk end. clear. pose proof close_intent_same as Hclose. keeps_ledger. }
    split; [done|]. right. exists (rt_team c), item, ns, g. rewrite Ea, Hp'. split; [done|lia].
  - apply bind_Ok in Hp as (n & d1 & [-> _]%update_records_Ok & Hp).
    assert (same_index (set_pub (set_records (update_where (fun _ => of_generation (rt_team c) item ns g) delete_record (x_records (x_pub d))) (x_pub d)) d) d') as [Hp' Hr'].
    { revert Hp. match goal with |- ?m ?s = _ -> _ => enough (keeps same_index m) as Hk by apply Hk end. clear. pose proof close_intent_same as Hclose. keeps_ledger. }
    split; [done|]. right. exists (rt_team c), item, ns, g. by rewrite Ea, Hp'.
Qed.
End retirement.

(** ** Deletions *)

Lemma view_records d k : t_records (index_view d) !! k = vx_row <$> x_records (x_pub d) !! k.
Proof. apply lookup_fmap. Qed.
(** The other tables of the view after the records have changed. *)
Lemma view_set_records m d d' : x_reg d' = x_reg d -> x_pub d' = set_records m (x_pub d) ->
  index_view d' = Build_tables (t_teams (index_view d)) (t_namespaces (index_view d)) (vx_row <$> m) (t_pointers (index_view d)) (t_proofs (index_view d))
    (t_manifests (index_view d)) (t_members (index_view d)) (t_items (index_view d)) (t_sources (index_view d)) (t_artifacts (index_view d))
    (t_facets (index_view d)) (t_bindings (index_view d)).
Proof. intros Hr Hp. unfold index_view. rewrite Hr, Hp. done. Qed.

(** What a proof counts. *)
Lemma proof_records_map d d' (g : ustr -> vector_row -> vector_row) p : (forall k, t_records d' !! k = g k <$> t_records d !! k) ->
  (forall k r, t_records d !! k = Some r -> vr_team r = pf_team p -> vr_item r = Some (pf_item p) -> vr_namespace r = pf_namespace p -> vr_artifact r = pf_artifact p ->
     vr_generation r = pf_generation p -> vr_deleted r = false -> g k r = r) ->
  (forall k r, vr_team (g k r) = vr_team r /\ vr_item (g k r) = vr_item r /\ vr_namespace (g k r) = vr_namespace r /\ vr_artifact (g k r) = vr_artifact r /\
     vr_generation (g k r) = vr_generation r /\ (vr_deleted (g k r) = false -> vr_deleted r = false)) ->
  proof_records d' p = proof_records d p.
Proof.
  intros Hg Hsame Hco. apply (count_rows_map g); [done|]. intros k r Hr. destruct (Hco k r) as (Ht & Hi & Hn & Ha & Hge & Hd).
  specialize (Hsame k r Hr). rewrite Ht, Hi, Hn, Ha, Hge. destruct (vr_deleted r) eqn:Edr.
  { destruct (vr_deleted (g k r)) eqn:Edg; [|by specialize (Hd eq_refl)]. by rewrite ?andb_false_r. }
  destruct (ueqb (vr_team r) (pf_team p)) eqn:E1; [|done]. destruct (bool_decide (vr_item r = Some (pf_item p))) eqn:E2; [|done].
  destruct (ueqb (vr_namespace r) (pf_namespace p)) eqn:E3; [|by rewrite ?andb_false_r]. destruct (ueqb (vr_artifact r) (pf_artifact p)) eqn:E4; [|by rewrite ?andb_false_r].
  destruct (vr_generation r =? pf_generation p) eqn:E5; [|by rewrite ?andb_false_r]. breflect. rewrite ?ueqb_eq in *.
  by rewrite Hsame, Edr by (done || lia).
Qed.

(** Deleting the records of [P], which holds of all live records of a proof or of none, takes
    exactly their hits. *)
Lemma deletion_hits (P : record_row -> bool) (Q : vector_row -> bool) (f : hit_row -> bool) d d' :
  x_reg d' = x_reg d -> x_pub d' = set_records (update_where (fun _ => P) delete_record (x_records (x_pub d))) (x_pub d) ->
  (forall r, P r = Q (vx_row r)) ->
  (forall r s, vr_team r = vr_team s -> vr_item r = vr_item s -> vr_namespace r = vr_namespace s -> vr_artifact r = vr_artifact s ->
     vr_generation r = vr_generation s -> vr_deleted r = false -> vr_deleted s = false -> Q r = Q s) ->
  (forall j, vr_item (j_record j) = Some (j_item j) -> vr_deleted (j_record j) = false -> f (hit_of j) = negb (Q (j_record j))) ->
  forall team ns fs w, hits (index_view d') team ns fs w = List.filter f (hits (index_view d) team ns fs w).
Proof.
  intros Hr Hp HP Hclosed Hf team ns fs w. set (g := fun v : vector_row => if Q v then with_state (vr_published v) true v else v).
  pose proof (view_set_records _ _ _ Hr Hp) as Hv.
  assert (forall k, t_records (index_view d') !! k = g <$> t_records (index_view d) !! k) as Hg.
  { intros k. rewrite Hv. cbn [t_records]. rewrite lookup_fmap, update_where_lookup, view_records. destruct (x_records (x_pub d) !! k) as [r|]; [|done].
    cbn. unfold g. rewrite <-HP. by destruct (P r). }
  apply (hits_frame (fun v => negb (Q v)) f _ _ g); [done|by rewrite Hv|by rewrite Hv| | | |].
  - intros k v j _ HQ%negb_false_iff (_ & Ej & _)%join_row_facts. destruct (static_fence j) eqn:Es; [|done].
    apply static_fence_facts in Es as [Hdel _ _ _ _ _ _ _ _ _]. rewrite Ej in Hdel. unfold g in Hdel. by rewrite HQ in Hdel.
  - intros k v _ HQ%negb_true_iff. unfold g at 1. rewrite HQ. split; [done|]. by rewrite Hv.
  - intros k v j Hk HQ%negb_true_iff (_ & Ej & Hitem & _)%join_row_facts Hs%static_fence_facts. apply (proof_records_map _ _ (fun _ => g) _ Hg).
    + intros k' v' _ H1 H2 H3 H4 H5 H6. destruct Hs as [Hdel _ _ _ S1 S2 S3 S4 S5 _]. rewrite Ej in *. unfold g.
      rewrite (Hclosed v' v), HQ; [done|congruence..].
    + intros _ v'. unfold g. by destruct (Q v').
  - intros k v j Hk (_ & Ej & Hitem & _)%join_row_facts Hs%static_fence_facts. destruct Hs. rewrite <-Ej. apply Hf; congruence.
Qed.

Section retirement_laws.
Context {H : Host}.
Variables (stamp : Z -> ustr) (uuid7 : nat -> ustr) (grace now : Z).

(** A served record stands behind its alias. *)
Lemma served_alias d id r j : x_records (x_pub d) !! id = Some r -> join_row (index_view d) id (vx_row r) = Some j -> static_fence j = true ->
  exists a, serving_alias (x_pub d) (vr_team r) (j_item j) (vr_namespace r) = Some a /\ pr_generation (al_row a) = vr_generation r.
Proof.
  intros Hr (Hid & Ej & Hitem & Hn & Hp & _ & _ & Hi & Hnt & Hit & _)%join_row_facts Hs%static_fence_facts.
  destruct Hs as [_ _ [Hns Hnd] (Hst & Hge & _) _ _ _ _ _ (Hs1 & Hs2 & _ & Hs4)]. rewrite Ej in *.
  unfold index_view in Hn, Hp, Hi. cbn [t_namespaces t_pointers t_items] in *. rewrite lookup_fmap in Hn. rewrite lookup_fmap in Hp. rewrite lookup_fmap in Hi.
  destruct (x_spaces (x_pub d) !! vr_namespace r) as [n|] eqn:En; [|done]. destruct (x_aliases (x_pub d) !! _) as [a|] eqn:Ea; [|done].
  destruct (x_items (x_pub d) !! j_item j) as [i|] eqn:Ei; [|done]. cbn in Hn, Hp, Hi. injection Hn as Hn. injection Hp as Hp. injection Hi as Hi.
  exists a. split; [|by rewrite Hp]. unfold serving_alias, item_of. rewrite Ea, En, Ei. cbn [mbind option_bind]. rewrite Hi, Hit, ueqb_refl. cbn [mbind option_bind].
  unfold serving_item. rewrite Hn, Hi, Hp, Hnt, Hns, Hnd, Hst, Hs1, Hs2, !ueqb_refl. cbn. by rewrite bool_decide_eq_false_2.
Qed.

Lemma retires_only_hits d d' : retires_only d d' -> same_hits d d'.
Proof.
  intros [Hr [Hp|(team & item & ns & g & Hp & Ha)]] tm nm fs w; [by rewrite (same_index_view d d')|].
  set (Q := fun v : vector_row => ueqb (vr_team v) team && bool_decide (vr_item v = Some item) && ueqb (vr_namespace v) ns && (vr_generation v =? g) && negb (vr_deleted v)).
  set (f := fun h : hit_row => negb (ueqb (hr_team h) team && bool_decide (hr_item h = item) && ueqb (hr_namespace h) ns && (hr_generation h =? g))).
  rewrite (deletion_hits (of_generation team item ns g) Q f d d' Hr Hp).
  - unfold hits. assert (forall x, x ∈ rows_where (fun _ _ => true) (t_records (index_view d)) -> t_records (index_view d) !! x.1 = Some x.2) as Hin by (intros [k a] [Hk _]%rows_where_elem; done).
    induction (rows_where _ _) as [|[k v] l IH]; [done|]. specialize (IH (fun x Hx => Hin x (list_elem_of_further _ _ _ Hx))). cbn.
    destruct (hit (index_view d) tm nm fs w k v) as [h|] eqn:Eh; cbn; [|done]. rewrite IH. enough (f h = true) as -> by done.
    unfold hit in Eh. destruct (join_row (index_view d) k v) as [j|] eqn:Ej; [|done]. cbn in Eh. destruct (_ && _) eqn:Ew; [|done]. injection Eh as <-.
    unfold served in Ew. rewrite publication_fence_split in Ew. breflect.
    pose proof (Hin (k, v) (list_elem_of_here _ _)) as Hk. cbn [fst snd] in Hk. rewrite view_records in Hk. destruct (x_records (x_pub d) !! k) as [r|] eqn:Er; [|done]. injection Hk as <-.
    destruct (served_alias d k r j Er Ej) as (a & Hal & Hg); [done|]. apply join_row_facts in Ej as (_ & Ej & _). unfold f. cbn. rewrite Ej.
    apply negb_true_iff, not_true_iff_false. intros Hb. breflect. rewrite ?ueqb_eq in *. subst. rewrite Hal in Ha. lia.
  - intros r. unfold of_generation, Q. done.
  - intros v v' E1 E2 E3 _ E5 E6 E7. unfold Q. by rewrite E1, E2, E3, E5, E6, E7.
  - intros j Hi Hd. unfold f, Q. cbn. rewrite Hi, Hd. cbn. rewrite andb_true_r. do 3 f_equal. f_equal. apply bool_decide_ext. naive_solver.
Qed.

(** A scan writes ledgers and deletes what no alias serves. *)
Lemma scan_keeps (R : index_db -> index_db -> Prop) `{!PreOrder R} limit :
  (forall d d', same_index d d' -> R d d') -> (forall d d', retires_only d d' -> R d d') -> keeps R (scan_once stamp uuid7 grace now limit).
Proof.
  intros Hsame Hretires. apply keeps_bind; [done|intros d x d' Hx%discover_same; by apply Hsame|]. intros n.
  apply keeps_bind; [done|intros d x d' Hx%collect_same; by apply Hsame|]. intros cs. apply keeps_bind; [done| |intros rs; apply keeps_reads; [done|apply reads_ret]].
  induction cs as [|c cs IH]; cbn [attempts]; [apply keeps_reads; [done|apply reads_ret]|]. apply keeps_bind; [done| |intros r; apply keeps_bind; [done|exact IH|intros rs; apply keeps_reads; [done|apply reads_ret]]].
  intros d r d' Hc. unfold attempt in Hc. destruct (soft_purge stamp uuid7 now c d) as [[r' d1]|e] eqn:E.
  - injection Hc as _ <-. eapply Hretires, soft_purge_Ok, E.
  - assert (d' = d) as -> by (destruct e; by injection Hc as _ <-). reflexivity.
Qed.

(** C21: Retirement is invisible to retrieval.  A scan that discovers superseded generations,
    schedules them, and purges what is due leaves every search the rows it had: an active
    generation is never touched, whatever intents the ledger holds. *)
Theorem retirement_is_invisible limit d r d' (Hs : scan_once stamp uuid7 grace now limit d = Ok (r, d')) :
  forall scan_limit team namespace filters w,
    fetch_candidate_rows scan_limit (index_view d') team namespace filters w = fetch_candidate_rows scan_limit (index_view d) team namespace filters w.
Proof.
  intros scan_limit team ns fs w. enough (same_hits d d') as Hh by (by rewrite !fetch_hits, Hh).
  revert Hs. apply (scan_keeps same_hits); [|apply retires_only_hits]. intros d1 d2 E ? ? ? ?. by rewrite (same_index_view _ _ E).
Qed.
End retirement_laws.

(** ** Purges *)

Section purge_laws.
Context {H : Host}.

Definition purged (c : VectorizeCommand) (h : hit_row) : bool := ueqb (hr_team h) (vc_team c) && bool_decide (hr_artifact h ∈ vc_targets c).

Lemma purge_Ok c expected d r d' : purge c expected d = Ok (r, d') ->
  x_reg d' = x_reg d /\ x_pub d' = set_records (update_where (fun _ => active_where c) delete_record (x_records (x_pub d))) (x_pub d) /\
  r = Build_PurgeReceipt (vc_team c) (vc_execution c) (vc_input_digest c) (vc_targets c) (vp_matched expected) (vp_matched expected) /\
  vp_matched expected = count_rows (fun _ => active_where c) (x_records (x_pub d)).
Proof.
  intros (x1 & d1 & [_ ->]%lift_Ok & Hp)%bind_Ok. apply bind_Ok in Hp as ([] & d2 & [_ ->]%require_Ok & Hp).
  apply bind_Ok in Hp as ([] & d3 & Ht & Hp). unfold assert_targets in Ht. apply bind_Ok in Ht as (g & d4 & [= <- <-] & [_ ->]%require_Ok).
  apply bind_Ok in Hp as (p & d4 & [= <- <-] & Hp). apply bind_Ok in Hp as ([] & d5 & [Hm ->]%require_Ok & Hp).
  apply bind_Ok in Hp as (n & d6 & [-> ->]%update_records_Ok & Hp). apply bind_Ok in Hp as ([] & d7 & [_ ->]%require_Ok & [Hr ->]%lift_Ok).
  apply made in Hr as ->. split_and!; [done|done| |lia]. f_equal; lia.
Qed.

(** A purge removes what its receipt says.  A committed purge deletes exactly the live
    records of its target artifacts, as many as the receipt that was planned; of every search
    it takes the hits of these artifacts and no other, and a plan alone changes nothing. *)
Theorem purge_removes_exactly c expected d r d' (Hp : purge c expected d = Ok (r, d')) :
  vp_deleted r = count_rows (fun _ => active_where c) (x_records (x_pub d)) /\
  (forall id, (fun x : record_row => vr_deleted x) <$> x_records (x_pub d') !! id = (fun x : record_row => vr_deleted x || active_where c x) <$> x_records (x_pub d) !! id) /\
  (forall team namespace filters w, hits (index_view d') team namespace filters w = List.filter (fun h => negb (purged c h)) (hits (index_view d) team namespace filters w)) /\
  (forall e d1, plan_purge c d = Ok (e, d1) -> d1 = d /\ vp_matched e = vp_deleted r).
Proof.
  apply purge_Ok in Hp as (Hr & Hp & -> & Hm). split_and!; [exact Hm| | |].
  - intros id. rewrite Hp. cbn [x_records set_records]. rewrite update_where_lookup. destruct (x_records (x_pub d) !! id) as [x|]; [|done]. cbn.
    unfold active_where. destruct (vr_deleted (vx_row x)) eqn:E; cbn; rewrite ?E, ?andb_false_r; cbn; [by rewrite E|]. by destruct (_ && _); cbn; rewrite ?E.
  - set (Q := fun v : vector_row => ueqb (vr_team v) (vc_team c) && negb (vr_deleted v) && bool_decide (vr_artifact v ∈ vc_targets c)).
    apply (deletion_hits (active_where c) Q _ d d' Hr Hp).
    + done.
    + intros v v' E1 _ _ E4 _ E6 E7. unfold Q. by rewrite E1, E4, E6, E7.
    + intros j _ Hd. unfold purged, Q. cbn. by rewrite Hd, andb_true_r.
  - intros e d1 (x1 & d2 & [_ ->]%lift_Ok & (x2 & d3 & Ht & (p & d4 & [= <- <-] & [He ->]%lift_Ok)%bind_Ok)%bind_Ok)%bind_Ok.
    unfold assert_targets in Ht. apply bind_Ok in Ht as (g & d4 & [= <- <-] & [_ ->]%require_Ok). apply made in He as ->. by rewrite Hm.
Qed.
End purge_laws.

(** ** Lifecycle *)

Section lifecycle_laws.
Context {H : Host}.
Variables (uuid7 : nat -> ustr) (now : Z).

Lemma transition_same t : keeps same_index (record_transition uuid7 t).
Proof. unfold record_transition. keeps_ledger. Qed.
Lemma wake_same team task ex fence prefix : keeps same_index (enqueue_execution_wake uuid7 now team task ex fence prefix).
Proof. unfold enqueue_execution_wake. keeps_ledger. Qed.
Lemma delete_effects_same c cl : keeps same_index (delete_effects uuid7 now c cl).
Proof. unfold delete_effects, ensure_delete_cleanup. keeps_ledger. Qed.

Definition leaving (team item : ustr) (r : record_row) : bool :=
  ueqb (vr_team r) team && bool_decide (vr_item r = Some item) && negb (vr_deleted r) && vr_published r.
Definition withdrawn_pub (team item target : ustr) (i : intake_row) (p : published) : published :=
  set_records (update_where (fun _ => leaving team item) withdraw_record (x_records p))
    (set_aliases (map_imap (fun k a => Some (if ueqb k.1.1 team && ueqb k.1.2 item && negb (ueqb (pr_state (al_row a)) (u "withdrawn"))
                                             then withdraw_alias now a else a)) (x_aliases p))
      (set_items (<[item := set_lifecycle now target i]> (x_items p)) p)).

(** The two outcomes of a lifecycle command. *)
Lemma apply_lifecycle_Ok c d r d' : apply_lifecycle uuid7 now c d = Ok (r, d') ->
  exists fence i, lifecycle_fence c = Ok fence /\ item_of (lc_team c) (lc_item c) (x_pub d) = Some i /\ lr_fence r = fence /\
  (lr_applied r = false /\ d' = d /\ lr_state r = it_state i /\ lr_revision r = ix_revision i /\
     (transitioned d (lc_team c) (lc_item c) fence = true \/ target_state (lc_action c) (it_state i) = Ok None)
   \/ exists target, lr_applied r = true /\ target_state (lc_action c) (it_state i) = Ok (Some target) /\
      x_reg d' = x_reg d /\ x_pub d' = withdrawn_pub (lc_team c) (lc_item c) target i (x_pub d) /\ lr_state r = target /\ lr_revision r = ix_revision i + 1).
Proof.
  intros (x1 & d1 & [_ ->]%lift_Ok & (fence & d2 & [Hf ->]%lift_Ok & (d0 & d3 & [= <- <-] & Hr)%bind_Ok)%bind_Ok)%bind_Ok.
  destruct (item_of (lc_team c) (lc_item c) (x_pub d)) as [i|] eqn:Ei; [|done]. exists fence, i. split_and!; [done|done| |].
  - revert Hr. destruct (transitioned _ _ _ _); [by intros [= <- _]|]. intros ([] & d1 & [_ ->]%require_Ok & ([t|] & d2 & [_ ->]%lift_Ok & Hr)%bind_Ok)%bind_Ok; [|by injection Hr as <- _].
    repeat (apply bind_Ok in Hr as (? & ? & _ & Hr)). by injection Hr as <- _.
  - revert Hr. destruct (transitioned _ _ _ _) eqn:Et; [intros [= <- <-]; left; cbn; split_and!; auto|].
    intros ([] & d1 & [_ ->]%require_Ok & ([t|] & d2 & [Ht ->]%lift_Ok & Hr)%bind_Ok)%bind_Ok; [right|injection Hr as <- <-; left; cbn; split_and!; auto].
    exists t. apply bind_Ok in Hr as (v & d2 & [_ ->]%lift_Ok & Hr). apply bind_Ok in Hr as ([] & d3 & Hw & Hr).
    assert (x_reg d3 = x_reg d /\ x_pub d3 = withdrawn_pub (lc_team c) (lc_item c) t i (x_pub d)) as [Hr3 Hp3].
    { unfold withdraw_item in Hw. apply bind_Ok in Hw as ([] & d4 & [= <-] & Hw). apply bind_Ok in Hw as ([] & d5 & [= <-] & Hw).
      apply bind_Ok in Hw as (n & d6 & [-> _]%update_records_Ok & [= <-]). done. }
    apply bind_Ok in Hr as (it & d4 & [Hp4 Hr4]%delete_effects_same & Hr). apply bind_Ok in Hr as ([] & d5 & [Hp5 Hr5]%transition_same & Hr).
    apply bind_Ok in Hr as ([] & d6 & Hwk & [= <- <-]).
    assert (same_index d5 d6) as [Hp6 Hr6].
    { revert Hwk. destruct (lc_causes c) as [[tk [ex|]] pr]; [apply wake_same|by intros [= <-]]. }
    cbn. split_and!; congruence.
Qed.

(** C24: A lifecycle transition takes an item out of retrieval.  After an applied deactivation,
    reactivation or deletion every search has the hits that it had, less those of the item;
    a command that is not applied changes nothing. *)
Theorem lifecycle_withdraws c d r d' (Ha : apply_lifecycle uuid7 now c d = Ok (r, d')) :
  if lr_applied r
  then forall team namespace filters w,
         hits (index_view d') team namespace filters w = List.filter (fun h => negb (ueqb (hr_item h) (lc_item c))) (hits (index_view d) team namespace filters w)
  else d' = d.
Proof.
  apply apply_lifecycle_Ok in Ha as (fence & i & _ & Hi & _ & [(-> & -> & _)|(target & -> & _ & Hreg & Hpub & _)]); [done|]. intros team ns fs w.
  set (tm := lc_team c) in *. set (item := lc_item c) in *.
  set (Q := fun v : vector_row => ueqb (vr_team v) tm && bool_decide (vr_item v = Some item) && negb (vr_deleted v) && vr_published v).
  set (g := fun v : vector_row => if Q v then with_state false (vr_deleted v) v else v).
  assert (forall k, t_records (index_view d') !! k = g <$> t_records (index_view d) !! k) as Hg.
  { intros k. rewrite !view_records, Hpub. cbn [x_records withdrawn_pub set_records]. rewrite update_where_lookup.
    destruct (x_records (x_pub d) !! k) as [r0|]; [|done]. cbn. unfold g, Q, leaving. by destruct (_ && _). }
  assert (forall it, it <> item -> t_items (index_view d') !! it = t_items (index_view d) !! it) as Hitems.
  { intros it Hne. unfold index_view. cbn [t_items]. rewrite Hpub, !lookup_fmap. cbn [x_items withdrawn_pub set_records set_aliases set_items]. by rewrite lookup_insert_ne. }
  assert (forall tm0 it n, it <> item -> t_pointers (index_view d') !! (tm0, it, n) = t_pointers (index_view d) !! (tm0, it, n)) as Hpointers.
  { intros tm0 it n Hne. unfold index_view. cbn [t_pointers]. rewrite Hpub, !lookup_fmap. cbn [x_aliases withdrawn_pub set_records set_aliases set_items].
    rewrite map_lookup_imap. destruct (x_aliases (x_pub d) !! (tm0, it, n)) as [a|]; [|done]. cbn. by rewrite (ueqb_ne _ _ Hne), andb_false_r. }
  assert (t_namespaces (index_view d') = t_namespaces (index_view d) /\ t_proofs (index_view d') = t_proofs (index_view d) /\ t_manifests (index_view d') = t_manifests (index_view d) /\
          t_members (index_view d') = t_members (index_view d) /\ t_sources (index_view d') = t_sources (index_view d) /\ t_artifacts (index_view d') = t_artifacts (index_view d) /\
          t_facets (index_view d') = t_facets (index_view d)) as (Hns & Hpf & Hmf & Hmb & Hso & Har & Hfa) by (unfold index_view; rewrite Hpub, Hreg; done).
  apply (hits_frame (fun v => negb (bool_decide (vr_item v = Some item))) _ _ _ g); [done|done|done| | | |].
  - intros k v j _ Hk%negb_false_iff%bool_decide_eq_true Hj. destruct (static_fence j) eqn:Es; [|done]. apply static_fence_facts in Es as [_ _ _ _ _ _ _ _ _ (_ & _ & _ & Hserv)].
    exfalso. apply Hserv. apply join_row_facts in Hj as (_ & _ & Hitem & _ & _ & _ & _ & Hrow & _).
    assert (vr_item (g v) = vr_item v) as Hgi by (unfold g; by destruct (Q v)). rewrite Hgi, Hk in Hitem. injection Hitem as Hitem. rewrite <-Hitem in Hrow.
    unfold index_view in Hrow. cbn [t_items] in Hrow. rewrite Hpub, lookup_fmap in Hrow. cbn [x_items withdrawn_pub set_records set_aliases set_items] in Hrow.
    rewrite lookup_insert_eq in Hrow. cbn in Hrow. by injection Hrow as <-.
  - intros k v _ Hk%negb_true_iff%bool_decide_eq_false. assert (Q v = false) as HQ by (unfold Q; by rewrite (bool_decide_eq_false_2 _ Hk), andb_false_r).
    unfold g at 1. rewrite HQ. split; [done|]. unfold join_row, manifest_of. rewrite Hns, Hpf, Hmf, Hso, Har.
    destruct (t_namespaces (index_view d) !! vr_namespace v); [|done]. cbn [mbind option_bind]. destruct (vr_item v) as [it|]; [|done]. cbn [mbind option_bind].
    assert (it <> item) as Hne by congruence. by rewrite Hpointers, Hitems.
  - intros k v j _ Hk%negb_true_iff%bool_decide_eq_false (_ & Ej & Hitem & _)%join_row_facts Hs%static_fence_facts. apply (proof_records_map _ _ (fun _ => g) _ Hg).
    + intros k' v' _ _ Hi' _ _ _ _. unfold g. enough (Q v' = false) as -> by done. unfold Q. rewrite Hi'. destruct Hs. rewrite bool_decide_eq_false_2; [by rewrite andb_false_r|]. congruence.
    + intros _ v'. unfold g. by destruct (Q v').
  - intros k v j _ (_ & _ & Hitem & _)%join_row_facts _. cbn. f_equal. rewrite Hitem. unfold ueqb. apply bool_decide_ext. split; congruence.
Qed.
End lifecycle_laws.

(** ** Replays *)

Lemma first_row_Some {A} (f : ustr -> A -> bool) m k a : m !! k = Some a -> f k a = true -> is_Some (first_row f m).
Proof.
  intros Hk Hf. unfold first_row. destruct (rows_where f m) as [|x l] eqn:E; [|by eexists].
  assert ((k, a) ∈ rows_where f m) as Hin by by apply rows_where_elem. rewrite E in Hin. by apply not_elem_of_nil in Hin.
Qed.

Section replays.
Context {H : Host}.
Variables (uuid7 : nat -> ustr) (now : Z).

Lemma record_transition_Ok t d x d' : record_transition uuid7 t d = Ok (x, d') ->
  transitioned d' (tr_team t) (tr_item t) (tr_fence t) = true.
Proof.
  intros (id & d1 & [= <- <-] & (l & d2 & [= <- <-] & ([] & d3 & [Hn ->]%require_Ok & [= _ <-])%bind_Ok)%bind_Ok)%bind_Ok. breflect.
  unfold transitioned. cbn in *.
  apply bool_decide_eq_true. eapply first_row_Some; [apply lookup_insert_eq|]. cbn. by rewrite !ueqb_refl.
Qed.
Lemma wake_keeps team task ex fence prefix d x d' : enqueue_execution_wake uuid7 now team task ex fence prefix d = Ok (x, d') -> l_transitions (x_log d') = l_transitions (x_log d).
Proof.
  intros (a & d1 & [_ ->]%lift_Ok & (b & d2 & [_ ->]%lift_Ok & (id & d3 & [= <- <-] & Hr)%bind_Ok)%bind_Ok)%bind_Ok.
  destruct (outbox_kind _) as [k|]; [|done]. by injection Hr as _ <-.
Qed.

(** A lifecycle command takes effect once.  Running a committed command again returns the
    state and revision that the first run reached, applies nothing and writes nothing. *)
Theorem lifecycle_replays c d r d' (Ha : apply_lifecycle uuid7 now c d = Ok (r, d')) later :
  exists r', apply_lifecycle uuid7 later c d' = Ok (r', d') /\ lr_applied r' = false /\
    lr_state r' = lr_state r /\ lr_revision r' = lr_revision r /\ lr_fence r' = lr_fence r.
Proof.
  pose proof Ha as Hrun. apply apply_lifecycle_Ok in Ha as (fence & i & Hf & Hi & Hlf & Hcase).
  assert (validate_command c = Ok tt) as Hv by (clear -Hrun; unfold apply_lifecycle in Hrun; by apply bind_Ok in Hrun as ([] & d1 & [Hv _]%lift_Ok & _)).
  assert (forall d0 i0, item_of (lc_team c) (lc_item c) (x_pub d0) = Some i0 -> transitioned d0 (lc_team c) (lc_item c) fence = true ->
    exists r', apply_lifecycle uuid7 later c d0 = Ok (r', d0) /\ lr_applied r' = false /\ lr_state r' = it_state i0 /\ lr_revision r' = ix_revision i0 /\ lr_fence r' = fence) as Hagain.
  { intros d0 i0 Hi0 Ht0.
    exists (Build_lifecycle_result (it_state i0) (it_state i0) (ix_revision i0) (bool_decide (it_serving i0 = None)) fence false (existing_cleanup d0 (lc_team c) (lc_item c))).
    split_and!; [|done..]. unfold apply_lifecycle. rewrite (bind_run _ _ _ tt d0 (lift_run _ _ _ Hv)), (bind_run _ _ _ fence d0 (lift_run _ _ _ Hf)).
    unfold bind, gets, rbind. cbn [fst snd]. unfold id. rewrite Hi0, Ht0. reflexivity. }
  destruct Hcase as [(Hap & -> & Hst & Hrv & [Ht|Hn])|(target & Hap & Ht & Hreg & Hpub & Hst & Hrv)].
  - destruct (Hagain d i Hi Ht) as (r' & Hr' & H1 & H2 & H3 & H4). exists r'. split_and!; congruence.
  - destruct (transitioned d (lc_team c) (lc_item c) fence) eqn:Et.
    { destruct (Hagain d i Hi Et) as (r' & Hr' & H1 & H2 & H3 & H4). exists r'. split_and!; congruence. }
    assert (forall t, apply_lifecycle uuid7 t c d = let* _ := ensure (match lc_expected c with Some e => ix_revision i =? e | None => true end) REVISION_CONFLICT in
      Ok (Build_lifecycle_result (it_state i) (it_state i) (ix_revision i) (bool_decide (it_serving i = None)) fence false (existing_cleanup d (lc_team c) (lc_item c)), d)) as Hrefused.
    { intros t. unfold apply_lifecycle. rewrite (bind_run _ _ _ tt d (lift_run _ _ _ Hv)), (bind_run _ _ _ fence d (lift_run _ _ _ Hf)).
      unfold bind, gets, rbind. cbn [fst snd]. unfold id. rewrite Hi, Et. unfold require, lift, rbind. destruct (ensure _ _); [|reflexivity]. cbn [fst snd]. rewrite Hn. reflexivity. }
    exists r. rewrite Hrefused in Hrun |- *. by split_and!.
  - assert (transitioned d' (lc_team c) (lc_item c) fence = true) as Htr.
    { revert Hrun. unfold apply_lifecycle. rewrite (bind_run _ _ _ tt d (lift_run _ _ _ Hv)), (bind_run _ _ _ fence d (lift_run _ _ _ Hf)).
      intros (d0 & d1 & [= <- <-] & Hr)%bind_Ok. unfold id in Hr. rewrite Hi in Hr. destruct (transitioned d _ _ _) eqn:Et; [injection Hr as <- <-; done|].
      apply bind_Ok in Hr as ([] & d1 & [_ ->]%require_Ok & (t & d2 & [Ht' ->]%lift_Ok & Hr)%bind_Ok). rewrite Ht in Ht'. injection Ht' as <-.
      apply bind_Ok in Hr as (v & d2 & _ & (x2 & d3 & _ & (x3 & d4 & _ & (x4 & d5 & Hrec%record_transition_Ok & Hr)%bind_Ok)%bind_Ok)%bind_Ok).
      apply bind_Ok in Hr as (x5 & d6 & Hw & [= _ <-]). cbn in Hrec. revert Hrec. unfold transitioned.
      assert (l_transitions (x_log d6) = l_transitions (x_log d5)) as -> by (revert Hw; destruct (lc_causes c) as [[tk [ex|]] pr]; [apply wake_keeps|by intros [= _ <-]]). done. }
    destruct (Hagain d' (set_lifecycle now target i)) as (r' & Hr' & H1 & H2 & H3 & H4); [|done|exists r'; split_and!; [done|done|cbn in *; congruence..]].
    unfold item_of in *. rewrite Hpub. cbn [x_items withdrawn_pub set_records set_aliases set_items]. rewrite lookup_insert_eq.
    destruct (x_items (x_pub d) !! lc_item c) as [i0|]; [|done]. destruct (ueqb (it_team (ix_row i0)) (lc_team c)) eqn:Eteam; [|done]. injection Hi as ->. cbn. by rewrite Eteam.
Qed.
End replays.
