(* ===== verification/PublicationLaws.v ===== *)
(** * Laws of publication

    A published set is served whole: after [publish_commit] the records of an item in a
    namespace that retrieval serves are exactly those of the publication, and the rows of
    other items stay.  [prepared] is what vectorization leaves behind for it. *)

From S2P Require Import Prelude PyText PyValue Txn Outbox Engine Objects RetrievalTables Index Lifecycle VectorContracts Retirement Publication IndexLaws.

Open Scope Z_scope.
Open Scope mkb_scope.

(** ** Steps of the transaction *)

Lemma ids_permutation (l ids : list ustr) : NoDup l -> (forall x, x ∈ l -> x ∈ ids) -> length l = length ids -> l ≡ₚ ids.
Proof. intros Hn Hs Hl. apply submseteq_length_Permutation; [by apply NoDup_submseteq|lia]. Qed.

Section steps.
Context {H : Host}.
Variables (uuid7 : nat -> ustr) (grace now : Z) (retires : bool).

Definition in_set (team : ustr) (p : publication) (id : ustr) (r : record_row) : bool := wanted_record team (pn_records p).*1 id r && negb (vr_published r).
Definition indexed (team : ustr) (p : publication) (q : published) : published := set_records (update_where (in_set team p) index_record (x_records q)) q.

Lemma index_records_Ok team p d pairs d' : index_records team p d = Ok (pairs, d') ->
  d' = set_pub (indexed team p (x_pub d)) d /\ NoDup (pn_records p).*1 /\ pairs.*1 ≡ₚ (pn_records p).*1 /\
  (forall id, id ∈ (pn_records p).*1 -> exists r : record_row, x_records (x_pub d) !! id = Some r /\ vr_team r = team /\ vr_published r = false /\ vr_generation r = pn_generation p).
Proof.
  intros (q & d1 & [= <- <-] & ([] & d2 & [Hc ->]%require_Ok & (actual & d3 & [_ ->]%lift_Ok & ([] & d4 & [_ ->]%require_Ok & Hr)%bind_Ok)%bind_Ok)%bind_Ok)%bind_Ok.
  apply bind_Ok in Hr as (n & d5 & [-> _]%update_records_Ok & ([] & d6 & [_ ->]%require_Ok & [= <- <-])%bind_Ok).
  apply andb_true_iff in Hc as [Hlen%Nat.eqb_eq Hall]. set (rows := rows_where (wanted_record team (pn_records p).*1) (x_records (x_pub d))) in *.
  assert (forall id (r : record_row), (id, r) ∈ rows -> x_records (x_pub d) !! id = Some r /\ vr_team r = team /\ id ∈ (pn_records p).*1 /\ vr_published r = false /\ vr_generation r = pn_generation p) as Hrow.
  { intros id r Hin. rewrite forallb_forall in Hall. pose proof (Hall _ (proj1 (list_elem_of_In _ _) Hin)) as Hb. apply rows_where_elem in Hin as [Hid Hw].
    unfold wanted_record in Hw. cbn in Hb. breflect. rewrite ?ueqb_eq in *. split_and!; try done. lia. }
  assert (rows.*1 ≡ₚ (pn_records p).*1) as Hperm.
  { apply ids_permutation; [apply rows_where_nodup| |by rewrite length_fmap]. by intros x ([id r] & -> & (_ & _ & Hin & _)%Hrow)%list_elem_of_fmap. }
  split_and!; [done| | |].
  - rewrite <-Hperm. apply rows_where_nodup.
  - assert ((map (fun kv : ustr * record_row => (kv.1, vr_content_digest (vx_row kv.2))) rows).*1 = rows.*1) as -> by (rewrite <-list_fmap_compose; done). done.
  - intros id. rewrite <-Hperm. intros ([id' r] & -> & Hin)%list_elem_of_fmap. apply Hrow in Hin as (? & ? & _ & ? & ?). by exists r.
Qed.

Lemma state_value_Ok state k s : state_value state k = Ok s -> dget state (u k) = Some (PStr s).
Proof. unfold state_value. destruct (dget state (u k)) as [[]|]; try done. by intros [= ->]. Qed.

(** The coordinates of a publication. *)
Record place := { at_item : ustr; at_revision : ustr; at_artifact : ustr; at_namespace : ustr }.
Definition placed (state : pydict) (a : place) : Prop :=
  dget state (u "intake_item_uuid") = Some (PStr (at_item a)) /\ dget state (u "intake_revision_uuid") = Some (PStr (at_revision a)) /\
  dget state (u "dual_channel_artifact_uuid") = Some (PStr (at_artifact a)) /\ dget state (u "namespace_uuid") = Some (PStr (at_namespace a)).
Lemma placed_value state a : placed state a -> state_value state "intake_item_uuid" = Ok (at_item a) /\ state_value state "intake_revision_uuid" = Ok (at_revision a) /\
  state_value state "dual_channel_artifact_uuid" = Ok (at_artifact a) /\ state_value state "namespace_uuid" = Ok (at_namespace a).
Proof. unfold placed, state_value. by intros (-> & -> & -> & ->). Qed.

Definition proof_at (c : ProcessCommand) (p : publication) (a : place) (count : Z) : proof_row :=
  Build_proof_row (u "index.publication.v1") (u "v1") (pc_team c) (at_item a) (at_revision a) (at_artifact a) (u "dual_channel_projection") (at_namespace a)
    (pn_layer p) (pn_generation p) count count count.
Lemma insert_proof_Ok c p a count actual d proof d' : placed (pn_state p) a -> insert_proof c p count actual d = Ok (proof, d') ->
  exists e, ev_row e = proof_at c p a count /\ x_proofs (x_pub d) !! proof = None /\ space_of (x_pub d) (pc_team c) (at_namespace a) (pn_layer p) = true /\
    is_Some (item_of (pc_team c) (at_item a) (x_pub d)) /\ d' = set_pub (set_evidence (<[proof := e]> (x_proofs (x_pub d))) (x_pub d)) d.
Proof.
  intros (Hi & Hr & Ha & Hn)%placed_value (proof' & d1 & [_ ->]%lift_Ok & Hp)%bind_Ok.
  apply bind_Ok in Hp as (i & d2 & [Ei ->]%lift_Ok & (rv & d3 & [Er ->]%lift_Ok & (ar & d4 & [Ea ->]%lift_Ok & (ns & d5 & [En ->]%lift_Ok & Hp)%bind_Ok)%bind_Ok)%bind_Ok).
  rewrite Hi in Ei. rewrite Hr in Er. rewrite Ha in Ea. rewrite Hn in En. simplify_eq.
  apply bind_Ok in Hp as (d0 & d6 & [= <- <-] & ([] & d7 & [Hc ->]%require_Ok & ([] & d8 & [= <-] & [= <- <-])%bind_Ok)%bind_Ok).
  unfold id, unused in Hc. breflect. eexists. split_and!; [|done..]. done.
Qed.

(** The members that a manifest gains, and what it keeps. *)
Lemma insert_members_Ok edition team members : forall ordinal d x d', insert_members edition team ordinal members d = Ok (x, d') ->
  exists m, d' = set_pub (set_members m (x_pub d)) d /\
    (forall k, k.1 <> edition -> m !! k = x_members (x_pub d) !! k) /\
    (forall id, id ∈ members.*1 -> exists row, m !! (edition, id) = Some row /\ mr_team row = team) /\
    (forall k row, x_members (x_pub d) !! k = Some row -> m !! k = Some row).
Proof.
  induction members as [|[mid dg] members IH]; intros ordinal d x d' Hm; cbn [insert_members] in Hm.
  - injection Hm as _ <-. exists (x_members (x_pub d)). split_and!; [by destruct d as [[]]|done|by intros id ?%not_elem_of_nil|done].
  - apply bind_Ok in Hm as (q & d1 & [= <- <-] & ([] & d2 & [Hu ->]%require_Ok & ([] & d3 & [= <-] & Hm)%bind_Ok)%bind_Ok). unfold unused in Hu. breflect.
    apply IH in Hm as (m & -> & Hother & Hnew & Hkeep). cbn in *. exists m. split_and!.
    + done.
    + intros k Hk. rewrite Hother by done. apply lookup_insert_ne. by intros <-.
    + intros id' [->|Hid]%elem_of_cons; [|by apply Hnew]. eexists. split; [apply Hkeep, lookup_insert_eq|done].
    + intros k row Hrow. apply Hkeep. rewrite lookup_insert_ne; [done|]. intros <-. congruence.
Qed.

Definition edition_fits (c : ProcessCommand) (p : publication) (a : place) (proof : ustr) : manifest_row :=
  Build_manifest_row (pc_team c) proof (at_item a) (at_revision a) (at_namespace a) (pn_generation p).
Lemma insert_manifest_Ok c p a proof pairs d x d' : placed (pn_state p) a -> insert_manifest uuid7 c p proof pairs d = Ok (x, d') ->
  exists edition e m, x_reg d' = x_reg d /\ x_pub d' = set_members m (set_editions (<[edition := e]> (x_editions (x_pub d))) (x_pub d)) /\
    ed_row e = edition_fits c p a proof /\ x_editions (x_pub d) !! edition = None /\
    (forall k (o : edition_row), x_editions (x_pub d) !! k = Some o -> mf_proof (ed_row o) <> proof) /\
    (forall k, k.1 <> edition -> m !! k = x_members (x_pub d) !! k) /\
    (forall id, id ∈ pairs.*1 -> exists row, m !! (edition, id) = Some row /\ mr_team row = pc_team c).
Proof.
  intros (Hi & Hr & Ha & Hn)%placed_value (i & d2 & [Ei ->]%lift_Ok & Hp)%bind_Ok.
  apply bind_Ok in Hp as (rv & d3 & [Er ->]%lift_Ok & (ar & d4 & [Ea ->]%lift_Ok & (ns & d5 & [En ->]%lift_Ok & Hp)%bind_Ok)%bind_Ok).
  rewrite Hi in Ei. rewrite Hr in Er. rewrite Ha in Ea. rewrite Hn in En. simplify_eq.
  apply bind_Ok in Hp as (q & d6 & [= <- <-] & Hp). destruct (item_of (pc_team c) (at_item a) (x_pub d)) as [i|]; [|done].
  apply bind_Ok in Hp as (edition & d7 & [= Hed <-] & (sd & d8 & [_ ->]%lift_Ok & (dg & d9 & [_ ->]%lift_Ok & ([] & d10 & [Hc ->]%require_Ok & ([] & d11 & [= <-] & Hm)%bind_Ok)%bind_Ok)%bind_Ok)%bind_Ok).
  apply insert_members_Ok in Hm as (m & -> & Hother & Hnew & _). unfold edition_conflict in Hc. breflect. cbn in *.
  exists edition. eexists _, m. split_and!; [done|done|done| | |done|].
  - destruct (x_editions (x_pub d) !! edition) eqn:E; [|done]. exfalso. eauto.
  - intros k o Ho Hpf. match goal with Hx : ~ is_Some (first_row _ _) |- _ => apply Hx end. eapply first_row_Some; [exact Ho|]. cbn. by rewrite Hpf, ueqb_refl.
  - intros id Hid. apply Hnew. apply list_elem_of_fmap in Hid as (y & -> & Hy). apply list_elem_of_fmap. exists y. split; [done|]. by rewrite py_sorted_perm.
Qed.

Lemma move_pointer_Ok c p item ns artifact proof d before d' : move_pointer now c p item ns artifact proof d = Ok (before, d') ->
  exists al, al_row al = Build_pointer_row (pn_generation p) (u "active") (Some proof) (Some artifact) /\
    d' = set_pub (set_aliases (<[(pc_team c, item, ns) := al]> (x_aliases (x_pub d))) (x_pub d)) d /\
    before = x_aliases (x_pub d) !! (pc_team c, item, ns) /\
    match before with Some a => pr_generation (al_row a) < pn_generation p /\ al_revision al = al_revision a + 1 | None => True end.
Proof.
  intros (q & d1 & [= <- <-] & Hp)%bind_Ok. cbv zeta in Hp. destruct (x_aliases (x_pub d) !! _) as [a|].
  - apply bind_Ok in Hp as ([] & d2 & [Hg ->]%require_Ok & ([] & d3 & [= <-] & [= <- <-])%bind_Ok). eexists. split_and!; [|done|done| |done]; [done|lia].
  - apply bind_Ok in Hp as ([] & d3 & [= <-] & [= <- <-]). eexists. split_and!; [|done..]; done.
Qed.

(** Rows of namespaces only gain generations. *)
Definition raised (q q' : gmap ustr space_row) : Prop := forall k, sp_row <$> q' !! k = sp_row <$> q !! k.
Lemma raise_generation_Ok team ns g d x d' : raise_generation team ns g d = Ok (x, d') ->
  exists m, d' = set_pub (set_spaces m (x_pub d)) d /\ raised (x_spaces (x_pub d)) m /\
    forall k (n : space_row), x_spaces (x_pub d) !! k = Some n -> exists n' : space_row, m !! k = Some n' /\ sp_generation n <= sp_generation n'.
Proof.
  intros [= _ <-]. assert (forall q : published, q = set_spaces (x_spaces q) q) as Hid by (by intros []).
  destruct (x_spaces (x_pub d) !! ns) as [n|] eqn:En; [destruct (_ && _)|].
  - exists (<[ns := set_generation (Z.max (sp_generation n) g) n]> (x_spaces (x_pub d))). split_and!; [done| |].
    + intros k. destruct (decide (k = ns)) as [->|]; [by rewrite lookup_insert_eq, En|by rewrite lookup_insert_ne].
    + intros k n' Hk. destruct (decide (k = ns)) as [->|]; [rewrite lookup_insert_eq; eexists; split; [done|]; cbn; simplify_eq; lia|rewrite lookup_insert_ne by done; eauto with lia].
  - exists (x_spaces (x_pub d)). rewrite <-Hid. split_and!; [done|done|eauto with lia].
  - exists (x_spaces (x_pub d)). rewrite <-Hid. split_and!; [done|done|eauto with lia].
Qed.

(** The item after a publication serves the revision. *)
Lemma publish_revision_Ok c d r d' : publish_revision uuid7 now c d = Ok (r, d') ->
  exists i i' : intake_row, item_of (pb_team c) (pb_item c) (x_pub d) = Some i /\ x_reg d' = x_reg d /\ x_pub d' = set_items (<[pb_item c := i']> (x_items (x_pub d))) (x_pub d) /\
    it_team (ix_row i') = pb_team c /\ it_source (ix_row i') = it_source (ix_row i) /\ it_state (ix_row i') = it_state (ix_row i) /\ it_deleted (ix_row i') = it_deleted (ix_row i) /\
    it_serving (ix_row i') = Some (pb_revision c) /\ (it_state (ix_row i) = u "active" \/ it_serving (ix_row i) = Some (pb_revision c)).
Proof.
  intros ([] & d1 & [_ ->]%lift_Ok & (fence & d2 & [_ ->]%lift_Ok & (d0 & d3 & [= <- <-] & Hr)%bind_Ok)%bind_Ok)%bind_Ok. unfold id in Hr.
  destruct (item_of (pb_team c) (pb_item c) (x_pub d)) as [i|] eqn:Ei; [|done]. exists i.
  assert (x_items (x_pub d) !! pb_item c = Some i /\ it_team (ix_row i) = pb_team c) as [Hx Ht].
  { unfold item_of in Ei. destruct (x_items (x_pub d) !! pb_item c) as [i0|]; [|done]. destruct (ueqb _ _) eqn:E; [|done]. injection Ei as ->. by apply ueqb_eq in E. }
  destruct (transitioned _ _ _ _).
  - apply bind_Ok in Hr as ([] & d4 & [Hs ->]%require_Ok & [= <- <-]). breflect. exists i. split_and!; try done; [|by right].
    destruct (x_pub d) as [a b cc dd e f g h]. cbn in *. by rewrite insert_id.
  - apply bind_Ok in Hr as ([] & d4 & [_ ->]%require_Ok & ([] & d5 & [Hact ->]%require_Ok & ([] & d6 & [_ ->]%require_Ok & (v & d7 & [_ ->]%lift_Ok & (e & d8 & [_ ->]%lift_Ok & Hr)%bind_Ok)%bind_Ok)%bind_Ok)%bind_Ok).
    apply bind_Ok in Hr as ([] & d9 & [_ ->]%require_Ok & ([] & d10 & [= <-] & ([] & d11 & [Hp1 Hr1]%transition_same & ([] & d12 & Hw & [= <- <-])%bind_Ok)%bind_Ok)%bind_Ok).
    exists (serve_revision (pb_revision c) i). apply ueqb_eq in Hact.
    assert (same_index d11 d12) as [Hp2 Hr2] by (revert Hw; destruct (pb_causes c) as [[tk [ex|]] pr]; [apply wake_same|done]).
    cbn in Hp1, Hr1. split_and!; try done; [by rewrite Hr2, Hr1|by rewrite Hp2, Hp1|by left].
Qed.
End steps.

(** ** The whole transaction *)

Section commit.
Context {H : Host}.
Variables (uuid7 : nat -> ustr) (grace now : Z) (retires : bool).

Record committed (c : ProcessCommand) (p : publication) (a : place) (d d' : index_db) (proof edition : ustr) : Prop := {
  cm_reg : x_reg d' = x_reg d;
  cm_ids : NoDup (pn_records p).*1;
  cm_rows : forall id, id ∈ (pn_records p).*1 ->
    exists r : record_row, x_records (x_pub d) !! id = Some r /\ vr_team r = pc_team c /\ vr_published r = false /\ vr_generation r = pn_generation p;
  cm_records : x_records (x_pub d') = update_where (in_set (pc_team c) p) index_record (x_records (x_pub d));
  cm_facets : x_facets (x_pub d') = x_facets (x_pub d);
  cm_fresh_proof : x_proofs (x_pub d) !! proof = None;
  cm_proofs : exists e : evidence_row, ev_row e = proof_at c p a (Z.of_nat (length (pn_records p))) /\ x_proofs (x_pub d') = <[proof := e]> (x_proofs (x_pub d));
  cm_space : space_of (x_pub d) (pc_team c) (at_namespace a) (pn_layer p) = true;
  cm_fresh_edition : x_editions (x_pub d) !! edition = None;
  cm_only_edition : forall k (o : edition_row), x_editions (x_pub d) !! k = Some o -> mf_proof (ed_row o) <> proof;
  cm_editions : exists e : edition_row, ed_row e = edition_fits c p a proof /\ x_editions (x_pub d') = <[edition := e]> (x_editions (x_pub d));
  cm_old_members : forall k, k.1 <> edition -> x_members (x_pub d') !! k = x_members (x_pub d) !! k;
  cm_members : forall id, id ∈ (pn_records p).*1 -> exists row, x_members (x_pub d') !! (edition, id) = Some row /\ mr_team row = pc_team c;
  cm_aliases : exists al : alias_row, al_row al = Build_pointer_row (pn_generation p) (u "active") (Some proof) (Some (at_artifact a)) /\
    x_aliases (x_pub d') = <[(pc_team c, at_item a, at_namespace a) := al]> (x_aliases (x_pub d)) /\
    forall b, x_aliases (x_pub d) !! (pc_team c, at_item a, at_namespace a) = Some b -> pr_generation (al_row b) < pn_generation p /\ al_revision al = al_revision b + 1;
  cm_spaces : raised (x_spaces (x_pub d)) (x_spaces (x_pub d'));
  cm_grown : forall k (n : space_row), x_spaces (x_pub d) !! k = Some n -> exists n' : space_row, x_spaces (x_pub d') !! k = Some n' /\ sp_generation n <= sp_generation n';
  cm_items : exists i i' : intake_row, item_of (pc_team c) (at_item a) (x_pub d) = Some i /\ x_items (x_pub d') = <[at_item a := i']> (x_items (x_pub d)) /\
    it_team (ix_row i') = pc_team c /\ it_source (ix_row i') = it_source (ix_row i) /\ it_state (ix_row i') = it_state (ix_row i) /\ it_deleted (ix_row i') = it_deleted (ix_row i) /\
    it_serving (ix_row i') = Some (at_revision a) /\ (it_state (ix_row i) = u "active" \/ it_serving (ix_row i) = Some (at_revision a))
}.

Lemma publish_commit_Ok c p refs a d x d' : placed (pn_state p) a -> publish_commit uuid7 grace now retires c p refs d = Ok (x, d') ->
  exists proof edition, committed c p a d d' proof edition.
Proof.
  intros Hpl Hp. apply bind_Ok in Hp as (pairs & d1 & (-> & Hnd & Hperm & Hrows)%index_records_Ok & Hp).
  apply bind_Ok in Hp as (actual & d2 & [_ ->]%lift_Ok & Hp). apply bind_Ok in Hp as (proof & d3 & Hpf & Hp).
  apply (insert_proof_Ok _ _ a) in Hpf as (e & He & Hfp & Hsp & _ & ->); [|done]. apply bind_Ok in Hp as ([] & d4 & Hm & Hp).
  apply (insert_manifest_Ok _ _ _ a) in Hm as (edition & ed & m & Hr4 & Hp4 & Hed & Hfe & Hoe & Hom & Hnm); [|done].
  destruct (placed_value _ _ Hpl) as (Hi & Hr & Ha & Hn). apply bind_Ok in Hp as (i0 & d5 & [Ei ->]%lift_Ok & (r0 & d6 & [Er ->]%lift_Ok & (a0 & d7 & [Ea ->]%lift_Ok & (n0 & d8 & [En ->]%lift_Ok & Hp)%bind_Ok)%bind_Ok)%bind_Ok).
  rewrite Hi in Ei. rewrite Hr in Er. rewrite Ha in Ea. rewrite Hn in En. injection Ei as <-. injection Er as <-. injection Ea as <-. injection En as <-.
  apply bind_Ok in Hp as (before & d9 & (al & Hal & -> & Hbe & Hbg)%move_pointer_Ok & Hp). apply bind_Ok in Hp as ([] & d10 & (sp & -> & Hra & Hgr)%raise_generation_Ok & Hp).
  apply bind_Ok in Hp as (key & d11 & [_ ->]%lift_Ok & (res & d12 & (i & i' & Hit & Hr12 & Hp12 & Hitf)%publish_revision_Ok & Hp)%bind_Ok).
  assert (same_index d12 d') as [Hp13 Hr13].
  { destruct before as [b|]; [|by injection Hp as _ <-]. destruct (_ && _); [|by injection Hp as _ <-].
    apply bind_Ok in Hp as (z & d13 & Hsc%schedule_same & [= _ <-]). done. }
  cbn in Hr12, Hp12, Hit, Hbe. rewrite Hr4 in *. rewrite Hp4 in *. cbn in *. exists proof, edition.
  rewrite Hp12 in Hp13. rewrite Hr12 in Hr13. constructor; rewrite ?Hp13, ?Hr13; cbn; try done.
  - by exists e.
  - by exists ed.
  - intros id Hid. apply Hnm. by rewrite Hperm.
  - exists al. split_and!; [done|done|]. intros b Hb. rewrite Hb in Hbe. by subst before.
  - exists i, i'. split_and!; try done; by destruct_and! Hitf.
Qed.
End commit.

(** ** What vectorization prepares *)

Section serving.
Context {H : Host}.

(** A record at the coordinates of a publication. *)
Definition record_at (c : ProcessCommand) (p : publication) (a : place) (r : record_row) : Prop :=
  vr_team r = pc_team c /\ vr_namespace r = at_namespace a /\ vr_artifact r = at_artifact a /\ vr_artifact_type r = u "dual_channel_projection" /\
  vr_item r = Some (at_item a) /\ vr_revision r = Some (at_revision a) /\ vr_layer r = pn_layer p /\ vr_generation r = pn_generation p /\ vr_deleted r = false.
(** The rules that the tables keep: a deleted item is in no other state, only an active one
    serves, an active namespace is not deleted. *)
Definition item_ok (i : intake_row) : Prop :=
  (it_deleted i = true -> it_state i = u "deleted") /\ (it_serving i <> None -> it_state i = u "active").
Definition space_ok (n : space_row) : Prop := nr_status n = u "active" -> nr_deleted n = false.

(** The records of the set and no others stand at its generation of the namespace, over a fully
    valid artifact. *)
Record prepared (c : ProcessCommand) (p : publication) (a : place) (d : index_db) : Prop := {
  pp_records : forall id, id ∈ (pn_records p).*1 -> exists r : record_row, x_records (x_pub d) !! id = Some r /\ record_at c p a r;
  pp_only : forall id (r : record_row), x_records (x_pub d) !! id = Some r -> vr_namespace r = at_namespace a -> vr_generation r = pn_generation p -> id ∈ (pn_records p).*1;
  pp_space : exists n : space_row, x_spaces (x_pub d) !! at_namespace a = Some n /\ nr_status n = u "active" /\ nr_deleted n = false;
  pp_artifact : exists s : stage_artifact, g_artifacts (x_reg d) !! at_artifact a = Some s /\ ar_team s = pc_team c /\ ar_type s = u "dual_channel_projection" /\ ar_disposition s = u "full_valid";
  pp_item : forall i, x_items (x_pub d) !! at_item a = Some i -> item_ok i
}.

Definition is_served (d : index_db) (team namespace id : ustr) : Prop :=
  exists (r : record_row) j, x_records (x_pub d) !! id = Some r /\ join_row (index_view d) id (vx_row r) = Some j /\ served (index_view d) team namespace j = true.

Lemma head_unique {A} (f : ustr -> A -> bool) m k a : m !! k = Some a -> f k a = true -> (forall k' b, m !! k' = Some b -> f k' b = true -> k' = k) ->
  head (rows_where f m) = Some (k, a).
Proof.
  intros Hk Hf Hu. assert ((k, a) ∈ rows_where f m) as Hin by by apply rows_where_elem.
  destruct (rows_where f m) as [|[k' b] l] eqn:E; [by apply not_elem_of_nil in Hin|]. cbn.
  assert ((k', b) ∈ rows_where f m) as [Hk' Hf']%rows_where_elem by (rewrite E; left). rewrite (Hu k' b Hk' Hf') in Hk' |- *. rewrite Hk in Hk'. by injection Hk' as ->.
Qed.
Lemma member_keys_elem m e t r : (e, t, r) ∈ member_keys m <-> exists row, m !! (e, r) = Some row /\ mr_team row = t.
Proof.
  unfold member_keys. rewrite elem_of_list_to_set, list_elem_of_In, in_map_iff. split.
  - intros ([[e' r'] row] & [= <- <- <-] & Hin%list_elem_of_In%elem_of_map_to_list). by exists row.
  - intros (row & Hrow & <-). exists ((e, r), row). split; [done|]. by apply list_elem_of_In, elem_of_map_to_list.
Qed.

Section committed.
Context (c : ProcessCommand) (p : publication) (a : place) (d d' : index_db) (proof edition : ustr).
Context (Hc : committed c p a d d' proof edition) (Hp : prepared c p a d).

Lemma published_row id (r : record_row) : x_records (x_pub d') !! id = Some r -> vr_namespace r = at_namespace a -> vr_generation r = pn_generation p -> id ∈ (pn_records p).*1.
Proof.
  rewrite (cm_records _ _ _ _ _ _ _ Hc), update_where_lookup. destruct (x_records (x_pub d) !! id) as [r0|] eqn:E; [|done]. cbn. intros [= <-] Hn Hg.
  apply (pp_only _ _ _ _ Hp id r0); [done|by destruct (in_set _ _ _ _)|by destruct (in_set _ _ _ _)].
Qed.
Lemma published_at id : id ∈ (pn_records p).*1 -> exists r : record_row, x_records (x_pub d') !! id = Some r /\ record_at c p a r /\ vr_published r = true.
Proof.
  intros Hid. destruct (pp_records _ _ _ _ Hp id Hid) as (r & Hr & Ha). destruct (cm_rows _ _ _ _ _ _ _ Hc id Hid) as (r' & Hr' & Ht & Hpu & Hg).
  rewrite Hr in Hr'. injection Hr' as <-. exists (index_record r). split_and!; [|done|done].
  rewrite (cm_records _ _ _ _ _ _ _ Hc), update_where_lookup, Hr. cbn. unfold in_set, wanted_record. by rewrite Ht, Hpu, ueqb_refl, bool_decide_eq_true_2.
Qed.

Lemma published_count : proof_records (index_view d') (proof_at c p a (Z.of_nat (length (pn_records p)))) = Z.of_nat (length (pn_records p)).
Proof.
  unfold proof_records, count_rows. f_equal. set (rows := rows_where _ _). rewrite <-(length_fmap fst rows), <-(length_fmap fst (pn_records p)). apply Permutation_length.
  apply NoDup_Permutation; [apply rows_where_nodup|exact (cm_ids _ _ _ _ _ _ _ Hc)|]. intros id. split.
  - intros ([id' v] & -> & [Hv Hb]%rows_where_elem)%list_elem_of_fmap. rewrite view_records in Hv. destruct (x_records (x_pub d') !! id') as [r|] eqn:E; [|done]. injection Hv as <-.
    cbn in Hb. breflect. rewrite ?ueqb_eq in *. by eapply published_row; [exact E|done|lia].
  - intros (r & Hr & (H1 & H2 & H3 & H4 & H5 & H6 & H7 & H8 & H9) & H10)%published_at. apply list_elem_of_fmap. exists (id, vx_row r). split; [done|].
    apply rows_where_elem. rewrite view_records, Hr. split; [done|]. cbn. rewrite H1, H2, H3, H4, H5, H6, H7, H8, H9, H10, !ueqb_refl, Z.eqb_refl, !bool_decide_eq_true_2 by done. done.
Qed.

Lemma published_is_served id : id ∈ (pn_records p).*1 -> is_served d' (pc_team c) (at_namespace a) id.
Proof.
  intros Hid. destruct (published_at id Hid) as (r & Hr & (H1 & H2 & H3 & H4 & H5 & H6 & H7 & H8 & H9) & H10).
  destruct (cm_aliases _ _ _ _ _ _ _ Hc) as (al & Hal & Hals & _). destruct (cm_proofs _ _ _ _ _ _ _ Hc) as (e & He & Hes).
  destruct (cm_editions _ _ _ _ _ _ _ Hc) as (ed & Hed & Heds). destruct (cm_items _ _ _ _ _ _ _ Hc) as (i & i' & Hi & His & I1 & I2 & I3 & I4 & I5 & I6).
  destruct (pp_space _ _ _ _ Hp) as (n & Hn & N1 & N2). destruct (pp_artifact _ _ _ _ Hp) as (s & Hs & S1 & S2 & S3).
  assert (x_items (x_pub d) !! at_item a = Some i) as Hxi.
  { unfold item_of in Hi. destruct (x_items (x_pub d) !! at_item a) as [i0|]; [|done]. by destruct (ueqb _ _); [injection Hi as ->|]. }
  destruct (pp_item _ _ _ _ Hp i Hxi) as [P1 P2].
  assert (it_state i = u "active") as Hact by (destruct I6 as [|I6]; [done|apply P2; by rewrite I6]).
  assert (it_deleted i = false) as Hdel by (destruct (it_deleted i) eqn:E; [|done]; specialize (P1 eq_refl); rewrite Hact in P1; by vm_compute in P1).
  pose proof (cm_spaces _ _ _ _ _ _ _ Hc (at_namespace a)) as Hsp. rewrite Hn in Hsp. cbn in Hsp.
  destruct (x_spaces (x_pub d') !! at_namespace a) as [n'|] eqn:En'; [|done]. injection Hsp as Hn'.
  pose proof (cm_space _ _ _ _ _ _ _ Hc) as Hfk. unfold space_of in Hfk. rewrite Hn in Hfk. breflect. rewrite ueqb_eq in *.
  assert (manifest_of (index_view d') proof (proof_at c p a (Z.of_nat (length (pn_records p)))) = Some edition) as Hman.
  { unfold manifest_of. rewrite (head_unique _ _ edition (edition_fits c p a proof)); [done| | |].
    - unfold index_view. cbn [t_manifests]. by rewrite lookup_fmap, Heds, lookup_insert_eq, <-Hed.
    - cbn. by rewrite !ueqb_refl, Z.eqb_refl.
    - intros k o Ho Hb. breflect. rewrite ?ueqb_eq in *. unfold index_view in Ho. cbn [t_manifests] in Ho. rewrite lookup_fmap, Heds in Ho.
      destruct (decide (k = edition)) as [|Hne]; [done|]. rewrite lookup_insert_ne in Ho by done.
      destruct (x_editions (x_pub d) !! k) as [o0|] eqn:Eo; [|done]. injection Ho as <-. by apply (cm_only_edition _ _ _ _ _ _ _ Hc) in Eo. }
  exists r. eexists. split; [exact Hr|]. split.
  - assert (t_namespaces (index_view d') !! at_namespace a = Some (sp_row n)) as L1 by (unfold index_view; cbn [t_namespaces]; by rewrite lookup_fmap, En', <-Hn').
    assert (t_pointers (index_view d') !! (pc_team c, at_item a, at_namespace a) = Some (Build_pointer_row (pn_generation p) (u "active") (Some proof) (Some (at_artifact a)))) as L2
      by (unfold index_view; cbn [t_pointers]; by rewrite lookup_fmap, Hals, lookup_insert_eq, <-Hal).
    assert (t_proofs (index_view d') !! proof = Some (proof_at c p a (Z.of_nat (length (pn_records p))))) as L3
      by (unfold index_view; cbn [t_proofs]; by rewrite lookup_fmap, Hes, lookup_insert_eq, <-He).
    assert (t_items (index_view d') !! at_item a = Some (ix_row i')) as L4 by (unfold index_view; cbn [t_items]; by rewrite lookup_fmap, His, lookup_insert_eq).
    assert (t_artifacts (index_view d') !! at_artifact a = Some (sa_row s)) as L5 by (unfold index_view; cbn [t_artifacts]; by rewrite (cm_reg _ _ _ _ _ _ _ Hc), lookup_fmap, Hs).
    unfold join_row. rewrite H1, H2, H3, H5, L1. cbn [mbind option_bind]. rewrite L2. cbn [pr_proof mbind option_bind]. rewrite L3. cbn [mbind option_bind]. rewrite L4. cbn [mbind option_bind].
    rewrite L5. cbn [mbind option_bind]. rewrite I1, S1, !ueqb_refl. match goal with Hx : nr_team _ = _ |- _ => rewrite Hx, ueqb_refl end. cbn [andb]. reflexivity.
  - unfold served. rewrite publication_fence_split. cbn [j_record j_proof j_namespace j_pointer j_artifact j_item_row j_item j_revision j_manifest]. rewrite Hman, published_count.
    unfold manifest_fence, static_fence, pointer_fence, item_fence. cbn [j_record j_proof j_namespace j_pointer j_artifact j_item_row j_item j_revision j_manifest j_record_uuid].
    cbn [proof_at pf_type pf_version pf_team pf_item pf_revision pf_namespace pf_artifact pf_artifact_type pf_layer pf_generation pf_expected pf_actual pf_matched pr_state pr_generation pr_artifact].
    rewrite I3, I4, I5, Hact, Hdel, H1, H2, H3, H4, H6, H7, H8, H9, H10, N1, N2, S2, S3. match goal with Hx : nr_layer _ = _ |- _ => rewrite Hx end.
    unfold same_space. rewrite !ueqb_refl, !Z.eqb_refl, !bool_decide_eq_true_2 by done. cbn [andb negb].
    apply bool_decide_eq_true. unfold index_view. cbn [t_members]. apply member_keys_elem. destruct (cm_members _ _ _ _ _ _ _ Hc id Hid) as (row & Hrow & Ht). by exists row.
Qed.

(** What the transaction does to a record. *)
Definition flip (id : ustr) (v : vector_row) : vector_row :=
  if ueqb (vr_team v) (pc_team c) && bool_decide (id ∈ (pn_records p).*1) && negb (vr_published v) then with_state true (vr_deleted v) v else v.
Lemma flip_elsewhere k v : t_records (index_view d) !! k = Some v -> vr_item v <> Some (at_item a) -> flip k v = v.
Proof.
  intros Hk Hi. unfold flip. destruct (bool_decide (k ∈ (pn_records p).*1)) eqn:E; [|by rewrite andb_false_r]. exfalso. breflect.
  destruct (pp_records _ _ _ _ Hp k E) as (r & Hr & _ & _ & _ & _ & Hit & _). rewrite view_records, Hr in Hk. by injection Hk as <-.
Qed.

(** The join and the fence of a record of another item. *)
Lemma hit_elsewhere team ns fs w k v :
  (forall k, t_records (index_view d') !! k = flip k <$> t_records (index_view d) !! k) ->
  vr_item v <> Some (at_item a) -> hit (index_view d') team ns fs w k v = hit (index_view d) team ns fs w k v.
Proof.
  intros Hg Hi. destruct (cm_aliases _ _ _ _ _ _ _ Hc) as (al & Hal & Hals & _). destruct (cm_proofs _ _ _ _ _ _ _ Hc) as (e & He & Hes).
  destruct (cm_editions _ _ _ _ _ _ _ Hc) as (ed & Hed & Heds). destruct (cm_items _ _ _ _ _ _ _ Hc) as (i & i' & _ & His & _).
  assert (forall n, t_namespaces (index_view d') !! n = t_namespaces (index_view d) !! n) as L1 by (intros n; unfold index_view; cbn [t_namespaces]; rewrite !lookup_fmap; apply (cm_spaces _ _ _ _ _ _ _ Hc)).
  assert (forall tm it n, it <> at_item a -> t_pointers (index_view d') !! (tm, it, n) = t_pointers (index_view d) !! (tm, it, n)) as L2
    by (intros tm it n Hne; unfold index_view; cbn [t_pointers]; rewrite !lookup_fmap, Hals, lookup_insert_ne; [done|congruence]).
  assert (forall it, it <> at_item a -> t_items (index_view d') !! it = t_items (index_view d) !! it) as L4
    by (intros it Hne; unfold index_view; cbn [t_items]; by rewrite !lookup_fmap, His, lookup_insert_ne).
  assert (forall q, q <> proof -> t_proofs (index_view d') !! q = t_proofs (index_view d) !! q) as L3
    by (intros q Hne; unfold index_view; cbn [t_proofs]; by rewrite !lookup_fmap, Hes, lookup_insert_ne).
  assert (t_proofs (index_view d) !! proof = None) as L3' by (unfold index_view; cbn [t_proofs]; by rewrite lookup_fmap, (cm_fresh_proof _ _ _ _ _ _ _ Hc)).
  assert (t_proofs (index_view d') !! proof = Some (ev_row e)) as L3'' by (unfold index_view; cbn [t_proofs]; by rewrite lookup_fmap, Hes, lookup_insert_eq).
  assert (t_artifacts (index_view d') = t_artifacts (index_view d) /\ t_sources (index_view d') = t_sources (index_view d) /\ t_facets (index_view d') = t_facets (index_view d)) as (L5 & L6 & L7)
    by (unfold index_view; cbn; by rewrite (cm_reg _ _ _ _ _ _ _ Hc), (cm_facets _ _ _ _ _ _ _ Hc)).
  assert (t_manifests (index_view d') = <[edition := ed_row ed]> (t_manifests (index_view d))) as L8 by (unfold index_view; cbn [t_manifests]; by rewrite Heds, fmap_insert).
  assert (t_manifests (index_view d) !! edition = None) as L8' by (unfold index_view; cbn [t_manifests]; by rewrite lookup_fmap, (cm_fresh_edition _ _ _ _ _ _ _ Hc)).
  assert (forall q pf, q <> proof -> manifest_of (index_view d') q pf = manifest_of (index_view d) q pf) as L9.
  { intros q pf Hq. unfold manifest_of. rewrite L8, rows_where_insert; [done|done|]. rewrite Hed. cbn. by rewrite (ueqb_ne proof q) by congruence. }
  destruct (join_row (index_view d) k v) as [j|] eqn:Ej.
  - pose proof Ej as (_ & Ejr & Hit & Hn & Hpt & Hpr & Hpf & Hitem & _ & _ & Hman)%join_row_facts.
    assert (j_item j <> at_item a) as Hne by congruence. assert (j_proof_uuid j <> proof) as Hpne by congruence.
    assert (join_row (index_view d') k v = Some j) as Ej'.
    { rewrite <-Ej. unfold join_row. rewrite L1, Hit. destruct (t_namespaces (index_view d) !! vr_namespace v); [|done]. cbn [mbind option_bind]. rewrite L2, Hpt by done. cbn [mbind option_bind].
      rewrite Hpr. cbn [mbind option_bind]. rewrite L3, Hpf by done. cbn [mbind option_bind]. by rewrite L4, L5, L6, L9. }
    unfold hit. rewrite Ej, Ej'. cbn [mbind option_bind].
    assert (served (index_view d') team ns j && wanted (index_view d') fs w j = served (index_view d) team ns j && wanted (index_view d) fs w j) as ->; [|done].
    unfold served, wanted, filter_accepts. rewrite L7, !publication_fence_split. destruct (static_fence j) eqn:Es; [|by rewrite !andb_false_r]. apply static_fence_facts in Es.
    assert (proof_records (index_view d') (j_proof j) = proof_records (index_view d) (j_proof j)) as ->.
    { apply (proof_records_map _ _ flip _ Hg).
      - intros k' r Hk' _ H2 _ _ _ _. apply flip_elsewhere with (k := k'); [done|]. destruct Es. congruence.
      - intros k' r. unfold flip. by destruct (_ && _). }
    assert (manifest_fence (index_view d') j = manifest_fence (index_view d) j) as ->; [|done].
    unfold manifest_fence. destruct (j_manifest j) as [m|] eqn:Em; [|done]. apply bool_decide_ext. unfold index_view. cbn [t_members]. rewrite !member_keys_elem.
    assert (m <> edition) as Hme.
    { intros ->. symmetry in Hman. unfold manifest_of in Hman. destruct (rows_where _ _) as [|[m row] l] eqn:E; [done|]. injection Hman as ->.
      assert ((edition, row) ∈ (edition, row) :: l) as Hin by left. rewrite <-E in Hin. apply rows_where_elem in Hin as [Hin _]. congruence. }
    by setoid_rewrite (cm_old_members _ _ _ _ _ _ _ Hc (m, j_record_uuid j) Hme).
  - unfold hit at 2. rewrite Ej. cbn [mbind option_bind]. unfold hit. destruct (join_row (index_view d') k v) as [j|] eqn:Ej'; [|done]. cbn [mbind option_bind].
    pose proof Ej' as (_ & Ejr & Hit & Hn & Hpt & Hpr & Hpf & Hitem & _ & _ & Hman)%join_row_facts. assert (j_item j <> at_item a) as Hne by congruence.
    destruct (decide (j_proof_uuid j = proof)) as [Eq|Hpne].
    + unfold served. rewrite publication_fence_split. destruct (static_fence j) eqn:Es; [|by rewrite !andb_false_r]. apply static_fence_facts in Es.
      rewrite Eq, L3'' in Hpf. injection Hpf as Hpf. pose proof (sf_item _ Es) as Hsi. rewrite <-Hpf, He in Hsi. by cbn in Hsi.
    + exfalso. assert (join_row (index_view d) k v = join_row (index_view d') k v) as Heq; [|congruence].
      unfold join_row. rewrite L1, Hit. destruct (t_namespaces (index_view d) !! vr_namespace v); [|done]. cbn [mbind option_bind]. rewrite <-L2, Hpt by done. cbn [mbind option_bind].
      rewrite Hpr. cbn [mbind option_bind]. rewrite <-L3, Hpf by done. cbn [mbind option_bind]. by rewrite L4, L5, L6, L9.
Qed.

(** The hits of other items do not move. *)
Lemma others_stay team ns fs w :
  List.filter (fun h => negb (ueqb (hr_item h) (at_item a))) (hits (index_view d') team ns fs w) =
  List.filter (fun h => negb (ueqb (hr_item h) (at_item a))) (hits (index_view d) team ns fs w).
Proof.
  assert (forall k, t_records (index_view d') !! k = flip k <$> t_records (index_view d) !! k) as Hg.
  { intros k. rewrite !view_records, (cm_records _ _ _ _ _ _ _ Hc), update_where_lookup. destruct (x_records (x_pub d) !! k) as [r|]; [|done]. cbn.
    unfold flip, in_set, wanted_record. by destruct (_ && _). }
  assert (forall k v, vr_item (flip k v) = vr_item v) as Hgi by (intros k v; unfold flip; by destruct (_ && _)).
  apply (hits_pointwise _ _ _ _ flip); [done|]. intros k v Hk. destruct (decide (vr_item v = Some (at_item a))) as [Hi|Hi].
  - assert (forall dd x, vr_item x = Some (at_item a) -> (h ← hit dd team ns fs w k x; if negb (ueqb (hr_item h) (at_item a)) then Some h else None) = None) as Hnone.
    { intros dd x Hx. unfold hit. destruct (join_row dd k x) as [j|] eqn:Ej; [|done]. cbn [mbind option_bind]. destruct (_ && _); [|done]. cbn.
      apply join_row_facts in Ej as (_ & _ & Hj & _). rewrite Hx in Hj. injection Hj as ->. by rewrite ueqb_refl. }
    by rewrite !Hnone by (by rewrite ?Hgi).
  - rewrite (flip_elsewhere k v Hk Hi). f_equal. by apply hit_elsewhere.
Qed.
End committed.
End serving.

(** C20: A publication is served whole.  After a committed publication of a prepared set, the
    records of its item in its namespace that retrieval serves are exactly the records of the
    set, none of an older generation; the active pointer has moved forward; and every search
    keeps the hits of every other item. *)
Theorem publication_is_served {H : Host} uuid7 grace now retires c p refs a d x d'
    (Hpl : placed (pn_state p) a) (Hp : prepared c p a d) (Hrun : publish_commit uuid7 grace now retires c p refs d = Ok (x, d')) :
  (forall id, is_served d' (pc_team c) (at_namespace a) id /\ (exists r : record_row, x_records (x_pub d') !! id = Some r /\ vr_item r = Some (at_item a)) <-> id ∈ (pn_records p).*1) /\
  (forall b, x_aliases (x_pub d) !! (pc_team c, at_item a, at_namespace a) = Some b -> pr_generation (al_row b) < pn_generation p) /\
  (forall team ns fs w, List.filter (fun h => negb (ueqb (hr_item h) (at_item a))) (hits (index_view d') team ns fs w) =
                        List.filter (fun h => negb (ueqb (hr_item h) (at_item a))) (hits (index_view d) team ns fs w)).
Proof.
  destruct (publish_commit_Ok _ _ _ _ _ _ _ a _ _ _ Hpl Hrun) as (proof & edition & Hc). destruct (cm_aliases _ _ _ _ _ _ _ Hc) as (al & Hal & Hals & Hb).
  split_and!; [|intros b0 Hb0; apply (Hb b0 Hb0)|intros; by eapply others_stay]. intros id. split.
  - intros [(r & j & Hr & Hj & Hs) (r' & Hr' & Hi)]. rewrite Hr in Hr'. injection Hr' as <-. unfold served in Hs. rewrite publication_fence_split in Hs.
    apply andb_true_iff in Hs as [[Ht%ueqb_eq Hns%ueqb_eq]%andb_true_iff [[Hst%static_fence_facts _]%andb_true_iff _]%andb_true_iff].
    apply join_row_facts in Hj as (_ & Ej & Hit & _ & Hpt & _). rewrite Hi in Hit. injection Hit as Hit. destruct (sf_pointer _ Hst) as (_ & Hg & _). rewrite Ej in *.
    eapply (published_row _ _ _ _ _ _ _ Hc Hp); [exact Hr|done|]. rewrite <-Hg. unfold index_view in Hpt. cbn [t_pointers] in Hpt. rewrite lookup_fmap, <-Hit, Hals in Hpt.
    rewrite Ht, Hns, lookup_insert_eq in Hpt. cbn in Hpt. rewrite Hal in Hpt. by injection Hpt as <-.
  - intros Hid. split; [by eapply published_is_served|]. destruct (published_at _ _ _ _ _ _ _ Hc Hp id Hid) as (r & Hr & Ha & _). exists r. split; [done|]. by destruct_and! Ha.
Qed.
