(* ===== verification/Targets.v ===== *)
(** * Target references

    The text of a retired generation, written into cleanup intents and read back from them
    ([target_ref], [_parse_target_ref] of [src/services/index_retirement.py]). *)

From S2P Require Import Prelude PyText PyValue Txn JsonLaws Objects Retirement.

Open Scope Z_scope.
Open Scope mkb_scope.

(** ** Splitting *)

Lemma split_on_free c a : c ∉ a -> split_on c a = [a].
Proof.
  induction a as [|x a IH]; [done|]. intros [Hx Ha]%not_elem_of_cons. cbn. rewrite (proj2 (Z.eqb_neq x c)) by congruence. by rewrite IH.
Qed.
Lemma split_on_app c a s : c ∉ a -> split_on c (a ++ c :: s) = a :: split_on c s.
Proof.
  induction a as [|x a IH]; intros Ha; cbn; [by rewrite Z.eqb_refl|]. apply not_elem_of_cons in Ha as [Hx Ha].
  rewrite (proj2 (Z.eqb_neq x c)) by congruence. by rewrite IH.
Qed.
Lemma split_on_join c s : str_join [c] (split_on c s) = s /\ Forall (fun w => c ∉ w) (split_on c s) /\ split_on c s <> [].
Proof.
  induction s as [|x s (Hj & Hf & Hn)]; cbn; [split_and!; [done|constructor; [by apply not_elem_of_nil|done]|done]|].
  destruct (Z.eqb_spec x c) as [->|Hx].
  - split_and!; [|constructor; [by apply not_elem_of_nil|done]|done]. destruct (split_on c s) as [|w ws]; [done|]. cbn in *. by rewrite Hj.
  - destruct (split_on c s) as [|w ws]; [done|]. inversion_clear Hf as [|? ? Hw Hws]. split_and!; [|constructor; [by apply not_elem_of_cons|done]|done].
    rewrite <-Hj. by destruct ws.
Qed.

(** ** Integers *)

Section targets.
Context {H : Host} {HL : HostLaws H}.

Lemma int_digits_numeral s : forall acc b, Forall is_digit s -> (b = true \/ s <> []) -> int_digits s acc b = Some (foldl digit_value acc s).
Proof.
  induction s as [|c s IH]; intros acc b Hs Hb; cbn; [by destruct Hb as [->|]|]. inversion Hs as [|? ? Hc Hs']; subst. unfold is_digit in Hc.
  rewrite decimal_ascii by done. apply IH; [done|by left].
Qed.
Lemma digits_strip s : Forall is_digit s -> strip s = s.
Proof.
  assert (forall t, Forall is_digit t -> drop_while isspace t = t) as Hd.
  { intros [|c t] Ht; [done|]. cbn. inversion Ht as [|? ? Hc _]; subst. unfold is_digit in Hc. by replace (isspace c) with false by (unfold isspace; lia). }
  intros Hs. unfold strip, lstrip, rstrip. rewrite (Hd s Hs), Hd by (by apply Forall_reverse). apply reverse_involutive.
Qed.
Lemma int_of_dec z : 0 <= z -> Z.of_nat (length (dec z)) <= 4300 -> int_of_str (dec z) = Ok z.
Proof.
  intros Hz Hl. unfold dec in *. replace (z <? 0) with false in * by lia. destruct (dec_N_spec (Z.to_N z)) as [Hn Hd].
  assert (dec_N (Z.to_N z) <> []) as Hne by (destruct (dec_N_head (Z.to_N z)) as [-> |(c & t & -> & _)]; done).
  unfold int_of_str. rewrite digits_strip by done. revert Hn Hd Hne Hl. generalize (dec_N (Z.to_N z)) as s. intros s Hn Hd Hne Hl.
  assert ((match s with 43 :: r => (false, r) | 45 :: r => (true, r) | r => (false, r) end) = (false, s)) as ->.
  { destruct s as [|c s]; [done|]. inversion Hd as [|? ? Hc _]; subst. unfold is_digit in Hc. destruct c as [|c|c]; try lia. do 6 (destruct c as [c|c|]; try lia; try done). }
  rewrite int_digits_numeral by auto. unfold numeral in Hn. rewrite Hn, Z2N.id by done.
  assert (filter (fun c => c <> 95) s = s) as ->; [|by replace (_ <=? 4300) with true by lia].
  clear -Hd. induction Hd as [|c s Hc Hd IH]; [done|]. unfold is_digit in Hc. rewrite filter_cons_True by lia. by rewrite IH.
Qed.
Lemma dec_colon_free z : 58 ∉ dec z.
Proof.
  assert (forall n, 58 ∉ dec_N n) as Hn by (intros n Hin; destruct (dec_N_spec n) as [_ Hd]; rewrite Forall_forall in Hd; apply Hd in Hin; unfold is_digit in Hin; lia).
  unfold dec. destruct (z <? 0); [|apply Hn]. apply not_elem_of_cons. split; [lia|apply Hn].
Qed.

(** Rewrites with the identifiers that are not empty. *)
Ltac nonempty := repeat match goal with Hx : ueqb _ [] = false |- _ => rewrite Hx; clear Hx end; try done.

(** A retirement target is read back as it was written, whatever the identifiers, as long as
    CPython still parses the decimal; and only texts that [target_ref] writes are targets. *)
Theorem target_ref_round_trip item namespace generation s (Hlen : Z.of_nat (length (dec generation)) <= 4300) :
  target_ref item namespace generation = Ok s <-> parse_target_ref s = Some (item, namespace, generation).
Proof.
  assert (str_join [58] [u "index-generation"; u "v1"; item; namespace; dec generation] = u "index-generation:v1:" ++ item ++ u ":" ++ namespace ++ u ":" ++ dec generation) as Hj by done.
  unfold target_ref, parse_target_ref. split.
  - intros ([] & Hg%ensure_Ok & ([] & Hz%ensure_Ok & Hs)%rbind_Ok)%rbind_Ok. breflect.
    assert (58 ∉ u "index-generation" /\ 58 ∉ u "v1") as [Hu1 Hu2] by (by split; apply (bool_decide_eq_false_1 (58 ∈ _)); vm_compute).
    assert (s = u "index-generation" ++ 58 :: u "v1" ++ 58 :: item ++ 58 :: namespace ++ 58 :: dec generation) as -> by (by injection Hs).
    do 3 rewrite split_on_app by done.
    rewrite split_on_app, (split_on_free 58 (dec generation)) by (done || apply dec_colon_free). rewrite !ueqb_refl, int_of_dec by (lia || done).
    replace (0 <=? generation) with true by lia. rewrite ueqb_refl. nonempty.
  - destruct (split_on_join 58 s) as (Hs & Hf & _). destruct (split_on 58 s) as [|p [|v [|i [|n [|g [|]]]]]]; try done.
    destruct (_ && _) eqn:Eb; [|done]. destruct (int_of_str g) as [z|]; [|done]. destruct ((0 <=? z) && _) eqn:Ez; [|done]. intros [= -> -> ->].
    breflect. rewrite ?ueqb_eq in *. subst. rewrite !Forall_cons in Hf. destruct Hf as (_ & _ & Hi & Hn & _).
    rewrite !bool_decide_eq_false_2 by done. replace (0 <=? generation) with true by lia. nonempty.
Qed.
End targets.
