(* ===== verification/IndexRuns.v ===== *)
(** * Runs of the index

    What vectorization leaves for publication, and what holds in every state that the
    transactions of the index reach: the tables keep [index_ok], and no generation of an alias
    or of a namespace ever goes back. *)

From S2P Require Import Prelude PyText PyValue Txn Outbox Engine Objects RetrievalTables Index Lifecycle VectorContracts Retirement Publication IndexLaws PublicationLaws.

Open Scope Z_scope.
Open Scope mkb_scope.

(** ** The invariant *)

Record index_ok (d : index_db) : Prop := {
  io_records : forall id (r : record_row), x_records (x_pub d) !! id = Some r ->
    exists n : space_row, x_spaces (x_pub d) !! vr_namespace r = Some n /\ vr_generation r <= sp_generation n;
  io_spaces : forall k n, x_spaces (x_pub d) !! k = Some n -> space_ok n;
  io_items : forall k i, x_items (x_pub d) !! k = Some i -> item_ok i
}.

(** ** What never goes back *)

(** A namespace keeps its row but for the generation, which only grows. *)
Definition space_forward (n n' : space_row) : Prop := sp_row n' = sp_row n /\ sp_generation n <= sp_generation n'.
(** An alias that changes gets a new row revision, and no older generation. *)
Definition alias_forward (a a' : alias_row) : Prop := a' = a \/ pr_generation a <= pr_generation a' /\ al_revision a < al_revision a'.
(** A record keeps its coordinate, and a deleted one stays deleted. *)
Definition record_forward (r r' : record_row) : Prop :=
  (vr_team r', vr_namespace r', vr_artifact r', vr_unit r', vr_channel r', vr_generation r') = (vr_team r, vr_namespace r, vr_artifact r, vr_unit r, vr_channel r, vr_generation r) /\
  (vr_deleted r = true -> vr_deleted r' = true).
#[local] Instance space_forward_preorder : PreOrder space_forward.
Proof. split; [by intros n; split|]. intros a b c [H1 H2] [H3 H4]. split; [congruence|lia]. Qed.
#[local] Instance alias_forward_preorder : PreOrder alias_forward.
Proof. split; [by left|]. intros a b c [->|[H1 H2]] [->|[H3 H4]]; [by left|by right|by right|right; lia]. Qed.
#[local] Instance record_forward_preorder : PreOrder record_forward.
Proof. split; [by intros r; split|]. intros a b c [H1 H2] [H3 H4]. split; [congruence|auto]. Qed.

Notation grows R := (evolves R (fun _ => True)).
Lemma grows_refl {K A} `{Countable K} (R : A -> A -> Prop) `{!PreOrder R} (m : gmap K A) : grows R m m.
Proof. by apply evolves_refl. Qed.
Lemma grows_trans {K A} `{Countable K} (R : A -> A -> Prop) `{!PreOrder R} (m1 m2 m3 : gmap K A) : grows R m1 m2 -> grows R m2 m3 -> grows R m1 m3.
Proof. by apply evolves_trans. Qed.
Lemma grows_update {A} (R : A -> A -> Prop) `{!PreOrder R} (f : ustr -> A -> bool) (g : A -> A) (m : gmap ustr A) : (forall k a, m !! k = Some a -> f k a = true -> R a (g a)) -> grows R m (update_where f g m).
Proof. intros Hg k. rewrite update_where_lookup. destruct (m !! k) as [a|] eqn:E; [|done]. cbn. destruct (f k a) eqn:Ef; [by apply (Hg k)|done]. Qed.
Lemma grows_set {K A} `{Countable K} (R : A -> A -> Prop) `{!PreOrder R} k (a' : A) (m : gmap K A) : (forall a, m !! k = Some a -> R a a') -> grows R m (<[k := a']> m).
Proof.
  intros Ha j. destruct (decide (j = k)) as [->|Hj]; [rewrite lookup_insert_eq; destruct (m !! k) eqn:E; [by apply Ha|done]|].
  rewrite lookup_insert_ne by done. by destruct (m !! j).
Qed.

Record advances (d d' : index_db) : Prop := {
  av_spaces : grows space_forward (x_spaces (x_pub d)) (x_spaces (x_pub d'));
  av_aliases : grows alias_forward (x_aliases (x_pub d)) (x_aliases (x_pub d'));
  av_records : grows record_forward (x_records (x_pub d)) (x_records (x_pub d'))
}.
#[local] Instance advances_preorder : PreOrder advances.
Proof.
  split; [intros d; constructor; apply grows_refl; apply _|]. intros d1 d2 d3 [A1 A2 A3] [B1 B2 B3].
  constructor; (eapply grows_trans; [apply _|done|done]).
Qed.
(** From a state that keeps the invariant. *)
Definition steady (d d' : index_db) : Prop := index_ok d -> index_ok d' /\ advances d d'.
#[local] Instance steady_preorder : PreOrder steady.
Proof.
  split; [by intros d; split|]. intros d1 d2 d3 H12 H23 H1. destruct (H12 H1) as [H2 A]. destruct (H23 H2) as [H3 B]. split; [done|by etrans].
Qed.

Lemma same_steady d d' : same_index d d' -> steady d d'.
Proof.
  intros [Hp _] [H1 H2 H3]. split; [by constructor; rewrite Hp|]. constructor; rewrite Hp; apply grows_refl; apply _.
Qed.
(** Records that keep their namespace and generation. *)
Lemma rows_steady f g d d' : x_pub d' = set_records (update_where f g (x_records (x_pub d))) (x_pub d) -> (forall k r, f k r = true -> record_forward r (g r)) -> steady d d'.
Proof.
  intros Hp Hg [H1 H2 H3]. split; constructor; rewrite Hp; cbn; try done; try (apply grows_refl; apply _).
  - intros id r. rewrite update_where_lookup. destruct (x_records (x_pub d) !! id) as [r0|] eqn:E; [|done].
    cbn. intros [= <-]. destruct (H1 id r0 E) as (n & Hn & Hle). exists n. destruct (f id r0) eqn:Ef; [|done]. by destruct (Hg id r0 Ef) as [[= _ -> _ _ _ ->] _].
  - apply grows_update; [apply _|]. intros k r _. apply Hg.
Qed.
Lemma delete_forward r : record_forward r (delete_record r).
Proof. by split. Qed.

Section vectorize.
Context {H : Host}.
Variable uuid7 : nat -> ustr.

(** Only facets change. *)
Definition only_facets (d d' : index_db) : Prop := x_reg d' = x_reg d /\ exists f, x_pub d' = set_facets f (x_pub d).
#[local] Instance only_facets_preorder : PreOrder only_facets.
Proof.
  split; [intros d; split; [done|]; exists (x_facets (x_pub d)); by destruct (x_pub d)|].
  intros d1 d2 d3 [H1 [f1 H2]] [H3 [f2 H4]]. split; [congruence|]. exists f2. rewrite H4, H2. done.
Qed.
Lemma upsert_facet_only team record key value version digest : keeps only_facets (upsert_facet uuid7 team record key value version digest).
Proof.
  intros d x d' (p & d1 & [= <- <-] & Hf)%bind_Ok. destruct (facet_of (x_pub d) record key) as [f|].
  - apply require_Ok in Hf as [_ ->]. reflexivity.
  - apply bind_Ok in Hf as (id & d2 & [= _ <-] & [= _ <-]). cbn. split; [done|]. by eexists.
Qed.
Lemma source_kind_only team record kind : keeps only_facets (upsert_source_kind_facet uuid7 team record kind).
Proof.
  unfold upsert_source_kind_facet. destruct kind as [[|c k]|]; try (apply keeps_reads; [apply _|apply reads_raise]).
  apply keeps_bind; [apply _|apply keeps_reads; [apply _|apply reads_lift]|]. intros dg. apply upsert_facet_only.
Qed.
Lemma semantic_only team record revision : keeps only_facets (upsert_semantic_facets uuid7 team record revision).
Proof.
  unfold upsert_semantic_facets. destruct revision as [rv|]; [|apply keeps_reads; [apply _|apply reads_raise]].
  apply keeps_bind; [apply _|apply keeps_reads; [apply _|apply reads_gets]|]. intros d0. cbv zeta.
  apply keeps_bind; [apply _|apply keeps_reads; [apply _|apply reads_require]|]. intros _. generalize SIX_TUPLE. intros keys. induction keys as [|k keys IH]; [apply keeps_reads; [apply _|apply reads_ret]|].
  cbn [foldr]. destruct (dget _ k) as [[s dg]|]; [|exact IH]. apply keeps_bind; [apply _|apply keeps_reads; [apply _|apply reads_lift]|]. intros v.
  apply keeps_bind; [apply _|apply upsert_facet_only|]. intros _. exact IH.
Qed.

(** The coordinates of the state that vectorization has. *)
Definition located (state : pydict) (a : place) : Prop :=
  dget state (u "intake_item_uuid") = Some (PStr (at_item a)) /\ dget state (u "intake_revision_uuid") = Some (PStr (at_revision a)) /\
  dget state (u "dual_channel_artifact_uuid") = Some (PStr (at_artifact a)).

Context (c : ProcessCommand) (state : pydict) (p : publication) (a : place).
Context (Hloc : located state a).

Lemma existing_Ok q team ns artifact unit channel model g id : existing_coordinate q team ns artifact unit channel model g = Some id ->
  exists r : record_row, x_records q !! id = Some r /\
    (vr_team r, vr_namespace r, vr_artifact r, vr_unit r, vr_channel r, vr_generation r) = (team, ns, artifact, unit, channel, g) /\ vr_deleted r = false.
Proof.
  unfold existing_coordinate, first_row. destruct (head _) as [[k r]|] eqn:E; [|done]. intros [= <-]. destruct (rows_where _ _) as [|x l] eqn:El; [done|]. injection E as ->.
  assert ((k, r) ∈ (k, r) :: l) as Hin by left. rewrite <-El in Hin. apply rows_where_elem in Hin as [Hk Hb]. exists r. breflect. rewrite ?ueqb_eq in *.
  assert (vr_generation r = g) as <- by lia. split_and!; [done|congruence|done].
Qed.
(** The row of a planned record before publication. *)
Definition draft_of (r : planned) (row : record_row) : Prop :=
  vr_unit row = pl_unit r /\ vr_channel row = pl_channel r /\ vr_content_digest row = pl_digest r /\ vr_embedding row = EV_blob (pl_blob r) /\
  vr_published row = false.

Lemma upsert_Ok r d id d' : upsert_vector_record c state (at_namespace a) (pn_generation p) (pn_layer p) r d = Ok (id, d') ->
  id = pl_uuid r /\ exists row, (record_at c p a row /\ draft_of r row) /\ (forall r0, x_records (x_pub d) !! pl_uuid r = Some r0 -> record_forward r0 row) /\ d' = set_pub (set_records (<[pl_uuid r := row]> (x_records (x_pub d))) (x_pub d)) d.
Proof.
  destruct Hloc as (Hi & Hr & Ha). intros ([] & d1 & [_ ->]%require_Ok & ([] & d2 & [_ ->]%require_Ok & (dg & d3 & [_ ->]%lift_Ok & ([] & d4 & [_ ->]%require_Ok & Hu)%bind_Ok)%bind_Ok)%bind_Ok)%bind_Ok.
  apply bind_Ok in Hu as (artifact & d5 & [Har ->]%lift_Ok & (handle & d6 & [_ ->]%lift_Ok & (d0 & d7 & [= <- <-] & ([] & d8 & [Hex ->]%require_Ok & Hu)%bind_Ok)%bind_Ok)%bind_Ok).
  unfold generation_state_text in Har. rewrite Ha in Har. apply rbind_Ok in Har as ([] & _ & [= <-]).
  apply bind_Ok in Hu as (src & d9 & [_ ->]%lift_Ok & (it & d10 & [Hit ->]%lift_Ok & (rv & d11 & [Hrv ->]%lift_Ok & (dd & d12 & [_ ->]%lift_Ok & Hu)%bind_Ok)%bind_Ok)%bind_Ok).
  unfold state_column in Hit, Hrv. rewrite Hi in Hit. rewrite Hr in Hrv. injection Hit as <-. injection Hrv as <-. cbv zeta in Hu.
  apply bind_Ok in Hu as ([] & d13 & [Hk ->]%require_Ok & ([] & d14 & [= <-] & [= <- <-])%bind_Ok). split; [done|]. unfold id in *. eexists. split; [|split; [|done]]; [split; by split_and!|].
  intros r0 Hr0. match type of Hk with context [match ?o with Some _ => _ | None => _ end] => destruct o as [k|] eqn:Ex end.
  - apply ueqb_eq in Hex as ->. apply existing_Ok in Ex as (r1 & Hr1 & Hc & Hd). rewrite Hr0 in Hr1. injection Hr1 as ->.
    split; [cbn; congruence|]. by rewrite Hd.
  - apply negb_true_iff in Hk. unfold record_conflict in Hk. rewrite Hr0, bool_decide_eq_true_2 in Hk by (by eexists). done.
Qed.

Lemma write_record_Ok r d x d' : write_record uuid7 c state (at_namespace a) (pn_generation p) (pn_layer p) r d = Ok (x, d') ->
  x_reg d' = x_reg d /\ exists row f, (record_at c p a row /\ draft_of r row) /\ (forall r0, x_records (x_pub d) !! pl_uuid r = Some r0 -> record_forward r0 row) /\
    x_pub d' = set_facets f (set_records (<[pl_uuid r := row]> (x_records (x_pub d))) (x_pub d)).
Proof.
  intros (id & d1 & (-> & row & Hrow & Hk & ->)%upsert_Ok & (kind & d2 & [_ ->]%lift_Ok & ([] & d3 & Hs%source_kind_only & (rv & d4 & [_ ->]%lift_Ok & Hm%semantic_only)%bind_Ok)%bind_Ok)%bind_Ok)%bind_Ok.
  destruct (transitivity Hs Hm) as [Hreg [f Hf]]. cbn in *. split; [done|]. by exists row, f.
Qed.

(** The planned records, and only they, are written, at the new generation. *)
Definition drafted (rs : list planned) (k : ustr) (row : record_row) : Prop := exists r, r ∈ rs /\ pl_uuid r = k /\ record_at c p a row /\ draft_of r row.
Record writing (written : list planned) (d0 d : index_db) : Prop := {
  wr_reg : x_reg d = x_reg d0;
  wr_pub : exists m f, x_pub d = set_facets f (set_records m (x_pub d0)) /\
    (forall k, k ∈ map pl_uuid written -> exists row, m !! k = Some row /\ drafted written k row) /\
    (forall k, k ∉ map pl_uuid written -> m !! k = x_records (x_pub d0) !! k) /\ grows record_forward (x_records (x_pub d0)) m
}.
Lemma drafted_more rs rs' k row : (forall r, r ∈ rs -> r ∈ rs') -> drafted rs k row -> drafted rs' k row.
Proof. intros Hs (r & Hr & Hrow). exists r. auto. Qed.
Lemma writing_all rs : forall written d0 d x d', writing written d0 d ->
  foldr (fun r k => write_record uuid7 c state (at_namespace a) (pn_generation p) (pn_layer p) r ;! k) (ret tt) rs d = Ok (x, d') ->
  writing (rev rs ++ written) d0 d'.
Proof.
  induction rs as [|r rs IH]; intros written d0 d x d' [Hreg (m & f & Hpub & Hnew & Hold & Hgrow)] Hw; cbn [foldr rev] in *.
  - injection Hw as _ <-. constructor; [done|]. by exists m, f.
  - apply bind_Ok in Hw as ([] & d1 & (Hreg1 & row & f1 & Hrow & Hfw & Hpub1)%write_record_Ok & Hw). rewrite <-app_assoc. apply (IH _ d0 d1 x); [|done].
    constructor; [congruence|]. rewrite Hpub in Hpub1, Hfw. cbn in Hpub1, Hfw. exists (<[pl_uuid r := row]> m), f1. cbn [app map].
    split_and!; [exact Hpub1| | |eapply grows_trans; [apply _|exact Hgrow|apply grows_set; [apply _|exact Hfw]]].
    + intros k Hk. destruct (decide (k = pl_uuid r)) as [->|Hne]; [exists row; rewrite lookup_insert_eq; split; [done|]; exists r; by split; [left|]|].
      apply elem_of_cons in Hk as [?|Hk]; [done|]. rewrite lookup_insert_ne by done. destruct (Hnew k Hk) as (row' & ? & ?). exists row'. split; [done|].
      eapply drafted_more; [|done]. by right.
    + intros k [Hne Hk]%not_elem_of_cons. rewrite lookup_insert_ne by done. by apply Hold.
Qed.

Lemma assert_member_Ok e g d x d' : assert_member c state e g d = Ok (x, d') -> d' = d /\
  exists id s, generation_state_text state (gm_uuid g) e = Ok id /\ g_artifacts (x_reg d) !! id = Some s /\
    ar_team (sa_row s) = pc_team c /\ ar_type (sa_row s) = u (gm_type g) /\ ar_disposition (sa_row s) = u "full_valid".
Proof.
  intros (id & d1 & [Hid ->]%lift_Ok & (h & d2 & [_ ->]%lift_Ok & (dg & d3 & [_ ->]%lift_Ok & (sz & d4 & [_ ->]%lift_Ok & Hm)%bind_Ok)%bind_Ok)%bind_Ok)%bind_Ok.
  apply bind_Ok in Hm as (r & d5 & [= <- <-] & ([] & d6 & [Ha ->]%require_Ok & [_ ->]%require_Ok)%bind_Ok). split; [done|].
  destruct (g_artifacts (x_reg d) !! id) as [s|] eqn:E; [|done]. exists id, s. breflect. rewrite ?ueqb_eq in *. by split_and!.
Qed.
Lemma gate_Ok d x d' : assert_construct_to_vectorize_gate c state d = Ok (x, d') -> d' = d /\
  exists s : stage_artifact, g_artifacts (x_reg d) !! at_artifact a = Some s /\ ar_team s = pc_team c /\ ar_type s = u "dual_channel_projection" /\ ar_disposition s = u "full_valid".
Proof.
  intros (mode & d1 & [_ ->]%lift_Ok & Hg)%bind_Ok. set (members := if ueqb mode _ then _ else _) in Hg.
  assert (Build_generation_member "dual_channel_projection" "dual_channel_artifact_uuid" "dual_channel_artifact_ref" "dual_channel_artifact_content_digest" "dual_channel_artifact_size_bytes" ∈ members) as Hin.
  { unfold members. destruct (ueqb mode _); apply list_elem_of_In; cbn; tauto. }
  clearbody members. revert Hg. induction members as [|g members IH]; [by apply not_elem_of_nil in Hin|]. cbn [foldr].
  intros ([] & d1 & (-> & id & s & Hid & Hs & Ht & Hty & Hd)%assert_member_Ok & Hg)%bind_Ok. apply elem_of_cons in Hin as [<-|Hin]; [|by apply IH].
  assert (forall l y, foldr (fun g k => assert_member c state GATE g ;! k) (ret tt) l d = Ok (y, d') -> d' = d) as Hreads.
  { clear. induction l as [|g l IHl]; intros y; cbn [foldr]; [by intros [= _ ->]|]. intros ([] & d1 & (-> & _)%assert_member_Ok & Hl)%bind_Ok. by eapply IHl. }
  split; [by eapply Hreads|]. exists s. destruct Hloc as (_ & _ & Ha). unfold generation_state_text in Hid. cbn in Hid, Hty. rewrite Ha in Hid. apply rbind_Ok in Hid as ([] & _ & [= <-]). by split_and!.
Qed.

(** The namespace of a claimed generation, in a state that keeps the invariant. *)
Lemma claim_Ok d d1 d2 g l x y : index_ok d -> ensure_namespace (pc_team c) (at_namespace a) l d = Ok (x, d1) -> claim_generation (pc_team c) (at_namespace a) g d1 = Ok (y, d2) ->
  x_reg d2 = x_reg d /\ exists (n : space_row), x_pub d2 = set_spaces (<[at_namespace a := n]> (x_spaces (x_pub d1))) (x_pub d) /\
    nr_status n = u "active" /\ nr_deleted n = false /\ sp_generation n = g /\
    (forall k m, x_spaces (x_pub d) !! k = Some m -> x_spaces (x_pub d1) !! k = Some m) /\ (forall k m, x_spaces (x_pub d1) !! k = Some m -> space_ok m) /\
    (forall m : space_row, x_spaces (x_pub d) !! at_namespace a = Some m -> sp_row n = sp_row m /\ sp_generation m = g - 1).
Proof.
  intros Hok (d0 & d3 & [= <- <-] & He)%bind_Ok Hc. unfold id in He.
  assert (x_reg d1 = x_reg d /\ x_pub d1 = set_spaces (x_spaces (x_pub d1)) (x_pub d) /\ (forall k m, x_spaces (x_pub d) !! k = Some m -> x_spaces (x_pub d1) !! k = Some m) /\
          (forall k m, x_spaces (x_pub d1) !! k = Some m -> space_ok m)) as (Hr1 & Hp1 & Hk1 & Hs1).
  { destruct (named_space (pc_team c) l (x_pub d)) as [[k n]|].
    - apply require_Ok in He as [_ ->]. split_and!; [done|by destruct (x_pub d)|done|apply (io_spaces _ Hok)].
    - apply bind_Ok in He as ([] & d3 & [_ ->]%require_Ok & ([] & d4 & [Hu ->]%require_Ok & [= _ <-])%bind_Ok). cbn. unfold unused in Hu. breflect. split_and!; [done|done| |].
      + intros k m Hk. rewrite lookup_insert_ne; [done|]. intros <-. congruence.
      + intros k m [[<- <-]|[_ Hk]]%lookup_insert_Some; [done|by apply (io_spaces _ Hok) in Hk]. }
  apply bind_Ok in Hc as (q & d3 & [= <- <-] & Hc). destruct (x_spaces (x_pub d1) !! at_namespace a) as [n|] eqn:En; [|done].
  apply bind_Ok in Hc as ([] & d4 & [Hb ->]%require_Ok & [= _ <-]). cbn. split; [done|]. breflect. rewrite ?ueqb_eq in *. exists (set_generation g n). split_and!; try done.
  - rewrite Hp1 at 2. done.
  - by apply (Hs1 _ _ En).
  - intros m Hm. apply Hk1 in Hm. rewrite En in Hm. injection Hm as ->. split; [done|lia].
Qed.

Lemma vectorize_Ok rs d x d' (Hok : index_ok d) (Hids : (pn_records p).*1 = map pl_uuid rs)
    (Hrun : vectorize_commit uuid7 c state (at_namespace a) (pn_generation p) (pn_layer p) rs d = Ok (x, d')) :
  prepared c p a d' /\ index_ok d' /\ advances d d' /\
  (forall id, id ∈ map pl_uuid rs -> exists row : record_row, x_records (x_pub d') !! id = Some row /\ drafted rs id row) /\
  (forall id, id ∉ map pl_uuid rs -> x_records (x_pub d') !! id = x_records (x_pub d) !! id).
Proof.
  apply bind_Ok in Hrun as ([] & d1 & [-> (s & Hs)]%gate_Ok & ([] & d2 & He & ([] & d3 & Hc & Hw)%bind_Ok)%bind_Ok).
  destruct (claim_Ok _ _ _ _ _ _ _ Hok He Hc) as (Hreg & n & Hpub & Hst & Hdel & Hgen & Hkeep & Hspaces & Hbefore).
  assert (writing [] d3 d3) as H0 by (constructor; [done|]; exists (x_records (x_pub d3)), (x_facets (x_pub d3)); split_and!; [by destruct (x_pub d3)|by intros k ?%not_elem_of_nil|done|apply grows_refl; apply _]).
  apply (writing_all _ _ _ _ _ _ H0) in Hw as [Hreg' (m & f & Hpub' & Hnew' & Hold' & Hgrow)]. rewrite app_nil_r in *.
  assert (x_records (x_pub d3) = x_records (x_pub d)) as Hr3 by (by rewrite Hpub). rewrite Hr3 in Hold'.
  assert (forall k, k ∈ map pl_uuid (rev rs) <-> k ∈ map pl_uuid rs) as Hin by (intros k; by rewrite map_rev, !list_elem_of_In, <-in_rev).
  assert (forall k, k ∈ map pl_uuid rs -> exists row, m !! k = Some row /\ drafted rs k row) as Hnew.
  { intros k (row & Hrow & Hd)%Hin%Hnew'. exists row. split; [done|]. eapply drafted_more; [|done]. intros r. by rewrite !list_elem_of_In, <-in_rev. }
  assert (forall k, k ∉ map pl_uuid rs -> m !! k = x_records (x_pub d) !! k) as Hrest by (intros k Hk; apply Hold'; by rewrite Hin).
  assert (forall k r, m !! k = Some r -> k ∈ map pl_uuid rs /\ record_at c p a r \/ x_records (x_pub d) !! k = Some r) as Hall.
  { intros k r Hr. destruct (decide (k ∈ map pl_uuid rs)) as [Hk|Hk]; [left|right; by rewrite <-Hrest].
    destruct (Hnew k Hk) as (row & Hrow & (_ & _ & _ & ? & _)). split; [done|]. congruence. }
  assert (forall k, k ∈ (pn_records p).*1 <-> k ∈ map pl_uuid rs) as Hk by (intros k; by rewrite Hids).
  assert (forall k (r : record_row), x_records (x_pub d) !! k = Some r -> vr_namespace r = at_namespace a -> vr_generation r < pn_generation p) as Hold.
  { intros k r Hr Hn. destruct (io_records _ Hok k r Hr) as (n0 & Hn0 & Hle). rewrite Hn in Hn0. apply Hbefore in Hn0. lia. }
  split_and!; [constructor..| |]; try (rewrite Hpub'; done).
  - intros id Hid%Hk. destruct (Hnew id Hid) as (r & Hr & (_ & _ & _ & Ha & _)). exists r. by rewrite Hpub'.
  - intros id r. rewrite Hpub'. cbn. intros [[Hid _]|Hr]%Hall Hn Hg; [by apply Hk|]. specialize (Hold _ _ Hr Hn). lia.
  - exists n. rewrite Hpub', Hpub. cbn. rewrite lookup_insert_eq. by split_and!.
  - exists s. by rewrite Hreg', Hreg.
  - intros i. rewrite Hpub', Hpub. apply (io_items _ Hok).
  - intros id r. rewrite Hpub', Hpub. cbn. intros [[_ Ha]|Hr]%Hall.
    + destruct Ha as (_ & -> & _ & _ & _ & _ & _ & -> & _). exists n. rewrite lookup_insert_eq. split; [done|lia].
    + destruct (io_records _ Hok id r Hr) as (n0 & Hn0 & Hle). destruct (decide (vr_namespace r = at_namespace a)) as [Hn|Hn].
      * exists n. rewrite Hn, lookup_insert_eq. split; [done|]. specialize (Hold _ _ Hr Hn). lia.
      * exists n0. rewrite lookup_insert_ne by done. split; [by apply Hkeep|done].
  - intros k m0. rewrite Hpub', Hpub. cbn. intros [[<- <-]|[_ Hm]]%lookup_insert_Some; [by intros _|by apply (Hspaces k)].
  - intros k i. rewrite Hpub', Hpub. apply (io_items _ Hok).
  - intros k. rewrite Hpub', Hpub. cbn. destruct (x_spaces (x_pub d) !! k) as [n1|] eqn:E; [|by case_match].
    destruct (decide (k = at_namespace a)) as [->|Hne]; [rewrite lookup_insert_eq|by rewrite lookup_insert_ne, (Hkeep _ _ E)].
    destruct (Hbefore _ E). split; [done|lia].
  - rewrite Hpub', Hpub. apply grows_refl; apply _.
  - rewrite Hpub'. cbn. by rewrite <-Hr3.
Qed.

(** C23: Vectorization prepares a publication.  When the callback of vectorization commits, every
    record it was given stands at the new generation of the namespace with the coordinates of
    the stage and the unit, channel, digest and vector that were planned for it, not published,
    so that retrieval does not serve it; no other record of any item stands at that generation,
    every other record is what it was, and the invariant of the tables is kept. *)
Theorem vectorization_prepares rs d x d' (Hok : index_ok d) (Hids : (pn_records p).*1 = map pl_uuid rs)
    (Hrun : vectorize_commit uuid7 c state (at_namespace a) (pn_generation p) (pn_layer p) rs d = Ok (x, d')) :
  prepared c p a d' /\ index_ok d' /\
  (forall id, id ∈ map pl_uuid rs ->
     (exists (r : planned) (row : record_row), r ∈ rs /\ pl_uuid r = id /\ x_records (x_pub d') !! id = Some row /\ record_at c p a row /\ draft_of r row) /\
     forall team namespace, ~ is_served d' team namespace id) /\
  (forall id, id ∉ map pl_uuid rs -> x_records (x_pub d') !! id = x_records (x_pub d) !! id).
Proof.
  destruct (vectorize_Ok rs d x d' Hok Hids Hrun) as (Hp & Ho & _ & Hnew & Hrest). split_and!; [done..| |done].
  intros id (row & Hrow & r & Hr & Hid & Hat & Hdraft)%Hnew. split; [by exists r, row|].
  intros team namespace (row' & j & Hrow' & Hj & Hs). rewrite Hrow in Hrow'. injection Hrow' as <-.
  apply join_row_facts in Hj as (_ & Hj & _). destruct Hdraft as (_ & _ & _ & _ & Hdraft). unfold served, publication_fence in Hs. cbv zeta in Hs.
  rewrite Hj, Hdraft in Hs. by rewrite !andb_false_r in Hs.
Qed.
End vectorize.

(** ** Runs *)

Section runs.
Context {H : Host}.
Variables (stamp : Z -> ustr) (uuid7 : nat -> ustr) (grace : Z) (retires : bool).

Lemma publish_placed now c p refs d x d' : publish_commit uuid7 grace now retires c p refs d = Ok (x, d') -> exists a, placed (pn_state p) a.
Proof.
  intros (pairs & d1 & _ & (actual & d2 & _ & (proof & d3 & Hp & _)%bind_Ok)%bind_Ok)%bind_Ok.
  apply bind_Ok in Hp as (q & d4 & _ & (i & d5 & [Hi%state_value_Ok _]%lift_Ok & (r & d6 & [Hr%state_value_Ok _]%lift_Ok & Hp)%bind_Ok)%bind_Ok).
  apply bind_Ok in Hp as (ar & d7 & [Ha%state_value_Ok _]%lift_Ok & (ns & d8 & [Hn%state_value_Ok _]%lift_Ok & _)%bind_Ok).
  by exists (Build_place i r ar ns).
Qed.

Lemma publish_steady now c p refs : keeps steady (publish_commit uuid7 grace now retires c p refs).
Proof.
  intros d x d' Hrun [H1 H2 H3]. destruct (publish_placed _ _ _ _ _ _ _ Hrun) as [a Ha]. destruct (publish_commit_Ok _ _ _ _ _ _ _ _ _ _ _ Ha Hrun) as (proof & edition & Hc).
  destruct (cm_aliases _ _ _ _ _ _ _ Hc) as (al & Hal & Hals & Hb). destruct (cm_items _ _ _ _ _ _ _ Hc) as (i & i' & Hi & His & I1 & I2 & I3 & I4 & I5 & I6).
  pose proof (cm_spaces _ _ _ _ _ _ _ Hc) as Hsp. pose proof (cm_grown _ _ _ _ _ _ _ Hc) as Hgr. split; constructor.
  - intros id r. rewrite (cm_records _ _ _ _ _ _ _ Hc), update_where_lookup. destruct (x_records (x_pub d) !! id) as [r0|] eqn:E; [|done]. cbn. intros [= <-].
    destruct (H1 id r0 E) as (n & Hn & Hle). destruct (Hgr _ _ Hn) as (n' & Hn' & Hle'). exists n'. destruct (in_set _ _ _ _); split; try done; cbn; lia.
  - intros k n' Hn'. specialize (Hsp k). rewrite Hn' in Hsp. destruct (x_spaces (x_pub d) !! k) as [n|] eqn:E; [|done]. injection Hsp as Hsp. unfold space_ok. rewrite Hsp. by apply (H2 k).
  - intros k j. rewrite His. intros [[_ <-]|[_ Hj]]%lookup_insert_Some; [|by apply (H3 k)]. unfold item_of in Hi.
    destruct (x_items (x_pub d) !! at_item a) as [i0|] eqn:E; [|done]. destruct (ueqb _ _); [|done]. injection Hi as ->. destruct (H3 _ _ E) as [A1 A2].
    split; rewrite I3, ?I4; [done|]. intros _. destruct I6 as [I6|I6]; [done|]. apply A2. by rewrite I6.
  - intros k. specialize (Hsp k). destruct (x_spaces (x_pub d) !! k) as [n|] eqn:E; [|by case_match]. destruct (Hgr _ _ E) as (n' & Hn' & Hle). rewrite Hn' in *. by injection Hsp as Hsp.
  - rewrite Hals. apply grows_set; [apply _|]. intros b Hx. destruct (Hb b Hx). right. rewrite Hal. cbn. lia.
  - rewrite (cm_records _ _ _ _ _ _ _ Hc). apply grows_update; [apply _|]. by intros k r _ _; split.
Qed.

Lemma lifecycle_steady now c : keeps steady (apply_lifecycle uuid7 now c).
Proof.
  intros d r d' (fence & i & _ & Hi & _ & [(_ & -> & _)|(target & _ & Ht & _ & Hp & _)])%apply_lifecycle_Ok; [reflexivity|].
  intros [H1 H2 H3]. unfold item_of in Hi. destruct (x_items (x_pub d) !! lc_item c) as [i0|] eqn:E; [|done]. destruct (ueqb _ _); [|done]. injection Hi as ->. destruct (H3 _ _ E) as [A1 A2].
  split; constructor; rewrite Hp; cbn [x_records x_spaces x_items x_aliases withdrawn_pub set_records set_aliases set_items].
  - intros id r1. rewrite update_where_lookup. destruct (x_records (x_pub d) !! id) as [r0|] eqn:E0; [|done]. cbn. intros [= <-]. destruct (H1 id r0 E0) as (n & Hn & Hle). exists n. by destruct (leaving _ _ _).
  - exact H2.
  - intros k j [[_ <-]|[_ Hj]]%lookup_insert_Some; [|by apply (H3 k)]. split; [|done]. cbn. intros [Hd%ueqb_eq|Hd]%orb_true_iff; [done|]. specialize (A1 Hd). unfold target_state in Ht. rewrite A1 in Ht.
    revert Ht. repeat (destruct (ueqb (lc_action c) _)); vm_compute; done.
  - apply grows_refl; apply _.
  - intros k. rewrite map_lookup_imap. destruct (x_aliases (x_pub d) !! k) as [al|]; [|done]. cbn. destruct (_ && _); [right; cbn; lia|by left].
  - apply grows_update; [apply _|]. by intros k r1 _ _; split.
Qed.

Lemma scan_steady now limit : keeps steady (scan_once stamp uuid7 grace now limit).
Proof.
  apply scan_keeps; [apply _|apply same_steady|]. intros d d' [_ [Hp|(team & item & ns & g & Hp & _)]].
  - intros [H1 H2 H3]. split; [by constructor; rewrite Hp|]. constructor; rewrite Hp; apply grows_refl; apply _.
  - eapply rows_steady; [exact Hp|]. intros k r _. apply delete_forward.
Qed.
Lemma purge_steady c expected : keeps steady (purge_commit c expected).
Proof.
  intros d x d' (r & d1 & (_ & Hp & _)%purge_Ok & [_ ->]%require_Ok)%bind_Ok. eapply rows_steady; [exact Hp|]. intros k r0 _. apply delete_forward.
Qed.

(** The transactions on the index, with any arguments, one after the other. *)
Inductive index_step : index_db -> index_db -> Prop :=
| vectorize_step c state a g l rs d d' : located state a -> vectorize_commit uuid7 c state (at_namespace a) g l rs d = Ok (tt, d') -> index_step d d'
| publish_step now c p refs d d' : publish_commit uuid7 grace now retires c p refs d = Ok (tt, d') -> index_step d d'
| lifecycle_step now c r d d' : apply_lifecycle uuid7 now c d = Ok (r, d') -> index_step d d'
| scan_step now limit r d d' : scan_once stamp uuid7 grace now limit d = Ok (r, d') -> index_step d d'
| purge_step c expected d d' : purge_commit c expected d = Ok (tt, d') -> index_step d d'.

Lemma index_step_steady d d' : index_step d d' -> steady d d'.
Proof.
  intros [c state a g l rs d0 d1 Hl Hr|now c p refs d0 d1 Hr|now c r d0 d1 Hr|now limit r d0 d1 Hr|c e d0 d1 Hr].
  - intros Hok. set (p := Build_publication (map (fun r => (pl_uuid r, pl_digest r)) rs) [] g l []).
    destruct (vectorize_Ok uuid7 c state p a Hl rs d0 tt d1 Hok) as (_ & Ho & Ha & _); [apply map_map|exact Hr|done].
  - by eapply publish_steady.
  - by eapply lifecycle_steady.
  - by eapply scan_steady.
  - by eapply purge_steady.
Qed.

(** C22: The index only goes forward.  In every state that vectorizations, publications,
    lifecycle commands, retirement scans and purges reach, in any order and with any arguments,
    no record stands above the generation of its namespace, a deleted item is in state deleted
    and only an active one serves; no generation of a namespace or an alias has gone back, an
    alias that changed has a new row revision, and no record has left its coordinate or come
    back from deletion. *)
Theorem index_goes_forward d d' (Hok : index_ok d) (Hrun : rtc index_step d d') : index_ok d' /\ advances d d'.
Proof.
  assert (steady d d') as Hs; [|by apply Hs]. clear Hok. induction Hrun as [d|d1 d2 d3 H12 _ IH]; [reflexivity|]. etrans; [by apply index_step_steady|exact IH].
Qed.
End runs.
