(* ===== verification/IndexSamples.v ===== *)
(** * A run of the index

    Two generations of one item, from vectorization to retirement: the concrete inputs at which
    the laws of the index are applied. *)

From S2P Require Import Prelude PyText PyValue Txn Outbox Dispatch Strategies Engine Objects RetrievalTables Index Lifecycle VectorContracts Retirement Publication IndexLaws PublicationLaws IndexRuns Targets.

Open Scope Z_scope.
Open Scope mkb_scope.

Module IndexSamples.
#[export] Existing Instance test_host.
Definition uuids (n : nat) : ustr := u "id-" ++ dec (Z.of_nat n).
Definition stamps (z : Z) : ustr := dec z.
Definition team : ustr := u "team".
Definition layer : layer_a := Build_layer_a (u "model") (u "model") (u "1") (u "local_vllm") 2.
Definition hex : ustr := Eval vm_compute in test_digest [1].

Definition command (process input : string) : ProcessCommand :=
  Build_ProcessCommand team (u "task") (u "trace") (u "execution") (u process) "publish" "process.publish" None 1 (u input) (u "manifest") hex
    (u "config") hex None sealed hex None normal.
(** The state of a stage: an artifact per output of the construction. *)
Definition coordinates (g : generation_member) (id : string) : list (string * pyval) :=
  [(gm_uuid g, PStr (u id)); (gm_handle g, PStr (u id ++ u ".handle")); (gm_digest g, PStr hex); (gm_size g, PInt 7)].
Definition outputs : list (generation_member * string) := combine OUTPUT_MEMBERS ["document"; "dual"; "report"]%string.
Definition state (proof : string) : pydict :=
  fields (concat (map (fun x => coordinates x.1 x.2) outputs) ++
    [("construct_mode", PStr (u "metadata_refresh")); ("intake_source_uuid", PStr (u "source")); ("intake_item_uuid", PStr (u "item"));
     ("intake_revision_uuid", PStr (u "revision")); ("source_kind", PStr (u "inline_payload")); ("namespace_uuid", PStr (u "space"));
     ("publication_proof_uuid", PStr (u proof))]%string).
Definition artifacts : gmap ustr stage_artifact :=
  list_to_map (map (fun x : generation_member * string =>
    (u x.2, Build_stage_artifact (Build_artifact_row team (u (gm_type x.1)) (u "full_valid") (Some (u x.2 ++ u ".handle")) None 7 hex) (Some (u "execution")) (Some (u "task")))) outputs).
Definition semantic (k : ustr) : semantic_row :=
  if ueqb k (u "is_active") then Build_semantic_row team (u "revision") k (u "v1") (u "int") None (Some 1)
  else Build_semantic_row team (u "revision") k (u "v1") (u "text") (Some (u "value")) None.
Definition registry : registries := {|
  g_teams := {[ team := (u "active", false) ]};
  g_sources := {[ (team, u "source") := u "inline_payload" ]};
  g_artifacts := artifacts;
  g_current := list_to_map (map (fun x : generation_member * string => ((team, u "execution", u (gm_type x.1)), u x.2)) outputs);
  g_bindings := [];
  g_semantics := map semantic SIX_TUPLE;
  g_definitions := list_to_map (map (fun k => ((k, u "v1"), hex)) SIX_TUPLE);
  g_models := [(u "model", u "1")];
  g_actions := list_to_map [((u "publish_revision", u "v1"), Build_action_row [u "active"] [u "advance_serving"]);
                            ((u "deactivate", u "v1"), Build_action_row [u "active"] [u "deactivate"])]
|}.
Definition initial : index_db := {|
  x_pub := Build_published ∅ ∅ ∅ ∅ ∅ ∅ {[ u "item" := Build_intake_row (Build_item_row team (u "source") (u "active") false None) (Some (u "revision")) 0 None ]} [];
  x_log := Build_ledgers ∅ ∅ ∅ ∅ ∅ 0;
  x_reg := registry
|}.

Definition content : ustr := u "Some text.".
Definition content_digest : ustr := Eval vm_compute in match stable_digest (obj [("text", PStr content)]%string) with Ok d => d | Err _ => [] end.
Definition plan (a b : string) : list planned :=
  [Build_planned (u a) (u "g0:root") (u "original") content content_digest [0; 0; 0; 0]; Build_planned (u b) (u "g1:b1") (u "summary") content content_digest [0; 0; 0; 0]].
Definition pairs (a b : string) : list (ustr * ustr) := [(u a, content_digest); (u b, content_digest)].
Definition publish (a b proof : string) (g : Z) : publication :=
  Build_publication (pairs a b) (match set_digest (pairs a b) with Ok d => d | Err _ => [] end) g layer (state proof).
Definition at_place : place := Build_place (u "item") (u "revision") (u "dual") (u "space").

Definition first_command : ProcessCommand := command "process-1" "in-1".
Definition second_command : ProcessCommand := command "process-2" "in-2".
Definition first_set : publication := Eval vm_compute in publish "r1" "r2" "proof-1" 1.
Definition second_set : publication := Eval vm_compute in publish "r3" "r4" "proof-2" 2.
Definition grace : Z := 100.
Definition refs : ustr * ustr := (u "proof-ref", hex).
Definition after {A} (r : result (A * index_db)) : index_db := match r with Ok (_, d) => d | Err _ => initial end.

Definition written := Eval vm_compute in after (vectorize_commit uuids first_command (state "proof-1") (u "space") 1 layer (plan "r1" "r2") initial).
Definition serving := Eval vm_compute in after (publish_commit uuids grace 1000 true first_command first_set refs written).
Definition rewritten := Eval vm_compute in after (vectorize_commit uuids second_command (state "proof-2") (u "space") 2 layer (plan "r3" "r4") serving).
Definition replaced := Eval vm_compute in after (publish_commit uuids grace 2000 true second_command second_set refs rewritten).
Definition scanned := Eval vm_compute in after (scan_once stamps uuids grace 2100 10 replaced).
Definition scan_result : Z * list retirement_result := Eval vm_compute in match scan_once stamps uuids grace 2100 10 replaced with Ok (r, _) => r | Err _ => (0, []) end.
Definition deactivation : lifecycle_command :=
  Build_lifecycle_command team (u "item") (u "deactivate") (u "trace") (u "key") None (None, None, None) (None, None).
Definition deactivation_result : lifecycle_result :=
  Eval vm_compute in match apply_lifecycle uuids 3000 deactivation scanned with Ok (r, _) => r | Err _ => Build_lifecycle_result [] [] 0 false [] false None end.
Definition deactivated := Eval vm_compute in after (apply_lifecycle uuids 3000 deactivation scanned).
Definition purge_command : VectorizeCommand :=
  Build_VectorizeCommand purge_generation team (u "execution") hex None None None None None None None None None None [u "dual"].
Definition receipt : PurgeReceipt := Build_PurgeReceipt team (u "execution") hex [u "dual"] 2 2.
Definition emptied := Eval vm_compute in after (purge_commit purge_command receipt scanned).
(** The records of the second set are purged before they are published. *)
Definition all_four : PurgeReceipt := Build_PurgeReceipt team (u "execution") hex [u "dual"] 4 4.
Definition lost := Eval vm_compute in after (purge_commit purge_command all_four rewritten).
Definition hollow := Eval vm_compute in after (publish_commit uuids grace 2000 true second_command second_set refs lost).
End IndexSamples.
Import IndexSamples.


(** ** The transactions of the run *)

Lemma first_vectorized : vectorize_commit uuids first_command (state "proof-1") (u "space") 1 layer (plan "r1" "r2") initial = Ok (tt, written).
Proof. vm_cast_no_check (eq_refl (Ok (tt, written))). Qed.
Lemma first_published : publish_commit uuids grace 1000 true first_command first_set refs written = Ok (tt, serving).
Proof. vm_cast_no_check (eq_refl (Ok (tt, serving))). Qed.
Lemma second_vectorized : vectorize_commit uuids second_command (state "proof-2") (u "space") 2 layer (plan "r3" "r4") serving = Ok (tt, rewritten).
Proof. vm_cast_no_check (eq_refl (Ok (tt, rewritten))). Qed.
Lemma second_published : publish_commit uuids grace 2000 true second_command second_set refs rewritten = Ok (tt, replaced).
Proof. vm_cast_no_check (eq_refl (Ok (tt, replaced))). Qed.
Lemma retired : scan_once stamps uuids grace 2100 10 replaced = Ok (scan_result, scanned).
Proof. vm_cast_no_check (eq_refl (Ok (scan_result, scanned))). Qed.
Lemma item_deactivated : apply_lifecycle uuids 3000 deactivation scanned = Ok (deactivation_result, deactivated).
Proof. vm_cast_no_check (eq_refl (Ok (deactivation_result, deactivated))). Qed.
Lemma artifact_purged : purge_commit purge_command receipt scanned = Ok (tt, emptied).
Proof. vm_cast_no_check (eq_refl (Ok (tt, emptied))). Qed.

Lemma initial_ok : index_ok initial.
Proof.
  split; cbn [x_pub initial x_records x_spaces x_items].
  - intros id r. by rewrite lookup_empty.
  - intros k n. by rewrite lookup_empty.
  - intros k i [_ <-]%lookup_singleton_Some. by split.
Qed.
Lemma state_located proof : located (state proof) at_place.
Proof. split_and!; vm_compute; reflexivity. Qed.
Lemma set_placed : placed (pn_state second_set) at_place.
Proof. split_and!; vm_compute; reflexivity. Qed.
Lemma serving_ok : index_ok serving.
Proof.
  apply (index_step_steady stamps uuids grace true written serving (publish_step _ _ _ _ _ _ _ _ _ _ first_published)).
  apply (index_step_steady stamps uuids grace true initial written (vectorize_step _ _ _ _ _ _ _ _ _ _ _ _ (state_located "proof-1") first_vectorized)).
  exact initial_ok.
Qed.
Lemma second_prepared : prepared second_command second_set at_place rewritten.
Proof.
  apply (proj1 (vectorize_Ok uuids second_command (state "proof-2") second_set at_place (state_located "proof-2") (plan "r3" "r4") serving tt rewritten serving_ok eq_refl second_vectorized)).
Qed.

(** ** The laws at the run *)

Lemma vectorization_prepares_witness : prepared first_command first_set at_place written /\ index_ok written /\
  ~ is_served written team (u "space") (u "r1") /\ (vr_published <$> (vx_row <$> x_records (x_pub written) !! u "r1")) = Some false.
Proof.
  destruct (vectorization_prepares uuids first_command (state "proof-1") first_set at_place (state_located "proof-1") (plan "r1" "r2") initial tt written initial_ok
    eq_refl first_vectorized) as (Hp & Ho & Hnew & _).
  destruct (Hnew (u "r1")) as [(r & row & _ & _ & Hrow & _ & (_ & _ & _ & _ & Hpub)) Hs]; [left|].
  split; [exact Hp|]. split; [exact Ho|]. split; [apply Hs|]. rewrite Hrow. cbn [fmap option_fmap option_map]. rewrite Hpub. reflexivity.
Defined.
Lemma publication_is_served_witness : is_served replaced team (u "space") (u "r3").
Proof.
  destruct (publication_is_served uuids grace 2000 true second_command second_set refs at_place rewritten tt replaced set_placed second_prepared second_published) as [Hs _].
  refine (proj1 (proj2 (Hs (u "r3")) _)). left.
Defined.
Lemma retirement_is_invisible_witness :
  map rr_disposition scan_result.2 = [soft_purged] /\
  forall scan_limit team namespace filters w,
    fetch_candidate_rows scan_limit (index_view scanned) team namespace filters w = fetch_candidate_rows scan_limit (index_view replaced) team namespace filters w.
Proof. exact (conj eq_refl (retirement_is_invisible stamps uuids grace 2100 10 replaced scan_result scanned retired)). Defined.
Lemma lifecycle_withdraws_witness :
  lr_applied deactivation_result = true /\
  forall team namespace filters w,
    hits (index_view deactivated) team namespace filters w = List.filter (fun h => negb (ueqb (hr_item h) (u "item"))) (hits (index_view scanned) team namespace filters w).
Proof. exact (conj eq_refl (lifecycle_withdraws uuids 3000 deactivation scanned deactivation_result deactivated item_deactivated)). Defined.
Lemma lifecycle_replays_witness : exists r', apply_lifecycle uuids 4000 deactivation deactivated = Ok (r', deactivated) /\ lr_applied r' = false.
Proof.
  destruct (lifecycle_replays uuids 3000 deactivation scanned deactivation_result deactivated item_deactivated 4000) as (r' & Hr & Ha & _).
  exact (ex_intro _ r' (conj Hr Ha)).
Defined.
Lemma purge_removes_exactly_witness : exists r d, purge purge_command receipt scanned = Ok (r, d) /\ vp_deleted r = 2.
Proof.
  pose proof artifact_purged as Hrun. apply bind_Ok in Hrun as (r & d & Hr & _). exists r, d. split; [exact Hr|].
  rewrite (proj1 (purge_removes_exactly purge_command receipt scanned r d Hr)). vm_compute. reflexivity.
Defined.
Lemma index_goes_forward_witness : index_ok emptied /\ advances initial emptied.
Proof.
  refine (index_goes_forward stamps uuids grace true initial emptied initial_ok _).
  eapply rtc_l; [exact (vectorize_step _ _ _ _ _ _ _ _ _ _ _ _ (state_located "proof-1") first_vectorized)|].
  eapply rtc_l; [exact (publish_step _ _ _ _ _ _ _ _ _ _ first_published)|].
  eapply rtc_l; [exact (vectorize_step _ _ _ _ _ _ _ _ _ _ _ _ (state_located "proof-2") second_vectorized)|].
  eapply rtc_l; [exact (publish_step _ _ _ _ _ _ _ _ _ _ second_published)|].
  eapply rtc_l; [exact (scan_step _ _ _ _ _ _ _ _ _ retired)|].
  eapply rtc_l; [exact (purge_step _ _ _ _ _ _ _ _ artifact_purged)|]. reflexivity.
Defined.
Lemma target_ref_round_trip_witness : parse_target_ref (u "index-generation:v1:item:space:1") = Some (u "item", u "space", 1).
Proof.
  refine (proj1 (target_ref_round_trip (HL := test_host_laws) (u "item") (u "space") 1 (u "index-generation:v1:item:space:1") _) _); vm_compute; [discriminate|reflexivity].
Defined.
Definition handoff : VectorizeHandoff :=
  Build_VectorizeHandoff team (u "execution") hex (u "dual") hex (u "content_full.v1") (u "space") (Build_embedding_ref (u "model") (u "1") (u "local_vllm") 2 None) 2 2 0 0.
Lemma contracts_round_trip_witness :
  parse_command (PDict (dump_command purge_command)) = Ok purge_command /\
  parse_outcome (PDict (dump_outcome (Build_VectorizeOutcome from_construct hex (Some handoff) None))) = Ok (Build_VectorizeOutcome from_construct hex (Some handoff) None).
Proof. split; apply contracts_round_trip; vm_compute; reflexivity. Defined.

(** Deleted records pass the fence of a publication: its proof counts two records, the pointer
    and the item move to the new generation, and no search finds anything of it. *)
Lemma deleted_records_are_published :
  purge_commit purge_command all_four rewritten = Ok (tt, lost) /\
  publish_commit uuids grace 2000 true second_command second_set refs lost = Ok (tt, hollow) /\
  (pr_generation ∘ al_row <$> x_aliases (x_pub hollow) !! (team, u "item", u "space")) = Some 2 /\
  (it_serving ∘ ix_row <$> x_items (x_pub hollow) !! u "item") = Some (Some (u "revision")) /\
  hits (index_view hollow) team (u "space") [] no_narrowing = [].
Proof.
  split; [vm_cast_no_check (eq_refl (Ok (tt, lost)))|]. split; [vm_cast_no_check (eq_refl (Ok (tt, hollow)))|].
  split_and!; vm_compute; reflexivity.
Qed.
