(* ===== verification/Observations.v ===== *)
(** * Observations and their attempts

    Model of [src/services/observation_reservations.py] with its callers: a request to ingest
    a source names an observation; the first one reserves it, repeated ones are answered with
    the task that owns it, a failed one is retried as a new attempt of a higher generation.
    The admission is the part of [create] of [src/runtime/task/task_create.py] around it.

    A table whose rows are found by a unique index is a map from that index.  The dump of the
    source of a request is a field of the request; instants are microseconds. *)

From S2P Require Import Prelude PyText PyValue Txn Objects.

Open Scope Z_scope.
Open Scope mkb_scope.

(** ** Rows *)

Inductive observation_state := OB_reserved | OB_acquired | OB_accepted | OB_failed | OB_abandoned.
#[export] Instance observation_state_eq : EqDecision observation_state.
Proof. solve_decision. Defined.
Inductive attempt_state := AT_reserved | AT_acquiring | AT_acquired | AT_accepted | AT_failed | AT_abandoned.
#[export] Instance attempt_state_eq : EqDecision attempt_state.
Proof. solve_decision. Defined.
Definition attempt_text (s : attempt_state) : ustr :=
  u (match s with AT_reserved => "reserved" | AT_acquiring => "acquiring" | AT_acquired => "acquired" | AT_accepted => "accepted" | AT_failed => "failed" | AT_abandoned => "abandoned" end).

(** [mkb_intake_observations] *)
Record observation_row := {
  ob_team : ustr;
  ob_source : ustr;
  ob_key : ustr;
  ob_fingerprint : ustr;
  ob_state : observation_state;
  ob_generation : Z;
  ob_task : option ustr;
  ob_execution : option ustr;
  ob_snapshot : option ustr;
  ob_revision : Z;
  ob_reserved_at : Z;
  ob_acquired_at : option Z;
  ob_accepted_at : option Z;
  ob_terminal_at : option Z;
  ob_error : option ustr;
  ob_mode : ustr
}.
(** [mkb_observation_attempts], by observation and generation *)
Record attempt_row := {
  tt_uuid : ustr;
  tt_team : ustr;
  tt_task : ustr;
  tt_execution : ustr;
  tt_state : attempt_state;
  tt_artifact : option ustr * option ustr;
  tt_expected : Z;
  tt_revision : Z;
  tt_error : option ustr;
  tt_created_at : Z;
  tt_acquired_at : option Z;
  tt_terminal_at : option Z
}.
(** [mkb_observation_attempt_transitions] *)
Record attempt_transition := {
  tn_team : ustr;
  tn_observation : ustr;
  tn_attempt : ustr;
  tn_generation : Z;
  tn_before : option attempt_state;
  tn_after : attempt_state;
  tn_revisions : Z * Z;
  tn_digest : ustr
}.
(** [mkb_intake_sources], by team, kind and external key *)
Record origin_row := { og_uuid : ustr; og_digest : ustr; og_descriptor : ustr * ustr }.
(** [mkb_intake_items], by team, source and external key *)
Record known_item := { ki_uuid : ustr; ki_state : ustr; ki_revision : Z; ki_latest : option ustr; ki_serving : option ustr }.
(** [mkb_intake_snapshots], by team and uuid *)
Record snapshot_row := {
  sh_source : ustr;
  sh_key : ustr;
  sh_fingerprint : ustr;
  sh_root : ustr;
  sh_execution : ustr;
  sh_raw : ustr;
  sh_observed_at : Z;
  sh_accepted_at : Z
}.
(** The columns of an execution that admission and acceptance write; an execution is found by
    its uuid. *)
Record coordinates := { co_team : ustr; co_observation : option ustr; co_generation : option Z; co_epoch : option Z; co_snapshot : option ustr }.
(** A task, by its team and uuid: the fingerprint of its creation, its current root execution
    and the columns that admission and acceptance write. *)
Record owner_task := { ot_print : ustr; ot_root : ustr; ot_coordinates : coordinates; ot_change_set : option ustr }.

Record observatory := {
  y_kinds : gmap ustr ustr;
  y_sources : gmap (ustr * ustr * ustr) origin_row;
  y_items : gmap (ustr * ustr * ustr) known_item;
  y_observations : gmap ustr observation_row;
  y_attempts : gmap (ustr * Z) attempt_row;
  y_history : gmap ustr attempt_transition;
  y_links : gmap ustr (ustr * ustr);
  y_snapshots : gmap (ustr * ustr) snapshot_row;
  y_tasks : gmap (ustr * ustr) owner_task;
  y_executions : gmap ustr coordinates;
  y_uuids : nat
}.
Definition set_sources m d := Build_observatory (y_kinds d) m (y_items d) (y_observations d) (y_attempts d) (y_history d) (y_links d) (y_snapshots d) (y_tasks d) (y_executions d) (y_uuids d).
Definition set_observations m d := Build_observatory (y_kinds d) (y_sources d) (y_items d) m (y_attempts d) (y_history d) (y_links d) (y_snapshots d) (y_tasks d) (y_executions d) (y_uuids d).
Definition set_attempts m d := Build_observatory (y_kinds d) (y_sources d) (y_items d) (y_observations d) m (y_history d) (y_links d) (y_snapshots d) (y_tasks d) (y_executions d) (y_uuids d).
Definition set_history m d := Build_observatory (y_kinds d) (y_sources d) (y_items d) (y_observations d) (y_attempts d) m (y_links d) (y_snapshots d) (y_tasks d) (y_executions d) (y_uuids d).
Definition set_links m d := Build_observatory (y_kinds d) (y_sources d) (y_items d) (y_observations d) (y_attempts d) (y_history d) m (y_snapshots d) (y_tasks d) (y_executions d) (y_uuids d).
Definition set_items m d := Build_observatory (y_kinds d) (y_sources d) m (y_observations d) (y_attempts d) (y_history d) (y_links d) (y_snapshots d) (y_tasks d) (y_executions d) (y_uuids d).
Definition set_snapshots m d := Build_observatory (y_kinds d) (y_sources d) (y_items d) (y_observations d) (y_attempts d) (y_history d) (y_links d) m (y_tasks d) (y_executions d) (y_uuids d).
Definition set_tasks m d := Build_observatory (y_kinds d) (y_sources d) (y_items d) (y_observations d) (y_attempts d) (y_history d) (y_links d) (y_snapshots d) m (y_executions d) (y_uuids d).
Definition set_executions m d := Build_observatory (y_kinds d) (y_sources d) (y_items d) (y_observations d) (y_attempts d) (y_history d) (y_links d) (y_snapshots d) (y_tasks d) m (y_uuids d).
Definition set_uuids n d := Build_observatory (y_kinds d) (y_sources d) (y_items d) (y_observations d) (y_attempts d) (y_history d) (y_links d) (y_snapshots d) (y_tasks d) (y_executions d) n.

(** ** Requests *)

(** The source of a request to ingest. [iq_material] is its dump without the three
    observation fields, [iq_print] the fingerprint of the request. *)
Record ingest_request := {
  iq_team : ustr;
  iq_task : ustr;
  iq_print : ustr;
  iq_kind : ustr;
  iq_external_key : ustr;
  iq_key : option ustr;
  iq_retry : bool;
  iq_expected : option Z;
  iq_material : pydict
}.
Record ObservationAdmission := {
  ad_source : ustr;
  ad_observation : ustr;
  ad_key : ustr;
  ad_fingerprint : ustr;
  ad_generation : Z;
  ad_epoch : option Z;
  ad_mode : ustr;
  ad_retry : bool;
  ad_replay : option ustr
}.

Section observations.
Context {H : Host}.
Variables (uuid7 : nat -> ustr) (now : Z).
Abbreviation ctx := (txn observatory).

Definition fresh : ctx ustr := fun d => Ok (uuid7 (y_uuids d), set_uuids (S (y_uuids d)) d).

Definition normalized_key (r : ingest_request) : ustr := casefold (strip (iq_external_key r)).
(** [observation_coordinates]: key, fingerprint and mode. *)
Definition observation_key (r : ingest_request) : ustr * ustr :=
  match iq_key r with
  | Some k => if blank k then (if ueqb (iq_kind r) (u "registered_api") then (normalized_key r, u "v1_registered_external_key") else (iq_task r, u "v1_task_derived"))
              else (strip k, u "v2_explicit")
  | None => if ueqb (iq_kind r) (u "registered_api") then (normalized_key r, u "v1_registered_external_key") else (iq_task r, u "v1_task_derived")
  end.
Definition fingerprint (r : ingest_request) : result ustr :=
  stable_digest (obj [("schema_version", PStr (u "mkb.observation-fingerprint.v2")); ("source_kind", PStr (iq_kind r));
    ("normalized_external_key", PStr (normalized_key r)); ("source", PDict (iq_material r))]%string).

(** ** Admission *)

Definition ATTEMPT_CONFLICT : exn := MkbError "OBSERVATION_ATTEMPT_CONFLICT" 409.
Definition STATE_CONFLICT : exn := MkbError "OBSERVATION_STATE_CONFLICT" 409.

(** The source of the request, created when it is new. *)
Definition ensure_source (r : ingest_request) (descriptor : ustr * ustr) : ctx ustr :=
  let! d := gets id in
  match y_kinds d !! iq_kind r with
  | None => raise (MkbError "REGISTRY_NOT_FOUND" 503)
  | Some digest =>
      let k := (iq_team r, iq_kind r, normalized_key r) in
      match y_sources d !! k with
      | Some s => ret (og_uuid s)
      | None =>
          let! source := fresh in
          require (forallb (fun kv => negb (ueqb kv.1.1.1 (iq_team r) && ueqb (og_uuid kv.2) source)) (map_to_list (y_sources d))) IntegrityError ;!
          modify (fun d => set_sources (<[k := Build_origin_row source digest descriptor]> (y_sources d)) d) ;!
          ret source
      end
  end.
(** The epoch of the item that the request may change. *)
Definition expected_epoch (r : ingest_request) (source : ustr) (d : observatory) : result (option Z) :=
  match y_items d !! (iq_team r, source, normalized_key r) with
  | Some i =>
      check ueqb (ki_state i) (u "active") else MkbError (if ueqb (ki_state i) (u "deleted") then "INTAKE_ITEM_DELETED" else "INTAKE_ITEM_NOT_ACTIVE") 409 ;;
      Ok (Some (ki_revision i))
  | None => Ok None
  end.
Definition observed (team source key : ustr) (d : observatory) : option (ustr * observation_row) :=
  first_row (fun _ o => ueqb (ob_team o) team && ueqb (ob_source o) source && ueqb (ob_key o) key) (y_observations d).

(** [resolve_tx] *)
Definition resolve (r : ingest_request) (descriptor : ustr * ustr) : ctx ObservationAdmission :=
  let '(key, mode) := observation_key r in
  let! print := lift (fingerprint r) in
  let! source := ensure_source r descriptor in
  let! d := gets id in
  let! epoch := lift (expected_epoch r source d) in
  match observed (iq_team r) source key d with
  | None =>
      require (negb (iq_retry r)) (MkbError "OBSERVATION_RETRY_TARGET_MISSING" 409) ;!
      let! observation := fresh in
      ret (Build_ObservationAdmission source observation key print 1 epoch mode false None)
  | Some (observation, o) =>
      require (ueqb (ob_fingerprint o) print) (MkbError "OBSERVATION_CONFLICT" 409) ;!
      match ob_state o with
      | OB_failed =>
          require (iq_retry r) (MkbError "OBSERVATION_FAILED_RETRY_REQUIRED" 409) ;!
          require (bool_decide (iq_expected r = Some (ob_generation o))) ATTEMPT_CONFLICT ;!
          ret (Build_ObservationAdmission source observation key print (ob_generation o + 1) epoch (ob_mode o) true None)
      | OB_abandoned => raise (if iq_retry r then MkbError "OBSERVATION_RETRY_STATE_CONFLICT" 409 else STATE_CONFLICT)
      | _ =>
          require (negb (iq_retry r)) (MkbError "OBSERVATION_RETRY_STATE_CONFLICT" 409) ;!
          ret (Build_ObservationAdmission source observation key print (ob_generation o) epoch (ob_mode o) false (Some (default (u "None") (ob_task o))))
      end
  end.

(** [_attempt_transition_tx] *)
Definition record_attempt (team observation attempt : ustr) (generation : Z) (before : option attempt_state) (after : attempt_state) (expected actual : Z) : ctx unit :=
  let! id := fresh in
  let! digest := lift (stable_digest (obj [("observation_uuid", PStr observation); ("attempt_uuid", PStr attempt); ("attempt_generation", PInt generation);
     ("state_before", py_opt (attempt_text <$> before)); ("state_after", PStr (attempt_text after)); ("actual_row_revision", PInt actual)]%string)) in
  let! d := gets y_history in
  require (bool_decide (d !! id = None)) IntegrityError ;!
  modify (fun d => set_history (<[id := Build_attempt_transition team observation attempt generation before after (expected, actual) digest]> (y_history d)) d).

Definition put_observation (k : ustr) (o : observation_row) : ctx unit := modify (fun d => set_observations (<[k := o]> (y_observations d)) d).
Definition put_attempt (k : ustr) (g : Z) (a : attempt_row) : ctx unit := modify (fun d => set_attempts (<[(k, g) := a]> (y_attempts d)) d).
(** The update of the task and of the execution of the admission. *)
Definition admitted (team : ustr) (a : ObservationAdmission) (snapshot : option ustr) : coordinates :=
  Build_coordinates team (Some (ad_observation a)) (Some (ad_generation a)) (ad_epoch a) snapshot.
Definition bind_task (r : ingest_request) (a : ObservationAdmission) (d : observatory) : observatory :=
  match y_tasks d !! (iq_team r, iq_task r) with
  | Some t => set_tasks (<[(iq_team r, iq_task r) := Build_owner_task (ot_print t) (ot_root t) (admitted (iq_team r) a (co_snapshot (ot_coordinates t))) (ot_change_set t)]> (y_tasks d)) d
  | None => d
  end.
Definition bind_execution (team execution : ustr) (a : ObservationAdmission) (d : observatory) : observatory :=
  match y_executions d !! execution with
  | Some c => if ueqb (co_team c) team then set_executions (<[execution := admitted team a (co_snapshot c)]> (y_executions d)) d else d
  | None => d
  end.
Definition known_execution (team execution : ustr) (d : observatory) : bool := match y_executions d !! execution with Some c => ueqb (co_team c) team | None => false end.

(** The row of a new observation, and of one that is tried again. *)
Definition reserved_row (r : ingest_request) (a : ObservationAdmission) (execution : ustr) : observation_row :=
  Build_observation_row (iq_team r) (ad_source a) (ad_key a) (ad_fingerprint a) OB_reserved (ad_generation a) (Some (iq_task r)) (Some execution) None 0 now None None None None (ad_mode a).
Definition retried_row (r : ingest_request) (a : ObservationAdmission) (execution : ustr) (o : observation_row) : observation_row :=
  Build_observation_row (ob_team o) (ob_source o) (ob_key o) (ob_fingerprint o) OB_reserved (ad_generation a) (Some (iq_task r)) (Some execution) None (ob_revision o + 1) now
    None None None None (ob_mode o).
(** The row that an admission leaves. *)
Definition reserve_observation (r : ingest_request) (a : ObservationAdmission) (execution : ustr) : ctx unit :=
  let! d := gets id in
  if ad_retry a then
    match y_observations d !! ad_observation a with
    | Some o =>
        require (ueqb (ob_team o) (iq_team r) && bool_decide (ob_state o = OB_failed) && (ob_generation o =? ad_generation a - 1)) ATTEMPT_CONFLICT ;!
        put_observation (ad_observation a) (retried_row r a execution o)
    | None => raise ATTEMPT_CONFLICT
    end
  else
    require (bool_decide (y_observations d !! ad_observation a = None) && bool_decide (observed (iq_team r) (ad_source a) (ad_key a) d = None) && is_digest (ad_fingerprint a)) IntegrityError ;!
    put_observation (ad_observation a) (reserved_row r a execution).

(** [reserve_tx] *)
Definition reserve (r : ingest_request) (a : ObservationAdmission) (execution : ustr) : ctx unit :=
  reserve_observation r a execution ;!
  let! attempt := fresh in
  let! d := gets id in
  require (bool_decide (is_Some (y_tasks d !! (iq_team r, iq_task r))) && known_execution (iq_team r) execution d
           && bool_decide (y_attempts d !! (ad_observation a, ad_generation a) = None)
           && forallb (fun kv => negb (ueqb (tt_uuid kv.2) attempt)) (map_to_list (y_attempts d))) IntegrityError ;!
  put_attempt (ad_observation a) (ad_generation a)
    (Build_attempt_row attempt (iq_team r) (iq_task r) execution AT_reserved (None, None) (if ad_retry a then 1 else 0) 0 None now None None) ;!
  record_attempt (iq_team r) (ad_observation a) attempt (ad_generation a) None AT_reserved 0 0 ;!
  modify (fun d => bind_execution (iq_team r) execution a (bind_task r a d)).

(** The admission of a request by [create]: the task that exists already, the task of the
    observation when it is owned, or the new task with its execution. *)
Definition insert_task (r : ingest_request) (execution : ustr) : ctx unit :=
  let! d := gets y_executions in
  require (bool_decide (d !! execution = None)) IntegrityError ;!
  modify (fun d => set_executions (<[execution := Build_coordinates (iq_team r) None None None None]> (y_executions d))
                     (set_tasks (<[(iq_team r, iq_task r) := Build_owner_task (iq_print r) execution (Build_coordinates (iq_team r) None None None None) None]> (y_tasks d)) d)).
Definition admit_request (r : ingest_request) (descriptor : ustr * ustr) (execution : ustr) : ctx (option ustr) :=
  let! d := gets y_tasks in
  match d !! (iq_team r, iq_task r) with
  | Some t => require (ueqb (ot_print t) (iq_print r)) (MkbError "task-identity-conflict" 409) ;! ret (Some (iq_task r))
  | None =>
      let! a := resolve r descriptor in
      match ad_replay a with
      | Some task => ret (Some task)
      | None => insert_task r execution ;! reserve r a execution ;! ret None
      end
  end.

(** The execution of a full retry of a task has the coordinates of the one before
    ([src/runtime/task/task_commands.py]). *)
Definition inherit_observation (previous execution : ustr) : ctx unit :=
  let! d := gets y_executions in
  match d !! previous with
  | Some c =>
      require (bool_decide (d !! execution = None)) IntegrityError ;!
      modify (fun d => set_executions (<[execution := c]> (y_executions d)) d)
  | None => raise TypeError
  end.

(** ** Marks *)

(** [identity_for_execution_tx], as far as the marks read it. *)
Definition identity_for_execution (team execution : ustr) (d : observatory) : option (ustr * observation_row) :=
  e ← y_executions d !! execution;
  observation ← co_observation e;
  o ← y_observations d !! observation;
  if ueqb (co_team e) team && ueqb (ob_team o) team then Some (observation, o) else None.

Definition acquired_attempt (artifact : option ustr * option ustr) (a : attempt_row) : attempt_row :=
  Build_attempt_row (tt_uuid a) (tt_team a) (tt_task a) (tt_execution a) AT_acquired artifact (tt_expected a) (tt_revision a + 1) (tt_error a) (tt_created_at a) (Some now) (tt_terminal_at a).
Definition closed_attempt (s : attempt_state) (error : option ustr) (a : attempt_row) : attempt_row :=
  Build_attempt_row (tt_uuid a) (tt_team a) (tt_task a) (tt_execution a) s (tt_artifact a) (tt_expected a) (tt_revision a + 1) (match error with Some _ => error | None => tt_error a end)
    (tt_created_at a) (tt_acquired_at a) (Some now).
Definition acquired_observation (o : observation_row) : observation_row :=
  Build_observation_row (ob_team o) (ob_source o) (ob_key o) (ob_fingerprint o) OB_acquired (ob_generation o) (ob_task o) (ob_execution o) (ob_snapshot o) (ob_revision o + 1) (ob_reserved_at o)
    (Some now) (ob_accepted_at o) (ob_terminal_at o) (ob_error o) (ob_mode o).
Definition accepted_observation (snapshot : ustr) (o : observation_row) : observation_row :=
  Build_observation_row (ob_team o) (ob_source o) (ob_key o) (ob_fingerprint o) OB_accepted (ob_generation o) (ob_task o) (ob_execution o) (Some snapshot) (ob_revision o + 1) (ob_reserved_at o)
    (ob_acquired_at o) (Some now) (Some now) (ob_error o) (ob_mode o).
Definition failed_observation (error : ustr) (o : observation_row) : observation_row :=
  Build_observation_row (ob_team o) (ob_source o) (ob_key o) (ob_fingerprint o) OB_failed (ob_generation o) (ob_task o) (ob_execution o) (ob_snapshot o) (ob_revision o + 1) (ob_reserved_at o)
    (ob_acquired_at o) (ob_accepted_at o) (Some now) (Some error) (ob_mode o).

(** The attempt of the current generation, with the team of the observation. *)
Definition current_attempt (team observation : ustr) (o : observation_row) (d : observatory) : option attempt_row :=
  a ← y_attempts d !! (observation, ob_generation o); if ueqb (tt_team a) team then Some a else None.
Definition digest_or_null (o : option ustr) : bool := match o with Some s => is_digest s | None => true end.

(** [mark_acquired_tx] *)
Definition mark_acquired (team execution : ustr) (artifact : option ustr * option ustr) : ctx unit :=
  let! d := gets id in
  match identity_for_execution team execution d with
  | None => ret tt
  | Some (observation, o) =>
      match current_attempt team observation o d with
      | None => ret tt
      | Some a =>
          if bool_decide (tt_state a = AT_acquired) then ret tt else
          require (bool_decide (tt_state a = AT_reserved \/ tt_state a = AT_acquiring)) ATTEMPT_CONFLICT ;!
          require (digest_or_null artifact.2) IntegrityError ;!
          put_attempt observation (ob_generation o) (acquired_attempt artifact a) ;!
          (if bool_decide (ob_state o = OB_reserved) then put_observation observation (acquired_observation o) else ret tt) ;!
          record_attempt team observation (tt_uuid a) (ob_generation o) (Some (tt_state a)) AT_acquired (tt_revision a) (tt_revision a + 1)
      end
  end.

(** [mark_accepted_tx] *)
Definition mark_accepted (team execution snapshot : ustr) : ctx unit :=
  let! d := gets id in
  match identity_for_execution team execution d with
  | None => ret tt
  | Some (observation, o) =>
      require (bool_decide (y_links d !! observation = None) && bool_decide (is_Some (y_snapshots d !! (team, snapshot)))
               && forallb (fun kv => negb (bool_decide (kv.2 = (team, snapshot)))) (map_to_list (y_links d))) IntegrityError ;!
      modify (fun d => set_links (<[observation := (team, snapshot)]> (y_links d)) d) ;!
      match current_attempt team observation o d with
      | None => raise (MkbError "OBSERVATION_ATTEMPT_MISSING" 503)
      | Some a =>
          (if bool_decide (tt_state a = AT_acquired) then put_attempt observation (ob_generation o) (closed_attempt AT_accepted None a) else ret tt) ;!
          require (bool_decide (ob_state o = OB_acquired)) STATE_CONFLICT ;!
          put_observation observation (accepted_observation snapshot o) ;!
          record_attempt team observation (tt_uuid a) (ob_generation o) (Some (tt_state a)) AT_accepted (tt_revision a) (tt_revision a + 1)
      end
  end.

(** [mark_failed_for_execution], a transaction of its own *)
Definition mark_failed (team execution error : ustr) : ctx unit :=
  let! d := gets id in
  match identity_for_execution team execution d with
  | None => ret tt
  | Some (observation, o) =>
      match current_attempt team observation o d with
      | None => ret tt
      | Some a =>
          if bool_decide (tt_state a ∈ [AT_accepted; AT_failed; AT_abandoned]) then ret tt else
          put_attempt observation (ob_generation o) (closed_attempt AT_failed (Some error) a) ;!
          (if bool_decide (ob_state o = OB_reserved \/ ob_state o = OB_acquired) then put_observation observation (failed_observation error o) else ret tt) ;!
          record_attempt team observation (tt_uuid a) (ob_generation o) (Some (tt_state a)) AT_failed (tt_revision a) (tt_revision a + 1)
      end
  end.
End observations.
