(* ===== verification/ObservationLaws.v ===== *)
(** * Laws of observations

    What admissions and marks keep of observations and their attempts, the answer to a second
    request for the same observation, and what a failed attempt means for its execution. *)

From S2P Require Import Prelude PyText PyValue Txn Objects Observations.

Open Scope Z_scope.
Open Scope mkb_scope.

(** ** The state of observations *)

(** The state of the current attempt of an observation. *)
Definition attempt_for (s : observation_state) : attempt_state :=
  match s with OB_reserved => AT_reserved | OB_acquired => AT_acquired | OB_accepted => AT_accepted | OB_failed => AT_failed | OB_abandoned => AT_abandoned end.
Record follows (o : observation_row) (a : attempt_row) : Prop := {
  fo_state : tt_state a = attempt_for (ob_state o);
  fo_live : ob_state o <> OB_abandoned;
  fo_team : tt_team a = ob_team o;
  fo_task : ob_task o = Some (tt_task a);
  fo_execution : ob_execution o = Some (tt_execution a)
}.
Definition refers (attempts : gmap (ustr * Z) attempt_row) (c : coordinates) : Prop :=
  forall k, co_observation c = Some k -> exists g, co_generation c = Some g /\ is_Some (attempts !! (k, g)).

Record consistent (d : observatory) : Prop := {
  cs_current : forall k o, y_observations d !! k = Some o -> 1 <= ob_generation o /\ exists a, y_attempts d !! (k, ob_generation o) = Some a /\ follows o a;
  cs_attempts : forall k g a, y_attempts d !! (k, g) = Some a ->
    exists o, y_observations d !! k = Some o /\ 1 <= g <= ob_generation o /\ tt_team a = ob_team o /\ (g = ob_generation o \/ tt_state a = AT_failed);
  cs_numbered : forall k o g, y_observations d !! k = Some o -> 1 <= g <= ob_generation o -> is_Some (y_attempts d !! (k, g));
  cs_unique : forall k1 k2 o1 o2, y_observations d !! k1 = Some o1 -> y_observations d !! k2 = Some o2 ->
    ob_team o1 = ob_team o2 -> ob_source o1 = ob_source o2 -> ob_key o1 = ob_key o2 -> k1 = k2;
  cs_accepted : forall k o, y_observations d !! k = Some o -> ob_state o = OB_accepted -> exists s, ob_snapshot o = Some s /\ y_links d !! k = Some (ob_team o, s);
  cs_linked : forall k l, y_links d !! k = Some l -> exists o, y_observations d !! k = Some o /\ ob_state o = OB_accepted;
  cs_executions : forall e c, y_executions d !! e = Some c -> refers (y_attempts d) c
}.

(** How a row moves: an accepted observation is final, a failed one leaves its state only for
    the next generation. *)
Record forward (o o' : observation_row) : Prop := {
  fw_coordinates : (ob_team o, ob_source o, ob_key o, ob_fingerprint o) = (ob_team o', ob_source o', ob_key o', ob_fingerprint o');
  fw_generation : ob_generation o <= ob_generation o';
  fw_accepted : ob_state o = OB_accepted -> o' = o;
  fw_failed : ob_state o = OB_failed -> ob_generation o' = ob_generation o -> o' = o
}.
#[export] Instance forward_preorder : PreOrder forward.
Proof.
  split; [intros o; split; auto; lia|]. intros o1 o2 o3 [C1 G1 A1 F1] [C2 G2 A2 F2]. split; [congruence|lia|..].
  - intros Ha. specialize (A1 Ha). subst o2. auto.
  - intros Hf Hg. assert (o2 = o1) as -> by (apply F1; [done|lia]). auto.
Qed.

Definition any_row (_ : observation_row) : Prop := True.
Definition observations_move : gmap ustr observation_row -> gmap ustr observation_row -> Prop := evolves forward any_row.
Definition sources_move : gmap (ustr * ustr * ustr) origin_row -> gmap (ustr * ustr * ustr) origin_row -> Prop := evolves eq (fun _ => True).
Record moves (d d' : observatory) : Prop := {
  mv_observations : observations_move (y_observations d) (y_observations d');
  mv_sources : sources_move (y_sources d) (y_sources d')
}.
#[export] Instance moves_preorder : PreOrder moves.
Proof.
  split.
  - intros d. split; apply evolves_refl; apply _.
  - intros d1 d2 d3 [O1 S1] [O2 S2]. split; eapply evolves_trans; try done; apply _.
Qed.

(** One observation and its current attempt are written together. *)
Definition may_become (d : observatory) (k : ustr) (o' : observation_row) : Prop :=
  match y_observations d !! k with
  | None => ob_generation o' = 1 /\ (forall k2 o2, y_observations d !! k2 = Some o2 -> (ob_team o2, ob_source o2, ob_key o2) <> (ob_team o', ob_source o', ob_key o'))
  | Some o => forward o o' /\ (ob_generation o' = ob_generation o \/ (ob_generation o' = ob_generation o + 1 /\ ob_state o = OB_failed))
  end.
Record written (d d' : observatory) (k : ustr) (o' : observation_row) (a' : attempt_row) : Prop := {
  wr_observations : y_observations d' = <[k := o']> (y_observations d);
  wr_attempts : y_attempts d' = <[(k, ob_generation o') := a']> (y_attempts d);
  wr_sources : sources_move (y_sources d) (y_sources d');
  wr_follows : follows o' a';
  wr_may : may_become d k o';
  wr_links : if decide (ob_state o' = OB_accepted) then exists s, ob_snapshot o' = Some s /\ y_links d' = <[k := (ob_team o', s)]> (y_links d) else y_links d' = y_links d;
  wr_executions : forall e c, y_executions d' !! e = Some c -> refers (y_attempts d') c
}.

Lemma refers_insert m k a c : refers m c -> refers (<[k := a]> m) c.
Proof. intros Hr j Hj. destruct (Hr j Hj) as (g & Hg & Ha). exists g. split; [done|]. apply lookup_insert_is_Some'. by right. Qed.

Lemma written_moves d d' k o' a' : written d d' k o' a' -> moves d d'.
Proof.
  intros [Ho _ Hs _ Hm _ _]. split; [|done]. rewrite Ho. unfold may_become in Hm. destruct (y_observations d !! k) as [o|] eqn:E.
  - eapply evolves_insert; [done|intros; reflexivity|apply Hm].
  - apply evolves_fresh; [done|intros; reflexivity|done].
Qed.

Lemma lookup_put {A} (k j : ustr) (o o' : A) (m : gmap ustr A) : <[k := o']> m !! j = Some o -> (j = k /\ o = o') \/ (j <> k /\ m !! j = Some o).
Proof. intros [[<- <-]|[Hn Hj]]%lookup_insert_Some; [by left|right; split; [congruence|done]]. Qed.

Section written.
Context d d' k o' a' (W : written d d' k o' a') (C : consistent d).

Lemma new_row : y_observations d' !! k = Some o'.
Proof. rewrite (wr_observations _ _ _ _ _ W). apply lookup_insert_eq. Qed.

Lemma coordinates_kept k2 o2 : y_observations d !! k2 = Some o2 -> (ob_team o2, ob_source o2, ob_key o2) = (ob_team o', ob_source o', ob_key o') -> k2 = k.
Proof.
  intros H2 He. pose proof (wr_may _ _ _ _ _ W) as Hm. unfold may_become in Hm. destruct (y_observations d !! k) as [o|] eqn:E.
  - destruct Hm as [[Hc _ _ _] _]. eapply (cs_unique _ C); [exact H2|exact E|congruence..].
  - destruct Hm as [_ Hm]. by destruct (Hm _ _ H2).
Qed.

Lemma written_bounds g : 1 <= g <= ob_generation o' -> g = ob_generation o' \/ exists o, y_observations d !! k = Some o /\ 1 <= g <= ob_generation o.
Proof.
  intros Hg. pose proof (wr_may _ _ _ _ _ W) as Hm. unfold may_become in Hm. destruct (y_observations d !! k) as [o|] eqn:E; [|left; lia].
  destruct Hm as [_ Hm]. destruct (decide (g = ob_generation o')) as [->|]; [by left|]. right. exists o. split; [done|]. lia.
Qed.

Lemma written_attempts j g a : y_attempts d' !! (j, g) = Some a ->
  exists o, y_observations d' !! j = Some o /\ 1 <= g <= ob_generation o /\ tt_team a = ob_team o /\ (g = ob_generation o \/ tt_state a = AT_failed).
Proof.
  destruct W as [Ho Ha _ Hf Hm _ _]. rewrite Ha. unfold may_become in Hm. intros [[[= <- <-] <-]|[Hn Hj]]%lookup_insert_Some.
  - exists o'. split; [exact new_row|]. pose proof (fo_team _ _ Hf). repeat split; auto; [|lia].
    destruct (y_observations d !! k) eqn:E; [|lia]. destruct (cs_current _ C _ _ E) as [? _]. lia.
  - destruct (cs_attempts _ C _ _ _ Hj) as (o & Hk & Hg & Ht & Hs). destruct (decide (j = k)) as [->|Hne].
    + exists o'. rewrite Hk in Hm. destruct Hm as [[Hc ? ? ?] Hgen]. assert (ob_team o = ob_team o') by congruence.
      destruct Hgen as [Hgen|[Hgen Hfail]]; (split; [exact new_row|]); (split; [lia|]); (split; [congruence|]); right.
      * destruct Hs as [->|Hs]; [|done]. exfalso. apply Hn. by rewrite Hgen.
      * destruct Hs as [->|Hs]; [|done]. destruct (cs_current _ C _ _ Hk) as (_ & b & Hb & Hfb). rewrite Hb in Hj. injection Hj as ->. by rewrite (fo_state _ _ Hfb), Hfail.
    + exists o. rewrite Ho, lookup_insert_ne by done. done.
Qed.

Lemma written_accepted j o : y_observations d' !! j = Some o -> ob_state o = OB_accepted -> exists s, ob_snapshot o = Some s /\ y_links d' !! j = Some (ob_team o, s).
Proof.
  destruct W as [Ho _ _ _ _ Hl _]. rewrite Ho. intros [[-> ->]|[Hn Hj]]%lookup_put Hs.
  - rewrite decide_True in Hl by done. destruct Hl as (s & Hs' & ->). exists s. by rewrite lookup_insert_eq.
  - destruct (cs_accepted _ C _ _ Hj Hs) as (s & Hs' & Hl'). exists s. split; [done|]. case_decide; [destruct Hl as (s' & _ & ->)|rewrite Hl; done].
    by rewrite lookup_insert_ne.
Qed.

Lemma written_linked j l : y_links d' !! j = Some l -> exists o, y_observations d' !! j = Some o /\ ob_state o = OB_accepted.
Proof.
  pose proof new_row as Hnew. destruct W as [Ho _ _ _ Hm Hl _]. intros Hj. unfold may_become in Hm. destruct (decide (j = k)) as [->|Hne].
  - exists o'. split; [exact Hnew|]. case_decide as Hd; [done|]. rewrite Hl in Hj. destruct (cs_linked _ C _ _ Hj) as (o & Hk & Hs). rewrite Hk in Hm.
    destruct Hm as [[_ _ Hacc _] _]. by rewrite (Hacc Hs).
  - rewrite Ho, lookup_insert_ne by done. apply (cs_linked _ C) with l. case_decide; [destruct Hl as (s & _ & Hl)|]; rewrite Hl in Hj; [|done].
    by rewrite lookup_insert_ne in Hj.
Qed.

Lemma written_consistent : consistent d'.
Proof.
  pose proof new_row as Hnew. split; [..|exact (wr_executions _ _ _ _ _ W)]; [| exact written_attempts | | | exact written_accepted | exact written_linked].
  - intros j o. rewrite (wr_observations _ _ _ _ _ W). intros [[-> ->]|[Hn Hj]]%lookup_put.
    + rewrite (wr_attempts _ _ _ _ _ W). split; [|exists a'; split; [apply lookup_insert_eq|apply W]].
      pose proof (wr_may _ _ _ _ _ W) as Hm. unfold may_become in Hm. destruct (y_observations d !! k) eqn:E; [|lia]. destruct (cs_current _ C _ _ E) as [? _]. destruct Hm as [[] _]. lia.
    + destruct (cs_current _ C _ _ Hj) as (? & a & Ha & Hf). split; [done|]. exists a. split; [|done]. rewrite (wr_attempts _ _ _ _ _ W), lookup_insert_ne by congruence. done.
  - intros j o g. rewrite (wr_observations _ _ _ _ _ W), (wr_attempts _ _ _ _ _ W). intros [[-> ->]|[Hn Hj]]%lookup_put Hg.
    + destruct (written_bounds _ Hg) as [->|(o & Ho & Hb)]; [rewrite lookup_insert_eq; eauto|]. apply lookup_insert_is_Some'. right. by eapply (cs_numbered _ C).
    + apply lookup_insert_is_Some'. right. by eapply (cs_numbered _ C).
  - intros k1 k2 o1 o2. rewrite (wr_observations _ _ _ _ _ W). intros [[-> ->]|[Hn1 H1]]%lookup_put [[-> ->]|[Hn2 H2]]%lookup_put ? ? ?; [done|..].
    + symmetry. eapply coordinates_kept; [done|congruence].
    + eapply coordinates_kept; [done|congruence].
    + by eapply (cs_unique _ C).
Qed.
End written.

(** ** Operations *)

Lemma set_executions_refers (m : gmap ustr coordinates) c k a e c' : (forall e c, m !! e = Some c -> refers a c) -> refers a c -> <[k := c]> m !! e = Some c' -> refers a c'.
Proof. intros Hm Hc [[_ <-]|[_ He]]%lookup_insert_Some; eauto. Qed.

Section operations.
Context {H : Host} (uuid7 : nat -> ustr) (now : Z).

Lemma identity_Some team e d k o : identity_for_execution team e d = Some (k, o) -> y_observations d !! k = Some o /\ ob_team o = team.
Proof.
  unfold identity_for_execution. destruct (y_executions d !! e) as [c|]; [|done]. cbn. destruct (co_observation c) as [j|]; [|done]. cbn.
  destruct (y_observations d !! j) as [p|] eqn:E; [|done]. cbn. destruct (_ && _) eqn:B; [|done]. intros [= <- <-]. breflect. split; [done|]. by apply ueqb_eq.
Qed.
Lemma current_Some d team e k o : consistent d -> identity_for_execution team e d = Some (k, o) ->
  exists a, y_attempts d !! (k, ob_generation o) = Some a /\ current_attempt team k o d = Some a /\ follows o a.
Proof.
  intros C [Ho Ht]%identity_Some. destruct (cs_current _ C _ _ Ho) as (_ & a & Ha & Hf). exists a. split; [done|]. split; [|done].
  unfold current_attempt. rewrite Ha. cbn. rewrite (fo_team _ _ Hf), Ht, ueqb_refl. done.
Qed.

Lemma record_attempt_Ok team k t g before after e a d x d' : record_attempt uuid7 team k t g before after e a d = Ok (x, d') ->
  exists h n, d' = set_history h (set_uuids n d).
Proof.
  unfold record_attempt, fresh. intros (i & d1 & [= <- <-] & Hd)%bind_Ok. apply bind_Ok in Hd as (g' & d2 & [_ ->]%lift_Ok & Hd).
  apply bind_Ok in Hd as (h & d3 & [= <- <-] & Hd). apply bind_Ok in Hd as ([] & d4 & [_ ->]%require_Ok & [= _ <-]). eauto.
Qed.

Lemma executions_kept d : consistent d -> forall k a e c, y_executions d !! e = Some c -> refers (<[k := a]> (y_attempts d)) c.
Proof. intros C [k g] a e c Hc. apply refers_insert. by eapply (cs_executions _ C). Qed.

(** What a mark does to the rows of its execution. *)
Definition marks (d d' : observatory) : Prop := d' = d \/ exists k o' a', written d d' k o' a'.

Lemma mark_acquired_marks d team e artifact x d' : consistent d -> mark_acquired uuid7 now team e artifact d = Ok (x, d') -> marks d d'.
Proof.
  intros C (d0 & d1 & [= <- <-] & Hd)%bind_Ok. destruct (identity_for_execution team e d) as [[k o]|] eqn:Hi; [|injection Hd as _ <-; by left].
  destruct (current_Some _ _ _ _ _ C Hi) as (a & Ha & Hc & Hf). rewrite Hc in Hd. case_bool_decide; [injection Hd as _ <-; by left|].
  apply bind_Ok in Hd as ([] & d2 & [Hs ->]%require_Ok & Hd). apply bool_decide_eq_true in Hs. apply bind_Ok in Hd as ([] & d3 & [_ ->]%require_Ok & Hd).
  apply bind_Ok in Hd as ([] & d4 & [= <-] & Hd). destruct (identity_Some _ _ _ _ _ Hi) as [Ho _]. destruct Hf as [F1 F2 F3 F4 F5].
  assert (ob_state o = OB_reserved) as Hr by (rewrite F1 in Hs; destruct (ob_state o), Hs; done). rewrite bool_decide_true in Hd by done.
  apply bind_Ok in Hd as ([] & d5 & [= <-] & (h & n & ->)%record_attempt_Ok). right. exists k, (acquired_observation now o), (acquired_attempt now artifact a).
  split; try done; cbn.
  - unfold may_become. rewrite Ho. split; [|by left]. split; cbn; [done|lia|congruence..].
  - by apply executions_kept.
Qed.

Lemma mark_failed_Ok d team e error x d' k o : consistent d -> identity_for_execution team e d = Some (k, o) -> mark_failed uuid7 now team e error d = Ok (x, d') ->
  if decide (ob_state o = OB_reserved \/ ob_state o = OB_acquired) then exists a', written d d' k (failed_observation now error o) a' else d' = d.
Proof.
  intros C Hi (d0 & d1 & [= <- <-] & Hd)%bind_Ok. rewrite Hi in Hd. destruct (current_Some _ _ _ _ _ C Hi) as (a & Ha & Hc & Hf). rewrite Hc in Hd.
  destruct (identity_Some _ _ _ _ _ Hi) as [Ho _]. destruct Hf as [F1 F2 F3 F4 F5]. destruct (decide (ob_state o = OB_reserved \/ ob_state o = OB_acquired)) as [Hr|Hr].
  - rewrite bool_decide_false in Hd by (rewrite F1; destruct Hr as [-> | ->]; set_solver).
    apply bind_Ok in Hd as ([] & d4 & [= <-] & Hd). rewrite bool_decide_true in Hd by done. apply bind_Ok in Hd as ([] & d5 & [= <-] & (h & n & ->)%record_attempt_Ok). exists (closed_attempt now AT_failed (Some error) a).
    split; try done; cbn.
    + unfold may_become. rewrite Ho. split; [|by left]. split; cbn; [done|lia|intros ?; destruct Hr; congruence..].
    + by apply executions_kept.
  - rewrite bool_decide_true in Hd by (rewrite F1; destruct (ob_state o); try set_solver; destruct Hr; auto). by injection Hd as _ <-.
Qed.
Lemma mark_failed_marks d team e error x d' : consistent d -> mark_failed uuid7 now team e error d = Ok (x, d') -> marks d d'.
Proof.
  intros C Hd. destruct (identity_for_execution team e d) as [[k o]|] eqn:Hi.
  - pose proof (mark_failed_Ok _ _ _ _ _ _ _ _ C Hi Hd) as Hm. case_decide; [|by left]. destruct Hm as [a' W]. right. eauto.
  - apply bind_Ok in Hd as (d0 & d1 & [= <- <-] & Hd). rewrite Hi in Hd. injection Hd as _ <-. by left.
Qed.

Lemma mark_accepted_marks d team e snapshot x d' : consistent d -> mark_accepted uuid7 now team e snapshot d = Ok (x, d') -> marks d d'.
Proof.
  intros C (d0 & d1 & [= <- <-] & Hd)%bind_Ok. destruct (identity_for_execution team e d) as [[k o]|] eqn:Hi; [|injection Hd as _ <-; by left].
  apply bind_Ok in Hd as ([] & d2 & [Hs ->]%require_Ok & Hd). apply bind_Ok in Hd as ([] & d3 & [= <-] & Hd).
  destruct (current_Some _ _ _ _ _ C Hi) as (a & Ha & Hc & Hf). rewrite Hc in Hd. destruct (identity_Some _ _ _ _ _ Hi) as [Ho Ht]. destruct Hf as [F1 F2 F3 F4 F5].
  apply bind_Ok in Hd as ([] & d4 & Hp & Hd). apply bind_Ok in Hd as ([] & d5 & [Hq ->]%require_Ok & Hd). apply bool_decide_eq_true in Hq.
  rewrite bool_decide_true in Hp by (by rewrite F1, Hq). injection Hp as <-.
  apply bind_Ok in Hd as ([] & d6 & [= <-] & (h & n & ->)%record_attempt_Ok). right. exists k, (accepted_observation now snapshot o), (closed_attempt now AT_accepted None a).
  split; try done; cbn.
  - unfold may_become. rewrite Ho. split; [|by left]. split; cbn; [done|lia|congruence..].
  - exists snapshot. split; [done|]. by rewrite Ht.
  - by apply executions_kept.
Qed.

(** The row by which a request finds its source, and what finds an observation. *)
Definition origin (r : ingest_request) : ustr * ustr * ustr := (iq_team r, iq_kind r, normalized_key r).
Definition at_coordinates (team source key : ustr) (o : observation_row) : Prop := ob_team o = team /\ ob_source o = source /\ ob_key o = key.

Lemma observed_None team source key d : observed team source key d = None -> forall k o, y_observations d !! k = Some o -> ~ at_coordinates team source key o.
Proof.
  unfold observed, first_row. intros Hn k o Hk (? & ? & ?). assert ((k, o) ∈ rows_where (fun _ o => ueqb (ob_team o) team && ueqb (ob_source o) source && ueqb (ob_key o) key) (y_observations d)) as Hin.
  { apply rows_where_elem. split; [done|]. subst. by rewrite !ueqb_refl. }
  destruct (rows_where _ _); [by apply elem_of_nil in Hin|done].
Qed.
Lemma observed_Some team source key d k o : observed team source key d = Some (k, o) -> y_observations d !! k = Some o /\ at_coordinates team source key o.
Proof.
  unfold observed, first_row. intros Hin%head_Some_elem_of. apply rows_where_elem in Hin as [? Hf]. split; [done|]. breflect. unfold at_coordinates.
  split_and!; by apply ueqb_eq.
Qed.
Lemma observed_unique d k o : consistent d -> y_observations d !! k = Some o -> observed (ob_team o) (ob_source o) (ob_key o) d = Some (k, o).
Proof.
  intros C Hk. destruct (observed _ _ _ d) as [[j p]|] eqn:E.
  - apply observed_Some in E as (Hj & ? & ? & ?). assert (j = k) as -> by (by eapply (cs_unique _ C)). congruence.
  - by destruct (observed_None _ _ _ _ E _ _ Hk).
Qed.

Lemma set_back n d : set_uuids n (set_sources (y_sources d) d) = set_uuids n d.
Proof. by destruct d. Qed.
Lemma ensure_source_Ok r descriptor d source d' : ensure_source uuid7 r descriptor d = Ok (source, d') ->
  exists m n s, d' = set_uuids n (set_sources m d) /\ sources_move (y_sources d) m /\ m !! origin r = Some s /\ og_uuid s = source.
Proof.
  intros (d0 & d1 & [= <- <-] & Hd)%bind_Ok. destruct (y_kinds d !! iq_kind r) as [digest|]; [|done]. cbv zeta in Hd. fold (origin r) in Hd.
  destruct (y_sources d !! origin r) as [s|] eqn:E.
  - injection Hd as <- <-. exists (y_sources d), (y_uuids d), s. rewrite set_back. split; [by destruct d|]. split; [apply evolves_refl; apply _|done].
  - apply bind_Ok in Hd as (id & d1 & [= <- <-] & Hd). apply bind_Ok in Hd as ([] & d2 & [_ ->]%require_Ok & Hd).
    apply bind_Ok in Hd as ([] & d3 & [= <-] & [= <- <-]). exists (<[origin r := Build_origin_row (uuid7 (y_uuids d)) digest descriptor]> (y_sources d)), (S (y_uuids d)). eexists.
    split; [reflexivity|]. split; [|split; [apply lookup_insert_eq|done]].
    apply evolves_fresh; [done|done|done].
Qed.

(** What an admission has decided, by the observation of its coordinates. *)
Inductive decided (r : ingest_request) (d : observatory) (a : ObservationAdmission) : Prop :=
  | decided_new : observed (iq_team r) (ad_source a) (ad_key a) d = None -> iq_retry r = false ->
      ad_retry a = false -> ad_replay a = None -> ad_generation a = 1 -> decided r d a
  | decided_retry o : observed (iq_team r) (ad_source a) (ad_key a) d = Some (ad_observation a, o) -> ob_fingerprint o = ad_fingerprint a ->
      ob_state o = OB_failed -> iq_retry r = true -> iq_expected r = Some (ob_generation o) ->
      ad_retry a = true -> ad_replay a = None -> ad_generation a = ob_generation o + 1 -> decided r d a
  | decided_replay o : observed (iq_team r) (ad_source a) (ad_key a) d = Some (ad_observation a, o) -> ob_fingerprint o = ad_fingerprint a ->
      ob_state o ∈ [OB_reserved; OB_acquired; OB_accepted] -> iq_retry r = false ->
      ad_replay a = Some (default (u "None") (ob_task o)) -> decided r d a.

Lemma resolve_Ok r descriptor d a d' : resolve uuid7 r descriptor d = Ok (a, d') ->
  exists m n s, d' = set_uuids n (set_sources m d) /\ sources_move (y_sources d) m /\ m !! origin r = Some s /\ og_uuid s = ad_source a
    /\ ad_key a = (observation_key r).1 /\ fingerprint r = Ok (ad_fingerprint a) /\ decided r d a.
Proof.
  unfold resolve. destruct (observation_key r) as [key mode]. intros (print & d1 & [Hp ->]%lift_Ok & Hd)%bind_Ok.
  apply bind_Ok in Hd as (source & d1 & (m & n & s & -> & Hm & Hs & Hu)%ensure_source_Ok & Hd). apply bind_Ok in Hd as (d2 & d3 & [= <- <-] & Hd).
  apply bind_Ok in Hd as (epoch & d2 & [_ ->]%lift_Ok & Hd). change (observed ?t ?s ?k (set_uuids n (set_sources m d))) with (observed t s k d) in Hd.
  destruct (observed _ _ _ d) as [[k o]|] eqn:E.
  - apply bind_Ok in Hd as ([] & d2 & [Hf ->]%require_Ok & Hd). apply ueqb_eq in Hf. destruct (ob_state o) eqn:Es; [..|by destruct (iq_retry r)].
    1-3: apply bind_Ok in Hd as ([] & d2 & [Hr ->]%require_Ok & [= <- <-]); apply negb_true_iff in Hr; exists m, n, s; repeat (split; [done|]); cbn;
      apply (decided_replay _ _ _ o); cbn; try done; rewrite Es; set_solver.
    apply bind_Ok in Hd as ([] & d2 & [Hr ->]%require_Ok & Hd). apply bind_Ok in Hd as ([] & d2 & [He ->]%require_Ok & [= <- <-]). apply bool_decide_eq_true in He.
    exists m, n, s. repeat (split; [done|]). by apply (decided_retry _ _ _ o).
  - apply bind_Ok in Hd as ([] & d2 & [Hr ->]%require_Ok & Hd). apply bind_Ok in Hd as (id & d3 & [= <- <-] & [= <- <-]). apply negb_true_iff in Hr.
    exists m, (S n), s. split; [done|]. repeat (split; [done|]). by apply decided_new.
Qed.

(** The observation that a reservation writes, and its attempt. *)
Definition reserved_as (r : ingest_request) (a : ObservationAdmission) (execution : ustr) (d : observatory) (o' : observation_row) : Prop :=
  if ad_retry a then exists o, y_observations d !! ad_observation a = Some o /\ ob_team o = iq_team r /\ ob_state o = OB_failed /\ ob_generation o = ad_generation a - 1 /\ o' = retried_row now r a execution o
  else y_observations d !! ad_observation a = None /\ observed (iq_team r) (ad_source a) (ad_key a) d = None /\ o' = reserved_row now r a execution.
Definition attempted (r : ingest_request) (a : ObservationAdmission) (execution attempt : ustr) : attempt_row :=
  Build_attempt_row attempt (iq_team r) (iq_task r) execution AT_reserved (None, None) (if ad_retry a then 1 else 0) 0 None now None None.

Lemma reserve_observation_Ok r a execution d x d' : reserve_observation now r a execution d = Ok (x, d') ->
  exists o', d' = set_observations (<[ad_observation a := o']> (y_observations d)) d /\ reserved_as r a execution d o'.
Proof.
  unfold reserve_observation, reserved_as. intros (d0 & d1 & [= <- <-] & Hd)%bind_Ok. destruct (ad_retry a).
  - destruct (y_observations d !! ad_observation a) as [o|] eqn:E; [|done]. apply bind_Ok in Hd as ([] & d1 & [Hr ->]%require_Ok & [= _ <-]).
    eexists. split; [reflexivity|]. exists o. breflect. split_and!; try done; [by apply ueqb_eq|lia].
  - apply bind_Ok in Hd as ([] & d1 & [Hr ->]%require_Ok & [= _ <-]). breflect. eexists. split; [reflexivity|done].
Qed.

Lemma reserve_Ok r a execution d x d' : reserve uuid7 now r a execution d = Ok (x, d') ->
  exists o' attempt, y_observations d' = <[ad_observation a := o']> (y_observations d)
    /\ y_attempts d' = <[(ad_observation a, ad_generation a) := attempted r a execution attempt]> (y_attempts d)
    /\ y_sources d' = y_sources d /\ y_links d' = y_links d /\ reserved_as r a execution d o'
    /\ (forall e c, y_executions d' !! e = Some c -> y_executions d !! e = Some c \/ exists s, c = admitted (iq_team r) a s).
Proof.
  unfold reserve. intros ([] & d1 & (o' & -> & Ho)%reserve_observation_Ok & Hd)%bind_Ok. apply bind_Ok in Hd as (id & d1 & [= <- <-] & Hd).
  apply bind_Ok in Hd as (d0 & d1 & [= <- <-] & Hd). apply bind_Ok in Hd as ([] & d1 & [_ ->]%require_Ok & Hd).
  apply bind_Ok in Hd as ([] & d1 & [= <-] & Hd). apply bind_Ok in Hd as ([] & d2 & (h & n & ->)%record_attempt_Ok & [= _ <-]).
  exists o', (uuid7 (y_uuids d)). unfold bind_task, bind_execution. cbn [y_tasks y_executions set_history set_uuids set_attempts set_observations].
  destruct (y_tasks d !! _) as [t|]; cbn [y_executions set_tasks set_history set_uuids set_attempts set_observations];
    (destruct (y_executions d !! execution) as [c'|] eqn:E; [destruct (ueqb _ _)|]); (repeat (split; [done|]));
    cbn [y_executions set_executions set_tasks set_history set_uuids set_attempts set_observations];
    try (intros e c0 Hc; left; exact Hc); intros e c0 [[_ <-]|[_ Hc]]%lookup_insert_Some; eauto.
Qed.

(** [admit_request] answers with a task, or reserves the attempt it has decided. *)
Inductive admission (r : ingest_request) (execution : ustr) (d d' : observatory) : option ustr -> Prop :=
  | admission_known : is_Some (y_tasks d !! (iq_team r, iq_task r)) -> d' = d -> admission r execution d d' (Some (iq_task r))
  | admission_replay a n m s : y_tasks d !! (iq_team r, iq_task r) = None -> decided r d a -> ad_replay a <> None ->
      d' = set_uuids n (set_sources m d) -> sources_move (y_sources d) m -> m !! origin r = Some s -> og_uuid s = ad_source a ->
      ad_key a = (observation_key r).1 -> fingerprint r = Ok (ad_fingerprint a) -> admission r execution d d' (ad_replay a)
  | admission_reserved a o' attempt s : decided r d a -> ad_replay a = None -> ad_key a = (observation_key r).1 -> fingerprint r = Ok (ad_fingerprint a) ->
      y_sources d' !! origin r = Some s -> og_uuid s = ad_source a -> reserved_as r a execution d o' ->
      written d d' (ad_observation a) o' (attempted r a execution attempt) -> admission r execution d d' None.

Lemma reserved_may r a execution d o' : decided r d a -> ad_replay a = None -> reserved_as r a execution d o' ->
  may_become d (ad_observation a) o' /\ ob_generation o' = ad_generation a /\ ob_state o' = OB_reserved /\ forall attempt, follows o' (attempted r a execution attempt).
Proof.
  unfold reserved_as, may_become. intros Hd Hr Hs. destruct (ad_retry a) eqn:E.
  - destruct Hs as (o & Ho & Ht & Hf & Hg & ->). rewrite Ho. repeat apply conj; [| |done|done|by split]; [|right; split; [cbn; lia|done]].
    split; cbn; [done|lia|congruence|intros _ ?; lia].
  - destruct Hs as (Hk & Hn & ->). rewrite Hk. inversion Hd; try congruence; cbn. repeat apply conj; try done. intros j p Hj [= ? ? ?]. by destruct (observed_None _ _ _ _ Hn j p Hj).
Qed.

Lemma admit_Ok r descriptor execution d x d' : consistent d -> admit_request uuid7 now r descriptor execution d = Ok (x, d') -> admission r execution d d' x.
Proof.
  intros C (t & d1 & [= <- <-] & Hd)%bind_Ok. destruct (y_tasks d !! (iq_team r, iq_task r)) as [t0|] eqn:Et.
  { apply bind_Ok in Hd as ([] & d1 & [_ ->]%require_Ok & [= <- <-]). by apply admission_known. }
  apply bind_Ok in Hd as (a & d1 & (m & n & s & -> & Hm & Hs & Hu & Hk & Hf & Hdec)%resolve_Ok & Hd). destruct (ad_replay a) as [task|] eqn:Er.
  { injection Hd as <- <-. rewrite <-Er. eapply admission_replay; try done. congruence. }
  apply bind_Ok in Hd as ([] & d1 & Hi & Hd). apply bind_Ok in Hi as (es & d2 & [= <- <-] & Hi). apply bind_Ok in Hi as ([] & d2 & [_ ->]%require_Ok & [= <-]).
  apply bind_Ok in Hd as ([] & d2 & (o' & attempt & Ho & Ha & Hso & Hl & Hr & He)%reserve_Ok & [= <- <-]).
  destruct (reserved_may r a execution d o' Hdec Er Hr) as (Hmay & Hgen & Hst & Hfo).
  eapply (admission_reserved _ _ _ _ a o' attempt s); try done; [by rewrite Hso|].
  split; try done; [by rewrite Ha, Hgen|by rewrite Hso|by rewrite decide_False by (by rewrite Hst)|].
  rewrite Ha. intros e c0 [Hc|[sn ->]]%He.
  - cbn [y_executions set_executions] in Hc. apply lookup_insert_Some in Hc as [[_ <-]|[_ Hc]]; [intros k [=]|]. apply refers_insert. by eapply (cs_executions _ C).
  - intros k [= <-]. exists (ad_generation a). split; [done|]. rewrite lookup_insert_eq. eauto.
Qed.
End operations.

(** ** Runs *)

Section runs.
Context {H : Host}.

(** A transaction on the observations, or one of another part of the program: it may add
    sources and executions without an observation, and change what else an execution has. *)
Inductive observation_step (d d' : observatory) : Prop :=
  | admit_step uuid7 now r descriptor execution x : admit_request uuid7 now r descriptor execution d = Ok (x, d') -> observation_step d d'
  | inherit_step previous execution x : inherit_observation previous execution d = Ok (x, d') -> observation_step d d'
  | acquired_step uuid7 now team execution artifact x : mark_acquired uuid7 now team execution artifact d = Ok (x, d') -> observation_step d d'
  | accepted_step uuid7 now team execution snapshot x : mark_accepted uuid7 now team execution snapshot d = Ok (x, d') -> observation_step d d'
  | failed_step uuid7 now team execution error x : mark_failed uuid7 now team execution error d = Ok (x, d') -> observation_step d d'
  | outside_step : y_observations d' = y_observations d -> y_attempts d' = y_attempts d -> y_links d' = y_links d -> sources_move (y_sources d) (y_sources d') ->
      (forall e c, y_executions d' !! e = Some c -> co_observation c = None \/ exists c0, y_executions d !! e = Some c0 /\ (co_observation c0, co_generation c0) = (co_observation c, co_generation c)) -> observation_step d d'.

Lemma outside_consistent d d' : y_observations d' = y_observations d -> y_attempts d' = y_attempts d -> y_links d' = y_links d ->
  (forall e c, y_executions d' !! e = Some c -> refers (y_attempts d) c) -> consistent d -> consistent d'.
Proof. intros Ho Ha Hl He [C1 C2 C3 C4 C5 C6 C7]. split; rewrite ?Ho, ?Ha, ?Hl; done. Qed.
Lemma unchanged_moves d d' : y_observations d' = y_observations d -> sources_move (y_sources d) (y_sources d') -> moves d d'.
Proof. intros Ho Hs. split; [|done]. rewrite Ho. apply evolves_refl; apply _. Qed.
Lemma marks_sound d d' : consistent d -> marks d d' -> consistent d' /\ moves d d'.
Proof. intros C [-> | (k & o' & a' & W)]; [by split; [|reflexivity]|]. split; [by eapply written_consistent|by eapply written_moves]. Qed.

Lemma admission_sound now r e0 d d' x : consistent d -> admission now r e0 d d' x -> consistent d' /\ moves d d'.
Proof.
  intros C A. destruct A as [_ ->|a n m s _ _ _ -> Hm _ _ _ _|a o' t s _ _ _ _ _ _ _ W].
  - by split; [|reflexivity].
  - split; [|by apply unchanged_moves]. apply (outside_consistent d); try done. intros e c. apply (cs_executions _ C).
  - split; [by eapply written_consistent|by eapply written_moves].
Qed.

Lemma step_sound d d' : consistent d -> observation_step d d' -> consistent d' /\ moves d d'.
Proof.
  intros C [uuid7 now r s e x Hd|p e x Hd|uuid7 now t e a x Hd|uuid7 now t e s x Hd|uuid7 now t e r x Hd|Ho Ha Hl Hs He].
  - eapply admission_sound; [done|]. by eapply admit_Ok.
  - apply bind_Ok in Hd as (es & d1 & [= <- <-] & Hd). destruct (y_executions d !! p) as [c|] eqn:E; [|done].
    apply bind_Ok in Hd as ([] & d1 & [_ ->]%require_Ok & [= _ <-]). split; [|apply unchanged_moves; [done|apply evolves_refl; apply _]].
    apply (outside_consistent d); try done. intros k j Hj. eapply set_executions_refers; [apply (cs_executions _ C)|by eapply (cs_executions _ C)|exact Hj].
  - apply marks_sound; [done|]. by eapply mark_acquired_marks.
  - apply marks_sound; [done|]. by eapply mark_accepted_marks.
  - apply marks_sound; [done|]. by eapply mark_failed_marks.
  - split; [|by apply unchanged_moves]. apply (outside_consistent d); try done.
    intros e c [Hn|(c0 & Hc & [= E1 E2])]%He k Hk; [congruence|]. rewrite <-E1 in Hk. destruct (cs_executions _ C _ _ Hc _ Hk) as (g & Hg & Hga). exists g. split; [congruence|done].
Qed.
Lemma run_sound d d' : consistent d -> rtc observation_step d d' -> consistent d' /\ moves d d'.
Proof.
  intros C R. induction R as [d|d1 d2 d3 S R IH]; [by split; [|reflexivity]|]. destruct (step_sound _ _ C S) as [C2 M]. destruct (IH C2) as [C3 M2].
  split; [done|]. by etrans.
Qed.

(** whatever the sequence of admissions, retries, marks and transactions of other parts,
    observations stay consistent: the current attempt of each agrees with its state, team,
    task and execution, the attempts are numbered from 1 to its generation, all earlier ones
    have failed, no two observations have the same team, source and key, a snapshot is linked
    exactly to the accepted ones, and an execution names an attempt that exists.  No
    observation disappears or changes its coordinates or fingerprint, its generation never
    decreases, an accepted one is final, and a failed one changes only with its generation. *)
Theorem observations_stay_consistent d d' : consistent d -> rtc observation_step d d' -> consistent d' /\ moves d d'.
Proof. apply run_sound. Qed.

Lemma source_kept d d' k s s' : sources_move (y_sources d) (y_sources d') -> y_sources d !! k = Some s -> y_sources d' !! k = Some s' -> s' = s.
Proof. intros Hm Hs Hs'. destruct (evolves_lookup _ _ _ _ _ _ Hm Hs) as (s2 & H2 & ->). congruence. Qed.

(** The observation that an admission finds when it is not the first of its coordinates. *)
Lemma decided_found r d a k o : consistent d -> decided r d a -> y_observations d !! k = Some o -> at_coordinates (iq_team r) (ad_source a) (ad_key a) o ->
  k = ad_observation a /\ ob_fingerprint o = ad_fingerprint a /\
  ((ob_state o = OB_failed /\ iq_retry r = true /\ iq_expected r = Some (ob_generation o) /\ ad_retry a = true /\ ad_replay a = None /\ ad_generation a = ob_generation o + 1)
   \/ (ob_state o <> OB_failed /\ iq_retry r = false /\ ad_replay a = Some (default (u "None") (ob_task o)))).
Proof.
  intros C D Hk (Ht & Hs & Hy). pose proof (observed_unique _ _ _ C Hk) as Hob. rewrite Ht, Hs, Hy in Hob.
  destruct D as [Hn|p Hp|p Hp Hf Hst]; rewrite Hob in *; [done|..]; injection Hp as [= <- <-]; (split; [done|]); (split; [done|]); [left; done|].
  right. split; [|done]. intros Hfa. rewrite Hfa in Hst. set_solver.
Qed.

(** What the first admission leaves behind. *)
Lemma admission_leaves now r e d d' : consistent d -> admission now r e d d' None -> exists k o s f, y_observations d' !! k = Some o /\ fingerprint r = Ok f /\ ob_fingerprint o = f
  /\ y_sources d' !! origin r = Some s /\ at_coordinates (iq_team r) (og_uuid s) (observation_key r).1 o.
Proof.
  intros C A. inversion A as [|? ? ? ? ? ? Hr|a o' t s Hd Hr Hk Hf Hs Hu Has W]; subst; [done|]. exists (ad_observation a), o', s, (ad_fingerprint a).
  split; [by eapply new_row|]. split; [done|]. unfold reserved_as in Has. rewrite Hu, <-Hk. destruct (ad_retry a) eqn:Er.
  - destruct Has as (o & Ho & ? & ? & ? & ->). destruct Hd as [|p Hp Hfp|p Hp Hfp]; [congruence|..]; apply observed_Some in Hp as [Hp Hat];
      rewrite Ho in Hp; injection Hp as ->; done.
  - destruct Has as (_ & _ & ->). done.
Qed.

(** C19: one attempt at a time.  After a request reserved an observation, and after any later
    transactions, a second request of a task that does not exist yet, with the same source and
    observation key, that [create] answers has the fingerprint of the first; while the current
    attempt has not failed it is answered with the task that owns it and reserves nothing, and
    when the attempt has failed it asked for the retry of exactly this generation and reserves
    the next one. *)
Theorem observation_is_single_flight uuid7 now r descriptor execution d0 d1 uuid7' now' r' descriptor' execution' d2 x d3 :
  consistent d0 ->
  admit_request uuid7 now r descriptor execution d0 = Ok (None, d1) ->
  rtc observation_step d1 d2 ->
  origin r' = origin r -> (observation_key r').1 = (observation_key r).1 ->
  y_tasks d2 !! (iq_team r', iq_task r') = None ->
  admit_request uuid7' now' r' descriptor' execution' d2 = Ok (x, d3) ->
  exists k o a, y_observations d2 !! k = Some o /\ y_attempts d2 !! (k, ob_generation o) = Some a
    /\ fingerprint r = Ok (ob_fingerprint o) /\ fingerprint r' = Ok (ob_fingerprint o)
    /\ ((tt_state a <> AT_failed /\ iq_retry r' = false /\ x = Some (tt_task a) /\ y_observations d3 = y_observations d2 /\ y_attempts d3 = y_attempts d2)
        \/ (tt_state a = AT_failed /\ iq_retry r' = true /\ iq_expected r' = Some (ob_generation o) /\ x = None
            /\ exists o', y_observations d3 = <[k := o']> (y_observations d2) /\ ob_generation o' = ob_generation o + 1 /\ ob_state o' = OB_reserved
                 /\ ob_task o' = Some (iq_task r') /\ ob_execution o' = Some execution')).
Proof.
  intros C0 A1%admit_Ok R Horigin Hkey Hnew A2; [|done]. destruct (admission_sound _ _ _ _ _ _ C0 A1) as [C1 _].
  destruct (admission_leaves _ _ _ _ _ C0 A1) as (k & o & s & f & Hk & Hf & Hof & Hs & Ht & Hos & Hok).
  destruct (run_sound _ _ C1 R) as [C2 [Mo Ms]]. apply admit_Ok in A2; [|done].
  destruct (evolves_lookup _ _ _ _ _ _ Mo Hk) as (o2 & Hk2 & [Hc _ _ _]). destruct (evolves_lookup _ _ _ _ _ _ Ms Hs) as (s2 & Hs2 & <-).
  destruct (cs_current _ C2 _ _ Hk2) as (_ & a & Ha & Hfo). exists k, o2, a. split; [done|]. split; [done|].
  assert (ob_fingerprint o2 = f) as Hf2 by congruence. split; [by rewrite Hf2|]. assert (iq_team r' = iq_team r) as Hteam by (unfold origin in Horigin; congruence).
  assert (forall s', og_uuid s' = og_uuid s -> at_coordinates (iq_team r') (og_uuid s') (observation_key r').1 o2) as Hat by (intros s' ->; rewrite Hkey; unfold at_coordinates; split_and!; congruence).
  destruct A2 as [[? Hold] _|b n m s' _ D Hb -> Hm Hs' Hu Hbk Hbf|b o' t s' D Hb Hbk Hbf Hs' Hu Has W].
  - congruence.
  - rewrite Horigin in Hs'. assert (s' = s) as -> by (by eapply (source_kept d2 (set_sources m d2))). rewrite Hu in *.
    destruct (decided_found _ _ _ _ _ C2 D Hk2) as (-> & Hfp & [(_ & _ & _ & _ & ? & _)|(Hst & Hr & ->)]); [by rewrite Hbk, <-Hu; apply Hat|congruence|].
    split; [congruence|]. left. rewrite (fo_state _ _ Hfo), (fo_task _ _ Hfo). by destruct (ob_state o2).
  - rewrite Horigin in Hs'. assert (s' = s) as -> by (by eapply (source_kept d2 d3); [apply W|..]).
    destruct (decided_found _ _ _ _ _ C2 D Hk2) as (-> & Hfp & [(Hst & Hr & He & Hre & _ & Hg)|(_ & _ & ?)]); [by rewrite Hbk, <-Hu; apply Hat| |congruence].
    split; [congruence|]. right. rewrite (fo_state _ _ Hfo), Hst. repeat (split; [done|]). exists o'. split; [apply W|].
    unfold reserved_as in Has. rewrite Hre in Has. destruct Has as (p & _ & _ & _ & _ & ->). done.
Qed.

(** C27: once an attempt has failed, it cannot be acquired any more: whatever happens later,
    as long as no retry is admitted, every execution of the observation that acquires its
    content is refused with [OBSERVATION_ATTEMPT_CONFLICT], and none is accepted. *)
Theorem failed_attempt_needs_retry uuid7 now team execution error d0 d1 d2 k o0 o :
  consistent d0 ->
  identity_for_execution team execution d0 = Some (k, o0) -> (ob_state o0 = OB_reserved \/ ob_state o0 = OB_acquired) ->
  mark_failed uuid7 now team execution error d0 = Ok (tt, d1) ->
  rtc observation_step d1 d2 ->
  y_observations d2 !! k = Some o -> ob_generation o = ob_generation o0 ->
  ob_state o = OB_failed /\ ob_error o = Some error /\
  forall uuid7' now' team' execution',
    identity_for_execution team' execution' d2 = Some (k, o) ->
    (forall artifact, mark_acquired uuid7' now' team' execution' artifact d2 = Err ATTEMPT_CONFLICT)
    /\ (forall snapshot x d3, mark_accepted uuid7' now' team' execution' snapshot d2 <> Ok (x, d3)).
Proof.
  intros C0 Hi Hopen Hd R Hk Hg. pose proof (mark_failed_Ok _ _ _ _ _ _ _ _ _ _ C0 Hi Hd) as Hm. rewrite decide_True in Hm by done. destruct Hm as [a' W].
  destruct (run_sound _ _ (written_consistent _ _ _ _ _ W C0) R) as [C2 [Mo _]]. pose proof (new_row _ _ _ _ _ W) as H1.
  destruct (evolves_lookup _ _ _ _ _ _ Mo H1) as (o2 & H2 & [_ _ _ Hfin]). assert (o2 = o) as -> by congruence. rewrite (Hfin eq_refl Hg) in *. split; [done|]. split; [done|].
  intros uuid7' now' team' execution' Hi'. destruct (current_Some _ _ _ _ _ C2 Hi') as (a & Ha & Hc & [F1 _ _ _ _]). cbn in F1. split.
  - intros artifact. unfold mark_acquired, bind, gets. cbn. rewrite Hi'. cbn. rewrite Hc, F1. done.
  - intros snapshot x d3 (p & q & [= <- <-] & Hacc)%bind_Ok. rewrite Hi' in Hacc. apply bind_Ok in Hacc as ([] & q & [_ ->]%require_Ok & Hacc).
    apply bind_Ok in Hacc as ([] & q & [= <-] & Hacc). rewrite Hc in Hacc. apply bind_Ok in Hacc as ([] & q & _ & Hacc).
    apply bind_Ok in Hacc as ([] & q2 & [[=] _]%require_Ok & _).
Qed.
End runs.
