(* ===== verification/ObservationSamples.v ===== *)
(** * A run of an observation

    A first request, the failure of its attempt, the retry that another task asks for, its
    acquisition and acceptance, and a late request that is answered with the task of the
    retry: the concrete inputs at which the laws of observations are applied. *)

From S2P Require Import Prelude PyText PyValue Txn Objects Observations ObservationLaws.

Open Scope Z_scope.
Open Scope mkb_scope.

Module ObservationSamples.
#[export] Existing Instance test_host.
Definition uuids (n : nat) : ustr := u "id-" ++ dec (Z.of_nat n).
Definition team : ustr := u "team".
Definition hex : ustr := Eval vm_compute in test_digest [1].
Definition descriptor : ustr * ustr := (u "manifest", hex).
Definition request (task : string) (retry : bool) (expected : option Z) : ingest_request :=
  Build_ingest_request team (u task) hex (u "inline_payload") (u " Guide ") (Some (u "monday")) retry expected (fields [("text", PStr (u "Some text."))]%string).
Definition initial : observatory :=
  Build_observatory {[ u "inline_payload" := hex ]} ∅ ∅ ∅ ∅ ∅ ∅ ∅ ∅ ∅ 0.
Definition after {A} (r : result (A * observatory)) : observatory := match r with Ok (_, d) => d | Err _ => initial end.

Definition first : ingest_request := request "task-1" false None.
Definition again : ingest_request := request "task-2" true (Some 1).
Definition late : ingest_request := request "task-3" false None.
Definition reserved := Eval vm_compute in after (admit_request uuids 1000 first descriptor (u "execution-1") initial).
Definition failed := Eval vm_compute in after (mark_failed uuids 2000 team (u "execution-1") (u "ACQUISITION_FAILED") reserved).
Definition retried := Eval vm_compute in after (admit_request uuids 3000 again descriptor (u "execution-2") failed).
Definition acquired := Eval vm_compute in after (mark_acquired uuids 4000 team (u "execution-2") (Some (u "artifact"), Some hex) retried).
Definition snapshotted := Eval vm_compute in
  Build_observatory (y_kinds acquired) (y_sources acquired) (y_items acquired) (y_observations acquired) (y_attempts acquired) (y_history acquired)
    (y_links acquired) {[ (team, u "snapshot") := Build_snapshot_row (uuids 0) (u "monday") hex hex (u "execution-2") (u "raw") 4000 4500 ]} (y_tasks acquired) (y_executions acquired) (y_uuids acquired).
Definition accepted := Eval vm_compute in after (mark_accepted uuids 5000 team (u "execution-2") (u "snapshot") snapshotted).
Definition observation : ustr := uuids 1.

(** The first reservation, its failure, what is refused then, the retry, and the answer to
    the late request. *)
Example request_reserves : admit_request uuids 1000 first descriptor (u "execution-1") initial = Ok (None, reserved).
Proof. vm_cast_no_check (eq_refl (Ok (A := option ustr * observatory) (None, reserved))). Qed.
Example attempt_fails : mark_failed uuids 2000 team (u "execution-1") (u "ACQUISITION_FAILED") reserved = Ok (tt, failed).
Proof. vm_cast_no_check (eq_refl (Ok (A := unit * observatory) (tt, failed))). Qed.
Example retry_is_required : admit_request uuids 3000 (request "task-2" false None) descriptor (u "execution-2") failed = Err (MkbError "OBSERVATION_FAILED_RETRY_REQUIRED" 409).
Proof. vm_compute. reflexivity. Qed.
Example stale_retry_is_refused : admit_request uuids 3000 (request "task-2" true (Some 2)) descriptor (u "execution-2") failed = Err ATTEMPT_CONFLICT.
Proof. vm_compute. reflexivity. Qed.
Example retry_reserves : admit_request uuids 3000 again descriptor (u "execution-2") failed = Ok (None, retried).
Proof. vm_cast_no_check (eq_refl (Ok (A := option ustr * observatory) (None, retried))). Qed.
Example retry_is_accepted : mark_accepted uuids 5000 team (u "execution-2") (u "snapshot") snapshotted = Ok (tt, accepted).
Proof. vm_cast_no_check (eq_refl (Ok (A := unit * observatory) (tt, accepted))). Qed.
Example late_request_is_answered : admit_request uuids 6000 late descriptor (u "execution-3") accepted = Ok (Some (u "task-2"), accepted).
Proof. vm_cast_no_check (eq_refl (Ok (A := option ustr * observatory) (Some (u "task-2"), accepted))). Qed.
(** A worker of the first execution that fails once more after the retry was admitted fails
    the attempt of the retry. *)
Example late_worker_fails_retry :
  let d := after (mark_failed uuids 4000 team (u "execution-1") (u "ACQUISITION_FAILED") retried) in
  (ob_state <$> y_observations d !! observation) = Some OB_failed
  /\ (tt_execution <$> y_attempts d !! (observation, 2)) = Some (u "execution-2") /\ (tt_state <$> y_attempts d !! (observation, 2)) = Some AT_failed.
Proof. vm_compute. repeat split. Qed.

Lemma initial_consistent : consistent initial.
Proof. split; intros; discriminate. Qed.
Lemma identity_reserved : exists o, identity_for_execution team (u "execution-1") reserved = Some (observation, o) /\ ob_state o = OB_reserved /\ ob_generation o = 1.
Proof. eexists. split; [vm_compute; reflexivity|done]. Qed.
Lemma reserved_consistent : consistent reserved.
Proof. apply (run_sound initial); [exact initial_consistent|]. eapply rtc_l; [|apply rtc_refl]. exact (admit_step _ _ _ _ _ _ _ _ request_reserves). Qed.

Lemma observations_stay_consistent_witness : consistent accepted /\ moves initial accepted.
Proof.
  refine (observations_stay_consistent initial accepted initial_consistent _).
  eapply rtc_l; [exact (admit_step _ _ _ _ _ _ _ _ request_reserves)|].
  eapply rtc_l; [exact (failed_step _ _ _ _ _ _ _ _ attempt_fails)|].
  eapply rtc_l; [exact (admit_step _ _ _ _ _ _ _ _ retry_reserves)|].
  eapply rtc_l; [apply (acquired_step _ acquired uuids 4000 team (u "execution-2") (Some (u "artifact"), Some hex) tt); vm_cast_no_check (eq_refl (Ok (A := unit * observatory) (tt, acquired)))|].
  eapply rtc_l; [apply (outside_step _ snapshotted); [reflexivity..|apply evolves_refl; apply _|intros e c Hc; right; exists c; split; [exact Hc|done]]|].
  eapply rtc_l; [exact (accepted_step _ _ _ _ _ _ _ _ retry_is_accepted)|apply rtc_refl].
Defined.
Lemma observation_is_single_flight_witness : exists k o, y_observations retried !! k = Some o /\ ob_task o = Some (u "task-2") /\ ob_generation o = 2.
Proof.
  destruct (observation_is_single_flight uuids 1000 first descriptor (u "execution-1") initial reserved uuids 3000 again descriptor (u "execution-2") failed None retried
    initial_consistent request_reserves (rtc_once _ _ (failed_step _ _ _ _ _ _ _ _ attempt_fails)) eq_refl eq_refl eq_refl retry_reserves)
    as (k & o & a & _ & _ & _ & _ & [(_ & [=] & _)|(_ & _ & [= He] & _ & o' & Hd & Hg & _ & Ht & _)]).
  exists k, o'. rewrite Hd, Hg, <-He, lookup_insert_eq. repeat split. exact Ht.
Defined.
Lemma failed_attempt_needs_retry_witness : exists o, identity_for_execution team (u "execution-1") failed = Some (observation, o) /\
  mark_acquired uuids 3000 team (u "execution-1") (None, None) failed = Err ATTEMPT_CONFLICT.
Proof.
  destruct identity_reserved as (o0 & Hi & Hs & Hg). pose proof (proj1 (identity_Some _ _ _ _ _ Hi)) as Hk. injection Hk as Hk. subst o0.
  eexists. split; [vm_compute; reflexivity|].
  refine (proj1 (proj2 (proj2 (failed_attempt_needs_retry uuids 2000 team (u "execution-1") (u "ACQUISITION_FAILED") reserved failed failed observation _ _
    reserved_consistent Hi (or_introl Hs) attempt_fails (rtc_refl _ _) eq_refl eq_refl)) uuids 3000 team (u "execution-1") _) _). reflexivity.
Defined.
End ObservationSamples.
