(* ===== verification/Semantics.v ===== *)
(** * The semantics of a revision

    Model of [src/contracts/intake/semantics.py] and of the semantics in
    [src/runtime/intake/acceptance_snapshot.py] and [acceptance_lifecycle.py]: the filter and
    context metadata with their six tuples, the ten semantic values of an accepted revision
    with their digests and fingerprint, and the merge of a metadata update.

    Models are strict; [depth] is how deep the interpreter lets [json.loads] nest.  An entry is
    kept as far as the stages read it. *)

From S2P Require Import Prelude PyText PyValue PyFloat Json PublicData VectorContracts.

Open Scope Z_scope.
Open Scope mkb_scope.

(** ** Text lines *)

Definition is_line_end (c : Z) : bool := bool_decide (c ∈ [10; 11; 12; 13; 28; 29; 30; 133; 8232; 8233]).
(** [str.splitlines] *)
Fixpoint splitlines (s : ustr) : list ustr :=
  match s with
  | [] => []
  | c :: r =>
      if c =? 13 then [] :: match r with d :: r' => if d =? 10 then splitlines r' else splitlines r | [] => [] end
      else if is_line_end c then [] :: splitlines r
      else match splitlines r with [] => [[c]] | w :: ws => (c :: w) :: ws end
  end.

Section semantics.
Context {H : Host} {F : FloatText} (depth : nat).

(** ** Metadata *)

Record FilterMeta := { fm_realm : ustr; fm_type : ustr; fm_channel : ustr; fm_source : ustr; fm_active : Z }.
(** The bounds of a field and [reject_unknown]. *)
Definition known_name (most : Z) (s : ustr) : result ustr :=
  check bounded_text most s else ValueError ;;
  check negb (blank s) && negb (ueqb (casefold (strip s)) (u "unknown")) else ValueError ;;
  Ok (strip s).
Definition parse_filter (v : pyval) : result FilterMeta :=
  match v with
  | PDict d =>
      check no_unknown ["realm"; "type"; "channel"; "source_name"; "is_active"]%string d else ValueError ;;
      let* realm := (let* s := text_field d "realm" in known_name 256 s) in
      let* type := (let* s := text_field d "type" in known_name 256 s) in
      let* channel := (let* s := text_field d "channel" in known_name 256 s) in
      let* source := (let* s := text_field d "source_name" in known_name 512 s) in
      let* active := int_field d "is_active" None in
      check (active =? 0) || (active =? 1) else ValueError ;;
      Ok (Build_FilterMeta realm type channel source active)
  | _ => Err ValueError
  end.
Definition dump_filter (f : FilterMeta) : pyval :=
  obj [("realm", PStr (fm_realm f)); ("type", PStr (fm_type f)); ("channel", PStr (fm_channel f)); ("source_name", PStr (fm_source f)); ("is_active", PInt (fm_active f))]%string.

Record ContextMeta := { cm_realm : ustr; cm_type : ustr; cm_channel : ustr; cm_source : ustr; cm_title : ustr; cm_tags : list ustr }.
Definition context_bounds (c : ContextMeta) : bool :=
  bounded_text 256 (cm_realm c) && bounded_text 256 (cm_type c) && bounded_text 256 (cm_channel c) && bounded_text 512 (cm_source c) && bounded_text 4096 (cm_title c)
  && (Z.of_nat (length (cm_tags c)) <=? 256).
Definition make_context (c : ContextMeta) : result ContextMeta := check context_bounds c else ValueError ;; Ok c.
Definition parse_tags (d : pydict) : result (list ustr) :=
  match raw_field d "tags" with None => Ok [] | Some (PList l) => text_items l | Some _ => Err ValueError end.
Definition parse_context (v : pyval) : result ContextMeta :=
  match v with
  | PDict d =>
      check no_unknown ["realm"; "type"; "channel"; "source_name"; "title"; "tags"]%string d else ValueError ;;
      let* realm := text_field d "realm" in
      let* type := text_field d "type" in
      let* channel := text_field d "channel" in
      let* source := text_field d "source_name" in
      let* title := text_field d "title" in
      let* tags := parse_tags d in
      make_context (Build_ContextMeta realm type channel source title tags)
  | _ => Err ValueError
  end.
Definition dump_context (c : ContextMeta) : pyval :=
  obj [("realm", PStr (cm_realm c)); ("type", PStr (cm_type c)); ("channel", PStr (cm_channel c)); ("source_name", PStr (cm_source c)); ("title", PStr (cm_title c));
       ("tags", texts (cm_tags c))]%string.

Definition TUPLE_KEYS : list string := ["realm"; "type"; "channel"; "source_name"; "is_active"; "context_tags"]%string.
Definition PROVENANCES : list string := ["caller"; "mapper"; "system"]%string.
Record SemanticTuple := { st_key : ustr; st_value : pyval; st_provenance : ustr }.
Definition parse_tuple (v : pyval) : result SemanticTuple :=
  match v with
  | PDict d =>
      check no_unknown ["semantic_key"; "definition_version"; "value"; "provenance"]%string d else ValueError ;;
      let* key := text_field d "semantic_key" in
      check bool_decide (key ∈ map u TUPLE_KEYS) else ValueError ;;
      let* _ := literal_field d "definition_version" "v1" in
      let* value := match raw_field d "value" with Some (PStr s) => Ok (PStr s) | Some (PInt z) => Ok (PInt z) | _ => Err ValueError end in
      let* provenance := text_field d "provenance" in
      check bool_decide (provenance ∈ map u PROVENANCES) else ValueError ;;
      Ok (Build_SemanticTuple key value provenance)
  | _ => Err ValueError
  end.
Definition dump_tuple (t : SemanticTuple) : pyval :=
  obj [("semantic_key", PStr (st_key t)); ("definition_version", PStr (u "v1")); ("value", st_value t); ("provenance", PStr (st_provenance t))]%string.

Definition joined_tags (c : ContextMeta) : ustr := str_join [10] (cm_tags c).
(** The values of the six tuples. *)
Definition six_values (f : FilterMeta) (c : ContextMeta) : list (string * pyval) :=
  [("realm", PStr (fm_realm f)); ("type", PStr (fm_type f)); ("channel", PStr (fm_channel f)); ("source_name", PStr (fm_source f)); ("is_active", PInt (fm_active f));
   ("context_tags", PStr (joined_tags c))]%string.
Definition semantic_tuples (f : FilterMeta) (c : ContextMeta) (provenance : string) : list SemanticTuple :=
  map (fun kv => Build_SemanticTuple (u kv.1) kv.2 (u provenance)) (six_values f c).

(** The text of a field that is a text with a visible character. *)
Definition visible_text (v : option pyval) : option ustr := match v with Some (PStr s) => if blank s then None else Some s | _ => None end.
Definition or_none (v : option pyval) : pyval := default PNone v.
Definition generic_semantic_authority (descriptor : pydict) : result (FilterMeta * ContextMeta * list SemanticTuple) :=
  let get k := raw_field descriptor k in
  let* f := parse_filter (obj [("realm", or_none (get "realm")); ("type", or_none (get "type")); ("channel", or_none (get "channel"));
                               ("source_name", or_none (get "source_name")); ("is_active", PInt 1)]%string) in
  let tags := or_none (get "context_tags"%string) in
  let* c := parse_context (obj [("realm", PStr (fm_realm f)); ("type", PStr (fm_type f)); ("channel", PStr (fm_channel f)); ("source_name", PStr (fm_source f));
                                ("title", PStr (match visible_text (get "title"%string) with Some s => strip s | None => fm_source f end));
                                ("tags", if truthy tags then tags else PList [])]%string) in
  Ok (f, c, map (fun t => if ueqb (st_key t) (u "is_active") then Build_SemanticTuple (st_key t) (st_value t) (u "system") else t) (semantic_tuples f c "caller")).

(** ** Entries *)

(** [mkb_intake_semantic_definitions], by key and version *)
Record semantic_definition := { df_digest : ustr; df_kind : ustr; df_participates : bool }.
Abbreviation definitions := (gmap (ustr * ustr) semantic_definition).
Record entry := {
  en_key : ustr;
  en_version : ustr;
  en_definition : ustr;
  en_kind : ustr;
  en_participates : bool;
  en_value : pyval;
  en_digest : ustr;
  en_provenance : ustr
}.

Definition INPUT_INVALID : exn := MkbError "INTAKE_SEMANTICS_INPUT_INVALID" 422.
Definition INCOMPLETE : exn := MkbError "INTAKE_SEMANTICS_INCOMPLETE" 422.
Definition CONFLICT : exn := MkbError "INTAKE_SEMANTICS_CONFLICT" 422.
Definition UNREGISTERED : exn := MkbError "REGISTRY_NOT_FOUND" 503.
Definition INVALID : exn := MkbError "METADATA_SEMANTICS_INVALID" 422.
Definition DRIFT : exn := MkbError "METADATA_SEMANTIC_DEFINITION_DRIFT" 409.
Definition METADATA_INCOMPLETE : exn := MkbError "METADATA_SEMANTICS_INCOMPLETE" 422.
(** [except Exception] *)
Definition or_raise {A} (e : exn) (r : result A) : result A := match r with Ok a => Ok a | Err _ => Err e end.

(** [_semantic_value_digest] *)
Definition semantic_value_digest (key version definition : ustr) (value : pyval) : result ustr :=
  stable_digest (obj [("semantic_key", PStr key); ("definition_version", PStr version); ("definition_digest", PStr definition); ("value", value)]%string).
(** An entry of a registered definition of version [v1]. *)
Definition registered_entry (defs : definitions) (key : ustr) (kind : string) (value : pyval) (provenance : ustr) : result entry :=
  match defs !! (key, u "v1") with
  | Some df =>
      check ueqb (df_kind df) (u kind) else UNREGISTERED ;;
      let* digest := semantic_value_digest key (u "v1") (df_digest df) value in
      Ok (Build_entry key (u "v1") (df_digest df) (u kind) (df_participates df) value digest provenance)
  | None => Err UNREGISTERED
  end.

(** The semantic values of a state: the models parse, the tuples are the six and say what the
    models say. *)
Definition parse_tuples (v : option pyval) : result (list SemanticTuple) :=
  match v with Some (PList l) | Some (PTuple l) => mapM parse_tuple l | _ => Err TypeError end.
Definition tuple_of (ts : list SemanticTuple) (key : string) : option SemanticTuple := List.find (fun t => ueqb (st_key t) (u key)) ts.
Definition tuple_says (ts : list SemanticTuple) (kv : string * pyval) : bool := match tuple_of ts kv.1 with Some t => py_eqb (st_value t) kv.2 | None => false end.
Definition six_keys (ts : list SemanticTuple) : bool :=
  distinct (map st_key ts) && forallb (fun k => bool_decide (u k ∈ map st_key ts)) TUPLE_KEYS.
Definition canonical_values (state : pydict) : result (FilterMeta * ContextMeta * list SemanticTuple) :=
  let* f := or_raise INCOMPLETE (parse_filter (or_none (raw_field state "filter_meta"))) in
  let* c := or_raise INCOMPLETE (parse_context (or_none (raw_field state "context_meta"))) in
  let* ts := or_raise INCOMPLETE (parse_tuples (raw_field state "semantic_tuples")) in
  check six_keys ts else INCOMPLETE ;;
  check forallb (tuple_says ts) (six_values f c) else CONFLICT ;;
  Ok (f, c, ts).
Definition filled_text (v : option pyval) : option ustr := match v with Some (PStr s) => if bool_decide (s = []) then None else Some s | _ => None end.
Definition provenance_of (ts : list SemanticTuple) (key : string) : ustr := match tuple_of ts key with Some t => st_provenance t | None => [] end.
(** Key, kind, value and provenance of the ten values. *)
Definition ten_values (source_kind clean_digest : ustr) (f : FilterMeta) (c : ContextMeta) (ts : list SemanticTuple) : result (list (string * string * pyval * ustr)) :=
  let* context := json_text (dump_context c) in
  let* filter := json_text (dump_filter f) in
  Ok ([("source_representation", "text", PStr source_kind, u "system"); ("canonical_content", "text", PStr clean_digest, u "system");
       ("context_metadata", "text", PStr context, u "system"); ("filter_metadata", "text", PStr filter, u "system")]%string
      ++ map (fun kv => (kv.1, if bool_decide (kv.1 = "is_active"%string) then "int"%string else "text"%string, kv.2, provenance_of ts kv.1)) (six_values f c)).
(** [_initial_semantics_tx] *)
Definition initial_semantics (defs : definitions) (state : pydict) : result (list entry) :=
  match filled_text (raw_field state "source_kind"), filled_text (raw_field state "clean_digest") with
  | Some source_kind, Some clean_digest =>
      let* v := canonical_values state in
      let* values := ten_values source_kind clean_digest v.1.1 v.1.2 v.2 in
      mapM (fun v => registered_entry defs (u v.1.1.1) v.1.1.2 v.1.2 v.2) values
  | _, _ => Err INPUT_INVALID
  end.

(** [_semantic_fingerprint] *)
Definition fingerprint_line (e : entry) : pyval := PTuple [PStr (en_key e); PStr (en_version e); PStr (en_digest e)].
Definition entry_le (a b : entry) : bool := str_le (en_key a) (en_key b).
Definition semantic_fingerprint (es : list entry) : result ustr :=
  stable_digest (PList (map fingerprint_line (py_sorted entry_le (List.filter en_participates es)))).

(** ** Stored values *)

Record scalar := { sv_bool : option Z; sv_int : option Z; sv_real : option float; sv_text : option ustr; sv_artifact : option ustr }.
Definition KINDS : list string := ["bool"; "int"; "real"; "text"]%string.
(** [_semantic_scalar] *)
Definition semantic_scalar (kind : ustr) (value : pyval) : result scalar :=
  let none := Build_scalar None None None None None in
  if ueqb kind (u "bool") then match value with PBool b => Ok (Build_scalar (Some (if b then 1 else 0)) None None None None) | _ => Err INVALID end
  else if ueqb kind (u "int") then match value with PInt z => Ok (Build_scalar None (Some z) None None None) | _ => Err INVALID end
  else if ueqb kind (u "real") then
    match value with PInt z => let* f := float_of_int z in Ok (Build_scalar None None (Some f) None None) | PFloat f => Ok (Build_scalar None None (Some f) None None) | _ => Err INVALID end
  else if ueqb kind (u "text") then match value with PStr s => Ok (Build_scalar None None None (Some s) None) | _ => Err INVALID end
  else if ueqb kind (u "ref") then match filled_text (Some value) with Some s => Ok (Build_scalar None None None None (Some s)) | None => Err INVALID end
  else Err INVALID.
(** [_semantic_storage_kind] *)
Definition semantic_storage_kind (kind : ustr) : result ustr :=
  if ueqb kind (u "ref") then Ok (u "artifact_ref") else if bool_decide (kind ∈ map u KINDS) then Ok kind else Err INVALID.

(** ** The merge of a metadata update *)

(** [_validate_metadata_entry_tx]; [artifacts] are the artifacts of the team. *)
Definition required_field (d : pydict) (k : string) : result pyval := match raw_field d k with Some v => Ok v | None => Err INVALID end.
Definition legal_provenance (v : pyval) : result ustr :=
  match v with
  | PStr s => check bool_decide (s ∈ map u (PROVENANCES ++ ["legacy_unverifiable"%string])) else INVALID ;; Ok s
  | PList _ | PDict _ => Err TypeError
  | _ => Err INVALID
  end.
Definition drift_text (v : pyval) : result ustr := match v with PStr s => Ok s | _ => Err DRIFT end.
Definition parse_entry (defs : definitions) (artifacts : ustr -> bool) (v : pyval) : result entry :=
  match v with
  | PDict d =>
      let* key := match raw_field d "semantic_key" with Some (PStr s) => Ok s | _ => Err INVALID end in
      let* version := required_field d "definition_version" in
      let* definition := required_field d "definition_digest" in
      let* kind := required_field d "value_kind" in
      let* participates := required_field d "fingerprint_participation" in
      let* value := required_field d "value" in
      let* digest := required_field d "value_digest" in
      let* provenance := required_field d "value_provenance" in
      let* provenance := legal_provenance provenance in
      let* version := drift_text version in
      let* definition := drift_text definition in
      let* kind := drift_text kind in
      let* participates := match participates with PBool b => Ok b | _ => Err DRIFT end in
      check match defs !! (key, version) with Some df => ueqb (df_digest df) definition && ueqb (df_kind df) kind | None => false end else DRIFT ;;
      let* expected := semantic_value_digest key version definition value in
      check py_eqb digest (PStr expected) else INVALID ;;
      let* _ := semantic_scalar kind value in
      check negb (ueqb kind (u "ref")) || match value with PStr s => artifacts s | _ => false end else MkbError "METADATA_SEMANTIC_REF_UNAVAILABLE" 409 ;;
      Ok (Build_entry key version definition kind participates value expected provenance)
  | _ => Err INVALID
  end.
Definition dump_entry (e : entry) : pyval :=
  obj [("semantic_key", PStr (en_key e)); ("definition_version", PStr (en_version e)); ("definition_digest", PStr (en_definition e)); ("value_kind", PStr (en_kind e));
       ("fingerprint_participation", PBool (en_participates e)); ("value", en_value e); ("value_digest", PStr (en_digest e)); ("value_provenance", PStr (en_provenance e))]%string.

(** The entries of a frozen list, by key. *)
Definition add_entry (defs : definitions) (artifacts : ustr -> bool) (acc : list (ustr * entry)) (v : pyval) : result (list (ustr * entry)) :=
  match v with
  | PDict d =>
      match raw_field d "semantic_key" with
      | Some (PStr key) =>
          check negb (dmem acc key) else INVALID ;;
          let* e := parse_entry defs artifacts v in
          Ok (dset acc key e)
      | _ => Err INVALID
      end
  | _ => Err INVALID
  end.
Definition keyed_entries (defs : definitions) (artifacts : ustr -> bool) (l : list pyval) : result (list (ustr * entry)) := foldM (add_entry defs artifacts) [] l.

(** The exceptions that [_cohere_metadata_blobs_tx] catches. *)
Definition or_incomplete {A} (r : result A) : result A :=
  match r with Ok a => Ok a | Err RecursionError => Err RecursionError | Err _ => Err METADATA_INCOMPLETE end.
Definition value_of (merged : list (ustr * entry)) (key : string) : result pyval := match dget merged (u key) with Some e => Ok (en_value e) | None => Err KeyError end.
Definition prior_title (merged : list (ustr * entry)) : result (option ustr) :=
  match dget merged (u "context_metadata") with
  | Some (Build_entry _ _ _ _ _ (PStr s) _ _) =>
      let* decoded := json_loads plain_hooks depth s in
      Ok (match decoded with PDict d => visible_text (raw_field d "title") | _ => None end)
  | _ => Ok None
  end.
Definition coherent_metadata (merged : list (ustr * entry)) : result (FilterMeta * ContextMeta) :=
  let* realm := value_of merged "realm" in
  let* type := value_of merged "type" in
  let* channel := value_of merged "channel" in
  let* source := value_of merged "source_name" in
  let* active := value_of merged "is_active" in
  let* f := parse_filter (obj [("realm", realm); ("type", type); ("channel", channel); ("source_name", source); ("is_active", active)]%string) in
  let* tags := value_of merged "context_tags" in
  let* tags := match tags with PStr s => Ok s | _ => Err TypeError end in
  let* title := prior_title merged in
  let* c := make_context (Build_ContextMeta (fm_realm f) (fm_type f) (fm_channel f) (fm_source f) (default (fm_source f) title) (splitlines tags)) in
  Ok (f, c).
(** [_cohere_metadata_blobs_tx] *)
Definition cohere_metadata_blobs (defs : definitions) (merged : list (ustr * entry)) : result (list (ustr * entry)) :=
  let* fc := or_incomplete (coherent_metadata merged) in
  let* filter := json_text (dump_filter fc.1) in
  let* fe := registered_entry defs (u "filter_metadata") "text" (PStr filter) (u "system") in
  let* context := json_text (dump_context fc.2) in
  let* ce := registered_entry defs (u "context_metadata") "text" (PStr context) (u "system") in
  Ok (dset (dset merged (u "filter_metadata") fe) (u "context_metadata") ce).
(** [_merged_metadata_semantics_tx] *)
Definition merged_metadata_semantics (defs : definitions) (artifacts : ustr -> bool) (replacements base : list pyval) : result (list (ustr * entry) * ustr) :=
  let* base := keyed_entries defs artifacts base in
  let* replacement := keyed_entries defs artifacts replacements in
  let* merged := cohere_metadata_blobs defs (dupdate base replacement) in
  let* fingerprint := semantic_fingerprint merged.*2 in
  Ok (merged, fingerprint).
End semantics.
