(* ===== verification/SemanticsLaws.v ===== *)
(** * Laws of the semantics

    The metadata that acquisition derives from a request is what acceptance admits, and a
    metadata update that changes no value is recognised by its fingerprint. *)

From S2P Require Import Prelude PyText PyValue PyFloat Json JsonLaws PublicData VectorContracts Semantics.

Open Scope Z_scope.
Open Scope mkb_scope.

(** ** Stripped text *)

Lemma drop_while_head p s : drop_while p s = [] \/ exists c r, drop_while p s = c :: r /\ p c = false.
Proof. induction s as [|c s IH]; cbn; [by left|]. destruct (p c) eqn:E; [done|right; eauto]. Qed.
Lemma drop_while_keep p c r : p c = false -> drop_while p (c :: r) = c :: r.
Proof. cbn. by intros ->. Qed.
Lemma rstrip_cons c r : isspace c = false -> exists r', rstrip (c :: r) = c :: r'.
Proof.
  intros Hc. unfold rstrip. rewrite reverse_cons. destruct (drop_while_suffix isspace (reverse r ++ [c])) as (t & E & Ht).
  destruct (drop_while isspace (reverse r ++ [c])) as [|x l _] eqn:Ed using rev_ind.
  - rewrite app_nil_r in E. rewrite <-E in Ht. apply Forall_app in Ht as [_ Ht]. inversion Ht. congruence.
  - rewrite app_assoc in E. apply app_inj_tail in E as [_ <-]. exists (reverse l). by rewrite reverse_app.
Qed.
Lemma rstrip_idem s : rstrip (rstrip s) = rstrip s.
Proof.
  unfold rstrip. rewrite reverse_involutive. destruct (drop_while_head isspace (reverse s)) as [-> |(c & r & -> & Hc)]; [done|]. by rewrite drop_while_keep.
Qed.
Lemma strip_idem s : strip (strip s) = strip s.
Proof.
  unfold strip at 1. unfold lstrip. unfold strip. destruct (drop_while_head isspace s) as [E|(c & r & E & Hc)]; unfold lstrip; rewrite E; [done|].
  destruct (rstrip_cons c r Hc) as [r' E']. rewrite E', drop_while_keep by done. rewrite <-E'. apply rstrip_idem.
Qed.
Lemma drop_while_length p t : (length (drop_while p t) <= length t)%nat.
Proof. destruct (drop_while_suffix p t) as (pre & E & _). apply (f_equal length) in E. rewrite length_app in E. lia. Qed.
Lemma length_strip s : (length (strip s) <= length s)%nat.
Proof. unfold strip, rstrip, lstrip. rewrite length_reverse. etrans; [apply drop_while_length|]. rewrite length_reverse. apply drop_while_length. Qed.

Section laws.
Context {H : Host} {F : FloatText} (depth : nat).

Lemma known_name_Ok most s t : known_name most s = Ok t <-> bounded_text most s = true /\ blank s = false /\ ueqb (casefold (strip s)) (u "unknown") = false /\ t = strip s.
Proof.
  unfold known_name. destruct (bounded_text most s), (blank s), (ueqb _ _); cbn; split; try (intros [=]; done); try (intros [? [? [? ->]]]; done).
Qed.
Lemma known_name_again most s t : known_name most s = Ok t -> known_name most t = Ok t.
Proof.
  rewrite !known_name_Ok. intros (Hb & Hn & Hu & ->). rewrite !strip_idem. split_and!; try done; [|by unfold blank in *; rewrite strip_idem].
  unfold bounded_text in *. pose proof (length_strip s). unfold blank in Hn. apply bool_decide_eq_false in Hn. destruct (strip s) as [|x l]; [done|]. cbn [length] in *. apply andb_true_iff in Hb as [_ Hb]. apply andb_true_iff. split; [apply Z.leb_le; lia|]. apply Z.leb_le in Hb. apply Z.leb_le. lia.
Qed.

(** ** Models and their dumps *)

Definition filter_ok (f : FilterMeta) : Prop :=
  known_name 256 (fm_realm f) = Ok (fm_realm f) /\ known_name 256 (fm_type f) = Ok (fm_type f) /\ known_name 256 (fm_channel f) = Ok (fm_channel f)
  /\ known_name 512 (fm_source f) = Ok (fm_source f) /\ ((fm_active f =? 0) || (fm_active f =? 1)) = true.

Lemma parse_filter_ok v f : parse_filter v = Ok f -> filter_ok f.
Proof.
  destruct v as [| | | | | | |d]; try done. cbn [parse_filter]. intros ([] & _ & Hr)%rbind_Ok.
  apply rbind_Ok in Hr as (a & (? & _ & Ha)%rbind_Ok & Hr). apply rbind_Ok in Hr as (b & (? & _ & Hb)%rbind_Ok & Hr).
  apply rbind_Ok in Hr as (c & (? & _ & Hc)%rbind_Ok & Hr). apply rbind_Ok in Hr as (e & (? & _ & He)%rbind_Ok & Hr).
  apply rbind_Ok in Hr as (z & _ & Hr). apply rbind_Ok in Hr as ([] & Hz%ensure_Ok & [= <-]). unfold filter_ok. cbn. split_and!; eauto using known_name_again.
Qed.
Lemma parse_dump_filter f : filter_ok f -> parse_filter (dump_filter f) = Ok f.
Proof.
  intros (Ha & Hb & Hc & Hd & He). destruct f as [a b c e z]. cbn [fm_realm fm_type fm_channel fm_source fm_active] in *.
  unfold dump_filter, obj. cbn [parse_filter fm_realm fm_type fm_channel fm_source fm_active map fst snd]. change (no_unknown _ _) with true. cbn [ensure rbind].
  unfold text_field, int_field, raw_field. cbn [dget]. ukey. cbn [rbind]. rewrite Ha. cbn [rbind]. rewrite Hb. cbn [rbind]. rewrite Hc. cbn [rbind]. rewrite Hd. cbn [rbind]. by rewrite He.
Qed.
Lemma parse_context_ok v c : parse_context v = Ok c -> context_bounds c = true.
Proof.
  destruct v as [| | | | | | |d]; try done. cbn [parse_context]. intros ([] & _ & Hr)%rbind_Ok.
  do 6 (apply rbind_Ok in Hr as (? & _ & Hr)). unfold make_context in Hr. by apply rbind_Ok in Hr as ([] & Hb%ensure_Ok & [= <-]).
Qed.
Lemma parse_dump_context c : context_bounds c = true -> parse_context (dump_context c) = Ok c.
Proof.
  intros Hb. destruct c as [a b e f t tags]. unfold dump_context, obj. cbn [parse_context]. cbn [cm_realm cm_type cm_channel cm_source cm_title cm_tags map fst snd].
  change (no_unknown _ _) with true. cbn [ensure rbind]. unfold text_field, parse_tags, raw_field. cbn [dget]. ukey. cbn [rbind texts]. rewrite text_items_texts. cbn [rbind].
  unfold make_context. by rewrite Hb.
Qed.
Lemma parse_dump_tuple t : bool_decide (st_key t ∈ map u TUPLE_KEYS) = true -> bool_decide (st_provenance t ∈ map u PROVENANCES) = true ->
  (exists s, st_value t = PStr s) \/ (exists z, st_value t = PInt z) -> parse_tuple (dump_tuple t) = Ok t.
Proof.
  intros Hk Hp Hv. destruct t as [k v p]. cbn [st_key st_value st_provenance] in Hk, Hp, Hv. unfold dump_tuple, obj. cbn [parse_tuple st_key st_value st_provenance map fst snd].
  change (no_unknown _ _) with true. cbn [ensure rbind]. unfold text_field, literal_field, raw_field. cbn [dget]. ukey. cbn [rbind]. rewrite Hk. cbn [ensure rbind default].
  ukey. cbn [ensure rbind]. destruct Hv as [[s ->]|[z ->]]; cbn [rbind]; rewrite Hp; done.
Qed.
End laws.

(** ** Lines *)

Definition plain_line (s : ustr) : Prop := Forall (fun c => is_line_end c = false) s.
(** Tags that [splitlines] separates as they were joined. *)
Definition plain_tags (tags : list ustr) : Prop := Forall plain_line tags /\ last tags <> Some [].


Lemma not_cr c : is_line_end c = false -> (c =? 13) = false.
Proof. intros Hc. apply Z.eqb_neq. intros ->. done. Qed.
Lemma splitlines_line t : plain_line t -> splitlines t = match t with [] => [] | _ => [t] end.
Proof.
  induction 1 as [|c t Hc Ht IH]; [done|]. cbn [splitlines]. rewrite (not_cr _ Hc), Hc, IH. by destruct t.
Qed.
Lemma splitlines_head t r : plain_line t -> splitlines (t ++ 10 :: r) = t :: splitlines r.
Proof. induction 1 as [|c t Hc Ht IH]; [done|]. cbn [splitlines app]. by rewrite (not_cr _ Hc), Hc, IH. Qed.
Lemma splitlines_join tags : plain_tags tags -> splitlines (str_join [10] tags) = tags.
Proof.
  intros [Hf Hl]. induction Hf as [|t tags Ht Hf IH]; [done|]. destruct tags as [|t' tags].
  - cbn [str_join]. rewrite splitlines_line by done. by destruct t.
  - change (str_join [10] (t :: t' :: tags)) with (t ++ 10 :: str_join [10] (t' :: tags)). rewrite splitlines_head by done. f_equal. by apply IH.
Qed.

(** ** Entries *)

Lemma py_eqb_text s : py_eqb (PStr s) (PStr s) = true.
Proof. cbn. apply ueqb_refl. Qed.

Section entries.
Context {H : Host} {F : FloatText} (depth : nat) (defs : gmap (ustr * ustr) semantic_definition) (artifacts : ustr -> bool).

Definition storable (kind : string) (v : pyval) : Prop := (kind = "text"%string /\ exists s, v = PStr s) \/ (kind = "int"%string /\ exists z, v = PInt z).
Lemma registered_entry_Ok key kind v p e : registered_entry defs key kind v p = Ok e -> exists df digest,
  defs !! (key, u "v1") = Some df /\ df_kind df = u kind /\ semantic_value_digest key (u "v1") (df_digest df) v = Ok digest
  /\ e = Build_entry key (u "v1") (df_digest df) (u kind) (df_participates df) v digest p.
Proof.
  unfold registered_entry. destruct (defs !! (key, u "v1")) as [df|] eqn:E; [|done]. intros ([] & Hk%ensure_Ok & (g & Hg & [= <-])%rbind_Ok)%rbind_Ok.
  apply ueqb_eq in Hk. eauto 10.
Qed.

Lemma parse_dump_entry key kind v p e : registered_entry defs key kind v p = Ok e -> storable kind v -> p ∈ map u PROVENANCES -> parse_entry defs artifacts (dump_entry e) = Ok e.
Proof.
  intros (df & g & Hd & Hk & Hg & ->)%registered_entry_Ok Hs Hp. unfold dump_entry, obj. cbn [en_key en_version en_definition en_kind en_participates en_value en_digest en_provenance map fst snd].
  cbn [parse_entry]. unfold required_field, raw_field. cbn [dget]. ukey. cbn [rbind legal_provenance drift_text].
  rewrite bool_decide_true by (rewrite map_app, elem_of_app; by left). cbn [ensure rbind drift_text]. rewrite Hd. cbn [fst snd]. rewrite Hk, !ueqb_refl. cbn [andb ensure rbind].
  rewrite Hg. cbn [rbind]. rewrite py_eqb_text. cbn [ensure rbind]. destruct Hs as [[-> [s ->]]|[-> [z ->]]]; unfold semantic_scalar; ukey; done.
Qed.

Definition keyed (es : list entry) : list (ustr * entry) := map (fun e => (en_key e, e)) es.
Lemma keyed_keys es : (keyed es).*1 = map en_key es.
Proof. unfold keyed. induction es as [|e es IH]; [done|]. cbn. by rewrite IH. Qed.
Lemma keyed_get es e : NoDup (map en_key es) -> e ∈ es -> dget (keyed es) (en_key e) = Some e.
Proof.
  intros Hn He. apply dget_elem; [unfold dict_wf; by rewrite keyed_keys|]. unfold keyed. apply list_elem_of_fmap. by exists e.
Qed.
Lemma dset_absent {V} (d : list (ustr * V)) k v : dmem d k = false -> dset d k v = d ++ [(k, v)].
Proof.
  unfold dmem. induction d as [|[k' v'] d IH]; [done|]. cbn [dget dset]. destruct (ueqb k' k); [done|]. intros Hd. cbn. by rewrite IH.
Qed.
Lemma keyed_entries_dumped es : Forall (fun e => parse_entry defs artifacts (dump_entry e) = Ok e) es -> NoDup (map en_key es) ->
  keyed_entries defs artifacts (map dump_entry es) = Ok (keyed es).
Proof.
  intros Hf Hn. unfold keyed_entries. enough (forall acc, (forall e, e ∈ es -> dmem acc (en_key e) = false) -> foldM (add_entry defs artifacts) acc (map dump_entry es) = Ok (acc ++ keyed es)) as Hall by (by apply Hall).
  induction Hf as [|e es He Hf IH]; intros acc Hacc; [by rewrite app_nil_r|]. cbn [map foldM]. inversion Hn as [|? ? Hne Hn']; subst.
  assert (add_entry defs artifacts acc (dump_entry e) = Ok (acc ++ [(en_key e, e)])) as ->.
  { unfold add_entry. change (dump_entry e) with (PDict (match dump_entry e with PDict d => d | _ => [] end)) at 1. cbn iota beta.
    change (raw_field (match dump_entry e with PDict d => d | _ => [] end) "semantic_key") with (Some (PStr (en_key e))). cbn iota.
    rewrite (Hacc e) by (by left). cbn [negb ensure rbind]. rewrite He. cbn [rbind]. rewrite dset_absent; [done|]. apply Hacc. by left. }
  cbn [rbind]. rewrite IH; [by rewrite <-app_assoc|done|]. intros e' He'. unfold dmem. destruct (dget _ (en_key e')) as [x|] eqn:E; [|done]. exfalso.
  apply dget_Some_elem in E. apply elem_of_app in E as [E|E].
  - specialize (Hacc e' ltac:(by right)). unfold dmem in Hacc. destruct (dget acc (en_key e')) eqn:E2; [done|]. apply dget_None in E2. apply E2. apply list_elem_of_fmap. exists (en_key e', x). split; [reflexivity|exact E].
  - apply list_elem_of_singleton in E. injection E as E _. apply Hne. rewrite <-E. by apply list_elem_of_fmap_2.
Qed.
Lemma dupdate_same es rs : NoDup (map en_key es) -> (forall e, e ∈ rs -> e ∈ es) -> dupdate (keyed es) (keyed rs) = keyed es.
Proof.
  intros Hn Hsub. unfold dupdate. induction rs as [|r rs IH]; [done|]. cbn. rewrite dset_same; [|apply keyed_get; [done|apply Hsub; by left]].
  apply IH. intros e He. apply Hsub. by right.
Qed.
End entries.

(** ** Theorems *)

Section theorems.
Context {H : Host} {F : FloatText} (depth : nat).

(** The fields of the state that acquisition hands to acceptance. *)
Record authority_of (state : pydict) (f : FilterMeta) (c : ContextMeta) (ts : list SemanticTuple) : Prop := {
  au_filter : raw_field state "filter_meta" = Some (dump_filter f);
  au_context : raw_field state "context_meta" = Some (dump_context c);
  au_tuples : raw_field state "semantic_tuples" = Some (PList (map dump_tuple ts))
}.

Lemma authority_parts descriptor f c ts : generic_semantic_authority descriptor = Ok (f, c, ts) ->
  filter_ok f /\ context_bounds c = true /\ (cm_realm c, cm_type c, cm_channel c, cm_source c) = (fm_realm f, fm_type f, fm_channel f, fm_source f)
  /\ ts = map (fun t => if ueqb (st_key t) (u "is_active") then Build_SemanticTuple (st_key t) (st_value t) (u "system") else t) (semantic_tuples f c "caller").
Proof.
  intros (f' & Hf%parse_filter_ok & (c' & Hc & [= <- <- <-])%rbind_Ok)%rbind_Ok. split; [done|]. split; [by eapply parse_context_ok|]. split; [|done].
  clear Hf. unfold obj in Hc. cbn [parse_context map fst snd] in Hc. apply rbind_Ok in Hc as ([] & _ & Hc). unfold text_field, raw_field in Hc. cbn [dget] in Hc. ukey.
  cbn [rbind] in Hc. apply rbind_Ok in Hc as (tags & _ & Hc). unfold make_context in Hc. by apply rbind_Ok in Hc as ([] & _ & [= <-]).
Qed.

(** C29: What acquisition derives from a request is complete and coherent: acceptance finds the
    same filter metadata, context metadata and six tuples in the state, so that it never
    answers [INTAKE_SEMANTICS_INCOMPLETE] or [INTAKE_SEMANTICS_CONFLICT] for them. *)
Theorem acquired_authority_is_accepted descriptor state f c ts :
  generic_semantic_authority descriptor = Ok (f, c, ts) -> authority_of state f c ts -> canonical_values state = Ok (f, c, ts).
Proof.
  intros (Hf & Hc & _ & ->)%authority_parts [Ef Ec Et]. unfold canonical_values. rewrite Ef, Ec, Et. change (or_none (Some (dump_filter f))) with (dump_filter f). change (or_none (Some (dump_context c))) with (dump_context c).
  rewrite parse_dump_filter, parse_dump_context by done. cbn [or_raise rbind parse_tuples].
  set (ts := map _ (semantic_tuples f c "caller")). assert (mapM parse_tuple (map dump_tuple ts) = Ok ts) as ->.
  { apply mapM_Ok, Forall2_fmap_l, Forall_Forall2_diag. subst ts. repeat constructor; apply parse_dump_tuple; try (vm_compute; reflexivity); cbn; eauto. }
  cbn [or_raise rbind]. change (six_keys ts) with true. cbn [ensure rbind].
  assert (forallb (tuple_says ts) (six_values f c) = true) as ->; [|done].
  assert (Forall (fun kv => exists t, tuple_of ts kv.1 = Some t /\ py_eqb (st_value t) kv.2 = true) (six_values f c)) as Hsix.
  { unfold six_values. repeat first [apply List.Forall_cons | apply List.Forall_nil]; cbn [fst snd];
      (eexists; split; [reflexivity|]);
      match goal with |- py_eqb _ ?v = true => change (py_eqb v v = true) end; [apply py_eqb_text..|rewrite py_eqb_int; apply Z.eqb_refl|apply py_eqb_text]. }
  apply forallb_forall. intros kv Hkv%list_elem_of_In. rewrite Forall_forall in Hsix. destruct (Hsix kv Hkv) as (t & Ht & Hs). unfold tuple_says. by rewrite Ht.
Qed.

Lemma tuple_provenance ts k : (exists l, mapM parse_tuple l = Ok ts) -> is_Some (tuple_of ts k) -> provenance_of ts k ∈ map u PROVENANCES.
Proof.
  intros [l Hl] [t Ht]. unfold provenance_of. rewrite Ht. apply find_some in Ht as [Hin%list_elem_of_In _].
  apply mapM_Ok in Hl. apply list_elem_of_lookup in Hin as [i Hi]. destruct (Forall2_lookup_r _ _ _ _ _ Hl Hi) as (v & _ & Hv).
  destruct v as [| | | | | | |d]; try done. cbn [parse_tuple] in Hv. apply rbind_Ok in Hv as ([] & _ & Hv).
  apply rbind_Ok in Hv as (? & _ & Hv). apply rbind_Ok in Hv as ([] & _ & Hv). apply rbind_Ok in Hv as (? & _ & Hv). apply rbind_Ok in Hv as (? & _ & Hv).
  apply rbind_Ok in Hv as (? & _ & Hv). by apply rbind_Ok in Hv as ([] & Hp%ensure_Ok%bool_decide_eq_true & [= <-]).
Qed.

(** The entries of a state, one for each of the ten values. *)
Definition TEN_KEYS : list string :=
  ["source_representation"; "canonical_content"; "context_metadata"; "filter_metadata"; "realm"; "type"; "channel"; "source_name"; "is_active"; "context_tags"]%string.
Definition entry_for (defs : gmap (ustr * ustr) semantic_definition) (v : string * string * pyval * ustr) (e : entry) : Prop :=
  registered_entry defs (u v.1.1.1) v.1.1.2 v.1.2 v.2 = Ok e.
Record initial (defs : gmap (ustr * ustr) semantic_definition) (f : FilterMeta) (c : ContextMeta) (es : list entry) (values : list (string * string * pyval * ustr)) : Prop := {
  in_entries : Forall2 (entry_for defs) values es;
  in_keys : map (fun v => v.1.1.1) values = TEN_KEYS;
  in_storable : Forall (fun v => storable v.1.1.2 v.1.2 /\ v.2 ∈ map u PROVENANCES) values;
  in_six : forall kv, kv ∈ six_values f c -> exists kind p, (kv.1, kind, kv.2, p) ∈ values;
  in_filter : exists t, json_text (dump_filter f) = Ok t /\ ("filter_metadata", "text", PStr t, u "system")%string ∈ values;
  in_context : exists t, json_text (dump_context c) = Ok t /\ ("context_metadata", "text", PStr t, u "system")%string ∈ values
}.

(** Membership of a closed text in a closed list. *)
Ltac decide_member := apply (proj1 (bool_decide_eq_true _)); vm_compute; reflexivity.

Lemma tuple_of_key ts k : six_keys ts = true -> k ∈ TUPLE_KEYS -> is_Some (tuple_of ts k).
Proof.
  unfold six_keys. intros [_ Hf]%andb_true_iff Hk. rewrite forallb_forall in Hf. specialize (Hf k (proj1 (list_elem_of_In _ _) Hk)). apply bool_decide_eq_true in Hf.
  apply list_elem_of_fmap in Hf as (t & Ht & Hin). unfold tuple_of. destruct (List.find _ ts) eqn:E; [by eexists|]. exfalso.
  pose proof (find_none _ _ E t (proj1 (list_elem_of_In _ _) Hin)) as Hne. cbn in Hne. by rewrite Ht, ueqb_refl in Hne.
Qed.

Lemma initial_semantics_shape defs state f c ts es : canonical_values state = Ok (f, c, ts) -> initial_semantics defs state = Ok es -> exists values, initial defs f c es values.
Proof.
  intros Hcv Hi. unfold initial_semantics in Hi. destruct (filled_text _) as [sk|]; [|done]. destruct (filled_text _) as [cd|]; [|done]. rewrite Hcv in Hi. cbn [rbind fst snd] in Hi.
  apply rbind_Ok in Hi as (values & Hv & Hm%mapM_Ok). apply rbind_Ok in Hv as (ct & Hct & Hv). apply rbind_Ok in Hv as (ft & Hft & [= <-]).
  eexists. split; [exact Hm|reflexivity| |..].
  - assert (forall k, k ∈ TUPLE_KEYS -> provenance_of ts k ∈ map u PROVENANCES) as Hp.
    { apply rbind_Ok in Hcv as (? & _ & Hcv). apply rbind_Ok in Hcv as (? & _ & Hcv). apply rbind_Ok in Hcv as (ts' & Ht & Hcv). apply rbind_Ok in Hcv as ([] & Hk%ensure_Ok & Hcv).
      apply rbind_Ok in Hcv as ([] & _ & [= _ _ <-]). intros k Hk'. apply tuple_provenance; [|by apply tuple_of_key].
      destruct (parse_tuples _) as [l|] eqn:El; [injection Ht as ->|done]. unfold parse_tuples in El. destruct (raw_field _ _) as [[| | | | |l|l|]|]; try done; by exists l. }
    cbn [six_values map app fst snd]. repeat first [apply List.Forall_cons | apply List.Forall_nil]; cbn [fst snd]; (split; [|first [match goal with |- context [provenance_of] => apply Hp end; decide_member | decide_member]]).
    all: unfold storable; first [left; split; [reflexivity|eexists; reflexivity] | right; split; [reflexivity|eexists; reflexivity]].
  - intros kv. unfold six_values. rewrite !elem_of_cons, elem_of_nil. intros [->|[->|[->|[->|[->|[->|[]]]]]]]; eexists _, _; cbn [fst snd]; apply list_elem_of_In; cbn; auto 12.
  - exists ft. split; [done|]. rewrite !elem_of_cons. auto 10.
  - exists ct. split; [done|]. rewrite !elem_of_cons. auto 10.
Qed.

Section frozen.
Context (defs : gmap (ustr * ustr) semantic_definition) (f : FilterMeta) (c : ContextMeta) (es : list entry) (values : list (string * string * pyval * ustr)) (I : initial defs f c es values).

Lemma frozen_keys : NoDup (map en_key es).
Proof.
  assert (map en_key es = map u TEN_KEYS) as ->; [|apply (proj1 (bool_decide_eq_true _)); vm_compute; reflexivity].
  rewrite <-(in_keys _ _ _ _ _ I). pose proof (in_entries _ _ _ _ _ I) as He. clear -He. induction He as [|v e vs es' Hv He IH]; [done|]. cbn. rewrite <-IH. f_equal.
  apply registered_entry_Ok in Hv as (df & g & _ & _ & _ & ->). done.
Qed.
Lemma frozen_value k kind v p : (k, kind, v, p) ∈ values -> exists e, dget (keyed es) (u k) = Some e /\ en_value e = v /\ registered_entry defs (u k) kind v p = Ok e.
Proof.
  intros [i Hi]%list_elem_of_lookup. destruct (Forall2_lookup_l _ _ _ _ _ (in_entries _ _ _ _ _ I) Hi) as (e & He & Hr). exists e. unfold entry_for in Hr. cbn [fst snd] in Hr.
  pose proof Hr as Hr'. apply registered_entry_Ok in Hr' as (df & g & _ & _ & _ & E). split; [|split; [by rewrite E|done]].
  assert (u k = en_key e) as -> by (by rewrite E). apply keyed_get; [exact frozen_keys|]. by eapply list_elem_of_lookup_2.
Qed.
Lemma frozen_parse artifacts e : e ∈ es -> parse_entry defs artifacts (dump_entry e) = Ok e.
Proof.
  intros [i Hi]%list_elem_of_lookup. destruct (Forall2_lookup_r _ _ _ _ _ (in_entries _ _ _ _ _ I) Hi) as (v & Hv & Hr).
  pose proof (in_storable _ _ _ _ _ I) as Hs. rewrite Forall_forall in Hs. destruct (Hs v ltac:(by eapply list_elem_of_lookup_2)) as [? ?]. by eapply parse_dump_entry.
Qed.
Lemma frozen_six k v : (k, v) ∈ six_values f c -> value_of (keyed es) k = Ok v.
Proof. intros (kind & p & Hin)%(in_six _ _ _ _ _ I). destruct (frozen_value _ _ _ _ Hin) as (e & Hg & Hv & _). cbn [fst snd] in Hg, Hv. unfold value_of. by rewrite Hg, Hv. Qed.

Context (Hf : filter_ok f) (Hb : context_bounds c = true) (Hsame : (cm_realm c, cm_type c, cm_channel c, cm_source c) = (fm_realm f, fm_type f, fm_channel f, fm_source f))
  (Htitle : blank (cm_title c) = false) (Htags : plain_tags (cm_tags c)) (Hread : readable (dump_context c) = true) (Hdepth : (2 <= depth)%nat).

Lemma texts_height l : height (texts l) = 1%nat.
Proof. unfold texts. cbn [height]. f_equal. induction l as [|t l IH]; [done|]. cbn [map foldr height]. by rewrite IH. Qed.
Lemma context_height : (height (dump_context c) <= depth)%nat.
Proof. unfold dump_context, obj. cbn [height map foldr fst snd]. rewrite texts_height. cbn. lia. Qed.
Lemma frozen_title : prior_title depth (keyed es) = Ok (Some (cm_title c)).
Proof.
  destruct (in_context _ _ _ _ _ I) as (t & Ht & Hin). destruct (frozen_value _ _ _ _ Hin) as (e & Hg & Hv & _). unfold prior_title. rewrite Hg.
  destruct e as [? ? ? ? ? v ? ?]. cbn in Hv. subst v. rewrite (loads_text plain_hooks depth (dump_context c) t); [|apply plain_keeps|done|exact context_height|done].
  cbn [rbind reread dump_context obj]. unfold visible_text. change (raw_field _ "title") with (Some (PStr (cm_title c))). cbn iota. by rewrite Htitle.
Qed.
Lemma frozen_coherent : coherent_metadata depth (keyed es) = Ok (f, c).
Proof.
  unfold coherent_metadata. rewrite (frozen_six "realm" (PStr (fm_realm f))), (frozen_six "type" (PStr (fm_type f))), (frozen_six "channel" (PStr (fm_channel f))),
    (frozen_six "source_name" (PStr (fm_source f))), (frozen_six "is_active" (PInt (fm_active f))), (frozen_six "context_tags" (PStr (joined_tags c)))
    by (unfold six_values; rewrite !elem_of_cons; auto 10).
  cbn [rbind]. change (parse_filter _) with (parse_filter (dump_filter f)). rewrite parse_dump_filter by done. cbn [rbind]. rewrite frozen_title. cbn [rbind default].
  unfold joined_tags. rewrite splitlines_join by done. injection Hsame as <- <- <- <-. unfold make_context. change (Build_ContextMeta _ _ _ _ _ _) with (Build_ContextMeta (cm_realm c) (cm_type c) (cm_channel c) (cm_source c) (cm_title c) (cm_tags c)).
  assert (Build_ContextMeta (cm_realm c) (cm_type c) (cm_channel c) (cm_source c) (cm_title c) (cm_tags c) = c) as -> by (by destruct c). by rewrite Hb.
Qed.
Lemma frozen_cohere : cohere_metadata_blobs depth defs (keyed es) = Ok (keyed es).
Proof.
  unfold cohere_metadata_blobs. rewrite frozen_coherent. cbn [or_incomplete rbind fst snd].
  destruct (in_filter _ _ _ _ _ I) as (ft & Eft & Hft). destruct (in_context _ _ _ _ _ I) as (ct & Ect & Hct).
  destruct (frozen_value _ _ _ _ Hft) as (fe & Hfg & _ & Hfr). destruct (frozen_value _ _ _ _ Hct) as (ce & Hcg & _ & Hcr).
  rewrite Eft. cbn [rbind]. rewrite Hfr. cbn [rbind]. rewrite Ect. cbn [rbind]. rewrite Hcr. cbn [rbind]. by rewrite (dset_same _ _ fe), (dset_same _ _ ce).
Qed.
End frozen.

(** C26: A metadata update that changes nothing is recognised.  When the frozen values of the
    predecessor are those of an accepted revision whose context agrees with its filter, has
    a visible title and tags without line separators, a request that replaces some of the
    values by themselves merges to the same entries with the same fingerprint, which is what
    [_accept_metadata_update] compares to answer [no_change]. *)
Theorem unchanged_metadata_is_no_change defs artifacts state f c ts es fp rs :
  canonical_values state = Ok (f, c, ts) -> initial_semantics defs state = Ok es -> semantic_fingerprint es = Ok fp ->
  (cm_realm c, cm_type c, cm_channel c, cm_source c) = (fm_realm f, fm_type f, fm_channel f, fm_source f) ->
  blank (cm_title c) = false -> plain_tags (cm_tags c) -> readable (dump_context c) = true -> (2 <= depth)%nat ->
  (forall e, e ∈ rs -> e ∈ es) -> NoDup (map en_key rs) ->
  merged_metadata_semantics depth defs artifacts (map dump_entry rs) (map dump_entry es) = Ok (keyed es, fp).
Proof.
  intros Hcv Hi Hfp Hsame Htitle Htags Hread Hdepth Hsub Hnd. destruct (initial_semantics_shape _ _ _ _ _ _ Hcv Hi) as [values I].
  pose proof Hcv as Hm. apply rbind_Ok in Hm as (f' & Hf & Hm). apply rbind_Ok in Hm as (c' & Hc & Hm). apply rbind_Ok in Hm as (ts' & _ & Hm).
  apply rbind_Ok in Hm as ([] & _ & Hm). apply rbind_Ok in Hm as ([] & _ & [= -> -> ->]).
  assert (filter_ok f) as Hfok by (destruct (parse_filter _) eqn:E in Hf; [injection Hf as ->; by eapply parse_filter_ok|done]).
  assert (context_bounds c = true) as Hcok by (destruct (parse_context _) eqn:E in Hc; [injection Hc as ->; by eapply parse_context_ok|done]).
  assert (forall e, e ∈ es -> parse_entry defs artifacts (dump_entry e) = Ok e) as Hp by (intros e; by apply (frozen_parse _ _ _ _ _ I)).
  pose proof (frozen_keys _ _ _ _ _ I) as Hn. unfold merged_metadata_semantics. rewrite keyed_entries_dumped by (done || (apply Forall_forall; done)). cbn [rbind].
  rewrite keyed_entries_dumped by (done || (apply Forall_forall; auto)). cbn [rbind]. rewrite dupdate_same by done.
  rewrite (frozen_cohere _ _ _ _ _ I) by done. cbn [rbind]. assert ((keyed es).*2 = es) as ->; [|by rewrite Hfp].
  unfold keyed. clear. induction es as [|e es IH]; [done|]. cbn. by rewrite IH.
Qed.
End theorems.
