(* ===== verification/Acceptance.v ===== *)
(** * Acceptance of revisions

    Model of the transactions of [src/runtime/intake/acceptance_snapshot.py] and
    [acceptance_lifecycle.py]: a cleaned source becomes a snapshot with a revision of its item,
    a metadata update appends a revision to its predecessor, a rebuild admits the latest one.
    Each of them is fenced by the epoch of the item, its [row_revision].

    The bytes were promoted before the transaction; domain events are not modelled, instants
    are microseconds, and the columns of a registered item that no stage of the intake reads
    are left out.  The observations and their owners are those of Observations.v, the objects
    and their holds those of Objects.v. *)

From S2P Require Import Prelude PyText PyValue PyFloat Txn Strategies Engine PublicData VectorContracts ObjectStore Objects Semantics Observations.

Open Scope Z_scope.
Open Scope mkb_scope.

(** ** Rows *)

(** [mkb_intake_revisions], by team and uuid *)
Record revision_row := {
  re_item : ustr;
  re_ordinal : Z;
  re_predecessor : option ustr;
  re_fingerprint : ustr;
  re_action : ustr;
  re_snapshot : ustr;
  re_created_at : Z
}.
(** [mkb_intake_revision_semantics], by team, revision and key *)
Record value_row := { va_version : ustr; va_digest : ustr; va_kind : ustr; va_value : scalar; va_provenance : ustr }.
(** [mkb_intake_artifacts], by team and uuid *)
Record material_row := {
  ma_snapshot : option ustr;
  ma_revision : option ustr;
  ma_role : ustr;
  ma_digest : ustr;
  ma_size : Z;
  ma_handle : ustr;
  ma_object : option ustr;
  ma_execution : ustr;
  ma_process : ustr
}.
(** [mkb_intake_snapshot_memberships], by team, snapshot and ordinal *)
Record member_of := { mb_key : ustr; mb_item : ustr; mb_revision : ustr; mb_digest : ustr }.
Inductive staging := CS_open | CS_sealed | CS_accepted | CS_abandoned.
#[export] Instance staging_eq : EqDecision staging.
Proof. solve_decision. Defined.
(** [mkb_intake_candidate_sets], by uuid *)
Record candidates := { cd_team : ustr; cd_state : staging; cd_accepted : Z; cd_snapshot : option ustr; cd_revision : Z }.
(** [mkb_intake_change_sets], by team and snapshot, and their facts, by change set and ordinal *)
Record change_row := { cg_uuid : ustr; cg_digest : ustr }.
Record change_fact := { cf_item : ustr; cf_revision : ustr; cf_digest : ustr }.
Inductive disposition := changed | no_change.
#[export] Instance disposition_eq : EqDecision disposition.
Proof. solve_decision. Defined.
Definition disposition_text (d : disposition) : ustr := u (match d with changed => "changed" | no_change => "no_change" end).
(** [mkb_intake_acceptance_facts], by observation *)
Record acceptance_fact := {
  af_team : ustr;
  af_snapshot : ustr;
  af_item : ustr;
  af_revision : ustr;
  af_disposition : disposition;
  af_expected : Z;
  af_resulting : Z;
  af_digest : ustr
}.
(** [mkb_item_epoch_transitions], by team, item and the epoch after; the mutation is
    ['accept_latest']. *)
Record epoch_row := { ep_before : Z; ep_task : ustr; ep_execution : ustr; ep_observation : option ustr; ep_digest : ustr }.
(** [mkb_intake_item_transitions], by uuid *)
Record item_step := {
  is_team : ustr;
  is_item : ustr;
  is_action : ustr;
  is_lifecycle : ustr;
  is_latest : option ustr * option ustr;
  is_serving : option ustr;
  is_epochs : Z * Z;
  is_process : ustr;
  is_proof : ustr * ustr;
  is_fence : ustr
}.

Record acceptance_db := {
  q_obs : observatory;
  q_catalog : catalog;
  q_actions : gset ustr;
  q_definitions : gmap (ustr * ustr) semantic_definition;
  q_revisions : gmap (ustr * ustr) revision_row;
  q_values : gmap (ustr * ustr * ustr) value_row;
  q_materials : gmap (ustr * ustr) material_row;
  q_members : gmap (ustr * ustr * Z) member_of;
  q_candidates : gmap ustr candidates;
  q_changes : gmap (ustr * ustr) change_row;
  q_change_facts : gmap (ustr * Z) change_fact;
  q_facts : gmap ustr acceptance_fact;
  q_epochs : gmap (ustr * ustr * Z) epoch_row;
  q_steps : gmap ustr item_step
}.
Definition set_obs o d := Build_acceptance_db o (q_catalog d) (q_actions d) (q_definitions d) (q_revisions d) (q_values d) (q_materials d) (q_members d) (q_candidates d) (q_changes d) (q_change_facts d) (q_facts d) (q_epochs d) (q_steps d).
Definition set_catalog c d := Build_acceptance_db (q_obs d) c (q_actions d) (q_definitions d) (q_revisions d) (q_values d) (q_materials d) (q_members d) (q_candidates d) (q_changes d) (q_change_facts d) (q_facts d) (q_epochs d) (q_steps d).
Definition set_revisions m d := Build_acceptance_db (q_obs d) (q_catalog d) (q_actions d) (q_definitions d) m (q_values d) (q_materials d) (q_members d) (q_candidates d) (q_changes d) (q_change_facts d) (q_facts d) (q_epochs d) (q_steps d).
Definition set_values m d := Build_acceptance_db (q_obs d) (q_catalog d) (q_actions d) (q_definitions d) (q_revisions d) m (q_materials d) (q_members d) (q_candidates d) (q_changes d) (q_change_facts d) (q_facts d) (q_epochs d) (q_steps d).
Definition set_materials m d := Build_acceptance_db (q_obs d) (q_catalog d) (q_actions d) (q_definitions d) (q_revisions d) (q_values d) m (q_members d) (q_candidates d) (q_changes d) (q_change_facts d) (q_facts d) (q_epochs d) (q_steps d).
Definition set_members m d := Build_acceptance_db (q_obs d) (q_catalog d) (q_actions d) (q_definitions d) (q_revisions d) (q_values d) (q_materials d) m (q_candidates d) (q_changes d) (q_change_facts d) (q_facts d) (q_epochs d) (q_steps d).
Definition set_candidates m d := Build_acceptance_db (q_obs d) (q_catalog d) (q_actions d) (q_definitions d) (q_revisions d) (q_values d) (q_materials d) (q_members d) m (q_changes d) (q_change_facts d) (q_facts d) (q_epochs d) (q_steps d).
Definition set_changes m f d := Build_acceptance_db (q_obs d) (q_catalog d) (q_actions d) (q_definitions d) (q_revisions d) (q_values d) (q_materials d) (q_members d) (q_candidates d) m f (q_facts d) (q_epochs d) (q_steps d).
Definition set_facts m d := Build_acceptance_db (q_obs d) (q_catalog d) (q_actions d) (q_definitions d) (q_revisions d) (q_values d) (q_materials d) (q_members d) (q_candidates d) (q_changes d) (q_change_facts d) m (q_epochs d) (q_steps d).
Definition set_epochs m d := Build_acceptance_db (q_obs d) (q_catalog d) (q_actions d) (q_definitions d) (q_revisions d) (q_values d) (q_materials d) (q_members d) (q_candidates d) (q_changes d) (q_change_facts d) (q_facts d) m (q_steps d).
Definition set_steps m d := Build_acceptance_db (q_obs d) (q_catalog d) (q_actions d) (q_definitions d) (q_revisions d) (q_values d) (q_materials d) (q_members d) (q_candidates d) (q_changes d) (q_change_facts d) (q_facts d) (q_epochs d) m.

(** ** Inputs *)

(** What the state of the stage says. [as_local] is the uploaded object of a local source with
    the digest and size of its bytes. *)
Record accept_state := {
  as_source : ustr;
  as_candidates : ustr;
  as_snapshot : ustr;
  as_item : ustr;
  as_revision : ustr;
  as_raw_artifact : ustr;
  as_clean_artifact : ustr;
  as_root : ustr;
  as_external_key : ustr;
  as_observation : option ustr;
  as_observation_key : ustr;
  as_fingerprint : ustr;
  as_epoch : option Z;
  as_review : bool;
  as_admission : ustr;
  as_observed_at : Z;
  as_local : option (ustr * ustr * Z);
  as_semantics : pydict
}.
Definition with_revision (r : ustr) (s : accept_state) : accept_state :=
  Build_accept_state (as_source s) (as_candidates s) (as_snapshot s) (as_item s) r (as_raw_artifact s) (as_clean_artifact s) (as_root s) (as_external_key s) (as_observation s)
    (as_observation_key s) (as_fingerprint s) (as_epoch s) (as_review s) (as_admission s) (as_observed_at s) (as_local s) (as_semantics s).
(** The target that a metadata update or a rebuild has frozen. *)
Record frozen_target := { ft_item : ustr; ft_revision : ustr; ft_snapshot : ustr; ft_epoch : Z; ft_fingerprint : ustr; ft_clean : ustr }.

Section acceptance.
Context {H : Host} {F : FloatText} (depth : nat).
Variables (uuid7 : nat -> ustr) (now : Z).
Abbreviation ctx := (txn acceptance_db).

Definition on_obs {A} (m : txn observatory A) : ctx A := fun d => let* r := m (q_obs d) in Ok (r.1, set_obs r.2 d).
Definition on_catalog {A} (m : txn catalog A) : ctx A := fun d => let* r := m (q_catalog d) in Ok (r.1, set_catalog r.2 d).
Definition new_id : ctx ustr := on_obs (fresh uuid7).

(** ** Objects *)

(** [_catalog_cas_object_tx] *)
Definition catalog_cas_object (team : ustr) (st : object_stat) : ctx ustr :=
  on_catalog (
    let! d := gets id in
    match live_object d team (os_sha256 st) (os_size st) with
    | Some object => ret object
    | None =>
        let! id := new_uuid uuid7 in
        let row := Build_catalog_row team (os_sha256 st) (os_size st) (os_media st) (u "local_fs") now None in
        let! d := gets (fun d => d) in
        require (negb (object_conflict id row d)) IntegrityError ;!
        modify (fun d => set_objects (<[id := row]> (o_objects d)) d) ;!
        ret id
    end).
(** [_reference_object] *)
Definition reference_object (team object : ustr) (purpose kind : string) (owner digest : ustr) (size : Z) : ctx unit :=
  on_catalog (
    let! d := gets id in
    match first_row (fun _ r => of_object team object r && purpose_is purpose r && owner_kind_is kind r && ueqb (rf_owner r) owner && unreleased r) (o_references d) with
    | Some _ => ret tt
    | None =>
        let! id := new_uuid uuid7 in
        insert_reference id (Build_reference_row team object purpose kind owner digest size now None None)
    end).
(** The holds of an upload end when a snapshot holds the object. *)
Definition release_upload (team object : ustr) : ctx unit :=
  on_catalog (release_where now (fun r => of_object team object r && purpose_is "upload_pending" r && owner_kind_is "public_upload" r && unreleased r)).

(** ** Snapshots and items *)

Definition EPOCH_CONFLICT : exn := MkbError "ITEM_EPOCH_CONFLICT" 409.
Definition snapshot_at (team source key : ustr) (o : observatory) : option ustr :=
  (fun kv : ustr * ustr * snapshot_row => kv.1.2) <$> List.find (fun kv => ueqb kv.1.1 team && ueqb (sh_source kv.2) source && ueqb (sh_key kv.2) key) (map_to_list (y_snapshots o)).
Definition known_source (team source : ustr) (o : observatory) : bool := existsb (fun kv => ueqb kv.1.1.1 team && ueqb (og_uuid kv.2) source) (map_to_list (y_sources o)).
Definition insert_snapshot (c : ProcessCommand) (s : accept_state) : txn observatory unit :=
  let! d := gets id in
  require (bool_decide (y_snapshots d !! (pc_team c, as_snapshot s) = None) && bool_decide (snapshot_at (pc_team c) (as_source s) (as_observation_key s) d = None)
           && known_source (pc_team c) (as_source s) d) IntegrityError ;!
  modify (fun d => set_snapshots (<[(pc_team c, as_snapshot s) := Build_snapshot_row (as_source s) (as_observation_key s) (as_fingerprint s) (as_root s) (pc_execution c) (as_raw_artifact s) (as_observed_at s) now]> (y_snapshots d)) d).
(** The snapshot of the state: one that a legacy source has already, or a new one that its
    observation accepts. *)
Definition settle_snapshot (c : ProcessCommand) (s : accept_state) : txn observatory ustr :=
  let! d := gets id in
  match (if as_observation s is Some _ then None else snapshot_at (pc_team c) (as_source s) (as_observation_key s) d) with
  | Some snapshot => ret snapshot
  | None => insert_snapshot c s ;! mark_accepted uuid7 now (pc_team c) (pc_execution c) (as_snapshot s) ;! ret (as_snapshot s)
  end.

Definition item_key (c : ProcessCommand) (s : accept_state) : ustr * ustr * ustr := (pc_team c, as_source s, as_external_key s).
Definition item_by_uuid (team item : ustr) (o : observatory) : option (ustr * ustr * ustr * known_item) :=
  List.find (fun kv => ueqb kv.1.1.1 team && ueqb (ki_uuid kv.2) item) (map_to_list (y_items o)).
(** [INSERT OR IGNORE] *)
Definition ensure_item (c : ProcessCommand) (s : accept_state) : txn observatory unit :=
  modify (fun d =>
    if bool_decide (is_Some (y_items d !! item_key c s)) || bool_decide (is_Some (item_by_uuid (pc_team c) (as_item s) d)) then d
    else set_items (<[item_key c s := Build_known_item (as_item s) (if as_review s then u "deactivated" else u "active") 0 None None]> (y_items d)) d).
Definition adopted (i : known_item) (revision : ustr) : known_item := Build_known_item (ki_uuid i) (ki_state i) (ki_revision i + 1) (Some revision) (ki_serving i).
Definition disposition_of (i : known_item) (revision : ustr) : disposition := if bool_decide (ki_latest i = Some revision) then no_change else changed.
Definition epoch_after (i : known_item) (x : disposition) : Z := if bool_decide (x = changed) then ki_revision i + 1 else ki_revision i.
(** The item under its epoch: what it was, and whether its latest revision changes. *)
Definition adopt_latest (c : ProcessCommand) (s : accept_state) : txn observatory (known_item * disposition) :=
  let! d := gets y_items in
  match d !! item_key c s with
  | Some i =>
      require (ueqb (ki_uuid i) (as_item s)) EPOCH_CONFLICT ;!
      require (ki_revision i =? default (ki_revision i) (as_epoch s)) EPOCH_CONFLICT ;!
      match disposition_of i (as_revision s) with
      | no_change => ret (i, no_change)
      | changed =>
          require (ueqb (ki_state i) (u "active") || ueqb (ki_state i) (u "deactivated")) EPOCH_CONFLICT ;!
          modify (fun d => set_items (<[item_key c s := adopted i (as_revision s)]> (y_items d)) d) ;!
          ret (i, changed)
      end
  | None => raise EPOCH_CONFLICT
  end.

(** ** Revisions *)

Definition revision_of (team item : ustr) (f : revision_row -> bool) (d : acceptance_db) : option (ustr * revision_row) :=
  (fun kv : ustr * ustr * revision_row => (kv.1.2, kv.2)) <$> List.find (fun kv => ueqb kv.1.1 team && ueqb (re_item kv.2) item && f kv.2) (map_to_list (q_revisions d)).
Definition revision_by_fingerprint (team item fingerprint : ustr) (d : acceptance_db) : option ustr := fst <$> revision_of team item (fun r => ueqb (re_fingerprint r) fingerprint) d.
(** [MAX(revision_ordinal)], 0 without a revision *)
Definition max_ordinal (team item : ustr) (d : acceptance_db) : Z :=
  foldr (fun kv n => if ueqb kv.1.1 team && ueqb (re_item kv.2) item then Z.max (re_ordinal kv.2) n else n) 0 (map_to_list (q_revisions d)).
(** The unique indexes of revisions, and the foreign keys to item, predecessor and snapshot. *)
Definition insert_revision (team k : ustr) (r : revision_row) : ctx unit :=
  let! d := gets id in
  require (bool_decide (q_revisions d !! (team, k) = None) && bool_decide (revision_of team (re_item r) (fun o => re_ordinal o =? re_ordinal r) d = None)
           && bool_decide (revision_by_fingerprint team (re_item r) (re_fingerprint r) d = None) && (1 <=? re_ordinal r)
           && bool_decide (is_Some (item_by_uuid team (re_item r) (q_obs d))) && bool_decide (is_Some (y_snapshots (q_obs d) !! (team, re_snapshot r)))
           && match re_predecessor r with Some p => bool_decide (is_Some (q_revisions d !! (team, p))) | None => true end) IntegrityError ;!
  modify (fun d => set_revisions (<[(team, k) := r]> (q_revisions d)) d).
(** [_insert_revision_semantic] *)
Definition insert_value (team revision : ustr) (e : entry) : ctx unit :=
  let! value := lift (semantic_scalar (en_kind e) (en_value e)) in
  let! kind := lift (semantic_storage_kind (en_kind e)) in
  let! d := gets q_values in
  require (bool_decide (d !! (team, revision, en_key e) = None)) IntegrityError ;!
  modify (fun d => set_values (<[(team, revision, en_key e) := Build_value_row (en_version e) (en_digest e) kind value (en_provenance e)]> (q_values d)) d).
Fixpoint insert_values (team revision : ustr) (es : list entry) : ctx unit :=
  match es with [] => ret tt | e :: es => insert_value team revision e ;! insert_values team revision es end.

(** The revision of the state: the one that has its fingerprint, or the next of its item. *)
Definition append_revision (c : ProcessCommand) (s : accept_state) (revision_before snapshot : ustr) : ctx unit :=
  let! d := gets id in
  let! es := lift (initial_semantics (q_definitions d) (as_semantics s)) in
  let! fingerprint := lift (semantic_fingerprint es) in
  match revision_by_fingerprint (pc_team c) (as_item s) fingerprint d with
  | Some k => require (ueqb k (as_revision s)) (MkbError "Intake revision was adopted concurrently under the same fingerprint" 409)
  | None =>
      require (ueqb (as_revision s) revision_before) (MkbError "Replayed intake revision disappeared before commit" 409) ;!
      let ordinal := max_ordinal (pc_team c) (as_item s) d + 1 in
      let predecessor := fst <$> revision_of (pc_team c) (as_item s) (fun r => re_ordinal r =? ordinal - 1) d in
      insert_revision (pc_team c) (as_revision s) (Build_revision_row (as_item s) ordinal predecessor fingerprint (u "accept_revision") snapshot now) ;!
      insert_values (pc_team c) (as_revision s) es
  end.

(** ** Facts *)

Definition insert_fact (c : ProcessCommand) (s : accept_state) (snapshot : ustr) (i : known_item) (x : disposition) : ctx unit :=
  match as_observation s with
  | None => ret tt
  | Some observation =>
      let! _id := new_id in
      let! digest := lift (stable_digest (obj [("observation_uuid", PStr observation); ("intake_snapshot_uuid", PStr snapshot); ("intake_item_uuid", PStr (as_item s));
        ("intake_revision_uuid", PStr (as_revision s)); ("disposition", PStr (disposition_text x)); ("expected_item_epoch", PInt (ki_revision i));
        ("resulting_item_epoch", PInt (epoch_after i x))]%string)) in
      let! d := gets id in
      require (bool_decide (q_facts d !! observation = None)
               && match y_observations (q_obs d) !! observation with Some o => ueqb (ob_team o) (pc_team c) | None => false end) IntegrityError ;!
      modify (fun d => set_facts (<[observation := Build_acceptance_fact (pc_team c) snapshot (as_item s) (as_revision s) x (ki_revision i) (epoch_after i x) digest]> (q_facts d)) d)
  end.
Definition insert_epoch (c : ProcessCommand) (s : accept_state) (i : known_item) : ctx unit :=
  let! _id := new_id in
  let! digest := lift (stable_digest (obj [("intake_item_uuid", PStr (as_item s)); ("epoch_before", PInt (ki_revision i)); ("epoch_after", PInt (ki_revision i + 1));
    ("mutation_kind", PStr (u "accept_latest")); ("observation_uuid", py_opt (as_observation s))]%string)) in
  let! d := gets q_epochs in
  require (bool_decide (d !! (pc_team c, as_item s, ki_revision i + 1) = None)) IntegrityError ;!
  modify (fun d => set_epochs (<[(pc_team c, as_item s, ki_revision i + 1) := Build_epoch_row (ki_revision i) (pc_task c) (pc_execution c) (as_observation s) digest]> (q_epochs d)) d).
Definition insert_step (t : item_step) : ctx unit :=
  let! id := new_id in
  let! d := gets q_steps in
  require (bool_decide (d !! id = None)) IntegrityError ;!
  modify (fun d => set_steps (<[id := t]> (q_steps d)) d).
Definition process_fence (c : ProcessCommand) (field fence : string) : result ustr :=
  stable_digest (obj [(field, PStr (pc_process c)); (fence, PInt (pc_fencing_generation c))]).

(** ** The snapshot *)

Definition insert_material (team k : ustr) (m : material_row) : ctx unit :=
  let! d := gets id in
  require (bool_decide (q_materials d !! (team, k) = None) && is_digest (ma_digest m) && (0 <=? ma_size m)
           && match ma_revision m with Some r => bool_decide (is_Some (q_revisions d !! (team, r))) | None => true end) IntegrityError ;!
  modify (fun d => set_materials (<[(team, k) := m]> (q_materials d)) d).
Definition insert_materials (c : ProcessCommand) (s : accept_state) (snapshot : ustr) (raw clean : object_stat * ustr) : ctx unit :=
  insert_material (pc_team c) (as_raw_artifact s)
    (Build_material_row (Some snapshot) None (u "raw_acquisition") (os_sha256 raw.1) (os_size raw.1) (os_handle raw.1) (Some raw.2) (pc_execution c) (pc_process c)) ;!
  insert_material (pc_team c) (as_clean_artifact s)
    (Build_material_row None (Some (as_revision s)) (u "clean_text") (os_sha256 clean.1) (os_size clean.1) (os_handle clean.1) (Some clean.2) (pc_execution c) (pc_process c)).
Definition reference_materials (c : ProcessCommand) (s : accept_state) (snapshot : ustr) (raw clean output : object_stat * ustr) : ctx unit :=
  let hold (x : object_stat * ustr) purpose kind owner := reference_object (pc_team c) x.2 purpose kind owner (os_sha256 x.1) (os_size x.1) in
  hold raw "intake_snapshot_artifact"%string "intake_snapshot"%string snapshot ;!
  hold clean "intake_revision_artifact"%string "intake_revision"%string (as_revision s) ;!
  hold output "intake_revision_artifact"%string "intake_revision"%string (as_revision s) ;!
  match as_local s with
  | Some (object, digest, size) =>
      reference_object (pc_team c) object "intake_snapshot_artifact" "intake_snapshot_source_object" snapshot digest size ;! release_upload (pc_team c) object
  | None => ret tt
  end.
(** [INSERT OR IGNORE] *)
Definition insert_member (c : ProcessCommand) (s : accept_state) (snapshot : ustr) : ctx unit :=
  let! digest := lift (stable_digest (obj [("admission", PStr (as_admission s)); ("revision", PStr (as_revision s))]%string)) in
  modify (fun d =>
    if bool_decide (is_Some (q_members d !! (pc_team c, snapshot, 0)))
       || existsb (fun kv => ueqb kv.1.1.1 (pc_team c) && ueqb kv.1.1.2 snapshot && ueqb (mb_key kv.2) (as_external_key s)) (map_to_list (q_members d)) then d
    else set_members (<[(pc_team c, snapshot, 0) := Build_member_of (as_external_key s) (as_item s) (as_revision s) digest]> (q_members d)) d).
Definition accept_candidates (team set snapshot : ustr) (e : exn) : ctx unit :=
  let! d := gets id in
  match q_candidates d !! set with
  | Some k =>
      require (ueqb (cd_team k) team && bool_decide (cd_state k = CS_sealed)) e ;!
      require (bool_decide (is_Some (y_snapshots (q_obs d) !! (team, snapshot)))) IntegrityError ;!
      modify (fun d => set_candidates (<[set := Build_candidates (cd_team k) CS_accepted 1 (Some snapshot) (cd_revision k + 1)]> (q_candidates d)) d)
  | None => raise e
  end.
Definition with_snapshot_of (snapshot : ustr) (k : coordinates) : coordinates := Build_coordinates (co_team k) (co_observation k) (co_generation k) (co_epoch k) (Some snapshot).
Definition bind_execution_snapshot (c : ProcessCommand) (snapshot : ustr) : txn observatory unit :=
  let! d := gets y_executions in
  match d !! pc_execution c with
  | Some k =>
      require (ueqb (co_team k) (pc_team c) && bool_decide (co_snapshot k = None)) (MkbError "INTAKE_SNAPSHOT_EXECUTION_FENCE" 409) ;!
      modify (fun d => set_executions (<[pc_execution c := with_snapshot_of snapshot k]> (y_executions d)) d)
  | None => raise (MkbError "INTAKE_SNAPSHOT_EXECUTION_FENCE" 409)
  end.
(** The change set of the snapshot with its single fact; an earlier one with the same digest
    is used. *)
Definition change_digest (s : accept_state) (snapshot : ustr) : result ustr :=
  stable_digest (obj [("schema_version", PStr (u "mkb.intake-change-set.v1")); ("intake_snapshot_uuid", PStr snapshot); ("candidate_root_digest", PStr (as_root s));
    ("members", PList [obj [("member_ordinal", PInt 0); ("intake_item_uuid", PStr (as_item s)); ("intake_revision_uuid", PStr (as_revision s)); ("required", PBool true)]])]%string).
Definition insert_change_set (c : ProcessCommand) (s : accept_state) (snapshot : ustr) : ctx ustr :=
  let! id := new_id in
  let! digest := lift (change_digest s snapshot) in
  let! d := gets q_changes in
  match d !! (pc_team c, snapshot) with
  | Some g => ret (if ueqb (cg_digest g) digest then cg_uuid g else id)
  | None =>
      let! _fact := new_id in
      let! fact := lift (stable_digest (obj [("kind", PStr (u "accept_revision")); ("member_ordinal", PInt 0); ("intake_item_uuid", PStr (as_item s));
        ("intake_revision_uuid", PStr (as_revision s))]%string)) in
      let! d := gets q_change_facts in
      require (bool_decide (d !! (id, 0) = None)) IntegrityError ;!
      modify (fun d => set_changes (<[(pc_team c, snapshot) := Build_change_row id digest]> (q_changes d)) (<[(id, 0) := Build_change_fact (as_item s) (as_revision s) fact]> (q_change_facts d)) d) ;!
      ret id
  end.
Definition bind_task_snapshot (c : ProcessCommand) (snapshot changes : ustr) : txn observatory unit :=
  let! d := gets y_tasks in
  match d !! (pc_team c, pc_task c) with
  | Some t =>
      require (ueqb (ot_root t) (pc_execution c) && bool_decide (co_snapshot (ot_coordinates t) = None)) (MkbError "INTAKE_SNAPSHOT_TASK_FENCE" 409) ;!
      modify (fun d => set_tasks (<[(pc_team c, pc_task c) := Build_owner_task (ot_print t) (ot_root t) (with_snapshot_of snapshot (ot_coordinates t)) (Some changes)]> (y_tasks d)) d)
  | None => raise (MkbError "INTAKE_SNAPSHOT_TASK_FENCE" 409)
  end.

(** ** The stage *)

(** The checks before the transaction, and the probe for a revision that has the fingerprint
    already: the state with the revision to accept. *)
Definition accept_checked (c : ProcessCommand) (s : accept_state) : result unit :=
  check bool_decide (pc_binding_state c = sealed) && bool_decide (is_Some (pc_binding_digest c)) else MkbError "ACTUAL_S05_UNSEALED" 409 ;;
  check bool_decide (as_admission s ∈ [u "auto_admitted"; u "human_review_required"]) else MkbError "PREFLIGHT_REJECTED" 409 ;;
  check forallb (fun t => negb (bool_decide (t = []))) [as_source s; as_candidates s; as_snapshot s; as_item s; as_revision s; as_raw_artifact s; as_clean_artifact s; as_root s]
        && bool_decide (is_Some (filled_text (raw_field (as_semantics s) "clean_digest"))) else MkbError "PIPELINE_INPUT_INVALID" 422 ;;
  Ok tt.
Definition accept_probe (c : ProcessCommand) (s : accept_state) (d : acceptance_db) : result accept_state :=
  let* _ := accept_checked c s in
  let* es := initial_semantics (q_definitions d) (as_semantics s) in
  let* fingerprint := semantic_fingerprint es in
  Ok (match revision_by_fingerprint (pc_team c) (as_item s) fingerprint d with Some k => with_revision k s | None => s end).

(** The callback of [_accept_snapshot]; [fresh_revision] is the revision before the probe. *)
Definition accept_commit (c : ProcessCommand) (s : accept_state) (fresh_revision : ustr) (raw clean output : object_stat) (proof : ustr * ustr) : ctx unit :=
  let! d := gets q_catalog in
  match live_object d (pc_team c) (os_sha256 output) (os_size output) with
  | None => raise (MkbError "OBJECT_CATALOGUE_MISSING" 503)
  | Some stored =>
      let! raw_object := catalog_cas_object (pc_team c) raw in
      let! clean_object := catalog_cas_object (pc_team c) clean in
      let! actions := gets q_actions in
      require (bool_decide (u "accept_revision" ∈ actions)) (MkbError "REGISTRY_NOT_FOUND" 503) ;!
      let! snapshot := on_obs (settle_snapshot c s) in
      on_obs (ensure_item c s) ;!
      let! before := on_obs (adopt_latest c s) in
      append_revision c s fresh_revision snapshot ;!
      insert_fact c s snapshot before.1 before.2 ;!
      (if bool_decide (before.2 = changed) then insert_epoch c s before.1 else ret tt) ;!
      insert_materials c s snapshot (raw, raw_object) (clean, clean_object) ;!
      reference_materials c s snapshot (raw, raw_object) (clean, clean_object) (output, stored) ;!
      insert_member c s snapshot ;!
      accept_candidates (pc_team c) (as_candidates s) snapshot (MkbError "CANDIDATE_SET_FENCE" 409) ;!
      on_obs (bind_execution_snapshot c snapshot) ;!
      let! changes := insert_change_set c s snapshot in
      on_obs (bind_task_snapshot c snapshot changes) ;!
      if bool_decide (before.2 = changed) then
        let! fence := lift (process_fence c "process" "fence") in
        insert_step (Build_item_step (pc_team c) (as_item s) (u "accept_revision") (ki_state before.1) (ki_latest before.1, Some (as_revision s)) (ki_serving before.1)
          (ki_revision before.1, ki_revision before.1 + 1) (pc_process c) proof fence)
      else ret tt
  end.

(** ** Full retries *)

(** The accepted observation of a full retry: snapshot, item and revision of its member 0. *)
Definition UNAVAILABLE : exn := MkbError "FULL_REPLAY_INPUT_UNAVAILABLE" 409.
Definition replay_probe (c : ProcessCommand) (s : accept_state) (d : acceptance_db) : result (ustr * ustr * ustr) :=
  let* _ := accept_checked c s in
  match (k ← as_observation s; o ← y_observations (q_obs d) !! k; n ← ob_snapshot o; _ ← y_snapshots (q_obs d) !! (pc_team c, n); m ← q_members d !! (pc_team c, n, 0);
         if ueqb (ob_team o) (pc_team c) && bool_decide (ob_state o = OB_accepted) then Some (n, mb_item m, mb_revision m) else None) with
  | Some r => Ok r
  | None => Err UNAVAILABLE
  end.
Definition replay_commit (c : ProcessCommand) (s : accept_state) (snapshot : ustr) : ctx unit :=
  let! d := gets q_obs in
  require (match (k ← as_observation s; y_observations d !! k) with
           | Some o => ueqb (ob_team o) (pc_team c) && bool_decide (ob_state o = OB_accepted) && bool_decide (ob_snapshot o = Some snapshot)
           | None => false
           end) UNAVAILABLE.

(** ** Metadata updates and rebuilds *)

(** The item of a frozen target, unchanged since. *)
Definition frozen_item (team : ustr) (t : frozen_target) (e : exn) : ctx (ustr * ustr * ustr * known_item) :=
  let! d := gets q_obs in
  match item_by_uuid team (ft_item t) d with
  | Some ki =>
      require ((ki_revision ki.2 =? ft_epoch t) && ueqb (ki_state ki.2) (u "active") && bool_decide (ki_latest ki.2 = Some (ft_revision t))) e ;!
      ret ki
  | None => raise e
  end.
Definition registered_action (action code : string) : ctx unit :=
  let! d := gets q_actions in require (bool_decide (u action ∈ d)) (MkbError code 503).
Definition keep_step (c : ProcessCommand) (t : frozen_target) (action : string) (i : known_item) (proof : ustr * ustr) (fence : ustr) : ctx unit :=
  insert_step (Build_item_step (pc_team c) (ft_item t) (u action) (u "active") (Some (ft_revision t), Some (ft_revision t)) (ki_serving i) (ki_revision i, ki_revision i) (pc_process c) proof fence).

(** The callback of [_accept_rebuild] *)
Definition accept_rebuild (c : ProcessCommand) (t : frozen_target) (set : ustr) (proof : ustr * ustr) : ctx unit :=
  let! i := frozen_item (pc_team c) t (MkbError "REBUILD_TARGET_STALE" 409) in
  accept_candidates (pc_team c) set (ft_snapshot t) (MkbError "REBUILD_CANDIDATE_FENCE" 409) ;!
  let! fence := lift (process_fence c "rebuild_process" "fencing_generation") in
  keep_step c t "rebuild" i.2 proof fence.

Definition artifacts_of (team : ustr) (d : acceptance_db) (k : ustr) : bool := bool_decide (is_Some (q_materials d !! (team, k))).
Definition merged_of (team : ustr) (replacements base : list pyval) (d : acceptance_db) : result (list (ustr * entry) * ustr) :=
  merged_metadata_semantics depth (q_definitions d) (artifacts_of team d) replacements base.
(** [_metadata_refresh_headers] *)
Definition PROJECTION_INVALID : exn := MkbError "METADATA_PROJECTION_INVALID" 409.
Definition refresh_headers (merged : list (ustr * entry)) (fingerprint : ustr) : result (list (ustr * ustr)) :=
  check is_digest fingerprint else PROJECTION_INVALID ;;
  let* blobs := mapM (fun key : string =>
    match dget merged (u key) with
    | Some e => check is_digest (en_digest e) else PROJECTION_INVALID ;; Ok (u "s04." ++ u key ++ u "_digest", en_digest e)
    | None => Err PROJECTION_INVALID
    end) ["context_metadata"; "filter_metadata"]%string in
  Ok ((u "s04.metadata_fingerprint", fingerprint) :: blobs).
(** The stage before its transaction: the merged entries, their fingerprint and whether nothing
    changes, with the headers of the refresh that a new revision needs; [mode] is the refresh
    mode of the state and [frozen] whether it has a frozen construction. *)
Definition metadata_probe (team : ustr) (t : frozen_target) (replacements base : list pyval) (mode : option ustr) (frozen : bool) (d : acceptance_db)
    : result (list (ustr * entry) * ustr * bool * list (ustr * ustr)) :=
  check negb (bool_decide (replacements = [])) && negb (bool_decide (ft_revision t = [])) else MkbError "METADATA_TARGET_INVALID" 422 ;;
  let* m := merged_of team replacements base d in
  if ueqb m.2 (ft_fingerprint t) then Ok (m.1, m.2, true, [])
  else
    check bool_decide (mode = Some (u "reuse_summaries")) else MkbError "METADATA_REFRESH_MODE_INVALID" 409 ;;
    check frozen else MkbError "METADATA_REFRESH_SOURCE_MISSING" 409 ;;
    let* headers := refresh_headers m.1 m.2 in
    Ok (m.1, m.2, false, headers).
Definition entries_equal (a b : list (ustr * entry)) : bool :=
  let dump l := PDict (map (fun kv : ustr * entry => (kv.1, dump_entry kv.2)) l) in py_eqb (dump a) (dump b).
Definition METADATA_STALE : exn := MkbError "METADATA_TARGET_STALE" 409.
Definition no_change_step (c : ProcessCommand) (t : frozen_target) (i : known_item) (proof : ustr * ustr) : ctx unit :=
  registered_action "no_change" "INTAKE_ACTION_UNREGISTERED" ;!
  let! fence := lift (process_fence c "metadata_no_change_process" "fencing_generation") in
  keep_step c t "no_change" i proof fence.
(** The clean artifact of the predecessor becomes one of the new revision. *)
Definition inherit_clean (c : ProcessCommand) (t : frozen_target) (revision clean : ustr) : ctx unit :=
  let! d := gets q_materials in
  match d !! (pc_team c, ft_clean t) with
  | Some m =>
      match ma_object m with
      | Some object =>
          require (bool_decide (ma_revision m = Some (ft_revision t)) && ueqb (ma_role m) (u "clean_text") && negb (bool_decide (object = []))) (MkbError "METADATA_CLEAN_ARTIFACT_MISSING" 409) ;!
          insert_material (pc_team c) clean (Build_material_row None (Some revision) (u "clean_text") (ma_digest m) (ma_size m) (ma_handle m) (Some object) (pc_execution c) (pc_process c)) ;!
          reference_object (pc_team c) object "intake_revision_artifact" "intake_revision" revision (ma_digest m) (ma_size m)
      | None => raise (MkbError "METADATA_CLEAN_ARTIFACT_MISSING" 409)
      end
  | None => raise (MkbError "METADATA_CLEAN_ARTIFACT_MISSING" 409)
  end.
(** The update of the latest revision, fenced by the epoch and the predecessor. *)
Definition advance_latest (team : ustr) (t : frozen_target) (k : ustr * ustr * ustr) (before : known_item) (revision : ustr) : txn observatory unit :=
  let! d := gets y_items in
  match d !! k with
  | Some i =>
      require ((ki_revision i =? ki_revision before) && bool_decide (ki_latest i = Some (ft_revision t))) METADATA_STALE ;!
      modify (fun d => set_items (<[k := adopted i revision]> (y_items d)) d)
  | None => raise METADATA_STALE
  end.

(** The callback of [_accept_metadata_update], after its merge [m]; [revision] and [clean] are
    the identifiers that the stage has drawn. *)
Definition accept_metadata (c : ProcessCommand) (t : frozen_target) (replacements base : list pyval) (m : list (ustr * entry) * ustr * bool) (set revision clean : ustr) (proof : ustr * ustr) : ctx unit :=
  let! i := frozen_item (pc_team c) t METADATA_STALE in
  registered_action "update_metadata" "INTAKE_ACTION_UNREGISTERED" ;!
  let! d := gets id in
  let! current := lift (merged_of (pc_team c) replacements base d) in
  require (ueqb current.2 m.1.2 && entries_equal current.1 m.1.1) METADATA_STALE ;!
  accept_candidates (pc_team c) set (ft_snapshot t) (MkbError "METADATA_CANDIDATE_FENCE" 409) ;!
  if m.2 then no_change_step c t i.2 proof
  else
    insert_revision (pc_team c) revision
      (Build_revision_row (ft_item t) (max_ordinal (pc_team c) (ft_item t) d + 1) (Some (ft_revision t)) m.1.2 (u "update_metadata") (ft_snapshot t) now) ;!
    insert_values (pc_team c) revision m.1.1.*2 ;!
    inherit_clean c t revision clean ;!
    on_obs (advance_latest (pc_team c) t i.1 i.2 revision) ;!
    let! fence := lift (process_fence c "metadata_process" "fencing_generation") in
    insert_step (Build_item_step (pc_team c) (ft_item t) (u "update_metadata") (u "active") (Some (ft_revision t), Some revision) (ki_serving i.2)
      (ki_revision i.2, ki_revision i.2 + 1) (pc_process c) proof fence).
End acceptance.
