(* ===== verification/AcceptanceLaws.v ===== *)
(** * Laws of acceptance

    The history of an item: what its revisions, its latest revision and its epoch have to do
    with each other, that every acceptance keeps it, and that one epoch admits one change. *)

From S2P Require Import Prelude PyText PyValue PyFloat Txn Strategies Engine PublicData VectorContracts ObjectStore Objects Semantics Observations ObservationLaws Acceptance.

Open Scope Z_scope.
Open Scope mkb_scope.

(** ** Steps that leave the history alone *)

(** A transaction of the observatory that keeps the items. *)
Record obs_quiet {H : Host} (o o' : observatory) : Prop := { oq_items : y_items o' = y_items o; oq_run : rtc observation_step o o' }.
#[export] Instance obs_quiet_preorder {H : Host} : PreOrder obs_quiet.
Proof. split; [intros o; split; [done|reflexivity]|]. intros a b c [I1 R1] [I2 R2]. split; [congruence|by etrans]. Qed.
Record quiet {H : Host} (d d' : acceptance_db) : Prop := {
  qt_obs : obs_quiet (q_obs d) (q_obs d');
  qt_revisions : q_revisions d' = q_revisions d;
  qt_epochs : q_epochs d' = q_epochs d;
  qt_definitions : q_definitions d' = q_definitions d
}.
#[export] Instance quiet_preorder {H : Host} : PreOrder quiet.
Proof. split; [intros d; by split|]. intros a b c [O1 R1 E1 D1] [O2 R2 E2 D2]. split; [by etrans|congruence..]. Qed.

Create HintDb acceptance.
Ltac quiet_tac :=
  repeat match goal with
  | |- keeps _ (bind _ _) => apply keeps_bind; [apply _| |intros ?]
  | |- keeps _ (if ?b then _ else _) => destruct b
  | |- keeps _ (match ?x with _ => _ end) => destruct x
  end;
  auto with acceptance; try (apply keeps_reads; [apply _|]; solve [auto with mkb]); try (apply keeps_modify; intros ?; by split).


Section quiet.
Context {H : Host} {F : FloatText} (depth : nat) (uuid7 : nat -> ustr) (now : Z).

Lemma outside_quiet o o' : y_items o' = y_items o -> y_observations o' = y_observations o -> y_attempts o' = y_attempts o -> y_links o' = y_links o -> y_sources o' = y_sources o ->
  (forall e c, y_executions o' !! e = Some c -> exists c0, y_executions o !! e = Some c0 /\ (co_observation c0, co_generation c0) = (co_observation c, co_generation c)) -> obs_quiet o o'.
Proof.
  intros Hi Ho Ha Hl Hs He. split; [done|]. apply rtc_once, outside_step; try done; [rewrite Hs; apply evolves_refl; apply _|]. intros e c Hc. right. by apply He.
Qed.
Lemma same_executions o o' : y_executions o' = y_executions o -> forall e c, y_executions o' !! e = Some c ->
  exists c0, y_executions o !! e = Some c0 /\ (co_observation c0, co_generation c0) = (co_observation c, co_generation c).
Proof. intros E e c Hc. rewrite E in Hc. eauto. Qed.

Lemma keeps_on_obs {A} R (m : txn observatory A) P : keeps P m -> (forall d o, P (q_obs d) o -> R d (set_obs o d)) -> keeps R (on_obs m).
Proof. intros Hm HR d a d'. unfold on_obs. intros ([b o] & Hb & [= <- <-])%rbind_Ok. apply HR. by eapply Hm. Qed.
Lemma quiet_on_obs {A} (m : txn observatory A) : keeps obs_quiet m -> keeps quiet (on_obs m).
Proof. intros Hm. eapply keeps_on_obs; [exact Hm|]. intros d o Ho. by split. Qed.
Lemma quiet_on_catalog {A} (m : txn catalog A) : keeps quiet (on_catalog m).
Proof. intros d a d'. unfold on_catalog. intros ([b o] & Hb & [= <- <-])%rbind_Ok. by split. Qed.
Lemma quiet_modify f : (forall d, q_obs (f d) = q_obs d /\ q_revisions (f d) = q_revisions d /\ q_epochs (f d) = q_epochs d /\ q_definitions (f d) = q_definitions d) -> keeps quiet (modify f).
Proof. intros Hf. apply keeps_modify. intros d. destruct (Hf d) as (Eo & Er & Ee & Ed). split; [by rewrite Eo|done..]. Qed.

Lemma obs_quiet_fresh : keeps obs_quiet (fresh uuid7).
Proof. intros o a o' [= _ <-]. apply outside_quiet; try done. by apply same_executions. Qed.
Lemma obs_quiet_execution c snapshot : keeps obs_quiet (bind_execution_snapshot c snapshot).
Proof.
  intros o x o' (es & o1 & [= <- <-] & Hd)%bind_Ok. destruct (y_executions o !! pc_execution c) as [k|] eqn:E; [|done].
  apply bind_Ok in Hd as ([] & o1 & [_ ->]%require_Ok & [= _ <-]). apply outside_quiet; try done. intros e c0 He. cbn [y_executions set_executions] in He.
  apply lookup_insert_Some in He as [[<- <-]|[_ He]]; eauto.
Qed.
Lemma obs_quiet_task c snapshot changes : keeps obs_quiet (bind_task_snapshot c snapshot changes).
Proof.
  intros o x o' (es & o1 & [= <- <-] & Hd)%bind_Ok. destruct (y_tasks o !! (pc_team c, pc_task c)) as [t|]; [|done].
  apply bind_Ok in Hd as ([] & o1 & [_ ->]%require_Ok & [= _ <-]). apply outside_quiet; try done. by apply same_executions.
Qed.
Lemma obs_quiet_insert_snapshot c s : keeps obs_quiet (insert_snapshot now c s).
Proof.
  intros o x o' (es & o1 & [= <- <-] & Hd)%bind_Ok. apply bind_Ok in Hd as ([] & o1 & [_ ->]%require_Ok & [= _ <-]). apply outside_quiet; try done. by apply same_executions.
Qed.
Lemma record_attempt_items team k t g before after e a : keeps (fun o o' => y_items o' = y_items o) (record_attempt uuid7 team k t g before after e a).
Proof. by intros o x o' (h & n & ->)%record_attempt_Ok. Qed.
Lemma obs_quiet_accepted team e snapshot : keeps obs_quiet (mark_accepted uuid7 now team e snapshot).
Proof.
  intros o x o' Hm. split; [|by eapply rtc_once, accepted_step]. apply bind_Ok in Hm as (o0 & o1 & [= <- <-] & Hd).
  destruct (identity_for_execution team e o) as [[k p]|]; [|by injection Hd as _ <-]. apply bind_Ok in Hd as ([] & o1 & [_ ->]%require_Ok & Hd).
  apply bind_Ok in Hd as ([] & o1 & [= <-] & Hd). destruct (current_attempt team k p o) as [a|]; [|done]. apply bind_Ok in Hd as ([] & o2 & Hp & Hd).
  assert (y_items o2 = y_items o) as <- by (destruct (bool_decide (tt_state a = AT_acquired)); by injection Hp as <-). apply bind_Ok in Hd as ([] & o3 & [_ ->]%require_Ok & Hd).
  apply bind_Ok in Hd as ([] & o3 & [= <-] & Hd). by apply record_attempt_items in Hd.
Qed.
Lemma obs_quiet_settle c s : keeps obs_quiet (settle_snapshot uuid7 now c s).
Proof.
  unfold settle_snapshot. apply keeps_bind; [apply _|apply keeps_reads; [apply _|auto with mkb]|]. intros o. case_match; [apply keeps_reads; [apply _|auto with mkb]|].
  apply keeps_bind; [apply _|apply obs_quiet_insert_snapshot|intros _]. apply keeps_bind; [apply _|apply obs_quiet_accepted|intros _]. apply keeps_reads; [apply _|auto with mkb].
Qed.

#[local] Hint Resolve quiet_on_obs quiet_on_catalog obs_quiet_fresh obs_quiet_execution obs_quiet_task obs_quiet_settle : acceptance.
Lemma quiet_new_id : keeps quiet (new_id uuid7).
Proof. unfold new_id. quiet_tac. Qed.
#[local] Hint Resolve quiet_new_id : acceptance.
Lemma quiet_catalog_cas team st : keeps quiet (catalog_cas_object uuid7 now team st).
Proof. unfold catalog_cas_object. quiet_tac. Qed.
Lemma quiet_reference team object p k o g z : keeps quiet (reference_object uuid7 now team object p k o g z).
Proof. unfold reference_object. quiet_tac. Qed.
Lemma quiet_release team object : keeps quiet (release_upload now team object).
Proof. unfold release_upload. quiet_tac. Qed.
#[local] Hint Resolve quiet_catalog_cas quiet_reference quiet_release : acceptance.
Lemma quiet_value team r e : keeps quiet (insert_value team r e).
Proof. unfold insert_value. quiet_tac. Qed.
#[local] Hint Resolve quiet_value : acceptance.
Lemma quiet_values team r es : keeps quiet (insert_values team r es).
Proof. induction es as [|e es IH]; cbn [insert_values]; quiet_tac. Qed.
Lemma quiet_fact c s n i x : keeps quiet (insert_fact uuid7 c s n i x).
Proof. unfold insert_fact. quiet_tac. Qed.
Lemma quiet_step t : keeps quiet (insert_step uuid7 t).
Proof. unfold insert_step. quiet_tac. Qed.
Lemma quiet_material team k m : keeps quiet (insert_material team k m).
Proof. unfold insert_material. quiet_tac. Qed.
#[local] Hint Resolve quiet_values quiet_fact quiet_step quiet_material : acceptance.
Lemma quiet_materials c s n a b : keeps quiet (insert_materials c s n a b).
Proof. unfold insert_materials. quiet_tac. Qed.
Lemma quiet_holds c s n a b o : keeps quiet (reference_materials uuid7 now c s n a b o).
Proof. unfold reference_materials. quiet_tac. Qed.
Lemma quiet_member c s n : keeps quiet (insert_member c s n).
Proof.
  unfold insert_member. apply keeps_bind; [apply _|quiet_tac|intros g]. apply keeps_modify. intros d. destruct (_ || _); [reflexivity|by split].
Qed.
Lemma quiet_candidates team set n e : keeps quiet (accept_candidates team set n e).
Proof. unfold accept_candidates. quiet_tac. Qed.
Lemma quiet_changes c s n : keeps quiet (insert_change_set uuid7 c s n).
Proof. unfold insert_change_set. quiet_tac. Qed.
Lemma quiet_inherit c t r k : keeps quiet (inherit_clean uuid7 now c t r k).
Proof. unfold inherit_clean. quiet_tac. Qed.
Lemma quiet_keep c t a i p f : keeps quiet (keep_step uuid7 c t a i p f).
Proof. unfold keep_step. quiet_tac. Qed.
Lemma quiet_registered a e : keeps quiet (registered_action a e).
Proof. unfold registered_action. quiet_tac. Qed.
End quiet.
#[export] Hint Resolve quiet_on_obs quiet_on_catalog obs_quiet_fresh obs_quiet_execution obs_quiet_task obs_quiet_settle quiet_new_id quiet_catalog_cas quiet_reference quiet_values
  quiet_fact quiet_step quiet_material quiet_materials quiet_holds quiet_member quiet_candidates quiet_changes quiet_inherit quiet_keep quiet_registered : acceptance.

(** ** Revisions *)

Definition revision_at (d : acceptance_db) (team item : ustr) (k : ustr) (r : revision_row) : Prop := q_revisions d !! (team, k) = Some r /\ re_item r = item.

Lemma revision_of_None team item f d : revision_of team item f d = None -> forall k r, revision_at d team item k r -> f r = false.
Proof.
  unfold revision_of. intros Hn k r [Hk Hi]. destruct (List.find _ _) eqn:E; [done|]. pose proof (find_none _ _ E ((team, k), r)) as Hf. cbn in Hf.
  rewrite ueqb_refl, Hi, ueqb_refl in Hf. apply Hf, list_elem_of_In, elem_of_map_to_list. done.
Qed.
Lemma revision_of_Some team item f d k r : revision_of team item f d = Some (k, r) -> revision_at d team item k r /\ f r = true.
Proof.
  unfold revision_of. destruct (List.find _ _) as [[[t k'] r']|] eqn:E; [|done]. intros [= -> ->]. apply find_some in E as [Hin%list_elem_of_In Hf].
  apply elem_of_map_to_list in Hin. cbn in Hf. breflect. split; [|done]. by split; [rewrite <-(proj1 (ueqb_eq t team))|apply ueqb_eq].
Qed.
Lemma fingerprint_Some team item fp d k : revision_by_fingerprint team item fp d = Some k -> exists r, revision_at d team item k r /\ re_fingerprint r = fp.
Proof.
  unfold revision_by_fingerprint. destruct (revision_of _ _ _ d) as [[k' r]|] eqn:E; [|done]. intros [= ->]. apply revision_of_Some in E as [Hr Hf%ueqb_eq]. eauto.
Qed.
Lemma fingerprint_None team item fp d : revision_by_fingerprint team item fp d = None -> forall k r, revision_at d team item k r -> re_fingerprint r <> fp.
Proof.
  unfold revision_by_fingerprint. destruct (revision_of _ _ _ d) eqn:E; [done|]. intros _ k r Hr Hf. pose proof (revision_of_None _ _ _ _ E _ _ Hr) as Hn. cbn in Hn.
  by rewrite Hf, ueqb_refl in Hn.
Qed.

Lemma max_ordinal_le team item d k r : revision_at d team item k r -> re_ordinal r <= max_ordinal team item d.
Proof.
  intros [Hk Hi]. unfold max_ordinal. apply elem_of_map_to_list in Hk. induction (map_to_list (q_revisions d)) as [|x l IH]; [by apply elem_of_nil in Hk|].
  apply elem_of_cons in Hk as [<-|Hk]; cbn [foldr fst snd].
  - rewrite ueqb_refl, Hi, ueqb_refl. cbn. lia.
  - specialize (IH Hk). destruct (_ && _); lia.
Qed.
Lemma max_ordinal_attained team item d : max_ordinal team item d = 0 \/ exists k r, revision_at d team item k r /\ re_ordinal r = max_ordinal team item d.
Proof.
  unfold max_ordinal, revision_at. assert (forall x, x ∈ map_to_list (q_revisions d) -> q_revisions d !! x.1 = Some x.2) as Hall by (intros [? ?]; apply elem_of_map_to_list).
  induction (map_to_list (q_revisions d)) as [|[[t k] r] l IH]; [by left|]. cbn [foldr fst snd]. destruct (ueqb t team && ueqb (re_item r) item) eqn:E.
  - breflect. apply ueqb_eq in H as ->. apply ueqb_eq in H0. destruct (IH ltac:(intros x Hx; apply Hall; by right)) as [->|(k' & r' & Hr & <-)].
    + destruct (Z.max_spec (re_ordinal r) 0) as [[? ->]|[? ->]]; [by left|]. right. exists k, r. split; [split; [apply (Hall (team, k, r)); left|]|]; done.
    + destruct (Z.max_spec (re_ordinal r) (re_ordinal r')) as [[? ->]|[? ->]]; right; [by exists k', r'|]. exists k, r. split; [split; [apply (Hall (team, k, r)); left|]|]; done.
  - apply IH. intros x Hx. apply Hall. by right.
Qed.

Lemma item_by_uuid_Some team item o k i : item_by_uuid team item o = Some (k, i) -> y_items o !! k = Some i /\ k.1.1 = team /\ ki_uuid i = item.
Proof.
  unfold item_by_uuid. intros [Hin%list_elem_of_In Hf]%find_some. apply elem_of_map_to_list in Hin. cbn in Hf. breflect. split; [done|]. by split; apply ueqb_eq.
Qed.
Lemma item_by_uuid_None team item o : item_by_uuid team item o = None -> forall k i, y_items o !! k = Some i -> k.1.1 = team -> ki_uuid i <> item.
Proof.
  unfold item_by_uuid. intros Hn k i Hk Ht Hi. pose proof (find_none _ _ Hn (k, i)) as Hf. cbn in Hf. rewrite Ht, Hi, !ueqb_refl in Hf.
  assert (true && true = false) as [=] by (apply Hf, list_elem_of_In, elem_of_map_to_list; done).
Qed.

(** A revision that may join the history. *)
Record may_append (d : acceptance_db) (team k : ustr) (r : revision_row) : Prop := {
  mp_new : q_revisions d !! (team, k) = None;
  mp_ordinal : re_ordinal r = max_ordinal team (re_item r) d + 1;
  mp_print : forall k' r', revision_at d team (re_item r) k' r' -> re_fingerprint r' <> re_fingerprint r;
  mp_item : exists key i, y_items (q_obs d) !! key = Some i /\ key.1.1 = team /\ ki_uuid i = re_item r;
  mp_before : forall p, re_predecessor r = Some p -> exists rp, revision_at d team (re_item r) p rp;
  mp_positive : 1 <= re_ordinal r
}.
Lemma insert_revision_Ok team k r d x d' : insert_revision team k r d = Ok (x, d') -> re_ordinal r = max_ordinal team (re_item r) d + 1 ->
  (forall p, re_predecessor r = Some p -> exists rp, revision_at d team (re_item r) p rp) -> d' = set_revisions (<[(team, k) := r]> (q_revisions d)) d /\ may_append d team k r.
Proof.
  intros (d0 & d1 & [= <- <-] & Hd)%bind_Ok Ho Hp. apply bind_Ok in Hd as ([] & d1 & [Hr ->]%require_Ok & [= _ <-]). split; [done|]. breflect. split; try done.
  - by apply fingerprint_None.
  - destruct H2 as [[key i] Hi]. apply item_by_uuid_Some in Hi as (? & ? & ?). eauto.
  - lia.
Qed.

(** ** The history of items *)

Record history (d : acceptance_db) : Prop := {
  hi_items : forall k1 k2 i1 i2, y_items (q_obs d) !! k1 = Some i1 -> y_items (q_obs d) !! k2 = Some i2 -> k1.1.1 = k2.1.1 -> ki_uuid i1 = ki_uuid i2 -> k1 = k2;
  hi_latest : forall key i k, y_items (q_obs d) !! key = Some i -> ki_latest i = Some k -> exists r, revision_at d key.1.1 (ki_uuid i) k r;
  hi_owner : forall team k r, q_revisions d !! (team, k) = Some r -> exists key i, y_items (q_obs d) !! key = Some i /\ key.1.1 = team /\ ki_uuid i = re_item r;
  hi_ordinal : forall team item k1 k2 r1 r2, revision_at d team item k1 r1 -> revision_at d team item k2 r2 -> re_ordinal r1 = re_ordinal r2 -> k1 = k2;
  hi_print : forall team item k1 k2 r1 r2, revision_at d team item k1 r1 -> revision_at d team item k2 r2 -> re_fingerprint r1 = re_fingerprint r2 -> k1 = k2;
  hi_numbered : forall team item k r n, revision_at d team item k r -> 1 <= n <= re_ordinal r -> exists k' r', revision_at d team item k' r' /\ re_ordinal r' = n;
  hi_positive : forall team k r, q_revisions d !! (team, k) = Some r -> 1 <= re_ordinal r;
  hi_before : forall team item k r p, revision_at d team item k r -> re_predecessor r = Some p -> exists rp, revision_at d team item p rp /\ re_ordinal rp < re_ordinal r;
  hi_epochs : forall team item e x, q_epochs d !! (team, item, e) = Some x ->
    ep_before x = e - 1 /\ exists key i, y_items (q_obs d) !! key = Some i /\ key.1.1 = team /\ ki_uuid i = item /\ e <= ki_revision i
}.

(** How an item moves: it stays the same item and its epoch does not decrease. *)
Definition item_forward (i i' : known_item) : Prop := ki_uuid i' = ki_uuid i /\ ki_revision i <= ki_revision i'.
#[export] Instance item_forward_preorder : PreOrder item_forward.
Proof. split; [intros i; split; [done|lia]|]. intros a b c [U1 R1] [U2 R2]. split; [congruence|lia]. Qed.
Definition items_forward : gmap (ustr * ustr * ustr) known_item -> gmap (ustr * ustr * ustr) known_item -> Prop := evolves item_forward (fun _ => True).
(** Revisions are immutable. *)
Record ages {H : Host} (d d' : acceptance_db) : Prop := {
  ag_items : items_forward (y_items (q_obs d)) (y_items (q_obs d'));
  ag_revisions : q_revisions d ⊆ q_revisions d';
  ag_run : rtc observation_step (q_obs d) (q_obs d')
}.
#[export] Instance ages_preorder {H : Host} : PreOrder ages.
Proof.
  split; [intros d; split; [apply evolves_refl; apply _|done|reflexivity]|]. intros a b c [I1 R1 S1] [I2 R2 S2]. split; [|by etrans..].
  eapply evolves_trans; try done; apply _.
Qed.

(** The items of a commit: those of before, with the new item when it was created. *)
Definition created (d : acceptance_db) (key : ustr * ustr * ustr) (i : known_item) (items : gmap (ustr * ustr * ustr) known_item) : Prop :=
  items !! key = Some i /\
  (items = y_items (q_obs d)
   \/ (items = <[key := i]> (y_items (q_obs d)) /\ y_items (q_obs d) !! key = None /\ (ki_latest i = None /\ ki_revision i = 0) /\ (forall k j, y_items (q_obs d) !! k = Some j -> k.1.1 = key.1.1 -> ki_uuid j <> ki_uuid i))).
Definition appended (d d' : acceptance_db) (team item k : ustr) : Prop :=
  (q_revisions d' = q_revisions d /\ exists r, revision_at d team item k r)
  \/ exists r, q_revisions d' = <[(team, k) := r]> (q_revisions d) /\ re_item r = item /\ q_revisions d !! (team, k) = None
      /\ (forall k' r', revision_at d team item k' r' -> re_fingerprint r' <> re_fingerprint r) /\ re_ordinal r = max_ordinal team item d + 1
      /\ 1 <= re_ordinal r /\ (forall p, re_predecessor r = Some p -> exists rp, revision_at d team item p rp).
Record commits {H : Host} (d d' : acceptance_db) (key : ustr * ustr * ustr) (i : known_item) (x : disposition) (k : ustr) : Prop := {
  cm_run : rtc observation_step (q_obs d) (q_obs d');
  cm_items : exists items, created d key i items /\ y_items (q_obs d') = match x with changed => <[key := adopted i k]> items | no_change => items end;
  cm_revisions : appended d d' key.1.1 (ki_uuid i) k;
  cm_epochs : q_epochs d' = q_epochs d \/
    (x = changed /\ exists r, ep_before r = ki_revision i /\ q_epochs d' = <[(key.1.1, ki_uuid i, ki_revision i + 1) := r]> (q_epochs d))
}.

Section commits.
Context {H : Host} d d' key i x k (M : commits d d' key i x k) (Y : history d).

Lemma commit_item j : y_items (q_obs d') !! key = Some j -> ki_uuid j = ki_uuid i /\ (ki_latest j = Some k \/ x = no_change /\ j = i).
Proof.
  destruct (cm_items _ _ _ _ _ _ M) as (items & [Hi _] & ->). destruct x; [rewrite lookup_insert_eq; intros [= <-]; by split; [|left]|].
  rewrite Hi. intros [= <-]. by split; [|right].
Qed.
Lemma commit_other key' j : key' <> key -> y_items (q_obs d') !! key' = Some j <-> y_items (q_obs d) !! key' = Some j.
Proof.
  intros Hne. destruct (cm_items _ _ _ _ _ _ M) as (items & [_ Hc] & ->). assert (items !! key' = y_items (q_obs d) !! key') as E.
  { destruct Hc as [->|(-> & _)]; [done|]. by rewrite lookup_insert_ne. }
  destruct x; [rewrite lookup_insert_ne by done|]; by rewrite E.
Qed.
Lemma commit_there : exists j, y_items (q_obs d') !! key = Some j /\ ki_revision i <= ki_revision j.
Proof.
  destruct (cm_items _ _ _ _ _ _ M) as (items & [Hi _] & ->). destruct x; [exists (adopted i k); rewrite lookup_insert_eq; split; [done|cbn; lia]|eauto with lia].
Qed.
Lemma commit_unique key' j : y_items (q_obs d) !! key' = Some j -> key'.1.1 = key.1.1 -> ki_uuid j = ki_uuid i -> key' = key.
Proof.
  intros Hj Ht Hu. destruct (cm_items _ _ _ _ _ _ M) as (items & [Hi Hc] & _). destruct Hc as [->|(_ & _ & _ & Hc)].
  - by eapply (hi_items _ Y).
  - by destruct (Hc _ _ Hj Ht).
Qed.
Lemma commit_keeps key' j : y_items (q_obs d) !! key' = Some j -> exists j', y_items (q_obs d') !! key' = Some j' /\ item_forward j j'.
Proof.
  intros Hj. destruct (decide (key' = key)) as [->|Hne]; [|exists j; split; [by apply commit_other|reflexivity]].
  destruct (cm_items _ _ _ _ _ _ M) as (items & [Hi Hc] & Hy). assert (j = i) as ->.
  { destruct Hc as [->|(-> & Hn & _)]; congruence. }
  destruct commit_there as (j' & Hj' & Hr). exists j'. split; [done|]. split; [|done]. by apply commit_item in Hj' as [? _].
Qed.
Lemma commit_revision team item k' r : revision_at d' team item k' r -> revision_at d team item k' r \/
  (team = key.1.1 /\ item = ki_uuid i /\ k' = k /\ q_revisions d !! (team, k) = None /\ re_ordinal r = max_ordinal team item d + 1 /\ 1 <= re_ordinal r
   /\ (forall k' r', revision_at d team item k' r' -> re_fingerprint r' <> re_fingerprint r) /\ (forall p, re_predecessor r = Some p -> exists rp, revision_at d team item p rp)).
Proof.
  intros [Hr Hi]. destruct (cm_revisions _ _ _ _ _ _ M) as [[E _]|(r0 & E & Hr0 & Hn & Hf & Ho & H1 & Hp)]; rewrite E in Hr; [by left|].
  apply lookup_insert_Some in Hr as [[[= <- <-] <-]|[_ Hr]]; [|by left]. right. subst item. rewrite Hr0. split_and!; done.
Qed.
Lemma commit_grows : q_revisions d ⊆ q_revisions d'.
Proof. destruct (cm_revisions _ _ _ _ _ _ M) as [[-> _]|(r0 & -> & _ & Hn & _)]; [done|]. by apply insert_subseteq. Qed.
Lemma revision_grows team item k' r : revision_at d team item k' r -> revision_at d' team item k' r.
Proof. intros [Hr Hi]. split; [|done]. eapply lookup_weaken; [exact Hr|exact commit_grows]. Qed.
Lemma commit_has : exists r, revision_at d' key.1.1 (ki_uuid i) k r.
Proof.
  destruct (cm_revisions _ _ _ _ _ _ M) as [[E (r & Hr & Hi)]|(r & E & Hr & _)]; exists r; (split; [rewrite E|done]); [done|apply lookup_insert_eq].
Qed.

Lemma commits_history : history d'.
Proof.
  split.
  - intros k1 k2 i1 i2 H1 H2 Ht Hu. destruct (decide (k1 = key)) as [->|N1], (decide (k2 = key)) as [->|N2]; [done|..].
    + apply commit_item in H1 as [E1 _]. apply commit_other in H2; [|done]. symmetry. apply (commit_unique k2 i2); congruence.
    + apply commit_item in H2 as [E2 _]. apply commit_other in H1; [|done]. apply (commit_unique k1 i1); congruence.
    + apply commit_other in H1, H2; [|done..]. by eapply (hi_items _ Y).
  - intros key' j k' Hj Hl. destruct (decide (key' = key)) as [->|Hne].
    + destruct (commit_item _ Hj) as [Hu [Hk|[Ex Eji]]]; [|subst j].
      * rewrite Hk in Hl. injection Hl as <-. rewrite Hu. exact commit_has.
      * destruct (cm_items _ _ _ _ _ _ M) as (items & [Hi Hc] & Hy). destruct Hc as [->|(_ & _ & [Hn _] & _)]; [|congruence].
        destruct (hi_latest _ Y _ _ _ Hi Hl) as [r Hr]. exists r. by apply revision_grows.
    + apply commit_other in Hj; [|done]. destruct (hi_latest _ Y _ _ _ Hj Hl) as [r Hr]. exists r. by apply revision_grows.
  - intros team k' r Hr. destruct (commit_revision team (re_item r) k' r ltac:(done)) as [[Hr' _]|(-> & -> & _)].
    + destruct (hi_owner _ Y _ _ _ Hr') as (key' & j & Hj & Ht & Hu). destruct (commit_keeps _ _ Hj) as (j' & Hj' & [Hu' _]). exists key', j'. split_and!; congruence.
    + destruct commit_there as (j & Hj & _). exists key, j. split_and!; [done..|]. by apply commit_item in Hj as [? _].
  - intros team item k1 k2 r1 r2 H1 H2 Ho. destruct (commit_revision _ _ _ _ H1) as [H1'|(-> & -> & -> & _ & O1 & _)], (commit_revision _ _ _ _ H2) as [H2'|(E1 & E2 & -> & _ & O2 & _)]; [..|done].
    + by eapply (hi_ordinal _ Y).
    + pose proof (max_ordinal_le _ _ _ _ _ H1'). subst. lia.
    + pose proof (max_ordinal_le _ _ _ _ _ H2'). lia.
  - intros team item k1 k2 r1 r2 H1 H2 Ho. destruct (commit_revision _ _ _ _ H1) as [H1'|(-> & -> & -> & _ & _ & _ & F1 & _)], (commit_revision _ _ _ _ H2) as [H2'|(E1 & E2 & -> & _ & _ & _ & F2 & _)]; [..|done].
    + by eapply (hi_print _ Y).
    + by destruct (F2 _ _ H1').
    + by destruct (F1 _ _ H2').
  - intros team item k' r n Hr Hn. destruct (commit_revision _ _ _ _ Hr) as [Hr'|(-> & -> & -> & _ & Ho & _)].
    + destruct (hi_numbered _ Y _ _ _ _ _ Hr' Hn) as (k2 & r2 & Hr2 & Hn2). exists k2, r2. split; [by apply revision_grows|done].
    + destruct (decide (n = re_ordinal r)) as [->|Hne]; [by exists k, r|]. destruct (max_ordinal_attained key.1.1 (ki_uuid i) d) as [E0|(km & rm & Hrm & Em)]; [lia|].
      destruct (hi_numbered _ Y _ _ _ _ n Hrm ltac:(lia)) as (k2 & r2 & Hr2 & Hn2). exists k2, r2. split; [by apply revision_grows|done].
  - intros team k' r Hr. destruct (commit_revision team (re_item r) k' r ltac:(done)) as [[Hr' _]|(_ & _ & _ & _ & _ & ? & _)]; [by eapply (hi_positive _ Y)|done].
  - intros team item k' r p Hr Hp. destruct (commit_revision _ _ _ _ Hr) as [Hr'|(-> & -> & -> & _ & Ho & _ & _ & Hb)].
    + destruct (hi_before _ Y _ _ _ _ _ Hr' Hp) as (rp & Hrp & Hlt). exists rp. split; [by apply revision_grows|done].
    + destruct (Hb _ Hp) as [rp Hrp]. exists rp. split; [by apply revision_grows|]. pose proof (max_ordinal_le _ _ _ _ _ Hrp). lia.
  - intros team item e r He. destruct (cm_epochs _ _ _ _ _ _ M) as [E|(Ex & r0 & Hb & E)]; rewrite E in He; [|apply lookup_insert_Some in He as [[[= <- <- <-] <-]|[_ He]]].
    2: { split; [lia|]. destruct (cm_items _ _ _ _ _ _ M) as (items & _ & Hy). exists key, (adopted i k). rewrite Hy, Ex, lookup_insert_eq. split_and!; done. }
    all: destruct (hi_epochs _ Y _ _ _ _ He) as (Eb & key' & j & Hj & Ht & Hu & Hle); split; [done|]; destruct (commit_keeps _ _ Hj) as (j' & Hj' & [Hu' Hr']); exists key', j';
      split_and!; congruence || lia || done.
Qed.
Lemma commits_ages : ages d d'.
Proof.
  split; [|exact commit_grows|by apply M]. intros key'. destruct (y_items (q_obs d) !! key') as [j|] eqn:E.
  - destruct (commit_keeps _ _ E) as (j' & -> & Hf). done.
  - by destruct (y_items (q_obs d') !! key').
Qed.
End commits.

(** ** What an acceptance records *)

Definition same {A} (p : acceptance_db -> A) (d d' : acceptance_db) : Prop := p d' = p d.
#[export] Instance same_preorder {A} (p : acceptance_db -> A) : PreOrder (same p).
Proof. split; [done|]. intros a b c E1 E2. unfold same in *. congruence. Qed.

(** The columns that an acceptance writes once: facts, candidate sets and executions. *)
Definition written_once (d : acceptance_db) := (q_facts d, q_candidates d, y_executions (q_obs d)).
Lemma same_on_obs {A} (m : txn observatory A) : keeps (fun o o' => y_executions o' = y_executions o) m -> keeps (same written_once) (on_obs m).
Proof. intros Hm. eapply keeps_on_obs; [exact Hm|]. intros d o Ho. unfold same, written_once. cbn. by rewrite Ho. Qed.
Lemma same_on_catalog {A} (m : txn catalog A) : keeps (same written_once) (on_catalog m).
Proof. intros d a d'. unfold on_catalog. by intros ([b o] & Hb & [= <- <-])%rbind_Ok. Qed.
Ltac same_tac :=
  repeat match goal with
  | |- keeps _ (bind _ _) => apply keeps_bind; [apply _| |intros ?]
  | |- keeps _ (on_catalog _) => apply same_on_catalog
  | |- keeps _ (modify _) => apply keeps_modify; intros ?; repeat case_match; reflexivity
  | |- keeps _ (if ?b then _ else _) => destruct b
  | |- keeps _ (match ?x with _ => _ end) => destruct x
  end;
  try (apply keeps_reads; [apply _|]; solve [auto with mkb]).

Section recorded.
Context {H : Host} {F : FloatText} (uuid7 : nat -> ustr) (now : Z).

Lemma on_obs_Ok {A} (m : txn observatory A) d a d' : on_obs m d = Ok (a, d') -> exists o, m (q_obs d) = Ok (a, o) /\ d' = set_obs o d.
Proof. unfold on_obs. intros ([b o] & Hb & [= <- <-])%rbind_Ok. eauto. Qed.

Lemma same_new_id : keeps (same written_once) (new_id uuid7).
Proof. apply same_on_obs. by intros o a o' [= _ <-]. Qed.
Lemma same_insert_step t : keeps (same written_once) (insert_step uuid7 t).
Proof. unfold insert_step. same_tac. apply same_new_id. Qed.
Lemma same_insert_epoch c s i : keeps (same written_once) (insert_epoch uuid7 c s i).
Proof. unfold insert_epoch. same_tac. apply same_new_id. Qed.
Lemma same_insert_materials c s n a b : keeps (same written_once) (insert_materials c s n a b).
Proof. unfold insert_materials, insert_material. same_tac. Qed.
Lemma same_reference_materials c s n a b o : keeps (same written_once) (reference_materials uuid7 now c s n a b o).
Proof. unfold reference_materials, reference_object, release_upload. same_tac. Qed.
Lemma same_insert_member c s n : keeps (same written_once) (insert_member c s n).
Proof. unfold insert_member. same_tac. Qed.
Lemma same_insert_change_set c s n : keeps (same written_once) (insert_change_set uuid7 c s n).
Proof. unfold insert_change_set. same_tac; apply same_new_id. Qed.
Lemma same_bind_task c n g : keeps (same written_once) (on_obs (bind_task_snapshot c n g)).
Proof.
  apply same_on_obs. intros o x o' (es & o1 & [= <- <-] & Hd)%bind_Ok. destruct (y_tasks o !! _) as [t|]; [|done]. by apply bind_Ok in Hd as ([] & o1 & [_ ->]%require_Ok & [= _ <-]).
Qed.

(** The rows that a commit leaves for its observation, candidates and execution. *)
Record written_rows (c : ProcessCommand) (s : accept_state) (i : known_item) (snapshot : ustr) (d' : acceptance_db) : Prop := {
  ww_fact : forall o, as_observation s = Some o -> exists digest, q_facts d' !! o = Some (Build_acceptance_fact (pc_team c) snapshot (as_item s) (as_revision s)
    (disposition_of i (as_revision s)) (ki_revision i) (epoch_after i (disposition_of i (as_revision s))) digest);
  ww_candidates : exists k, q_candidates d' !! as_candidates s = Some k /\ cd_state k = CS_accepted /\ cd_snapshot k = Some snapshot;
  ww_execution : exists k, y_executions (q_obs d') !! pc_execution c = Some k /\ co_snapshot k = Some snapshot
}.
Lemma insert_fact_Ok c s n i x d y d' : insert_fact uuid7 c s n i x d = Ok (y, d') -> forall o, as_observation s = Some o ->
  exists digest, q_facts d' !! o = Some (Build_acceptance_fact (pc_team c) n (as_item s) (as_revision s) x (ki_revision i) (epoch_after i x) digest).
Proof.
  unfold insert_fact. intros Hd o Eo. rewrite Eo in Hd. apply bind_Ok in Hd as (id & d1 & _ & Hd). apply bind_Ok in Hd as (g & d2 & [_ ->]%lift_Ok & Hd).
  apply bind_Ok in Hd as (m & d2 & [= <- <-] & Hd). apply bind_Ok in Hd as ([] & d2 & [_ ->]%require_Ok & [= _ <-]). exists g. apply lookup_insert_eq.
Qed.
Lemma accept_candidates_Ok team set n e d x d' : accept_candidates team set n e d = Ok (x, d') ->
  exists k, cd_state k = CS_accepted /\ cd_snapshot k = Some n /\ d' = set_candidates (<[set := k]> (q_candidates d)) d.
Proof.
  intros (m & d1 & [= <- <-] & Hd)%bind_Ok. destruct (q_candidates d !! set) as [k|]; [|done]. apply bind_Ok in Hd as ([] & d1 & [_ ->]%require_Ok & Hd).
  apply bind_Ok in Hd as ([] & d1 & [_ ->]%require_Ok & [= _ <-]). eexists. split; [|split; [|reflexivity]]; done.
Qed.
Lemma bind_execution_Ok c n d x d' : on_obs (bind_execution_snapshot c n) d = Ok (x, d') ->
  exists k, co_snapshot k = Some n /\ y_executions (q_obs d') = <[pc_execution c := k]> (y_executions (q_obs d)) /\ (q_facts d', q_candidates d') = (q_facts d, q_candidates d).
Proof.
  intros (o & Ho & ->)%on_obs_Ok. apply bind_Ok in Ho as (es & o1 & [= <- <-] & Hd). destruct (y_executions (q_obs d) !! pc_execution c) as [k|]; [|done].
  apply bind_Ok in Hd as ([] & o1 & [_ ->]%require_Ok & [= _ <-]). exists (with_snapshot_of n k). done.
Qed.
Lemma tail_written c s n i x d raw clean output proof y d1 d' :
  (forall o, as_observation s = Some o -> exists digest, q_facts d !! o = Some (Build_acceptance_fact (pc_team c) n (as_item s) (as_revision s) (disposition_of i (as_revision s)) (ki_revision i)
     (epoch_after i (disposition_of i (as_revision s))) digest)) ->
  (if bool_decide (x = changed) then insert_epoch uuid7 c s i else ret tt) d = Ok (tt, d1) ->
  (insert_materials c s n raw clean ;!
   reference_materials uuid7 now c s n raw clean output ;!
   insert_member c s n ;!
   accept_candidates (pc_team c) (as_candidates s) n (MkbError "CANDIDATE_SET_FENCE" 409) ;!
   on_obs (bind_execution_snapshot c n) ;!
   let! changes := insert_change_set uuid7 c s n in
   on_obs (bind_task_snapshot c n changes) ;!
   if bool_decide (x = changed) then
     let! fence := lift (process_fence c "process" "fence") in
     insert_step uuid7 (Build_item_step (pc_team c) (as_item s) (u "accept_revision") (ki_state i) (ki_latest i, Some (as_revision s)) (ki_serving i)
       (ki_revision i, ki_revision i + 1) (pc_process c) proof fence)
   else ret tt) d1 = Ok (y, d') -> written_rows c s i n d'.
Proof.
  intros Hf He Hd. assert (same written_once d d1) as S1 by (destruct (bool_decide (x = changed)); [by apply same_insert_epoch in He|by injection He as ->]).
  apply bind_Ok in Hd as ([] & d2 & S2%same_insert_materials & Hd). apply bind_Ok in Hd as ([] & d3 & S3%same_reference_materials & Hd). apply bind_Ok in Hd as ([] & d4 & S4%same_insert_member & Hd).
  apply bind_Ok in Hd as ([] & d5 & (k & Hk & Hn & ->)%accept_candidates_Ok & Hd). apply bind_Ok in Hd as ([] & d6 & (e & He' & Hx & Hfc)%bind_execution_Ok & Hd).
  apply bind_Ok in Hd as (g & d7 & S7%same_insert_change_set & Hd). apply bind_Ok in Hd as ([] & d8 & S8%same_bind_task & Hd).
  assert (same written_once d8 d') as S9.
  { destruct (bool_decide (x = changed)); [|by injection Hd as _ <-]. apply bind_Ok in Hd as (f & d9 & [_ ->]%lift_Ok & Hd). by apply same_insert_step in Hd. }
  pose proof (transitivity S1 (transitivity S2 (transitivity S3 S4))) as Sa. pose proof (transitivity S7 (transitivity S8 S9)) as Sb. clear -Hf Hk Hn He' Hx Hfc Sa Sb.
  unfold same, written_once in *. injection Sa as Fa Ca Ea. injection Sb as Fb Cb Eb. injection Hfc as Fc Cc. cbn in *. split.
  - intros o Ho. rewrite Fb, Fc, Fa. by apply Hf.
  - exists k. by rewrite Cb, Cc, lookup_insert_eq.
  - exists e. by rewrite Eb, Hx, lookup_insert_eq.
Qed.
End recorded.

(** ** The transactions *)

Lemma appended_ext d1 d1' d2 d2' team item k : q_revisions d2 = q_revisions d1 -> q_revisions d2' = q_revisions d1' -> appended d1 d1' team item k -> appended d2 d2' team item k.
Proof. unfold appended, revision_at, max_ordinal. by intros -> ->. Qed.

Section transactions.
Context {H : Host} {F : FloatText} (depth : nat) (uuid7 : nat -> ustr) (now : Z).

Lemma items_run o m : rtc observation_step o (set_items m o).
Proof. apply rtc_once, outside_step; try done. intros e c Hc. right. eauto. Qed.
Lemma adopt_latest_Ok c s o i x o' : adopt_latest c s o = Ok ((i, x), o') ->
  y_items o !! item_key c s = Some i /\ ki_uuid i = as_item s /\ ki_revision i = default (ki_revision i) (as_epoch s) /\ x = disposition_of i (as_revision s)
  /\ y_items o' = match x with changed => <[item_key c s := adopted i (as_revision s)]> (y_items o) | no_change => y_items o end /\ rtc observation_step o o'.
Proof.
  intros (m & o1 & [= <- <-] & Hd)%bind_Ok. destruct (y_items o !! item_key c s) as [j|] eqn:E; [|done].
  apply bind_Ok in Hd as ([] & o1 & [Hu%ueqb_eq ->]%require_Ok & Hd). apply bind_Ok in Hd as ([] & o1 & [He%Z.eqb_eq ->]%require_Ok & Hd).
  destruct (disposition_of j (as_revision s)) eqn:Ex.
  - apply bind_Ok in Hd as ([] & o1 & [_ ->]%require_Ok & Hd). apply bind_Ok in Hd as ([] & o1 & Hm & [= -> <- <-]). injection Hm as <-. split_and!; try done. apply items_run.
  - injection Hd as -> <- <-. split_and!; done.
Qed.
Lemma ensure_item_Ok c s o x o' : ensure_item c s o = Ok (x, o') -> rtc observation_step o o' /\
  (y_items o' = y_items o \/ exists i, y_items o' = <[item_key c s := i]> (y_items o) /\ y_items o !! item_key c s = None /\ (ki_latest i = None /\ ki_revision i = 0) /\ ki_uuid i = as_item s
    /\ forall k j, y_items o !! k = Some j -> k.1.1 = pc_team c -> ki_uuid j <> as_item s).
Proof.
  unfold ensure_item. intros [= _ <-]. destruct (_ || _) eqn:E; [split; [done|by left]|]. apply orb_false_iff in E as [E1 E2]. apply bool_decide_eq_false, eq_None_not_Some in E1.
  apply bool_decide_eq_false, eq_None_not_Some in E2. split; [apply items_run|]. right. eexists. split; [reflexivity|]. split_and!; try done. by apply item_by_uuid_None.
Qed.

Lemma append_revision_Ok c s fr n d x d' : append_revision now c s fr n d = Ok (x, d') ->
  obs_quiet (q_obs d) (q_obs d') /\ q_epochs d' = q_epochs d /\ appended d d' (pc_team c) (as_item s) (as_revision s)
  /\ exists es fp r, initial_semantics (q_definitions d) (as_semantics s) = Ok es /\ semantic_fingerprint es = Ok fp /\ revision_at d' (pc_team c) (as_item s) (as_revision s) r /\ re_fingerprint r = fp.
Proof.
  unfold append_revision. intros (d0 & d1 & [= <- <-] & Hd)%bind_Ok. apply bind_Ok in Hd as (es & d1 & [Hes ->]%lift_Ok & Hd). apply bind_Ok in Hd as (fp & d1 & [Hfp ->]%lift_Ok & Hd).
  destruct (revision_by_fingerprint (pc_team c) (as_item s) fp d) as [k|] eqn:E.
  - apply require_Ok in Hd as [Hk%ueqb_eq ->]. subst k. apply fingerprint_Some in E as (r & Hr & Hf). split; [done|]. split; [done|]. split; [left; eauto|eauto 10].
  - apply bind_Ok in Hd as ([] & d1 & [Hk%ueqb_eq ->]%require_Ok & Hd). cbv zeta in Hd. apply bind_Ok in Hd as ([] & d1 & Hi & Hv).
    apply insert_revision_Ok in Hi as [-> [M1 M2 M3 M4 M5 M6]]; [|done|].
    2: { intros p Hp. cbn in Hp. destruct (revision_of _ _ _ d) as [[p' r]|] eqn:Ep; [|done]. injection Hp as ->. apply revision_of_Some in Ep as [Hr _]. eauto. }
    apply (quiet_values (pc_team c)) in Hv. destruct Hv as [Qo Qr Qe _]. split; [exact Qo|]. split; [exact Qe|]. split.
    + right. eexists. split; [exact Qr|]. split_and!; try done.
    + eexists es, fp, _. split; [done|]. split; [done|]. split; [split; [rewrite Qr; cbn; apply lookup_insert_eq|done]|done].
Qed.
Lemma insert_epoch_Ok c s i d x d' : insert_epoch uuid7 c s i d = Ok (x, d') -> obs_quiet (q_obs d) (q_obs d') /\ q_revisions d' = q_revisions d /\
  exists r, ep_before r = ki_revision i /\ q_epochs d' = <[(pc_team c, as_item s, ki_revision i + 1) := r]> (q_epochs d).
Proof.
  unfold insert_epoch. intros (id & d1 & Q%(quiet_new_id uuid7) & Hd)%bind_Ok. apply bind_Ok in Hd as (g & d2 & [_ ->]%lift_Ok & Hd).
  apply bind_Ok in Hd as (m & d2 & [= <- <-] & Hd). apply bind_Ok in Hd as ([] & d2 & [_ ->]%require_Ok & [= _ <-]). destruct Q as [Qo Qr Qe _].
  split; [exact Qo|]. split; [exact Qr|]. eexists. split; [|cbn; by rewrite Qe]. done.
Qed.


Lemma quiet_tail c s n raw clean output (x : disposition) i proof : keeps quiet (
  insert_materials c s n raw clean ;!
  reference_materials uuid7 now c s n raw clean output ;!
  insert_member c s n ;!
  accept_candidates (pc_team c) (as_candidates s) n (MkbError "CANDIDATE_SET_FENCE" 409) ;!
  on_obs (bind_execution_snapshot c n) ;!
  let! changes := insert_change_set uuid7 c s n in
  on_obs (bind_task_snapshot c n changes) ;!
  if bool_decide (x = changed) then
    let! fence := lift (process_fence c "process" "fence") in
    insert_step uuid7 (Build_item_step (pc_team c) (as_item s) (u "accept_revision") (ki_state i) (ki_latest i, Some (as_revision s)) (ki_serving i)
      (ki_revision i, ki_revision i + 1) (pc_process c) proof fence)
  else ret tt).
Proof. quiet_tac. Qed.

(** What a commit of [_accept_snapshot] does. *)
Record accepted_as (c : ProcessCommand) (s : accept_state) (d d' : acceptance_db) (i : known_item) : Prop := {
  aa_commits : commits d d' (item_key c s) i (disposition_of i (as_revision s)) (as_revision s);
  aa_uuid : ki_uuid i = as_item s;
  aa_epoch : ki_revision i = default (ki_revision i) (as_epoch s);
  aa_recorded : disposition_of i (as_revision s) = changed -> is_Some (q_epochs d' !! (pc_team c, as_item s, ki_revision i + 1));
  aa_semantics : exists es r, initial_semantics (q_definitions d) (as_semantics s) = Ok es /\ semantic_fingerprint es = Ok (re_fingerprint r)
    /\ revision_at d' (pc_team c) (as_item s) (as_revision s) r;
  aa_rows : exists n, written_rows c s i n d'
}.

Lemma accept_commit_Ok c s fr raw clean output proof d x d' : accept_commit uuid7 now c s fr raw clean output proof d = Ok (x, d') -> exists i, accepted_as c s d d' i.
Proof.
  unfold accept_commit. intros (d0 & d1 & [= <- <-] & Hd)%bind_Ok. destruct (live_object _ _ _ _) as [stored|]; [|done].
  apply bind_Ok in Hd as (o1 & d1 & Q1%quiet_catalog_cas & Hd). apply bind_Ok in Hd as (o2 & d2 & Q2%quiet_catalog_cas & Hd). pose proof (transitivity Q1 Q2) as Q. clear Q1 Q2 d1.
  apply bind_Ok in Hd as (acts & d1 & [= <- <-] & Hd). apply bind_Ok in Hd as ([] & d1 & [_ ->]%require_Ok & Hd).
  apply bind_Ok in Hd as (n & d1 & Q1 & Hd). apply (quiet_on_obs _ (obs_quiet_settle uuid7 now c s)) in Q1. pose proof (transitivity Q Q1) as [[Qi Qr] Qv Qe Qd]. clear Q Q1 d2.
  apply bind_Ok in Hd as ([] & d2 & (o3 & [R3 Hi3]%ensure_item_Ok & ->)%on_obs_Ok & Hd).
  apply bind_Ok in Hd as ([i y] & d3 & (o4 & (Hi & Hu & He & -> & Hi4 & R4)%adopt_latest_Ok & ->)%on_obs_Ok & Hd).
  apply bind_Ok in Hd as ([] & d4 & (R5 & Qe5 & Hap & es & fp & r & Hes & Hfp & Hr & <-)%append_revision_Ok & Hd).
  apply bind_Ok in Hd as ([] & d5 & Hf & Hd). apply bind_Ok in Hd as ([] & d6 & Hep & Hd).
  cbn [fst snd] in *. pose proof (tail_written _ _ _ _ _ _ _ _ _ _ _ _ _ _ _ (insert_fact_Ok _ _ _ _ _ _ _ _ _ Hf) Hep Hd) as W. apply quiet_fact in Hf as Q6. apply quiet_tail in Hd. cbn in *.
  assert (obs_quiet (q_obs d5) (q_obs d6) /\ q_revisions d6 = q_revisions d5 /\
    (q_epochs d6 = q_epochs d5 \/ disposition_of i (as_revision s) = changed /\ exists r, ep_before r = ki_revision i /\ q_epochs d6 = <[(pc_team c, as_item s, ki_revision i + 1) := r]> (q_epochs d5))
    /\ (disposition_of i (as_revision s) = changed -> is_Some (q_epochs d6 !! (pc_team c, as_item s, ki_revision i + 1)))) as (Q7 & R7 & E7 & S7).
  { destruct (disposition_of i (as_revision s)); cbn in Hep.
    - apply insert_epoch_Ok in Hep as (? & ? & e & Hb & ->). split_and!; eauto. intros _. by rewrite lookup_insert_eq.
    - injection Hep as ->. split_and!; try done. by left. }
  destruct Q6 as [[I6 S6] V6 E6 _], Q7 as [I7 T7], Hd as [[I8 S8] V8 E8 _], R5 as [I5 T5].
  assert (re_revisions : q_revisions d' = q_revisions d4) by congruence. exists i. split; try done.
  - split.
    + do 6 (etrans; [eassumption|]). eassumption.
    + exists (y_items o3). split; [|congruence]. split; [done|]. destruct Hi3 as [Hi3|(j & Hi3 & Hn & Hl & Hju & Ho)]; [left; congruence|].
      rewrite Hi3, lookup_insert_eq in Hi. injection Hi as <-. right. rewrite <-Qi, Hju. done.
    + rewrite Hu. by eapply appended_ext; [..|exact Hap].
    + rewrite Hu, E8. replace (q_epochs d) with (q_epochs d5) by congruence. exact E7.
  - by rewrite E8.
  - exists es, r. rewrite <-Qd. split; [done|]. split; [done|]. destruct Hr as [Hr Hri]. split; [by rewrite re_revisions|done].
  - eauto.
Qed.
Lemma frozen_item_Ok team t e d k i d' : frozen_item team t e d = Ok ((k, i), d') ->
  d' = d /\ y_items (q_obs d) !! k = Some i /\ k.1.1 = team /\ ki_uuid i = ft_item t /\ ki_revision i = ft_epoch t /\ ki_state i = u "active" /\ ki_latest i = Some (ft_revision t).
Proof.
  unfold frozen_item. intros (o & d1 & [= <- <-] & Hd)%bind_Ok. destruct (item_by_uuid team (ft_item t) (q_obs d)) as [ki|] eqn:E; [|done].
  apply bind_Ok in Hd as ([] & d1 & [Hr ->]%require_Ok & [= -> <-]). apply item_by_uuid_Some in E as (? & ? & ?). cbn in Hr. breflect. split_and!; try done; [by apply Z.eqb_eq|by apply ueqb_eq].
Qed.
Lemma frozen_item_stale team t e d : (forall k i, y_items (q_obs d) !! k = Some i -> k.1.1 = team -> ki_uuid i = ft_item t -> ki_revision i <> ft_epoch t) -> frozen_item team t e d = Err e.
Proof.
  intros Hn. unfold frozen_item, bind, gets. cbn. destruct (item_by_uuid team (ft_item t) (q_obs d)) as [[k i]|] eqn:E; [|done]. apply item_by_uuid_Some in E as (Hi & Ht & Hu).
  cbn. specialize (Hn _ _ Hi Ht Hu). by replace (ki_revision i =? ft_epoch t) with false by (symmetry; lia).
Qed.

Lemma quiet_rebuild c t set proof : keeps quiet (accept_rebuild uuid7 c t set proof).
Proof.
  unfold accept_rebuild. apply keeps_bind; [apply _| |intros i; quiet_tac]. unfold frozen_item. quiet_tac.
Qed.
Lemma quiet_no_change c t i proof : keeps quiet (no_change_step uuid7 c t i proof).
Proof. unfold no_change_step. quiet_tac. Qed.

Lemma advance_latest_Ok team t k before r o x o' : advance_latest team t k before r o = Ok (x, o') -> exists i, y_items o !! k = Some i /\ y_items o' = <[k := adopted i r]> (y_items o) /\ rtc observation_step o o'.
Proof.
  intros (m & o1 & [= <- <-] & Hd)%bind_Ok. destruct (y_items o !! k) as [i|]; [|done]. apply bind_Ok in Hd as ([] & o1 & [_ ->]%require_Ok & [= _ <-]).
  exists i. split; [done|]. split; [done|apply items_run].
Qed.
(** The revision rows of a quiet step are those of before. *)
Lemma quiet_max d d' team item : quiet d d' -> max_ordinal team item d' = max_ordinal team item d.
Proof. intros [_ E _ _]. unfold max_ordinal. by rewrite E. Qed.
Lemma quiet_revision d d' team item k r : quiet d d' -> revision_at d' team item k r <-> revision_at d team item k r.
Proof. intros [_ E _ _]. unfold revision_at. by rewrite E. Qed.

(** What a metadata update that appends a revision does. *)
Record updated_as (c : ProcessCommand) (t : frozen_target) (fingerprint revision : ustr) (d d' : acceptance_db) (key : ustr * ustr * ustr) (i : known_item) : Prop := {
  ua_commits : commits d d' key i changed revision;
  ua_team : key.1.1 = pc_team c;
  ua_uuid : ki_uuid i = ft_item t;
  ua_epoch : ki_revision i = ft_epoch t;
  ua_state : ki_state i = u "active";
  ua_latest : ki_latest i = Some (ft_revision t);
  ua_print : exists r, revision_at d' (pc_team c) (ft_item t) revision r /\ re_fingerprint r = fingerprint /\ re_predecessor r = Some (ft_revision t);
  ua_new : forall k r, revision_at d (pc_team c) (ft_item t) k r -> re_fingerprint r <> fingerprint
}.
Lemma accept_metadata_Ok c t replacements base m set revision clean proof d x d' : history d ->
  accept_metadata depth uuid7 now c t replacements base m set revision clean proof d = Ok (x, d') ->
  if m.2 then quiet d d' else exists key i, updated_as c t m.1.2 revision d d' key i.
Proof.
  intros Y ([k i] & d1 & (-> & Hi & Ht & Hu & He & Hs & Hl)%frozen_item_Ok & Hd)%bind_Ok. apply bind_Ok in Hd as ([] & d1 & Q1%quiet_registered & Hd).
  apply bind_Ok in Hd as (d1' & d2 & [= -> <-] & Hd). apply bind_Ok in Hd as (cur & d2 & [_ ->]%lift_Ok & Hd). apply bind_Ok in Hd as ([] & d2 & [_ ->]%require_Ok & Hd).
  apply bind_Ok in Hd as ([] & d2 & Q2%quiet_candidates & Hd). pose proof (transitivity Q1 Q2) as Q. destruct m as [[es fp] []]; cbn [fst snd] in *.
  { apply quiet_no_change in Hd. by etrans. }
  apply bind_Ok in Hd as ([] & d3 & Hr & Hd). destruct (hi_latest _ Y _ _ _ Hi Hl) as [rp Hrp]. rewrite Ht, Hu in Hrp.
  apply insert_revision_Ok in Hr as [-> [M1 M2 M3 M4 M5 M6]]; [|by rewrite (quiet_max _ _ _ _ Q2)|intros p [= <-]; exists rp; by apply (quiet_revision _ _ _ _ _ _ Q)].
  apply bind_Ok in Hd as ([] & d4 & Q4%quiet_values & Hd). apply bind_Ok in Hd as ([] & d5 & Q5%quiet_inherit & Hd). pose proof (transitivity Q4 Q5) as [[I5 S5] V5 E5 _].
  apply bind_Ok in Hd as ([] & d6 & (o & (j & Hj & Hm & S6)%advance_latest_Ok & ->)%on_obs_Ok & Hd).
  assert (keeps quiet (let! fence := lift (process_fence c "metadata_process" "fencing_generation") in insert_step uuid7 (Build_item_step (pc_team c) (ft_item t) (u "update_metadata") (u "active") (Some (ft_revision t), Some revision) (ki_serving i) (ki_revision i, ki_revision i + 1) (pc_process c) proof fence))) as K by quiet_tac.
  apply K in Hd as [[I7 S7] V7 E7 _]. cbn in *. destruct (Q) as [[I2 S2] V2 E2 _]. assert (j = i) as -> by congruence.
  exists k, i. split; try done.
  - split.
    + do 3 (etrans; [eassumption|]). eassumption.
    + exists (y_items (q_obs d)). split; [split; [done|by left]|]. congruence.
    + right. eexists. rewrite Ht, Hu. split; [by rewrite V7, V5, V2|]. cbn. split_and!; try done.
      * by rewrite <-V2.
      * intros k' r' Hr'. by apply (M3 k'), (quiet_revision _ _ _ _ _ _ Q).
      * by rewrite (quiet_max _ _ _ _ Q1).
      * intros p [= <-]. by exists rp.
    + left. congruence.
  - eexists. split; [split; [by rewrite V7, V5; apply lookup_insert_eq|done]|done].
  - intros k' r' Hr'. by apply (M3 k'), (quiet_revision _ _ _ _ _ _ Q).
Qed.
End transactions.

(** ** Runs *)

(** A step that writes no revision: items keep their identifier and latest revision, and their
    epochs do not decrease. *)
Definition item_kept (i i' : known_item) : Prop := ki_uuid i' = ki_uuid i /\ ki_latest i' = ki_latest i /\ ki_revision i <= ki_revision i'.
Definition items_kept (m m' : gmap (ustr * ustr * ustr) known_item) : Prop := forall k, option_Forall2 item_kept (m !! k) (m' !! k).
Record calm {H : Host} (d d' : acceptance_db) : Prop := {
  cl_items : items_kept (y_items (q_obs d)) (y_items (q_obs d'));
  cl_run : rtc observation_step (q_obs d) (q_obs d');
  cl_revisions : q_revisions d' = q_revisions d;
  cl_epochs : q_epochs d' = q_epochs d
}.
Lemma quiet_calm {H : Host} d d' : quiet d d' -> calm d d'.
Proof.
  intros [[I R] V E _]. split; try done. intros k. rewrite I. destruct (y_items (q_obs d) !! k); constructor. split_and!; done || lia.
Qed.

Section calm.
Context {H : Host} d d' (K : calm d d').

Lemma calm_back k i' : y_items (q_obs d') !! k = Some i' -> exists i, y_items (q_obs d) !! k = Some i /\ item_kept i i'.
Proof. intros Hk. pose proof (cl_items _ _ K k) as F. rewrite Hk in F. inversion F; eauto. Qed.
Lemma calm_on k i : y_items (q_obs d) !! k = Some i -> exists i', y_items (q_obs d') !! k = Some i' /\ item_kept i i'.
Proof. intros Hk. pose proof (cl_items _ _ K k) as F. rewrite Hk in F. inversion F; eauto. Qed.

Lemma calm_ages : ages d d'.
Proof.
  split; [|by rewrite (cl_revisions _ _ K)|apply K]. intros k. pose proof (cl_items _ _ K k) as F. inversion F as [? ? (? & ? & ?)|]; done.
Qed.
Lemma calm_history : history d -> history d'.
Proof.
  intros Y. unfold revision_at. split; unfold revision_at; rewrite ?(cl_revisions _ _ K), ?(cl_epochs _ _ K); try apply Y.
  - intros k1 k2 i1 i2 (j1 & H1 & U1 & _)%calm_back (j2 & H2 & U2 & _)%calm_back Ht Hu. apply (hi_items _ Y k1 k2 j1 j2); congruence.
  - intros key i k (j & Hj & U & L & _)%calm_back Hl. rewrite U. apply (hi_latest _ Y _ _ _ Hj). congruence.
  - intros team k r (key & i & (j & Hj & U & _)%calm_on & Ht & Hu)%(hi_owner _ Y). exists key, j. split_and!; congruence.
  - intros team item e x (Eb & key & i & (j & Hj & U & _ & Hr)%calm_on & Ht & Hu & He)%(hi_epochs _ Y). split; [done|]. exists key, j. split_and!; congruence || lia.
Qed.
End calm.

Section runs.
Context {H : Host} {F : FloatText}.

(** The acceptances, and the transactions of the other parts of the program: admissions and
    marks, the lifecycle and the publication of items write no revision. *)
Inductive acceptance_step (d d' : acceptance_db) : Prop :=
  | snapshot_step uuid7 now c s fresh raw clean output proof x : accept_commit uuid7 now c s fresh raw clean output proof d = Ok (x, d') -> acceptance_step d d'
  | replay_step c s snapshot x : replay_commit c s snapshot d = Ok (x, d') -> acceptance_step d d'
  | rebuild_step uuid7 c t set proof x : accept_rebuild uuid7 c t set proof d = Ok (x, d') -> acceptance_step d d'
  | update_step depth uuid7 now c t replacements base m set revision clean proof x :
      accept_metadata depth uuid7 now c t replacements base m set revision clean proof d = Ok (x, d') -> acceptance_step d d'
  | calm_step : calm d d' -> acceptance_step d d'.

Lemma calm_sound d d' : history d -> calm d d' -> history d' /\ ages d d'.
Proof. intros Y K. split; [by apply (calm_history d)|by apply calm_ages]. Qed.
Lemma commits_sound d d' key i x k : history d -> commits d d' key i x k -> history d' /\ ages d d'.
Proof. intros Y M. split; [by eapply commits_history|by eapply commits_ages]. Qed.
Lemma step_history d d' : history d -> acceptance_step d d' -> history d' /\ ages d d'.
Proof.
  intros Y [uuid7 now c s fr raw clean output proof x (i & A)%accept_commit_Ok|c s n x Hd|uuid7 c t set proof x Hd|depth uuid7 now c t rs base m set r k proof x Hd|K].
  - eapply commits_sound; [done|apply A].
  - apply bind_Ok in Hd as (o & d1 & [= <- <-] & [_ ->]%require_Ok). by split.
  - apply calm_sound; [done|]. apply quiet_calm. by apply quiet_rebuild in Hd.
  - apply accept_metadata_Ok in Hd; [|done]. destruct (m.2); [by apply calm_sound, quiet_calm|]. destruct Hd as (key & i & U). eapply commits_sound; [done|apply U].
  - by apply calm_sound.
Qed.
Lemma run_history d d' : history d -> rtc acceptance_step d d' -> history d' /\ ages d d'.
Proof.
  intros Y R. induction R as [d|d1 d2 d3 S R IH]; [by split|]. destruct (step_history _ _ Y S) as [Y2 A]. destruct (IH Y2) as [Y3 A2]. split; [done|by etrans].
Qed.

(** C16: whatever the order of acceptances, metadata updates, rebuilds, full retries and
    transactions of other parts, the history of every item is well formed: its revisions are
    numbered from 1 without a gap, have pairwise different fingerprints and come after their
    predecessors, its latest revision is one of them, and no recorded epoch is beyond its own.
    Items keep their identifier, their epochs never decrease, revisions never change, and the
    observations stay consistent. *)
Theorem history_is_kept d d' : history d -> consistent (q_obs d) -> rtc acceptance_step d d' ->
  history d' /\ consistent (q_obs d') /\ ages d d' /\ moves (q_obs d) (q_obs d').
Proof.
  intros Y C R. destruct (run_history _ _ Y R) as [Y' A]. destruct (run_sound _ _ C (ag_run _ _ A)) as [C' M]. done.
Qed.

(** A transaction that gives an item a new latest revision under the epoch [e]. *)
Inductive change_at (team item : ustr) (e : Z) (d d' : acceptance_db) : Prop :=
  | accepted_change uuid7 now c s fresh raw clean output proof x :
      accept_commit uuid7 now c s fresh raw clean output proof d = Ok (x, d') -> pc_team c = team -> as_item s = item -> as_epoch s = Some e ->
      (forall i, y_items (q_obs d) !! item_key c s = Some i -> ki_latest i <> Some (as_revision s)) -> change_at team item e d d'
  | updated_change depth uuid7 now c t replacements base m set revision clean proof x :
      accept_metadata depth uuid7 now c t replacements base m set revision clean proof d = Ok (x, d') -> m.2 = false ->
      pc_team c = team -> ft_item t = item -> ft_epoch t = e -> change_at team item e d d'.

Lemma change_commits team item e d d' : history d -> change_at team item e d d' -> exists key i k, commits d d' key i changed k /\ key.1.1 = team /\ ki_uuid i = item /\ ki_revision i = e.
Proof.
  intros Y [uuid7 now c s fr raw clean output proof x Hd Ht Hi He Hn|depth uuid7 now c t rs base m set r k proof x Hd Hm Ht Hi He].
  - apply accept_commit_Ok in Hd as (i & [A U E _ _ _]). rewrite He in E. cbn in E. assert (disposition_of i (as_revision s) = changed) as Ex.
    { unfold disposition_of. rewrite bool_decide_false; [done|]. destruct (cm_items _ _ _ _ _ _ A) as (items & [Hk [->|(_ & _ & [Hl _] & _)]] & _); [by apply Hn|congruence]. }
    rewrite Ex in A. exists (item_key c s), i, (as_revision s). split_and!; done || congruence.
  - apply accept_metadata_Ok in Hd; [|done]. rewrite Hm in Hd. destruct Hd as (key & i & [A T U E _ _ _ _]). exists key, i, r. split_and!; done || congruence.
Qed.
(** After a change under the epoch [e] the item has a later one, for ever. *)
Lemma change_passes team item e d0 d1 d2 : history d0 -> change_at team item e d0 d1 -> rtc acceptance_step d1 d2 ->
  history d2 /\ (exists k i, y_items (q_obs d2) !! k = Some i /\ k.1.1 = team /\ ki_uuid i = item)
  /\ forall k i, y_items (q_obs d2) !! k = Some i -> k.1.1 = team -> ki_uuid i = item -> e < ki_revision i.
Proof.
  intros Y C R. destruct (change_commits _ _ _ _ _ Y C) as (key & i & k & M & Ht & Hu & He). destruct (commits_sound _ _ _ _ _ _ Y M) as [Y1 _].
  destruct (run_history _ _ Y1 R) as [Y2 A]. split; [done|].
  destruct (cm_items _ _ _ _ _ _ M) as (items & _ & Hy). assert (y_items (q_obs d1) !! key = Some (adopted i k)) as H1 by (rewrite Hy; apply lookup_insert_eq).
  destruct (evolves_lookup _ _ _ _ _ _ (ag_items _ _ A) H1) as (j2 & H2 & [U2 R2]). cbn in U2, R2.
  split; [exists key, j2; split_and!; congruence|]. intros k2 j Hj Ht2 Hu2.
  assert (k2 = key) as -> by (apply (hi_items _ Y2 _ _ j j2 Hj H2); congruence). assert (j2 = j) as -> by congruence. lia.
Qed.

(** C17: an epoch admits one change.  Once a revision was accepted or updated under the epoch
    [e] of an item, and after any later steps, no other acceptance that expects [e] succeeds,
    and every metadata update and every rebuild whose target was frozen at [e] is refused as
    stale. *)
Theorem epoch_admits_one_change team item e d0 d1 d2 : history d0 -> change_at team item e d0 d1 -> rtc acceptance_step d1 d2 ->
  (forall uuid7 now c s fresh raw clean output proof x d3, pc_team c = team -> as_item s = item -> as_epoch s = Some e ->
     accept_commit uuid7 now c s fresh raw clean output proof d2 <> Ok (x, d3))
  /\ (forall c t, pc_team c = team -> ft_item t = item -> ft_epoch t = e ->
     (forall depth uuid7 now replacements base m set revision clean proof,
        accept_metadata depth uuid7 now c t replacements base m set revision clean proof d2 = Err (MkbError "METADATA_TARGET_STALE" 409))
     /\ (forall uuid7 set proof, accept_rebuild uuid7 c t set proof d2 = Err (MkbError "REBUILD_TARGET_STALE" 409))).
Proof.
  intros Y C R. destruct (change_passes _ _ _ _ _ _ Y C R) as (Y2 & (k2 & j & Hj & Hjt & Hju) & Hlt). split.
  - intros uuid7 now c s fr raw clean output proof x d3 Ht Hi He (i & [M U E _ _ _])%accept_commit_Ok. rewrite He in E. cbn in E.
    destruct (cm_items _ _ _ _ _ _ M) as (items & [Hk Hc] & Hy). destruct Hc as [->|(-> & _ & _ & Hn)].
    + specialize (Hlt _ _ Hk). cbn in Hlt. rewrite Ht, U, Hi in Hlt. specialize (Hlt eq_refl eq_refl). lia.
    + apply (Hn _ _ Hj); [by cbn; congruence|congruence].
  - intros c t Ht Hi He. assert (forall er, frozen_item (pc_team c) t er d2 = Err er) as Hf.
    { intros er. apply frozen_item_stale. intros k i Hk Hkt Hku. specialize (Hlt k i Hk ltac:(congruence) ltac:(congruence)). lia. }
    split; intros; unfold accept_metadata, accept_rebuild, bind; by rewrite Hf.
Qed.

(** C28: the semantics of an earlier revision cannot be restored.  When the merge of a metadata
    update has the fingerprint of a revision of the item other than the one that it replaces,
    the update never succeeds, however often it is tried and whatever happens in between. *)
Theorem earlier_semantics_are_refused depth team t replacements base mode frozen d0 d entries fingerprint same headers k r rt :
  history d0 ->
  metadata_probe depth team t replacements base mode frozen d0 = Ok (entries, fingerprint, same, headers) ->
  revision_at d0 team (ft_item t) (ft_revision t) rt -> re_fingerprint rt = ft_fingerprint t ->
  revision_at d0 team (ft_item t) k r -> re_fingerprint r = fingerprint -> k <> ft_revision t ->
  rtc acceptance_step d0 d ->
  same = false /\ forall uuid7 now c set revision clean proof x d', pc_team c = team ->
    accept_metadata depth uuid7 now c t replacements base (entries, fingerprint, same) set revision clean proof d <> Ok (x, d').
Proof.
  intros Y Hp Ht Hft Hr Hf Hne R. unfold metadata_probe in Hp. apply rbind_Ok in Hp as ([] & _ & Hp). apply rbind_Ok in Hp as (m & Hm & Hp).
  destruct (ueqb m.2 (ft_fingerprint t)) eqn:E.
  { injection Hp as <- <- <- <-. apply ueqb_eq in E. destruct Hne. eapply (hi_print _ Y); [exact Hr|exact Ht|congruence]. }
  apply rbind_Ok in Hp as ([] & _ & Hp). apply rbind_Ok in Hp as ([] & _ & Hp). apply rbind_Ok in Hp as (h & _ & [= <- <- <- <-]). split; [done|].
  destruct (run_history _ _ Y R) as [Yd A]. intros uuid7 now c set revision clean proof x d' Hc Ha%accept_metadata_Ok; [|done]. cbn in Ha. destruct Ha as (key & i & [_ _ _ _ _ _ _ Hnew]).
  destruct Hr as [Hr Hi]. apply (Hnew k r); [|done]. rewrite Hc. split; [|done]. eapply lookup_weaken; [exact Hr|apply A].
Qed.

(** C18: what an acceptance records.  After it the latest revision of the item is the accepted
    one, which has the fingerprint of the ten semantic values of the state; the item has the
    epoch that was expected, or the next one when its latest revision changed; the fact of the
    observation says both epochs; the candidate set is accepted, and the execution has the
    snapshot. *)
Theorem acceptance_is_recorded uuid7 now c s fresh raw clean output proof d x d' :
  accept_commit uuid7 now c s fresh raw clean output proof d = Ok (x, d') ->
  exists before after r es snapshot,
    (y_items (q_obs d) !! item_key c s = Some before \/ y_items (q_obs d) !! item_key c s = None /\ ki_revision before = 0 /\ ki_latest before = None)
    /\ (forall e, as_epoch s = Some e -> ki_revision before = e)
    /\ y_items (q_obs d') !! item_key c s = Some after
    /\ (ki_uuid after, ki_state after, ki_latest after, ki_serving after) = (as_item s, ki_state before, Some (as_revision s), ki_serving before)
    /\ ki_revision after = ki_revision before + (if decide (ki_latest before = Some (as_revision s)) then 0 else 1)
    /\ revision_at d' (pc_team c) (as_item s) (as_revision s) r
    /\ initial_semantics (q_definitions d) (as_semantics s) = Ok es /\ semantic_fingerprint es = Ok (re_fingerprint r)
    /\ (forall o, as_observation s = Some o -> exists f, q_facts d' !! o = Some f
          /\ (af_snapshot f, af_item f, af_revision f) = (snapshot, as_item s, as_revision s) /\ (af_expected f, af_resulting f) = (ki_revision before, ki_revision after))
    /\ (exists k, q_candidates d' !! as_candidates s = Some k /\ cd_state k = CS_accepted /\ cd_snapshot k = Some snapshot)
    /\ (exists k, y_executions (q_obs d') !! pc_execution c = Some k /\ co_snapshot k = Some snapshot).
Proof.
  intros (i & [M U E _ (es & r & Hes & Hfp & Hr) (n & [Wf Wc We])])%accept_commit_Ok. destruct (cm_items _ _ _ _ _ _ M) as (items & [Hi Hc] & Hy).
  exists i, (match disposition_of i (as_revision s) with changed => adopted i (as_revision s) | no_change => i end), r, es, n.
  assert (epoch_after i (disposition_of i (as_revision s)) = ki_revision (match disposition_of i (as_revision s) with changed => adopted i (as_revision s) | no_change => i end)) as Ee
    by (by destruct (disposition_of i (as_revision s))).
  split_and!; try done.
  - destruct Hc as [-> | (_ & Hn & [Hl H0] & _)]; [by left|by right].
  - intros e He. rewrite He in E. exact E.
  - rewrite Hy. destruct (disposition_of i (as_revision s)); [apply lookup_insert_eq|done].
  - unfold disposition_of. case_bool_decide; cbn; congruence.
  - unfold disposition_of. case_bool_decide; [rewrite decide_True by done|rewrite decide_False by done]; cbn; lia.
  - intros o Ho. destruct (Wf o Ho) as [g Hg]. eexists. split; [exact Hg|]. split; [done|]. cbn. by rewrite Ee.
Qed.
End runs.
