(* ===== verification/AcceptanceSamples.v ===== *)
(** * A run of acceptances

    The retry of ObservationSamples.v is accepted as the first revision of its item, a metadata
    update appends a second one, and a third update that would restore the metadata of the
    first is refused: the concrete inputs at which the laws of semantics and of acceptance are
    applied. *)

From S2P Require Import Prelude PyText PyValue PyFloat Txn Strategies Dispatch Engine PublicData VectorContracts ObjectStore Objects Semantics SemanticsLaws Observations ObservationLaws ObservationSamples Acceptance AcceptanceLaws.

Open Scope Z_scope.
Open Scope mkb_scope.

Module AcceptanceSamples.
#[export] Existing Instance test_host.
#[export] Instance no_floats : FloatText := {| float_of_text _ := None |}.
Import ObservationSamples.

Definition ok {A} (a : A) (r : result A) : A := match r with Ok a => a | Err _ => a end.
(** The source descriptor, and what acquisition derives from it. *)
Definition described : pydict :=
  fields [("realm", PStr (u " docs ")); ("type", PStr (u "guide")); ("channel", PStr (u "web")); ("source_name", PStr (u "Handbook")); ("title", PStr (u " Guide "));
          ("context_tags", PList [PStr (u "a"); PStr (u "b")])]%string.
Definition authority : FilterMeta * ContextMeta * list SemanticTuple := Eval vm_compute in
  ok (Build_FilterMeta [] [] [] [] 0, Build_ContextMeta [] [] [] [] [] [], []) (generic_semantic_authority described).
Definition filter : FilterMeta := Eval vm_compute in authority.1.1.
Definition context : ContextMeta := Eval vm_compute in authority.1.2.
Definition tuples : list SemanticTuple := Eval vm_compute in authority.2.
Definition semantic_state : pydict :=
  fields [("source_kind", PStr (u "inline_payload")); ("clean_digest", PStr hex); ("filter_meta", dump_filter filter); ("context_meta", dump_context context);
          ("semantic_tuples", PList (map dump_tuple tuples))]%string.
Definition registered : gmap (ustr * ustr) semantic_definition :=
  list_to_map (map (fun k : string => ((u k, u "v1"), Build_semantic_definition hex (if bool_decide (k = "is_active"%string) then u "int" else u "text") true))
    (["source_representation"; "canonical_content"; "context_metadata"; "filter_metadata"]%string ++ TUPLE_KEYS)).
Definition entries : list entry := Eval vm_compute in ok [] (initial_semantics registered semantic_state).
Definition print : ustr := Eval vm_compute in ok [] (semantic_fingerprint entries).

Lemma authority_derived : generic_semantic_authority described = Ok (filter, context, tuples).
Proof. vm_compute. reflexivity. Qed.
Lemma entries_accepted : initial_semantics registered semantic_state = Ok entries.
Proof. vm_compute. reflexivity. Qed.
Lemma print_of_entries : semantic_fingerprint entries = Ok print.
Proof. vm_compute. reflexivity. Qed.
Lemma acquired_authority_is_accepted_witness : canonical_values semantic_state = Ok (filter, context, tuples).
Proof. refine (acquired_authority_is_accepted described semantic_state filter context tuples authority_derived _). split; reflexivity. Defined.
Lemma unchanged_metadata_is_no_change_witness : exists e, entries !! 6%nat = Some e /\ en_key e = u "channel"
  /\ merged_metadata_semantics 10 registered (fun _ => false) [dump_entry e] (map dump_entry entries) = Ok (keyed entries, print).
Proof.
  eexists. split; [vm_compute; reflexivity|]. split; [reflexivity|].
  refine (unchanged_metadata_is_no_change 10 registered (fun _ => false) semantic_state filter context tuples entries print [_] _ entries_accepted print_of_entries _ _ _ _ _ _ _).
  - vm_compute. reflexivity.
  - reflexivity.
  - reflexivity.
  - split; [|discriminate]. repeat constructor; vm_compute; intuition discriminate.
  - vm_compute. reflexivity.
  - lia.
  - intros e ->%list_elem_of_singleton. apply (list_elem_of_lookup_2 _ 6%nat). vm_compute. reflexivity.
  - repeat constructor. apply not_elem_of_nil.
Defined.

(** ** The first revision *)

Definition command (task execution process : string) : ProcessCommand :=
  Build_ProcessCommand team (u task) (u "trace") (u execution) (u process) "accept" "process.accept" None 1 hex (u "manifest") hex (u "config") hex (Some hex) sealed hex None normal.
Definition stat (name : string) (size : Z) : object_stat := Build_object_stat (u name) (test_digest (u name)) size (Some (u "text/plain")).
Definition proof : ustr * ustr := (u "proof", hex).
Definition open_set : candidates := Build_candidates team CS_sealed 0 None 0.
Definition before_all : acceptance_db := {|
  q_obs := acquired;
  q_catalog := Build_catalog {[ u "output-object" := Build_catalog_row team (test_digest (u "output")) 3 None (u "local_fs") 0 None ]} ∅ ∅ {[ team := u "active" ]} [] [] ∅ 0;
  q_actions := {[ u "accept_revision"; u "update_metadata"; u "no_change" ]};
  q_definitions := registered;
  q_revisions := ∅; q_values := ∅; q_materials := ∅; q_members := ∅;
  q_candidates := {[ u "set-1" := open_set; u "set-2" := open_set; u "set-3" := open_set ]};
  q_changes := ∅; q_change_facts := ∅; q_facts := ∅; q_epochs := ∅; q_steps := ∅
|}.
Definition accepting (revision : string) (epoch : option Z) : accept_state :=
  Build_accept_state (uuids 0) (u "set-1") (u "snapshot") (u "item") (u revision) (u "raw") (u "clean") hex (u "guide") (Some observation) (u "monday") hex epoch false (u "auto_admitted") 4000 None
    semantic_state.
Definition left {A} (r : result (A * acceptance_db)) : acceptance_db := match r with Ok (_, d) => d | Err _ => before_all end.
Definition first_commit d := accept_commit uuids 5000 (command "task-2" "execution-2" "process-1") (accepting "revision-1" (Some 0)) (u "revision-1") (stat "raw" 5) (stat "clean" 4) (stat "output" 3) proof d.
Definition with_first := Eval vm_compute in left (first_commit before_all).
Example first_accepted : first_commit before_all = Ok (tt, with_first).
Proof. vm_cast_no_check (eq_refl (Ok (A := unit * acceptance_db) (tt, with_first))). Qed.

(** ** A metadata update, and one that would undo it *)

Definition channel (name : string) : entry := ok (Build_entry [] [] [] [] true PNone [] []) (registered_entry registered (u "channel") "text" (PStr (u name)) (u "caller")).
Definition mail : list pyval := Eval vm_compute in [dump_entry (channel "mail")].
Definition web : list pyval := Eval vm_compute in [dump_entry (channel "web")].
Definition base : list pyval := Eval vm_compute in map dump_entry entries.
Definition first_target : frozen_target := Build_frozen_target (u "item") (u "revision-1") (u "snapshot") 1 print (u "clean").
Definition probe t rs bs d := metadata_probe 10 team t rs bs (Some (u "reuse_summaries")) true d.
Definition no_merge : list (ustr * entry) * ustr * bool * list (ustr * ustr) := ([], [], true, []).
Definition mailed := Eval vm_compute in ok no_merge (probe first_target mail base with_first).
Definition mail_print : ustr := Eval vm_compute in mailed.1.1.2.
Definition mail_command : ProcessCommand := command "task-4" "execution-4" "process-4".
Definition second_commit d := accept_metadata 10 uuids 6000 mail_command first_target mail base mailed.1 (u "set-2") (u "revision-2") (u "clean-2") proof d.
Definition with_second := Eval vm_compute in left (second_commit with_first).
Example mail_is_new : mailed.1.2 = false /\ map fst mailed.2 = [u "s04.metadata_fingerprint"; u "s04.context_metadata_digest"; u "s04.filter_metadata_digest"].
Proof. vm_compute. split; reflexivity. Qed.
Example second_accepted : second_commit with_first = Ok (tt, with_second).
Proof. vm_cast_no_check (eq_refl (Ok (A := unit * acceptance_db) (tt, with_second))). Qed.

Definition second_target : frozen_target := Build_frozen_target (u "item") (u "revision-2") (u "snapshot") 2 mail_print (u "clean-2").
Definition mail_base : list pyval := Eval vm_compute in map (fun kv => dump_entry kv.2) mailed.1.1.1.
Definition back := Eval vm_compute in ok no_merge (probe second_target web mail_base with_second).
Example back_is_the_first : probe second_target web mail_base with_second = Ok (back.1.1.1, print, false, back.2).
Proof. vm_cast_no_check (eq_refl (Ok (A := list (ustr * entry) * ustr * bool * list (ustr * ustr)) (back.1.1.1, print, false, back.2))). Qed.
Example back_is_refused : accept_metadata 10 uuids 7000 mail_command second_target web mail_base (back.1.1.1, print, false) (u "set-3") (u "revision-3") (u "clean-3") proof with_second = Err IntegrityError.
Proof. vm_cast_no_check (eq_refl (Err (A := unit * acceptance_db) IntegrityError)). Qed.

(** ** The laws at this run *)

Lemma before_all_history : history before_all.
Proof. split; unfold revision_at; cbn; intros; try discriminate; naive_solver. Qed.
Lemma acquired_consistent : consistent acquired.
Proof.
  refine (proj1 (run_sound reserved acquired reserved_consistent _)).
  eapply rtc_l; [exact (failed_step _ _ _ _ _ _ _ _ attempt_fails)|].
  eapply rtc_l; [exact (admit_step _ _ _ _ _ _ _ _ retry_reserves)|].
  eapply rtc_l; [apply (acquired_step _ acquired uuids 4000 team (u "execution-2") (Some (u "artifact"), Some hex) tt); vm_cast_no_check (eq_refl (Ok (A := unit * observatory) (tt, acquired)))|].
  apply rtc_refl.
Qed.
Lemma first_run : acceptance_step before_all with_first.
Proof. exact (snapshot_step _ _ _ _ _ _ _ _ _ _ _ _ first_accepted). Qed.
Lemma second_run : acceptance_step with_first with_second.
Proof. exact (update_step _ _ _ _ _ _ _ _ _ _ _ _ _ _ _ second_accepted). Qed.
Lemma with_first_history : history with_first.
Proof. exact (proj1 (step_history _ _ before_all_history first_run)). Qed.
Lemma with_second_history : history with_second.
Proof. exact (proj1 (step_history _ _ with_first_history second_run)). Qed.

Lemma history_is_kept_witness : history with_second /\ consistent (q_obs with_second) /\ ages before_all with_second /\ moves (q_obs before_all) (q_obs with_second).
Proof. exact (history_is_kept before_all with_second before_all_history acquired_consistent (rtc_l _ _ _ _ first_run (rtc_once _ _ second_run))). Defined.
Lemma epoch_admits_one_change_witness :
  accept_rebuild uuids mail_command first_target (u "set-3") proof with_second = Err (MkbError "REBUILD_TARGET_STALE" 409).
Proof.
  refine (proj2 (proj2 (epoch_admits_one_change team (u "item") 1 with_first with_second with_second with_first_history _ (rtc_refl _ _)) mail_command first_target eq_refl eq_refl eq_refl) uuids (u "set-3") proof).
  exact (updated_change _ _ _ _ _ 10 uuids 6000 mail_command first_target mail base mailed.1 (u "set-2") (u "revision-2") (u "clean-2") proof tt second_accepted eq_refl eq_refl eq_refl eq_refl).
Defined.
Lemma acceptance_is_recorded_witness : exists i, y_items (q_obs with_first) !! item_key (command "task-2" "execution-2" "process-1") (accepting "revision-1" (Some 0)) = Some i /\ ki_latest i = Some (u "revision-1").
Proof.
  destruct (acceptance_is_recorded uuids 5000 _ _ _ _ _ _ _ _ _ _ first_accepted) as (b & i & r & es & n & _ & _ & Hi & Heq & _).
  exists i. split; [exact Hi|]. exact (f_equal (fun p => p.1.2) Heq).
Defined.
Lemma earlier_semantics_are_refused_witness :
  accept_metadata 10 uuids 7000 mail_command second_target web mail_base (back.1.1.1, print, false) (u "set-3") (u "revision-3") (u "clean-3") proof with_second <> Ok (tt, with_second).
Proof.
  eassert (q_revisions with_second !! (team, u "revision-2") = Some _) as H2 by (vm_compute; reflexivity).
  eassert (q_revisions with_second !! (team, u "revision-1") = Some _) as H1 by (vm_compute; reflexivity).
  refine (proj2 (earlier_semantics_are_refused 10 team second_target web mail_base (Some (u "reuse_summaries")) true with_second with_second back.1.1.1 print false back.2 (u "revision-1") _ _
    with_second_history back_is_the_first (conj H2 eq_refl) eq_refl (conj H1 eq_refl) eq_refl _ (rtc_refl _ _)) uuids 7000 mail_command (u "set-3") (u "revision-3") (u "clean-3") proof tt with_second eq_refl).
  discriminate.
Defined.
End AcceptanceSamples.
